(* ===== verification/_CoqProject ===== *)
-Q . S2P
Prelude.v
Voltage.v
Fip.v
FipSpec.v
FipLoad.v
Machine.v
Console.v
Clock.v
ClockDiag.v
ClockProps.v
ClockBus.v
ClockDiagProps.v
Gpio.v
GpioProps.v
Pmic.v
PmicProps.v
Mmc.v
MmcProps.v
HwConfig.v
Fdt.v
FdtProps.v
FdtTree.v
Libfdt.v
FdtSw.v
FdtRw.v
FdtSwProps.v
Boot0.v
Boot0Props.v
Firmware.v
Notifier.v
NotifierProps.v
Intc.v
IntcProps.v
Cpucfg.v
CpucfgProps.v
Prcm.v
PrcmProps.v
CMem.v
StringLib.v
StringLibProps.v
Convert.v
ConvertProps.v
Uart.v
UartProps.v
Ticks.v
Timer.v
TimerProps.v
Msgbox.v
MsgboxProps.v
Wakeup.v
WakeupProps.v
Crc.v
CrcProps.v
Power.v
PowerProps.v
Twi.v
TwiProps.v
Pmu.v
PmuProps.v
Rails.v
RailsProps.v
CpuOps.v
Watchdog.v
StandbyClk.v
StandbyClkProps.v
StandbySys.v
StandbySysProps.v
Dram.v
DramProps.v
Standby.v
Debugger.v
Shell.v
ShellProps.v
DebuggerProps.v
Message.v
Daemon.v
DaemonProps.v
Image.v
StandbyProps.v
MessageProps.v
