(* ===== verification/Prelude.v ===== *)
(** * A verification library for boot0 of the A733 (A7S board) and its AR100
    power-management firmware

    ** The program

    Two images are built from this repository.

    - _boot0_ (src/src, entry src/arch/armv7): the first program the boot ROM
      starts.  It brings up the console, the PMIC and the clocks, trains the
      DRAM (a closed library), reads a FIP package from the card into a staging
      buffer, checks it, copies its images to their windows, writes the trained
      DRAM parameters into the device tree of the AR100 and hands over to the
      monitor through a relocated stub.  On any failure it clears up and jumps
      to FEL mode.
    - _the AR100 firmware_ (src/ar100s): runs on the always-on RISC-V core.  It
      starts up from a device tree, waits for requests of the application
      cores in a message box, and serves them: rails of the power chips, power
      of cores, and the standby of the whole system, in which it saves and
      closes clocks and rails, sleeps until a wakeup source fires, and brings
      everything back.

    The two meet in one place: boot0 stores the DRAM parameters with [libfdt],
    the firmware reads them back with the same library.

    ** How the files correspond to the code

    Shared:
    - [Prelude]: 8-, 32- and 64-bit arithmetic on [Z], bits, byte buffers.
    - [Machine]: hardware programs as a monad.  A program runs against an
      environment that answers every register read and every external call
      from the history of the run; it returns a value, or stops ([Halted],
      [OutOfFuel], [Undefined]).  Weakest preconditions, write frames and
      registers that behave like memory.
    - [Console]: [printf] as an external call, behind the class [HasPrintf].

    boot0:
    - [Voltage]: axp8191_voltage.c.
    - [Fip]: sunxi_fip.c, pure, over a byte list; an access outside the buffer
      makes the result [None].  [FipSpec]: what a well-formed package is, and
      the parser's loops against it.  [FipLoad]: safety, refinement, copies
      and the redundant load.
    - [Clock]: clock_a733.c.  [ClockProps] (PLLs), [ClockBus] (buses and
      initialisation).  [ClockDiag], [ClockDiagProps]: clock_diag_a733.c.
    - [Gpio], [GpioProps]: early_uart.c, the pins of platform_shims.c.
    - [Pmic], [PmicProps]: the power functions of platform_shims.c.  Bus
      transfers belong to a closed library: the class [HasPmicBus] names them,
      [HasReady] is the static they share with the rest of the state.
    - [Mmc], [MmcProps]: mmc_a733.c and [mmc_register].
    - [HwConfig]: hw_config_a733.c, against the interface [FdtOps] and its laws
      [FdtLaws].
    - [Boot0], [Boot0Props]: boot0_main.c, the composition of all of them.

    The device tree library (ar100s/library/libfdt; both images link the
    reading part):
    - [Fdt]: every function of fdt.c, fdt_ro.c, fdt_wip.c, fdt_addresses.c and
      fdt_strerror.c over the bytes of a blob; a byte outside it, a null
      pointer or a loop without end makes the result [None].
    - [FdtProps]: the blob's structure block as a sequence of tokens, and the
      functions on tokens.  [FdtTree]: trees, their serialisation, reading and
      changing in place.
    - [Libfdt]: the library as an instance of [FdtOps] and [FdtLaws], so that
      every theorem of [HwConfig] and [DramProps] holds of it.
    - [FdtSw]: every function of fdt_sw.c, the sequential writer, and the setters
      of libfdt.h.  [FdtSwProps]: the blob in the making as lists, each call of
      the writer on them, and what a reader finds in the finished blob.
    - [FdtRw]: every function of fdt_rw.c, the editor, and fdt_empty_tree.c.

    AR100 firmware, the processor and its library:
    - [Firmware]: status codes, critical sections and CSR accesses of
      arch/riscv/cpu/e907, the class [Part] through which a component sees its
      statics in the whole state, byte views of registers.
    - [CMem]: bytes at addresses, for code that works through pointers.
      [StringLib], [StringLibProps]: library/string.c.  [Convert],
      [ConvertProps]: the numbers of library/library.c and [sprintf].
    - [Ticks]: time_ticks.c.  [Debugger], [DebuggerProps]: the formatted output
      of system/debugger/debugger.c.  [Shell], [ShellProps]: the command line of
      system/debugger/shell_cmd.c.

    AR100 firmware, drivers:
    - [Intc], [IntcProps]: driver/intc/clic.c and intc_manager.c.
    - [Cpucfg], [CpucfgProps]: driver/cpucfg/cpucfg-sun60iw2p1/cpucfg.c.
      [CpuOps]: sunxi_cpu_ops.c, cores on and off.
    - [Prcm], [PrcmProps]: driver/prcm/prcm-sun60iw2p1 (ccu.c, mclk.c, reset.c,
      sclk.c, the gating of power.c).  [Power], [PowerProps]: the oscillator
      sequences of power.c.
    - [Timer], [TimerProps]: driver/timer.  [Uart]: pin.c and uart.c;
      [UartProps]: the bytes it puts on the line, its baud rate.  [Watchdog]:
      driver/watchdog.
    - [Msgbox], [MsgboxProps]: driver/hwmsgbox.
    - [Twi], [TwiProps]: driver/twi.  [Pmu], [PmuProps]: driver/pmu, the tables
      of two power chips over the two-wire bus.
    - [Dram], [DramProps]: dram_dts_para_v2.c and para.c.

    AR100 firmware, services:
    - [Notifier], [NotifierProps]: system/notifier/notifier.c, one call and any
      sequence of calls on all of its lists.
    - [Wakeup], [WakeupProps]: service/standby/wakeup_source.c, standby.c.
    - [Crc], [CrcProps]: service/standby/standby_dram_crc.c.
    - plat_standby.c in four files, by what is suspended: [Rails],
      [RailsProps] (rails); [StandbyClk], [StandbyClkProps] (clocks);
      [StandbySys], [StandbySysProps] (time, memory protection, isolation,
      devices); [Standby] (the sequence, [standby_entry]), [StandbyProps] (its
      parameters, the stages it records on its way, the report of the restored
      core).
    - [Message], [MessageProps]: system/message_manager.
    - [Daemon], [DaemonProps]: system/daemon/daemon.c and cpu_c.c.
    - [Image]: the statics of all of them in one record, where the components'
      theorems meet.

    Definitions keep the names of the C functions; a loop of a function is a
    [Fixpoint] beside it, a long function is cut at its labels or blank lines.

    ** State, effects, integers

    An [unsigned int] is a [Z] wrapped by [u32] where the code may wrap; signed
    results keep their sign.  Volatile accesses, delays, prints, privileged
    instructions and calls of closed code are events of the history, in the
    code's order.  Statics are state ([boot_state] for boot0, one record per
    component behind [Part] for the firmware; [Apart] says that two parts do
    not overlap).  Pointers into tables are indices, pointers into memory are
    addresses of [CMem], function pointers are names or addresses whose effect
    is a parameter.

    ** What the theorems show

    - Package handling: no access outside the buffers whatever the bytes; the
      parser refines a declarative specification; images are disjoint and
      inside their windows; a load either distributes a valid package
      completely or reports failure.
    - Boot flow: [main] always reaches FEL mode unless the handoff takes over,
      and a handoff is made only behind every successful stage.
    - Clocks: lock detection, PLL programming and initialisation return and
      leave registers defined on every path; rates computed from the registers
      are exact and nominal after initialisation.
    - Power, pins, eMMC: exact effects on success, harmless failures, nothing
      else touched.
    - Device tree: lookups in a blob are lookups in the tree it holds, a
      property set in place is set in the tree and nothing else changes; what
      boot0 stores is what the firmware reads; no address is dereferenced that
      does not hold a tree; a tree written node by node is the tree read back.
    - Firmware, data structures: the notifier lists together refine a table of
      lists over any sequence of requests, the service table
      refines a registry, protection windows refine a bounded list, timers
      refine an allocator, wakeup sources refine a set, switched-off rails
      refine a stack and none is lost.
    - Firmware, hardware protocols: the counter read is linearizable, delays
      last as long as asked and end, frames cross the message box whole and in
      order, bytes written over the two-wire bus are the bytes read back,
      dividers are exact, the baud rate is the nearest one the divisor can make.
    - Firmware, text: numbers print as numerals and read back; the printer
      renders its format into its buffer without leaving it, and what it
      rendered is what goes out on the UART; a command line is
      split into its words and runs the command it names.
    - Firmware, requests and standby: every request is answered as its kind
      asks; a standby without parameters is rejected; one with them goes through
      its stages in order, each recorded in the RTC before it starts and nothing
      else ever written there; the report of the restored core is answered; clocks and protection after a resume are those before the suspend;
      the oscillator is off only between the call-backs of its clients; the
      checksum of the memory is CRC-32.

    A hypothesis about hardware says that a register holds what was written
    ([plain], or [plain_but] its status bits), that a timer or counter advances,
    or what an operation of an interface does; each theorem that has one is
    followed by a run in which it holds (a lemma named [..._witness]).

    ** Bounds and fuel

    Loops that the code bounds are bounded by its own constants (1000 lock
    samples, 100000 UART, timer and standby polls, 8 crystal samples, 38 table
    entries, 8 notifiers, 32 rails, 50 queries of a restored core).  Recursion
    over a byte string or tree blob gets one step per byte and one more
    ([loop_bound]); the chain of aliases in a path, which a hostile tree can
    close to a ring, gets fuel.  [clean_loop] gets one step per cache line and
    three more.  The eMMC clock update and the counter read poll until hardware
    answers: the first gets fuel for its 100 ms timeout under a running timer,
    the second two rounds, which suffice because a 32-bit carry cannot happen
    twice.  Spins without a bound in the code (PLL locks, power switches, the
    main loop) take a [fuel] argument, and their theorems a hypothesis that the
    hardware answers within it.

    ** Not modelled

    Assembly (entry, vectors, the handoff stub, the idle instruction), the
    closed libraries (DRAM training, MMC core, board support) and generated
    headers; build scripts and tests, which are host programs.  The other C
    functions of both images are definitions, with two kinds of exception:
    libfdt's wrappers that cast away a [const] or store one fixed-width cell
    ([fdt_get_property_w], [fdt_getprop_w], [fdt_offset_ptr_w],
    [fdt_setprop_inplace_u64], [fdt_setprop_inplace_cell]), and set-up code
    the configuration leaves out ([pmu_init_from_dts], [uart_init_from_dts],
    [jtag_init], [printreg]).  Two parts that neither image has in its
    configuration, the shell and the writing half of libfdt, are modelled too.

    ** Left to do

    Splices of [FdtRw] against changes of trees, full paths and string lists of
    libfdt; the state of the hardware over the whole of [standby_entry], for
    which the frames of the components' theorems have to meet in [Image]; power
    of cores and clusters against a model of the cluster's registers. *)

From Stdlib Require Export ZArith Lia.
From stdpp Require Export base numbers option sets list.

Declare Scope c_scope.
Delimit Scope c_scope with C.
Open Scope Z_scope.

(** ** Machine integers: a w-bit value is a [Z] with its wrap written out *)

Definition u8 (z : Z) : Z := z mod 2 ^ 8.
Definition u32 (z : Z) : Z := z mod 2 ^ 32.
Definition u64 (z : Z) : Z := z mod 2 ^ 64.
(** Conversion to a signed 32-bit integer (two's complement). *)
Definition s32 (z : Z) : Z :=
  let u := u32 z in if u <? 2 ^ 31 then u else u - 2 ^ 32.

(** [~x] at type [unsigned int]. *)
Definition cnot32 (x : Z) : Z := u32 (Z.lnot x).
(** [x << n] at type [unsigned int]. *)
Definition shl32 (x n : Z) : Z := u32 (Z.shiftl x n).
(** [1U << n] and the [A7S_BIT(n)] macros. *)
Definition BIT (n : Z) : Z := Z.shiftl 1 n.

Definition is_u8 (z : Z) : Prop := 0 <= z < 2 ^ 8.
Definition is_u32 (z : Z) : Prop := 0 <= z < 2 ^ 32.
Definition is_u64 (z : Z) : Prop := 0 <= z < 2 ^ 64.

Create HintDb cint discriminated.

Lemma u32_range z : is_u32 (u32 z).
Proof. unfold is_u32, u32. apply Z.mod_pos_bound. lia. Qed.

Lemma u8_range z : is_u8 (u8 z).
Proof. unfold is_u8, u8. apply Z.mod_pos_bound. lia. Qed.

Lemma u32_id z : is_u32 z -> u32 z = z.
Proof. unfold is_u32, u32. intros. by apply Z.mod_small. Qed.

Lemma u64_id z : is_u64 z -> u64 z = z.
Proof. unfold is_u64, u64. intros. by apply Z.mod_small. Qed.

Lemma u8_id z : is_u8 z -> u8 z = z.
Proof. unfold is_u8, u8. intros. by apply Z.mod_small. Qed.

Lemma u32_small z : 0 <= z < 2 ^ 32 -> u32 z = z.
Proof. apply u32_id. Qed.

Lemma s32_small z : - 2 ^ 31 <= z < 2 ^ 31 -> s32 z = z.
Proof.
  intros Hz. unfold s32, u32. destruct (Z.ltb_spec (z mod 2 ^ 32) (2 ^ 31)); Z.div_mod_to_equations; lia.
Qed.


(** ** Bits *)

Lemma testbit_u32 z n : 0 <= n -> Z.testbit (u32 z) n = (n <? 32) && Z.testbit z n.
Proof.
  intros Hn. unfold u32. destruct (Z.ltb_spec n 32).
  - rewrite Z.mod_pow2_bits_low by lia. done.
  - rewrite Z.mod_pow2_bits_high by lia. done.
Qed.

Lemma testbit_is_u32 z n : is_u32 z -> 32 <= n -> Z.testbit z n = false.
Proof.
  intros Hz Hn. rewrite <- (u32_id z Hz), testbit_u32 by lia.
  destruct (Z.ltb_spec n 32); [lia | done].
Qed.

Lemma is_u32_bits z :
  0 <= z -> (forall n, 32 <= n -> Z.testbit z n = false) -> is_u32 z.
Proof.
  intros H0 Hb. assert (z = u32 z) as ->; [|apply u32_range].
  apply Z.bits_inj'. intros n Hn. rewrite testbit_u32 by done.
  destruct (Z.ltb_spec n 32); simpl; [done | by apply Hb].
Qed.

Lemma testbit_cnot32 z n :
  0 <= n -> Z.testbit (cnot32 z) n = (n <? 32) && negb (Z.testbit z n).
Proof. intros. unfold cnot32. by rewrite testbit_u32, Z.lnot_spec. Qed.

Lemma testbit_BIT k n : 0 <= k -> 0 <= n -> Z.testbit (BIT k) n = bool_decide (n = k).
Proof.
  intros Hk Hn. unfold BIT. rewrite Z.shiftl_spec by lia.
  case_bool_decide; subst.
  - by rewrite Z.sub_diag.
  - destruct (Z.ltb_spec n k).
    + by rewrite Z.testbit_neg_r by lia.
    + rewrite <- (Z.pow_0_r 2). rewrite Z.pow2_bits_eqb by lia.
      apply Z.eqb_neq. lia.
Qed.

Lemma is_u32_land_l x y : is_u32 x -> 0 <= y -> is_u32 (Z.land x y).
Proof.
  intros Hx Hy. apply is_u32_bits.
  - apply Z.land_nonneg. left. apply Hx.
  - intros n Hn. by rewrite Z.land_spec, (testbit_is_u32 x n).
Qed.

Lemma is_u32_lor x y : is_u32 x -> is_u32 y -> is_u32 (Z.lor x y).
Proof.
  intros Hx Hy. apply is_u32_bits.
  - apply Z.lor_nonneg. split; [apply Hx | apply Hy].
  - intros n Hn. by rewrite Z.lor_spec, (testbit_is_u32 x n), (testbit_is_u32 y n).
Qed.

Lemma cnot32_range x : is_u32 (cnot32 x).
Proof. apply u32_range. Qed.

Lemma shl32_range x n : is_u32 (shl32 x n).
Proof. apply u32_range. Qed.

Lemma is_u32_nonneg x : is_u32 x -> 0 <= x.
Proof. intros []. done. Qed.

#[export] Hint Resolve u32_range u8_range is_u32_land_l is_u32_lor cnot32_range
  shl32_range is_u32_nonneg : cint.

(** Bit-by-bit equality of two expressions built from [Z.land], [Z.lor],
    [cnot32] and [u32]; the remaining boolean goal is decided by cases. *)
Ltac bitwise :=
  apply Z.bits_inj'; intros ?n ?Hn;
  repeat first
    [ rewrite Z.land_spec | rewrite Z.lor_spec | rewrite Z.lxor_spec
    | rewrite testbit_cnot32 by lia | rewrite testbit_u32 by lia
    | rewrite Z.bits_0 ].

(** ** The read-modify-write idiom [(v & ~mask) | (x & mask)] *)

Definition rmw (v mask x : Z) : Z := Z.lor (Z.land v (cnot32 mask)) x.

Lemma rmw_range v mask x : is_u32 v -> is_u32 x -> is_u32 (rmw v mask x).
Proof.
  intros. unfold rmw. apply is_u32_lor; [|done].
  apply is_u32_land_l; [done|]. apply is_u32_nonneg, cnot32_range.
Qed.
#[export] Hint Resolve rmw_range : cint.

(** The written field reads back. *)
Lemma rmw_field v mask x :
  is_u32 mask -> Z.land x mask = x -> Z.land (rmw v mask x) mask = x.
Proof.
  intros Hm Hx. rewrite <- Hx at 2. unfold rmw.
  apply Z.bits_inj'; intros n Hn.
  rewrite !Z.land_spec, Z.lor_spec, Z.land_spec, testbit_cnot32 by lia.
  destruct (Z.testbit mask n); simpl; rewrite ?andb_false_r, ?andb_true_r; done.
Qed.

(** Every other bit is untouched. *)
Lemma rmw_other v mask x m' :
  is_u32 v -> Z.land x m' = 0 -> Z.land mask m' = 0 ->
  Z.land (rmw v mask x) m' = Z.land v m'.
Proof.
  intros Hv Hx Hm. unfold rmw. apply Z.bits_inj'; intros n Hn.
  apply (f_equal (fun z => Z.testbit z n)) in Hx, Hm.
  rewrite Z.land_spec, Z.bits_0 in Hx, Hm.
  rewrite !Z.land_spec, Z.lor_spec, Z.land_spec, testbit_cnot32 by lia.
  destruct (Z.ltb_spec n 32).
  - destruct (Z.testbit mask n), (Z.testbit m' n), (Z.testbit x n), (Z.testbit v n);
      simpl in *; congruence.
  - rewrite (testbit_is_u32 v n Hv) by lia. simpl.
    by rewrite Hx.
Qed.

(** ** Partial steps: [None] stops the computation *)

Notation "'let?' x := e 'in' k" :=
  (match e with Some x => k | None => None end)
  (at level 10, x pattern, e at level 200, k at level 200).

(** ** Bytes and buffers *)

(** A byte load from a C buffer; [None] is an access outside it. *)
Definition ld8 (b : list Z) (o : Z) : option Z :=
  if o <? 0 then None else b !! Z.to_nat o.

(** [memcpy]-style slice of [n] bytes at [o]; [None] is an access outside. *)
Definition slice (b : list Z) (o n : Z) : option (list Z) :=
  if (o <? 0) || (n <? 0) || (Z.of_nat (length b) <? o + n) then None
  else Some (take (Z.to_nat n) (drop (Z.to_nat o) b)).

(** Buffers hold bytes. *)
Definition bytes_ok (b : list Z) : Prop := Forall is_u8 b.

Lemma ld8_Some b o : 0 <= o < Z.of_nat (length b) -> is_Some (ld8 b o).
Proof.
  intros Ho. unfold ld8. destruct (Z.ltb_spec o 0); [lia|].
  apply lookup_lt_is_Some. lia.
Qed.

Lemma ld8_u8 b o v : bytes_ok b -> ld8 b o = Some v -> is_u8 v.
Proof.
  unfold ld8. intros Hb. case_match; [done|]. intros Hl.
  by eapply Forall_lookup_1 in Hl.
Qed.

Lemma ld8_bounds b o v : ld8 b o = Some v -> 0 <= o < Z.of_nat (length b).
Proof.
  unfold ld8. destruct (Z.ltb_spec o 0); [done|].
  intros Hl%lookup_lt_Some. lia.
Qed.

(** ** Boolean reflection for the C comparisons *)

Ltac zbool :=
  repeat match goal with
  | H : context [?a <? ?b] |- _ => destruct (Z.ltb_spec a b)
  | H : context [?a <=? ?b] |- _ => destruct (Z.leb_spec a b)
  | H : context [?a =? ?b] |- _ => destruct (Z.eqb_spec a b)
  | |- context [?a <? ?b] => destruct (Z.ltb_spec a b)
  | |- context [?a <=? ?b] => destruct (Z.leb_spec a b)
  | |- context [?a =? ?b] => destruct (Z.eqb_spec a b)
  end; simpl in *.

(** All integers [lo], [lo + 1], ..., [lo + n - 1]. *)
Definition zrange (lo : Z) (n : nat) : list Z :=
  (fun i => lo + Z.of_nat i) <$> seq 0 n.

Lemma elem_of_zrange lo n x : x ∈ zrange lo n <-> lo <= x < lo + Z.of_nat n.
Proof.
  unfold zrange. rewrite list_elem_of_fmap. split.
  - intros (i & -> & Hi%elem_of_seq). lia.
  - intros Hx. exists (Z.to_nat (x - lo)). split; [lia|]. apply elem_of_seq. lia.
Qed.

(** A decidable property checked on a finite range of integers. *)
Lemma zrange_forallb (P : Z -> bool) lo n :
  forallb P (zrange lo n) = true -> forall x, lo <= x < lo + Z.of_nat n -> P x = true.
Proof.
  intros Hall x Hx. rewrite forallb_forall in Hall. apply Hall.
  apply list_elem_of_In. by apply elem_of_zrange.
Qed.

(** Bits above the size of a number. *)
Lemma testbit_above k z n : 0 <= z < 2 ^ k -> k <= n -> Z.testbit z n = false.
Proof.
  intros Hz Hn. destruct (Z.lt_ge_cases k 0); [rewrite Z.pow_neg_r in Hz; lia|].
  rewrite <- (Z.mod_small z (2 ^ k)) by done. by apply Z.mod_pow2_bits_high.
Qed.

(** Two fields side by side. *)
Lemma lor_shiftl a b n : 0 <= n -> 0 <= a < 2 ^ n -> Z.lor a (Z.shiftl b n) = a + b * 2 ^ n.
Proof.
  intros Hn Ha. rewrite <- Z.shiftl_mul_pow2 by done.
  assert (Z.land a (Z.shiftl b n) = 0) as Hz.
  { apply Z.bits_inj'. intros i Hi. rewrite Z.land_spec, Z.bits_0.
    destruct (Z.lt_ge_cases i n); [by rewrite Z.shiftl_spec_low, andb_false_r by lia|].
    by rewrite (testbit_above n a i). }
  assert (H := Z.add_lor_land a (Z.shiftl b n)). lia.
Qed.

(** A mask bounds what it lets through. *)
Lemma land_le_r x y : 0 <= y -> 0 <= Z.land x y <= y.
Proof.
  intros Hy. split; [apply Z.land_nonneg; by right|].
  assert (y - Z.land x y = Z.ldiff y (Z.land x y)) as H.
  { apply Z.sub_nocarry_ldiff. apply Z.bits_inj'. intros n Hn.
    rewrite Z.ldiff_spec, Z.land_spec, Z.bits_0.
    by destruct (Z.testbit x n), (Z.testbit y n). }
  assert (0 <= Z.ldiff y (Z.land x y)) by (apply Z.ldiff_nonneg; by left). lia.
Qed.

(** Membership in a literal list. *)
Ltac in_list :=
  lazymatch goal with
  | |- _ ∈ _ :: _ => first [apply list_elem_of_here | apply list_elem_of_further; in_list]
  | |- ?x ∈ ?l => let l' := eval hnf in l in
      lazymatch l' with _ :: _ => change (x ∈ l'); in_list end
  end.
