(* ===== verification/Voltage.v ===== *)
(** * AXP8191 voltage selectors (src/src/axp8191_voltage.c)

    The selector tables of the DRAM and I/O rails and
    [a7s_axp8191_voltage_selector], the search that turns a request in
    millivolts into a register selector.  The theorems compare it with a
    reference search over every selector of the rail. *)

From S2P Require Import Prelude.

Record linear_range := LinearRange {
  min_mv : Z;
  min_selector : Z;
  max_selector : Z;
  step_mv : Z
}.

(** [enum a7s_axp8191_voltage_rail]; the enumerators are the integers below,
    because the C function takes any [unsigned int]. *)
Definition A7S_AXP8191_DCDC6 : Z := 0.
Definition A7S_AXP8191_DCDC7 : Z := 1.
Definition A7S_AXP8191_DCDC8 : Z := 2.
Definition A7S_AXP8191_ELDO : Z := 3.
Definition A7S_AXP8191_CLDO : Z := 4.
Definition A7S_AXP8191_VOLTAGE_RAIL_COUNT : Z := 5.

Definition dcdc6_ranges : list linear_range :=
  [ LinearRange 500 0x00 0x46 10;
    LinearRange 1220 0x47 0x57 20;
    LinearRange 1800 0x58 0x67 20;
    LinearRange 2440 0x68 0x70 40 ].

Definition dcdc7_ranges : list linear_range :=
  [ LinearRange 500 0x00 0x46 10;
    LinearRange 1220 0x47 0x57 20 ].

Definition dcdc8_ranges : list linear_range :=
  [ LinearRange 500 0x00 0x46 10;
    LinearRange 1220 0x47 0x57 20;
    LinearRange 1900 0x58 0x67 100 ].

Definition eldo_ranges : list linear_range := [ LinearRange 500 0x00 0x28 25 ].

Definition cldo_ranges : list linear_range := [ LinearRange 500 0x00 0x1d 100 ].

Definition voltage_descs : list (list linear_range) :=
  [ dcdc6_ranges; dcdc7_ranges; dcdc8_ranges; eldo_ranges; cldo_ranges ].

Definition range_max_mv (range : linear_range) : Z :=
  u32 (min_mv range + (max_selector range - min_selector range) * step_mv range).

(** The [for] loop over the ranges; [None] is its [return -1] (inside the
    loop, or the one that ends the function). *)
Fixpoint selector_loop (ranges : list linear_range) (millivolts : Z) : option Z :=
  match ranges with
  | [] => None
  | range :: rest =>
      if (step_mv range =? 0) || (max_selector range <? min_selector range) then None
      else if range_max_mv range <? millivolts then selector_loop rest millivolts
      else if millivolts <=? min_mv range then Some (min_selector range)
      else
        let offset := u32 (millivolts - min_mv range + step_mv range - 1) / step_mv range in
        if max_selector range <? u32 (min_selector range + offset)
        then selector_loop rest millivolts
        else Some (u32 (min_selector range + offset))
  end.

(** [a7s_axp8191_voltage_selector]: [Some s] is a return of 0 with
    [*selector = s], [None] a return of -1 with [*selector] untouched.
    [selector_ptr] says whether the out-pointer is non-null. *)
Definition a7s_axp8191_voltage_selector (rail millivolts : Z) (selector_ptr : bool)
  : option Z :=
  if (Z.of_nat (length voltage_descs) <=? rail) || negb selector_ptr then None
  else
    let? ranges := voltage_descs !! Z.to_nat rail in
    let? first := head ranges in
    let? final := last ranges in
    let mv1 := if millivolts <? min_mv first then min_mv first else millivolts in
    let max_mv := range_max_mv final in
    let mv2 := if max_mv <? mv1 then max_mv else mv1 in
    selector_loop ranges mv2.

(** ** Reference: decode a selector, search all selectors *)

(** The output voltage the PMIC produces for a selector. *)
Fixpoint selector_mv (ranges : list linear_range) (s : Z) : option Z :=
  match ranges with
  | [] => None
  | r :: rest =>
      if (min_selector r <=? s) && (s <=? max_selector r)
      then Some (min_mv r + (s - min_selector r) * step_mv r)
      else selector_mv rest s
  end.

(** [s] is the least selector whose output is at least [mv]. *)
Definition least_selector (ranges : list linear_range) (mv s : Z) : Prop :=
  (exists out, selector_mv ranges s = Some out /\ mv <= out) /\
  (forall s' out', selector_mv ranges s' = Some out' -> mv <= out' -> s <= s').

Definition rail_min (ranges : list linear_range) : Z :=
  default 0 (min_mv <$> head ranges).
Definition rail_max (ranges : list linear_range) : Z :=
  default 0 (range_max_mv <$> last ranges).

Definition clamp (lo hi v : Z) : Z := Z.min hi (Z.max lo v).

(** A table is well formed when every range is non-empty, steps upwards, and
    the next one continues with the next selector at a higher voltage. *)
Definition range_ok (r : linear_range) : bool :=
  (0 <? step_mv r) && (0 <=? min_selector r) && (min_selector r <=? max_selector r)
  && (max_selector r <? 128) && (0 <? min_mv r)
  && (min_mv r + (max_selector r - min_selector r) * step_mv r <=? 3400).

Fixpoint ranges_ok (ranges : list linear_range) : bool :=
  match ranges with
  | [] => true
  | r :: rest =>
      range_ok r &&
      match rest with
      | [] => true
      | r' :: _ => (min_selector r' =? max_selector r + 1) && (range_max_mv r <? min_mv r')
      end && ranges_ok rest
  end.

Lemma voltage_descs_ok rail ranges :
  voltage_descs !! rail = Some ranges -> ranges_ok ranges = true /\ ranges <> [].
Proof.
  intros Hl%list_elem_of_lookup_2. revert ranges Hl.
  apply Forall_forall. repeat constructor; discriminate.
Qed.

Lemma range_ok_spec r :
  range_ok r = true ->
  0 < step_mv r /\ 0 <= min_selector r <= max_selector r /\ max_selector r < 128 /\
  0 < min_mv r /\
  range_max_mv r = min_mv r + (max_selector r - min_selector r) * step_mv r /\
  min_mv r <= range_max_mv r <= 3400.
Proof.
  unfold range_ok. rewrite !andb_true_iff, !Z.ltb_lt, !Z.leb_le.
  intros (((((?&?)&?)&?)&?)&?).
  assert (range_max_mv r = min_mv r + (max_selector r - min_selector r) * step_mv r) as ->;
    [apply u32_small; nia | repeat split; nia].
Qed.

Lemma ranges_ok_cons r rest :
  ranges_ok (r :: rest) = true ->
  range_ok r = true /\ ranges_ok rest = true /\
  (forall r', head rest = Some r' ->
     min_selector r' = max_selector r + 1 /\ range_max_mv r < min_mv r').
Proof.
  simpl. rewrite !andb_true_iff. intros ((H1 & H2) & H3).
  split; [done|]. split; [done|]. intros r' Hr'.
  destruct rest; simplify_eq/=.
  by apply andb_true_iff in H2 as [?%Z.eqb_eq ?%Z.ltb_lt].
Qed.

(** Selectors of a table start at its first selector, voltages at its first voltage. *)
Lemma selector_mv_lower ranges s out r0 :
  ranges_ok ranges = true -> head ranges = Some r0 ->
  selector_mv ranges s = Some out ->
  min_selector r0 <= s /\ min_mv r0 <= out /\ (s <= max_selector r0 \/ range_max_mv r0 < out).
Proof.
  revert r0. induction ranges as [|r rest IH]; intros r0 Hok Hhd Hs; [done|].
  simplify_eq/=. destruct (ranges_ok_cons _ _ Hok) as (Hr & Hrest & Hnext).
  apply range_ok_spec in Hr as (? & ? & ? & ? & ? & ?).
  destruct ((min_selector r0 <=? s) && (s <=? max_selector r0)) eqn:E.
  - apply andb_true_iff in E as [?%Z.leb_le ?%Z.leb_le]. simplify_eq. repeat split; nia.
  - destruct rest as [|r1 rest]; [done|].
    destruct (IH r1 Hrest eq_refl Hs) as (?&?&?). destruct (Hnext r1 eq_refl). lia.
Qed.

Lemma rail_max_cons r r' rest : rail_max (r :: r' :: rest) = rail_max (r' :: rest).
Proof. done. Qed.

Lemma rail_max_head r rest :
  ranges_ok (r :: rest) = true -> range_max_mv r <= rail_max (r :: rest) <= 3400.
Proof.
  revert r. induction rest as [|r' rest IH]; intros r Hok.
  - apply ranges_ok_cons in Hok as (Hr & _). apply range_ok_spec in Hr.
    unfold rail_max. simpl. lia.
  - apply ranges_ok_cons in Hok as (Hr & Hrest & Hnext).
    rewrite rail_max_cons. destruct (Hnext r' eq_refl). specialize (IH r' Hrest).
    apply ranges_ok_cons in Hrest as (Hr' & _). apply range_ok_spec in Hr'. lia.
Qed.

(** Decoding one selector of the first range, and of the other ranges. *)
Lemma selector_mv_in r rest s :
  min_selector r <= s <= max_selector r ->
  selector_mv (r :: rest) s = Some (min_mv r + (s - min_selector r) * step_mv r).
Proof. intros Hs. cbn [selector_mv]. zbool; (done || lia). Qed.

Lemma selector_mv_out r rest s :
  max_selector r < s -> selector_mv (r :: rest) s = selector_mv rest s.
Proof. intros Hs. cbn [selector_mv]. zbool; (done || lia). Qed.

Lemma selector_mv_cases r rest s out :
  selector_mv (r :: rest) s = Some out ->
  (min_selector r <= s <= max_selector r /\
   out = min_mv r + (s - min_selector r) * step_mv r) \/
  selector_mv rest s = Some out.
Proof. cbn [selector_mv]. zbool; intros; simplify_eq; auto. Qed.

(** Higher selectors give strictly higher voltages, up to the rail's maximum. *)
Lemma selector_mv_mono ranges s s' out out' :
  ranges_ok ranges = true -> selector_mv ranges s = Some out ->
  selector_mv ranges s' = Some out' -> s < s' -> out < out'.
Proof.
  induction ranges as [|r rest IH]; intros Hok Hs Hs' Hlt; [done|].
  destruct (ranges_ok_cons _ _ Hok) as (Hr & Hrest & Hnext).
  apply range_ok_spec in Hr as (? & ? & ? & ? & ? & ?).
  apply selector_mv_cases in Hs as [[Hin ->]|Hs], Hs' as [[Hin' ->]|Hs'].
  - nia.
  - destruct rest as [|r1 rest]; [done|].
    destruct (selector_mv_lower _ _ _ _ Hrest eq_refl Hs'), (Hnext r1 eq_refl). nia.
  - destruct rest as [|r1 rest]; [done|].
    destruct (selector_mv_lower _ _ _ _ Hrest eq_refl Hs), (Hnext r1 eq_refl). lia.
  - by apply IH.
Qed.

Lemma selector_mv_upper ranges s out :
  ranges_ok ranges = true -> selector_mv ranges s = Some out ->
  out <= rail_max ranges /\ s < 128.
Proof.
  induction ranges as [|r rest IH]; intros Hok Hs; [done|].
  pose proof (rail_max_head _ _ Hok) as Hm.
  destruct (ranges_ok_cons _ _ Hok) as (Hr & Hrest & _).
  apply range_ok_spec in Hr as (? & ? & ? & ? & ? & ?).
  apply selector_mv_cases in Hs as [[Hin ->]|Hs]; [nia|].
  destruct rest as [|r1 rest]; [done|]. rewrite rail_max_cons. by apply IH.
Qed.

(** The middle case of the loop: the rounded-up offset stays inside the range. *)
Lemma ceil_offset r mv :
  range_ok r = true -> min_mv r < mv <= range_max_mv r ->
  let offset := u32 (mv - min_mv r + step_mv r - 1) / step_mv r in
  0 < offset <= max_selector r - min_selector r /\
  mv - min_mv r <= offset * step_mv r < mv - min_mv r + step_mv r.
Proof.
  intros (? & ? & ? & ? & ? & ?)%range_ok_spec Hmv. simpl.
  assert (1 <= max_selector r - min_selector r) by nia.
  assert (step_mv r <= 3400) by nia.
  rewrite u32_small by lia.
  pose proof (Z.div_mod (mv - min_mv r + step_mv r - 1) (step_mv r) ltac:(lia)).
  pose proof (Z.mod_pos_bound (mv - min_mv r + step_mv r - 1) (step_mv r) ltac:(lia)).
  nia.
Qed.

(** The search over a well-formed table finds the least sufficient selector. *)
Lemma selector_loop_least ranges mv :
  ranges_ok ranges = true -> ranges <> [] -> 0 <= mv <= rail_max ranges ->
  exists s, selector_loop ranges mv = Some s /\ least_selector ranges mv s.
Proof.
  induction ranges as [|r rest IH]; intros Hok Hne Hmv; [done|].
  destruct (ranges_ok_cons _ _ Hok) as (Hr & Hrest & Hnext).
  pose proof (rail_max_head _ _ Hok) as Hmax.
  pose proof (range_ok_spec _ Hr) as (Hstep & Hsel & Hsel' & Hmin & Hrm & Hrm').
  simpl. destruct (Z.eqb_spec (step_mv r) 0); [lia|].
  destruct (Z.ltb_spec (max_selector r) (min_selector r)); [lia|]. simpl orb. cbv iota.
  destruct (Z.ltb_spec (range_max_mv r) mv) as [Hbig|Hfit].
  { destruct rest as [|r1 rest]; [unfold rail_max in Hmv; simpl in Hmv; lia|].
    destruct (IH Hrest ltac:(done) Hmv) as (s & -> & (out & Hs & Hout) & Hleast).
    exists s. split; [done|].
    destruct (selector_mv_lower _ _ _ _ Hrest eq_refl Hs), (Hnext r1 eq_refl).
    split; [exists out; rewrite selector_mv_out by lia; done|].
    intros s' out' [[? ->]|Hs']%selector_mv_cases Hout'; [nia | by eapply Hleast]. }
  destruct (Z.leb_spec mv (min_mv r)) as [Hlow|Hmid].
  { exists (min_selector r). split; [done|]. split.
    - eexists. rewrite selector_mv_in by lia. split; [done | lia].
    - intros s' out' Hs' _. by destruct (selector_mv_lower _ _ _ _ Hok eq_refl Hs'). }
  destruct (ceil_offset r mv Hr ltac:(lia)) as [Hob Hceil]. cbv zeta.
  set (offset := u32 (mv - min_mv r + step_mv r - 1) / step_mv r) in *.
  rewrite (u32_small (min_selector r + offset)) by lia.
  destruct (Z.ltb_spec (max_selector r) (min_selector r + offset)); [lia|].
  exists (min_selector r + offset). split; [done|]. split.
  - eexists. rewrite selector_mv_in by lia. split; [done | lia].
  - intros s' out' [[? ->]|Hs']%selector_mv_cases Hout'; [nia|].
    destruct rest as [|r1 rest]; [done|].
    destruct (selector_mv_lower _ _ _ _ Hrest eq_refl Hs'), (Hnext r1 eq_refl). lia.
Qed.

(** The two clamping assignments leave the search with a value in range. *)
Lemma selector_clamped rail ranges mv :
  0 <= rail -> voltage_descs !! Z.to_nat rail = Some ranges ->
  a7s_axp8191_voltage_selector rail mv true
  = selector_loop ranges (clamp (rail_min ranges) (rail_max ranges) mv).
Proof.
  intros H0 Hl. pose proof (lookup_lt_Some _ _ _ Hl) as Hlen.
  unfold a7s_axp8191_voltage_selector.
  destruct (Z.leb_spec (Z.of_nat (length voltage_descs)) rail); [lia|]. simpl orb.
  rewrite Hl. destruct (voltage_descs_ok _ _ Hl) as [Hok Hne].
  destruct ranges as [|first rest] eqn:E; [done|].
  pose proof (rail_max_head first rest Hok) as Hmax.
  destruct (ranges_ok_cons first rest Hok) as (Hr & _). apply range_ok_spec in Hr.
  rewrite <- E in *. unfold clamp, rail_min. unfold rail_max in *.
  destruct (last ranges) as [final|] eqn:Hlast; [|apply last_None in Hlast; congruence].
  assert (head ranges = Some first) as -> by (by subst).
  simpl default in *. cbv zeta. f_equal. zbool; lia.
Qed.

Lemma clamp_range rail ranges mv :
  voltage_descs !! rail = Some ranges ->
  0 <= clamp (rail_min ranges) (rail_max ranges) mv <= rail_max ranges.
Proof.
  intros [Hok Hne]%voltage_descs_ok. destruct ranges as [|r rest]; [done|].
  pose proof (rail_max_head _ _ Hok). apply ranges_ok_cons in Hok as (Hr & _).
  apply range_ok_spec in Hr. unfold clamp.
  change (rail_min (r :: rest)) with (min_mv r). lia.
Qed.

(** ** Properties *)

(** C11: for every rail and every request the driver succeeds, with the least
    selector whose output voltage is at least the request clamped to the
    rail's limits. *)
Theorem selector_least rail ranges mv :
  0 <= rail -> voltage_descs !! Z.to_nat rail = Some ranges ->
  exists s, a7s_axp8191_voltage_selector rail mv true = Some s /\
            least_selector ranges (clamp (rail_min ranges) (rail_max ranges) mv) s.
Proof.
  intros H0 Hl. rewrite (selector_clamped rail ranges mv H0 Hl).
  destruct (voltage_descs_ok _ _ Hl) as [Hok Hne].
  apply selector_loop_least; [done | done | by eapply clamp_range].
Qed.

Lemma selector_least_witness :
  exists s, a7s_axp8191_voltage_selector A7S_AXP8191_DCDC8 1650 true = Some s /\
    least_selector dcdc8_ranges
      (clamp (rail_min dcdc8_ranges) (rail_max dcdc8_ranges) 1650) s.
Proof. apply (selector_least A7S_AXP8191_DCDC8 dcdc8_ranges 1650); [done | reflexivity]. Defined.

(** encoding the voltage a selector decodes to gives that selector back. *)
Theorem selector_roundtrip rail ranges s mv :
  0 <= rail -> voltage_descs !! Z.to_nat rail = Some ranges ->
  selector_mv ranges s = Some mv ->
  a7s_axp8191_voltage_selector rail mv true = Some s.
Proof.
  intros H0 Hl Hs. rewrite (selector_clamped rail ranges mv H0 Hl).
  destruct (voltage_descs_ok _ _ Hl) as [Hok Hne].
  destruct (selector_loop_least ranges _ Hok Hne (clamp_range _ _ mv Hl))
    as (s0 & -> & (out & Hs0 & Hout) & Hleast).
  assert (clamp (rail_min ranges) (rail_max ranges) mv = mv) as Hc.
  { destruct (selector_mv_upper _ _ _ Hok Hs). destruct ranges as [|r rest]; [done|].
    destruct (selector_mv_lower _ _ _ _ Hok eq_refl Hs). unfold clamp.
    change (rail_min (r :: rest)) with (min_mv r). lia. }
  rewrite Hc in *. specialize (Hleast s mv Hs ltac:(lia)).
  f_equal. destruct (Z.eq_dec s0 s) as [|Hne']; [done|].
  pose proof (selector_mv_mono _ _ _ _ _ Hok Hs0 Hs ltac:(lia)). lia.
Qed.

Lemma selector_roundtrip_witness :
  a7s_axp8191_voltage_selector A7S_AXP8191_CLDO 1800 true = Some 0x0d.
Proof. apply (selector_roundtrip A7S_AXP8191_CLDO cldo_ranges 0x0d 1800); done. Defined.
