(* ===== verification/Fip.v ===== *)
(** * The TF-A FIP loader (src/src/sunxi_fip.c, src/include/sunxi_fip.h)

    Part one of the component: the data, the byte readers, the parser
    [sunxi_fip_parse] and the drivers that stage, fall back to the backup copy
    and distribute the images.  A C pointer into the staging buffer is a
    [ptr]; an access outside the buffer is [None], so a definition that
    returns [Some] has read inside the buffer only.  The properties are in
    FipSpec.v and FipLoad.v. *)

From S2P Require Import Prelude.

(** ** Constants of sunxi_fip.c and sunxi_fip.h *)

Definition FIP_TOC_HEADER_NAME : Z := 0xaa640001.
Definition FIP_TOC_SERIAL_NUMBER : Z := 0x12345678.
Definition FIP_HEADER_SIZE : Z := 16.
Definition FIP_ENTRY_SIZE : Z := 40.
Definition FIP_SECTOR_SIZE : Z := 512.
Definition FIP_TOC_SECTORS : Z := 3.
Definition FIP_METADATA_SIZE : Z := FIP_TOC_SECTORS * FIP_SECTOR_SIZE.
Definition FIP_MAX_TOC_ENTRIES : Z :=
  (FIP_METADATA_SIZE - FIP_HEADER_SIZE) / FIP_ENTRY_SIZE.

Definition FIP_FOUND_SCP_BL2 : Z := 0x1.
Definition FIP_FOUND_BL31 : Z := 0x2.
Definition FIP_FOUND_BL33 : Z := 0x4.
Definition FIP_FOUND_HW_CONFIG : Z := 0x8.
Definition FIP_FOUND_REQUIRED : Z :=
  Z.lor (Z.lor FIP_FOUND_SCP_BL2 FIP_FOUND_BL31) FIP_FOUND_BL33.

Definition FDT_MAGIC : Z := 0xd00dfeed.
Definition FDT_HEADER_SIZE : Z := 40.
Definition FDT_FIRST_SUPPORTED_VERSION : Z := 16.
Definition FDT_LAST_SUPPORTED_VERSION : Z := 17.

Definition SCP_BL2_MIN_SIZE : Z := 64.
Definition SCP_BL2_ENTRY_INSTRUCTION : Z := 0x30047073.
Definition SCP_BL2_TRACE_ADDR_HI : Z := 0x070902b7.
Definition SCP_BL2_TRACE_ADDR_LO : Z := 0x11c28293.
Definition SCP_BL2_TRACE_VALUE_HI : Z := 0xe9020337.
Definition SCP_BL2_TRACE_STORE : Z := 0xa0230305.
Definition SCP_BL2_ENTRY_PROLOGUE : Z := 0x40810062.

Definition BL31_MONITOR_HEADER_SIZE : Z := 0x1000.
Definition BL31_MONITOR_BRANCH : Z := 0xea0003fe.
Definition BL31_MONITOR_LOAD_ADDRESS_OFFSET : Z := 0x2c.
Definition BL31_MIN_SIZE : Z := BL31_MONITOR_HEADER_SIZE + 4.

Definition BL33_MIN_SIZE : Z := 64.
Definition ARM_BRANCH_OPCODE_MASK : Z := 0xff000000.
Definition ARM_BRANCH_OPCODE : Z := 0xea000000.

Definition SUNXI_FIP_MAX_SIZE : Z := 0x00200000.
Definition SUNXI_FIP_BL31_BASE : Z := 0x48000000.
Definition SUNXI_FIP_BL31_MAX_SIZE : Z := 0x00100000.
Definition SUNXI_FIP_BL33_BASE : Z := 0x4a000000.
Definition SUNXI_FIP_BL33_MAX_SIZE : Z := 0x00180000.
Definition SUNXI_FIP_SCP_BL2_BASE : Z := 0x00044000.
Definition SUNXI_FIP_SCP_BL2_MAX_SIZE : Z := 0x00028000.
Definition SUNXI_FIP_HW_CONFIG_BASE : Z := 0x48100000.
Definition SUNXI_FIP_HW_CONFIG_MAX_SIZE : Z := 0x00100000.

Definition scp_bl2_uuid : list Z :=
  [ 0x97; 0x66; 0xfd; 0x3d; 0x89; 0xbe; 0xe8; 0x49;
    0xae; 0x5d; 0x78; 0xa1; 0x40; 0x60; 0x82; 0x13 ].
Definition bl31_uuid : list Z :=
  [ 0x47; 0xd4; 0x08; 0x6d; 0x4c; 0xfe; 0x98; 0x46;
    0x9b; 0x95; 0x29; 0x50; 0xcb; 0xbd; 0x5a; 0x00 ].
Definition bl33_uuid : list Z :=
  [ 0xd6; 0xd0; 0xee; 0xa7; 0xfc; 0xea; 0xd5; 0x4b;
    0x97; 0x82; 0x99; 0x34; 0xf2; 0x34; 0xb6; 0xe4 ].
Definition hw_config_uuid : list Z :=
  [ 0x08; 0xb8; 0xf1; 0xd9; 0xc9; 0xcf; 0x93; 0x49;
    0xa9; 0x62; 0x6f; 0xbc; 0x6b; 0x72; 0x65; 0xcc ].

(** ** Data *)

Record sunxi_fip_image := Image { offset : Z; size : Z }.

Record sunxi_fip_layout := Layout {
  scp_bl2 : sunxi_fip_image;
  bl31 : sunxi_fip_image;
  bl33 : sunxi_fip_image;
  hw_config : sunxi_fip_image
}.

#[export] Instance sunxi_fip_image_eq_dec : EqDecision sunxi_fip_image.
Proof. solve_decision. Defined.
#[export] Instance sunxi_fip_layout_eq_dec : EqDecision sunxi_fip_layout.
Proof. solve_decision. Defined.

Definition set_scp_bl2 (i : sunxi_fip_image) (l : sunxi_fip_layout) :=
  Layout i (bl31 l) (bl33 l) (hw_config l).
Definition set_bl31 (i : sunxi_fip_image) (l : sunxi_fip_layout) :=
  Layout (scp_bl2 l) i (bl33 l) (hw_config l).
Definition set_bl33 (i : sunxi_fip_image) (l : sunxi_fip_layout) :=
  Layout (scp_bl2 l) (bl31 l) i (hw_config l).
Definition set_hw_config (i : sunxi_fip_image) (l : sunxi_fip_layout) :=
  Layout (scp_bl2 l) (bl31 l) (bl33 l) i.

(** [size_t] of the AArch32 target. *)
Definition size_t (z : Z) : Z := u32 z.

(** A [const u8 *]: the object it points into and the offset inside it. *)
Record ptr := Ptr { base : list Z; at_off : Z }.
Definition padd (p : ptr) (n : Z) : ptr := Ptr (base p) (at_off p + n).
Definition deref (p : ptr) (i : Z) : option Z := ld8 (base p) (at_off p + i).

(** [a && b] where evaluating [b] may read memory. *)
Definition andM (a b : option bool) : option bool :=
  let? t := a in if t then b else Some false.
Notation "a &&? b" := (andM a b) (at level 40, left associativity) : c_scope.
Open Scope c_scope.

(** [return get(p) == v] *)
Definition eq_at (r : option Z) (v : Z) : option bool := let? x := r in Some (x =? v).

(** ** Byte readers *)

Definition get_le32 (src : ptr) : option Z :=
  let? b0 := deref src 0 in
  let? b1 := deref src 1 in
  let? b2 := deref src 2 in
  let? b3 := deref src 3 in
  Some (Z.lor (Z.lor (Z.lor b0 (shl32 b1 8)) (shl32 b2 16)) (shl32 b3 24)).

Fixpoint get_le64_loop (n : nat) (i value : Z) (src : ptr) : option Z :=
  match n with
  | O => Some value
  | S n =>
      let? b := deref src i in
      get_le64_loop n (i + 1) (Z.lor value (u64 (Z.shiftl b (i * 8)))) src
  end.
Definition get_le64 (src : ptr) : option Z := get_le64_loop 8 0 0 src.

Definition get_be32 (src : ptr) : option Z :=
  let? b0 := deref src 0 in
  let? b1 := deref src 1 in
  let? b2 := deref src 2 in
  let? b3 := deref src 3 in
  Some (Z.lor (Z.lor (Z.lor (shl32 b0 24) (shl32 b1 16)) (shl32 b2 8)) b3).

(** The loop shared by [bytes_equal] and [uuid_equal]: stop at the first
    difference. *)
Fixpoint equal_loop (n : nat) (i : Z) (left right : ptr) : option bool :=
  match n with
  | O => Some true
  | S n =>
      let? l := deref left i in
      let? r := deref right i in
      if l =? r then equal_loop n (i + 1) left right else Some false
  end.
Definition bytes_equal (left right : ptr) (n : Z) : option bool :=
  equal_loop (Z.to_nat n) 0 left right.
Definition uuid_equal (left right : ptr) : option bool := equal_loop 16 0 left right.

Definition uuid_is_null (uuid : ptr) : option bool :=
  uuid_equal uuid (Ptr (replicate 16 0) 0).

(** ** Image checks *)

Definition scp_bl2_is_valid (bytes : list Z) (image : sunxi_fip_image) : option bool :=
  if negb (Z.land (offset image) (4 - 1) =? 0) || (size image <? SCP_BL2_MIN_SIZE)
  then Some false
  else
    let entry := Ptr bytes (offset image) in
    eq_at (get_le32 entry) SCP_BL2_ENTRY_INSTRUCTION
    &&? eq_at (get_le32 (padd entry 4)) SCP_BL2_TRACE_ADDR_HI
    &&? eq_at (get_le32 (padd entry 8)) SCP_BL2_TRACE_ADDR_LO
    &&? eq_at (get_le32 (padd entry 12)) SCP_BL2_TRACE_VALUE_HI
    &&? eq_at (get_le32 (padd entry 16)) SCP_BL2_TRACE_STORE
    &&? eq_at (get_le32 (padd entry 20)) SCP_BL2_ENTRY_PROLOGUE.

Definition monitor_magic : list Z := [ 0x6d; 0x6f; 0x6e; 0x69; 0x74; 0x6f; 0x72; 0 ].

Definition bl31_is_valid (bytes : list Z) (image : sunxi_fip_image) : option bool :=
  if size image <? BL31_MIN_SIZE then Some false
  else
    let monitor := Ptr bytes (offset image) in
    let? code_entry := get_le32 (padd monitor BL31_MONITOR_HEADER_SIZE) in
    eq_at (get_le32 monitor) BL31_MONITOR_BRANCH
    &&? bytes_equal (padd monitor 4) (Ptr monitor_magic 0) 8
    &&? eq_at (get_le32 (padd monitor BL31_MONITOR_LOAD_ADDRESS_OFFSET)) SUNXI_FIP_BL31_BASE
    &&? Some (negb (code_entry =? 0) && negb (code_entry =? 0xffffffff)).

Definition bl33_is_valid (bytes : list Z) (image : sunxi_fip_image) : option bool :=
  if size image <? BL33_MIN_SIZE then Some false
  else
    let? instruction := get_le32 (Ptr bytes (offset image)) in
    if negb (Z.land instruction ARM_BRANCH_OPCODE_MASK =? ARM_BRANCH_OPCODE)
    then Some false
    else
      let immediate := s32 (Z.land instruction 0x00ffffff) in
      let immediate := if negb (Z.land immediate 0x00800000 =? 0)
                       then immediate - 0x01000000 else immediate in
      let target := 8 + immediate * 4 in
      Some ((0 <=? target) && (u64 (u64 target + 4) <=? size image)).

Definition layout_is_loadable (bytes : list Z) (layout : sunxi_fip_layout) : option bool :=
  Some ((size (bl31 layout) <=? SUNXI_FIP_BL31_MAX_SIZE)
        && (size (bl33 layout) <=? SUNXI_FIP_BL33_MAX_SIZE)
        && (size (scp_bl2 layout) <=? SUNXI_FIP_SCP_BL2_MAX_SIZE)
        && (size (hw_config layout) <=? SUNXI_FIP_HW_CONFIG_MAX_SIZE))
  &&? scp_bl2_is_valid bytes (scp_bl2 layout)
  &&? bl31_is_valid bytes (bl31 layout)
  &&? bl33_is_valid bytes (bl33 layout).

(** [fdt] is [None] for a null pointer. *)
Definition hw_config_is_valid (fdt : option ptr) (image_size : Z) : option bool :=
  match fdt with
  | None => Some false
  | Some fdt =>
      if image_size <? FDT_HEADER_SIZE then Some false
      else
        let? magic := get_be32 fdt in
        if negb (magic =? FDT_MAGIC) then Some false
        else
          let? total_size := get_be32 (padd fdt 4) in
          let? struct_offset := get_be32 (padd fdt 8) in
          let? strings_offset := get_be32 (padd fdt 12) in
          let? reserve_offset := get_be32 (padd fdt 16) in
          let? version := get_be32 (padd fdt 20) in
          let? last_compatible_version := get_be32 (padd fdt 24) in
          let? strings_size := get_be32 (padd fdt 32) in
          let? struct_size := get_be32 (padd fdt 36) in
          Some ((total_size =? image_size) && (FDT_HEADER_SIZE <=? total_size)
                && (FDT_FIRST_SUPPORTED_VERSION <=? version)
                && (version <=? FDT_LAST_SUPPORTED_VERSION)
                && (last_compatible_version <=? FDT_LAST_SUPPORTED_VERSION)
                && (FDT_HEADER_SIZE <=? reserve_offset)
                && (Z.land reserve_offset 7 =? 0)
                && (reserve_offset <=? u32 (total_size - 16))
                && (FDT_HEADER_SIZE <=? struct_offset) && (struct_offset <=? total_size)
                && (struct_size <=? u32 (total_size - struct_offset))
                && (FDT_HEADER_SIZE <=? strings_offset) && (strings_offset <=? total_size)
                && (strings_size <=? u32 (total_size - strings_offset)))
  end.

(** ** Table of contents *)

Definition set_image (entry : ptr) : option sunxi_fip_image :=
  let? o := get_le64 (padd entry 16) in
  let? s := get_le64 (padd entry 24) in
  Some (Image (size_t o) (size_t s)).

Definition entry_in_buffer (entry : ptr) (image_size : Z) : option bool :=
  let? offset := get_le64 (padd entry 16) in
  let? size := get_le64 (padd entry 24) in
  let buffer_size := image_size in
  Some (negb (size =? 0) && (offset <=? buffer_size) && (size <=? u64 (buffer_size - offset))).

(** Address of entry [i]: [bytes + FIP_HEADER_SIZE + i * FIP_ENTRY_SIZE]. *)
Definition toc_entry (bytes : list Z) (i : Z) : ptr :=
  Ptr bytes (FIP_HEADER_SIZE + i * FIP_ENTRY_SIZE).

Fixpoint overlaps_loop (n : nat) (i : Z) (bytes : list Z) (offset end_ : Z) : option bool :=
  match n with
  | O => Some false
  | S n =>
      let previous := toc_entry bytes i in
      let? previous_offset := get_le64 (padd previous 16) in
      let? previous_size := get_le64 (padd previous 24) in
      let previous_end := u64 (previous_offset + previous_size) in
      if (offset <? previous_end) && (previous_offset <? end_) then Some true
      else overlaps_loop n (i + 1) bytes offset end_
  end.
Definition entry_overlaps_previous (bytes : list Z) (entry : ptr) (entry_count : Z)
  : option bool :=
  let? offset := get_le64 (padd entry 16) in
  let? size := get_le64 (padd entry 24) in
  overlaps_loop (Z.to_nat entry_count) 0 bytes offset (u64 (offset + size)).

Fixpoint uuid_seen_loop (n : nat) (i : Z) (bytes : list Z) (entry : ptr) : option bool :=
  match n with
  | O => Some false
  | S n =>
      let? same := uuid_equal (toc_entry bytes i) entry in
      if same then Some true else uuid_seen_loop n (i + 1) bytes entry
  end.
Definition entry_uuid_seen (bytes : list Z) (entry : ptr) (entry_count : Z) : option bool :=
  uuid_seen_loop (Z.to_nat entry_count) 0 bytes entry.

(** The variables of the parser's loop. *)
Record parse_state := ParseState {
  found : Z;
  payload_start : Z;
  payload_end : Z;
  layout : sunxi_fip_layout
}.

Definition empty_layout : sunxi_fip_layout :=
  Layout (Image 0 0) (Image 0 0) (Image 0 0) (Image 0 0).

Definition parse_init : parse_state := ParseState 0 (2 ^ 64 - 1) 0 empty_layout.

(** The null-UUID branch of the loop: the checks on the terminator.  [true] is
    [return 0], [false] is [return -1]. *)
Definition terminator_ok (bytes : list Z) (image_size entry_offset : Z) (entry : ptr)
  (st : parse_state) : option bool :=
  let? fip_size := get_le64 (padd entry 16) in
  let metadata_end := entry_offset + FIP_ENTRY_SIZE in
  let? sz := get_le64 (padd entry 24) in
  if negb (sz =? 0) then Some false
  else
    let? flags := get_le64 (padd entry 32) in
    if negb (flags =? 0) || (image_size <? fip_size) || (fip_size <? metadata_end)
       || (payload_start st <? metadata_end) || (fip_size <? payload_end st)
    then Some false
    else if negb (Z.land (found st) FIP_FOUND_REQUIRED =? FIP_FOUND_REQUIRED)
    then Some false
    else
      let? hw_ok :=
        if negb (Z.land (found st) FIP_FOUND_HW_CONFIG =? 0)
        then hw_config_is_valid (Some (Ptr bytes (offset (hw_config (layout st)))))
               (size (hw_config (layout st)))
        else Some true in
      if negb hw_ok then Some false else layout_is_loadable bytes (layout st).

(** The chain of UUID comparisons that ends an iteration. *)
Definition classify (entry : ptr) (st : parse_state) : option parse_state :=
  let put bit set :=
    let? image := set_image entry in
    Some (ParseState (Z.lor (found st) bit) (payload_start st) (payload_end st)
            (set image (layout st))) in
  let? is_scp := uuid_equal entry (Ptr scp_bl2_uuid 0) in
  if is_scp then put FIP_FOUND_SCP_BL2 set_scp_bl2
  else
    let? is_bl31 := uuid_equal entry (Ptr bl31_uuid 0) in
    if is_bl31 then put FIP_FOUND_BL31 set_bl31
    else
      let? is_bl33 := uuid_equal entry (Ptr bl33_uuid 0) in
      if is_bl33 then put FIP_FOUND_BL33 set_bl33
      else
        let? is_hw := uuid_equal entry (Ptr hw_config_uuid 0) in
        if is_hw then put FIP_FOUND_HW_CONFIG set_hw_config
        else Some st.

(** One non-terminating iteration: [Some None] is [return -1]. *)
Definition parse_entry (bytes : list Z) (image_size entry_count : Z) (entry : ptr)
  (st : parse_state) : option (option parse_state) :=
  let? seen := entry_uuid_seen bytes entry entry_count in
  if seen then Some None
  else
    let? inside := entry_in_buffer entry image_size in
    if negb inside then Some None
    else
      let? overlaps := entry_overlaps_previous bytes entry entry_count in
      if overlaps then Some None
      else
        let? o := get_le64 (padd entry 16) in
        let? s := get_le64 (padd entry 24) in
        let start := if o <? payload_start st then o else payload_start st in
        let end_ := u64 (o + s) in
        let stop := if payload_end st <? end_ then end_ else payload_end st in
        let? st' := classify entry (ParseState (found st) start stop (layout st)) in
        Some (Some st').

(** The main loop; [n] counts the iterations left of the [for] loop. *)
Fixpoint parse_loop (n : nat) (entry_count entry_offset : Z) (bytes : list Z)
  (image_size : Z) (st : parse_state) : option (Z * sunxi_fip_layout) :=
  match n with
  | O => Some (-1, layout st)
  | S n =>
      if (image_size <? entry_offset) || (image_size - entry_offset <? FIP_ENTRY_SIZE)
      then Some (-1, layout st)
      else
        let entry := Ptr bytes entry_offset in
        let? null := uuid_is_null entry in
        if null then
          let? ok := terminator_ok bytes image_size entry_offset entry st in
          Some (if ok then 0 else -1, layout st)
        else
          let? next := parse_entry bytes image_size entry_count entry st in
          match next with
          | None => Some (-1, layout st)
          | Some st' =>
              parse_loop n (entry_count + 1) (entry_offset + FIP_ENTRY_SIZE)
                bytes image_size st'
          end
  end.

(** [sunxi_fip_parse]: the return value and the new contents of [*layout].
    A null [image] or [layout] pointer is [None]. *)
Definition sunxi_fip_parse (image : option (list Z)) (image_size : Z)
  (layout0 : option sunxi_fip_layout) : option (Z * option sunxi_fip_layout) :=
  match image, layout0 with
  | Some bytes, Some _ =>
      if (image_size <? FIP_HEADER_SIZE) || (SUNXI_FIP_MAX_SIZE <? image_size)
      then Some (-1, layout0)
      else
        let? name := get_le32 (Ptr bytes 0) in
        if negb (name =? FIP_TOC_HEADER_NAME) then Some (-1, layout0)
        else
          let? serial := get_le32 (Ptr bytes 4) in
          if negb (serial =? FIP_TOC_SERIAL_NUMBER) then Some (-1, layout0)
          else
            let? r := parse_loop (Z.to_nat FIP_MAX_TOC_ENTRIES) 0 FIP_HEADER_SIZE
                        bytes image_size parse_init in
            Some (fst r, Some (snd r))
  | _, _ => Some (-1, layout0)
  end.

(** ** Distribution and staging, over the caller's callbacks *)

Section Callbacks.
(** The state behind the [void *context] arguments. *)
Context {ctx : Type}.

(** [sunxi_fip_copy_fn]: destination, source, size; returns the status. *)
Definition copy_fn : Type := Z -> ptr -> Z -> ctx -> Z * ctx.
(** [sunxi_fip_read_fn]: first sector, sector count; returns the status and
    the bytes it stored at the start of the destination. *)
Definition read_fn : Type := Z -> Z -> ctx -> Z * list Z * ctx.

(** [if (copy(...) != 0) return -1;] and go on otherwise. *)
Definition copy_then (copy : copy_fn) (dest : Z) (bytes : list Z)
  (image : sunxi_fip_image) (context : ctx) (next : ctx -> Z * ctx) : Z * ctx :=
  let '(r, context) := copy dest (Ptr bytes (offset image)) (size image) context in
  if negb (r =? 0) then (-1, context) else next context.

Definition sunxi_fip_copy_images (image : option (list Z)) (image_size : Z)
  (copy : option copy_fn) (context : ctx) : option (Z * ctx) :=
  match copy with
  | None => Some (-1, context)
  | Some copy =>
      let? p := sunxi_fip_parse image image_size (Some empty_layout) in
      match p, image with
      | (0, Some layout), Some bytes =>
          Some (copy_then copy SUNXI_FIP_BL31_BASE bytes (bl31 layout) context (fun context =>
                copy_then copy SUNXI_FIP_BL33_BASE bytes (bl33 layout) context (fun context =>
                let scp := fun context =>
                  copy_then copy SUNXI_FIP_SCP_BL2_BASE bytes (scp_bl2 layout) context
                    (fun context => (0, context)) in
                if negb (size (hw_config layout) =? 0)
                then copy_then copy SUNXI_FIP_HW_CONFIG_BASE bytes (hw_config layout)
                       context scp
                else scp context)))
      | _, _ => Some (-1, context)
      end
  end.

Fixpoint fip_size_loop (n : nat) (entry_offset : Z) (bytes : list Z)
  (metadata_size capacity : Z) : option (option Z) :=
  match n with
  | O => Some None
  | S n =>
      if (metadata_size <? entry_offset) || (metadata_size - entry_offset <? FIP_ENTRY_SIZE)
      then Some None
      else
        let entry := Ptr bytes entry_offset in
        let? null := uuid_is_null entry in
        if negb null
        then fip_size_loop n (entry_offset + FIP_ENTRY_SIZE) bytes metadata_size capacity
        else
          let? declared_size := get_le64 (padd entry 16) in
          let rounded_size := Z.land (u64 (declared_size + FIP_SECTOR_SIZE - 1))
                                     (u64 (Z.lnot (FIP_SECTOR_SIZE - 1))) in
          let? sz := get_le64 (padd entry 24) in
          let? flags := get_le64 (padd entry 32) in
          if negb (sz =? 0) || negb (flags =? 0)
             || (declared_size <? entry_offset + FIP_ENTRY_SIZE)
             || (SUNXI_FIP_MAX_SIZE <? declared_size)
             || (rounded_size <? declared_size) || (capacity <? rounded_size)
          then Some None
          else Some (Some (size_t declared_size))
  end.

(** [Some (Some n)]: return 0 with [*fip_size = n]; [Some None]: return -1. *)
Definition get_fip_size_from_toc (bytes : list Z) (metadata_size capacity : Z)
  : option (option Z) :=
  let? name := get_le32 (Ptr bytes 0) in
  if negb (name =? FIP_TOC_HEADER_NAME) then Some None
  else
    let? serial := get_le32 (Ptr bytes 4) in
    if negb (serial =? FIP_TOC_SERIAL_NUMBER) then Some None
    else fip_size_loop (Z.to_nat FIP_MAX_TOC_ENTRIES) FIP_HEADER_SIZE bytes
           metadata_size capacity.

(** The staging buffer and the callback's context. *)
Record staging := Staging { buffer : list Z; context : ctx }.

(** A call of [read]: its bytes land at the start of the buffer; bytes past
    the end of the buffer are an out-of-bounds write. *)
Definition call_read (read : read_fn) (sector count : Z) (s : staging)
  : option (Z * staging) :=
  let '(r, data, c) := read sector count (context s) in
  if Z.of_nat (length (buffer s)) <? Z.of_nat (length data) then None
  else Some (r, Staging (data ++ drop (length data) (buffer s)) c).

(** Which of the caller's pointers are non-null. *)
Record pointers := Pointers {
  has_fip_size : bool;
  has_used_sector : bool;
  has_buffer : bool
}.
Definition all_pointers : pointers := Pointers true true true.

(** The result of a driver: status, [*fip_size] (0 when there is no such
    object) and the staging state. *)
Definition read_result : Type := Z * Z * staging.

Definition sunxi_fip_read_image (start_sector : Z) (ptrs : pointers) (capacity : Z)
  (read : option read_fn) (s : staging) : option read_result :=
  if negb (has_fip_size ptrs) then Some (-1, 0, s)
  else
    match read with
    | Some read =>
        if negb (has_buffer ptrs) || (capacity <? FIP_METADATA_SIZE) then Some (-1, 0, s)
        else
          let? r1 := call_read read start_sector FIP_TOC_SECTORS s in
          let '(st1, s) := r1 in
          if negb (st1 =? 1) then Some (-1, 0, s)
          else
            let? d := get_fip_size_from_toc (buffer s) FIP_METADATA_SIZE capacity in
            match d with
            | None => Some (-1, 0, s)
            | Some declared_size =>
                let sector_count :=
                  size_t (declared_size + FIP_SECTOR_SIZE - 1) / FIP_SECTOR_SIZE in
                let? r2 := call_read read start_sector sector_count s in
                let '(st2, s) := r2 in
                if negb (st2 =? 1) then Some (-1, 0, s)
                else
                  let? p := sunxi_fip_parse (Some (buffer s)) declared_size
                              (Some empty_layout) in
                  if negb (fst p =? 0) then Some (-1, 0, s)
                  else Some (0, declared_size, s)
            end
    | None => Some (-1, 0, s)
    end.

(** Status, [*fip_size], [*used_sector] and the staging state. *)
Definition redundant_result : Type := Z * Z * Z * staging.

Definition sunxi_fip_read_redundant (primary_sector backup_sector : Z)
  (ptrs : pointers) (capacity : Z) (read : option read_fn) (s : staging)
  : option redundant_result :=
  if negb (has_fip_size ptrs) || negb (has_used_sector ptrs) then Some (-1, 0, 0, s)
  else
    let? r := sunxi_fip_read_image primary_sector ptrs capacity read s in
    let '(st, fip_size, s) := r in
    if st =? 0 then Some (0, fip_size, primary_sector, s)
    else if (backup_sector =? 0) || (backup_sector =? primary_sector)
    then Some (-1, fip_size, 0, s)
    else
      let? r := sunxi_fip_read_image backup_sector ptrs capacity read s in
      let '(st, fip_size, s) := r in
      if negb (st =? 0) then Some (-1, fip_size, 0, s)
      else Some (0, fip_size, backup_sector, s).

Definition sunxi_fip_load_redundant (primary_sector backup_sector : Z)
  (ptrs : pointers) (capacity : Z) (read : option read_fn) (copy : option copy_fn)
  (s : staging) : option redundant_result :=
  let? r := sunxi_fip_read_redundant primary_sector backup_sector ptrs capacity read s in
  let '(st, fip_size, used_sector, s) := r in
  if negb (st =? 0) then Some (-1, fip_size, used_sector, s)
  else
    let? c := sunxi_fip_copy_images (Some (buffer s)) fip_size copy (context s) in
    let s' := Staging (buffer s) (snd c) in
    if negb (fst c =? 0) then Some (-1, 0, 0, s')
    else Some (0, fip_size, used_sector, s').
End Callbacks.
Arguments staging : clear implicits.
Arguments copy_fn : clear implicits.
Arguments read_fn : clear implicits.
Arguments sunxi_fip_parse : simpl never.
Arguments sunxi_fip_copy_images : simpl never.
Arguments sunxi_fip_read_image : simpl never.
Arguments sunxi_fip_read_redundant : simpl never.
