(* ===== verification/FipSpec.v ===== *)
(** * What [sunxi_fip_parse] accepts

    A declarative description of a well-formed FIP ([fip_valid]) and the proofs
    that the parser reads inside the image only and accepts exactly the
    well-formed ones, with the layout the description gives. *)

From S2P Require Import Prelude Fip.

(** ** Total views of the bytes *)

Definition byte_at (b : list Z) (o : Z) : Z := nth (Z.to_nat o) b 0.
(** Little-endian and big-endian words. *)
Definition rd32 (b : list Z) (o : Z) : Z :=
  byte_at b o + 2 ^ 8 * byte_at b (o + 1) + 2 ^ 16 * byte_at b (o + 2) + 2 ^ 24 * byte_at b (o + 3).
Definition rd64 (b : list Z) (o : Z) : Z := rd32 b o + 2 ^ 32 * rd32 b (o + 4).
Definition be32 (b : list Z) (o : Z) : Z :=
  2 ^ 24 * byte_at b o + 2 ^ 16 * byte_at b (o + 1) + 2 ^ 8 * byte_at b (o + 2) + byte_at b (o + 3).
(** The sixteen UUID bytes at [o]. *)
Definition uuid_at (b : list Z) (o : Z) : list Z := take 16 (drop (Z.to_nat o) b).

Definition null_uuid : list Z := replicate 16 0.

Definition entry_pos (i : Z) : Z := FIP_HEADER_SIZE + i * FIP_ENTRY_SIZE.
Definition e_uuid (b : list Z) (i : Z) : list Z := uuid_at b (entry_pos i).
Definition e_off (b : list Z) (i : Z) : Z := rd64 b (entry_pos i + 16).
Definition e_size (b : list Z) (i : Z) : Z := rd64 b (entry_pos i + 24).
Definition e_flags (b : list Z) (i : Z) : Z := rd64 b (entry_pos i + 32).

(** ** In-bounds reads succeed *)

Definition in_bounds (b : list Z) (o n : Z) : Prop := 0 <= o /\ o + n <= Z.of_nat (length b).

Lemma in_bounds_sub b o n o' n' :
  in_bounds b o n -> o <= o' -> o' + n' <= o + n -> in_bounds b o' n'.
Proof. unfold in_bounds. lia. Qed.

Lemma ld8_in b o : in_bounds b o 1 -> exists v, ld8 b o = Some v.
Proof. intros [? ?]. apply ld8_Some. lia. Qed.

Lemma deref_in b o i : in_bounds b (o + i) 1 -> exists v, deref (Ptr b o) i = Some v.
Proof. unfold deref. simpl. apply ld8_in. Qed.

Ltac deref_step :=
  match goal with
  | |- context [deref (Ptr ?b ?o) ?i] =>
      let v := fresh "v" in let E := fresh "E" in
      destruct (deref_in b o i) as [v E]; [unfold in_bounds in *; lia | rewrite E]
  end.

Lemma get_le32_in b o : in_bounds b o 4 -> exists v, get_le32 (Ptr b o) = Some v.
Proof. intros. unfold get_le32. repeat deref_step. eauto. Qed.

Lemma get_be32_in b o : in_bounds b o 4 -> exists v, get_be32 (Ptr b o) = Some v.
Proof. intros. unfold get_be32. repeat deref_step. eauto. Qed.

Lemma get_le64_loop_in n b o i v :
  in_bounds b (o + i) (Z.of_nat n) -> exists w, get_le64_loop n i v (Ptr b o) = Some w.
Proof.
  revert i v. induction n as [|n IH]; intros i v Hb; simpl; [eauto|].
  deref_step. apply IH. unfold in_bounds in *. lia.
Qed.

Lemma byte_at_u8 b o : bytes_ok b -> is_u8 (byte_at b o).
Proof.
  intros Hb. unfold byte_at. destruct (lt_dec (Z.to_nat o) (length b)) as [Hlt|Hge].
  - destruct (lookup_lt_is_Some_2 b _ Hlt) as [x Hx]. rewrite nth_lookup, Hx. by eapply (Forall_lookup_1 is_u8).
  - rewrite nth_overflow by lia. unfold is_u8. lia.
Qed.
Lemma deref_byte b o i : in_bounds b (o + i) 1 -> deref (Ptr b o) i = Some (byte_at b (o + i)).
Proof.
  intros [H0 H1]. unfold deref, ld8, byte_at. cbn [base at_off]. rewrite (proj2 (Z.ltb_ge _ _)) by lia.
  destruct (lookup_lt_is_Some_2 b (Z.to_nat (o + i))) as [x Hx]; [lia|]. by rewrite nth_lookup, Hx.
Qed.

Lemma rd32_range b o : bytes_ok b -> is_u32 (rd32 b o).
Proof.
  intros Hb. unfold rd32. pose proof (byte_at_u8 b o Hb). pose proof (byte_at_u8 b (o + 1) Hb).
  pose proof (byte_at_u8 b (o + 2) Hb). pose proof (byte_at_u8 b (o + 3) Hb). unfold is_u8, is_u32 in *. lia.
Qed.
Lemma rd64_range b o : bytes_ok b -> 0 <= rd64 b o < 2 ^ 64.
Proof.
  intros Hb. unfold rd64. pose proof (rd32_range b o Hb). pose proof (rd32_range b (o + 4) Hb). unfold is_u32 in *. lia.
Qed.
Lemma be32_range b o : bytes_ok b -> is_u32 (be32 b o).
Proof.
  intros Hb. unfold be32. pose proof (byte_at_u8 b o Hb). pose proof (byte_at_u8 b (o + 1) Hb).
  pose proof (byte_at_u8 b (o + 2) Hb). pose proof (byte_at_u8 b (o + 3) Hb). unfold is_u8, is_u32 in *. lia.
Qed.

(** A byte shifted into a word. *)
Lemma shl32_byte x n : is_u8 x -> 0 <= n <= 24 -> shl32 x n = Z.shiftl x n.
Proof.
  intros Hx Hn. apply u32_id. rewrite Z.shiftl_mul_pow2 by lia. unfold is_u8, is_u32 in *.
  assert (2 ^ n <= 2 ^ 24) by (apply Z.pow_le_mono_r; lia). nia.
Qed.

Lemma lor_bytes x0 x1 x2 x3 : is_u8 x0 -> is_u8 x1 -> is_u8 x2 -> is_u8 x3 ->
  Z.lor (Z.lor (Z.lor x0 (Z.shiftl x1 8)) (Z.shiftl x2 16)) (Z.shiftl x3 24) = x0 + x1 * 2 ^ 8 + x2 * 2 ^ 16 + x3 * 2 ^ 24.
Proof.
  unfold is_u8. intros H0 H1 H2 H3. rewrite (lor_shiftl x0 x1 8), (lor_shiftl _ x2 16), (lor_shiftl _ x3 24) by lia. done.
Qed.

Lemma get_le32_is b o : bytes_ok b -> in_bounds b o 4 -> get_le32 (Ptr b o) = Some (rd32 b o).
Proof.
  intros Hb Ho. unfold get_le32. rewrite !deref_byte by (unfold in_bounds in *; lia). f_equal. rewrite Z.add_0_r. unfold rd32.
  pose proof (byte_at_u8 b o Hb) as H0. pose proof (byte_at_u8 b (o + 1) Hb) as H1.
  pose proof (byte_at_u8 b (o + 2) Hb) as H2. pose proof (byte_at_u8 b (o + 3) Hb) as H3.
  rewrite (shl32_byte _ 8 H1 ltac:(lia)), (shl32_byte _ 16 H2 ltac:(lia)), (shl32_byte _ 24 H3 ltac:(lia)).
  rewrite lor_bytes by done. lia.
Qed.
Lemma get_be32_is b o : bytes_ok b -> in_bounds b o 4 -> get_be32 (Ptr b o) = Some (be32 b o).
Proof.
  intros Hb Ho. unfold get_be32. rewrite !deref_byte by (unfold in_bounds in *; lia). f_equal. rewrite Z.add_0_r. unfold be32.
  pose proof (byte_at_u8 b o Hb) as H0. pose proof (byte_at_u8 b (o + 1) Hb) as H1.
  pose proof (byte_at_u8 b (o + 2) Hb) as H2. pose proof (byte_at_u8 b (o + 3) Hb) as H3.
  rewrite (shl32_byte _ 24 H0 ltac:(lia)), (shl32_byte _ 16 H1 ltac:(lia)), (shl32_byte _ 8 H2 ltac:(lia)).
  match goal with |- Z.lor (Z.lor (Z.lor ?a ?b) ?c) ?d = _ =>
    replace (Z.lor (Z.lor (Z.lor a b) c) d) with (Z.lor (Z.lor (Z.lor d c) b) a)
      by (apply Z.bits_inj'; intros n _; rewrite !Z.lor_spec;
          by destruct (Z.testbit a n), (Z.testbit b n), (Z.testbit c n), (Z.testbit d n)) end.
  rewrite lor_bytes by done. lia.
Qed.

(** [n] bytes, the lowest first. *)
Fixpoint le_value (n : nat) (b : list Z) (o : Z) : Z :=
  match n with O => 0 | S n => byte_at b o + 2 ^ 8 * le_value n b (o + 1) end.
Lemma get_le64_loop_is n b o i v : bytes_ok b -> in_bounds b (o + i) (Z.of_nat n) ->
  0 <= i -> i + Z.of_nat n <= 8 -> 0 <= v < 2 ^ (8 * i) ->
  get_le64_loop n i v (Ptr b o) = Some (v + 2 ^ (8 * i) * le_value n b (o + i)).
Proof.
  intros Hb. revert i v. induction n as [|n IH]; intros i v Ho Hi Hn Hv; cbn [get_le64_loop le_value].
  - f_equal. lia.
  - rewrite deref_byte by (unfold in_bounds in *; lia). pose proof (byte_at_u8 b (o + i) Hb) as Hx. unfold is_u8 in Hx.
    assert (2 ^ (8 * i) * 2 ^ 8 = 2 ^ (8 * (i + 1))) as Hpow by (rewrite <- Z.pow_add_r by lia; f_equal; lia).
    assert (2 ^ (8 * (i + 1)) <= 2 ^ 64) by (apply Z.pow_le_mono_r; lia).
    assert (0 <= byte_at b (o + i) * 2 ^ (8 * i) < 2 ^ (8 * (i + 1))) by nia.
    rewrite (Z.mul_comm i 8). rewrite u64_id by (rewrite Z.shiftl_mul_pow2 by lia; unfold is_u64; lia).
    rewrite lor_shiftl by lia. rewrite IH; [|unfold in_bounds in *; lia|lia|lia|].
    2:{ split; [lia|]. nia. }
    f_equal. rewrite <- Hpow. replace (o + (i + 1)) with (o + i + 1) by lia. lia.
Qed.

Lemma get_le64_in b o : bytes_ok b -> in_bounds b o 8 -> get_le64 (Ptr b o) = Some (rd64 b o).
Proof.
  intros Hb Ho. unfold get_le64. rewrite get_le64_loop_is by (try done; rewrite ?Z.add_0_r; done || lia).
  f_equal. unfold rd64, rd32. cbn [le_value]. rewrite Z.add_0_r.
  replace (o + 4 + 1) with (o + 5) by lia. replace (o + 4 + 2) with (o + 6) by lia. replace (o + 4 + 3) with (o + 7) by lia.
  replace (o + 1 + 1) with (o + 2) by lia. replace (o + 2 + 1) with (o + 3) by lia. replace (o + 3 + 1) with (o + 4) by lia.
  replace (o + 4 + 1) with (o + 5) by lia. replace (o + 5 + 1) with (o + 6) by lia. replace (o + 6 + 1) with (o + 7) by lia. lia.
Qed.

(** ** Comparing UUIDs *)

Lemma equal_loop_spec n : forall i b o c p,
  in_bounds b (o + i) (Z.of_nat n) -> in_bounds c (p + i) (Z.of_nat n) ->
  equal_loop n i (Ptr b o) (Ptr c p)
  = Some (bool_decide (take n (drop (Z.to_nat (o + i)) b) = take n (drop (Z.to_nat (p + i)) c))).
Proof.
  induction n as [|n IH]; intros i b o c p Hb Hc; [done|].
  simpl equal_loop.
  destruct (deref_in b o i) as [v Ev]; [unfold in_bounds in *; lia|].
  destruct (deref_in c p i) as [w Ew]; [unfold in_bounds in *; lia|].
  rewrite Ev, Ew. unfold deref, ld8 in Ev, Ew. simpl in Ev, Ew.
  destruct (Z.ltb_spec (o + i) 0); [done|]. destruct (Z.ltb_spec (p + i) 0); [done|].
  rewrite (drop_S _ _ _ Ev), (drop_S _ _ _ Ew). simpl take.
  destruct (Z.eqb_spec v w) as [->|Hne].
  - rewrite IH by (unfold in_bounds in *; lia).
    replace (Z.to_nat (o + (i + 1))) with (S (Z.to_nat (o + i))) by lia.
    replace (Z.to_nat (p + (i + 1))) with (S (Z.to_nat (p + i))) by lia.
    f_equal. apply bool_decide_ext. split; [by intros -> | by intros [=]].
  - rewrite bool_decide_eq_false_2; [done|]. by intros [=].
Qed.

Lemma uuid_equal_spec b o c p :
  in_bounds b o 16 -> in_bounds c p 16 ->
  uuid_equal (Ptr b o) (Ptr c p) = Some (bool_decide (uuid_at b o = uuid_at c p)).
Proof.
  intros Hb Hc. unfold uuid_equal. rewrite equal_loop_spec.
  - by rewrite !Z.add_0_r.
  - by rewrite Z.add_0_r.
  - by rewrite Z.add_0_r.
Qed.

(** Comparison with a sixteen-byte constant. *)
Lemma uuid_equal_const b o u :
  in_bounds b o 16 -> length u = 16%nat ->
  uuid_equal (Ptr b o) (Ptr u 0) = Some (bool_decide (uuid_at b o = u)).
Proof.
  intros Hb Hu. rewrite uuid_equal_spec; [|done | unfold in_bounds; lia].
  f_equal. apply bool_decide_ext. unfold uuid_at at 2.
  change (drop (Z.to_nat 0) u) with u. by rewrite (take_ge u 16) by lia.
Qed.

Lemma uuid_is_null_spec b o :
  in_bounds b o 16 ->
  uuid_is_null (Ptr b o) = Some (bool_decide (uuid_at b o = null_uuid)).
Proof. intros. by apply uuid_equal_const. Qed.

(** ** The description of a well-formed FIP *)

(** The bytes [[o1, o1 + s1)] and [[o2, o2 + s2)] do not meet. *)
Definition disjoint (o1 s1 o2 s2 : Z) : Prop := o1 + s1 <= o2 \/ o2 + s2 <= o1.

(** Entry [i] is a payload entry inside an image of [image_size] bytes. *)
Definition entry_valid (b : list Z) (image_size : Z) (i : Z) : Prop :=
  e_uuid b i <> null_uuid /\ 0 < e_size b i /\ e_off b i + e_size b i <= image_size.

(** Two entries differ in UUID and in the bytes they name. *)
Definition entries_apart (b : list Z) (i j : Z) : Prop :=
  e_uuid b i <> e_uuid b j /\
  disjoint (e_off b i) (e_size b i) (e_off b j) (e_size b j).

(** The first [k] entries, as the loop has checked them. *)
Definition prefix_valid (b : list Z) (image_size k : Z) : Prop :=
  (forall i, 0 <= i < k -> entry_valid b image_size i) /\
  (forall i j, 0 <= i < j -> j < k -> entries_apart b i j).

(** [img] is the range of the entry with UUID [u] among the first [k]. *)
Definition slot (b : list Z) (k : Z) (u : list Z) (img : sunxi_fip_image) : Prop :=
  exists i, 0 <= i < k /\ e_uuid b i = u /\ img = Image (e_off b i) (e_size b i).

Definition no_slot (b : list Z) (k : Z) (u : list Z) : Prop :=
  forall i, 0 <= i < k -> e_uuid b i <> u.

(** *** The payloads *)

(** The SCP firmware of [s] bytes at [o]: word-aligned, and it begins with the
    six instructions of its entry that boot0 checks (the CSR write, the trace
    store and the prologue, two of them compressed). *)
Record scp_image (b : list Z) (o s : Z) : Prop := {
  scp_aligned : (4 | o);
  scp_large : 64 <= s;
  scp_entry : forall i w,
    [0x30047073; 0x070902b7; 0x11c28293; 0xe9020337; 0xa0230305; 0x40810062] !! i = Some w ->
    rd32 b (o + 4 * Z.of_nat i) = w
}.

(** The monitor: a branch over a header of 4096 bytes that says "monitor" and
    the address it is linked at, and code behind it that is neither all zeros
    nor erased flash. *)
Record monitor_image (b : list Z) (o s : Z) : Prop := {
  mon_large : 0x1004 <= s;
  mon_branch : rd32 b o = 0xea0003fe;
  mon_name : take 8 (drop (Z.to_nat (o + 4)) b) = [0x6d; 0x6f; 0x6e; 0x69; 0x74; 0x6f; 0x72; 0];
  mon_address : rd32 b (o + 0x2c) = 0x48000000;
  mon_code : rd32 b (o + 0x1000) <> 0 /\ rd32 b (o + 0x1000) <> 0xffffffff
}.

(** U-Boot: an unconditional branch, by [k] words from the second word behind
    it, to a word inside the image. *)
Record uboot_image (b : list Z) (o s : Z) : Prop := {
  ub_large : 64 <= s;
  ub_branch : exists k, - 2 ^ 23 <= k < 2 ^ 23 /\ rd32 b o = 0xea * 2 ^ 24 + k mod 2 ^ 24 /\
    0 <= 8 + 4 * k /\ 8 + 4 * k + 4 <= s
}.

(** The device tree: a header of the versions 16 and 17 (version 17 or a later
    one that is compatible with it, the Devicetree Specification, section 5.2)
    for exactly [s] bytes, each of the three blocks inside them. *)
Record config_image (b : list Z) (o s : Z) : Prop := {
  cfg_large : 40 <= s;
  cfg_magic : be32 b o = 0xd00dfeed;
  cfg_total : be32 b (o + 4) = s;
  cfg_version : 16 <= be32 b (o + 20) <= 17;
  cfg_compatible : be32 b (o + 24) <= 17;
  cfg_reserve : 40 <= be32 b (o + 16) /\ be32 b (o + 16) + 16 <= s /\ (8 | be32 b (o + 16));
  cfg_struct : 40 <= be32 b (o + 8) /\ be32 b (o + 8) + be32 b (o + 36) <= s;
  cfg_strings : 40 <= be32 b (o + 12) /\ be32 b (o + 12) + be32 b (o + 32) <= s
}.

(** Each image fits the window it is loaded to. *)
Definition fits_windows (l : sunxi_fip_layout) : Prop :=
  size (bl31 l) <= 0x100000 /\ size (bl33 l) <= 0x180000 /\
  size (scp_bl2 l) <= 0x28000 /\ size (hw_config l) <= 0x100000.

(** A FIP image of [image_size] bytes whose table has [n] payload entries and
    whose layout is [l]. *)
Record fip_valid (b : list Z) (image_size n : Z) (l : sunxi_fip_layout) : Prop := {
  fv_count : 0 <= n < FIP_MAX_TOC_ENTRIES;
  fv_size : entry_pos (n + 1) <= image_size <= SUNXI_FIP_MAX_SIZE;
  fv_name : rd32 b 0 = FIP_TOC_HEADER_NAME;
  fv_serial : rd32 b 4 = FIP_TOC_SERIAL_NUMBER;
  fv_prefix : prefix_valid b image_size n;
  fv_null : e_uuid b n = null_uuid;
  fv_end : e_size b n = 0 /\ e_flags b n = 0;
  fv_fip_size : entry_pos (n + 1) <= e_off b n <= image_size;
  fv_payload : forall i, 0 <= i < n ->
    entry_pos (n + 1) <= e_off b i /\ e_off b i + e_size b i <= e_off b n;
  fv_scp : slot b n scp_bl2_uuid (scp_bl2 l);
  fv_bl31 : slot b n bl31_uuid (bl31 l);
  fv_bl33 : slot b n bl33_uuid (bl33 l);
  fv_hw : (slot b n hw_config_uuid (hw_config l) /\
           config_image b (offset (hw_config l)) (size (hw_config l))) \/
          (no_slot b n hw_config_uuid /\ hw_config l = Image 0 0);
  fv_fits : fits_windows l;
  fv_scp_image : scp_image b (offset (scp_bl2 l)) (size (scp_bl2 l));
  fv_monitor : monitor_image b (offset (bl31 l)) (size (bl31 l));
  fv_uboot : uboot_image b (offset (bl33 l)) (size (bl33 l))
}.

(** ** The per-entry checks decide the description *)

Lemma entry_pos_S i : entry_pos (i + 1) = entry_pos i + 40.
Proof. unfold entry_pos, FIP_HEADER_SIZE, FIP_ENTRY_SIZE. lia. Qed.

Lemma entry_pos_mono i k : 0 <= i < k -> 16 <= entry_pos i /\ entry_pos i + 40 <= entry_pos k.
Proof. unfold entry_pos, FIP_HEADER_SIZE, FIP_ENTRY_SIZE. lia. Qed.

Section Parser.
Context (b : list Z) (image_size : Z).
Hypothesis Hbytes : bytes_ok b.
Hypothesis Hsize : image_size <= Z.of_nat (length b).
Hypothesis Hmax : image_size <= SUNXI_FIP_MAX_SIZE.

Lemma entry_bounds i k m n :
  0 <= i < k -> entry_pos k <= image_size -> 0 <= m -> m + n <= 40 ->
  in_bounds b (entry_pos i + m) n.
Proof. intros Hi Hk Hm Hn. pose proof (entry_pos_mono i k Hi). unfold in_bounds. lia. Qed.

Lemma get_e_off i : 0 <= i -> entry_pos (i + 1) <= image_size ->
  get_le64 (padd (Ptr b (entry_pos i)) 16) = Some (e_off b i).
Proof. intros. apply get_le64_in; [done|]. apply (entry_bounds i (i + 1)); lia. Qed.

Lemma get_e_size i : 0 <= i -> entry_pos (i + 1) <= image_size ->
  get_le64 (padd (Ptr b (entry_pos i)) 24) = Some (e_size b i).
Proof. intros. apply get_le64_in; [done|]. apply (entry_bounds i (i + 1)); lia. Qed.

Lemma get_e_flags i : 0 <= i -> entry_pos (i + 1) <= image_size ->
  get_le64 (padd (Ptr b (entry_pos i)) 32) = Some (e_flags b i).
Proof. intros. apply get_le64_in; [done|]. apply (entry_bounds i (i + 1)); lia. Qed.

Lemma uuid_bounds i : 0 <= i -> entry_pos (i + 1) <= image_size -> in_bounds b (entry_pos i) 16.
Proof.
  intros. rewrite <- (Z.add_0_r (entry_pos i)). apply (entry_bounds i (i + 1)); lia.
Qed.

Lemma entry_in_buffer_spec i : 0 <= i -> entry_pos (i + 1) <= image_size ->
  entry_in_buffer (Ptr b (entry_pos i)) image_size
  = Some (bool_decide (0 < e_size b i /\ e_off b i + e_size b i <= image_size)).
Proof.
  intros Hi Hp. unfold entry_in_buffer. rewrite get_e_off, get_e_size by done. f_equal.
  pose proof (rd64_range b (entry_pos i + 16) Hbytes). fold (e_off b i) in *.
  pose proof (rd64_range b (entry_pos i + 24) Hbytes). fold (e_size b i) in *.
  symmetry. unfold SUNXI_FIP_MAX_SIZE in *.
  destruct (Z.eqb_spec (e_size b i) 0); [apply bool_decide_eq_false_2; lia|].
  destruct (Z.leb_spec (e_off b i) image_size); [|apply bool_decide_eq_false_2; lia].
  simpl. rewrite u64_id by (unfold is_u64; lia).
  destruct (Z.leb_spec (e_size b i) (image_size - e_off b i));
    [apply bool_decide_eq_true_2 | apply bool_decide_eq_false_2]; lia.
Qed.

Lemma uuid_seen_loop_spec n i k : 0 <= i -> i + Z.of_nat n = k ->
  entry_pos (k + 1) <= image_size ->
  exists r, uuid_seen_loop n i b (Ptr b (entry_pos k)) = Some r /\
    (r = false <-> forall j, i <= j < k -> e_uuid b j <> e_uuid b k).
Proof.
  revert i. induction n as [|n IH]; intros i Hi Hk Hp; simpl uuid_seen_loop.
  - exists false. split; [done|]. split; [lia | done].
  - unfold toc_entry. fold (entry_pos i).
    pose proof (entry_pos_mono i (k + 1) ltac:(lia)).
    pose proof (entry_pos_mono (i + 1) (k + 1) ltac:(lia)).
    rewrite uuid_equal_spec by (apply uuid_bounds; lia).
    fold (e_uuid b i) (e_uuid b k). case_bool_decide as Heq.
    + exists true. split; [done|]. split; [done|]. intros Hj. by destruct (Hj i); [lia|].
    + destruct (IH (i + 1)) as (r & -> & Hr); [lia | lia | done |].
      exists r. split; [done|]. rewrite Hr. split; intros Hj j Hjk.
      * destruct (Z.eq_dec j i) as [->|]; [done|]. apply Hj. lia.
      * apply Hj. lia.
Qed.

Lemma overlaps_loop_spec n i k : 0 <= i -> i + Z.of_nat n = k ->
  entry_pos (k + 1) <= image_size ->
  (forall j, 0 <= j <= k -> e_off b j + e_size b j <= image_size /\ 0 < e_size b j) ->
  exists r, overlaps_loop n i b (e_off b k) (e_off b k + e_size b k) = Some r /\
    (r = false <-> forall j, i <= j < k ->
       disjoint (e_off b j) (e_size b j) (e_off b k) (e_size b k)).
Proof.
  revert i. induction n as [|n IH]; intros i Hi Hk Hp Hin; simpl overlaps_loop.
  - exists false. split; [done|]. split; [lia | done].
  - unfold toc_entry. fold (entry_pos i).
    pose proof (entry_pos_mono i (k + 1) ltac:(lia)).
    pose proof (entry_pos_mono (i + 1) (k + 1) ltac:(lia)).
    rewrite entry_pos_S in *.
    rewrite get_e_off, get_e_size by (rewrite ?entry_pos_S; lia).
    pose proof (Hin i ltac:(lia)). pose proof (Hin k ltac:(lia)).
    pose proof (rd64_range b (entry_pos i + 16) Hbytes). fold (e_off b i) in *.
    unfold SUNXI_FIP_MAX_SIZE in *. rewrite u64_id by (unfold is_u64; lia).
    destruct ((e_off b k <? e_off b i + e_size b i) &&
              (e_off b i <? e_off b k + e_size b k)) eqn:E.
    + exists true. split; [done|]. split; [done|].
      apply andb_true_iff in E as [?%Z.ltb_lt ?%Z.ltb_lt].
      intros Hj. destruct (Hj i); lia.
    + destruct (IH (i + 1)) as (r & -> & Hr); [lia | lia | lia | done |].
      exists r. split; [done|]. rewrite Hr. apply andb_false_iff in E.
      rewrite !Z.ltb_ge in E. split; intros Hj j Hjk.
      * destruct (Z.eq_dec j i) as [->|]; [unfold disjoint; lia|]. apply Hj. lia.
      * apply Hj. lia.
Qed.
End Parser.

(** ** The image checks read inside the image they check, and decide its
    description *)

(** The top byte of a word, and its low 24 bits as a signed number. *)
Lemma top_byte v c : is_u32 v -> 0 <= c -> Z.land v (Z.shiftl 0xff 24) = Z.shiftl c 24 <-> v / 2 ^ 24 = c.
Proof.
  intros Hv Hc. assert (Z.land v (Z.shiftl 0xff 24) = Z.shiftl (v / 2 ^ 24) 24) as ->.
  { rewrite <- Z.shiftr_div_pow2 by lia. apply Z.bits_inj'. intros n Hn. rewrite Z.land_spec, !Z.shiftl_spec by lia.
    destruct (Z.ltb_spec n 24).
    - rewrite (Z.testbit_neg_r 0xff), (Z.testbit_neg_r (Z.shiftr v 24)) by lia. apply andb_false_r.
    - rewrite Z.shiftr_spec by lia. replace (n - 24 + 24) with n by lia.
      destruct (Z.ltb_spec n 32).
      + change 0xff with (Z.ones 8). rewrite Z.testbit_ones_nonneg by lia. rewrite (proj2 (Z.ltb_lt (n - 24) 8)) by lia. apply andb_true_r.
      + by rewrite (testbit_is_u32 v n Hv). }
  rewrite !Z.shiftl_mul_pow2 by lia. split; [|by intros ->]. intros E. lia.
Qed.
Lemma bit_23 x : 0 <= x < 2 ^ 24 -> Z.land x 0x00800000 = 0 <-> x < 2 ^ 23.
Proof.
  intros Hx. assert (Z.land x 0x00800000 = if Z.testbit x 23 then 2 ^ 23 else 0) as ->.
  { apply Z.bits_inj'. intros n Hn. rewrite Z.land_spec. change 0x00800000 with (2 ^ 23). rewrite Z.pow2_bits_eqb by lia.
    destruct (Z.eqb_spec 23 n) as [<-|]; [|destruct (Z.testbit x 23); rewrite ?Z.pow2_bits_eqb, ?Z.bits_0 by lia; rewrite andb_false_r; [symmetry; by apply Z.eqb_neq|done]].
    rewrite andb_true_r. destruct (Z.testbit x 23); rewrite ?Z.pow2_bits_eqb by lia; done. }
  destruct (Z.testbit x 23) eqn:E.
  - apply Z.testbit_true in E; [|lia]. split; [lia|]. intros Hlt. rewrite Z.div_small in E by lia. done.
  - apply Z.testbit_false in E; [|lia]. split; [intros _|done]. destruct (Z.lt_ge_cases x (2 ^ 23)) as [|Hge]; [done|].
    assert (x / 2 ^ 23 = 1) as Hq by (symmetry; apply Z.div_unique with (x - 2 ^ 23); lia). by rewrite Hq in E.
Qed.

Section Checks.
Context (b : list Z).
Hypothesis Hbytes : bytes_ok b.

(** A read of the image at [o] of [s] bytes. *)
Lemma le32_img o s m : in_bounds b o s -> 0 <= m -> m + 4 <= s -> get_le32 (padd (Ptr b o) m) = Some (rd32 b (o + m)).
Proof. intros Ho Hm Hs. apply (get_le32_is b (o + m)); [done|]. unfold in_bounds in *. lia. Qed.
Lemma le32_img0 o s : in_bounds b o s -> 4 <= s -> get_le32 (Ptr b o) = Some (rd32 b o).
Proof. intros Ho Hs. apply get_le32_is; [done|]. unfold in_bounds in *. lia. Qed.
Lemma be32_img o s m : in_bounds b o s -> 0 <= m -> m + 4 <= s -> get_be32 (padd (Ptr b o) m) = Some (be32 b (o + m)).
Proof. intros Ho Hm Hs. apply (get_be32_is b (o + m)); [done|]. unfold in_bounds in *. lia. Qed.

(** A check gives an answer, the right one. *)
Definition decides (c : option bool) (P : Prop) : Prop := exists t, c = Some t /\ (t = true <-> P).
Lemma decides_and c d P Q : decides c P -> decides d Q -> decides (c &&? d) (P /\ Q).
Proof.
  intros (t & -> & Ht) (u & -> & Hu). destruct t; cbn; [exists u|exists false]; (split; [done|]); naive_solver.
Qed.
Lemma decides_eq x v : decides (eq_at (Some x) v) (x = v).
Proof. exists (x =? v). split; [done|]. apply Z.eqb_eq. Qed.
Lemma decides_iff c P Q : decides c P -> (P <-> Q) -> decides c Q.
Proof. intros (t & -> & Ht) E. exists t. split; [done|]. by rewrite Ht. Qed.
Lemma decides_no P : ~ P -> decides (Some false) P.
Proof. intros HP. exists false. by split. Qed.

Lemma low_bits_divide o n : 0 <= n -> Z.land o (2 ^ n - 1) = 0 <-> (2 ^ n | o).
Proof.
  intros Hn. assert (2 ^ n - 1 = Z.ones n) as -> by (rewrite Z.ones_equiv; lia).
  rewrite Z.land_ones by done. rewrite Z.mod_divide; [done|]. assert (0 < 2 ^ n) by (apply Z.pow_pos_nonneg; lia). lia.
Qed.

Lemma scp_bl2_decides img : in_bounds b (offset img) (size img) ->
  decides (scp_bl2_is_valid b img) (scp_image b (offset img) (size img)).
Proof.
  intros Ho. unfold scp_bl2_is_valid, SCP_BL2_MIN_SIZE. destruct img as [o s]. cbn [offset size] in *.
  assert (Z.land o (4 - 1) = 0 <-> (4 | o)) as Hal by apply (low_bits_divide o 2 ltac:(lia)).
  destruct (Z.eqb_spec (Z.land o (4 - 1)) 0) as [Ha|Ha]; cbn [negb orb]; [|apply decides_no; intros []; tauto].
  destruct (Z.ltb_spec s 64) as [Hs|Hs]; [apply decides_no; intros []; lia|].
  rewrite (le32_img0 o s), !(le32_img o s) by (done || lia). eapply decides_iff.
  { repeat apply decides_and; apply decides_eq. }
  split.
  - intros (((((H0 & H1) & H2) & H3) & H4) & H5). split; [tauto|done|]. intros i w Hi.
    do 6 (destruct i as [|i]; [injection Hi as <-; rewrite ?Z.add_0_r; assumption|]). done.
  - intros [_ _ H]. rewrite <- (Z.add_0_r o) at 1. split_and!; [apply (H 0%nat)|apply (H 1%nat)|apply (H 2%nat)|apply (H 3%nat)|apply (H 4%nat)|apply (H 5%nat)]; reflexivity.
Qed.

Lemma bl31_decides img : in_bounds b (offset img) (size img) ->
  decides (bl31_is_valid b img) (monitor_image b (offset img) (size img)).
Proof.
  intros Ho. unfold bl31_is_valid, BL31_MIN_SIZE, BL31_MONITOR_HEADER_SIZE, BL31_MONITOR_LOAD_ADDRESS_OFFSET.
  destruct img as [o s]. cbn [offset size] in *.
  destruct (Z.ltb_spec s (0x1000 + 4)) as [Hs|Hs]; [apply decides_no; intros []; lia|].
  rewrite !(le32_img o s), (le32_img0 o s) by (done || lia).
  assert (bytes_equal (padd (Ptr b o) 4) (Ptr monitor_magic 0) 8 =
    Some (bool_decide (take 8 (drop (Z.to_nat (o + 4)) b) = monitor_magic))) as ->.
  { unfold bytes_equal, padd. cbn [base at_off]. rewrite equal_loop_spec by (unfold in_bounds in *; cbn; lia). by rewrite !Z.add_0_r. }
  eapply decides_iff.
  { repeat apply decides_and; [apply decides_eq| |apply decides_eq|].
    - eexists. split; [reflexivity|]. apply bool_decide_eq_true.
    - eexists. split; [reflexivity|]. rewrite andb_true_iff, !negb_true_iff, !Z.eqb_neq. reflexivity. }
  split; [intros (((H0 & H1) & H2) & H3); by split|by intros []].
Qed.

Lemma bl33_decides img : in_bounds b (offset img) (size img) ->
  decides (bl33_is_valid b img) (uboot_image b (offset img) (size img)).
Proof.
  intros Ho. unfold bl33_is_valid, BL33_MIN_SIZE. destruct img as [o s]. cbn [offset size] in *.
  destruct (Z.ltb_spec s 64) as [Hs|Hs]; [apply decides_no; intros []; lia|].
  rewrite (le32_img0 o s) by (done || lia). pose proof (rd32_range b o Hbytes) as Hv. set (v := rd32 b o) in *.
  assert (Z.land v ARM_BRANCH_OPCODE_MASK = ARM_BRANCH_OPCODE <-> v / 2 ^ 24 = 0xea) as Htop by (by apply (top_byte v 0xea)).
  assert (v = 2 ^ 24 * (v / 2 ^ 24) + v mod 2 ^ 24) as Hsplit by (apply Z.div_mod; lia).
  assert (0 <= v mod 2 ^ 24 < 2 ^ 24) as Him by (apply Z.mod_pos_bound; lia).
  destruct (Z.eqb_spec (Z.land v ARM_BRANCH_OPCODE_MASK) ARM_BRANCH_OPCODE) as [Hop|Hop]; cbn [negb]; cycle 1.
  { apply decides_no. intros [_ (k & Hk & E & _)]. apply Hop, Htop. unfold v. rewrite E.
    assert (0 <= k mod 2 ^ 24 < 2 ^ 24) by (apply Z.mod_pos_bound; lia). symmetry. apply Z.div_unique with (k mod 2 ^ 24); lia. }
  apply Htop in Hop. assert (Z.land v 0x00ffffff = v mod 2 ^ 24) as -> by (apply (Z.land_ones v 24); lia).
  assert (s32 (v mod 2 ^ 24) = v mod 2 ^ 24) as ->.
  { unfold s32. rewrite u32_id by (unfold is_u32; lia). by rewrite (proj2 (Z.ltb_lt _ _)) by lia. }
  cbv zeta. pose proof (bit_23 _ Him) as Hbit.
  set (k := if negb (Z.land (v mod 2 ^ 24) 0x00800000 =? 0) then v mod 2 ^ 24 - 0x01000000 else v mod 2 ^ 24).
  assert (- 2 ^ 23 <= k < 2 ^ 23 /\ v = 0xea * 2 ^ 24 + k mod 2 ^ 24) as [Hk E].
  { unfold k. destruct (Z.eqb_spec (Z.land (v mod 2 ^ 24) 0x00800000) 0) as [H0|H0]; cbn [negb].
    - rewrite Z.mod_mod by lia. lia.
    - assert ((v mod 2 ^ 24 - 0x01000000) mod 2 ^ 24 = v mod 2 ^ 24) as ->; [|lia].
      symmetry. apply Z.mod_unique with (-1); lia. }
  assert (forall k', - 2 ^ 23 <= k' < 2 ^ 23 -> v = 0xea * 2 ^ 24 + k' mod 2 ^ 24 -> k' = k) as Huniq.
  { intros k' Hk' E'. assert (k' mod 2 ^ 24 = k mod 2 ^ 24) as Hm by lia.
    pose proof (Z.div_mod k' (2 ^ 24) ltac:(lia)). pose proof (Z.div_mod k (2 ^ 24) ltac:(lia)). lia. }
  clearbody k. eexists. split; [reflexivity|]. rewrite andb_true_iff, !Z.leb_le. split.
  - intros [H0 H1]. rewrite !u64_id in H1 by (rewrite ?u64_id; unfold is_u64; lia). split; [done|]. exists k. lia.
  - intros [_ (k' & Hk' & E' & H0 & H1)]. rewrite (Huniq k' Hk' E') in *. rewrite !u64_id by (rewrite ?u64_id; unfold is_u64; lia). lia.
Qed.

Lemma hw_config_decides o s : in_bounds b o s -> s < 2 ^ 32 ->
  decides (hw_config_is_valid (Some (Ptr b o)) s) (config_image b o s).
Proof.
  intros Ho Hmax. unfold hw_config_is_valid, FDT_HEADER_SIZE, FDT_MAGIC, FDT_FIRST_SUPPORTED_VERSION, FDT_LAST_SUPPORTED_VERSION.
  destruct (Z.ltb_spec s 40) as [Hs|Hs]; [apply decides_no; intros []; lia|].
  rewrite (get_be32_is b o) by (done || (unfold in_bounds in *; lia)). rewrite !(be32_img o s) by (done || lia).
  destruct (Z.eqb_spec (be32 b o) 0xd00dfeed) as [Hm|Hm]; cbn [negb]; [|apply decides_no; by intros []].
  eexists. split; [reflexivity|]. rewrite !andb_true_iff, !Z.leb_le, !Z.eqb_eq.
  assert (Z.land (be32 b (o + 16)) 7 = 0 <-> (8 | be32 b (o + 16))) as Hal by apply (low_bits_divide _ 3 ltac:(lia)).
  pose proof (be32_range b (o + 8) Hbytes). pose proof (be32_range b (o + 12) Hbytes). unfold is_u32 in *. split.
  - intros H13. destruct_and! H13. assert (be32 b (o + 4) = s) as E by done. rewrite E in *.
    repeat match goal with H : _ <= u32 _ |- _ => rewrite u32_id in H by (unfold is_u32; lia) end.
    constructor; first [done | lia | split_and!; first [lia|tauto]].
  - pose proof (be32_range b (o + 36) Hbytes). pose proof (be32_range b (o + 32) Hbytes). unfold is_u32 in *.
    intros [_ _ E [? ?] ? (? & ? & ?) [? ?] [? ?]]. rewrite E. rewrite !u32_id by (unfold is_u32; lia).
    repeat split; first [lia | tauto].
Qed.

(** The layout, once its images lie in the package. *)
Definition loadable (l : sunxi_fip_layout) : Prop :=
  fits_windows l /\ scp_image b (offset (scp_bl2 l)) (size (scp_bl2 l)) /\
  monitor_image b (offset (bl31 l)) (size (bl31 l)) /\ uboot_image b (offset (bl33 l)) (size (bl33 l)).

Lemma layout_decides l :
  in_bounds b (offset (scp_bl2 l)) (size (scp_bl2 l)) ->
  in_bounds b (offset (bl31 l)) (size (bl31 l)) ->
  in_bounds b (offset (bl33 l)) (size (bl33 l)) ->
  decides (layout_is_loadable b l) (loadable l).
Proof.
  intros H1 H2 H3. unfold layout_is_loadable. eapply decides_iff.
  { repeat apply decides_and; [|by apply scp_bl2_decides|by apply bl31_decides|by apply bl33_decides].
    eexists. split; [reflexivity|]. rewrite !andb_true_iff, !Z.leb_le. reflexivity. }
  unfold loadable, fits_windows, SUNXI_FIP_BL31_MAX_SIZE, SUNXI_FIP_BL33_MAX_SIZE, SUNXI_FIP_SCP_BL2_MAX_SIZE, SUNXI_FIP_HW_CONFIG_MAX_SIZE. tauto.
Qed.
End Checks.

(** ** The parser's loop state *)

Definition slot_state (b : list Z) (k : Z) (u : list Z) (f : bool)
  (img : sunxi_fip_image) : Prop :=
  if f then slot b k u img else no_slot b k u /\ img = Image 0 0.

(** The loop variables after the first [k] entries. *)
Record scan_ok (b : list Z) (k : Z) (st : parse_state) : Prop := {
  so_start : forall m, m <= 2 ^ 64 - 1 ->
    (m <= payload_start st <-> forall i, 0 <= i < k -> m <= e_off b i);
  so_stop : forall m, 0 <= m ->
    (payload_end st <= m <-> forall i, 0 <= i < k -> e_off b i + e_size b i <= m);
  so_found : 0 <= found st < 16;
  so_scp : slot_state b k scp_bl2_uuid (Z.testbit (found st) 0) (scp_bl2 (layout st));
  so_bl31 : slot_state b k bl31_uuid (Z.testbit (found st) 1) (bl31 (layout st));
  so_bl33 : slot_state b k bl33_uuid (Z.testbit (found st) 2) (bl33 (layout st));
  so_hw : slot_state b k hw_config_uuid (Z.testbit (found st) 3) (hw_config (layout st))
}.

Lemma scan_ok_init b : scan_ok b 0 parse_init.
Proof.
  split; simpl; try (intros; split; lia); try lia; (split; [intros ?; lia | done]).
Qed.

Lemma slot_state_other b k u f img :
  e_uuid b k <> u -> slot_state b k u f img -> slot_state b (k + 1) u f img.
Proof.
  intros Hu. destruct f; simpl.
  - intros (i & Hi & Hiu & ->). exists i. split; [lia | done].
  - intros [Hno ->]. split; [|done]. intros i Hi.
    destruct (Z.eq_dec i k) as [->|]; [done|]. apply Hno. lia.
Qed.

Lemma slot_state_hit b k :
  0 <= k -> slot_state b (k + 1) (e_uuid b k) true (Image (e_off b k) (e_size b k)).
Proof. intros Hk. exists k. split; [lia | done]. Qed.

Lemma found_bits f :
  0 <= f < 16 ->
  (Z.land f FIP_FOUND_REQUIRED =? FIP_FOUND_REQUIRED)
    = Z.testbit f 0 && Z.testbit f 1 && Z.testbit f 2 /\
  (Z.land f FIP_FOUND_HW_CONFIG =? 0) = negb (Z.testbit f 3).
Proof.
  intros Hf. assert (f ∈ zrange 0 16) as Hin by (apply elem_of_zrange; lia).
  clear Hf. revert f Hin. apply Forall_forall. repeat constructor.
Qed.

(** The bits of [found | bit]. *)
Lemma found_set f bit :
  0 <= f < 16 -> 0 <= bit < 4 ->
  0 <= Z.lor f (2 ^ bit) < 16 /\
  forall k, 0 <= k < 4 -> Z.testbit (Z.lor f (2 ^ bit)) k = Z.testbit f k || (k =? bit).
Proof.
  intros Hf Hb. split.
  - assert (Forall (fun f => Forall (fun bit => 0 <= Z.lor f (2 ^ bit) < 16) (zrange 0 4))
              (zrange 0 16)) as H.
    { repeat constructor; discriminate. }
    rewrite Forall_forall in H. specialize (H f (proj2 (elem_of_zrange 0 16 f) ltac:(lia))).
    rewrite Forall_forall in H. apply H. apply elem_of_zrange. lia.
  - intros k Hk. rewrite Z.lor_spec, Z.pow2_bits_eqb by lia. by rewrite Z.eqb_sym.
Qed.

(** ** One iteration *)

Section Iteration.
Context (b : list Z) (image_size : Z).
Hypothesis Hbytes : bytes_ok b.
Hypothesis Hsize : image_size <= Z.of_nat (length b).
Hypothesis Hmax : image_size <= SUNXI_FIP_MAX_SIZE.

Lemma set_image_spec k :
  0 <= k -> entry_pos (k + 1) <= image_size -> entry_valid b image_size k ->
  set_image (Ptr b (entry_pos k)) = Some (Image (e_off b k) (e_size b k)).
Proof.
  intros Hk Hp (_ & Hs & Hin). unfold set_image.
  rewrite (get_e_off b image_size), (get_e_size b image_size) by done.
  pose proof (rd64_range b (entry_pos k + 16) Hbytes). fold (e_off b k) in *.
  unfold SUNXI_FIP_MAX_SIZE, size_t in *.
  by rewrite !u32_small by lia.
Qed.

(** Every slot other than the one the entry fills keeps its meaning. *)
Lemma classify_spec k st :
  0 <= k -> entry_pos (k + 1) <= image_size -> entry_valid b image_size k ->
  0 <= found st < 16 ->
  slot_state b k scp_bl2_uuid (Z.testbit (found st) 0) (scp_bl2 (layout st)) ->
  slot_state b k bl31_uuid (Z.testbit (found st) 1) (bl31 (layout st)) ->
  slot_state b k bl33_uuid (Z.testbit (found st) 2) (bl33 (layout st)) ->
  slot_state b k hw_config_uuid (Z.testbit (found st) 3) (hw_config (layout st)) ->
  exists st', classify (Ptr b (entry_pos k)) st = Some st' /\
    payload_start st' = payload_start st /\ payload_end st' = payload_end st /\
    0 <= found st' < 16 /\
    slot_state b (k + 1) scp_bl2_uuid (Z.testbit (found st') 0) (scp_bl2 (layout st')) /\
    slot_state b (k + 1) bl31_uuid (Z.testbit (found st') 1) (bl31 (layout st')) /\
    slot_state b (k + 1) bl33_uuid (Z.testbit (found st') 2) (bl33 (layout st')) /\
    slot_state b (k + 1) hw_config_uuid (Z.testbit (found st') 3) (hw_config (layout st')).
Proof.
  intros Hk Hp Hv Hf H1 H2 H3 H4. unfold classify.
  rewrite (set_image_spec k Hk Hp Hv).
  rewrite !(uuid_equal_const b) by (done || by eapply uuid_bounds).
  fold (e_uuid b k).
  pose proof (slot_state_hit b k Hk) as Hit.
  assert (forall u f img, slot_state b k u f img -> e_uuid b k <> u ->
            slot_state b (k + 1) u f img) as Hother
    by (intros; by apply slot_state_other).
  unfold FIP_FOUND_SCP_BL2, FIP_FOUND_BL31, FIP_FOUND_BL33, FIP_FOUND_HW_CONFIG.
  repeat case_bool_decide;
    (eexists; split; [reflexivity|]; cbn [found payload_start payload_end layout
      scp_bl2 bl31 bl33 hw_config set_scp_bl2 set_bl31 set_bl33 set_hw_config]);
    (split; [done|]); (split; [done|]);
    match goal with
    | |- context [Z.lor _ ?bit] =>
        let e := eval vm_compute in (Z.log2 bit) in
        change bit with (2 ^ e);
        destruct (found_set (found st) e Hf ltac:(lia)) as [Hr Hb];
        rewrite !Hb by lia; simpl Z.eqb; rewrite ?orb_true_r, ?orb_false_r
    | _ => idtac
    end;
    (split; [done|]);
    repeat (match goal with |- _ /\ _ => split end);
    first
      [ (* the slot of this entry's UUID *)
        match goal with H : e_uuid b k = ?u |- slot_state _ _ ?u _ _ => by rewrite <- H end
      | apply Hother; [done|];
        match goal with
        | H : e_uuid b k = _ |- _ => rewrite H; discriminate
        | _ => done
        end ].
Qed.

Lemma prefix_valid_S k :
  0 <= k ->
  prefix_valid b image_size (k + 1) <->
  prefix_valid b image_size k /\ entry_valid b image_size k /\
  forall j, 0 <= j < k -> entries_apart b j k.
Proof.
  intros Hk. unfold prefix_valid. split.
  - intros [H1 H2]. split; [split|split].
    + intros i Hi. apply H1. lia.
    + intros i j Hi Hj. apply H2; lia.
    + apply H1. lia.
    + intros j Hj. apply H2; lia.
  - intros [[H1 H2] [H3 H4]]. split.
    + intros i Hi. destruct (Z.eq_dec i k) as [->|]; [done|]. apply H1. lia.
    + intros i j Hi Hj. destruct (Z.eq_dec j k) as [->|]; [by apply H4 | apply H2; lia].
Qed.

(** The loop variables after the bounds of entry [k] are folded in. *)
Lemma scan_bounds k st st' o s :
  0 <= k -> o = e_off b k -> s = e_size b k -> 0 < s -> o + s <= image_size ->
  scan_ok b k st ->
  payload_start st' = (if o <? payload_start st then o else payload_start st) ->
  payload_end st' = (if payload_end st <? u64 (o + s) then u64 (o + s) else payload_end st) ->
  (forall m, m <= 2 ^ 64 - 1 ->
    (m <= payload_start st' <-> forall i, 0 <= i < k + 1 -> m <= e_off b i)) /\
  (forall m, 0 <= m ->
    (payload_end st' <= m <-> forall i, 0 <= i < k + 1 -> e_off b i + e_size b i <= m)).
Proof.
  intros Hk -> -> Hpos Hin [Hstart Hstop _ _ _ _ _] -> ->.
  pose proof (rd64_range b (entry_pos k + 16) Hbytes). fold (e_off b k) in *.
  unfold SUNXI_FIP_MAX_SIZE in *. rewrite u64_id by (unfold is_u64; lia).
  split; intros m Hm.
  - specialize (Hstart m Hm). split.
    + intros Hle i Hi. assert (m <= payload_start st /\ m <= e_off b k) as [Hle' ?] by (zbool; lia).
      destruct (Z.eq_dec i k) as [->|]; [done|]. apply Hstart; [done | lia].
    + intros Hall. assert (m <= e_off b k) by (apply Hall; lia).
      assert (m <= payload_start st) by (apply Hstart; intros; apply Hall; lia).
      zbool; lia.
  - specialize (Hstop m Hm). split.
    + intros Hle i Hi.
      assert (payload_end st <= m /\ e_off b k + e_size b k <= m) as [Hle' ?] by (zbool; lia).
      destruct (Z.eq_dec i k) as [->|]; [done|]. apply Hstop; [done | lia].
    + intros Hall. assert (e_off b k + e_size b k <= m) by (apply Hall; lia).
      assert (payload_end st <= m) by (apply Hstop; intros; apply Hall; lia).
      zbool; lia.
Qed.

Lemma parse_entry_spec k st :
  0 <= k -> entry_pos (k + 1) <= image_size -> e_uuid b k <> null_uuid ->
  prefix_valid b image_size k -> scan_ok b k st ->
  exists r, parse_entry b image_size k (Ptr b (entry_pos k)) st = Some r /\
    match r with
    | None => ~ prefix_valid b image_size (k + 1)
    | Some st' => prefix_valid b image_size (k + 1) /\ scan_ok b (k + 1) st'
    end.
Proof.
  intros Hk Hp Hnn Hpre Hst. unfold parse_entry, entry_uuid_seen, entry_overlaps_previous.
  destruct (uuid_seen_loop_spec b image_size Hsize (Z.to_nat k) 0 k) as (seen & -> & Hseen);
    [lia | lia | done |].
  destruct seen.
  { exists None. split; [done|]. intros (_ & _ & Hap)%prefix_valid_S; [|done].
    assert (true = false); [|done]. apply Hseen. intros j Hj. by apply Hap. }
  rewrite (entry_in_buffer_spec b image_size) by done.
  rewrite (get_e_off b image_size), (get_e_size b image_size) by done.
  case_bool_decide as Hin; simpl negb; cbv iota.
  2:{ exists None. split; [done|]. intros (_ & (_ & Hv) & _)%prefix_valid_S; [|done].
      by destruct Hin. }
  pose proof (rd64_range b (entry_pos k + 16) Hbytes). fold (e_off b k) in *.
  assert (u64 (e_off b k + e_size b k) = e_off b k + e_size b k) as Hend
    by (apply u64_id; unfold is_u64, SUNXI_FIP_MAX_SIZE in *; lia).
  destruct (overlaps_loop_spec b image_size Hbytes Hsize Hmax (Z.to_nat k) 0 k)
    as (ov & Hov & Hovs); [lia | lia | done | |].
  { intros j Hj. destruct (Z.eq_dec j k) as [->|]; [lia|].
    destruct Hpre as [Hpre _]. destruct (Hpre j) as (? & ? & ?); lia. }
  rewrite Hend, Hov. destruct ov.
  { exists None. split; [done|]. intros (_ & _ & Hap)%prefix_valid_S; [|done].
    assert (true = false); [|done]. apply Hovs. intros j Hj. by apply Hap. }
  set (st1 := ParseState _ _ _ _).
  assert (entry_valid b image_size k) as Hv by done.
  destruct (scan_bounds k st st1 (e_off b k) (e_size b k)) as [Hs1 Hs2];
    [done | done | done | lia | lia | done | done | by rewrite Hend |].
  destruct Hst as [_ _ Hf H1 H2 H3 H4].
  destruct (classify_spec k st1) as (st' & -> & E1 & E2 & Hf' & S1 & S2 & S3 & S4); try done.
  exists (Some st'). split; [done|]. split.
  - apply prefix_valid_S; [done|]. split; [done|]. split; [done|].
    intros j Hj. split; [by apply Hseen | by apply Hovs].
  - split; try done.
    + by rewrite E1.
    + by rewrite E2.
Qed.
(** ** The terminator and the whole loop *)

Hypothesis Hname : rd32 b 0 = FIP_TOC_HEADER_NAME.
Hypothesis Hserial : rd32 b 4 = FIP_TOC_SERIAL_NUMBER.

Lemma slot_small k u img : (forall i, 0 <= i < k -> entry_valid b image_size i) -> slot b k u img -> size img < 2 ^ 32.
Proof.
  intros Hv (i & Hi & _ & ->). destruct (Hv i Hi) as (_ & ? & ?).
  pose proof (rd64_range b (entry_pos i + 16) Hbytes). fold (e_off b i) in *. cbn [size]. unfold SUNXI_FIP_MAX_SIZE in *. lia.
Qed.
Lemma slot_in_bounds k u img :
  (forall i, 0 <= i < k -> entry_valid b image_size i) ->
  slot b k u img -> in_bounds b (offset img) (size img).
Proof.
  intros Hv (i & Hi & _ & ->). destruct (Hv i Hi) as (_ & ? & ?).
  pose proof (rd64_range b (entry_pos i + 16) Hbytes). fold (e_off b i) in *.
  unfold in_bounds. simpl. lia.
Qed.

(** The range and size conditions of the terminator branch. *)
Lemma terminator_bounds k st :
  0 <= k -> scan_ok b k st -> entry_pos (k + 1) <= image_size ->
  negb (e_flags b k =? 0) || (image_size <? e_off b k)
    || (e_off b k <? entry_pos k + FIP_ENTRY_SIZE)
    || (payload_start st <? entry_pos k + FIP_ENTRY_SIZE)
    || (e_off b k <? payload_end st) = false <->
  e_flags b k = 0 /\ entry_pos (k + 1) <= e_off b k <= image_size /\
  forall i, 0 <= i < k ->
    entry_pos (k + 1) <= e_off b i /\ e_off b i + e_size b i <= e_off b k.
Proof.
  intros Hk [Hstart Hstop _ _ _ _ _] Hp.
  pose proof (rd64_range b (entry_pos k + 16) Hbytes). fold (e_off b k) in *.
  specialize (Hstart (entry_pos (k + 1)) ltac:(unfold SUNXI_FIP_MAX_SIZE in *; lia)).
  specialize (Hstop (e_off b k) ltac:(lia)).
  rewrite !orb_false_iff, !Z.ltb_ge, negb_false_iff, Z.eqb_eq.
  change FIP_ENTRY_SIZE with 40. rewrite entry_pos_S in *. split.
  - intros ((((? & ?) & ?) & ?) & ?). split; [done|]. split; [lia|].
    intros i Hi. split; [by apply Hstart | by apply Hstop].
  - intros (? & ? & Hall). assert (entry_pos k + 40 <= payload_start st)
      by (apply Hstart; intros; by apply Hall).
    assert (payload_end st <= e_off b k) by (apply Hstop; intros; by apply Hall).
    repeat split; lia.
Qed.

(** A filled slot has its bit set. *)
Lemma slot_state_flag k u f img img' :
  slot_state b k u f img -> slot b k u img' -> f = true.
Proof.
  destruct f; [done|]. intros [Hno _] (i & Hi & Hu & _). by destruct (Hno i Hi).
Qed.

Lemma slot_no_slot k u img : slot b k u img -> no_slot b k u -> False.
Proof. intros (i & Hi & Hu & _) Hno. by apply (Hno i). Qed.

Lemma terminator_spec k st :
  0 <= k < FIP_MAX_TOC_ENTRIES -> entry_pos (k + 1) <= image_size ->
  e_uuid b k = null_uuid -> prefix_valid b image_size k -> scan_ok b k st ->
  exists r, terminator_ok b image_size (entry_pos k) (Ptr b (entry_pos k)) st = Some r /\
    (r = true <-> fip_valid b image_size k (layout st)).
Proof.
  intros Hk Hp Hnull Hpre Hst. unfold terminator_ok.
  rewrite (get_e_off b image_size), (get_e_size b image_size), (get_e_flags b image_size)
    by (done || lia).
  destruct (Z.eqb_spec (e_size b k) 0) as [Hsz|Hsz]; simpl negb; cbv iota.
  2:{ exists false. split; [done|]. split; [done|]. intros []. lia. }
  destruct (terminator_bounds k st ltac:(lia) Hst Hp) as [Hb1 Hb2].
  destruct (_ || _) eqn:E.
  { exists false. split; [done|]. split; [done|]. intros [].
    exfalso. assert (true = false); [|done]. apply Hb2. destruct fv_end0. auto. }
  destruct (Hb1 eq_refl) as (Hfl & Hfs & Hpay). clear Hb1 Hb2 E.
  pose proof Hst as [_ _ Hf Sscp Sbl31 Sbl33 Shw].
  destruct (found_bits _ Hf) as [-> ->]. rewrite negb_involutive.
  destruct (Z.testbit (found st) 0 && _ && _) eqn:Hreq; simpl negb; cbv iota.
  2:{ exists false. split; [done|]. split; [done|]. intros Hfv.
      by rewrite (slot_state_flag _ _ _ _ _ Sscp (fv_scp _ _ _ _ Hfv)),
        (slot_state_flag _ _ _ _ _ Sbl31 (fv_bl31 _ _ _ _ Hfv)),
        (slot_state_flag _ _ _ _ _ Sbl33 (fv_bl33 _ _ _ _ Hfv)) in Hreq. }
  apply andb_true_iff in Hreq as [[F0 F1]%andb_true_iff F2].
  rewrite F0 in Sscp. rewrite F1 in Sbl31. rewrite F2 in Sbl33.
  simpl in Sscp, Sbl31, Sbl33. destruct Hpre as [Hv Hap].
  destruct (layout_decides b Hbytes (layout st)) as (ld & Hld & Hldt); [eauto using slot_in_bounds..|].
  destruct (Z.testbit (found st) 3) eqn:F3; simpl in Shw.
  - destruct (hw_config_decides b Hbytes (offset (hw_config (layout st)))
                (size (hw_config (layout st)))) as (hw & Hhw & Hhwt);
      [by eapply slot_in_bounds|by eapply slot_small|].
    rewrite Hhw. destruct hw; simpl negb; cbv iota.
    + rewrite Hld. exists ld. split; [done|]. rewrite Hldt. split.
      * intros (? & ? & ? & ?). split; try done; try (by split). left. split; [done|]. by apply Hhwt.
      * by intros [].
    + exists false. split; [done|]. split; [done|]. intros [].
      destruct fv_hw0 as [[_ ?%Hhwt]|[Hno _]]; [done|]. exfalso. eauto using slot_no_slot.
  - simpl negb. cbv iota. rewrite Hld. exists ld. split; [done|]. rewrite Hldt. split.
    + intros (? & ? & ? & ?). split; try done; try (by split); by right.
    + by intros [].
Qed.

(** A slot determines its image, so the layout of a valid FIP is unique. *)
Lemma slot_inj k u img img' :
  prefix_valid b image_size k -> slot b k u img -> slot b k u img' -> img = img'.
Proof.
  intros [_ Hap] (i & Hi & Hu & ->) (j & Hj & Hu' & ->).
  destruct (Z.lt_trichotomy i j) as [|[->|]]; [|done|].
  - destruct (Hap i j); [lia | lia | congruence].
  - destruct (Hap j i); [lia | lia | congruence].
Qed.

Lemma fip_valid_layout k st l :
  prefix_valid b image_size k -> scan_ok b k st ->
  fip_valid b image_size k l -> layout st = l.
Proof.
  intros Hpre [_ _ _ S1 S2 S3 S4] Hf.
  rewrite (slot_state_flag _ _ _ _ _ S1 (fv_scp _ _ _ _ Hf)) in S1.
  rewrite (slot_state_flag _ _ _ _ _ S2 (fv_bl31 _ _ _ _ Hf)) in S2.
  rewrite (slot_state_flag _ _ _ _ _ S3 (fv_bl33 _ _ _ _ Hf)) in S3.
  destruct Hf as [_ _ _ _ _ _ _ _ _ F1 F2 F3 F4 _ _ _ _].
  destruct (layout st) as [a1 a2 a3 a4], l as [b1 b2 b3 b4]; cbn [scp_bl2 bl31 bl33 hw_config] in *. f_equal; try by eapply slot_inj.
  destruct F4 as [[Hs _]|[Hno ->]].
  - rewrite (slot_state_flag _ _ _ _ _ S4 Hs) in S4. by eapply slot_inj.
  - destruct (Z.testbit (found st) 3); simpl in S4; [|by destruct S4].
    exfalso. exact (slot_no_slot _ _ _ S4 Hno).
Qed.

(** From any reachable loop state: the loop reads in bounds, and its verdict
    is exactly whether some terminator from here on completes a valid FIP. *)
Lemma parse_loop_spec n k st :
  0 <= k -> Z.of_nat n + k = FIP_MAX_TOC_ENTRIES ->
  prefix_valid b image_size k -> scan_ok b k st ->
  (forall i, 0 <= i < k -> e_uuid b i <> null_uuid) ->
  exists r l, parse_loop n k (entry_pos k) b image_size st = Some (r, l) /\
    (r = 0 /\ (exists N, fip_valid b image_size N l) \/
     r = -1 /\ forall N l', ~ fip_valid b image_size N l').
Proof.
  revert k st. induction n as [|n IH]; intros k st Hk Hn Hpre Hst Hnn; simpl parse_loop.
  - exists (-1), (layout st). split; [done|]. right. split; [done|].
    intros N l' Hf. destruct (fv_count _ _ _ _ Hf) as [? ?].
    apply (Hnn N); [lia|]. by destruct Hf.
  - assert (forall N l', fip_valid b image_size N l' -> k <= N) as HkN.
    { intros N l' Hf. destruct (Z.le_gt_cases k N); [done|]. exfalso.
      apply (Hnn N); [destruct (fv_count _ _ _ _ Hf); lia|]. by destruct Hf. }
    destruct (_ || _) eqn:E.
    { exists (-1), (layout st). split; [done|]. right. split; [done|].
      intros N l' Hf. specialize (HkN N l' Hf). destruct (fv_size _ _ _ _ Hf) as [Hs _].
      apply orb_true_iff in E. change FIP_ENTRY_SIZE with 40 in E.
      rewrite !Z.ltb_lt in E. pose proof (entry_pos_mono k (N + 1) ltac:(lia)). lia. }
    apply orb_false_iff in E as [?%Z.ltb_ge Hp%Z.ltb_ge].
    change FIP_ENTRY_SIZE with 40 in *.
    assert (entry_pos (k + 1) <= image_size) as Hp' by (rewrite entry_pos_S; lia).
    rewrite uuid_is_null_spec by (by eapply uuid_bounds). fold (e_uuid b k).
    case_bool_decide as Hnull.
    + destruct (terminator_spec k st) as (r & -> & Hr); try done; [lia|].
      exists (if r then 0 else -1), (layout st). split; [done|].
      destruct r; [left; split; [done|]; exists k; by apply Hr|].
      right. split; [done|]. intros N l' Hf.
      assert (N = k) as ->.
      { specialize (HkN N l' Hf). destruct (Z.eq_dec N k); [done|]. exfalso.
        destruct (fv_prefix _ _ _ _ Hf) as [Hv _].
        destruct (Hv k) as [Hne _]; [lia | done]. }
      assert (false = true); [|done]. apply Hr.
      by rewrite (fip_valid_layout k st l').
    + destruct (parse_entry_spec k st) as ([st'|] & -> & Hnext); try done.
      * destruct Hnext as [Hpre' Hst'].
        rewrite <- entry_pos_S. apply IH; try done; try lia.
        intros i Hi. destruct (Z.eq_dec i k) as [->|]; [done | apply Hnn; lia].
      * exists (-1), (layout st). split; [done|]. right. split; [done|].
        intros N l' Hf. specialize (HkN N l' Hf). apply Hnext.
        assert (N <> k) by (intros ->; by destruct Hf).
        destruct (fv_prefix _ _ _ _ Hf) as [Hv Hap]. split.
        -- intros i Hi. apply Hv. lia.
        -- intros i j Hi Hj. apply Hap; lia.
Qed.
End Iteration.

(** ** The parser *)

Section Parse.
Context (b : list Z) (image_size : Z) (l0 : sunxi_fip_layout).
Hypothesis Hbytes : bytes_ok b.
Hypothesis Hsize : image_size <= Z.of_nat (length b).

(** The verdict of the parser, for any header. *)
Lemma sunxi_fip_parse_verdict :
  exists r l, sunxi_fip_parse (Some b) image_size (Some l0) = Some (r, Some l) /\
    (r = 0 /\ (exists n, fip_valid b image_size n l) \/
     r = -1 /\ forall n l', ~ fip_valid b image_size n l').
Proof.
  unfold sunxi_fip_parse.
  destruct (_ || _) eqn:E.
  { exists (-1), l0. split; [done|]. right. split; [done|]. intros n l' Hf.
    destruct (fv_size _ _ _ _ Hf), (fv_count _ _ _ _ Hf).
    pose proof (entry_pos_mono n (n + 1) ltac:(lia)).
    apply orb_true_iff in E. rewrite !Z.ltb_lt in E. unfold FIP_HEADER_SIZE in *. lia. }
  apply orb_false_iff in E as [H16%Z.ltb_ge Hm%Z.ltb_ge]. unfold FIP_HEADER_SIZE in H16.
  assert (get_le32 (Ptr b 0) = Some (rd32 b 0)) as En by (apply get_le32_is; [done|unfold in_bounds; lia]).
  assert (get_le32 (Ptr b 4) = Some (rd32 b 4)) as Es by (apply get_le32_is; [done|unfold in_bounds; lia]).
  set (name := rd32 b 0) in *. set (serial := rd32 b 4) in *.
  assert (rd32 b 0 = name) as Hn by done. assert (rd32 b 4 = serial) as Hs by done.
  rewrite En, Es. destruct (Z.eqb_spec name FIP_TOC_HEADER_NAME); simpl negb; cbv iota.
  2:{ exists (-1), l0. split; [done|]. right. split; [done|]. intros n' l' []. congruence. }
  destruct (Z.eqb_spec serial FIP_TOC_SERIAL_NUMBER); simpl negb; cbv iota.
  2:{ exists (-1), l0. split; [done|]. right. split; [done|]. intros n' l' []. congruence. }
  destruct (parse_loop_spec b image_size Hbytes Hsize Hm ltac:(congruence) ltac:(congruence)
              (Z.to_nat FIP_MAX_TOC_ENTRIES) 0 parse_init) as (r & l & Hloop & Hr).
  - lia.
  - done.
  - split; intros; lia.
  - apply scan_ok_init.
  - intros. lia.
  - change (entry_pos 0) with FIP_HEADER_SIZE in Hloop. rewrite Hloop.
    exists r, l. by split.
Qed.

Lemma fip_valid_unique n l n' l' :
  fip_valid b image_size n l -> fip_valid b image_size n' l' -> n = n' /\ l = l'.
Proof.
  intros Hf Hf'. assert (n = n') as <-.
  { destruct (Z.lt_trichotomy n n') as [Hlt|[|Hlt]]; [|done|]; exfalso.
    - destruct (proj1 (fv_prefix _ _ _ _ Hf') n) as [Hne _];
        [destruct (fv_count _ _ _ _ Hf); lia | by destruct Hf].
    - destruct (proj1 (fv_prefix _ _ _ _ Hf) n') as [Hne _];
        [destruct (fv_count _ _ _ _ Hf'); lia | by destruct Hf']. }
  split; [done|]. destruct Hf as [_ _ _ _ Hp _ _ _ _ A1 A2 A3 A4 _],
    Hf' as [_ _ _ _ _ _ _ _ _ B1 B2 B3 B4 _].
  destruct l as [a1 a2 a3 a4], l' as [b1 b2 b3 b4]; cbn [scp_bl2 bl31 bl33 hw_config] in *.
  f_equal; try by eapply slot_inj.
  destruct A4 as [[As _]|[Ano ->]], B4 as [[Bs _]|[Bno ->]]; [by eapply slot_inj| | |done];
    exfalso; [exact (slot_no_slot _ _ _ _ As Bno) | exact (slot_no_slot _ _ _ _ Bs Ano)].
Qed.

(** The parser's result is exactly the description. *)
Lemma sunxi_fip_parse_iff l :
  sunxi_fip_parse (Some b) image_size (Some l0) = Some (0, Some l) <->
  exists n, fip_valid b image_size n l.
Proof.
  destruct sunxi_fip_parse_verdict as (r & l1 & -> & [(-> & n & Hf)|[-> Hno]]).
  - split; [intros [= <-]; eauto|]. intros [n' Hf'].
    by destruct (fip_valid_unique _ _ _ _ Hf Hf') as [_ <-].
  - split; [done|]. intros [n Hf]. by destruct (Hno n l).
Qed.
End Parse.
