(* ===== verification/FipLoad.v ===== *)
(** * Properties of the FIP loader

    The parser's theorems, the plan of copies [sunxi_fip_copy_images] carries
    out, and the staging drivers: memory safety for every medium whose [read]
    keeps its contract, what a success means, and the fall back to the backup
    copy.  [sample_fip] is the image the witnesses run on. *)

From S2P Require Import Prelude Fip FipSpec.

(** ** A concrete package *)

Fixpoint le_bytes (n : nat) (v : Z) : list Z :=
  match n with O => [] | S n => v mod 256 :: le_bytes n (v / 256) end.

Definition sample_entry (uuid : list Z) (o s : Z) : list Z :=
  uuid ++ le_bytes 8 o ++ le_bytes 8 s ++ le_bytes 8 0.

Definition sample_scp : list Z :=
  le_bytes 4 SCP_BL2_ENTRY_INSTRUCTION ++ le_bytes 4 SCP_BL2_TRACE_ADDR_HI
  ++ le_bytes 4 SCP_BL2_TRACE_ADDR_LO ++ le_bytes 4 SCP_BL2_TRACE_VALUE_HI
  ++ le_bytes 4 SCP_BL2_TRACE_STORE ++ le_bytes 4 SCP_BL2_ENTRY_PROLOGUE ++ replicate 40 0.
Definition sample_bl31 : list Z :=
  le_bytes 4 BL31_MONITOR_BRANCH ++ monitor_magic ++ replicate 32 0
  ++ le_bytes 4 SUNXI_FIP_BL31_BASE ++ replicate 4048 0 ++ le_bytes 4 0x14000001.
Definition sample_bl33 : list Z := le_bytes 4 0xea000006 ++ replicate 60 0.

Definition sample_fip : list Z :=
  le_bytes 4 FIP_TOC_HEADER_NAME ++ le_bytes 4 FIP_TOC_SERIAL_NUMBER ++ replicate 8 0
  ++ sample_entry scp_bl2_uuid 176 64
  ++ sample_entry bl31_uuid 240 4100
  ++ sample_entry bl33_uuid 4340 64
  ++ sample_entry null_uuid 4404 0
  ++ sample_scp ++ sample_bl31 ++ sample_bl33.

Definition sample_layout : sunxi_fip_layout :=
  Layout (Image 176 64) (Image 240 4100) (Image 4340 64) (Image 0 0).

(** A bit flipped in the entry word of SCP_BL2. *)
Definition broken_fip : list Z := <[176%nat := 0x72]> sample_fip.

Definition bytes_okb (b : list Z) : bool := forallb (fun x => (0 <=? x) && (x <? 256)) b.

Lemma bytes_okb_ok b : bytes_okb b = true -> bytes_ok b.
Proof.
  unfold bytes_okb, bytes_ok. rewrite forallb_forall, Forall_forall.
  intros H x Hx. apply list_elem_of_In, H, andb_true_iff in Hx as [?%Z.leb_le ?%Z.ltb_lt].
  unfold is_u8. lia.
Qed.

Lemma sample_ok : bytes_ok sample_fip.
Proof. apply bytes_okb_ok. vm_compute. reflexivity. Qed.

Lemma sample_length : Z.of_nat (length sample_fip) = 4404.
Proof. vm_compute. reflexivity. Qed.

Example sample_parses :
  sunxi_fip_parse (Some sample_fip) 4404 (Some empty_layout) = Some (0, Some sample_layout).
Proof. vm_compute. reflexivity. Qed.

Example broken_rejected :
  (fst <$> sunxi_fip_parse (Some broken_fip) 4404 (Some empty_layout)) = Some (-1).
Proof. vm_compute. reflexivity. Qed.

(** ** Parser properties *)

(** C2: whatever the bytes, the parser reads inside the image only and returns
    0 or -1. *)
Theorem parse_memory_safe b image_size l0 :
  bytes_ok b -> image_size <= Z.of_nat (length b) ->
  exists r l, sunxi_fip_parse (Some b) image_size (Some l0) = Some (r, Some l) /\
              (r = 0 \/ r = -1).
Proof.
  intros Hb Hs. destruct (sunxi_fip_parse_verdict b image_size l0 Hb Hs)
    as (r & l & -> & Hr). exists r, l. split; [done|]. tauto.
Qed.

Lemma parse_memory_safe_witness :
  exists r l, sunxi_fip_parse (Some broken_fip) 4404 (Some empty_layout) = Some (r, Some l) /\
              (r = 0 \/ r = -1).
Proof.
  apply (parse_memory_safe broken_fip 4404 empty_layout);
    [apply bytes_okb_ok; vm_compute; reflexivity | vm_compute; discriminate].
Defined.

(** C1: the parser accepts exactly the well-formed FIPs, with the layout the
    table of contents describes. *)
Theorem parse_refines_spec b image_size l0 l :
  bytes_ok b -> image_size <= Z.of_nat (length b) ->
  sunxi_fip_parse (Some b) image_size (Some l0) = Some (0, Some l) <->
  exists n, fip_valid b image_size n l.
Proof. intros Hb Hs. by apply sunxi_fip_parse_iff. Qed.

Lemma parse_refines_spec_witness : exists n, fip_valid sample_fip 4404 n sample_layout.
Proof.
  apply (proj1 (parse_refines_spec sample_fip 4404 empty_layout sample_layout
                  sample_ok ltac:(rewrite sample_length; lia))).
  exact sample_parses.
Defined.

(** ** The images of an accepted package *)

Definition image_in (l : sunxi_fip_layout) (img : sunxi_fip_image) : Prop :=
  img = scp_bl2 l \/ img = bl31 l \/ img = bl33 l \/ img = hw_config l.

Definition images_apart (i j : sunxi_fip_image) : Prop :=
  disjoint (offset i) (size i) (offset j) (size j).

Lemma slot_range b s n l u img :
  fip_valid b s n l -> slot b n u img ->
  0 < size img /\ entry_pos (n + 1) <= offset img /\ offset img + size img <= s.
Proof.
  intros Hf (i & Hi & _ & ->). destruct (proj1 (fv_prefix _ _ _ _ Hf) i Hi) as (_ & ? & ?).
  destruct (fv_payload _ _ _ _ Hf i Hi), (fv_fip_size _ _ _ _ Hf). simpl. lia.
Qed.

Lemma slots_apart b s n l u v img img' :
  fip_valid b s n l -> slot b n u img -> slot b n v img' -> u <> v -> images_apart img img'.
Proof.
  intros Hf (i & Hi & Hu & ->) (j & Hj & Hv & ->) Hne.
  destruct (fv_prefix _ _ _ _ Hf) as [_ Hap]. unfold images_apart, disjoint. simpl.
  destruct (Z.lt_trichotomy i j) as [Hlt|[->|Hlt]]; [| congruence |].
  - destruct (Hap i j ltac:(lia) ltac:(lia)) as [_ ?]. unfold disjoint in *. lia.
  - destruct (Hap j i ltac:(lia) ltac:(lia)) as [_ ?]. unfold disjoint in *. lia.
Qed.

(** C6: in an accepted package every image lies above the table of contents
    and inside the buffer, the three mandatory images are non-empty and
    mutually disjoint, and a non-empty hardware description is disjoint from
    them. *)
Theorem parsed_images_separate b image_size l0 l :
  bytes_ok b -> image_size <= Z.of_nat (length b) ->
  sunxi_fip_parse (Some b) image_size (Some l0) = Some (0, Some l) ->
  (forall img, image_in l img -> size img <> 0 ->
     FIP_HEADER_SIZE + 4 * FIP_ENTRY_SIZE <= offset img /\ offset img + size img <= image_size) /\
  0 < size (scp_bl2 l) /\ 0 < size (bl31 l) /\ 0 < size (bl33 l) /\
  images_apart (scp_bl2 l) (bl31 l) /\ images_apart (scp_bl2 l) (bl33 l) /\
  images_apart (bl31 l) (bl33 l) /\
  (size (hw_config l) <> 0 ->
     images_apart (hw_config l) (scp_bl2 l) /\ images_apart (hw_config l) (bl31 l) /\
     images_apart (hw_config l) (bl33 l)).
Proof.
  intros Hb Hs Hp. apply sunxi_fip_parse_iff in Hp as [n Hf]; [|done..].
  pose proof (fv_scp _ _ _ _ Hf) as S1. pose proof (fv_bl31 _ _ _ _ Hf) as S2.
  pose proof (fv_bl33 _ _ _ _ Hf) as S3.
  assert (size (hw_config l) <> 0 -> slot b n hw_config_uuid (hw_config l)) as S4.
  { destruct (fv_hw _ _ _ _ Hf) as [[? _]|[_ ->]]; [done|]. simpl. lia. }
  assert (3 <= n) as Hn.
  { destruct S1 as (i & Hi & Hui & _), S2 as (j & Hj & Huj & _), S3 as (k & Hk & Huk & _).
    assert (i <> j) by (intros ->; rewrite Hui in Huj; discriminate).
    assert (i <> k) by (intros ->; rewrite Hui in Huk; discriminate).
    assert (j <> k) by (intros ->; rewrite Huj in Huk; discriminate). lia. }
  assert (FIP_HEADER_SIZE + 4 * FIP_ENTRY_SIZE <= entry_pos (n + 1)) as Htoc
    by (unfold entry_pos, FIP_ENTRY_SIZE; lia).
  pose proof (slot_range _ _ _ _ _ _ Hf S1). pose proof (slot_range _ _ _ _ _ _ Hf S2).
  pose proof (slot_range _ _ _ _ _ _ Hf S3).
  repeat split; try lia; try (by eapply slots_apart; eauto; discriminate).
  - destruct H2 as [->|[->|[->| ->]]]; try lia.
    pose proof (slot_range _ _ _ _ _ _ Hf (S4 H3)). lia.
  - destruct H2 as [->|[->|[->| ->]]]; try lia.
    pose proof (slot_range _ _ _ _ _ _ Hf (S4 H3)). lia.
Qed.

Lemma parsed_images_separate_witness :
  images_apart (scp_bl2 sample_layout) (bl31 sample_layout).
Proof.
  apply (parsed_images_separate sample_fip 4404 empty_layout sample_layout sample_ok);
    [rewrite sample_length; lia | exact sample_parses].
Defined.

(** ** The plan of copies *)

(** Load window of each destination: base and capacity. *)
Definition copy_plan (l : sunxi_fip_layout) : list (Z * Z * sunxi_fip_image) :=
  [ (SUNXI_FIP_BL31_BASE, SUNXI_FIP_BL31_MAX_SIZE, bl31 l);
    (SUNXI_FIP_BL33_BASE, SUNXI_FIP_BL33_MAX_SIZE, bl33 l) ]
  ++ (if size (hw_config l) =? 0 then []
      else [ (SUNXI_FIP_HW_CONFIG_BASE, SUNXI_FIP_HW_CONFIG_MAX_SIZE, hw_config l) ])
  ++ [ (SUNXI_FIP_SCP_BL2_BASE, SUNXI_FIP_SCP_BL2_MAX_SIZE, scp_bl2 l) ].

(** Carry out a plan in order, stopping at the first refusal. *)
Fixpoint run_plan {ctx} (copy : copy_fn ctx) (bytes : list Z)
  (plan : list (Z * Z * sunxi_fip_image)) (c : ctx) : Z * ctx :=
  match plan with
  | [] => (0, c)
  | (dest, _, img) :: rest =>
      let '(r, c) := copy dest (Ptr bytes (offset img)) (size img) c in
      if r =? 0 then run_plan copy bytes rest c else (-1, c)
  end.

(** A copy stays in the buffer on the source side and in its window on the
    destination side. *)
Definition copy_in_bounds (bytes : list Z) (image_size : Z) (op : Z * Z * sunxi_fip_image)
  : Prop :=
  let '(dest, window, img) := op in
  0 < size img <= window /\ 0 <= offset img /\ offset img + size img <= image_size.

(** No two load windows meet. *)
Definition windows_apart (p q : Z * Z * sunxi_fip_image) : Prop :=
  disjoint (fst (fst p)) (snd (fst p)) (fst (fst q)) (snd (fst q)).

Lemma copy_then_eq {ctx} (copy : copy_fn ctx) dest w bytes img rest c :
  copy_then copy dest bytes img c (run_plan copy bytes rest)
  = run_plan copy bytes ((dest, w, img) :: rest) c.
Proof.
  unfold copy_then. simpl. destruct (copy _ _ _ _) as [r c']. by destruct (r =? 0).
Qed.

Lemma copy_then_ext {ctx} (copy : copy_fn ctx) dest bytes img c f g :
  (forall c, f c = g c) -> copy_then copy dest bytes img c f = copy_then copy dest bytes img c g.
Proof. intros H. unfold copy_then. destruct (copy _ _ _ _). by rewrite H. Qed.

Lemma copy_images_plan {ctx} (copy : copy_fn ctx) b image_size l c :
  sunxi_fip_parse (Some b) image_size (Some empty_layout) = Some (0, Some l) ->
  sunxi_fip_copy_images (Some b) image_size (Some copy) c
  = Some (run_plan copy b (copy_plan l) c).
Proof.
  intros Hp. unfold sunxi_fip_copy_images. rewrite Hp. f_equal. unfold copy_plan.
  cbn [app]. rewrite <- copy_then_eq. apply copy_then_ext. intros c1.
  rewrite <- copy_then_eq. apply copy_then_ext. intros c2.
  destruct (size (hw_config l) =? 0); cbn [app negb]; rewrite <- copy_then_eq; [done|].
  apply copy_then_ext. intros c3. by rewrite <- copy_then_eq.
Qed.

Lemma fits_sizes l :
  fits_windows l ->
  size (bl31 l) <= SUNXI_FIP_BL31_MAX_SIZE /\ size (bl33 l) <= SUNXI_FIP_BL33_MAX_SIZE /\
  size (scp_bl2 l) <= SUNXI_FIP_SCP_BL2_MAX_SIZE /\
  size (hw_config l) <= SUNXI_FIP_HW_CONFIG_MAX_SIZE.
Proof. done. Qed.

(** C5: for an accepted package the loader hands the images to [copy] in the
    order BL31, BL33, HW_CONFIG (when present), SCP_BL2, stopping at the first
    refusal; every copy stays inside the package and inside its load window,
    and the windows are pairwise disjoint. *)
Theorem copy_images_follow_plan {ctx} (copy : copy_fn ctx) b image_size c l :
  bytes_ok b -> image_size <= Z.of_nat (length b) ->
  sunxi_fip_parse (Some b) image_size (Some empty_layout) = Some (0, Some l) ->
  sunxi_fip_copy_images (Some b) image_size (Some copy) c
    = Some (run_plan copy b (copy_plan l) c) /\
  Forall (copy_in_bounds b image_size) (copy_plan l) /\
  (forall i j p q, copy_plan l !! i = Some p -> copy_plan l !! j = Some q ->
     i <> j -> windows_apart p q).
Proof.
  intros Hb Hs Hp. split; [by apply copy_images_plan|].
  pose proof Hp as Hp'. apply sunxi_fip_parse_iff in Hp' as [n Hf]; [|done..].
  destruct (fits_sizes _ (fv_fits _ _ _ _ Hf)) as (L1 & L2 & L3 & L4).
  pose proof (slot_range _ _ _ _ _ _ Hf (fv_scp _ _ _ _ Hf)).
  pose proof (slot_range _ _ _ _ _ _ Hf (fv_bl31 _ _ _ _ Hf)).
  pose proof (slot_range _ _ _ _ _ _ Hf (fv_bl33 _ _ _ _ Hf)).
  destruct (fv_count _ _ _ _ Hf).
  assert (16 <= entry_pos (n + 1)) by (unfold entry_pos, FIP_HEADER_SIZE, FIP_ENTRY_SIZE; lia).
  split.
  - unfold copy_plan. repeat (apply Forall_app; split); repeat constructor; simpl; try lia.
    destruct (Z.eqb_spec (size (hw_config l)) 0) as [|Hne]; repeat constructor; simpl; try lia;
      (destruct (fv_hw _ _ _ _ Hf) as [[Hsl _]|[_ Heq]];
       [pose proof (slot_range _ _ _ _ _ _ Hf Hsl); lia | rewrite Heq in Hne; simpl in Hne; lia]).
  - unfold copy_plan. intros i j p q Hi Hj Hne. unfold windows_apart, disjoint.
    destruct (size (hw_config l) =? 0);
      destruct i as [|[|[|[|i]]]], j as [|[|[|[|j]]]];
      simpl in Hi, Hj; simplify_eq; simpl; unfold SUNXI_FIP_BL31_BASE,
        SUNXI_FIP_BL31_MAX_SIZE, SUNXI_FIP_BL33_BASE, SUNXI_FIP_BL33_MAX_SIZE,
        SUNXI_FIP_HW_CONFIG_BASE, SUNXI_FIP_HW_CONFIG_MAX_SIZE,
        SUNXI_FIP_SCP_BL2_BASE, SUNXI_FIP_SCP_BL2_MAX_SIZE; lia.
Qed.

Lemma copy_images_follow_plan_witness :
  sunxi_fip_copy_images (Some sample_fip) 4404
    (Some (fun dest _ n log => (0, log ++ [(dest, n)]))) []
  = Some (0, [(SUNXI_FIP_BL31_BASE, 4100); (SUNXI_FIP_BL33_BASE, 64);
              (SUNXI_FIP_SCP_BL2_BASE, 64)]).
Proof.
  destruct (copy_images_follow_plan (fun dest _ n log => (0, log ++ [(dest, n)]))
              sample_fip 4404 [] sample_layout sample_ok
              ltac:(rewrite sample_length; lia) sample_parses) as [H _].
  etransitivity; [exact H | reflexivity].
Defined.

(** ** Staging *)

Section Staging.
Context {ctx : Type} (read : read_fn ctx).

(** The contract of [sunxi_fip_read_fn]: at most [count] sectors of bytes
    arrive. *)
Definition read_contract : Prop := forall start count c,
  let '(_, data, _) := read start count c in
  bytes_ok data /\ Z.of_nat (length data) <= Z.max 0 (count * FIP_SECTOR_SIZE).

Hypothesis Hread : read_contract.

(** A staging buffer of the given capacity. *)
Definition staged (capacity : Z) (s : staging ctx) : Prop :=
  bytes_ok (buffer s) /\ Z.of_nat (length (buffer s)) = capacity.

Lemma call_read_ok capacity start count s :
  staged capacity s -> 0 <= count -> count * FIP_SECTOR_SIZE <= capacity ->
  exists r s', call_read read start count s = Some (r, s') /\ staged capacity s'.
Proof.
  intros [Hb Hl] H0 Hc. unfold call_read. pose proof (Hread start count (context s)) as Hr.
  destruct (read _ _ _) as [[r data] c]. destruct Hr as [Hd Hlen].
  destruct (Z.ltb_spec (Z.of_nat (length (buffer s))) (Z.of_nat (length data))); [lia|].
  eexists _, _. split; [done|]. split; simpl.
  - apply Forall_app. split; [done|]. by apply Forall_drop.
  - rewrite length_app, length_drop. lia.
Qed.

(** The rounding expression of [get_fip_size_from_toc]. *)
Lemma rounded_size d :
  0 <= d <= SUNXI_FIP_MAX_SIZE ->
  Z.land (u64 (d + FIP_SECTOR_SIZE - 1)) (u64 (Z.lnot (FIP_SECTOR_SIZE - 1)))
  = (d + FIP_SECTOR_SIZE - 1) / FIP_SECTOR_SIZE * FIP_SECTOR_SIZE.
Proof.
  intros Hd. unfold SUNXI_FIP_MAX_SIZE, FIP_SECTOR_SIZE in *.
  rewrite (u64_id (d + 512 - 1)) by (unfold is_u64; lia).
  replace ((d + 512 - 1) / 512 * 512) with (Z.shiftl (Z.shiftr (d + 512 - 1) 9) 9)
    by (by rewrite Z.shiftl_mul_pow2, Z.shiftr_div_pow2 by lia).
  rewrite <- Z.ldiff_ones_r by lia. change (Z.ones 9) with (512 - 1).
  unfold u64. apply Z.bits_inj'. intros n Hn. rewrite Z.land_spec, Z.ldiff_spec.
  destruct (Z.ltb_spec n 64).
  - rewrite Z.mod_pow2_bits_low by lia. by rewrite Z.lnot_spec.
  - rewrite Z.mod_pow2_bits_high by lia. rewrite andb_false_r.
    rewrite <- (Z.mod_small (d + 512 - 1) (2 ^ 64)) by lia.
    by rewrite Z.mod_pow2_bits_high by lia.
Qed.

(** The table walk reads inside the staged metadata; a size it reports fits
    the buffer when rounded up to sectors. *)
Lemma fip_size_loop_ok n k bytes capacity :
  bytes_ok bytes -> FIP_METADATA_SIZE <= Z.of_nat (length bytes) -> 0 <= k ->
  exists r, fip_size_loop n (entry_pos k) bytes FIP_METADATA_SIZE capacity = Some r /\
    forall d, r = Some d -> 0 < d <= SUNXI_FIP_MAX_SIZE /\
      (d + FIP_SECTOR_SIZE - 1) / FIP_SECTOR_SIZE * FIP_SECTOR_SIZE <= capacity.
Proof.
  intros Hb Hl. revert k. induction n as [|n IH]; intros k Hk; simpl.
  { exists None. by split. }
  destruct (_ || _) eqn:E; [exists None; by split|].
  apply orb_false_iff in E as [?%Z.ltb_ge Hp%Z.ltb_ge]. change FIP_ENTRY_SIZE with 40 in *.
  assert (16 <= entry_pos k) by (unfold entry_pos, FIP_HEADER_SIZE, FIP_ENTRY_SIZE; lia).
  rewrite uuid_is_null_spec by (unfold in_bounds; lia).
  case_bool_decide; simpl negb; cbv iota.
  2:{ rewrite <- entry_pos_S. apply IH. lia. }
  unfold padd. cbn [base at_off].
  rewrite !get_le64_in by (done || unfold in_bounds; lia).
  fold (e_off bytes k) (e_size bytes k) (e_flags bytes k).
  destruct (_ || _) eqn:E; [exists None; by split|].
  rewrite !orb_false_iff, !Z.ltb_ge in E. destruct E as (((((?&?)&Hlo)&Hhi)&?)&Hcap).
  pose proof (rd64_range bytes (entry_pos k + 16) Hb). fold (e_off bytes k) in *.
  rewrite rounded_size in Hcap by lia. eexists. split; [done|]. intros d [= <-].
  unfold size_t, SUNXI_FIP_MAX_SIZE in *. rewrite u32_small by lia. lia.
Qed.
Lemma get_fip_size_ok bytes capacity :
  bytes_ok bytes -> FIP_METADATA_SIZE <= Z.of_nat (length bytes) ->
  exists r, get_fip_size_from_toc bytes FIP_METADATA_SIZE capacity = Some r /\
    forall d, r = Some d -> 0 < d <= SUNXI_FIP_MAX_SIZE /\
      (d + FIP_SECTOR_SIZE - 1) / FIP_SECTOR_SIZE * FIP_SECTOR_SIZE <= capacity.
Proof.
  intros Hb Hl. unfold get_fip_size_from_toc. change FIP_METADATA_SIZE with 1536 in *.
  destruct (get_le32_in bytes 0) as [x ->]; [unfold in_bounds; lia|].
  destruct (get_le32_in bytes 4) as [y ->]; [unfold in_bounds; lia|].
  destruct (negb (x =? _)); [exists None; by split|].
  destruct (negb (y =? _)); [exists None; by split|].
  change FIP_HEADER_SIZE with (entry_pos 0). by apply fip_size_loop_ok.
Qed.

Ltac fail_branch := eexists; split; [reflexivity|]; simpl; split; [done | by right].

(** A successful status comes with a valid package in the buffer, a failing
    one with a zero size. *)
Definition read_post (capacity : Z) (r : Z * Z * staging ctx) : Prop :=
  let '(st, d, s) := r in
  staged capacity s /\
  ((st = 0 /\ d <= capacity /\ exists n l, fip_valid (buffer s) d n l) \/
   (st = -1 /\ d = 0)).

Lemma read_image_post start ptrs capacity s :
  staged capacity s ->
  exists r, sunxi_fip_read_image start ptrs capacity (Some read) s = Some r /\
            read_post capacity r.
Proof.
  intros Hs. unfold sunxi_fip_read_image, read_post.
  destruct (negb (has_fip_size ptrs)); [fail_branch|].
  destruct (_ || _) eqn:E; [fail_branch|].
  apply orb_false_iff in E as [_ Hcap%Z.ltb_ge].
  destruct (call_read_ok capacity start FIP_TOC_SECTORS s Hs) as (r1 & s1 & -> & Hs1);
    [unfold FIP_TOC_SECTORS; lia | exact Hcap |].
  destruct (negb (r1 =? 1)); [fail_branch|].
  destruct (get_fip_size_ok (buffer s1) capacity) as (d & -> & Hd);
    [apply Hs1 | destruct Hs1; lia |].
  destruct d as [d|]; [|fail_branch].
  destruct (Hd d eq_refl) as [Hd1 Hd2]. unfold SUNXI_FIP_MAX_SIZE, FIP_SECTOR_SIZE in *.
  unfold size_t. rewrite u32_small by lia.
  destruct (call_read_ok capacity start ((d + 512 - 1) / 512) s1 Hs1) as (r2 & s2 & -> & Hs2);
    [apply Z.div_pos; lia | exact Hd2 |].
  destruct (negb (r2 =? 1)); [fail_branch|].
  assert (d <= capacity) as Hdc.
  { pose proof (Z.div_mod (d + 512 - 1) 512 ltac:(lia)).
    pose proof (Z.mod_pos_bound (d + 512 - 1) 512 ltac:(lia)). lia. }
  destruct Hs2 as [Hb2 Hl2].
  destruct (sunxi_fip_parse_verdict (buffer s2) d empty_layout Hb2 ltac:(lia))
    as (r & l & -> & [(-> & n & Hf)|[-> _]]); simpl.
  - eexists. split; [done|]. simpl. split; [done|]. left. eauto.
  - eexists. split; [done|]. simpl. split; [done|]. by right.
Qed.

Definition redundant_post (primary backup capacity : Z) (r : Z * Z * Z * staging ctx)
  : Prop :=
  let '(st, d, used, s) := r in
  staged capacity s /\
  ((st = 0 /\ (used = primary \/ used = backup /\ backup <> 0) /\ d <= capacity /\
    exists n l, fip_valid (buffer s) d n l) \/
   (st = -1 /\ d = 0 /\ used = 0)).

Lemma read_redundant_post primary backup ptrs capacity s :
  staged capacity s ->
  exists r, sunxi_fip_read_redundant primary backup ptrs capacity (Some read) s = Some r /\
            redundant_post primary backup capacity r.
Proof.
  intros Hs. unfold sunxi_fip_read_redundant, redundant_post.
  destruct (_ || _); [fail_branch|].
  destruct (read_image_post primary ptrs capacity s Hs) as ([[st d] s1] & -> & Hs1 & H1).
  destruct H1 as [(-> & ? & ?)|[-> ->]]; simpl.
  { eexists. split; [done|]. simpl. split; [done|]. left. auto. }
  destruct (Z.eqb_spec backup 0); [fail_branch|].
  destruct (backup =? primary); [fail_branch|]. simpl.
  destruct (read_image_post backup ptrs capacity s1 Hs1) as ([[st d] s2] & -> & Hs2 & H2).
  destruct H2 as [(-> & ? & ?)|[-> ->]]; simpl.
  - eexists. split; [done|]. simpl. split; [done|]. left. auto.
  - eexists. split; [done|]. simpl. split; [done|]. by right.
Qed.
End Staging.

(** ** What the callbacks keep, the drivers keep *)

Section Context_invariant.
Context {ctx : Type} (read : read_fn ctx) (copy : copy_fn ctx) (P Q : ctx -> Prop).
Hypothesis Hread_keeps : forall start count c, P c -> P (snd (read start count c)).
Hypothesis Hcopy_keeps : forall dest src n c, Q c -> Q (snd (copy dest src n c)).
Hypothesis HPQ : forall c, P c -> Q c.

Lemma call_read_ctx start count s r s' :
  call_read read start count s = Some (r, s') -> P (context s) -> P (context s').
Proof.
  unfold call_read. intros Hc HP. pose proof (Hread_keeps start count (context s) HP) as Hk.
  destruct (read start count (context s)) as [[r0 data] c]. case_match; by simplify_eq/=.
Qed.

Lemma read_image_ctx start ptrs capacity s st d s' :
  sunxi_fip_read_image start ptrs capacity (Some read) s = Some (st, d, s') ->
  P (context s) -> P (context s').
Proof.
  unfold sunxi_fip_read_image. intros Hr HP.
  destruct (negb (has_fip_size ptrs)); [by simplify_eq|].
  destruct (_ || _); [by simplify_eq|].
  destruct (call_read read start FIP_TOC_SECTORS s) as [[r1 s1]|] eqn:E1; [|done].
  apply call_read_ctx in E1; [|done].
  destruct (negb (r1 =? 1)); [by simplify_eq|].
  destruct (get_fip_size_from_toc _ _ _) as [[d1|]|]; [|by simplify_eq|done].
  destruct (call_read read start _ s1) as [[r2 s2]|] eqn:E2; [|done].
  apply call_read_ctx in E2; [|done].
  destruct (negb (r2 =? 1)); [by simplify_eq|].
  destruct (sunxi_fip_parse _ _ _) as [p|]; [|done].
  destruct (negb (fst p =? 0)); by simplify_eq.
Qed.

Lemma read_redundant_ctx primary backup ptrs capacity s st d used s' :
  sunxi_fip_read_redundant primary backup ptrs capacity (Some read) s = Some (st, d, used, s') ->
  P (context s) -> P (context s').
Proof.
  unfold sunxi_fip_read_redundant. intros Hr HP.
  destruct (_ || _); [by simplify_eq|].
  destruct (sunxi_fip_read_image primary _ _ _ _) as [[[st1 d1] s1]|] eqn:E1; [|done].
  apply read_image_ctx in E1; [|done].
  destruct (st1 =? 0); [by simplify_eq|].
  destruct (_ || _); [by simplify_eq|].
  destruct (sunxi_fip_read_image backup _ _ _ _) as [[[st2 d2] s2]|] eqn:E2; [|done].
  apply read_image_ctx in E2; [|done].
  destruct (negb (st2 =? 0)); by simplify_eq.
Qed.

Lemma run_plan_ctx bytes plan c : Q c -> Q (snd (run_plan copy bytes plan c)).
Proof.
  revert c. induction plan as [|[[dest w] img] plan IH]; intros c HP; cbn [run_plan]; [done|].
  pose proof (Hcopy_keeps dest (Ptr bytes (offset img)) (size img) c HP) as Hk.
  destruct (copy _ _ _ _) as [r c']. destruct (r =? 0); [by apply IH | done].
Qed.

(** Outcome of the redundant load, with the invariant of the context. *)
Lemma load_redundant_post primary backup ptrs capacity s :
  read_contract read -> staged capacity s -> P (context s) ->
  exists st d used s',
    sunxi_fip_load_redundant primary backup ptrs capacity (Some read) (Some copy) s
      = Some (st, d, used, s') /\ staged capacity s' /\ Q (context s') /\
    ((st = 0 /\ (used = primary \/ used = backup /\ backup <> 0) /\
      exists n l c, P c /\ fip_valid (buffer s') d n l /\ d <= capacity /\
        run_plan copy (buffer s') (copy_plan l) c = (0, context s')) \/
     (st = -1 /\ d = 0 /\ used = 0)).
Proof.
  intros Hread Hs HP. unfold sunxi_fip_load_redundant.
  destruct (read_redundant_post read Hread primary backup ptrs capacity s Hs)
    as ([[[st d] used] s1] & Hr & Hs1 & Hpost). rewrite Hr.
  apply read_redundant_ctx in Hr; [|done].
  destruct Hpost as [(-> & Hused & Hd & n & l & Hf)|(-> & -> & ->)]; simpl.
  2:{ do 4 eexists. split; [done|]. split; [done|]. split; [by apply HPQ|]. by right. }
  destruct Hs1 as [Hb1 Hl1].
  assert (sunxi_fip_parse (Some (buffer s1)) d (Some empty_layout) = Some (0, Some l)) as Hp
    by (apply sunxi_fip_parse_iff; [done | lia | eauto]).
  rewrite (copy_images_plan copy _ _ _ (context s1) Hp).
  pose proof (run_plan_ctx (buffer s1) (copy_plan l) (context s1) (HPQ _ Hr)) as Hk.
  destruct (run_plan copy (buffer s1) (copy_plan l) (context s1)) as [r c] eqn:Hrun.
  simpl. destruct (Z.eqb_spec r 0) as [->|]; simpl.
  - do 4 eexists. split; [done|]. split; [done|]. split; [done|]. left.
    split; [done|]. split; [done|]. exists n, l, (context s1). by simpl.
  - do 4 eexists. split; [done|]. split; [done|]. split; [done|]. by right.
Qed.
End Context_invariant.

(** C3: for every medium whose [read] keeps its contract, staging and
    distribution never touch memory outside the staging buffer; a success means
    the buffer holds a valid package of [*fip_size] bytes from the primary or
    the backup sector whose plan of copies was carried out completely, and a
    failure reports size 0 and sector 0. *)
Theorem load_redundant_safe {ctx} (read : read_fn ctx) (copy : copy_fn ctx)
  primary backup ptrs capacity s :
  read_contract read -> staged capacity s ->
  exists st d used s',
    sunxi_fip_load_redundant primary backup ptrs capacity (Some read) (Some copy) s
      = Some (st, d, used, s') /\ staged capacity s' /\
    ((st = 0 /\ (used = primary \/ used = backup /\ backup <> 0) /\
      exists n l c, fip_valid (buffer s') d n l /\ d <= capacity /\
        run_plan copy (buffer s') (copy_plan l) c = (0, context s')) \/
     (st = -1 /\ d = 0 /\ used = 0)).
Proof.
  intros Hread Hs.
  destruct (load_redundant_post read copy (fun _ => True) (fun _ => True) ltac:(done) ltac:(done) ltac:(done)
              primary backup ptrs capacity s Hread Hs I)
    as (st & d & used & s' & -> & Hs' & _ & Hpost).
  exists st, d, used, s'. split; [done|]. split; [done|]. naive_solver.
Qed.

(** A medium of one package: every read returns as many of its bytes as asked. *)
Definition sample_read (media : Z -> list Z) : read_fn (list (Z * Z)) :=
  fun start count log =>
    (1, take (Z.to_nat (count * FIP_SECTOR_SIZE)) (media start), log ++ [(start, count)]).

Definition sample_media (start : Z) : list Z :=
  if start =? 24576 then sample_fip else broken_fip.

Lemma sample_read_contract : read_contract (sample_read sample_media).
Proof.
  intros start count c. simpl. split.
  - apply Forall_take. unfold sample_media. destruct (_ =? _); apply bytes_okb_ok;
      vm_compute; reflexivity.
  - rewrite length_take. lia.
Qed.

Definition sample_buffer : staging (list (Z * Z)) := Staging (replicate 8192 0) [].

Lemma sample_buffer_staged : staged 8192 sample_buffer.
Proof. split; [apply bytes_okb_ok|]; vm_compute; reflexivity. Qed.

(** Only the backup holds a valid package: it is used. *)
Example backup_used :
  (fst <$> sunxi_fip_load_redundant 32800 24576 all_pointers 8192
     (Some (sample_read sample_media)) (Some (fun _ _ _ c => (0, c))) sample_buffer)
  = Some (0, 4404, 24576).
Proof. vm_compute. reflexivity. Qed.

Lemma load_redundant_safe_witness :
  exists st d used s',
    sunxi_fip_load_redundant 32800 24576 all_pointers 8192
      (Some (sample_read sample_media)) (Some (fun _ _ _ c => (0, c))) sample_buffer
      = Some (st, d, used, s') /\ staged 8192 s' /\
    ((st = 0 /\ (used = 32800 \/ used = 24576 /\ 24576 <> 0) /\
      exists n l c, fip_valid (buffer s') d n l /\ d <= 8192 /\
        run_plan (fun _ _ _ c => (0, c)) (buffer s') (copy_plan l) c = (0, context s')) \/
     (st = -1 /\ d = 0 /\ used = 0)).
Proof.
  apply (load_redundant_safe (sample_read sample_media) (fun _ _ _ c => (0, c))
           32800 24576 all_pointers 8192 sample_buffer);
    [exact sample_read_contract | exact sample_buffer_staged].
Defined.
