(* ===== verification/Machine.v ===== *)
(** * Hardware programs

    The register-level code of the repository as a small state monad.  A
    program runs against an environment that answers every volatile read and
    every call of code outside the repository from the history of the run, so
    a theorem that quantifies over the environment holds for any deterministic
    behaviour of the hardware.  The history records every interaction, newest
    first. *)

From S2P Require Import Prelude.

(** ** Histories *)

(** [C] names the external functions of a program image. *)
Inductive event (C : Type) : Type :=
| Rd (a v : Z)            (* readl *)
| Wr (a v : Z)            (* writel *)
| Rdb (a v : Z)           (* readb *)
| Wrb (a v : Z)           (* writeb *)
| Delay (us : Z)          (* udelay and friends, in microseconds *)
| Call (c : C) (ret : Z). (* a call of external code, with its result *)
Arguments Rd {C}. Arguments Wr {C}. Arguments Rdb {C}. Arguments Wrb {C}.
Arguments Delay {C}. Arguments Call {C}.

Definition history (C : Type) : Type := list (event C).

(** Answers of the world outside the program. *)
Record env (C : Type) := Env {
  env_read : history C -> Z -> Z;      (* raw value of a register *)
  env_ret : history C -> C -> Z;       (* return value of a call *)
  env_out : history C -> C -> list Z   (* data a call stores through pointers *)
}.
Arguments Env {C}. Arguments env_read {C}. Arguments env_ret {C}. Arguments env_out {C}.

(** Why a run stopped before returning. *)
Inductive stop :=
| Halted      (* control left for good: a jump that does not return, [while (1)] *)
| OutOfFuel   (* a polling loop exhausted the model's fuel *)
| Undefined.  (* undefined behaviour *)

Inductive outcome (C S A : Type) :=
| Done (a : A) (s : S) (h : history C)
| Stop (w : stop) (s : S) (h : history C).
Arguments Done {C S A}. Arguments Stop {C S A}.

Definition M (C S A : Type) : Type := env C -> S -> history C -> outcome C S A.

Declare Scope mach_scope.
Delimit Scope mach_scope with mach.

Section Monad.
Context {C S : Type}.

Definition ret {A} (a : A) : M C S A := fun _ s h => Done a s h.
Definition bind {A B} (m : M C S A) (f : A -> M C S B) : M C S B := fun e s h =>
  match m e s h with
  | Done a s h => f a e s h
  | Stop w s h => Stop w s h
  end.
Definition stop_now {A} (w : stop) : M C S A := fun _ s h => Stop w s h.

Definition get : M C S S := fun _ s h => Done s s h.
Definition put (s : S) : M C S unit := fun _ _ h => Done tt s h.

Definition readl (a : Z) : M C S Z := fun e s h =>
  let v := u32 (env_read e h a) in Done v s (Rd a v :: h).
Definition writel (v a : Z) : M C S unit := fun _ s h => Done tt s (Wr a v :: h).
Definition readb (a : Z) : M C S Z := fun e s h =>
  let v := u8 (env_read e h a) in Done v s (Rdb a v :: h).
Definition writeb (v a : Z) : M C S unit := fun _ s h => Done tt s (Wrb a v :: h).
Definition udelay (us : Z) : M C S unit := fun _ s h => Done tt s (Delay us :: h).
Definition mdelay (ms : Z) : M C S unit := udelay (ms * 1000).

(** A call of external code: its return value, and what it stored. *)
Definition call (c : C) : M C S Z := fun e s h =>
  let r := env_ret e h c in Done r s (Call c r :: h).
Definition call_out (c : C) : M C S (Z * list Z) := fun e s h =>
  let r := env_ret e h c in Done (r, env_out e h c) s (Call c r :: h).
End Monad.

Notation "'let!' x := m 'in' k" := (bind m (fun x => k))
  (at level 10, x pattern, m at level 200, k at level 200) : mach_scope.
Notation "m ;; k" := (bind m (fun _ => k)) (at level 100, right associativity) : mach_scope.
Open Scope mach_scope.

(** ** Weakest preconditions *)

Section WP.
Context {C S : Type}.

(** [Q] holds of a return, [K] of a stop. *)
Definition wp {A} (m : M C S A) (e : env C) (s : S) (h : history C)
  (Q : A -> S -> history C -> Prop) (K : stop -> S -> history C -> Prop) : Prop :=
  match m e s h with
  | Done a s h => Q a s h
  | Stop w s h => K w s h
  end.

(** No stop allowed. *)
Definition total : stop -> S -> history C -> Prop := fun _ _ _ => False.

Implicit Types (e : env C) (s : S) (h : history C).

Lemma wp_ret {A} (a : A) e s h (Q : A -> S -> history C -> Prop) K :
  Q a s h -> wp (ret a) e s h Q K.
Proof. done. Qed.

Lemma wp_stop {A} w e s h (Q : A -> S -> history C -> Prop) (K : stop -> S -> history C -> Prop) :
  K w s h -> wp (stop_now w) e s h Q K.
Proof. done. Qed.

Lemma wp_bind {A B} (m : M C S A) (f : A -> M C S B) e s h Q K :
  wp m e s h (fun a s h => wp (f a) e s h Q K) K -> wp (bind m f) e s h Q K.
Proof. unfold wp, bind. by destruct (m e s h). Qed.

(** Bring the first two actions of a program together. *)
Lemma wp_assoc {A B D} (m : M C S A) (f : A -> M C S B) (g : B -> M C S D) e s h Q K :
  wp (bind (bind m f) g) e s h Q K -> wp (bind m (fun x => bind (f x) g)) e s h Q K.
Proof. unfold wp, bind. by destruct (m e s h). Qed.

(** Sequencing by an intermediate assertion. *)
Lemma wp_seq {A B} (m : M C S A) (f : A -> M C S B) e s h R Q K :
  wp m e s h R K -> (forall a s h, R a s h -> wp (f a) e s h Q K) ->
  wp (bind m f) e s h Q K.
Proof.
  unfold wp, bind. intros H Hf. destruct (m e s h); [by apply Hf | exact H].
Qed.

Lemma wp_conseq {A} (m : M C S A) e s h (Q Q' : A -> S -> history C -> Prop)
  (K K' : stop -> S -> history C -> Prop) :
  wp m e s h Q' K' -> (forall a s h, Q' a s h -> Q a s h) ->
  (forall w s h, K' w s h -> K w s h) -> wp m e s h Q K.
Proof. unfold wp. destruct (m e s h); auto. Qed.

Lemma wp_mono {A} (m : M C S A) e s h (Q Q' : A -> S -> history C -> Prop) K :
  wp m e s h Q' K -> (forall a s h, Q' a s h -> Q a s h) -> wp m e s h Q K.
Proof. intros H HQ. by eapply wp_conseq. Qed.

Lemma wp_get e s h (Q : S -> S -> history C -> Prop) K : Q s s h -> wp get e s h Q K.
Proof. done. Qed.

Lemma wp_put s' e s h (Q : unit -> S -> history C -> Prop) K :
  Q tt s' h -> wp (put s') e s h Q K.
Proof. done. Qed.

Lemma wp_readl a e s h (Q : Z -> S -> history C -> Prop) K :
  (forall v, is_u32 v -> v = u32 (env_read e h a) -> Q v s (Rd a v :: h)) ->
  wp (readl a) e s h Q K.
Proof. intros H. apply H; [apply u32_range | done]. Qed.

Lemma wp_writel v a e s h (Q : unit -> S -> history C -> Prop) K :
  Q tt s (Wr a v :: h) -> wp (writel v a) e s h Q K.
Proof. done. Qed.

Lemma wp_readb a e s h (Q : Z -> S -> history C -> Prop) K :
  (forall v, is_u8 v -> v = u8 (env_read e h a) -> Q v s (Rdb a v :: h)) ->
  wp (readb a) e s h Q K.
Proof. intros H. apply H; [apply u8_range | done]. Qed.

Lemma wp_writeb v a e s h (Q : unit -> S -> history C -> Prop) K :
  Q tt s (Wrb a v :: h) -> wp (writeb v a) e s h Q K.
Proof. done. Qed.

Lemma wp_udelay us e s h (Q : unit -> S -> history C -> Prop) K :
  Q tt s (Delay us :: h) -> wp (udelay us) e s h Q K.
Proof. done. Qed.

Lemma wp_mdelay ms e s h (Q : unit -> S -> history C -> Prop) K :
  Q tt s (Delay (ms * 1000) :: h) -> wp (mdelay ms) e s h Q K.
Proof. done. Qed.

Lemma wp_call c e s h (Q : Z -> S -> history C -> Prop) K :
  (forall r, r = env_ret e h c -> Q r s (Call c r :: h)) -> wp (call c) e s h Q K.
Proof. intros H. by apply H. Qed.

Lemma wp_call_out c e s h (Q : Z * list Z -> S -> history C -> Prop) K :
  (forall r, r = env_ret e h c -> Q (r, env_out e h c) s (Call c r :: h)) ->
  wp (call_out c) e s h Q K.
Proof. intros H. by apply H. Qed.

(** Two postconditions of one run, and one under a condition. *)
Lemma wp_and {A} (m : M C S A) e s h Q Q' K :
  wp m e s h Q total -> wp m e s h Q' K -> wp m e s h (fun a s h => Q a s h /\ Q' a s h) total.
Proof. unfold wp. by destruct (m e s h). Qed.
Lemma wp_when {A} (P : Prop) (m : M C S A) e s h Q Q' K :
  wp m e s h Q total -> (P -> wp m e s h Q' K) -> wp m e s h (fun a s h => P -> Q' a s h) total.
Proof. unfold wp. destruct (m e s h); [auto|done]. Qed.

(** From a weakest precondition to the run itself. *)
Lemma wp_total_run {A} (m : M C S A) e s h Q :
  wp m e s h Q total -> exists a s' h', m e s h = Done a s' h' /\ Q a s' h'.
Proof. unfold wp, total. destruct (m e s h) as [a s' h'|]; [eauto | done]. Qed.

Lemma wp_run {A} (m : M C S A) e s h Q K a s' h' :
  wp m e s h Q K -> m e s h = Done a s' h' -> Q a s' h'.
Proof. unfold wp. by intros H E; rewrite E in H. Qed.
End WP.

(** One step of symbolic execution; the continuation stays under [wp]. *)
Ltac wp_step :=
  lazymatch goal with
  | |- wp (bind _ _) _ _ _ _ _ => apply wp_bind
  | |- wp (ret _) _ _ _ _ _ => apply wp_ret
  | |- wp (readl _) _ _ _ _ _ => apply wp_readl; intros ?v ?Hv ?Ev
  | |- wp (writel _ _) _ _ _ _ _ => apply wp_writel
  | |- wp (readb _) _ _ _ _ _ => apply wp_readb; intros ?v ?Hv ?Ev
  | |- wp (writeb _ _) _ _ _ _ _ => apply wp_writeb
  | |- wp (udelay _) _ _ _ _ _ => apply wp_udelay
  | |- wp (mdelay _) _ _ _ _ _ => apply wp_mdelay
  | |- wp get _ _ _ _ _ => apply wp_get
  | |- wp (put _) _ _ _ _ _ => apply wp_put
  | |- wp (call _) _ _ _ _ _ => apply wp_call; intros ?r ?Er
  | |- wp (call_out _) _ _ _ _ _ => apply wp_call_out; intros ?r ?Er
  | |- wp (stop_now _) _ _ _ _ _ => apply wp_stop
  end; cbv beta.
Ltac wp_steps := repeat wp_step.

(** ** Registers that behave like memory *)

Section Registers.
Context {C : Type}.

(** What a register holds after a history: the last value written, or its
    value before the run. *)
Fixpoint regval (init : Z -> Z) (h : history C) (a : Z) : Z :=
  match h with
  | [] => init a
  | Wr a' v :: h => if a =? a' then v else regval init h a
  | _ :: h => regval init h a
  end.

(** The hardware returns from [a] what was last written there. *)
Definition plain (e : env C) (init : Z -> Z) (a : Z) : Prop :=
  is_u32 (init a) /\ forall h, env_read e h a = regval init h a.

Lemma regval_Wr_eq init h a v : regval init (Wr a v :: h) a = v.
Proof. simpl. by rewrite Z.eqb_refl. Qed.

Lemma regval_Wr_ne init h a a' v : a <> a' -> regval init (Wr a' v :: h) a = regval init h a.
Proof. simpl. intros. by destruct (Z.eqb_spec a a'). Qed.

Lemma regval_app_silent init new h a :
  (forall v, Wr a v ∉ new) -> regval init (new ++ h) a = regval init h a.
Proof.
  induction new as [|ev new IH]; intros Hno; [done|].
  assert (regval init (new ++ h) a = regval init h a) as IH'.
  { apply IH. intros v Hv. apply (Hno v). by right. }
  destruct ev as [| a' v' | | | |]; simpl; try done.
  destruct (Z.eqb_spec a a') as [->|]; [|done].
  exfalso. apply (Hno v'). by left.
Qed.
End Registers.

(** ** What a program may write *)

Section Frames.
Context {C S : Type}.

(** [h'] continues [h] with events whose register writes satisfy [P]. *)
Definition extends (P : Z -> Z -> Prop) (h h' : history C) : Prop :=
  exists new, h' = new ++ h /\
    forall a v, (Wr a v ∈ new \/ Wrb a v ∈ new) -> P a v.

(** Every run of [m] returns with the state unchanged and only writes that
    satisfy [P]. *)
Definition only_writes (P : Z -> Z -> Prop) {A} (m : M C S A) : Prop :=
  forall e s h, wp m e s h (fun _ s' h' => s' = s /\ extends P h h') total.

Lemma extends_refl P h : extends P h h.
Proof.
  exists []. split; [done|]. intros a v [H|H]; by apply elem_of_nil in H.
Qed.

Lemma extends_trans P h1 h2 h3 : extends P h1 h2 -> extends P h2 h3 -> extends P h1 h3.
Proof.
  intros (n1 & -> & H1) (n2 & -> & H2). exists (n2 ++ n1). rewrite app_assoc.
  split; [done|]. intros a v. rewrite !elem_of_app. naive_solver.
Qed.

Lemma extends_weaken (P Q : Z -> Z -> Prop) h h' :
  extends P h h' -> (forall a v, P a v -> Q a v) -> extends Q h h'.
Proof. intros (new & -> & H) HPQ. exists new. naive_solver. Qed.

Lemma extends_cons (P : Z -> Z -> Prop) h h' ev :
  (forall a v, (ev = Wr a v \/ ev = Wrb a v) -> P a v) ->
  extends P h h' -> extends P h (ev :: h').
Proof.
  intros Hev Hh. eapply extends_trans; [exact Hh|]. exists [ev]. split; [done|].
  intros a v. rewrite !list_elem_of_singleton. naive_solver.
Qed.

Lemma ow_ret P {A} (a : A) : only_writes P (ret a).
Proof. intros e s h. split; [done | apply extends_refl]. Qed.

Lemma ow_bind P {A B} (m : M C S A) (f : A -> M C S B) :
  only_writes P m -> (forall a, only_writes P (f a)) -> only_writes P (bind m f).
Proof.
  intros Hm Hf e s h. apply wp_bind. eapply wp_mono; [apply Hm|].
  intros a s' h' [-> Hh]. eapply wp_mono; [apply Hf|].
  intros b s'' h'' [-> Hh']. split; [done|]. by eapply extends_trans.
Qed.

Ltac one_event := intros e s h; split; [done|]; apply extends_cons;
  [naive_solver | apply extends_refl].

Lemma ow_readl P a : only_writes P (readl a).
Proof. one_event. Qed.
Lemma ow_readb P a : only_writes P (readb a).
Proof. one_event. Qed.
Lemma ow_udelay P us : only_writes P (udelay us).
Proof. one_event. Qed.
Lemma ow_mdelay P us : only_writes P (mdelay us).
Proof. one_event. Qed.
Lemma ow_call P c : only_writes P (call c).
Proof. one_event. Qed.
Lemma ow_call_out P c : only_writes P (call_out c).
Proof. one_event. Qed.
Lemma ow_writel (P : Z -> Z -> Prop) v a : P a v -> only_writes P (writel v a).
Proof. intros Hp. one_event. Qed.
Lemma ow_writeb (P : Z -> Z -> Prop) v a : P a v -> only_writes P (writeb v a).
Proof. intros Hp. one_event. Qed.

Lemma ow_weaken (P Q : Z -> Z -> Prop) {A} (m : M C S A) :
  only_writes P m -> (forall a v, P a v -> Q a v) -> only_writes Q m.
Proof.
  intros Hm HPQ e s h. eapply wp_mono; [apply Hm|].
  intros a s' h' [-> Hh]. split; [done|]. by eapply extends_weaken.
Qed.

(** Registers outside the frame keep their contents. *)
Lemma regval_extends (P : Z -> Z -> Prop) init h h' a :
  extends P h h' -> (forall v, ~ P a v) -> regval init h' a = regval init h a.
Proof.
  intros (new & -> & H) Hno. apply regval_app_silent. intros v Hv.
  apply (Hno v), H. by left.
Qed.
End Frames.

Create HintDb frame discriminated.
#[export] Hint Resolve ow_ret ow_readl ow_readb ow_udelay ow_mdelay ow_call ow_call_out
  extends_refl : frame.

(** Frame of a straight-line or branching program: side conditions on the
    written registers are left to the caller's [tac]. *)
Ltac frame_step tac :=
  lazymatch goal with
  | |- only_writes _ (bind _ _) => apply ow_bind; [|intros ?]
  | |- only_writes _ (ret _) => apply ow_ret
  | |- only_writes _ (readl _) => apply ow_readl
  | |- only_writes _ (readb _) => apply ow_readb
  | |- only_writes _ (udelay _) => apply ow_udelay
  | |- only_writes _ (mdelay _) => apply ow_mdelay
  | |- only_writes _ (call _) => apply ow_call
  | |- only_writes _ (call_out _) => apply ow_call_out
  | |- only_writes _ (writel _ _) => apply ow_writel; tac
  | |- only_writes _ (writeb _ _) => apply ow_writeb; tac
  | |- only_writes _ (if ?b then _ else _) => destruct b
  | |- only_writes _ (match ?x with _ => _ end) => destruct x
  | |- only_writes _ (let _ := _ in _) => cbv zeta
  end.
Ltac frame tac := repeat frame_step tac.

(** ** Registers with read-only status bits *)

Section Status.
Context {C : Type}.

(** The hardware returns what was last written to [a], except for the status
    bits of [mask], which it controls. *)
Definition plain_but (e : env C) (init : Z -> Z) (a mask : Z) : Prop :=
  forall h, Z.land (u32 (env_read e h a)) (cnot32 mask)
            = Z.land (u32 (regval init h a)) (cnot32 mask).

Lemma plain_but_bit e init a mask h v n :
  plain_but e init a mask -> v = u32 (env_read e h a) -> 0 <= n < 32 ->
  Z.testbit mask n = false -> Z.testbit v n = Z.testbit (regval init h a) n.
Proof.
  intros Hp -> Hn Hm. specialize (Hp h).
  apply (f_equal (fun z => Z.testbit z n)) in Hp.
  rewrite !Z.land_spec, testbit_cnot32, Hm in Hp by lia.
  destruct (Z.ltb_spec n 32); [|lia]. simpl in Hp. rewrite !andb_true_r in Hp.
  rewrite Hp, testbit_u32 by lia. destruct (Z.ltb_spec n 32); [done | lia].
Qed.

Lemma plain_plain_but e init a mask : plain e init a -> plain_but e init a mask.
Proof. intros [_ H] h. by rewrite H. Qed.

(** The bits of register [a] outside [mask] change by [f] between two
    histories. *)
Definition bits_after (init : Z -> Z) (a mask : Z) (f : Z -> bool -> bool)
  (h h' : history C) : Prop :=
  forall n, 0 <= n < 32 -> Z.testbit mask n = false ->
    Z.testbit (regval init h' a) n = f n (Z.testbit (regval init h a) n).

Lemma bits_after_trans init a mask f g h1 h2 h3 :
  bits_after init a mask f h1 h2 -> bits_after init a mask g h2 h3 ->
  bits_after init a mask (fun n b => g n (f n b)) h1 h3.
Proof. intros H1 H2 n Hn Hm. by rewrite H2, H1 by done. Qed.

Lemma bits_after_same init a mask (P : Z -> Z -> Prop) h h' :
  extends P h h' -> (forall v, ~ P a v) -> bits_after init a mask (fun _ b => b) h h'.
Proof. intros Hx Hno n _ _. by rewrite (regval_extends P init h h' a). Qed.
End Status.
