(* ===== verification/Console.v ===== *)
(** * Console output

    [printf] belongs to no file of the repository; a program calls it with a
    format and arguments, and the call is an event of the run.  Formats are the
    source's literals, escape sequences kept as written. *)

From Stdlib Require Import String.
From S2P Require Import Prelude Machine.

(** An argument of a variadic call. *)
Inductive parg :=
| N_ (z : Z)
| S_ (s : string).

(** Programs that may print: how a print is named among the external calls. *)
Class HasPrintf (C : Type) := printf_call : string -> list parg -> C.

Definition printf {C S} `{HasPrintf C} (fmt : string) (args : list parg) : M C S unit :=
  let! _ := call (printf_call fmt args) in ret tt.

Arguments printf {C S _} fmt%_string_scope args%_list_scope.

Lemma ow_printf {C S} `{HasPrintf C} P fmt args :
  only_writes (C := C) (S := S) P (printf fmt args).
Proof. apply ow_bind; [apply ow_call | intros; apply ow_ret]. Qed.

Lemma wp_printf {C S} `{HasPrintf C} fmt args e (s : S) h Q K :
  (forall r, Q tt s (Call (printf_call fmt args) r :: h)) -> wp (printf fmt args) e s h Q K.
Proof. intros HQ. apply wp_bind, wp_call. intros r _. apply wp_ret, HQ. Qed.

(** The image that does nothing but print. *)
Inductive print_only := Printf (fmt : string) (args : list parg).
#[export] Instance print_only_printf : HasPrintf print_only := Printf.
