(* ===== verification/Clock.v ===== *)
(** * Boot-critical clocks (src/src/clock_a733.c)

    PLL programming and the four system bus clocks, as hardware programs over
    any environment.  There is no static state and no external call; the
    section is generic in both. *)

From S2P Require Import Prelude Machine.

(** ** Register map and fields *)

Definition SUNXI_CCMU_BASE : Z := 0x02002000.
Definition SUNXI_RTC_BASE : Z := 0x07090000.
Definition PLL_REF_CTRL_REG : Z := 0x00000000.
Definition PLL_PERI0_CTRL_REG : Z := 0x000000a0.
Definition PLL_PERI1_CTRL_REG : Z := 0x000000c0.
Definition AHB_CLK_REG : Z := 0x00000500.
Definition APB0_CLK_REG : Z := 0x00000510.
Definition APB1_CLK_REG : Z := 0x00000518.
Definition APB_UART_CLK_REG : Z := 0x00000538.
Definition PERI0PLL_GATE_EN_REG : Z := 0x00001908.
Definition PERI1PLL_GATE_EN_REG : Z := 0x0000190c.

Definition A7S_PLL_ENABLE : Z := BIT 31.
Definition A7S_PLL_LDO_ENABLE : Z := BIT 30.
Definition A7S_PLL_LOCK_ENABLE : Z := BIT 29.
Definition A7S_PLL_LOCK : Z := BIT 28.
Definition A7S_REF_OUTPUT_GATE : Z := BIT 27.
Definition A7S_REF_REG_ENABLE : Z := BIT 24.
Definition A7S_PERI_OUTPUT_GATES : Z := Z.lor (Z.lor (BIT 27) (BIT 26)) (BIT 25).
Definition A7S_PERI_REF_PLL : Z := BIT 24.

Definition A7S_RTC_XO_CTRL0 : Z := SUNXI_RTC_BASE + 0x160.
Definition A7S_RTC_DCXO_STATUS_MASK : Z := shl32 3 14.
Definition A7S_RTC_DCXO_STATUS_SHIFT : Z := 14.

Definition A7S_PLL_LOCK_TIMEOUT_US : Z := 1000.
Definition A7S_PLL_LOCK_STABLE_READS : Z := 3.

Definition A7S_CLOCK_SOURCE_SHIFT : Z := 24.
Definition A7S_AHB_APB_SOURCE_MASK : Z := shl32 3 A7S_CLOCK_SOURCE_SHIFT.
Definition A7S_UART_SOURCE_MASK : Z := shl32 7 A7S_CLOCK_SOURCE_SHIFT.
Definition A7S_BUS_DIV_MASK : Z := 0x1f.

Definition A7S_AHB_SOURCE_PERI0_600 : Z := shl32 3 A7S_CLOCK_SOURCE_SHIFT.
Definition A7S_APB_SOURCE_PERI0_600 : Z := shl32 3 A7S_CLOCK_SOURCE_SHIFT.
Definition A7S_UART_SOURCE_PERI0_480 : Z := shl32 4 A7S_CLOCK_SOURCE_SHIFT.

Definition A7S_AHB_DIV_3 : Z := 3 - 1.
Definition A7S_APB_DIV_6 : Z := 6 - 1.
Definition A7S_UART_DIV_20 : Z := 20 - 1.

Definition A7S_PERI_DISTRIBUTION_GATES : Z := 0x8fff0fff.

(** [enum a7s_clock_status] *)
Definition A7S_CLOCK_OK : Z := 0.
Definition A7S_CLOCK_ERR_REF_PLL : Z := -1.
Definition A7S_CLOCK_ERR_PERI0_PLL : Z := -2.
Definition A7S_CLOCK_ERR_PERI1_PLL : Z := -3.
Definition A7S_CLOCK_ERR_BUS : Z := -4.

Record a7s_pll_config := PllConfig {
  reg : Z;
  pattern_reg : Z;
  config_mask : Z;
  config_value : Z;
  output_mask : Z;
  supply_mask : Z
}.

Definition a7s_ccu_reg (offset : Z) : Z := SUNXI_CCMU_BASE + offset.

(** A non-zero value of a C condition. *)
Definition nonzero (z : Z) : bool := negb (z =? 0).

Section Clock.
Context {C S : Type}.
Local Abbreviation M := (M C S).

(** The [for] loop of [a7s_pll_wait_stable]; [n] iterations are left. *)
Fixpoint wait_stable_loop (n : nat) (stable : Z) (reg : Z) : M Z :=
  match n with
  | O => ret (-1)
  | Datatypes.S n =>
      let! v := readl reg in
      if nonzero (Z.land v A7S_PLL_LOCK) then
        if stable + 1 =? A7S_PLL_LOCK_STABLE_READS then ret 0
        else udelay 1;; wait_stable_loop n (stable + 1) reg
      else udelay 1;; wait_stable_loop n 0 reg
  end.

Definition a7s_pll_wait_stable (reg : Z) : M Z :=
  udelay 3;;
  wait_stable_loop (Z.to_nat A7S_PLL_LOCK_TIMEOUT_US) 0 reg.

(** The C function returns 0 or 1. *)
Definition a7s_pll_is_running (pll : a7s_pll_config) (check_config : bool) : M bool :=
  let required := Z.lor (Z.lor (Z.lor (Z.lor A7S_PLL_ENABLE A7S_PLL_LDO_ENABLE)
                    A7S_PLL_LOCK_ENABLE) (output_mask pll)) (supply_mask pll) in
  let! value := readl (reg pll) in
  if negb (Z.land value required =? required) then ret false
  else if check_config && negb (Z.land value (config_mask pll) =? config_value pll)
  then ret false
  else
    let! pattern :=
      if nonzero (pattern_reg pll)
      then let! p := readl (pattern_reg pll) in ret (nonzero (Z.land p (BIT 31)))
      else ret false in
    if pattern then ret false
    else
      let! r := a7s_pll_wait_stable (reg pll) in
      ret (r =? 0).

(** The two ways of preparing a PLL for reconfiguration. *)
Definition pll_isolate (pll : a7s_pll_config) (value : Z) : M unit :=
  writel (Z.land value (cnot32 (output_mask pll))) (reg pll);;
  let! v := readl (reg pll) in
  writel (Z.land v (cnot32 A7S_PLL_LOCK_ENABLE)) (reg pll).

Definition pll_startup (pll : a7s_pll_config) (value : Z) : M unit :=
  let value := Z.lor value (Z.lor A7S_PLL_LDO_ENABLE (supply_mask pll)) in
  writel value (reg pll);;
  let value := Z.lor value (output_mask pll) in
  writel value (reg pll).

(** The configuration write and the enabling that follows it. *)
Definition pll_configure (pll : a7s_pll_config) : M unit :=
  let! value := readl (reg pll) in
  let value := Z.land value (cnot32 (config_mask pll)) in
  let value := Z.lor value (Z.lor (Z.lor (config_value pll) A7S_PLL_LDO_ENABLE)
                                  (supply_mask pll)) in
  writel value (reg pll);;
  let! v := readl (reg pll) in
  let value := Z.lor v A7S_PLL_ENABLE in
  writel value (reg pll);;
  writel (Z.lor value A7S_PLL_LOCK_ENABLE) (reg pll).

Definition a7s_pll_program (pll : a7s_pll_config) : M Z :=
  let! value := readl (reg pll) in
  let was_enabled := nonzero (Z.land value A7S_PLL_ENABLE) in
  let! running := a7s_pll_is_running pll true in
  if running then ret 0
  else
    (if nonzero (pattern_reg pll)
     then let! p := readl (pattern_reg pll) in
          writel (Z.land p (cnot32 (BIT 31))) (pattern_reg pll)
     else ret tt);;
    let! value := readl (reg pll) in
    (if was_enabled then pll_isolate pll value else pll_startup pll value);;
    pll_configure pll;;
    let! w := a7s_pll_wait_stable (reg pll) in
    if nonzero w then
      let! v := readl (reg pll) in
      writel (Z.land v (cnot32 (output_mask pll))) (reg pll);;
      ret (-1)
    else
      udelay 20;;
      (if was_enabled then
         let! v := readl (reg pll) in
         writel (Z.lor v (output_mask pll)) (reg pll)
       else ret tt);;
      ret 0.

(** Eight attempts at three equal samples; [None] is [attempt == 8]. *)
Fixpoint dcxo_loop (n : nat) : M (option Z) :=
  match n with
  | O => ret None
  | Datatypes.S n =>
      let! a := readl A7S_RTC_XO_CTRL0 in
      let first := Z.land a A7S_RTC_DCXO_STATUS_MASK in
      udelay 1;;
      let! b := readl A7S_RTC_XO_CTRL0 in
      let second := Z.land b A7S_RTC_DCXO_STATUS_MASK in
      udelay 1;;
      let! c := readl A7S_RTC_XO_CTRL0 in
      let third := Z.land c A7S_RTC_DCXO_STATUS_MASK in
      if (first =? second) && (second =? third) then ret (Some first) else dcxo_loop n
  end.

Definition a7s_read_dcxo_rate : M Z :=
  let! r := dcxo_loop 8 in
  match r with
  | None => ret 0
  | Some first =>
      let status := Z.shiftr first A7S_RTC_DCXO_STATUS_SHIFT in
      ret (if status =? 1 then 19200000 else if status =? 2 then 26000000 else 24000000)
  end.

Definition ref_pll_config (value : Z) : a7s_pll_config :=
  PllConfig (a7s_ccu_reg PLL_REF_CTRL_REG) 0
    (Z.lor (Z.lor (shl32 0x7f 16) (shl32 0xff 8)) (BIT 1))
    value A7S_REF_OUTPUT_GATE A7S_REF_REG_ENABLE.

(** The divider pair chosen for a crystal: [(n, output_div)]. *)
Definition ref_pll_factors (dcxo_rate : Z) : option (Z * Z) :=
  if dcxo_rate =? 19200000 then Some (100, 80)
  else if dcxo_rate =? 24000000 then Some (100, 100)
  else if dcxo_rate =? 26000000 then Some (96, 104)
  else None.

Definition a7s_ref_pll_init : M Z :=
  let! running := a7s_pll_is_running (ref_pll_config 0) false in
  if running then ret 0
  else
    let! dcxo_rate := a7s_read_dcxo_rate in
    match ref_pll_factors dcxo_rate with
    | None => ret (-1)
    | Some (n, output_div) =>
        a7s_pll_program
          (ref_pll_config (Z.lor (shl32 (u32 (output_div - 1)) 16) (shl32 (u32 (n - 1)) 8)))
    end.

Definition peri_pll_config (offset n : Z) : a7s_pll_config :=
  PllConfig (a7s_ccu_reg offset) (a7s_ccu_reg (offset + 8))
    (Z.lor (Z.lor (Z.lor (Z.lor (Z.lor A7S_PERI_REF_PLL (shl32 7 20)) (shl32 7 16))
       (shl32 0xff 8)) (shl32 7 2)) (BIT 1))
    (Z.lor (Z.lor (Z.lor (Z.lor A7S_PERI_REF_PLL (shl32 1 20)) (shl32 2 16))
       (shl32 (u32 (n - 1)) 8)) (shl32 4 2))
    A7S_PERI_OUTPUT_GATES 0.

Definition a7s_peri_pll_init (offset n : Z) : M Z :=
  a7s_pll_program (peri_pll_config offset n).

Definition a7s_bus_switch_to_sys24 (offset source_mask : Z) : M unit :=
  let reg := a7s_ccu_reg offset in
  let! value := readl reg in
  writel (Z.land value (cnot32 source_mask)) reg;;
  let! value := readl reg in
  writel (Z.land value (cnot32 A7S_BUS_DIV_MASK)) reg.

(** [if ((readl(reg) & mask) != expected) return -1;] and go on otherwise. *)
Definition bus_check (offset mask expected : Z) (next : M Z) : M Z :=
  let! v := readl (a7s_ccu_reg offset) in
  if negb (Z.land v mask =? expected) then ret (-1) else next.

Definition a7s_bus_use_sys24 : M Z :=
  a7s_bus_switch_to_sys24 AHB_CLK_REG A7S_AHB_APB_SOURCE_MASK;;
  a7s_bus_switch_to_sys24 APB0_CLK_REG A7S_AHB_APB_SOURCE_MASK;;
  a7s_bus_switch_to_sys24 APB1_CLK_REG A7S_AHB_APB_SOURCE_MASK;;
  a7s_bus_switch_to_sys24 APB_UART_CLK_REG A7S_UART_SOURCE_MASK;;
  bus_check AHB_CLK_REG (Z.lor A7S_AHB_APB_SOURCE_MASK A7S_BUS_DIV_MASK) 0
  (bus_check APB0_CLK_REG (Z.lor A7S_AHB_APB_SOURCE_MASK A7S_BUS_DIV_MASK) 0
  (bus_check APB1_CLK_REG (Z.lor A7S_AHB_APB_SOURCE_MASK A7S_BUS_DIV_MASK) 0
  (bus_check APB_UART_CLK_REG (Z.lor A7S_UART_SOURCE_MASK A7S_BUS_DIV_MASK) 0
  (ret 0)))).

Definition a7s_bus_switch_up (offset source_mask source divider : Z) : M unit :=
  let reg := a7s_ccu_reg offset in
  let! value := readl reg in
  writel (Z.lor (Z.land value (cnot32 A7S_BUS_DIV_MASK)) divider) reg;;
  let! value := readl reg in
  writel (Z.lor (Z.land value (cnot32 source_mask)) source) reg.

Definition a7s_bus_use_nominal_rates : M Z :=
  a7s_bus_switch_up AHB_CLK_REG A7S_AHB_APB_SOURCE_MASK
    A7S_AHB_SOURCE_PERI0_600 A7S_AHB_DIV_3;;
  a7s_bus_switch_up APB0_CLK_REG A7S_AHB_APB_SOURCE_MASK
    A7S_APB_SOURCE_PERI0_600 A7S_APB_DIV_6;;
  a7s_bus_switch_up APB1_CLK_REG A7S_AHB_APB_SOURCE_MASK
    A7S_APB_SOURCE_PERI0_600 A7S_APB_DIV_6;;
  a7s_bus_switch_up APB_UART_CLK_REG A7S_UART_SOURCE_MASK
    A7S_UART_SOURCE_PERI0_480 A7S_UART_DIV_20;;
  bus_check AHB_CLK_REG (Z.lor A7S_AHB_APB_SOURCE_MASK A7S_BUS_DIV_MASK)
    (Z.lor A7S_AHB_SOURCE_PERI0_600 A7S_AHB_DIV_3)
  (bus_check APB0_CLK_REG (Z.lor A7S_AHB_APB_SOURCE_MASK A7S_BUS_DIV_MASK)
    (Z.lor A7S_APB_SOURCE_PERI0_600 A7S_APB_DIV_6)
  (bus_check APB1_CLK_REG (Z.lor A7S_AHB_APB_SOURCE_MASK A7S_BUS_DIV_MASK)
    (Z.lor A7S_APB_SOURCE_PERI0_600 A7S_APB_DIV_6)
  (bus_check APB_UART_CLK_REG (Z.lor A7S_UART_SOURCE_MASK A7S_BUS_DIV_MASK)
    (Z.lor A7S_UART_SOURCE_PERI0_480 A7S_UART_DIV_20)
  (ret 0)))).

Definition a7s_peri_distribution_enable (offset : Z) : M Z :=
  let reg := a7s_ccu_reg offset in
  let! v := readl reg in
  writel (Z.lor v A7S_PERI_DISTRIBUTION_GATES) reg;;
  let! v := readl reg in
  ret (if Z.land v A7S_PERI_DISTRIBUTION_GATES =? A7S_PERI_DISTRIBUTION_GATES
       then 0 else -1).

Definition a7s_clock_reset : M unit :=
  let! _ := a7s_bus_use_sys24 in ret tt.

Definition a7s_clock_init : M Z :=
  let! r := a7s_bus_use_sys24 in
  if nonzero r then ret A7S_CLOCK_ERR_BUS
  else
  let! r := a7s_ref_pll_init in
  if nonzero r then ret A7S_CLOCK_ERR_REF_PLL
  else
  let! r := a7s_peri_pll_init PLL_PERI0_CTRL_REG 100 in
  if nonzero r then ret A7S_CLOCK_ERR_PERI0_PLL
  else
  let! r := a7s_peri_pll_init PLL_PERI1_CTRL_REG 100 in
  if nonzero r then a7s_bus_use_sys24;; ret A7S_CLOCK_ERR_PERI1_PLL
  else
  let! gates :=
    let! g0 := a7s_peri_distribution_enable PERI0PLL_GATE_EN_REG in
    if nonzero g0 then ret true
    else let! g1 := a7s_peri_distribution_enable PERI1PLL_GATE_EN_REG in
         ret (nonzero g1) in
  if gates then a7s_bus_use_sys24;; ret A7S_CLOCK_ERR_BUS
  else
  let! r := a7s_bus_use_nominal_rates in
  if nonzero r then a7s_bus_use_sys24;; ret A7S_CLOCK_ERR_BUS
  else ret A7S_CLOCK_OK.
End Clock.
