(* ===== verification/ClockDiag.v ===== *)
(** * Clock diagnostics (src/src/clock_diag_a733.c)

    The rates the diagnostic computes from a snapshot of the registers, in kHz,
    and the dump that prints them.  Unsigned products wrap at 32 bits as in C;
    ClockDiagProps.v shows that none does. *)

From Stdlib Require Import String.
From S2P Require Import Prelude Machine Console Clock.

Local Open Scope string_scope.
Local Open Scope list_scope.
Local Open Scope Z_scope.

(** ** Registers *)

Definition SUNXI_CPU_PLL_CFG_BASE : Z := 0x08870000.
Definition A7S_CPU_PLL_BASE : Z := SUNXI_CPU_PLL_CFG_BASE.
Definition A7S_CPU_BACK_PLL_CTRL : Z := A7S_CPU_PLL_BASE + 0x0000.
Definition A7S_CPU_A_PLL_CTRL : Z := A7S_CPU_PLL_BASE + 0x1000.
Definition A7S_CPU_A_CLK : Z := A7S_CPU_PLL_BASE + 0x101c.
Definition A7S_CPU_A_GATING : Z := A7S_CPU_PLL_BASE + 0x1020.
Definition A7S_CPU_B_PLL_CTRL : Z := A7S_CPU_PLL_BASE + 0x2000.
Definition A7S_CPU_B_CLK : Z := A7S_CPU_PLL_BASE + 0x201c.
Definition A7S_CPU_B_GATING : Z := A7S_CPU_PLL_BASE + 0x2020.
Definition A7S_DSU_PLL_CTRL : Z := A7S_CPU_PLL_BASE + 0x3000.
Definition A7S_DSU_CLK : Z := A7S_CPU_PLL_BASE + 0x301c.
Definition A7S_DSU_GATING : Z := A7S_CPU_PLL_BASE + 0x3020.
Definition A7S_CPU_SLOW_CLK_SEL : Z := A7S_CPU_PLL_BASE + 0x3034.
Definition A7S_AUDIO1_PLL_CTRL : Z := 0x00000280.
Definition PLL_DDR_CTRL_REG : Z := 0x00000020.
Definition PLL_GPU0_CTRL_REG : Z := 0x000000e0.
Definition PLL_VIDEO0_CTRL_REG : Z := 0x00000120.
Definition PLL_VIDEO1_CTRL_REG : Z := 0x00000140.
Definition PLL_VIDEO2_CTRL_REG : Z := 0x00000160.
Definition PLL_VE0_CTRL_REG : Z := 0x00000220.
Definition PLL_VE1_CTRL_REG : Z := 0x00000240.
Definition PLL_AUDIO0_CTRL_REG : Z := 0x00000260.
Definition PLL_NPU_CTRL_REG : Z := 0x000002a0.
Definition PLL_DE_CTRL_REG : Z := 0x000002e0.
Definition PLL_CCI_CTRL_REG : Z := 0x00000320.
Definition GIC_CLK_REG : Z := 0x00000560.
Definition NSI_CLK_REG : Z := 0x00000580.
Definition MBUS_CLK_REG : Z := 0x00000588.

Record a7s_clock_rates := ClockRates {
  dcxo : Z;
  ref : Z;
  cpu_back_pll : Z;
  cpu_a_pll : Z;
  cpu_b_pll : Z;
  dsu_pll : Z;
  cpu_a : Z;
  cpu_b : Z;
  dsu : Z;
  dsu_axi : Z;
  dsu_apb : Z;
  dsu_gic : Z;
  ddr : Z;
  peri0_2x : Z;
  peri0_800 : Z;
  peri0_480 : Z;
  peri1_2x : Z;
  peri1_800 : Z;
  peri1_480 : Z;
  npu : Z;
  de_3x : Z;
  cci : Z;
  ahb : Z;
  apb0 : Z;
  apb1 : Z;
  uart : Z;
  gic : Z;
  nsi : Z;
  mbus : Z
}.

(** ** Pure rate computations *)

(** [(reg >> shift) & mask] *)
Definition field (reg shift mask : Z) : Z := Z.land (Z.shiftr reg shift) mask.

Definition a7s_dcxo_rate_of (xo_ctrl0 : Z) : Z :=
  match field xo_ctrl0 14 3 with
  | 1 => 19200
  | 2 => 26000
  | _ => 24000
  end.

Definition a7s_div_rate (parent divisor : Z) : Z :=
  if nonzero parent && nonzero divisor then parent / divisor else 0.

Definition a7s_main_pll_input (reg dcxo ref : Z) : Z :=
  if nonzero (Z.land reg (BIT 24)) then ref else dcxo.

Definition a7s_main_pll_output (reg parent p_shift p_mask gate_bit : Z) : Z :=
  let on := Z.lor A7S_PLL_ENABLE (BIT gate_bit) in
  if negb (Z.land reg on =? on) then 0
  else
    let n := field reg 8 0xff + 1 in
    let m1 := field reg 1 1 + 1 in
    let p := field reg p_shift p_mask + 1 in
    a7s_div_rate (u32 (parent * n)) (u32 (m1 * p)).

Definition a7s_ref_pll_rate (reg dcxo : Z) : Z :=
  let on := Z.lor A7S_PLL_ENABLE (BIT 27) in
  if negb (Z.land reg on =? on) then 0
  else
    let n := field reg 8 0xff + 1 in
    let m1 := field reg 1 1 + 1 in
    let p := field reg 16 0x7f + 1 in
    a7s_div_rate (u32 (dcxo * n)) (u32 (m1 * p)).

Definition a7s_cpu_back_pll_rate (reg dcxo : Z) : Z :=
  a7s_main_pll_output reg dcxo 20 7 27.

Definition a7s_cpu_linear_pll_rate (reg dcxo : Z) : Z :=
  let on := Z.lor A7S_PLL_ENABLE (BIT 27) in
  if negb (Z.land reg on =? on) then 0
  else
    let n := field reg 8 0xff in
    let p := field reg 16 0xf + 1 in
    let m0 := field reg 20 3 + 1 in
    let m1 := Z.land reg 0xf + 1 in
    a7s_div_rate (u32 (dcxo * n)) (u32 (p * m0 * m1)).

Definition a7s_cpu_slow_rate (selector dcxo : Z) : Z :=
  match Z.land selector 3 with
  | 0 => dcxo
  | 1 => 32
  | 2 => 16000
  | _ => 0
  end.

Definition a7s_cpu_cluster_rate (clk_reg slow cluster_pll peri0_2x cpu_back : Z) : Z :=
  match field clk_reg 24 7 with
  | 0 | 1 | 2 => slow
  | 3 => a7s_div_rate cluster_pll (shl32 1 (field clk_reg 16 3))
  | 4 => a7s_div_rate peri0_2x 2
  | 5 => cpu_back
  | _ => 0
  end.

Definition a7s_dsu_rate (clk_reg slow dsu_pll cpu_a peri0_2x : Z) : Z :=
  match field clk_reg 24 7 with
  | 0 | 1 | 2 => slow
  | 3 => a7s_div_rate dsu_pll (shl32 1 (field clk_reg 16 3))
  | 4 => cpu_a
  | 5 => a7s_div_rate peri0_2x 2
  | _ => 0
  end.

Definition a7s_standard_bus_rate (reg dcxo peri0_2x : Z) : Z :=
  let parent := match field reg 24 3 with
    | 0 => dcxo
    | 1 => 32
    | 2 => 16000
    | _ => a7s_div_rate peri0_2x 2
    end in
  a7s_div_rate parent (Z.land reg 0x1f + 1).

Definition a7s_uart_rate (reg dcxo peri0_2x peri0_480 : Z) : Z :=
  let parent := match field reg 24 7 with
    | 0 => dcxo
    | 1 => 32
    | 2 => 16000
    | 3 => a7s_div_rate peri0_2x 2
    | 4 => peri0_480
    | _ => 0
    end in
  a7s_div_rate parent (Z.land reg 0x1f + 1).

Definition a7s_gic_rate (reg : Z) (rates : a7s_clock_rates) : Z :=
  if negb (nonzero (Z.land reg (BIT 31))) then 0
  else
    let parent := match field reg 24 3 with
      | 0 => dcxo rates
      | 1 => 32
      | 2 => a7s_div_rate (peri0_2x rates) 2
      | _ => peri0_480 rates
      end in
    a7s_div_rate parent (Z.land reg 0x1f + 1).

Definition a7s_nsi_rate (reg : Z) (rates : a7s_clock_rates) : Z :=
  if negb (nonzero (Z.land reg (BIT 31))) then 0
  else
    let parent := match field reg 24 7 with
      | 0 => ddr rates
      | 1 => peri0_800 rates
      | 2 => a7s_div_rate (peri0_2x rates) 2
      | 3 => cci rates
      | 4 => de_3x rates
      | 5 => npu rates
      | _ => 0
      end in
    a7s_div_rate parent (Z.land reg 0x1f + 1).

Definition a7s_mbus_rate (reg : Z) (rates : a7s_clock_rates) : Z :=
  if negb (nonzero (Z.land reg (BIT 31))) then 0
  else
    let parent := match field reg 24 7 with
      | 0 => a7s_div_rate (peri0_2x rates) 2
      | 1 => ddr rates
      | 2 => peri0_480 rates
      | 3 => a7s_div_rate (peri0_2x rates) 3
      | 4 => cci rates
      | 5 => npu rates
      | _ => 0
      end in
    a7s_div_rate parent (Z.land reg 0x1f + 1).

Definition a7s_pll_lock_state (reg : Z) : string :=
  if negb (nonzero (Z.land reg A7S_PLL_LOCK_ENABLE)) then "unchecked"
  else if nonzero (Z.land reg A7S_PLL_LOCK) then "locked" else "unlocked".

(** ** The snapshot *)

Section Diag.
Context {C S : Type} `{HasPrintf C}.
Local Abbreviation M := (M C S).

Definition a7s_dcxo_rate : M Z :=
  let! v := readl A7S_RTC_XO_CTRL0 in ret (a7s_dcxo_rate_of v).

Definition a7s_clock_read_rates : M a7s_clock_rates :=
  let! ref_reg := readl (a7s_ccu_reg PLL_REF_CTRL_REG) in
  let! ddr_reg := readl (a7s_ccu_reg PLL_DDR_CTRL_REG) in
  let! peri0_reg := readl (a7s_ccu_reg PLL_PERI0_CTRL_REG) in
  let! peri1_reg := readl (a7s_ccu_reg PLL_PERI1_CTRL_REG) in
  let! npu_reg := readl (a7s_ccu_reg PLL_NPU_CTRL_REG) in
  let! de_reg := readl (a7s_ccu_reg PLL_DE_CTRL_REG) in
  let! cci_reg := readl (a7s_ccu_reg PLL_CCI_CTRL_REG) in
  let! cpu_back_reg := readl A7S_CPU_BACK_PLL_CTRL in
  let! cpu_a_pll_reg := readl A7S_CPU_A_PLL_CTRL in
  let! cpu_b_pll_reg := readl A7S_CPU_B_PLL_CTRL in
  let! dsu_pll_reg := readl A7S_DSU_PLL_CTRL in
  let! cpu_a_clk_reg := readl A7S_CPU_A_CLK in
  let! cpu_b_clk_reg := readl A7S_CPU_B_CLK in
  let! dsu_clk_reg := readl A7S_DSU_CLK in
  let! dcxo := a7s_dcxo_rate in
  let ref := a7s_ref_pll_rate ref_reg dcxo in
  let input := a7s_main_pll_input peri0_reg dcxo ref in
  let peri0_2x := a7s_main_pll_output peri0_reg input 20 7 27 in
  let peri0_800 := a7s_main_pll_output peri0_reg input 16 7 26 in
  let peri0_480 := a7s_main_pll_output peri0_reg input 2 7 25 in
  let input := a7s_main_pll_input peri1_reg dcxo ref in
  let peri1_2x := a7s_main_pll_output peri1_reg input 20 7 27 in
  let peri1_800 := a7s_main_pll_output peri1_reg input 16 7 26 in
  let peri1_480 := a7s_main_pll_output peri1_reg input 2 7 25 in
  let input := a7s_main_pll_input ddr_reg dcxo ref in
  let ddr := a7s_main_pll_output ddr_reg input 20 7 27 in
  let input := a7s_main_pll_input npu_reg dcxo ref in
  let npu := a7s_main_pll_output npu_reg input 20 7 27 in
  let input := a7s_main_pll_input de_reg dcxo ref in
  let de_3x := a7s_main_pll_output de_reg input 16 7 26 in
  let input := a7s_main_pll_input cci_reg dcxo ref in
  let cci := a7s_main_pll_output cci_reg input 20 7 27 in
  let cpu_back_pll := a7s_cpu_back_pll_rate cpu_back_reg dcxo in
  let cpu_a_pll := a7s_cpu_linear_pll_rate cpu_a_pll_reg dcxo in
  let cpu_b_pll := a7s_cpu_linear_pll_rate cpu_b_pll_reg dcxo in
  let dsu_pll := a7s_cpu_linear_pll_rate dsu_pll_reg dcxo in
  let! slow_sel := readl A7S_CPU_SLOW_CLK_SEL in
  let slow := a7s_cpu_slow_rate slow_sel dcxo in
  let! gate_a := readl A7S_CPU_A_GATING in
  let cpu_a := if nonzero (Z.land gate_a 1)
    then a7s_cpu_cluster_rate cpu_a_clk_reg slow cpu_a_pll peri0_2x cpu_back_pll else 0 in
  let! gate_b := readl A7S_CPU_B_GATING in
  let cpu_b := if nonzero (Z.land gate_b 1)
    then a7s_cpu_cluster_rate cpu_b_clk_reg slow cpu_b_pll peri0_2x cpu_back_pll else 0 in
  let! gate_d := readl A7S_DSU_GATING in
  let dsu := if nonzero (Z.land gate_d 1)
    then a7s_dsu_rate dsu_clk_reg slow dsu_pll cpu_a peri0_2x else 0 in
  let dsu_axi := a7s_div_rate dsu (Z.land dsu_clk_reg 3 + 1) in
  let dsu_gic := a7s_div_rate dsu (field dsu_clk_reg 2 3 + 1) in
  let dsu_apb := a7s_div_rate dsu (field dsu_clk_reg 8 3 + 1) in
  let! ahb_reg := readl (a7s_ccu_reg AHB_CLK_REG) in
  let ahb := a7s_standard_bus_rate ahb_reg dcxo peri0_2x in
  let! apb0_reg := readl (a7s_ccu_reg APB0_CLK_REG) in
  let apb0 := a7s_standard_bus_rate apb0_reg dcxo peri0_2x in
  let! apb1_reg := readl (a7s_ccu_reg APB1_CLK_REG) in
  let apb1 := a7s_standard_bus_rate apb1_reg dcxo peri0_2x in
  let! uart_reg := readl (a7s_ccu_reg APB_UART_CLK_REG) in
  let uart := a7s_uart_rate uart_reg dcxo peri0_2x peri0_480 in
  (* the three fabric clocks read earlier members of the same structure *)
  let rates g n m := ClockRates dcxo ref cpu_back_pll cpu_a_pll cpu_b_pll dsu_pll
    cpu_a cpu_b dsu dsu_axi dsu_apb dsu_gic ddr peri0_2x peri0_800 peri0_480
    peri1_2x peri1_800 peri1_480 npu de_3x cci ahb apb0 apb1 uart g n m in
  let! gic_reg := readl (a7s_ccu_reg GIC_CLK_REG) in
  let gic := a7s_gic_rate gic_reg (rates 0 0 0) in
  let! nsi_reg := readl (a7s_ccu_reg NSI_CLK_REG) in
  let nsi := a7s_nsi_rate nsi_reg (rates gic 0 0) in
  let! mbus_reg := readl (a7s_ccu_reg MBUS_CLK_REG) in
  let mbus := a7s_mbus_rate mbus_reg (rates gic nsi 0) in
  ret (rates gic nsi mbus).

(** ** The dump *)

(** [A7S_RATE_ARGS] *)
Definition A7S_RATE_ARGS (rate : Z) : list parg :=
  [N_ (rate / 1000); N_ (rate mod 1000); S_ (if nonzero rate then "" else "(off)")].

Definition a7s_print_single_pll (name : string) (offset rate : Z) : M unit :=
  let! reg := readl (a7s_ccu_reg offset) in
  printf "  PLL %s=%u.%03uM%s %s reg=%08x\n"
    ([S_ name] ++ A7S_RATE_ARGS rate ++ [S_ (a7s_pll_lock_state reg); N_ reg]).

Definition a7s_print_cpu_pll (name : string) (address rate : Z) : M unit :=
  let! reg := readl address in
  printf "  CPU PLL %s=%u.%03uM%s %s reg=%08x\n"
    ([S_ name] ++ A7S_RATE_ARGS rate ++ [S_ (a7s_pll_lock_state reg); N_ reg]).

Definition a7s_print_main_single (name : string) (offset dcxo ref p_shift p_mask : Z) : M unit :=
  let! reg := readl (a7s_ccu_reg offset) in
  let input := a7s_main_pll_input reg dcxo ref in
  let rate := a7s_main_pll_output reg input p_shift p_mask 27 in
  a7s_print_single_pll name offset rate.

Definition a7s_print_main_dual (name : string) (offset dcxo ref : Z) : M unit :=
  let! reg := readl (a7s_ccu_reg offset) in
  let input := a7s_main_pll_input reg dcxo ref in
  let output0 := a7s_main_pll_output reg input 20 7 27 in
  let output1 := a7s_main_pll_output reg input 16 7 26 in
  printf "  PLL %s=%u.%03uM%s/3x=%u.%03uM%s %s reg=%08x\n"
    ([S_ name] ++ A7S_RATE_ARGS output0 ++ A7S_RATE_ARGS output1
     ++ [S_ (a7s_pll_lock_state reg); N_ reg]).

Definition a7s_print_audio_plls (ref : Z) : M unit :=
  let! reg := readl (a7s_ccu_reg PLL_AUDIO0_CTRL_REG) in
  let rate := a7s_main_pll_output reg ref 16 0x7f 27 in
  printf "  PLL AUDIO0=%u.%03uM%s %s reg=%08x\n"
    (A7S_RATE_ARGS rate ++ [S_ (a7s_pll_lock_state reg); N_ reg]);;
  let! reg := readl (a7s_ccu_reg A7S_AUDIO1_PLL_CTRL) in
  let div2 := a7s_main_pll_output reg ref 20 7 27 in
  let div5 := a7s_main_pll_output reg ref 16 7 27 in
  printf "  PLL AUDIO1=%u.%03uM%s/div5=%u.%03uM%s %s reg=%08x\n"
    (A7S_RATE_ARGS div2 ++ A7S_RATE_ARGS div5 ++ [S_ (a7s_pll_lock_state reg); N_ reg]).

Definition a7s_clock_dump : M unit :=
  let! rates := a7s_clock_read_rates in
  let! ref_reg := readl (a7s_ccu_reg PLL_REF_CTRL_REG) in
  let! cpu_a_clk := readl A7S_CPU_A_CLK in
  let! cpu_b_clk := readl A7S_CPU_B_CLK in
  let! dsu_clk := readl A7S_DSU_CLK in
  printf "A7S clock dump: read-only nominal rates\n" [];;
  printf "  OSC DCXO=%u.%03uM%s REF=%u.%03uM%s %s reg=%08x\n"
    (A7S_RATE_ARGS (dcxo rates) ++ A7S_RATE_ARGS (ref rates)
     ++ [S_ (a7s_pll_lock_state ref_reg); N_ ref_reg]);;
  a7s_print_cpu_pll "BACK" A7S_CPU_BACK_PLL_CTRL (cpu_back_pll rates);;
  a7s_print_cpu_pll "A" A7S_CPU_A_PLL_CTRL (cpu_a_pll rates);;
  a7s_print_cpu_pll "B" A7S_CPU_B_PLL_CTRL (cpu_b_pll rates);;
  a7s_print_cpu_pll "DSU" A7S_DSU_PLL_CTRL (dsu_pll rates);;
  printf "  CPU CLK A=%u.%03uM%s(src=%u reg=%08x) B=%u.%03uM%s(src=%u reg=%08x)\n"
    (A7S_RATE_ARGS (cpu_a rates) ++ [N_ (field cpu_a_clk 24 7); N_ cpu_a_clk]
     ++ A7S_RATE_ARGS (cpu_b rates) ++ [N_ (field cpu_b_clk 24 7); N_ cpu_b_clk]);;
  printf "  DSU CLK core=%u.%03uM%s AXI=%u.%03uM%s APB=%u.%03uM%s GIC=%u.%03uM%s src=%u reg=%08x\n"
    (A7S_RATE_ARGS (dsu rates) ++ A7S_RATE_ARGS (dsu_axi rates)
     ++ A7S_RATE_ARGS (dsu_apb rates) ++ A7S_RATE_ARGS (dsu_gic rates)
     ++ [N_ (field dsu_clk 24 7); N_ dsu_clk]);;
  a7s_print_single_pll "DDR" PLL_DDR_CTRL_REG (ddr rates);;
  let! peri_reg := readl (a7s_ccu_reg PLL_PERI0_CTRL_REG) in
  printf "  PLL PERI0 2x=%u.%03uM%s 800=%u.%03uM%s 480=%u.%03uM%s %s reg=%08x\n"
    (A7S_RATE_ARGS (peri0_2x rates) ++ A7S_RATE_ARGS (peri0_800 rates)
     ++ A7S_RATE_ARGS (peri0_480 rates) ++ [S_ (a7s_pll_lock_state peri_reg); N_ peri_reg]);;
  let! peri_reg := readl (a7s_ccu_reg PLL_PERI1_CTRL_REG) in
  printf "  PLL PERI1 2x=%u.%03uM%s 800=%u.%03uM%s 480=%u.%03uM%s %s reg=%08x\n"
    (A7S_RATE_ARGS (peri1_2x rates) ++ A7S_RATE_ARGS (peri1_800 rates)
     ++ A7S_RATE_ARGS (peri1_480 rates) ++ [S_ (a7s_pll_lock_state peri_reg); N_ peri_reg]);;
  a7s_print_main_single "GPU0" PLL_GPU0_CTRL_REG (dcxo rates) (ref rates) 20 7;;
  a7s_print_main_dual "VIDEO0" PLL_VIDEO0_CTRL_REG (dcxo rates) (ref rates);;
  a7s_print_main_dual "VIDEO1" PLL_VIDEO1_CTRL_REG (dcxo rates) (ref rates);;
  a7s_print_main_dual "VIDEO2" PLL_VIDEO2_CTRL_REG (dcxo rates) (ref rates);;
  a7s_print_main_single "VE0" PLL_VE0_CTRL_REG (dcxo rates) (ref rates) 20 7;;
  a7s_print_main_single "VE1" PLL_VE1_CTRL_REG (dcxo rates) (ref rates) 20 7;;
  a7s_print_audio_plls (ref rates);;
  a7s_print_single_pll "NPU" PLL_NPU_CTRL_REG (npu rates);;
  a7s_print_main_dual "DE" PLL_DE_CTRL_REG (dcxo rates) (ref rates);;
  a7s_print_single_pll "CCI" PLL_CCI_CTRL_REG (cci rates);;
  printf "  BUS AHB=%u.%03uM%s APB0=%u.%03uM%s APB1=%u.%03uM%s UART=%u.%03uM%s\n"
    (A7S_RATE_ARGS (ahb rates) ++ A7S_RATE_ARGS (apb0 rates)
     ++ A7S_RATE_ARGS (apb1 rates) ++ A7S_RATE_ARGS (uart rates));;
  printf "  FABRIC GIC=%u.%03uM%s NSI=%u.%03uM%s MBUS=%u.%03uM%s\n"
    (A7S_RATE_ARGS (gic rates) ++ A7S_RATE_ARGS (nsi rates) ++ A7S_RATE_ARGS (mbus rates)).
End Diag.
