(* ===== verification/ClockProps.v ===== *)
(** * Properties of the clock driver

    What the lock detector decides, what PLL programming leaves in the control
    register, and the safety of the bus switch. *)

From Stdlib Require Import Btauto.
From S2P Require Import Prelude Machine Clock.

(** ** The lock detector *)

Section WaitStable.
Context {C S : Type}.

Definition locked (v : Z) : bool := nonzero (Z.land v A7S_PLL_LOCK).

(** The lock bit of the next [n] samples of [reg], one microsecond apart. *)
Fixpoint samples (n : nat) (e : env C) (h : history C) (reg : Z) : list bool :=
  match n with
  | O => []
  | Datatypes.S n =>
      let v := u32 (env_read e h reg) in
      locked v :: samples n e (Delay 1 :: Rd reg v :: h) reg
  end.

(** Some three consecutive samples are all good. *)
Definition three_good (l : list bool) : Prop :=
  exists i, l !! i = Some true /\ l !! (i + 1)%nat = Some true /\ l !! (i + 2)%nat = Some true.

(** The good samples still missing come first. *)
Definition starts_good (k : nat) (l : list bool) : Prop :=
  forall i, (i < k)%nat -> l !! i = Some true.

Lemma three_good_cons b l :
  three_good (b :: l) <-> (b = true /\ starts_good 2 l) \/ three_good l.
Proof.
  split.
  - intros ([|i] & H0 & H1 & H2).
    + simpl in *. left. split; [congruence|]. intros [|[|]] ?; (done || lia).
    + right. by exists i.
  - intros [[-> Hs]|(i & H)].
    + exists 0%nat. split; [done|]. split; apply Hs; lia.
    + by exists (Datatypes.S i).
Qed.

Lemma starts_good_cons k b l :
  starts_good (Datatypes.S k) (b :: l) <-> b = true /\ starts_good k l.
Proof.
  split.
  - intros H. split; [by specialize (H 0%nat ltac:(lia)); simplify_eq/=|].
    intros i Hi. apply (H (Datatypes.S i)). lia.
  - intros [-> H] [|i] Hi; [done|]. apply H. lia.
Qed.

Lemma starts_good_weaken k k' l : (k' <= k)%nat -> starts_good k l -> starts_good k' l.
Proof. intros Hk H i Hi. apply H. lia. Qed.

(** The loop succeeds exactly when its run of good samples completes or a
    fresh run of three follows. *)
Lemma wait_stable_loop_iff n stable reg (e : env C) (s : S) h :
  (stable < 3)%nat ->
  wp (wait_stable_loop n (Z.of_nat stable) reg) e s h
    (fun r s' h' => s' = s /\ (r = 0 \/ r = -1) /\
       (r = 0 <-> starts_good (3 - stable) (samples n e h reg)
                  \/ three_good (samples n e h reg)) /\
       extends (fun _ _ => False) h h') total.
Proof.
  revert stable h. induction n as [|n IH]; intros stable h Hst; cbn [wait_stable_loop samples].
  - wp_steps. split; [done|]. split; [by right|]. split; [|apply extends_refl].
    split; [done|]. intros [H|(i & H & _)]; [|done].
    specialize (H 0%nat ltac:(lia)). done.
  - apply wp_bind. apply wp_readl. intros v Hv Ev. rewrite <- Ev. fold (locked v).
    assert (forall st, (st < 3)%nat ->
      wp (udelay 1;; wait_stable_loop n (Z.of_nat st) reg) e s (Rd reg v :: h)
        (fun r s' h' => s' = s /\ (r = 0 \/ r = -1) /\
          (r = 0 <-> starts_good (3 - st) (samples n e (Delay 1 :: Rd reg v :: h) reg)
             \/ three_good (samples n e (Delay 1 :: Rd reg v :: h) reg)) /\
          extends (fun _ _ => False) h h') total) as Hrec.
    { intros st Hs. wp_steps. eapply wp_mono; [by apply IH|].
      intros r s' h' (-> & Hr & Hiff & Hex). split; [done|]. split; [done|].
      split; [done|]. eapply extends_trans; [|exact Hex].
      apply extends_cons; [naive_solver|]. apply extends_cons; [naive_solver|].
      apply extends_refl. }
    set (rest := samples n e _ reg) in *.
    destruct (locked v) eqn:Hl.
    + unfold A7S_PLL_LOCK_STABLE_READS. destruct (Z.eqb_spec (Z.of_nat stable + 1) 3).
      * wp_steps. assert (stable = 2%nat) as -> by lia.
        split; [done|]. split; [by left|]. split.
        -- split; [|done]. intros _. left. apply starts_good_cons. split; [done|].
           intros i Hi. lia.
        -- apply extends_cons; [naive_solver | apply extends_refl].
      * replace (Z.of_nat stable + 1) with (Z.of_nat (Datatypes.S stable)) by lia.
        eapply wp_mono; [apply Hrec; lia|].
        intros r s' h' (-> & Hr & Hiff & Hex). repeat (split; [done|]). split; [|done].
        rewrite Hiff, three_good_cons.
        replace (3 - stable)%nat with (Datatypes.S (3 - Datatypes.S stable)) by lia.
        rewrite starts_good_cons. split.
        -- intros [H|H]; auto.
        -- intros [[_ H]|[[_ H]|H]]; auto. left.
           by eapply starts_good_weaken; [|exact H]; lia.
    + change 0 with (Z.of_nat 0). eapply wp_mono; [apply Hrec; lia|].
      intros r s' h' (-> & Hr & Hiff & Hex). repeat (split; [done|]). split; [|done].
      rewrite Hiff, three_good_cons.
      replace (3 - stable)%nat with (Datatypes.S (2 - stable)) by lia.
      rewrite starts_good_cons. split.
      -- intros [H|H]; [|auto]. right. right. exists 0%nat.
         split; [apply H; lia|]. split; apply H; lia.
      -- intros [[? _]|[[? _]|H]]; [done | done | auto].
Qed.
End WaitStable.

(** the detector returns 0 exactly when three consecutive samples of the
    1000 it may take show the lock bit, and -1 otherwise; it always returns
    and writes nothing. *)
Theorem pll_wait_stable_exact {C S} (e : env C) (s : S) h reg :
  wp (a7s_pll_wait_stable reg) e s h
    (fun r s' h' => s' = s /\ (r = 0 \/ r = -1) /\
       (r = 0 <-> three_good (samples (Z.to_nat A7S_PLL_LOCK_TIMEOUT_US) e (Delay 3 :: h) reg)) /\
       extends (fun _ _ => False) h h') total.
Proof.
  unfold a7s_pll_wait_stable. generalize (Z.to_nat A7S_PLL_LOCK_TIMEOUT_US) as n. intros n.
  wp_steps.
  eapply wp_mono; [apply (wait_stable_loop_iff n 0); lia|].
  intros r s' h' (-> & Hr & Hiff & Hex). split; [done|]. split; [done|]. split.
  - rewrite Hiff. split; [|by right]. intros [H|H]; [|done]. exists 0%nat.
    split; [apply H; lia|]. split; apply H; lia.
  - eapply extends_trans; [|exact Hex]. apply extends_cons; [naive_solver | apply extends_refl].
Qed.

(** ** PLL programming *)

(** The masks of a configuration do not collide. *)
Definition pll_controls : Z :=
  Z.lor (Z.lor (Z.lor A7S_PLL_ENABLE A7S_PLL_LDO_ENABLE) A7S_PLL_LOCK_ENABLE) A7S_PLL_LOCK.

Definition pll_wf (pll : a7s_pll_config) : bool :=
  (Z.land (config_mask pll) (Z.lor (Z.lor pll_controls (output_mask pll)) (supply_mask pll)) =? 0)
  && (Z.land (config_value pll) (config_mask pll) =? config_value pll)
  && (Z.land (output_mask pll) (Z.lor pll_controls (supply_mask pll)) =? 0)
  && (Z.land (supply_mask pll) pll_controls =? 0)
  && negb (reg pll =? pattern_reg pll).

(** The three configurations the driver programs are well formed. *)
Lemma pll_configs_wf :
  pll_wf (peri_pll_config PLL_PERI0_CTRL_REG 100) = true /\
  pll_wf (peri_pll_config PLL_PERI1_CTRL_REG 100) = true /\
  pll_wf (ref_pll_config 0) = true /\
  (forall dcxo n d, ref_pll_factors dcxo = Some (n, d) ->
     pll_wf (ref_pll_config (Z.lor (shl32 (u32 (d - 1)) 16) (shl32 (u32 (n - 1)) 8))) = true).
Proof.
  split; [done|]. split; [done|]. split; [done|].
  intros dcxo n d. unfold ref_pll_factors.
  repeat (case_match; [intros [= <- <-]; vm_compute; reflexivity|]). done.
Qed.

Section Program.
Context {C S : Type} (e : env C) (init : Z -> Z) (pll : a7s_pll_config).
Hypothesis Hplain : plain_but e init (reg pll) A7S_PLL_LOCK.
Hypothesis Hwf : pll_wf pll = true.

Local Abbreviation after := (bits_after (C := C) init (reg pll) A7S_PLL_LOCK).
Local Abbreviation bit m n := (Z.testbit m n).

(** Only the PLL's own two registers are written. *)
Definition pll_regs (a v : Z) : Prop := a = reg pll \/ a = pattern_reg pll.

Lemma land_zero_bit x y n : Z.land x y = 0 -> bit x n && bit y n = false.
Proof. intros H. by rewrite <- Z.land_spec, H, Z.bits_0. Qed.

(** Bit by bit: what well-formedness excludes. *)
Lemma pll_wf_bits n :
  (bit (config_mask pll) n = true ->
     bit A7S_PLL_ENABLE n = false /\ bit A7S_PLL_LDO_ENABLE n = false /\
     bit A7S_PLL_LOCK_ENABLE n = false /\ bit A7S_PLL_LOCK n = false /\
     bit (output_mask pll) n = false /\ bit (supply_mask pll) n = false) /\
  (bit (config_value pll) n = true -> bit (config_mask pll) n = true) /\
  (bit (output_mask pll) n = true ->
     bit A7S_PLL_ENABLE n = false /\ bit A7S_PLL_LDO_ENABLE n = false /\
     bit A7S_PLL_LOCK_ENABLE n = false /\ bit A7S_PLL_LOCK n = false /\
     bit (supply_mask pll) n = false).
Proof.
  unfold pll_wf in Hwf. rewrite !andb_true_iff, !Z.eqb_eq in Hwf.
  destruct Hwf as ((((H1 & H2) & H3) & _) & _).
  apply (land_zero_bit _ _ n) in H1, H3. unfold pll_controls in *.
  repeat rewrite Z.lor_spec in H1. repeat rewrite Z.lor_spec in H3.
  apply (f_equal (fun z => bit z n)) in H2. rewrite Z.land_spec in H2.
  destruct (bit (config_mask pll) n), (bit (config_value pll) n), (bit (output_mask pll) n),
    (bit (supply_mask pll) n), (bit A7S_PLL_ENABLE n), (bit A7S_PLL_LDO_ENABLE n),
    (bit A7S_PLL_LOCK_ENABLE n), (bit A7S_PLL_LOCK n); cbn in *; try done;
    repeat split; intros; repeat split; congruence.
Qed.

Lemma pll_pattern_ne : reg pll <> pattern_reg pll.
Proof.
  unfold pll_wf in Hwf. rewrite !andb_true_iff in Hwf.
  destruct Hwf as [_ H]. apply negb_true_iff, Z.eqb_neq in H. done.
Qed.

(** A read of the control register sees its contents, lock bit aside. *)
Lemma ctrl_bit h v n :
  v = u32 (env_read e h (reg pll)) -> 0 <= n < 32 -> bit A7S_PLL_LOCK n = false ->
  bit v n = bit (regval init h (reg pll)) n.
Proof. intros. by eapply plain_but_bit. Qed.

(** A step that updates the control register by [f] and touches nothing
    outside the PLL. *)
Definition updates {A} (f : Z -> bool -> bool) (m : M C S A) : Prop :=
  forall s h, wp m e s h
    (fun _ s' h' => s' = s /\ extends pll_regs h h' /\ after f h h') total.

Ltac own_events :=
  repeat (apply extends_cons; [unfold pll_regs; naive_solver|]); apply extends_refl.

Ltac bits_step n Hn Hl :=
  cbn [regval]; rewrite ?Z.eqb_refl;
  repeat first
    [ rewrite Z.lor_spec | rewrite Z.land_spec | rewrite testbit_cnot32 by lia
    | match goal with
      | H : ?v = u32 (env_read e _ (reg pll)) |- context [bit ?v n] =>
          rewrite (ctrl_bit _ _ n H Hn Hl); cbn [regval]; rewrite ?Z.eqb_refl
      end ];
  destruct (Z.ltb_spec n 32); [|lia].

Lemma configure_updates :
  updates (fun n b => b && negb (bit (config_mask pll) n) || bit (config_value pll) n
                      || bit A7S_PLL_LDO_ENABLE n || bit (supply_mask pll) n
                      || bit A7S_PLL_ENABLE n || bit A7S_PLL_LOCK_ENABLE n)
          (pll_configure pll).
Proof.
  intros s h. unfold pll_configure. wp_steps. split; [done|]. split; [own_events|].
  intros n Hn Hl. bits_step n Hn Hl.
  btauto.
Qed.

Lemma isolate_updates h v :
  v = u32 (env_read e h (reg pll)) ->
  forall s : S, wp (pll_isolate pll v) e s (Rd (reg pll) v :: h)
    (fun _ s' h' => s' = s /\ extends pll_regs h h' /\
       after (fun n b => b && negb (bit (output_mask pll) n)
                           && negb (bit A7S_PLL_LOCK_ENABLE n)) h h') total.
Proof.
  intros Ev s. unfold pll_isolate. wp_steps. split; [done|]. split; [own_events|].
  intros n Hn Hl. bits_step n Hn Hl. btauto.
Qed.

Lemma startup_updates h v :
  v = u32 (env_read e h (reg pll)) ->
  forall s : S, wp (pll_startup pll v) e s (Rd (reg pll) v :: h)
    (fun _ s' h' => s' = s /\ extends pll_regs h h' /\
       after (fun n b => b || bit A7S_PLL_LDO_ENABLE n || bit (supply_mask pll) n
                           || bit (output_mask pll) n) h h') total.
Proof.
  intros Ev s. unfold pll_startup. wp_steps. split; [done|]. split; [own_events|].
  intros n Hn Hl. bits_step n Hn Hl. btauto.
Qed.

Definition required : Z :=
  Z.lor (Z.lor (Z.lor (Z.lor A7S_PLL_ENABLE A7S_PLL_LDO_ENABLE)
    A7S_PLL_LOCK_ENABLE) (output_mask pll)) (supply_mask pll).

Lemma land_eq_bits v m w n :
  Z.land v m = w -> bit m n = true -> bit v n = bit w n.
Proof. intros <- Hm. by rewrite Z.land_spec, Hm, andb_true_r. Qed.

(** A PLL reported as running has its controls on and, if asked, the
    requested configuration; nothing is written. *)
Lemma is_running_spec check s h :
  wp (a7s_pll_is_running pll check) e (s : S) h
    (fun b s' h' => s' = s /\ extends (fun _ _ => False) h h' /\
       (b = true -> forall n, 0 <= n < 32 -> bit A7S_PLL_LOCK n = false ->
          (bit required n = true -> bit (regval init h (reg pll)) n = true) /\
          (check = true -> bit (config_mask pll) n = true ->
           bit (regval init h (reg pll)) n = bit (config_value pll) n))) total.
Proof.
  unfold a7s_pll_is_running. fold required.
  assert (forall h' ev, (forall a v, ev <> Wr a v /\ ev <> Wrb a v) ->
    extends (C := C) (fun _ _ => False) h h' -> extends (fun _ _ => False) h (ev :: h')) as Hquiet.
  { intros h' ev Hne Hx. apply extends_cons; [|done].
    intros a v [->| ->]; exfalso; by edestruct (Hne a v). }
  apply wp_bind, wp_readl. intros v Hv Ev.
  destruct (Z.eqb_spec (Z.land v required) required) as [Hreq|]; cbn [negb];
    [|apply wp_ret; repeat split; [apply Hquiet; [done|apply extends_refl] | done..]].
  destruct (check && _) eqn:Hc;
    [apply wp_ret; repeat split; [apply Hquiet; [done|apply extends_refl] | done..]|].
  assert (forall h', extends (fun _ _ => False) (Rd (reg pll) v :: h) h' ->
    extends (C := C) (fun _ _ => False) h h') as Hstart.
  { intros h' Hx. eapply extends_trans; [|exact Hx]. apply Hquiet; [done|apply extends_refl]. }
  apply wp_bind. eapply (wp_mono _ _ _ _ _ (fun _ s' h' => s' = s /\
    extends (fun _ _ => False) (Rd (reg pll) v :: h) h')).
  { destruct (nonzero (pattern_reg pll)); wp_steps; (split; [done|]);
      [apply extends_cons; [naive_solver|] |]; apply extends_refl. }
  intros pat s1 h1 [-> Hx1]. destruct pat; [apply wp_ret; repeat split; [by apply Hstart | done..]|].
  apply wp_bind. eapply wp_mono; [apply pll_wait_stable_exact|].
  intros r s2 h2 (-> & _ & _ & Hx2). apply wp_ret. split; [done|].
  split; [by eapply Hstart, extends_trans|]. intros _ n Hn Hl.
  rewrite <- (ctrl_bit h v n Ev Hn Hl). split.
  - intros Hm. by rewrite (land_eq_bits _ _ _ n Hreq Hm).
  - intros -> Hm. cbn [andb] in Hc. apply negb_false_iff, Z.eqb_eq in Hc.
    by apply (land_eq_bits _ _ _ n Hc).
Qed.

(** The control register once the PLL is programmed, bit by bit, with the
    output gates [on] or off. *)
Definition programmed (on : bool) (n : Z) (b : bool) : bool :=
  if bit (config_mask pll) n then bit (config_value pll) n
  else if bit (output_mask pll) n then on
  else bit required n || b.

Lemma after_silent h h' :
  extends (C := C) (fun _ _ => False) h h' -> after (fun _ b => b) h h'.
Proof. intros Hx. eapply bits_after_same; [exact Hx|]. by intros v []. Qed.

Lemma after_ext f g h h' :
  (forall n b, 0 <= n < 32 -> bit A7S_PLL_LOCK n = false -> f n b = g n b) ->
  after f h h' -> after g h h'.
Proof. intros Hfg H n Hn Hl. by rewrite <- Hfg, H by done. Qed.

(** Masking off the gates, or turning them on, at the end of programming. *)
Lemma gates_off_updates :
  updates (fun n b => b && negb (bit (output_mask pll) n))
    (let! v := readl (reg pll) in writel (Z.land v (cnot32 (output_mask pll))) (reg pll)).
Proof.
  intros s h. wp_steps. split; [done|]. split; [own_events|].
  intros n Hn Hl. bits_step n Hn Hl. btauto.
Qed.

Lemma gates_on_updates :
  updates (fun n b => b || bit (output_mask pll) n)
    (let! v := readl (reg pll) in writel (Z.lor v (output_mask pll)) (reg pll)).
Proof.
  intros s h. wp_steps. split; [done|]. split; [own_events|].
  intros n Hn Hl. bits_step n Hn Hl. btauto.
Qed.

(** Of a PLL that was on they are turned on again, after a delay. *)
Lemma gates_back_updates (was : bool) us :
  updates (fun n b => if was then b || bit (output_mask pll) n else b)
    (udelay us;;
     if was then let! v := readl (reg pll) in writel (Z.lor v (output_mask pll)) (reg pll) else ret tt).
Proof.
  intros s h. destruct was; wp_steps; (split; [done|]); (split; [own_events|]); intros n Hn Hl; [|done].
  bits_step n Hn Hl. btauto.
Qed.

(** The pattern register is not the control register. *)
Lemma pattern_updates :
  updates (fun _ b => b)
    (if nonzero (pattern_reg pll)
     then let! p := readl (pattern_reg pll) in
          writel (Z.land p (cnot32 (BIT 31))) (pattern_reg pll)
     else ret tt).
Proof.
  intros s h. pose proof pll_pattern_ne as Hne. destruct (nonzero _).
  - wp_steps. split; [done|]. split; [own_events|]. intros n Hn Hl. cbn [regval].
    by destruct (Z.eqb_spec (reg pll) (pattern_reg pll)).
  - wp_steps. split; [done|]. split; [apply extends_refl|]. by intros n.
Qed.

(** Bits after isolation of an enabled PLL, or start-up of a disabled one. *)
Definition prepared (was_enabled : bool) (n : Z) (b : bool) : bool :=
  if was_enabled then b && negb (bit (output_mask pll) n) && negb (bit A7S_PLL_LOCK_ENABLE n)
  else b || bit A7S_PLL_LDO_ENABLE n || bit (supply_mask pll) n || bit (output_mask pll) n.

(** What isolation or start-up, then configuration, then the final gate
    write amount to. *)
Lemma final_bits (was_enabled r0 : bool) n b :
  let out := bit (output_mask pll) n in
  let conf := prepared was_enabled n b && negb (bit (config_mask pll) n) || bit (config_value pll) n
              || bit A7S_PLL_LDO_ENABLE n || bit (supply_mask pll) n
              || bit A7S_PLL_ENABLE n || bit A7S_PLL_LOCK_ENABLE n in
  (if r0 then if was_enabled then conf || out else conf else conf && negb out)
  = programmed r0 n b.
Proof.
  cbv zeta. destruct (pll_wf_bits n) as (Hm & Hv & Ho). unfold prepared, programmed, required.
  repeat rewrite Z.lor_spec.
  destruct (bit (config_mask pll) n) eqn:Em.
  - destruct (Hm eq_refl) as (-> & -> & -> & _ & -> & ->).
    destruct was_enabled, r0, b, (bit (config_value pll) n); done.
  - destruct (bit (config_value pll) n); [by discriminate (Hv eq_refl)|].
    destruct (bit (output_mask pll) n) eqn:Eo.
    + destruct (Ho eq_refl) as (-> & -> & -> & _ & ->).
      destruct was_enabled, r0, b; done.
    + destruct was_enabled, r0; btauto.
Qed.
(** A PLL that runs as asked for has the bits already. *)
Lemma running_bits n b :
  (bit required n = true -> b = true) -> (bit (config_mask pll) n = true -> b = bit (config_value pll) n) ->
  b = programmed true n b.
Proof.
  intros Hr Hc. unfold programmed, required in *. destruct (bit (config_mask pll) n); [by apply Hc|].
  repeat rewrite Z.lor_spec in *. destruct (bit (output_mask pll) n); [by apply Hr; rewrite orb_true_r|].
  destruct b; [by rewrite orb_true_r|]. rewrite orb_false_r. destruct (_ || _); [by rewrite Hr|done].
Qed.
End Program.

(** C8: programming a PLL always returns.  On success every bit of its
    configuration field has the requested value, the PLL, its supply, its lock
    detector and its output gates are on and every other bit of the control
    register is as before; on failure the output gates are off.  Only the two
    registers of the PLL are written.  The status bit is the hardware's. *)
Theorem pll_program_effect {C S} (e : env C) (init : Z -> Z) (pll : a7s_pll_config)
  (s : S) h :
  plain_but e init (reg pll) A7S_PLL_LOCK -> pll_wf pll = true ->
  wp (a7s_pll_program pll) e s h
    (fun r s' h' => s' = s /\ (r = 0 \/ r = -1) /\ extends (pll_regs pll) h h' /\
       bits_after init (reg pll) A7S_PLL_LOCK (programmed pll (r =? 0)) h h') total.
Proof.
  intros Hp Hwf. unfold a7s_pll_program.
  apply wp_bind, wp_readl. intros v0 _ _. apply wp_bind.
  assert (forall h', extends (pll_regs pll) (Rd (reg pll) v0 :: h) h' -> extends (pll_regs pll) h h') as Hstart.
  { intros h' Hx. eapply extends_trans; [|exact Hx].
    apply extends_cons; [naive_solver | apply extends_refl]. }
  eapply wp_mono; [by eapply is_running_spec|]. cbv beta.
  assert (forall h1 h2, extends (fun _ _ => False) h1 h2 -> extends (C := C) (pll_regs pll) h1 h2) as Hq.
  { intros h1 h2 Hx. by eapply extends_weaken. }
  intros [] s1 h1 (-> & Hx1 & Hrun).
  { apply wp_ret. repeat split; [by left | by apply Hstart, Hq |].
    intros n Hn Hl. rewrite (after_silent _ _ _ _ Hx1) by done. cbn [regval] in *.
    destruct (Hrun eq_refl n Hn Hl) as [Hr Hc]. apply running_bits; [exact Hr|by apply Hc]. }
  eapply wp_seq; [by apply pattern_updates|]. intros [] s2 h2 (-> & Hx2 & Ha2).
  apply wp_bind, wp_readl. intros v1 _ Ev1.
  eapply (wp_seq _ _ _ _ _ (fun _ s' h' => s' = s /\ extends (pll_regs pll) h2 h' /\
    bits_after init (reg pll) A7S_PLL_LOCK (prepared pll (nonzero (Z.land v0 A7S_PLL_ENABLE))) h2 h')).
  { destruct (nonzero (Z.land v0 _)); [by eapply isolate_updates | by eapply startup_updates]. }
  intros [] s3 h3 (-> & Hx3 & Ha3).
  eapply wp_seq; [by eapply configure_updates|]. intros [] s4 h4 (-> & Hx4 & Ha4).
  eapply wp_seq; [apply pll_wait_stable_exact|]. intros w s5 h5 (-> & Hw & _ & Hx5).
  assert (extends (pll_regs pll) h h5) as Hx.
  { apply Hstart. eapply extends_trans; [by apply Hq|]. eapply extends_trans; [exact Hx2|].
    eapply extends_trans; [exact Hx3|]. eapply extends_trans; [exact Hx4|]. by apply Hq. }
  assert (Ha := bits_after_trans _ _ _ _ _ _ _ _ (after_silent _ _ _ _ Hx1)
    (bits_after_trans _ _ _ _ _ _ _ _ Ha2 (bits_after_trans _ _ _ _ _ _ _ _ Ha3
      (bits_after_trans _ _ _ _ _ _ _ _ Ha4 (after_silent _ _ _ _ Hx5))))).
  set (was := nonzero (Z.land v0 A7S_PLL_ENABLE)) in *.
  destruct Hw as [-> | ->]; cbn [nonzero Z.eqb negb].
  - apply wp_assoc. eapply wp_seq; [by apply (gates_back_updates e init pll Hp was)|].
    intros [] s' h' (-> & Hx6 & Ha6). apply wp_ret. split; [done|]. split; [by left|].
    split; [by eapply extends_trans|].
    intros n Hn Hl. rewrite Ha6, Ha by done. cbn [regval Z.eqb].
    by rewrite <- (final_bits pll Hwf was true n).
  - apply wp_assoc. eapply wp_seq; [by apply (gates_off_updates e init pll Hp)|].
    intros [] s' h' (-> & Hx6 & Ha6). apply wp_ret. split; [done|]. split; [by right|].
    split; [by eapply extends_trans|].
    intros n Hn Hl. rewrite Ha6, Ha by done. cbn [regval Z.eqb].
    by rewrite <- (final_bits pll Hwf was false n).
Qed.
