(* ===== verification/ClockBus.v ===== *)
(** * Safety of the bus clock switch

    The four system bus clocks run either from the crystal, undivided, or from
    the peripheral PLL with their nominal divisors; every return of the clock
    driver leaves them in one of the two, whatever the PLLs do. *)

From Stdlib Require Import Btauto.
From S2P Require Import Prelude Machine Clock ClockProps.

Section Bus.
Context {C S : Type} (e : env C) (init : Z -> Z).

Definition AHB_MASK := Z.lor A7S_AHB_APB_SOURCE_MASK A7S_BUS_DIV_MASK.
Definition UART_MASK := Z.lor A7S_UART_SOURCE_MASK A7S_BUS_DIV_MASK.

Definition bus_reg (a : Z) : Prop :=
  a = a7s_ccu_reg AHB_CLK_REG \/ a = a7s_ccu_reg APB0_CLK_REG \/
  a = a7s_ccu_reg APB1_CLK_REG \/ a = a7s_ccu_reg APB_UART_CLK_REG.

(** Source and divider of a bus clock after a history. *)
Definition bus_field (h : history C) (offset mask : Z) : Z :=
  Z.land (regval init h (a7s_ccu_reg offset)) mask.

Definition on_sys24 (h : history C) : Prop :=
  bus_field h AHB_CLK_REG AHB_MASK = 0 /\ bus_field h APB0_CLK_REG AHB_MASK = 0 /\
  bus_field h APB1_CLK_REG AHB_MASK = 0 /\ bus_field h APB_UART_CLK_REG UART_MASK = 0.

Definition on_nominal (h : history C) : Prop :=
  bus_field h AHB_CLK_REG AHB_MASK = Z.lor A7S_AHB_SOURCE_PERI0_600 A7S_AHB_DIV_3 /\
  bus_field h APB0_CLK_REG AHB_MASK = Z.lor A7S_APB_SOURCE_PERI0_600 A7S_APB_DIV_6 /\
  bus_field h APB1_CLK_REG AHB_MASK = Z.lor A7S_APB_SOURCE_PERI0_600 A7S_APB_DIV_6 /\
  bus_field h APB_UART_CLK_REG UART_MASK = Z.lor A7S_UART_SOURCE_PERI0_480 A7S_UART_DIV_20.

Lemma bus_reg_intro offset :
  offset ∈ [AHB_CLK_REG; APB0_CLK_REG; APB1_CLK_REG; APB_UART_CLK_REG] ->
  bus_reg (a7s_ccu_reg offset).
Proof. unfold bus_reg. set_solver. Qed.

Hypothesis Hbus : forall a, bus_reg a -> plain e init a.

Lemma plain_read h a v : bus_reg a -> v = u32 (env_read e h a) -> v = u32 (regval init h a).
Proof. intros Ha ->. by destruct (Hbus a Ha) as [_ ->]. Qed.

Definition only_bus (offset : Z) (a v : Z) : Prop := a = a7s_ccu_reg offset.

Lemma extends2 offset h v1 w1 v2 w2 :
  let r := a7s_ccu_reg offset in
  extends (C := C) (only_bus offset) h (Wr r w2 :: Rd r v2 :: Wr r w1 :: Rd r v1 :: h).
Proof.
  cbv zeta. repeat (apply extends_cons; [unfold only_bus; naive_solver|]). apply extends_refl.
Qed.

Lemma switch_to_sys24_spec offset mask (s : S) h :
  bus_reg (a7s_ccu_reg offset) -> is_u32 mask ->
  wp (a7s_bus_switch_to_sys24 offset mask) e s h
    (fun _ s' h' => s' = s /\ extends (only_bus offset) h h' /\
       bus_field h' offset (Z.lor mask A7S_BUS_DIV_MASK) = 0) total.
Proof.
  intros Hb Hm. unfold a7s_bus_switch_to_sys24. wp_steps. split; [done|].
  split; [apply extends2|]. apply plain_read in Ev0; [|done]. rewrite regval_Wr_eq in Ev0.
  unfold bus_field. rewrite regval_Wr_eq. subst v0. apply Z.bits_inj'. intros n Hn.
  repeat first [rewrite Z.lor_spec | rewrite Z.land_spec | rewrite testbit_cnot32 by lia
               | rewrite testbit_u32 by lia].
  rewrite Z.bits_0. btauto.
Qed.

Lemma switch_up_spec offset mask source divider (s : S) h :
  bus_reg (a7s_ccu_reg offset) -> is_u32 mask ->
  Z.land source mask = source -> Z.land divider A7S_BUS_DIV_MASK = divider ->
  Z.land mask A7S_BUS_DIV_MASK = 0 ->
  wp (a7s_bus_switch_up offset mask source divider) e s h
    (fun _ s' h' => s' = s /\ extends (only_bus offset) h h' /\
       bus_field h' offset (Z.lor mask A7S_BUS_DIV_MASK) = Z.lor source divider) total.
Proof.
  intros Hb Hm Hsrc Hdiv Hdis. unfold a7s_bus_switch_up. wp_steps. split; [done|].
  split; [apply extends2|]. apply plain_read in Ev0; [|done]. rewrite regval_Wr_eq in Ev0.
  unfold bus_field. rewrite regval_Wr_eq. subst v0. apply Z.bits_inj'. intros n Hn.
  assert (forall x y z, Z.land x y = z -> Z.testbit x n && Z.testbit y n = Z.testbit z n) as Hb'
    by (intros x y z <-; by rewrite Z.land_spec).
  apply Hb' in Hsrc, Hdiv, Hdis. rewrite Z.bits_0 in Hdis.
  repeat first [rewrite Z.lor_spec | rewrite Z.land_spec | rewrite testbit_cnot32 by lia
               | rewrite testbit_u32 by lia].
  destruct (Z.ltb_spec n 32) as [|Hbig].
  - destruct (Z.testbit v n), (Z.testbit mask n), (Z.testbit A7S_BUS_DIV_MASK n),
      (Z.testbit source n), (Z.testbit divider n); done.
  - assert (Z.testbit mask n = false) as Em by (by apply testbit_is_u32).
    rewrite Em in *. destruct (Z.testbit source n); [by rewrite andb_false_r in Hsrc|].
    assert (Z.testbit A7S_BUS_DIV_MASK n = false) as Ed.
    { by apply testbit_is_u32. }
    rewrite Ed in *. rewrite andb_false_r in Hdiv. rewrite <- Hdiv. btauto.
Qed.

Lemma bus_field_frame (P : Z -> Z -> Prop) h h' offset mask :
  extends P h h' -> (forall v, ~ P (a7s_ccu_reg offset) v) ->
  bus_field h' offset mask = bus_field h offset mask.
Proof. intros Hx Hno. unfold bus_field. by rewrite (regval_extends P init h h'). Qed.

(** A check of a register that holds the expected value passes. *)
Lemma bus_check_spec offset mask expected (next : M C S Z) (s : S) h Q K :
  bus_reg (a7s_ccu_reg offset) -> is_u32 mask ->
  bus_field h offset mask = expected ->
  (forall v, wp next e s (Rd (a7s_ccu_reg offset) v :: h) Q K) ->
  wp (bus_check offset mask expected next) e s h Q K.
Proof.
  intros Hb Hm Hf Hnext. unfold bus_check. apply wp_bind, wp_readl. intros v Hv Ev.
  apply plain_read in Ev; [|done].
  replace (Z.land v mask) with expected; [by rewrite Z.eqb_refl; apply Hnext|].
  subst v. rewrite <- Hf. unfold bus_field. apply Z.bits_inj'. intros n Hn.
  rewrite !Z.land_spec, testbit_u32 by lia. destruct (Z.ltb_spec n 32); [done|].
  by rewrite (testbit_is_u32 mask) by done; rewrite !andb_false_r.
Qed.


(** Later switches of other buses leave a field alone. *)
Ltac carry :=
  repeat match goal with
  | Hx : extends _ ?h ?h' |- bus_field ?h' _ _ = _ =>
      rewrite (bus_field_frame _ h h' _ _ Hx) by (unfold only_bus; done)
  end.

Ltac switch lem :=
  eapply wp_seq; [apply lem; first [by apply bus_reg_intro; in_list | done]|];
  let h' := fresh "h" in let Hx := fresh "Hx" in let Hf := fresh "Hf" in
  intros [] ? h' (-> & Hx & Hf).

Lemma only_bus_bus_reg offset h h' :
  bus_reg (a7s_ccu_reg offset) -> extends (only_bus offset) h h' ->
  extends (C := C) (fun a _ => bus_reg a) h h'.
Proof. intros Hb Hx. eapply extends_weaken; [exact Hx|]. by intros a v ->. Qed.

Lemma extends_bus4 h h1 h2 h3 h4 :
  extends (only_bus AHB_CLK_REG) h h1 -> extends (only_bus APB0_CLK_REG) h1 h2 ->
  extends (only_bus APB1_CLK_REG) h2 h3 -> extends (only_bus APB_UART_CLK_REG) h3 h4 ->
  extends (C := C) (fun a _ => bus_reg a) h h4.
Proof.
  intros H1 H2 H3 H4.
  repeat (eapply extends_trans; [by eapply only_bus_bus_reg; [|eassumption]; apply bus_reg_intro; set_solver|]).
  apply extends_refl.
Qed.

Ltac checks :=
  repeat (apply bus_check_spec;
    [by apply bus_reg_intro; in_list | done | cbn [bus_field regval]; try done | intros ?]).

(** The fall-back to the crystal succeeds from any state. *)
Lemma bus_use_sys24_spec (s : S) h :
  wp a7s_bus_use_sys24 e s h
    (fun r s' h' => r = 0 /\ s' = s /\ extends (fun a _ => bus_reg a) h h' /\ on_sys24 h') total.
Proof.
  unfold a7s_bus_use_sys24. do 4 switch switch_to_sys24_spec.
  assert (on_sys24 h3) as Hon by (repeat split; carry; done).
  assert (extends (C := C) (fun a _ => bus_reg a) h h3) as Hx' by (by eapply extends_bus4).
  destruct Hon as (F1 & F2 & F3 & F4).
  checks; unfold bus_field in *; [done..|].
  apply wp_ret. split; [done|]. split; [done|]. split; [|by repeat split].
  repeat (apply extends_cons; [naive_solver|]). exact Hx'.
Qed.

Lemma bus_use_nominal_spec (s : S) h :
  wp a7s_bus_use_nominal_rates e s h
    (fun r s' h' => r = 0 /\ s' = s /\ extends (fun a _ => bus_reg a) h h' /\ on_nominal h') total.
Proof.
  unfold a7s_bus_use_nominal_rates. do 4 switch switch_up_spec.
  assert (on_nominal h3) as Hon by (repeat split; carry; done).
  assert (extends (C := C) (fun a _ => bus_reg a) h h3) as Hx' by (by eapply extends_bus4).
  destruct Hon as (F1 & F2 & F3 & F4).
  checks; unfold bus_field in *; [done..|].
  apply wp_ret. split; [done|]. split; [done|]. split; [|by repeat split].
  repeat (apply extends_cons; [naive_solver|]). exact Hx'.
Qed.

End Bus.

Section Frames.
Context {C S : Type}.

(** Everything else the driver writes. *)
Definition not_bus (a v : Z) : Prop := ~ bus_reg a.

Lemma wait_stable_frame P n st r : only_writes (C := C) (S := S) P (wait_stable_loop n st r).
Proof.
  revert st. induction n as [|n IH]; intros st; cbn [wait_stable_loop]; frame done; apply IH.
Qed.

Lemma dcxo_frame P n : only_writes (C := C) (S := S) P (dcxo_loop n).
Proof. induction n as [|n IH]; cbn [dcxo_loop]; frame done; apply IH. Qed.

Lemma is_running_frame P pll check :
  only_writes (C := C) (S := S) P (a7s_pll_is_running pll check).
Proof.
  unfold a7s_pll_is_running, a7s_pll_wait_stable. frame done; apply wait_stable_frame.
Qed.

(** Programming a PLL writes its own two registers, whatever the hardware
    answers. *)
Lemma pll_program_frame (P : Z -> Z -> Prop) pll :
  (forall v, P (reg pll) v) -> (forall v, P (pattern_reg pll) v) ->
  only_writes (C := C) (S := S) P (a7s_pll_program pll).
Proof.
  intros Hr Hp. unfold a7s_pll_program, pll_isolate, pll_startup, pll_configure,
    a7s_pll_wait_stable.
  frame ltac:(first [apply Hr | apply Hp]);
    first [apply is_running_frame | apply wait_stable_frame].
Qed.

Lemma ref_init_frame : only_writes (C := C) (S := S) not_bus a7s_ref_pll_init.
Proof.
  unfold a7s_ref_pll_init, a7s_read_dcxo_rate.
  frame done; first [apply is_running_frame | apply dcxo_frame | idtac].
  apply pll_program_frame; intros v [|[|[|]]]; done.
Qed.

Lemma peri_init_frame offset n :
  offset ∈ [PLL_PERI0_CTRL_REG; PLL_PERI1_CTRL_REG] ->
  only_writes (C := C) (S := S) not_bus (a7s_peri_pll_init offset n).
Proof.
  intros Ho. unfold a7s_peri_pll_init.
  apply pll_program_frame; intros v [|[|[|]]]; set_solver.
Qed.

Lemma distribution_frame offset :
  offset ∈ [PERI0PLL_GATE_EN_REG; PERI1PLL_GATE_EN_REG] ->
  only_writes (C := C) (S := S) not_bus (a7s_peri_distribution_enable offset).
Proof.
  intros Ho. unfold a7s_peri_distribution_enable. frame ltac:(intros [|[|[|]]]; set_solver).
Qed.

Lemma on_sys24_frame init (h h' : history C) :
  extends not_bus h h' -> on_sys24 init h -> on_sys24 init h'.
Proof.
  intros Hx (F1 & F2 & F3 & F4).
  repeat split; (erewrite bus_field_frame; [eassumption | exact Hx |]);
    intros v Hv; apply Hv, bus_reg_intro; set_solver.
Qed.
End Frames.

(** C7: initialisation of the clocks always returns a status of the driver, and
    leaves the four system buses in a defined state whatever the PLLs and the
    crystal detector do: on success at their nominal source and divisors, on
    every failure back on the crystal, undivided. *)
Theorem clock_init_safe {C S} (e : env C) (init : Z -> Z) (s : S) h :
  (forall a, bus_reg a -> plain e init a) ->
  wp a7s_clock_init e s h
    (fun r s' h' => s' = s /\
       (r = A7S_CLOCK_OK /\ on_nominal init h' \/
        r ∈ [A7S_CLOCK_ERR_REF_PLL; A7S_CLOCK_ERR_PERI0_PLL; A7S_CLOCK_ERR_PERI1_PLL;
             A7S_CLOCK_ERR_BUS] /\ on_sys24 init h')) total.
Proof.
  intros Hbus. unfold a7s_clock_init.
  eapply wp_seq; [by apply (bus_use_sys24_spec _ _ Hbus)|]. intros r s1 h1 (-> & -> & _ & H24).
  assert (forall (s : S) h, wp (a7s_bus_use_sys24;; ret A7S_CLOCK_ERR_BUS) e s h
    (fun r s' h' => s' = s /\ r = A7S_CLOCK_ERR_BUS /\ on_sys24 init h') total /\
    wp (a7s_bus_use_sys24;; ret A7S_CLOCK_ERR_PERI1_PLL) e s h
    (fun r s' h' => s' = s /\ r = A7S_CLOCK_ERR_PERI1_PLL /\ on_sys24 init h') total) as Hback.
  { intros s' h'. split; (eapply wp_seq; [by apply (bus_use_sys24_spec _ _ Hbus)|]);
      intros ? ? ? (_ & -> & _ & ?); by apply wp_ret. }
  cbn [nonzero Z.eqb negb].
  eapply wp_seq; [by apply ref_init_frame|]. intros r s2 h2 [-> Hx2].
  eapply on_sys24_frame in H24; [|exact Hx2].
  destruct (nonzero r); [apply wp_ret; split; [done|]; right; split; [set_solver | done]|].
  eapply wp_seq; [apply (peri_init_frame PLL_PERI0_CTRL_REG 100); in_list|]. intros r0 s3 h3 [-> Hx3].
  eapply on_sys24_frame in H24; [|exact Hx3].
  destruct (nonzero r0); [apply wp_ret; split; [done|]; right; split; [set_solver | done]|].
  eapply wp_seq; [apply (peri_init_frame PLL_PERI1_CTRL_REG 100); in_list|]. intros r1 s4 h4 [-> Hx4].
  destruct (nonzero r1).
  { eapply wp_mono; [exact (proj2 (Hback _ _))|]. intros ? ? ? (-> & -> & ?). split; [done|]. right. set_solver. }
  eapply on_sys24_frame in H24; [|exact Hx4].
  eapply (wp_seq _ _ _ _ _ (fun _ s' _ => s' = s)).
  { eapply wp_seq; [apply (distribution_frame PERI0PLL_GATE_EN_REG); in_list|]. intros g0 s5 h5 [-> _].
    destruct (nonzero g0); [by apply wp_ret|].
    eapply wp_seq; [apply (distribution_frame PERI1PLL_GATE_EN_REG); in_list|]. intros g1 s6 h6 [-> _]. by apply wp_ret. }
  intros gates s5 h5 ->. destruct gates.
  { eapply wp_mono; [exact (proj1 (Hback _ _))|]. intros ? ? ? (-> & -> & ?). split; [done|]. right. set_solver. }
  eapply wp_seq; [by apply (bus_use_nominal_spec _ _ Hbus)|]. intros r2 s6 h6 (-> & -> & _ & Hnom).
  apply wp_ret. split; [done|]. left. done.
Qed.

(** Hardware that stores what is written, reports every PLL locked and reads
    the crystal as 24 MHz. *)
Definition is_pll_reg (a : Z) : bool :=
  (a =? a7s_ccu_reg PLL_REF_CTRL_REG) || (a =? a7s_ccu_reg PLL_PERI0_CTRL_REG)
  || (a =? a7s_ccu_reg PLL_PERI1_CTRL_REG).

Definition ideal_clock_env : env unit :=
  Env (fun h a =>
         if a =? A7S_RTC_XO_CTRL0 then 0
         else let v := regval (fun _ => 0) h a in
              if is_pll_reg a then Z.lor v A7S_PLL_LOCK else v)
      (fun _ _ => 0) (fun _ _ => []).

Lemma ideal_clock_plain a :
  is_pll_reg a = false -> a <> A7S_RTC_XO_CTRL0 -> plain ideal_clock_env (fun _ => 0) a.
Proof.
  intros Ha Hx. split; [done|]. intros h. cbn [ideal_clock_env env_read].
  rewrite Ha. by destruct (Z.eqb_spec a A7S_RTC_XO_CTRL0).
Qed.

Lemma ideal_clock_plain_but a :
  a <> A7S_RTC_XO_CTRL0 -> plain_but ideal_clock_env (fun _ => 0) a A7S_PLL_LOCK.
Proof.
  intros Hx h. cbn [ideal_clock_env env_read].
  destruct (Z.eqb_spec a A7S_RTC_XO_CTRL0); [done|]. destruct (is_pll_reg a); [|done].
  apply Z.bits_inj'. intros n' Hn.
  rewrite !Z.land_spec, !testbit_cnot32, !testbit_u32, Z.lor_spec by lia. btauto.
Qed.

Lemma pll_program_effect_witness :
  let pll := peri_pll_config PLL_PERI0_CTRL_REG 100 in
  wp (a7s_pll_program pll) ideal_clock_env tt []
    (fun r s' h' => s' = tt /\ (r = 0 \/ r = -1) /\ extends (pll_regs pll) [] h' /\
       bits_after (fun _ => 0) (reg pll) A7S_PLL_LOCK (programmed pll (r =? 0)) [] h') total.
Proof.
  apply (pll_program_effect ideal_clock_env (fun _ => 0)); [|done].
  by apply ideal_clock_plain_but.
Defined.

Lemma clock_init_safe_witness :
  (forall a, bus_reg a -> plain ideal_clock_env (fun _ => 0) a) /\
  wp a7s_clock_init ideal_clock_env tt []
    (fun r s' h' => s' = tt /\
       (r = A7S_CLOCK_OK /\ on_nominal (fun _ => 0) h' \/
        r ∈ [A7S_CLOCK_ERR_REF_PLL; A7S_CLOCK_ERR_PERI0_PLL; A7S_CLOCK_ERR_PERI1_PLL;
             A7S_CLOCK_ERR_BUS] /\ on_sys24 (fun _ => 0) h')) total.
Proof.
  assert (forall a, bus_reg a -> plain ideal_clock_env (fun _ => 0) a) as Hb.
  { by intros a [->|[->|[->| ->]]]; apply ideal_clock_plain. }
  split; [exact Hb|]. apply (clock_init_safe ideal_clock_env _ tt [] Hb).
Defined.

(** The run itself succeeds on that hardware. *)
Example ideal_clock_init :
  match a7s_clock_init ideal_clock_env tt [] with Done r _ _ => r = 0 | _ => False end.
Proof. vm_compute. reflexivity. Qed.
