(* ===== verification/ClockDiagProps.v ===== *)
(** * The clock driver against the clock diagnostics

    The arithmetic of the diagnostics never wraps, and what it reports after a
    successful initialisation are the nominal rates of the board. *)

From Stdlib Require Import Btauto String.
From S2P Require Import Prelude Machine Console Clock ClockProps ClockBus ClockDiag.

(** ** Fields of a register known only on a mask *)

Lemma field_land v m s f :
  0 <= s -> Z.land (Z.shiftl f s) m = Z.shiftl f s -> field v s f = field (Z.land v m) s f.
Proof.
  intros Hs Hm. unfold field. apply Z.bits_inj'. intros n Hn.
  rewrite !Z.land_spec, !Z.shiftr_spec, Z.land_spec by lia.
  destruct (Z.testbit f n) eqn:Hf; [|by rewrite !andb_false_r].
  apply (f_equal (fun z => Z.testbit z (n + s))) in Hm.
  rewrite Z.land_spec, Z.shiftl_spec in Hm by lia.
  replace (n + s - s) with n in Hm by lia. rewrite Hf in Hm. cbn [andb] in Hm.
  by rewrite Hm, !andb_true_r.
Qed.

Lemma land_land v m on : Z.land on m = on -> Z.land v on = Z.land (Z.land v m) on.
Proof. intros Hm. rewrite <- Z.land_assoc, (Z.land_comm m), Hm. done. Qed.

(** The masks a rate computation looks at. *)
Definition covers (m : Z) (fields : list (Z * Z)) : bool :=
  forallb (fun '(s, f) => (0 <=? s) && (Z.land (Z.shiftl f s) m =? Z.shiftl f s)) fields.

Lemma covers_field m fields v s f :
  covers m fields = true -> (s, f) ∈ fields -> field v s f = field (Z.land v m) s f.
Proof.
  unfold covers. rewrite forallb_forall. intros H Hin.
  apply list_elem_of_In in Hin. specialize (H _ Hin). cbn in H.
  rewrite andb_true_iff, Z.leb_le, Z.eqb_eq in H. apply field_land; tauto.
Qed.

Lemma covers_word m fields v w :
  covers m fields = true -> (0, w) ∈ fields -> Z.land v w = Z.land (Z.land v m) w.
Proof.
  unfold covers. rewrite forallb_forall. intros H Hin.
  apply list_elem_of_In in Hin. specialize (H _ Hin). cbn in H.
  rewrite Z.eqb_eq in H. by apply land_land.
Qed.

Lemma main_output_land v m p s f g :
  covers m [(8, 0xff); (1, 1); (s, f); (0, Z.lor A7S_PLL_ENABLE (BIT g))] = true ->
  a7s_main_pll_output v p s f g = a7s_main_pll_output (Z.land v m) p s f g.
Proof.
  intros Hc. unfold a7s_main_pll_output. cbv zeta.
  rewrite !(covers_field m _ v _ _ Hc) by set_solver.
  by rewrite (covers_word m _ v (Z.lor A7S_PLL_ENABLE (BIT g)) Hc) by set_solver.
Qed.

Lemma ref_rate_land v m d :
  covers m [(8, 0xff); (1, 1); (16, 0x7f); (0, Z.lor A7S_PLL_ENABLE (BIT 27))] = true ->
  a7s_ref_pll_rate v d = a7s_ref_pll_rate (Z.land v m) d.
Proof. apply (main_output_land v m d 16 0x7f 27). Qed.

Lemma main_input_land v m d r :
  covers m [(0, BIT 24)] = true ->
  a7s_main_pll_input v d r = a7s_main_pll_input (Z.land v m) d r.
Proof.
  intros Hc. unfold a7s_main_pll_input. by rewrite (covers_word m _ v _ Hc) by set_solver.
Qed.

Lemma bus_rate_land v m d p :
  covers m [(24, 3); (0, 0x1f)] = true ->
  a7s_standard_bus_rate v d p = a7s_standard_bus_rate (Z.land v m) d p.
Proof.
  intros Hc. unfold a7s_standard_bus_rate.
  rewrite (covers_field m _ v 24 _ Hc) by set_solver.
  by rewrite (covers_word m _ v 0x1f Hc) by set_solver.
Qed.

Lemma uart_rate_land v m d p q :
  covers m [(24, 7); (0, 0x1f)] = true ->
  a7s_uart_rate v d p q = a7s_uart_rate (Z.land v m) d p q.
Proof.
  intros Hc. unfold a7s_uart_rate.
  rewrite (covers_field m _ v 24 _ Hc) by set_solver.
  by rewrite (covers_word m _ v 0x1f Hc) by set_solver.
Qed.

(** ** Initialised PLLs *)

Section Nominal.
Context {C S : Type} (e : env C) (init : Z -> Z).

Definition pll_mask (pll : a7s_pll_config) : Z := Z.lor (config_mask pll) (required pll).
Definition pll_word (pll : a7s_pll_config) : Z := Z.lor (config_value pll) (required pll).

(** The control register holds the configuration, everything on. *)
Definition pll_set (pll : a7s_pll_config) (h : history C) : Prop :=
  forall n, 0 <= n < 32 -> Z.testbit A7S_PLL_LOCK n = false ->
    Z.testbit (pll_mask pll) n = true ->
    Z.testbit (regval init h (reg pll)) n = Z.testbit (pll_word pll) n.

Lemma programmed_set pll h h' :
  pll_wf pll = true ->
  bits_after init (reg pll) A7S_PLL_LOCK (programmed pll true) h h' -> pll_set pll h'.
Proof.
  intros Hwf Ha n Hn Hl Hm. rewrite Ha by done. unfold programmed, pll_word, pll_mask in *.
  rewrite Z.lor_spec in Hm |- *. destruct (pll_wf_bits pll Hwf n) as (Hc & Hv & Ho).
  unfold required in *. repeat rewrite Z.lor_spec in Hm. repeat rewrite Z.lor_spec.
  destruct (Z.testbit (config_mask pll) n).
  - destruct (Hc eq_refl) as (-> & -> & -> & _ & -> & ->). by rewrite !orb_false_r.
  - destruct (Z.testbit (config_value pll) n); [by discriminate Hv|].
    destruct (Z.testbit (output_mask pll) n); [by rewrite !orb_true_r|].
    cbn [orb] in *. rewrite Hm. done.
Qed.

Lemma pll_set_frame (P : Z -> Z -> Prop) pll h h' :
  extends P h h' -> (forall v, ~ P (reg pll) v) -> pll_set pll h -> pll_set pll h'.
Proof.
  intros Hx Hno Hs n Hn Hl Hm. rewrite (regval_extends P init h h') by done. by apply Hs.
Qed.

(** What a read of a set-up PLL returns on its mask. *)
Lemma pll_set_read pll h v :
  plain_but e init (reg pll) A7S_PLL_LOCK -> pll_set pll h ->
  is_u32 (pll_mask pll) -> Z.land (pll_mask pll) A7S_PLL_LOCK = 0 ->
  Z.land (pll_word pll) (pll_mask pll) = pll_word pll ->
  v = u32 (env_read e h (reg pll)) -> Z.land v (pll_mask pll) = pll_word pll.
Proof.
  intros Hp Hs Hm Hlock Hw Ev. rewrite <- Hw. apply Z.bits_inj'. intros n Hn.
  rewrite !Z.land_spec.
  destruct (Z.testbit (pll_mask pll) n) eqn:Em; [|by rewrite !andb_false_r].
  rewrite !andb_true_r.
  assert (n < 32). { destruct (Z.ltb_spec n 32); [done|]. by rewrite testbit_is_u32 in Em. }
  assert (Z.testbit A7S_PLL_LOCK n = false) as Hl.
  { apply (f_equal (fun z => Z.testbit z n)) in Hlock.
    rewrite Z.land_spec, Em, Z.bits_0 in Hlock. done. }
  rewrite (plain_but_bit e init (reg pll) A7S_PLL_LOCK h v n) by done. by apply Hs.
Qed.

(** ** Initialisation *)

Definition ref_pll := ref_pll_config 0.
Definition peri0_pll := peri_pll_config PLL_PERI0_CTRL_REG 100.
Definition peri1_pll := peri_pll_config PLL_PERI1_CTRL_REG 100.

(** The configuration of the reference PLL for a crystal status word. *)
Definition dcxo_hz (xo : Z) : Z :=
  let status := Z.shiftr (Z.land xo A7S_RTC_DCXO_STATUS_MASK) A7S_RTC_DCXO_STATUS_SHIFT in
  if status =? 1 then 19200000 else if status =? 2 then 26000000 else 24000000.

Definition ref_pll_for (xo : Z) : a7s_pll_config :=
  match ref_pll_factors (dcxo_hz xo) with
  | Some (n, d) => ref_pll_config (Z.lor (shl32 (u32 (d - 1)) 16) (shl32 (u32 (n - 1)) 8))
  | None => ref_pll
  end.

Variable xo : Z.
Hypothesis Hxo : is_u32 xo.
Hypothesis Hcrystal : forall h, env_read e h A7S_RTC_XO_CTRL0 = xo.
Hypothesis Hbus : forall a, bus_reg a -> plain e init a.
Hypothesis Hplls : forall pll, pll ∈ [ref_pll; peri0_pll; peri1_pll] ->
  plain_but e init (reg pll) A7S_PLL_LOCK.

Lemma read_dcxo_spec (s : S) h :
  wp a7s_read_dcxo_rate e s h
    (fun r s' h' => r = dcxo_hz xo /\ s' = s /\ extends (fun _ _ => False) h h') total.
Proof.
  unfold a7s_read_dcxo_rate. cbn [dcxo_loop]. apply wp_bind. do 5 wp_step. do 5 wp_step.
  rewrite Hcrystal in *. rewrite u32_id in * by done. subst.
  rewrite !Z.eqb_refl. cbn [andb]. wp_steps. split; [done|]. split; [done|].
  repeat (apply extends_cons; [naive_solver|]). apply extends_refl.
Qed.

Lemma ref_pll_for_wf : pll_wf (ref_pll_for xo) = true /\ reg (ref_pll_for xo) = reg ref_pll.
Proof.
  clear. unfold ref_pll_for. destruct (ref_pll_factors (dcxo_hz xo)) as [[n d]|] eqn:E; [|done].
  split; [|done]. destruct pll_configs_wf as (_ & _ & _ & H). by apply (H _ _ _ E).
Qed.

Lemma dcxo_factors : is_Some (ref_pll_factors (dcxo_hz xo)).
Proof. clear. unfold dcxo_hz. repeat case_match; vm_compute; eauto. Qed.

(** A cold reference PLL is programmed for the crystal. *)
Lemma ref_init_spec (s : S) h :
  Z.testbit (regval init h (reg ref_pll)) 31 = false ->
  wp a7s_ref_pll_init e s h
    (fun r s' h' => s' = s /\ (r = 0 -> pll_set (ref_pll_for xo) h')) total.
Proof.
  intros Hcold. unfold a7s_ref_pll_init.
  assert (plain_but e init (reg ref_pll) A7S_PLL_LOCK) as Hp by (apply Hplls; set_solver).
  eapply wp_seq; [by apply (is_running_spec e init ref_pll Hp)|].
  intros b s1 h1 (-> & Hx1 & Hrun). destruct b.
  { exfalso. destruct (Hrun eq_refl 31) as [H31 _]; [lia | done |].
    by rewrite H31 in Hcold. }
  eapply wp_seq; [by apply read_dcxo_spec|]. intros r s2 h2 (-> & -> & Hx2).
  destruct dcxo_factors as [[n d] E]. rewrite E.
  assert (ref_pll_for xo = ref_pll_config (Z.lor (shl32 (u32 (d - 1)) 16) (shl32 (u32 (n - 1)) 8)))
    as Epll by (unfold ref_pll_for; by rewrite E).
  rewrite <- Epll. destruct ref_pll_for_wf as [Hwf Hreg].
  eapply wp_mono; [apply (pll_program_effect e init); [by rewrite Hreg | done]|].
  intros r s3 h3 (-> & _ & _ & Ha). split; [done|]. intros ->.
  by eapply programmed_set.
Qed.

Lemma peri_init_spec pll (s : S) h :
  pll ∈ [peri0_pll; peri1_pll] ->
  wp (a7s_pll_program pll) e s h
    (fun r s' h' => s' = s /\ extends (pll_regs pll) h h' /\ (r = 0 -> pll_set pll h')) total.
Proof.
  intros Hpll. destruct pll_configs_wf as (H0 & H1 & _).
  assert (pll_wf pll = true) as Hwf by set_solver.
  eapply wp_mono; [apply (pll_program_effect e init); [apply Hplls; set_solver | done]|].
  intros r s3 h3 (-> & _ & Hx & Ha). split; [done|]. split; [done|]. intros ->.
  by eapply programmed_set.
Qed.

Definition gate_reg (a v : Z) : Prop :=
  a = a7s_ccu_reg PERI0PLL_GATE_EN_REG \/ a = a7s_ccu_reg PERI1PLL_GATE_EN_REG.

Lemma distribution_gates offset :
  offset ∈ [PERI0PLL_GATE_EN_REG; PERI1PLL_GATE_EN_REG] ->
  only_writes (C := C) (S := S) gate_reg (a7s_peri_distribution_enable offset).
Proof.
  clear. intros Ho. unfold a7s_peri_distribution_enable, gate_reg.
  rewrite !elem_of_cons in Ho. frame ltac:(by destruct Ho as [-> | [-> | Ho]]; [left | right | apply elem_of_nil in Ho]).
Qed.

(** What a successful initialisation leaves behind. *)
Definition clock_tree (h : history C) : Prop :=
  on_nominal init h /\ pll_set (ref_pll_for xo) h /\ pll_set peri0_pll h /\ pll_set peri1_pll h.

Lemma clock_init_tree (s : S) h :
  Z.testbit (regval init h (reg ref_pll)) 31 = false ->
  wp a7s_clock_init e s h (fun r s' h' => s' = s /\ (r = A7S_CLOCK_OK -> clock_tree h')) total.
Proof.
  intros Hcold. unfold a7s_clock_init. destruct ref_pll_for_wf as [_ Href].
  eapply wp_seq; [by apply (bus_use_sys24_spec _ _ Hbus)|]. intros r s1 h1 (-> & -> & Hx1 & _).
  cbn [nonzero Z.eqb negb].
  eapply wp_seq.
  { apply ref_init_spec. rewrite (regval_extends _ init h h1 _ Hx1); [done|].
    by intros v [|[|[|]]]. }
  intros r s2 h2 (-> & Hs2).
  destruct (nonzero r) eqn:Er; [by apply wp_ret|].
  apply negb_false_iff, Z.eqb_eq in Er. specialize (Hs2 Er).
  eapply wp_seq; [apply (peri_init_spec peri0_pll); in_list|]. intros r0 s3 h3 (-> & Hx3 & Hs3).
  destruct (nonzero r0) eqn:Er0; [by apply wp_ret|].
  apply negb_false_iff, Z.eqb_eq in Er0. specialize (Hs3 Er0).
  eapply (pll_set_frame _ _ _ _ Hx3) in Hs2; [|rewrite Href; by intros v [|]].
  eapply wp_seq; [apply (peri_init_spec peri1_pll); in_list|]. intros r1 s4 h4 (-> & Hx4 & Hs4).
  destruct (nonzero r1) eqn:Er1; [apply wp_bind; eapply wp_mono; [by apply (bus_use_sys24_spec _ _ Hbus)|];
    intros ? ? ? (_ & -> & _); by apply wp_ret|].
  apply negb_false_iff, Z.eqb_eq in Er1. specialize (Hs4 Er1).
  eapply (pll_set_frame _ _ _ _ Hx4) in Hs2; [|rewrite Href; by intros v [|]].
  eapply (pll_set_frame _ _ _ _ Hx4) in Hs3; [|by intros v [|]].
  eapply (wp_seq _ _ _ _ _ (fun _ s' h' => s' = s /\ extends gate_reg h4 h')).
  { eapply wp_seq; [apply (distribution_gates PERI0PLL_GATE_EN_REG); in_list|]. intros g0 s5 h5 [-> Hx5].
    destruct (nonzero g0); [by apply wp_ret|].
    eapply wp_seq; [apply (distribution_gates PERI1PLL_GATE_EN_REG); in_list|]. intros g1 s6 h6 [-> Hx6].
    apply wp_ret. split; [done|]. by eapply extends_trans. }
  intros gates s5 h5 (-> & Hx5). destruct gates.
  { apply wp_bind; eapply wp_mono; [by apply (bus_use_sys24_spec _ _ Hbus)|].
    intros ? ? ? (_ & -> & _); by apply wp_ret. }
  eapply wp_seq; [by apply (bus_use_nominal_spec _ _ Hbus)|]. intros r2 s6 h6 (-> & -> & Hx6 & Hnom).
  apply wp_ret. split; [done|]. intros _. split; [done|].
  split; [|split]; (eapply (pll_set_frame _ _ _ _ Hx6); [|eapply (pll_set_frame _ _ _ _ Hx5); [|eassumption]]);
    rewrite ?Href; intros v Hv; by repeat destruct Hv as [Hv|Hv].
Qed.

(** ** The snapshot of an initialised clock tree *)

Definition nominal (r : a7s_clock_rates) : Prop :=
  ref r = 24000 /\
  peri0_2x r = 1200000 /\ peri0_800 r = 800000 /\ peri0_480 r = 480000 /\
  peri1_2x r = 1200000 /\ peri1_800 r = 800000 /\ peri1_480 r = 480000 /\
  ahb r = 200000 /\ apb0 r = 100000 /\ apb1 r = 100000 /\ uart r = 24000.

(** The driver and the diagnostic read the same crystal. *)
Lemma dcxo_cases :
  (a7s_dcxo_rate_of xo, dcxo_hz xo) ∈
    [(19200, 19200000); (24000, 24000000); (26000, 26000000)].
Proof.
  clear. unfold a7s_dcxo_rate_of, dcxo_hz.
  replace (Z.shiftr (Z.land xo A7S_RTC_DCXO_STATUS_MASK) A7S_RTC_DCXO_STATUS_SHIFT)
    with (field xo 14 3)
    by (unfold field, A7S_RTC_DCXO_STATUS_SHIFT, A7S_RTC_DCXO_STATUS_MASK; by rewrite Z.shiftr_land).
  generalize (field xo 14 3). intros f.
  destruct (Z.eqb_spec f 1) as [->|H1]; [in_list|].
  destruct (Z.eqb_spec f 2) as [->|H2]; [in_list|].
  replace (match f with 1 => 19200 | 2 => 26000 | _ => 24000 end) with 24000; [in_list|].
  destruct f as [|p|p]; try done. destruct p as [[]|[]|]; done.
Qed.

Lemma ref_set_rate v :
  Z.land v (pll_mask (ref_pll_for xo)) = pll_word (ref_pll_for xo) ->
  a7s_ref_pll_rate v (a7s_dcxo_rate_of xo) = 24000.
Proof.
  pose proof dcxo_cases as Hc. unfold ref_pll_for. revert Hc.
  generalize (a7s_dcxo_rate_of xo) (dcxo_hz xo). clear. intros d z Hc Hv.
  rewrite !elem_of_cons in Hc.
  destruct Hc as [[= -> ->]|[[= -> ->]|[[= -> ->]|Hc%elem_of_nil]]]; [..|done];
    lazy beta iota delta [ref_pll_factors Z.eqb Pos.eqb] in Hv;
    match type of Hv with
    | Z.land v ?m = _ => rewrite (ref_rate_land v m), Hv by reflexivity; reflexivity
    end.
Qed.

Lemma peri_set_rate pll v :
  pll ∈ [peri0_pll; peri1_pll] -> Z.land v (pll_mask pll) = pll_word pll ->
  forall d, a7s_main_pll_input v d 24000 = 24000 /\
  a7s_main_pll_output v 24000 20 7 27 = 1200000 /\
  a7s_main_pll_output v 24000 16 7 26 = 800000 /\
  a7s_main_pll_output v 24000 2 7 25 = 480000.
Proof.
  clear. intros Hpll Hv d.
  assert (pll_mask pll = pll_mask peri0_pll /\ pll_word pll = pll_word peri0_pll) as [Em Ew].
  { rewrite !elem_of_cons in Hpll. by destruct Hpll as [->|[->|H%elem_of_nil]]. }
  rewrite Em, Ew in Hv.
  rewrite (main_input_land v (pll_mask peri0_pll)) by done.
  rewrite !(main_output_land v (pll_mask peri0_pll)) by done. rewrite Hv. done.
Qed.

(** What a read of [a] returns in an initialised clock tree. *)
Definition tree_value (a v : Z) : Prop :=
  (a = A7S_RTC_XO_CTRL0 -> v = xo) /\
  (forall pll, pll ∈ [ref_pll_for xo; peri0_pll; peri1_pll] -> a = reg pll ->
     Z.land v (pll_mask pll) = pll_word pll) /\
  (a = a7s_ccu_reg AHB_CLK_REG ->
     Z.land v AHB_MASK = Z.lor A7S_AHB_SOURCE_PERI0_600 A7S_AHB_DIV_3) /\
  (a = a7s_ccu_reg APB0_CLK_REG \/ a = a7s_ccu_reg APB1_CLK_REG ->
     Z.land v AHB_MASK = Z.lor A7S_APB_SOURCE_PERI0_600 A7S_APB_DIV_6) /\
  (a = a7s_ccu_reg APB_UART_CLK_REG ->
     Z.land v UART_MASK = Z.lor A7S_UART_SOURCE_PERI0_480 A7S_UART_DIV_20).

(** A configuration's mask is a word without the lock bit. *)
Lemma pll_mask_ok pll :
  pll ∈ [ref_pll_for xo; peri0_pll; peri1_pll] ->
  is_u32 (pll_mask pll) /\ Z.land (pll_mask pll) A7S_PLL_LOCK = 0 /\
  Z.land (pll_word pll) (pll_mask pll) = pll_word pll /\
  exists p, p ∈ [ref_pll; peri0_pll; peri1_pll] /\ reg pll = reg p.
Proof.
  pose proof dcxo_cases as Hc. unfold ref_pll_for. revert Hc.
  generalize (a7s_dcxo_rate_of xo) (dcxo_hz xo). clear. intros d z Hc Hp.
  rewrite !elem_of_cons in Hc.
  destruct Hc as [[= -> ->]|[[= -> ->]|[[= -> ->]|Hc%elem_of_nil]]]; [..|done];
  rewrite !elem_of_cons in Hp;
  destruct Hp as [->|[->|[->|Hp%elem_of_nil]]]; try done;
    (split; [by vm_compute|]); (split; [done|]); (split; [done|]);
    first [by exists ref_pll; split; [in_list|] | by exists peri0_pll; split; [in_list|]
          | by exists peri1_pll; split; [in_list|]].
Qed.

Lemma bus_read_land h a m v :
  bus_reg a -> is_u32 m -> v = u32 (env_read e h a) -> Z.land v m = Z.land (regval init h a) m.
Proof.
  intros Ha Hm Ev. apply (plain_read _ _ Hbus) in Ev; [|done]. subst v.
  apply Z.bits_inj'. intros n Hn. rewrite !Z.land_spec, testbit_u32 by lia.
  destruct (Z.ltb_spec n 32); [done|]. by rewrite (testbit_is_u32 m), !andb_false_r by done.
Qed.

Lemma read_tree {A} a (f : Z -> M C S A) (s : S) h Q K :
  clock_tree h ->
  (forall v h', clock_tree h' -> tree_value a v -> wp (f v) e s h' Q K) ->
  wp (bind (readl a) f) e s h Q K.
Proof.
  intros Ht Hf. apply wp_bind, wp_readl. intros v _ Ev. apply Hf; [exact Ht|].
  destruct Ht as ((B1 & B2 & B3 & B4) & Hr & Hp0 & Hp1). unfold bus_field in *.
  split; [|split; [|split; [|split]]].
  - intros ->. by rewrite Ev, Hcrystal, u32_id.
  - intros pll Hin ->. destruct (pll_mask_ok pll Hin) as (H1 & H2 & H3 & p & Hp & Hreg).
    eapply pll_set_read; [rewrite Hreg; by apply Hplls | | done..].
    rewrite !elem_of_cons in Hin. by destruct Hin as [->|[->|[->|Hin%elem_of_nil]]].
  - intros ->. rewrite <- B1. apply bus_read_land; [unfold bus_reg; tauto | done | done].
  - intros [-> | ->]; [rewrite <- B2 | rewrite <- B3];
      (apply bus_read_land; [unfold bus_reg; tauto | done | done]).
  - intros ->. rewrite <- B4. apply bus_read_land; [unfold bus_reg; tauto | done | done].
Qed.

Lemma tree_ref v :
  tree_value (a7s_ccu_reg PLL_REF_CTRL_REG) v ->
  a7s_ref_pll_rate v (a7s_dcxo_rate_of xo) = 24000.
Proof.
  intros (_ & H & _). apply ref_set_rate, H; [in_list|]. by rewrite (proj2 ref_pll_for_wf).
Qed.

Lemma tree_peri pll v :
  pll ∈ [peri0_pll; peri1_pll] -> tree_value (reg pll) v ->
  forall d, a7s_main_pll_input v d 24000 = 24000 /\
  a7s_main_pll_output v 24000 20 7 27 = 1200000 /\
  a7s_main_pll_output v 24000 16 7 26 = 800000 /\
  a7s_main_pll_output v 24000 2 7 25 = 480000.
Proof.
  intros Hpll (_ & H & _). apply (peri_set_rate pll); [done|]. apply H; [|done].
  by apply list_elem_of_further.
Qed.

Lemma tree_ahb v d :
  tree_value (a7s_ccu_reg AHB_CLK_REG) v -> a7s_standard_bus_rate v d 1200000 = 200000.
Proof.
  intros (_ & _ & H & _). by rewrite (bus_rate_land v AHB_MASK), (H eq_refl) by done.
Qed.

Lemma tree_apb a v d :
  a = a7s_ccu_reg APB0_CLK_REG \/ a = a7s_ccu_reg APB1_CLK_REG ->
  tree_value a v -> a7s_standard_bus_rate v d 1200000 = 100000.
Proof.
  intros Ha (_ & _ & _ & H & _). by rewrite (bus_rate_land v AHB_MASK), (H Ha) by done.
Qed.

Lemma tree_uart v d :
  tree_value (a7s_ccu_reg APB_UART_CLK_REG) v -> a7s_uart_rate v d 1200000 480000 = 24000.
Proof.
  intros (_ & _ & _ & _ & H). by rewrite (uart_rate_land v UART_MASK), (H eq_refl) by done.
Qed.

Ltac tree_step h Ht :=
  lazymatch goal with
  | |- wp (bind (readl _) _) _ _ _ _ _ =>
      apply read_tree; [exact Ht|]; clear h Ht; intros ? h Ht ?
  | |- wp (bind (bind _ _) _) _ _ _ _ _ => apply wp_bind
  | |- wp (ret _) _ _ _ _ _ => apply wp_ret
  end; cbv beta.

(** What the snapshot reports of an initialised clock tree. *)
Lemma read_rates_nominal (s : S) h :
  clock_tree h -> wp a7s_clock_read_rates e s h (fun r s' _ => s' = s /\ nominal r) total.
Proof.
  intros Ht. unfold a7s_clock_read_rates, a7s_dcxo_rate. cbv zeta.
  repeat (tree_step h Ht).
  split; [done|]. unfold nominal.
  cbn [ref peri0_2x peri0_800 peri0_480 peri1_2x peri1_800 peri1_480 ahb apb0 apb1 uart].
  repeat match goal with
  | H : tree_value A7S_RTC_XO_CTRL0 ?v |- _ => destruct H as [H _]; specialize (H eq_refl); subst v
  | H : tree_value (a7s_ccu_reg PLL_REF_CTRL_REG) ?v |- _ => apply tree_ref in H; rewrite H
  | H : tree_value (a7s_ccu_reg PLL_PERI0_CTRL_REG) ?v |- _ =>
      destruct (tree_peri peri0_pll v ltac:(in_list) H (a7s_dcxo_rate_of xo)) as (-> & -> & -> & ->);
      clear H
  | H : tree_value (a7s_ccu_reg PLL_PERI1_CTRL_REG) ?v |- _ =>
      destruct (tree_peri peri1_pll v ltac:(in_list) H (a7s_dcxo_rate_of xo)) as (-> & -> & -> & ->);
      clear H
  end.
  repeat (split; [done|]).
  split; [by apply tree_ahb|]. split; [by eapply tree_apb; [left|]|].
  split; [by eapply tree_apb; [right|]|]. by apply tree_uart.
Qed.
End Nominal.

(** Initialise, then take the snapshot if that succeeded. *)
Definition init_then_rates {C S} : M C S (option a7s_clock_rates) :=
  let! r := a7s_clock_init in
  if nonzero r then ret None
  else let! rates := a7s_clock_read_rates in ret (Some rates).

(** C9: from a cold reference PLL and for every crystal the board detector can
    report, a successful initialisation leaves a clock tree whose rates, as the
    diagnostics compute them from the registers, are the nominal ones: 24 MHz
    reference, 1200/800/480 MHz peripheral PLLs, 200 MHz AHB, 100 MHz APB0 and
    APB1, 24 MHz UART clock.  The PLLs lock whenever the hardware says so. *)
Theorem nominal_rates_after_init {C S} (e : env C) (init : Z -> Z) xo (s : S) h :
  is_u32 xo ->
  (forall h, env_read e h A7S_RTC_XO_CTRL0 = xo) ->
  (forall a, bus_reg a -> plain e init a) ->
  (forall pll, pll ∈ [ref_pll; peri0_pll; peri1_pll] -> plain_but e init (reg pll) A7S_PLL_LOCK) ->
  Z.testbit (regval init h (reg ref_pll)) 31 = false ->
  wp init_then_rates e s h
    (fun o s' _ => s' = s /\ forall rates, o = Some rates -> nominal rates) total.
Proof.
  intros Hxo Hc Hbus Hplls Hcold. unfold init_then_rates.
  eapply wp_seq; [by apply (clock_init_tree e init xo)|]. intros r s1 h1 [-> Ht].
  destruct (nonzero r) eqn:Er; [by apply wp_ret|].
  apply negb_false_iff, Z.eqb_eq in Er.
  eapply wp_seq; [by apply (read_rates_nominal e init xo), Ht|]. intros rates s2 h2 [-> Hn].
  apply wp_ret. split; [done|]. by intros ? [= <-].
Qed.

Lemma nominal_rates_after_init_witness :
  wp init_then_rates ideal_clock_env tt []
    (fun o s' _ => s' = tt /\ forall rates, o = Some rates -> nominal rates) total.
Proof.
  apply (nominal_rates_after_init ideal_clock_env (fun _ => 0) 0).
  - done.
  - done.
  - by intros a [->|[->|[->| ->]]]; apply ideal_clock_plain.
  - intros pll Hin. apply ideal_clock_plain_but. rewrite !elem_of_cons in Hin.
    by destruct Hin as [->|[->|[->|Hin%elem_of_nil]]].
  - done.
Defined.

(** On that hardware the initialisation does succeed. *)
Example ideal_rates :
  match init_then_rates ideal_clock_env tt [] with
  | Done (Some r) _ _ => ahb r = 200000
  | _ => False
  end.
Proof. vm_compute. reflexivity. Qed.

(** ** Bounds *)

(** The unwrapped quotient the rate of a PLL output means. *)
Definition ideal_pll_rate (reg parent p_shift p_mask gate_bit : Z) : Z :=
  let on := Z.lor A7S_PLL_ENABLE (BIT gate_bit) in
  if negb (Z.land reg on =? on) then 0
  else parent * (field reg 8 0xff + 1)
       / ((field reg 1 1 + 1) * (field reg p_shift p_mask + 1)).

Definition ideal_linear_rate (reg dcxo : Z) : Z :=
  let on := Z.lor A7S_PLL_ENABLE (BIT 27) in
  if negb (Z.land reg on =? on) then 0
  else dcxo * field reg 8 0xff
       / ((field reg 16 0xf + 1) * (field reg 20 3 + 1) * (Z.land reg 0xf + 1)).

Lemma field_bound v s f : 0 <= f -> 0 <= field v s f <= f.
Proof. apply land_le_r. Qed.

Lemma div_rate_exact parent d :
  0 <= parent < 2 ^ 32 -> 0 < d < 2 ^ 32 -> a7s_div_rate (u32 parent) (u32 d) = parent / d.
Proof.
  intros Hp Hd. rewrite !u32_small by lia. unfold a7s_div_rate, nonzero.
  destruct (Z.eqb_spec parent 0) as [->|]; [by rewrite Z.div_0_l by lia|].
  destruct (Z.eqb_spec d 0); [lia | done].
Qed.

(** One product bound serves every PLL output. *)
Lemma main_output_exact v parent s f g :
  0 <= parent <= 26000 * 256 -> 0 <= f <= 0x7f ->
  a7s_main_pll_output v parent s f g = ideal_pll_rate v parent s f g.
Proof.
  intros Hp Hf. unfold a7s_main_pll_output, ideal_pll_rate. cbv zeta.
  destruct (negb _); [done|].
  pose proof (field_bound v 8 0xff ltac:(lia)). pose proof (field_bound v 1 1 ltac:(lia)).
  pose proof (field_bound v s f ltac:(lia)). apply div_rate_exact; nia.
Qed.

Lemma ideal_rate_bound v parent s f g b :
  0 <= parent <= b -> 0 <= f -> 0 <= ideal_pll_rate v parent s f g <= b * 256.
Proof.
  intros Hp Hf. unfold ideal_pll_rate. cbv zeta. destruct (negb _); [lia|].
  pose proof (field_bound v 8 0xff ltac:(lia)). pose proof (field_bound v 1 1 ltac:(lia)).
  pose proof (field_bound v s f ltac:(lia)).
  assert (1 <= (field v 1 1 + 1) * (field v s f + 1)) by nia.
  assert (0 <= parent * (field v 8 255 + 1) <= b * 256) by nia.
  split; [apply Z.div_pos; lia|]. apply Z.div_le_upper_bound; nia.
Qed.

Lemma dcxo_bound xo : 19200 <= a7s_dcxo_rate_of xo <= 26000.
Proof. unfold a7s_dcxo_rate_of. repeat case_match; lia. Qed.

(** no product of the diagnostics wraps.  For every crystal status and
    every content of the registers, the reference rate, the rate of every
    output of every main PLL and the rate of every linear CPU PLL are the exact
    quotients, in kHz, and fit 32 bits. *)
Theorem rates_never_wrap xo ref_reg v p_shift p_mask gate_bit :
  0 <= p_mask <= 0x7f ->
  let dcxo := a7s_dcxo_rate_of xo in
  let ref := a7s_ref_pll_rate ref_reg dcxo in
  let input := a7s_main_pll_input v dcxo ref in
  ref = ideal_pll_rate ref_reg dcxo 16 0x7f 27 /\
  a7s_main_pll_output v input p_shift p_mask gate_bit
    = ideal_pll_rate v input p_shift p_mask gate_bit /\
  a7s_cpu_linear_pll_rate v dcxo = ideal_linear_rate v dcxo /\
  is_u32 (a7s_main_pll_output v input p_shift p_mask gate_bit) /\
  is_u32 (a7s_cpu_linear_pll_rate v dcxo).
Proof.
  intros Hm dcxo ref input. pose proof (dcxo_bound xo) as Hd. fold dcxo in Hd.
  assert (ref = ideal_pll_rate ref_reg dcxo 16 0x7f 27) as Hr
    by (apply (main_output_exact ref_reg dcxo 16 0x7f 27); lia).
  assert (0 <= ref <= 26000 * 256) as Hb by (rewrite Hr; apply ideal_rate_bound; lia).
  assert (0 <= input <= 26000 * 256) as Hi
    by (unfold input, a7s_main_pll_input; destruct (nonzero _); lia).
  assert (a7s_cpu_linear_pll_rate v dcxo = ideal_linear_rate v dcxo
          /\ is_u32 (ideal_linear_rate v dcxo)) as [Hl Hl32].
  { unfold a7s_cpu_linear_pll_rate, ideal_linear_rate. cbv zeta. destruct (negb _); [done|].
    pose proof (field_bound v 8 0xff ltac:(lia)). pose proof (field_bound v 16 0xf ltac:(lia)).
    pose proof (field_bound v 20 3 ltac:(lia)). pose proof (land_le_r v 0xf ltac:(lia)).
    assert (1 <= (field v 16 15 + 1) * (field v 20 3 + 1) <= 64) by nia.
    assert (1 <= (field v 16 15 + 1) * (field v 20 3 + 1) * (Z.land v 15 + 1) <= 1024) by nia.
    rewrite div_rate_exact by nia. split; [done|]. split; [apply Z.div_pos; nia|].
    eapply Z.le_lt_trans; [apply Z.div_le_upper_bound with (q := 26000 * 256); nia|]. done. }
  split; [done|]. split; [by apply main_output_exact|]. split; [done|].
  split; [|by rewrite Hl]. rewrite main_output_exact by done.
  destruct (ideal_rate_bound v input p_shift p_mask gate_bit (26000 * 256) Hi ltac:(lia)).
  split; lia.
Qed.

Lemma rates_never_wrap_witness :
  0 <= 7 <= 0x7f /\
  a7s_ref_pll_rate 0xffffffff 24000 = ideal_pll_rate 0xffffffff 24000 16 0x7f 27.
Proof.
  split; [lia|]. apply (rates_never_wrap 0 0xffffffff 0xffffffff 20 7 27). lia.
Defined.

(** the dump only observes: it returns, changes no state and writes no
    register, whatever the hardware answers. *)
Theorem clock_dump_read_only {C S} `{HasPrintf C} :
  only_writes (C := C) (S := S) (fun _ _ => False) a7s_clock_dump.
Proof.
  unfold a7s_clock_dump, a7s_clock_read_rates, a7s_dcxo_rate, a7s_print_audio_plls,
    a7s_print_main_dual, a7s_print_main_single, a7s_print_single_pll, a7s_print_cpu_pll.
  cbv zeta. frame done; apply ow_printf.
Qed.
