(* ===== verification/Gpio.v ===== *)
(** * Pins and the early console
    (src/src/early_uart.c, pin code of src/src/platform_shims.c)

    Register updates of the pin controllers and the polled UART.  The GPIO list
    a caller passes is a list of entries; [None] is a null pointer. *)

From Stdlib Require Import Ascii String.
From S2P Require Import Prelude Machine Clock.

Local Open Scope Z_scope.

(** ** Registers *)

Definition SUNXI_PIO_BASE : Z := 0x02000000.
Definition SUNXI_R_PIO_BASE : Z := 0x07025000.
Definition SUNXI_UART0_BASE : Z := 0x02500000.
Definition CCMU_UART_BGR_REG : Z := SUNXI_CCMU_BASE + 0x00000e00.
Definition CCM_UART_RST_OFFSET : Z := 16.
Definition CCM_UART_GATING_OFFSET : Z := 0.

Definition A7S_UART0_TX_BANK : Z := 1.
Definition A7S_UART0_TX_PIN : Z := 9.
Definition A7S_UART0_RX_BANK : Z := 1.
Definition A7S_UART0_RX_PIN : Z := 10.
Definition A7S_UART0_MUX : Z := 2.
Definition A7S_GPIO_PULL_UP : Z := 1.
Definition A7S_GPIO_DRV_LEVEL : Z := 1.

Definition A7S_GPIO_BANK_SIZE : Z := 0x80.
Definition A7S_GPIO_CFG_BASE : Z := 0x80.
Definition A7S_GPIO_DRV_BASE : Z := 0xa0.
Definition A7S_GPIO_PULL_BASE : Z := 0xb0.

Definition A7S_UART_THR : Z := 0x00.
Definition A7S_UART_DLL : Z := 0x00.
Definition A7S_UART_DLH : Z := 0x04.
Definition A7S_UART_IER : Z := 0x04.
Definition A7S_UART_FCR : Z := 0x08.
Definition A7S_UART_LCR : Z := 0x0c.
Definition A7S_UART_LSR : Z := 0x14.
Definition A7S_UART_LCR_DLAB : Z := 0x80.
Definition A7S_UART_LCR_8N1 : Z := 0x03.
Definition A7S_UART_FCR_ENABLE : Z := 0x01.
Definition A7S_UART_FCR_RXRST : Z := 0x02.
Definition A7S_UART_FCR_TXRST : Z := 0x04.
Definition A7S_UART_LSR_THRE : Z := 0x20.

Definition A7S_MAIN_PIO_BANK_SIZE : Z := 0x80.
Definition A7S_MAIN_PIO_CFG_BASE : Z := 0x80.
Definition A7S_MAIN_PIO_DATA : Z := 0x90.
Definition A7S_MAIN_PIO_DRV_BASE : Z := 0xa0.
Definition A7S_MAIN_PIO_PULL_BASE : Z := 0xb0.
Definition A7S_R_PIO_FIRST_PORT : Z := 12.
Definition A7S_R_PIO_BANK_SIZE : Z := 0x30.
Definition A7S_R_PIO_CFG_BASE : Z := 0x00.
Definition A7S_R_PIO_DATA : Z := 0x10.
Definition A7S_R_PIO_DRV_BASE : Z := 0x14.
Definition A7S_R_PIO_PULL_BASE : Z := 0x24.

Definition A7S_MMC0_PF_CFG : Z := SUNXI_PIO_BASE + 0x300.
Definition A7S_MMC0_PF_DRV : Z := SUNXI_PIO_BASE + 0x320.
Definition A7S_MMC0_PF_PULL : Z := SUNXI_PIO_BASE + 0x330.

Definition A7S_PIO_B_POWER_MODE_SELECT : Z := SUNXI_PIO_BASE + 0x40.
Definition A7S_PIO_PC_WITHSTAND_SHIFT : Z := 4.
Definition A7S_PIO_PC_WITHSTAND_MASK : Z := shl32 3 A7S_PIO_PC_WITHSTAND_SHIFT.
Definition A7S_PIO_PC_WITHSTAND_AUTO : Z := shl32 1 A7S_PIO_PC_WITHSTAND_SHIFT.

(** [normal_gpio_cfg]: every member as its byte. *)
Record gpio_cfg := GpioCfg {
  port : Z;
  port_num : Z;
  mul_sel : Z;
  pull : Z;
  drv_level : Z;
  gdata : Z
}.

(** [(signed char)x] for a byte [x]. *)
Definition schar (x : Z) : Z := if x <? 128 then x else x - 256.

(** The four registers of a pin: [(cfg, pull, drv, data)]. *)
Definition a7s_gpio_registers (port pin : Z) : Z * Z * Z * Z :=
  if port <? A7S_R_PIO_FIRST_PORT then
    let bank := SUNXI_PIO_BASE + (port - 1) * A7S_MAIN_PIO_BANK_SIZE in
    (bank + A7S_MAIN_PIO_CFG_BASE + Z.shiftr pin 3 * 4,
     bank + A7S_MAIN_PIO_PULL_BASE + Z.shiftr pin 4 * 4,
     bank + A7S_MAIN_PIO_DRV_BASE + Z.shiftr pin 3 * 4,
     bank + A7S_MAIN_PIO_DATA)
  else
    let bank := SUNXI_R_PIO_BASE + (port - A7S_R_PIO_FIRST_PORT) * A7S_R_PIO_BANK_SIZE in
    (bank + A7S_R_PIO_CFG_BASE + Z.shiftr pin 3 * 4,
     bank + A7S_R_PIO_PULL_BASE + Z.shiftr pin 4 * 4,
     bank + A7S_R_PIO_DRV_BASE + Z.shiftr pin 3 * 4,
     bank + A7S_R_PIO_DATA).

Section Gpio.
Context {C S : Type}.
Local Abbreviation M := (M C S).

(** [val = readl(reg); val &= ~(mask << shift); val |= (x & mask) << shift;
    writel(val, reg);] *)
Definition update_field (reg mask shift x : Z) : M unit :=
  let! val := readl reg in
  let val := Z.land val (cnot32 (shl32 mask shift)) in
  let val := Z.lor val (shl32 (Z.land x mask) shift) in
  writel val reg.

(** ** early_uart.c *)

Definition a7s_gpio_set_cfg (bank pin mux : Z) : M unit :=
  update_field (SUNXI_PIO_BASE + bank * A7S_GPIO_BANK_SIZE + A7S_GPIO_CFG_BASE
                + Z.shiftl (Z.shiftr pin 3) 2)
    0xf (Z.shiftl (Z.land pin 0x7) 2) mux.

Definition a7s_gpio_set_pull (bank pin pull : Z) : M unit :=
  update_field (SUNXI_PIO_BASE + bank * A7S_GPIO_BANK_SIZE + A7S_GPIO_PULL_BASE
                + Z.shiftl (Z.shiftr pin 4) 2)
    0x3 (Z.shiftl (Z.land pin 0xf) 1) pull.

Definition a7s_gpio_set_drv (bank pin drv : Z) : M unit :=
  update_field (SUNXI_PIO_BASE + bank * A7S_GPIO_BANK_SIZE + A7S_GPIO_DRV_BASE
                + Z.shiftl (Z.shiftr pin 3) 2)
    0x3 (Z.shiftl (Z.land pin 0x7) 2) drv.

Definition a7s_uart0_clock_init : M unit :=
  let! val := readl CCMU_UART_BGR_REG in
  let val := Z.land val (cnot32 (shl32 1 CCM_UART_RST_OFFSET)) in
  writel val CCMU_UART_BGR_REG;;
  let val := Z.lor val (shl32 1 CCM_UART_RST_OFFSET) in
  writel val CCMU_UART_BGR_REG;;
  let val := Z.land val (cnot32 (shl32 1 CCM_UART_GATING_OFFSET)) in
  writel val CCMU_UART_BGR_REG;;
  let val := Z.lor val (shl32 1 CCM_UART_GATING_OFFSET) in
  writel val CCMU_UART_BGR_REG.

Definition a7s_early_uart_init : M unit :=
  a7s_gpio_set_cfg A7S_UART0_TX_BANK A7S_UART0_TX_PIN A7S_UART0_MUX;;
  a7s_gpio_set_cfg A7S_UART0_RX_BANK A7S_UART0_RX_PIN A7S_UART0_MUX;;
  a7s_gpio_set_pull A7S_UART0_TX_BANK A7S_UART0_TX_PIN A7S_GPIO_PULL_UP;;
  a7s_gpio_set_pull A7S_UART0_RX_BANK A7S_UART0_RX_PIN A7S_GPIO_PULL_UP;;
  a7s_gpio_set_drv A7S_UART0_TX_BANK A7S_UART0_TX_PIN A7S_GPIO_DRV_LEVEL;;
  a7s_gpio_set_drv A7S_UART0_RX_BANK A7S_UART0_RX_PIN A7S_GPIO_DRV_LEVEL;;
  a7s_uart0_clock_init;;
  writel 0 (SUNXI_UART0_BASE + A7S_UART_IER);;
  writel A7S_UART_LCR_DLAB (SUNXI_UART0_BASE + A7S_UART_LCR);;
  writel 13 (SUNXI_UART0_BASE + A7S_UART_DLL);;
  writel 0 (SUNXI_UART0_BASE + A7S_UART_DLH);;
  writel A7S_UART_LCR_8N1 (SUNXI_UART0_BASE + A7S_UART_LCR);;
  writel (Z.lor (Z.lor A7S_UART_FCR_ENABLE A7S_UART_FCR_RXRST) A7S_UART_FCR_TXRST)
    (SUNXI_UART0_BASE + A7S_UART_FCR).

(** [while (timeout--) if (readl(LSR) & THRE) break;] *)
Fixpoint thre_loop (timeout : nat) : M unit :=
  match timeout with
  | O => ret tt
  | Datatypes.S timeout =>
      let! v := readl (SUNXI_UART0_BASE + A7S_UART_LSR) in
      if nonzero (Z.land v A7S_UART_LSR_THRE) then ret tt else thre_loop timeout
  end.

(** [c] is a [char], unsigned on this target. *)
Definition a7s_early_uart_putc (c : Z) : M unit :=
  thre_loop (Z.to_nat 100000);;
  writel c (SUNXI_UART0_BASE + A7S_UART_THR).

(** The bytes of a string before its terminator; [prev] is the last one sent. *)
Fixpoint puts_loop (s : list Z) (prev : Z) : M unit :=
  match s with
  | [] => ret tt
  | c :: s =>
      (if (c =? 10) && negb (prev =? 13) then a7s_early_uart_putc 13 else ret tt);;
      a7s_early_uart_putc c;;
      puts_loop s c
  end.

Definition a7s_early_uart_puts (s : list Z) : M unit := puts_loop s 0.

(** ** platform_shims.c *)

(** The body of the loop; a shift by 32 or more is undefined in C. *)
Definition gpio_entry (set_gpio : Z) (g : gpio_cfg) : M unit :=
  let pin := port_num g in
  let cfg_shift := Z.land pin 0x7 * 4 in
  let pull_shift := Z.land pin 0xf * 2 in
  let drv_shift := Z.land pin 0x7 * 4 in
  let pull := schar (pull g) in
  let drv := schar (drv_level g) in
  let pin_data := schar (gdata g) in
  if port g =? 0 then ret tt
  else
    let '(cfg_reg, pull_reg, drv_reg, data_reg) := a7s_gpio_registers (port g) pin in
    let! val := readl cfg_reg in
    let val := Z.land val (cnot32 (shl32 0xf cfg_shift)) in
    let val := if nonzero set_gpio
               then Z.lor val (shl32 (Z.land (mul_sel g) 0xf) cfg_shift) else val in
    writel val cfg_reg;;
    (if 0 <=? pull then update_field pull_reg 0x3 pull_shift pull else ret tt);;
    (if 0 <=? drv then update_field drv_reg 0x3 drv_shift drv else ret tt);;
    (if (mul_sel g =? 1) && (0 <=? pin_data) then
       if 32 <=? pin then stop_now Undefined
       else update_field data_reg 1 pin pin_data
     else ret tt).

Fixpoint gpio_loop (set_gpio : Z) (l : list gpio_cfg) : M unit :=
  match l with
  | [] => ret tt
  | g :: l => gpio_entry set_gpio g;; gpio_loop set_gpio l
  end.

(** [group_count_max] entries of the list are visited; the list is the memory
    the pointer leads to, and a read past it is undefined. *)
Definition a7s_boot_set_gpio_v3 (user_gpio_list : option (list gpio_cfg))
  (group_count_max set_gpio : Z) : M Z :=
  match user_gpio_list with
  | None => ret (-1)
  | Some l =>
      if group_count_max =? 0 then ret (-1)
      else if Z.of_nat (length l) <? group_count_max then stop_now Undefined
      else gpio_loop set_gpio (take (Z.to_nat group_count_max) l);; ret 0
  end.

Definition boot_set_gpio (user_gpio_list : option (list gpio_cfg))
  (group_count_max set_gpio : Z) : M Z :=
  a7s_boot_set_gpio_v3 user_gpio_list group_count_max set_gpio.

Definition a7s_mmc0_config_pins : M unit :=
  let! value := readl A7S_MMC0_PF_CFG in
  writel (Z.lor (Z.land value (cnot32 0x00ffffff)) 0x00222222) A7S_MMC0_PF_CFG;;
  let! value := readl A7S_MMC0_PF_DRV in
  writel (Z.lor (Z.land value (cnot32 0x00ffffff)) 0x00111211) A7S_MMC0_PF_DRV;;
  let! value := readl A7S_MMC0_PF_PULL in
  writel (Z.lor (Z.land value (cnot32 0x00000fff)) 0x00000555) A7S_MMC0_PF_PULL.
End Gpio.
