(* ===== verification/GpioProps.v ===== *)
(** * Properties of pin configuration

    The fields of different pins never overlap, so configuring a list of
    distinct pins leaves every one of them as requested; the early console
    sends what it is given, with line ends expanded, within a bounded number of
    polls. *)

From Stdlib Require Import Btauto.
From S2P Require Import Prelude Machine Clock Gpio.

(** ** Fields of registers *)

(** A field: register, number of bits, position of the lowest. *)
Record bits := Bits { breg : Z; bwidth : Z; bshift : Z }.

Definition apart (f g : bits) : Prop :=
  breg f <> breg g \/ bshift f + bwidth f <= bshift g \/ bshift g + bwidth g <= bshift f.

Definition bits_ok (f : bits) : Prop := 0 < bwidth f /\ 0 <= bshift f /\ bshift f + bwidth f <= 32.

(** Contents of a field after a history. *)
Definition bits_val {C} (init : Z -> Z) (h : history C) (f : bits) : Z :=
  Z.land (Z.shiftr (regval init h (breg f)) (bshift f)) (Z.ones (bwidth f)).

Lemma testbit_bits_val {C} init (h : history C) f n :
  bits_ok f -> 0 <= n ->
  Z.testbit (bits_val init h f) n
  = (n <? bwidth f) && Z.testbit (regval init h (breg f)) (n + bshift f).
Proof.
  intros (Hw & Hs & _) Hn. unfold bits_val.
  rewrite Z.land_spec, Z.shiftr_spec, Z.testbit_ones_nonneg, andb_comm by lia. done.
Qed.

Section Update.
Context {C S : Type} (e : env C) (init : Z -> Z).

(** A field update sets the field and keeps every field apart from it. *)
Lemma update_like_spec f x F (s : S) h :
  (forall val, F val = Z.lor (Z.land val (cnot32 (shl32 (Z.ones (bwidth f)) (bshift f))))
                             (shl32 (Z.land x (Z.ones (bwidth f))) (bshift f))) ->
  plain e init (breg f) -> bits_ok f ->
  wp (let! val := readl (breg f) in writel (F val) (breg f)) e s h
    (fun _ s' h' => s' = s /\ bits_val init h' f = Z.land x (Z.ones (bwidth f)) /\
       (forall g, bits_ok g -> apart f g -> bits_val init h' g = bits_val init h g) /\
       extends (fun a _ => a = breg f) h h') total.
Proof.
  intros HF [_ Hp] Hf. pose proof Hf as (Hw & Hs & H32). wp_steps. rewrite HF.
  rewrite Hp in Ev. subst v. split; [done|].
  set (v := u32 _). set (new := Z.lor _ _).
  assert (forall n, 0 <= n < 32 -> Z.testbit new n
    = if (bshift f <=? n) && (n <? bshift f + bwidth f) then Z.testbit x (n - bshift f)
      else Z.testbit (regval init h (breg f)) n) as Hnew.
  { intros n Hn. subst new v. unfold shl32.
    rewrite Z.lor_spec, Z.land_spec, testbit_cnot32, !testbit_u32 by lia.
    rewrite !Z.shiftl_spec by lia.
    destruct (Z.ltb_spec n 32); [|lia]. cbn [andb].
    destruct (Z.leb_spec (bshift f) n) as [Hle|Hlt]; cbn [andb].
    - rewrite Z.land_spec, Z.testbit_ones_nonneg by lia.
      replace (n <? bshift f + bwidth f) with (n - bshift f <? bwidth f)
        by (destruct (Z.ltb_spec (n - bshift f) (bwidth f)), (Z.ltb_spec n (bshift f + bwidth f)); lia).
      destruct (n - bshift f <? bwidth f); cbn [negb andb]; btauto.
    - rewrite !(Z.testbit_neg_r _ (n - bshift f)) by lia. btauto. }
  split; [|split].
  - apply Z.bits_inj'. intros n Hn. rewrite testbit_bits_val by done.
    rewrite regval_Wr_eq, Z.land_spec, Z.testbit_ones_nonneg by lia.
    destruct (Z.ltb_spec n (bwidth f)); [|by rewrite andb_false_r].
    rewrite Hnew by lia. replace (n + bshift f - bshift f) with n by lia.
    destruct (Z.leb_spec (bshift f) (n + bshift f)); [|lia].
    destruct (Z.ltb_spec (n + bshift f) (bshift f + bwidth f)); [|lia]. cbn [andb]. btauto.
  - intros g Hg Hap. apply Z.bits_inj'. intros n Hn. rewrite !testbit_bits_val by done.
    cbn [regval]. destruct (Z.eqb_spec (breg g) (breg f)) as [Eg|]; [|done].
    destruct (Z.ltb_spec n (bwidth g)); [|done]. destruct Hg as (Hgw & Hgs & Hg32).
    rewrite Hnew by lia. destruct Hap as [|Hap]; [congruence|]. rewrite Eg.
    destruct (Z.leb_spec (bshift f) (n + bshift g)); [|done].
    destruct (Z.ltb_spec (n + bshift g) (bshift f + bwidth f)); [lia|done].
  - apply extends_cons; [naive_solver|]. apply extends_cons; [naive_solver|]. apply extends_refl.
Qed.

Lemma update_field_spec f x (s : S) h :
  plain e init (breg f) -> bits_ok f ->
  wp (update_field (breg f) (Z.ones (bwidth f)) (bshift f) x) e s h
    (fun _ s' h' => s' = s /\ bits_val init h' f = Z.land x (Z.ones (bwidth f)) /\
       (forall g, bits_ok g -> apart f g -> bits_val init h' g = bits_val init h g) /\
       extends (fun a _ => a = breg f) h h') total.
Proof. by apply update_like_spec. Qed.
End Update.

(** ** The fields of a pin *)

Definition pin_ok (g : gpio_cfg) : Prop := 1 <= port g < 256 /\ 0 <= port_num g < 32.

Definition cfg_bits (g : gpio_cfg) : bits :=
  Bits (a7s_gpio_registers (port g) (port_num g)).1.1.1 4 (Z.land (port_num g) 0x7 * 4).
Definition pull_bits (g : gpio_cfg) : bits :=
  Bits (a7s_gpio_registers (port g) (port_num g)).1.1.2 2 (Z.land (port_num g) 0xf * 2).
Definition drv_bits (g : gpio_cfg) : bits :=
  Bits (a7s_gpio_registers (port g) (port_num g)).1.2 2 (Z.land (port_num g) 0x7 * 4).
Definition data_bits (g : gpio_cfg) : bits :=
  Bits (a7s_gpio_registers (port g) (port_num g)).2 1 (port_num g).

Definition pin_fields (g : gpio_cfg) : list bits :=
  [cfg_bits g; pull_bits g; drv_bits g; data_bits g].

Definition same_pin (g g' : gpio_cfg) : Prop := port g = port g' /\ port_num g = port_num g'.

(** Quotients and remainders the register map is built from. *)
Lemma pin_split pin :
  0 <= pin < 32 ->
  exists h8 h16, Z.shiftr pin 3 = h8 /\ Z.shiftr pin 4 = h16 /\ 0 <= h8 < 4 /\ 0 <= h16 < 2 /\
    Z.land pin 0x7 = pin - 8 * h8 /\ Z.land pin 0xf = pin - 16 * h16 /\
    0 <= pin - 8 * h8 < 8 /\ 0 <= pin - 16 * h16 < 16.
Proof.
  intros Hp. exists (pin / 8), (pin / 16).
  change 0x7 with (Z.ones 3). change 0xf with (Z.ones 4).
  rewrite !Z.shiftr_div_pow2, !Z.land_ones by lia. change (2 ^ 3) with 8. change (2 ^ 4) with 16.
  pose proof (Z.div_mod pin 8 ltac:(lia)). pose proof (Z.div_mod pin 16 ltac:(lia)).
  pose proof (Z.mod_pos_bound pin 8 ltac:(lia)). pose proof (Z.mod_pos_bound pin 16 ltac:(lia)).
  lia.
Qed.

Lemma pin_fields_ok g f : pin_ok g -> f ∈ pin_fields g -> bits_ok f.
Proof.
  intros (_ & Hn) Hf. destruct (pin_split _ Hn) as (h8 & h16 & _ & _ & _ & _ & E8 & E16 & H8 & H16).
  unfold bits_ok, pin_fields in *. rewrite !elem_of_cons in Hf.
  destruct Hf as [->|[->|[->|[->|Hf%elem_of_nil]]]]; cbn; lia.
Qed.

Ltac pin_geometry g :=
  let h8 := fresh "h8" in let h16 := fresh "h16" in
  destruct (pin_split (port_num g)) as (h8 & h16 & ?E & ?E & ? & ? & ?E & ?E & ? & ?); [tauto|].

(** The four fields of one pin lie in four registers. *)
Lemma pin_registers g :
  pin_ok g ->
  breg (cfg_bits g) <> breg (pull_bits g) /\ breg (cfg_bits g) <> breg (drv_bits g) /\
  breg (cfg_bits g) <> breg (data_bits g) /\ breg (pull_bits g) <> breg (drv_bits g) /\
  breg (pull_bits g) <> breg (data_bits g) /\ breg (drv_bits g) <> breg (data_bits g).
Proof.
  intros [Hp Hn]. pin_geometry g.
  unfold cfg_bits, pull_bits, drv_bits, data_bits, a7s_gpio_registers, A7S_R_PIO_FIRST_PORT in *.
  destruct (Z.ltb_spec (port g) 12); cbn [fst snd breg];
    unfold SUNXI_PIO_BASE, SUNXI_R_PIO_BASE, A7S_MAIN_PIO_BANK_SIZE, A7S_R_PIO_BANK_SIZE,
      A7S_MAIN_PIO_CFG_BASE, A7S_MAIN_PIO_DATA, A7S_MAIN_PIO_DRV_BASE, A7S_MAIN_PIO_PULL_BASE,
      A7S_R_PIO_CFG_BASE, A7S_R_PIO_DATA, A7S_R_PIO_DRV_BASE, A7S_R_PIO_PULL_BASE in *; lia.
Qed.

(** whatever the ports, no field of one pin overlaps a field of another:
    they lie in different registers or on disjoint bits of one. *)
Theorem pins_disjoint g g' f f' :
  pin_ok g -> pin_ok g' -> ~ same_pin g g' ->
  f ∈ pin_fields g -> f' ∈ pin_fields g' -> apart f f'.
Proof.
  intros [Hp Hn] [Hp' Hn'] Hne Hf Hf'. pin_geometry g. pin_geometry g'.
  unfold pin_fields in *. rewrite !elem_of_cons in Hf, Hf'.
  unfold same_pin, apart, cfg_bits, pull_bits, drv_bits, data_bits, a7s_gpio_registers,
    A7S_R_PIO_FIRST_PORT in *.
  destruct (Z.ltb_spec (port g) 12), (Z.ltb_spec (port g') 12); cbn [fst snd] in *;
    unfold SUNXI_PIO_BASE, SUNXI_R_PIO_BASE, A7S_MAIN_PIO_BANK_SIZE, A7S_R_PIO_BANK_SIZE,
      A7S_MAIN_PIO_CFG_BASE, A7S_MAIN_PIO_DATA, A7S_MAIN_PIO_DRV_BASE, A7S_MAIN_PIO_PULL_BASE,
      A7S_R_PIO_CFG_BASE, A7S_R_PIO_DATA, A7S_R_PIO_DRV_BASE, A7S_R_PIO_PULL_BASE in *;
    destruct Hf as [->|[->|[->|[->|Hf%elem_of_nil]]]], Hf' as [->|[->|[->|[->|Hf'%elem_of_nil]]]];
    try done; cbn [breg bwidth bshift]; lia.
Qed.

Lemma pins_disjoint_witness :
  apart (cfg_bits (GpioCfg 2 9 2 1 1 0)) (cfg_bits (GpioCfg 2 10 2 1 1 0)).
Proof.
  apply (pins_disjoint (GpioCfg 2 9 2 1 1 0) (GpioCfg 2 10 2 1 1 0)).
  - split; cbn; lia.
  - split; cbn; lia.
  - intros [_ H]. discriminate H.
  - apply list_elem_of_here.
  - apply list_elem_of_here.
Defined.

(** ** Configuring a list of pins *)

Section Configure.
Context {C S : Type} (e : env C) (init : Z -> Z) (set_gpio : Z).

(** What an entry asks for, field by field. *)
Definition requested (g : gpio_cfg) : list (bits * Z) :=
  (cfg_bits g, if nonzero set_gpio then Z.land (mul_sel g) 0xf else 0) ::
  (if 0 <=? schar (pull g) then [(pull_bits g, Z.land (schar (pull g)) 3)] else []) ++
  (if 0 <=? schar (drv_level g) then [(drv_bits g, Z.land (schar (drv_level g)) 3)] else []) ++
  (if (mul_sel g =? 1) && (0 <=? schar (gdata g))
   then [(data_bits g, Z.land (schar (gdata g)) 1)] else []).

Definition pin_plain (g : gpio_cfg) : Prop := forall f, f ∈ pin_fields g -> plain e init (breg f).

(** Fields of a list of requests hold, and everything apart from [fs] is kept. *)
Definition keeps (fs : list bits) (h h' : history C) : Prop :=
  forall g, bits_ok g -> (forall f, f ∈ fs -> apart f g) -> bits_val init h' g = bits_val init h g.

Lemma keeps_trans fs h1 h2 h3 : keeps fs h1 h2 -> keeps fs h2 h3 -> keeps fs h1 h3.
Proof. intros H1 H2 g Hg Ha. by rewrite H2, H1. Qed.

Lemma keeps_refl fs h : keeps fs h h.
Proof. by intros g. Qed.

(** An optional update of one of the pin's fields. *)
Lemma optional_update (b : bool) g f x (s : S) h :
  pin_ok g -> pin_plain g -> f ∈ pin_fields g ->
  wp (if b then update_field (breg f) (Z.ones (bwidth f)) (bshift f) x else ret tt) e s h
    (fun _ s' h' => s' = s /\
       (forall v, (f, v) ∈ (if b then [(f, Z.land x (Z.ones (bwidth f)))] else []) ->
          bits_val init h' f = v) /\
       (forall f', bits_ok f' -> breg f' <> breg f -> bits_val init h' f' = bits_val init h f') /\
       keeps (pin_fields g) h h') total.
Proof.
  intros Hg Hp Hf. destruct b.
  - eapply wp_mono; [apply (update_field_spec e init); [by apply Hp | by eapply pin_fields_ok]|].
    intros [] s' h' (-> & Hv & Hkeep & _). split; [done|]. split; [|split].
    + intros v Hin. apply list_elem_of_singleton in Hin. by simplify_eq.
    + intros f' Hf' Hne. apply Hkeep; [done|]. left. congruence.
    + intros g' Hg' Ha. apply Hkeep; [done|]. by apply Ha.
  - apply wp_ret. split; [done|]. split; [|split; [done|apply keeps_refl]].
    intros v Hin. by apply elem_of_nil in Hin.
Qed.

Local Abbreviation optional b f x :=
  (if b then update_field (breg f) (Z.ones (bwidth f)) (bshift f) x else ret tt).

(** The loop body, field by field. *)
Lemma gpio_entry_eq g :
  pin_ok g ->
  gpio_entry (C := C) (S := S) set_gpio g =
    (let! val := readl (breg (cfg_bits g)) in
     writel (if nonzero set_gpio
             then Z.lor (Z.land val (cnot32 (shl32 0xf (bshift (cfg_bits g)))))
                        (shl32 (Z.land (mul_sel g) 0xf) (bshift (cfg_bits g)))
             else Z.land val (cnot32 (shl32 0xf (bshift (cfg_bits g))))) (breg (cfg_bits g));;
     optional (0 <=? schar (pull g)) (pull_bits g) (schar (pull g));;
     optional (0 <=? schar (drv_level g)) (drv_bits g) (schar (drv_level g));;
     optional ((mul_sel g =? 1) && (0 <=? schar (gdata g))) (data_bits g) (schar (gdata g))).
Proof.
  intros [Hp Hn]. unfold gpio_entry, cfg_bits, pull_bits, drv_bits, data_bits.
  destruct (Z.eqb_spec (port g) 0); [lia|].
  destruct (a7s_gpio_registers _ _) as [[[c p] d] dt]. cbn [fst snd breg bwidth bshift].
  by destruct (Z.leb_spec 32 (port_num g)); [lia|].
Qed.

Lemma gpio_entry_spec g (s : S) h :
  pin_ok g -> pin_plain g ->
  wp (gpio_entry set_gpio g) e s h
    (fun _ s' h' => s' = s /\ keeps (pin_fields g) h h' /\
       forall f v, (f, v) ∈ requested g -> bits_val init h' f = v) total.
Proof.
  intros Hg Hp. rewrite gpio_entry_eq by done.
  assert (forall f, f ∈ pin_fields g -> bits_ok f) as Hok by (by intros; eapply pin_fields_ok).
  apply wp_assoc. eapply wp_seq.
  { apply (update_like_spec e init (cfg_bits g) (if nonzero set_gpio then mul_sel g else 0));
      [|by apply Hp; in_list|by apply Hok; in_list].
    intros val. destruct (nonzero set_gpio); [done|].
    rewrite Z.land_0_l. unfold shl32 at 3. rewrite Z.shiftl_0_l. by rewrite Z.lor_0_r. }
  intros [] s1 h1 (-> & Hc & Hk1 & _).
  eapply wp_seq; [apply (optional_update _ g (pull_bits g)); [done|done|in_list]|].
  intros [] s2 h2 (-> & Hpl & Ho2 & Hk2).
  eapply wp_seq; [apply (optional_update _ g (drv_bits g)); [done|done|in_list]|].
  intros [] s3 h3 (-> & Hd & Ho3 & Hk3).
  eapply wp_mono; [apply (optional_update _ g (data_bits g)); [done|done|in_list]|].
  intros [] s4 h4 (-> & Hda & Ho4 & Hk4). split; [done|]. split.
  { eapply keeps_trans; [|eapply keeps_trans; [exact Hk2|eapply keeps_trans; [exact Hk3|exact Hk4]]].
    intros f Hf Ha. apply Hk1; [done|]. apply Ha. in_list. }
  destruct (pin_registers g Hg) as (N1 & N2 & N3 & N4 & N5 & N6).
  intros f v Hin. unfold requested in Hin. rewrite elem_of_cons, !elem_of_app in Hin.
  destruct Hin as [[= -> ->]|[Hin|[Hin|Hin]]].
  - rewrite Ho4, Ho3, Ho2, Hc by first [done | apply Hok; in_list].
    by destruct (nonzero set_gpio).
  - destruct (0 <=? schar (pull g)); [|by apply elem_of_nil in Hin].
    apply list_elem_of_singleton in Hin as [= -> ->].
    rewrite Ho4, Ho3 by first [done | apply Hok; in_list]. apply Hpl. by apply list_elem_of_singleton.
  - destruct (0 <=? schar (drv_level g)); [|by apply elem_of_nil in Hin].
    apply list_elem_of_singleton in Hin as [= -> ->].
    rewrite Ho4 by first [done | apply Hok; in_list]. apply Hd. by apply list_elem_of_singleton.
  - destruct (_ && _); [|by apply elem_of_nil in Hin].
    apply list_elem_of_singleton in Hin as [= -> ->]. apply Hda. by apply list_elem_of_singleton.
Qed.

(** Requests only concern the pin's own fields. *)
Lemma requested_fields g f v : (f, v) ∈ requested g -> f ∈ pin_fields g.
Proof.
  unfold requested, pin_fields. rewrite elem_of_cons, !elem_of_app.
  intros [[= -> _]|[H|[H|H]]]; [in_list|case_match..];
    first [by apply elem_of_nil in H
          | apply list_elem_of_singleton in H as [= -> _]; in_list].
Qed.

Lemma gpio_loop_spec l (s : S) h :
  Forall pin_ok l -> Forall pin_plain l ->
  ForallOrdPairs (fun g g' => ~ same_pin g g') l ->
  wp (gpio_loop set_gpio l) e s h
    (fun _ s' h' => s' = s /\ keeps (l ≫= pin_fields) h h' /\
       forall g f v, g ∈ l -> (f, v) ∈ requested g -> bits_val init h' f = v) total.
Proof.
  revert h. induction l as [|g l IH]; intros h Hok Hpl Hnd; cbn [gpio_loop].
  { apply wp_ret. split; [done|]. split; [apply keeps_refl|]. intros g f v Hg. by apply elem_of_nil in Hg. }
  apply Forall_cons_1 in Hok as [Hg Hok], Hpl as [Hp Hpl]. inversion Hnd as [|? ? Hfar Hnd']; subst.
  eapply wp_seq; [by apply gpio_entry_spec|]. intros [] s1 h1 (-> & Hk1 & Hv1).
  eapply wp_mono; [by apply IH|]. intros [] s2 h2 (-> & Hk2 & Hv2). split; [done|]. split.
  - intros f Hf Ha. rewrite Hk2, Hk1; [done|done| |done|]; intros f' Hf'; apply Ha;
      apply elem_of_app; tauto.
  - intros g' f v [->|Hin]%elem_of_cons Hreq; [|by eapply Hv2].
    rewrite Hk2; [by apply Hv1 | by eapply pin_fields_ok, requested_fields |].
    intros f' (g' & Hf' & Hg')%list_elem_of_bind.
    rewrite Forall_forall in Hfar, Hok. intros.
    apply (pins_disjoint g' g); [by apply Hok | done | | done | by eapply requested_fields].
    intros [E1 E2]. by apply (Hfar g' Hg').
Qed.
End Configure.

(** configuring a list of distinct pins succeeds and leaves every pin as
    its entry asks: the function it multiplexes, its pull and its drive level
    where the entry gives one, its output level where the pin is an output;
    fields of other pins are untouched. *)
Theorem set_gpio_configures {C S} (e : env C) (init : Z -> Z) set_gpio l (s : S) h :
  l <> [] -> Z.of_nat (length l) < 2 ^ 32 ->
  Forall pin_ok l -> Forall (pin_plain e init) l ->
  ForallOrdPairs (fun g g' => ~ same_pin g g') l ->
  wp (a7s_boot_set_gpio_v3 (Some l) (Z.of_nat (length l)) set_gpio) e s h
    (fun r s' h' => r = 0 /\ s' = s /\
       (forall g f v, g ∈ l -> (f, v) ∈ requested set_gpio g -> bits_val init h' f = v) /\
       keeps init (l ≫= pin_fields) h h') total.
Proof.
  intros Hne Hlen Hok Hpl Hnd. unfold a7s_boot_set_gpio_v3.
  destruct l as [|g l]; [done|]. set (l' := g :: l) in *.
  destruct (Z.eqb_spec (Z.of_nat (length l')) 0); [subst l'; simpl in *; lia|].
  rewrite Z.ltb_irrefl, Nat2Z.id, take_ge by lia.
  eapply wp_seq; [by apply (gpio_loop_spec e init)|]. intros [] s1 h1 (-> & Hk & Hv).
  by apply wp_ret.
Qed.

(** Hardware whose registers are memory, initially zero. *)
Definition memory_env : env unit :=
  Env (regval (fun _ => 0)) (fun _ _ => 0) (fun _ _ => []).

Lemma memory_plain a : plain memory_env (fun _ => 0) a.
Proof. by split. Qed.

Definition uart_pins : list gpio_cfg := [GpioCfg 2 9 2 1 1 0xff; GpioCfg 2 10 2 1 1 0xff].

Lemma set_gpio_configures_witness :
  wp (a7s_boot_set_gpio_v3 (Some uart_pins) 2 1) memory_env tt []
    (fun r s' h' => r = 0 /\ s' = tt /\
       (forall g f v, g ∈ uart_pins -> (f, v) ∈ requested 1 g -> bits_val (fun _ => 0) h' f = v) /\
       keeps (fun _ => 0) (uart_pins ≫= pin_fields) [] h') total.
Proof.
  apply (set_gpio_configures memory_env (fun _ => 0) 1 uart_pins tt []).
  - discriminate.
  - reflexivity.
  - repeat (apply Forall_cons_2; [unfold pin_ok; cbn; lia|]). apply Forall_nil_2.
  - repeat (apply Forall_cons_2; [intros f _; apply memory_plain|]). apply Forall_nil_2.
  - repeat constructor. intros [_ H]. discriminate H.
Defined.

(** ** The early console *)

(** A line feed is sent as carriage return, line feed, unless the string has
    the carriage return already. *)
Fixpoint crlf (prev : Z) (s : list Z) : list Z :=
  match s with
  | [] => []
  | c :: s => (if (c =? 10) && negb (prev =? 13) then [13; 10] else [c]) ++ crlf c s
  end.

Section Console.
Context {C S : Type} (e : env C).

Definition THR : Z := SUNXI_UART0_BASE + A7S_UART_THR.

(** Bytes handed to the transmitter, oldest first; [h] has the newest first. *)
Fixpoint sent (h : history C) : list Z :=
  match h with
  | [] => []
  | Wr a v :: h => sent h ++ (if a =? THR then [v] else [])
  | _ :: h => sent h
  end.

(** [h'] extends [h] by at most [n] events that send [out]. *)
Definition transmits (n : nat) (out : list Z) (h h' : history C) : Prop :=
  sent h' = sent h ++ out /\ (length h' <= length h + n)%nat.

Lemma thre_loop_spec n (s : S) h :
  wp (thre_loop n) e s h (fun _ s' h' => s' = s /\ transmits n [] h h') total.
Proof.
  revert h. induction n as [|n IH]; intros h; cbn [thre_loop].
  - apply wp_ret. split; [done|]. split; [by rewrite app_nil_r | lia].
  - apply wp_bind, wp_readl. intros v _ _. destruct (nonzero _).
    + apply wp_ret. split; [done|]. split; [cbn; by rewrite app_nil_r | cbn; lia].
    + eapply wp_mono; [apply IH|]. intros [] s' h' (-> & Hs & Hl). split; [done|].
      split; [done | cbn in Hl; lia].
Qed.

(** At most 100000 polls, then the byte. *)
Definition putc_events : nat := Datatypes.S (Z.to_nat 100000).

Lemma putc_spec c (s : S) h :
  wp (a7s_early_uart_putc c) e s h
    (fun _ s' h' => s' = s /\ transmits putc_events [c] h h') total.
Proof.
  unfold a7s_early_uart_putc, putc_events. generalize (Z.to_nat 100000) as n. intros n.
  eapply wp_seq; [apply thre_loop_spec|]. intros [] s1 h1 (-> & Hs & Hl).
  apply wp_writel. split; [done|]. unfold transmits. cbn [sent length].
  fold THR. rewrite Z.eqb_refl, Hs, app_nil_r. split; [done | lia].
Qed.

Lemma transmits_trans n m o1 o2 h1 h2 h3 :
  transmits n o1 h1 h2 -> transmits m o2 h2 h3 -> transmits (n + m) (o1 ++ o2) h1 h3.
Proof. intros [S1 L1] [S2 L2]. split; [by rewrite S2, S1, app_assoc | lia]. Qed.
End Console.

(** [a7s_early_uart_puts] always returns, whatever the status register
    says; it sends exactly the bytes of the string in order, each line feed
    preceded by one carriage return, and needs at most 100001 register accesses
    per byte sent. *)
Theorem puts_sends_lines {C S} (e : env C) (str : list Z) (s : S) h :
  wp (a7s_early_uart_puts str) e s h
    (fun _ s' h' => s' = s /\
       transmits (length (crlf 0 str) * putc_events) (crlf 0 str) h h') total.
Proof.
  unfold a7s_early_uart_puts. generalize 0 as prev. revert h.
  assert (exists P, P = putc_events) as [P HP] by eauto. rewrite <- HP.
  assert (forall c (s : S) h, wp (a7s_early_uart_putc c) e s h
    (fun _ s' h' => s' = s /\ transmits P [c] h h') total) as Hputc by (rewrite HP; apply putc_spec).
  clear HP. induction str as [|c str IH]; intros h prev; cbn [puts_loop crlf].
  - apply wp_ret. split; [done|]. split; [by rewrite app_nil_r | cbn; lia].
  - rewrite length_app, Nat.mul_add_distr_r.
    eapply (wp_seq _ _ _ _ _ (fun _ s' h' => s' = s /\ transmits
      (if (c =? 10) && negb (prev =? 13) then P else 0%nat)
      (if (c =? 10) && negb (prev =? 13) then [13] else []) h h')).
    { destruct (_ && _); [apply Hputc|]. apply wp_ret. split; [done|].
      split; [by rewrite app_nil_r | lia]. }
    intros [] s1 h1 (-> & H1). eapply wp_seq; [apply Hputc|]. intros [] s2 h2 (-> & H2).
    eapply wp_mono; [apply IH|]. intros [] s3 h3 (-> & H3). split; [done|].
    assert (H := transmits_trans _ _ _ _ _ _ _ (transmits_trans _ _ _ _ _ _ _ H1 H2) H3).
    destruct ((c =? 10) && negb (prev =? 13)) eqn:Ec; cbn [app length] in *.
    + apply andb_true_iff in Ec as [Ec _]. apply Z.eqb_eq in Ec as ->.
      by replace (2 * P)%nat with (P + P)%nat by lia.
    + by replace (1 * P)%nat with (0 + P)%nat by lia.
Qed.
