(* ===== verification/Pmic.v ===== *)
(** * Power management (AXP8191 code of src/src/platform_shims.c)

    The PMIC sits behind three functions of a closed library,
    [pmic_bus_init], [pmic_bus_read] and [pmic_bus_write]: external calls whose
    results the environment chooses.  The driver's static [a7s_axp8191_ready]
    is a component of the program state, reached through an interface. *)

From Stdlib Require Import String.
From S2P Require Import Prelude Voltage Machine Console Clock Gpio.

Local Open Scope string_scope.
Local Open Scope list_scope.
Local Open Scope Z_scope.

Definition AXP8191_DEVICE_ADDR : Z := 400000.
Definition AXP8191_RUNTIME_ADDR : Z := 0x36.
Definition AXP8191_CHIP_ID : Z := 0x0e.
Definition AXP8191_CHIP_ID_A : Z := 0x03.
Definition AXP8191_DCDC_CTRL1 : Z := 0x10.
Definition AXP8191_DCDC_CTRL2 : Z := 0x11.
Definition AXP8191_DC1SW2_ENABLE : Z := BIT 4.
Definition AXP8191_DCDC2_VOL : Z := 0x13.
Definition AXP8191_DCDC2_840MV : Z := 0x22.
Definition AXP8191_DCDC6_VOL : Z := 0x17.
Definition AXP8191_DCDC7_VOL : Z := 0x18.
Definition AXP8191_DCDC8_VOL : Z := 0x19.
Definition AXP8191_LDO_CTRL2 : Z := 0x21.
Definition AXP8191_LDO_CTRL3 : Z := 0x22.
Definition AXP8191_CLDO5_VOL : Z := 0x33.
Definition AXP8191_ELDO1_VOL : Z := 0x3a.
Definition AXP8191_ELDO2_VOL : Z := 0x3b.
Definition AXP8191_AP_RESET_CTRL : Z := 0x55.
Definition AXP8191_WRITE_LOCK : Z := 0xf0.
Definition AXP8191_EFUSE_CTRL : Z := 0xf1.
Definition AXP8191_EXT_ADDR : Z := 0xff.

Record a7s_axp8191_rail := Rail {
  rname : string;
  voltage_reg : Z;
  voltage_mask : Z;
  enable_reg : Z;
  enable_bit : Z;
  voltage_rail : Z
}.

Definition a7s_dram_rails : list a7s_axp8191_rail :=
  [ Rail "dcdc6" AXP8191_DCDC6_VOL 0x7f AXP8191_DCDC_CTRL1 5 A7S_AXP8191_DCDC6;
    Rail "dcdc7" AXP8191_DCDC7_VOL 0x7f AXP8191_DCDC_CTRL1 6 A7S_AXP8191_DCDC7;
    Rail "dcdc8" AXP8191_DCDC8_VOL 0x7f AXP8191_DCDC_CTRL1 7 A7S_AXP8191_DCDC8;
    Rail "eldo1" AXP8191_ELDO1_VOL 0x3f AXP8191_LDO_CTRL3 6 A7S_AXP8191_ELDO;
    Rail "eldo2" AXP8191_ELDO2_VOL 0x3f AXP8191_LDO_CTRL3 7 A7S_AXP8191_ELDO;
    Rail "cldo5" AXP8191_CLDO5_VOL 0x1f AXP8191_LDO_CTRL2 7 A7S_AXP8191_CLDO ].

(** The loop of [a7s_axp8191_find_rail]. *)
Definition a7s_axp8191_find_rail (name : string) : option a7s_axp8191_rail :=
  List.find (fun rail => String.eqb name (rname rail)) a7s_dram_rails.

(** ** Interfaces *)

(** The bus library: its calls, and how to recognise them among the external
    calls of an image that also prints. *)
Inductive bus_op :=
| BusInit (device_addr runtime_addr : Z)
| BusRead (runtime_addr reg : Z)
| BusWrite (runtime_addr reg value : Z).

Class HasPmicBus (C : Type) `{HasPrintf C} := {
  bus : bus_op -> C;
  as_bus : C -> option bus_op;
  as_bus_bus : forall o, as_bus (bus o) = Some o;
  as_bus_printf : forall fmt args, as_bus (printf_call fmt args) = None
}.

(** Where the program state keeps [a7s_axp8191_ready]. *)
Class HasReady (S : Type) := {
  get_ready : S -> Z;
  set_ready : Z -> S -> S;
  get_set_ready : forall v s, get_ready (set_ready v s) = v
}.

Section Pmic.
Context {C S : Type} `{HasPmicBus C, HasReady S}.
Local Abbreviation M := (M C S).

Definition pmic_bus_init (device_addr runtime_addr : Z) : M Z :=
  call (bus (BusInit device_addr runtime_addr)).

(** Status and the byte stored through the pointer. *)
Definition pmic_bus_read (runtime_addr reg : Z) : M (Z * Z) :=
  let! r := call_out (bus (BusRead runtime_addr reg)) in
  ret (fst r, u8 (default 0 (head (snd r)))).

Definition pmic_bus_write (runtime_addr reg value : Z) : M Z :=
  call (bus (BusWrite runtime_addr reg value)).

Definition a7s_axp8191_update_bits (reg mask value : Z) : M Z :=
  let! r := pmic_bus_read AXP8191_RUNTIME_ADDR reg in
  if nonzero (fst r) then ret (-1)
  else
    let reg_value := u8 (Z.lor (Z.land (snd r) (Z.lnot mask)) (Z.land value mask)) in
    pmic_bus_write AXP8191_RUNTIME_ADDR reg reg_value.

(** From the write-lock to the extended page's configuration byte; a failing
    access skips the rest ([goto restore_normal_page]). *)
Definition ext_config : M Z :=
  let! status := pmic_bus_write AXP8191_RUNTIME_ADDR AXP8191_WRITE_LOCK 0x06 in
  if nonzero status then ret status else
  let! status := pmic_bus_write AXP8191_RUNTIME_ADDR AXP8191_EFUSE_CTRL 0x04 in
  if nonzero status then ret status else
  let! status := pmic_bus_write AXP8191_RUNTIME_ADDR AXP8191_EXT_ADDR 0x01 in
  if nonzero status then ret status else
  let! r := pmic_bus_read AXP8191_RUNTIME_ADDR 0x00 in
  if nonzero (fst r) then ret (fst r) else
  pmic_bus_write AXP8191_RUNTIME_ADDR 0x00 (u8 (Z.lor (snd r) (BIT 6))).

(** [ret = pmic_bus_write(...); if (!status && ret) status = ret;] *)
Definition restore_write (reg status : Z) : M Z :=
  let! r := pmic_bus_write AXP8191_RUNTIME_ADDR reg 0x00 in
  ret (if (status =? 0) && nonzero r then r else status).

Definition restore_normal_page (status : Z) : M Z :=
  let! status := restore_write AXP8191_EXT_ADDR status in
  let! status := restore_write AXP8191_EFUSE_CTRL status in
  restore_write AXP8191_WRITE_LOCK status.

Definition a7s_axp8191_init : M Z :=
  let! s := get in
  if nonzero (get_ready s) then ret 0
  else
    let! r := pmic_bus_init AXP8191_DEVICE_ADDR AXP8191_RUNTIME_ADDR in
    if nonzero r then printf "A7S PMU: TWI6 init failed\n" [];; ret (-1)
    else
    let! chip := pmic_bus_read AXP8191_RUNTIME_ADDR AXP8191_CHIP_ID in
    if nonzero (fst chip) then printf "A7S PMU: no device at 0x36\n" [];; ret (-1)
    else if negb (snd chip =? AXP8191_CHIP_ID_A)
    then printf "A7S PMU: unexpected chip id 0x%x\n" [N_ (snd chip)];; ret (-1)
    else
    let! status := ext_config in
    let! status := restore_normal_page status in
    if nonzero status then
      printf "A7S PMU: extended configuration failed (%d)\n" [N_ status];; ret status
    else
    let! status := a7s_axp8191_update_bits AXP8191_AP_RESET_CTRL (BIT 3) (BIT 3) in
    if nonzero status then ret status
    else
    let! s := get in
    put (set_ready 1 s);;
    printf "A7S PMU: AXP8191 ready on TWI6\n" [];;
    ret 0.

Definition a7s_axp8191_enable_sd_power : M Z :=
  let! status := a7s_axp8191_update_bits AXP8191_DCDC_CTRL2
                   AXP8191_DC1SW2_ENABLE AXP8191_DC1SW2_ENABLE in
  if nonzero status then printf "A7S PMU: enable SD power dc1sw2 failed\n" [];; ret status
  else ret 0.

Definition set_rail_voltage (rail : a7s_axp8191_rail) (name : string) (set_vol : Z) : M Z :=
  match a7s_axp8191_voltage_selector (voltage_rail rail) set_vol true with
  | Some selector =>
      if nonzero (Z.land selector (cnot32 (voltage_mask rail)))
      then printf "A7S PMU: invalid voltage %d for %s\n" [N_ set_vol; S_ name];; ret (-1)
      else
        let! r := a7s_axp8191_update_bits (voltage_reg rail) (voltage_mask rail) (u8 selector) in
        ret (if nonzero r then -1 else 0)
  | None => printf "A7S PMU: invalid voltage %d for %s\n" [N_ set_vol; S_ name];; ret (-1)
  end.

Definition a7s_axp8191_set_rail (name : string) (set_vol onoff : Z) : M Z :=
  match a7s_axp8191_find_rail name with
  | None => printf "A7S PMU: unsupported DRAM rail %s\n" [S_ name];; ret (-1)
  | Some rail =>
      let! r := a7s_axp8191_init in
      if nonzero r then ret (-1)
      else
      let! v := (if 0 <? set_vol then set_rail_voltage rail name set_vol else ret 0) in
      if nonzero v then ret (-1)
      else if onoff <? 0 then ret 0
      else a7s_axp8191_update_bits (enable_reg rail) (u8 (shl32 1 (enable_bit rail)))
             (if nonzero onoff then u8 (shl32 1 (enable_bit rail)) else 0)
  end.

Definition a7s_pio_emmc_withstand_auto : M unit :=
  let! before := readl A7S_PIO_B_POWER_MODE_SELECT in
  let after := Z.lor (Z.land before (cnot32 A7S_PIO_PC_WITHSTAND_MASK))
                     A7S_PIO_PC_WITHSTAND_AUTO in
  writel after A7S_PIO_B_POWER_MODE_SELECT;;
  let! after := readl A7S_PIO_B_POWER_MODE_SELECT in
  printf "A7S PIO: PC withstand mode %08x -> %08x%s\n"
    [N_ before; N_ after;
     S_ (if Z.land after A7S_PIO_PC_WITHSTAND_MASK =? A7S_PIO_PC_WITHSTAND_AUTO
         then "" else " (readback failed)")].

(** The readback of both registers, in C's short-circuit order; true is a
    failure. *)
Definition emmc_readback : M bool :=
  let! sel := pmic_bus_read AXP8191_RUNTIME_ADDR AXP8191_CLDO5_VOL in
  if nonzero (fst sel) then ret true else
  let! en := pmic_bus_read AXP8191_RUNTIME_ADDR AXP8191_LDO_CTRL2 in
  if nonzero (fst en) then ret true else
  ret (negb (Z.land (snd sel) 0x1f =? 0x0d) || negb (nonzero (Z.land (snd en) (BIT 7)))).

Definition a7s_axp8191_configure_emmc_io : M Z :=
  let! r := a7s_axp8191_set_rail "cldo5" 1800 1 in
  if nonzero r then printf "A7S PMU: set eMMC I/O cldo5 to 1800 mV failed\n" [];; ret (-1)
  else
  let! bad := emmc_readback in
  if bad then printf "A7S PMU: eMMC I/O cldo5 readback failed\n" [];; ret (-1)
  else
  mdelay 1;;
  a7s_pio_emmc_withstand_auto;;
  printf "A7S PMU: eMMC I/O cldo5 = 1800 mV\n" [];;
  ret 0.

Definition a7s_axp8191_set_npu_rail : M Z :=
  let! r := a7s_axp8191_update_bits AXP8191_DCDC_CTRL1 (BIT 1) (BIT 1) in
  if nonzero r then printf "A7S PMU: enable NPU rail dcdc2 failed\n" [];; ret (-1)
  else
  let! r := pmic_bus_write AXP8191_RUNTIME_ADDR AXP8191_DCDC2_VOL AXP8191_DCDC2_840MV in
  if nonzero r then printf "A7S PMU: set NPU rail dcdc2 failed\n" [];; ret (-1)
  else
  let! v := pmic_bus_read AXP8191_RUNTIME_ADDR AXP8191_DCDC2_VOL in
  if nonzero (fst v) || negb (Z.land (snd v) 0x7f =? AXP8191_DCDC2_840MV)
  then printf "A7S PMU: NPU rail dcdc2 readback failed\n" [];; ret (-1)
  else ret 0.

Definition sunxi_board_init : M Z :=
  let! value := readl 0x08020000 in
  writel (Z.lor value 1) 0x08020000;;
  let! r := a7s_axp8191_init in
  if nonzero r then ret (-1) else
  let! r := a7s_axp8191_configure_emmc_io in
  if nonzero r then ret (-1) else
  let! r := a7s_axp8191_set_npu_rail in
  if nonzero r then ret (-1) else
  a7s_axp8191_enable_sd_power.

Definition set_ddr_voltage_ext (name : string) (set_vol onoff : Z) : M Z :=
  a7s_axp8191_set_rail name set_vol onoff.
End Pmic.
