(* ===== verification/PmicProps.v ===== *)
(** * Properties of the power management

    A PMIC that answers reads with what was last written: what programming a
    rail leaves in its registers, when initialisation reports success, and that
    the extended register page is closed again on every path. *)

From Stdlib Require Import Btauto String.
From S2P Require Import Prelude Voltage Machine Console Clock Gpio Pmic.

Local Open Scope string_scope.
Local Open Scope list_scope.
Local Open Scope Z_scope.

Section Pmic.
Context {C S : Type} `{HPrint : HasPrintf C} `{HBus : !HasPmicBus C} `{HReady : HasReady S}.
Context (e : env C) (init : Z -> Z).

(** The value of a PMIC register after a history: the last write that the bus
    accepted. *)
Fixpoint pval (h : history C) (r : Z) : Z :=
  match h with
  | [] => init r
  | Call c st :: h =>
      match as_bus c with
      | Some (BusWrite _ r' v) => if (st =? 0) && (r =? r') then u8 v else pval h r
      | _ => pval h r
      end
  | _ :: h => pval h r
  end.

(** An accepted read of a register of the normal page returns its value. *)
Definition pmic_memory : Prop :=
  forall h r, r <> 0 -> env_ret e h (bus (BusRead AXP8191_RUNTIME_ADDR r)) = 0 ->
    u8 (default 0 (head (env_out e h (bus (BusRead AXP8191_RUNTIME_ADDR r))))) = pval h r.

(** Registers outside [rs] hold the same values. *)
Definition pkeeps (rs : list Z) (h h' : history C) : Prop :=
  forall r, r ∉ rs -> pval h' r = pval h r.

Lemma pkeeps_refl rs h : pkeeps rs h h.
Proof. by intros r. Qed.

Lemma pkeeps_trans rs h1 h2 h3 : pkeeps rs h1 h2 -> pkeeps rs h2 h3 -> pkeeps rs h1 h3.
Proof. intros H1 H2 r Hr. by rewrite H2, H1. Qed.

Lemma pkeeps_weaken rs rs' h h' : (forall r, r ∈ rs -> r ∈ rs') -> pkeeps rs h h' -> pkeeps rs' h h'.
Proof. intros Hs Hk r Hr. apply Hk. eauto. Qed.

Lemma printf_keeps {A} fmt args (k : M C S A) s h Q K :
  (forall h', pkeeps [] h h' -> wp k e s h' Q K) -> wp (printf fmt args;; k) e s h Q K.
Proof.
  intros Hk. apply wp_bind, wp_printf. intros r. apply Hk. intros r' _. cbn [pval].
  by rewrite as_bus_printf.
Qed.

Lemma read_spec r s h :
  pmic_memory -> r <> 0 ->
  wp (pmic_bus_read (C := C) AXP8191_RUNTIME_ADDR r) e (s : S) h
    (fun x s' h' => s' = s /\ is_u8 (snd x) /\ (fst x = 0 -> snd x = pval h r) /\
       (forall q, pval h' q = pval h q)) total.
Proof.
  intros Hm Hr. unfold pmic_bus_read. wp_steps. cbn [fst snd]. split; [done|].
  split; [apply u8_range|]. split.
  - intros ->. by apply Hm.
  - intros q. cbn [pval]. by rewrite as_bus_bus.
Qed.

Lemma write_spec r v s h :
  wp (pmic_bus_write (C := C) AXP8191_RUNTIME_ADDR r v) e (s : S) h
    (fun x s' h' => s' = s /\ pkeeps [r] h h' /\
       pval h' r = if x =? 0 then u8 v else pval h r) total.
Proof.
  unfold pmic_bus_write. wp_steps. split; [done|]. split.
  - intros q Hq. cbn [pval]. rewrite as_bus_bus.
    destruct (Z.eqb_spec q r); [subst; exfalso; apply Hq; in_list|]. by rewrite andb_false_r.
  - cbn [pval]. rewrite as_bus_bus, Z.eqb_refl, andb_true_r. done.
Qed.

(** The byte an update leaves. *)
Definition updated (old mask value : Z) : Z :=
  u8 (Z.lor (Z.land old (Z.lnot mask)) (Z.land value mask)).

Lemma update_bits_spec r mask value s h :
  pmic_memory -> r <> 0 ->
  wp (a7s_axp8191_update_bits (C := C) r mask value) e (s : S) h
    (fun x s' h' => s' = s /\ pkeeps [r] h h' /\
       pval h' r = if x =? 0 then updated (pval h r) mask value else pval h r) total.
Proof.
  intros Hm Hr. unfold a7s_axp8191_update_bits.
  eapply wp_seq; [by apply read_spec|]. intros [st v] s1 h1 (-> & _ & Hv & Hsame). cbn [fst snd] in *.
  unfold nonzero. destruct (Z.eqb_spec st 0) as [->|]; cbn [negb].
  - eapply wp_mono; [apply write_spec|]. intros x s2 h2 (-> & Hk & Hx). split; [done|].
    rewrite Hv in Hx by done. unfold u8 in Hx. rewrite Zmod_mod in Hx. split; [intros q Hq; by rewrite Hk, Hsame | by rewrite Hx, Hsame].
  - apply wp_ret. split; [done|]. split; [intros q _; apply Hsame | apply Hsame].
Qed.

(** With a bus that accepts everything, so does the update. *)
Lemma update_bits_live r mask value s h :
  pmic_memory -> r <> 0 ->
  wp (a7s_axp8191_update_bits (C := C) r mask value) e (s : S) h
    (fun x s' h' => s' = s /\ pkeeps [r] h h' /\
       pval h' r = (if x =? 0 then updated (pval h r) mask value else pval h r) /\
       ((forall h o, env_ret e h (bus o) = 0) -> x = 0)) total.
Proof.
  intros Hm Hr. pose proof (update_bits_spec r mask value s h Hm Hr) as Hspec.
  unfold wp in *. destruct (a7s_axp8191_update_bits r mask value e s h) as [x s' h'|] eqn:E; [|done].
  destruct Hspec as (? & ? & ?). repeat (split; [done|]). intros Hok. revert E.
  unfold a7s_axp8191_update_bits, pmic_bus_read, pmic_bus_write, bind, call, call_out, ret.
  cbn [fst snd]. rewrite !Hok. cbn [nonzero Z.eqb negb]. by intros [= <- _ _].
Qed.

Lemma testbit_updated old mask value n :
  0 <= n < 8 ->
  Z.testbit (updated old mask value) n
  = if Z.testbit mask n then Z.testbit value n else Z.testbit old n.
Proof.
  intros Hn. unfold updated, u8. rewrite Z.mod_pow2_bits_low by lia.
  rewrite Z.lor_spec, !Z.land_spec, Z.lnot_spec by lia.
  destruct (Z.testbit mask n); btauto.
Qed.

(** The field under the mask takes the value, the rest of the byte stays. *)
Lemma updated_field old mask value :
  is_u8 mask -> Z.land value mask = value -> Z.land (updated old mask value) mask = value.
Proof.
  intros Hm Hv. rewrite <- Hv at 2. apply Z.bits_inj'. intros n Hn. rewrite !Z.land_spec.
  destruct (Z.testbit mask n) eqn:Em; [|by rewrite !andb_false_r].
  assert (n < 8).
  { destruct (Z.ltb_spec n 8); [done|]. exfalso. revert Em.
    rewrite <- (u8_id mask Hm). unfold u8. rewrite Z.mod_pow2_bits_high by lia. done. }
  by rewrite testbit_updated, Em by lia.
Qed.

End Pmic.

Section Status.
Context {C S : Type} `{HPrint : HasPrintf C} `{HBus : !HasPmicBus C} `{HReady : HasReady S}.
Context (e : env C).

(** ** Initialisation *)

(** The value of the last attempt to write a register, accepted or not. *)
Fixpoint last_attempt (h : history C) (r : Z) : option Z :=
  match h with
  | [] => None
  | Call c _ :: h =>
      match as_bus c with
      | Some (BusWrite _ r' v) => if r =? r' then Some v else last_attempt h r
      | _ => last_attempt h r
      end
  | _ :: h => last_attempt h r
  end.

(** The three registers that open the extended page. *)
Definition page_regs : list Z := [AXP8191_WRITE_LOCK; AXP8191_EFUSE_CTRL; AXP8191_EXT_ADDR].

(** The last thing sent to each of them, if anything, was 0. *)
Definition page_closed (h : history C) : Prop :=
  forall r, r ∈ page_regs -> last_attempt h r = None \/ last_attempt h r = Some 0.

(** Every bus access between two histories was accepted. *)
Definition bus_accepted (h h' : history C) : Prop :=
  exists new, h' = new ++ h /\
    forall c st, Call c st ∈ new -> is_Some (as_bus c) -> st = 0.

Lemma accepted_refl h : bus_accepted h h.
Proof. exists []. split; [done|]. intros c st Hin. by apply elem_of_nil in Hin. Qed.

Lemma accepted_trans h1 h2 h3 : bus_accepted h1 h2 -> bus_accepted h2 h3 -> bus_accepted h1 h3.
Proof.
  intros (n1 & -> & H1) (n2 & -> & H2). exists (n2 ++ n1). rewrite app_assoc.
  split; [done|]. intros c st. rewrite elem_of_app. naive_solver.
Qed.

Lemma accepted_call h h' c st :
  (is_Some (as_bus c) -> st = 0) -> bus_accepted h h' -> bus_accepted h (Call c st :: h').
Proof.
  intros Hst Hh. eapply accepted_trans; [exact Hh|]. exists [Call c st]. split; [done|].
  intros c' st' Hin. apply list_elem_of_singleton in Hin. by simplify_eq.
Qed.

(** A step that does not write the page registers. *)
Definition off_page (h h' : history C) : Prop :=
  forall r, r ∈ page_regs -> last_attempt h' r = last_attempt h r.

Lemma off_page_trans h1 h2 h3 : off_page h1 h2 -> off_page h2 h3 -> off_page h1 h3.
Proof. intros H1 H2 r Hr. by rewrite H2, H1. Qed.

Lemma read_status r s h :
  wp (pmic_bus_read (C := C) AXP8191_RUNTIME_ADDR r) e (s : S) h
    (fun x s' h' => s' = s /\ off_page h h' /\ (fst x = 0 -> bus_accepted h h')) total.
Proof.
  unfold pmic_bus_read. wp_steps. cbn [fst snd]. split; [done|]. split.
  - intros q _. cbn [last_attempt]. by rewrite as_bus_bus.
  - intros ->. apply accepted_call; [done | apply accepted_refl].
Qed.

Lemma write_status r v s h :
  wp (pmic_bus_write (C := C) AXP8191_RUNTIME_ADDR r v) e (s : S) h
    (fun x s' h' => s' = s /\ last_attempt h' r = Some v /\
       (forall q, q <> r -> last_attempt h' q = last_attempt h q) /\
       (x = 0 -> bus_accepted h h')) total.
Proof.
  unfold pmic_bus_write. wp_steps. split; [done|]. split; [|split].
  - cbn [last_attempt]. by rewrite as_bus_bus, Z.eqb_refl.
  - intros q Hq. cbn [last_attempt]. rewrite as_bus_bus. by destruct (Z.eqb_spec q r).
  - intros ->. apply accepted_call; [done | apply accepted_refl].
Qed.

Lemma update_bits_status r mask value s h :
  r ∉ page_regs ->
  wp (a7s_axp8191_update_bits (C := C) r mask value) e (s : S) h
    (fun x s' h' => s' = s /\ off_page h h' /\ (x = 0 -> bus_accepted h h')) total.
Proof.
  intros Hr. unfold a7s_axp8191_update_bits.
  eapply wp_seq; [apply read_status|]. intros [st v] s1 h1 (-> & Ho & Ha). cbn [fst snd] in *.
  unfold nonzero. destruct (Z.eqb_spec st 0) as [->|]; cbn [negb]; [|by apply wp_ret].
  eapply wp_mono; [apply write_status|]. intros x s2 h2 (-> & _ & Hk & Hx). split; [done|]. split.
  - intros q Hq. rewrite Hk, Ho; [done | done | congruence].
  - intros ->. eapply accepted_trans; eauto.
Qed.

(** Success of the probe sequence means every access was accepted. *)
Lemma ext_config_status s h :
  wp (ext_config (C := C)) e (s : S) h
    (fun x s' h' => s' = s /\ (x = 0 -> bus_accepted h h')) total.
Proof.
  unfold ext_config.
  do 3 (eapply wp_seq; [apply write_status|];
    let x := fresh "x" in intros x ? ? (-> & _ & _ & ?); unfold nonzero at 1;
    destruct (Z.eqb_spec x 0) as [->|]; cbn [negb]; [|by apply wp_ret]).
  eapply wp_seq; [apply read_status|]. intros [st v] ? ? (-> & _ & ?). cbn [fst snd] in *.
  unfold nonzero. destruct (Z.eqb_spec st 0) as [->|]; cbn [negb]; [|by apply wp_ret].
  eapply wp_mono; [apply write_status|]. intros x ? ? (-> & _ & _ & ?). split; [done|].
  intros ->. repeat match goal with Ha : 0 = 0 -> _ |- _ => specialize (Ha eq_refl) end.
  repeat (eapply accepted_trans; [eassumption|]). apply accepted_refl.
Qed.

Lemma restore_write_status r st s h :
  wp (restore_write (C := C) r st) e (s : S) h
    (fun x s' h' => s' = s /\ last_attempt h' r = Some 0 /\
       (forall q, q <> r -> last_attempt h' q = last_attempt h q) /\
       (x = 0 -> st = 0 /\ bus_accepted h h')) total.
Proof.
  unfold restore_write. eapply wp_seq; [apply write_status|].
  intros x s1 h1 (-> & Hl & Hk & Ha). apply wp_ret. split; [done|]. split; [done|]. split; [done|].
  unfold nonzero. destruct (Z.eqb_spec st 0), (Z.eqb_spec x 0); cbn [andb negb]; intros; subst;
    first [by auto | done].
Qed.

(** Closing attempts all three writes, whatever failed before. *)
Lemma restore_status st s h :
  wp (restore_normal_page (C := C) st) e (s : S) h
    (fun x s' h' => s' = s /\ page_closed h' /\
       (x = 0 -> st = 0 /\ bus_accepted h h')) total.
Proof.
  unfold restore_normal_page.
  eapply wp_seq; [apply restore_write_status|]. intros x1 s1 h1 (-> & L1 & K1 & A1).
  eapply wp_seq; [apply restore_write_status|]. intros x2 s2 h2 (-> & L2 & K2 & A2).
  eapply wp_mono; [apply restore_write_status|]. intros x3 s3 h3 (-> & L3 & K3 & A3).
  split; [done|]. split.
  - intros r Hr. right. unfold page_regs in Hr. rewrite !elem_of_cons in Hr.
    destruct Hr as [->|[->|[->|Hr%elem_of_nil]]]; [done | by rewrite K3 | | done].
    by rewrite K3, K2.
  - intros ->. destruct (A3 eq_refl) as [-> H3]. destruct (A2 eq_refl) as [-> H2].
    destruct (A1 eq_refl) as [-> H1]. split; [done|].
    eapply accepted_trans; [exact H1|]. by eapply accepted_trans.
Qed.

Lemma printf_off_page {A} fmt args (k : M C S A) s h Q K :
  (forall h', off_page h h' -> bus_accepted h h' -> wp k e s h' Q K) ->
  wp (printf fmt args;; k) e s h Q K.
Proof.
  intros Hk. apply wp_bind, wp_printf. intros r. apply Hk.
  - intros q _. cbn [last_attempt]. by rewrite as_bus_printf.
  - apply accepted_call; [|apply accepted_refl]. rewrite as_bus_printf. by intros [].
Qed.

Lemma off_page_closed h h' : off_page h h' -> page_closed h -> page_closed h'.
Proof. intros Ho Hc r Hr. rewrite Ho by done. by apply Hc. Qed.
End Status.

(** C10: initialisation of the PMIC always returns.  It never leaves the
    extended register page or the write lock open: on every path, failures
    included, the last value sent to each of the three registers is 0.  From a
    cold start it reports success exactly when it marks the PMIC ready, and
    then every bus access it made was accepted; a failure leaves the state as
    it was. *)
Theorem axp8191_init_safe {C S} `{HPrint : HasPrintf C} `{HBus : !HasPmicBus C} `{HReady : HasReady S}
  (e : env C) (s : S) h :
  wp (a7s_axp8191_init (C := C)) e s h
    (fun r s' h' =>
       (page_closed h -> page_closed h') /\
       (r = 0 -> get_ready s = 0 -> get_ready s' = 1 /\ bus_accepted h h') /\
       (get_ready s <> 0 -> r = 0) /\
       (r <> 0 -> s' = s)) total.
Proof.
  unfold a7s_axp8191_init. apply wp_bind, wp_get. unfold nonzero at 1.
  destruct (Z.eqb_spec (get_ready s) 0) as [E|E]; cbn [negb]; [|by apply wp_ret].
  unfold pmic_bus_init. apply wp_bind, wp_call. intros r0 _.
  set (h1 := Call _ r0 :: h).
  assert (off_page h h1) as Ho1.
  { intros q _. subst h1. cbn [last_attempt]. by rewrite as_bus_bus. }
  unfold nonzero at 1. destruct (Z.eqb_spec r0 0) as [->|]; cbn [negb].
  2:{ apply printf_off_page. intros h2 Ho2 _. apply wp_ret. split; [|done].
      by apply off_page_closed, (off_page_trans _ _ _ Ho1). }
  assert (bus_accepted h h1) as A1 by (apply accepted_call; [done | apply accepted_refl]).
  eapply wp_seq; [apply read_status|]. intros [st chip] s2 h2 (-> & Ho2 & A2). cbn [fst snd] in *.
  eapply (off_page_trans _ _ _ Ho1) in Ho2.
  unfold nonzero at 1. destruct (Z.eqb_spec st 0) as [->|]; cbn [negb].
  2:{ apply printf_off_page. intros h3 Ho3 _. apply wp_ret. split; [|done].
      by apply off_page_closed, (off_page_trans _ _ _ Ho2). }
  destruct (negb (chip =? _)).
  { apply printf_off_page. intros h3 Ho3 _. apply wp_ret. split; [|done].
    by apply off_page_closed, (off_page_trans _ _ _ Ho2). }
  eapply wp_seq; [apply ext_config_status|]. intros st3 s3 h3 (-> & A3).
  eapply wp_seq; [apply restore_status|]. intros st4 s4 h4 (-> & Hclosed & A4).
  unfold nonzero at 1. destruct (Z.eqb_spec st4 0) as [->|]; cbn [negb].
  2:{ apply printf_off_page. intros h5 Ho5 _. apply wp_ret. split; [|done].
      intros _. by eapply off_page_closed. }
  destruct (A4 eq_refl) as [-> A4'].
  eapply wp_seq; [apply update_bits_status; unfold page_regs; set_solver|].
  intros st5 s5 h5 (-> & Ho5 & A5).
  unfold nonzero at 1. destruct (Z.eqb_spec st5 0) as [->|]; cbn [negb].
  2:{ apply wp_ret. split; [|done]. intros _. by eapply off_page_closed. }
  apply wp_bind, wp_get, wp_bind, wp_put. apply printf_off_page. intros h6 Ho6 A6.
  apply wp_ret. split; [intros _; apply (off_page_closed _ _ Ho6), (off_page_closed _ _ Ho5), Hclosed|].
  split; [|done]. intros _ _. split; [apply get_set_ready|].
  eapply accepted_trans; [exact A1|]. eapply accepted_trans; [by apply A2|].
  eapply accepted_trans; [by apply A3|]. eapply accepted_trans; [exact A4'|].
  by eapply accepted_trans; [apply A5|].
Qed.

(** ** Rails *)

Section Rails.
Context {C S : Type} `{HPrint : HasPrintf C} `{HBus : !HasPmicBus C} `{HReady : HasReady S}.
Context (e : env C) (init : Z -> Z).

(** The enable bit of a rail is [on], its other bits are old. *)
Definition enable_set (old new : Z) (bit : Z) (on : bool) : Prop :=
  forall n, 0 <= n < 8 -> Z.testbit new n = if n =? bit then on else Z.testbit old n.

(** The voltage field holds the least selector that reaches the voltage,
    clamped to the rail's range; the other bits of the register are old. *)
Definition voltage_set (rail : a7s_axp8191_rail) (old new set_vol : Z) : Prop :=
  exists ranges, voltage_descs !! Z.to_nat (voltage_rail rail) = Some ranges /\
    least_selector ranges (clamp (rail_min ranges) (rail_max ranges) set_vol)
      (Z.land new (voltage_mask rail)) /\
    forall n, 0 <= n < 8 -> Z.testbit (voltage_mask rail) n = false ->
      Z.testbit new n = Z.testbit old n.

Lemma find_rail_in name rail :
  a7s_axp8191_find_rail name = Some rail -> rail ∈ a7s_dram_rails /\ rname rail = name.
Proof.
  unfold a7s_axp8191_find_rail. intros Hf. apply find_some in Hf as [Hin Hn].
  apply String.eqb_eq in Hn. split; [by apply list_elem_of_In | done].
Qed.

(** What every row of the table satisfies. *)
Lemma rails_ok rail :
  rail ∈ a7s_dram_rails ->
  voltage_reg rail <> 0 /\ enable_reg rail <> 0 /\ voltage_reg rail <> enable_reg rail /\
  is_u8 (voltage_mask rail) /\ 0 <= enable_bit rail < 8 /\ 0 <= voltage_rail rail /\
  exists ranges k, voltage_descs !! Z.to_nat (voltage_rail rail) = Some ranges /\
    0 <= k <= 8 /\ voltage_mask rail = Z.ones k /\
    forallb (fun r => max_selector r <=? Z.ones k) ranges = true.
Proof.
  unfold a7s_dram_rails. rewrite !elem_of_cons.
  intros [->|[->|[->|[->|[->|[->|H%elem_of_nil]]]]]]; try done;
    (do 3 (split; [done|]); split; [by vm_compute|]; split; [cbn; lia|]; split; [by vm_compute|];
     eexists; first [exists 7; split; [reflexivity|]; split; [lia|]; split; [reflexivity|reflexivity]
                    |exists 6; split; [reflexivity|]; split; [lia|]; split; [reflexivity|reflexivity]
                    |exists 5; split; [reflexivity|]; split; [lia|]; split; [reflexivity|reflexivity]]).
Qed.

Lemma voltage_selector_spec rail ranges mv :
  0 <= rail -> voltage_descs !! Z.to_nat rail = Some ranges ->
  exists s, a7s_axp8191_voltage_selector rail mv true = Some s /\ 0 <= s < 128 /\
    least_selector ranges (clamp (rail_min ranges) (rail_max ranges) mv) s.
Proof.
  intros H0 Hl. rewrite (selector_clamped rail ranges mv H0 Hl).
  destruct (voltage_descs_ok _ _ Hl) as [Hok Hne].
  destruct (selector_loop_least ranges _ Hok Hne (clamp_range _ _ mv Hl)) as (s & Es & Hs).
  exists s. split; [done|]. split; [|done]. destruct Hs as [(out & Ho & _) _].
  destruct (selector_mv_upper ranges s out Hok Ho) as [_ ?]. split; [|done].
  destruct ranges as [|r0 rest]; [done|].
  destruct (selector_mv_lower _ s out r0 Hok eq_refl Ho) as [? _].
  apply ranges_ok_cons in Hok as [Hr _]. apply range_ok_spec in Hr. lia.
Qed.

Lemma selector_mv_max ranges s out m :
  forallb (fun r => max_selector r <=? m) ranges = true ->
  selector_mv ranges s = Some out -> s <= m.
Proof.
  induction ranges as [|r rest IH]; cbn [forallb selector_mv]; [done|].
  intros [Hr Hrest]%andb_true_iff. destruct (_ && _) eqn:E; [|by apply IH].
  apply andb_true_iff in E as [_ E]. intros _. lia.
Qed.

(** Every selector of a rail fits its field, so the mask test never fires. *)
Lemma rail_selector rail set_vol :
  rail ∈ a7s_dram_rails ->
  exists sel ranges, a7s_axp8191_voltage_selector (voltage_rail rail) set_vol true = Some sel /\
    nonzero (Z.land sel (cnot32 (voltage_mask rail))) = false /\
    is_u8 sel /\ Z.land sel (voltage_mask rail) = sel /\
    voltage_descs !! Z.to_nat (voltage_rail rail) = Some ranges /\
    least_selector ranges (clamp (rail_min ranges) (rail_max ranges) set_vol) sel.
Proof.
  intros Hrail.
  destruct (rails_ok _ Hrail) as (_ & _ & _ & _ & _ & Hr0 & ranges & k & Hl & Hk & Hmask & Hmax).
  destruct (voltage_selector_spec _ _ set_vol Hr0 Hl) as (sel & Esel & Hsel & Hleast).
  exists sel, ranges. split; [done|].
  assert (sel <= Z.ones k) as Hle.
  { destruct Hleast as [(out & Ho & _) _]. by eapply selector_mv_max. }
  assert (Z.land sel (voltage_mask rail) = sel) as Hfit.
  { rewrite Hmask, Z.land_ones by lia. apply Z.mod_small. rewrite Z.ones_equiv in Hle. lia. }
  split; [|split; [split; lia | done]].
  apply negb_false_iff, Z.eqb_eq. apply Z.bits_inj'. intros n Hn.
  rewrite Z.land_spec, testbit_cnot32, Z.bits_0 by lia.
  rewrite <- Hfit, Z.land_spec. destruct (Z.testbit (voltage_mask rail) n); btauto.
Qed.

Lemma set_rail_voltage_spec rail name set_vol s h :
  pmic_memory e init -> rail ∈ a7s_dram_rails ->
  wp (set_rail_voltage rail name set_vol) e (s : S) h
    (fun x s' h' => s' = s /\ pkeeps init [voltage_reg rail] h h' /\
       (x = 0 -> voltage_set rail (pval init h (voltage_reg rail))
                   (pval init h' (voltage_reg rail)) set_vol) /\
       ((forall h o, env_ret e h (bus o) = 0) -> x = 0)) total.
Proof.
  intros Hm Hrail.
  destruct (rails_ok _ Hrail) as (Hv0 & _ & _ & Hmask & _ & _).
  unfold set_rail_voltage.
  destruct (rail_selector rail set_vol Hrail) as (sel & ranges & -> & -> & H8 & Hfit & Hl & Hleast).
  eapply wp_seq; [by apply update_bits_live|]. intros x s1 h1 (-> & Hk & Hx & Hlive).
  apply wp_ret. split; [done|]. split; [done|]. unfold nonzero. split.
  - destruct (Z.eqb_spec x 0) as [->|]; cbn [negb]; [|done]. intros _.
    exists ranges. split; [done|]. rewrite Hx. cbn [Z.eqb].
    rewrite (u8_id sel H8). split; [by rewrite updated_field by done|].
    intros n Hn Hoff. by rewrite testbit_updated, Hoff.
  - intros Hok. by rewrite Hlive.
Qed.

Lemma enable_update old bit (on : bool) :
  0 <= bit < 8 ->
  enable_set old (updated old (u8 (shl32 1 bit)) (if on then u8 (shl32 1 bit) else 0)) bit on.
Proof.
  intros Hb n Hn. rewrite testbit_updated by done.
  assert (forall b : bool, Z.testbit (if b then u8 (shl32 1 bit) else 0) n = b && (n =? bit)) as Ht.
  { intros []; [|by rewrite Z.bits_0]. unfold u8, shl32. rewrite Z.mod_pow2_bits_low by lia.
    rewrite testbit_u32 by lia. destruct (Z.ltb_spec n 32); [|lia]. cbn [andb].
    change (Z.testbit (BIT bit) n = (n =? bit)). rewrite testbit_BIT by lia.
    destruct (Z.eqb_spec n bit); by case_bool_decide. }
  rewrite (Ht true), Ht. cbn [andb]. by destruct (n =? bit), on.
Qed.

(** Effect of a rail request on the two registers of the rail. *)
Definition rail_done (rail : a7s_axp8191_rail) (set_vol onoff : Z) (h h' : history C) : Prop :=
  (if 0 <? set_vol
   then voltage_set rail (pval init h (voltage_reg rail)) (pval init h' (voltage_reg rail)) set_vol
   else pval init h' (voltage_reg rail) = pval init h (voltage_reg rail)) /\
  (if onoff <? 0
   then pval init h' (enable_reg rail) = pval init h (enable_reg rail)
   else enable_set (pval init h (enable_reg rail)) (pval init h' (enable_reg rail))
          (enable_bit rail) (nonzero onoff)).

Lemma optional_voltage_spec rail name set_vol s h :
  pmic_memory e init -> rail ∈ a7s_dram_rails ->
  wp (if 0 <? set_vol then set_rail_voltage rail name set_vol else ret 0) e (s : S) h
    (fun x s' h' => s' = s /\ pkeeps init [voltage_reg rail] h h' /\
       (x = 0 -> if 0 <? set_vol
                 then voltage_set rail (pval init h (voltage_reg rail))
                        (pval init h' (voltage_reg rail)) set_vol
                 else pval init h' (voltage_reg rail) = pval init h (voltage_reg rail)) /\
       ((forall h o, env_ret e h (bus o) = 0) -> x = 0)) total.
Proof.
  intros Hm Hrail. destruct (0 <? set_vol); [by apply set_rail_voltage_spec|].
  by apply wp_ret.
Qed.

Lemma set_rail_spec rail name set_vol onoff s h :
  pmic_memory e init -> a7s_axp8191_find_rail name = Some rail ->
  get_ready s <> 0 ->
  wp (a7s_axp8191_set_rail name set_vol onoff) e (s : S) h
    (fun r s' h' => s' = s /\ pkeeps init [voltage_reg rail; enable_reg rail] h h' /\
       (r = 0 -> rail_done rail set_vol onoff h h') /\
       (r <> 0 -> pval init h' (enable_reg rail) = pval init h (enable_reg rail)) /\
       ((forall h o, env_ret e h (bus o) = 0) -> r = 0)) total.
Proof.
  intros Hm Hfind Hready. unfold a7s_axp8191_set_rail. rewrite Hfind.
  destruct (find_rail_in _ _ Hfind) as [Hrail _].
  destruct (rails_ok _ Hrail) as (Hv0 & He0 & Hve & _ & Hbit & _).
  eapply (wp_seq _ _ _ _ _ (fun x s' h' => x = 0 /\ s' = s /\ h' = h)).
  { unfold a7s_axp8191_init. apply wp_bind, wp_get. unfold nonzero at 1.
    by destruct (Z.eqb_spec (get_ready s) 0). }
  intros ? ? ? (-> & -> & ->). cbn [nonzero Z.eqb negb].
  eapply wp_seq; [by apply optional_voltage_spec|]. intros x s1 h1 (-> & Hk & Hx & Hlive).
  assert (pval init h1 (enable_reg rail) = pval init h (enable_reg rail)) as Hen
    by (apply Hk; rewrite list_elem_of_singleton; congruence).
  assert (pkeeps init [voltage_reg rail; enable_reg rail] h h1) as Hk'
    by (eapply pkeeps_weaken; [|exact Hk]; intros r Hr; apply list_elem_of_singleton in Hr as ->; in_list).
  unfold nonzero at 1. destruct (Z.eqb_spec x 0) as [->|]; cbn [negb].
  2:{ apply wp_ret. split; [done|]. split; [done|]. split; [done|]. split; [done|]. naive_solver. }
  specialize (Hx eq_refl). unfold rail_done. destruct (onoff <? 0); [by apply wp_ret|].
  eapply wp_mono; [by apply update_bits_live|]. intros y s2 h2 (-> & Hk2 & Hy & Hlive2).
  assert (pval init h2 (voltage_reg rail) = pval init h1 (voltage_reg rail)) as Hv2
    by (apply Hk2; rewrite list_elem_of_singleton; congruence).
  split; [done|]. split.
  { eapply pkeeps_trans; [exact Hk'|]. eapply pkeeps_weaken; [|exact Hk2].
    intros r Hr. apply list_elem_of_singleton in Hr as ->. in_list. }
  split; [|split; [|done]].
  - intros ->. cbn [Z.eqb] in Hy. rewrite Hv2, Hy, Hen. split; [done | by apply enable_update].
  - intros Hne. destruct (Z.eqb_spec y 0); [done|]. by rewrite Hy, Hen.
Qed.

(** ** The board *)

Definition init_regs : list Z := AXP8191_AP_RESET_CTRL :: 0 :: page_regs.

Lemma writes_keep r v (rs : list Z) s h :
  r ∈ rs ->
  wp (pmic_bus_write (C := C) AXP8191_RUNTIME_ADDR r v) e (s : S) h
    (fun _ s' h' => s' = s /\ pkeeps init rs h h') total.
Proof.
  intros Hr. eapply wp_mono; [apply (write_spec e init)|]. intros x s' h' (-> & Hk & _).
  split; [done|]. eapply pkeeps_weaken; [|exact Hk].
  intros q Hq. by apply list_elem_of_singleton in Hq as ->.
Qed.

Lemma reads_keep r (rs : list Z) s h :
  wp (pmic_bus_read (C := C) AXP8191_RUNTIME_ADDR r) e (s : S) h
    (fun _ s' h' => s' = s /\ pkeeps init rs h h') total.
Proof.
  unfold pmic_bus_read. wp_steps. split; [done|]. intros q _. cbn [pval]. by rewrite as_bus_bus.
Qed.

Lemma restore_write_keeps r st s h :
  r ∈ init_regs ->
  wp (restore_write (C := C) r st) e (s : S) h
    (fun _ s' h' => s' = s /\ pkeeps init init_regs h h') total.
Proof.
  intros Hr. unfold restore_write. eapply wp_seq; [by apply writes_keep|].
  intros x s' h' Hk. by apply wp_ret.
Qed.

Lemma restore_keeps st s h :
  wp (restore_normal_page (C := C) st) e (s : S) h
    (fun _ s' h' => s' = s /\ pkeeps init init_regs h h') total.
Proof.
  unfold restore_normal_page.
  eapply wp_seq; [apply restore_write_keeps; in_list|]. intros ? ? h1 [-> K1].
  eapply wp_seq; [apply restore_write_keeps; in_list|]. intros ? ? h2 [-> K2].
  eapply wp_mono; [apply restore_write_keeps; in_list|]. intros ? ? h3 [-> K3].
  split; [done|]. eapply pkeeps_trans; [exact K1|]. by eapply pkeeps_trans.
Qed.

Lemma ext_config_keeps s h :
  wp (ext_config (C := C)) e (s : S) h
    (fun _ s' h' => s' = s /\ pkeeps init init_regs h h') total.
Proof.
  unfold ext_config.
  eapply wp_seq; [apply (writes_keep _ _ init_regs); in_list|]. intros x1 ? h1 [-> K1].
  destruct (nonzero x1); [by apply wp_ret|].
  eapply wp_seq; [apply (writes_keep _ _ init_regs); in_list|]. intros x2 ? h2 [-> K2].
  assert (K12 := pkeeps_trans _ _ _ _ _ K1 K2). destruct (nonzero x2); [by apply wp_ret|].
  eapply wp_seq; [apply (writes_keep _ _ init_regs); in_list|]. intros x3 ? h3 [-> K3].
  assert (K13 := pkeeps_trans _ _ _ _ _ K12 K3). destruct (nonzero x3); [by apply wp_ret|].
  eapply wp_seq; [apply (reads_keep _ init_regs)|]. intros x4 ? h4 [-> K4].
  assert (K14 := pkeeps_trans _ _ _ _ _ K13 K4). destruct (nonzero _); [by apply wp_ret|].
  eapply wp_mono; [apply (writes_keep _ _ init_regs); in_list|]. intros x5 ? h5 [-> K5].
  split; [done|]. by eapply pkeeps_trans.
Qed.

Lemma printf_kept {A} fmt args (k : M C S A) s h Q K :
  (forall h', (forall r, pval init h' r = pval init h r) -> wp k e s h' Q K) ->
  wp (printf fmt args;; k) e s h Q K.
Proof.
  intros Hk. apply (printf_keeps e init). intros h' Hs. apply Hk. intros r. apply Hs.
  intros Hr. by apply elem_of_nil in Hr.
Qed.

Lemma init_spec s h :
  pmic_memory e init ->
  wp (a7s_axp8191_init (C := C)) e (s : S) h
    (fun r s' h' => pkeeps init init_regs h h' /\ (r = 0 -> get_ready s' <> 0)) total.
Proof.
  intros Hm. unfold a7s_axp8191_init. apply wp_bind, wp_get. unfold nonzero at 1.
  destruct (Z.eqb_spec (get_ready s) 0) as [E|E]; cbn [negb]; [|by apply wp_ret].
  unfold pmic_bus_init. apply wp_bind, wp_call. intros r0 _.
  set (h1 := Call _ r0 :: h).
  assert (pkeeps init init_regs h h1) as K1.
  { intros q _. subst h1. cbn [pval]. by rewrite as_bus_bus. }
  assert (forall fmt args (s' : S) h', pkeeps init init_regs h h' ->
    forall x, x <> 0 -> wp (printf fmt args;; ret x) e s' h'
      (fun r s' h' => pkeeps init init_regs h h' /\ (r = 0 -> get_ready s' <> 0)) total) as Hprint.
  { intros fmt args s' h' Hk x Hx. apply printf_kept. intros h'' Hs. apply wp_ret. split; [|done].
    intros q Hq. by rewrite Hs, Hk. }
  destruct (nonzero r0); [by apply Hprint|].
  eapply wp_seq; [apply (reads_keep _ init_regs)|]. intros [st chip] s2 h2 [-> K2]. cbn [fst snd].
  assert (K12 := pkeeps_trans _ _ _ _ _ K1 K2).
  destruct (nonzero st); [by apply Hprint|]. destruct (negb _); [by apply Hprint|].
  eapply wp_seq; [apply ext_config_keeps|]. intros st3 s3 h3 [-> K3].
  eapply wp_seq; [apply restore_keeps|]. intros st4 s4 h4 [-> K4].
  assert (K14 := pkeeps_trans _ _ _ _ _ K12 (pkeeps_trans _ _ _ _ _ K3 K4)).
  unfold nonzero at 1. destruct (Z.eqb_spec st4 0) as [->|Hn4]; cbn [negb]; [|by apply Hprint].
  eapply wp_seq; [by apply update_bits_spec|]. intros st5 s5 h5 (-> & K5 & _).
  assert (pkeeps init init_regs h h5) as K15.
  { eapply pkeeps_trans; [exact K14|]. eapply pkeeps_weaken; [|exact K5].
    intros q Hq. apply list_elem_of_singleton in Hq as ->. in_list. }
  unfold nonzero at 1. destruct (Z.eqb_spec st5 0) as [->|]; cbn [negb]; [|by apply wp_ret].
  apply wp_bind, wp_get, wp_bind, wp_put. apply printf_kept. intros h6 K6.
  apply wp_ret. split; [intros q Hq; by rewrite K6, K15 | by rewrite get_set_ready].
Qed.

(** The eMMC I/O rail carries 1.8 V and is on. *)
Definition emmc_io_on (h : history C) : Prop :=
  selector_mv cldo_ranges (Z.land (pval init h AXP8191_CLDO5_VOL) 0x1f) = Some 1800 /\
  nonzero (Z.land (pval init h AXP8191_LDO_CTRL2) (BIT 7)) = true.

Lemma configure_emmc_spec s h :
  pmic_memory e init -> get_ready s <> 0 ->
  wp a7s_axp8191_configure_emmc_io e (s : S) h
    (fun r s' h' => s' = s /\ (r = 0 -> emmc_io_on h')) total.
Proof.
  intros Hm Hready. unfold a7s_axp8191_configure_emmc_io.
  eapply wp_seq; [by apply (set_rail_spec (Rail "cldo5" AXP8191_CLDO5_VOL 0x1f AXP8191_LDO_CTRL2 7
                                            A7S_AXP8191_CLDO))|].
  intros r s1 h1 (-> & _ & _ & _ & _).
  destruct (nonzero r); [apply printf_kept; intros; by apply wp_ret|].
  unfold emmc_readback.
  eapply (wp_seq _ _ _ _ _ (fun bad s' h' => s' = s /\ (bad = false -> emmc_io_on h'))).
  { eapply wp_seq; [by apply read_spec|]. intros [st sel] s2 h2 (-> & _ & Hsel & K2). cbn [fst snd] in *.
    unfold nonzero at 1. destruct (Z.eqb_spec st 0) as [->|]; cbn [negb]; [|by apply wp_ret].
    eapply wp_seq; [by apply read_spec|]. intros [st' en] s3 h3 (-> & _ & Hen & K3). cbn [fst snd] in *.
    unfold nonzero at 1. destruct (Z.eqb_spec st' 0) as [->|]; cbn [negb]; [|by apply wp_ret].
    apply wp_ret. split; [done|]. intros [Hs%negb_false_iff He%negb_false_iff]%orb_false_iff.
    apply Z.eqb_eq in Hs. rewrite K2 in Hen. unfold emmc_io_on. rewrite !K3, !K2, <- Hsel, <- Hen by done.
    by rewrite Hs. }
  intros bad s2 h2 (-> & Hok). destruct bad; [apply printf_kept; intros; by apply wp_ret|].
  apply wp_bind, wp_mdelay. unfold a7s_pio_emmc_withstand_auto.
  apply wp_bind. wp_steps. apply wp_printf. intros r1. apply printf_kept. intros h3 K3.
  apply wp_ret. split; [done|]. intros _. unfold emmc_io_on. rewrite !K3. cbn [pval].
  rewrite as_bus_printf. by apply Hok.
Qed.

Lemma npu_spec s h :
  pmic_memory e init ->
  wp a7s_axp8191_set_npu_rail e (s : S) h
    (fun r s' h' => s' = s /\ pkeeps init [AXP8191_DCDC_CTRL1; AXP8191_DCDC2_VOL] h h' /\
       (r = 0 -> Z.land (pval init h' AXP8191_DCDC2_VOL) 0x7f = AXP8191_DCDC2_840MV /\
                 Z.testbit (pval init h' AXP8191_DCDC_CTRL1) 1 = true)) total.
Proof.
  intros Hm. unfold a7s_axp8191_set_npu_rail.
  assert (forall h1 h2, pkeeps init [AXP8191_DCDC_CTRL1] h1 h2 ->
    pkeeps init [AXP8191_DCDC_CTRL1; AXP8191_DCDC2_VOL] h1 h2) as W1.
  { intros h1 h2. apply pkeeps_weaken. intros q Hq. apply list_elem_of_singleton in Hq as ->. in_list. }
  assert (forall h1 h2, pkeeps init [AXP8191_DCDC2_VOL] h1 h2 ->
    pkeeps init [AXP8191_DCDC_CTRL1; AXP8191_DCDC2_VOL] h1 h2) as W2.
  { intros h1 h2. apply pkeeps_weaken. intros q Hq. apply list_elem_of_singleton in Hq as ->. in_list. }
  eapply wp_seq; [by apply update_bits_spec|]. intros x1 s1 h1 (-> & K1 & V1).
  unfold nonzero at 1. destruct (Z.eqb_spec x1 0) as [->|]; cbn [negb].
  2:{ apply printf_kept. intros h2 K2. apply wp_ret. split; [done|]. split; [|done].
      intros q Hq. by rewrite K2, (W1 _ _ K1). }
  eapply wp_seq; [apply (write_spec e init)|]. intros x2 s2 h2 (-> & K2 & V2).
  assert (K12 := pkeeps_trans _ _ _ _ _ (W1 _ _ K1) (W2 _ _ K2)).
  unfold nonzero at 1. destruct (Z.eqb_spec x2 0) as [->|]; cbn [negb].
  2:{ apply printf_kept. intros h3 K3. apply wp_ret. split; [done|]. split; [|done].
      intros q Hq. by rewrite K3, K12. }
  eapply wp_seq; [by apply read_spec|]. intros [st v] s3 h3 (-> & _ & Hv & K3). cbn [fst snd] in *.
  destruct (nonzero st || _) eqn:Eb.
  { apply printf_kept. intros h4 K4. apply wp_ret. split; [done|]. split; [|done].
    intros q Hq. by rewrite K4, K3, K12. }
  apply wp_ret. split; [done|]. split; [intros q Hq; by rewrite K3, K12|]. intros _.
  apply orb_false_iff in Eb as [Est%negb_false_iff Ev%negb_false_iff].
  apply Z.eqb_eq in Est, Ev. rewrite !K3, <- Hv by done. split; [done|].
  rewrite K2 by (rewrite list_elem_of_singleton; done). rewrite V1. cbn [Z.eqb].
  by rewrite testbit_updated by lia.
Qed.
End Rails.

(** a rail request on a ready PMIC always returns.  An unknown rail is
    refused without any bus traffic; for a known one only its two registers
    change.  On success the voltage field holds the least selector reaching the
    requested voltage (clamped to the rail's range) with the register's other
    bits kept, and the enable bit is as asked; on failure the enable register
    is untouched.  A bus that accepts every access makes the request succeed. *)
Theorem set_rail_effect {C S} `{HPrint : HasPrintf C} `{HBus : !HasPmicBus C} `{HReady : HasReady S}
  (e : env C) (init : Z -> Z) name set_vol onoff (s : S) h :
  pmic_memory e init -> get_ready s <> 0 ->
  wp (a7s_axp8191_set_rail name set_vol onoff) e s h
    (fun r s' h' => s' = s /\
       match a7s_axp8191_find_rail name with
       | None => r = -1 /\ forall q, pval init h' q = pval init h q
       | Some rail =>
           pkeeps init [voltage_reg rail; enable_reg rail] h h' /\
           (r = 0 -> rail_done init rail set_vol onoff h h') /\
           (r <> 0 -> pval init h' (enable_reg rail) = pval init h (enable_reg rail)) /\
           ((forall h o, env_ret e h (bus o) = 0) -> r = 0)
       end) total.
Proof.
  intros Hm Hready. destruct (a7s_axp8191_find_rail name) as [rail|] eqn:Hf.
  - by apply set_rail_spec.
  - unfold a7s_axp8191_set_rail. rewrite Hf. apply (printf_kept e init). intros h' K.
    by apply wp_ret.
Qed.

(** when board initialisation succeeds, the PMIC is ready, the eMMC I/O
    rail is on at 1.8 V, the NPU rail is on at 840 mV and the SD card power
    switch is closed, as the PMIC's registers tell. *)
Theorem board_init_powers {C S} `{HPrint : HasPrintf C} `{HBus : !HasPmicBus C} `{HReady : HasReady S}
  (e : env C) (init : Z -> Z) (s : S) h :
  pmic_memory e init ->
  wp sunxi_board_init e s h
    (fun r s' h' => r = 0 ->
       get_ready s' <> 0 /\ emmc_io_on init h' /\
       Z.land (pval init h' AXP8191_DCDC2_VOL) 0x7f = AXP8191_DCDC2_840MV /\
       Z.testbit (pval init h' AXP8191_DCDC_CTRL1) 1 = true /\
       Z.testbit (pval init h' AXP8191_DCDC_CTRL2) 4 = true) total.
Proof.
  intros Hm. unfold sunxi_board_init. apply wp_bind, wp_readl. intros v _ _. apply wp_bind, wp_writel.
  eapply wp_seq; [by apply (init_spec e init)|]. intros r1 s1 h1 (_ & Hready).
  unfold nonzero at 1. destruct (Z.eqb_spec r1 0) as [->|]; cbn [negb]; [|by apply wp_ret].
  specialize (Hready eq_refl).
  eapply wp_seq; [by apply (configure_emmc_spec e init)|]. intros r2 s2 h2 (-> & Hemmc).
  unfold nonzero at 1. destruct (Z.eqb_spec r2 0) as [->|]; cbn [negb]; [|by apply wp_ret].
  specialize (Hemmc eq_refl).
  eapply wp_seq; [by apply (npu_spec e init)|]. intros r3 s3 h3 (-> & K3 & Hnpu).
  unfold nonzero at 1. destruct (Z.eqb_spec r3 0) as [->|]; cbn [negb]; [|by apply wp_ret].
  destruct (Hnpu eq_refl) as [Hn1 Hn2]. unfold a7s_axp8191_enable_sd_power.
  eapply wp_seq; [by apply (update_bits_spec e init)|]. intros r4 s4 h4 (-> & K4 & V4).
  unfold nonzero at 1. destruct (Z.eqb_spec r4 0) as [->|]; cbn [negb].
  2:{ apply (printf_kept e init). intros h5 _. by apply wp_ret. }
  apply wp_ret. intros _. split; [done|].
  assert (forall q, q ∉ [AXP8191_DCDC_CTRL2] -> q ∉ [AXP8191_DCDC_CTRL1; AXP8191_DCDC2_VOL] ->
    pval init h4 q = pval init h2 q) as K by (intros q H1 H2; by rewrite K4, K3).
  split; [|rewrite !K4 by (rewrite list_elem_of_singleton; done); split; [done|]; split; [done|]].
  - unfold emmc_io_on. rewrite !K by (rewrite ?elem_of_cons, ?list_elem_of_singleton, elem_of_nil; naive_solver).
    exact Hemmc.
  - rewrite V4. cbn [Z.eqb]. by rewrite testbit_updated by lia.
Qed.

(** An image that prints and talks to the PMIC, and a PMIC that is a memory. *)
Inductive pmic_call := PrintCall (fmt : string) (args : list parg) | BusCall (o : bus_op).
#[export] Instance pmic_call_printf : HasPrintf pmic_call := PrintCall.
#[export, refine] Instance pmic_call_bus : HasPmicBus pmic_call :=
  {| bus := BusCall; as_bus c := match c with BusCall o => Some o | _ => None end |}.
Proof. all: done. Defined.
#[export, refine] Instance flag_ready : HasReady Z :=
  {| get_ready s := s; set_ready v _ := v |}.
Proof. done. Defined.

(** Register contents at power-on: everything 0 but the chip identifier. *)
Definition pmic_reset (r : Z) : Z := if r =? AXP8191_CHIP_ID then AXP8191_CHIP_ID_A else 0.

Definition memory_pmic : env pmic_call :=
  Env (regval (fun _ => 0)) (fun _ _ => 0)
      (fun h c => match c with BusCall (BusRead _ r) => [pval pmic_reset h r] | _ => [] end).

Lemma pval_u8 h r : is_u8 (pval (C := pmic_call) pmic_reset h r).
Proof.
  induction h as [|ev h IH].
  - cbn [pval]. unfold pmic_reset. by destruct (r =? AXP8191_CHIP_ID).
  - destruct ev as [| | | | |c st]; try exact IH. cbn [pval].
    destruct (as_bus c) as [[| |]|]; try exact IH. destruct (_ && _); [apply u8_range | exact IH].
Qed.

Lemma memory_pmic_memory : pmic_memory memory_pmic pmic_reset.
Proof. intros h r _ _. cbn [memory_pmic env_out bus pmic_call_bus head default]. apply u8_id, pval_u8. Qed.

Lemma set_rail_effect_witness :
  exists rail, a7s_axp8191_find_rail "dcdc8" = Some rail /\
  wp (a7s_axp8191_set_rail "dcdc8" 1100 1) memory_pmic 1 []
    (fun r s' h' => s' = 1 /\
       pkeeps pmic_reset [voltage_reg rail; enable_reg rail] [] h' /\
       (r = 0 -> rail_done pmic_reset rail 1100 1 [] h') /\
       (r <> 0 -> pval pmic_reset h' (enable_reg rail) = pval (C := pmic_call) pmic_reset [] (enable_reg rail)) /\
       ((forall h o, env_ret memory_pmic h (bus o) = 0) -> r = 0)) total.
Proof.
  eexists. split; [reflexivity|].
  apply (set_rail_effect memory_pmic pmic_reset "dcdc8" 1100 1 1 []).
  - apply memory_pmic_memory.
  - discriminate.
Defined.

Lemma board_init_powers_witness :
  wp sunxi_board_init memory_pmic 0 []
    (fun r s' h' => r = 0 ->
       get_ready s' <> 0 /\ emmc_io_on pmic_reset h' /\
       Z.land (pval pmic_reset h' AXP8191_DCDC2_VOL) 0x7f = AXP8191_DCDC2_840MV /\
       Z.testbit (pval pmic_reset h' AXP8191_DCDC_CTRL1) 1 = true /\
       Z.testbit (pval pmic_reset h' AXP8191_DCDC_CTRL2) 4 = true) total.
Proof. apply (board_init_powers memory_pmic pmic_reset 0 []). apply memory_pmic_memory. Defined.

(** With such a PMIC board initialisation does succeed. *)
Example board_init_succeeds :
  match sunxi_board_init memory_pmic 0 [] with Done r s _ => r = 0 /\ s = 1 | _ => False end.
Proof. vm_compute. split; reflexivity. Qed.
