(* ===== verification/Mmc.v ===== *)
(** * SD/MMC clock setup (src/src/mmc_a733.c, [mmc_register] of
    src/src/platform_shims.c)

    The closed MMC core's structures are memory: the program state maps byte
    addresses of aligned 32-bit words to their values.  [timer_get_us] and
    [mmc_init] are external.  The polling loop runs on fuel; MmcProps.v bounds
    it by the timer. *)

From Stdlib Require Import String.
From S2P Require Import Prelude Machine Console Clock Gpio.

Local Open Scope string_scope.
Local Open Scope list_scope.
Local Open Scope Z_scope.

Definition SDC2_BASE : Z := 0x04022000.
Definition SDC2_CLK : Z := 0x02002d20.
Definition REG (off : Z) : Z := SDC2_BASE + off.

(** Word memory. *)
Definition words : Type := Z -> Z.
Definition store (a v : Z) (m : words) : words := fun b => if b =? a then u32 v else m b.

Class HasMmcCalls (C : Type) `{HasPrintf C} := {
  c_timer_get_us : C;
  c_mmc_init : Z -> C
}.

Section Mmc.
Context {C : Type} `{HasMmcCalls C}.
Local Abbreviation M := (M C words).
(* where the linker put [a7s_mmc2_set_ios] and [mmc_devices] *)
Context (set_ios_address mmc_devices : Z).

Definition timer_get_us : M Z := let! t := call c_timer_get_us in ret (u32 t).

(** [MMC_WORD(mmc, off)] as a value and as a left-hand side. *)
Definition MMC_WORD (mmc off : Z) : M Z := let! m := get in ret (u32 (m (mmc + off))).
Definition MMC_WORD_set (mmc off v : Z) : M unit := let! m := get in put (store (mmc + off) v m).

(** The [while] loop of [a7s_mmc2_update_clock]; true is a timeout. *)
Fixpoint update_clock_loop (fuel : nat) (start : Z) : M bool :=
  match fuel with
  | O => stop_now OutOfFuel
  | Datatypes.S fuel =>
      let! v := readl (REG 0x18) in
      if nonzero (Z.land v (BIT 31)) then
        let! now := timer_get_us in
        if 100000 <=? u32 (now - start) then ret true else update_clock_loop fuel start
      else ret false
  end.

Definition a7s_mmc2_update_clock (fuel : nat) (clock_control : Z) : M Z :=
  let! start := timer_get_us in
  writel (Z.lor clock_control (BIT 31)) (REG 0x04);;
  writel 0x80202000 (REG 0x18);;
  let! late := update_clock_loop fuel start in
  if late then printf "A7S SDC2: clock update timeout\n" [];; ret (-1)
  else
    let! v := readl (REG 0x38) in
    writel v (REG 0x38);;
    writel clock_control (REG 0x04);;
    ret 0.

(** Label [failed]. *)
Definition set_ios_failed (host requested width : Z) : M unit :=
  MMC_WORD_set host 0x1c 1;;
  printf "A7S SDC2: rejected clock setup req=%u width=%u\n" [N_ requested; N_ width].

(** [writel(readl(REG(off)) & keep | set, REG(off))] *)
Definition reg_update (off clear set : Z) : M unit :=
  let! v := readl (REG off) in writel (Z.lor (Z.land v (cnot32 clear)) set) (REG off).

Definition sdr_divider (requested : Z) : Z := u32 (12000000 + requested - 1) / requested.

(** The register programming between the checks and the second clock update. *)
Definition set_ios_program (divider width : Z) : M unit :=
  writel 0 SDC2_CLK;;
  writel (Z.lor 0x80000000 (u32 (divider - 1))) SDC2_CLK;;
  reg_update 0x5c (BIT 31) 0;;
  reg_update 0x00 (BIT 10) 0;;
  reg_update 0x10c (BIT 31) 0;;
  writel (if width =? 8 then 2 else if width =? 4 then 1 else 0) (REG 0x0c);;
  let! v := readl (REG 0x140) in
  let value := Z.land v (cnot32 (Z.lor (shl32 3 16) (BIT 7))) in
  writel (u32 (divider - 1)) SDC2_CLK;;
  writel (Z.lor value (BIT 16)) (REG 0x140);;
  writel (Z.lor 0x80000000 (u32 (divider - 1))) SDC2_CLK;;
  reg_update 0x144 0x3f 0x80;;
  reg_update 0x104 0 1.

Definition a7s_mmc2_set_ios (fuel : nat) (mmc : Z) : M unit :=
  let! requested := MMC_WORD mmc 0x48 in
  let! width := MMC_WORD mmc 0x44 in
  let! host := MMC_WORD mmc 0x20 in
  let! r := a7s_mmc2_update_clock fuel 0 in
  if nonzero r then set_ios_failed host requested width
  else if requested =? 0 then ret tt
  else
  let! bad :=
    (if (requested <? 400000) || (12000000 <? requested) then ret true
     else let! ddr := MMC_WORD mmc 0x104 in
          ret ((1 <? ddr) || (negb (width =? 1) && negb (width =? 4) && negb (width =? 8)))) in
  if bad then set_ios_failed host requested width
  else
    let divider := sdr_divider requested in
    set_ios_program divider width;;
    let! r := a7s_mmc2_update_clock fuel (BIT 16) in
    if nonzero r then set_ios_failed host requested width
    else
      MMC_WORD_set mmc 0x48 (12000000 / divider);;
      let! actual := MMC_WORD mmc 0x48 in
      let! ccu := readl SDC2_CLK in
      let! clk := readl (REG 0x04) in
      let! sfc := readl (REG 0x104) in
      printf "A7S SDC2: req=%u actual=%u width=%u CCU=%08x CLK=%08x SFC=%08x\n"
        [N_ requested; N_ actual; N_ width; N_ ccu; N_ clk; N_ sfc].

Definition a7s_mmc2_install_clock (mmc : Z) : M unit :=
  MMC_WORD_set mmc 0x34 400000;;
  MMC_WORD_set mmc 0x38 12000000;;
  MMC_WORD_set mmc 0x3c 12000000;;
  MMC_WORD_set mmc 0xac set_ios_address.

Definition mmc_register (sdc_no mmc : Z) : M Z :=
  MMC_WORD_set mmc_devices (4 * sdc_no) mmc;;
  let! timeout := MMC_WORD mmc 0xe8 in
  (if timeout =? 0 then MMC_WORD_set mmc 0xe8 0xffff else ret tt);;
  (if sdc_no =? 0 then a7s_mmc0_config_pins
   else if sdc_no =? 2 then a7s_mmc2_install_clock mmc
   else ret tt);;
  call (c_mmc_init mmc).
End Mmc.
