(* ===== verification/MmcProps.v ===== *)
(** * Properties of the SD/MMC clock setup

    Termination of the polling under a timer that keeps running, and the
    outcome of a bus setting: the divider is exact, the clock never exceeds the
    request, a rejected setting marks the host. *)

From Stdlib Require Import String.
From S2P Require Import Prelude Machine Console Clock Gpio Mmc.

Local Open Scope string_scope.
Local Open Scope list_scope.
Local Open Scope Z_scope.

(** A running microsecond timer: time never goes back, no single access takes
    2^29 us, and [N] accesses take at least one. *)
Record running_timer {C} `{HasMmcCalls C} (e : env C) (clock : history C -> Z) (N : nat) : Prop := {
  timer_reads : forall h, u32 (env_ret e h c_timer_get_us) = u32 (clock h);
  timer_step : forall ev h, clock h <= clock (ev :: h) <= clock h + 2 ^ 29;
  timer_runs : forall new h, (N <= length new)%nat -> clock h + 1 <= clock (new ++ h)
}.

(** The writes at the head of a history are allowed. *)
Ltac writes := repeat (apply extends_cons; [intros ? ? [E|E]; inversion E; subst; auto 10|]).

(** ** The update of the card clock *)

(** The registers it writes. *)
Definition update_regs (a v : Z) : Prop := a = REG 0x04 \/ a = REG 0x18 \/ a = REG 0x38.

Section Update.
Context {C : Type} `{HPrint : HasPrintf C} `{HMmc : !HasMmcCalls C}.

(** The command, sent when the timer read [t0], with the new clock control and
    the data line masked. *)
Definition commanded (control t0 : Z) (h : history C) : history C :=
  Wr (REG 0x18) 0x80202000 :: Wr (REG 0x04) (Z.lor control (BIT 31)) :: Call c_timer_get_us t0 :: h.
Definition elapsed (t0 t : Z) : Z := u32 (u32 t - u32 t0).

(** Looks at the command while it is busy and its time is not over. *)
Inductive waited (t0 : Z) (h : history C) : history C -> Prop :=
| Waited_not : waited t0 h h
| Waited_more h' w t : waited t0 h h' -> Z.testbit w 31 = true -> elapsed t0 t < 100000 ->
    waited t0 h (Call c_timer_get_us t :: Rd (REG 0x18) w :: h').

(** The update to [control]: done, with the interrupts acknowledged and the data
    line no longer masked, or given up after 100 ms. *)
Inductive clock_update (control : Z) (h : history C) : Z -> history C -> Prop :=
| Clock_updated t0 w v h1 : waited t0 (commanded control t0 h) h1 -> Z.testbit w 31 = false ->
    clock_update control h 0
      (Wr (REG 0x04) control :: Wr (REG 0x38) v :: Rd (REG 0x38) v :: Rd (REG 0x18) w :: h1)
| Clock_stuck t0 w t h1 q : waited t0 (commanded control t0 h) h1 -> Z.testbit w 31 = true -> 100000 <= elapsed t0 t ->
    clock_update control h (-1)
      (Call (printf_call "A7S SDC2: clock update timeout\n" []) q :: Call c_timer_get_us t :: Rd (REG 0x18) w :: h1).

Lemma waited_extends t0 h h' (P : Z -> Z -> Prop) : waited t0 h h' -> extends P h h'.
Proof. induction 1; [apply extends_refl|]. writes. done. Qed.

Lemma waited_trans t0 h1 h2 h3 : waited t0 h1 h2 -> waited t0 h2 h3 -> waited t0 h1 h3.
Proof. intros H. induction 1; [done|by constructor]. Qed.

Lemma clock_update_extends control h r h' : clock_update control h r h' -> extends update_regs h h'.
Proof.
  assert (forall t0, extends update_regs h (commanded control t0 h)) as H.
  { intros t0. unfold commanded, update_regs. writes. apply extends_refl. }
  intros []; unfold update_regs; writes;
    (eapply extends_trans; [apply H|by eapply waited_extends]).
Qed.
End Update.

Lemma busy_bit v : nonzero (Z.land v (BIT 31)) = Z.testbit v 31.
Proof.
  unfold nonzero, BIT. rewrite Z.shiftl_1_l. destruct (Z.testbit v 31) eqn:E.
  - destruct (Z.eqb_spec (Z.land v (2 ^ 31)) 0) as [H|]; [|done]. apply (f_equal (fun z => Z.testbit z 31)) in H.
    by rewrite Z.land_spec, E, Z.pow2_bits_true, Z.bits_0 in H by lia.
  - destruct (Z.eqb_spec (Z.land v (2 ^ 31)) 0) as [|H]; [done|]. destruct H. apply Z.bits_inj_0. intros n.
    rewrite Z.land_spec. destruct (Z.eq_dec n 31) as [->|Hn]; [by rewrite E|]. by rewrite Z.pow2_bits_false, andb_false_r by lia.
Qed.

Section Props.
Context {C : Type} `{HPrint : HasPrintf C} `{HMmc : !HasMmcCalls C}.
Context (e : env C) (clock : history C -> Z) (N : nat).
Hypothesis Htimer : running_timer e clock N.

Lemma timer_after k new h : (N * k <= length new)%nat -> clock h + Z.of_nat k <= clock (new ++ h).
Proof.
  revert new. induction k as [|k IH]; intros new Hl.
  - rewrite Z.add_0_r. clear Hl. induction new as [|ev new IHn]; [done|].
    pose proof (timer_step _ _ _ Htimer ev (new ++ h)). cbn [app]. lia.
  - rewrite <- (take_drop N new), <- app_assoc.
    pose proof (timer_runs _ _ _ Htimer (take N new) (drop N new ++ h)) as H1.
    rewrite length_take in H1. specialize (H1 ltac:(lia)).
    specialize (IH (drop N new)). rewrite length_drop in IH. specialize (IH ltac:(lia)). lia.
Qed.

Lemma u32_sub_clock a b : u32 (u32 a - u32 b) = u32 (a - b).
Proof. unfold u32. by rewrite Zminus_mod_idemp_l, Zminus_mod_idemp_r. Qed.

(** Accesses within which 100 ms pass. *)
Definition poll_bound : nat := N * Z.to_nat 100000.

(** [base] is the history when the timer was first read, as [t0]. *)
Lemma update_loop_spec fuel new base t0 (m : words) :
  u32 t0 = u32 (clock base) -> (poll_bound + 2 <= length new + fuel)%nat -> (length new < poll_bound + 2)%nat ->
  clock (new ++ base) - clock base < 100000 + 2 ^ 31 ->
  wp (update_clock_loop fuel (u32 t0)) e m (new ++ base)
    (fun late m' h' => m' = m /\ exists h1 w, waited t0 (new ++ base) h1 /\
       if late : bool then Z.testbit w 31 = true /\ exists t, 100000 <= elapsed t0 t /\ h' = Call c_timer_get_us t :: Rd (REG 0x18) w :: h1
       else Z.testbit w 31 = false /\ h' = Rd (REG 0x18) w :: h1) total.
Proof.
  intros Ht0. revert new. induction fuel as [|fuel IH]; intros new Hf Hl Hc; cbn [update_clock_loop]; [lia|].
  apply wp_bind, wp_readl. intros v _ _. rewrite busy_bit.
  destruct (Z.testbit v 31) eqn:Eb; [|apply wp_ret; split; [done|]; exists (new ++ base), v; by repeat constructor].
  set (h1 := Rd (REG 24) v :: new ++ base).
  pose proof (timer_step _ _ _ Htimer (Rd (REG 24) v) (new ++ base)) as T1. fold h1 in T1.
  unfold timer_get_us. apply wp_bind, wp_bind, wp_call. intros r Er. apply wp_ret.
  assert (u32 r = u32 (clock h1)) as Er1 by (rewrite Er; apply (timer_reads _ _ _ Htimer)).
  set (h2 := Call c_timer_get_us r :: h1).
  pose proof (timer_step _ _ _ Htimer (Call c_timer_get_us r) h1) as T2. fold h2 in T2.
  change (u32 (u32 r - u32 t0)) with (elapsed t0 r).
  assert (0 <= clock h1 - clock base) as Hpos.
  { pose proof (timer_after 0 (Rd (REG 24) v :: new) base ltac:(lia)). subst h1. cbn [app] in *. lia. }
  assert (elapsed t0 r = clock h1 - clock base) as El.
  { unfold elapsed. rewrite Er1, Ht0, u32_sub_clock. apply u32_small. lia. }
  destruct (Z.leb_spec 100000 (elapsed t0 r)) as [Hover|Hunder].
  { apply wp_ret. split; [done|]. exists (new ++ base), v. split; [constructor|]. split; [done|]. by exists r. }
  assert (length new + 1 < poll_bound)%nat as Hlt.
  { destruct (Nat.lt_ge_cases (length new + 1) poll_bound) as [|Hge]; [done|]. exfalso.
    pose proof (timer_after (Z.to_nat 100000) (Rd (REG 24) v :: new) base) as Ha.
    change ((Rd (REG 24) v :: new) ++ base) with h1 in Ha.
    rewrite Z2Nat.id in Ha by lia. cbn [length] in Ha.
    assert (poll_bound = N * Z.to_nat 100000)%nat as Ep by done.
    specialize (Ha ltac:(lia)). lia. }
  eapply wp_mono.
  { apply (IH (Call c_timer_get_us r :: Rd (REG 24) v :: new)); cbn [length]; [lia | lia |].
    change (clock h2 - clock base < 100000 + 2 ^ 31). lia. }
  intros b m' h' (-> & h3 & w & Hw & Hcase). split; [done|]. exists h3, w. split; [|exact Hcase].
  eapply waited_trans; [|exact Hw]. by repeat constructor.
Qed.

Lemma poll_bound_pos : (2 <= poll_bound)%nat.
Proof.
  unfold poll_bound. destruct (Nat.eq_0_gt_0_cases N) as [E|E]; [|lia]. exfalso.
  pose proof (timer_runs _ _ _ Htimer [] [] ltac:(rewrite E; simpl; lia)). cbn [app] in *. lia.
Qed.

(** With enough fuel for 100 ms of polling the update returns. *)
Lemma update_clock_spec fuel ctl (m : words) h :
  (poll_bound + 2 <= fuel)%nat ->
  wp (a7s_mmc2_update_clock fuel ctl) e m h (fun r m' h' => m' = m /\ clock_update ctl h r h') total.
Proof.
  intros Hfuel. unfold a7s_mmc2_update_clock. unfold timer_get_us at 1.
  apply wp_bind, wp_bind, wp_call. intros r Er. apply wp_ret.
  assert (u32 r = u32 (clock h)) as Er1 by (rewrite Er; apply (timer_reads _ _ _ Htimer)).
  apply wp_bind, wp_writel, wp_bind, wp_writel.
  set (new := [Wr (REG 24) 2149588992; Wr (REG 4) (Z.lor ctl (BIT 31)); Call c_timer_get_us r]).
  change (Wr _ _ :: Wr _ _ :: Call _ _ :: h) with (new ++ h).
  pose proof poll_bound_pos. eapply wp_seq.
  { apply (update_loop_spec fuel new h r); [done | subst new; cbn [length]; lia | subst new; cbn [length]; lia |]. subst new. cbn [app].
    pose proof (timer_step _ _ _ Htimer (Call c_timer_get_us r) h).
    pose proof (timer_step _ _ _ Htimer (Wr (REG 4) (Z.lor ctl (BIT 31))) (Call c_timer_get_us r :: h)).
    pose proof (timer_step _ _ _ Htimer (Wr (REG 24) 2149588992)
      (Wr (REG 4) (Z.lor ctl (BIT 31)) :: Call c_timer_get_us r :: h)).
    lia. }
  intros late m1 h1 (-> & h2 & w & Hw & Hcase). destruct late.
  - destruct Hcase as (Hb & t & Ht & ->). apply wp_bind, wp_printf. intros q. apply wp_ret. split; [done|].
    eapply Clock_stuck; [exact Hw|done|done].
  - destruct Hcase as (Hb & ->). wp_steps. split; [done|]. eapply Clock_updated; [exact Hw|done].
Qed.

End Props.

Section Setting.
Context {C : Type} `{HPrint : HasPrintf C} `{HMmc : !HasMmcCalls C}.
Context (e : env C) (init : Z -> Z).

(** ** A bus setting *)

(** Latching the drive phase requires the module clock off. *)
Fixpoint phase_ok (h : history C) : Prop :=
  match h with
  | [] => True
  | Wr a v :: h =>
      (a = REG 0x140 -> Z.testbit (regval init h SDC2_CLK) 31 = false) /\ phase_ok h
  | _ :: h => phase_ok h
  end.

Lemma phase_ok_extends (P : Z -> Z -> Prop) h h' :
  extends P h h' -> (forall v, ~ P (REG 0x140) v) -> phase_ok h -> phase_ok h'.
Proof.
  intros (new & -> & Hnew) Hno Hh. induction new as [|ev new IH]; [done|].
  assert (phase_ok (new ++ h)) as IH'.
  { apply IH. intros a v [Hv|Hv]; apply Hnew; [left|right]; by right. }
  destruct ev as [| a v| | | |]; try exact IH'. split; [|exact IH'].
  intros ->. exfalso. apply (Hno v), Hnew. left. by left.
Qed.

Definition valid_setting (requested width ddr : Z) : bool :=
  (400000 <=? requested) && (requested <=? 12000000) && (ddr <=? 1)
  && ((width =? 1) || (width =? 4) || (width =? 8)).

Lemma sdr_divider_exact requested :
  400000 <= requested <= 12000000 ->
  let d := sdr_divider requested in
  1 <= d <= 30 /\ 12000000 <= d * requested /\ (d - 1) * requested < 12000000.
Proof.
  intros Hr. unfold sdr_divider. rewrite u32_small by lia.
  pose proof (Z.div_mod (12000000 + requested - 1) requested ltac:(lia)) as Hd.
  pose proof (Z.mod_pos_bound (12000000 + requested - 1) requested ltac:(lia)) as Hm.
  set (q := (12000000 + requested - 1) / requested) in *. cbv zeta. nia.
Qed.

(** ** What programming does *)

(** A register read, the bits of [clear] cleared, those of [set] set. *)
Definition masked (reg clear set : Z) (new : list (event C)) (h : history C) : Prop :=
  exists v, Rd reg v ∈ new /\ regval init h reg = Z.lor (Z.land v (cnot32 clear)) set.
(** The registers of the module and its clock that are written. *)
Definition module_regs (a v : Z) : Prop :=
  a = SDC2_CLK \/ a = REG 0x5c \/ a = REG 0x00 \/ a = REG 0x10c \/ a = REG 0x0c \/ a = REG 0x140 \/ a = REG 0x144 \/ a = REG 0x104.
(** The code of a bus width. *)
Definition width_code (width : Z) : Z := if width =? 8 then 2 else if width =? 4 then 1 else 0.

(** The module runs at 24 MHz through the divider [d] and a fixed half: the
    command phase is half a period, the data phase a quarter, the FIFO is
    bypassed and the double rate off. *)
Definition programmed (d width : Z) (h h' : history C) : Prop :=
  exists new, h' = new ++ h /\ extends module_regs h h' /\
    regval init h' SDC2_CLK = Z.lor 0x80000000 (d - 1) /\ regval init h' (REG 0x0c) = width_code width /\
    masked (REG 0x5c) (BIT 31) 0 new h' /\ masked (REG 0x00) (BIT 10) 0 new h' /\ masked (REG 0x10c) (BIT 31) 0 new h' /\
    masked (REG 0x140) (Z.lor (shl32 3 16) (BIT 7)) (BIT 16) new h' /\ masked (REG 0x144) 0x3f 0x80 new h' /\
    masked (REG 0x104) 0 1 new h'.

Lemma set_ios_program_spec d width (m : words) h :
  1 <= d <= 30 ->
  wp (set_ios_program d width) e m h
    (fun _ m' h' => m' = m /\ (phase_ok h -> phase_ok h') /\ programmed d width h h') total.
Proof.
  intros Hd. unfold set_ios_program, reg_update. rewrite (u32_small (d - 1)) by lia. wp_steps.
  split; [done|]. split.
  { intros Hp. assert (Z.testbit (d - 1) 31 = false) as Hoff by (apply (testbit_above 5); lia).
    cbn [phase_ok]. repeat split; try done. }
  eexists [_; _; _; _; _; _; _; _; _; _; _; _; _; _; _; _; _]. split; [reflexivity|].
  split; [unfold module_regs; writes; apply extends_refl|].
  split; [reflexivity|]. split; [reflexivity|].
  repeat (split; [eexists; split; [|reflexivity]; set_solver|]). eexists. split; [|reflexivity]. set_solver.
Qed.
End Setting.

(** What a bus setting may amount to, in terms of the structures' words. *)
Section Outcome.
Context {C : Type} `{HPrint : HasPrintf C} `{HMmc : !HasMmcCalls C} (init : Z -> Z) (mmc : Z) (m : words).
Let requested : Z := u32 (m (mmc + 0x48)).
Let width : Z := u32 (m (mmc + 0x44)).

(** The host's fatal flag is set, and that is printed. *)
Definition rejected : words := store (u32 (m (mmc + 0x20)) + 0x1c) 1 m.
Definition reports (h : history C) (h' : history C) : Prop :=
  exists q, h' = Call (printf_call "A7S SDC2: rejected clock setup req=%u width=%u\n" [N_ requested; N_ width]) q :: h.

Definition setting_ok : bool := valid_setting requested width (u32 (m (mmc + 0x104))).

(** The least divider whose clock does not exceed the request. *)
Definition divides (d : Z) : Prop := 1 <= d <= 30 /\ 12000000 / d <= requested /\ (d - 1) * requested < 12000000.

(** The outcomes: the card clock could not be stopped; it was, and that was all
    that was asked for; the setting is not one the driver supports; the card
    clock could not be started again; or the card runs. *)
Inductive ios_outcome (h : history C) : words -> history C -> Prop :=
| Not_stopped h1 h2 : clock_update 0 h (-1) h1 -> reports h1 h2 -> ios_outcome h rejected h2
| Stopped h1 : clock_update 0 h 0 h1 -> requested = 0 -> ios_outcome h m h1
| Unsupported h1 h2 : clock_update 0 h 0 h1 -> requested <> 0 -> setting_ok = false -> reports h1 h2 -> ios_outcome h rejected h2
| Not_started d h1 h2 h3 h4 : clock_update 0 h 0 h1 -> setting_ok = true -> divides d -> programmed init d width h1 h2 ->
    clock_update (BIT 16) h2 (-1) h3 -> reports h3 h4 -> ios_outcome h rejected h4
| Runs d h1 h2 h3 h4 ccu clk sfc q : clock_update 0 h 0 h1 -> setting_ok = true -> divides d -> programmed init d width h1 h2 ->
    clock_update (BIT 16) h2 0 h3 ->
    h4 = Call (printf_call "A7S SDC2: req=%u actual=%u width=%u CCU=%08x CLK=%08x SFC=%08x\n"
                 [N_ requested; N_ (12000000 / d); N_ width; N_ ccu; N_ clk; N_ sfc]) q ::
         Rd (REG 0x104) sfc :: Rd (REG 0x04) clk :: Rd SDC2_CLK ccu :: h3 ->
    ios_outcome h (store (mmc + 0x48) (12000000 / d) m) h4.
End Outcome.

Section Outcomes.
Context {C : Type} `{HPrint : HasPrintf C} `{HMmc : !HasMmcCalls C} (e : env C) (init : Z -> Z).

Lemma update_keeps_phase (h h' : history C) : extends update_regs h h' -> phase_ok init h -> phase_ok init h'.
Proof. intros Hx. eapply phase_ok_extends; [exact Hx|]. by intros v [|[|]]. Qed.

Lemma set_ios_failed_spec (m : words) mmc (h : history C) :
  wp (set_ios_failed (u32 (m (mmc + 0x20))) (u32 (m (mmc + 0x48))) (u32 (m (mmc + 0x44)))) e m h
    (fun _ m' h' => m' = rejected mmc m /\ reports mmc m h h' /\ (phase_ok init h -> phase_ok init h')) total.
Proof.
  unfold set_ios_failed, MMC_WORD_set. wp_steps. apply wp_printf. intros q. split; [done|]. split; [by exists q|done].
Qed.

(** The test between the two updates of the clock decides [setting_ok]. *)
Lemma setting_test (m : words) mmc (h : history C) :
  let requested := u32 (m (mmc + 0x48)) in
  wp (if (requested <? 400000) || (12000000 <? requested) then ret true
      else
        let! ddr := MMC_WORD mmc 0x104 in
        let width := u32 (m (mmc + 0x44)) in
        ret ((1 <? ddr) || negb (width =? 1) && negb (width =? 4) && negb (width =? 8))) e m h
    (fun bad m' h' => m' = m /\ h' = h /\ bad = negb (setting_ok mmc m)) total.
Proof.
  intros requested. unfold setting_ok, valid_setting. fold requested.
  destruct ((requested <? 400000) || (12000000 <? requested)) eqn:Er.
  - apply wp_ret. split; [done|]. split; [done|].
    apply orb_true_iff in Er as [Er|Er]; [replace (400000 <=? requested) with false by lia; done|].
    replace (requested <=? 12000000) with false by lia. by rewrite andb_false_r.
  - apply orb_false_iff in Er as [E1 E2]. unfold MMC_WORD. wp_steps. split; [done|]. split; [done|].
    replace (400000 <=? requested) with true by lia.
    replace (requested <=? 12000000) with true by lia. cbn [andb].
    rewrite Z.ltb_antisym, negb_andb, !negb_orb. done.
Qed.

End Outcomes.

(** C12: under a running timer and enough fuel for the 100 ms limit, a bus
    setting always returns, whatever the controller's status bits do, in one of
    five ways.  It first has the card clock stopped; a request for no clock ends
    there.  An unsupported setting is rejected, and so is one whose stop or start
    of the clock is still busy after 100 ms: the host's fatal flag is set.
    Otherwise the module is programmed for the bus width and the fastest rate
    that does not exceed the request, the card clock is started, and the
    structure records the rate.  The drive phase is only latched with the module
    clock off. *)
Theorem mmc2_set_ios_outcome {C} `{HPrint : HasPrintf C} `{HMmc : !HasMmcCalls C}
  (e : env C) (init : Z -> Z) clock N fuel mmc (m : words) h :
  running_timer e clock N -> (poll_bound N + 2 <= fuel)%nat ->
  wp (a7s_mmc2_set_ios fuel mmc) e m h
    (fun _ m' h' => ios_outcome init mmc m h m' h' /\ (phase_ok init h -> phase_ok init h')) total.
Proof.
  intros Ht Hfuel. unfold a7s_mmc2_set_ios, MMC_WORD at 1 2 3. wp_steps.
  eapply wp_mono; [by apply (update_clock_spec e clock N Ht)|]. intros r1 m1 h1 (-> & H1).
  pose proof (update_keeps_phase init _ _ (clock_update_extends _ _ _ _ H1)) as Hp1.
  destruct H1 as [t0 w v h1|t0 w t h1 q]; cbn [nonzero Z.eqb negb]; cycle 1.
  { eapply wp_mono; [apply set_ios_failed_spec|]. intros _ m2 h2 (-> & H2 & Hp2). split; [|auto].
    eapply Not_stopped; [by eapply Clock_stuck|done]. }
  assert (clock_update 0 h 0 (Wr (REG 4) 0 :: Wr (REG 56) v :: Rd (REG 56) v :: Rd (REG 24) w :: h1)) as H1 by by eapply Clock_updated.
  revert H1 Hp1. generalize (Wr (REG 4) 0 :: Wr (REG 56) v :: Rd (REG 56) v :: Rd (REG 24) w :: h1). clear -Ht Hfuel. intros h1 H1 Hp1.
  destruct (Z.eqb_spec (u32 (m (mmc + 72))) 0) as [E0|E0].
  { apply wp_ret. split; [by apply Stopped|exact Hp1]. }
  eapply wp_seq; [apply setting_test|].
  intros bad m2 h2 (-> & -> & ->). destruct (setting_ok mmc m) eqn:Eok; cbn [negb]; cycle 1.
  { eapply wp_mono; [apply (set_ios_failed_spec e init)|]. intros _ m2 h2 (-> & H2 & Hp2). split; [by eapply Unsupported|auto]. }
  assert (400000 <= u32 (m (mmc + 72)) <= 12000000) as Hreq by (unfold setting_ok, valid_setting in Eok; lia).
  destruct (sdr_divider_exact _ Hreq) as (Hd & Hlo & Hhi). set (d := sdr_divider _) in *.
  assert (divides mmc m d) as Hdiv by (split; [done|]; split; [apply Z.div_le_upper_bound; lia|done]).
  eapply wp_seq; [by apply (set_ios_program_spec e init)|]. intros [] m3 h3 (-> & Hp3 & Hprog).
  eapply wp_seq; [by apply (update_clock_spec e clock N Ht)|]. intros r4 m4 h4 (-> & H4).
  pose proof (update_keeps_phase init _ _ (clock_update_extends _ _ _ _ H4)) as Hp4.
  assert (r4 = 0 \/ r4 = -1) as [-> | ->] by (destruct H4; auto); cbn [nonzero Z.eqb negb]; cycle 1.
  { eapply wp_mono; [apply (set_ios_failed_spec e init)|]. intros _ m5 h5 (-> & H5 & Hp5). split; [by eapply Not_started|auto]. }
  unfold MMC_WORD_set, MMC_WORD. wp_steps. apply wp_printf. intros q. split; [|cbn [phase_ok]; auto].
  eapply Runs; try done. unfold store at 1. rewrite Z.eqb_refl.
  assert (0 <= 12000000 / d <= 12000000) as Hrate by (split; [apply Z.div_pos; lia|apply Z.div_le_upper_bound; lia]).
  by rewrite !(u32_small (12000000 / d)) by lia.
Qed.

(** A timer that advances one microsecond per access, a controller that is
    never busy. *)
Inductive mmc_call := MmcPrint (fmt : string) (args : list parg) | MmcTimer | MmcInit (mmc : Z).
#[export] Instance mmc_call_printf : HasPrintf mmc_call := MmcPrint.
#[export] Instance mmc_call_calls : HasMmcCalls mmc_call :=
  {| c_timer_get_us := MmcTimer; c_mmc_init := MmcInit |}.

Definition ticking (h : history mmc_call) : Z := Z.of_nat (length h).
Definition ticking_env : env mmc_call :=
  Env (fun _ _ => 0) (fun h _ => ticking h) (fun _ _ => []).

Lemma ticking_running : running_timer ticking_env ticking 1.
Proof.
  split; unfold ticking.
  - done.
  - intros ev h. cbn [length]. lia.
  - intros new h Hl. rewrite length_app. lia.
Qed.

(** A structure at 0x1000 asking for 5 MHz on four wires; host at 0x2000. *)
Definition sample_mmc : words := fun a =>
  if a =? 0x1048 then 5000000 else if a =? 0x1044 then 4 else if a =? 0x1020 then 0x2000 else 0.

Lemma mmc2_set_ios_outcome_witness :
  wp (a7s_mmc2_set_ios (poll_bound 1 + 2) 0x1000) ticking_env sample_mmc [] (fun _ m' h' =>
    (ios_outcome (fun _ => 0) 0x1000 sample_mmc [] m' h' /\ phase_ok (fun _ => 0) h') /\
    m' 0x1048 = 4000000 /\ m' 0x201c = 0) total.
Proof.
  assert (wp (a7s_mmc2_set_ios (poll_bound 1 + 2) 0x1000) ticking_env sample_mmc []
    (fun _ m' _ => m' 0x1048 = 4000000 /\ m' 0x201c = 0) total) as Hrun by by vm_compute.
  pose proof (mmc2_set_ios_outcome ticking_env (fun _ => 0) ticking 1 (poll_bound 1 + 2) 0x1000 sample_mmc []
    ticking_running (le_n _)) as H.
  revert Hrun H. unfold wp. destruct (a7s_mmc2_set_ios (poll_bound 1 + 2) 0x1000 ticking_env sample_mmc []); [|done].
  intros Hrun [H Hp]. split; [split; [exact H|by apply Hp]|exact Hrun].
Defined.
