(* ===== verification/HwConfig.v ===== *)
(** * Patching HW_CONFIG (src/src/hw_config_a733.c)

    The trained DRAM parameters are written into the device tree the AR100S
    firmware will read.  The tree operations belong to libfdt
    (src/ar100s/library/libfdt), a component of its own: they are an interface
    here, with the laws the client relies on, and the client is verified
    against the interface.  Libfdt.v implements it with the library's own
    functions on bytes; the small tree at the end of this file is a second
    instance. *)

From Stdlib Require Import Ascii String.
From S2P Require Import Prelude.
From stdpp Require Import strings.

Local Open Scope list_scope.
Local Open Scope Z_scope.

(** ** The interface *)

(** Operations on a tree [T]; lengths, offsets and statuses are C integers.
    [fdt_getprop] returns the property's bytes, [None] when there is none. *)
Class FdtOps (T : Type) := {
  fdt_check_header : T -> Z;
  fdt_totalsize : T -> Z;
  fdt_path_offset : T -> string -> Z;
  fdt_getprop : T -> Z -> string -> option (list Z);
  fdt_setprop_inplace_u32 : T -> Z -> string -> Z -> Z * T
}.

(** The bytes of a big-endian 32-bit cell. *)
Definition cell_bytes (v : Z) : list Z :=
  [Z.shiftr (u32 v) 24 mod 256; Z.shiftr (u32 v) 16 mod 256;
   Z.shiftr (u32 v) 8 mod 256; u32 v mod 256].

(** A path from the root, as a C string. *)
Definition absolute (path : string) : Prop :=
  (exists p, path = String "/" p) /\ Forall (fun c => c <> Ascii.zero) (list_ascii_of_string path) /\
  Z.of_nat (String.length path) < 2 ^ 31 - 1.
(** A node some path leads to. *)
Definition leads {T} `{FdtOps T} (t : T) (node : Z) : Prop :=
  0 <= node /\ exists path, absolute path /\ fdt_path_offset t path = node.

(** What the client expects of an update in place of a property of four bytes,
    on the trees the library calls sound: it succeeds, that property holds the
    cell, nothing else changes. *)
Class FdtLaws (T : Type) `{FdtOps T} := {
  fdt_sound : T -> Prop;
  setprop_sound : forall t node name v, fdt_sound t -> leads t node ->
    fdt_sound (snd (fdt_setprop_inplace_u32 t node name v));
  setprop_ok : forall t node name v bs, fdt_sound t -> leads t node ->
    fdt_getprop t node name = Some bs -> length bs = 4%nat ->
    fst (fdt_setprop_inplace_u32 t node name v) = 0;
  setprop_get : forall t node name v, fdt_sound t -> leads t node ->
    fst (fdt_setprop_inplace_u32 t node name v) = 0 ->
    fdt_getprop (snd (fdt_setprop_inplace_u32 t node name v)) node name = Some (cell_bytes v);
  setprop_frame : forall t node name v node' name', fdt_sound t -> leads t node -> leads t node' ->
    node' <> node \/ name' <> name ->
    fdt_getprop (snd (fdt_setprop_inplace_u32 t node name v)) node' name'
    = fdt_getprop t node' name';
  setprop_paths : forall t node name v path, fdt_sound t -> leads t node -> absolute path ->
    fdt_path_offset (snd (fdt_setprop_inplace_u32 t node name v)) path = fdt_path_offset t path;
  setprop_header : forall t node name v, fdt_sound t -> leads t node ->
    fdt_check_header (snd (fdt_setprop_inplace_u32 t node name v)) = fdt_check_header t
}.

(** ** The update *)

Definition A733_DRAM_PARA_COUNT : Z := 96.

(** [property[9] = '0' + index / 10; property[10] = '0' + index % 10;] *)
Definition digit (z : Z) : ascii := ascii_of_nat (Z.to_nat (48 + z)).
Definition dram_para_name (index : Z) : string :=
  String.append "dram_para" (String (digit (index / 10)) (String (digit (index mod 10)) EmptyString)).

Section Update.
Context {T : Type} `{FdtOps T}.

(** The [for] loop, from [index], over the parameters that are left; true is
    a [return -1]. *)
Fixpoint update_loop (fdt : T) (node index : Z) (paras : list Z) : bool * T :=
  match paras with
  | [] => (false, fdt)
  | v :: paras =>
      match fdt_getprop fdt node (dram_para_name index) with
      | None => (true, fdt)
      | Some bs =>
          if negb (Z.of_nat (length bs) =? 4) then (true, fdt)
          else
            let '(r, fdt) := fdt_setprop_inplace_u32 fdt node (dram_para_name index) v in
            if negb (r =? 0) then (true, fdt) else update_loop fdt node (index + 1) paras
      end
  end.

(** [None] pointers are null; the result is the status and the tree.  The
    array has the [count] elements its caller promises. *)
Definition a733_hw_config_update_dram (fdt : option T) (loaded_size : Z)
  (dram_para : option (list Z)) (count : Z) : Z * option T :=
  match fdt, dram_para with
  | Some t, Some paras =>
      if negb (count =? A733_DRAM_PARA_COUNT) || negb (fdt_check_header t =? 0)
         || (loaded_size <? fdt_totalsize t)
      then (-1, fdt)
      else
        let node := fdt_path_offset t "/dram" in
        if node <? 0 then (-1, fdt)
        else
          let '(bad, t) := update_loop t node 0 (take (Z.to_nat A733_DRAM_PARA_COUNT) paras) in
          (if bad then -1 else 0, Some t)
  | _, _ => (-1, fdt)
  end.
End Update.

(** ** Properties *)

Section Props.
Context {T : Type} `{HOps : FdtOps T} `{HLaws : !FdtLaws T}.

Lemma digit_inj a b : 0 <= a < 10 -> 0 <= b < 10 -> digit a = digit b -> a = b.
Proof.
  intros Ha Hb He. unfold digit in He. apply (f_equal nat_of_ascii) in He.
  rewrite !nat_ascii_embedding in He by lia. lia.
Qed.

(** Property names of different parameters differ. *)
Lemma dram_para_name_inj i j :
  0 <= i < 96 -> 0 <= j < 96 -> dram_para_name i = dram_para_name j -> i = j.
Proof.
  intros Hi Hj He. unfold dram_para_name in He. cbn [String.append] in He.
  injection He as Hd Hm.
  assert (0 <= i / 10 < 10) by (split; [apply Z.div_pos | apply Z.div_lt_upper_bound]; lia).
  assert (0 <= j / 10 < 10) by (split; [apply Z.div_pos | apply Z.div_lt_upper_bound]; lia).
  pose proof (Z.mod_pos_bound i 10). pose proof (Z.mod_pos_bound j 10).
  apply digit_inj in Hd, Hm; [|lia..].
  rewrite (Z.div_mod i 10), (Z.div_mod j 10) by lia. congruence.
Qed.

(** Every parameter from [index] on has a property of one cell. *)
Definition cells_present (t : T) (node index : Z) (n : nat) : Prop :=
  forall k, index <= k < index + Z.of_nat n ->
    exists bs, fdt_getprop t node (dram_para_name k) = Some bs /\ length bs = 4%nat.

Lemma dram_absolute : absolute "/dram".
Proof. split; [by exists "dram"%string|]. split; [by repeat constructor|done]. Qed.
Lemma dram_leads t : 0 <= fdt_path_offset t "/dram" -> leads t (fdt_path_offset t "/dram").
Proof. intros H. split; [done|]. exists "/dram"%string. split; [apply dram_absolute|done]. Qed.

Lemma setprop_leads t node name v node' : fdt_sound t -> leads t node -> leads t node' ->
  leads (snd (fdt_setprop_inplace_u32 t node name v)) node'.
Proof. intros Hs Hn (H0 & path & Hp & He). split; [done|]. exists path. split; [done|]. by rewrite setprop_paths. Qed.

Lemma dram_loop_spec paras t node index : fdt_sound t -> leads t node ->
  0 <= index -> index + Z.of_nat (length paras) <= 96 ->
  let '(bad, t') := update_loop t node index paras in
  (bad = false <-> cells_present t node index (length paras)) /\
  (bad = false -> forall k v, paras !! k = Some v ->
     fdt_getprop t' node (dram_para_name (index + Z.of_nat k)) = Some (cell_bytes v)) /\
  (forall node' name, leads t node' -> (node' <> node \/
     forall k, index <= k < index + Z.of_nat (length paras) -> name <> dram_para_name k) ->
     fdt_getprop t' node' name = fdt_getprop t node' name).
Proof.
  revert t index. induction paras as [|v paras IH]; intros t index Hs Hn0 H0 Hlen; cbn [update_loop].
  - split; [|split; [|done]].
    + split; [|done]. intros _ k Hk. cbn [length] in Hk. lia.
    + intros _ k v Hv. by rewrite lookup_nil in Hv.
  - cbn [length] in Hlen.
    assert (forall t', cells_present t' node index (length (v :: paras)) ->
      exists bs, fdt_getprop t' node (dram_para_name index) = Some bs /\ length bs = 4%nat) as Hfirst
      by (intros t' Hc; apply Hc; cbn [length]; lia).
    destruct (fdt_getprop t node (dram_para_name index)) as [bs|] eqn:Eg.
    2:{ split; [|done]. split; [done|]. intros Hc. destruct (Hfirst t Hc) as (bs & E & _). congruence. }
    destruct (Z.eqb_spec (Z.of_nat (length bs)) 4) as [E4|E4]; cbn [negb].
    2:{ split; [|done]. split; [done|]. intros Hc. destruct (Hfirst t Hc) as (bs' & E & ?).
        exfalso. apply E4. rewrite E in Eg. simplify_eq. lia. }
    pose proof (setprop_ok t node (dram_para_name index) v bs Hs Hn0 Eg ltac:(lia)) as Hok.
    pose proof (setprop_get t node (dram_para_name index) v Hs Hn0 Hok) as Hget.
    pose proof (fun node' name' => setprop_frame t node (dram_para_name index) v node' name' Hs Hn0) as Hframe.
    pose proof (setprop_sound t node (dram_para_name index) v Hs Hn0) as Hs1.
    pose proof (fun node' => setprop_leads t node (dram_para_name index) v node' Hs Hn0) as Hleads.
    destruct (fdt_setprop_inplace_u32 t node (dram_para_name index) v) as [r t1].
    cbn [fst snd] in *. subst r. cbn [Z.eqb negb].
    specialize (IH t1 (index + 1) Hs1 (Hleads node Hn0) ltac:(lia) ltac:(lia)).
    destruct (update_loop t1 node (index + 1) paras) as [bad t']. destruct IH as (Hbad & Hset & Hkeep).
    assert (forall k, index < k < index + 1 + Z.of_nat (length paras) ->
      fdt_getprop t1 node (dram_para_name k) = fdt_getprop t node (dram_para_name k)) as Hlater.
    { intros k Hk. apply Hframe; [done|]. right. intros E. apply dram_para_name_inj in E; lia. }
    split; [|split].
    + rewrite Hbad. split; intros Hc k Hk; cbn [length] in Hk.
      * destruct (Z.eq_dec k index) as [->|]; [exists bs; split; [done|lia]|].
        rewrite <- Hlater by lia. apply Hc. lia.
      * rewrite Hlater by lia. apply Hc. cbn [length]. lia.
    + intros -> [|k] v' Hv; cbn in Hv.
      * simplify_eq. rewrite Z.add_0_r, Hkeep; [done|by apply Hleads|]. right. intros k Hk E.
        apply dram_para_name_inj in E; lia.
      * replace (index + Z.of_nat (S k)) with (index + 1 + Z.of_nat k) by lia. by apply Hset.
    + intros node' name Hl Hn. rewrite Hkeep, Hframe; [done|done| |by apply Hleads|].
      * destruct Hn as [|Hn]; [by left|]. right. apply Hn. cbn [length]. lia.
      * destruct Hn as [|Hn]; [by left|]. right. intros k Hk. apply Hn. cbn [length]. lia.
Qed.

(** The rest of the tree's shape. *)
Lemma update_loop_shape paras t node index : fdt_sound t -> leads t node -> let t' := snd (update_loop t node index paras) in
  (forall path, absolute path -> fdt_path_offset t' path = fdt_path_offset t path) /\ fdt_check_header t' = fdt_check_header t.
Proof.
  revert t index. induction paras as [|v paras IH]; intros t index Hs Hn; cbn [update_loop snd]; [done|].
  destruct (fdt_getprop t node (dram_para_name index)) as [bs|]; [|done]. destruct (negb _); [done|].
  pose proof (fun path => setprop_paths t node (dram_para_name index) v path Hs Hn) as Hp.
  pose proof (setprop_header t node (dram_para_name index) v Hs Hn) as Hh.
  pose proof (setprop_sound t node (dram_para_name index) v Hs Hn) as Hs1.
  pose proof (setprop_leads t node (dram_para_name index) v node Hs Hn Hn) as Hn1.
  destruct (fdt_setprop_inplace_u32 t node (dram_para_name index) v) as [r t1]. cbn [snd] in *. destruct (negb _); [done|].
  destruct (IH t1 (index + 1) Hs1 Hn1) as [Hp' Hh']. split; [intros path Ha; by rewrite Hp', Hp|by rewrite Hh'].
Qed.
End Props.

(** the update reports success exactly when the arguments are sound (96
    parameters, a valid tree that fits the loaded image, a /dram node) and every
    dram_paraNN property exists with four bytes; then each holds its parameter,
    big endian, and no other property of the tree has changed. *)
Theorem update_dram_exact {T} `{HOps : FdtOps T} `{HLaws : !FdtLaws T}
  (t : T) loaded_size paras count :
  fdt_sound t -> length paras = 96%nat ->
  let node := fdt_path_offset t "/dram" in
  let '(r, t') := a733_hw_config_update_dram (Some t) loaded_size (Some paras) count in
  (r = 0 \/ r = -1) /\
  (r = 0 <-> count = 96 /\ fdt_check_header t = 0 /\ fdt_totalsize t <= loaded_size /\
             0 <= node /\ cells_present t node 0 96) /\
  (r = 0 -> exists t'', t' = Some t'' /\
     (forall k v, paras !! k = Some v ->
        fdt_getprop t'' node (dram_para_name (Z.of_nat k)) = Some (cell_bytes v)) /\
     (forall node' name, leads t node' ->
        (node' <> node \/ forall k, 0 <= k < 96 -> name <> dram_para_name k) ->
        fdt_getprop t'' node' name = fdt_getprop t node' name)).
Proof.
  intros Hs Hlen. cbv zeta. unfold a733_hw_config_update_dram, A733_DRAM_PARA_COUNT.
  destruct (Z.eqb_spec count 96) as [->|]; cbn [negb orb]; [|split; [by right|]; split; [|done]; lia].
  destruct (Z.eqb_spec (fdt_check_header t) 0); cbn [negb orb]; [|split; [by right|]; split; [|done]; lia].
  destruct (Z.ltb_spec loaded_size (fdt_totalsize t)); [split; [by right|]; split; [|done]; lia|].
  destruct (Z.ltb_spec (fdt_path_offset t "/dram") 0); [split; [by right|]; split; [|done]; lia|].
  rewrite take_ge by (rewrite Hlen; lia).
  pose proof (dram_loop_spec paras t (fdt_path_offset t "/dram") 0 Hs ltac:(by apply dram_leads) ltac:(lia) ltac:(lia)) as Hspec.
  destruct (update_loop t _ 0 paras) as [bad t']. rewrite Hlen in Hspec.
  destruct Hspec as (Hbad & Hset & Hkeep). destruct bad.
  - split; [by right|]. split; [|done]. split; [done|]. intros (_ & _ & _ & _ & Hc).
    by apply Hbad in Hc.
  - split; [by left|]. split; [split; [|done]; intros _; repeat (split; [done || lia|]); by apply Hbad|].
    intros _. exists t'. split; [done|]. split; [|exact Hkeep].
    intros k v Hv. by apply Hset.
Qed.

(** A tree that satisfies the laws: one node, its properties in a list. *)
Definition toy_tree : Type := list (string * list Z).
Fixpoint toy_get (t : toy_tree) (name : string) : option (list Z) :=
  match t with
  | [] => None
  | (n, bs) :: t => if String.eqb n name then Some bs else toy_get t name
  end.
Fixpoint toy_set (t : toy_tree) (name : string) (bs : list Z) : toy_tree :=
  match t with
  | [] => []
  | (n, b) :: t => if String.eqb n name then (n, bs) :: t else (n, b) :: toy_set t name bs
  end.

#[export] Instance toy_ops : FdtOps toy_tree := {|
  fdt_check_header _ := 0;
  fdt_totalsize _ := 0;
  fdt_path_offset _ _ := 0;
  fdt_getprop t node name := if node =? 0 then toy_get t name else None;
  fdt_setprop_inplace_u32 t node name v :=
    if node =? 0 then
      match toy_get t name with
      | Some bs => if (length bs =? 4)%nat then (0, toy_set t name (cell_bytes v)) else (-1, t)
      | None => (-1, t)
      end
    else (-1, t)
|}.

Lemma toy_get_set t name bs old :
  toy_get t name = Some old -> toy_get (toy_set t name bs) name = Some bs.
Proof.
  induction t as [|[n b] t IH]; cbn; [done|].
  destruct (String.eqb n name) eqn:E; cbn; rewrite E; [done | exact IH].
Qed.

Lemma toy_get_set_ne t name name' bs :
  name' <> name -> toy_get (toy_set t name bs) name' = toy_get t name'.
Proof.
  intros Hne. induction t as [|[n b] t IH]; cbn; [done|].
  destruct (String.eqb n name) eqn:E; cbn.
  - apply String.eqb_eq in E as ->. by destruct (String.eqb_spec name name'); [congruence|].
  - by destruct (String.eqb n name').
Qed.

#[export, refine] Instance toy_laws : FdtLaws toy_tree := {| fdt_sound _ := True |}.
Proof.
  - done.
  - intros t node name v bs _ _ Hg Hl. cbn in *. destruct (node =? 0); [|done].
    by rewrite Hg, Hl.
  - intros t node name v _ _. cbn. destruct (node =? 0) eqn:En; [|done].
    destruct (toy_get t name) as [bs|] eqn:Eg; [|done].
    destruct (length bs =? 4)%nat; [|done]. intros _. cbn. by eapply toy_get_set.
  - intros t node name v node' name' _ _ _ Hne. cbn.
    destruct (Z.eqb_spec node' 0) as [->|]; [|done]. destruct (Z.eqb_spec node 0) as [->|]; [|done].
    destruct Hne as [|Hne]; [done|].
    destruct (toy_get t name) as [bs|]; [|done]. destruct (length bs =? 4)%nat; [|done].
    by apply toy_get_set_ne.
  - done.
  - done.
Defined.

Definition toy_sample : toy_tree :=
  map (fun k => (dram_para_name (Z.of_nat k), [0; 0; 0; 0])) (seq 0 96).

Lemma update_dram_exact_witness :
  length (repeat 7 96) = 96%nat /\
  let '(r, t') := a733_hw_config_update_dram (Some toy_sample) 0 (Some (repeat 7 96)) 96 in
  r = 0 \/ r = -1.
Proof.
  split; [reflexivity|].
  pose proof (update_dram_exact toy_sample 0 (repeat 7 96) 96 I eq_refl) as H.
  cbv zeta in H. destruct (a733_hw_config_update_dram (Some toy_sample) 0 (Some (repeat 7 96)) 96) as [r t'].
  exact (proj1 H).
Defined.

Example toy_update_succeeds :
  fst (a733_hw_config_update_dram (Some toy_sample) 0 (Some (repeat 7 96)) 96) = 0.
Proof. vm_compute. reflexivity. Qed.
