(* ===== verification/Fdt.v ===== *)
(** * The device tree library
    (src/ar100s/library/libfdt: fdt.c, fdt_ro.c, fdt_wip.c, fdt_addresses.c,
    fdt_strerror.c, libfdt_internal.h, and the accessors of libfdt.h)

    boot0 and the AR100 firmware both link it.  A blob is its address and its
    bytes.  A pointer is a 32-bit address, 0 the null pointer; an [int *] or
    [char **] a function stores through is a second result, which a caller that
    passes NULL ignores.  [None] is an access outside the blob, or a loop that
    ran as often as the blob has bytes and would go on. *)

From Stdlib Require Import Ascii String.
From S2P Require Import Prelude.

Local Open Scope list_scope.
Local Open Scope Z_scope.

(** ** Constants of fdt.h and libfdt.h *)

Definition FDT_MAGIC : Z := 0xd00dfeed.
Definition FDT_SW_MAGIC : Z := cnot32 FDT_MAGIC.
Definition FDT_TAGSIZE : Z := 4.
Definition FDT_BEGIN_NODE : Z := 0x1.
Definition FDT_END_NODE : Z := 0x2.
Definition FDT_PROP : Z := 0x3.
Definition FDT_NOP : Z := 0x4.
Definition FDT_END : Z := 0x9.
Definition FDT_FIRST_SUPPORTED_VERSION : Z := 0x10.
Definition FDT_LAST_SUPPORTED_VERSION : Z := 0x11.
Definition FDT_NODE_OKAY : Z := 1.
Definition FDT_NODE_DISABLED : Z := 0.
Definition FDT_MAX_NCELLS : Z := 4.

Definition FDT_ERR_NOTFOUND : Z := 1.
Definition FDT_ERR_NOSPACE : Z := 3.
Definition FDT_ERR_BADOFFSET : Z := 4.
Definition FDT_ERR_BADPATH : Z := 5.
Definition FDT_ERR_BADPHANDLE : Z := 6.
Definition FDT_ERR_BADSTATE : Z := 7.
Definition FDT_ERR_TRUNCATED : Z := 8.
Definition FDT_ERR_BADMAGIC : Z := 9.
Definition FDT_ERR_BADVERSION : Z := 10.
Definition FDT_ERR_BADSTRUCTURE : Z := 11.
Definition FDT_ERR_BADLAYOUT : Z := 12.
Definition FDT_ERR_INTERNAL : Z := 13.
Definition FDT_ERR_BADNCELLS : Z := 14.
Definition FDT_ERR_BADVALUE : Z := 15.

(** [FDT_TAGALIGN], a [size_t] made an [int]. *)
Definition FDT_TAGALIGN (x : Z) : Z := s32 (Z.land (u32 (x + FDT_TAGSIZE - 1)) (cnot32 (FDT_TAGSIZE - 1))).

(** ** The blob and the C library on it *)

Record fdt := Fdt { fdt_at : Z; fdt_bytes : list Z }.

(** Loops end before they have looked at every byte. *)
Definition loop_bound (t : fdt) : nat := Datatypes.S (length (fdt_bytes t)).

Definition load8 (t : fdt) (p : Z) : option Z := ld8 (fdt_bytes t) (p - fdt_at t).
Definition load_bytes (t : fdt) (p n : Z) : option (list Z) := slice (fdt_bytes t) (p - fdt_at t) n.
Definition store_bytes (t : fdt) (p : Z) (bs : list Z) : option fdt :=
  let? _ := load_bytes t p (Z.of_nat (length bs)) in
  let i := Z.to_nat (p - fdt_at t) in
  Some (Fdt (fdt_at t) (take i (fdt_bytes t) ++ bs ++ drop (i + length bs) (fdt_bytes t))).

(** The bytes of the string at [p], without its terminator. *)
Fixpoint string_at (fuel : nat) (t : fdt) (p : Z) : option (list Z) :=
  match fuel with
  | O => None
  | Datatypes.S fuel =>
      let? c := load8 t p in
      if c =? 0 then Some [] else let? cs := string_at fuel t (p + 1) in Some (c :: cs)
  end.
Definition c_string (t : fdt) (p : Z) : option (list Z) := string_at (loop_bound t) t p.
Definition strlen (t : fdt) (p : Z) : option Z := let? s := c_string t p in Some (Z.of_nat (length s)).
(** [memcmp] with bytes of its caller: are they different?  This is the C
    library's, for which no bytes are equal to no bytes; the firmware's own
    ([StringLib.memcmp]) reads on when there are none
    ([StringLibProps.memcmp_zero]), which here concerns empty names only. *)
Definition memcmp (t : fdt) (p : Z) (s : list Z) : option bool :=
  let? bs := load_bytes t p (Z.of_nat (length s)) in Some (negb (bool_decide (bs = s))).
(** [memchr (p, 0, n)]; 0 when there is none. *)
Fixpoint memchr_nul (n : nat) (t : fdt) (p : Z) : option Z :=
  match n with
  | O => Some 0
  | Datatypes.S n => let? c := load8 t p in if c =? 0 then Some p else memchr_nul n t (p + 1)
  end.
Fixpoint strnlen (n : nat) (t : fdt) (p : Z) : option Z :=
  match n with
  | O => Some 0
  | Datatypes.S n => let? c := load8 t p in if c =? 0 then Some 0 else let? k := strnlen n t (p + 1) in Some (k + 1)
  end.
(** [strncmp (p, s, n) == 0] for a string [s] of the caller. *)
Fixpoint strncmp_eq (n : nat) (t : fdt) (p : Z) (s : list Z) : option bool :=
  match n with
  | O => Some true
  | Datatypes.S n =>
      let? c := load8 t p in
      if negb (c =? hd 0 s) then Some false
      else if c =? 0 then Some true
      else strncmp_eq n t (p + 1) (tl s)
  end.

(** A string literal, without its terminator. *)
Definition chars (s : string) : list Z := map (fun c => Z.of_nat (nat_of_ascii c)) (list_ascii_of_string s).

(** [fdt32_to_cpu ( *p)], [fdt64_to_cpu ( *p)] *)
Definition fdt32_to_cpu (t : fdt) (p : Z) : option Z :=
  let? b0 := load8 t p in
  let? b1 := load8 t (p + 1) in
  let? b2 := load8 t (p + 2) in
  let? b3 := load8 t (p + 3) in
  Some (Z.lor (Z.lor (Z.lor (Z.shiftl b0 24) (Z.shiftl b1 16)) (Z.shiftl b2 8)) b3).
Definition fdt64_to_cpu (t : fdt) (p : Z) : option Z :=
  let? high := fdt32_to_cpu t p in
  let? low := fdt32_to_cpu t (p + 4) in
  Some (Z.lor (Z.shiftl high 32) low).
Definition cpu_to_fdt32 (x : Z) : list Z :=
  [Z.land (Z.shiftr x 24) 0xff; Z.land (Z.shiftr x 16) 0xff; Z.land (Z.shiftr x 8) 0xff; Z.land x 0xff].

(** ** The header (libfdt.h) *)

Definition fdt_get_header (t : fdt) (field : Z) : option Z := fdt32_to_cpu t (fdt_at t + field).
Definition fdt_magic (t : fdt) : option Z := fdt_get_header t 0.
Definition fdt_totalsize (t : fdt) : option Z := fdt_get_header t 4.
Definition fdt_off_dt_struct (t : fdt) : option Z := fdt_get_header t 8.
Definition fdt_off_dt_strings (t : fdt) : option Z := fdt_get_header t 12.
Definition fdt_off_mem_rsvmap (t : fdt) : option Z := fdt_get_header t 16.
Definition fdt_version (t : fdt) : option Z := fdt_get_header t 20.
Definition fdt_last_comp_version (t : fdt) : option Z := fdt_get_header t 24.
Definition fdt_size_dt_strings (t : fdt) : option Z := fdt_get_header t 32.
Definition fdt_size_dt_struct (t : fdt) : option Z := fdt_get_header t 36.

(** ** fdt.c *)

Definition fdt_check_header (t : fdt) : option Z :=
  let? magic := fdt_magic t in
  if magic =? FDT_MAGIC then
    let? version := fdt_version t in
    if version <? FDT_FIRST_SUPPORTED_VERSION then Some (- FDT_ERR_BADVERSION)
    else
      let? last := fdt_last_comp_version t in
      if FDT_LAST_SUPPORTED_VERSION <? last then Some (- FDT_ERR_BADVERSION) else Some 0
  else if magic =? FDT_SW_MAGIC then
    let? n := fdt_size_dt_struct t in
    if n =? 0 then Some (- FDT_ERR_BADSTATE) else Some 0
  else Some (- FDT_ERR_BADMAGIC).

(** [FDT_CHECK_HEADER]: what follows runs when the header is sound. *)
Definition FDT_CHECK_HEADER (t : fdt) (k : option Z) : option Z :=
  let? err := fdt_check_header t in if negb (err =? 0) then Some err else k.

Definition _fdt_offset_ptr (t : fdt) (offset : Z) : option Z :=
  let? off := fdt_off_dt_struct t in Some (u32 (fdt_at t + off + offset)).

Definition fdt_offset_ptr (t : fdt) (offset len : Z) : option Z :=
  let? version := fdt_version t in
  let? outside :=
    if 0x11 <=? version then
      if u32 (offset + len) <? u32 offset then Some true
      else let? n := fdt_size_dt_struct t in Some (n <? u32 (offset + len))
    else Some false in
  if outside then Some 0
  else let? p := _fdt_offset_ptr t offset in if u32 (p + len) <? p then Some 0 else Some p.

(** [do p = fdt_offset_ptr (fdt, offset++, 1); while (p && *p)] *)
Fixpoint skip_name (fuel : nat) (t : fdt) (offset : Z) : option (Z * Z) :=
  match fuel with
  | O => None
  | Datatypes.S fuel =>
      let? p := fdt_offset_ptr t offset 1 in
      if p =? 0 then Some (p, offset + 1)
      else
        let? c := load8 t p in
        if c =? 0 then Some (p, offset + 1) else skip_name fuel t (offset + 1)
  end.

(** The end of [fdt_next_tag]. *)
Definition whole_tag (t : fdt) (tag startoffset offset : Z) : option (Z * Z) :=
  let? p := fdt_offset_ptr t startoffset (u32 (offset - startoffset)) in
  if p =? 0 then Some (FDT_END, - FDT_ERR_BADSTRUCTURE) else Some (tag, FDT_TAGALIGN offset).

(** The tag, and [*nextoffset]. *)
Definition fdt_next_tag (t : fdt) (startoffset : Z) : option (Z * Z) :=
  let? tagp := fdt_offset_ptr t startoffset FDT_TAGSIZE in
  if tagp =? 0 then Some (FDT_END, - FDT_ERR_TRUNCATED)
  else
    let? tag := fdt32_to_cpu t tagp in
    let offset := startoffset + FDT_TAGSIZE in
    if tag =? FDT_BEGIN_NODE then
      let? (p, offset) := skip_name (loop_bound t) t offset in
      if p =? 0 then Some (FDT_END, - FDT_ERR_BADSTRUCTURE) else whole_tag t tag startoffset offset
    else if tag =? FDT_PROP then
      let? lenp := fdt_offset_ptr t offset 4 in
      if lenp =? 0 then Some (FDT_END, - FDT_ERR_BADSTRUCTURE)
      else let? len := fdt32_to_cpu t lenp in whole_tag t tag startoffset (s32 (offset + (12 - FDT_TAGSIZE) + len))
    else if (tag =? FDT_END) || (tag =? FDT_END_NODE) || (tag =? FDT_NOP) then whole_tag t tag startoffset offset
    else Some (FDT_END, - FDT_ERR_BADSTRUCTURE).

Definition check_offset (wanted : Z) (t : fdt) (offset : Z) : option Z :=
  if (offset <? 0) || negb (offset mod FDT_TAGSIZE =? 0) then Some (- FDT_ERR_BADOFFSET)
  else
    let? (tag, next) := fdt_next_tag t offset in
    if negb (tag =? wanted) then Some (- FDT_ERR_BADOFFSET) else Some next.
Definition _fdt_check_node_offset : fdt -> Z -> option Z := check_offset FDT_BEGIN_NODE.
Definition _fdt_check_prop_offset : fdt -> Z -> option Z := check_offset FDT_PROP.

(** The [do] loop of [fdt_next_node]; [depth] is [None] for a null pointer. *)
Fixpoint next_node_loop (fuel : nat) (t : fdt) (offset : Z) (depth : option Z) : option (Z * option Z) :=
  match fuel with
  | O => None
  | Datatypes.S fuel =>
      let? (tag, nextoffset) := fdt_next_tag t offset in
      if tag =? FDT_BEGIN_NODE then Some (offset, match depth with Some d => Some (d + 1) | None => None end)
      else if tag =? FDT_END_NODE then
        match depth with
        | Some d =>
            if d - 1 <? 0 then Some (nextoffset, Some (d - 1)) else next_node_loop fuel t nextoffset (Some (d - 1))
        | None => next_node_loop fuel t nextoffset depth
        end
      else if tag =? FDT_END then
        if (0 <=? nextoffset) || (nextoffset =? - FDT_ERR_TRUNCATED) && (match depth with None => true | _ => false end)
        then Some (- FDT_ERR_NOTFOUND, depth) else Some (nextoffset, depth)
      else next_node_loop fuel t nextoffset depth
  end.
Definition fdt_next_node (t : fdt) (offset : Z) (depth : option Z) : option (Z * option Z) :=
  if 0 <=? offset then
    let? nextoffset := _fdt_check_node_offset t offset in
    if nextoffset <? 0 then Some (nextoffset, depth) else next_node_loop (loop_bound t) t nextoffset depth
  else next_node_loop (loop_bound t) t 0 depth.

Definition fdt_first_subnode (t : fdt) (offset : Z) : option Z :=
  let? (offset, depth) := fdt_next_node t offset (Some 0) in
  if (offset <? 0) || negb (bool_decide (depth = Some 1)) then Some (- FDT_ERR_NOTFOUND) else Some offset.

Fixpoint next_subnode_loop (fuel : nat) (t : fdt) (offset : Z) (depth : Z) : option Z :=
  match fuel with
  | O => None
  | Datatypes.S fuel =>
      let? (offset, depth) := fdt_next_node t offset (Some depth) in
      let d := match depth with Some d => d | None => 0 end in
      if (offset <? 0) || (d <? 1) then Some (- FDT_ERR_NOTFOUND)
      else if 1 <? d then next_subnode_loop fuel t offset d
      else Some offset
  end.
Definition fdt_next_subnode (t : fdt) (offset : Z) : option Z := next_subnode_loop (loop_bound t) t offset 1.

(** [n] positions left from [p] on. *)
Fixpoint find_string_loop (n : nat) (t : fdt) (p : Z) (s : list Z) : option Z :=
  match n with
  | O => Some 0
  | Datatypes.S n => let? differs := memcmp t p s in if differs then find_string_loop n t (p + 1) s else Some p
  end.
Definition _fdt_find_string (t : fdt) (strtab tabsize : Z) (s : list Z) : option Z :=
  find_string_loop (Z.to_nat (tabsize - Z.of_nat (length s + 1) + 1)) t strtab (s ++ [0]).

(** The status, and what the buffer then holds. *)
Definition fdt_move (t : fdt) (bufsize : Z) : option (Z * list Z) :=
  let? err := fdt_check_header t in
  if negb (err =? 0) then Some (err, [])
  else
    let? n := fdt_totalsize t in
    if u64 bufsize <? n then Some (- FDT_ERR_NOSPACE, [])
    else let? bs := load_bytes t (fdt_at t) n in Some (0, bs).

(** ** fdt_ro.c: names, strings, reserved memory *)

Definition has_at (s : list Z) : bool := bool_decide (64 ∈ s).

(** [s] is the name asked for, of length [len]. *)
Definition _fdt_nodename_eq (t : fdt) (offset : Z) (s : list Z) : option bool :=
  let len := Z.of_nat (length s) in
  let? p := fdt_offset_ptr t (offset + FDT_TAGSIZE) (len + 1) in
  if p =? 0 then Some false
  else
    let? differs := memcmp t p s in
    if differs then Some false
    else
      let? c := load8 t (p + len) in
      if c =? 0 then Some true else Some (negb (has_at s) && (c =? 64)).

Definition fdt_string (t : fdt) (stroffset : Z) : option Z :=
  let? off := fdt_off_dt_strings t in Some (u32 (fdt_at t + off + stroffset)).
Definition _fdt_string_eq (t : fdt) (stroffset : Z) (s : list Z) : option bool :=
  let? p := fdt_string t stroffset in
  let? n := strlen t p in
  if n =? Z.of_nat (length s) then let? differs := memcmp t p s in Some (negb differs) else Some false.

(** [_fdt_mem_rsv (fdt, n)] of libfdt_internal.h *)
Definition _fdt_mem_rsv (t : fdt) (n : Z) : option Z :=
  let? off := fdt_off_mem_rsvmap t in Some (fdt_at t + off + 16 * n).
(** The status, the address and the size. *)
Definition fdt_get_mem_rsv (t : fdt) (n : Z) : option (Z * Z * Z) :=
  let? err := fdt_check_header t in
  if negb (err =? 0) then Some (err, 0, 0)
  else
    let? p := _fdt_mem_rsv t n in
    let? address := fdt64_to_cpu t p in
    let? size := fdt64_to_cpu t (p + 8) in
    Some (0, address, size).
Fixpoint num_mem_rsv_loop (fuel : nat) (t : fdt) (i : Z) : option Z :=
  match fuel with
  | O => None
  | Datatypes.S fuel =>
      let? p := _fdt_mem_rsv t i in
      let? size := fdt64_to_cpu t (p + 8) in
      if negb (size =? 0) then num_mem_rsv_loop fuel t (i + 1) else Some i
  end.
Definition fdt_num_mem_rsv (t : fdt) : option Z := num_mem_rsv_loop (loop_bound t) t 0.

(** ** fdt_ro.c: properties *)

Fixpoint nextprop_loop (fuel : nat) (t : fdt) (offset : Z) : option Z :=
  match fuel with
  | O => None
  | Datatypes.S fuel =>
      let? (tag, nextoffset) := fdt_next_tag t offset in
      if tag =? FDT_END then Some (if 0 <=? nextoffset then - FDT_ERR_BADSTRUCTURE else nextoffset)
      else if tag =? FDT_PROP then Some offset
      else if tag =? FDT_NOP then nextprop_loop fuel t nextoffset
      else Some (- FDT_ERR_NOTFOUND)
  end.
Definition _nextprop (t : fdt) (offset : Z) : option Z := nextprop_loop (loop_bound t) t offset.

Definition fdt_first_property_offset (t : fdt) (nodeoffset : Z) : option Z :=
  let? offset := _fdt_check_node_offset t nodeoffset in
  if offset <? 0 then Some offset else _nextprop t offset.
Definition fdt_next_property_offset (t : fdt) (offset : Z) : option Z :=
  let? offset := _fdt_check_prop_offset t offset in
  if offset <? 0 then Some offset else _nextprop t offset.

(** The property, and [*lenp]. *)
Definition fdt_get_property_by_offset (t : fdt) (offset : Z) : option (Z * Z) :=
  let? err := _fdt_check_prop_offset t offset in
  if err <? 0 then Some (0, err)
  else
    let? prop := _fdt_offset_ptr t offset in
    let? len := fdt32_to_cpu t (prop + 4) in
    Some (prop, s32 len).

Fixpoint get_property_loop (fuel : nat) (t : fdt) (offset : Z) (name : list Z) : option (Z * Z) :=
  if offset <? 0 then Some (0, offset)
  else
    match fuel with
    | O => None
    | Datatypes.S fuel =>
        let? (prop, len) := fdt_get_property_by_offset t offset in
        if prop =? 0 then Some (0, - FDT_ERR_INTERNAL)
        else
          let? nameoff := fdt32_to_cpu t (prop + 8) in
          let? same := _fdt_string_eq t nameoff name in
          if same then Some (prop, len)
          else let? offset := fdt_next_property_offset t offset in get_property_loop fuel t offset name
    end.
Definition fdt_get_property_namelen (t : fdt) (offset : Z) (name : list Z) : option (Z * Z) :=
  let? offset := fdt_first_property_offset t offset in get_property_loop (loop_bound t) t offset name.
Definition fdt_get_property (t : fdt) (nodeoffset : Z) (name : list Z) : option (Z * Z) :=
  fdt_get_property_namelen t nodeoffset name.
Definition fdt_getprop_namelen (t : fdt) (nodeoffset : Z) (name : list Z) : option (Z * Z) :=
  let? (prop, len) := fdt_get_property_namelen t nodeoffset name in
  if prop =? 0 then Some (0, len) else Some (prop + 12, len).
Definition fdt_getprop (t : fdt) (nodeoffset : Z) (name : list Z) : option (Z * Z) :=
  fdt_getprop_namelen t nodeoffset name.
(** The value, [*namep] and [*lenp]. *)
Definition fdt_getprop_by_offset (t : fdt) (offset : Z) : option (Z * Z * Z) :=
  let? (prop, len) := fdt_get_property_by_offset t offset in
  if prop =? 0 then Some (0, 0, len)
  else
    let? nameoff := fdt32_to_cpu t (prop + 8) in
    let? name := fdt_string t nameoff in
    Some (prop + 12, name, len).

(** [n] cells from [p] on. *)
Fixpoint cells_at (n : nat) (t : fdt) (p : Z) : option (list Z) :=
  match n with
  | O => Some []
  | Datatypes.S n => let? v := fdt32_to_cpu t p in let? vs := cells_at n t (p + 4) in Some (v :: vs)
  end.
(** The result, and what a [val] that is not null then holds. *)
Definition fdt_getprop_u32 (t : fdt) (nodeoffset : Z) (prop : list Z) (val : bool) : option (Z * list Z) :=
  let? (data, len) := fdt_getprop t nodeoffset prop in
  if (data =? 0) || (len =? 0) || negb (Z.rem len 4 =? 0) then Some (- FDT_ERR_INTERNAL, [])
  else
    let? vs := if val then cells_at (Z.to_nat (Z.quot len 4)) t data else Some [] in
    Some (Z.quot len 4, vs).
Definition fdt_get_u32_array (t : fdt) (nodeoffset : Z) (prop : list Z) (count : Z) : option (Z * list Z) :=
  let? (cuint, len) := fdt_getprop t nodeoffset prop in
  if cuint =? 0 then Some (- FDT_ERR_NOTFOUND, [])
  else if negb (u32 len =? u32 (count * 4)) then Some (- FDT_ERR_BADLAYOUT, [])
  else let? vs := cells_at (Z.to_nat (u32 len / 4)) t cuint in Some (0, vs).

Definition fdt_get_status (t : fdt) (nodeoffset : Z) : option Z :=
  let? (cchar, len) := fdt_getprop t nodeoffset (chars "status") in
  if cchar =? 0 then Some FDT_NODE_DISABLED
  else
    let? same := strncmp_eq (Z.to_nat (u32 len)) t cchar (chars "disabled") in
    Some (if same then FDT_NODE_DISABLED else FDT_NODE_OKAY).

Definition fdt_get_phandle (t : fdt) (nodeoffset : Z) : option Z :=
  let? (php, len) := fdt_getprop t nodeoffset (chars "phandle") in
  if (php =? 0) || negb (len =? 4) then
    let? (php, len) := fdt_getprop t nodeoffset (chars "linux,phandle") in
    if (php =? 0) || negb (len =? 4) then Some 0 else fdt32_to_cpu t php
  else fdt32_to_cpu t php.

(** ** fdt_ro.c: nodes *)

Fixpoint subnode_loop (fuel : nat) (t : fdt) (offset depth : Z) (name : list Z) : option Z :=
  if (0 <=? offset) && (0 <=? depth) then
    match fuel with
    | O => None
    | Datatypes.S fuel =>
        let? same := if depth =? 1 then _fdt_nodename_eq t offset name else Some false in
        if same then Some offset
        else
          let? (offset, depth) := fdt_next_node t offset (Some depth) in
          subnode_loop fuel t offset (match depth with Some d => d | None => 0 end) name
    end
  else if depth <? 0 then Some (- FDT_ERR_NOTFOUND) else Some offset.
Definition fdt_subnode_offset_namelen (t : fdt) (offset : Z) (name : list Z) : option Z :=
  FDT_CHECK_HEADER t (subnode_loop (loop_bound t) t offset 0 name).
Definition fdt_subnode_offset (t : fdt) (parentoffset : Z) (name : list Z) : option Z :=
  fdt_subnode_offset_namelen t parentoffset name.

(** What is left of [p] from its first slash on, [strchr (p, '/')] or the end. *)
Fixpoint from_slash (p : list Z) : list Z :=
  match p with [] => [] | c :: r => if c =? 47 then p else from_slash r end.
Fixpoint skip_slashes (p : list Z) : list Z :=
  match p with [] => [] | c :: r => if c =? 47 then skip_slashes r else p end.
Definition before_slash (p : list Z) : list Z := take (length p - length (from_slash p)) p.

(** [while ( *p)] of [fdt_path_offset]: a piece of the path per round. *)
Fixpoint path_loop (fuel : nat) (t : fdt) (offset : Z) (p : list Z) : option Z :=
  match fuel with
  | O => None
  | Datatypes.S fuel =>
      match p with
      | [] => Some offset
      | _ =>
          match skip_slashes p with
          | [] => Some offset
          | p =>
              let? offset := fdt_subnode_offset_namelen t offset (before_slash p) in
              if offset <? 0 then Some offset else path_loop fuel t offset (from_slash p)
          end
      end
  end.
(** A path that does not begin with a slash begins with an alias, whose value is
    a path again: [fuel] bounds the chain of aliases, and one of 2 is enough for
    a path that does. *)
Fixpoint path_offset (fuel : nat) (t : fdt) (path : list Z) : option Z :=
  match fuel with
  | O => None
  | Datatypes.S fuel =>
      FDT_CHECK_HEADER t
        (if negb (hd 0 path =? 47) then
           (* fdt_get_alias_namelen *)
           let? aliasoffset := path_offset fuel t (chars "/aliases") in
           let? (p, _) := if aliasoffset <? 0 then Some (0, 0)
                           else fdt_getprop_namelen t aliasoffset (before_slash path) in
           if p =? 0 then Some (- FDT_ERR_BADPATH)
           else
             let? alias := c_string t p in
             let? offset := path_offset fuel t alias in
             path_loop (Datatypes.S (length path)) t offset (from_slash path)
         else path_loop (Datatypes.S (length path)) t 0 path)
  end.
Definition fdt_path_offset (t : fdt) (path : list Z) : option Z := path_offset (loop_bound t) t path.
Definition fdt_get_alias_namelen (t : fdt) (name : list Z) : option Z :=
  let? aliasoffset := fdt_path_offset t (chars "/aliases") in
  if aliasoffset <? 0 then Some 0 else let? (p, _) := fdt_getprop_namelen t aliasoffset name in Some p.
Definition fdt_get_alias (t : fdt) (name : list Z) : option Z := fdt_get_alias_namelen t name.

(** The name, and [*len]. *)
Definition fdt_get_name (t : fdt) (nodeoffset : Z) : option (Z * Z) :=
  let? nh := _fdt_offset_ptr t nodeoffset in
  let? err := fdt_check_header t in
  if negb (err =? 0) then Some (0, err)
  else
    let? err := _fdt_check_node_offset t nodeoffset in
    if err <? 0 then Some (0, err) else let? n := strlen t (nh + 4) in Some (nh + 4, n).

(** [do p--; while (buf[p - 1] != '/');] *)
Fixpoint back_to_slash (fuel : nat) (buf : list Z) (p : Z) : option Z :=
  match fuel with
  | O => None
  | Datatypes.S fuel =>
      let? c := ld8 buf (p - 1 - 1) in if c =? 47 then Some (p - 1) else back_to_slash fuel buf (p - 1)
  end.
(** [while (pdepth > depth)] for [n] levels. *)
Fixpoint pop_names (n : nat) (buf : list Z) (p : Z) : option Z :=
  match n with
  | O => Some p
  | Datatypes.S n => let? p := back_to_slash (Datatypes.S (length buf)) buf p in pop_names n buf p
  end.
Definition put_chars (buf : list Z) (p : Z) (cs : list Z) : option (list Z) :=
  let? _ := slice buf p (Z.of_nat (length cs)) in
  let i := Z.to_nat p in
  Some (take i buf ++ cs ++ drop (i + length cs) buf).

(** What [fdt_get_path] and [fdt_supernode_atdepth_offset] return behind their
    loops. *)
Definition walk_error (offset : Z) : Z :=
  if (offset =? - FDT_ERR_NOTFOUND) || (0 <=? offset) then - FDT_ERR_BADOFFSET
  else if offset =? - FDT_ERR_BADOFFSET then - FDT_ERR_BADSTRUCTURE
  else offset.

(** The status, and the buffer. *)
Fixpoint get_path_loop (fuel : nat) (t : fdt) (nodeoffset buflen : Z) (buf : list Z) (offset depth pdepth p : Z)
  : option (Z * list Z) :=
  if (0 <=? offset) && (offset <=? nodeoffset) then
    match fuel with
    | O => None
    | Datatypes.S fuel =>
        let? p := pop_names (Z.to_nat (pdepth - depth)) buf p in
        let pdepth := Z.min pdepth depth in
        let? (stop, p, pdepth, buf) :=
          if depth <=? pdepth then
            let? (name, namelen) := fdt_get_name t offset in
            if name =? 0 then Some (Some namelen, p, pdepth, buf)
            else if p + namelen + 1 <=? buflen then
              let? cs := load_bytes t name namelen in
              let? buf := put_chars buf p (cs ++ [47]) in
              Some (None, p + namelen + 1, pdepth + 1, buf)
            else Some (None, p, pdepth, buf)
          else Some (None, p, pdepth, buf) in
        match stop with
        | Some err => Some (err, buf)
        | None =>
            if offset =? nodeoffset then
              if pdepth <? depth + 1 then Some (- FDT_ERR_NOSPACE, buf)
              else
                let p := if 1 <? p then p - 1 else p in
                let? buf := put_chars buf p [0] in
                Some (0, buf)
            else
              let? (offset, depth) := fdt_next_node t offset (Some depth) in
              get_path_loop fuel t nodeoffset buflen buf offset (match depth with Some d => d | None => 0 end) pdepth p
        end
    end
  else Some (walk_error offset, buf).
Definition fdt_get_path (t : fdt) (nodeoffset : Z) (buf : list Z) (buflen : Z) : option (Z * list Z) :=
  let? err := fdt_check_header t in
  if negb (err =? 0) then Some (err, buf)
  else if buflen <? 2 then Some (- FDT_ERR_NOSPACE, buf)
  else get_path_loop (loop_bound t) t nodeoffset buflen buf 0 0 0 0.

(** The result, and what was stored through [nodedepth], if anything. *)
Fixpoint supernode_loop (fuel : nat) (t : fdt) (nodeoffset supernodedepth offset depth supernodeoffset : Z)
  : option (Z * option Z) :=
  if (0 <=? offset) && (offset <=? nodeoffset) then
    match fuel with
    | O => None
    | Datatypes.S fuel =>
        let supernodeoffset := if depth =? supernodedepth then offset else supernodeoffset in
        if offset =? nodeoffset then
          Some (if depth <? supernodedepth then - FDT_ERR_NOTFOUND else supernodeoffset, Some depth)
        else
          let? (offset, depth) := fdt_next_node t offset (Some depth) in
          supernode_loop fuel t nodeoffset supernodedepth offset (match depth with Some d => d | None => 0 end)
            supernodeoffset
    end
  else Some (walk_error offset, None).
Definition fdt_supernode_atdepth_offset (t : fdt) (nodeoffset supernodedepth : Z) : option (Z * option Z) :=
  let? err := fdt_check_header t in
  if negb (err =? 0) then Some (err, None)
  else if supernodedepth <? 0 then Some (- FDT_ERR_NOTFOUND, None)
  else supernode_loop (loop_bound t) t nodeoffset supernodedepth 0 0 (- FDT_ERR_INTERNAL).
(** A result of 0 has stored the depth. *)
Definition fdt_node_depth (t : fdt) (nodeoffset : Z) : option Z :=
  let? (err, nodedepth) := fdt_supernode_atdepth_offset t nodeoffset 0 in
  if negb (err =? 0) then Some (if err <? 0 then err else - FDT_ERR_INTERNAL) else nodedepth.
Definition fdt_parent_offset (t : fdt) (nodeoffset : Z) : option Z :=
  let? nodedepth := fdt_node_depth t nodeoffset in
  if nodedepth <? 0 then Some nodedepth
  else let? (offset, _) := fdt_supernode_atdepth_offset t nodeoffset (nodedepth - 1) in Some offset.

(** The searches over all nodes behind [offset]: [found] is the body of the
    loop, with a result to return. *)
Fixpoint search_loop (fuel : nat) (t : fdt) (offset : Z) (found : Z -> option (option Z)) : option Z :=
  if offset <? 0 then Some offset
  else
    match fuel with
    | O => None
    | Datatypes.S fuel =>
        let? r := found offset in
        match r with
        | Some r => Some r
        | None => let? (offset, _) := fdt_next_node t offset None in search_loop fuel t offset found
        end
    end.
Definition search_from (t : fdt) (startoffset : Z) (found : Z -> option (option Z)) : option Z :=
  FDT_CHECK_HEADER t
    (let? (offset, _) := fdt_next_node t startoffset None in search_loop (loop_bound t) t offset found).

Definition fdt_node_offset_by_prop_value (t : fdt) (startoffset : Z) (propname propval : list Z) : option Z :=
  search_from t startoffset (fun offset =>
    let? (val, len) := fdt_getprop t offset propname in
    if negb (val =? 0) && (len =? Z.of_nat (length propval)) then
      let? differs := memcmp t val propval in Some (if differs then None else Some offset)
    else Some None).
Definition fdt_node_offset_by_phandle (t : fdt) (phandle : Z) : option Z :=
  if (phandle =? 0) || (phandle =? u32 (-1)) then Some (- FDT_ERR_BADPHANDLE)
  else
    search_from t (-1) (fun offset =>
      let? p := fdt_get_phandle t offset in Some (if p =? phandle then Some offset else None)).

(** The result, and the pointer stored through [val]. *)
Definition fdt_getprop_string (t : fdt) (nodeoffset : Z) (name : list Z) : option (Z * Z) :=
  let? (data, len) := fdt_getprop t nodeoffset name in
  if negb (data =? 0) then Some (len, data) else Some (-1, 0).

(** ** fdt_ro.c: string lists *)

Fixpoint stringlist_contains_loop (fuel : nat) (t : fdt) (strlist listlen : Z) (str : list Z) : option Z :=
  if Z.of_nat (length str) <=? listlen then
    match fuel with
    | O => None
    | Datatypes.S fuel =>
        let? differs := memcmp t strlist (str ++ [0]) in
        if negb differs then Some 1
        else
          let? p := memchr_nul (Z.to_nat listlen) t strlist in
          if p =? 0 then Some 0
          else stringlist_contains_loop fuel t (p + 1) (listlen - (p - strlist + 1)) str
    end
  else Some 0.
Definition fdt_stringlist_contains (t : fdt) (strlist listlen : Z) (str : list Z) : option Z :=
  stringlist_contains_loop (loop_bound t) t strlist listlen str.

(** [while (list < end)]: each string in turn, with its length and terminator,
    until [found] has a result; then [last]. *)
Fixpoint strings_loop (fuel : nat) (t : fdt) (list_ end_ idx : Z) (bad : Z)
  (found : Z -> Z -> Z -> option (option (Z * Z))) (last : Z -> Z * Z) : option (Z * Z) :=
  if list_ <? end_ then
    match fuel with
    | O => None
    | Datatypes.S fuel =>
        let? n := strnlen (Z.to_nat (end_ - list_)) t list_ in
        let length := n + 1 in
        if end_ <? list_ + length then Some (0, bad)
        else
          let? r := found list_ length idx in
          match r with
          | Some r => Some r
          | None => strings_loop fuel t (list_ + length) end_ (idx + 1) bad found last
          end
    end
  else Some (last idx).
Definition fdt_stringlist_count (t : fdt) (nodeoffset : Z) (property : list Z) : option Z :=
  let? (list_, length) := fdt_getprop t nodeoffset property in
  if list_ =? 0 then Some length
  else
    let? (_, r) := strings_loop (loop_bound t) t list_ (list_ + length) 0 (- FDT_ERR_BADVALUE)
      (fun _ _ _ => Some None) (fun count => (0, count)) in Some r.
Definition fdt_stringlist_search (t : fdt) (nodeoffset : Z) (property string : list Z) : option Z :=
  let? (list_, length) := fdt_getprop t nodeoffset property in
  if list_ =? 0 then Some length
  else
    let? (_, r) := strings_loop (loop_bound t) t list_ (list_ + length) 0 (- FDT_ERR_BADVALUE)
      (fun list_ length idx =>
         if length =? Z.of_nat (List.length string) + 1 then
           let? differs := memcmp t list_ (string ++ [0]) in Some (if differs then None else Some (0, idx))
         else Some None)
      (fun _ => (0, - FDT_ERR_NOTFOUND)) in Some r.
(** The string, and [*lenp]. *)
Definition fdt_stringlist_get (t : fdt) (nodeoffset : Z) (property : list Z) (idx : Z) : option (Z * Z) :=
  let? (list_, length) := fdt_getprop t nodeoffset property in
  if list_ =? 0 then Some (0, length)
  else
    strings_loop (loop_bound t) t list_ (list_ + length) 0 (- FDT_ERR_BADVALUE)
      (fun list_ length i => Some (if i =? idx then Some (list_, length - 1) else None))
      (fun _ => (0, - FDT_ERR_NOTFOUND)).

Definition fdt_node_check_compatible (t : fdt) (nodeoffset : Z) (compatible : list Z) : option Z :=
  let? (prop, len) := fdt_getprop t nodeoffset (chars "compatible") in
  if prop =? 0 then Some len
  else let? r := fdt_stringlist_contains t prop len compatible in Some (if r =? 0 then 1 else 0).
Definition fdt_node_offset_by_compatible (t : fdt) (startoffset : Z) (compatible : list Z) : option Z :=
  search_from t startoffset (fun offset =>
    let? err := fdt_node_check_compatible t offset compatible in
    Some (if (err <? 0) && negb (err =? - FDT_ERR_NOTFOUND) then Some err
          else if err =? 0 then Some offset else None)).

(** ** fdt_addresses.c *)

Definition cells_property (t : fdt) (nodeoffset : Z) (name : list Z) (least : Z) : option Z :=
  let? (ac, len) := fdt_getprop t nodeoffset name in
  if ac =? 0 then Some 2
  else if negb (len =? 4) then Some (- FDT_ERR_BADNCELLS)
  else
    let? v := fdt32_to_cpu t ac in
    let val := s32 v in
    if (val <? least) || (FDT_MAX_NCELLS <? val) then Some (- FDT_ERR_BADNCELLS) else Some val.
Definition fdt_address_cells (t : fdt) (nodeoffset : Z) : option Z :=
  cells_property t nodeoffset (chars "#address-cells") 1.
Definition fdt_size_cells (t : fdt) (nodeoffset : Z) : option Z :=
  cells_property t nodeoffset (chars "#size-cells") 0.

(** ** fdt_strerror.c *)

(** [fdt_errtable], null where it has no entry. *)
Definition fdt_errtable : list (option string) :=
  [None; Some "FDT_ERR_NOTFOUND"; Some "FDT_ERR_EXISTS"; Some "FDT_ERR_NOSPACE"; Some "FDT_ERR_BADOFFSET";
   Some "FDT_ERR_BADPATH"; None; Some "FDT_ERR_BADSTATE"; Some "FDT_ERR_TRUNCATED"; Some "FDT_ERR_BADMAGIC";
   Some "FDT_ERR_BADVERSION"; Some "FDT_ERR_BADSTRUCTURE"; Some "FDT_ERR_BADLAYOUT"]%string.
Definition FDT_ERRTABSIZE : Z := Z.of_nat (length fdt_errtable).
(** The comparison is unsigned. *)
Definition fdt_strerror (errval : Z) : string :=
  if 0 <? errval then "<valid offset/length>"
  else if errval =? 0 then "<no error>"
  else if u32 (- FDT_ERRTABSIZE) <? u32 errval then
    match fdt_errtable !! Z.to_nat (- errval) with
    | Some (Some s) => s
    | _ => "<unknown error>"
    end
  else "<unknown error>".

(** ** fdt_wip.c *)

(** The status, and the blob. *)
Definition fdt_setprop_inplace (t : fdt) (nodeoffset : Z) (name val : list Z) : option (Z * fdt) :=
  let? (propval, proplen) := fdt_getprop t nodeoffset name in
  if propval =? 0 then Some (proplen, t)
  else if negb (proplen =? Z.of_nat (length val)) then Some (- FDT_ERR_NOSPACE, t)
  else let? t := store_bytes t propval val in Some (0, t).
(** libfdt.h *)
Definition fdt_setprop_inplace_u32 (t : fdt) (nodeoffset : Z) (name : list Z) (val : Z) : option (Z * fdt) :=
  fdt_setprop_inplace t nodeoffset name (cpu_to_fdt32 val).

(** [n] cells. *)
Fixpoint nop_region_loop (n : nat) (t : fdt) (p : Z) : option fdt :=
  match n with
  | O => Some t
  | Datatypes.S n => let? t := store_bytes t p (cpu_to_fdt32 FDT_NOP) in nop_region_loop n t (p + 4)
  end.
Definition _fdt_nop_region (t : fdt) (start len : Z) : option fdt :=
  nop_region_loop (Z.to_nat ((len + 3) / 4)) t start.
Definition fdt_nop_property (t : fdt) (nodeoffset : Z) (name : list Z) : option (Z * fdt) :=
  let? (prop, len) := fdt_get_property t nodeoffset name in
  if prop =? 0 then Some (len, t) else let? t := _fdt_nop_region t prop (len + 12) in Some (0, t).

Fixpoint node_end_loop (fuel : nat) (t : fdt) (offset depth : Z) : option Z :=
  if (0 <=? offset) && (0 <=? depth) then
    match fuel with
    | O => None
    | Datatypes.S fuel =>
        let? (offset, depth) := fdt_next_node t offset (Some depth) in
        node_end_loop fuel t offset (match depth with Some d => d | None => 0 end)
    end
  else Some offset.
Definition _fdt_node_end_offset (t : fdt) (offset : Z) : option Z := node_end_loop (loop_bound t) t offset 0.
Definition fdt_nop_node (t : fdt) (nodeoffset : Z) : option (Z * fdt) :=
  let? endoffset := _fdt_node_end_offset t nodeoffset in
  if endoffset <? 0 then Some (endoffset, t)
  else
    let? p := fdt_offset_ptr t nodeoffset 0 in
    let? t := _fdt_nop_region t p (endoffset - nodeoffset) in
    Some (0, t).
