(* ===== verification/FdtProps.v ===== *)
(** * The functions of libfdt on tokens

    The structure block of a blob is a sequence of tokens, laid down as the
    device tree specification says; the functions of the library compute what
    their counterparts on the tokens compute, and stay inside the blob. *)

From Stdlib Require Import Ascii String.
From S2P Require Import Prelude Fdt.

Local Open Scope list_scope.
Local Open Scope Z_scope.

(** ** Bytes at a place *)

Definition holds (t : fdt) (p : Z) (bs : list Z) : Prop := load_bytes t p (Z.of_nat (length bs)) = Some bs.

Lemma load_bytes_Some t p n bs :
  load_bytes t p n = Some bs <->
  0 <= p - fdt_at t /\ 0 <= n /\ p - fdt_at t + n <= Z.of_nat (length (fdt_bytes t)) /\
  bs = take (Z.to_nat n) (drop (Z.to_nat (p - fdt_at t)) (fdt_bytes t)).
Proof.
  unfold load_bytes, slice. destruct (Z.ltb_spec (p - fdt_at t) 0); cbn [orb]; [split; [done|lia]|].
  destruct (Z.ltb_spec n 0); cbn [orb]; [split; [done|lia]|].
  destruct (Z.ltb_spec (Z.of_nat (length (fdt_bytes t))) (p - fdt_at t + n)); [split; [done|lia]|].
  split; [intros [= <-]; split_and!; [lia..|done]|by intros (_ & _ & _ & ->)].
Qed.

Lemma load_bytes_length t p n bs : load_bytes t p n = Some bs -> length bs = Z.to_nat n.
Proof. intros (H0 & Hn & Hb & ->)%load_bytes_Some. rewrite length_take, length_drop. lia. Qed.

Lemma holds_in t p bs : holds t p bs ->
  0 <= p - fdt_at t /\ p - fdt_at t + Z.of_nat (length bs) <= Z.of_nat (length (fdt_bytes t)).
Proof. intros (H0 & _ & H & _)%load_bytes_Some. lia. Qed.

(** Byte [i] of what is held. *)
Lemma holds_iff t p bs :
  holds t p bs <-> 0 <= p - fdt_at t /\ p - fdt_at t <= Z.of_nat (length (fdt_bytes t)) /\
    forall i c, bs !! i = Some c -> fdt_bytes t !! (Z.to_nat (p - fdt_at t) + i)%nat = Some c.
Proof.
  unfold holds. rewrite load_bytes_Some, Nat2Z.id. split.
  - intros (H0 & _ & H1 & He). split_and!; [lia|lia|]. intros i c Hi. rewrite He in Hi.
    apply lookup_take_Some in Hi as [Hi _]. by rewrite lookup_drop in Hi.
  - intros (H0 & Hp & H).
    assert (p - fdt_at t + Z.of_nat (length bs) <= Z.of_nat (length (fdt_bytes t))) as Hin.
    { destruct bs as [|b bs'] eqn:E; cbn [length]; [lia|]. rewrite <- E in H.
      destruct (lookup_lt_is_Some_2 bs (length bs - 1)) as [c Hc]; [rewrite E; cbn [length]; lia|].
      specialize (H _ _ Hc). apply lookup_lt_Some in H. rewrite E in H. cbn [length] in H. lia. }
    split_and!; [lia|lia|lia|]. apply list_eq. intros i. destruct (bs !! i) as [c|] eqn:E.
    + symmetry. apply lookup_take_Some. split; [|by apply lookup_lt_Some in E]. rewrite lookup_drop. by apply H.
    + symmetry. apply lookup_take_None. right. by apply lookup_ge_None.
Qed.

Lemma holds_app t p a b : holds t p (a ++ b) <-> holds t p a /\ holds t (p + Z.of_nat (length a)) b.
Proof.
  rewrite !holds_iff. split.
  - intros (H0 & Hp & H).
    assert (forall i c, a !! i = Some c -> fdt_bytes t !! (Z.to_nat (p - fdt_at t) + i)%nat = Some c) as Ha.
    { intros i c Hi. apply H. by apply lookup_app_l_Some. }
    assert (holds t p (a ++ b)) as Hab by (by apply holds_iff). apply holds_in in Hab. rewrite length_app in Hab.
    split; [by split_and!|]. split_and!; [lia|lia|]. intros i c Hi.
    rewrite <- (H (length a + i)%nat c) by (by rewrite lookup_app_r, Nat.add_comm, Nat.add_sub by lia).
    f_equal. lia.
  - intros ((H0 & Hp & Ha) & (_ & Hp' & Hb)). split_and!; [done|done|]. intros i c [Hi|[Hge Hi]]%lookup_app_Some.
    + by apply Ha.
    + apply Hb in Hi. rewrite <- Hi. f_equal. lia.
Qed.

Lemma holds_load8 t p c bs : holds t p (c :: bs) -> load8 t p = Some c.
Proof.
  intros (H0 & _ & H)%holds_iff. unfold load8, ld8. rewrite (proj2 (Z.ltb_ge _ _)) by lia.
  rewrite <- (H 0%nat c eq_refl). f_equal. lia.
Qed.

Lemma holds_cons t p c bs : holds t p (c :: bs) -> load8 t p = Some c /\ holds t (p + 1) bs.
Proof. intros H. split; [by eapply holds_load8|]. by apply (holds_app t p [c]) in H as [_ H]. Qed.

(** A byte joins the number above it. *)
Lemma lor_byte_below x y n : 0 <= n -> 0 <= y < 2 ^ 8 -> Z.lor (Z.shiftl x (n + 8)) (Z.shiftl y n) = Z.shiftl (y + x * 2 ^ 8) n.
Proof.
  intros Hn Hy. rewrite Z.add_comm, <- Z.shiftl_shiftl, <- Z.shiftl_lor, Z.lor_comm by lia. by rewrite lor_shiftl.
Qed.

(** A big-endian cell is read back. *)
Lemma cell_bits v : is_u32 v ->
  Z.lor (Z.lor (Z.lor (Z.shiftl (Z.land (Z.shiftr v 24) 0xff) 24) (Z.shiftl (Z.land (Z.shiftr v 16) 0xff) 16))
    (Z.shiftl (Z.land (Z.shiftr v 8) 0xff) 8)) (Z.land v 0xff) = v.
Proof.
  intros Hv. unfold is_u32 in Hv. change 0xff with (Z.ones 8).
  rewrite !Z.land_ones, !Z.shiftr_div_pow2 by done. change (2 ^ 24) with 16777216. change (2 ^ 16) with 65536.
  change (2 ^ 8) with 256.
  set (a := v / 16777216 mod 256). set (b := v / 65536 mod 256). set (c := v / 256 mod 256). set (d := v mod 256).
  change 24 with (16 + 8) at 1. rewrite lor_byte_below by first [done | by apply Z.mod_pos_bound].
  change 16 with (8 + 8) at 1. rewrite lor_byte_below by first [done | by apply Z.mod_pos_bound].
  rewrite Z.lor_comm, lor_shiftl by first [done | by apply Z.mod_pos_bound]. subst a b c d. Z.div_mod_to_equations. lia.
Qed.

Lemma holds_cell t p v : is_u32 v -> holds t p (cpu_to_fdt32 v) -> fdt32_to_cpu t p = Some v.
Proof.
  intros Hv (H0 & (H1 & (H2 & (H3 & _)%holds_cons)%holds_cons)%holds_cons)%holds_cons.
  replace (p + 1 + 1) with (p + 2) in * by lia. replace (p + 2 + 1) with (p + 3) in * by lia.
  unfold fdt32_to_cpu. rewrite H0, H1, H2, H3. by rewrite cell_bits.
Qed.

Lemma holds_lookup t p bs i : holds t p bs -> (i < length bs)%nat ->
  load8 t (p + Z.of_nat i) = bs !! i.
Proof.
  intros (H0 & _ & H)%holds_iff Hi. unfold load8, ld8. rewrite (proj2 (Z.ltb_ge _ _)) by lia.
  apply lookup_lt_is_Some_2 in Hi as [c Hc]. rewrite Hc. rewrite <- (H i c Hc). f_equal. lia.
Qed.

(** Two readings of the same place agree. *)
Lemma load_bytes_agree t p n bs a i : load_bytes t p n = Some bs -> holds t p a ->
  (i < length bs)%nat -> (i < length a)%nat -> bs !! i = a !! i.
Proof.
  intros Hb Ha Hi Hj. assert (holds t p bs) as Hb'.
  { unfold holds. rewrite (load_bytes_length _ _ _ _ Hb). destruct (Z.le_gt_cases 0 n); [by rewrite Z2Nat.id|].
    apply load_bytes_Some in Hb. lia. }
  by rewrite <- (holds_lookup t p bs i), <- (holds_lookup t p a i).
Qed.

Lemma load_bytes_total t p n :
  0 <= p - fdt_at t -> 0 <= n -> p - fdt_at t + n <= Z.of_nat (length (fdt_bytes t)) ->
  exists bs, load_bytes t p n = Some bs.
Proof. intros. eexists. by apply load_bytes_Some. Qed.

(** ** Paths *)

(** The pieces between the slashes; [cur] is what the current one has so far. *)
Fixpoint pieces_from (cur p : list Z) : list (list Z) :=
  match p with
  | [] => match cur with [] => [] | _ => [cur] end
  | c :: p =>
      if c =? 47 then match cur with [] => pieces_from [] p | _ => cur :: pieces_from [] p end
      else pieces_from (cur ++ [c]) p
  end.
Definition pieces : list Z -> list (list Z) := pieces_from [].

Lemma pieces_skip p : pieces p = pieces (skip_slashes p).
Proof.
  unfold pieces. induction p as [|c p IH]; [done|]. cbn [pieces_from skip_slashes].
  destruct (c =? 47) eqn:E; [done|]. cbn [pieces_from]. by rewrite E.
Qed.

Lemma skip_slashes_suffix p : exists q, p = q ++ skip_slashes p /\ forall c r, skip_slashes p = c :: r -> c <> 47.
Proof.
  induction p as [|c p (q & Hq & Hc)]; [by exists []|]. cbn [skip_slashes]. destruct (Z.eqb_spec c 47).
  - exists (c :: q). split; [|done]. cbn. by f_equal.
  - exists []. split; [done|]. by intros ? ? [= <- _].
Qed.

Lemma slash_split p : p = before_slash p ++ from_slash p /\
  (match p with c :: _ => c <> 47 | [] => False end -> (length (from_slash p) < length p)%nat).
Proof.
  assert (forall p, exists q, p = q ++ from_slash p) as Hs.
  { intros r. induction r as [|c r [q Hq]]; [by exists []|]. cbn [from_slash]. destruct (c =? 47); [by exists []|].
    exists (c :: q). cbn. by f_equal. }
  split.
  - unfold before_slash. destruct (Hs p) as [q Hq]. rewrite Hq at 2 4.
    rewrite Hq at 1. rewrite length_app, Nat.add_sub. by rewrite take_app_length.
  - destruct p as [|c p]; [done|]. intros Hc. cbn [from_slash]. rewrite (proj2 (Z.eqb_neq c 47) Hc).
    destruct (Hs p) as [q Hq]. rewrite Hq at 2. cbn [length]. rewrite length_app. lia.
Qed.

Lemma pieces_cur cur p : cur <> [] -> pieces_from cur p = (cur ++ before_slash p) :: pieces (from_slash p).
Proof.
  revert cur. induction p as [|c p IH]; intros cur Hcur; cbn [pieces_from].
  - destruct cur; [done|]. by rewrite app_nil_r.
  - destruct (c =? 47) eqn:E.
    + assert (from_slash (c :: p) = c :: p) as Hf by (cbn [from_slash]; by rewrite E).
      destruct cur; [done|]. unfold before_slash. rewrite Hf, Nat.sub_diag, take_0, app_nil_r.
      unfold pieces. cbn [pieces_from]. by rewrite E.
    + rewrite IH by (by destruct cur). assert (from_slash (c :: p) = from_slash p) as Hf by (cbn [from_slash]; by rewrite E).
      unfold before_slash. rewrite Hf, <- app_assoc. do 2 f_equal.
      destruct (slash_split p) as [Hp _]. apply (f_equal length) in Hp. rewrite length_app in Hp. cbn [length].
      rewrite Nat.sub_succ_l by lia. done.
Qed.

Lemma pieces_cons c p : c <> 47 -> pieces (c :: p) = before_slash (c :: p) :: pieces (from_slash (c :: p)).
Proof.
  intros Hc. unfold pieces at 1. cbn [pieces_from]. assert (Hc' := proj2 (Z.eqb_neq c 47) Hc). rewrite Hc'.
  rewrite pieces_cur by done. assert (from_slash (c :: p) = from_slash p) as Hf by (cbn [from_slash]; by rewrite Hc').
  rewrite Hf. f_equal. unfold before_slash. rewrite Hf.
  destruct (slash_split p) as [Hp _]. apply (f_equal length) in Hp. rewrite length_app in Hp. cbn [length].
  rewrite Nat.sub_succ_l by lia. done.
Qed.

(** ** Tokens *)

(** A property names itself by an offset into the strings block. *)
Inductive token :=
| TBegin (name : list Z)
| TEnd
| TProp (nameoff : Z) (name value : list Z)
| TNop.

Definition nonzero (s : list Z) : Prop := Forall (fun c => c <> 0) s.
(** A string of the caller, whose length is an [int]. *)
Definition text (s : list Z) : Prop := nonzero s /\ Z.of_nat (length s) < 2 ^ 31 - 1.

(** A token's number, what follows it, and the space it takes. *)
Definition tag_of (tok : token) : Z :=
  match tok with TBegin _ => FDT_BEGIN_NODE | TEnd => FDT_END_NODE | TProp _ _ _ => FDT_PROP | TNop => FDT_NOP end.
Definition body (tok : token) : list Z :=
  match tok with
  | TBegin name => name ++ [0]
  | TProp nameoff _ value => cpu_to_fdt32 (Z.of_nat (length value)) ++ cpu_to_fdt32 nameoff ++ value
  | TEnd | TNop => []
  end.
Definition image (tok : token) : list Z := cpu_to_fdt32 (tag_of tok) ++ body tok.
Definition width (tok : token) : Z := 4 * ((Z.of_nat (length (image tok)) + 3) / 4).

(** What makes a token readable, whatever its name's offset. *)
Definition shape_ok (tok : token) : Prop := match tok with TBegin name => nonzero name | _ => True end.

(** Where the blocks of a blob are: the structure block of [n] bytes at [os],
    the strings block of [m] bytes at [ost]. *)
Record layout (t : fdt) (os n ost m : Z) : Prop := {
  lay_at : 0 < fdt_at t;
  lay_end : fdt_at t + Z.of_nat (length (fdt_bytes t)) < 2 ^ 32;
  lay_header : fdt_check_header t = Some 0;
  lay_version : exists v, fdt_version t = Some v /\ 0x11 <= v;
  lay_struct : fdt_off_dt_struct t = Some os;
  lay_struct_size : fdt_size_dt_struct t = Some n;
  lay_strings : fdt_off_dt_strings t = Some ost;
  lay_struct_in : 40 <= os /\ 0 <= n < 2 ^ 31 - 16 /\ os + n <= Z.of_nat (length (fdt_bytes t));
  lay_strings_in : 0 <= ost /\ 0 <= m /\ ost + m <= Z.of_nat (length (fdt_bytes t));
  lay_apart : os + n <= ost \/ ost + m <= os
}.

Lemma length_cell v : length (cpu_to_fdt32 v) = 4%nat.
Proof. done. Qed.

(** [FDT_TAGALIGN] rounds up to a cell. *)
Lemma tagalign_eq x : 0 <= x < 2 ^ 31 - 4 -> FDT_TAGALIGN x = 4 * ((x + 3) / 4).
Proof.
  intros Hx. unfold FDT_TAGALIGN, FDT_TAGSIZE. rewrite (u32_small (x + 4 - 1)) by lia.
  assert (Z.land (x + 4 - 1) (cnot32 (4 - 1)) = 4 * ((x + 3) / 4)) as ->.
  { change (cnot32 (4 - 1)) with (Z.shiftl (Z.ones 30) 2). replace (4 * ((x + 3) / 4)) with (Z.shiftl (Z.shiftr (x + 3) 2) 2)
      by (rewrite Z.shiftl_mul_pow2, Z.shiftr_div_pow2 by done; change (2 ^ 2) with 4; lia).
    replace (x + 4 - 1) with (x + 3) by lia.
    apply Z.bits_inj'. intros k Hk. rewrite Z.land_spec, !Z.shiftl_spec by done. destruct (Z.lt_ge_cases k 2).
    - rewrite !(Z.testbit_neg_r _ (k - 2)) by lia. by rewrite andb_false_r.
    - rewrite Z.shiftr_spec by lia. replace (k - 2 + 2) with k by lia. rewrite Z.testbit_ones_nonneg by lia.
      destruct (Z.ltb_spec (k - 2) 30); [by rewrite andb_true_r|]. rewrite andb_false_r. symmetry. apply (testbit_above 32); lia. }
  apply s32_small. Z.div_mod_to_equations; lia.
Qed.

Section Tokens.
Context (t : fdt) (os n ost m : Z) (Hlay : layout t os n ost m).

(** The address of a place in the structure block. *)
Definition place (o : Z) : Z := fdt_at t + os + o.

Definition named_at (nameoff : Z) (name : list Z) : Prop :=
  nonzero name /\ 0 <= nameoff /\ nameoff + Z.of_nat (length name) < m /\ holds t (fdt_at t + ost + nameoff) (name ++ [0]).
Definition token_ok (tok : token) : Prop :=
  match tok with
  | TBegin name => nonzero name
  | TProp nameoff name _ => is_u32 nameoff /\ named_at nameoff name
  | TEnd | TNop => True
  end.

Lemma token_shape tok : token_ok tok -> shape_ok tok.
Proof. by destruct tok. Qed.

(** The structure block has, from [o] on, the tokens [ts] and then its end. *)
Fixpoint chain (o : Z) (ts : list token) : Prop :=
  match ts with
  | [] => o + 4 <= n /\ holds t (place o) (cpu_to_fdt32 FDT_END)
  | tok :: ts => o + width tok <= n /\ holds t (place o) (image tok) /\ token_ok tok /\ chain (o + width tok) ts
  end.

Lemma width_bounds tok : 4 <= width tok /\ width tok mod 4 = 0 /\
  Z.of_nat (length (image tok)) <= width tok < Z.of_nat (length (image tok)) + 4.
Proof.
  unfold width. assert (4 <= Z.of_nat (length (image tok))) as H4.
  { unfold image. rewrite length_app. cbn [cpu_to_fdt32 length]. lia. }
  split_and!; Z.div_mod_to_equations; lia.
Qed.

Lemma align_width o x tok : 0 <= o -> o mod 4 = 0 -> x = Z.of_nat (length (image tok)) -> o + width tok <= n ->
  FDT_TAGALIGN (o + x) = o + width tok.
Proof.
  intros Ho Hm -> Hn. assert (H := width_bounds tok). destruct (lay_struct_in _ _ _ _ _ Hlay) as (_ & Hb & _).
  rewrite tagalign_eq by lia. unfold width in *. Z.div_mod_to_equations; lia.
Qed.

(** *** Pointers into the block *)

Lemma offset_ptr_in o len : 0 <= o -> 0 <= len -> o + len <= n -> fdt_offset_ptr t o len = Some (place o) /\ place o <> 0.
Proof.
  intros Ho Hl Hn. destruct (lay_struct_in _ _ _ _ _ Hlay) as (Hos & Hb & Hin).
  assert (Hat := lay_at _ _ _ _ _ Hlay). assert (Hend := lay_end _ _ _ _ _ Hlay).
  destruct (lay_version _ _ _ _ _ Hlay) as (v & Hv & H17). unfold place, fdt_offset_ptr, _fdt_offset_ptr.
  rewrite Hv, (proj2 (Z.leb_le _ _)), !u32_small, (proj2 (Z.ltb_ge (o + len) o)), (lay_struct_size _ _ _ _ _ Hlay) by lia.
  rewrite (proj2 (Z.ltb_ge n _)), (lay_struct _ _ _ _ _ Hlay), (u32_small (_ + o)) by lia.
  rewrite u32_small, (proj2 (Z.ltb_ge _ _)) by lia. split; [done|lia].
Qed.

Lemma offset_ptr_out o len : 0 <= o <= n -> 0 <= len < 2 ^ 31 -> n < o + len -> fdt_offset_ptr t o len = Some 0.
Proof.
  intros Ho Hl Hn. destruct (lay_struct_in _ _ _ _ _ Hlay) as (_ & Hb & _).
  destruct (lay_version _ _ _ _ _ Hlay) as (v & Hv & H17). unfold fdt_offset_ptr.
  rewrite Hv, (proj2 (Z.leb_le _ _)), !u32_small, (proj2 (Z.ltb_ge (o + len) o)), (lay_struct_size _ _ _ _ _ Hlay) by lia.
  by rewrite (proj2 (Z.ltb_lt n _)) by lia.
Qed.

Lemma place_plus o k : place (o + k) = place o + k.
Proof. unfold place. lia. Qed.

Lemma loop_bound_block : n < Z.of_nat (loop_bound t).
Proof. destruct (lay_struct_in _ _ _ _ _ Hlay) as (? & ? & ?). unfold loop_bound. lia. Qed.

(** *** The next tag *)

Lemma skip_name_spec fuel o name : nonzero name -> 0 <= o -> o + Z.of_nat (length name) < n ->
  holds t (place o) (name ++ [0]) -> (length name < fuel)%nat ->
  exists p, p <> 0 /\ skip_name fuel t o = Some (p, o + Z.of_nat (length name) + 1).
Proof.
  revert o fuel. induction name as [|c name IH]; intros o [|fuel] Hnz Ho Hn Hh Hf; cbn [length] in *; try lia;
    cbn [skip_name]; destruct (offset_ptr_in o 1) as [-> Hp]; try lia;
    rewrite (proj2 (Z.eqb_neq _ 0) Hp); cbn [app] in Hh; apply holds_cons in Hh as [-> Hh].
  - exists (place o). split; [done|]. cbn. f_equal. f_equal. lia.
  - inversion_clear Hnz as [|? ? Hc Hnz']. rewrite (proj2 (Z.eqb_neq c 0) Hc).
    destruct (IH (o + 1) fuel) as (p & Hp' & ->); [done|lia|lia|by rewrite place_plus|lia|].
    exists p. split; [done|]. f_equal. f_equal. lia.
Qed.

Lemma whole_tag_spec o tok : 0 <= o -> o mod 4 = 0 -> o + width tok <= n ->
  whole_tag t (tag_of tok) o (o + Z.of_nat (length (image tok))) = Some (tag_of tok, o + width tok).
Proof.
  intros Ho Hm Hn. assert (H := width_bounds tok). destruct (lay_struct_in _ _ _ _ _ Hlay) as (_ & Hb & _).
  unfold whole_tag. rewrite u32_small by lia.
  destruct (offset_ptr_in o (o + Z.of_nat (length (image tok)) - o)) as [-> Hp]; [lia..|].
  rewrite (proj2 (Z.eqb_neq _ 0) Hp). by rewrite (align_width o _ tok) by done.
Qed.

Lemma next_tag_begin o tok rest : 0 <= o -> o + 4 <= n -> is_u32 tok -> holds t (place o) (cpu_to_fdt32 tok ++ rest) ->
  fdt_offset_ptr t o FDT_TAGSIZE = Some (place o) /\ place o <> 0 /\ fdt32_to_cpu t (place o) = Some tok /\
  holds t (place (o + 4)) rest.
Proof.
  intros Ho Hn Hu [H1 H2]%holds_app. destruct (offset_ptr_in o FDT_TAGSIZE); [lia|done|done|].
  split_and!; [done|done|by apply holds_cell|by rewrite place_plus].
Qed.

Lemma next_tag_spec o tok : 0 <= o -> o mod 4 = 0 -> o + width tok <= n -> holds t (place o) (image tok) -> shape_ok tok ->
  fdt_next_tag t o = Some (tag_of tok, o + width tok).
Proof.
  intros Ho Hm Hn Hh Hok. assert (H := width_bounds tok). assert (Hl := loop_bound_block).
  destruct (lay_struct_in _ _ _ _ _ Hlay) as (_ & Hb & _).
  rewrite <- (whole_tag_spec o tok) by done. unfold fdt_next_tag.
  assert (is_u32 (tag_of tok)) as Hu by (by destruct tok).
  destruct (next_tag_begin o (tag_of tok) (body tok)) as (-> & Hp & -> & Hrest); [done|lia|done|done|].
  rewrite (proj2 (Z.eqb_neq _ 0) Hp). unfold image in *. rewrite length_app in *. rewrite !length_cell in *.
  destruct tok as [name| |nameoff name value|]; cbn [tag_of body] in *; try done.
  - change (FDT_BEGIN_NODE =? FDT_BEGIN_NODE) with true. cbv iota. rewrite length_app in *. cbn [length] in *.
    destruct (skip_name_spec (loop_bound t) (o + FDT_TAGSIZE) name) as (p & Hp' & ->);
      [done|unfold FDT_TAGSIZE; lia|unfold FDT_TAGSIZE; lia|done|lia|].
    rewrite (proj2 (Z.eqb_neq _ 0) Hp'). f_equal. unfold FDT_TAGSIZE. lia.
  - change (FDT_PROP =? FDT_BEGIN_NODE) with false. change (FDT_PROP =? FDT_PROP) with true. cbv iota.
    apply holds_app in Hrest as [Hlen _]. rewrite !length_app, !length_cell in *.
    change FDT_TAGSIZE with 4. destruct (offset_ptr_in (o + 4) 4) as [-> Hp']; [lia..|]. rewrite (proj2 (Z.eqb_neq _ 0) Hp').
    assert (is_u32 (Z.of_nat (length value))) as Hv by (unfold is_u32; lia). rewrite (holds_cell _ _ _ Hv Hlen). f_equal. unfold s32.
    rewrite u32_small by lia. rewrite (proj2 (Z.ltb_lt _ _)) by lia. lia.
Qed.

Lemma next_tag_end o : 0 <= o -> o mod 4 = 0 -> chain o [] -> exists next, 0 <= next /\ fdt_next_tag t o = Some (FDT_END, next).
Proof.
  intros Ho Hm [Hn Hh]. unfold fdt_next_tag. destruct (lay_struct_in _ _ _ _ _ Hlay) as (_ & Hb & _).
  destruct (next_tag_begin o FDT_END []) as (-> & Hp & -> & _); [done|done|done|by rewrite app_nil_r|].
  rewrite (proj2 (Z.eqb_neq _ 0) Hp). exists (o + width TEnd). change (width TEnd) with 4. split; [lia|].
  change (FDT_END =? FDT_BEGIN_NODE) with false. change (FDT_END =? FDT_PROP) with false.
  change ((FDT_END =? FDT_END) || (FDT_END =? FDT_END_NODE) || (FDT_END =? FDT_NOP)) with true. cbv iota.
  unfold whole_tag, FDT_TAGSIZE. rewrite u32_small by lia.
  destruct (offset_ptr_in o (o + 4 - o)) as [-> Hp']; [lia..|]. rewrite (proj2 (Z.eqb_neq _ 0) Hp').
  f_equal. f_equal. by apply (align_width o 4 TEnd).
Qed.

(** *** Walking the tokens *)

Lemma chain_aligned o tok ts : o mod 4 = 0 -> 0 <= o -> chain o (tok :: ts) ->
  0 <= o + width tok /\ (o + width tok) mod 4 = 0 /\ chain (o + width tok) ts.
Proof.
  intros Hm Ho (_ & _ & _ & Hc). destruct (width_bounds tok) as (? & ? & _).
  split_and!; [lia| |done]. Z.div_mod_to_equations; lia.
Qed.

Lemma chain_tag o tok ts : o mod 4 = 0 -> 0 <= o -> chain o (tok :: ts) -> fdt_next_tag t o = Some (tag_of tok, o + width tok).
Proof. intros Hm Ho (Hn & Hh & Hok & _). apply next_tag_spec; [done..|]. by apply token_shape. Qed.

(** Each token takes a cell at least. *)
Lemma chain_length o ts : chain o ts -> o + 4 * Z.of_nat (length ts) + 4 <= n.
Proof.
  revert o. induction ts as [|tok ts IH]; intros o; [intros [H _]; cbn [length]; lia|].
  intros (_ & _ & _ & Hc%IH). destruct (width_bounds tok) as (? & _). cbn [length]. lia.
Qed.

Lemma chain_fuel o ts : 0 <= o -> chain o ts -> (length ts + 3 < loop_bound t)%nat.
Proof. intros Ho Hc%chain_length. assert (H := loop_bound_block). lia. Qed.

(** [fdt_next_node] on tokens: from [o] at [depth], the offset and the depth. *)
Fixpoint walk (ts : list token) (o depth : Z) : Z * Z :=
  match ts with
  | [] => (- FDT_ERR_NOTFOUND, depth)
  | TBegin _ :: _ => (o, depth + 1)
  | TEnd :: ts => if depth - 1 <? 0 then (o + width TEnd, depth - 1) else walk ts (o + width TEnd) (depth - 1)
  | tok :: ts => walk ts (o + width tok) depth
  end.

Lemma next_node_loop_walk fuel ts o depth : 0 <= o -> o mod 4 = 0 -> chain o ts -> (length ts < fuel)%nat ->
  next_node_loop fuel t o (Some depth) = Some ((walk ts o depth).1, Some (walk ts o depth).2).
Proof.
  revert o depth fuel. induction ts as [|tok ts IH]; intros o depth [|fuel] Ho Hm Hc Hf; cbn [length] in Hf; try lia;
    cbn [next_node_loop walk].
  - destruct (next_tag_end o Ho Hm Hc) as (next & Hn & ->). change (FDT_END =? FDT_BEGIN_NODE) with false.
    change (FDT_END =? FDT_END_NODE) with false. rewrite Z.eqb_refl. by rewrite (proj2 (Z.leb_le _ _) Hn).
  - rewrite (chain_tag o tok ts) by done. destruct (chain_aligned o tok ts) as (Ho' & Hm' & Hc'); [done..|].
    destruct tok; cbn [tag_of]; try (apply IH; [done..|lia]); [done|].
    change (FDT_END_NODE =? FDT_BEGIN_NODE) with false. rewrite Z.eqb_refl.
    destruct (depth - 1 <? 0); [done|]. apply IH; [done..|lia].
Qed.

Lemma check_begin o name ts : 0 <= o -> o mod 4 = 0 -> chain o (TBegin name :: ts) ->
  _fdt_check_node_offset t o = Some (o + width (TBegin name)).
Proof.
  intros Ho Hm Hc. unfold _fdt_check_node_offset, check_offset. rewrite (proj2 (Z.ltb_ge o 0)) by lia.
  change (o mod FDT_TAGSIZE) with (o mod 4). rewrite Hm. cbn [Z.eqb negb orb]. by rewrite (chain_tag o (TBegin name) ts).
Qed.

Lemma next_node_walk name ts o depth : 0 <= o -> o mod 4 = 0 -> chain o (TBegin name :: ts) ->
  let r := walk ts (o + width (TBegin name)) depth in fdt_next_node t o (Some depth) = Some (r.1, Some r.2).
Proof.
  intros Ho Hm Hc. assert (Hf := chain_fuel _ _ Ho Hc). cbn [length] in Hf. unfold fdt_next_node.
  rewrite (proj2 (Z.leb_le 0 o)) by done. rewrite (check_begin o name ts) by done.
  destruct (chain_aligned o _ ts Hm Ho Hc) as (Ho' & Hm' & Hc').
  rewrite (proj2 (Z.ltb_ge _ 0)) by done. apply next_node_loop_walk; [done..|lia].
Qed.

(** *** Names of nodes *)

(** A name is asked for in full, or without its unit address. *)
Definition answers (name s : list Z) : bool :=
  bool_decide (name = s) || negb (has_at s) && bool_decide (take (length s + 1) name = s ++ [64]).

Lemma nonzero_lookup s i c : nonzero s -> s !! i = Some c -> c <> 0.
Proof. intros Hs Hi. by apply (Forall_lookup_1 _ _ _ _ Hs) in Hi. Qed.

(** Of a string that starts at [p], the bytes in front of the terminator. *)
Lemma memcmp_string p name s : holds t p (name ++ [0]) -> nonzero s ->
  p - fdt_at t + Z.of_nat (length s) <= Z.of_nat (length (fdt_bytes t)) ->
  memcmp t p s = Some (negb (bool_decide (take (length s) name = s))).
Proof.
  intros Hh Hs Hin. unfold memcmp. assert (0 <= p - fdt_at t) as H0 by (apply holds_in in Hh; lia).
  destruct (load_bytes_total t p (Z.of_nat (length s))) as [bs Hb]; [lia..|]. rewrite Hb. do 2 f_equal.
  assert (length bs = length s) as Hl by (rewrite (load_bytes_length _ _ _ _ Hb); lia).
  apply bool_decide_ext. split; intros He.
  - subst bs. apply list_eq. intros i. destruct (Nat.lt_ge_cases i (length s)) as [Hi|Hi].
    + rewrite lookup_take_lt by done. destruct (Nat.lt_ge_cases i (length name)) as [Hn|Hn].
      * rewrite (load_bytes_agree _ _ _ _ _ i Hb Hh) by (rewrite ?length_app; cbn; lia). by rewrite lookup_app_l.
      * exfalso. assert (s !! length name = Some 0) as Hz.
        { rewrite (load_bytes_agree _ _ _ _ _ (length name) Hb Hh) by (rewrite ?length_app; cbn; lia).
          by rewrite lookup_app_r, Nat.sub_diag by lia. }
        by apply (nonzero_lookup s) in Hz.
    + by rewrite lookup_take_ge, (lookup_ge_None_2 s) by done.
  - assert (length s <= length name)%nat as Hle by (rewrite <- He, length_take; lia).
    apply list_eq. intros i. destruct (Nat.lt_ge_cases i (length s)) as [Hi|Hi].
    + rewrite (load_bytes_agree _ _ _ _ _ i Hb Hh) by (rewrite ?length_app; cbn; lia).
      rewrite <- He, lookup_take_lt, lookup_app_l by lia. done.
    + by rewrite !lookup_ge_None_2 by lia.
Qed.

Lemma nodename_eq_spec o name ts s : 0 <= o -> chain o (TBegin name :: ts) -> text s ->
  _fdt_nodename_eq t o s = Some (answers name s).
Proof.
  intros Ho (Hn & [_ Hh]%holds_app & Hnz & _) [Hs Hlong]. cbn [body] in Hh. rewrite length_cell in Hh.
  destruct (lay_struct_in _ _ _ _ _ Hlay) as (Hos & Hb & Hin).
  assert (o + 4 + Z.of_nat (length name) + 1 <= n) as Hname.
  { destruct (width_bounds (TBegin name)) as (_ & _ & Hw & _). unfold image in Hw. cbn [body] in Hw.
    rewrite !length_app, length_cell in Hw. cbn [length] in Hw. lia. }
  change (place o + Z.of_nat 4) with (place o + 4) in Hh. rewrite <- place_plus in Hh.
  unfold _fdt_nodename_eq, answers. change FDT_TAGSIZE with 4.
  destruct (Z.le_gt_cases (o + 4 + (Z.of_nat (length s) + 1)) n) as [Hfit|Hbig].
  - destruct (offset_ptr_in (o + 4) (Z.of_nat (length s) + 1)) as [-> Hp]; [lia..|].
    rewrite (proj2 (Z.eqb_neq _ 0) Hp). rewrite (memcmp_string _ name) by first [done | unfold place; lia].
    destruct (bool_decide_reflect (take (length s) name = s)) as [He|Hne]; cbn [negb].
    + assert (length s <= length name)%nat as Hle by (rewrite <- He, length_take; lia).
      rewrite (holds_lookup _ _ _ (length s) Hh) by (rewrite length_app; cbn; lia).
      destruct (Nat.eq_dec (length s) (length name)) as [Hlen|Hlen].
      * rewrite Hlen, lookup_app_r, Nat.sub_diag by lia. cbn. rewrite <- He, Hlen, firstn_all.
        by rewrite bool_decide_eq_true_2.
      * rewrite lookup_app_l by lia. destruct (lookup_lt_is_Some_2 name (length s)) as [c Hc]; [lia|].
        rewrite Hc. rewrite (proj2 (Z.eqb_neq c 0)) by by apply (nonzero_lookup name (length s)).
        rewrite (bool_decide_eq_false_2 (name = s)) by congruence. cbn [orb]. do 2 f_equal.
        rewrite Nat.add_1_r, (take_S_r _ _ _ Hc), He.
        destruct (Z.eqb_spec c 64) as [->|Hc64]; [by rewrite bool_decide_eq_true_2|].
        rewrite bool_decide_eq_false_2; [done|]. intros [= ?]%app_inv_head. done.
    + rewrite bool_decide_eq_false_2; [|intros ->; by rewrite firstn_all in Hne]. cbn [orb].
      rewrite (bool_decide_eq_false_2 (take (length s + 1) name = _)); [by rewrite andb_false_r|].
      intros He. apply Hne. transitivity (take (length s) (take (length s + 1) name)).
      { by rewrite take_take, Nat.min_l by lia. }
      by rewrite He, take_app_length.
  - destruct (Nat.lt_ge_cases (length name) (length s)) as [Hlt|]; [|lia].
    rewrite offset_ptr_out by lia. cbn [Z.eqb]. f_equal.
    rewrite bool_decide_eq_false_2 by (intros ->; lia). cbn [orb].
    rewrite bool_decide_eq_false_2; [by rewrite andb_false_r|]. intros He%(f_equal length).
    rewrite length_take, length_app in He. cbn [length] in He. lia.
Qed.

(** *** Children *)

(** The first node of depth 1 that answers to [s], with the tokens from it on;
    [ts] are the tokens from [o] on, at [depth]. *)
Fixpoint find_kid (s : list Z) (ts : list token) (o depth : Z) : option (Z * list token) :=
  match ts with
  | [] => None
  | tok :: r =>
      match tok with
      | TBegin name =>
          if (depth + 1 =? 1) && answers name s then Some (o, ts) else find_kid s r (o + width tok) (depth + 1)
      | TEnd => if depth - 1 <? 0 then None else find_kid s r (o + width tok) (depth - 1)
      | _ => find_kid s r (o + width tok) depth
      end
  end.
Definition offset_of (r : option (Z * list token)) : Z := match r with Some (o, _) => o | None => - FDT_ERR_NOTFOUND end.

(** What a walk ends on: a node, the end of the node it started in, or the end
    of the block; and what the search makes of it. *)
Definition walked (s : list Z) (ts : list token) (r : Z * Z) (found : option (Z * list token)) : Prop :=
  (exists name rest, 0 <= r.1 /\ r.1 mod 4 = 0 /\ 0 <= r.2 /\ chain r.1 (TBegin name :: rest) /\ (length rest < length ts)%nat /\
     found = if (r.2 =? 1) && answers name s then Some (r.1, TBegin name :: rest)
             else find_kid s rest (r.1 + width (TBegin name)) r.2) \/
  (0 <= r.1 /\ r.2 < 0 /\ found = None) \/
  (r.1 = - FDT_ERR_NOTFOUND /\ 0 <= r.2 /\ found = None).

Lemma walked_cons s tok ts r found : walked s ts r found -> walked s (tok :: ts) r found.
Proof.
  intros [(name & rest & H)|H]; [left; exists name, rest; cbn [length]; intuition lia|by right].
Qed.

Lemma walk_spec s ts o depth : 0 <= o -> o mod 4 = 0 -> 0 <= depth -> chain o ts ->
  walked s ts (walk ts o depth) (find_kid s ts o depth).
Proof.
  revert o depth. induction ts as [|tok ts IH]; intros o depth Ho Hm Hd Hc; [by right; right|].
  destruct (chain_aligned o tok ts Hm Ho Hc) as (Ho' & Hm' & Hc').
  destruct tok as [name| |nameoff name value|]; cbn [walk find_kid]; [|destruct (Z.ltb_spec (depth - 1) 0)| |];
    try by apply walked_cons, IH.
  - left. exists name, ts. cbn [length fst snd]. split_and!; [done|done|lia|done|lia|done].
  - right. left. cbn [fst snd]. split_and!; [done|lia|done].
Qed.

Lemma subnode_loop_spec fuel name ts o depth s : 0 <= o -> o mod 4 = 0 -> 0 <= depth -> text s ->
  chain o (TBegin name :: ts) -> (length ts + 1 < fuel)%nat ->
  subnode_loop fuel t o depth s =
    Some (if (depth =? 1) && answers name s then o else offset_of (find_kid s ts (o + width (TBegin name)) depth)).
Proof.
  remember (length ts) as k eqn:Hk. revert fuel name ts o depth Hk.
  induction k as [k IH] using lt_wf_ind; intros [|fuel] name ts o depth -> Ho Hm Hd Hs Hc Hf; [lia|].
  cbn [subnode_loop]. rewrite (proj2 (Z.leb_le 0 o)), (proj2 (Z.leb_le 0 depth)) by done. cbn [andb].
  assert ((if depth =? 1 then _fdt_nodename_eq t o s else Some false) = Some ((depth =? 1) && answers name s)) as ->.
  { destruct (depth =? 1); [|done]. by rewrite (nodename_eq_spec o name ts). }
  destruct ((depth =? 1) && answers name s); [done|].
  rewrite (next_node_walk name ts) by done. destruct (chain_aligned o _ ts Hm Ho Hc) as (Ho' & Hm' & Hc').
  destruct (walk_spec s ts _ depth Ho' Hm' Hd Hc') as
    [(name' & r & He0 & Hem & Hed & Hec & Hlen & ->)|[(H1 & H2 & ->)|(H1 & H2 & ->)]].
  - rewrite (IH (length r) ltac:(lia) fuel name' r) by first [done | lia]. by destruct (_ && _).
  - destruct fuel; cbn [subnode_loop];
      rewrite (proj2 (Z.leb_le 0 _) H1), (proj2 (Z.leb_gt 0 _)), (proj2 (Z.ltb_lt _ 0) H2) by done; done.
  - assert ((0 <=? (walk ts (o + width (TBegin name)) depth).1) = false) as E by (by rewrite H1).
    destruct fuel; cbn [subnode_loop]; rewrite E, (proj2 (Z.ltb_ge _ 0) H2); cbn [andb]; by rewrite H1.
Qed.

(** A child is found by its name, or reported missing. *)
Lemma subnode_offset_spec name ts o s : 0 <= o -> o mod 4 = 0 -> text s -> chain o (TBegin name :: ts) ->
  fdt_subnode_offset_namelen t o s = Some (offset_of (find_kid s ts (o + width (TBegin name)) 0)).
Proof.
  intros Ho Hm Hs Hc. unfold fdt_subnode_offset_namelen, FDT_CHECK_HEADER. rewrite (lay_header _ _ _ _ _ Hlay). cbn [Z.eqb negb].
  assert (Hf := chain_fuel _ _ Ho Hc). cbn [length] in Hf.
  rewrite (subnode_loop_spec _ name ts) by first [done | lia]. done.
Qed.

(** What is found is a node of the same blob. *)
Lemma find_kid_chain s ts o depth o' ts' : 0 <= o -> o mod 4 = 0 -> chain o ts -> find_kid s ts o depth = Some (o', ts') ->
  0 <= o' /\ o' mod 4 = 0 /\ chain o' ts' /\ exists name r, ts' = TBegin name :: r.
Proof.
  revert o depth. induction ts as [|tok ts IH]; intros o depth Ho Hm Hc; cbn [find_kid]; [done|].
  destruct (chain_aligned o tok ts Hm Ho Hc) as (Ho' & Hm' & Hc').
  destruct tok as [name| |nameoff name value|]; [destruct (_ && _)|destruct (_ <? 0)| |]; try (by apply IH); try done.
  intros [= <- <-]. split_and!; [done|done|done|by eexists _, _].
Qed.

(** *** Properties *)

(** The first property of the node called [s]; [ts] are the tokens behind its
    start. *)
Fixpoint find_prop (s : list Z) (ts : list token) (o : Z) : option (Z * list Z) :=
  match ts with
  | tok :: r =>
      match tok with
      | TProp _ name value => if bool_decide (name = s) then Some (o, value) else find_prop s r (o + width tok)
      | TNop => find_prop s r (o + width tok)
      | _ => None
      end
  | [] => None
  end.
(** What a search that found none reports. *)
Fixpoint missing (ts : list token) : Z :=
  match ts with
  | (TProp _ _ _ | TNop) :: r => missing r
  | _ :: _ => - FDT_ERR_NOTFOUND
  | [] => - FDT_ERR_BADSTRUCTURE
  end.
Lemma missing_neg ts : missing ts < 0.
Proof. induction ts as [|[] ts IH]; done. Qed.
(** The properties from the next one on. *)
Fixpoint next_prop (ts : list token) (o : Z) : Z * list token :=
  match ts with
  | TNop :: r => next_prop r (o + width TNop)
  | TProp _ _ _ :: _ => (o, ts)
  | _ => (missing ts, ts)
  end.

Lemma nextprop_spec fuel ts o : 0 <= o -> o mod 4 = 0 -> chain o ts -> (length ts < fuel)%nat ->
  nextprop_loop fuel t o = Some (next_prop ts o).1.
Proof.
  revert o fuel. induction ts as [|tok ts IH]; intros o [|fuel] Ho Hm Hc Hf; cbn [length] in Hf; try lia;
    cbn [nextprop_loop].
  - destruct (next_tag_end o Ho Hm Hc) as (next & Hn & ->). by rewrite Z.eqb_refl, (proj2 (Z.leb_le _ _) Hn).
  - rewrite (chain_tag o tok ts) by done. destruct (chain_aligned o tok ts Hm Ho Hc) as (Ho' & Hm' & Hc').
    destruct tok; [done|done|done|]. cbn [tag_of next_prop]. change (FDT_NOP =? FDT_END) with false.
    change (FDT_NOP =? FDT_PROP) with false. change (FDT_NOP =? FDT_NOP) with true. apply IH; [done..|lia].
Qed.

Lemma next_prop_cases ts o : 0 <= o -> o mod 4 = 0 -> chain o ts ->
  (exists nameoff name value r, let o' := (next_prop ts o).1 in
     (next_prop ts o).2 = TProp nameoff name value :: r /\ 0 <= o' /\ o' mod 4 = 0 /\ chain o' (TProp nameoff name value :: r) /\
     (length r < length ts)%nat /\ missing ts = missing r /\
     forall s, find_prop s ts o = find_prop s (TProp nameoff name value :: r) o') \/
  ((next_prop ts o).1 = missing ts /\ missing ts < 0 /\ forall s, find_prop s ts o = None).
Proof.
  revert o. induction ts as [|tok ts IH]; intros o Ho Hm Hc; [by right|].
  destruct (chain_aligned o tok ts Hm Ho Hc) as (Ho' & Hm' & Hc').
  destruct tok as [name| |nameoff name value|]; [by right|by right|left|].
  - exists nameoff, name, value, ts. cbn [length next_prop fst snd]. split_and!; [done..|lia|done|done].
  - destruct (IH _ Ho' Hm' Hc') as [(nameoff & name & value & r & H)|H]; [left|by right].
    exists nameoff, name, value, r. cbn [length next_prop missing find_prop] in *. intuition lia.
Qed.

Lemma string_at_spec fuel p name : holds t p (name ++ [0]) -> nonzero name -> (length name < fuel)%nat ->
  string_at fuel t p = Some name.
Proof.
  revert p fuel. induction name as [|c name IH]; intros p [|fuel] Hh Hn Hf; cbn [length] in Hf; try lia;
    cbn [string_at]; cbn [app] in Hh; apply holds_cons in Hh as [-> Hh]; [done|].
  inversion_clear Hn as [|? ? Hc Hn']. rewrite (proj2 (Z.eqb_neq c 0) Hc). by rewrite (IH (p + 1) fuel) by first [done | lia].
Qed.

Lemma string_eq_spec nameoff name s : named_at nameoff name ->
  _fdt_string_eq t nameoff s = Some (bool_decide (name = s)).
Proof.
  intros (Hn & H0 & Hm & Hh). destruct (lay_strings_in _ _ _ _ _ Hlay) as (Host & _ & Hin).
  assert (Hat := lay_at _ _ _ _ _ Hlay). assert (Hend := lay_end _ _ _ _ _ Hlay).
  unfold _fdt_string_eq, fdt_string, strlen, c_string. rewrite (lay_strings _ _ _ _ _ Hlay), u32_small by lia.
  rewrite (string_at_spec _ _ name) by first [done | unfold loop_bound; lia].
  destruct (Z.eqb_spec (Z.of_nat (length name)) (Z.of_nat (length s))) as [Hl|Hl];
    [|by rewrite bool_decide_eq_false_2 by congruence].
  apply holds_app in Hh as [Hh _]. unfold memcmp. rewrite <- Hl, Hh. f_equal. by rewrite negb_involutive.
Qed.

(** A property's fields, where the code looks for them. *)
Lemma prop_fields o nameoff name value r : 0 <= o -> o mod 4 = 0 -> chain o (TProp nameoff name value :: r) ->
  place o <> 0 /\ fdt_get_property_by_offset t o = Some (place o, Z.of_nat (length value)) /\
  fdt32_to_cpu t (place o + 8) = Some nameoff /\ named_at nameoff name /\ holds t (place o + 12) value /\
  place o + 12 <> 0.
Proof.
  intros Ho Hm Hc. assert (Hc0 := Hc). destruct Hc0 as (Hn & Hh & [Hu Hname] & Hc').
  destruct (lay_struct_in _ _ _ _ _ Hlay) as (Hos & Hb & Hin).
  assert (Hat := lay_at _ _ _ _ _ Hlay). assert (Hend := lay_end _ _ _ _ _ Hlay).
  destruct (width_bounds (TProp nameoff name value)) as (_ & _ & Hw & _). unfold image in Hw. cbn [body] in Hw.
  rewrite !length_app, !length_cell in Hw. apply holds_app in Hh as [_ Hh]. cbn [body] in Hh. rewrite length_cell in Hh.
  apply holds_app in Hh as [Hlen [Hoff Hval]%holds_app]. rewrite !length_cell in *.
  change (Z.of_nat 4) with 4 in *. replace (place o + 4 + 4) with (place o + 8) in * by lia.
  replace (place o + 8 + 4) with (place o + 12) in * by lia.
  split; [unfold place; lia|]. split; [|split; [by apply holds_cell|split; [done|split; [done|unfold place; lia]]]].
  unfold fdt_get_property_by_offset, _fdt_check_prop_offset, check_offset.
  rewrite (proj2 (Z.ltb_ge o 0)) by lia. change (o mod FDT_TAGSIZE) with (o mod 4). rewrite Hm. cbn [Z.eqb negb orb].
  rewrite (chain_tag o (TProp nameoff name value) r) by done. cbn [tag_of].
  change (negb (FDT_PROP =? FDT_PROP)) with false. cbv iota.
  rewrite (proj2 (Z.ltb_ge _ 0)) by lia. unfold _fdt_offset_ptr. rewrite (lay_struct _ _ _ _ _ Hlay), u32_small by lia.
  fold (place o). rewrite (holds_cell _ _ (Z.of_nat (length value))) by first [done | unfold is_u32; lia].
  unfold s32. rewrite u32_small by lia. by rewrite (proj2 (Z.ltb_lt _ (2 ^ 31))) by lia.
Qed.

Lemma get_property_loop_spec fuel s ts o : 0 <= o -> o mod 4 = 0 -> chain o ts -> (length ts < fuel)%nat ->
  get_property_loop fuel t (next_prop ts o).1 s =
    Some (match find_prop s ts o with Some (o', v) => (place o', Z.of_nat (length v)) | None => (0, missing ts) end).
Proof.
  remember (length ts) as k eqn:Hk. revert fuel ts o Hk.
  induction k as [k IH] using lt_wf_ind; intros fuel ts o -> Ho Hm Hc Hf.
  destruct (next_prop_cases ts o Ho Hm Hc) as [(nameoff & name & value & r & _ & H0 & Hm' & Hc' & Hlen & -> & ->)|(-> & Hneg & ->)].
  2:{ destruct fuel; cbn [get_property_loop]; by rewrite (proj2 (Z.ltb_lt _ 0) Hneg). }
  set (o' := (next_prop ts o).1) in *. destruct fuel as [|fuel]; [lia|]. cbn [get_property_loop find_prop].
  rewrite (proj2 (Z.ltb_ge o' 0)) by done.
  destruct (prop_fields o' nameoff name value r) as (Hp & -> & Hoff & Hnamed & _); [done..|].
  rewrite (proj2 (Z.eqb_neq _ 0) Hp), Hoff, (string_eq_spec _ name) by done.
  destruct (bool_decide_reflect (name = s)); [done|].
  destruct (chain_aligned o' _ r Hm' H0 Hc') as (Ho'' & Hm'' & Hc'').
  unfold fdt_next_property_offset, _fdt_check_prop_offset, check_offset.
  rewrite (proj2 (Z.ltb_ge o' 0)) by lia. change (o' mod FDT_TAGSIZE) with (o' mod 4). rewrite Hm'. cbn [Z.eqb negb orb].
  rewrite (chain_tag o' (TProp nameoff name value) r) by done. cbn [tag_of].
  change (negb (FDT_PROP =? FDT_PROP)) with false. cbv iota. rewrite (proj2 (Z.ltb_ge _ 0)) by lia.
  assert (Hfuel := chain_fuel _ _ Ho'' Hc''). unfold _nextprop. rewrite (nextprop_spec _ r) by first [done | lia].
  by apply (IH (length r)); [lia|done..|lia].
Qed.

(** What is found is a property of the same blob. *)
Lemma find_prop_chain s ts o o' v : 0 <= o -> o mod 4 = 0 -> chain o ts -> find_prop s ts o = Some (o', v) ->
  0 <= o' /\ o' mod 4 = 0 /\ exists nameoff r, chain o' (TProp nameoff s v :: r).
Proof.
  revert o. induction ts as [|tok ts IH]; intros o Ho Hm Hc; cbn [find_prop]; [done|].
  destruct (chain_aligned o tok ts Hm Ho Hc) as (Ho' & Hm' & Hc').
  destruct tok as [name| |nameoff name value|]; [done|done| |by apply IH].
  destruct (bool_decide_reflect (name = s)) as [->|]; [|by apply IH].
  intros [= <- <-]. split_and!; [done|done|by exists nameoff, ts].
Qed.

(** A property is found by its name, or reported missing. *)
Lemma getprop_spec name ts o s : 0 <= o -> o mod 4 = 0 -> chain o (TBegin name :: ts) ->
  fdt_getprop t o s =
    Some (match find_prop s ts (o + width (TBegin name)) with
          | Some (o', v) => (place o' + 12, Z.of_nat (length v))
          | None => (0, missing ts)
          end).
Proof.
  intros Ho Hm Hc. destruct (chain_aligned o _ ts Hm Ho Hc) as (Ho' & Hm' & Hc').
  assert (Hfuel := chain_fuel _ _ Ho' Hc'). unfold fdt_getprop, fdt_getprop_namelen, fdt_get_property_namelen, fdt_first_property_offset.
  rewrite (check_begin o name ts) by done. rewrite (proj2 (Z.ltb_ge _ 0)) by done.
  unfold _nextprop. rewrite (nextprop_spec _ ts) by first [done | lia].
  rewrite get_property_loop_spec by first [done | lia].
  destruct (find_prop s ts _) as [[o' v]|] eqn:E; [|done].
  destruct (find_prop_chain s ts _ o' v Ho' Hm' Hc' E) as (H0 & Hm0 & nameoff & r & Hc0).
  destruct (prop_fields o' nameoff s v r H0 Hm0 Hc0) as (Hp & _). by rewrite (proj2 (Z.eqb_neq _ 0) Hp).
Qed.

(** *** Paths *)

(** The node a path leads to from the node [ts] starts with. *)
Fixpoint resolve (ps : list (list Z)) (o : Z) (ts : list token) : option (Z * list token) :=
  match ps with
  | [] => Some (o, ts)
  | s :: ps =>
      match find_kid s (tail ts) (o + width (hd TNop ts)) 0 with
      | Some (o', ts') => resolve ps o' ts'
      | None => None
      end
  end.

Lemma resolve_chain ps o name ts o' ts' : 0 <= o -> o mod 4 = 0 -> chain o (TBegin name :: ts) ->
  resolve ps o (TBegin name :: ts) = Some (o', ts') ->
  0 <= o' /\ o' mod 4 = 0 /\ chain o' ts' /\ exists name r, ts' = TBegin name :: r.
Proof.
  revert o name ts. induction ps as [|s ps IH]; intros o name ts Ho Hm Hc; cbn [resolve].
  - intros [= <- <-]. split_and!; [done|done|done|by eexists _, _].
  - cbn [tail hd]. destruct (chain_aligned o _ ts Hm Ho Hc) as (Ho' & Hm' & Hc').
    destruct (find_kid s ts _ 0) as [[o1 ts1]|] eqn:E; [|done].
    apply find_kid_chain in E as (H1 & Hm1 & Hc1 & name1 & r1 & ->); [|done..]. by apply IH.
Qed.

Lemma path_loop_spec fuel p o name ts : 0 <= o -> o mod 4 = 0 -> chain o (TBegin name :: ts) -> text p -> (length p < fuel)%nat ->
  path_loop fuel t o p = Some (offset_of (resolve (pieces p) o (TBegin name :: ts))).
Proof.
  revert p o name ts. induction fuel as [|fuel IH]; intros p o name ts Ho Hm Hc Hp Hf; [lia|]. cbn [path_loop].
  destruct p as [|c p]; [done|]. rewrite pieces_skip. destruct (skip_slashes (c :: p)) as [|c' p'] eqn:E; [done|].
  assert (text (c' :: p') /\ (length (c' :: p') <= length (c :: p))%nat /\ c' <> 47) as (Hp' & Hl & Hc').
  { destruct (skip_slashes_suffix (c :: p)) as (q & Hq & Hhd). rewrite E in Hq, Hhd. rewrite Hq in Hp |- *.
    destruct Hp as [Hz Hlen]. apply Forall_app in Hz as [_ Hz]. rewrite length_app in *. repeat split; [done|lia|lia|exact (Hhd _ _ eq_refl)]. }
  rewrite (pieces_cons c' p') by done. cbn [resolve tail hd].
  destruct (slash_split (c' :: p')) as (Hsplit & Hshort). specialize (Hshort ltac:(done)).
  assert (text (before_slash (c' :: p')) /\ text (from_slash (c' :: p'))) as [Hb Hfs].
  { destruct Hp' as [Hz Hlen]. rewrite Hsplit in Hz, Hlen. apply Forall_app in Hz as [Hz1 Hz2]. rewrite length_app in Hlen.
    repeat split; [done|lia|done|lia]. }
  rewrite (subnode_offset_spec name ts) by done. destruct (chain_aligned o _ ts Hm Ho Hc) as (Ho' & Hm' & Hch').
  destruct (find_kid _ ts _ 0) as [[o1 ts1]|] eqn:Ek; [|done]. cbn [offset_of].
  apply find_kid_chain in Ek as (H1 & Hm1 & Hc1 & name1 & r1 & ->); [|done..].
  rewrite (proj2 (Z.ltb_ge _ 0)) by done. apply IH; [done..|]. lia.
Qed.

(** An absolute path leads to the node the tokens say, or is reported missing. *)
Lemma path_offset_spec p name ts : chain 0 (TBegin name :: ts) -> text (47 :: p) ->
  fdt_path_offset t (47 :: p) = Some (offset_of (resolve (pieces (47 :: p)) 0 (TBegin name :: ts))).
Proof.
  intros Hc Hp. unfold fdt_path_offset, loop_bound. cbn [path_offset hd]. unfold FDT_CHECK_HEADER.
  rewrite (lay_header _ _ _ _ _ Hlay). cbn [Z.eqb negb Pos.eqb]. by apply path_loop_spec; [done..|lia].
Qed.
End Tokens.
