(* ===== verification/FdtTree.v ===== *)
(** * libfdt reads and changes the tree a blob holds

    Trees and their tokens; lookups in the blob are lookups in the tree, and a
    property set in place is set in the tree. *)

From Stdlib Require Import String.
From S2P Require Import Prelude Fdt FdtProps.

Local Open Scope list_scope.
Local Open Scope Z_scope.

(** ** Trees *)

(** A node: its name, its properties by offset, name and value, its children. *)
Inductive tree := Tree (name : list Z) (props : list (Z * list Z * list Z)) (kids : list tree).

Definition tree_name (n : tree) : list Z := let 'Tree name _ _ := n in name.
Definition tree_kids (n : tree) : list tree := let 'Tree _ _ kids := n in kids.
Definition tree_props (n : tree) : list (Z * list Z * list Z) := let 'Tree _ props _ := n in props.

(** The tokens of a tree. *)
Definition prop_token (p : Z * list Z * list Z) : token := TProp p.1.1 p.1.2 p.2.
Fixpoint flat (n : tree) : list token :=
  let 'Tree name props kids := n in TBegin name :: map prop_token props ++ flat_map flat kids ++ [TEnd].

(** What a reader of the tree means by a child, a path and a property. *)
Definition kid (s : list Z) (n : tree) : option tree := List.find (fun k => answers (tree_name k) s) (tree_kids n).
Fixpoint follow (ps : list (list Z)) (n : tree) : option tree :=
  match ps with
  | [] => Some n
  | s :: ps => match kid s n with Some k => follow ps k | None => None end
  end.
Definition property (s : list Z) (n : tree) : option (list Z) :=
  match List.find (fun p => bool_decide (p.1.2 = s)) (tree_props n) with Some p => Some p.2 | None => None end.

(** ** A tree is changed at a node *)

(** [f] at the first element that satisfies [g]. *)
Fixpoint map_first {A} (g : A -> bool) (f : A -> A) (l : list A) : list A :=
  match l with
  | [] => []
  | x :: l => if g x then f x :: l else x :: map_first g f l
  end.

(** [f] at the node the path leads to. *)
Fixpoint change (f : tree -> tree) (ps : list (list Z)) (n : tree) : tree :=
  match ps with
  | [] => f n
  | s :: ps => let 'Tree name props kids := n in Tree name props (map_first (fun k => answers (tree_name k) s) (change f ps) kids)
  end.
Definition set_property (s val : list Z) (n : tree) : tree :=
  let 'Tree name props kids := n in
  Tree name (map_first (fun p => bool_decide (p.1.2 = s)) (fun p => (p.1.1, p.1.2, val)) props) kids.

(** The tokens of [k] inside [ts], and of what [k] becomes inside [new]. *)
Definition inside (ts : list token) (k : tree) (pre rest : list token) (new : (tree -> tree) -> list token) : Prop :=
  ts = pre ++ flat k ++ rest /\ forall f, new f = pre ++ flat (f k) ++ rest.

Definition widths (ts : list token) : Z := fold_right (fun tok w => width tok + w) 0 ts.
Lemma widths_app a b : widths (a ++ b) = widths a + widths b.
Proof. induction a as [|tok a IH]; [done|]. cbn [app widths fold_right]. fold (widths a) (widths (a ++ b)). lia. Qed.
Lemma widths_cons tok ts : widths (tok :: ts) = width tok + widths ts.
Proof. done. Qed.

Lemma widths_nonneg ts : 0 <= widths ts.
Proof. induction ts as [|tok ts IH]; [done|]. rewrite widths_cons. destruct (width_bounds tok) as (H & _). lia. Qed.

Lemma find_kid_props s props r o d :
  find_kid s (map prop_token props ++ r) o d = find_kid s r (o + widths (map prop_token props)) d.
Proof.
  revert o. induction props as [|p props IH]; intros o; cbn [map app]; [by rewrite Z.add_0_r|].
  rewrite widths_cons, Z.add_assoc, <- IH. done.
Qed.

(** What is deeper than the children is passed over. *)
Section Skip.
Context (s : list Z).
Definition skipped (k : tree) : Prop := forall r o d, 1 <= d ->
  find_kid s (flat k ++ r) o d = find_kid s r (o + widths (flat k)) d.

Lemma skip_forest kids r o d : Forall skipped kids -> 1 <= d ->
  find_kid s (flat_map flat kids ++ r) o d = find_kid s r (o + widths (flat_map flat kids)) d.
Proof.
  intros Hk Hd. revert o. induction Hk as [|k kids Hk _ IH]; intros o; cbn [flat_map app]; [by rewrite Z.add_0_r|].
  rewrite <- app_assoc, Hk by done. rewrite IH, widths_app. f_equal. lia.
Qed.

(** The rest of a node whose start the search has passed. *)
Lemma skip_inside props kids r o d : Forall skipped kids -> 1 <= d ->
  find_kid s (map prop_token props ++ flat_map flat kids ++ [TEnd] ++ r) o d
  = find_kid s r (o + widths (map prop_token props ++ flat_map flat kids ++ [TEnd])) (d - 1).
Proof.
  intros Hk Hd. rewrite find_kid_props, skip_forest by done. cbn [app find_kid]. rewrite (proj2 (Z.ltb_ge _ 0)) by lia.
  f_equal. rewrite !widths_app, widths_cons. cbn [widths fold_right]. lia.
Qed.

Lemma skip_node name props kids : Forall skipped kids -> skipped (Tree name props kids).
Proof.
  intros Hk r o d Hd. cbn [flat app find_kid]. rewrite (proj2 (Z.eqb_neq (d + 1) 1)) by lia. cbn [andb].
  rewrite <- !app_assoc, skip_inside by first [done | lia]. rewrite widths_cons. f_equal; lia.
Qed.

Lemma skip_tree : forall k, skipped k.
Proof.
  fix IH 1. intros [name props kids]. apply skip_node. induction kids as [|k kids IHk]; constructor; [apply IH|done].
Qed.

(** Among children, the first that answers is found. *)
Lemma find_among kids :
  match List.find (fun k => answers (tree_name k) s) kids with
  | Some k => exists pre rest,
      inside (flat_map flat kids) k pre rest (fun f => flat_map flat (map_first (fun k => answers (tree_name k) s) f kids)) /\
      forall r o, find_kid s (flat_map flat kids ++ TEnd :: r) o 0 = Some (o + widths pre, flat k ++ rest ++ TEnd :: r)
  | None => forall r o, find_kid s (flat_map flat kids ++ TEnd :: r) o 0 = None
  end.
Proof.
  induction kids as [|[name props kids'] kids IH]; cbn [List.find map_first flat_map]; [done|].
  change (tree_name (Tree name props kids')) with name. destruct (answers name s) eqn:E.
  - exists [], (flat_map flat kids). split; [done|]. intros r o. rewrite <- app_assoc. cbn [flat app find_kid].
    cbn [Z.add Z.eqb Pos.eqb andb]. rewrite E. cbn [widths fold_right]. by rewrite Z.add_0_r.
  - assert (forall r o, find_kid s ((flat (Tree name props kids') ++ flat_map flat kids) ++ TEnd :: r) o 0
      = find_kid s (flat_map flat kids ++ TEnd :: r) (o + widths (flat (Tree name props kids'))) 0) as Hskip.
    { intros r o. rewrite <- app_assoc. cbn [flat app find_kid]. cbn [Z.add Z.eqb Pos.eqb andb]. rewrite E, <- !app_assoc.
      rewrite skip_inside by first [done | apply Forall_true; apply skip_tree]. rewrite widths_cons. f_equal. lia. }
    destruct (List.find _ kids) as [k|]; [|intros r o; by rewrite Hskip].
    destruct IH as (pre & rest & (H1 & H2) & H3). exists (flat (Tree name props kids') ++ pre), rest. split.
    + split; [by rewrite H1, <- app_assoc|]. intros f. cbn [flat_map]. by rewrite H2, <- app_assoc.
    + intros r o. rewrite Hskip, H3, widths_app. f_equal. f_equal. lia.
Qed.
End Skip.

Lemma flat_begin n : exists rest, flat n = TBegin (tree_name n) :: rest.
Proof. destruct n. by eexists. Qed.

(** A path leads to the tokens of the node it leads to in the tree. *)
Lemma resolve_tree ps n :
  match follow ps n with
  | Some k => exists pre rest, inside (flat n) k pre rest (fun f => flat (change f ps n)) /\
      forall r o, resolve ps o (flat n ++ r) = Some (o + widths pre, flat k ++ rest ++ r)
  | None => forall r o, resolve ps o (flat n ++ r) = None
  end.
Proof.
  revert n. induction ps as [|s ps IH]; intros n; cbn [follow change resolve].
  - exists [], []. split; [split; [by rewrite app_nil_r|]; intros f; by rewrite app_nil_r|].
    intros r o. cbn [widths fold_right]. by rewrite Z.add_0_r.
  - destruct n as [name props kids]. unfold kid. cbn [tree_kids flat app tail hd].
    assert (H := find_among s kids). destruct (List.find _ kids) as [k|].
    2:{ intros r o. rewrite <- !app_assoc, find_kid_props. cbn [app]. by rewrite H. }
    destruct H as (pre & rest & (H1 & H2) & H3). assert (forall r o, find_kid s ((map prop_token props ++ flat_map flat kids ++ [TEnd]) ++ r) o 0
      = Some (o + widths (map prop_token props ++ pre), flat k ++ rest ++ TEnd :: r)) as Hfind.
    { intros r o. rewrite <- !app_assoc, find_kid_props. cbn [app]. rewrite H3, widths_app. f_equal. f_equal. lia. }
    specialize (IH k). destruct (follow ps k) as [k'|]; [|intros r o; rewrite Hfind; apply IH].
    destruct IH as (pre' & rest' & (G1 & G2) & G3).
    exists (TBegin name :: map prop_token props ++ pre ++ pre'), (rest' ++ rest ++ [TEnd]). split; [split|].
    + rewrite H1, G1. cbn [app]. by rewrite <- !app_assoc.
    + intros f. cbn [flat app]. rewrite H2, G2. by rewrite <- !app_assoc.
    + intros r o. rewrite Hfind, G3, <- !app_assoc. f_equal. f_equal. rewrite widths_cons, !widths_app. lia.
Qed.

Lemma find_prop_tree s n r o name rest : flat n ++ r = TBegin name :: rest -> missing rest = - FDT_ERR_NOTFOUND /\
  exists o', find_prop s rest o = match property s n with Some v => Some (o', v) | None => None end.
Proof.
  destruct n as [name' props kids]. cbn [flat app]. intros [= -> <-]. unfold property. cbn [tree_props].
  rewrite <- !app_assoc. assert (forall o, missing (flat_map flat kids ++ [TEnd] ++ r) = - FDT_ERR_NOTFOUND /\
    find_prop s (flat_map flat kids ++ [TEnd] ++ r) o = None) as Hend by (by destruct kids as [|[] ?]).
  revert o. induction props as [|p props IH]; intros o; cbn [map app].
  - destruct (Hend o) as [H1 H2]. split; [done|]. by exists 0.
  - destruct (IH (o + width (prop_token p))) as (H1 & o' & H2). split; [done|]. cbn [find_prop prop_token List.find].
    destruct (bool_decide (p.1.2 = s)); [by exists o|]. by exists o'.
Qed.

(** What the functions of the library say of a blob is what lookups in the tree
    say. *)
Definition reads (t : fdt) (tr : tree) : Prop := forall path s, text (47 :: path) ->
  match follow (pieces (47 :: path)) tr with
  | None => fdt_path_offset t (47 :: path) = Some (- FDT_ERR_NOTFOUND)
  | Some node => exists o, 0 <= o /\ fdt_path_offset t (47 :: path) = Some o /\
      match property s node with
      | None => fdt_getprop t o s = Some (0, - FDT_ERR_NOTFOUND)
      | Some v => exists p, p <> 0 /\ fdt_getprop t o s = Some (p, Z.of_nat (length v)) /\
          load_bytes t p (Z.of_nat (length v)) = Some v
      end
  end.

Lemma tree_reads t os n ost m tr : layout t os n ost m -> chain t os n ost m 0 (flat tr) -> reads t tr.
Proof.
  intros Hlay Hc path s Hp. destruct (flat_begin tr) as [rest Htr].
  assert (Hpath := path_offset_spec t os n ost m Hlay path (tree_name tr) rest). rewrite <- Htr in Hpath.
  specialize (Hpath Hc Hp). assert (Hr := resolve_tree (pieces (47 :: path)) tr).
  destruct (follow (pieces (47 :: path)) tr) as [node|].
  2:{ specialize (Hr [] 0). rewrite app_nil_r in Hr. by rewrite Hpath, Hr. }
  destruct Hr as (pre & rest' & _ & Hr). specialize (Hr [] 0). rewrite !app_nil_r, Z.add_0_l in Hr. rewrite Hr in Hpath.
  set (o := widths pre) in *. exists o. rewrite Htr in Hr, Hc. destruct (resolve_chain t os n ost m (pieces (47 :: path)) 0 _ rest o _ ltac:(lia) ltac:(done) Hc Hr)
    as (Ho & Hm & Hc' & name & r & Hn). split; [done|]. split; [done|]. rewrite Hn in Hc'.
  destruct (find_prop_tree s node rest' (o + width (TBegin name)) name r Hn) as (Hmiss & o' & Hfind).
  rewrite (getprop_spec t os n ost m Hlay name r o s) by done. rewrite Hfind, Hmiss.
  destruct (property s node) as [v|]; [|done]. destruct (chain_aligned _ _ _ _ _ o _ r Hm Ho Hc') as (Ho1 & Hm1 & Hc1).
  destruct (find_prop_chain t os n ost m s r _ o' v Ho1 Hm1 Hc1 Hfind) as (H0 & Hm0 & nameoff & r0 & Hc0).
  destruct (prop_fields t os n ost m Hlay o' nameoff s v r0 H0 Hm0 Hc0) as (_ & _ & _ & _ & Hv & Hne).
  by exists (place t os o' + 12).
Qed.

(** C36: libfdt reads the tree: in a blob whose structure block holds a tree,
    every absolute path leads to the node it names, its unit address omitted or
    not, and there every property is found with its bytes, the first of a name;
    what the tree does not have is reported missing, and no access leaves the
    blob. *)
Theorem libfdt_reads_tree t os n ost m tr path s :
  layout t os n ost m -> chain t os n ost m 0 (flat tr) -> text (47 :: path) ->
  match follow (pieces (47 :: path)) tr with
  | None => fdt_path_offset t (47 :: path) = Some (- FDT_ERR_NOTFOUND)
  | Some node => exists o, 0 <= o /\ fdt_path_offset t (47 :: path) = Some o /\
      match property s node with
      | None => fdt_getprop t o s = Some (0, - FDT_ERR_NOTFOUND)
      | Some v => exists p, p <> 0 /\ fdt_getprop t o s = Some (p, Z.of_nat (length v)) /\
          load_bytes t p (Z.of_nat (length v)) = Some v
      end
  end.
Proof. intros Hlay Hc Hp. by apply (tree_reads t os n ost m tr Hlay Hc). Qed.

(** ** A value is replaced in place *)

(** The tokens, with the value of the property at [P] replaced by one of the
    same length. *)
Definition set_value (val : list Z) (tok : token) : token :=
  match tok with
  | TProp nameoff name v => if bool_decide (length v = length val) then TProp nameoff name val else tok
  | _ => tok
  end.
Fixpoint update (P : Z) (val : list Z) (ts : list token) (o : Z) : list token :=
  match ts with
  | [] => []
  | tok :: r => (if o =? P then set_value val tok else tok) :: update P val r (o + width tok)
  end.

Lemma set_value_width val tok : width (set_value val tok) = width tok.
Proof.
  destruct tok; try done. cbn [set_value]. case_bool_decide as E; [|done]. unfold width, image. cbn [body tag_of].
  by rewrite !length_app, !length_cell, E.
Qed.

Lemma update_width P val o tok : width (if o =? P then set_value val tok else tok) = width tok.
Proof. destruct (o =? P); [apply set_value_width|done]. Qed.

Lemma update_other P val ts o : P < o -> update P val ts o = ts.
Proof.
  revert o. induction ts as [|tok ts IH]; intros o H; cbn [update]; [done|]. rewrite (proj2 (Z.eqb_neq o P)) by lia.
  destruct (width_bounds tok) as (Hw & _). by rewrite IH by lia.
Qed.

Lemma update_split P val pre tok post o : P = o + widths pre ->
  update P val (pre ++ tok :: post) o = pre ++ set_value val tok :: post.
Proof.
  revert o. induction pre as [|x pre IH]; intros o HP; cbn [app update].
  - cbn [widths fold_right] in HP. rewrite HP, Z.add_0_r, Z.eqb_refl. destruct (width_bounds tok) as (Hw & _).
    by rewrite update_other by lia.
  - rewrite widths_cons in HP. destruct (width_bounds x) as (Hw & _). assert (Hp := widths_nonneg pre).
    rewrite (proj2 (Z.eqb_neq o P)) by lia. by rewrite IH by lia.
Qed.

(** Searches find in the updated tokens what they found before. *)
Definition updated (P : Z) (val : list Z) (r : Z * list token) : Z * list token := (r.1, update P val r.2 r.1).

Lemma find_kid_update P val s ts o d : find_kid s (update P val ts o) o d = updated P val <$> find_kid s ts o d.
Proof.
  revert o d. induction ts as [|tok ts IH]; intros o d; [done|]. cbn [update find_kid].
  assert (Hw := update_width P val o tok). destruct (o =? P) eqn:E;
    destruct tok as [name| |nameoff name v|]; cbn [set_value] in *; try case_bool_decide; rewrite ?Hw, ?IH; try done;
    try (by destruct (d - 1 <? 0)).
  all: destruct ((d + 1 =? 1) && answers name s); [|done]; cbn [fmap option_fmap option_map]; unfold updated;
    cbn [fst snd update set_value]; by rewrite E.
Qed.

Lemma resolve_update P val ps ts o : resolve ps o (update P val ts o) = updated P val <$> resolve ps o ts.
Proof.
  revert ts o. induction ps as [|s ps IH]; intros ts o; cbn [resolve]; [done|].
  assert (width (hd TNop (update P val ts o)) = width (hd TNop ts) /\
    tail (update P val ts o) = update P val (tail ts) (o + width (hd TNop ts))) as [-> ->].
  { destruct ts as [|tok ts]; [done|]. split; [apply update_width|done]. }
  rewrite find_kid_update. by destruct (find_kid s (tail ts) _ 0) as [[o' ts']|]; cbn [fmap option_fmap option_map updated fst snd].
Qed.

Lemma find_prop_update P val s ts o : find_prop s (update P val ts o) o =
  (fun r => (r.1, if (r.1 =? P) && bool_decide (length r.2 = length val) then val else r.2)) <$> find_prop s ts o.
Proof.
  revert o. induction ts as [|tok ts IH]; intros o; [done|]. cbn [update find_prop].
  assert (Hw := update_width P val o tok). destruct (o =? P) eqn:E; destruct tok as [name| |nameoff name v|];
    cbn [set_value] in *; try done; try (case_bool_decide as Hl); rewrite ?Hw, ?IH; try done;
    destruct (bool_decide (name = s)); try done; cbn [fmap option_fmap option_map fst snd]; rewrite E; cbn [andb];
    rewrite ?(bool_decide_eq_true_2 _ Hl), ?(bool_decide_eq_false_2 _ Hl); done.
Qed.

Lemma missing_update P val ts o : missing (update P val ts o) = missing ts.
Proof.
  revert o. induction ts as [|tok ts IH]; intros o; [done|]. cbn [update].
  destruct (o =? P); destruct tok; cbn [set_value missing]; try done; try apply IH; case_bool_decide; apply IH.
Qed.

(** Where the results of searches are. *)
Lemma find_kid_split s ts o d o' ts' : find_kid s ts o d = Some (o', ts') -> exists pre, ts = pre ++ ts' /\ o' = o + widths pre.
Proof.
  revert o d. induction ts as [|tok ts IH]; intros o d; cbn [find_kid]; [done|].
  assert (forall d, find_kid s ts (o + width tok) d = Some (o', ts') ->
    exists pre, tok :: ts = pre ++ ts' /\ o' = o + widths pre) as Hnext.
  { intros e (pre & -> & ->)%IH. exists (tok :: pre). split; [done|]. rewrite widths_cons. lia. }
  destruct tok as [name| |nameoff name v|]; [destruct (_ && _)|destruct (_ <? 0)| |]; try done; try by apply Hnext.
  intros [= <- <-]. exists []. split; [done|]. cbn. lia.
Qed.

Lemma resolve_split ps o ts o' ts' : resolve ps o ts = Some (o', ts') -> exists pre, ts = pre ++ ts' /\ o' = o + widths pre.
Proof.
  revert o ts. induction ps as [|s ps IH]; intros o ts; cbn [resolve].
  - intros [= <- <-]. exists []. split; [done|]. cbn. lia.
  - destruct ts as [|tok ts]; [done|]. cbn [tail hd].
    destruct (find_kid s ts _ 0) as [[o1 ts1]|] eqn:E; [|done]. apply find_kid_split in E as (pre1 & -> & ->).
    intros (pre & -> & ->)%IH. exists (tok :: pre1 ++ pre). rewrite widths_cons, widths_app. split; [cbn [app]; by rewrite <- app_assoc|lia].
Qed.

Lemma find_prop_split s ts o P v : find_prop s ts o = Some (P, v) ->
  exists pre nameoff post, ts = pre ++ TProp nameoff s v :: post /\ P = o + widths pre /\
    Forall (fun tok => tag_of tok <> FDT_BEGIN_NODE) pre.
Proof.
  revert o. induction ts as [|tok ts IH]; intros o; cbn [find_prop]; [done|].
  assert (tag_of tok <> FDT_BEGIN_NODE -> find_prop s ts (o + width tok) = Some (P, v) ->
    exists pre nameoff post, tok :: ts = pre ++ TProp nameoff s v :: post /\ P = o + widths pre /\
      Forall (fun tok => tag_of tok <> FDT_BEGIN_NODE) pre) as Hnext.
  { intros Ht (pre & nameoff & post & -> & -> & Hpre)%IH. exists (tok :: pre), nameoff, post. rewrite widths_cons.
    split_and!; [done|lia|by constructor]. }
  destruct tok as [name| |nameoff name w|]; try done; [|by apply Hnext].
  destruct (bool_decide_reflect (name = s)) as [->|]; [|by apply Hnext].
  intros [= <- <-]. exists [], nameoff, ts. cbn. split_and!; [done|lia|done].
Qed.

(** ** The blob after a store *)

Section Store.
Context (t t' : fdt) (q : Z) (old val : list Z).

(** [t'] is [t] with [val] in place of [old] at [q]. *)
Definition replaced : Prop :=
  holds t q old /\ length old = length val /\
  t' = Fdt (fdt_at t) (take (Z.to_nat (q - fdt_at t)) (fdt_bytes t) ++ val ++
                       drop (Z.to_nat (q - fdt_at t) + length val) (fdt_bytes t)).

Lemma store_replaced : holds t q old -> length old = length val -> store_bytes t q val = Some t' <-> replaced.
Proof.
  intros Hh Hl. unfold store_bytes, replaced. unfold holds in Hh. rewrite <- Hl at 1. rewrite Hh.
  split; [by intros [= <-]|by intros (_ & _ & ->)].
Qed.

Context (Hr : replaced).

Lemma replaced_at : fdt_at t' = fdt_at t.
Proof. destruct Hr as (_ & _ & ->). done. Qed.

Lemma replaced_length : length (fdt_bytes t') = length (fdt_bytes t).
Proof.
  destruct Hr as (Hh & Hl & ->). apply holds_in in Hh. cbn [fdt_bytes]. rewrite !length_app, length_take, length_drop. lia.
Qed.

Lemma replaced_lookup i : fdt_bytes t' !! i =
  if decide (Z.to_nat (q - fdt_at t) <= i < Z.to_nat (q - fdt_at t) + length val)%nat
  then val !! (i - Z.to_nat (q - fdt_at t))%nat else fdt_bytes t !! i.
Proof.
  destruct Hr as (Hh & Hl & ->). apply holds_in in Hh. cbn [fdt_bytes].
  set (k := Z.to_nat (q - fdt_at t)). assert (length (take k (fdt_bytes t)) = k) as Hk by (rewrite length_take; lia).
  case_decide as Hi.
  - rewrite lookup_app_r, Hk, lookup_app_l by lia. done.
  - destruct (Nat.lt_ge_cases i k) as [Hk1|Hk1]; [by rewrite lookup_app_l, lookup_take_lt by lia|].
    rewrite !lookup_app_r, Hk, lookup_drop by lia. f_equal. lia.
Qed.

(** What is clear of the place is as it was. *)
Lemma replaced_holds p bs : (p + Z.of_nat (length bs) <= q \/ q + Z.of_nat (length val) <= p) -> holds t p bs -> holds t' p bs.
Proof.
  intros Hd Hp. assert (Hin := Hp). apply holds_in in Hin. destruct Hr as (Hh & Hl & _). apply holds_in in Hh.
  apply holds_iff in Hp as (H0 & Hp & Hb). apply holds_iff. rewrite replaced_at, replaced_length.
  split; [done|]. split; [done|]. intros i c Hi. rewrite replaced_lookup. assert (Hlt := lookup_lt_Some _ _ _ Hi).
  case_decide; [lia|]. by apply Hb.
Qed.

Lemma replaced_value : holds t' q val.
Proof.
  destruct Hr as (Hh & Hl & _). apply holds_in in Hh. apply holds_iff. rewrite replaced_at, replaced_length.
  split; [lia|]. split; [lia|]. intros i c Hi. rewrite replaced_lookup. assert (Hlt := lookup_lt_Some _ _ _ Hi).
  rewrite decide_True by lia. by rewrite Nat.add_comm, Nat.add_sub.
Qed.

Lemma replaced_cell p : (p + 4 <= q \/ q + Z.of_nat (length val) <= p) -> 0 <= p - fdt_at t ->
  fdt32_to_cpu t' p = fdt32_to_cpu t p.
Proof.
  intros Hd H0. destruct Hr as (Hh & Hl & _). apply holds_in in Hh. unfold fdt32_to_cpu, load8, ld8. rewrite replaced_at.
  rewrite !(proj2 (Z.ltb_ge _ 0)), !replaced_lookup by lia. rewrite !decide_False by lia. done.
Qed.

(** Nothing in front of the structure block changes. *)
Lemma replaced_layout os n ost m : layout t os n ost m -> fdt_at t + os <= q -> layout t' os n ost m.
Proof.
  intros [H1 H2 H3 H4 H5 H6 H7 H8 H9 H10] Hq.
  assert (forall f, 0 <= f <= 36 -> fdt_get_header t' f = fdt_get_header t f) as Hf.
  { intros f Hf. unfold fdt_get_header. rewrite replaced_at. apply replaced_cell; lia. }
  unfold fdt_off_dt_struct, fdt_size_dt_struct, fdt_off_dt_strings, fdt_version in *.
  split; rewrite ?replaced_at, ?replaced_length; try done;
    unfold fdt_check_header, fdt_magic, fdt_version, fdt_last_comp_version, fdt_off_dt_struct, fdt_size_dt_struct, fdt_off_dt_strings in *;
    by rewrite !Hf by lia.
Qed.

(** The tokens around the place stay, the property there gets the value. *)
Section Around.
Context (os n ost m : Z) (Hlay : layout t os n ost m) (Hlow : place t os 0 <= q)
  (Hhigh : q + Z.of_nat (length val) <= place t os n).

Lemma replaced_token tok : token_ok t ost m tok -> token_ok t' ost m tok.
Proof.
  destruct tok as [name| |nameoff name v|]; cbn [token_ok]; [done|done| |done].
  intros (Hu & Hnz & H0 & Hm & Hh). split; [done|]. split; [done|]. split; [done|]. split; [done|].
  rewrite replaced_at. apply replaced_holds; [|done]. rewrite length_app. cbn [length]. unfold place in *.
  destruct (lay_apart _ _ _ _ _ Hlay); lia.
Qed.

Lemma replaced_image o tok : 0 <= o -> (o + width tok <= q - place t os 0 \/ q + Z.of_nat (length val) - place t os 0 <= o) ->
  holds t (place t os o) (image tok) -> holds t' (place t' os o) (image tok).
Proof.
  intros Ho Hd Hh. unfold place in *. rewrite replaced_at. apply replaced_holds; [|done].
  destruct (width_bounds tok) as (_ & _ & Hw). lia.
Qed.

Lemma replaced_after ts o : 0 <= o -> q + Z.of_nat (length val) - place t os 0 <= o ->
  chain t os n ost m o ts -> chain t' os n ost m o ts.
Proof.
  revert o. induction ts as [|tok ts IH]; intros o Ho Hq; cbn [chain].
  - intros [Hn Hh]. split; [done|]. unfold place in *. rewrite replaced_at. apply replaced_holds; [right; lia|done].
  - intros (Hn & Hh & Hok & Hc). destruct (width_bounds tok) as (Hw & _). split; [done|].
    split; [apply replaced_image; [done|by right|done]|]. split; [by apply replaced_token|]. apply IH; [lia|lia|done].
Qed.

Lemma replaced_chain pre nameoff name post o : 0 <= o -> q = place t os (o + widths pre) + 12 ->
  chain t os n ost m o (pre ++ TProp nameoff name old :: post) -> chain t' os n ost m o (pre ++ TProp nameoff name val :: post).
Proof.
  revert o. induction pre as [|tok pre IH]; intros o Ho Hq; cbn [app chain].
  - cbn [widths fold_right] in Hq. rewrite Z.add_0_r in Hq. destruct Hr as (_ & Hl & _).
    intros (Hn & Hh & Hok & Hc). assert (width (TProp nameoff name val) = width (TProp nameoff name old)) as Hw.
    { unfold width, image. cbn [body]. by rewrite !length_app, Hl. }
    rewrite Hw. destruct (width_bounds (TProp nameoff name old)) as (_ & _ & Hwb).
    unfold image in *. cbn [body tag_of] in *. rewrite !length_app, !length_cell in Hwb. split; [done|].
    split; [|split; [by apply (replaced_token (TProp nameoff name old))|apply replaced_after; [lia|unfold place in *; lia|done]]].
    rewrite Hl in Hh. rewrite !app_assoc in Hh |- *. apply holds_app in Hh as [Hh _]. apply holds_app. unfold place in *.
    rewrite replaced_at. rewrite !length_app, !length_cell in *. split; [apply replaced_holds; [|done]; rewrite !length_app, !length_cell; lia|].
    replace (fdt_at t + os + o + Z.of_nat (4 + 4 + 4)) with q by lia. apply replaced_value.
  - intros (Hn & Hh & Hok & Hc). rewrite widths_cons in Hq. destruct (width_bounds tok) as (Hw & _).
    assert (Hwp := widths_nonneg pre). split; [done|].
    split; [apply replaced_image; [done|left; unfold place in *; lia|done]|]. split; [by apply replaced_token|].
    apply IH; [lia|rewrite Hq; f_equal; f_equal; lia|done].
Qed.
End Around.
End Store.

(** ** A property is set in place *)

Section Setprop.
Context (t : fdt) (os n ost m : Z) (Hlay : layout t os n ost m).

Lemma chain_suffix pre ts o : 0 <= o -> o mod 4 = 0 -> chain t os n ost m o (pre ++ ts) ->
  chain t os n ost m (o + widths pre) ts /\ 0 <= o + widths pre /\ (o + widths pre) mod 4 = 0.
Proof.
  revert o. induction pre as [|tok pre IH]; intros o Ho Hm Hc.
  - cbn [widths fold_right]. by rewrite Z.add_0_r.
  - rewrite widths_cons, Z.add_assoc. destruct (chain_aligned _ _ _ _ _ o tok (pre ++ ts) Hm Ho Hc) as (H1 & H2 & H3). by apply IH.
Qed.

(** A property of as many bytes gets the value, and its token alone changes;
    otherwise the blob is left alone. *)
Lemma setprop_tokens first ts ps o name r s val :
  chain t os n ost m 0 (TBegin first :: ts) -> resolve ps 0 (TBegin first :: ts) = Some (o, TBegin name :: r) ->
  match find_prop s r (o + width (TBegin name)) with
  | Some (P, v) =>
      if bool_decide (length v = length val) then
        exists t', fdt_setprop_inplace t o s val = Some (0, t') /\ fdt_at t' = fdt_at t /\
          fdt_check_header t' = Some 0 /\ layout t' os n ost m /\
          chain t' os n ost m 0 (update P val (TBegin first :: ts) 0)
      else fdt_setprop_inplace t o s val = Some (- FDT_ERR_NOSPACE, t)
  | None => fdt_setprop_inplace t o s val = Some (missing r, t)
  end.
Proof.
  intros Hc Hres. destruct (resolve_chain _ _ _ _ _ _ 0 _ _ _ _ ltac:(lia) ltac:(done) Hc Hres) as (Ho & Hm & Hc' & _).
  unfold fdt_setprop_inplace. rewrite (getprop_spec t os n ost m Hlay name r o s) by done.
  destruct (find_prop s r _) as [[P v]|] eqn:E; [|done].
  apply find_prop_split in E as (pre2 & nameoff & post & Er & HP & _).
  apply resolve_split in Hres as (pre1 & Ets & Eo). rewrite Er in Ets. rewrite Z.add_0_l in Eo.
  set (pre := pre1 ++ TBegin name :: pre2).
  assert (TBegin first :: ts = pre ++ TProp nameoff s v :: post) as Eall by (subst pre; by rewrite Ets, <- app_assoc).
  assert (P = widths pre) as HP' by (subst pre; rewrite widths_app, widths_cons; lia).
  rewrite Eall in Hc. destruct (chain_suffix pre _ 0 ltac:(lia) ltac:(done) Hc) as (Hc0 & H0 & Hm0). rewrite Z.add_0_l, <- HP' in *.
  destruct (prop_fields t os n ost m Hlay P nameoff s v post H0 Hm0 Hc0) as (_ & _ & _ & _ & Hv & Hne).
  rewrite (proj2 (Z.eqb_neq _ 0) Hne). case_bool_decide as Hl.
  2:{ by rewrite (proj2 (Z.eqb_neq (Z.of_nat (length v)) (Z.of_nat (length val)))) by lia. }
  rewrite Hl, Z.eqb_refl. cbn [negb]. rewrite Eall, (update_split P val pre _ post 0) by lia.
  cbn [set_value]. rewrite bool_decide_eq_true_2 by done.
  assert (place t os 0 <= place t os P + 12 /\ place t os P + 12 + Z.of_nat (length val) <= place t os n) as [Hlow Hhigh].
  { destruct Hc0 as (Hn & _). destruct (width_bounds (TProp nameoff s v)) as (_ & _ & Hw). unfold image in Hw. cbn [body] in Hw.
    rewrite !length_app, !length_cell in Hw. unfold place. lia. }
  unfold store_bytes. assert (Hld := Hv). unfold holds in Hld. rewrite Hl in Hld. rewrite Hld.
  eexists. split; [done|]. lazymatch goal with |- fdt_at ?t1 = _ /\ _ => set (t' := t1) end.
  assert (replaced t t' (place t os P + 12) v val) as Hrep by done.
  split; [done|]. assert (layout t' os n ost m) as Hlay'.
  { apply (replaced_layout t t' (place t os P + 12) v val Hrep os n ost m Hlay). unfold place. lia. }
  split; [apply (lay_header _ _ _ _ _ Hlay')|]. split; [done|].
  by apply (replaced_chain t t' (place t os P + 12) v val Hrep os n ost m Hlay Hlow Hhigh pre nameoff s post 0); [|rewrite HP'|].
Qed.
End Setprop.

Lemma set_first_spec s val props v : List.find (fun p => bool_decide (p.1.2 = s)) props = Some v -> exists a nameoff b,
  props = a ++ (nameoff, s, v.2) :: b /\
  map_first (fun p => bool_decide (p.1.2 = s)) (fun p => (p.1.1, p.1.2, val)) props = a ++ (nameoff, s, val) :: b /\
  forall r o, find_prop s (map prop_token props ++ r) o = Some (o + widths (map prop_token a), v.2).
Proof.
  induction props as [|[[f nm] w] props IH]; cbn [List.find map_first]; [done|]. cbn [fst snd].
  destruct (bool_decide_reflect (nm = s)) as [->|Hne].
  - intros [= <-]. exists [], f, props. cbn [app map snd]. split_and!; [done|done|]. intros r o.
    cbn [find_prop prop_token fst snd]. rewrite bool_decide_eq_true_2 by done. cbn [widths fold_right]. by rewrite Z.add_0_r.
  - intros (a & nameoff & b & -> & -> & H)%IH. exists ((f, nm, w) :: a), nameoff, b. split_and!; [done|done|]. intros r o.
    cbn [map app find_prop]. change (prop_token (f, nm, w)) with (TProp f nm w). cbn iota. rewrite bool_decide_eq_false_2 by done.
    rewrite H, widths_cons. f_equal. f_equal. lia.
Qed.

(** Setting a property is updating its token. *)
Lemma set_property_update s val n o name rest v :
  flat n = TBegin name :: rest -> property s n = Some v -> length v = length val -> exists P,
  (forall r, find_prop s (rest ++ r) (o + width (TBegin name)) = Some (P, v)) /\
  exists a nameoff b, flat n = a ++ TProp nameoff s v :: b /\ flat (set_property s val n) = a ++ TProp nameoff s val :: b /\
    P = o + widths a.
Proof.
  destruct n as [name' props kids]. cbn [flat]. intros [= -> <-] Hp Hl. unfold property in Hp. cbn [tree_props] in Hp.
  destruct (List.find _ props) as [p|] eqn:E; [|done]. injection Hp as <-.
  destruct (set_first_spec s val props p E) as (a & nameoff & b & Hprops & Hset & Hfind).
  exists (o + width (TBegin name) + widths (map prop_token a)). split; [intros r; rewrite <- app_assoc; apply Hfind|].
  exists (TBegin name :: map prop_token a), nameoff, (map prop_token b ++ flat_map flat kids ++ [TEnd]).
  cbn [set_property flat]. rewrite Hset, Hprops, !map_app, <- !app_assoc. split_and!; [done|done|]. rewrite widths_cons. lia.
Qed.

(** C38: Setting a property in place sets it in the tree: at the node a path
    leads to, a property of as many bytes gets the value and the blob then
    holds the tree changed there and nowhere else; a property of another length
    or none is reported and the blob is left alone. *)
Theorem setprop_changes_tree t os n ost m tr path s val node :
  layout t os n ost m -> chain t os n ost m 0 (flat tr) -> text (47 :: path) ->
  follow (pieces (47 :: path)) tr = Some node ->
  exists o, fdt_path_offset t (47 :: path) = Some o /\
    match property s node with
    | Some v =>
        if bool_decide (length v = length val) then
          exists t', fdt_setprop_inplace t o s val = Some (0, t') /\ layout t' os n ost m /\
            chain t' os n ost m 0 (flat (change (set_property s val) (pieces (47 :: path)) tr))
        else fdt_setprop_inplace t o s val = Some (- FDT_ERR_NOSPACE, t)
    | None => fdt_setprop_inplace t o s val = Some (- FDT_ERR_NOTFOUND, t)
    end.
Proof.
  intros Hlay Hc Hp Hf. destruct (flat_begin tr) as [rest Htr].
  assert (Hpath := path_offset_spec t os n ost m Hlay path (tree_name tr) rest). rewrite <- Htr in Hpath.
  specialize (Hpath Hc Hp). assert (Hr := resolve_tree (pieces (47 :: path)) tr). rewrite Hf in Hr.
  destruct Hr as (pre & rest' & [Hin Hnew] & Hr). specialize (Hr [] 0). rewrite !app_nil_r, Z.add_0_l in Hr. rewrite Hr in Hpath.
  exists (widths pre). split; [done|]. rewrite Htr in Hc, Hr. destruct (flat_begin node) as [r Hnode].
  rewrite Hnode in Hr. cbn [app] in Hr.
  assert (Hset := setprop_tokens t os n ost m Hlay _ rest (pieces (47 :: path)) _ _ _ s val Hc Hr).
  destruct (find_prop_tree s node rest' (widths pre + width (TBegin (tree_name node))) (tree_name node) (r ++ rest')) as (Hmiss & o' & Hfind);
    [by rewrite Hnode|].
  rewrite Hfind, Hmiss in Hset. destruct (property s node) as [v|] eqn:Ev; [|done]. case_bool_decide as Hl; [|done].
  destruct Hset as (t' & Hset & _ & _ & Hlay' & Hc'). exists t'. split; [done|]. split; [done|].
  destruct (set_property_update s val node (widths pre) _ r v Hnode Ev Hl) as (P & HP & a & nameoff & b & Ha & Hb & HPa).
  rewrite HP in Hfind. injection Hfind as <-. rewrite <- Htr, Hin, Ha, <- app_assoc in Hc'. cbn [app] in Hc'.
  rewrite app_assoc, (update_split P val (pre ++ a)) in Hc' by (rewrite widths_app; lia). cbn [set_value] in Hc'.
  rewrite bool_decide_eq_true_2 in Hc' by done. rewrite Hnew, Hb. by rewrite <- !app_assoc in Hc' |- *.
Qed.

(** ** A blob *)

#[export] Instance holds_dec t p bs : Decision (holds t p bs) := decide (load_bytes t p (Z.of_nat (length bs)) = Some bs).
Lemma chain_dec t os n ost m o ts : Decision (chain t os n ost m o ts).
Proof.
  revert o. induction ts as [|tok ts IH]; intros o; cbn [chain]; [apply _|].
  assert (Decision (token_ok t ost m tok)) as D; [|specialize (IH (o + width tok)); apply _].
  destruct tok; cbn [token_ok]; unfold named_at, nonzero, is_u32; apply _.
Defined.
#[export] Existing Instance chain_dec.

(** The blob of a tree: a header of version 17, the structure block, and the
    strings [strings]. *)
Definition padded (tok : token) : list Z := image tok ++ replicate (Z.to_nat (width tok) - length (image tok)) 0.
Definition structure (tr : tree) : list Z := flat_map padded (flat tr) ++ cpu_to_fdt32 FDT_END.
Definition blob (at_ : Z) (tr : tree) (strings : list Z) : fdt :=
  let n := Z.of_nat (length (structure tr)) in let m := Z.of_nat (length strings) in
  Fdt at_ (flat_map cpu_to_fdt32 [FDT_MAGIC; 56 + n + m; 56; 56 + n; 40; 17; 16; 0; m; n] ++ replicate 16 0
           ++ structure tr ++ strings).

(** What a token needs of the strings block. *)
Definition token_in (strings : list Z) (tok : token) : Prop :=
  match tok with
  | TBegin name => nonzero name
  | TProp nameoff name _ =>
      is_u32 nameoff /\ nonzero name /\ slice strings nameoff (Z.of_nat (length name) + 1) = Some (name ++ [0])
  | TEnd | TNop => True
  end.
#[export] Instance token_in_dec strings tok : Decision (token_in strings tok).
Proof. destruct tok; cbn [token_in]; unfold nonzero, is_u32; apply _. Defined.

Lemma holds_mid at_ a bs b : holds (Fdt at_ (a ++ bs ++ b)) (at_ + Z.of_nat (length a)) bs.
Proof.
  apply holds_iff. cbn [fdt_at fdt_bytes]. rewrite !length_app. split_and!; [lia|lia|]. intros i c Hi.
  rewrite lookup_app_r by lia. rewrite lookup_app_l by (apply lookup_lt_Some in Hi; lia). rewrite <- Hi. f_equal. lia.
Qed.

Lemma length_padded tok : Z.of_nat (length (padded tok)) = width tok.
Proof. unfold padded. destruct (width_bounds tok) as (_ & _ & H). rewrite length_app, length_replicate. lia. Qed.

(** Bytes that spell tokens and strings hold them. *)
Section Laid.
Context (t : fdt).

Lemma laid_token front rest strings ost tok :
  fdt_bytes t = front ++ strings ++ rest -> Z.of_nat (length front) = ost ->
  token_in strings tok -> token_ok t ost (Z.of_nat (length strings)) tok.
Proof.
  intros Hbytes Hfront. destruct tok as [name| |nameoff name v|]; cbn [token_in token_ok]; [done|done| |done].
  intros (Hu & Hnz & Hs). split; [done|]. assert (holds (Fdt 0 strings) nameoff (name ++ [0])) as Hh.
  { unfold holds, load_bytes. cbn [fdt_at fdt_bytes]. rewrite Z.sub_0_r, length_app, Nat2Z.inj_add. done. }
  assert (Hin := holds_in _ _ _ Hh). cbn [fdt_at fdt_bytes] in Hin. rewrite length_app in Hin. cbn [length] in Hin.
  split; [done|]. split; [apply Hu|]. split; [lia|].
  apply holds_iff in Hh as (_ & _ & Hh). cbn [fdt_at fdt_bytes] in Hh. apply holds_iff. rewrite Hbytes, !length_app.
  split; [lia|]. split; [lia|]. intros i c Hi. rewrite lookup_app_r by lia. specialize (Hh i c Hi).
  rewrite lookup_app_l by (apply lookup_lt_Some in Hh; lia). rewrite <- Hh. f_equal. lia.
Qed.

Lemma laid_chain os n ost m ts a b o : Forall (token_ok t ost m) ts -> 0 <= o -> Z.of_nat (length a) = os + o ->
  o + widths ts + 4 <= n -> fdt_bytes t = a ++ (flat_map padded ts ++ cpu_to_fdt32 FDT_END) ++ b ->
  chain t os n ost m o ts.
Proof.
  intros Hts. revert a o. induction Hts as [|tok ts Htok _ IH]; intros a o Ho Ha Hb Hbytes; cbn [chain flat_map] in *.
  - cbn [widths fold_right] in Hb. split; [lia|]. assert (H := holds_mid (fdt_at t) a (cpu_to_fdt32 FDT_END) b).
    cbn [app] in Hbytes. rewrite <- Hbytes in H. unfold place. replace (fdt_at t + os + o) with (fdt_at t + Z.of_nat (length a)) by lia.
    by destruct t.
  - rewrite widths_cons in Hb. destruct (width_bounds tok) as (Hw & _). assert (Hwt := widths_nonneg ts). split; [lia|]. split; [|split; [done|]].
    + unfold padded in Hbytes at 1. rewrite <- !app_assoc in Hbytes.
      assert (H := holds_mid (fdt_at t) a (image tok) (replicate (Z.to_nat (width tok) - length (image tok)) 0 ++
        flat_map padded ts ++ cpu_to_fdt32 FDT_END ++ b)). rewrite <- Hbytes in H.
      unfold place. replace (fdt_at t + os + o) with (fdt_at t + Z.of_nat (length a)) by lia. by destruct t.
    + apply (IH (a ++ padded tok)); [lia|rewrite length_app, Nat2Z.inj_add, length_padded; lia|lia|].
      by rewrite Hbytes, <- !app_assoc.
Qed.
End Laid.

Lemma length_tokens ts : Z.of_nat (length (flat_map padded ts)) = widths ts.
Proof. induction ts as [|tok ts IH]; [done|]. cbn [flat_map]. rewrite length_app, Nat2Z.inj_add, length_padded, IH. done. Qed.

Section Blob.
Context (at_ : Z) (tr : tree) (strings : list Z).
Let n : Z := Z.of_nat (length (structure tr)).
Let m : Z := Z.of_nat (length strings).
Context (Hat : 0 < at_) (Hend : at_ + 56 + n + m < 2 ^ 32) (Hn : n < 2 ^ 31 - 16).

Lemma blob_length : Z.of_nat (length (fdt_bytes (blob at_ tr strings))) = 56 + n + m.
Proof. unfold blob. cbn [fdt_bytes flat_map app]. rewrite !length_app. subst n m. cbn [cpu_to_fdt32 app length replicate]. lia. Qed.

(** Header field [k]. *)
Lemma blob_header k v : [FDT_MAGIC; 56 + n + m; 56; 56 + n; 40; 17; 16; 0; m; n] !! k = Some v ->
  fdt_get_header (blob at_ tr strings) (4 * Z.of_nat k) = Some v.
Proof.
  intros Hk. assert (is_u32 v) as Hv.
  { revert Hk. unfold is_u32. do 10 (destruct k as [|k]; [intros [= <-]; unfold FDT_MAGIC; subst n m; lia|]). done. }
  apply holds_cell; [done|]. unfold blob. fold n m. set (l := [FDT_MAGIC; _; _; _; _; _; _; _; _; _]) in *.
  apply take_drop_middle in Hk as Hl. rewrite <- Hl, flat_map_app. cbn [flat_map]. rewrite <- !app_assoc. cbn [fdt_at].
  assert (length (flat_map cpu_to_fdt32 (take k l)) = (4 * k)%nat) as Hlen.
  { apply lookup_lt_Some in Hk. clear -Hk. revert k Hk. induction l as [|x l IH]; intros [|k] Hk; cbn [take flat_map length] in *; try lia.
    rewrite length_app, IH by lia. cbn [cpu_to_fdt32 length]. lia. }
  replace (4 * Z.of_nat k) with (Z.of_nat (length (flat_map cpu_to_fdt32 (take k l)))) by lia. apply holds_mid.
Qed.

Lemma blob_layout : layout (blob at_ tr strings) 56 n (56 + n) m.
Proof.
  split; rewrite ?blob_length.
  - done.
  - cbn [fdt_at blob]. lia.
  - unfold fdt_check_header, fdt_magic, fdt_version, fdt_last_comp_version.
    rewrite (blob_header 0 FDT_MAGIC eq_refl : fdt_get_header _ 0 = _), (blob_header 5 17 eq_refl : fdt_get_header _ 20 = _).
    by rewrite (blob_header 6 16 eq_refl : fdt_get_header _ 24 = _).
  - exists 17. split; [exact (blob_header 5 17 eq_refl)|done].
  - exact (blob_header 2 56 eq_refl).
  - exact (blob_header 9 n eq_refl).
  - exact (blob_header 3 (56 + n) eq_refl).
  - subst n m. lia.
  - subst n m. lia.
  - left. lia.
Qed.

Lemma blob_totalsize : fdt_totalsize (blob at_ tr strings) = Some (56 + n + m).
Proof. exact (blob_header 1 (56 + n + m) eq_refl). Qed.

Lemma blob_token tok : token_in strings tok -> token_ok (blob at_ tr strings) (56 + n) m tok.
Proof.
  apply (laid_token _ (flat_map cpu_to_fdt32 [FDT_MAGIC; 56 + n + m; 56; 56 + n; 40; 17; 16; 0; m; n] ++ replicate 16 0 ++ structure tr) []).
  - unfold blob. cbn [fdt_bytes]. by rewrite <- !app_assoc, app_nil_r.
  - rewrite !length_app. cbn [cpu_to_fdt32 flat_map app length replicate]. subst n. lia.
Qed.

(** The blob of a tree holds the tree. *)
Lemma blob_chain : Forall (token_in strings) (flat tr) -> chain (blob at_ tr strings) 56 n (56 + n) m 0 (flat tr).
Proof.
  intros Hts. apply (laid_chain _ 56 n (56 + n) m (flat tr)
    (flat_map cpu_to_fdt32 [FDT_MAGIC; 56 + n + m; 56; 56 + n; 40; 17; 16; 0; m; n] ++ replicate 16 0) strings); [|done|done| |].
  - eapply Forall_impl; [exact Hts|]. intros tok. apply blob_token.
  - subst n. unfold structure. rewrite length_app, Nat2Z.inj_add, length_tokens. cbn [cpu_to_fdt32 length]. lia.
  - unfold blob. fold n m. cbn [fdt_bytes]. unfold structure. by rewrite <- !app_assoc.
Qed.
End Blob.

(** A root with two children, one of them with a unit address. *)
#[local] Open Scope string_scope.
#[local] Open Scope list_scope.
#[local] Open Scope Z_scope.

Definition sample_strings : list Z := chars "model" ++ [0] ++ chars "dram_para00" ++ [0] ++ chars "reg" ++ [0].
Definition sample_tree : tree :=
  Tree [] [(0, chars "model", chars "a7s" ++ [0])]
    [Tree (chars "cpu@0") [(18, chars "reg", [0; 0; 0; 0])] [];
     Tree (chars "dram") [(6, chars "dram_para00", [0; 0; 1; 2]); (18, chars "reg", [4; 0; 0; 0; 0; 0; 0; 1])] []].
Definition sample : fdt := blob 0x48100000 sample_tree sample_strings.

Lemma sample_layout : layout sample 56 116 172 22.
Proof. by apply (blob_layout 0x48100000 sample_tree sample_strings). Qed.

Lemma sample_chain : chain sample 56 116 172 22 0 (flat sample_tree).
Proof. apply (blob_chain 0x48100000 sample_tree sample_strings); [done..|]. apply (bool_decide_unpack _). by vm_compute. Qed.

Lemma libfdt_reads_tree_witness : exists o p,
  fdt_path_offset sample (47 :: chars "cpu") = Some o /\ fdt_getprop sample o (chars "reg") = Some (p, 4) /\
  load_bytes sample p 4 = Some [0; 0; 0; 0].
Proof.
  destruct (libfdt_reads_tree sample 56 116 172 22 sample_tree (chars "cpu") (chars "reg") sample_layout sample_chain)
    as (o & _ & Ho & p & _ & Hp & Hb); [split; [by repeat constructor|done]|].
  exists o, p. exact (conj Ho (conj Hp Hb)).
Defined.

Lemma setprop_changes_tree_witness : exists o t',
  fdt_path_offset sample (47 :: chars "dram") = Some o /\
  fdt_setprop_inplace sample o (chars "dram_para00") [1; 2; 3; 4] = Some (0, t') /\
  chain t' 56 116 172 22 0 (flat (change (set_property (chars "dram_para00") [1; 2; 3; 4]) (pieces (47 :: chars "dram")) sample_tree)).
Proof.
  destruct (setprop_changes_tree sample 56 116 172 22 sample_tree (chars "dram") (chars "dram_para00") [1; 2; 3; 4]
    (Tree (chars "dram") [(6, chars "dram_para00", [0; 0; 1; 2]); (18, chars "reg", [4; 0; 0; 0; 0; 0; 0; 1])] [])
    sample_layout sample_chain) as (o & Ho & t' & Ht & _ & Hc); [split; [by repeat constructor|done]|done|].
  exists o, t'. exact (conj Ho (conj Ht Hc)).
Defined.
