(* ===== verification/Libfdt.v ===== *)
(** * libfdt keeps the contract its clients are proved against

    The library's functions on a blob are an instance of [FdtOps], and of
    [FdtLaws]: a blob is sound when its structure block is a sequence of tokens
    that starts with the root. *)

From Stdlib Require Import Ascii String.
From S2P Require Import Prelude HwConfig Fdt FdtProps FdtTree.

Local Open Scope list_scope.
Local Open Scope Z_scope.

(** The value's bytes for the pointer; a call without a result, which a sound
    blob does not have, counts as a failure. *)
#[export] Instance libfdt : FdtOps fdt := {|
  HwConfig.fdt_check_header t := default (-1) (Fdt.fdt_check_header t);
  HwConfig.fdt_totalsize t := default 0 (Fdt.fdt_totalsize t);
  HwConfig.fdt_path_offset t path := default (-1) (Fdt.fdt_path_offset t (chars path));
  HwConfig.fdt_getprop t node name :=
    let? (p, len) := Fdt.fdt_getprop t node (chars name) in if p =? 0 then None else load_bytes t p len;
  HwConfig.fdt_setprop_inplace_u32 t node name v :=
    default (-1, t) (Fdt.fdt_setprop_inplace_u32 t node (chars name) (u32 v))
|}.

Definition holds_tokens (t : fdt) (os n ost m : Z) (first : list Z) (ts : list token) : Prop :=
  layout t os n ost m /\ chain t os n ost m 0 (TBegin first :: ts).
Definition blob_sound (t : fdt) : Prop := exists os n ost m first ts, holds_tokens t os n ost m first ts.

(** ** C strings *)

Lemma chars_inj a b : chars a = chars b -> a = b.
Proof.
  unfold chars. intros H. rewrite <- (string_of_list_ascii_of_string a), <- (string_of_list_ascii_of_string b). f_equal.
  revert H. generalize (list_ascii_of_string b). induction (list_ascii_of_string a) as [|c l IH]; intros [|c' l'] H; try done.
  cbn [map] in H. injection H as Hc Hl. f_equal; [|by apply IH].
  rewrite <- (ascii_nat_embedding c), <- (ascii_nat_embedding c'). f_equal. lia.
Qed.

Lemma length_chars s : length (chars s) = String.length s.
Proof. unfold chars. rewrite length_map. induction s as [|c s IH]; [done|]. cbn. by rewrite IH. Qed.

Lemma chars_absolute path : absolute path -> exists p, chars path = 47 :: p /\ text (47 :: p).
Proof.
  intros ((p & ->) & Hz & Hlen). exists (chars p). split; [done|]. change (47 :: chars p) with (chars (String "/" p)).
  split; [|by rewrite length_chars]. unfold nonzero, chars. apply Forall_map. eapply Forall_impl; [exact Hz|].
  intros c Hc Heq. apply Hc. rewrite <- (ascii_nat_embedding c). replace (nat_of_ascii c) with 0%nat by lia. done.
Qed.

(** ** Nodes and their properties *)

Section Laws.
Context (t : fdt) (os n ost m : Z) (first : list Z) (ts : list token) (Ht : holds_tokens t os n ost m first ts).

Lemma path_at path : absolute path -> exists ps,
  HwConfig.fdt_path_offset t path = offset_of (resolve ps 0 (TBegin first :: ts)) /\
  forall t' ts', holds_tokens t' os n ost m first ts' ->
    HwConfig.fdt_path_offset t' path = offset_of (resolve ps 0 (TBegin first :: ts')).
Proof.
  intros (p & Hp & Htext)%chars_absolute. exists (pieces (47 :: p)).
  assert (forall t' ts', holds_tokens t' os n ost m first ts' ->
    HwConfig.fdt_path_offset t' path = offset_of (resolve (pieces (47 :: p)) 0 (TBegin first :: ts'))) as H; [|by split; [apply H|]].
  intros t' ts' [Hlay Hc]. cbn [HwConfig.fdt_path_offset libfdt]. by rewrite Hp, (path_offset_spec t' os n ost m Hlay p first ts' Hc Htext).
Qed.

Lemma leads_at node : leads t node -> exists ps name r,
  resolve ps 0 (TBegin first :: ts) = Some (node, TBegin name :: r) /\ 0 <= node /\ node mod 4 = 0 /\
  chain t os n ost m node (TBegin name :: r).
Proof.
  destruct Ht as [Hlay Hc]. intros (H0 & path & Ha & Hp). destruct (path_at path Ha) as (ps & Hps & _). rewrite Hps in Hp.
  destruct (resolve ps 0 (TBegin first :: ts)) as [[o ts']|] eqn:E; cbn [offset_of] in Hp; [|subst node; done]. subst o.
  destruct (resolve_chain t os n ost m ps 0 first ts node ts' ltac:(lia) ltac:(done) Hc E) as (_ & Hm & Hc' & name & r & ->).
  by exists ps, name, r.
Qed.

Lemma getprop_at node name first' r : 0 <= node -> node mod 4 = 0 -> chain t os n ost m node (TBegin first' :: r) ->
  HwConfig.fdt_getprop t node name = snd <$> find_prop (chars name) r (node + width (TBegin first')).
Proof.
  destruct Ht as [Hlay _]. intros H0 Hm Hc. cbn [HwConfig.fdt_getprop libfdt].
  rewrite (getprop_spec t os n ost m Hlay first' r node) by done.
  destruct (find_prop (chars name) r _) as [[o' v]|] eqn:E; [|done].
  destruct (chain_aligned t os n ost m node _ r Hm H0 Hc) as (H0' & Hm' & Hc').
  destruct (find_prop_chain t os n ost m _ r _ o' v H0' Hm' Hc' E) as (H1 & Hm1 & nameoff & r1 & Hc1).
  destruct (prop_fields t os n ost m Hlay o' nameoff _ v r1 H1 Hm1 Hc1) as (_ & _ & _ & _ & Hv & Hne).
  by rewrite (proj2 (Z.eqb_neq _ 0) Hne).
Qed.

Lemma cells_agree v : cpu_to_fdt32 (u32 v) = cell_bytes v.
Proof. unfold cpu_to_fdt32, cell_bytes. change 0xff with (Z.ones 8). by rewrite !Z.land_ones. Qed.

(** The three outcomes of an update in place. *)
Lemma setprop_at node name v ps first' r : resolve ps 0 (TBegin first :: ts) = Some (node, TBegin first' :: r) ->
  let '(status, t') := HwConfig.fdt_setprop_inplace_u32 t node name v in
  match find_prop (chars name) r (node + width (TBegin first')) with
  | Some (P, old) =>
      if bool_decide (length old = 4%nat) then
        status = 0 /\ Fdt.fdt_check_header t' = Some 0 /\
        holds_tokens t' os n ost m first (update P (cell_bytes v) ts (width (TBegin first))) /\
        update P (cell_bytes v) (TBegin first :: ts) 0 = TBegin first :: update P (cell_bytes v) ts (width (TBegin first))
      else status <> 0 /\ t' = t
  | None => status <> 0 /\ t' = t
  end.
Proof.
  destruct Ht as [Hlay Hc]. intros Hres. assert (H := setprop_tokens t os n ost m Hlay first ts ps node first' r (chars name) (cell_bytes v) Hc Hres).
  cbn [HwConfig.fdt_setprop_inplace_u32 libfdt]. unfold Fdt.fdt_setprop_inplace_u32. rewrite cells_agree.
  destruct (resolve_chain t os n ost m ps 0 first ts node _ ltac:(lia) ltac:(done) Hc Hres) as (H0 & Hm & Hc' & _).
  destruct (find_prop (chars name) r _) as [[P old]|] eqn:E.
  - change (length (cell_bytes v)) with 4%nat in H. case_bool_decide; [|rewrite H; by split].
    destruct H as (t' & -> & _ & Hh & Hlay' & Hch'). cbn [default]. split; [done|]. split; [done|].
    assert (update P (cell_bytes v) (TBegin first :: ts) 0 = TBegin first :: update P (cell_bytes v) ts (width (TBegin first))) as Hu
      by (cbn [update]; rewrite Z.add_0_l; by destruct (0 =? P)).
    split; [|done]. split; [done|]. by rewrite <- Hu.
  - rewrite H. cbn [default]. split; [|done]. pose proof (missing_neg r). lia.
Qed.
End Laws.

(** ** Different properties are different tokens *)

Lemma find_prop_after s ts o P v : find_prop s ts o = Some (P, v) -> o <= P.
Proof. intros (pre & _ & _ & _ & -> & _)%find_prop_split. pose proof (widths_nonneg pre). lia. Qed.

Lemma find_prop_name s1 s2 ts o P v1 v2 : find_prop s1 ts o = Some (P, v1) -> find_prop s2 ts o = Some (P, v2) -> s1 = s2.
Proof.
  revert o. induction ts as [|tok ts IH]; intros o; cbn [find_prop]; [done|]. destruct (width_bounds tok) as (Hw & _).
  destruct tok as [name| |nameoff name w|]; [done|done| |by apply IH].
  destruct (bool_decide_reflect (name = s1)), (bool_decide_reflect (name = s2)); [congruence| | |by apply IH].
  - intros [= <- <-] H%find_prop_after. lia.
  - intros H%find_prop_after [= <- <-]. lia.
Qed.

(** Between a node's start and its properties no other node starts. *)
Lemma nodes_apart whole s1 s2 o1 o2 n1 n2 r1 r2 pre1 pre2 P v1 v2 :
  whole = pre1 ++ TBegin n1 :: r1 -> whole = pre2 ++ TBegin n2 :: r2 -> o1 = widths pre1 -> o2 = widths pre2 -> o1 < o2 ->
  find_prop s1 r1 (o1 + width (TBegin n1)) = Some (P, v1) -> find_prop s2 r2 (o2 + width (TBegin n2)) = Some (P, v2) -> False.
Proof.
  intros E1 E2 -> -> Hlt H1 H2%find_prop_after. destruct (width_bounds (TBegin n2)) as (Hw & _).
  apply find_prop_split in H1 as (pre & nameoff & post & Er & HP & Hpre). rewrite E1 in E2.
  apply app_eq_inv in E2 as [(k & Ek & _)|(k & Ek & Ek')].
  { rewrite Ek, widths_app in Hlt. pose proof (widths_nonneg k). lia. }
  destruct k as [|x k]; cbn [app] in Ek'; [rewrite Ek, app_nil_r in Hlt; lia|]. injection Ek' as <- Ek'. rewrite Er in Ek'.
  rewrite Ek, widths_app, widths_cons in H2. apply app_eq_inv in Ek' as [(k' & -> & Ek1)|(k' & Ek1 & Ek2)].
  - destruct k' as [|y k']; cbn [app] in Ek1; [done|]. injection Ek1 as <- _.
    apply Forall_app in Hpre as [_ Hpre]. by inversion Hpre.
  - rewrite Ek1, widths_app in H2. pose proof (widths_nonneg k'). lia.
Qed.

Lemma suffix_same pre1 pre2 (a b : list token) : pre1 ++ a = pre2 ++ b -> widths pre1 = widths pre2 -> a = b.
Proof.
  assert (forall k, widths k = 0 -> k = []) as Hnil.
  { intros [|tok k] H; [done|]. rewrite widths_cons in H. destruct (width_bounds tok) as (Hw & _). pose proof (widths_nonneg k). lia. }
  intros [(k & -> & ->)|(k & -> & ->)]%app_eq_inv Hw; rewrite widths_app in Hw; by rewrite (Hnil k) by lia.
Qed.

Lemma props_apart whole ps1 ps2 s1 s2 o1 o2 n1 n2 r1 r2 P v1 v2 :
  resolve ps1 0 whole = Some (o1, TBegin n1 :: r1) -> resolve ps2 0 whole = Some (o2, TBegin n2 :: r2) ->
  find_prop s1 r1 (o1 + width (TBegin n1)) = Some (P, v1) -> find_prop s2 r2 (o2 + width (TBegin n2)) = Some (P, v2) ->
  o1 = o2 /\ s1 = s2.
Proof.
  intros (pre1 & E1 & H1)%resolve_split (pre2 & E2 & H2)%resolve_split F1 F2. rewrite Z.add_0_l in H1, H2.
  destruct (Z.lt_trichotomy o1 o2) as [Hlt|[Heq|Hlt]].
  - exfalso. by apply (nodes_apart whole s1 s2 o1 o2 n1 n2 r1 r2 pre1 pre2 P v1 v2).
  - split; [done|]. assert (TBegin n1 :: r1 = TBegin n2 :: r2) as Hsame.
    { apply (suffix_same pre1 pre2); congruence. }
    injection Hsame as -> ->. rewrite Heq in F1. by eapply find_prop_name.
  - exfalso. by apply (nodes_apart whole s2 s1 o2 o1 n2 n1 r2 r1 pre2 pre1 P v2 v1).
Qed.

(** ** What an update in place does *)

Section Effect.
Context (t : fdt) (os n ost m : Z) (first : list Z) (ts : list token) (Ht : holds_tokens t os n ost m first ts).

(** The properties of a node of the blob that holds the updated tokens. *)
Lemma getprop_updated t' P val ps node name first' r :
  holds_tokens t' os n ost m first (update P val ts (width (TBegin first))) ->
  update P val (TBegin first :: ts) 0 = TBegin first :: update P val ts (width (TBegin first)) ->
  resolve ps 0 (TBegin first :: ts) = Some (node, TBegin first' :: r) ->
  HwConfig.fdt_getprop t' node name =
    (fun x => if (x.1 =? P) && bool_decide (length x.2 = length val) then val else x.2)
      <$> find_prop (chars name) r (node + width (TBegin first')).
Proof.
  intros Ht' Hu Hres. assert (Hres' := resolve_update P val ps (TBegin first :: ts) 0). rewrite Hu, Hres in Hres'.
  cbn [fmap option_fmap option_map] in Hres'. unfold updated in Hres'. cbn [fst snd update] in Hres'.
  assert ((if node =? P then set_value val (TBegin first') else TBegin first') = TBegin first') as E by by destruct (node =? P).
  rewrite E in Hres'. assert (Hc' := proj2 Ht').
  destruct (resolve_chain t' os n ost m ps 0 first _ node _ ltac:(lia) ltac:(done) Hc' Hres') as (H0 & Hm & Hc & _).
  rewrite (getprop_at t' os n ost m first _ Ht' node name first' _ H0 Hm Hc), find_prop_update.
  by destruct (find_prop _ r _) as [[o' w]|].
Qed.

(** It fails and does nothing when the property is not one cell; otherwise that
    property is the cell, and all else as it was. *)
Lemma setprop_effect node name v : leads t node ->
  let '(status, t') := HwConfig.fdt_setprop_inplace_u32 t node name v in
  (status <> 0 /\ t' = t /\ forall bs, HwConfig.fdt_getprop t node name = Some bs -> length bs <> 4%nat) \/
  (status = 0 /\ Fdt.fdt_check_header t' = Some 0 /\ (exists ts', holds_tokens t' os n ost m first ts') /\
   (forall path, absolute path -> HwConfig.fdt_path_offset t' path = HwConfig.fdt_path_offset t path) /\
   forall node' name', leads t node' -> HwConfig.fdt_getprop t' node' name' =
     if bool_decide (node' = node /\ name' = name) then Some (cell_bytes v) else HwConfig.fdt_getprop t node' name').
Proof.
  intros Hl. destruct (leads_at t os n ost m first ts Ht node Hl) as (ps & first' & r & Hres & H0 & Hm & Hc).
  assert (H := setprop_at t os n ost m first ts Ht node name v ps first' r Hres).
  assert (Hg := getprop_at t os n ost m first ts Ht node name first' r H0 Hm Hc).
  destruct (HwConfig.fdt_setprop_inplace_u32 t node name v) as [st t'].
  destruct (find_prop _ r _) as [[P old]|] eqn:Hfind; [|left; destruct H as [H ->]; split_and!; [done|done|by rewrite Hg]].
  case_bool_decide as H4; [right|left; destruct H as [H ->]; split_and!; [done|done|by rewrite Hg; intros ? [= <-]]].
  destruct H as (-> & Hh & Ht' & Hu). split; [done|]. split; [done|]. split; [by eexists|]. split.
  - intros path Ha. destruct (path_at t os n ost m first ts Ht path Ha) as (ps1 & -> & Hps1). rewrite (Hps1 _ _ Ht'), <- Hu, resolve_update.
    by destruct (resolve ps1 0 (TBegin first :: ts)) as [[? ?]|].
  - intros node' name' Hl'. destruct (leads_at t os n ost m first ts Ht node' Hl') as (ps1 & first1 & r1 & Hres1 & H1 & Hm1 & Hc1).
    rewrite (getprop_updated t' P _ ps1 node' name' first1 r1 Ht' Hu Hres1).
    rewrite (getprop_at t os n ost m first ts Ht node' name' first1 r1 H1 Hm1 Hc1).
    case_bool_decide as Hsame.
    + destruct Hsame as [-> ->]. assert (TBegin first1 :: r1 = TBegin first' :: r) as [= -> ->].
      { apply resolve_split in Hres as (p1 & E1 & G1), Hres1 as (p2 & E2 & G2). apply (suffix_same p2 p1); [congruence|lia]. }
      rewrite Hfind. cbn [fmap option_fmap option_map fst snd]. rewrite Z.eqb_refl, H4. done.
    + destruct (find_prop (chars name') r1 _) as [[o' w]|] eqn:Hfind1; [|done]. cbn [fmap option_fmap option_map fst snd].
      destruct (Z.eqb_spec o' P) as [->|]; [|done]. exfalso. apply Hsame.
      destruct (props_apart _ ps1 ps _ _ _ _ _ _ _ _ P w old Hres1 Hres Hfind1 Hfind) as [-> Hn]. split; [done|].
      by apply chars_inj.
Qed.
End Effect.

(** ** The laws *)

#[local] Ltac effect t node name v :=
  intros (os & n & ost & m & first & ts & Ht) Hl;
  assert (H := setprop_effect t os n ost m first ts Ht node name v Hl);
  destruct (HwConfig.fdt_setprop_inplace_u32 t node name v) as [st t']; cbn [fst snd];
  destruct H as [(Hst & -> & Hno)|(Hst & Hh & (ts' & Ht') & Hpaths & Hget)].

#[export, refine] Instance libfdt_laws : FdtLaws fdt := {| fdt_sound := blob_sound |}.
Proof.
  - intros t node name v. effect t node name v; [by exists os, n, ost, m, first, ts|by exists os, n, ost, m, first, ts'].
  - intros t node name v bs. effect t node name v; [|done]. intros Hg H4. by apply Hno in Hg.
  - intros t node name v. effect t node name v; [done|]. intros _. by rewrite Hget, bool_decide_eq_true_2.
  - intros t node name v node' name'. effect t node name v; [done|]. intros Hl' Hne. rewrite Hget by done.
    rewrite bool_decide_eq_false_2; [done|]. intros [-> ->]. by destruct Hne.
  - intros t node name v path. effect t node name v; [done|]. by intros; apply Hpaths.
  - intros t node name v. effect t node name v; [done|]. cbn [HwConfig.fdt_check_header libfdt].
    destruct Ht as [Hlay _]. by rewrite Hh, (lay_header _ _ _ _ _ Hlay).
Defined.

(** In a blob that holds a tree, the interface reads the tree. *)
Lemma tree_getprop t os n ost m tr path node :
  layout t os n ost m -> chain t os n ost m 0 (flat tr) -> absolute path -> follow (pieces (chars path)) tr = Some node ->
  0 <= HwConfig.fdt_path_offset t path /\
  forall name, HwConfig.fdt_getprop t (HwConfig.fdt_path_offset t path) name = property (chars name) node.
Proof.
  intros Hlay Hc Ha Hf. destruct (chars_absolute path Ha) as (p & Hp & Htext). destruct (flat_begin tr) as [ts Htr].
  assert (Hr := resolve_tree (pieces (chars path)) tr). rewrite Hf in Hr. destruct Hr as (pre & rest & _ & Hr).
  specialize (Hr [] 0). rewrite !app_nil_r, Z.add_0_l, Htr in Hr. rewrite Htr in Hc.
  assert (HwConfig.fdt_path_offset t path = widths pre) as Hpath.
  { cbn [HwConfig.fdt_path_offset libfdt]. rewrite Hp, (path_offset_spec t os n ost m Hlay p _ ts Hc Htext), <- Hp.
    cbn [default]. unfold default. by rewrite Hr. }
  rewrite Hpath. split; [apply widths_nonneg|]. intros name.
  destruct (resolve_chain t os n ost m _ 0 _ ts _ _ ltac:(lia) ltac:(done) Hc Hr) as (H0 & Hm & Hc' & first & r & Hn).
  rewrite Hn in Hc'. rewrite (getprop_at t os n ost m _ ts (conj Hlay Hc) (widths pre) name first r H0 Hm Hc').
  destruct (find_prop_tree (chars name) node rest (widths pre + width (TBegin first)) first r Hn) as (_ & o' & ->).
  by destruct (property (chars name) node).
Qed.
