(* ===== verification/FdtSw.v ===== *)
(** * Writing a device tree from the front to the back
    (src/ar100s/library/libfdt/fdt_sw.c, and the setters of libfdt.h)

    A blob in the making: the structure block grows behind the reserved memory,
    the strings block grows down from the end of the buffer, and [fdt_finish]
    brings the two together.  [Fdt] is the memory the functions may touch: the
    buffer, or for [fdt_resize] both buffers.  Strings and values of the caller
    are lists.  Header fields are read as 64-bit numbers and written as 32-bit
    ones. *)

From Stdlib Require Import Ascii String.
From S2P Require Import Prelude Fdt.

Local Open Scope list_scope.
Local Open Scope Z_scope.

(** ** The C library on the blob, and the setters *)

Definition cpu_to_fdt64 (x : Z) : list Z := cpu_to_fdt32 (Z.shiftr x 32) ++ cpu_to_fdt32 x.

Definition memmove (t : fdt) (dst src n : Z) : option fdt := let? bs := load_bytes t src n in store_bytes t dst bs.
Definition memset (t : fdt) (p c n : Z) : option fdt := store_bytes t p (replicate (Z.to_nat n) c).

Definition fdt_set_header (field : Z) (t : fdt) (val : Z) : option fdt :=
  store_bytes t (fdt_at t + field) (cpu_to_fdt32 (u32 val)).
Definition fdt_set_magic : fdt -> Z -> option fdt := fdt_set_header 0.
Definition fdt_set_totalsize : fdt -> Z -> option fdt := fdt_set_header 4.
Definition fdt_set_off_dt_struct : fdt -> Z -> option fdt := fdt_set_header 8.
Definition fdt_set_off_dt_strings : fdt -> Z -> option fdt := fdt_set_header 12.
Definition fdt_set_off_mem_rsvmap : fdt -> Z -> option fdt := fdt_set_header 16.
Definition fdt_set_version : fdt -> Z -> option fdt := fdt_set_header 20.
Definition fdt_set_last_comp_version : fdt -> Z -> option fdt := fdt_set_header 24.
Definition fdt_set_boot_cpuid_phys : fdt -> Z -> option fdt := fdt_set_header 28.
Definition fdt_set_size_dt_strings : fdt -> Z -> option fdt := fdt_set_header 32.
Definition fdt_set_size_dt_struct : fdt -> Z -> option fdt := fdt_set_header 36.

(** The memory from [p] on, and the memory [t] with what became of that. *)
Definition view (t : fdt) (p : Z) : option fdt :=
  let? bs := load_bytes t p (fdt_at t + Z.of_nat (length (fdt_bytes t)) - p) in Some (Fdt p bs).
Definition within (t : fdt) (p : Z) (f : fdt -> option fdt) : option fdt :=
  let? v := view t p in let? v := f v in store_bytes t p (fdt_bytes v).

(** [FDT_ALIGN (sizeof (struct fdt_header), a)] *)
Definition sizeof_fdt_header : Z := 40.
Definition sizeof_fdt_reserve_entry : Z := 16.
Definition FDT_ALIGN (x a : Z) : Z := Z.land (u32 (x + a - 1)) (cnot32 (a - 1)).

(** ** The writer *)

Definition _fdt_sw_check_header (t : fdt) : option Z :=
  let? magic := fdt_magic t in
  if negb (magic =? FDT_SW_MAGIC) then Some (- FDT_ERR_BADMAGIC) else Some 0.
Definition FDT_SW_CHECK_HEADER (t : fdt) (k : option (Z * fdt)) : option (Z * fdt) :=
  let? err := _fdt_sw_check_header t in if negb (err =? 0) then Some (err, t) else k.

(** The pointer, and the blob. *)
Definition _fdt_grab_space (t : fdt) (len : Z) : option (Z * fdt) :=
  let? n := fdt_size_dt_struct t in
  let offset := s32 n in
  let? total := fdt_totalsize t in
  let? os := fdt_off_dt_struct t in
  let? m := fdt_size_dt_strings t in
  let spaceleft := s32 (total - os - m) in
  if (u32 (offset + len) <? u32 offset) || (u32 spaceleft <? u32 (offset + len)) then Some (0, t)
  else
    let? t := fdt_set_size_dt_struct t (offset + len) in
    let? p := _fdt_offset_ptr t offset in
    Some (p, t).

Definition fdt_create (t : fdt) (bufsize : Z) : option (Z * fdt) :=
  if u32 bufsize <? sizeof_fdt_header then Some (- FDT_ERR_NOSPACE, t)
  else
    let? t := memset t (fdt_at t) 0 (u32 bufsize) in
    let? t := fdt_set_magic t FDT_SW_MAGIC in
    let? t := fdt_set_version t FDT_LAST_SUPPORTED_VERSION in
    let? t := fdt_set_last_comp_version t FDT_FIRST_SUPPORTED_VERSION in
    let? t := fdt_set_totalsize t bufsize in
    let? t := fdt_set_off_mem_rsvmap t (FDT_ALIGN sizeof_fdt_header sizeof_fdt_reserve_entry) in
    let? rsv := fdt_off_mem_rsvmap t in
    let? t := fdt_set_off_dt_struct t rsv in
    let? t := fdt_set_off_dt_strings t bufsize in
    Some (0, t).

(** [t] is the memory; the old blob starts at [fdt], the new one at [buf]. *)
Definition fdt_resize (t : fdt) (fdt buf bufsize : Z) : option (Z * Fdt.fdt) :=
  let? old := view t fdt in
  let? err := _fdt_sw_check_header old in
  if negb (err =? 0) then Some (err, t)
  else
    let? headsize := fdt_off_dt_struct old in
    let? tailsize := fdt_size_dt_strings old in
    if u32 bufsize <? u32 (headsize + tailsize) then Some (- FDT_ERR_NOSPACE, t)
    else
      let? total := fdt_totalsize old in
      let oldtail := u32 (fdt + total - tailsize) in
      let newtail := u32 (buf + bufsize - tailsize) in
      let? t :=
        if buf <=? fdt then let? t := memmove t buf fdt headsize in memmove t newtail oldtail tailsize
        else let? t := memmove t newtail oldtail tailsize in memmove t buf fdt headsize in
      let? t := within t buf (fun v => fdt_set_off_dt_strings v bufsize) in
      let? t := within t buf (fun v => fdt_set_totalsize v bufsize) in
      Some (0, t).

Definition fdt_add_reservemap_entry (t : fdt) (addr size : Z) : option (Z * fdt) :=
  FDT_SW_CHECK_HEADER t (
    let? n := fdt_size_dt_struct t in
    if negb (n =? 0) then Some (- FDT_ERR_BADSTATE, t)
    else
      let? os := fdt_off_dt_struct t in
      let offset := s32 os in
      let? total := fdt_totalsize t in
      if total <? u32 (offset + sizeof_fdt_reserve_entry) then Some (- FDT_ERR_NOSPACE, t)
      else
        let re := u32 (fdt_at t + offset) in
        let? t := store_bytes t re (cpu_to_fdt64 addr) in
        let? t := store_bytes t (re + 8) (cpu_to_fdt64 size) in
        let? t := fdt_set_off_dt_struct t (offset + sizeof_fdt_reserve_entry) in
        Some (0, t)).
Definition fdt_finish_reservemap (t : fdt) : option (Z * fdt) := fdt_add_reservemap_entry t 0 0.

Definition fdt_begin_node (t : fdt) (name : list Z) : option (Z * fdt) :=
  let namelen := s32 (Z.of_nat (length name) + 1) in
  FDT_SW_CHECK_HEADER t (
    let? (nh, t) := _fdt_grab_space t (4 + FDT_TAGALIGN namelen) in
    if nh =? 0 then Some (- FDT_ERR_NOSPACE, t)
    else
      let? t := store_bytes t nh (cpu_to_fdt32 FDT_BEGIN_NODE) in
      let? t := store_bytes t (nh + 4) (name ++ [0]) in
      Some (0, t)).

Definition fdt_end_node (t : fdt) : option (Z * fdt) :=
  FDT_SW_CHECK_HEADER t (
    let? (en, t) := _fdt_grab_space t FDT_TAGSIZE in
    if en =? 0 then Some (- FDT_ERR_NOSPACE, t)
    else let? t := store_bytes t en (cpu_to_fdt32 FDT_END_NODE) in Some (0, t)).

(** Offsets into the strings block are negative until [fdt_finish]. *)
Definition _fdt_find_add_string (t : fdt) (s : list Z) : option (Z * fdt) :=
  let? total := fdt_totalsize t in
  let strtab := fdt_at t + total in
  let? m := fdt_size_dt_strings t in
  let strtabsize := s32 m in
  let len := s32 (Z.of_nat (length s) + 1) in
  let? p := _fdt_find_string t (u32 (strtab - strtabsize)) strtabsize s in
  if negb (p =? 0) then Some (s32 (p - strtab), t)
  else
    let offset := s32 (- strtabsize - len) in
    let? os := fdt_off_dt_struct t in
    let? n := fdt_size_dt_struct t in
    let struct_top := s32 (os + n) in
    if u64 (total + offset) <? u64 struct_top then Some (0, t)
    else
      let? t := store_bytes t (u32 (strtab + offset)) (s ++ [0]) in
      let? t := fdt_set_size_dt_strings t (strtabsize + len) in
      Some (offset, t).

Definition fdt_property (t : fdt) (name val : list Z) : option (Z * fdt) :=
  let len := Z.of_nat (length val) in
  FDT_SW_CHECK_HEADER t (
    let? (nameoff, t) := _fdt_find_add_string t name in
    if nameoff =? 0 then Some (- FDT_ERR_NOSPACE, t)
    else
      let? (prop, t) := _fdt_grab_space t (12 + FDT_TAGALIGN len) in
      if prop =? 0 then Some (- FDT_ERR_NOSPACE, t)
      else
        let? t := store_bytes t prop (cpu_to_fdt32 FDT_PROP) in
        let? t := store_bytes t (prop + 8) (cpu_to_fdt32 nameoff) in
        let? t := store_bytes t (prop + 4) (cpu_to_fdt32 len) in
        let? t := store_bytes t (prop + 12) val in
        Some (0, t)).
(** libfdt.h *)
Definition fdt_property_u32 (t : fdt) (name : list Z) (val : Z) : option (Z * fdt) := fdt_property t name (cpu_to_fdt32 val).
Definition fdt_property_u64 (t : fdt) (name : list Z) (val : Z) : option (Z * fdt) := fdt_property t name (cpu_to_fdt64 val).
Definition fdt_property_cell (t : fdt) (name : list Z) (val : Z) : option (Z * fdt) := fdt_property_u32 t name val.
Definition fdt_property_string (t : fdt) (name str : list Z) : option (Z * fdt) := fdt_property t name (str ++ [0]).

(** The walk of [fdt_finish]: the last [nextoffset], and the blob. *)
Fixpoint correct_loop (fuel : nat) (t : fdt) (offset : Z) : option (Z * fdt) :=
  match fuel with
  | O => None
  | Datatypes.S fuel =>
      let? (tag, nextoffset) := fdt_next_tag t offset in
      if tag =? FDT_END then Some (nextoffset, t)
      else
        let? t :=
          if tag =? FDT_PROP then
            let? prop := _fdt_offset_ptr t offset in
            let? nameoff := fdt32_to_cpu t (prop + 8) in
            let? m := fdt_size_dt_strings t in
            store_bytes t (prop + 8) (cpu_to_fdt32 (s32 (s32 nameoff + m)))
          else Some t in
        correct_loop fuel t nextoffset
  end.

Definition fdt_finish (t : fdt) : option (Z * fdt) :=
  FDT_SW_CHECK_HEADER t (
    let? (end_, t) := _fdt_grab_space t 4 in
    if end_ =? 0 then Some (- FDT_ERR_NOSPACE, t)
    else
      let? t := store_bytes t end_ (cpu_to_fdt32 FDT_END) in
      let? total := fdt_totalsize t in
      let? m := fdt_size_dt_strings t in
      let oldstroffset := s32 (total - m) in
      let? os := fdt_off_dt_struct t in
      let? n := fdt_size_dt_struct t in
      let newstroffset := s32 (os + n) in
      let? t := memmove t (fdt_at t + newstroffset) (fdt_at t + oldstroffset) m in
      let? t := fdt_set_off_dt_strings t newstroffset in
      let? (nextoffset, t) := correct_loop (loop_bound t) t 0 in
      if nextoffset <? 0 then Some (nextoffset, t)
      else
        let? m := fdt_size_dt_strings t in
        let? t := fdt_set_totalsize t (newstroffset + m) in
        let? t := fdt_set_magic t FDT_MAGIC in
        Some (0, t)).
