(* ===== verification/FdtRw.v ===== *)
(** * Changing a device tree in any place
    (src/ar100s/library/libfdt/fdt_rw.c and fdt_empty_tree.c)

    Every change is a splice: what lies behind a place moves, and the header
    follows.  A property or node a function returns through a pointer is a
    second result. *)

From Stdlib Require Import Ascii String.
From S2P Require Import Prelude Fdt FdtSw.

Local Open Scope list_scope.
Local Open Scope Z_scope.

Definition FDT_ERR_EXISTS : Z := 2.

Definition _fdt_blocks_misordered (t : fdt) (mem_rsv_size struct_size : Z) : option bool :=
  let? rsv := fdt_off_mem_rsvmap t in
  let? os := fdt_off_dt_struct t in
  let? ost := fdt_off_dt_strings t in
  let? total := fdt_totalsize t in
  let? m := fdt_size_dt_strings t in
  Some ((rsv <? FDT_ALIGN sizeof_fdt_header 8)
        || (os <? u64 (rsv + mem_rsv_size))
        || (ost <? u64 (os + struct_size))
        || (total <? u64 (ost + m))).

Definition _fdt_rw_check_header (t : fdt) : option (Z * fdt) :=
  let? err := fdt_check_header t in
  if negb (err =? 0) then Some (err, t)
  else
    let? version := fdt_version t in
    if version <? 17 then Some (- FDT_ERR_BADVERSION, t)
    else
      let? n := fdt_size_dt_struct t in
      let? misordered := _fdt_blocks_misordered t sizeof_fdt_reserve_entry (s32 n) in
      if misordered then Some (- FDT_ERR_BADLAYOUT, t)
      else
        let? t := if 17 <? version then fdt_set_version t 17 else Some t in
        Some (0, t).
Definition FDT_RW_CHECK_HEADER (t : fdt) (k : fdt -> option (Z * fdt)) : option (Z * fdt) :=
  let? (err, t) := _fdt_rw_check_header t in if negb (err =? 0) then Some (err, t) else k t.

Definition _fdt_data_size (t : fdt) : option Z :=
  let? ost := fdt_off_dt_strings t in let? m := fdt_size_dt_strings t in Some (s32 (ost + m)).

(** ** Splices *)

Definition _fdt_splice (t : fdt) (p oldlen newlen : Z) : option (Z * fdt) :=
  let? size := _fdt_data_size t in
  let end_ := u32 (fdt_at t + size) in
  if (u32 (p + oldlen) <? p) || (end_ <? u32 (p + oldlen)) then Some (- FDT_ERR_BADOFFSET, t)
  else
    let? total := fdt_totalsize t in
    if u32 (fdt_at t + total) <? u32 (end_ - oldlen + newlen) then Some (- FDT_ERR_NOSPACE, t)
    else let? t := memmove t (u32 (p + newlen)) (u32 (p + oldlen)) (u32 (end_ - p - oldlen)) in Some (0, t).

Definition _fdt_splice_mem_rsv (t : fdt) (p oldn newn : Z) : option (Z * fdt) :=
  let delta := s32 ((newn - oldn) * sizeof_fdt_reserve_entry) in
  let? (err, t) := _fdt_splice t p (oldn * sizeof_fdt_reserve_entry) (newn * sizeof_fdt_reserve_entry) in
  if negb (err =? 0) then Some (err, t)
  else
    let? os := fdt_off_dt_struct t in
    let? t := fdt_set_off_dt_struct t (os + delta) in
    let? ost := fdt_off_dt_strings t in
    let? t := fdt_set_off_dt_strings t (ost + delta) in
    Some (0, t).

Definition _fdt_splice_struct (t : fdt) (p oldlen newlen : Z) : option (Z * fdt) :=
  let delta := s32 (newlen - oldlen) in
  let? (err, t) := _fdt_splice t p oldlen newlen in
  if negb (err =? 0) then Some (err, t)
  else
    let? n := fdt_size_dt_struct t in
    let? t := fdt_set_size_dt_struct t (n + delta) in
    let? ost := fdt_off_dt_strings t in
    let? t := fdt_set_off_dt_strings t (ost + delta) in
    Some (0, t).

Definition _fdt_splice_string (t : fdt) (newlen : Z) : option (Z * fdt) :=
  let? ost := fdt_off_dt_strings t in
  let? m := fdt_size_dt_strings t in
  let p := u32 (fdt_at t + ost + m) in
  let? (err, t) := _fdt_splice t p 0 newlen in
  if negb (err =? 0) then Some (err, t)
  else
    let? m := fdt_size_dt_strings t in
    let? t := fdt_set_size_dt_strings t (m + newlen) in
    Some (0, t).

(** The string's offset. *)
Definition _fdt_find_add_string (t : fdt) (s : list Z) : option (Z * fdt) :=
  let? ost := fdt_off_dt_strings t in
  let strtab := u32 (fdt_at t + ost) in
  let len := s32 (Z.of_nat (length s) + 1) in
  let? m := fdt_size_dt_strings t in
  let? p := _fdt_find_string t strtab (s32 m) s in
  if negb (p =? 0) then Some (s32 (p - strtab), t)
  else
    let new := u32 (strtab + m) in
    let? (err, t) := _fdt_splice_string t len in
    if negb (err =? 0) then Some (err, t)
    else let? t := store_bytes t new (s ++ [0]) in Some (s32 (new - strtab), t).

(** ** Reserved memory *)

Definition fdt_add_mem_rsv (t : fdt) (address size : Z) : option (Z * fdt) :=
  FDT_RW_CHECK_HEADER t (fun t =>
    let? n := fdt_num_mem_rsv t in
    let? re := _fdt_mem_rsv t n in
    let? (err, t) := _fdt_splice_mem_rsv t re 0 1 in
    if negb (err =? 0) then Some (err, t)
    else
      let? t := store_bytes t re (cpu_to_fdt64 address) in
      let? t := store_bytes t (re + 8) (cpu_to_fdt64 size) in
      Some (0, t)).

Definition fdt_del_mem_rsv (t : fdt) (n : Z) : option (Z * fdt) :=
  let? re := _fdt_mem_rsv t n in
  FDT_RW_CHECK_HEADER t (fun t =>
    let? count := fdt_num_mem_rsv t in
    if count <=? n then Some (- FDT_ERR_NOTFOUND, t)
    else
      let? (err, t) := _fdt_splice_mem_rsv t re 1 0 in
      if negb (err =? 0) then Some (err, t) else Some (0, t)).

(** ** Properties *)

(** The status, [*prop] and the blob. *)
Definition _fdt_resize_property (t : fdt) (nodeoffset : Z) (name : list Z) (len : Z) : option (Z * Z * fdt) :=
  let? (prop, oldlen) := fdt_get_property t nodeoffset name in
  if prop =? 0 then Some (oldlen, prop, t)
  else
    let? (err, t) := _fdt_splice_struct t (prop + 12) (FDT_TAGALIGN oldlen) (FDT_TAGALIGN len) in
    if negb (err =? 0) then Some (err, prop, t)
    else let? t := store_bytes t (prop + 4) (cpu_to_fdt32 len) in Some (0, prop, t).

Definition _fdt_add_property (t : fdt) (nodeoffset : Z) (name : list Z) (len : Z) : option (Z * Z * fdt) :=
  let? nextoffset := _fdt_check_node_offset t nodeoffset in
  if nextoffset <? 0 then Some (nextoffset, 0, t)
  else
    let? (namestroff, t) := _fdt_find_add_string t name in
    if namestroff <? 0 then Some (namestroff, 0, t)
    else
      let? prop := _fdt_offset_ptr t nextoffset in
      let proplen := s32 (12 + FDT_TAGALIGN len) in
      let? (err, t) := _fdt_splice_struct t prop 0 proplen in
      if negb (err =? 0) then Some (err, prop, t)
      else
        let? t := store_bytes t prop (cpu_to_fdt32 FDT_PROP) in
        let? t := store_bytes t (prop + 8) (cpu_to_fdt32 namestroff) in
        let? t := store_bytes t (prop + 4) (cpu_to_fdt32 len) in
        Some (0, prop, t).

Definition fdt_set_name (t : fdt) (nodeoffset : Z) (name : list Z) : option (Z * fdt) :=
  FDT_RW_CHECK_HEADER t (fun t =>
    let? (namep, oldlen) := fdt_get_name t nodeoffset in
    if namep =? 0 then Some (oldlen, t)
    else
      let newlen := s32 (Z.of_nat (length name)) in
      let? (err, t) := _fdt_splice_struct t namep (FDT_TAGALIGN (oldlen + 1)) (FDT_TAGALIGN (newlen + 1)) in
      if negb (err =? 0) then Some (err, t)
      else let? t := store_bytes t namep (name ++ [0]) in Some (0, t)).

Definition fdt_setprop (t : fdt) (nodeoffset : Z) (name val : list Z) : option (Z * fdt) :=
  let len := Z.of_nat (length val) in
  FDT_RW_CHECK_HEADER t (fun t =>
    let? (err, prop, t) := _fdt_resize_property t nodeoffset name len in
    let? (err, prop, t) :=
      if err =? - FDT_ERR_NOTFOUND then _fdt_add_property t nodeoffset name len else Some (err, prop, t) in
    if negb (err =? 0) then Some (err, t)
    else
      let? t := if negb (len =? 0) then store_bytes t (prop + 12) val else Some t in
      Some (0, t)).
(** libfdt.h *)
Definition fdt_setprop_u32 (t : fdt) (nodeoffset : Z) (name : list Z) (val : Z) : option (Z * fdt) :=
  fdt_setprop t nodeoffset name (cpu_to_fdt32 val).
Definition fdt_setprop_u64 (t : fdt) (nodeoffset : Z) (name : list Z) (val : Z) : option (Z * fdt) :=
  fdt_setprop t nodeoffset name (cpu_to_fdt64 val).
Definition fdt_setprop_cell (t : fdt) (nodeoffset : Z) (name : list Z) (val : Z) : option (Z * fdt) :=
  fdt_setprop_u32 t nodeoffset name val.
Definition fdt_setprop_string (t : fdt) (nodeoffset : Z) (name str : list Z) : option (Z * fdt) :=
  fdt_setprop t nodeoffset name (str ++ [0]).

Definition fdt_appendprop (t : fdt) (nodeoffset : Z) (name val : list Z) : option (Z * fdt) :=
  let len := Z.of_nat (length val) in
  FDT_RW_CHECK_HEADER t (fun t =>
    let? (prop, oldlen) := fdt_get_property t nodeoffset name in
    if negb (prop =? 0) then
      let newlen := s32 (len + oldlen) in
      let? (err, t) := _fdt_splice_struct t (prop + 12) (FDT_TAGALIGN oldlen) (FDT_TAGALIGN newlen) in
      if negb (err =? 0) then Some (err, t)
      else
        let? t := store_bytes t (prop + 4) (cpu_to_fdt32 newlen) in
        let? t := store_bytes t (prop + 12 + oldlen) val in
        Some (0, t)
    else
      let? (err, prop, t) := _fdt_add_property t nodeoffset name len in
      if negb (err =? 0) then Some (err, t)
      else let? t := store_bytes t (prop + 12) val in Some (0, t)).
(** libfdt.h *)
Definition fdt_appendprop_u32 (t : fdt) (nodeoffset : Z) (name : list Z) (val : Z) : option (Z * fdt) :=
  fdt_appendprop t nodeoffset name (cpu_to_fdt32 val).
Definition fdt_appendprop_u64 (t : fdt) (nodeoffset : Z) (name : list Z) (val : Z) : option (Z * fdt) :=
  fdt_appendprop t nodeoffset name (cpu_to_fdt64 val).
Definition fdt_appendprop_cell (t : fdt) (nodeoffset : Z) (name : list Z) (val : Z) : option (Z * fdt) :=
  fdt_appendprop_u32 t nodeoffset name val.
Definition fdt_appendprop_string (t : fdt) (nodeoffset : Z) (name str : list Z) : option (Z * fdt) :=
  fdt_appendprop t nodeoffset name (str ++ [0]).

Definition fdt_delprop (t : fdt) (nodeoffset : Z) (name : list Z) : option (Z * fdt) :=
  FDT_RW_CHECK_HEADER t (fun t =>
    let? (prop, len) := fdt_get_property t nodeoffset name in
    if prop =? 0 then Some (len, t)
    else _fdt_splice_struct t prop (s32 (12 + FDT_TAGALIGN len)) 0).

(** ** Nodes *)

(** [do offset = nextoffset; while (tag is a property or a NOP)] *)
Fixpoint skip_properties (fuel : nat) (t : fdt) (nextoffset : Z) : option Z :=
  match fuel with
  | O => None
  | Datatypes.S fuel =>
      let offset := nextoffset in
      let? (tag, nextoffset) := fdt_next_tag t offset in
      if (tag =? FDT_PROP) || (tag =? FDT_NOP) then skip_properties fuel t nextoffset else Some offset
  end.

Definition fdt_add_subnode_namelen (t : fdt) (parentoffset : Z) (name : list Z) : option (Z * fdt) :=
  let namelen := Z.of_nat (length name) in
  FDT_RW_CHECK_HEADER t (fun t =>
    let? offset := fdt_subnode_offset_namelen t parentoffset name in
    if 0 <=? offset then Some (- FDT_ERR_EXISTS, t)
    else if negb (offset =? - FDT_ERR_NOTFOUND) then Some (offset, t)
    else
      let? (_, nextoffset) := fdt_next_tag t parentoffset in
      let? offset := skip_properties (loop_bound t) t nextoffset in
      let? nh := _fdt_offset_ptr t offset in
      let nodelen := s32 (4 + FDT_TAGALIGN (namelen + 1) + FDT_TAGSIZE) in
      let? (err, t) := _fdt_splice_struct t nh 0 nodelen in
      if negb (err =? 0) then Some (err, t)
      else
        let? t := store_bytes t nh (cpu_to_fdt32 FDT_BEGIN_NODE) in
        let? t := memset t (nh + 4) 0 (FDT_TAGALIGN (namelen + 1)) in
        let? t := store_bytes t (nh + 4) name in
        let? t := store_bytes t (nh + nodelen - FDT_TAGSIZE) (cpu_to_fdt32 FDT_END_NODE) in
        Some (offset, t)).
Definition fdt_add_subnode (t : fdt) (parentoffset : Z) (name : list Z) : option (Z * fdt) :=
  fdt_add_subnode_namelen t parentoffset name.

Definition fdt_del_node (t : fdt) (nodeoffset : Z) : option (Z * fdt) :=
  FDT_RW_CHECK_HEADER t (fun t =>
    let? endoffset := _fdt_node_end_offset t nodeoffset in
    if endoffset <? 0 then Some (endoffset, t)
    else
      let? p := _fdt_offset_ptr t nodeoffset in
      _fdt_splice_struct t p (s32 (endoffset - nodeoffset)) 0).

(** ** Whole trees *)

(** [t] is the memory; the trees start at [old] and [new]. *)
Definition _fdt_packblocks (t : fdt) (old new mem_rsv_size struct_size : Z) : option fdt :=
  let mem_rsv_off := FDT_ALIGN sizeof_fdt_header 8 in
  let struct_off := s32 (mem_rsv_off + mem_rsv_size) in
  let strings_off := s32 (struct_off + struct_size) in
  let from (t : fdt) (field : fdt -> option Z) : option Z := let? v := view t old in field v in
  let? rsv := from t fdt_off_mem_rsvmap in
  let? t := memmove t (new + mem_rsv_off) (old + rsv) (u32 mem_rsv_size) in
  let? t := within t new (fun v => fdt_set_off_mem_rsvmap v mem_rsv_off) in
  let? os := from t fdt_off_dt_struct in
  let? t := memmove t (new + struct_off) (old + os) (u32 struct_size) in
  let? t := within t new (fun v => fdt_set_off_dt_struct v struct_off) in
  let? t := within t new (fun v => fdt_set_size_dt_struct v struct_size) in
  let? ost := from t fdt_off_dt_strings in
  let? m := from t fdt_size_dt_strings in
  let? t := memmove t (new + strings_off) (old + ost) m in
  let? t := within t new (fun v => fdt_set_off_dt_strings v strings_off) in
  let? m := from t fdt_size_dt_strings in
  within t new (fun v => fdt_set_size_dt_strings v m).

(** [while (fdt_next_tag (fdt, struct_size, &struct_size) != FDT_END)] *)
Fixpoint struct_size_loop (fuel : nat) (t : fdt) (struct_size : Z) : option Z :=
  match fuel with
  | O => None
  | Datatypes.S fuel =>
      let? (tag, struct_size) := fdt_next_tag t struct_size in
      if negb (tag =? FDT_END) then struct_size_loop fuel t struct_size else Some struct_size
  end.

(** [t] is the memory; the tree starts at [fdt], the buffer at [buf]. *)
Definition fdt_open_into (t : fdt) (fdt buf bufsize : Z) : option (Z * Fdt.fdt) :=
  let? old := view t fdt in
  let? total := fdt_totalsize old in
  let fdtend := u32 (fdt + total) in
  let? err := fdt_check_header old in
  if negb (err =? 0) then Some (err, t)
  else
    let? nrsv := fdt_num_mem_rsv old in
    let mem_rsv_size := s32 ((nrsv + 1) * sizeof_fdt_reserve_entry) in
    let? version := fdt_version old in
    let? struct_size :=
      if 17 <=? version then let? n := fdt_size_dt_struct old in Some (s32 n)
      else struct_size_loop (loop_bound old) old 0 in
    if (version <? 17) && (struct_size <? 0) then Some (struct_size, t)
    else
      let? misordered := _fdt_blocks_misordered old mem_rsv_size struct_size in
      if negb misordered then
        let? (err, bs) := fdt_move old bufsize in
        if negb (err =? 0) then Some (err, t)
        else
          let? t := store_bytes t buf bs in
          let? t := within t buf (fun v => fdt_set_version v 17) in
          let? t := within t buf (fun v => fdt_set_size_dt_struct v struct_size) in
          let? t := within t buf (fun v => fdt_set_totalsize v bufsize) in
          Some (0, t)
      else
        let? m := fdt_size_dt_strings old in
        let newsize := s32 (FDT_ALIGN sizeof_fdt_header 8 + mem_rsv_size + struct_size + m) in
        if bufsize <? newsize then Some (- FDT_ERR_NOSPACE, t)
        else
          let overlaps := (fdt <? u32 (buf + newsize)) && (buf <? fdtend) in
          let tmp := if overlaps then fdtend else buf in
          if overlaps && (u32 (buf + bufsize) <? u32 (tmp + newsize)) then Some (- FDT_ERR_NOSPACE, t)
          else
            let? t := _fdt_packblocks t fdt tmp mem_rsv_size struct_size in
            let? t := memmove t buf tmp (u32 newsize) in
            let? t := within t buf (fun v => fdt_set_magic v FDT_MAGIC) in
            let? t := within t buf (fun v => fdt_set_totalsize v bufsize) in
            let? t := within t buf (fun v => fdt_set_version v 17) in
            let? t := within t buf (fun v => fdt_set_last_comp_version v 16) in
            let? old := view t fdt in
            let? cpu := fdt_get_header old 28 in
            let? t := within t buf (fun v => fdt_set_boot_cpuid_phys v cpu) in
            Some (0, t).

Definition fdt_pack (t : fdt) : option (Z * fdt) :=
  FDT_RW_CHECK_HEADER t (fun t =>
    let? nrsv := fdt_num_mem_rsv t in
    let mem_rsv_size := s32 ((nrsv + 1) * sizeof_fdt_reserve_entry) in
    let? n := fdt_size_dt_struct t in
    let? t := _fdt_packblocks t (fdt_at t) (fdt_at t) mem_rsv_size (s32 n) in
    let? size := _fdt_data_size t in
    let? t := fdt_set_totalsize t size in
    Some (0, t)).

(** ** fdt_empty_tree.c *)

(** [if (err) return err] *)
Definition or_status (r : option (Z * fdt)) (k : fdt -> option (Z * fdt)) : option (Z * fdt) :=
  let? (err, t) := r in if negb (err =? 0) then Some (err, t) else k t.

Definition fdt_create_empty_tree (t : fdt) (bufsize : Z) : option (Z * fdt) :=
  or_status (fdt_create t bufsize) (fun t =>
  or_status (fdt_finish_reservemap t) (fun t =>
  or_status (fdt_begin_node t []) (fun t =>
  or_status (fdt_end_node t) (fun t =>
  or_status (fdt_finish t) (fun t =>
  fdt_open_into t (fdt_at t) (fdt_at t) bufsize))))).
