(* ===== verification/FdtSwProps.v ===== *)
(** * A tree written from the front to the back is the tree that is read
    (src/ar100s/library/libfdt/fdt_sw.c)

    The memory of a blob in the making as lists of bytes, and each operation of
    the writer on them. *)

From Stdlib Require Import Ascii String.
From S2P Require Import Prelude Fdt FdtProps FdtTree FdtRw FdtSw.

Local Open Scope list_scope.
Local Open Scope Z_scope.

#[local] Notation len l := (Z.of_nat (length l)).

(** ** Memory as a list *)

Lemma store_mid at_ a x y b : length x = length y ->
  store_bytes (Fdt at_ (a ++ x ++ b)) (at_ + len a) y = Some (Fdt at_ (a ++ y ++ b)).
Proof.
  intros Hl. assert (H := holds_mid at_ a x b). unfold holds in H. unfold store_bytes. rewrite <- Hl, H.
  cbn [fdt_at fdt_bytes]. replace (Z.to_nat (at_ + len a - at_)) with (length a) by lia. f_equal. f_equal.
  rewrite take_app_length. do 2 f_equal. rewrite app_assoc, drop_app_length'; [done|rewrite length_app; lia].
Qed.

Lemma load_mid at_ a x b : load_bytes (Fdt at_ (a ++ x ++ b)) (at_ + len a) (len x) = Some x.
Proof. apply holds_mid. Qed.

Lemma cell_u32 x : cpu_to_fdt32 (u32 x) = cpu_to_fdt32 x.
Proof.
  unfold cpu_to_fdt32. assert (forall k, 0 <= k <= 24 -> Z.land (Z.shiftr (u32 x) k) 0xff = Z.land (Z.shiftr x k) 0xff) as H.
  { intros k Hk. apply Z.bits_inj'. intros i Hi. rewrite !Z.land_spec, !Z.shiftr_spec by done.
    change 0xff with (Z.ones 8). rewrite Z.testbit_ones_nonneg by lia. destruct (Z.ltb_spec i 8); [|by rewrite !andb_false_r].
    unfold u32. by rewrite Z.mod_pow2_bits_low by lia. }
  rewrite !H by lia. specialize (H 0 ltac:(lia)). rewrite !Z.shiftr_0_r in H. by rewrite H.
Qed.

(** A header of cells and what follows it. *)
Definition headed (at_ : Z) (hs rest : list Z) : fdt := Fdt at_ (flat_map cpu_to_fdt32 hs ++ rest).

Lemma length_cells hs : length (flat_map cpu_to_fdt32 hs) = (4 * length hs)%nat.
Proof. induction hs as [|h hs IH]; [done|]. cbn [flat_map]. rewrite length_app, IH. cbn [cpu_to_fdt32 length]. lia. Qed.

(** A cell of the header in its place. *)
Lemma headed_split at_ hs rest (k : nat) v : hs !! k = Some v ->
  headed at_ hs rest = Fdt at_ (flat_map cpu_to_fdt32 (take k hs) ++ cpu_to_fdt32 v ++ flat_map cpu_to_fdt32 (drop (S k) hs) ++ rest) /\
  length (flat_map cpu_to_fdt32 (take k hs)) = (4 * k)%nat.
Proof.
  intros Hk. split.
  - unfold headed. rewrite <- (take_drop_middle hs k v Hk) at 1. rewrite flat_map_app. cbn [flat_map]. by rewrite <- !app_assoc.
  - rewrite length_cells, length_take. apply lookup_lt_Some in Hk. lia.
Qed.

Lemma get_headed at_ hs rest (k : nat) v : hs !! k = Some v -> is_u32 v -> fdt_get_header (headed at_ hs rest) (4 * Z.of_nat k) = Some v.
Proof.
  intros Hk Hv. destruct (headed_split at_ hs rest k v Hk) as [-> Hl]. apply holds_cell; [done|]. cbn [fdt_at].
  replace (4 * Z.of_nat k) with (Z.of_nat (length (flat_map cpu_to_fdt32 (take k hs)))) by lia. apply holds_mid.
Qed.

(** The fields the writer reads. *)
Lemma headed_magic at_ hs rest v : hs !! 0%nat = Some v -> is_u32 v -> fdt_magic (headed at_ hs rest) = Some v.
Proof. apply (get_headed _ _ _ 0). Qed.
Lemma headed_totalsize at_ hs rest v : hs !! 1%nat = Some v -> is_u32 v -> fdt_totalsize (headed at_ hs rest) = Some v.
Proof. apply (get_headed _ _ _ 1). Qed.
Lemma headed_off_dt_struct at_ hs rest v : hs !! 2%nat = Some v -> is_u32 v -> fdt_off_dt_struct (headed at_ hs rest) = Some v.
Proof. apply (get_headed _ _ _ 2). Qed.
Lemma headed_off_mem_rsvmap at_ hs rest v : hs !! 4%nat = Some v -> is_u32 v -> fdt_off_mem_rsvmap (headed at_ hs rest) = Some v.
Proof. apply (get_headed _ _ _ 4). Qed.
Lemma headed_size_dt_struct at_ hs rest v : hs !! 9%nat = Some v -> is_u32 v -> fdt_size_dt_struct (headed at_ hs rest) = Some v.
Proof. apply (get_headed _ _ _ 9). Qed.

Lemma set_headed at_ hs rest (k : nat) v : (k < length hs)%nat ->
  fdt_set_header (4 * Z.of_nat k) (headed at_ hs rest) v = Some (headed at_ (<[k := u32 v]> hs) rest).
Proof.
  intros Hk. destruct (lookup_lt_is_Some_2 hs k Hk) as [w Hw].
  destruct (headed_split at_ hs rest k w Hw) as [-> Hl]. unfold fdt_set_header. cbn [fdt_at].
  replace (4 * Z.of_nat k) with (Z.of_nat (length (flat_map cpu_to_fdt32 (take k hs)))) by lia. rewrite store_mid by done.
  destruct (headed_split at_ (<[k := u32 v]> hs) rest k (u32 v)) as [-> _]; [by apply list_lookup_insert_eq|].
  by rewrite take_insert_ge, drop_insert_lt by lia.
Qed.

(** A store behind the header. *)
Lemma store_headed at_ hs a x y b p : length x = length y -> p = at_ + 4 * len hs + len a ->
  store_bytes (headed at_ hs (a ++ x ++ b)) p y = Some (headed at_ hs (a ++ y ++ b)).
Proof.
  intros Hl ->. unfold headed. rewrite !(app_assoc (flat_map _ _)).
  replace (at_ + 4 * len hs + len a) with (at_ + len (flat_map cpu_to_fdt32 hs ++ a)) by (rewrite length_app, length_cells; lia).
  by apply store_mid.
Qed.

(** ** Strings *)

Lemma slice_Some (b : list Z) o n bs : slice b o n = Some bs <->
  0 <= o /\ 0 <= n /\ o + n <= len b /\ bs = take (Z.to_nat n) (drop (Z.to_nat o) b).
Proof.
  unfold slice. destruct (Z.ltb_spec o 0); cbn [orb]; [split; [done|lia]|].
  destruct (Z.ltb_spec n 0); cbn [orb]; [split; [done|lia]|].
  destruct (Z.ltb_spec (len b) (o + n)); [split; [done|lia]|].
  split; [intros [= <-]; by split_and!|by intros (_ & _ & _ & ->)].
Qed.

Lemma load_slice at_ front strs rest i n bs : slice strs i n = Some bs ->
  load_bytes (Fdt at_ (front ++ strs ++ rest)) (at_ + len front + i) n = Some bs.
Proof.
  intros (H0 & Hn & Hin & ->)%slice_Some. apply load_bytes_Some. cbn [fdt_at fdt_bytes]. rewrite !length_app.
  split_and!; [lia|lia|lia|]. replace (Z.to_nat (at_ + len front + i - at_)) with (length front + Z.to_nat i)%nat by lia.
  rewrite drop_app_add', drop_app_le, take_app_le by (rewrite ?length_drop; lia). done.
Qed.

(** Strings are added in front. *)
Lemma slice_behind new strs i n bs : slice strs i n = Some bs -> slice (new ++ strs) (len new + i) n = Some bs.
Proof.
  intros (H0 & Hn & Hin & ->)%slice_Some. apply slice_Some. rewrite length_app. split_and!; [lia|lia|lia|].
  replace (Z.to_nat (len new + i)) with (length new + Z.to_nat i)%nat by lia. by rewrite drop_app_add'.
Qed.

Lemma slice_front new strs : slice (new ++ strs) 0 (len new) = Some new.
Proof. apply slice_Some. rewrite length_app, Nat2Z.id. split_and!; [lia|lia|lia|]. by rewrite drop_0, take_app_length. Qed.

(** A search stops at an occurrence, if it finds one. *)
Lemma find_string_sound at_ front strs rest w n k : (n <> 0 -> n + k + length w <= length strs + 1)%nat ->
  exists q, find_string_loop n (Fdt at_ (front ++ strs ++ rest)) (at_ + len front + Z.of_nat k) w = Some q /\
    (q = 0 \/ exists i, (i < length strs + 1)%nat /\ q = at_ + len front + Z.of_nat i /\ slice strs (Z.of_nat i) (len w) = Some w).
Proof.
  revert k. induction n as [|n IH]; intros k Hk; cbn [find_string_loop]; [exists 0; split; [done|by left]|].
  unfold memcmp. assert (slice strs (Z.of_nat k) (len w) = Some (take (length w) (drop k strs))) as Hs.
  { apply slice_Some. rewrite !Nat2Z.id. split_and!; [lia|lia|lia|done]. }
  rewrite (load_slice _ _ _ _ _ _ _ Hs). case_bool_decide as Hw; cbn [negb].
  - eexists. split; [done|]. right. exists k. rewrite Hs, Hw. split_and!; [lia|done|done].
  - replace (at_ + len front + Z.of_nat k + 1) with (at_ + len front + Z.of_nat (Datatypes.S k)) by lia. apply IH. lia.
Qed.

(** ** The blob in the making *)

(** The header while the tree is written: the reserved entries [rsv], the
    structure so far, [g] free bytes, the strings. *)
Definition draft (at_ : Z) (rsv body : list Z) (g : nat) (strs : list Z) : fdt :=
  let total := 48 + len rsv + len body + Z.of_nat g + len strs in
  headed at_ [FDT_SW_MAGIC; total; 48 + len rsv; total; 48; 17; 16; 0; len strs; len body]
    (replicate 8 0 ++ rsv ++ body ++ replicate g 0 ++ strs).

Section Draft.
Context (at_ : Z) (rsv : list Z) (total : Z).
(** The buffer does not wrap around, and the structure has room for a header. *)
Definition sized (body : list Z) (g : nat) (strs : list Z) : Prop :=
  total = 48 + len rsv + len body + Z.of_nat g + len strs.
Context (Hat : 0 < at_) (Hend : at_ + total < 2 ^ 32) (Htotal : total < 2 ^ 31 - 16).
Implicit Types (body strs : list Z) (g : nat).

Lemma draft_field body g strs (k : nat) v : sized body g strs ->
  [FDT_SW_MAGIC; total; 48 + len rsv; total; 48; 17; 16; 0; len strs; len body] !! k = Some v ->
  fdt_get_header (draft at_ rsv body g strs) (4 * Z.of_nat k) = Some v.
Proof.
  intros Hs Hk. unfold draft. rewrite <- Hs. apply get_headed; [done|]. unfold sized in Hs.
  assert (is_u32 FDT_SW_MAGIC) as Hm by (by vm_compute).
  refine (Forall_lookup_1 is_u32 _ k v _ Hk). unfold is_u32 in *. clear Hk. repeat (apply Forall_cons; split; [lia|]). done.
Qed.

Lemma draft_header body g strs : sized body g strs -> let t := draft at_ rsv body g strs in
  fdt_magic t = Some FDT_SW_MAGIC /\ fdt_totalsize t = Some total /\ fdt_off_dt_struct t = Some (48 + len rsv) /\
  fdt_size_dt_strings t = Some (len strs) /\ fdt_size_dt_struct t = Some (len body).
Proof.
  intros Hs t. split_and!.
  - exact (draft_field body g strs 0 _ Hs eq_refl).
  - exact (draft_field body g strs 1 _ Hs eq_refl).
  - exact (draft_field body g strs 2 _ Hs eq_refl).
  - exact (draft_field body g strs 8 _ Hs eq_refl).
  - exact (draft_field body g strs 9 _ Hs eq_refl).
Qed.

Lemma draft_check body g strs k : sized body g strs ->
  FDT_SW_CHECK_HEADER (draft at_ rsv body g strs) k = k.
Proof.
  intros Hs. unfold FDT_SW_CHECK_HEADER, _fdt_sw_check_header. destruct (draft_header body g strs Hs) as (-> & _).
  by rewrite Z.eqb_refl.
Qed.

(** Space is taken from the free bytes, which are zero. *)
Lemma grab_spec body g strs (n : nat) : sized body g strs -> Z.of_nat n < 2 ^ 31 ->
  _fdt_grab_space (draft at_ rsv body g strs) (Z.of_nat n) = Some
    (if decide (n <= g)%nat then (at_ + (48 + len rsv) + len body, draft at_ rsv (body ++ replicate n 0) (g - n) strs)
     else (0, draft at_ rsv body g strs)).
Proof.
  intros Hs Hn. assert (Hs' := Hs). unfold sized in Hs'. destruct (draft_header body g strs Hs) as (_ & H1 & H2 & H3 & H4).
  unfold _fdt_grab_space. rewrite H1, H2, H3, H4, !s32_small, !u32_small by lia.
  rewrite (proj2 (Z.ltb_ge (len body + Z.of_nat n) (len body))) by lia. cbn [orb].
  case_decide as Hd; [rewrite (proj2 (Z.ltb_ge _ _)) by lia|by rewrite (proj2 (Z.ltb_lt _ _)) by lia].
  assert (fdt_set_size_dt_struct (draft at_ rsv body g strs) (len body + Z.of_nat n)
    = Some (draft at_ rsv (body ++ replicate n 0) (g - n) strs)) as ->.
  { unfold fdt_set_size_dt_struct, draft. rewrite (set_headed _ _ _ 9) by (cbn; lia). cbn [insert list_insert].
    rewrite u32_small by lia. do 2 f_equal.
    - rewrite length_app, length_replicate. repeat (f_equal; try lia).
    - rewrite <- !app_assoc, (app_assoc (replicate n 0)), <- replicate_add. do 5 f_equal. lia. }
  unfold _fdt_offset_ptr. assert (Hs2 : sized (body ++ replicate n 0) (g - n) strs).
  { unfold sized. rewrite length_app, length_replicate. lia. }
  destruct (draft_header _ _ _ Hs2) as (_ & _ & -> & _). change (fdt_at _) with at_. rewrite u32_small by lia. done.
Qed.

(** A store inside the structure so far. *)
Lemma store_body a x y b g strs p : length x = length y -> p = at_ + (48 + len rsv) + len a ->
  store_bytes (draft at_ rsv (a ++ x ++ b) g strs) p y = Some (draft at_ rsv (a ++ y ++ b) g strs).
Proof.
  intros Hl ->. unfold draft. assert (length (a ++ y ++ b) = length (a ++ x ++ b)) as Hlen by (rewrite !length_app; lia).
  rewrite Hlen, <- !app_assoc, !(app_assoc rsv), !(app_assoc (replicate 8 0)). apply store_headed; [done|].
  rewrite !length_app, length_replicate. cbn [length]. lia.
Qed.

Lemma store_body_at a x y b B g strs p : B = a ++ x ++ b -> length x = length y -> p = at_ + (48 + len rsv) + len a ->
  store_bytes (draft at_ rsv B g strs) p y = Some (draft at_ rsv (a ++ y ++ b) g strs).
Proof. intros ->. apply store_body. Qed.

(** ** Tokens are written into fresh space *)

(** What writing a token does: [n] bytes fewer are free, or there are too few. *)
Definition written body g strs tok : Z * fdt :=
  if decide (length (padded tok) <= g)%nat then (0, draft at_ rsv (body ++ padded tok) (g - length (padded tok)) strs)
  else (- FDT_ERR_NOSPACE, draft at_ rsv body g strs).

Lemma padded_image tok : padded tok = image tok ++ replicate (length (padded tok) - length (image tok)) 0.
Proof. unfold padded at 1. do 2 f_equal. assert (H := length_padded tok). lia. Qed.

Lemma blank_token tok k : (k <= length (image tok))%nat ->
  replicate (length (padded tok)) 0 = replicate k 0 ++ replicate (length (image tok) - k) 0 ++ replicate (length (padded tok) - length (image tok)) 0.
Proof.
  intros Hk. rewrite <- !replicate_add. f_equal. assert (H := length_padded tok). destruct (width_bounds tok) as (_ & _ & Hw). lia.
Qed.

Lemma grab_ne body g strs : sized body g strs -> at_ + (48 + len rsv) + len body <> 0.
Proof. unfold sized. lia. Qed.

Lemma end_node_spec body g strs : sized body g strs ->
  fdt_end_node (draft at_ rsv body g strs) = Some (written body g strs TEnd).
Proof.
  intros Hs. unfold fdt_end_node, written. rewrite draft_check by done. change FDT_TAGSIZE with (Z.of_nat 4).
  change (length (padded TEnd)) with 4%nat. rewrite grab_spec by (done || lia). case_decide; [|done].
  rewrite (proj2 (Z.eqb_neq _ 0)) by (by eapply grab_ne).
  rewrite (store_body_at body (replicate 4 0) (cpu_to_fdt32 FDT_END_NODE) []) by (done || by rewrite app_nil_r). done.
Qed.

Lemma begin_node_spec body g strs name : sized body g strs -> len name < 2 ^ 31 - 16 ->
  fdt_begin_node (draft at_ rsv body g strs) name = Some (written body g strs (TBegin name)).
Proof.
  intros Hs Hn. unfold fdt_begin_node, written. rewrite draft_check by done.
  assert (length (image (TBegin name)) = 4 + (length name + 1))%nat as Hi by (unfold image; cbn [FdtProps.body tag_of]; by rewrite !length_app).
  assert (len (padded (TBegin name)) = 4 + 4 * ((len name + 1 + 3) / 4)) as Hw.
  { rewrite length_padded. unfold width. rewrite Hi. Z.div_mod_to_equations; lia. }
  rewrite s32_small, tagalign_eq, <- Hw, grab_spec by (done || lia || (rewrite Hw; Z.div_mod_to_equations; lia)).
  case_decide; [|done]. rewrite (proj2 (Z.eqb_neq _ 0)) by (by eapply grab_ne).
  rewrite (blank_token (TBegin name) 4) by lia.
  rewrite (store_body_at body (replicate 4 0) (cpu_to_fdt32 FDT_BEGIN_NODE) _) by done.
  rewrite (store_body_at (body ++ cpu_to_fdt32 FDT_BEGIN_NODE) (replicate (length name + 1) 0) (name ++ [0])
    (replicate (length (padded (TBegin name)) - length (image (TBegin name))) 0)).
  - do 3 f_equal. rewrite (padded_image (TBegin name)) at 2.
    change (image (TBegin name)) with (cpu_to_fdt32 FDT_BEGIN_NODE ++ name ++ [0]). by rewrite <- !app_assoc.
  - rewrite <- !app_assoc. do 4 f_equal. lia.
  - by rewrite length_replicate, length_app.
  - rewrite length_app, length_cell. lia.
Qed.

(** ** Strings of the blob in the making *)

(** The string is there, [off] counted from the end of the block. *)
Definition late strs (off : Z) (name : list Z) : Prop :=
  nonzero name /\ - len strs <= off < 0 /\ slice strs (len strs + off) (len name + 1) = Some (name ++ [0]).

Lemma late_behind new strs off name : late strs off name -> late (new ++ strs) off name.
Proof.
  intros (Hnz & Ho & Hs). split; [done|]. rewrite length_app. split; [lia|]. rewrite Nat2Z.inj_add.
  replace (len new + len strs + off) with (len new + (len strs + off)) by lia. by apply slice_behind.
Qed.

Lemma draft_bytes body g strs : exists front, len front = 48 + len rsv + len body + Z.of_nat g /\
  draft at_ rsv body g strs = Fdt at_ (front ++ strs ++ []).
Proof.
  unfold draft, headed. set (hs := [FDT_SW_MAGIC; _; _; _; _; _; _; _; _; _]).
  exists (flat_map cpu_to_fdt32 hs ++ replicate 8 0 ++ rsv ++ body ++ replicate g 0). split.
  - rewrite !length_app, length_cells, !length_replicate. cbn [length hs]. lia.
  - by rewrite <- !app_assoc, app_nil_r.
Qed.

(** A store into the free bytes in front of the strings. *)
Lemma store_string body g strs w p : sized body g strs -> (length w <= g)%nat ->
  p = at_ + (48 + len rsv + len body + Z.of_nat (g - length w)) ->
  (let? t := store_bytes (draft at_ rsv body g strs) p w in fdt_set_size_dt_strings t (len strs + len w))
  = Some (draft at_ rsv body (g - length w) (w ++ strs)).
Proof.
  intros Hs Hg ->. unfold sized in Hs. unfold draft at 1. set (hs := [FDT_SW_MAGIC; _; _; _; _; _; _; _; _; _]).
  set (front := flat_map cpu_to_fdt32 hs ++ replicate 8 0 ++ rsv ++ body ++ replicate (g - length w) 0).
  assert (headed at_ hs (replicate 8 0 ++ rsv ++ body ++ replicate g 0 ++ strs) = Fdt at_ (front ++ replicate (length w) 0 ++ strs)) as ->.
  { unfold headed, front. replace g with (g - length w + length w)%nat at 1 by lia. rewrite replicate_add. by rewrite <- !app_assoc. }
  assert (len front = 48 + len rsv + len body + Z.of_nat (g - length w)) as Hf.
  { subst front hs. rewrite !length_app, length_cells, !length_replicate. cbn [length]. lia. }
  rewrite <- Hf, store_mid by by rewrite length_replicate.
  replace (Fdt at_ (front ++ w ++ strs)) with (headed at_ hs (replicate 8 0 ++ rsv ++ body ++ replicate (g - length w) 0 ++ w ++ strs))
    by (unfold headed, front; by rewrite <- !app_assoc).
  unfold fdt_set_size_dt_strings. rewrite (set_headed _ _ _ 8) by (cbn; lia). unfold draft, hs. cbn [insert list_insert].
  rewrite u32_small by lia. do 2 f_equal. rewrite length_app. repeat (f_equal; try lia).
Qed.

(** A string already there is found; a new one is added if it fits. *)
Definition string_added body g strs (s : list Z) (r : Z * fdt) : Prop :=
  r = (0, draft at_ rsv body g strs) /\ (g < length s + 1)%nat \/
  exists off new, r = (off, draft at_ rsv body (g - length new) (new ++ strs)) /\ (length new <= g)%nat /\
    (length new <= length s + 1)%nat /\ late (new ++ strs) off s.

Lemma add_string_spec body g strs s : sized body g strs -> nonzero s -> len s < 48 ->
  exists r, _fdt_find_add_string (draft at_ rsv body g strs) s = Some r /\ string_added body g strs s r.
Proof.
  intros Hs Hnz Hlen. assert (Hs' := Hs). unfold sized in Hs'.
  destruct (draft_header body g strs Hs) as (_ & H1 & H2 & H3 & H4).
  unfold _fdt_find_add_string. rewrite H1, H3. change (fdt_at _) with at_. rewrite !s32_small by lia.
  destruct (draft_bytes body g strs) as (front & Hf & E).
  assert (len (s ++ [0]) = len s + 1) as Hw by (rewrite length_app; cbn [length]; lia).
  unfold _fdt_find_string. set (n := Z.to_nat _). rewrite E.
  destruct (find_string_sound at_ front strs [] (s ++ [0]) n 0) as (q & Hq & Hcase); [lia|].
  rewrite Z.add_0_r in Hq. replace (u32 (at_ + total - len strs)) with (at_ + len front) by (rewrite u32_small; lia).
  rewrite Hq. destruct Hcase as [->|(i & Hi & -> & Hsl)].
  - cbn [Z.eqb negb]. rewrite <- E, H2, H4, (s32_small (len s + 1)), !s32_small by lia. rewrite !u64_id by (unfold is_u64; lia).
    rewrite <- Hw in *. destruct (Z.ltb_spec (total + (- len strs - len (s ++ [0]))) (48 + len rsv + len body)).
    + eexists. split; [done|]. left. split; [done|lia].
    + rewrite u32_small by lia.
      assert (H' := store_string body g strs (s ++ [0]) (at_ + total + (- len strs - len (s ++ [0]))) Hs ltac:(lia) ltac:(lia)).
      destruct (store_bytes _ _ _) as [t|]; [|done]. rewrite H'. eexists. split; [done|]. right.
      eexists _, (s ++ [0]). split; [done|]. split; [lia|]. split; [lia|]. split; [done|].
      rewrite (length_app (s ++ [0])). split; [lia|]. replace (len s + 1) with (len (s ++ [0])) by lia.
      replace (Z.of_nat (length (s ++ [0]) + length strs) + (- len strs - len (s ++ [0]))) with 0 by lia. apply slice_front.
  - assert (Hin := Hsl). apply slice_Some in Hin as (_ & _ & Hin & _). rewrite (proj2 (Z.eqb_neq _ 0)) by lia. cbn [negb].
    rewrite <- E, s32_small by lia. eexists. split; [done|]. right. exists (Z.of_nat i - len strs), [].
    cbn [app length]. rewrite Nat.sub_0_r. split_and!; [|lia|lia|].
    + f_equal. lia.
    + split; [done|]. split; [lia|]. replace (len strs + (Z.of_nat i - len strs)) with (Z.of_nat i) by lia. by rewrite <- Hw.
Qed.
(** ** Tokens are written *)

(** The same token, its name's offset left aside. *)
Definition same_token (a b : token) : Prop :=
  match a, b with
  | TBegin n, TBegin n' => n = n'
  | TEnd, TEnd => True
  | TProp _ n v, TProp _ n' v' => n = n' /\ v = v'
  | _, _ => False
  end.
Definition late_token strs (tok : token) : Prop :=
  match tok with
  | TBegin name => nonzero name
  | TProp nameoff name _ => exists off, nameoff = u32 off /\ late strs off name
  | TEnd | TNop => True
  end.
Definition writable (tok : token) : Prop :=
  match tok with
  | TBegin name => nonzero name /\ len name < 2 ^ 31 - 16
  | TProp _ name v => nonzero name /\ len name < 48 /\ len v < 2 ^ 31 - 32
  | TEnd => True
  | TNop => False
  end.
#[export] Instance writable_dec tok : Decision (writable tok).
Proof. destruct tok; cbn [writable]; unfold nonzero; apply _. Defined.
(** Room enough for a token and its name. *)
Definition cost (tok : token) : nat :=
  length (padded tok) + match tok with TProp _ name _ => length name + 1 | _ => 0 end.

Definition wrote body g strs (tok : token) (r : Z * fdt) : Prop :=
  r.1 = - FDT_ERR_NOSPACE /\ (g < cost tok)%nat \/
  exists tok' new, let used := (length new + length (padded tok'))%nat in
    r = (0, draft at_ rsv (body ++ padded tok') (g - used) (new ++ strs)) /\
    (used <= g)%nat /\ (used <= cost tok)%nat /\ same_token tok tok' /\ late_token (new ++ strs) tok'.

Lemma written_wrote body g strs tok : cost tok = length (padded tok) -> same_token tok tok -> late_token strs tok ->
  wrote body g strs tok (written body g strs tok).
Proof.
  intros Hc Hs Hl. unfold written. case_decide; [right|left; split; [done|lia]].
  exists tok, []. cbn [length app Nat.add]. split_and!; try done. lia.
Qed.

Lemma same_width a b : same_token a b -> width a = width b.
Proof.
  destruct a, b; try done; cbn [same_token]; [by intros ->|intros [-> ->]].
  unfold width, image. cbn [FdtProps.body tag_of]. by rewrite !length_app.
Qed.

Lemma property_image off name v :
  image (TProp (u32 off) name v) = cpu_to_fdt32 FDT_PROP ++ cpu_to_fdt32 (len v) ++ cpu_to_fdt32 off ++ v.
Proof. unfold image. cbn [FdtProps.body tag_of]. by rewrite cell_u32. Qed.

(** A property token in its space. *)
Definition property_pad (v : list Z) : nat := Z.to_nat (4 * ((len v + 12 + 3) / 4)) - (12 + length v).
Lemma padded_property nameoff name v : padded (TProp nameoff name v) =
  cpu_to_fdt32 FDT_PROP ++ cpu_to_fdt32 (len v) ++ cpu_to_fdt32 nameoff ++ v ++ replicate (property_pad v) 0.
Proof.
  unfold padded, width. assert (length (image (TProp nameoff name v)) = 12 + length v)%nat as E
    by (unfold image; cbn [FdtProps.body tag_of]; by rewrite !length_app).
  rewrite E. unfold image. cbn [FdtProps.body tag_of]. rewrite <- !app_assoc. do 5 f_equal. unfold property_pad.
  f_equal. do 4 f_equal. lia.
Qed.

(** The four stores of [fdt_property]. *)
Lemma property_stores body g strs off name v tok : tok = TProp (u32 off) name v ->
  let prop := at_ + (48 + len rsv) + len body in
  (let? t := store_bytes (draft at_ rsv (body ++ replicate (length (padded tok)) 0) g strs) prop (cpu_to_fdt32 FDT_PROP) in
   let? t := store_bytes t (prop + 8) (cpu_to_fdt32 off) in
   let? t := store_bytes t (prop + 4) (cpu_to_fdt32 (len v)) in
   let? t := store_bytes t (prop + 12) v in
   Some (0, t)) = Some (0, draft at_ rsv (body ++ padded tok) g strs).
Proof.
  intros -> prop. set (tok := TProp (u32 off) name v).
  assert (image tok = cpu_to_fdt32 FDT_PROP ++ cpu_to_fdt32 (len v) ++ cpu_to_fdt32 off ++ v) as Ei by apply property_image.
  assert (length (image tok) = 12 + length v)%nat as Hi by (rewrite Ei, !length_app; reflexivity).
  set (pad := replicate (length (padded tok) - length (image tok)) 0).
  assert (replicate (length (padded tok)) 0 = replicate 4 0 ++ replicate 4 0 ++ replicate 4 0 ++ replicate (length v) 0 ++ pad) as ->.
  { rewrite (blank_token tok 12) by lia. fold pad. rewrite Hi. by replace (12 + length v - 12)%nat with (length v) by lia. }
  rewrite (store_body_at body (replicate 4 0) (cpu_to_fdt32 FDT_PROP) _) by done.
  rewrite (store_body_at (body ++ cpu_to_fdt32 FDT_PROP ++ replicate 4 0) (replicate 4 0) (cpu_to_fdt32 off) (replicate (length v) 0 ++ pad));
    [|by rewrite <- !app_assoc|done|rewrite !length_app; cbn [cpu_to_fdt32 length replicate]; lia].
  rewrite (store_body_at (body ++ cpu_to_fdt32 FDT_PROP) (replicate 4 0) (cpu_to_fdt32 (len v)) (cpu_to_fdt32 off ++ replicate (length v) 0 ++ pad));
    [|by rewrite <- !app_assoc|done|rewrite !length_app; cbn [cpu_to_fdt32 length]; lia].
  rewrite (store_body_at (body ++ cpu_to_fdt32 FDT_PROP ++ cpu_to_fdt32 (len v) ++ cpu_to_fdt32 off) (replicate (length v) 0) v pad);
    [|by rewrite <- !app_assoc|by rewrite length_replicate|rewrite !length_app; cbn [cpu_to_fdt32 length]; lia].
  rewrite (padded_image tok). fold pad. rewrite Ei. by rewrite <- !app_assoc.
Qed.

Lemma property_spec body g strs nameoff name v : sized body g strs -> writable (TProp nameoff name v) ->
  exists r, fdt_property (draft at_ rsv body g strs) name v = Some r /\ wrote body g strs (TProp nameoff name v) r.
Proof.
  intros Hs (Hnz & Hn & Hv). unfold fdt_property. rewrite draft_check by done.
  destruct (add_string_spec body g strs name Hs Hnz Hn) as (r & -> & [[-> Hg]|(off & new & -> & Hng & Hnew & Hl)]).
  { eexists. split; [done|]. left. split; [done|]. unfold cost. lia. }
  assert (off < 0) as Hoff by (destruct Hl as (_ & Ho & _); lia). rewrite (proj2 (Z.eqb_neq off 0)) by lia.
  set (tok := TProp (u32 off) name v). assert (sized body (g - length new) (new ++ strs)) as Hs2.
  { unfold sized in *. rewrite length_app. lia. }
  assert (len (padded tok) = 12 + 4 * ((len v + 3) / 4)) as Hw.
  { rewrite length_padded. unfold width. subst tok. rewrite property_image, !length_app, !length_cell. Z.div_mod_to_equations; lia. }
  rewrite tagalign_eq, <- Hw by lia.
  assert (length (padded tok) = length (padded (TProp nameoff name v))) as Hlen.
  { apply Nat2Z.inj. by rewrite !length_padded. }
  rewrite grab_spec by (done || (rewrite Hw; Z.div_mod_to_equations; lia)).
  case_decide as Hd.
  - rewrite (proj2 (Z.eqb_neq _ 0)) by (by eapply grab_ne). rewrite (property_stores body _ _ off name v tok eq_refl).
    eexists. split; [done|]. right. exists tok, new. cbv zeta. rewrite Nat.sub_add_distr. unfold cost. rewrite <- Hlen.
    split; [done|]. split; [lia|]. split; [lia|]. split; [done|]. by exists off.
  - eexists. split; [done|]. left. split; [done|]. unfold cost. lia.
Qed.
End Draft.

Lemma sw_magic : is_u32 FDT_SW_MAGIC.
Proof. by vm_compute. Qed.
Lemma fdt_magic_u32 : is_u32 FDT_MAGIC.
Proof. by vm_compute. Qed.

(** ** The blob of [fdt_finish] *)

(** The strings behind the structure. *)
Definition bound (at_ magic total : Z) (rsv body strs rest : list Z) : fdt :=
  headed at_ [magic; total; 48 + len rsv; 48 + len rsv + len body; 48; 17; 16; 0; len strs; len body]
    (replicate 8 0 ++ rsv ++ body ++ strs ++ rest).

Section Bound.
Context (at_ total : Z) (rsv strs rest : list Z).
Context (Hat : 0 < at_).
Implicit Types (body : list Z) (magic : Z) (ts : list token).

(** The blob fits its buffer. *)
Definition fits body : Prop :=
  (4 <= length body)%nat /\ is_u32 total /\ 48 + len rsv + len body + len strs + len rest < 2 ^ 31 - 16 /\
  at_ + (48 + len rsv + len body + len strs + len rest) < 2 ^ 32.

Lemma bound_field magic body (k : nat) v : fits body -> is_u32 magic ->
  [magic; total; 48 + len rsv; 48 + len rsv + len body; 48; 17; 16; 0; len strs; len body] !! k = Some v ->
  fdt_get_header (bound at_ magic total rsv body strs rest) (4 * Z.of_nat k) = Some v.
Proof.
  intros (H4 & Ht & Hs & Hend) Hm Hk. apply get_headed; [done|].
  refine (Forall_lookup_1 is_u32 _ k v _ Hk). unfold is_u32 in *. clear Hk. repeat (apply Forall_cons; split; [lia|]). done.
Qed.

Lemma length_bound magic body : len (fdt_bytes (bound at_ magic total rsv body strs rest)) =
  48 + len rsv + len body + len strs + len rest.
Proof. unfold bound, headed. cbn [fdt_bytes]. rewrite !length_app, length_cells, length_replicate. cbn [length]. lia. Qed.

Lemma bound_layout magic body : fits body -> magic = FDT_MAGIC \/ magic = FDT_SW_MAGIC ->
  layout (bound at_ magic total rsv body strs rest) (48 + len rsv) (len body) (48 + len rsv + len body) (len strs).
Proof.
  intros Hf Hmagic. assert (is_u32 magic) as Hm by (destruct Hmagic as [-> | ->]; by vm_compute).
  assert (H := fun k v => bound_field magic body k v Hf Hm). destruct Hf as (H4 & Ht & Hs & Hend).
  split; rewrite ?length_bound.
  - done.
  - cbn [fdt_at bound headed]. lia.
  - unfold fdt_check_header, fdt_magic, fdt_version, fdt_last_comp_version, fdt_size_dt_struct.
    rewrite (H 0%nat _ eq_refl : fdt_get_header _ 0 = _), (H 5%nat _ eq_refl : fdt_get_header _ 20 = _).
    rewrite (H 6%nat _ eq_refl : fdt_get_header _ 24 = _), (H 9%nat _ eq_refl : fdt_get_header _ 36 = _).
    destruct Hmagic as [-> | ->]; [done|]. rewrite (proj2 (Z.eqb_neq (len body) 0)) by lia. done.
  - exists 17. split; [exact (H 5%nat _ eq_refl)|done].
  - exact (H 2%nat _ eq_refl).
  - exact (H 9%nat _ eq_refl).
  - exact (H 3%nat _ eq_refl).
  - lia.
  - lia.
  - left. lia.
Qed.

(** A store inside the structure. *)
Lemma store_bound magic a x y b body p : body = a ++ x ++ b -> length x = length y -> p = at_ + (48 + len rsv) + len a ->
  store_bytes (bound at_ magic total rsv body strs rest) p y = Some (bound at_ magic total rsv (a ++ y ++ b) strs rest).
Proof.
  intros -> Hl ->. unfold bound. assert (length (a ++ y ++ b) = length (a ++ x ++ b)) as -> by (rewrite !length_app; lia).
  rewrite <- !app_assoc, !(app_assoc rsv), !(app_assoc (replicate 8 0)). apply store_headed; [done|].
  rewrite !length_app, length_replicate. cbn [length]. lia.
Qed.
End Bound.

(** ** Names are counted from the front again *)

Definition fix_name (m : Z) (tok : token) : token :=
  match tok with TProp nameoff name v => TProp (s32 (s32 nameoff + m)) name v | _ => tok end.

Lemma fix_same m tok : tok <> TNop -> same_token tok (fix_name m tok).
Proof. by destruct tok. Qed.

Lemma s32_u32 z : s32 (u32 z) = s32 z.
Proof. unfold s32, u32. by rewrite Z.mod_mod. Qed.

Lemma late_fixed strs tok : len strs < 2 ^ 31 -> late_token strs tok -> token_in strs (fix_name (len strs) tok).
Proof.
  intros Hm. destruct tok as [name| |nameoff name v|]; cbn [late_token token_in fix_name]; [done|done| |done].
  intros (off & -> & Hnz & Ho & Hs). rewrite s32_u32, (s32_small off), s32_small by lia.
  replace (off + len strs) with (len strs + off) by lia. split; [unfold is_u32; lia|]. by split.
Qed.

Lemma late_shape strs tok : late_token strs tok -> shape_ok tok.
Proof. by destruct tok. Qed.

Section Correct.
Context (at_ total : Z) (rsv strs rest : list Z).
Context (Hat : 0 < at_).
Local Abbreviation blob_of body := (bound at_ FDT_SW_MAGIC total rsv body strs rest).

Lemma widths_mod ts : widths ts mod 4 = 0.
Proof.
  induction ts as [|tok ts IH]; [done|]. rewrite widths_cons. destruct (width_bounds tok) as (_ & Hw & _).
  Z.div_mod_to_equations; lia.
Qed.

(** What is behind the tokens [dn]. *)
Lemma behind dn bs body b : body = flat_map padded dn ++ bs ++ b ->
  holds (blob_of body) (place (blob_of body) (48 + len rsv) (widths dn)) bs.
Proof.
  intros ->. unfold bound, headed. set (hs := [FDT_SW_MAGIC; _; _; _; _; _; _; _; _; _]). unfold place. cbn [fdt_at].
  set (front := flat_map cpu_to_fdt32 hs ++ replicate 8 0 ++ rsv ++ flat_map padded dn).
  assert (len front = 48 + len rsv + widths dn) as Hf.
  { subst front hs. rewrite !length_app, length_cells, !length_replicate. rewrite <- length_tokens. cbn [length]. lia. }
  replace (at_ + (48 + len rsv) + widths dn) with (at_ + len front) by lia.
  assert (flat_map cpu_to_fdt32 hs ++ replicate 8 0 ++ rsv ++ (flat_map padded dn ++ bs ++ b) ++ strs ++ rest
    = front ++ bs ++ b ++ strs ++ rest) as -> by (unfold front; by rewrite <- !app_assoc).
  apply holds_mid.
Qed.

Lemma token_at dn tok body b : body = flat_map padded dn ++ padded tok ++ b ->
  holds (blob_of body) (place (blob_of body) (48 + len rsv) (widths dn)) (image tok).
Proof. intros ->. eapply behind. by rewrite (padded_image tok), <- !app_assoc. Qed.

Lemma length_body dn tok b : len (flat_map padded dn ++ padded tok ++ b) = widths dn + width tok + len b.
Proof. rewrite !length_app. rewrite <- length_tokens, <- length_padded. lia. Qed.

Definition correction (t : fdt) (offset tag : Z) : option fdt :=
  if tag =? FDT_PROP then
    let? prop := _fdt_offset_ptr t offset in
    let? nameoff := fdt32_to_cpu t (prop + 8) in
    let? m := fdt_size_dt_strings t in
    store_bytes t (prop + 8) (cpu_to_fdt32 (s32 (s32 nameoff + m)))
  else Some t.

(** A token behind the corrected ones is read and corrected. *)
Lemma correct_token dn tok b body : late_token strs tok -> body = flat_map padded dn ++ padded tok ++ b ->
  fits at_ total rsv strs rest body ->
  fdt_next_tag (blob_of body) (widths dn) = Some (tag_of tok, widths dn + width tok) /\
  correction (blob_of body) (widths dn) (tag_of tok)
    = Some (blob_of (flat_map padded dn ++ padded (fix_name (len strs) tok) ++ b)).
Proof.
  intros Hl Hb Hf. assert (Hlay := bound_layout at_ total rsv strs rest Hat FDT_SW_MAGIC body Hf (or_intror eq_refl)).
  assert (Hh := token_at dn tok body b Hb). assert (Hlen := length_body dn tok b). rewrite <- Hb in Hlen.
  assert (H0 := widths_nonneg dn). destruct (width_bounds tok) as (Hw4 & _). split.
  { apply (next_tag_spec _ _ _ _ _ Hlay); [done|apply widths_mod|lia|done|by eapply late_shape]. }
  unfold correction. destruct tok as [name| |nameoff name v|]; cbn [tag_of fix_name];
    [by subst body|by subst body| |by subst body].
  change (FDT_PROP =? FDT_PROP) with true. cbn iota. destruct Hl as (off & -> & _ & Ho & _).
  unfold _fdt_offset_ptr. rewrite (lay_struct _ _ _ _ _ Hlay).
  assert (u32 (fdt_at (blob_of body) + (48 + len rsv) + widths dn) = place (blob_of body) (48 + len rsv) (widths dn)) as ->.
  { destruct Hf as (_ & _ & _ & Hend). unfold place. cbn [fdt_at bound headed]. rewrite u32_small; lia. }
  set (tok := TProp (u32 off) name v) in *. set (p := place _ _ _) in *.
  assert (holds (blob_of body) (p + 8) (cpu_to_fdt32 (u32 off))) as Hcell.
  { subst tok. rewrite property_image, app_assoc in Hh. apply holds_app in Hh as [_ Hh]. apply holds_app in Hh as [Hh _].
    by rewrite cell_u32. }
  rewrite (holds_cell _ _ (u32 off) (u32_range off) Hcell).
  rewrite (bound_field at_ total rsv strs rest FDT_SW_MAGIC body 8 _ Hf sw_magic eq_refl : fdt_size_dt_strings _ = _).
  rewrite s32_u32, <- cell_u32. set (new := s32 (s32 off + len strs)).
  assert (p = at_ + (48 + len rsv) + widths dn) as Hp by (subst p; unfold place; cbn [fdt_at bound headed]; lia).
  set (pad := replicate (property_pad v) 0).
  rewrite (store_bound at_ total rsv strs rest FDT_SW_MAGIC (flat_map padded dn ++ cpu_to_fdt32 FDT_PROP ++ cpu_to_fdt32 (len v))
    (cpu_to_fdt32 (u32 off)) (cpu_to_fdt32 (u32 new)) (v ++ pad ++ b)).
  - do 2 f_equal. rewrite padded_property, cell_u32. fold pad. by rewrite <- !app_assoc.
  - rewrite Hb. subst tok. rewrite padded_property. by rewrite <- !app_assoc.
  - done.
  - rewrite !length_app, !length_cell, !Nat2Z.inj_add, length_tokens. lia.
Qed.

Lemma fits_length body body' : length body = length body' -> fits at_ total rsv strs rest body -> fits at_ total rsv strs rest body'.
Proof. unfold fits. by intros ->. Qed.

Lemma length_fixed tok : length (padded (fix_name (len strs) tok)) = length (padded tok).
Proof.
  apply Nat2Z.inj. rewrite !length_padded. destruct tok as [| |nameoff name v|]; try done.
Qed.

(** All names are corrected. *)
Lemma correct_loop_spec todo dn fuel : Forall (late_token strs) todo -> (length todo < fuel)%nat ->
  let body todo := flat_map padded dn ++ flat_map padded todo ++ cpu_to_fdt32 FDT_END in
  fits at_ total rsv strs rest (body todo) ->
  exists next, 0 <= next /\ correct_loop fuel (blob_of (body todo)) (widths dn)
    = Some (next, blob_of (body (map (fix_name (len strs)) todo))).
Proof.
  intros Hl. revert dn fuel. induction Hl as [|tok todo Htok _ IH]; intros dn [|fuel] Hfuel; cbn [length] in Hfuel; try lia;
    cbv zeta; cbn [flat_map map]; intros Hf; cbn [correct_loop].
  - assert (Hlay := bound_layout at_ total rsv strs rest Hat FDT_SW_MAGIC _ Hf (or_intror eq_refl)).
    destruct (next_tag_end _ _ _ _ _ Hlay (widths dn)) as (next & Hn & ->); [apply widths_nonneg|apply widths_mod| |].
    { split; [rewrite !length_app, <- length_tokens; cbn [app cpu_to_fdt32 length]; lia|]. eapply behind. cbn [app]. by rewrite app_nil_r. }
    exists next. by rewrite Z.eqb_refl.
  - rewrite <- !app_assoc in *. destruct (correct_token dn tok _ _ Htok eq_refl Hf) as [-> Hc]. unfold correction in Hc.
    assert (tag_of tok =? FDT_END = false) as -> by by destruct tok. rewrite Hc.
    assert (widths dn + width tok = widths (dn ++ [fix_name (len strs) tok])) as ->.
    { rewrite widths_app, widths_cons. cbn [widths fold_right]. rewrite <- !length_padded, length_fixed. lia. }
    destruct (IH (dn ++ [fix_name (len strs) tok]) fuel) as (next & Hn & H); [lia| |].
    + eapply fits_length; [|exact Hf]. rewrite flat_map_app. cbn [flat_map]. rewrite !length_app, length_fixed. cbn [length]. lia.
    + exists next. split; [done|]. rewrite !flat_map_app in H. cbn [flat_map] in H. by rewrite <- !app_assoc in H.
Qed.
End Correct.

(** ** [fdt_finish] *)

Section Finish.
Context (at_ total : Z) (rsv : list Z).
Context (Hat : 0 < at_) (Hend : at_ + total < 2 ^ 32) (Htotal : total < 2 ^ 31 - 16).
Implicit Types (body strs rest : list Z) (g : nat).

(** The strings move up behind the structure. *)
Lemma strings_moved body g strs : sized rsv total body g strs -> exists rest,
  len rest = Z.of_nat g /\
  (let? t := memmove (draft at_ rsv body g strs) (at_ + (48 + len rsv + len body)) (at_ + (total - len strs)) (len strs) in
   fdt_set_off_dt_strings t (48 + len rsv + len body))
  = Some (bound at_ FDT_SW_MAGIC total rsv body strs rest).
Proof.
  intros Hs. assert (Hs' := Hs). unfold sized in Hs'.
  set (gap := replicate g 0 ++ strs). exists (drop (length strs) gap).
  assert (len gap = Z.of_nat g + len strs) as Hgap by (subst gap; rewrite length_app, length_replicate; lia).
  split; [rewrite length_drop; lia|]. unfold memmove.
  destruct (draft_bytes at_ rsv body g strs) as (front & Hf & E).
  assert (load_bytes (draft at_ rsv body g strs) (at_ + (total - len strs)) (len strs) = Some strs) as ->.
  { rewrite E. replace (at_ + (total - len strs)) with (at_ + len front) by lia. apply load_mid. }
  unfold draft. fold gap. set (hs := [FDT_SW_MAGIC; _; _; _; _; _; _; _; _; _]).
  set (x := take (length strs) gap). set (rest := drop (length strs) gap).
  assert (length x = length strs) as Hx by (subst x; rewrite length_take; lia).
  assert (replicate 8 0 ++ rsv ++ body ++ gap = (replicate 8 0 ++ rsv ++ body) ++ x ++ rest) as ->.
  { unfold x, rest. rewrite take_drop. by rewrite <- !app_assoc. }
  rewrite store_headed; [|done|rewrite !length_app, length_replicate; cbn [length hs]; lia].
  unfold fdt_set_off_dt_strings. rewrite (set_headed _ _ _ 3) by (cbn; lia). unfold bound, hs. cbn [insert list_insert].
  rewrite u32_small by lia. rewrite <- !app_assoc, <- Hs'. done.
Qed.

Lemma tokens_length ts : len ts <= widths ts.
Proof.
  induction ts as [|tok ts IH]; [done|]. rewrite widths_cons. destruct (width_bounds tok) as (Hw & _). cbn [length]. lia.
Qed.

(** The walk, and the two fields that make it a blob. *)
Lemma names_corrected ts strs rest body : Forall (late_token strs) ts ->
  body = flat_map padded ts ++ cpu_to_fdt32 FDT_END -> fits at_ total rsv strs rest body ->
  let t := bound at_ FDT_SW_MAGIC total rsv body strs rest in
  let body' := flat_map padded (map (fix_name (len strs)) ts) ++ cpu_to_fdt32 FDT_END in
  let ost := 48 + len rsv + len body in
  (let? (nextoffset, t) := correct_loop (loop_bound t) t 0 in
   if nextoffset <? 0 then Some (nextoffset, t)
   else
     let? m := fdt_size_dt_strings t in
     let? t := fdt_set_totalsize t (ost + m) in
     let? t := fdt_set_magic t FDT_MAGIC in
     Some (0, t)) = Some (0, bound at_ FDT_MAGIC (ost + len strs) rsv body' strs rest) /\
  fits at_ (ost + len strs) rsv strs rest body' /\ length body' = length body.
Proof.
  intros Hl -> Hf t body' ost. assert (Hf' := Hf). destruct Hf' as (H4 & Ht & Hs & Hin).
  assert (length body' = length (flat_map padded ts ++ cpu_to_fdt32 FDT_END)) as Hlen.
  { subst body'. rewrite !length_app. f_equal. clear. induction ts as [|tok ts IH]; [done|].
    cbn [map flat_map]. by rewrite !length_app, length_fixed, IH. }
  destruct (correct_loop_spec at_ total rsv strs rest Hat ts [] (loop_bound t) Hl) as (next & Hn & Hc); [|exact Hf|].
  { unfold loop_bound. apply Nat.lt_succ_r. apply Nat2Z.inj_le. subst t. rewrite length_bound.
    assert (H := tokens_length ts). rewrite <- length_tokens in H. rewrite length_app. lia. }
  cbn [flat_map app widths fold_right] in Hc. fold body' in Hc. fold t in Hc. rewrite Hc, (proj2 (Z.ltb_ge next 0)) by lia.
  assert (fits at_ total rsv strs rest body') as Hf2 by (eapply fits_length; [|exact Hf]; done).
  rewrite (bound_field at_ total rsv strs rest FDT_SW_MAGIC body' 8 _ Hf2 sw_magic eq_refl : fdt_size_dt_strings _ = _).
  unfold fdt_set_totalsize, fdt_set_magic, bound at 1. rewrite (set_headed _ _ _ 1) by (cbn; lia).
  rewrite (set_headed _ _ _ 0) by (cbn; lia). cbn [insert list_insert].
  rewrite (u32_id FDT_MAGIC fdt_magic_u32), (u32_small (ost + len strs)) by (subst ost; lia).
  split; [done|]. split; [|done]. subst ost. unfold fits, is_u32 in *. rewrite Hlen. lia.
Qed.

Lemma finish_spec ts g strs : Forall (late_token strs) ts -> sized rsv total (flat_map padded ts) g strs ->
  exists r, fdt_finish (draft at_ rsv (flat_map padded ts) g strs) = Some r /\
    (r.1 = - FDT_ERR_NOSPACE /\ (g < 4)%nat \/
     exists rest, let body := flat_map padded (map (fix_name (len strs)) ts) ++ cpu_to_fdt32 FDT_END in
       r = (0, bound at_ FDT_MAGIC (48 + len rsv + len body + len strs) rsv body strs rest) /\
       fits at_ (48 + len rsv + len body + len strs) rsv strs rest body /\
       48 + len rsv + len body + len strs + len rest = total).
Proof.
  intros Hl Hs. unfold fdt_finish. rewrite (draft_check at_ rsv total) by done. change 4 with (Z.of_nat 4) at 1.
  rewrite (grab_spec at_ rsv total) by (done || lia). case_decide as Hd; cycle 1.
  { eexists. split; [done|]. left. split; [done|lia]. }
  rewrite (proj2 (Z.eqb_neq _ 0)) by lia. set (body := flat_map padded ts ++ cpu_to_fdt32 FDT_END).
  rewrite (store_body_at at_ rsv (flat_map padded ts) (replicate 4 0) (cpu_to_fdt32 FDT_END) []) by (done || by rewrite app_nil_r).
  rewrite app_nil_r. fold body. assert (len body = len (flat_map padded ts) + 4) as Hb by (subst body; rewrite length_app; cbn [cpu_to_fdt32 length]; lia).
  assert (sized rsv total body (g - 4) strs) as Hs2 by (unfold sized in *; lia).
  destruct (draft_header at_ rsv total Htotal body (g - 4) strs Hs2) as (_ & -> & -> & -> & ->).
  change (fdt_at _) with at_. assert (Hs3 := Hs2). unfold sized in Hs3. rewrite !s32_small by lia.
  destruct (strings_moved body (g - 4) strs Hs2) as (rest & Hrest & Hmove).
  destruct (memmove _ _ _ _) as [t|]; [|done]. rewrite Hmove.
  destruct (names_corrected ts strs rest body Hl eq_refl) as (-> & Hf & Hlen).
  { unfold fits, is_u32. lia. }
  eexists. split; [done|]. right. exists rest. cbv zeta. rewrite Hlen. split; [done|]. split; [by rewrite <- Hlen in Hf |- *|lia].
Qed.
End Finish.

(** ** A client writes a tree *)

Definition write_token (t : fdt) (tok : token) : option (Z * fdt) :=
  match tok with
  | TBegin name => fdt_begin_node t name
  | TEnd => fdt_end_node t
  | TProp _ name v => fdt_property t name v
  | TNop => Some (0, t)
  end.
(** It stops at the first error. *)
Fixpoint write_tokens (t : fdt) (ts : list token) : option (Z * fdt) :=
  match ts with
  | [] => Some (0, t)
  | tok :: ts => or_status (write_token t tok) (fun t => write_tokens t ts)
  end.
Definition write_tree (t : fdt) (bufsize : Z) (tr : tree) : option (Z * fdt) :=
  or_status (fdt_create t bufsize) (fun t =>
  or_status (fdt_finish_reservemap t) (fun t =>
  or_status (write_tokens t (flat tr)) fdt_finish)).

Definition costs (ts : list token) : nat := fold_right (fun tok n => cost tok + n)%nat 0%nat ts.

Lemma create_spec at_ bytes : 40 <= len bytes < 2 ^ 31 ->
  fdt_create (Fdt at_ bytes) (len bytes) =
  Some (0, headed at_ [FDT_SW_MAGIC; len bytes; 48; len bytes; 48; 17; 16; 0; 0; 0] (replicate (length bytes - 40) 0)).
Proof.
  intros Hn. unfold fdt_create. rewrite u32_small, (proj2 (Z.ltb_ge _ _)) by (unfold sizeof_fdt_header; lia).
  unfold memset. change (fdt_at _) with at_. rewrite Nat2Z.id.
  assert (H := store_mid at_ [] bytes (replicate (length bytes) 0) [] ltac:(by rewrite length_replicate)).
  cbn [app length Z.of_nat] in H. rewrite Z.add_0_r, !app_nil_r in H. rewrite H.
  assert (Fdt at_ (replicate (length bytes) 0) = headed at_ (replicate 10 0) (replicate (length bytes - 40) 0)) as ->.
  { unfold headed. change (flat_map cpu_to_fdt32 (replicate 10 0)) with (replicate 40 (0 : Z)). rewrite <- replicate_add. do 2 f_equal. lia. }
  unfold fdt_set_magic, fdt_set_version, fdt_set_last_comp_version, fdt_set_totalsize, fdt_set_off_mem_rsvmap,
    fdt_set_off_dt_struct, fdt_set_off_dt_strings. cbn [replicate].
  rewrite (set_headed _ _ _ 0) by (cbn; lia). cbn [insert list_insert].
  rewrite (set_headed _ _ _ 5) by (cbn; lia). cbn [insert list_insert].
  rewrite (set_headed _ _ _ 6) by (cbn; lia). cbn [insert list_insert].
  rewrite (set_headed _ _ _ 1) by (cbn; lia). cbn [insert list_insert].
  rewrite (set_headed _ _ _ 4) by (cbn; lia). cbn [insert list_insert].
  change (u32 (FDT_ALIGN sizeof_fdt_header sizeof_fdt_reserve_entry)) with 48.
  rewrite (headed_off_mem_rsvmap _ _ _ 48) by done.
  rewrite (set_headed _ _ _ 2) by (cbn; lia). cbn [insert list_insert].
  rewrite (set_headed _ _ _ 3) by (cbn; lia). cbn [insert list_insert].
  rewrite (u32_id FDT_SW_MAGIC sw_magic), u32_small by lia. done.
Qed.

Lemma reservemap_spec at_ n : 0 < at_ -> 40 <= Z.of_nat n < 2 ^ 31 - 16 -> at_ + Z.of_nat n < 2 ^ 32 ->
  let t := headed at_ [FDT_SW_MAGIC; Z.of_nat n; 48; Z.of_nat n; 48; 17; 16; 0; 0; 0] (replicate (n - 40) 0) in
  fdt_finish_reservemap t = Some (if decide (64 <= n)%nat then (0, draft at_ (replicate 16 0) [] (n - 64) []) else (- FDT_ERR_NOSPACE, t)).
Proof.
  intros Hat Hn Hend t. unfold fdt_finish_reservemap, fdt_add_reservemap_entry, FDT_SW_CHECK_HEADER, _fdt_sw_check_header.
  assert (is_u32 (Z.of_nat n)) as Hu by (unfold is_u32; lia).
  unfold t. rewrite (headed_magic _ _ _ FDT_SW_MAGIC), Z.eqb_refl by (done || apply sw_magic). cbn [negb Z.eqb].
  rewrite (headed_size_dt_struct _ _ _ 0) by done. cbn [negb Z.eqb].
  rewrite (headed_off_dt_struct _ _ _ 48), (headed_totalsize _ _ _ (Z.of_nat n)) by done. fold t.
  change (s32 48) with 48. change (u32 (48 + sizeof_fdt_reserve_entry)) with 64.
  case_decide as Hd; [rewrite (proj2 (Z.ltb_ge _ _)) by lia|by rewrite (proj2 (Z.ltb_lt _ _)) by lia].
  change (fdt_at t) with at_. change (cpu_to_fdt64 0) with (replicate 8 (0 : Z)). rewrite u32_small by lia.
  subst t. replace (n - 40)%nat with (8 + (8 + (8 + (n - 64))))%nat by lia. rewrite !replicate_add.
  rewrite store_headed by (done || (cbn; lia)). rewrite (app_assoc (replicate 8 0) (replicate 8 0)).
  rewrite store_headed by (done || (cbn; lia)). unfold fdt_set_off_dt_struct. rewrite (set_headed _ _ _ 2) by (cbn; lia).
  cbn [insert list_insert]. change (u32 (48 + sizeof_fdt_reserve_entry)) with 64.
  unfold draft. cbn [app]. rewrite app_nil_r, length_replicate. cbn [length]. do 2 f_equal. unfold headed.
  rewrite <- app_assoc. do 2 f_equal. repeat (f_equal; try lia).
Qed.

Section Write.
Context (at_ total : Z) (rsv : list Z).
Context (Hat : 0 < at_) (Hend : at_ + total < 2 ^ 32) (Htotal : total < 2 ^ 31 - 16).

Lemma write_token_spec body g strs tok : sized rsv total body g strs -> writable tok ->
  exists r, write_token (draft at_ rsv body g strs) tok = Some r /\ wrote at_ rsv body g strs tok r.
Proof.
  intros Hs Hw. destruct tok as [name| |nameoff name v|]; cbn [write_token]; [| | |done].
  - destruct Hw as [Hnz Hn]. rewrite (begin_node_spec at_ rsv total) by done. eexists. split; [done|]. apply written_wrote; [|done|done].
    unfold cost. lia.
  - rewrite (end_node_spec at_ rsv total) by done. eexists. split; [done|]. by apply written_wrote; [unfold cost; lia| |].
  - by apply (property_spec at_ rsv total).
Qed.

Lemma late_token_behind new strs tok : late_token strs tok -> late_token (new ++ strs) tok.
Proof.
  destruct tok as [name| |nameoff name v|]; cbn [late_token]; [done|done| |done]. intros (off & -> & H).
  exists off. split; [done|]. by apply late_behind.
Qed.

(** Every token is written, or the space ran out. *)
Lemma write_tokens_spec ts dn g strs : Forall writable ts -> Forall (late_token strs) dn ->
  sized rsv total (flat_map padded dn) g strs ->
  exists r, write_tokens (draft at_ rsv (flat_map padded dn) g strs) ts = Some r /\
    (r.1 = - FDT_ERR_NOSPACE /\ (g < costs ts)%nat \/
     exists ts' g' strs', r = (0, draft at_ rsv (flat_map padded (dn ++ ts')) g' strs') /\
       sized rsv total (flat_map padded (dn ++ ts')) g' strs' /\ Forall2 same_token ts ts' /\
       Forall (late_token strs') (dn ++ ts') /\ (g <= g' + costs ts)%nat).
Proof.
  intros Hw. revert dn g strs. induction Hw as [|tok ts Htok _ IH]; intros dn g strs Hl Hs; cbn [write_tokens costs fold_right].
  - eexists. split; [done|]. right. exists [], g, strs. rewrite app_nil_r. split_and!; [done|done|constructor|done|lia].
  - destruct (write_token_spec _ g strs tok Hs Htok) as (r & -> & [(Hr & Hg)|(tok' & new & -> & Hu & Hc & Hsame & Hlate)]).
    { exists r. destruct r as [e t]. cbn [fst] in Hr. subst e. split; [done|]. left. split; [done|]. lia. }
    cbn [or_status]. assert (flat_map padded dn ++ padded tok' = flat_map padded (dn ++ [tok'])) as E
      by (rewrite flat_map_app; cbn [flat_map]; by rewrite app_nil_r).
    rewrite E. destruct (IH (dn ++ [tok']) (g - (length new + length (padded tok')))%nat (new ++ strs)) as (r & Hr & Hcase).
    + apply Forall_app. split; [|by constructor]. eapply Forall_impl; [exact Hl|]. intros x. apply late_token_behind.
    + rewrite <- E. unfold sized in *. rewrite !length_app. lia.
    + exists r. split; [exact Hr|]. destruct Hcase as [(H1 & H2)|(ts' & g' & strs' & -> & H1 & H2 & H3 & H4)].
      * left. split; [done|]. fold (costs ts). lia.
      * right. exists (tok' :: ts'), g', strs'. rewrite <- app_assoc in *. split_and!; [done|done|by constructor|done|]. fold (costs ts). lia.
Qed.
End Write.

(** ** Offsets of names do not matter to a reader *)

Fixpoint erase (n : tree) : tree :=
  let 'Tree name props kids := n in Tree name (map (fun p => (0, p.1.2, p.2)) props) (map erase kids).

Lemma erase_name n : tree_name (erase n) = tree_name n.
Proof. by destruct n. Qed.

Lemma kid_erase s n : kid s (erase n) = erase <$> kid s n.
Proof.
  destruct n as [name props kids]. unfold kid. cbn [erase tree_kids]. induction kids as [|k kids IH]; [done|].
  cbn [map List.find]. rewrite erase_name. by destruct (answers (tree_name k) s).
Qed.

Lemma follow_erase ps n : follow ps (erase n) = erase <$> follow ps n.
Proof. revert n. induction ps as [|s ps IH]; intros n; cbn [follow]; [done|]. rewrite kid_erase. destruct (kid s n) as [k|]; [apply IH|done]. Qed.

Lemma property_erase s n : property s (erase n) = property s n.
Proof.
  destruct n as [name props kids]. unfold property. cbn [erase tree_props]. induction props as [|p props IH]; [done|].
  cbn [map List.find]. cbn [fst snd]. by destruct (bool_decide (p.1.2 = s)).
Qed.

Lemma reads_erase t tr tr' : erase tr = erase tr' -> reads t tr -> reads t tr'.
Proof.
  intros He H path s Hp. specialize (H path s Hp).
  assert (erase <$> follow (pieces (47 :: path)) tr = erase <$> follow (pieces (47 :: path)) tr') as Hf
    by (by rewrite <- !follow_erase, He).
  destruct (follow _ tr) as [n|], (follow _ tr') as [n'|]; try done. injection Hf as Hf.
  by rewrite <- (property_erase s n'), <- Hf, property_erase.
Qed.

(** The same tokens are a tree's that differs in these offsets only. *)
Lemma same_props props ts : Forall2 same_token (map prop_token props) ts -> exists props',
  ts = map prop_token props' /\ map (fun p => (0, p.1.2, p.2)) props' = map (fun p : Z * list Z * list Z => (0, p.1.2, p.2)) props.
Proof.
  revert ts. induction props as [|[[o n] v] props IH]; intros ts; cbn [map]; [intros ->%Forall2_nil_inv_l; by exists []|].
  intros ([| |o' n' v'|] & ts' & Htok & (props' & -> & E)%IH & ->)%Forall2_cons_inv_l; try done.
  destruct Htok as [-> ->]. exists ((o', n', v') :: props'). cbn [map fst snd]. by rewrite E.
Qed.

Definition same_tree (n : tree) : Prop := forall ts, Forall2 same_token (flat n) ts -> exists n', ts = flat n' /\ erase n' = erase n.
Lemma same_kids kids ts : Forall same_tree kids -> Forall2 same_token (flat_map flat kids) ts -> exists kids',
  ts = flat_map flat kids' /\ map erase kids' = map erase kids.
Proof.
  intros Hk. revert ts. induction Hk as [|k kids Hk _ IH]; intros ts; cbn [flat_map map]; [intros ->%Forall2_nil_inv_l; by exists []|].
  intros (ts1 & ts2 & (k' & -> & Hk')%Hk & (kids' & -> & Hkids)%IH & ->)%Forall2_app_inv_l. exists (k' :: kids').
  cbn [flat_map map]. by rewrite Hk', Hkids.
Qed.

Lemma same_node name props kids : Forall same_tree kids -> same_tree (Tree name props kids).
Proof.
  intros Hk ts. cbn [flat]. intros (b & r & Hb & Hr & ->)%Forall2_cons_inv_l.
  apply Forall2_app_inv_l in Hr as (r1 & r2 & (props' & -> & Hp)%same_props & Hr & ->).
  apply Forall2_app_inv_l in Hr as (r3 & r4 & (kids' & -> & Hkids)%(same_kids _ _ Hk) & Hr & ->).
  apply Forall2_cons_inv_l in Hr as (e & r & He & ->%Forall2_nil_inv_l & ->). destruct b as [name'| | |], e; try done.
  cbn [same_token] in Hb. subst name'. exists (Tree name props' kids'). cbn [flat erase]. by rewrite Hp, Hkids.
Qed.

Lemma same_flat : forall n, same_tree n.
Proof. fix IH 1. intros [name props kids]. apply same_node. induction kids as [|k kids IHk]; constructor; [apply IH|done]. Qed.

Section Read.
Context (at_ total : Z) (rsv strs rest : list Z) (ts : list token).
Let body : list Z := flat_map padded (map (fix_name (len strs)) ts) ++ cpu_to_fdt32 FDT_END.
Context (Hat : 0 < at_) (Hf : fits at_ total rsv strs rest body) (Hl : Forall (late_token strs) ts).

Lemma finished_chain : let t := bound at_ FDT_MAGIC total rsv body strs rest in
  chain t (48 + len rsv) (len body) (48 + len rsv + len body) (len strs) 0 (map (fix_name (len strs)) ts).
Proof.
  intros t. assert (H := Hf). destruct H as (H4 & _ & Hs & _). set (hs := [FDT_MAGIC; total; 48 + len rsv; 48 + len rsv + len body; 48; 17; 16; 0; len strs; len body]).
  set (front := flat_map cpu_to_fdt32 hs ++ replicate 8 0 ++ rsv).
  assert (len front = 48 + len rsv) as Hfront.
  { subst front. rewrite !length_app, length_cells, length_replicate. cbn [length hs]. lia. }
  assert (fdt_bytes t = front ++ body ++ strs ++ rest) as Hbytes by (unfold t, bound, headed; cbn [fdt_bytes]; fold hs; unfold front; by rewrite <- !app_assoc).
  apply (laid_chain t _ _ _ _ _ front (strs ++ rest)); [|lia|lia| |done].
  - apply Forall_map. eapply Forall_impl; [exact Hl|]. intros tok Htok.
    apply (laid_token t (front ++ body) rest); [by rewrite Hbytes, <- app_assoc|rewrite length_app; lia|apply late_fixed; [lia|done]].
  - unfold body. rewrite length_app, Nat2Z.inj_add, length_tokens. cbn [cpu_to_fdt32 length]. lia.
Qed.

Lemma finished_reads tr : Forall2 same_token (flat tr) ts -> reads (bound at_ FDT_MAGIC total rsv body strs rest) tr.
Proof.
  intros Hsame. destruct (same_flat tr (map (fix_name (len strs)) ts)) as (tr' & Htr & He).
  { clear -Hsame. induction Hsame as [|a b l l' Hab _ IH]; cbn [map]; constructor; [|done]. by destruct a, b. }
  apply (reads_erase _ tr' tr He). eapply (tree_reads _ _ _ _ _ tr' (bound_layout _ _ _ _ _ Hat FDT_MAGIC body Hf (or_introl eq_refl))).
  rewrite <- Htr. apply finished_chain.
Qed.
End Read.

(** C37: A tree written by the sequential writer is the tree libfdt reads back:
    in any buffer, calling the writer for the nodes and properties of a tree
    from the front to the back either gives a blob, no larger than the buffer,
    in which every path and property of the tree is found and no other, with
    the names shared and the offsets of names corrected; or it reports that the
    buffer is too small, which it then is: a buffer with 68 bytes and the
    tokens and names never is. No access leaves the buffer. *)
Theorem written_tree_is_read at_ bytes tr :
  0 < at_ -> at_ + len bytes < 2 ^ 32 -> len bytes < 2 ^ 31 - 16 -> Forall writable (flat tr) ->
  exists status t', write_tree (Fdt at_ bytes) (len bytes) tr = Some (status, t') /\
    (status = 0 /\ reads t' tr /\ (exists size, fdt_totalsize t' = Some size /\ size <= len bytes) \/
     status = - FDT_ERR_NOSPACE /\ (length bytes < 68 + costs (flat tr))%nat).
Proof.
  intros Hat Hend Hlen Hw. unfold write_tree. destruct (decide (40 <= length bytes)%nat) as [H40|H40]; cycle 1.
  { unfold fdt_create. rewrite u32_small, (proj2 (Z.ltb_lt _ _)) by (unfold sizeof_fdt_header; lia). eexists _, _. split; [done|]. right. split; [done|lia]. }
  rewrite create_spec by lia. cbn [or_status]. rewrite reservemap_spec by lia. case_decide as H64; cycle 1.
  { eexists _, _. split; [done|]. right. split; [done|lia]. }
  cbn [or_status]. set (rsv := replicate 16 0 : list Z).
  destruct (write_tokens_spec at_ (len bytes) rsv Hat Hend Hlen (flat tr) [] (length bytes - 64) [] Hw ltac:(done)) as (r & Hr & Hcase).
  { unfold sized. subst rsv. cbn [flat_map length replicate]. lia. }
  cbn [flat_map app] in Hr, Hcase. rewrite Hr. destruct Hcase as [(He & Hg)|(ts & g & strs & -> & Hs & Hsame & Hlate & Hg)].
  { destruct r as [e t]. cbn [fst] in He. subst e. eexists _, _. split; [done|]. right. split; [done|lia]. }
  cbn [or_status]. destruct (finish_spec at_ (len bytes) rsv Hat Hend Hlen ts g strs Hlate Hs) as (r & -> & [(He & Hg')|(rest & -> & Hfits & Htotal)]).
  { destruct r as [e t]. cbn [fst] in He. subst e. eexists _, _. split; [done|]. right. split; [done|lia]. }
  eexists _, _. split; [done|]. left. split; [done|]. split; [by apply finished_reads|].
  eexists. split; [exact (bound_field _ _ _ _ _ FDT_MAGIC _ 1 _ Hfits fdt_magic_u32 eq_refl)|]. lia.
Qed.

#[local] Open Scope string_scope.
#[local] Open Scope list_scope.
#[local] Open Scope Z_scope.

(** A buffer with room for the tree of [FdtTree]. *)
Lemma written_tree_is_read_witness : exists t' o p,
  write_tree (Fdt 0x48100000 (replicate 400 165)) 400 sample_tree = Some (0, t') /\
  fdt_path_offset t' (47 :: chars "cpu") = Some o /\ fdt_getprop t' o (chars "reg") = Some (p, 4) /\
  load_bytes t' p 4 = Some [0; 0; 0; 0].
Proof.
  assert (Forall writable (flat sample_tree)) as Hw by (apply (bool_decide_unpack _); by vm_compute).
  destruct (written_tree_is_read 0x48100000 (replicate 400 165) sample_tree eq_refl eq_refl eq_refl Hw)
    as (status & t' & Ht & [(-> & Hr & _)|(_ & Hlt)]); [|exfalso; apply Nat.ltb_lt in Hlt; vm_compute in Hlt; discriminate Hlt].
  destruct (Hr (chars "cpu") (chars "reg")) as (o & _ & Ho & p & _ & Hp & Hb); [split; [by repeat constructor|done]|].
  exists t', o, p. exact (conj Ht (conj Ho (conj Hp Hb))).
Defined.

(** A name longer than what precedes the strings is stored in front of the
    buffer: the end of the structure is compared with an offset that has
    wrapped around. *)
Example long_name_leaves_buffer :
  (let? (_, t) := fdt_create (Fdt 0x48100000 (replicate 80 0)) 80 in
   let? (_, t) := fdt_finish_reservemap t in
   let? (_, t) := fdt_begin_node t [] in
   fdt_property t (replicate 100 97) []) = None.
Proof. by vm_compute. Qed.
