(* ===== verification/Boot0.v ===== *)
(** * The boot flow (src/src/boot0_main.c, the header data of
    src/src/boot0_head.c)

    [main] as a hardware program over every component before it.  Functions of
    the closed libraries, cache and jump instructions and the handoff stub are
    external calls; the package buffer and the bytes of HW_CONFIG are program
    state. *)

From Stdlib Require Import String.
From S2P Require Import Prelude Fip Machine Console Clock ClockDiag Gpio Pmic HwConfig.

Local Open Scope string_scope.
Local Open Scope list_scope.
Local Open Scope Z_scope.

(** ** Configuration *)

Definition CONFIG_HEAP_BASE : Z := 0x40800000.
Definition CONFIG_HEAP_SIZE : Z := 16 * 1024 * 1024.
Definition CONFIG_BOOTPKG_BASE : Z := 0x42e00000.
Definition CONFIG_FIP_STAGING_SIZE : Z := 0x00200000.
Definition CONFIG_FIP_HANDOFF_BASE : Z := CONFIG_BOOTPKG_BASE - 0x1000.
Definition CONFIG_FIP_HANDOFF_SIZE : Z := 0x1000.
Definition CONFIG_MONITOR_BASE : Z := 0x48000000.
Definition CONFIG_MONITOR_ENTRY : Z := CONFIG_MONITOR_BASE + 0x1000.
Definition CONFIG_UBOOT_BASE : Z := 0x4a000000.
Definition FEL_BASE : Z := 0x20.
Definition MAX_DRAMPARA_SIZE : Z := 96.

(** The header's data a run of boot0 uses. *)
Record boot0_head := Boot0Head {
  hash : string;
  debug_mode : Z;
  uart_port : Z;
  uart_ctrl : list gpio_cfg;
  enable_jtag : Z;
  jtag_gpio : list gpio_cfg;
  head_dram_size : Z
}.

(** The header as built; [CI_INFO] is generated. *)
Definition BT0_head (ci_info : string) : boot0_head :=
  Boot0Head ci_info 1 0
    [GpioCfg 2 9 2 1 0xff 0xff; GpioCfg 2 10 2 1 0xff 0xff]
    0
    (repeat (GpioCfg 0 0 0 0 0 0) 5)
    0.

(** [JUMP_INSTRUCTION] of a header of [size] bytes: a branch over it. *)
Definition JUMP_INSTRUCTION (size : Z) : Z :=
  Z.lor (u32 ((size + 4 - 1) / 4 - 2)) 0xEA000000.

(** The [A7S_...] switches and the linker's symbols. *)
Record build := Build {
  A7S_EMMC_PREINIT : bool;
  A7S_CLOCK_DUMP : bool;
  fip_handoff_start : Z;
  fip_handoff_end : Z
}.

(** ** External calls *)

Inductive boot_call :=
| c_print (fmt : string) (args : list parg)
| c_bus (o : bus_op)
| c_set_printf_debug_mode (mode uart : Z)
| c_board_init_early
| c_serial_init (port : Z) (ctrl : list gpio_cfg) (count : Z)
| c_rtc_probe_fel_flag
| c_rtc_clear_fel_flag
| c_get_uart_input
| c_bootparam_load
| c_dram_buf
| c_init_DRAM
| c_mmu_enable (dram_size : Z)
| c_malloc_init (base size : Z)
| c_board_late_init
| c_mmc_init_ext
| c_mmc_init (sdc_no width : Z) (gpio : list gpio_cfg) (offset : Z)
| c_toc1_start
| c_toc1_bak_start
| c_mmc_bread_ext (start count : Z)
| c_memcpy (destination source size : Z)
| c_store (address value : Z)
| c_clean_line (address : Z)
| c_dsb
| c_invalidate_icache
| c_handoff (scp_source scp_size dtb_base : Z)
| c_board_exit
| c_mmu_disable
| c_jmp (address : Z).

#[export] Instance boot_printf : HasPrintf boot_call := c_print.
#[export, refine] Instance boot_bus : HasPmicBus boot_call :=
  {| bus := c_bus; as_bus c := match c with c_bus o => Some o | _ => None end |}.
Proof. all: done. Defined.

(** ** State *)

(** [struct fip_boot_images]; a null [scp_source] is [None], an address
    otherwise. *)
Record fip_boot_images := Images {
  scp_source : option Z;
  scp_size : Z;
  dtb_base : Z;
  dtb_size : Z
}.
Definition no_images : fip_boot_images := Images None 0 0 0.

Record boot_state := BootState {
  axp8191_ready : Z;      (* a7s_axp8191_ready *)
  package : list Z;       (* the staging memory at CONFIG_BOOTPKG_BASE *)
  hw_config_mem : list Z  (* the bytes copied to SUNXI_FIP_HW_CONFIG_BASE *)
}.

#[export, refine] Instance boot_ready : HasReady boot_state :=
  {| get_ready := axp8191_ready;
     set_ready v s := BootState v (package s) (hw_config_mem s) |}.
Proof. done. Defined.

(** What the loader's callbacks see: their context, the memory they write, and
    the run so far. *)
Record cb_ctx := CbCtx {
  cb_images : fip_boot_images;
  cb_hw_config : list Z;
  cb_history : history boot_call
}.

(** The bytes a read of [count] sectors stores. *)
Definition sector_bytes (e : env boot_call) (h : history boot_call) (start count : Z) : list Z :=
  take (Z.to_nat (count * FIP_SECTOR_SIZE)) (map u8 (env_out e h (c_mmc_bread_ext start count))).

(** [mmc_bread_ext] returns 0 on success, the loader wants 1. *)
Definition fip_mmc_read (e : env boot_call) : read_fn cb_ctx := fun start_sector sector_count c =>
  let h := cb_history c in
  let r := env_ret e h (c_mmc_bread_ext start_sector sector_count) in
  (if r =? 0 then 1 else 0,
   sector_bytes e h start_sector sector_count,
   CbCtx (cb_images c) (cb_hw_config c)
     (Call (c_mmc_bread_ext start_sector sector_count) r :: h)).

Definition fip_copy_image : copy_fn cb_ctx := fun destination source size c =>
  let images := cb_images c in
  let address := CONFIG_BOOTPKG_BASE + at_off source in
  if destination =? SUNXI_FIP_SCP_BL2_BASE then
    (0, CbCtx (Images (Some address) (u32 size) (dtb_base images) (dtb_size images))
          (cb_hw_config c) (cb_history c))
  else
    let h := Call (c_memcpy destination address size) 0 :: cb_history c in
    if destination =? SUNXI_FIP_HW_CONFIG_BASE then
      (0, CbCtx (Images (scp_source images) (scp_size images) destination (u32 size))
            (take (Z.to_nat size) (drop (Z.to_nat (at_off source)) (base source))) h)
    else (0, CbCtx images (cb_hw_config c) h).

Section Boot0.
Context `{HFdt : FdtOps (list Z)}.
Context (cfg : build) (head : boot0_head).
Local Abbreviation M := (M boot_call boot_state).

(** A call whose result is ignored. *)
Definition run (c : boot_call) : M unit := let! _ := call c in ret tt.

Definition print_commit_log : M unit :=
  printf "HELLO! BOOT0 is starting!\n" [];;
  printf "BOOT0 commit : %s\n" [S_ (hash head)];;
  run (c_set_printf_debug_mode (debug_mode head) 0).

(** ** Loading the package *)

(** [sunxi_fip_load_redundant] on the staging memory: status, package size,
    sector used, and the images the callbacks recorded. *)
Definition fip_load (primary_sector backup_sector : Z) (images : fip_boot_images)
  : M (Z * Z * Z * fip_boot_images) := fun e s h =>
  match sunxi_fip_load_redundant primary_sector backup_sector all_pointers
          CONFIG_FIP_STAGING_SIZE (Some (fip_mmc_read e)) (Some fip_copy_image)
          (Staging (package s) (CbCtx images (hw_config_mem s) h)) with
  | None => Stop Undefined s h
  | Some (st, fip_size, used, s') =>
      let c := context s' in
      Done (st, fip_size, used, cb_images c)
        (BootState (axp8191_ready s) (buffer s') (cb_hw_config c)) (cb_history c)
  end.

(** [sunxi_bootparam_get_dram_buf()->dram_para]: 96 words. *)
Definition dram_para : M (list Z) :=
  let! r := call_out c_dram_buf in
  ret (map (fun k => u32 (nth k (snd r) 0)) (seq 0 96)).

(** The whole of the tree's memory is the copied image. *)
Definition update_hw_config (images : fip_boot_images) : M Z :=
  let! paras := dram_para in
  let! s := get in
  let '(r, fdt) := a733_hw_config_update_dram (Some (hw_config_mem s)) (dtb_size images)
                     (Some paras) MAX_DRAMPARA_SIZE in
  put (BootState (axp8191_ready s) (package s) (default (hw_config_mem s) fdt));;
  ret r.

(** Status, [*uboot_base], [*monitor_base] and the images. *)
Definition load_fip_images : M (Z * Z * Z * fip_boot_images) :=
  let images := no_images in
  let! r := call c_mmc_init_ext in
  if nonzero r then printf "FIP: MMC init failed\n" [];; ret (-1, 0, 0, images)
  else
  let! p := call c_toc1_start in
  let! b := call c_toc1_bak_start in
  let primary_sector := u32 p in
  let backup_sector := u32 b in
  printf "FIP: primary=%u, backup=%u\n" [N_ primary_sector; N_ backup_sector];;
  let! loaded := fip_load primary_sector backup_sector images in
  let '(st, fip_size, used_sector, images) := loaded in
  if nonzero st then printf "FIP: no valid package found\n" [];; ret (-1, 0, 0, images)
  else if negb (bool_decide (is_Some (scp_source images))) || (scp_size images =? 0)
  then printf "FIP: SCP_BL2 was not loaded\n" [];; ret (-1, 0, 0, images)
  else
  let! images :=
    (if nonzero (dtb_base images) then
       let! r := update_hw_config images in
       if nonzero r then
         printf "FIP: invalid AR100S HW_CONFIG; disabling DTB services\n" [];;
         ret (Images (scp_source images) (scp_size images) 0 0)
       else
         printf "FIP: patched 96 trained DRAM parameters into HW_CONFIG\n" [];;
         ret images
     else ret images) in
  printf "FIP: loaded sector=%u, size=%u\n" [N_ used_sector; N_ (u32 fip_size)];;
  ret (0, CONFIG_UBOOT_BASE, CONFIG_MONITOR_BASE, images).

(** ** Handing over *)

Definition invalidate_instruction_cache : M unit := run c_invalidate_icache.

(** The [for] loop over the lines. *)
Fixpoint clean_loop (fuel : nat) (addr stop : Z) : M unit :=
  match fuel with
  | O => stop_now OutOfFuel
  | Datatypes.S fuel =>
      if addr <? stop then run (c_clean_line addr);; clean_loop fuel (u32 (addr + 32)) stop
      else ret tt
  end.

Definition clean_dcache_range (start size : Z) : M unit :=
  let stop := u32 (start + size) in
  let start := Z.land start (cnot32 (32 - 1)) in
  clean_loop (Z.to_nat (size / 32 + 3)) start stop;;
  run c_dsb.

Definition run_fip_handoff (images : fip_boot_images) : M Z :=
  let handoff_src := Z.land (fip_handoff_start cfg) (cnot32 1) in
  let handoff_end_addr := Z.land (fip_handoff_end cfg) (cnot32 1) in
  let handoff_size := u32 (handoff_end_addr - handoff_src) in
  printf "FIP: prepare handoff size=%u src=0x%lx\n" [N_ handoff_size; N_ handoff_src];;
  match scp_source images with
  | Some source =>
      if (scp_size images =? 0) || (handoff_size =? 0) || (CONFIG_FIP_HANDOFF_SIZE <? handoff_size)
      then printf "FIP: invalid handoff layout\n" [];; ret (-1)
      else
        run (c_memcpy CONFIG_FIP_HANDOFF_BASE handoff_src handoff_size);;
        clean_dcache_range CONFIG_FIP_HANDOFF_BASE handoff_size;;
        clean_dcache_range CONFIG_MONITOR_BASE SUNXI_FIP_BL31_MAX_SIZE;;
        clean_dcache_range CONFIG_UBOOT_BASE SUNXI_FIP_BL33_MAX_SIZE;;
        clean_dcache_range source (scp_size images);;
        (if nonzero (dtb_base images)
         then clean_dcache_range (dtb_base images) (dtb_size images) else ret tt);;
        invalidate_instruction_cache;;
        printf "FIP: handoff scp=%u dtb=0x%x entry=0x%x dest=0x%x\n"
          [N_ (scp_size images); N_ (dtb_base images); N_ CONFIG_MONITOR_ENTRY;
           N_ CONFIG_FIP_HANDOFF_BASE];;
        run (c_handoff source (scp_size images) (dtb_base images));;
        ret (-1)
  | None => printf "FIP: invalid handoff layout\n" [];; ret (-1)
  end.

Definition boot0_clear_env : M Z :=
  run c_board_exit;;
  a7s_clock_reset;;
  run c_mmu_disable;;
  mdelay 10;;
  ret 0.

(** The table's order is the vendor's. *)
Definition emmc_gpio : list gpio_cfg :=
  [GpioCfg 3 5 3 1 1 0xff; GpioCfg 3 6 3 1 1 0xff; GpioCfg 3 10 3 1 1 0xff;
   GpioCfg 3 13 3 1 1 0xff; GpioCfg 3 15 3 1 1 0xff; GpioCfg 3 8 3 1 1 0xff;
   GpioCfg 3 9 3 1 1 0xff; GpioCfg 3 11 3 1 1 0xff; GpioCfg 3 14 3 1 1 0xff;
   GpioCfg 3 16 3 1 1 0xff; GpioCfg 3 1 3 1 1 0xff; GpioCfg 3 0 3 2 1 0xff].

Definition a7s_emmc_preinit : M unit :=
  printf "A7S eMMC preinit: SDC2 8-bit mux3 CLK=PC5 CMD=PC6 offset=0 start\n" [];;
  let! r := call (c_mmc_init 2 8 emmc_gpio 0) in
  printf "A7S eMMC preinit: %s (%d)\n" [S_ (if r <? 0 then "failed" else "ok"); N_ r].

(** [get_uart_input()] returns a [char]. *)
Definition get_uart_input : M Z := let! r := call c_get_uart_input in ret (u8 r).

(** Fields of [struct spare_monitor_head]. *)
Definition fill_monitor_head (monitor_base uboot_base dram_size : Z) : M unit :=
  run (c_store (monitor_base + 0x18) 0);;
  run (c_store (monitor_base + 0x10) uboot_base);;
  run (c_store (monitor_base + 0x30) dram_size).

(** From a working DRAM to the jump; a return is a [goto _BOOT_ERROR]. *)
Definition second_stage (dram_size : Z) : M unit :=
  let! c := get_uart_input in
  if c =? 50 (* '2' *) then
    run (c_set_printf_debug_mode 3 0);;
    printf "detected_r user input 2\n" []
  else
  (if c =? 100 (* 'd' *) then
     run (c_set_printf_debug_mode 8 1);; printf "detected user input d\n" []
   else if c =? 113 (* 'q' *) then
     printf "detected user input q\n" [];; run (c_set_printf_debug_mode 0 1)
   else ret tt);;
  run (c_mmu_enable dram_size);;
  run (c_malloc_init CONFIG_HEAP_BASE CONFIG_HEAP_SIZE);;
  let! status := call c_board_late_init in
  if nonzero status then ret tt
  else
  let! loaded := load_fip_images in
  let '(status, uboot_base, monitor_base, fip_images) := loaded in
  if nonzero status then ret tt
  else
  (if A7S_EMMC_PREINIT cfg then a7s_emmc_preinit else ret tt);;
  (if nonzero monitor_base then fill_monitor_head monitor_base uboot_base dram_size
   else ret tt);;
  printf "Jump to second Boot.\n" [];;
  let! _ := run_fip_handoff fip_images in
  ret tt.

(** From the first instruction to a working DRAM. *)
Definition first_stage : M unit :=
  a7s_early_uart_init;;
  a7s_early_uart_puts
    ([13; 10] ++ map (fun c => Z.of_nat (Ascii.nat_of_ascii c))
                   (list_ascii_of_string "A7S BOOT0: early uart0 alive") ++ [13; 10]);;
  run c_board_init_early;;
  run (c_serial_init (uart_port head) (uart_ctrl head) 2);;
  a7s_early_uart_init;;
  print_commit_log;;
  let! status := sunxi_board_init in
  if nonzero status then ret tt
  else
  let! status := a7s_clock_init in
  if nonzero status then
    printf "A7S clock init failed: %d (24 MHz fallback requested)\n" [N_ status]
  else
  let! fel := call c_rtc_probe_fel_flag in
  if nonzero fel then run c_rtc_clear_fel_flag
  else
  (if nonzero (enable_jtag head) then
     printf "enable_jtag\n" [];;
     let! _ := boot_set_gpio (Some (jtag_gpio head)) 5 1 in ret tt
   else ret tt);;
  let! c := get_uart_input in
  if c =? 50 then printf "detected_f user input 2\n" []
  else
  run c_bootparam_load;;
  let! dram_size := call c_init_DRAM in
  if dram_size =? 0 then printf "init dram fail\n" []
  else
    let dram_size := if 0 <? head_dram_size head then head_dram_size head else dram_size in
    printf "dram size =%d\n" [N_ dram_size];;
    (if A7S_CLOCK_DUMP cfg then a7s_clock_dump else ret tt);;
    second_stage dram_size.

Definition main : M unit :=
  first_stage;;
  let! _ := boot0_clear_env in
  run (c_jmp FEL_BASE);;
  stop_now Halted.
End Boot0.
