(* ===== verification/Boot0Props.v ===== *)
(** * Properties of the boot flow

    [main] always ends in a jump, and the handoff is only reached after every
    stage before it succeeded, with the images of a valid package in place. *)

From Stdlib Require Import String.
From S2P Require Import Prelude Voltage Fip FipSpec FipLoad Machine Console Clock ClockDiag.
From S2P Require Import Gpio Pmic HwConfig Boot0.

Local Open Scope list_scope.
Local Open Scope Z_scope.

(** ** Programs that return and never hand over *)

Definition is_handoff (ev : event boot_call) : bool :=
  match ev with Call (c_handoff _ _ _) _ => true | _ => false end.

(** [h'] continues [h] without a handoff. *)
Definition grows (h h' : history boot_call) : Prop :=
  exists new, h' = new ++ h /\ Forall (fun ev => is_handoff ev = false) new.

(** The staging memory is a buffer of the configured size. *)
Definition pkg_ok (s : boot_state) : Prop :=
  bytes_ok (package s) /\ Z.of_nat (length (package s)) = CONFIG_FIP_STAGING_SIZE.

Definition quiet {A} (m : M boot_call boot_state A) : Prop :=
  forall e s h, pkg_ok s -> wp m e s h (fun _ s' h' => pkg_ok s' /\ grows h h') total.

Lemma grows_refl h : grows h h.
Proof. by exists []. Qed.

Lemma grows_trans h1 h2 h3 : grows h1 h2 -> grows h2 h3 -> grows h1 h3.
Proof.
  intros (n1 & -> & H1) (n2 & -> & H2). exists (n2 ++ n1). rewrite app_assoc.
  split; [done|]. by apply Forall_app.
Qed.

Lemma grows_cons ev h h' : is_handoff ev = false -> grows h h' -> grows h (ev :: h').
Proof.
  intros Hev (new & -> & Hn). exists (ev :: new). split; [done|]. by constructor.
Qed.

Lemma grows_elem ev h h' : grows h h' -> ev ∈ h -> ev ∈ h'.
Proof. intros (new & -> & _) Hin. apply elem_of_app. by right. Qed.

Lemma quiet_ret {A} (a : A) : quiet (ret a).
Proof. intros e s h Hs. split; [done | apply grows_refl]. Qed.

Lemma quiet_bind {A B} (m : M boot_call boot_state A) (f : A -> M boot_call boot_state B) :
  quiet m -> (forall a, quiet (f a)) -> quiet (bind m f).
Proof.
  intros Hm Hf e s h Hs. eapply wp_seq; [by apply Hm|]. intros a s1 h1 [Hs1 H1].
  eapply wp_mono; [by apply Hf|]. intros b s2 h2 [Hs2 H2]. split; [done|].
  by eapply grows_trans.
Qed.

Ltac quiet_event := intros e s h Hs; split; [done|]; apply grows_cons; [done | apply grows_refl].

Lemma quiet_readl a : quiet (readl a). Proof. quiet_event. Qed.
Lemma quiet_writel v a : quiet (writel v a). Proof. quiet_event. Qed.
Lemma quiet_udelay us : quiet (udelay us). Proof. quiet_event. Qed.
Lemma quiet_mdelay ms : quiet (mdelay ms). Proof. quiet_event. Qed.
Lemma quiet_call c : (forall a b d, c <> c_handoff a b d) -> quiet (call c).
Proof.
  intros Hc e s h Hs. split; [done|]. apply grows_cons; [|apply grows_refl].
  destruct c; try done. by edestruct Hc.
Qed.
Lemma quiet_call_out c : (forall a b d, c <> c_handoff a b d) -> quiet (call_out c).
Proof.
  intros Hc e s h Hs. split; [done|]. apply grows_cons; [|apply grows_refl].
  destruct c; try done. by edestruct Hc.
Qed.
Lemma quiet_run c : (forall a b d, c <> c_handoff a b d) -> quiet (run c).
Proof. intros Hc. apply quiet_bind; [by apply quiet_call | intros; apply quiet_ret]. Qed.
Lemma quiet_printf fmt args : quiet (printf fmt args).
Proof. apply quiet_bind; [by apply quiet_call | intros; apply quiet_ret]. Qed.
Lemma quiet_get : quiet get.
Proof. intros e s h Hs. split; [done | apply grows_refl]. Qed.
Lemma quiet_set_ready v : quiet (let! s := get in put (set_ready v s)).
Proof. intros e s h Hs. split; [exact Hs | apply grows_refl]. Qed.

(** Marking the PMIC ready keeps the staging memory. *)
Lemma quiet_ready {A} v (k : M boot_call boot_state A) :
  quiet k -> quiet (let! s := get in put (set_ready v s);; k).
Proof. intros Hk e s h Hs. apply wp_bind, wp_get, wp_bind, wp_put. by apply Hk. Qed.

Lemma quiet_get_bind {A} (f : boot_state -> M boot_call boot_state A) :
  (forall s, quiet (f s)) -> quiet (bind get f).
Proof. intros Hf e s h Hs. apply wp_bind, wp_get. by apply Hf. Qed.

(** Any program of the drivers' shape; recursive parts are left. *)
Ltac quiet_step :=
  lazymatch goal with
  | |- quiet (bind get (fun s => bind (put (set_ready _ s)) _)) => apply quiet_ready
  | |- quiet (bind get _) => apply quiet_get_bind; intros ?
  | |- quiet (bind _ _) => apply quiet_bind; [|intros ?]
  | |- quiet (ret _) => apply quiet_ret
  | |- quiet (readl _) => apply quiet_readl
  | |- quiet (writel _ _) => apply quiet_writel
  | |- quiet (udelay _) => apply quiet_udelay
  | |- quiet (mdelay _) => apply quiet_mdelay
  | |- quiet (call _) => apply quiet_call; done
  | |- quiet (call_out _) => apply quiet_call_out; done
  | |- quiet (run _) => apply quiet_run; done
  | |- quiet (printf _ _) => apply quiet_printf
  | |- quiet (if ?b then _ else _) => destruct b
  | |- quiet (match ?x with _ => _ end) => destruct x
  end.
Ltac quiet := cbv zeta; repeat quiet_step; cbv beta.

(** *** The components *)

Lemma quiet_wait_stable n st r : quiet (wait_stable_loop n st r).
Proof. revert st. induction n as [|n IH]; intros st; cbn [wait_stable_loop]; quiet; apply IH. Qed.

Lemma quiet_is_running pll check : quiet (a7s_pll_is_running pll check).
Proof. unfold a7s_pll_is_running, a7s_pll_wait_stable. quiet; apply quiet_wait_stable. Qed.

Lemma quiet_pll_program pll : quiet (a7s_pll_program pll).
Proof.
  unfold a7s_pll_program, pll_isolate, pll_startup, pll_configure, a7s_pll_wait_stable.
  quiet; first [apply quiet_is_running | apply quiet_wait_stable].
Qed.

Lemma quiet_dcxo n : quiet (dcxo_loop n).
Proof. induction n as [|n IH]; cbn [dcxo_loop]; quiet; apply IH. Qed.

Lemma quiet_sys24 : quiet a7s_bus_use_sys24.
Proof. unfold a7s_bus_use_sys24, a7s_bus_switch_to_sys24, bus_check. quiet. Qed.

Lemma quiet_clock_init : quiet a7s_clock_init.
Proof.
  unfold a7s_clock_init, a7s_ref_pll_init, a7s_peri_pll_init, a7s_read_dcxo_rate,
    a7s_peri_distribution_enable, a7s_bus_use_nominal_rates, a7s_bus_switch_up, bus_check.
  quiet;
    lazymatch goal with
    | |- quiet a7s_bus_use_sys24 => apply quiet_sys24
    | |- quiet (a7s_pll_program _) => apply quiet_pll_program
    | |- quiet (a7s_pll_is_running _ _) => apply quiet_is_running
    | |- quiet (dcxo_loop _) => apply quiet_dcxo
    end.
Qed.

Lemma quiet_clock_dump : quiet a7s_clock_dump.
Proof.
  unfold a7s_clock_dump, a7s_clock_read_rates, a7s_dcxo_rate, a7s_print_audio_plls,
    a7s_print_main_dual, a7s_print_main_single, a7s_print_single_pll, a7s_print_cpu_pll.
  quiet.
Qed.

Lemma quiet_early_uart : quiet a7s_early_uart_init.
Proof.
  unfold a7s_early_uart_init, a7s_gpio_set_cfg, a7s_gpio_set_pull, a7s_gpio_set_drv,
    a7s_uart0_clock_init, update_field. quiet.
Qed.

Lemma quiet_thre n : quiet (thre_loop n).
Proof. induction n as [|n IH]; cbn [thre_loop]; quiet; apply IH. Qed.

Lemma quiet_puts str : quiet (a7s_early_uart_puts str).
Proof.
  unfold a7s_early_uart_puts. generalize 0. induction str as [|c str IH]; intros prev;
    cbn [puts_loop]; unfold a7s_early_uart_putc; quiet; first [apply quiet_thre | apply IH].
Qed.

Lemma quiet_update_bits r mask v : quiet (a7s_axp8191_update_bits r mask v).
Proof. unfold a7s_axp8191_update_bits, pmic_bus_read, pmic_bus_write. quiet. Qed.

Lemma quiet_axp_init : quiet a7s_axp8191_init.
Proof.
  unfold a7s_axp8191_init, ext_config, restore_normal_page, restore_write, pmic_bus_read,
    pmic_bus_write, pmic_bus_init.
  quiet. apply quiet_update_bits.
Qed.

Lemma quiet_set_rail name v on : quiet (a7s_axp8191_set_rail name v on).
Proof.
  unfold a7s_axp8191_set_rail, set_rail_voltage. quiet;
    lazymatch goal with
    | |- quiet a7s_axp8191_init => apply quiet_axp_init
    | |- quiet (a7s_axp8191_update_bits _ _ _) => apply quiet_update_bits
    end.
Qed.

Lemma quiet_board_init : quiet sunxi_board_init.
Proof.
  unfold sunxi_board_init, a7s_axp8191_configure_emmc_io, emmc_readback,
    a7s_pio_emmc_withstand_auto, a7s_axp8191_set_npu_rail, a7s_axp8191_enable_sd_power,
    pmic_bus_read, pmic_bus_write.
  quiet;
    lazymatch goal with
    | |- quiet a7s_axp8191_init => apply quiet_axp_init
    | |- quiet (a7s_axp8191_set_rail _ _ _) => apply quiet_set_rail
    | |- quiet (a7s_axp8191_update_bits _ _ _) => apply quiet_update_bits
    end.
Qed.

(** A pin list a C program may pass: an output's pin fits the shift. *)
Definition gpio_ok (g : gpio_cfg) : Prop := mul_sel g = 1 -> port_num g < 32.

Lemma quiet_gpio set l : Forall gpio_ok l -> quiet (gpio_loop set l).
Proof.
  induction 1 as [|g l Hg Hl IH]; cbn [gpio_loop]; [quiet|]. apply quiet_bind; [|intros ?; apply IH].
  unfold gpio_entry, update_field. cbv zeta. destruct (port g =? 0); [quiet|].
  destruct (a7s_gpio_registers _ _) as [[[c p] d] dt]. unfold gpio_ok in Hg.
  destruct (Z.eqb_spec (mul_sel g) 1) as [E|]; cbn [andb]; [|quiet].
  destruct (Z.leb_spec 32 (port_num g)); [specialize (Hg E); lia | quiet].
Qed.

Lemma quiet_set_gpio l n set :
  Forall gpio_ok l -> n <= Z.of_nat (length l) -> quiet (boot_set_gpio (Some l) n set).
Proof.
  intros Hl Hn. unfold boot_set_gpio, a7s_boot_set_gpio_v3. destruct (n =? 0); [quiet|].
  destruct (Z.ltb_spec (Z.of_nat (length l)) n); [lia|]. quiet. apply quiet_gpio.
  by apply Forall_take.
Qed.

(** ** Points of a run *)

(** [ev] happened between the points [h] and [h'] of a run, and no handoff. *)
Definition after (h : history boot_call) (ev : event boot_call) (h' : history boot_call) : Prop :=
  exists mid, grows h mid /\ grows (ev :: mid) h'.

Lemma after_here h ev : after h ev (ev :: h).
Proof. exists h. split; apply grows_refl. Qed.
Lemma after_l h h1 ev h' : grows h h1 -> after h1 ev h' -> after h ev h'.
Proof. intros G (mid & G1 & G2). exists mid. split; [exact (grows_trans _ _ _ G G1) | done]. Qed.
Lemma after_r h h1 ev h' : after h ev h1 -> grows h1 h' -> after h ev h'.
Proof. intros (mid & G1 & G2) G. exists mid. split; [done | exact (grows_trans _ _ _ G2 G)]. Qed.
Lemma grows_one ev h : is_handoff ev = false -> grows h (ev :: h).
Proof. intros Hev. apply grows_cons; [done | apply grows_refl]. Qed.
Lemma after_grows h ev h' : is_handoff ev = false -> after h ev h' -> grows h h'.
Proof. intros Hev (mid & G1 & G2). exact (grows_trans _ _ _ G1 (grows_trans _ _ _ (grows_one _ _ Hev) G2)). Qed.

(** ** Cleaning the data cache *)

(** Every line between [addr] and [stop] is cleaned between two points. *)
Definition lines_cleaned (addr stop : Z) (h h' : history boot_call) : Prop :=
  forall line, line mod 32 = 0 -> addr <= line < stop -> exists r, after h (Call (c_clean_line line) r) h'.

Lemma clean_loop_spec fuel addr stop e (s : boot_state) h :
  0 <= addr -> addr mod 32 = 0 -> stop < 2 ^ 32 - 32 ->
  stop - addr <= 32 * (Z.of_nat fuel - 1) -> (1 <= fuel)%nat ->
  wp (clean_loop fuel addr stop) e s h
    (fun _ s' h' => s' = s /\ grows h h' /\ lines_cleaned addr stop h h') total.
Proof.
  revert addr h. induction fuel as [|fuel IH]; intros addr h H0 Hal Hstop Hf H1; [lia|].
  cbn [clean_loop]. destruct (Z.ltb_spec addr stop) as [Hlt|Hge].
  - unfold run. apply wp_bind, wp_bind, wp_call. intros r _. apply wp_ret.
    rewrite u32_small by lia. eapply wp_mono.
    { apply IH; [lia | | lia | lia | lia]. rewrite <- Z.add_mod_idemp_r by lia.
      change (32 mod 32) with 0. by rewrite Z.add_0_r. }
    intros [] s' h' (-> & Hg & Hl). split; [done|].
    set (ev := Call (c_clean_line addr) r) in *. assert (grows h (ev :: h)) as G1 by by apply grows_one.
    split; [exact (grows_trans _ _ _ G1 Hg)|]. intros line Hm Hr. destruct (Z.eq_dec line addr) as [->|].
    + exists r. exact (after_r _ _ _ _ (after_here h ev) Hg).
    + destruct (Hl line Hm) as [r' Hr'].
      { pose proof (Z.div_mod line 32 ltac:(lia)). pose proof (Z.div_mod addr 32 ltac:(lia)). lia. }
      exists r'. exact (after_l _ _ _ _ G1 Hr').
  - apply wp_ret. split; [done|]. split; [apply grows_refl|]. intros line _ Hr. lia.
Qed.

(** All the bytes of a range are on lines cleaned between two points, and a
    barrier has waited for them. *)
Definition range_cleaned (start size : Z) (h h' : history boot_call) : Prop :=
  exists hd, grows h hd /\ (exists r, after hd (Call c_dsb r) h') /\
    forall x, start <= x < start + size -> exists r, after h (Call (c_clean_line (x - x mod 32)) r) hd.

Lemma cleaned_l start size h h1 h' : grows h h1 -> range_cleaned start size h1 h' -> range_cleaned start size h h'.
Proof.
  intros G (hd & G1 & Hd & Hx). exists hd. split; [exact (grows_trans _ _ _ G G1)|]. split; [done|].
  intros x Hr. destruct (Hx x Hr) as [r ?]. exists r. by eapply after_l.
Qed.
Lemma cleaned_r start size h h1 h' : range_cleaned start size h h1 -> grows h1 h' -> range_cleaned start size h h'.
Proof.
  intros (hd & G1 & [r Hd] & Hx) G. exists hd. split; [done|]. split; [exists r; by eapply after_r|done].
Qed.

Lemma land_align start :
  0 <= start < 2 ^ 32 -> Z.land start (cnot32 (32 - 1)) = start - start mod 32.
Proof.
  intros Hs. replace (start - start mod 32) with (Z.shiftl (Z.shiftr start 5) 5).
  2:{ rewrite Z.shiftl_mul_pow2, Z.shiftr_div_pow2 by lia.
      pose proof (Z.div_mod start 32 ltac:(lia)). change (2 ^ 5) with 32. lia. }
  rewrite <- Z.ldiff_ones_r by lia. change (Z.ones 5) with (32 - 1).
  apply Z.bits_inj'. intros n Hn. rewrite Z.land_spec, Z.ldiff_spec, testbit_cnot32 by lia.
  destruct (Z.ltb_spec n 32); [done|]. cbn [andb]. rewrite andb_false_r.
  by rewrite (testbit_above 32) by lia.
Qed.

Lemma clean_range_spec start size e (s : boot_state) h :
  0 <= start -> 0 <= size -> start + size < 2 ^ 32 - 32 ->
  wp (clean_dcache_range start size) e s h
    (fun _ s' h' => s' = s /\ grows h h' /\ range_cleaned start size h h') total.
Proof.
  intros H0 Hs Hmax. unfold clean_dcache_range. cbv zeta. rewrite u32_small by lia.
  rewrite land_align by lia. pose proof (Z.mod_pos_bound start 32 ltac:(lia)).
  pose proof (Z.div_mod size 32 ltac:(lia)). pose proof (Z.mod_pos_bound size 32 ltac:(lia)).
  pose proof (Z.div_pos size 32 ltac:(lia) ltac:(lia)).
  pose proof (Z.div_mod start 32 ltac:(lia)).
  eapply wp_seq.
  { apply clean_loop_spec; [lia | | lia | | lia].
    - replace (start - start mod 32) with (start / 32 * 32) by lia. by apply Z.mod_mul.
    - rewrite Z2Nat.id by lia. lia. }
  intros [] s1 h1 (-> & Hg & Hl). unfold run. wp_steps. split; [done|]. split; [by apply grows_cons|].
  exists h1. split; [done|]. split; [eexists; apply after_here|].
  intros x Hx. pose proof (Z.div_mod x 32 ltac:(lia)). pose proof (Z.mod_pos_bound x 32 ltac:(lia)).
  apply Hl; [|lia]. replace (x - x mod 32) with (x / 32 * 32) by lia. by apply Z.mod_mul.
Qed.

(** ** The loaded images *)

(** The copy of an image from the staged package. *)
Definition copied (dest : Z) (img : sunxi_fip_image) : event boot_call :=
  Call (c_memcpy dest (CONFIG_BOOTPKG_BASE + offset img) (size img)) 0.
(** The bytes of an image of the package. *)
Definition content (pkg : list Z) (img : sunxi_fip_image) : list Z :=
  take (Z.to_nat (size img)) (drop (Z.to_nat (offset img)) pkg).
(** The 96 words the DRAM training left, at a point of the run. *)
Definition trained (e : env boot_call) (h : history boot_call) : list Z :=
  map (fun k => u32 (nth k (env_out e h c_dram_buf) 0)) (seq 0 96).

(** HW_CONFIG after the copying: absent, or copied to its window. *)
Definition config_copied h (s : boot_state) (images : fip_boot_images) (l : sunxi_fip_layout) h' : Prop :=
  size (hw_config l) = 0 /\ dtb_base images = 0 /\ dtb_size images = 0 \/
  size (hw_config l) <> 0 /\ after h (copied SUNXI_FIP_HW_CONFIG_BASE (hw_config l)) h' /\
  hw_config_mem s = content (package s) (hw_config l) /\
  dtb_base images = SUNXI_FIP_HW_CONFIG_BASE /\ dtb_size images = size (hw_config l).

(** HW_CONFIG after the load: absent, or copied to its window and patched with
    the trained parameters; only a tree the patching accepts is passed on. *)
Definition config_patched `{FdtOps (list Z)} e h (s : boot_state) (images : fip_boot_images)
  (l : sunxi_fip_layout) h' : Prop :=
  size (hw_config l) = 0 /\ dtb_base images = 0 /\ dtb_size images = 0 \/
  size (hw_config l) <> 0 /\ after h (copied SUNXI_FIP_HW_CONFIG_BASE (hw_config l)) h' /\
  exists hp r t, grows h hp /\
    a733_hw_config_update_dram (Some (content (package s) (hw_config l))) (size (hw_config l))
      (Some (trained e hp)) MAX_DRAMPARA_SIZE = (r, t) /\
    hw_config_mem s = default (content (package s) (hw_config l)) t /\
    (r = 0 /\ dtb_base images = SUNXI_FIP_HW_CONFIG_BASE /\ dtb_size images = size (hw_config l) \/
     r <> 0 /\ dtb_base images = 0 /\ dtb_size images = 0).

(** What a successful load leaves between two points of a run: a valid package
    staged, its BL31 and BL33 copied to their windows, the SCP image pointed to
    where it is staged, and [config] of HW_CONFIG. *)
Record loaded (config : sunxi_fip_layout -> Prop) (h : history boot_call) (s : boot_state)
  (images : fip_boot_images) (h' : history boot_call) : Prop := {
  ld_package : exists d n l, fip_valid (package s) d n l /\ d <= CONFIG_FIP_STAGING_SIZE /\
    scp_source images = Some (CONFIG_BOOTPKG_BASE + offset (scp_bl2 l)) /\
    scp_size images = size (scp_bl2 l) /\
    after h (copied SUNXI_FIP_BL31_BASE (bl31 l)) h' /\
    after h (copied SUNXI_FIP_BL33_BASE (bl33 l)) h' /\ config l
}.

Lemma mmc_read_grows e h0 start count c :
  grows h0 (cb_history c) -> grows h0 (cb_history (snd (fip_mmc_read e start count c))).
Proof. intros Hg. by apply grows_cons. Qed.

Lemma copy_image_grows h0 dest src n c :
  grows h0 (cb_history c) -> grows h0 (cb_history (snd (fip_copy_image dest src n c))).
Proof.
  intros Hg. unfold fip_copy_image. repeat case_match; cbn [snd cb_history]; try done; by apply grows_cons.
Qed.

Lemma mmc_read_contract e : read_contract (fip_mmc_read e).
Proof.
  intros start count c. cbn [fip_mmc_read]. split.
  - apply Forall_take, Forall_map, Forall_true. intros x. apply u8_range.
  - unfold sector_bytes. rewrite length_take. lia.
Qed.

(** The sizes and the place of a valid package's images. *)
Lemma valid_ranges pkg d n l : fip_valid pkg d n l ->
  0 <= size (hw_config l) <= SUNXI_FIP_HW_CONFIG_MAX_SIZE /\
  0 < size (scp_bl2 l) <= SUNXI_FIP_SCP_BL2_MAX_SIZE /\ 16 <= offset (scp_bl2 l) /\
  offset (scp_bl2 l) + size (scp_bl2 l) <= d.
Proof.
  intros Hf. destruct (fits_sizes _ (fv_fits _ _ _ _ Hf)) as (L1 & L2 & L3 & L4).
  pose proof (slot_range _ _ _ _ _ _ Hf (fv_scp _ _ _ _ Hf)) as (S1 & S2 & S3).
  destruct (fv_count _ _ _ _ Hf).
  assert (16 <= entry_pos (n + 1)) by (unfold entry_pos, FIP_HEADER_SIZE, FIP_ENTRY_SIZE; lia).
  split; [|lia]. split; [|done]. destruct (fv_hw _ _ _ _ Hf) as [[Hs _]|[_ ->]]; [|done].
  pose proof (slot_range _ _ _ _ _ _ Hf Hs). lia.
Qed.

(** The plan of a valid package, carried out by boot0's copy function. *)
Lemma run_copy_plan h d n l c c' s :
  fip_valid (package s) d n l -> cb_images c = no_images -> grows h (cb_history c) ->
  run_plan fip_copy_image (package s) (copy_plan l) c = (0, c') ->
  d <= CONFIG_FIP_STAGING_SIZE -> cb_hw_config c' = hw_config_mem s ->
  loaded (fun l => config_copied h s (cb_images c') l (cb_history c')) h s (cb_images c') (cb_history c').
Proof.
  intros Hf Hc Hg Hrun Hd Hmem. constructor. exists d, n, l. split; [done|]. split; [done|].
  destruct (valid_ranges _ _ _ _ Hf) as (S2 & S1 & _). unfold config_copied. rewrite <- Hmem. clear Hmem.
  unfold SUNXI_FIP_SCP_BL2_MAX_SIZE, SUNXI_FIP_HW_CONFIG_MAX_SIZE in *.
  unfold copy_plan in Hrun. destruct (Z.eqb_spec (size (hw_config l)) 0) as [E|E];
    cbn in Hrun; simplify_eq; cbn [cb_images cb_history cb_hw_config scp_source scp_size dtb_base dtb_size];
    rewrite ?u32_small by lia; rewrite ?Hc; cbn [no_images dtb_base dtb_size].
  - split; [done|]. split; [done|].
    split; [exists (cb_history c); split; [done|]; by apply grows_one|].
    split; [eexists; split; [|apply grows_refl]; by apply grows_cons|]. by left.
  - split; [done|]. split; [done|].
    split; [exists (cb_history c); split; [done|]; do 2 (apply grows_cons; [done|]); apply grows_refl|].
    split; [eexists; split; [|by apply grows_one]; by apply grows_cons|]. right. split; [done|].
    split; [eexists; split; [|apply grows_refl]; by do 2 (apply grows_cons; [done|])|]. done.
Qed.

(** [m] ran from one point of the run to another and returned [r]. *)
Definition ends {A} (e : env boot_call) (m : M boot_call boot_state A) (r : A) (h h' : history boot_call) : Prop :=
  exists s s', pkg_ok s /\ m e s h = Done r s' h'.

Lemma wp_ends {A B} (m : M boot_call boot_state A) (f : A -> M boot_call boot_state B) e s h Q K :
  quiet m -> pkg_ok s ->
  (forall r s' h', pkg_ok s' -> grows h h' -> ends e m r h h' -> wp (f r) e s' h' Q K) ->
  wp (bind m f) e s h Q K.
Proof.
  intros Hm Hs Hf. destruct (wp_total_run _ _ _ _ _ (Hm e s h Hs)) as (r & s' & h' & Er & Hs' & G).
  unfold wp, bind. rewrite Er. apply Hf; [done|done|by exists s, s'].
Qed.

Section Load.
Context `{HFdt : FdtOps (list Z)}.

Lemma fip_load_spec primary backup e s h :
  pkg_ok s ->
  wp (fip_load primary backup no_images) e s h
    (fun r s' h' => let '(st, _, _, images) := r in
       pkg_ok s' /\ grows h h' /\
       (st = 0 -> loaded (fun l => config_copied h s' images l h') h s' images h')) total.
Proof.
  intros Hs. unfold fip_load, wp.
  destruct (load_redundant_post (fip_mmc_read e) fip_copy_image
              (fun c => grows h (cb_history c) /\ cb_images c = no_images)
              (fun c => grows h (cb_history c))
              ltac:(intros start count c [Hg Hi]; split; [by apply mmc_read_grows | done])
              (copy_image_grows h) ltac:(by intros c [Hg _])
              primary backup all_pointers CONFIG_FIP_STAGING_SIZE
              (Staging (package s) (CbCtx no_images (hw_config_mem s) h)))
    as (st & d & used & s' & -> & Hs' & Hg & Hpost).
  - apply mmc_read_contract.
  - exact Hs.
  - split; [apply grows_refl | done].
  - split; [exact Hs'|]. split; [exact Hg|]. intros ->.
    destruct Hpost as [(_ & _ & n & l & c & [Hgc Hc] & Hf & Hd & Hrun)|[[=] _]].
    by eapply run_copy_plan.
Qed.

(** The patching: the status it returns, and what it leaves in the window. *)
Lemma update_hw_spec images e s h :
  wp (update_hw_config images) e s h
    (fun r s' h' => package s' = package s /\ grows h h' /\
       exists t, a733_hw_config_update_dram (Some (hw_config_mem s)) (dtb_size images)
                   (Some (trained e h)) MAX_DRAMPARA_SIZE = (r, t) /\
         hw_config_mem s' = default (hw_config_mem s) t) total.
Proof.
  unfold update_hw_config, dram_para. apply wp_bind, wp_bind, wp_call_out. intros r _.
  apply wp_ret, wp_bind, wp_get. fold (trained e h). cbn [snd].
  change (map _ (seq 0 96)) with (trained e h).
  destruct (a733_hw_config_update_dram _ _ _ _) as [st fdt] eqn:E. wp_steps. split; [done|].
  split; [by apply grows_one|]. by exists fdt.
Qed.

Lemma printf_grows {A} fmt args (k : M boot_call boot_state A) e s h Q K :
  (forall h', grows h h' -> wp k e s h' Q K) -> wp (printf fmt args;; k) e s h Q K.
Proof. intros Hk. apply wp_bind, wp_printf. intros r. by apply Hk, grows_one. Qed.

(** The tree of a copied HW_CONFIG, patched or withdrawn. *)
Lemma config_step e s images h h1 (k : fip_boot_images -> M boot_call boot_state (Z * Z * Z * fip_boot_images)) Q :
  pkg_ok s -> grows h h1 -> loaded (fun l => config_copied h s images l h1) h s images h1 ->
  (forall images' s' h', pkg_ok s' -> grows h1 h' ->
     loaded (fun l => config_patched e h s' images' l h') h s' images' h' -> wp (k images') e s' h' Q total) ->
  wp (let! images :=
        (if nonzero (dtb_base images) then
           let! r := update_hw_config images in
           if nonzero r then
             printf "FIP: invalid AR100S HW_CONFIG; disabling DTB services\n" [];;
             ret (Images (scp_source images) (scp_size images) 0 0)
           else
             printf "FIP: patched 96 trained DRAM parameters into HW_CONFIG\n" [];;
             ret images
         else ret images) in k images) e s h1 Q total.
Proof.
  intros Hs G1 [(d & n & l & Hf & Hd & Es & Ez & H31 & H33 & Hcfg)] Hk. unfold nonzero at 1.
  destruct Hcfg as [(E0 & Eb & Esz)|(E0 & Hcp & Emem & Eb & Esz)].
  { rewrite Eb. cbn [Z.eqb negb]. apply wp_bind, wp_ret, Hk; [done|apply grows_refl|]. constructor.
    exists d, n, l. repeat (split; [done|]). by left. }
  rewrite Eb. change (negb (SUNXI_FIP_HW_CONFIG_BASE =? 0)) with true. cbv iota.
  apply wp_bind. eapply wp_seq; [apply update_hw_spec|]. intros r s2 h2 (Epkg & G2 & t & Et & Emem2).
  assert (pkg_ok s2) as Hs2 by (unfold pkg_ok; by rewrite Epkg).
  rewrite Esz, Emem, <- Epkg in Et. rewrite Emem, <- Epkg in Emem2. rewrite <- Epkg in Hf.
  unfold nonzero. destruct (Z.eqb_spec r 0) as [E|E]; cbn [negb]; apply printf_grows; intros h3 G3;
    assert (G13 := grows_trans _ _ _ G2 G3); apply wp_ret, Hk; try done; constructor; exists d, n, l;
    (split; [done|]); (split; [done|]); (split; [done|]); (split; [done|]);
    (split; [by eapply after_r|]); (split; [by eapply after_r|]); right; (split; [done|]);
    (split; [by eapply after_r|]); exists h1, r, t; (split; [done|]); (split; [done|]); (split; [done|]); auto.
Qed.

(** Success of the load: the images are in place. *)
Lemma load_images_spec e s h :
  pkg_ok s ->
  wp load_fip_images e s h
    (fun r s' h' => let '(st, ub, mb, images) := r in
       pkg_ok s' /\ grows h h' /\
       (st = 0 -> loaded (fun l => config_patched e h s' images l h') h s' images h' /\
                  ub = CONFIG_UBOOT_BASE /\ mb = CONFIG_MONITOR_BASE)) total.
Proof.
  intros Hs. unfold load_fip_images. apply wp_bind, wp_call. intros r0 _.
  set (h0 := Call c_mmc_init_ext r0 :: h).
  assert (grows h h0) as G0 by by apply grows_one.
  unfold nonzero at 1. destruct (Z.eqb_spec r0 0) as [->|]; cbn [negb].
  2:{ apply printf_grows. intros h1 G1. apply wp_ret. split; [done|].
      split; [by eapply grows_trans | done]. }
  apply wp_bind, wp_call. intros p _. apply wp_bind, wp_call. intros b _.
  apply printf_grows. intros h1 G1.
  assert (grows h h1) as G01.
  { eapply grows_trans; [|exact G1]. do 2 (apply grows_cons; [done|]). exact G0. }
  eapply wp_seq; [by apply fip_load_spec|]. intros [[[st sz] used] images] s2 h2 (Hs2 & G2 & Hl).
  assert (grows h h2) as G by exact (grows_trans _ _ _ G01 G2).
  unfold nonzero at 1. destruct (Z.eqb_spec st 0) as [->|]; cbn [negb].
  2:{ apply printf_grows. intros h3 G3. apply wp_ret. split; [done|].
      split; [by eapply grows_trans | done]. }
  destruct (_ || _).
  { apply printf_grows. intros h3 G3. apply wp_ret. split; [done|].
    split; [by eapply grows_trans | done]. }
  eapply config_step; [exact Hs2|exact G| |].
  { destruct (Hl eq_refl) as [(d & n & l & Hf & Hd & Es & Ez & H31 & H33 & Hcfg)]. constructor.
    exists d, n, l. do 4 (split; [done|]). split; [exact (after_l _ _ _ _ G01 H31)|].
    split; [exact (after_l _ _ _ _ G01 H33)|].
    destruct Hcfg as [?|(? & Hc & ?)]; [by left|right]. split; [done|]. split; [exact (after_l _ _ _ _ G01 Hc)|done]. }
  intros images' s3 h3 Hs3 G3 Hl3. apply printf_grows. intros h4 G4. apply wp_ret. split; [done|].
  split; [exact (grows_trans _ _ _ G (grows_trans _ _ _ G3 G4))|]. intros _. split; [|done].
  destruct Hl3 as [(d & n & l & Hf & Hd & Es & Ez & H31 & H33 & Hcfg)]. constructor.
  exists d, n, l. do 4 (split; [done|]). split; [exact (after_r _ _ _ _ H31 G4)|].
  split; [exact (after_r _ _ _ _ H33 G4)|].
  destruct Hcfg as [?|(? & Hc & ?)]; [by left|right]. split; [done|]. split; [exact (after_r _ _ _ _ Hc G4)|done].
Qed.
End Load.

(** ** The stages of a run *)

(** How far a run has come: the board's rails are on; the clocks run; FEL mode
    was not asked for; nor by a key; the DRAM answers, so many MiB; still no
    key; the late initialisation is done; the package is loaded. *)
Inductive stage :=
| Powered
| Clocked
| Not_fel
| Not_broken
| Sized (dram_size : Z)
| Confirmed (dram_size : Z)
| Prepared (dram_size : Z)
| Loaded (dram_size : Z) (images : fip_boot_images).

(** The handoff stub in boot0's image, without the Thumb bit. *)
Definition stub_start (cfg : build) : Z := Z.land (fip_handoff_start cfg) (cnot32 1).
Definition stub_size (cfg : build) : Z := u32 (Z.land (fip_handoff_end cfg) (cnot32 1) - stub_start cfg).

Section Stages.
Context `{HFdt : FdtOps (list Z)} (cfg : build) (head : boot0_head) (e : env boot_call) (h0 : history boot_call).

(** The DRAM size passed on: the header's, when it has one. *)
Definition told_size (d : Z) : Z := if 0 <? head_dram_size head then head_dram_size head else d.

(** The run from [h0] has passed a stage at this point: every stage before it
    was passed earlier, and the stage's own function returned success there. *)
Inductive passed : stage -> history boot_call -> Prop :=
| passed_board h1 h2 : grows h0 h1 -> ends e sunxi_board_init 0 h1 h2 -> passed Powered h2
| passed_clock h1 h2 : passed Powered h1 -> ends e a7s_clock_init 0 h1 h2 -> passed Clocked h2
| passed_fel h1 h2 : passed Clocked h1 -> ends e (call c_rtc_probe_fel_flag) 0 h1 h2 -> passed Not_fel h2
| passed_key c h1 h2 h3 : passed Not_fel h1 -> grows h1 h2 -> ends e get_uart_input c h2 h3 -> c <> 50 ->
    passed Not_broken h3
| passed_dram d h1 h2 h3 : passed Not_broken h1 -> grows h1 h2 -> ends e (call c_init_DRAM) d h2 h3 -> d <> 0 ->
    passed (Sized (told_size d)) h3
| passed_key2 d c h1 h2 h3 : passed (Sized d) h1 -> grows h1 h2 -> ends e get_uart_input c h2 h3 -> c <> 50 ->
    passed (Confirmed d) h3
| passed_late d h1 h2 h3 : passed (Confirmed d) h1 -> grows h1 h2 -> ends e (call c_board_late_init) 0 h2 h3 ->
    passed (Prepared d) h3
| passed_load d images s s' h1 h2 : passed (Prepared d) h1 -> pkg_ok s ->
    load_fip_images e s h1 = Done (0, CONFIG_UBOOT_BASE, CONFIG_MONITOR_BASE, images) s' h2 ->
    loaded (fun l => config_patched e h1 s' images l h2) h1 s' images h2 -> passed (Loaded d images) h2.

(** The run from [h0] ends at this point: the stage that follows the last one
    passed has failed. *)
Inductive refused : history boot_call -> Prop :=
| refused_board r h1 h2 : grows h0 h1 -> ends e sunxi_board_init r h1 h2 -> r <> 0 -> refused h2
| refused_clock r h1 h2 : passed Powered h1 -> ends e a7s_clock_init r h1 h2 -> r <> 0 -> refused h2
| refused_fel r h1 h2 : passed Clocked h1 -> ends e (call c_rtc_probe_fel_flag) r h1 h2 -> r <> 0 -> refused h2
| refused_key h1 h2 h3 : passed Not_fel h1 -> grows h1 h2 -> ends e get_uart_input 50 h2 h3 -> refused h3
| refused_dram h1 h2 h3 : passed Not_broken h1 -> grows h1 h2 -> ends e (call c_init_DRAM) 0 h2 h3 -> refused h3
| refused_key2 d h1 h2 h3 : passed (Sized d) h1 -> grows h1 h2 -> ends e get_uart_input 50 h2 h3 -> refused h3
| refused_late d r h1 h2 h3 : passed (Confirmed d) h1 -> grows h1 h2 -> ends e (call c_board_late_init) r h2 h3 ->
    r <> 0 -> refused h3
| refused_load d st ub mb images h1 h2 : passed (Prepared d) h1 ->
    ends e load_fip_images (st, ub, mb, images) h1 h2 -> st <> 0 -> refused h2
| refused_stub d images h1 : passed (Loaded d images) h1 ->
    stub_size cfg = 0 \/ CONFIG_FIP_HANDOFF_SIZE < stub_size cfg -> refused h1.

(** The head the monitor finds: where U-Boot is, how much DRAM there is, and no
    secure OS. *)
Definition head_filled (dram_size : Z) (h h' : history boot_call) : Prop :=
  (exists r, after h (Call (c_store (CONFIG_MONITOR_BASE + 0x10) CONFIG_UBOOT_BASE) r) h') /\
  (exists r, after h (Call (c_store (CONFIG_MONITOR_BASE + 0x18) 0) r) h') /\
  (exists r, after h (Call (c_store (CONFIG_MONITOR_BASE + 0x30) dram_size) r) h').

(** All is ready for the jump: the package was loaded ([h1]), then the
    monitor's head was filled ([h2]) and the stub copied to its window, then
    all the images were cleaned from the data cache ([h3]), then the
    instruction cache was invalidated. *)
Inductive handoff_ready (src size dtb : Z) (h : history boot_call) : Prop :=
| Handoff_ready dram_size images h1 h2 h3 r1 r2 :
    passed (Loaded dram_size images) h1 ->
    scp_source images = Some src -> scp_size images = size -> dtb_base images = dtb ->
    head_filled dram_size h1 h2 ->
    0 < stub_size cfg <= CONFIG_FIP_HANDOFF_SIZE ->
    (let hs := Call (c_memcpy CONFIG_FIP_HANDOFF_BASE (stub_start cfg) (stub_size cfg)) r1 :: h2 in
     range_cleaned CONFIG_FIP_HANDOFF_BASE (stub_size cfg) hs h3 /\
     range_cleaned CONFIG_MONITOR_BASE SUNXI_FIP_BL31_MAX_SIZE hs h3 /\
     range_cleaned CONFIG_UBOOT_BASE SUNXI_FIP_BL33_MAX_SIZE hs h3 /\
     range_cleaned src size hs h3 /\
     (dtb <> 0 -> range_cleaned dtb (dtb_size images) hs h3)) ->
    after h3 (Call c_invalidate_icache r2) h ->
    handoff_ready src size dtb h.

(** The two ways a run can go: a stage fails and there is no handoff, or every
    stage succeeds and there is exactly one, when all is ready. *)
Definition went (h' : history boot_call) : Prop :=
  (exists hb, refused hb /\ grows h0 hb /\ grows hb h') \/
  (exists src size dtb hb r, handoff_ready src size dtb hb /\ grows h0 hb /\
     grows (Call (c_handoff src size dtb) r :: hb) h').

Lemma went_on h h' : went h -> grows h h' -> went h'.
Proof.
  intros [(hb & Hr & G1 & G2)|(src & size & dtb & hb & r & Hr & G1 & G2)] G; [left|right].
  - exists hb. split; [done|]. split; [done|]. by eapply grows_trans.
  - exists src, size, dtb, hb, r. split; [done|]. split; [done|]. by eapply grows_trans.
Qed.

(** A program that stays in the boot's outcome. *)
Definition goes {A} (_ : A) (s' : boot_state) (h' : history boot_call) : Prop := pkg_ok s' /\ went h'.

Lemma refused_end {A} (m : M boot_call boot_state A) s h :
  refused h -> grows h0 h -> pkg_ok s -> quiet m -> wp m e s h goes total.
Proof.
  intros Hr G Hs Hm. eapply wp_mono; [by apply Hm|]. intros a s' h' [Hs' G']. split; [done|].
  left. by exists h.
Qed.

(** *** Handing over *)

Lemma run_grows {A} c (k : M boot_call boot_state A) s h Q K :
  (forall a b d, c <> c_handoff a b d) ->
  (forall r, grows h (Call c r :: h) -> wp k e s (Call c r :: h) Q K) -> wp (run c;; k) e s h Q K.
Proof.
  intros Hc Hk. unfold run. apply wp_bind, wp_bind, wp_call. intros r _. apply wp_ret.
  apply Hk, grows_one. destruct c; try done. by edestruct Hc.
Qed.

(** Where the images of a loaded package lie. *)
Lemma loaded_ranges h s images h' :
  loaded (fun l => config_patched e h s images l h') h s images h' ->
  exists src, scp_source images = Some src /\ 0 <= src /\ 0 < scp_size images /\
  src + scp_size images <= 0x43000000 /\
  (dtb_base images = 0 \/ dtb_base images = SUNXI_FIP_HW_CONFIG_BASE) /\
  0 <= dtb_size images <= SUNXI_FIP_HW_CONFIG_MAX_SIZE.
Proof.
  intros [(d & n & l & Hf & Hd & Hs & Hz & _ & _ & Hdtb)]. rewrite Hz. eexists. split; [exact Hs|].
  destruct (valid_ranges _ _ _ _ Hf) as (L4 & S1 & S2 & S3).
  unfold CONFIG_BOOTPKG_BASE, CONFIG_FIP_STAGING_SIZE in *.
  split; [lia|]. split; [lia|]. split; [lia|].
  destruct Hdtb as [(_ & -> & ->)|(_ & _ & _ & _ & _ & _ & _ & _ & [(_ & -> & ->)|(_ & -> & ->)])];
    (split; [by auto|]); by auto || (split; [lia|done]).
Qed.

(** The caches before the jump: every range is clean, nothing else happens. *)
Lemma clean_images src images (k : M boot_call boot_state Z) s h Q :
  0 <= stub_size cfg <= CONFIG_FIP_HANDOFF_SIZE -> 0 <= src -> 0 <= scp_size images ->
  src + scp_size images <= 0x43000000 ->
  (dtb_base images = 0 \/ dtb_base images = SUNXI_FIP_HW_CONFIG_BASE) ->
  0 <= dtb_size images <= SUNXI_FIP_HW_CONFIG_MAX_SIZE ->
  (forall h', grows h h' ->
     range_cleaned CONFIG_FIP_HANDOFF_BASE (stub_size cfg) h h' /\
     range_cleaned CONFIG_MONITOR_BASE SUNXI_FIP_BL31_MAX_SIZE h h' /\
     range_cleaned CONFIG_UBOOT_BASE SUNXI_FIP_BL33_MAX_SIZE h h' /\
     range_cleaned src (scp_size images) h h' /\
     (dtb_base images <> 0 -> range_cleaned (dtb_base images) (dtb_size images) h h') ->
     wp k e s h' Q total) ->
  wp (clean_dcache_range CONFIG_FIP_HANDOFF_BASE (stub_size cfg);;
      clean_dcache_range CONFIG_MONITOR_BASE SUNXI_FIP_BL31_MAX_SIZE;;
      clean_dcache_range CONFIG_UBOOT_BASE SUNXI_FIP_BL33_MAX_SIZE;;
      clean_dcache_range src (scp_size images);;
      (if nonzero (dtb_base images) then clean_dcache_range (dtb_base images) (dtb_size images) else ret tt);;
      k) e s h Q total.
Proof.
  intros Hh H0 Hs Hend Hbase Hsize Hk. unfold CONFIG_FIP_HANDOFF_SIZE in Hh.
  eapply wp_seq; [apply clean_range_spec; [done | lia | unfold CONFIG_FIP_HANDOFF_BASE, CONFIG_BOOTPKG_BASE; lia]|].
  intros [] s3 h3 (-> & G3 & C3).
  eapply wp_seq; [by apply clean_range_spec|]. intros [] s4 h4 (-> & G4 & C4).
  eapply wp_seq; [by apply clean_range_spec|]. intros [] s5 h5 (-> & G5 & C5).
  eapply wp_seq; [apply clean_range_spec; lia|]. intros [] s6 h6 (-> & G6 & C6).
  eapply (wp_seq _ _ _ _ _ (fun _ s' h' => s' = s /\ grows h6 h' /\
    (dtb_base images <> 0 -> range_cleaned (dtb_base images) (dtb_size images) h6 h'))).
  { unfold nonzero. destruct (Z.eqb_spec (dtb_base images) 0) as [E|E]; cbn [negb];
      [apply wp_ret; split; [done|]; split; [apply grows_refl|done]|].
    destruct Hbase as [?|Hbase]; [done|]. rewrite Hbase.
    unfold SUNXI_FIP_HW_CONFIG_BASE, SUNXI_FIP_HW_CONFIG_MAX_SIZE in *.
    eapply wp_mono; [apply clean_range_spec; lia|]. by intros [] s7 h7 (-> & G7 & C7). }
  intros [] s7 h7 (-> & G7 & C7). assert (G57 := grows_trans _ _ _ G6 G7). assert (G47 := grows_trans _ _ _ G5 G57).
  assert (G04 := grows_trans _ _ _ G3 G4). assert (G05 := grows_trans _ _ _ G04 G5).
  assert (G06 := grows_trans _ _ _ G05 G6).
  apply Hk; [exact (grows_trans _ _ _ G04 G47)|].
  split; [exact (cleaned_r _ _ _ _ _ C3 (grows_trans _ _ _ G4 G47))|].
  split; [exact (cleaned_l _ _ _ _ _ G3 (cleaned_r _ _ _ _ _ C4 G47))|].
  split; [exact (cleaned_l _ _ _ _ _ G04 (cleaned_r _ _ _ _ _ C5 G57))|].
  split; [exact (cleaned_l _ _ _ _ _ G05 (cleaned_r _ _ _ _ _ C6 G7))|].
  intros E. exact (cleaned_l _ _ _ _ _ G06 (C7 E)).
Qed.

Lemma handoff_spec d images s h1 h :
  pkg_ok s -> passed (Loaded d images) h1 -> grows h0 h1 -> head_filled d h1 h -> grows h1 h ->
  wp (run_fip_handoff cfg images) e s h goes total.
Proof.
  intros Hs Hp G0 Hhead G1. unfold run_fip_handoff. cbv zeta. fold (stub_start cfg). fold (stub_size cfg).
  assert (exists src, scp_source images = Some src /\ 0 <= src /\ 0 < scp_size images /\
    src + scp_size images <= 0x43000000 /\
    (dtb_base images = 0 \/ dtb_base images = SUNXI_FIP_HW_CONFIG_BASE) /\
    0 <= dtb_size images <= SUNXI_FIP_HW_CONFIG_MAX_SIZE) as (src & Esrc & R1 & R2 & R3 & R4 & R5).
  { inversion Hp. by eapply loaded_ranges. }
  apply printf_grows. intros h2 G2. rewrite Esrc. rewrite (proj2 (Z.eqb_neq _ _)) by lia. cbn [orb].
  assert (0 <= stub_size cfg) by apply u32_range.
  destruct (Z.eqb_spec (stub_size cfg) 0) as [Ez|Ez]; cbn [orb].
  2: destruct (Z.ltb_spec CONFIG_FIP_HANDOFF_SIZE (stub_size cfg)) as [El|El].
  1,2: apply printf_grows; intros h3 G3; apply wp_ret; split; [done|]; left; exists h1;
    (split; [eapply refused_stub; eauto|]); (split; [done|]);
    exact (grows_trans _ _ _ G1 (grows_trans _ _ _ G2 G3)).
  apply run_grows; [done|]. intros r1 G3. apply clean_images; [lia|done|lia|done|done|done|].
  intros h4 G4 Hclean. unfold invalidate_instruction_cache. apply run_grows; [done|]. intros r2 G5.
  apply printf_grows. intros h6 G6.
  unfold run. apply wp_bind, wp_bind, wp_call. intros r9 _. apply wp_ret, wp_ret. split; [done|]. right.
  exists src, (scp_size images), (dtb_base images), h6, r9. split; [|split; [|apply grows_refl]].
  - destruct Hhead as ([a Ha] & [b Hb] & [c Hc]).
    eapply (Handoff_ready _ _ _ _ d images h1 h2 h4); try done.
    + split; [exists a; by eapply after_r|]. split; [exists b; by eapply after_r|exists c; by eapply after_r].
    + lia.
    + exact (after_r _ _ _ _ (after_here _ _) G6).
  - exact (grows_trans _ _ _ G0 (grows_trans _ _ _ (grows_trans _ _ _ G1 G2)
      (grows_trans _ _ _ (grows_trans _ _ _ G3 G4) (grows_trans _ _ _ G5 G6)))).
Qed.

Lemma fill_monitor_head_spec dram_size s h : pkg_ok s ->
  wp (fill_monitor_head CONFIG_MONITOR_BASE CONFIG_UBOOT_BASE dram_size) e s h
    (fun _ s' h' => pkg_ok s' /\ grows h h' /\ head_filled dram_size h h') total.
Proof.
  intros Hs. unfold fill_monitor_head. apply run_grows; [done|]. intros r8 G8.
  apply run_grows; [done|]. intros r9 G9. unfold run. apply wp_bind, wp_call. intros r10 _. apply wp_ret.
  set (h8 := Call _ r8 :: h) in *. set (h9 := Call _ r9 :: h8) in *.
  split; [done|]. set (h10 := Call _ r10 :: h9). assert (grows h9 h10) as G10 by by apply grows_one.
  split; [exact (grows_trans _ _ _ G8 (grows_trans _ _ _ G9 G10))|].
  split; [exists r9; exact (after_l _ _ _ _ G8 (after_r _ _ _ _ (after_here h8 _) G10))|].
  split; [exists r8; exact (after_r _ _ _ _ (after_here h _) (grows_trans _ _ _ G9 G10))|].
  exists r10. exact (after_l _ _ _ _ (grows_trans _ _ _ G8 G9) (after_here h9 _)).
Qed.

(** ** The two halves of the program *)

(** What a header must provide for the pin list it passes. *)
Definition head_ok : Prop := (5 <= length (jtag_gpio head))%nat /\ Forall gpio_ok (jtag_gpio head).

Lemma quiet_uart_input : quiet get_uart_input.
Proof. unfold get_uart_input. quiet. Qed.

(** The load in the run, whose program is not quiet by its shape. *)
Lemma wp_load_images {A} (f : Z * Z * Z * fip_boot_images -> M boot_call boot_state A) d s h Q :
  pkg_ok s -> passed (Prepared d) h ->
  (forall images s' h', pkg_ok s' -> grows h h' -> passed (Loaded d images) h' ->
     wp (f (0, CONFIG_UBOOT_BASE, CONFIG_MONITOR_BASE, images)) e s' h' Q total) ->
  (forall st ub mb images s' h', pkg_ok s' -> grows h h' -> st <> 0 -> refused h' ->
     wp (f (st, ub, mb, images)) e s' h' Q total) ->
  wp (bind load_fip_images f) e s h Q total.
Proof.
  intros Hs Hp Hok Hbad. destruct (wp_total_run _ _ _ _ _ (load_images_spec e s h Hs)) as (r & s' & h' & Er & Hpost).
  destruct r as [[[st ub] mb] images]. destruct Hpost as (Hs' & G & Hl). unfold wp at 1, bind. rewrite Er.
  destruct (Z.eq_dec st 0) as [->|Hne].
  - destruct (Hl eq_refl) as (Hload & -> & ->). apply Hok; [done|done|].
    exact (passed_load d images s s' h h' Hp Hs Er Hload).
  - apply Hbad; [done|done|done|]. eapply refused_load; [done| |done]. by exists s, s'.
Qed.

Lemma second_stage_spec d s h :
  pkg_ok s -> grows h0 h -> passed (Sized d) h \/ (exists h1, passed (Sized d) h1 /\ grows h1 h) ->
  wp (second_stage cfg d) e s h goes total.
Proof.
  intros Hs G Hp0. assert (exists h1, passed (Sized d) h1 /\ grows h1 h) as (hs & Hp & Gs).
  { destruct Hp0 as [?|?]; [|done]. exists h. split; [done|apply grows_refl]. }
  unfold second_stage.
  apply wp_ends; [apply quiet_uart_input|done|]. intros c s1 h1 Hs1 G1 E1. assert (G01 := grows_trans _ _ _ G G1).
  destruct (Z.eqb_spec c 50) as [->|Hc].
  { apply refused_end; [exact (refused_key2 d hs h h1 Hp Gs E1)|done|done|quiet]. }
  assert (passed (Confirmed d) h1) as Hp1 by exact (passed_key2 d c hs h h1 Hp Gs E1 Hc).
  apply wp_ends; [quiet|done|]. intros [] s2 h2 Hs2 G2 _.
  apply run_grows; [done|]. intros r3 G3. apply run_grows; [done|]. intros r4 G4.
  assert (G14 := grows_trans _ _ _ G2 (grows_trans _ _ _ G3 G4)). assert (G04 := grows_trans _ _ _ G01 G14).
  apply wp_ends; [quiet|done|]. intros status s5 h5 Hs5 G5 E5. assert (G05 := grows_trans _ _ _ G04 G5).
  unfold nonzero at 1. destruct (Z.eqb_spec status 0) as [->|Hst]; cbn [negb].
  2:{ apply refused_end; [exact (refused_late d status h1 _ h5 Hp1 G14 E5 Hst)|done|done|quiet]. }
  assert (passed (Prepared d) h5) as Hp5 by exact (passed_late d h1 _ h5 Hp1 G14 E5).
  eapply wp_load_images; [done|exact Hp5| |].
  2:{ intros st ub mb images s6 h6 Hs6 G6 Hst Hr. unfold nonzero. rewrite (proj2 (Z.eqb_neq _ _) Hst). cbn [negb].
      apply refused_end; [done|exact (grows_trans _ _ _ G05 G6)|done|quiet]. }
  intros images s6 h6 Hs6 G6 Hp6. change (nonzero 0) with false. cbv iota.
  apply wp_ends; [unfold a7s_emmc_preinit; quiet|done|]. intros [] s7 h7 Hs7 G7 _.
  cbn [nonzero CONFIG_MONITOR_BASE Z.eqb negb].
  eapply wp_seq; [by apply fill_monitor_head_spec|].
  intros [] s8 h8 (Hs8 & G8 & ([a Ha] & [b Hb] & [c' Hc'])). apply printf_grows. intros h9 G9.
  eapply wp_seq; [apply (handoff_spec d images s8 h6)|].
  - done.
  - done.
  - exact (grows_trans _ _ _ G05 G6).
  - split; [exists a|split; [exists b|exists c']]; apply (after_l _ _ _ _ G7); by eapply after_r.
  - exact (grows_trans _ _ _ G7 (grows_trans _ _ _ G8 G9)).
  - intros ? s10 h10 Hgo. by apply wp_ret.
Qed.

Lemma first_stage_spec s : head_ok -> pkg_ok s -> wp (first_stage cfg head) e s h0 goes total.
Proof.
  intros [Hlen Hpins] Hs. unfold first_stage.
  apply wp_ends; [apply quiet_early_uart|done|]. intros [] s1 h1 Hs1 G1 _.
  apply wp_ends; [apply quiet_puts|done|]. intros [] s2 h2 Hs2 G2 _. assert (G02 := grows_trans _ _ _ G1 G2).
  apply wp_ends; [quiet|done|]. intros [] s3 h3 Hs3 G3 _. assert (G03 := grows_trans _ _ _ G02 G3).
  apply wp_ends; [quiet|done|]. intros [] s4 h4 Hs4 G4 _. assert (G04 := grows_trans _ _ _ G03 G4).
  apply wp_ends; [apply quiet_early_uart|done|]. intros [] s5 h5 Hs5 G5 _. assert (G05 := grows_trans _ _ _ G04 G5).
  apply wp_ends; [unfold print_commit_log; quiet|done|]. intros [] s6 h6 Hs6 G6 _. assert (G06 := grows_trans _ _ _ G05 G6).
  apply wp_ends; [apply quiet_board_init|done|]. intros r7 s7 h7 Hs7 G7 E7. assert (G07 := grows_trans _ _ _ G06 G7).
  unfold nonzero at 1. destruct (Z.eqb_spec r7 0) as [->|Hr7]; cbn [negb].
  2:{ apply refused_end; [exact (refused_board r7 h6 h7 G06 E7 Hr7)|done|done|quiet]. }
  assert (passed Powered h7) as Hp7 by exact (passed_board h6 h7 G06 E7).
  apply wp_ends; [apply quiet_clock_init|done|]. intros r8 s8 h8 Hs8 G8 E8. assert (G08 := grows_trans _ _ _ G07 G8).
  unfold nonzero at 1. destruct (Z.eqb_spec r8 0) as [->|Hr8]; cbn [negb].
  2:{ apply refused_end; [exact (refused_clock r8 h7 h8 Hp7 E8 Hr8)|done|done|quiet]. }
  assert (passed Clocked h8) as Hp8 by exact (passed_clock h7 h8 Hp7 E8).
  apply wp_ends; [quiet|done|]. intros fel s9 h9 Hs9 G9 E9. assert (G09 := grows_trans _ _ _ G08 G9).
  unfold nonzero at 1. destruct (Z.eqb_spec fel 0) as [->|Hfel]; cbn [negb].
  2:{ apply refused_end; [exact (refused_fel fel h8 h9 Hp8 E9 Hfel)|done|done|quiet]. }
  assert (passed Not_fel h9) as Hp9 by exact (passed_fel h8 h9 Hp8 E9).
  apply wp_ends; [quiet; apply quiet_set_gpio; [done | lia]|done|]. intros [] s10 h10 Hs10 G10 _.
  assert (G010 := grows_trans _ _ _ G09 G10).
  apply wp_ends; [apply quiet_uart_input|done|]. intros c s11 h11 Hs11 G11 E11. assert (G011 := grows_trans _ _ _ G010 G11).
  destruct (Z.eqb_spec c 50) as [->|Hc].
  { apply refused_end; [exact (refused_key h9 h10 h11 Hp9 G10 E11)|done|done|quiet]. }
  assert (passed Not_broken h11) as Hp11 by exact (passed_key c h9 h10 h11 Hp9 G10 E11 Hc).
  apply run_grows; [done|]. intros r12 G12. assert (G012 := grows_trans _ _ _ G011 G12).
  apply wp_ends; [quiet|done|]. intros d s13 h13 Hs13 G13 E13. assert (G013 := grows_trans _ _ _ G012 G13).
  destruct (Z.eqb_spec d 0) as [->|Hd].
  { apply refused_end; [exact (refused_dram h11 _ h13 Hp11 G12 E13)|done|done|quiet]. }
  fold (told_size d). cbv zeta. apply printf_grows. intros h14 G14.
  apply wp_ends; [quiet; apply quiet_clock_dump|done|]. intros [] s15 h15 Hs15 G15 _.
  assert (G1315 := grows_trans _ _ _ G14 G15).
  apply second_stage_spec; [done|exact (grows_trans _ _ _ G013 G1315)|]. right. exists h13.
  split; [exact (passed_dram d h11 _ h13 Hp11 G12 E13 Hd)|done].
Qed.
End Stages.

(** C4: whatever the hardware and the closed libraries answer, [main] ends by
    jumping to FEL mode once the environment is cleared (no run gets stuck,
    performs undefined behaviour or exhausts a loop's fuel).  On the way either
    a stage has failed, every stage before it having succeeded, and nothing is
    handed over; or all of them succeeded one after the other (the board's
    rails, the clocks, no FEL request and no key that asks for FEL mode, a DRAM, the late
    initialisation, the load of a valid package) and the handoff is made
    exactly once, with the images in their windows, HW_CONFIG patched with the
    trained parameters (or not passed on), the monitor told where U-Boot is and
    how much DRAM there is, the stub copied to its window, and only then the
    stub, the monitor, U-Boot, the SCP image and HW_CONFIG cleaned from the
    data cache and the instruction cache invalidated. *)
Theorem main_hands_over_safely `{HFdt : FdtOps (list Z)} (cfg : build) (head : boot0_head)
  (e : env boot_call) s h :
  head_ok head -> pkg_ok s ->
  wp (main cfg head) e s h (fun _ _ _ => False)
    (fun w s' h' => w = Halted /\
       exists hs hc r, went cfg head e h hs /\ ends e boot0_clear_env 0 hs hc /\
         grows hs hc /\ h' = Call (c_jmp FEL_BASE) r :: hc).
Proof.
  intros Hh Hs. unfold main.
  apply wp_bind. eapply wp_conseq; [by apply (first_stage_spec cfg head e h)| |done].
  intros [] s1 h1 [Hs1 Hg1]. cbv beta.
  assert (quiet boot0_clear_env) as Hq by (unfold boot0_clear_env, a7s_clock_reset; quiet; apply quiet_sys24).
  apply wp_ends; [done|done|]. intros r2 s2 h2 Hs2 G2 E2. unfold run. wp_steps. split; [done|].
  exists h1, h2, r. split; [done|]. split; [|done].
  assert (r2 = 0) as <-; [|done]. destruct E2 as (sa & sb & _ & E2).
  revert E2. unfold boot0_clear_env, run, bind, call, mdelay, udelay, ret. by destruct (a7s_clock_reset _ _ _); intros [=].
Qed.

(** A board whose hardware answers from the last event, with a card that holds
    the sample package at sector 32800: the PLLs lock, and a bus register
    returns what was just written to it, or, when it is checked, the source
    the sequence has come to. *)
#[local] Instance no_tree : FdtOps (list Z) := {|
  fdt_check_header _ := -1;
  fdt_totalsize _ := 0;
  fdt_path_offset _ _ := -1;
  fdt_getprop _ _ _ := None;
  fdt_setprop_inplace_u32 t _ _ _ := (-1, t)
|}.
Definition sample_build : build := Build false false 0x47b65 0x47b95.
Definition sample_bus (h : history boot_call) (a : Z) : Z :=
  match h with
  | Wr a' v :: _ =>
      if a =? a' then v
      else if (a =? a7s_ccu_reg AHB_CLK_REG) && (v =? Z.lor A7S_UART_SOURCE_PERI0_480 A7S_UART_DIV_20)
      then Z.lor A7S_AHB_SOURCE_PERI0_600 A7S_AHB_DIV_3 else 0
  | Rd a' v :: _ =>
      if (v =? Z.lor A7S_AHB_SOURCE_PERI0_600 A7S_AHB_DIV_3) || (a =? a7s_ccu_reg APB1_CLK_REG) && nonzero v
      then Z.lor A7S_APB_SOURCE_PERI0_600 A7S_APB_DIV_6
      else if nonzero v then Z.lor A7S_UART_SOURCE_PERI0_480 A7S_UART_DIV_20 else 0
  | _ => 0
  end.
Definition sample_env : env boot_call := Env
  (fun h a => if bool_decide (a ∈ map a7s_ccu_reg [AHB_CLK_REG; APB0_CLK_REG; APB1_CLK_REG; APB_UART_CLK_REG])
              then sample_bus h a else if a =? a7s_ccu_reg PLL_PERI0_CTRL_REG + 8 then 0
              else if a =? a7s_ccu_reg PLL_PERI1_CTRL_REG + 8 then 0
              else if bool_decide (a ∈ map a7s_ccu_reg [PERI0PLL_GATE_EN_REG; PERI1PLL_GATE_EN_REG])
              then A7S_PERI_DISTRIBUTION_GATES else A7S_PLL_LOCK)
  (fun _ c => match c with c_init_DRAM => 4096 | c_toc1_start => 32800 | c_toc1_bak_start => 24576 | _ => 0 end)
  (fun _ c => match c with
              | c_bus (BusRead _ r) =>
                  [if r =? AXP8191_CHIP_ID then AXP8191_CHIP_ID_A else if r =? AXP8191_CLDO5_VOL then 0x0d
                   else if r =? AXP8191_LDO_CTRL2 then BIT 7 else AXP8191_DCDC2_840MV]
              | c_mmc_bread_ext _ _ => sample_fip
              | _ => []
              end).
Definition sample_state : boot_state :=
  BootState 0 (replicate (Z.to_nat CONFIG_FIP_STAGING_SIZE) 0) [].

Lemma sample_pkg_ok : pkg_ok sample_state.
Proof.
  unfold sample_state, pkg_ok. cbn [package]. split.
  - apply Forall_replicate. split; lia.
  - rewrite length_replicate. apply Z2Nat.id. discriminate.
Qed.

Definition result {A} (o : outcome boot_call boot_state A) : option A :=
  match o with Done a _ _ => Some a | Stop _ _ _ => None end.

Lemma ends_result {A} (m : M boot_call boot_state A) r x e h1 h2 :
  ends e m r h1 h2 -> (forall s, pkg_ok s -> result (m e s h1) = Some x) -> r = x.
Proof. intros (s & s' & Hs & E) Hx. specialize (Hx s Hs). rewrite E in Hx. by injection Hx. Qed.

Lemma sample_board r h1 h2 : ends sample_env sunxi_board_init r h1 h2 -> r = 0.
Proof. intros E. apply (ends_result _ _ _ _ _ _ E). intros [[] pkg mem] _; vm_compute; reflexivity. Qed.

Lemma sample_clock r h1 h2 : ends sample_env a7s_clock_init r h1 h2 -> r = 0.
Proof. intros E. apply (ends_result _ _ _ _ _ _ E). intros s _. vm_compute. reflexivity. Qed.

(** The card's package through the loader, whatever the staging memory held. *)
Definition on_card : list Z := map u8 sample_fip.
Lemma sample_read count pkg c :
  4608 <= Z.of_nat (length pkg) ->
  exists c', call_read (fip_mmc_read sample_env) 32800 count (Staging pkg c) =
    Some (1, Staging (take (Z.to_nat (count * FIP_SECTOR_SIZE)) on_card ++ drop (length (take (Z.to_nat (count * FIP_SECTOR_SIZE)) on_card)) pkg) c') /\
    cb_images c' = cb_images c.
Proof.
  intros Hl. unfold call_read. cbn [fip_mmc_read context buffer].
  change (sector_bytes sample_env (cb_history c) 32800 count) with (take (Z.to_nat (count * FIP_SECTOR_SIZE)) on_card).
  rewrite (proj2 (Z.ltb_ge _ _)); [by eexists|].
  assert (Z.of_nat (length on_card) = 4404) by (unfold on_card; rewrite length_map; exact sample_length).
  rewrite length_take. lia.
Qed.

Definition sample_images : fip_boot_images := Images (Some (CONFIG_BOOTPKG_BASE + 176)) 64 0 0.

Lemma sample_fip_load s h :
  pkg_ok s -> exists s' h', fip_load 32800 24576 no_images sample_env s h = Done (0, 4404, 32800, sample_images) s' h'.
Proof.
  intros [_ Hl]. unfold fip_load, sunxi_fip_load_redundant, sunxi_fip_read_redundant, sunxi_fip_read_image.
  cbn [all_pointers has_fip_size has_used_sector has_buffer negb orb].
  change (CONFIG_FIP_STAGING_SIZE <? FIP_METADATA_SIZE) with false. cbv iota.
  assert (4608 <= Z.of_nat (length (package s))) as H1 by (rewrite Hl; unfold CONFIG_FIP_STAGING_SIZE; lia).
  destruct (sample_read FIP_TOC_SECTORS (package s) (CbCtx no_images (hw_config_mem s) h) H1) as (c1 & -> & E1).
  assert (4608 <= Z.of_nat (length (take (Z.to_nat (FIP_TOC_SECTORS * FIP_SECTOR_SIZE)) on_card ++
     drop (length (take (Z.to_nat (FIP_TOC_SECTORS * FIP_SECTOR_SIZE)) on_card)) (package s)))) as H2.
  { rewrite length_app, length_drop. lia. }
  cbn [buffer].
  match goal with |- context [drop ?n (package s)] => generalize dependent (drop n (package s)) end. intros t1 H2.
  set (b1 := take _ on_card ++ t1) in *.
  assert (get_fip_size_from_toc b1 FIP_METADATA_SIZE CONFIG_FIP_STAGING_SIZE = Some (Some 4404)) as -> by (vm_compute; reflexivity).
  change (negb (1 =? 1)) with false. cbv iota beta zeta. 
  change (size_t (4404 + FIP_SECTOR_SIZE - 1) / FIP_SECTOR_SIZE) with 9.
  destruct (sample_read 9 b1 c1 H2) as (c2 & -> & E2). cbn [buffer]. clear H2.
  generalize (drop (length (take (Z.to_nat (9 * FIP_SECTOR_SIZE)) on_card)) b1). clear b1 t1. intros t2.
  assert (sunxi_fip_parse (Some (take (Z.to_nat (9 * FIP_SECTOR_SIZE)) on_card ++ t2)) 4404 (Some empty_layout) = Some (0, Some sample_layout)) as Hp
    by (vm_compute; reflexivity).
  change (negb (1 =? 1)) with false. cbv iota beta zeta. rewrite Hp. cbn [fst Z.eqb negb].
  unfold sunxi_fip_copy_images. cbn [buffer context]. rewrite Hp.
  destruct c2 as [im2 mem2 h2]. cbn [cb_images] in E2. rewrite E1 in E2. cbn [no_images cb_images] in E2. subst im2.
  eexists _, _. reflexivity.
Qed.

Lemma sample_load st ub mb images h1 h2 : ends sample_env load_fip_images (st, ub, mb, images) h1 h2 -> st = 0.
Proof.
  intros E. enough ((st, ub, mb, images) = (0, CONFIG_UBOOT_BASE, CONFIG_MONITOR_BASE, sample_images)) by congruence.
  apply (ends_result _ _ _ _ _ _ E). clear E. intros s Hs.
  unfold load_fip_images, bind at 1, call at 1. change (nonzero (env_ret sample_env _ c_mmc_init_ext)) with false. cbv iota beta zeta.
  unfold bind at 1 2, call at 1 2. change (u32 (env_ret sample_env _ c_toc1_start)) with 32800.
  change (u32 (env_ret sample_env _ c_toc1_bak_start)) with 24576.
  unfold bind at 1, printf at 1, bind at 1, call at 1, ret at 1.
  match goal with |- context [bind (fip_load _ _ _) _ _ _ ?h] => destruct (sample_fip_load s h Hs) as (s' & h' & E) end.
  unfold bind at 1. rewrite E. reflexivity.
Qed.

Lemma main_hands_over_safely_witness :
  head_ok (BT0_head "") /\
  wp (main sample_build (BT0_head "")) sample_env sample_state [] (fun _ _ _ => False)
    (fun w s' h' => w = Halted /\ exists src size dtb hb r,
       handoff_ready sample_build (BT0_head "") sample_env [] src size dtb hb /\
       grows (Call (c_handoff src size dtb) r :: hb) h').
Proof.
  assert (head_ok (BT0_head "")) as Hh.
  { split; [cbn; lia|]. repeat constructor; cbn; try lia. }
  split; [exact Hh|].
  eapply wp_conseq; [exact (main_hands_over_safely sample_build (BT0_head "") sample_env sample_state [] Hh sample_pkg_ok)|done|].
  intros w s' h' (-> & hs & hc & r & Hw & _ & G1 & ->). split; [done|].
  assert (grows hs (Call (c_jmp FEL_BASE) r :: hc)) as G by by apply grows_cons.
  destruct Hw as [(hb & Hr & _)|(src & size & dtb & hb & r' & Hr & _ & G2)].
  - exfalso. assert (forall x c h1 h2, ends sample_env (call c) x h1 h2 -> x = env_ret sample_env [] c) as Hc.
    { intros x c h1 h2 (s1 & s2 & _ & E). by destruct c; injection E. }
    assert (forall x h1 h2, ends sample_env get_uart_input x h1 h2 -> x = 0) as Hk.
    { intros x h1 h2 (s1 & s2 & _ & E). by injection E. }
    destruct Hr as [x h1 h2 _ E Hx|x h1 h2 _ E Hx|x h1 h2 _ E Hx|h1 h2 h3 _ _ E|h1 h2 h3 _ _ E|d h1 h2 h3 _ _ E
                   |d x h1 h2 h3 _ _ E Hx|d st ub mb images h1 h2 _ E Hx|d images h1 _ Hx].
    + by apply Hx, (sample_board _ _ _ E).
    + by apply Hx, (sample_clock _ _ _ E).
    + by apply Hx, (Hc _ _ _ _ E).
    + by discriminate (Hk _ _ _ E).
    + by discriminate (Hc _ _ _ _ E).
    + by discriminate (Hk _ _ _ E).
    + by apply Hx, (Hc _ _ _ _ E).
    + by apply Hx, (sample_load _ _ _ _ _ _ E).
    + destruct Hx as [Hx|Hx]; revert Hx; vm_compute; discriminate.
  - exists src, size, dtb, hb, r'. split; [exact Hr|]. exact (grows_trans _ _ _ G2 G).
Defined.
