(* ===== verification/Firmware.v ===== *)
(** * The AR100 firmware's shared vocabulary (src/ar100s)

    Status codes, the statics of a component as a part of the firmware's whole
    state, the privileged instructions, debug output, and registers that are
    accessed both as bytes and as words.  The critical sections of
    arch/riscv/cpu/e907/{cpu_c,e907_com}.c are at the end. *)

From Stdlib Require Import String.
From S2P Require Import Prelude Machine Console.

(** ** Status codes (include/types.h, include/error.h) *)

Definition OK : Z := 0.
Definition FAIL : Z := -1.
Definition ESRCH : Z := 3.
Definition E2BIG : Z := 7.
Definition EACCES : Z := 13.
Definition ENODEV : Z := 19.
Definition EINVAL : Z := 22.
Definition ENOSPC : Z := 28.
Definition ETIMEOUT : Z := 35.
Definition EFAIL : Z := 36.

(** ** Statics *)

(** [T] is one component's statics inside the firmware's state [S]. *)
Class Part (T S : Type) := {
  part : S -> T;
  set_part : T -> S -> S;
  part_set : forall t s, part (set_part t s) = t;
  set_set : forall t t' s, set_part t' (set_part t s) = set_part t' s;
  set_same : forall s, set_part (part s) s = s
}.

(** Storing one component's statics leaves another's alone. *)
Class Apart (T U S : Type) `{!Part T S} `{!Part U S} :=
  part_other : forall (t : T) (s : S), part (T := U) (set_part t s) = part s.

(** A component on its own is the whole state. *)
#[export, refine] Instance whole_part T : Part T T | 100 := {| part s := s; set_part t _ := t |}.
Proof. all: done. Defined.

Section Access.
Context {C S T : Type} `{HPart : !Part T S}.

Definition getp : M C S T := fun _ s h => Done (part s) s h.
Definition putp (t : T) : M C S unit := fun _ s h => Done tt (set_part t s) h.

Lemma wp_getp e (s : S) h (Q : T -> S -> history C -> Prop) K :
  Q (part s) s h -> wp getp e s h Q K.
Proof. done. Qed.

Lemma wp_putp t e (s : S) h (Q : unit -> S -> history C -> Prop) K :
  Q tt (set_part t s) h -> wp (putp t) e s h Q K.
Proof. done. Qed.
End Access.

(** A program on one component's statics, inside the firmware's state. *)
Definition on_part {C T S A} `{!Part T S} (p : M C T A) : M C S A := fun e s h =>
  match p e (part s) h with
  | Done a t h => Done a (set_part t s) h
  | Stop w t h => Stop w (set_part t s) h
  end.

Lemma wp_on_part {C T S A} `{!Part T S} (p : M C T A) e (s : S) (h : history C)
  (Q : A -> S -> history C -> Prop) K :
  wp p e (part s) h (fun a t h => Q a (set_part t s) h) (fun w t h => K w (set_part t s) h) ->
  wp (on_part p) e s h Q K.
Proof. unfold wp, on_part. by destruct (p e (part s) h). Qed.

(** One step of symbolic execution, statics included. *)
Ltac fw_step :=
  lazymatch goal with
  | |- wp getp _ _ _ _ _ => apply wp_getp
  | |- wp (putp _) _ _ _ _ _ => apply wp_putp
  | |- wp (printf _ _) _ _ _ _ _ => apply wp_printf; intros ?r
  | _ => wp_step
  end; cbv beta.
Ltac fw_steps := repeat fw_step.

(** ** Debug output (include/dbgs.h, the switches of
    arch/configs/sun60iw2p1_defconfig) *)

Definition DEBUG_LEVEL_INF : Z := 1.
Definition DEBUG_LEVEL_LOG : Z := 2.
Definition DEBUG_LEVEL_WRN : Z := 4.
Definition DEBUG_LEVEL_ERR : Z := 8.

(** Each macro is [debugger_printf] at its level: the first argument of the
    event.  The switches all default to y in system/debugger/Kconfig, and the
    defconfig adds [INF].  [ASSERT] expands to nothing. *)
Definition INF {C S} `{HasPrintf C} (fmt : string) (args : list parg) : M C S unit :=
  printf fmt (N_ DEBUG_LEVEL_INF :: args).
Definition LOG {C S} `{HasPrintf C} (fmt : string) (args : list parg) : M C S unit :=
  printf fmt (N_ DEBUG_LEVEL_LOG :: args).
Definition WRN {C S} `{HasPrintf C} (fmt : string) (args : list parg) : M C S unit :=
  printf ("WRN:" ++ fmt) (N_ DEBUG_LEVEL_WRN :: args).
Definition ERR {C S} `{HasPrintf C} (fmt : string) (args : list parg) : M C S unit :=
  printf ("ERR:" ++ fmt) (N_ DEBUG_LEVEL_ERR :: args).

Definition printk {C S} `{HasPrintf C} (fmt : string) (args : list parg) : M C S unit :=
  printf fmt (N_ 0xf :: args).

Arguments printk {C S _} fmt%_string_scope args%_list_scope.
Arguments INF {C S _} fmt%_string_scope args%_list_scope.
Arguments LOG {C S _} fmt%_string_scope args%_list_scope.
Arguments WRN {C S _} fmt%_string_scope args%_list_scope.
Arguments ERR {C S _} fmt%_string_scope args%_list_scope.

(** Nothing but messages. *)
Definition prints {C} `{HasPrintf C} (out : history C) : Prop :=
  Forall (fun ev => exists fmt args r, ev = Call (printf_call fmt args) r) out.

(** ** Privileged instructions *)

Inductive insn :=
| csrr_mstatus
| csrw_mstatus (v : Z)
| csrc_mstatus (mask : Z)
| csrc_mie (mask : Z)
| csrs_mstatus (mask : Z)
| insn_wfi
| csrr_mcause
| insn_nop.

Class HasInsn (C : Type) := insn_call : insn -> C.

(** The calls of a firmware part that needs nothing else. *)
Inductive fw_call :=
| Finsn (i : insn)
| Fprint (fmt : string) (args : list parg).
#[export] Instance fw_call_insn : HasInsn fw_call := Finsn.
#[export] Instance fw_call_printf : HasPrintf fw_call := Fprint.

Section Cpu.
Context {C S : Type} `{HInsn : !HasInsn C}.
Local Abbreviation M := (M C S).

Definition exec (i : insn) : M unit := let! _ := call (insn_call i) in ret tt.

Definition get_MSTATUS : M Z := let! v := call (insn_call csrr_mstatus) in ret (u32 v).
Definition set_MSTATUS (mstatus : Z) : M unit := exec (csrw_mstatus mstatus).
Definition get_MCAUSE : M Z := let! v := call (insn_call csrr_mcause) in ret (u32 v).
Definition disable_irq : M unit := exec (csrc_mstatus 8);; exec (csrc_mie 0x800).

Definition c906_irq_save : M Z :=
  let! result := get_MSTATUS in
  disable_irq;;
  ret result.
Definition c906_irq_restore (irq_state : Z) : M unit := set_MSTATUS irq_state.

Definition cpu_disable_int : M Z := let! r := c906_irq_save in ret (s32 r).
Definition cpu_enable_int (cpsr : Z) : M unit := c906_irq_restore (u32 cpsr).

Definition cpu_enable_global_int : M unit := exec (csrs_mstatus 8).
Definition wait_for_interrupt : M unit := exec insn_wfi.

(** [for (; cycles > 0; cycles--) nop] *)
Definition time_cdelay (cycles : Z) : M unit :=
  Nat.iter (Z.to_nat cycles) (fun k => exec insn_nop;; k) (ret tt).
End Cpu.

(** ** Polling

    [timeout = n; while (busy(readl(reg))) if (!--timeout) return -ETIMEOUT;]
    as the drivers write it: at most [n] reads. *)

Section Poll.
Context {C S : Type}.

Fixpoint poll (n : nat) (reg : Z) (busy : Z -> bool) : M C S Z :=
  match n with
  | O => ret (- ETIMEOUT)
  | Datatypes.S n =>
      let! v := readl reg in
      if busy v then poll n reg busy else ret OK
  end.

(** [while (busy(readl(reg)));], which the code does not bound. *)
Fixpoint spin (fuel : nat) (reg : Z) (busy : Z -> bool) : M C S unit :=
  match fuel with
  | O => stop_now OutOfFuel
  | Datatypes.S fuel =>
      let! v := readl reg in
      if busy v then spin fuel reg busy else ret tt
  end.

(** The hardware gives an idle answer within [n] reads. *)
Fixpoint settles (n : nat) (reg : Z) (busy : Z -> bool) (e : env C) (h : history C) : Prop :=
  match n with
  | O => False
  | Datatypes.S n =>
      let v := u32 (env_read e h reg) in
      busy v = false \/ settles n reg busy e (Rd reg v :: h)
  end.

Lemma spin_spec n reg busy e (s : S) h : settles n reg busy e h ->
  wp (spin n reg busy) e s h (fun _ s' h' => s' = s /\ exists v vs,
    h' = map (Rd reg) (v :: vs) ++ h /\ busy v = false /\ Forall (fun v => busy v = true) vs) total.
Proof.
  revert h. induction n as [|n IH]; intros h; cbn [settles spin]; [done|]. intros Hset.
  apply wp_bind, wp_readl. intros v _ ->. set (v := u32 (env_read e h reg)) in *.
  destruct (busy v) eqn:Hb.
  - destruct Hset as [|Hset]; [done|]. eapply wp_mono; [by apply IH|].
    intros _ s' h' (-> & w & vs & -> & Hw & Hvs). split; [done|]. exists w, (vs ++ [v]).
    split; [|split; [done|]; apply Forall_app; split; [done|by constructor]].
    cbn. by rewrite map_app, <- app_assoc.
  - apply wp_ret. split; [done|]. by exists v, [].
Qed.

(** At most [n] reads of the register: after the last one it is no longer
    busy, or all of them found it so. *)
Definition polled (reg : Z) (busy : Z -> bool) (n : nat) (r : Z) (h h' : history C) : Prop :=
  exists vs, h' = map (Rd reg) vs ++ h /\
    ((r = OK /\ (length vs <= n)%nat /\ exists v vs', vs = v :: vs' /\ busy v = false /\
        Forall (fun v => busy v = true) vs')
     \/ (r = - ETIMEOUT /\ length vs = n /\ Forall (fun v => busy v = true) vs)).

Lemma poll_spec n reg busy e (s : S) h :
  wp (poll n reg busy) e s h (fun r s' h' => s' = s /\ polled reg busy n r h h') total.
Proof.
  revert h. induction n as [|n IH]; intros h; cbn [poll].
  - apply wp_ret. split; [done|]. exists []. split; [done|]. right. by split_and!.
  - apply wp_bind, wp_readl. intros v _ _. destruct (busy v) eqn:Hb.
    + eapply wp_mono; [apply IH|]. intros r s' h' (-> & vs & -> & Hcase). split; [done|].
      exists (vs ++ [v]). rewrite map_app, <- app_assoc. split; [done|].
      assert (forall l, Forall (fun v => busy v = true) l -> Forall (fun v => busy v = true) (l ++ [v])) as Hsnoc.
      { intros l Hl. apply Forall_app. split; [done | by constructor]. }
      destruct Hcase as [(-> & Hlen & w & vs' & -> & Hw & Hall)|(-> & Hlen & Hall)].
      * left. split; [done|]. rewrite length_app. cbn [length] in *. split; [lia|].
        exists w, (vs' ++ [v]). split; [done|]. split; [done | by apply Hsnoc].
      * right. split; [done|]. rewrite length_app. cbn [length]. split; [lia | by apply Hsnoc].
    + apply wp_ret. split; [done|]. exists [v]. split; [done|]. left. split; [done|]. cbn [length].
      split; [lia|]. by exists v, [].
Qed.
End Poll.

(** ** Registers accessed as bytes and as words *)

Section Bytes.
Context {C : Type}.

(** Byte [i] of a little-endian word. *)
Definition word_byte (v i : Z) : Z := Z.shiftr v (8 * i) mod 256.

(** What a byte register holds after a history. *)
Fixpoint byteval (init : Z -> Z) (h : history C) (a : Z) : Z :=
  match h with
  | [] => init a
  | Wrb a' v :: h => if a =? a' then v else byteval init h a
  | Wr a' v :: h =>
      if (a' <=? a) && (a <? a' + 4) then word_byte v (a - a') else byteval init h a
  | _ :: h => byteval init h a
  end.

(** The hardware returns from byte [a] what was last written there. *)
Definition bplain (e : env C) (init : Z -> Z) (a : Z) : Prop :=
  is_u8 (init a) /\ forall h, env_read e h a = byteval init h a.

(** [h'] continues [h] without a write that reaches byte [a]. *)
Fixpoint bsilent (a : Z) (new : history C) : Prop :=
  match new with
  | [] => True
  | Wrb a' _ :: new => a <> a' /\ bsilent a new
  | Wr a' _ :: new => ~ (a' <= a < a' + 4) /\ bsilent a new
  | _ :: new => bsilent a new
  end.

Lemma byteval_silent init new h a :
  bsilent a new -> byteval init (new ++ h) a = byteval init h a.
Proof.
  induction new as [|ev new IH]; [done|]. destruct ev; cbn; try exact IH.
  - intros [Ha Hn]. destruct (Z.leb_spec a0 a); cbn; [|by apply IH].
    destruct (Z.ltb_spec a (a0 + 4)); [lia | by apply IH].
  - intros [Ha Hn]. destruct (Z.eqb_spec a a0); [done | by apply IH].
Qed.

Lemma word_byte_u8 v i : is_u8 (word_byte v i).
Proof. unfold is_u8, word_byte. apply Z.mod_pos_bound. lia. Qed.
End Bytes.

(** ** The critical section *)

Section CpuProps.
Context {C S : Type} `{HInsn : !HasInsn C}.

(** What a critical section with body events [body] leaves in the history:
    the saved status is the one put back. *)
Definition critical (body h : history C) (mstatus r1 r2 r3 : Z) : history C :=
  Call (insn_call (csrw_mstatus (u32 mstatus))) r3
    :: body ++ Call (insn_call (csrc_mie 0x800)) r2
    :: Call (insn_call (csrc_mstatus 8)) r1
    :: Call (insn_call csrr_mstatus) mstatus :: h.

Lemma u32_s32 z : u32 (s32 z) = u32 z.
Proof.
  unfold s32. assert (u32 (u32 z) = u32 z) as Hu by apply u32_id, u32_range.
  destruct (Z.ltb_spec (u32 z) (2 ^ 31)); [done|].
  unfold u32 at 1. replace (u32 z - 2 ^ 32) with (u32 z + -1 * 2 ^ 32) by lia.
  rewrite Z_mod_plus_full. exact Hu.
Qed.
End CpuProps.
