(* ===== verification/Notifier.v ===== *)
(** * The notifier manager (src/ar100s/system/notifier/notifier.c)

    Callback lists threaded through a fixed table of eight entries.  A pointer
    to an entry is its index, NULL is [None]; a list is known by its head
    variable, which the operations take and give back. *)

From Stdlib Require Import String.
From S2P Require Import Prelude Machine Console Firmware.

Local Open Scope string_scope.
Local Open Scope list_scope.
Local Open Scope Z_scope.

Definition NOTIFIER_USED : Z := 1.
Definition NOTIFIER_FREE : Z := 0.
Definition NOTIFIER_MAX : nat := 8.

(** [struct notifier]; [pcb] is the address of a callback. *)
Record notifier := Notifier {
  flag : Z;
  pcb : Z;
  next : option nat
}.

Definition set_flag (v : Z) (n : notifier) : notifier := Notifier v (pcb n) (next n).
Definition set_next (p : option nat) (n : notifier) : notifier := Notifier (flag n) (pcb n) p.

(** The index the scan of [notifier_alloc] stops at. *)
Fixpoint first_free (t : list notifier) : option nat :=
  match t with
  | [] => None
  | n :: t => if flag n =? NOTIFIER_FREE then Some O else S <$> first_free t
  end.

Section Notifier.
Context {C S : Type} `{HPart : !Part (list notifier) S} `{HInsn : !HasInsn C}
  `{HPrint : HasPrintf C}.
Local Abbreviation M := (M C S).

(** The table of the file, [static struct notifier notifiers[NOTIFIER_MAX]]. *)
Definition notifiers : M (list notifier) := getp.
Definition put_notifiers (t : list notifier) : M unit := putp t.

(** Access through a pointer; outside the table it is undefined. *)
Definition load (p : nat) : M notifier :=
  let! t := notifiers in
  match t !! p with Some n => ret n | None => stop_now Undefined end.
Definition modify (p : nat) (f : notifier -> notifier) : M unit :=
  let! t := notifiers in
  match t !! p with
  | Some n => put_notifiers (<[p := f n]> t)
  | None => stop_now Undefined
  end.

Definition notifier_init : M Z :=
  let! t := notifiers in
  put_notifiers (map (set_flag NOTIFIER_FREE) t);;
  ret OK.

Definition notifier_exit : M Z := ret OK.

Definition notifier_alloc : M (option nat) :=
  let! cpsr := cpu_disable_int in
  let! t := notifiers in
  let notifier := first_free t in
  match notifier with
  | Some i => modify i (set_flag NOTIFIER_USED)
  | None => ret tt
  end;;
  cpu_enable_int cpsr;;
  ret notifier.

Definition notifier_free (notifier : option nat) : M unit :=
  match notifier with
  | Some i => modify i (fun n => set_next None (set_flag NOTIFIER_FREE n))
  | None => ret tt
  end.

(** Status and the new [*head]. *)
Definition notifier_insert (head : option nat) (cb : Z) : M (Z * option nat) :=
  let! notifier := notifier_alloc in
  match notifier with
  | None => WRN "allocate notifier failed\n" [];; ret (- ENOSPC, head)
  | Some i =>
      modify i (fun n => Notifier (flag n) cb (next n));;
      modify i (set_next head);;
      ret (OK, Some i)
  end.

(** The [while (pnext)] loop: the entry unlinked, if any. *)
Fixpoint delete_loop (fuel : nat) (pprev : nat) (pnext : option nat) (cb : Z)
  : M (option nat) :=
  match pnext with
  | None => ret None
  | Some p =>
      match fuel with
      | O => stop_now OutOfFuel
      | Datatypes.S fuel =>
          let! n := load p in
          if pcb n =? cb then
            modify pprev (set_next (next n));;
            ret (Some p)
          else delete_loop fuel p (next n) cb
      end
  end.

Definition notifier_delete (head : option nat) (cb : Z) : M (Z * option nat) :=
  match head with
  | None => ret (- ENODEV, head)
  | Some pprev =>
      let! first := load pprev in
      let! found :=
        match next first with
        | None =>
            if pcb first =? cb then ret (Some pprev, None) else ret (None, head)
        | Some _ =>
            let! target := delete_loop NOTIFIER_MAX pprev (next first) cb in
            ret (target, head)
        end in
      let '(target, head) := found in
      match target with
      | None => ret (- EFAIL, head)
      | Some _ => notifier_free target;; ret (OK, head)
      end
  end.

(** What a call through a callback's address does. *)
Context (call_pcb : Z -> Z -> Z -> M Z).

(** The [while (notifier)] loop; [next] is read after the callback. *)
Fixpoint notify_loop (fuel : nat) (notifier : option nat) (command aux : Z) : M unit :=
  match notifier with
  | None => ret tt
  | Some p =>
      match fuel with
      | O => stop_now OutOfFuel
      | Datatypes.S fuel =>
          let! n := load p in
          let! _ := call_pcb (pcb n) command aux in
          let! n := load p in
          notify_loop fuel (next n) command aux
      end
  end.

Definition notifier_notify (head : option nat) (command aux : Z) : M Z :=
  notify_loop NOTIFIER_MAX head command aux;;
  ret OK.
End Notifier.
