(* ===== verification/NotifierProps.v ===== *)
(** * The notifier lists are lists

    A representation predicate links the table to lists of callbacks; each
    operation is then an operation on lists, and lists that share the table do
    not disturb each other: any sequence of registrations and removals has the
    statuses of a specification on lists of callbacks. *)

From Stdlib Require String.
From S2P Require Import Prelude Machine Console Firmware Notifier.

(** ** Representation *)

(** From [head], the table holds the entries [l], as (index, callback). *)
Fixpoint chain (t : list notifier) (head : option nat) (l : list (nat * Z)) : Prop :=
  match l with
  | [] => head = None
  | (i, f) :: l => head = Some i /\
      exists n, t !! i = Some n /\ flag n = NOTIFIER_USED /\ pcb n = f /\ chain t (next n) l
  end.

(** A list of the table, each entry once. *)
Definition holds (t : list notifier) (head : option nat) (l : list (nat * Z)) : Prop :=
  chain t head l /\ NoDup l.*1.

Lemma chain_bound t head l i : chain t head l -> i ∈ l.*1 -> (i < length t)%nat.
Proof.
  revert head. induction l as [|[j f] l IH]; intros head; cbn; [by intros _ ?%elem_of_nil|].
  intros (-> & n & Hn & _ & _ & Hl) [->|Hi]%elem_of_cons; [|by eapply IH].
  by apply lookup_lt_Some in Hn.
Qed.

(** The table bounds the length of its lists. *)
Lemma holds_length t head l : holds t head l -> (length l <= length t)%nat.
Proof.
  intros [Hc Hd]. rewrite <- (length_fmap fst l).
  assert (l.*1 ⊆+ seq 0 (length t)) as Hs%submseteq_length; [|by rewrite length_seq in Hs].
  apply NoDup_submseteq; [done|].
  intros i Hi. apply elem_of_seq. apply (chain_bound t head l i) in Hc; [lia | done].
Qed.

(** Entries outside a list do not matter to it. *)
Lemma chain_insert_ne t head l i n :
  i ∉ l.*1 -> chain t head l -> chain (<[i := n]> t) head l.
Proof.
  revert head. induction l as [|[j f] l IH]; intros head; cbn; [done|].
  intros [Hij Hi]%not_elem_of_cons (-> & m & Hm & Hu & Hf & Hl). split; [done|].
  exists m. split; [by rewrite list_lookup_insert_ne by done|]. naive_solver.
Qed.

Lemma chain_ext t t' head l :
  (forall j, j ∈ l.*1 -> t' !! j = t !! j) -> chain t head l -> chain t' head l.
Proof.
  revert head. induction l as [|[j f] l IH]; intros head Hj; cbn; [done|].
  intros (-> & m & Hm & Hu & Hf & Hl). split; [done|]. exists m.
  split; [by rewrite Hj by (by left)|]. split_and!; [done|done|].
  apply IH; [|done]. intros k Hk. apply Hj. by right.
Qed.

Lemma chain_free t head l i n :
  chain t head l -> t !! i = Some n -> flag n = NOTIFIER_FREE -> i ∉ l.*1.
Proof.
  revert head. induction l as [|[j f] l IH]; intros head; cbn; [intros _ _ _; apply not_elem_of_nil|].
  intros (-> & m & Hm & Hu & _ & Hl) Hi Hf. apply not_elem_of_cons. split; [|by eapply IH].
  intros ->. rewrite Hm in Hi. injection Hi as ->. rewrite Hu in Hf. discriminate.
Qed.

Lemma first_free_Some t i :
  first_free t = Some i -> exists n, t !! i = Some n /\ flag n = NOTIFIER_FREE.
Proof.
  revert i. induction t as [|n t IH]; intros i; cbn; [done|].
  destruct (Z.eqb_spec (flag n) NOTIFIER_FREE) as [Hf|].
  - intros [= <-]. by exists n.
  - destruct (first_free t) as [j|]; [|done]. intros [= <-]. apply IH. done.
Qed.

Lemma first_free_None t n :
  first_free t = None -> n ∈ t -> flag n <> NOTIFIER_FREE.
Proof.
  induction t as [|m t IH]; cbn; [by intros _ ?%elem_of_nil|].
  destruct (Z.eqb_spec (flag m) NOTIFIER_FREE) as [|Hm]; [done|].
  destruct (first_free t); [done|]. intros _ [->|Hn]%elem_of_cons; [done | by apply IH].
Qed.

(** ** Lists as the operations see them *)

(** The list without the first entry for callback [f]. *)
Fixpoint remove_first (f : Z) (l : list (nat * Z)) : option (nat * list (nat * Z)) :=
  match l with
  | [] => None
  | (i, g) :: l =>
      if g =? f then Some (i, l)
      else match remove_first f l with
           | Some (k, l') => Some (k, (i, g) :: l')
           | None => None
           end
  end.

(** What [notifier_delete] does to a list: its status, the entry freed, the
    list left.  The first of several entries is never looked at. *)
Definition delete_spec (f : Z) (l : list (nat * Z)) : Z * option nat * list (nat * Z) :=
  match l with
  | [] => (- ENODEV, None, [])
  | [(i, g)] => if g =? f then (OK, Some i, []) else (- EFAIL, None, l)
  | x :: rest =>
      match remove_first f rest with
      | Some (k, rest') => (OK, Some k, x :: rest')
      | None => (- EFAIL, None, l)
      end
  end.

Lemma remove_first_spec f l k l' :
  remove_first f l = Some (k, l') ->
  exists l1 l2, l = l1 ++ (k, f) :: l2 /\ l' = l1 ++ l2 /\ f ∉ l1.*2.
Proof.
  revert l'. induction l as [|[i g] l IH]; intros l'; cbn; [done|].
  destruct (Z.eqb_spec g f) as [->|Hg].
  - intros [= <- <-]. exists [], l. split_and!; [done|done|apply not_elem_of_nil].
  - destruct (remove_first f l) as [[k1 l1]|]; [|done]. intros [= <- <-].
    destruct (IH _ eq_refl) as (a & b & -> & -> & Ha).
    exists ((i, g) :: a), b. split_and!; [done|done|]. cbn. apply not_elem_of_cons. done.
Qed.

Section Props.
Context {C S : Type} `{HPart : !Part (list notifier) S} `{HInsn : !HasInsn C}.
Local Abbreviation M := (M C S).
Implicit Types (e : env C) (s : S) (h : history C).

(** ** The pointer operations *)

Lemma wp_load p n e s h (Q : notifier -> S -> history C -> Prop) K :
  part s !! p = Some n -> Q n s h -> wp (load p) e s h Q K.
Proof. intros Hp HQ. unfold load, notifiers. fw_steps. rewrite Hp. by fw_steps. Qed.

Lemma wp_modify p f n e s h (Q : unit -> S -> history C -> Prop) K :
  part s !! p = Some n -> Q tt (set_part (<[p := f n]> (part s)) s) h ->
  wp (modify p f) e s h Q K.
Proof.
  intros Hp HQ. unfold modify, notifiers, put_notifiers. fw_steps. rewrite Hp. by fw_steps.
Qed.

Lemma wp_alloc e s h (Q : option nat -> S -> history C -> Prop) :
  (forall v r1 r2 r3,
    let h' := critical [] h v r1 r2 r3 in
    match first_free (part s) with
    | Some i => forall n, part s !! i = Some n -> flag n = NOTIFIER_FREE ->
        Q (Some i) (set_part (<[i := set_flag NOTIFIER_USED n]> (part s)) s) h'
    | None => Q None s h'
    end) -> wp notifier_alloc e s h Q total.
Proof.
  intros HQ. unfold notifier_alloc, cpu_disable_int, c906_irq_save, get_MSTATUS, disable_irq, exec, notifiers.
  fw_steps. cbv zeta in HQ.
  destruct (first_free (part s)) as [i|] eqn:Ef.
  - destruct (first_free_Some _ _ Ef) as (n & Hn & Hf). eapply wp_modify; [done|].
    unfold cpu_enable_int, c906_irq_restore, set_MSTATUS, exec. fw_steps.
    rewrite u32_s32, (u32_id (u32 r)) by apply u32_range. by apply (HQ r r0 r1 _).
  - fw_steps. unfold cpu_enable_int, c906_irq_restore, set_MSTATUS, exec. fw_steps.
    rewrite u32_s32, (u32_id (u32 r)) by apply u32_range. by apply (HQ r r0 r1 _).
Qed.

(** ** Unlinking *)

Lemma delete_loop_spec cb l fuel pprev g pnext e s h :
  (length l <= fuel)%nat ->
  chain (part s) (Some pprev) ((pprev, g) :: l) -> NoDup (pprev :: l.*1) ->
  (exists n, part s !! pprev = Some n /\ next n = pnext) ->
  wp (delete_loop fuel pprev pnext cb) e s h (fun target s' h' => h' = h /\
    match remove_first cb l with
    | None => target = None /\ s' = s
    | Some (k, l') => target = Some k /\ exists t', s' = set_part t' s /\
        chain t' (Some pprev) ((pprev, g) :: l') /\ t' !! k = part s !! k /\
        length t' = length (part s) /\
        forall j, j ∉ pprev :: l.*1 -> t' !! j = part s !! j
    end) total.
Proof.
  revert fuel pprev g pnext. induction l as [|[p f] l IH];
    intros fuel pprev g pnext Hfuel (_ & n & Hn & Hu & Hg & Hl) Hd (n' & Hn' & <-);
    rewrite Hn in Hn'; injection Hn' as <-.
  - cbn in Hl. destruct fuel; cbn [delete_loop]; rewrite Hl; by apply wp_ret.
  - destruct fuel as [|fuel]; [cbn in Hfuel; lia|]. destruct Hl as (Hp & m & Hm & Hmu & Hmf & Hml).
    cbn [delete_loop]. rewrite Hp. apply wp_bind. eapply wp_load; [exact Hm|].
    rewrite Hmf. cbn [remove_first fmap list_fmap] in *. apply NoDup_cons in Hd as [Hpp Hd].
    destruct (Z.eqb_spec f cb) as [->|Hne].
    + apply wp_bind. eapply wp_modify; [exact Hn|]. apply wp_ret. split_and!; [done|done|].
      eexists. split; [done|]. apply not_elem_of_cons in Hpp as [Hpp Hpl].
      split_and!; [|by apply list_lookup_insert_ne|by rewrite length_insert|].
      * split; [done|]. exists (set_next (next m) n).
        split; [apply list_lookup_insert_eq; by apply lookup_lt_Some in Hn|].
        split_and!; [done|done|]. cbn. by apply chain_insert_ne.
      * intros j [Hj _]%not_elem_of_cons. by apply list_lookup_insert_ne.
    + eapply wp_mono.
      { apply (IH fuel p f); [cbn in Hfuel; lia | | exact Hd | by exists m].
        split; [done|]. by exists m. }
      intros target s' h' [-> Hres]. split; [done|].
      destruct (remove_first cb l) as [[k l']|]; [|exact Hres].
      destruct Hres as (-> & t' & -> & Hc & Hk & Hlen & Hfr). split; [done|].
      exists t'. split_and!; [done| |done|done|].
      * split; [done|]. exists n. rewrite Hfr by done. split_and!; [done..|]. by rewrite Hp.
      * intros j Hj. apply Hfr. by apply not_elem_of_cons in Hj as [_ ?].
Qed.

Lemma holds_frame t t' head l (js : list nat) :
  (forall j, j ∉ js -> t' !! j = t !! j) -> l.*1 ## js -> holds t head l -> holds t' head l.
Proof.
  intros Hj Hdis [Hc Hd]. split; [|done]. eapply chain_ext; [|exact Hc].
  intros j Hin. apply Hj. intros Hjs. by apply (Hdis j).
Qed.

(** Freeing an entry that no list of interest uses. *)
Lemma wp_free k n e s h :
  part s !! k = Some n ->
  wp (notifier_free (Some k)) e s h (fun _ s' h' => h' = h /\ exists t',
    s' = set_part t' s /\ length t' = length (part s) /\
    (exists n', t' !! k = Some n' /\ flag n' = NOTIFIER_FREE) /\
    (forall j, j <> k -> t' !! j = part s !! j) /\
    forall head l, k ∉ l.*1 -> holds (part s) head l -> holds t' head l) total.
Proof.
  intros Hk. unfold notifier_free. eapply wp_modify; [exact Hk|]. split; [done|].
  eexists. split_and!; [done|apply length_insert| | |].
  - eexists. split; [apply list_lookup_insert_eq; by apply lookup_lt_Some in Hk | done].
  - intros j Hj. by rewrite list_lookup_insert_ne.
  - intros head l Hl [Hc Hd]. split; [by apply chain_insert_ne | done].
Qed.
End Props.

(** ** The operations refine operations on lists *)

(** [notifier_insert] puts the callback in front of the list in an entry
    that was free, every other list of the table and the old list itself
    staying as they were; only when all entries are taken does it fail, with
    -ENOSPC, a warning and nothing changed.  The scan runs with interrupts masked and the
    saved status is restored. *)
Theorem notifier_insert_refines {C S : Type} `{HPart : !Part (list notifier) S} `{HInsn : !HasInsn C}
  `{HPrint : HasPrintf C}
  (head : option nat) (cb : Z) l e s (h : history C) :
  holds (part s) head l ->
  wp (notifier_insert head cb) e s h (fun '(st, head') s' h' => exists t',
    s' = set_part t' s /\ length t' = length (part s) /\
    (exists out v r1 r2 r3, h' = out ++ critical [] h v r1 r2 r3 /\ prints out) /\
    ((st = OK /\ exists i n, part s !! i = Some n /\ flag n = NOTIFIER_FREE /\
        holds t' head' ((i, cb) :: l) /\ (forall j, j <> i -> t' !! j = part s !! j) /\
        forall head2 l2, holds (part s) head2 l2 -> (i ∉ l2.*1) /\ holds t' head2 l2)
     \/ (st = - ENOSPC /\ head' = head /\ t' = part s /\
         forall n, n ∈ part s -> flag n <> NOTIFIER_FREE))) total.
Proof.
  intros Hl. unfold notifier_insert. apply wp_bind, wp_alloc. intros v r1 r2 r3. cbv zeta.
  destruct (first_free (part s)) as [i|] eqn:Ef.
  - intros n Hn Hf. assert (i < length (part s))%nat as Hi by by apply lookup_lt_Some in Hn.
    assert (forall head2 l2, holds (part s) head2 l2 -> i ∉ l2.*1) as Hfresh.
    { intros head2 l2 [Hc _]. by eapply chain_free. }
    apply wp_bind. eapply wp_modify; [rewrite part_set; by apply list_lookup_insert_eq|].
    rewrite part_set, list_insert_insert_eq, set_set.
    apply wp_bind. eapply wp_modify; [rewrite part_set; by apply list_lookup_insert_eq|].
    rewrite part_set, list_insert_insert_eq, set_set. apply wp_ret.
    eexists. split; [done|]. split; [apply length_insert|].
    split; [exists [], v, r1, r2, r3; split; [done | constructor]|]. left. split; [done|].
    exists i, n. split_and!; [done|done| | |].
    + split; [|apply NoDup_cons; split; [by eapply Hfresh | apply Hl]].
      split; [done|]. eexists. split; [by apply list_lookup_insert_eq|].
      split_and!; [done|done|]. cbn. apply chain_insert_ne; [by eapply Hfresh | apply Hl].
    + intros j Hj. by apply list_lookup_insert_ne.
    + intros head2 l2 H2. split; [by eapply Hfresh|].
      split; [apply chain_insert_ne; [by eapply Hfresh | apply H2] | apply H2].
  - unfold WRN. fw_steps. exists (part s). split_and!; [by rewrite set_same|done| |].
    { eexists [_], _, _, _, _. split; [done|]. apply Forall_singleton. by eexists _, _, _. }
    right. split_and!; [done..|]. intros n. by apply first_free_None.
Qed.

(** An entry taken out of the middle is gone, and the rest stay apart. *)
Lemma taken_out (x y : nat * Z) (l1 l2 : list (nat * Z)) :
  NoDup ((x :: l1 ++ y :: l2).*1) -> y.1 ∉ ((x :: l1 ++ l2).*1) /\ NoDup ((x :: l1 ++ l2).*1).
Proof.
  rewrite !fmap_cons, !fmap_app, fmap_cons. intros [Hx Hd]%NoDup_cons. apply NoDup_app in Hd as (Hd1 & Hd12 & Hd2).
  apply NoDup_cons in Hd2 as [Hy Hd2]. rewrite elem_of_app, elem_of_cons in Hx. split.
  - rewrite not_elem_of_cons, not_elem_of_app. split_and!; [|intros Hk; apply (Hd12 _ Hk); by left|done]. intros E. apply Hx. auto.
  - apply NoDup_cons. rewrite elem_of_app. split; [tauto|]. apply NoDup_app. split_and!; [done| |done].
    intros z Hz Hz2. apply (Hd12 _ Hz). by right.
Qed.

(** [notifier_delete] does to the list what [delete_spec] says, status
    included: -ENODEV on an empty list, -EFAIL when the callback is not found
    where the code looks, otherwise the entry is unlinked and marked free;
    lists that share no entry with this one are untouched. *)
Theorem notifier_delete_exact {C S : Type} `{HPart : !Part (list notifier) S}
  (head : option nat) (cb : Z) l e s (h : history C) :
  holds (part s) head l -> length (part s) = NOTIFIER_MAX ->
  wp (notifier_delete head cb) e s h (fun '(st, head') s' h' =>
    let '(st0, freed, l') := delete_spec cb l in
    h' = h /\ st = st0 /\ exists t', s' = set_part t' s /\ holds t' head' l' /\
      match freed with
      | Some k => exists n, t' !! k = Some n /\ flag n = NOTIFIER_FREE
      | None => t' = part s
      end /\
      length t' = length (part s) /\ (forall j, j ∉ l.*1 -> t' !! j = part s !! j) /\
      forall head2 l2, l2.*1 ## l.*1 -> holds (part s) head2 l2 -> holds t' head2 l2) total.
Proof.
  intros Hh Hlen. assert (Hbound := holds_length _ _ _ Hh). destruct Hh as [Hc Hd].
  unfold notifier_delete. destruct l as [|[i g] rest].
  { rewrite Hc. apply wp_ret. split_and!; [done|done|]. exists (part s).
    rewrite set_same. split_and!; [done|by split|done..]. }
  destruct Hc as (-> & n & Hn & Hu & Hg & Hr). apply wp_bind. eapply wp_load; [exact Hn|].
  apply wp_bind. destruct rest as [|[j f] rest].
  - cbn in Hr. rewrite Hr, Hg. cbn [delete_spec].
    destruct (Z.eqb_spec g cb) as [->|]; fw_steps.
    + eapply wp_mono; [eapply wp_free; exact Hn|]. intros _ s1 h1 (-> & t' & -> & Hlen1 & Hk & Hrest & Hother).
      apply wp_ret. split_and!; [done|done|]. exists t'. split_and!; [done|split; [done|constructor]|done|done| |].
      { intros j Hj. apply Hrest. intros ->. apply Hj. by left. }
      intros head2 l2 Hdis H2. apply Hother; [|done]. intros Hi. apply (Hdis i Hi). by left.
    + split_and!; [done|done|]. exists (part s). rewrite set_same.
      split_and!; [done| |done..]. split; [|exact Hd]. split; [done|]. by exists n.
  - assert (Hnext := proj1 Hr). rewrite Hnext. apply wp_bind.
    eapply wp_mono.
    { apply (delete_loop_spec cb ((j, f) :: rest) NOTIFIER_MAX i g).
      - cbn in Hbound |- *. lia.
      - split; [done|]. by exists n.
      - exact Hd.
      - by exists n. }
    intros target s1 h1 [-> Hres]. fw_steps. unfold delete_spec.
    destruct (remove_first cb ((j, f) :: rest)) as [[k l']|] eqn:Er.
    + destruct Hres as (-> & t1 & -> & Hc1 & Hk & Hlen1 & Hfr).
      destruct (remove_first_spec _ _ _ _ Er) as (l1 & l2 & Heq & -> & _).
      assert (k ∈ ((j, f) :: rest).*1) as Hin.
      { rewrite Heq, fmap_app. apply elem_of_app. right. by left. }
      assert (is_Some (t1 !! k)) as [nk Hnk].
      { rewrite Hk. apply lookup_lt_is_Some. eapply chain_bound; [|exact Hin]. exact Hr. }
      apply wp_bind. eapply wp_mono; [eapply wp_free; by rewrite part_set|].
      intros _ s2 h2 (-> & t2 & -> & Hlen2 & Hfree & Hrest & Hother). rewrite part_set in Hlen2, Hrest, Hother.
      apply wp_ret. split_and!; [done|done|]. exists t2. rewrite set_set.
      rewrite Heq in Hd. apply (taken_out (i, g)) in Hd as [Hkl Hd].
      split_and!; [done|by apply Hother|done|congruence| |].
      { intros q Hq. rewrite Hrest; [by apply Hfr|]. intros ->. apply Hq. by right. }
      intros head2 l3 Hdis H3. apply Hother; [intros Hk3; apply (Hdis k Hk3); by right|].
      eapply holds_frame; [exact Hfr|exact Hdis|exact H3].
    + destruct Hres as [-> ->]. apply wp_ret. split_and!; [done|done|]. exists (part s).
      rewrite set_same. split_and!; [done| |done..]. split; [|exact Hd]. split; [done|]. by exists n.
Qed.

(** ** Broadcasting *)

Fixpoint for_each {C S} (f : Z -> M C S Z) (l : list Z) : M C S unit :=
  match l with
  | [] => ret tt
  | x :: l => let! _ := f x in for_each f l
  end.

Lemma notify_loop_each {C S : Type} `{HPart : !Part (list notifier) S}
  (call_pcb : Z -> Z -> Z -> M C S Z) command aux :
  (forall f e s h, wp (call_pcb f command aux) e s h (fun _ s' _ => part s' = part s) (fun _ _ _ => True)) ->
  forall l fuel head e s h, (length l <= fuel)%nat -> chain (part s) head l ->
  notify_loop call_pcb fuel head command aux e s h
  = for_each (fun f => call_pcb f command aux) l.*2 e s h.
Proof.
  intros Hcb. induction l as [|[i f] l IH]; intros fuel head e s h Hfuel Hc.
  - cbn in Hc. subst head. by destruct fuel.
  - destruct fuel as [|fuel]; [cbn in Hfuel; lia|]. destruct Hc as (-> & n & Hn & _ & <- & Hl).
    cbn. unfold load, notifiers, getp, bind. rewrite Hn. cbn.
    specialize (Hcb (pcb n) e s h). unfold wp in Hcb.
    destruct (call_pcb (pcb n) command aux e s h) as [a s' h'|w s' h']; [|done].
    rewrite Hcb, Hn. cbn. apply IH; [cbn in Hfuel; lia | by rewrite Hcb].
Qed.

(** when callbacks leave the notifier table alone, broadcasting to a list
    is calling each of its callbacks once, from the latest registered to the
    first, with the command and argument: the very same run, and the loop over
    the pointers ends. *)
Theorem notifier_notify_in_order {C S : Type} `{HPart : !Part (list notifier) S}
  (call_pcb : Z -> Z -> Z -> M C S Z) (head : option nat) l command aux e s (h : history C) :
  holds (part s) head l -> length (part s) = NOTIFIER_MAX ->
  (forall f e s h, wp (call_pcb f command aux) e s h (fun _ s' _ => part s' = part s) (fun _ _ _ => True)) ->
  notifier_notify call_pcb head command aux e s h
  = (for_each (fun f => call_pcb f command aux) l.*2;; ret OK) e s h.
Proof.
  intros Hh Hlen Hcb. unfold notifier_notify, bind at 1 2.
  erewrite notify_loop_each; [done|exact Hcb| |apply Hh].
  rewrite <- Hlen. by eapply holds_length.
Qed.

(** ** A small firmware: two lists over one table *)

Definition empty_table : list notifier := repeat (Notifier NOTIFIER_FREE 0 None) NOTIFIER_MAX.

(** Entry 0 heads one list, entries 2 and 1 are another. *)
Definition two_lists : list notifier :=
  [Notifier NOTIFIER_USED 0x100 None; Notifier NOTIFIER_USED 0x200 None;
   Notifier NOTIFIER_USED 0x300 (Some 1%nat)] ++ repeat (Notifier NOTIFIER_FREE 0 None) 5.

Definition quiet_env {C} : env C := Env (fun _ _ => 0) (fun _ _ => 0) (fun _ _ => []).

Lemma two_lists_hold : holds two_lists (Some 2%nat) [(2%nat, 0x300); (1%nat, 0x200)].
Proof.
  split; [|by apply NoDup_cons; split; [by intros Hx; apply list_elem_of_singleton in Hx|apply NoDup_singleton]].
  split; [done|]. eexists. split_and!; [done..|]. split; [done|]. by eexists.
Qed.

Lemma notifier_insert_refines_witness :
  holds empty_table None [] /\
  wp (notifier_insert None 0x100) (quiet_env (C := fw_call)) empty_table [] (fun '(st, _) _ _ => st = OK) total.
Proof.
  assert (holds empty_table None []) as Hh by (split; [done | constructor]).
  split; [exact Hh|].
  eapply wp_mono; [exact (notifier_insert_refines (C := fw_call) None 0x100 [] quiet_env empty_table [] Hh)|].
  intros [st head'] s' h' (t' & _ & _ & _ & [[-> _]|(_ & _ & _ & Hno)]); [done|].
  exfalso. apply (Hno (Notifier NOTIFIER_FREE 0 None)); [left | reflexivity].
Defined.

Lemma notifier_delete_exact_witness :
  holds two_lists (Some 2%nat) [(2%nat, 0x300); (1%nat, 0x200)] /\
  wp (notifier_delete (Some 2%nat) 0x200) (quiet_env (C := fw_call)) two_lists []
    (fun '(st, _) _ _ => st = OK) total.
Proof.
  split; [exact two_lists_hold|].
  eapply wp_mono;
    [exact (notifier_delete_exact (C := fw_call) (Some 2%nat) 0x200 _ quiet_env two_lists [] two_lists_hold eq_refl)|].
  intros [st head'] s' h' (_ & -> & _). reflexivity.
Defined.

Lemma notifier_notify_in_order_witness :
  holds two_lists (Some 2%nat) [(2%nat, 0x300); (1%nat, 0x200)] /\
  notifier_notify (fun f c a => call (f, c, a)) (Some 2%nat) 7 0 quiet_env two_lists []
  = Done OK two_lists [Call (0x200, 7, 0) 0; Call (0x300, 7, 0) 0].
Proof.
  split; [exact two_lists_hold|].
  rewrite (notifier_notify_in_order (HPart := whole_part (list notifier))
             (fun f c a => call (f, c, a)) (Some 2%nat) _ 7 0 quiet_env two_lists []
             two_lists_hold eq_refl (fun f e s h => eq_refl)).
  reflexivity.
Defined.

(** The first callback of a list of two or more can never be deleted: the
    search starts behind it. *)
Lemma notifier_delete_skips_first {C S : Type} `{HPart : !Part (list notifier) S}
  (head : option nat) (i : nat) (f : Z) x rest e s (h : history C) :
  holds (part s) head ((i, f) :: x :: rest) -> length (part s) = NOTIFIER_MAX ->
  f ∉ (x :: rest).*2 ->
  wp (notifier_delete head f) e s h (fun '(st, _) s' h' => st = - EFAIL /\ s' = s) total.
Proof.
  intros Hh Hlen Hf. destruct Hh as [[-> (n & Hn & Hu & Hg & Hr)] Hd].
  unfold notifier_delete. apply wp_bind. eapply wp_load; [exact Hn|]. destruct x as [j g].
  rewrite (proj1 Hr). apply wp_bind, wp_bind. eapply wp_mono.
  { apply (delete_loop_spec f ((j, g) :: rest) NOTIFIER_MAX i f).
    - assert (Hb := holds_length (part s) (Some i) ((i, f) :: (j, g) :: rest)).
      rewrite Hlen in Hb. cbn in Hb |- *.
      enough (Datatypes.S (Datatypes.S (length rest)) <= NOTIFIER_MAX)%nat by lia. apply Hb. split; [|exact Hd].
      split; [done|]. by exists n.
    - split; [done|]. by exists n.
    - exact Hd.
    - exists n. split; [done|]. apply Hr. }
  intros target s1 h1 [-> Hres].
  destruct (remove_first f ((j, g) :: rest)) as [[k l']|] eqn:Er.
  { exfalso. apply Hf. destruct (remove_first_spec _ _ _ _ Er) as (l1 & l2 & -> & _).
    rewrite fmap_app. apply elem_of_app. right. by left. }
  destruct Hres as [-> ->]. by fw_steps.
Qed.

Local Open Scope list_scope.
Local Open Scope Z_scope.
Local Open Scope mach_scope.

(** ** Several lists in one table: the specification *)

(** A request of the client that owns the list of number [i]. *)
Inductive request :=
| Register (i : nat) (cb : Z)
| Remove (i : nat) (cb : Z).
Definition list_of (q : request) : nat := match q with Register i _ | Remove i _ => i end.

(** A list without the first occurrence of a callback. *)
Fixpoint without (f : Z) (l : list Z) : option (list Z) :=
  match l with
  | [] => None
  | g :: l => if g =? f then Some l else cons g <$> without f l
  end.
(** Removal from a list, newest callback first: of several, the newest cannot
    be removed. *)
Definition removed (f : Z) (l : list Z) : Z * list Z :=
  match l with
  | [] => (- ENODEV, [])
  | [g] => if g =? f then (OK, []) else (- EFAIL, l)
  | g :: rest => match without f rest with Some rest' => (OK, g :: rest') | None => (- EFAIL, l) end
  end.
(** One request when [n] callbacks are registered in all. *)
Definition answer (q : request) (n : nat) (l : list Z) : Z * list Z :=
  match q with
  | Register _ cb => if bool_decide (n < NOTIFIER_MAX)%nat then (OK, cb :: l) else (- ENOSPC, l)
  | Remove _ cb => removed cb l
  end.
Fixpoint answers (qs : list request) (lists : list (list Z)) : list Z * list (list Z) :=
  match qs with
  | [] => ([], lists)
  | q :: qs =>
      match lists !! list_of q with
      | None => answers qs lists
      | Some l =>
          let (st, l') := answer q (length (concat lists)) l in
          let (sts, lists') := answers qs (<[list_of q := l']> lists) in (st :: sts, lists')
      end
  end.

(** ** The clients *)

Section Table.
Context {C S : Type} `{HPart : !Part (list notifier) S} `{HInsn : !HasInsn C} `{HPrint : HasPrintf C}.
Implicit Types (s : S) (h : history C) (t : list notifier) (ls : list (list (nat * Z))).

(** Each keeps the head of its list. *)
Fixpoint serve (qs : list request) (heads : list (option nat)) : M C S (list Z * list (option nat)) :=
  match qs with
  | [] => ret ([], heads)
  | q :: qs =>
      match heads !! list_of q with
      | None => serve qs heads
      | Some head =>
          let! (st, head') := match q with
                              | Register _ cb => notifier_insert head cb
                              | Remove _ cb => notifier_delete head cb
                              end in
          let! (sts, heads') := serve qs (<[list_of q := head']> heads) in
          ret (st :: sts, heads')
      end
  end.

(** The table holds exactly the lists, each entry in one of them at most. *)
Record keeps t (heads : list (option nat)) ls : Prop := {
  keeps_size : length t = NOTIFIER_MAX;
  keeps_lists : Forall2 (holds t) heads ls;
  keeps_once : NoDup (concat ls).*1;
  keeps_used : forall k n, t !! k = Some n -> flag n <> NOTIFIER_FREE -> k ∈ (concat ls).*1
}.
Definition callbacks ls : list (list Z) := (fun l : list (nat * Z) => l.*2) <$> ls.

Lemma callbacks_length ls : length (concat (callbacks ls)) = length (concat ls).
Proof.
  unfold callbacks. induction ls as [|l ls IH]; [done|]. rewrite fmap_cons. cbn [concat]. by rewrite !length_app, length_fmap, IH.
Qed.

(** A list and the rest. *)
Lemma apart_from ls i l : ls !! i = Some l ->
  exists rest, concat ls ≡ₚ l ++ rest /\ (forall l', concat (<[i := l']> ls) ≡ₚ l' ++ rest) /\
    forall j l2, j <> i -> ls !! j = Some l2 -> forall x, x ∈ l2 -> x ∈ rest.
Proof.
  revert i. induction ls as [|l0 ls IH]; intros i Hi; [done|]. destruct i as [|i].
  - injection Hi as ->. exists (concat ls). split; [done|]. split; [done|]. intros [|j] l2 Hj Hl2 x Hx; [done|].
    apply list_elem_of_In, in_concat. exists l2. rewrite <- !list_elem_of_In. split; [by eapply list_elem_of_lookup_2|done].
  - destruct (IH i Hi) as (rest & H1 & H2 & H3). exists (l0 ++ rest). cbn. split; [|split].
    + rewrite H1. solve_Permutation.
    + intros l'. rewrite H2. solve_Permutation.
    + intros [|j] l2 Hj Hl2 x Hx; rewrite elem_of_app.
      * injection Hl2 as ->. by left.
      * right. apply (H3 j l2); [congruence|done..].
Qed.

Lemma keeps_bound t heads ls k : keeps t heads ls -> k ∈ (concat ls).*1 -> (k < NOTIFIER_MAX)%nat.
Proof.
  intros [Hlen Hl _ _] Hk. rewrite <- Hlen. clear Hlen. induction Hl as [|head l heads ls Hh _ IH]; [by apply elem_of_nil in Hk|].
  cbn in Hk. rewrite fmap_app, elem_of_app in Hk. destruct Hk as [Hk|Hk]; [|by apply IH]. eapply chain_bound; [apply Hh|done].
Qed.

(** One list changes: the others stay, and what it takes was nobody's. *)
Lemma keeps_step t t' heads ls i head' l l' :
  keeps t heads ls -> ls !! i = Some l -> length t' = NOTIFIER_MAX -> holds t' head' l' ->
  (forall head2 l2, l2.*1 ## l.*1 -> holds t head2 l2 -> holds t' head2 l2) ->
  (forall k, k ∈ l'.*1 -> k ∈ l.*1 \/ (k ∉ (concat ls).*1)) ->
  (forall k n, t' !! k = Some n -> flag n <> NOTIFIER_FREE -> k ∈ l'.*1 \/ ((k ∉ l.*1) /\ t !! k = Some n)) ->
  keeps t' (<[i := head']> heads) (<[i := l']> ls).
Proof.
  intros [Hsize Hlists Honce Hused] Hi Hlen Hh Hother Hnew Hflag. destruct (apart_from ls i l Hi) as (rest & H1 & H2 & H3).
  assert (NoDup (l ++ rest).*1) as Hd by by rewrite <- H1. rewrite fmap_app in Hd. apply NoDup_app in Hd as (_ & Hlr & Hrest).
  assert (forall k, k ∈ (concat ls).*1 <-> k ∈ l.*1 \/ k ∈ rest.*1) as Hin by (intros k; by rewrite H1, fmap_app, elem_of_app).
  constructor; [done| | |].
  - apply Forall2_same_length_lookup. rewrite !length_insert. split; [by eapply Forall2_length|].
    intros j x y Hx Hy. destruct (decide (j = i)) as [->|Hj].
    + assert (i < length ls)%nat as Hlt by by eapply lookup_lt_Some.
      assert (Hlt2 := Forall2_length _ _ _ Hlists). rewrite (list_lookup_insert_eq ls) in Hy by done.
      rewrite (list_lookup_insert_eq heads) in Hx by lia. by simplify_eq.
    + rewrite (list_lookup_insert_ne heads) in Hx by done.
      rewrite (list_lookup_insert_ne ls) in Hy by done. apply Hother; [|by eapply Forall2_lookup_lr].
      intros k Hk2 Hk. apply (Hlr k Hk). apply list_elem_of_fmap in Hk2 as (z & -> & Hz).
      apply list_elem_of_fmap. exists z. split; [done|]. by eapply H3.
  - rewrite (H2 l'), fmap_app. apply NoDup_app. split; [apply Hh|]. split; [|done]. intros k Hk Hr.
    destruct (Hnew k Hk) as [Hl|Hn]; [by apply (Hlr k)|]. apply Hn, Hin. by right.
  - intros k n Hk Hf. rewrite (H2 l'), fmap_app, elem_of_app. destruct (Hflag k n Hk Hf) as [|[Hl Hold]]; [by left|right].
    destruct (proj1 (Hin k) (Hused k n Hold Hf)); [done|done].
Qed.

(** ** The steps *)

Lemma keeps_room t heads ls i n : keeps t heads ls -> t !! i = Some n -> i ∉ (concat ls).*1 -> (length (concat ls) < NOTIFIER_MAX)%nat.
Proof.
  intros Hk Hi Hno. assert (i :: (concat ls).*1 ⊆+ seq 0 NOTIFIER_MAX) as Hs%submseteq_length.
  { apply NoDup_submseteq; [apply NoDup_cons; split; [done|apply Hk]|]. intros k Hin. apply elem_of_seq. split; [lia|].
    apply elem_of_cons in Hin as [->|Hin]; [|by apply (keeps_bound _ _ _ _ Hk)]. rewrite <- (keeps_size _ _ _ Hk). cbn.
    by eapply lookup_lt_Some. }
  rewrite length_seq in Hs. cbn in Hs. rewrite length_fmap in Hs. lia.
Qed.

Lemma keeps_full t heads ls : keeps t heads ls -> (forall n, n ∈ t -> flag n <> NOTIFIER_FREE) -> (NOTIFIER_MAX <= length (concat ls))%nat.
Proof.
  intros Hk Hall. assert (seq 0 NOTIFIER_MAX ⊆+ (concat ls).*1) as Hs%submseteq_length.
  { apply NoDup_submseteq; [apply NoDup_seq|]. intros k Hin. apply elem_of_seq in Hin.
    assert (is_Some (t !! k)) as [n Hn] by (apply lookup_lt_is_Some; rewrite (keeps_size _ _ _ Hk); lia).
    apply (keeps_used _ _ _ Hk k n Hn), Hall. by eapply list_elem_of_lookup_2. }
  by rewrite length_seq, length_fmap in Hs.
Qed.

Lemma delete_spec_removed f l : let '(st, freed, l') := delete_spec f l in
  removed f l.*2 = (st, l'.*2) /\ match freed with Some k => l ≡ₚ (k, f) :: l' | None => l' = l end.
Proof.
  assert (forall l, without f l.*2 = (fun kl : nat * list (nat * Z) => kl.2.*2) <$> remove_first f l) as Hw.
  { clear l. induction l as [|[i g] l IH]; [done|]. cbn. destruct (g =? f); [done|]. rewrite IH. by destruct (remove_first f l) as [[]|]. }
  destruct l as [|[i g] [|[j g2] rest]]; [done| |].
  - cbn. destruct (Z.eqb_spec g f) as [->|]; done.
  - change (delete_spec f ((i, g) :: (j, g2) :: rest)) with
      (match remove_first f ((j, g2) :: rest) with Some (k, rest') => (OK, Some k, (i, g) :: rest') | None => (- EFAIL, None, (i, g) :: (j, g2) :: rest) end).
    change (removed f ((i, g) :: (j, g2) :: rest).*2) with
      (match without f ((j, g2) :: rest).*2 with Some r => (OK, g :: r) | None => (- EFAIL, ((i, g) :: (j, g2) :: rest).*2) end).
    rewrite Hw. destruct (remove_first f ((j, g2) :: rest)) as [[k l']|] eqn:E; [|done]. split; [done|].
    apply remove_first_spec in E as (l1 & l2 & -> & -> & _). solve_Permutation.
Qed.
(** One request against one list. *)
Lemma request_step q heads ls head l e s h :
  keeps (part s) heads ls -> heads !! list_of q = Some head -> ls !! list_of q = Some l ->
  wp (match q with Register _ cb => notifier_insert head cb | Remove _ cb => notifier_delete head cb end) e s h
    (fun '(st, head') s' _ => exists t' l', s' = set_part t' s /\
       keeps t' (<[list_of q := head']> heads) (<[list_of q := l']> ls) /\
       (st, l'.*2) = answer q (length (concat ls)) l.*2) total.
Proof.
  intros Hk Hhead Hl. assert (holds (part s) head l) as Hh by by eapply Forall2_lookup_lr; [apply Hk|..].
  assert (forall k, (k ∈ (concat ls).*1) -> exists head2 l2, holds (part s) head2 l2 /\ k ∈ l2.*1) as Hwhose.
  { intros k Hin. apply list_elem_of_fmap in Hin as (x & -> & Hx). apply list_elem_of_In, in_concat in Hx as (l2 & Hl2 & Hx).
    apply list_elem_of_In, list_elem_of_lookup in Hl2 as [j Hj].
    destruct (Forall2_lookup_r _ _ _ _ _ (keeps_lists _ _ _ Hk) Hj) as (head2 & _ & H2). exists head2, l2. split; [done|].
    apply list_elem_of_fmap. exists x. split; [done|by apply list_elem_of_In]. }
  destruct q as [i cb|i cb]; cbn [list_of answer] in *.
  - eapply wp_mono; [by apply notifier_insert_refines|]. intros [st head'] s1 h1 (t' & -> & Hlen & _ & Hcase). exists t'.
    destruct Hcase as [(-> & k & n & Hn & Hf & Hnew & Hrest & Hother)|(-> & -> & -> & Hfull)].
    + assert (k ∉ (concat ls).*1) as Hfree.
      { intros Hin. destruct (Hwhose k Hin) as (head2 & l2 & H2 & Hk2). by apply (Hother head2 l2). }
      exists ((k, cb) :: l). split; [done|]. split.
      * eapply keeps_step; [exact Hk|exact Hl|by rewrite Hlen; apply Hk|exact Hnew| | |].
        -- intros head2 l2 _ H2. by apply Hother.
        -- intros j [->|Hj]%elem_of_cons; [by right|by left].
        -- intros j m Hj Hu. cbn. rewrite elem_of_cons. destruct (decide (j = k)) as [->|Hne]; [by left; left|].
           rewrite Hrest in Hj by done. destruct (decide (j ∈ l.*1)); [by left; right|by right].
      * rewrite bool_decide_true; [done|]. by eapply keeps_room.
    + exists l. split; [done|]. split; [by rewrite !list_insert_id|].
      rewrite bool_decide_false; [done|]. assert (H := keeps_full _ _ _ Hk Hfull). lia.
  - eapply wp_mono; [apply (notifier_delete_exact head cb l); [done|apply Hk]|]. intros [st head'] s1 h1 H.
    assert (Hd := delete_spec_removed cb l). destruct (delete_spec cb l) as [[st0 freed] l'].
    destruct H as (_ & -> & t' & -> & Hh' & Hfreed & Hlen & Hrest & Hother). destruct Hd as [Hr Hl'].
    exists t', l'. split; [done|]. split; [|done].
    eapply keeps_step; [exact Hk|exact Hl|by rewrite Hlen; apply Hk|exact Hh'|exact Hother| |].
    + intros j Hj. left. destruct freed as [k|]; [|by subst l']. rewrite Hl', fmap_cons. by right.
    + intros j m Hj Hu. destruct (decide (j ∈ l.*1)) as [Hin|Hout]; [left|right; split; [done|by rewrite <- Hrest]].
      destruct freed as [k|]; [|by subst l']. rewrite Hl', fmap_cons in Hin. apply elem_of_cons in Hin as [->|]; [|done].
      destruct Hfreed as (n & Hn & Hf). cbn in Hj. congruence.
Qed.

Lemma serve_spec qs heads ls e s h : keeps (part s) heads ls ->
  wp (serve qs heads) e s h (fun '(sts, heads') s' _ => exists t' ls', s' = set_part t' s /\ keeps t' heads' ls' /\
    length heads' = length heads /\ (sts, callbacks ls') = answers qs (callbacks ls)) total.
Proof.
  revert heads ls s h. induction qs as [|q qs IH]; intros heads ls s h Hk; cbn [serve answers].
  - apply wp_ret. exists (part s), ls. split; [by rewrite set_same|done].
  - unfold callbacks at 2. rewrite list_lookup_fmap. assert (Hlen := Forall2_length _ _ _ (keeps_lists _ _ _ Hk)).
    destruct (heads !! list_of q) as [head|] eqn:Hhead; cycle 1.
    { apply lookup_ge_None in Hhead. rewrite (lookup_ge_None_2 ls) by lia. by apply IH. }
    assert (is_Some (ls !! list_of q)) as [l Hl] by (apply lookup_lt_is_Some; apply lookup_lt_Some in Hhead; lia).
    rewrite Hl. cbn [fmap option_fmap option_map]. apply wp_bind. eapply wp_mono; [by eapply request_step|].
    intros [st head'] s1 h1 (t1 & l1 & -> & Hk1 & Ha). rewrite callbacks_length, <- Ha.
    apply wp_bind. eapply wp_mono; [apply (IH _ (<[list_of q := l1]> ls)); by rewrite part_set|].
    intros [sts heads'] s2 h2 (t2 & ls2 & -> & Hk2 & Hlen2 & Hs). apply wp_ret. exists t2, ls2. rewrite set_set. split; [done|]. split; [done|].
    split; [by rewrite length_insert in Hlen2|].
    unfold callbacks in Hs. rewrite list_fmap_insert in Hs. unfold callbacks at 2. by rewrite <- Hs.
Qed.
End Table.

(** ** Any sequence of requests *)

(** C13: Any number of clients share the table.  After [notifier_init], for
    every sequence of registrations and removals on their lists, the statuses
    are those of the specification on lists of callbacks: a callback goes in
    front of its list or -ENOSPC is reported when as many as the table has
    entries are registered, a removed entry can be used again, the newest of
    several callbacks cannot be removed; and broadcasting to any of the lists
    is the very run that calls its callbacks in order, each once.  Nothing is
    lost or disturbed in the other lists, and every loop ends. *)
Theorem table_refines_lists {C S : Type} `{HPart : !Part (list notifier) S} `{HInsn : !HasInsn C} `{HPrint : HasPrintf C}
    (call_pcb : Z -> Z -> Z -> M C S Z) (n : nat) qs e (s : S) (h : history C) :
  length (part s) = NOTIFIER_MAX ->
  (forall f c a e s h, wp (call_pcb f c a) e s h (fun _ s' _ => part s' = part s) (fun _ _ _ => True)) ->
  wp (notifier_init;; serve qs (replicate n None)) e s h (fun '(sts, heads) s' _ =>
    let (sts', lists) := answers qs (replicate n []) in
    sts = sts' /\ length heads = n /\ length (part s') = NOTIFIER_MAX /\
    forall i head l, heads !! i = Some head -> lists !! i = Some l -> forall c a e' h',
      notifier_notify call_pcb head c a e' s' h' = (for_each (fun f => call_pcb f c a) l;; ret OK) e' s' h') total.
Proof.
  intros Hlen Hcb. unfold notifier_init, notifiers, put_notifiers. fw_steps.
  assert (concat (replicate n ([] : list (nat * Z))) = []) as E by (clear; by induction n).
  assert (keeps (map (set_flag NOTIFIER_FREE) (part s)) (replicate n None) (replicate n [])) as Hk.
  { constructor.
    - by rewrite length_map.
    - apply Forall2_replicate. by split; [|constructor].
    - rewrite E. constructor.
    - intros k m Hm Hf. exfalso. apply Hf. apply list_lookup_fmap_Some in Hm as (m0 & -> & _). done. }
  eapply wp_mono; [apply (serve_spec qs _ (replicate n [])); by rewrite part_set|].
  intros [sts heads] s1 h1 (t1 & ls & -> & Hk1 & Hl1 & Ha). rewrite part_set.
  unfold callbacks at 2 in Ha. rewrite fmap_replicate in Ha. cbn [fmap list_fmap] in Ha. rewrite <- Ha.
  split; [done|]. split; [by rewrite length_replicate in Hl1|]. split; [apply Hk1|].
  intros i head l Hi Hl c a e' h'. apply list_lookup_fmap_Some in Hl as (l0 & -> & Hl0).
  apply notifier_notify_in_order; [rewrite part_set; by eapply Forall2_lookup_lr; [apply Hk1|..]|rewrite part_set; apply Hk1|].
  intros f e2 s2 h2. apply Hcb.
Qed.

(** Two clients: of the second's two callbacks only the older can be removed;
    the entry it had is used again. *)
Lemma table_refines_lists_witness :
  let qs := [Register 0 0x100; Register 1 0x200; Register 1 0x300; Remove 1 0x300; Remove 1 0x200; Register 0 0x400; Remove 1 0x300] in
  let call_pcb := fun f c a => call (Fprint String.EmptyString [N_ f; N_ c; N_ a]) in
  wp (notifier_init;; serve qs [None; None]) (quiet_env (C := fw_call)) empty_table [] (fun '(sts, heads) s' _ =>
    sts = [OK; OK; OK; - EFAIL; OK; OK; OK] /\
    forall e h, notifier_notify call_pcb (default None (heads !! 0%nat)) 7 0 e s' h
              = (for_each (fun f => call_pcb f 7 0) [0x400; 0x100];; ret OK) e s' h) total.
Proof.
  intros qs call_pcb. eapply wp_mono.
  - apply (table_refines_lists (C := fw_call) call_pcb 2 qs quiet_env empty_table []); [done|]. by intros f c a e s h.
  - intros [sts heads] s' h'. change (answers qs (replicate 2 [])) with ([OK; OK; OK; - EFAIL; OK; OK; OK], [[0x400; 0x100]; []]).
    intros (-> & Hlen & _ & Hn). split; [done|]. intros e h. destruct heads as [|head heads]; [done|]. by apply (Hn 0%nat).
Defined.
