(* ===== verification/Intc.v ===== *)
(** * The interrupt controller and manager
    (src/ar100s/driver/intc/{clic,intc_manager}.c)

    The CLIC's registers are hardware; the table of service routines is the
    component's state.  [ASSERT] is empty, so an interrupt number is not
    checked: the table is indexed as the code does, undefined outside it. *)

From Stdlib Require Import String.
From S2P Require Import Prelude Machine Console Firmware.

Local Open Scope string_scope.
Local Open Scope list_scope.
Local Open Scope Z_scope.

Definition RISCV_CLIC_BASE : Z := 0xE0800000.
Definition R_INTC_REG_BASE : Z := 0x07024000.
Definition IRQ_SOUCE_MAX : Z := 35.   (* INTC_R_IRRX_IRQ + 1 *)

Definition CLIC_CFG : Z := RISCV_CLIC_BASE + 0x0.
Definition CLIC_INFO : Z := RISCV_CLIC_BASE + 0x4.
Definition CLIC_MINTTHRESH : Z := RISCV_CLIC_BASE + 0x8.
Definition CLIC_INT_IP (n : Z) : Z := u32 (RISCV_CLIC_BASE + 0x1000 + 0x4 * n).
Definition CLIC_INT_IE (n : Z) : Z := u32 (RISCV_CLIC_BASE + 0x1001 + 0x4 * n).
Definition CLIC_INT_REG (n : Z) : Z := u32 (RISCV_CLIC_BASE + 0x1000 + 0x4 * n).

Definition CLIC_IRQ_MAX : Z := 80.
Definition CLIC_INFO_NUM_INTERRUPT_MASK : Z := 0x1fff.
Definition CLIC_CFG_RESET_VALUE : Z := 0x00000001.
Definition CLIC_INT_RESET_VALUE : Z := 0x1fc00000.

(** The service routines of the image: addresses of functions, [isr_default]
    among them; NULL arguments are 0. *)
Class Isrs (F : Type) := {
  isr_eq :: EqDecision F;
  isr_default : F
}.

(** [struct int_isr_node] *)
Record int_isr_node (F : Type) := IsrNode { pisr : F; parg : Z }.
Arguments IsrNode {F}. Arguments pisr {F}. Arguments parg {F}.

(** ** The controller (clic.c) *)

Section Clic.
Context {C S : Type} `{HPrint : HasPrintf C} `{HInsn : !HasInsn C}.
Local Abbreviation M := (M C S).

(** The [for] loop over the implemented registers. *)
Fixpoint reset_loop (n : nat) (intno : Z) : M unit :=
  match n with
  | O => ret tt
  | Datatypes.S n =>
      writel CLIC_INT_RESET_VALUE (CLIC_INT_REG intno);;
      reset_loop n (intno + 1)
  end.

Definition intc_init : M Z :=
  let! info := readl CLIC_INFO in
  let irq_count := Z.land info CLIC_INFO_NUM_INTERRUPT_MASK in
  if (irq_count <? IRQ_SOUCE_MAX) || (CLIC_IRQ_MAX <? irq_count) then ret (- EINVAL)
  else
    reset_loop (Z.to_nat irq_count) 0;;
    writel CLIC_CFG_RESET_VALUE CLIC_CFG;;
    writel 0 CLIC_MINTTHRESH;;
    ret OK.

Definition intc_exit : M Z := ret OK.

Definition intc_enable_interrupt (intno : Z) : M Z :=
  let! v := readb (CLIC_INT_IE intno) in
  writeb (u8 (Z.lor v 0x1)) (CLIC_INT_IE intno);;
  INF "intno:%d interrupt enable\n" [N_ intno];;
  ret OK.

Definition intc_disable_interrupt (intno : Z) : M Z :=
  let! v := readb (CLIC_INT_IE intno) in
  writeb (u8 (Z.land v (Z.lnot 0x1))) (CLIC_INT_IE intno);;
  ret OK.

Definition intc_interrupt_query_pending (intno : Z) : M Z :=
  let! v := readb (CLIC_INT_IP intno) in ret (Z.land v 0x1).

Definition intc_interrupt_clear_pending (intno : Z) : M Z :=
  let! v := readb (CLIC_INT_IP intno) in
  writeb (u8 (Z.land v (Z.lnot 0x1))) (CLIC_INT_IP intno);;
  ret OK.

Definition intc_interrupt_is_enabled (intno : Z) : M Z :=
  let! v := readb (CLIC_INT_IE intno) in ret (Z.land v 0x1).

Definition intc_get_current_interrupt : M Z :=
  let! cause := get_MCAUSE in ret (Z.land cause 0xff).

Definition intc_set_mask (intno mask : Z) : M Z :=
  let! v := readb (CLIC_INT_IE intno) in
  writeb (u8 (Z.lor (Z.land v (Z.lnot 0x1)) (Z.land (cnot32 mask) 0x1))) (CLIC_INT_IE intno);;
  ret OK.

Definition intc_set_group_config (grp_irq_num mask : Z) : M Z :=
  let bit_os := grp_irq_num mod 32 in
  let reg_os := u32 ((grp_irq_num / 32) * 0x4) in
  let reg := u32 (R_INTC_REG_BASE + 0x10 + reg_os) in
  let! v := readl reg in
  writel (Z.lor (Z.land v (cnot32 (shl32 1 bit_os))) (shl32 (Z.land mask 1) bit_os)) reg;;
  ret OK.
End Clic.

(** ** The manager (intc_manager.c) *)

Section Manager.
Context {C S F : Type} `{HPrint : HasPrintf C} `{HInsn : !HasInsn C}
  `{HIsrs : Isrs F} `{HPart : !Part (list (int_isr_node F)) S}.
Local Abbreviation M := (M C S).

Definition isr_table : M (list (int_isr_node F)) := getp.
Definition put_isr_table (t : list (int_isr_node F)) : M unit := putp t.
Definition default_node : int_isr_node F := IsrNode isr_default 0.

(** [isr_table[intno]] *)
Definition isr_entry (intno : Z) : M (int_isr_node F) :=
  let! t := isr_table in
  if intno <? 0 then stop_now Undefined
  else match t !! Z.to_nat intno with Some n => ret n | None => stop_now Undefined end.
Definition set_isr_entry (intno : Z) (n : int_isr_node F) : M unit :=
  let! _ := isr_entry intno in
  let! t := isr_table in
  put_isr_table (<[Z.to_nat intno := n]> t).

Definition interrupt_init : M Z :=
  let! r := intc_init in
  if negb (r =? OK) then ret r
  else
    let! t := isr_table in
    put_isr_table (map (fun _ => default_node) t);;
    ret OK.

Definition interrupt_exit : M Z := let! _ := intc_exit in ret OK.

Definition interrupt_enable (intno : Z) : M Z := intc_enable_interrupt intno.
Definition interrupt_disable (intno : Z) : M Z := intc_disable_interrupt intno.
Definition interrupt_set_mask (intno mask : Z) : M Z := intc_set_mask intno mask.
Definition interrupt_set_group_config (grp_irq_num mask : Z) : M Z :=
  intc_set_group_config grp_irq_num mask.

Definition install_isr (intno : Z) (f : F) (arg : Z) : M Z :=
  INF "install isr %x\n" [N_ intno];;
  let! n := isr_entry intno in
  set_isr_entry intno (IsrNode f (parg n));;
  set_isr_entry intno (IsrNode f arg);;
  ret OK.

Definition uninstall_isr (intno : Z) (f : F) : M Z :=
  let! n := isr_entry intno in
  if decide (pisr n = f) then
    set_isr_entry intno (IsrNode isr_default (parg n));;
    set_isr_entry intno default_node;;
    ret OK
  else
    ERR "ISR not installed!\n" [];;
    ret (- EFAIL).

(** The body of [isr_default]. *)
Definition isr_default_body (arg : Z) : M Z :=
  let! intno := intc_get_current_interrupt in
  ERR "irq [%x] enable before ISR install\n" [N_ intno];;
  ret 1.

(** What a call through another routine's address does. *)
Context (run_other : F -> Z -> M Z).

Definition run_isr (f : F) (arg : Z) : M Z :=
  if decide (f = isr_default) then isr_default_body arg else run_other f arg.

Definition interrupt_entry : M Z :=
  let! intno := intc_get_current_interrupt in
  let! n := isr_entry intno in
  let! _ := run_isr (pisr n) (parg n) in
  ret OK.

Definition interrupt_query_pending (intno : Z) : M Z := intc_interrupt_query_pending intno.
Definition interrupt_clear_pending (intno : Z) : M Z := intc_interrupt_clear_pending intno.
Definition interrupt_get_current_intno : M Z := intc_get_current_interrupt.
Definition interrupt_get_enabled (intno : Z) : M Z := intc_interrupt_is_enabled intno.

(** The handler of the platform (pmu.c), called with a null argument. *)
Context (platform_nmi_handler : Z -> M Z).
Definition INTC_R_NMI_EXCEPTION : Z := 24.

Definition exception_entry : M Z :=
  let! cause := get_MCAUSE in
  if Z.land cause 0xff =? INTC_R_NMI_EXCEPTION then
    let! _ := platform_nmi_handler 0 in ret OK
  else ret OK.

(** [hadle_trap] of e907_com.c. *)
Definition hadle_trap (mcause epc : Z) : M Z :=
  (if negb (Z.shiftr mcause 31 =? 0) then interrupt_entry else exception_entry);;
  ret epc.
End Manager.
