(* ===== verification/IntcProps.v ===== *)
(** * Interrupts: reset state, masking, dispatch *)

From S2P Require Import Prelude Machine Console Firmware Intc.

(** ** Register addresses *)

Definition clic_index (n : Z) : Prop := 0 <= n < CLIC_IRQ_MAX.

Lemma CLIC_INT_REG_eq n : clic_index n -> CLIC_INT_REG n = 0xE0801000 + 4 * n.
Proof.
  unfold clic_index, CLIC_IRQ_MAX, CLIC_INT_REG, RISCV_CLIC_BASE. intros.
  rewrite u32_small by lia. lia.
Qed.
Lemma CLIC_INT_IP_eq n : clic_index n -> CLIC_INT_IP n = 0xE0801000 + 4 * n.
Proof. apply CLIC_INT_REG_eq. Qed.
Lemma CLIC_INT_IE_eq n : clic_index n -> CLIC_INT_IE n = 0xE0801001 + 4 * n.
Proof.
  unfold clic_index, CLIC_IRQ_MAX, CLIC_INT_IE, RISCV_CLIC_BASE. intros.
  rewrite u32_small by lia. lia.
Qed.

(** ** Reset *)

Section Reset.
Context {C S : Type}.
Implicit Types (e : env C) (s : S) (h : history C).

(** The bytes the loop has written. *)
Lemma reset_loop_spec init n intno e s h :
  0 <= intno -> intno + Z.of_nat n <= CLIC_IRQ_MAX ->
  wp (reset_loop n intno) e s h (fun _ s' h' => s' = s /\
    forall a, byteval init h' a =
      if (0xE0801000 + 4 * intno <=? a) && (a <? 0xE0801000 + 4 * (intno + Z.of_nat n))
      then word_byte CLIC_INT_RESET_VALUE ((a - 0xE0801000) mod 4) else byteval init h a) total.
Proof.
  revert intno h. induction n as [|n IH]; intros intno h H0 Hn; cbn [reset_loop].
  - apply wp_ret. split; [done|]. intros a.
    destruct (Z.leb_spec (0xE0801000 + 4 * intno) a), (Z.ltb_spec a (0xE0801000 + 4 * (intno + Z.of_nat 0)));
      cbn; lia || done.
  - rewrite Nat2Z.inj_succ in *. apply wp_bind, wp_writel.
    eapply wp_mono; [apply IH; lia|]. intros _ s' h' [-> Hb]. split; [done|]. intros a.
    rewrite Hb. cbn [byteval]. rewrite CLIC_INT_REG_eq by (unfold clic_index; lia).
    destruct (Z.leb_spec (0xE0801000 + 4 * (intno + 1)) a);
    destruct (Z.ltb_spec a (0xE0801000 + 4 * (intno + 1 + Z.of_nat n)));
    destruct (Z.leb_spec (0xE0801000 + 4 * intno) a);
    destruct (Z.ltb_spec a (0xE0801000 + 4 * (intno + Z.succ (Z.of_nat n))));
    destruct (Z.ltb_spec a (0xE0801000 + 4 * intno + 4)); cbn; lia || done || f_equal.
    rewrite <- (Z.mod_small (a - (0xE0801000 + 4 * intno)) 4) by lia.
    replace (a - 0xE0801000) with (a - (0xE0801000 + 4 * intno) + intno * 4) by lia.
    by rewrite Z_mod_plus_full.
Qed.
End Reset.

(** [interrupt_init] asks the controller how many interrupts it implements.
    Outside 35..80 it returns -EINVAL and has written nothing; otherwise it
    leaves every implemented interrupt disabled and not pending with the
    controller's configuration and threshold at their reset values, no other
    byte written, and every service routine the default one. *)
Theorem interrupt_init_resets {C S F : Type} `{HIsrs : Isrs F}
  `{HPart : !Part (list (int_isr_node F)) S} (init : Z -> Z) e s (h : history C) :
  wp (interrupt_init (F := F)) e s h (fun r s' h' => exists info, is_u32 info /\
    let count := Z.land info CLIC_INFO_NUM_INTERRUPT_MASK in
    let lo := 0xE0801000 in
    if (count <? IRQ_SOUCE_MAX) || (CLIC_IRQ_MAX <? count)
    then r = - EINVAL /\ s' = s /\ h' = Rd CLIC_INFO info :: h
    else r = OK /\ s' = set_part (map (fun _ => default_node) (part s)) s /\
      (forall n, 0 <= n < count ->
         byteval init h' (CLIC_INT_IE n) = 0 /\ byteval init h' (CLIC_INT_IP n) = 0) /\
      (forall i, 0 <= i < 4 -> byteval init h' (CLIC_CFG + i) = word_byte 1 i /\
                               byteval init h' (CLIC_MINTTHRESH + i) = 0) /\
      (forall a, ~ (CLIC_CFG <= a < CLIC_CFG + 4) -> ~ (CLIC_MINTTHRESH <= a < CLIC_MINTTHRESH + 4) ->
         ~ (lo <= a < lo + 4 * count) -> byteval init h' a = byteval init h a)) total.
Proof.
  unfold interrupt_init, intc_init. cbv zeta. apply wp_bind, wp_bind, wp_readl. intros info Hinfo _.
  set (count := Z.land info CLIC_INFO_NUM_INTERRUPT_MASK).
  destruct ((count <? IRQ_SOUCE_MAX) || (CLIC_IRQ_MAX <? count)) eqn:Ec.
  { apply wp_ret. cbn [Z.eqb OK EINVAL Z.opp negb]. apply wp_ret. exists info. split; [done|].
    fold count. by rewrite Ec. }
  assert (IRQ_SOUCE_MAX <= count <= CLIC_IRQ_MAX) as Hc.
  { apply orb_false_iff in Ec as [H1 H2]. apply Z.ltb_ge in H1, H2. lia. }
  unfold IRQ_SOUCE_MAX, CLIC_IRQ_MAX in Hc. apply wp_bind.
  eapply wp_mono; [apply (reset_loop_spec init (Z.to_nat count) 0); unfold CLIC_IRQ_MAX; lia|].
  intros _ s1 h1 [-> Hb]. unfold isr_table, put_isr_table. fw_steps. cbn [Z.eqb OK negb]. fw_steps.
  exists info. split; [done|]. fold count. rewrite Ec.
  assert (forall a, byteval init h1 a =
      if (0xE0801000 <=? a) && (a <? 0xE0801000 + 4 * count)
      then word_byte CLIC_INT_RESET_VALUE ((a - 0xE0801000) mod 4) else byteval init h a) as Hb'.
  { intros a. rewrite Hb, Z2Nat.id by lia. done. }
  clear Hb. unfold CLIC_CFG, CLIC_MINTTHRESH, RISCV_CLIC_BASE, CLIC_CFG_RESET_VALUE in *.
  split_and!; [done|done| | |].
  - intros n Hn. assert (clic_index n) by (unfold clic_index, CLIC_IRQ_MAX; lia).
    rewrite CLIC_INT_IE_eq, CLIC_INT_IP_eq by done. cbn [byteval]. rewrite !Hb'.
    split; zbool; try lia.
    + replace (0xE0801001 + 4 * n - 0xE0801000) with (1 + n * 4) by lia. by rewrite Z_mod_plus_full.
    + replace (0xE0801000 + 4 * n - 0xE0801000) with (0 + n * 4) by lia. by rewrite Z_mod_plus_full.
  - intros i Hi. cbn [byteval]. split; zbool; try lia.
    + f_equal. lia.
    + unfold word_byte. by rewrite Z.shiftr_0_l.
  - intros a H1 H2 H3. cbn [byteval]. rewrite Hb'. zbool; try lia; try done.
Qed.

(** ** Masking *)

(** The operations on one interrupt's enable and pending bits. *)
Inductive irq_op :=
| Enable
| Disable
| SetMask (mask : Z)
| ClearPending.

Definition apply_op {C S} `{HasPrintf C} (o : irq_op) (intno : Z) : M C S Z :=
  match o with
  | Enable => interrupt_enable intno
  | Disable => interrupt_disable intno
  | SetMask mask => interrupt_set_mask intno mask
  | ClearPending => interrupt_clear_pending intno
  end.

(** Whether the interrupt is enabled afterwards. *)
Definition enabled_after (o : irq_op) (was : Z) : Z :=
  match o with
  | Enable => 1
  | Disable => 0
  | SetMask mask => if Z.testbit mask 0 then 0 else 1
  | ClearPending => was
  end.

Lemma land_1 v : Z.land v 1 = Z.b2z (Z.testbit v 0).
Proof. change 1 with (Z.ones 1). rewrite Z.land_ones, Z.bit0_mod by lia. done. Qed.

Lemma land_bit0 v : Z.testbit v 0 = true -> Z.land v 1 = 1.
Proof. intros H. by rewrite land_1, H. Qed.

Lemma land_bit0_clear v : Z.testbit v 0 = false -> Z.land v 1 = 0.
Proof. intros H. by rewrite land_1, H. Qed.

Lemma testbit_u8 z n : 0 <= n < 8 -> Z.testbit (u8 z) n = Z.testbit z n.
Proof. intros. unfold u8. by rewrite Z.mod_pow2_bits_low by lia. Qed.

Section Mask.
Context {C S : Type} `{HPrint : HasPrintf C}.
Implicit Types (e : env C) (s : S) (h : history C).

(** One byte is written: its other bits stay, bit 0 is the operation's. *)
Lemma apply_op_spec init o n e s h :
  clic_index n -> bplain e init (CLIC_INT_IE n) ->
  wp (apply_op o n) e s h (fun r s' h' => r = OK /\ s' = s /\
    Z.land (byteval init h' (CLIC_INT_IE n)) 1
      = enabled_after o (Z.land (byteval init h (CLIC_INT_IE n)) 1) /\
    (forall m, clic_index m -> m <> n ->
      byteval init h' (CLIC_INT_IE m) = byteval init h (CLIC_INT_IE m)) /\
    forall i a, regval i h' a = regval i h a) total.
Proof.
  intros Hn [Hinit Hp]. unfold apply_op, interrupt_enable, interrupt_disable, interrupt_set_mask,
    interrupt_clear_pending, intc_enable_interrupt, intc_disable_interrupt, intc_set_mask,
    intc_interrupt_clear_pending, INF.
  assert (forall m, clic_index m -> m <> n -> (CLIC_INT_IE m =? CLIC_INT_IE n) = false) as Hne.
  { intros m Hm Hmn. rewrite !CLIC_INT_IE_eq by done. apply Z.eqb_neq. lia. }
  assert (forall m, clic_index m -> (CLIC_INT_IE m =? CLIC_INT_IP n) = false) as Hip.
  { intros m Hm. rewrite CLIC_INT_IE_eq, CLIC_INT_IP_eq by done. apply Z.eqb_neq. lia. }
  destruct o as [| |mask|]; fw_steps; (split; [done|]); (split; [done|]);
    cbn [byteval]; rewrite ?Z.eqb_refl; (split; [|split; [intros m Hm Hmn; by rewrite ?Hne, ?Hip|done]]);
    unfold enabled_after.
  - apply land_bit0. by rewrite testbit_u8, Z.lor_spec, orb_true_r.
  - apply land_bit0_clear. by rewrite testbit_u8, Z.land_spec, andb_false_r.
  - assert (Z.testbit (Z.lor (Z.land v (Z.lnot 1)) (Z.land (cnot32 mask) 1)) 0
            = negb (Z.testbit mask 0)) as Hb.
    { by rewrite Z.lor_spec, !Z.land_spec, testbit_cnot32, andb_false_r, andb_true_r. }
    destruct (Z.testbit mask 0); [apply land_bit0_clear | apply land_bit0]; by rewrite testbit_u8.
  - by rewrite Hip.
Qed.
End Mask.

(** over enable bytes that hold what is written to them, an operation on
    interrupt [n] followed by asking about [m] answers as a table of enable
    bits would: the operation decides the bit of [n], every other interrupt's
    is as before. *)
Theorem masking_is_local {C S : Type} `{HPrint : HasPrintf C} (init : Z -> Z)
  (o : irq_op) (n m : Z) e (s : S) (h : history C) :
  0 <= n < IRQ_SOUCE_MAX -> 0 <= m < IRQ_SOUCE_MAX ->
  (forall k, clic_index k -> bplain e init (CLIC_INT_IE k)) ->
  let was k := Z.land (u8 (byteval init h (CLIC_INT_IE k))) 1 in
  wp (let! _ := apply_op o n in interrupt_get_enabled m) e s h
    (fun r s' _ => s' = s /\ r = if m =? n then enabled_after o (was n) else was m) total.
Proof.
  intros Hn Hm Hp was. unfold IRQ_SOUCE_MAX in *.
  assert (clic_index n /\ clic_index m) as [Hn' Hm'] by (unfold clic_index, CLIC_IRQ_MAX; lia).
  assert (forall z, Z.land (u8 z) 1 = Z.land z 1) as Hu.
  { intros z. by rewrite !land_1, testbit_u8. }
  apply wp_bind. eapply wp_mono; [apply (apply_op_spec init); auto|].
  intros r s' h' (-> & -> & Hself & Hother & _).
  unfold interrupt_get_enabled, intc_interrupt_is_enabled. fw_steps. split; [done|].
  subst v. rewrite (proj2 (Hp m Hm')). unfold was. rewrite !Hu.
  destruct (Z.eqb_spec m n) as [->|]; [done|]. by rewrite Hother.
Qed.

(** ** Dispatch *)

Section Registry.
Context {C S F : Type} `{HPrint : HasPrintf C} `{HInsn : !HasInsn C}
  `{HIsrs : Isrs F} `{HPart : !Part (list (int_isr_node F)) S}.
Implicit Types (e : env C) (s : S) (h : history C).

(** The routines installed, by interrupt number. *)
Abbreviation registry := (list (Z * (F * Z))).

Fixpoint registered (m : registry) (k : Z) : option (F * Z) :=
  match m with
  | [] => None
  | (i, x) :: m => if i =? k then Some x else registered m k
  end.
Fixpoint forget (m : registry) (k : Z) : registry :=
  match m with
  | [] => []
  | (i, x) :: m => if i =? k then forget m k else (i, x) :: forget m k
  end.

Inductive isr_op :=
| Install (n : Z) (f : F) (arg : Z)
| Uninstall (n : Z) (f : F).

Definition op_ok (o : isr_op) : Prop :=
  match o with
  | Install n f _ | Uninstall n f => 0 <= n < IRQ_SOUCE_MAX /\ f <> isr_default
  end.

Definition op_run (o : isr_op) : M C S Z :=
  match o with
  | Install n f arg => install_isr n f arg
  | Uninstall n f => uninstall_isr n f
  end.

(** An interrupt has one routine or none; only the one installed can be
    taken away. *)
Definition op_spec (o : isr_op) (m : registry) : Z * registry :=
  match o with
  | Install n f arg => (OK, (n, (f, arg)) :: m)
  | Uninstall n f =>
      match registered m n with
      | Some (g, _) => if decide (g = f) then (OK, forget m n) else (- EFAIL, m)
      | None => (- EFAIL, m)
      end
  end.

Fixpoint run_ops (os : list isr_op) : M C S (list Z) :=
  match os with
  | [] => ret []
  | o :: os => let! r := op_run o in let! rs := run_ops os in ret (r :: rs)
  end.
Fixpoint spec_ops (os : list isr_op) (m : registry) : list Z * registry :=
  match os with
  | [] => ([], m)
  | o :: os =>
      let '(r, m) := op_spec o m in
      let '(rs, m) := spec_ops os m in (r :: rs, m)
  end.

(** The table holds the registry, the default routine everywhere else. *)
Definition represents (t : list (int_isr_node F)) (m : registry) : Prop :=
  length t = Z.to_nat IRQ_SOUCE_MAX /\
  (forall k f a, registered m k = Some (f, a) -> f <> isr_default) /\
  forall k, 0 <= k < IRQ_SOUCE_MAX ->
    t !! Z.to_nat k = Some match registered m k with
                           | Some (f, a) => IsrNode f a
                           | None => default_node
                           end.

Lemma registered_forget m k j :
  registered (forget m k) j = if k =? j then None else registered m j.
Proof.
  induction m as [|[i x] m IH]; cbn; [by destruct (k =? j)|].
  destruct (Z.eqb_spec i k) as [->|]; cbn; rewrite IH; [by destruct (k =? j)|].
  destruct (Z.eqb_spec i j) as [->|]; [|done]. by destruct (Z.eqb_spec k j).
Qed.

Lemma wp_isr_entry k n e s h (Q : int_isr_node F -> S -> history C -> Prop) K :
  0 <= k -> part s !! Z.to_nat k = Some n -> Q n s h -> wp (isr_entry k) e s h Q K.
Proof.
  intros Hk Hn HQ. unfold isr_entry, isr_table. fw_steps.
  destruct (Z.ltb_spec k 0); [lia|]. rewrite Hn. by fw_steps.
Qed.

Lemma wp_set_isr_entry k n n0 e s h (Q : unit -> S -> history C -> Prop) K :
  0 <= k -> part s !! Z.to_nat k = Some n0 ->
  Q tt (set_part (<[Z.to_nat k := n]> (part s)) s) h -> wp (set_isr_entry k n) e s h Q K.
Proof.
  intros Hk Hn HQ. unfold set_isr_entry, isr_table, put_isr_table. apply wp_bind.
  eapply wp_isr_entry; [done|done|]. by fw_steps.
Qed.

(** Two stores to one entry. *)
Lemma wp_set_entry_twice k n1 n2 n0 e s h (Q : Z -> S -> history C -> Prop) K :
  0 <= k -> part s !! Z.to_nat k = Some n0 ->
  Q OK (set_part (<[Z.to_nat k := n2]> (part s)) s) h ->
  wp (set_isr_entry k n1;; set_isr_entry k n2;; ret OK) e s h Q K.
Proof.
  intros Hk Hn HQ. apply wp_bind. eapply wp_set_isr_entry; [done|done|].
  apply wp_bind. eapply wp_set_isr_entry; [done| |].
  - rewrite part_set. apply list_lookup_insert_eq. by apply lookup_lt_Some in Hn.
  - rewrite part_set, list_insert_insert_eq, set_set. by apply wp_ret.
Qed.

Lemma represents_insert t m n x :
  represents t m -> 0 <= n < IRQ_SOUCE_MAX -> x.1 <> isr_default ->
  represents (<[Z.to_nat n := IsrNode x.1 x.2]> t) ((n, x) :: m).
Proof.
  intros (Hl & Hd & Ht) Hn Hx. destruct x as [f a]. split_and!; [by rewrite length_insert| |].
  - intros k g b. cbn. destruct (Z.eqb_spec n k); [intros [= <- <-]; done | apply Hd].
  - intros k Hk. cbn. destruct (Z.eqb_spec n k) as [->|].
    + apply list_lookup_insert_eq. rewrite Hl. lia.
    + rewrite list_lookup_insert_ne by lia. by apply Ht.
Qed.

Lemma represents_forget t m n :
  represents t m -> 0 <= n < IRQ_SOUCE_MAX ->
  represents (<[Z.to_nat n := default_node]> t) (forget m n).
Proof.
  intros (Hl & Hd & Ht) Hn. split_and!; [by rewrite length_insert| |].
  - intros k g b. rewrite registered_forget. destruct (n =? k); [done | apply Hd].
  - intros k Hk. rewrite registered_forget. destruct (Z.eqb_spec n k) as [->|].
    + apply list_lookup_insert_eq. rewrite Hl. lia.
    + rewrite list_lookup_insert_ne by lia. by apply Ht.
Qed.

Lemma op_run_spec o m e s h :
  op_ok o -> represents (part s) m ->
  wp (op_run o) e s h (fun r s' _ => r = (op_spec o m).1 /\
    exists t', s' = set_part t' s /\ represents t' (op_spec o m).2) total.
Proof.
  intros Ho Hr. assert (Hr' := Hr). destruct Hr' as (Hl & Hd & Ht).
  destruct o as [n f a|n f]; destruct Ho as [Hn Hf]; cbn [op_run op_spec].
  - unfold install_isr, INF. fw_steps. eapply wp_isr_entry; [lia|by apply Ht|].
    eapply wp_set_entry_twice; [lia|by apply Ht|]. split; [done|]. eexists. split; [done|].
    by apply (represents_insert _ _ n (f, a)).
  - unfold uninstall_isr. apply wp_bind. eapply wp_isr_entry; [lia|by apply Ht|].
    destruct (registered m n) as [[g b]|] eqn:Eg; cbn [pisr parg default_node].
    + destruct (decide (g = f)) as [->|].
      * eapply wp_set_entry_twice; [lia|rewrite Ht by done; by rewrite Eg|]. split; [done|].
        eexists. split; [done|]. by apply represents_forget.
      * unfold ERR. fw_steps. split; [done|]. exists (part s). by rewrite set_same.
    + destruct (decide (isr_default = f)); [done|].
      unfold ERR. fw_steps. split; [done|]. exists (part s). by rewrite set_same.
Qed.
End Registry.
Arguments isr_op : clear implicits.

(** C14: any sequence of [install_isr] and [uninstall_isr] with interrupt
    numbers of the table and routines other than the default refines a
    registry: the statuses are the registry's, and an interrupt of the table
    taken afterwards calls, with its argument, exactly the routine registered
    for the cause the core reports, or the default one. *)
Theorem isr_table_refines_registry {C S F : Type} `{HPrint : HasPrintf C} `{HInsn : !HasInsn C}
  `{HIsrs : Isrs F} `{HPart : !Part (list (int_isr_node F)) S}
  (run_other : F -> Z -> M C S Z) (os : list (isr_op F)) (m : list (Z * (F * Z))) e s (h : history C) :
  Forall op_ok os -> represents (part s) m ->
  wp (run_ops os) e s h (fun rs s' _ => rs = (spec_ops os m).1 /\
    forall e2 h2, let r := env_ret e2 h2 (insn_call csrr_mcause) in
      let cause := Z.land (u32 r) 0xff in
      cause < IRQ_SOUCE_MAX ->
      interrupt_entry run_other e2 s' h2 =
        (let! _ := match registered (spec_ops os m).2 cause with
                   | Some (f, a) => run_other f a
                   | None => isr_default_body 0
                   end in ret OK) e2 s' (Call (insn_call csrr_mcause) r :: h2)) total.
Proof.
  intros Hos Hr. revert m s h Hr. induction Hos as [|o os Ho Hos IH]; intros m s h Hr; cbn [run_ops spec_ops].
  - apply wp_ret. split; [done|]. intros e2 h2 Hcause.
    set (r := env_ret e2 h2 (insn_call csrr_mcause)) in *. set (cause := Z.land (u32 r) 255) in *.
    unfold interrupt_entry, intc_get_current_interrupt, get_MCAUSE, isr_entry, isr_table, getp, bind, ret, call.
    fold r. fold cause. assert (0 <= cause) as H0 by (apply Z.land_nonneg; by right).
    destruct (Z.ltb_spec cause 0); [lia|]. destruct Hr as (Hl & Hd & Ht).
    rewrite Ht by lia. cbn [snd].
    destruct (registered m cause) as [[f a]|] eqn:Eg; unfold run_isr; cbn [pisr parg default_node].
    + by rewrite decide_False by (eapply Hd; exact Eg).
    + by rewrite decide_True.
  - apply wp_bind. eapply wp_mono; [by apply (op_run_spec o m)|].
    intros r s1 h1 [-> (t' & -> & Hr')]. destruct (op_spec o m) as [r m1]. cbn [fst snd] in *.
    apply wp_bind. eapply wp_mono; [apply (IH m1); by rewrite part_set|].
    intros rs s2 h2 [-> Hentry]. apply wp_ret. destruct (spec_ops os m1). by split.
Qed.

(** An interrupt number beyond the table is not rejected: the guard is an
    [ASSERT], and those are empty in this build. *)
Lemma interrupt_entry_unchecked {C S F : Type} `{HPrint : HasPrintf C} `{HInsn : !HasInsn C}
  `{HIsrs : Isrs F} `{HPart : !Part (list (int_isr_node F)) S}
  (run_other : F -> Z -> M C S Z) e s (h : history C) :
  length (part s) = Z.to_nat IRQ_SOUCE_MAX ->
  let r := env_ret e h (insn_call csrr_mcause) in
  IRQ_SOUCE_MAX <= Z.land (u32 r) 0xff ->
  interrupt_entry run_other e s h = Stop Undefined s (Call (insn_call csrr_mcause) r :: h).
Proof.
  intros Hl r Hr. unfold interrupt_entry, intc_get_current_interrupt, get_MCAUSE, isr_entry,
    isr_table, getp, bind, ret, call, stop_now. fold r. unfold IRQ_SOUCE_MAX in *.
  destruct (Z.ltb_spec (Z.land (u32 r) 255) 0); [lia|].
  by rewrite lookup_ge_None_2 by lia.
Qed.

(** ** Concrete runs *)

#[local] Instance named_isrs : Isrs nat := {| isr_default := O |}.

(** A controller whose enable bytes are memory, all clear at first. *)
Definition byte_memory : env fw_call :=
  Env (fun h a => byteval (fun _ => 0) h a) (fun _ _ => 0) (fun _ _ => []).
Definition default_table : list (int_isr_node nat) := replicate (Z.to_nat IRQ_SOUCE_MAX) default_node.

Lemma masking_is_local_witness :
  0 <= 20 < IRQ_SOUCE_MAX /\
  wp (let! _ := apply_op Enable 20 in interrupt_get_enabled 20) byte_memory tt []
    (fun r _ _ => r = 1) total.
Proof.
  split; [split; [discriminate | reflexivity]|].
  eapply wp_mono.
  - apply (masking_is_local (fun _ => 0) Enable 20 20 byte_memory tt []).
    + split; [discriminate | reflexivity].
    + split; [discriminate | reflexivity].
    + intros k _. split; [split; [discriminate | reflexivity] | reflexivity].
  - intros r s' h' [_ ->]. reflexivity.
Defined.

Lemma default_table_represents : represents default_table [].
Proof.
  split_and!; [reflexivity|done|]. intros k Hk.
  unfold default_table. apply lookup_replicate_2. unfold IRQ_SOUCE_MAX in *. lia.
Qed.

Lemma isr_table_refines_registry_witness :
  represents default_table [] /\
  wp (run_ops [Install 20 7%nat 3; Uninstall 20 8%nat]) byte_memory default_table []
    (fun rs _ _ => rs = [OK; - EFAIL]) total.
Proof.
  split; [exact default_table_represents|].
  eapply wp_mono.
  - apply (isr_table_refines_registry (C := fw_call) (HPart := whole_part _) (fun _ _ => ret 0)
             [Install 20 7%nat 3; Uninstall 20 8%nat] [] byte_memory default_table []).
    + repeat constructor; discriminate.
    + exact default_table_represents.
  - intros rs s' h' [-> _]. reflexivity.
Defined.
