(* ===== verification/Cpucfg.v ===== *)
(** * CPU configuration
    (src/ar100s/driver/cpucfg/cpucfg-sun60iw2p1/cpucfg.c)

    The always-on 64-bit counter, read as two 32-bit halves, and the four
    address windows the core sees as little-endian, kept densely packed in
    hardware registers. *)

From Stdlib Require Import String.
From S2P Require Import Prelude Machine Console Firmware.

Local Open Scope string_scope.
Local Open Scope list_scope.
Local Open Scope Z_scope.

Definition R_CPUCFG_REG_BASE : Z := 0x07050000.
Definition TS_STAT_REG_BASE : Z := 0x08010000.
Definition TS_CTRL_REG_BASE : Z := 0x08020000.
Definition CNT_LOW_REG : Z := TS_STAT_REG_BASE + 0x0000.
Definition CNT_HIGH_REG : Z := TS_STAT_REG_BASE + 0x0004.
Definition CNT_CTRL_REG : Z := TS_CTRL_REG_BASE + 0x0000.
Definition CNT_LOW_REG_SET : Z := TS_CTRL_REG_BASE + 0x0008.
Definition CNT_HIGH_REG_SET : Z := TS_CTRL_REG_BASE + 0x000C.
Definition CNT_FREQID_REG : Z := TS_CTRL_REG_BASE + 0x0020.
Definition CCU_SYS_CLK24M_FREQ : Z := 24000000.

Definition CPUCFG_LE_SPACE_NUMBER : Z := 4.
Definition CPUS_SPACE_LE_CTRL_REG : Z := R_CPUCFG_REG_BASE + 0x000C.
Definition CPUS_SPACE_START_REG (n : Z) : Z := R_CPUCFG_REG_BASE + 0x0010 + n * 8.
Definition CPUS_SPACE_END_REG (n : Z) : Z := R_CPUCFG_REG_BASE + 0x0014 + n * 8.

(** The file's static. *)
Record cpucfg := Cpucfg { little_endian_used : Z }.

Section Cpucfg.
Context {C S : Type} `{HPrint : HasPrintf C} `{HPart : !Part cpucfg S}.
Local Abbreviation M := (M C S).

Definition get_used : M Z := let! c := getp in ret (little_endian_used c).
Definition put_used (n : Z) : M unit := putp (Cpucfg n).

Definition cpucfg_counter_init : M unit := writel CCU_SYS_CLK24M_FREQ CNT_FREQID_REG.

Definition cpucfg_init : M Z :=
  cpucfg_counter_init;;
  put_used 0;;
  ret OK.

Definition cpucfg_exit : M Z := put_used 0;; ret OK.

(** ** Little-endian windows *)

Definition cpucfg_set_little_endian_address (start stop : Z) : M Z :=
  let! used := get_used in
  if CPUCFG_LE_SPACE_NUMBER <=? used then
    WRN "no space for little-endian config\n" [];; ret (- ENOSPC)
  else
    let! value := readl CPUS_SPACE_LE_CTRL_REG in
    writel (Z.lor value (shl32 0x1 used)) CPUS_SPACE_LE_CTRL_REG;;
    writel start (CPUS_SPACE_START_REG used);;
    writel stop (CPUS_SPACE_END_REG used);;
    put_used (used + 1);;
    ret OK.

(** The [for] loop downwards: the index it stops at, [None] below 0.  The
    second register is read only when the first matches and [stop] is not
    null. *)
Fixpoint find_window (n : nat) (start_addr end_addr : Z) : M (option Z) :=
  match n with
  | O => ret None
  | Datatypes.S n =>
      let i := Z.of_nat n in
      let! st := readl (CPUS_SPACE_START_REG i) in
      if Z.shiftr st 9 =? Z.shiftr start_addr 9 then
        if end_addr =? 0 then ret (Some i)
        else
          let! en := readl (CPUS_SPACE_END_REG i) in
          if Z.shiftr en 9 =? Z.shiftr end_addr 9 then ret (Some i)
          else find_window n start_addr end_addr
      else find_window n start_addr end_addr
  end.

Definition cpucfg_remove_little_endian_address (start stop : Z) : M Z :=
  let! used := get_used in
  if used <=? 0 then WRN "no space for little-endian remove\n" [];; ret (- ENODEV)
  else
  let! found := find_window (Z.to_nat used) start stop in
  match found with
  | None => WRN "little-endian config not found\n" [];; ret (- ENODEV)
  | Some i =>
      INF "remove:%d\n" [N_ i];;
      let last := used - 1 in
      let! value := readl CPUS_SPACE_LE_CTRL_REG in
      let value := Z.land value (cnot32 (Z.lor (shl32 0x1 i) (shl32 0x1 last))) in
      let! value :=
        (if negb (i =? last) then
           let! st := readl (CPUS_SPACE_START_REG last) in
           writel st (CPUS_SPACE_START_REG i);;
           let! en := readl (CPUS_SPACE_END_REG last) in
           writel en (CPUS_SPACE_END_REG i);;
           ret (Z.lor value (shl32 0x1 i))
         else ret value) in
      writel value CPUS_SPACE_LE_CTRL_REG;;
      writel 0 (CPUS_SPACE_START_REG last);;
      writel 0 (CPUS_SPACE_END_REG last);;
      put_used (used - 1);;
      ret OK
  end.

(** ** The counter *)

Definition cpucfg_counter_clear : M Z :=
  writel 0 CNT_LOW_REG_SET;;
  writel 0 CNT_HIGH_REG_SET;;
  ret OK.

(** The [do]-[while] loop; [fuel] bounds its rounds. *)
Fixpoint counter_loop (fuel : nat) : M (Z * Z) :=
  match fuel with
  | O => stop_now OutOfFuel
  | Datatypes.S fuel =>
      let! low := readl CNT_LOW_REG in
      let! high := readl CNT_HIGH_REG in
      let! high' := readl CNT_HIGH_REG in
      if negb (high =? high') then counter_loop fuel
      else
        let! low' := readl CNT_LOW_REG in
        if low' <? low then counter_loop fuel else ret (low, high)
  end.

Definition cpucfg_counter_read (fuel : nat) : M Z :=
  let! lh := counter_loop fuel in
  let '(low, high) := lh in
  ret (u64 (u64 (Z.shiftl high 32) + low)).

Definition cpucfg_counter_ctrl (enable : bool) : M unit :=
  writel (if enable then 1 else 0) CNT_CTRL_REG.
End Cpucfg.
