(* ===== verification/CpucfgProps.v ===== *)
(** * The counter does not tear; the windows are a list *)

From S2P Require Import Prelude Machine Console Firmware Cpucfg.

(** ** The counter *)

Section Counter.
Context {C S : Type}.
Implicit Types (e : env C) (s : S) (h : history C).

(** [c h] is the counter's value at the end of the run [h]: it never goes
    back, does not run for more than 2^28 ticks (eleven seconds) over one
    event, and its halves are what the two registers show. *)
Record counts (e : env C) (c : history C -> Z) : Prop := {
  counts_u64 : forall h, is_u64 (c h);
  counts_step : forall ev h, c h <= c (ev :: h) < c h + 2 ^ 28;
  counts_low : forall h, u32 (env_read e h CNT_LOW_REG) = c h mod 2 ^ 32;
  counts_high : forall h, u32 (env_read e h CNT_HIGH_REG) = c h / 2 ^ 32
}.

(** The arithmetic of one round, reads at [a <= b <= d <= f]: it accepts a
    value between the first and the last, and fails only across a carry. *)
Lemma round_value a b d f :
  a <= b <= d -> d <= f -> b / 2 ^ 32 = d / 2 ^ 32 -> a mod 2 ^ 32 <= f mod 2 ^ 32 ->
  a <= (b / 2 ^ 32) * 2 ^ 32 + a mod 2 ^ 32 <= f.
Proof.
  intros Hab Hdf Hbd Hlow.
  assert (a / 2 ^ 32 <= b / 2 ^ 32) by (apply Z.div_le_mono; lia).
  assert (d / 2 ^ 32 <= f / 2 ^ 32) by (apply Z.div_le_mono; lia).
  assert (a = 2 ^ 32 * (a / 2 ^ 32) + a mod 2 ^ 32) by (apply Z.div_mod; lia).
  assert (f = 2 ^ 32 * (f / 2 ^ 32) + f mod 2 ^ 32) by (apply Z.div_mod; lia).
  nia.
Qed.

Lemma round_no_carry a f : a <= f -> a / 2 ^ 32 = f / 2 ^ 32 -> a mod 2 ^ 32 <= f mod 2 ^ 32.
Proof.
  intros Haf Hd.
  assert (a = 2 ^ 32 * (a / 2 ^ 32) + a mod 2 ^ 32) by (apply Z.div_mod; lia).
  assert (f = 2 ^ 32 * (f / 2 ^ 32) + f mod 2 ^ 32) by (apply Z.div_mod; lia). nia.
Qed.

Lemma same_high a b d : a <= b <= d -> a / 2 ^ 32 = d / 2 ^ 32 -> b / 2 ^ 32 = a / 2 ^ 32.
Proof.
  intros Hb Hd. assert (a / 2 ^ 32 <= b / 2 ^ 32) by (apply Z.div_le_mono; lia).
  assert (b / 2 ^ 32 <= d / 2 ^ 32) by (apply Z.div_le_mono; lia). lia.
Qed.

(** No register has been written. *)
Definition same_regs h h' : Prop := forall init a, regval init h' a = regval init h a.

(** One round from [h]: either it returns a value of the interval, or the
    counter has carried and the next round starts. *)
Lemma counter_round e c fuel s h (Q : Z * Z -> S -> history C -> Prop) :
  counts e c ->
  (forall low high h', 0 <= low < 2 ^ 32 -> c h <= high * 2 ^ 32 + low <= c h' ->
     0 <= high -> same_regs h h' -> Q (low, high) s h') ->
  (forall h', c h <= c h' < c h + 2 ^ 30 -> c h / 2 ^ 32 < c h' / 2 ^ 32 -> same_regs h h' ->
     wp (counter_loop fuel) e s h' Q total) ->
  wp (counter_loop (Datatypes.S fuel)) e s h Q total.
Proof.
  intros [Hu Hs Hlow Hhigh] Hret Hnext. cbn [counter_loop].
  apply wp_bind, wp_readl. intros low _ El. apply wp_bind, wp_readl. intros high _ Eh.
  apply wp_bind, wp_readl. intros high' _ Eh'. rewrite Hlow in El. rewrite Hhigh in Eh, Eh'.
  set (h1 := Rd CNT_LOW_REG low :: h) in *. set (h2 := Rd CNT_HIGH_REG high :: h1) in *.
  set (h3 := Rd CNT_HIGH_REG high' :: h2) in *.
  assert (c h <= c h1 < c h + 2 ^ 28) as S1 by apply Hs.
  assert (c h1 <= c h2 < c h1 + 2 ^ 28) as S2 by apply Hs.
  assert (c h2 <= c h3 < c h2 + 2 ^ 28) as S3 by apply Hs.
  assert (same_regs h h3) as Hsame by done.
  destruct (Hu h) as [Hnn _]. clearbody h1 h2 h3.
  assert (forall x y, x <= y -> x / 2 ^ 32 <= y / 2 ^ 32) as Hmono
    by (intros; apply Z.div_le_mono; lia).
  destruct (Z.eqb_spec high high') as [Heq|Hneq]; cbn [negb].
  - apply wp_bind, wp_readl. intros low' _ El'. rewrite Hlow in El'.
    set (h4 := Rd CNT_LOW_REG low' :: h3) in *.
    assert (c h3 <= c h4 < c h3 + 2 ^ 28) as S4 by apply Hs.
    assert (same_regs h h4) as Hsame4 by exact Hsame. clearbody h4.
    destruct (Z.ltb_spec low' low) as [Hlt|Hge].
    + apply Hnext; [lia| |done].
      destruct (Z.eq_dec (c h / 2 ^ 32) (c h3 / 2 ^ 32)) as [He|].
      * assert (H := round_no_carry (c h) (c h3) ltac:(lia) He). lia.
      * assert (c h / 2 ^ 32 <= c h3 / 2 ^ 32) by (apply Hmono; lia).
        assert (c h3 / 2 ^ 32 <= c h4 / 2 ^ 32) by (apply Hmono; lia). lia.
    + apply wp_ret. apply Hret.
      * subst low. apply Z.mod_pos_bound. lia.
      * subst. assert (H := round_value (c h) (c h1) (c h2) (c h3)). lia.
      * subst high. apply Z.div_pos; lia.
      * done.
  - apply Hnext; [lia| |done].
    destruct (Z.eq_dec (c h / 2 ^ 32) (c h3 / 2 ^ 32)) as [He|].
    + assert (H1 := same_high (c h) (c h1) (c h3) ltac:(lia) He).
      assert (H2 := same_high (c h) (c h2) (c h3) ltac:(lia) He). lia.
    + assert (c h / 2 ^ 32 <= c h3 / 2 ^ 32) by (apply Hmono; lia). lia.
Qed.
(** Two rounds are enough. *)
Lemma counter_read_spec e c s h :
  counts e c ->
  wp (cpucfg_counter_read 2) e s h
    (fun v s' h' => s' = s /\ c h <= v <= c h' /\ same_regs h h') total.
Proof.
  intros Hc. unfold cpucfg_counter_read. apply wp_bind.
  assert (forall low high h', 0 <= low < 2 ^ 32 -> c h <= high * 2 ^ 32 + low <= c h' -> 0 <= high ->
    same_regs h h' ->
    wp (ret (u64 (u64 (Z.shiftl high 32) + low))) e s h'
      (fun v s' h' => s' = s /\ c h <= v <= c h' /\ same_regs h h') total) as Hret.
  { intros low high h' Hlow Hv Hhigh Hsame. apply wp_ret. split; [done|].
    destruct (counts_u64 e c Hc h') as [_ Hb]. rewrite Z.shiftl_mul_pow2 by lia.
    rewrite (u64_id (high * 2 ^ 32)), u64_id by (unfold is_u64; lia). done. }
  apply (counter_round e c 1 s h _ Hc); [exact Hret|]. intros h1 Hh1 Hcarry Hsame1.
  apply (counter_round e c 0 s h1 _ Hc).
  - intros low high h' Hlow Hv Hhigh Hsame. apply Hret; [done|lia|done|].
    intros init a. by rewrite Hsame, Hsame1.
  - intros h2 Hh2 Hcarry2 _. exfalso. destruct (counts_u64 e c Hc h) as [H0 _].
    assert (c h1 / 2 ^ 32 <= (c h + 2 ^ 30) / 2 ^ 32) by (apply Z.div_le_mono; lia).
    assert (c h2 / 2 ^ 32 <= (c h + 2 ^ 31) / 2 ^ 32) by (apply Z.div_le_mono; lia).
    assert ((c h + 2 ^ 31) / 2 ^ 32 <= (c h + 1 * 2 ^ 32) / 2 ^ 32) by (apply Z.div_le_mono; lia).
    rewrite Z.div_add in * by lia. lia.
Qed.
End Counter.

(** C15: with a counter that never runs backwards and is read through its two
    32-bit halves, [cpucfg_counter_read] returns within two rounds, and the
    value is one the counter had between the call and the return: the halves
    never belong to different carries. *)
Theorem counter_read_linearizable {C S : Type} (e : env C) (c : history C -> Z) (s : S) h :
  counts e c ->
  wp (cpucfg_counter_read 2) e s h
    (fun v s' h' => s' = s /\ c h <= v <= c h') total.
Proof.
  intros Hc. eapply wp_mono; [by apply counter_read_spec|].
  intros v s' h' (-> & Hv & _). by split.
Qed.

(** ** Windows *)

Section Windows.
Context {C S : Type} `{HPrint : HasPrintf C} `{HPart : !Part cpucfg S}.
Context (init : Z -> Z).
Implicit Types (e : env C) (s : S) (h : history C) (w : list (Z * Z)).

(** The registers of the component behave like memory. *)
Definition window_regs e : Prop :=
  plain e init CPUS_SPACE_LE_CTRL_REG /\
  forall i, 0 <= i < CPUCFG_LE_SPACE_NUMBER ->
    plain e init (CPUS_SPACE_START_REG i) /\ plain e init (CPUS_SPACE_END_REG i).

(** Registers and count hold the windows [w], in order and without gaps. *)
Definition windows s h w : Prop :=
  little_endian_used (part s) = Z.of_nat (length w) /\
  Z.of_nat (length w) <= CPUCFG_LE_SPACE_NUMBER /\
  (forall i st en, w !! i = Some (st, en) -> is_u32 st /\ is_u32 en /\
     regval init h (CPUS_SPACE_START_REG (Z.of_nat i)) = st /\
     regval init h (CPUS_SPACE_END_REG (Z.of_nat i)) = en) /\
  is_u32 (regval init h CPUS_SPACE_LE_CTRL_REG) /\
  forall n, 0 <= n < CPUCFG_LE_SPACE_NUMBER ->
    Z.testbit (regval init h CPUS_SPACE_LE_CTRL_REG) n = (n <? Z.of_nat (length w)).

(** 512-byte granules; a null end matches any. *)
Definition matches (start stop : Z) (x : Z * Z) : bool :=
  (Z.shiftr x.1 9 =? Z.shiftr start 9) &&
  ((stop =? 0) || (Z.shiftr x.2 9 =? Z.shiftr stop 9)).

Fixpoint last_match (n : nat) (start stop : Z) w : option nat :=
  match n with
  | O => None
  | Datatypes.S n =>
      match w !! n with
      | Some x => if matches start stop x then Some n else last_match n start stop w
      | None => last_match n start stop w
      end
  end.

Inductive window_op :=
| AddWindow (start stop : Z)
| RemoveWindow (start stop : Z).

Definition window_args (o : window_op) : Prop :=
  match o with AddWindow start stop | RemoveWindow start stop => is_u32 start /\ is_u32 stop end.

Definition window_run (o : window_op) : M C S Z :=
  match o with
  | AddWindow start stop => cpucfg_set_little_endian_address start stop
  | RemoveWindow start stop => cpucfg_remove_little_endian_address start stop
  end.

(** Adding appends; removing puts the last window in the hole. *)
Definition window_spec (o : window_op) w : Z * list (Z * Z) :=
  match o with
  | AddWindow start stop =>
      if (4 <=? length w)%nat then (- ENOSPC, w) else (OK, w ++ [(start, stop)])
  | RemoveWindow start stop =>
      match last_match (length w) start stop w, last w with
      | Some i, Some x => (OK, take (length w - 1) (<[i := x]> w))
      | _, _ => (- ENODEV, w)
      end
  end.

Lemma last_match_lt n start stop w i : last_match n start stop w = Some i -> (i < n)%nat.
Proof.
  induction n as [|n IH]; cbn; [done|]. destruct (w !! n) as [x|].
  - destruct (matches start stop x); [intros [= <-]; lia|]. intros H. specialize (IH H). lia.
  - intros H. specialize (IH H). lia.
Qed.

Lemma readl_plain e s h a (Q : Z -> S -> history C -> Prop) K :
  plain e init a -> is_u32 (regval init h a) ->
  Q (regval init h a) s (Rd a (regval init h a) :: h) -> wp (readl a) e s h Q K.
Proof. intros [_ Hp] Hu HQ. apply wp_readl. intros v _ ->. by rewrite Hp, u32_id. Qed.

(** The search only reads. *)
Lemma find_window_spec e s h w start stop n :
  window_regs e -> windows s h w -> (n <= length w)%nat ->
  wp (find_window n start stop) e s h (fun r s' h' => s' = s /\
    r = Z.of_nat <$> last_match n start stop w /\
    forall a, regval init h' a = regval init h a) total.
Proof.
  intros [_ Hregs] Hw. revert h Hw. induction n as [|n IH]; intros h Hw Hn; cbn [find_window last_match].
  { by apply wp_ret. }
  assert (Hw' := Hw). destruct Hw' as (_ & Hle & Hent & _). unfold CPUCFG_LE_SPACE_NUMBER in *.
  destruct (w !! n) as [[st en]|] eqn:En; [|apply lookup_ge_None in En; lia].
  destruct (Hent n st en En) as (Hst & Hen & Rst & Ren). destruct (Hregs (Z.of_nat n)) as [Ps Pe]; [lia|].
  assert (forall a v, (forall b, regval init (Rd a v :: h) b = regval init h b)) as Hrd by done.
  apply wp_bind. eapply readl_plain; [exact Ps|by rewrite Rst|]. rewrite Rst.
  unfold matches. cbn [fst snd].
  assert (forall h', (forall a, regval init h' a = regval init h a) ->
    wp (find_window n start stop) e s h' (fun r s' h'' => s' = s /\
      r = Z.of_nat <$> last_match n start stop w /\
      forall a, regval init h'' a = regval init h a) total) as Hrec.
  { intros h' Hh'. eapply wp_mono; [apply (IH h'); [|lia]|].
    - unfold windows. setoid_rewrite Hh'. exact Hw.
    - intros r s' h'' (-> & -> & Hh''). split_and!; [done|done|]. intros a. by rewrite Hh''. }
  destruct (Z.shiftr st 9 =? Z.shiftr start 9); cbn [andb]; [|by apply Hrec].
  destruct (stop =? 0); cbn [orb]; [by apply wp_ret|].
  apply wp_bind. eapply readl_plain; [exact Pe|cbn [regval]; by rewrite Ren|].
  cbn [regval]. rewrite Ren. destruct (Z.shiftr en 9 =? Z.shiftr stop 9); [by apply wp_ret|].
  by apply Hrec.
Qed.

Lemma testbit_shl32_1 k n : 0 <= k < 32 -> 0 <= n -> Z.testbit (shl32 1 k) n = (n =? k).
Proof.
  intros Hk Hn. unfold shl32. rewrite testbit_u32 by done. fold (BIT k).
  rewrite testbit_BIT by lia. case_bool_decide; subst.
  - rewrite Z.eqb_refl. destruct (Z.ltb_spec k 32); [done | lia].
  - rewrite andb_false_r. symmetry. by apply Z.eqb_neq.
Qed.

(** The three kinds of registers are distinct. *)
Local Ltac reg_neq := unfold CPUS_SPACE_LE_CTRL_REG, CPUS_SPACE_START_REG, CPUS_SPACE_END_REG,
  R_CPUCFG_REG_BASE in *; lia.
Local Ltac regs :=
  repeat first
    [ rewrite regval_Wr_eq | rewrite regval_Wr_ne by reg_neq
    | progress change (regval init (Rd ?a ?v :: ?h) ?b) with (regval init h b)
    | progress change (regval init (Call ?c ?v :: ?h) ?b) with (regval init h b) ].

(** Only the count has changed of the statics. *)
Definition only_used s s' : Prop := exists c, s' = set_part (T := cpucfg) c s.
Lemma only_used_refl s : only_used s s.
Proof. exists (part s). by rewrite set_same. Qed.

Lemma add_window_spec e s h w start stop :
  window_regs e -> windows s h w -> is_u32 start -> is_u32 stop ->
  wp (window_run (AddWindow start stop)) e s h (fun r s' h' =>
    r = (window_spec (AddWindow start stop) w).1 /\
    windows s' h' (window_spec (AddWindow start stop) w).2 /\ only_used s s') total.
Proof.
  intros [Pc _] Hw Hstart Hstop. assert (Hw' := Hw). destruct Hw' as (Hused & Hle & Hent & Hcu & Hbits).
  cbn [window_run window_spec]. unfold cpucfg_set_little_endian_address, get_used, put_used.
  apply wp_bind. fw_steps. rewrite Hused. unfold CPUCFG_LE_SPACE_NUMBER in *.
  destruct (Z.leb_spec 4 (Z.of_nat (length w))), (Nat.leb_spec 4 (length w)); try lia.
  { apply wp_ret. split_and!; [done|done|apply only_used_refl]. }
  apply wp_bind. eapply readl_plain; [exact Pc|exact Hcu|]. fw_steps. cbn [fst snd].
  split; [done|]. split; [|by eexists]. set (ctrl := regval init h CPUS_SPACE_LE_CTRL_REG) in *.
  split_and!.
  - rewrite part_set, length_app. cbn. lia.
  - rewrite length_app. unfold CPUCFG_LE_SPACE_NUMBER. cbn. lia.
  - intros i st en. rewrite lookup_app_Some. intros [Hi|[Hge Hi]].
    + assert (i < length w)%nat by by apply lookup_lt_Some in Hi.
      destruct (Hent i st en Hi) as (? & ? & ? & ?). regs. done.
    + apply list_lookup_singleton_Some in Hi as [Hi [= <- <-]].
      replace i with (length w) by lia. regs. done.
  - regs. apply is_u32_lor; [done | apply shl32_range].
  - intros n Hn. unfold CPUCFG_LE_SPACE_NUMBER in Hn. regs.
    rewrite Z.lor_spec, testbit_shl32_1 by lia. fold ctrl in Hbits. rewrite Hbits by done.
    rewrite length_app. cbn. zbool; lia || done.
Qed.

(** Entries once the last one has moved into the hole. *)
Lemma moved_lookup w i x j y :
  (i < length w)%nat -> take (length w - 1) (<[i := x]> w) !! j = Some y ->
  (j < length w - 1)%nat /\ (j = i /\ y = x \/ j <> i /\ w !! j = Some y).
Proof.
  intros Hi. rewrite lookup_take_Some. intros [Hj Hlt]. split; [done|].
  destruct (decide (j = i)) as [->|Hne].
  - rewrite list_lookup_insert_eq in Hj by done. injection Hj as <-. by left.
  - rewrite list_lookup_insert_ne in Hj by done. by right.
Qed.

(** The enable bits afterwards. *)
Lemma removed_bits ctrl i k n :
  (forall n, 0 <= n < 4 -> Z.testbit ctrl n = (n <? k)) -> 0 <= n < 4 -> 0 <= i < k -> k <= 4 ->
  let cleared := Z.land ctrl (cnot32 (Z.lor (shl32 0x1 i) (shl32 0x1 (k - 1)))) in
  Z.testbit (if negb (i =? k - 1) then Z.lor cleared (shl32 0x1 i) else cleared) n = (n <? k - 1).
Proof.
  intros Hb Hn Hi Hk. cbv zeta.
  assert (Z.testbit (Z.land ctrl (cnot32 (Z.lor (shl32 1 i) (shl32 1 (k - 1))))) n
          = (n <? k) && negb ((n =? i) || (n =? k - 1))) as Hc.
  { rewrite Z.land_spec, testbit_cnot32, Z.lor_spec, !testbit_shl32_1, Hb by lia.
    destruct (Z.ltb_spec n 32); [done | lia]. }
  destruct (Z.eqb_spec i (k - 1)); cbn [negb].
  - rewrite Hc. zbool; lia || done.
  - rewrite Z.lor_spec, Hc, testbit_shl32_1 by lia. zbool; lia || done.
Qed.

(** Moving the last window over the one at [i] and clearing the registers of
    the last one removes it from the list. *)
Lemma windows_after_removal e s h w i st en v' h2 :
  window_regs e -> windows s h w -> (i < length w)%nat ->
  w !! (length w - 1)%nat = Some (st, en) ->
  let k := Z.of_nat (length w) in
  let value := Z.land (regval init h CPUS_SPACE_LE_CTRL_REG) (cnot32 (Z.lor (shl32 0x1 (Z.of_nat i)) (shl32 0x1 (k - 1)))) in
  v' = (if negb (Z.of_nat i =? k - 1) then Z.lor value (shl32 0x1 (Z.of_nat i)) else value) ->
  (Z.of_nat i = k - 1 \/ (regval init h2 (CPUS_SPACE_START_REG (Z.of_nat i)) = st /\
                          regval init h2 (CPUS_SPACE_END_REG (Z.of_nat i)) = en)) ->
  (forall j, j <> Z.of_nat i -> 0 <= j < 4 ->
     regval init h2 (CPUS_SPACE_START_REG j) = regval init h (CPUS_SPACE_START_REG j) /\
     regval init h2 (CPUS_SPACE_END_REG j) = regval init h (CPUS_SPACE_END_REG j)) ->
  windows (set_part (Cpucfg (k - 1)) s)
    (Wr (CPUS_SPACE_END_REG (k - 1)) 0 :: Wr (CPUS_SPACE_START_REG (k - 1)) 0
      :: Wr CPUS_SPACE_LE_CTRL_REG v' :: h2)
    (take (length w - 1) (<[i := (st, en)]> w)).
Proof.
  intros Hregs (Hused & Hle & Hent & Hcu & Hbits) Hi El k value Hv Hm Hj. unfold CPUCFG_LE_SPACE_NUMBER in *.
  split_and!.
  - rewrite part_set, length_take, length_insert. cbn. lia.
  - rewrite length_take, length_insert. unfold CPUCFG_LE_SPACE_NUMBER. lia.
  - intros j st' en' Hl. apply moved_lookup in Hl as [Hlt Hl]; [|done]. regs.
    destruct Hl as [[-> [= -> ->]]|[Hne Hl]].
    + destruct (Hent _ _ _ El) as (? & ? & _). destruct Hm as [Hm|[-> ->]]; [lia | done].
    + destruct (Hj (Z.of_nat j)) as [-> ->]; [lia|lia|]. by apply Hent.
  - regs. subst v'. destruct (negb _); [apply is_u32_lor; [|apply shl32_range]|];
      (apply is_u32_land_l; [exact Hcu | apply is_u32_nonneg, cnot32_range]).
  - intros n Hn. unfold CPUCFG_LE_SPACE_NUMBER in Hn. regs. rewrite Hv.
    rewrite length_take, length_insert.
    replace (Z.of_nat ((length w - 1) `min` length w)) with (k - 1) by lia.
    apply removed_bits; [exact Hbits|lia|lia|lia].
Qed.

Lemma remove_window_spec e s h w start stop :
  window_regs e -> windows s h w -> is_u32 start -> is_u32 stop ->
  wp (window_run (RemoveWindow start stop)) e s h (fun r s' h' =>
    r = (window_spec (RemoveWindow start stop) w).1 /\
    windows s' h' (window_spec (RemoveWindow start stop) w).2 /\ only_used s s') total.
Proof.
  intros Hregs Hw Hstart Hstop. assert (Hw' := Hw). destruct Hw' as (Hused & Hle & Hent & Hcu & Hbits).
  cbn [window_run window_spec]. unfold cpucfg_remove_little_endian_address, get_used, put_used.
  apply wp_bind. fw_steps. rewrite Hused. unfold CPUCFG_LE_SPACE_NUMBER in *.
  destruct (Z.leb_spec (Z.of_nat (length w)) 0) as [Hz|Hpos].
  { destruct w; [|cbn in Hz; lia]. apply wp_ret. split_and!; [done|done|apply only_used_refl]. }
  rewrite Nat2Z.id. apply wp_bind.
  eapply wp_mono; [by apply (find_window_spec e s h w start stop (length w) Hregs Hw)|].
  intros r s1 h1 (-> & -> & Hsame).
  destruct (last_match (length w) start stop w) as [i|] eqn:Ei; cbn [fmap option_fmap option_map].
  2:{ apply wp_ret. split; [done|]. split; [|apply only_used_refl]. unfold windows. setoid_rewrite Hsame. exact Hw. }
  apply last_match_lt in Ei. destruct (last w) as [[st en]|] eqn:El.
  2:{ apply last_None in El. subst w. cbn in Ei. lia. }
  rewrite last_lookup in El. replace (Nat.pred (length w)) with (length w - 1)%nat in El by lia.
  destruct (Hent _ _ _ El) as (Hst & Hen & Rst & Ren).
  replace (Z.of_nat (length w - 1)) with (Z.of_nat (length w) - 1) in Rst, Ren by lia.
  destruct Hregs as [Pc Pw]. destruct (Pw (Z.of_nat (length w) - 1)) as [Ps Pe]; [unfold CPUCFG_LE_SPACE_NUMBER; lia|].
  unfold INF. apply wp_bind, wp_printf. intros r1.
  apply wp_bind. eapply readl_plain; [exact Pc|regs; by rewrite Hsame|]. regs. rewrite Hsame.
  set (ctrl := regval init h CPUS_SPACE_LE_CTRL_REG) in *.
  set (value := Z.land ctrl _). set (k := Z.of_nat (length w)) in *.
  apply wp_bind.
  assert (Hfinal := fun v' h2 => windows_after_removal e s h w i st en v' h2 (conj Pc Pw) Hw Ei El).
  cbv zeta in Hfinal. fold k ctrl value in Hfinal.
  destruct (Z.eqb_spec (Z.of_nat i) (k - 1)) as [Heq|Hneq]; cbn [negb] in *.
  - fw_steps. split; [done|]. split; [|by eexists]. apply Hfinal; [done|by left|]. intros j _ _. regs. by rewrite !Hsame.
  - apply wp_bind. eapply readl_plain; [exact Ps|regs; by rewrite Hsame, Rst|]. regs. rewrite Hsame, Rst.
    apply wp_bind, wp_writel, wp_bind. eapply readl_plain; [exact Pe|regs; by rewrite Hsame, Ren|]. regs. rewrite Hsame, Ren.
    fw_steps. split; [done|]. split; [|by eexists]. apply Hfinal; [done|right; by regs|].
    intros j Hj Hj4. regs. by rewrite !Hsame.
Qed.
End Windows.

(** C16: over registers that behave like memory, adding and removing
    little-endian windows is appending to a list of at most four and moving the
    last element over the one removed: -ENOSPC and -ENODEV exactly when the
    list is full or has no such window, the registers and the enable bits
    always hold the list densely packed. *)
Theorem windows_refine_list {C S : Type} `{HPrint : HasPrintf C} `{HPart : !Part cpucfg S}
  (init : Z -> Z) e (s : S) (h : history C) (w : list (Z * Z)) (o : window_op) :
  window_regs init e -> windows init s h w -> window_args o ->
  wp (window_run o) e s h
    (fun r s' h' => r = (window_spec o w).1 /\ windows init s' h' (window_spec o w).2) total.
Proof.
  intros Hregs Hw Ho. destruct o as [start stop|start stop]; destruct Ho as [H1 H2];
    (eapply wp_mono; [first [by apply add_window_spec | by apply remove_window_spec]|]); by intros r s' h' (Hr & Hw' & _).
Qed.

(** ** Concrete runs *)

(** A counter that ticks once per event and stops at its largest value. *)
Definition ticks {C} (h : history C) : Z := Z.min (Z.of_nat (length h)) (2 ^ 64 - 1).
Definition ticking : env print_only :=
  Env (fun h a => if a =? CNT_LOW_REG then ticks h mod 2 ^ 32 else ticks h / 2 ^ 32)
      (fun _ _ => 0) (fun _ _ => []).

Lemma ticking_counts : counts ticking ticks.
Proof.
  assert (forall h : history print_only, 0 <= ticks h < 2 ^ 64) as Hb by (intros h; unfold ticks; lia).
  split.
  - exact Hb.
  - intros ev h. unfold ticks. cbn [length]. lia.
  - intros h. cbn. apply u32_id. apply Z.mod_pos_bound. lia.
  - intros h. cbn. apply u32_id. unfold is_u32. specialize (Hb h).
    assert (0 <= ticks h / 2 ^ 32) by (apply Z.div_pos; lia).
    assert (ticks h / 2 ^ 32 < 2 ^ 32) by (apply Z.div_lt_upper_bound; lia). lia.
Qed.

Lemma counter_read_linearizable_witness :
  counts ticking ticks /\
  wp (cpucfg_counter_read 2) ticking tt []
    (fun v s' h' => s' = tt /\ ticks (C := print_only) [] <= v <= ticks h') total.
Proof.
  split; [exact ticking_counts|].
  exact (counter_read_linearizable ticking ticks tt [] ticking_counts).
Defined.

Definition memory_env : env print_only :=
  Env (fun h a => regval (fun _ => 0) h a) (fun _ _ => 0) (fun _ _ => []).

Lemma no_windows : windows (C := print_only) (fun _ => 0) (Cpucfg 0) [] [].
Proof.
  split_and!; try done. intros n [Hn _]. cbn. rewrite Z.testbit_0_l. by destruct n.
Qed.

Lemma windows_refine_list_witness :
  windows (C := print_only) (fun _ => 0) (Cpucfg 0) [] [] /\
  wp (window_run (AddWindow 0x40000000 0x40100000)) memory_env (Cpucfg 0) []
    (fun r s' h' => r = OK /\ windows (fun _ => 0) s' h' [(0x40000000, 0x40100000)]) total.
Proof.
  split; [exact no_windows|].
  apply (windows_refine_list (HPart := whole_part _) (fun _ => 0) memory_env (Cpucfg 0) [] []
           (AddWindow 0x40000000 0x40100000)).
  - split; [|intros i _; split]; (split; [split; [discriminate | reflexivity] | reflexivity]).
  - exact no_windows.
  - split; split; discriminate || reflexivity.
Defined.
