(* ===== verification/Prcm.v ===== *)
(** * Clocks and resets of the AR100 domain
    (src/ar100s/driver/prcm/prcm-sun60iw2p1/{ccu,mclk,reset,sclk,power}.c)

    Each [switch] over clock identifiers is a chain of tests in the order of
    its cases.  Of power.c only the power-off gating is here. *)

From Stdlib Require Import String.
From S2P Require Import Prelude Machine Console Firmware Cpucfg.

Local Open Scope string_scope.
Local Open Scope list_scope.
Local Open Scope Z_scope.

(** ** Registers (arch/riscv/plat-sun60iw2p1/inc/platform_regs.h) *)

Definition CCU_REG_BASE : Z := 0x02002000.
Definition R_PRCM_REG_BASE : Z := 0x07010000.
Definition RTC_REG_BASE : Z := 0x07090000.
Definition CCU_MSGBOX_BGR_REG : Z := CCU_REG_BASE + 0x744.
Definition CCU_SPINLOCK_BGR_REG : Z := CCU_REG_BASE + 0x724.
Definition CPUS_CFG_REG : Z := R_PRCM_REG_BASE + 0x000.
Definition APBS0_CFG_REG : Z := R_PRCM_REG_BASE + 0x00c.
Definition APBS1_CFG_REG : Z := R_PRCM_REG_BASE + 0x010.
Definition R_TIMER_BUS_GATE_RST_REG : Z := R_PRCM_REG_BASE + 0x11c.
Definition R_PWM_BUS_GATE_RST_REG : Z := R_PRCM_REG_BASE + 0x13c.
Definition R_MSGBOX_GATE_RST_REG : Z := R_PRCM_REG_BASE + 0x17c.
Definition R_UART_BUS_GATE_RST_REG : Z := R_PRCM_REG_BASE + 0x18c.
Definition R_TWI_BUS_GATE_RST_REG : Z := R_PRCM_REG_BASE + 0x19c.
Definition R_IR_RX_CLOCK_REG : Z := R_PRCM_REG_BASE + 0x1c0.
Definition R_IR_RX_BUS_GATE_RST_REG : Z := R_PRCM_REG_BASE + 0x1cc.
Definition RTC_BUS_GATE_RST_REG : Z := R_PRCM_REG_BASE + 0x20c.
Definition VDD_SYS_PWR_RST_REG : Z := R_PRCM_REG_BASE + 0x260.
Definition RTC_RECORD_REG : Z := RTC_REG_BASE + 0x10c.
Definition RTC_DTB_BASE_STORE_REG : Z := RTC_RECORD_REG.
Definition C0_CPUX_POWEROFF_GATING_REG : Z := R_CPUCFG_REG_BASE + 0x0044.
Definition CPUS_C0_CPU_CFG_REG (core : Z) : Z := R_CPUCFG_REG_BASE + 0x70 + core * 0x04.

(** The source field and the factor of the three bus clocks. *)
Definition CLK_SRC_SEL_MASK : Z := 0x7000000.
Definition CLK_SRC_SEL (n : Z) : Z := Z.shiftl n 24.
Definition FACTOR_M_MASK : Z := 0x1f.

Definition CCU_DCXO_FREQ : Z := 26000000.
Definition CCU_CPUS_PLL0_FREQ : Z := 200000000.
Definition CCU_CPUS_PERIO_300M_FREQ : Z := 300000000.
Definition CCU_APBS2_PLL0_FREQ : Z := 200000000.

(** ** Identifiers (include/driver/prcm.h) *)

Definition CCU_CLK_RESET : Z := 0.
Definition CCU_CLK_NRESET : Z := 1.
Definition CCU_SYS_CLK_NONE : Z := 0.
Definition CCU_SYS_CLK_LOSC : Z := 1.
Definition CCU_SYS_CLK_HOSC : Z := 3.
Definition CCU_SYS_CLK_CPUS : Z := 17.
Definition CCU_SYS_CLK_APBS2 : Z := 36.
Definition CCU_MOD_CLK_SPINLOCK : Z := 16.
Definition CCU_MOD_CLK_MSGBOX : Z := 17.
Definition CCU_MOD_CLK_R_UART : Z := 26.
Definition CCU_MOD_CLK_R_TIMER0_1 : Z := 31.
Definition CCU_MOD_CLK_R_TWI : Z := 34.
Definition CCU_MOD_CLK_R_CIR : Z := 38.
Definition CCU_MOD_CLK_VDD_SYS : Z := 44.
Definition CCU_MOD_CLK_R_RTC : Z := 51.
Definition CCU_MOD_CLK_R_PWM : Z := 56.
Definition CCU_MOD_CLK_APBS_R_CIR : Z := 60.
Definition PWRCTL_C0CPUX : Z := 0.
Definition PWRCTL_C0CPU0 : Z := 1.
Definition PWRCTL_C0CPU1 : Z := 2.
Definition PWRCTL_C0CPU2 : Z := 3.
Definition PWRCTL_C0CPU3 : Z := 4.

(** Statics of ccu.c. *)
Record ccu := Ccu {
  apbs2_notifier_head : option nat;
  iosc_freq : Z;
  losc_freq : Z;
  already_init_osc_freq : Z
}.
Definition ccu_initial : ccu := Ccu None 16000000 32768 0.

Section Prcm.
Context {C S : Type} `{HPrint : HasPrintf C} `{HInsn : !HasInsn C} `{HPart : !Part ccu S}.
Local Abbreviation M := (M C S).

Definition ccu_vars : M ccu := getp.
Definition put_ccu (c : ccu) : M unit := putp c.

(** [value = readl(reg); value &= ~mask; value |= x; writel(value, reg)] *)
Definition update (reg mask x : Z) : M unit :=
  let! value := readl reg in writel (rmw value mask x) reg.

(** ** Module clocks (mclk.c) *)

(** Status, [*n] and [*m]; the outputs of a failure are not written. *)
Definition calc_clk_ratio_nm (div : Z) : M (Z * Z * Z) :=
  if div <? 33 then ret (OK, 0, div)
  else if div <? 65 then ret (OK, 1, (div + 1) / 2)
  else if div <? 129 then ret (OK, 2, (div + 3) / 4)
  else if div <? 257 then ret (OK, 3, (div + 7) / 8)
  else ERR "icd %x\n" [N_ div];; ret (- EINVAL, 0, 0).

Definition ccu_set_mclk_onoff (mclk onoff : Z) : M Z :=
  if mclk =? CCU_MOD_CLK_R_TWI then
    update R_TWI_BUS_GATE_RST_REG (BIT 0) (shl32 onoff 0);; ret OK
  else if mclk =? CCU_MOD_CLK_R_UART then
    update R_UART_BUS_GATE_RST_REG (BIT 0) (shl32 onoff 0);; ret OK
  else if mclk =? CCU_MOD_CLK_R_TIMER0_1 then
    update R_TIMER_BUS_GATE_RST_REG (BIT 0) (shl32 onoff 0);; ret OK
  else if mclk =? CCU_MOD_CLK_R_RTC then
    update RTC_BUS_GATE_RST_REG (BIT 0) (shl32 onoff 0);; ret OK
  else if mclk =? CCU_MOD_CLK_MSGBOX then
    update CCU_MSGBOX_BGR_REG (BIT 0) (shl32 onoff 0);;
    update R_MSGBOX_GATE_RST_REG (BIT 0) (shl32 onoff 0);; ret OK
  else if mclk =? CCU_MOD_CLK_APBS_R_CIR then
    update R_IR_RX_BUS_GATE_RST_REG (BIT 0) (shl32 onoff 0);; ret OK
  else if mclk =? CCU_MOD_CLK_R_CIR then
    update R_IR_RX_CLOCK_REG (BIT 31) (shl32 onoff 31);; ret OK
  else WRN "invaid module clock id (%d) when set divider\n" [N_ mclk];; ret (- EINVAL).

Definition ccu_set_mclk_src (mclk sclk : Z) : M Z :=
  if mclk =? CCU_MOD_CLK_R_CIR then
    if sclk =? CCU_SYS_CLK_LOSC then
      update R_IR_RX_CLOCK_REG (BIT 24) (shl32 0 24);; ret OK
    else if sclk =? CCU_SYS_CLK_HOSC then
      update R_IR_RX_CLOCK_REG (BIT 24) (shl32 1 24);; ret OK
    else ret (- EINVAL)
  else WRN "invaid module clock id (%d) when set source\n" [N_ mclk];; ret (- EINVAL).

Definition ccu_get_mclk_src (mclk : Z) : M Z :=
  if mclk =? CCU_MOD_CLK_R_CIR then
    let! v := readl R_IR_RX_CLOCK_REG in
    let src := Z.shiftr (Z.land v (BIT 24)) 24 in
    ret (if src =? 0 then CCU_SYS_CLK_LOSC
         else if src =? 1 then CCU_SYS_CLK_HOSC
         else CCU_SYS_CLK_NONE)
  else WRN "invaid module clock id (%d) when set source\n" [N_ mclk];; ret CCU_SYS_CLK_NONE.

Definition ccu_set_mclk_div (mclk div : Z) : M Z :=
  if mclk =? CCU_MOD_CLK_R_CIR then
    let! (st, factor_n, factor_m) := calc_clk_ratio_nm div in
    if negb (st =? OK) then ret (- EFAIL)
    else
      let! value := readl R_IR_RX_CLOCK_REG in
      let value := Z.land value (cnot32 0x1f) in
      let value := Z.land value (cnot32 (Z.shiftl 0x3 8)) in
      let value := Z.lor value (shl32 (u32 (factor_m - 1)) 0) in
      let value := Z.lor value (shl32 factor_n 8) in
      writel value R_IR_RX_CLOCK_REG;;
      ret OK
  else WRN "invaid module clock id (%d) when set divider\n" [N_ mclk];; ret (- EINVAL).

Definition ccu_get_mclk_div (mclk : Z) : M Z :=
  if mclk =? CCU_MOD_CLK_R_CIR then
    let! value := readl R_IR_RX_CLOCK_REG in
    let factor_m := Z.shiftr (Z.land value 0x1f) 0 in
    let factor_n := Z.shiftr (Z.land value (Z.shiftl 0x3 8)) 8 in
    ret (s32 (u32 ((factor_m + 1) * Z.shiftl 1 factor_n)))
  else WRN "invaid module clock id (%d) when get divider\n" [N_ mclk];; ret (- EINVAL).

(** ** Module resets (reset.c) *)

Definition ccu_set_mclk_reset (mclk reset : Z) : M Z :=
  if mclk =? CCU_MOD_CLK_R_TWI then
    update R_TWI_BUS_GATE_RST_REG (BIT 16) (shl32 reset 16);; ret OK
  else if mclk =? CCU_MOD_CLK_R_UART then
    update R_UART_BUS_GATE_RST_REG (BIT 16) (shl32 reset 16);; ret OK
  else if mclk =? CCU_MOD_CLK_R_TIMER0_1 then
    update R_TIMER_BUS_GATE_RST_REG (BIT 16) (shl32 reset 16);; ret OK
  else if mclk =? CCU_MOD_CLK_R_PWM then
    update R_PWM_BUS_GATE_RST_REG (BIT 16) (shl32 reset 16);; ret OK
  else if mclk =? CCU_MOD_CLK_R_RTC then
    update RTC_BUS_GATE_RST_REG (BIT 16) (shl32 reset 16);; ret OK
  else if mclk =? CCU_MOD_CLK_APBS_R_CIR then
    update R_IR_RX_BUS_GATE_RST_REG (BIT 16) (shl32 reset 16);; ret OK
  else if mclk =? CCU_MOD_CLK_VDD_SYS then
    update VDD_SYS_PWR_RST_REG (BIT 0) (shl32 reset 0);; ret OK
  else if mclk =? CCU_MOD_CLK_SPINLOCK then
    update CCU_SPINLOCK_BGR_REG (BIT 16) (shl32 reset 16);; ret OK
  else if mclk =? CCU_MOD_CLK_MSGBOX then
    update CCU_MSGBOX_BGR_REG (BIT 16) (shl32 reset 16);;
    update R_MSGBOX_GATE_RST_REG (BIT 16) (shl32 reset 16);; ret OK
  else WRN "invaid module clock id (%d) when set reset\n" [N_ mclk];; ret (- EINVAL).

Definition ccu_reset_module (mclk : Z) : M Z :=
  let! _ := ccu_set_mclk_reset mclk CCU_CLK_RESET in
  let! _ := ccu_set_mclk_reset mclk CCU_CLK_NRESET in
  ret OK.

(** ** Source clocks (sclk.c) *)

Definition ccu_get_sclk_freq (sclk : Z) : M Z :=
  if sclk =? CCU_SYS_CLK_CPUS then
    let! v := readl CPUS_CFG_REG in
    let! c := ccu_vars in
    let src := Z.shiftr v 24 in
    ret (if src =? 0 then CCU_DCXO_FREQ
         else if src =? 1 then s32 (losc_freq c)
         else if src =? 2 then s32 (iosc_freq c)
         else if src =? 3 then CCU_CPUS_PLL0_FREQ
         else if src =? 4 then CCU_CPUS_PERIO_300M_FREQ
         else 0)
  else if sclk =? CCU_SYS_CLK_APBS2 then
    let! v := readl APBS1_CFG_REG in
    let! c := ccu_vars in
    let src := Z.shiftr v 24 in
    ret (if src =? 0 then CCU_DCXO_FREQ
         else if src =? 1 then s32 (losc_freq c)
         else if src =? 2 then s32 (iosc_freq c)
         else if src =? 3 then CCU_APBS2_PLL0_FREQ
         else if src =? 4 then CCU_SYS_CLK24M_FREQ
         else 0)
  else WRN "invalid clock id for get source freq\n" [];; ret 0.

Definition ccu_set_sclk_onoff (sclk onoff : Z) : M Z :=
  WRN "invalid clock id for get source freq\n" [];; ret 0.

(** ** The unit (ccu.c) *)

(** One sample of the counter over a million cycles on source [src], in
    units of 24000 ticks. *)
Definition osc_sample (fuel : nat) (src : Z) : M Z :=
  update CPUS_CFG_REG CLK_SRC_SEL_MASK (CLK_SRC_SEL src);;
  time_cdelay 1600;;
  let! cnt1 := cpucfg_counter_read fuel in
  time_cdelay 1000000;;
  let! cnt := cpucfg_counter_read fuel in
  let cnt2 := u64 (cnt - cnt1) in
  ret (u32 (Z.land cnt2 0xffffffff) / 24000).

Definition iosc_freq_init (fuel : nat) : M unit :=
  let! c := ccu_vars in
  if already_init_osc_freq c =? 0 then
    let! v := readl CPUS_CFG_REG in
    let cpus_src := Z.land v CLK_SRC_SEL_MASK in
    let! ht := osc_sample fuel 0 in
    let! xt := osc_sample fuel 2 in
    update CPUS_CFG_REG CLK_SRC_SEL_MASK cpus_src;;
    if (ht =? 0) || (xt =? 0) || (0xffffffff / (CCU_DCXO_FREQ / 1000) <? ht) then
      WRN "invalid IOSC calibration sample: dcxo=%d iosc=%d\n" [N_ ht; N_ xt]
    else
      let xf := u32 (CCU_DCXO_FREQ / 1000 * ht) / xt in
      let! c := ccu_vars in
      put_ccu (Ccu (apbs2_notifier_head c) (u32 (xf * 1000)) (losc_freq c) (already_init_osc_freq c));;
      let! c := ccu_vars in
      LOG "iosc_freq: %d\n" [N_ (iosc_freq c)];;
      let! c := ccu_vars in
      put_ccu (Ccu (apbs2_notifier_head c) (iosc_freq c) (iosc_freq c / 512) (already_init_osc_freq c));;
      let! c := ccu_vars in
      put_ccu (Ccu (apbs2_notifier_head c) (iosc_freq c) (losc_freq c) 1)
  else ret tt.

Definition ccu_init : M Z :=
  update CPUS_CFG_REG FACTOR_M_MASK 0;;
  update CPUS_CFG_REG CLK_SRC_SEL_MASK (CLK_SRC_SEL 3);;
  update APBS0_CFG_REG FACTOR_M_MASK 1;;
  update APBS0_CFG_REG CLK_SRC_SEL_MASK (CLK_SRC_SEL 3);;
  update APBS1_CFG_REG FACTOR_M_MASK 0;;
  update APBS1_CFG_REG CLK_SRC_SEL_MASK (CLK_SRC_SEL 4);;
  let! c := ccu_vars in
  put_ccu (Ccu None (iosc_freq c) (losc_freq c) (already_init_osc_freq c));;
  ret OK.

Definition ccu_exit : M Z := ret OK.

Definition save_state_flag (value : Z) : M unit := writel value RTC_RECORD_REG.
Definition read_state_flag : M Z := readl RTC_RECORD_REG.
Definition read_dtb_base : M Z := readl RTC_DTB_BASE_STORE_REG.

(** ** Power-off gating (power.c) *)

Definition ccu_set_poweroff_gating_state (module state : Z) : M Z :=
  if module =? PWRCTL_C0CPU0 then
    update (CPUS_C0_CPU_CFG_REG 0) (BIT 1) (shl32 (Z.land state 0x1) 1);; ret OK
  else if module =? PWRCTL_C0CPU1 then
    update (CPUS_C0_CPU_CFG_REG 1) (BIT 1) (shl32 (Z.land state 0x1) 1);; ret OK
  else if module =? PWRCTL_C0CPU2 then
    update (CPUS_C0_CPU_CFG_REG 2) (BIT 1) (shl32 (Z.land state 0x1) 1);; ret OK
  else if module =? PWRCTL_C0CPU3 then
    update (CPUS_C0_CPU_CFG_REG 3) (BIT 1) (shl32 (Z.land state 0x1) 1);; ret OK
  else if module =? PWRCTL_C0CPUX then
    update C0_CPUX_POWEROFF_GATING_REG (BIT 4) (shl32 (Z.land state 0x1) 4);; ret OK
  else
  WRN "invaid power control module (%d) when set power-off gating\n" [N_ module];; ret (- EINVAL).
End Prcm.
