(* ===== verification/PrcmProps.v ===== *)
(** * Clock switches, dividers and rates of the AR100 domain *)

From Stdlib Require Import String.
From S2P Require Import Prelude Machine Console Firmware Cpucfg CpucfgProps Prcm.

Local Open Scope string_scope.
Local Open Scope list_scope.
Local Open Scope Z_scope.

(** ** One field *)

Section Update.
Context {C S : Type} (init : Z -> Z).
Implicit Types (e : env C) (s : S) (h : history C).

(** A register that is memory and holds a word. *)
Definition word_reg e h a : Prop := plain e init a /\ is_u32 (regval init h a).

Lemma update_spec e s h reg mask x :
  word_reg e h reg -> is_u32 x ->
  wp (update reg mask x) e s h (fun _ s' h' => s' = s /\
    (forall a, regval init h' a = if a =? reg then rmw (regval init h reg) mask x else regval init h a) /\
    forall a, word_reg e h a -> word_reg e h' a) total.
Proof.
  intros [Hp Hu] Hx. unfold update. apply wp_bind. eapply readl_plain; [exact Hp|exact Hu|].
  apply wp_writel. split; [done|]. split; [done|]. intros a [Ha Hau]. split; [exact Ha|]. cbn.
  destruct (Z.eqb_spec a reg); [by apply rmw_range | exact Hau].
Qed.

Lemma testbit_rmw_bit v n b k :
  is_u32 v -> 0 <= n < 32 -> b = 0 \/ b = 1 -> 0 <= k < 32 ->
  Z.testbit (rmw v (BIT n) (shl32 b n)) k = if k =? n then b =? 1 else Z.testbit v k.
Proof.
  intros Hv Hn Hb Hk. unfold rmw. rewrite Z.lor_spec, Z.land_spec, testbit_cnot32, testbit_BIT by lia.
  assert (Z.testbit (shl32 b n) k = (k =? n) && (b =? 1)) as ->.
  { destruct Hb as [->| ->].
    - unfold shl32. rewrite Z.shiftl_0_l, andb_false_r. unfold u32. rewrite Z.mod_0_l by lia.
      apply Z.testbit_0_l.
    - rewrite testbit_shl32_1 by lia. by rewrite andb_true_r. }
  destruct (Z.ltb_spec k 32); [|lia]. case_bool_decide as Hkn.
  - subst. by rewrite Z.eqb_refl, andb_false_r.
  - destruct (Z.eqb_spec k n); [done|]. cbn. by rewrite andb_true_r, orb_false_r.
Qed.

(** Driving a list of bits. *)
Definition set_bits (l : list (Z * Z)) (v : Z) : M C S Z :=
  foldr (fun '(a, n) k => update a (BIT n) (shl32 v n);; k) (ret OK) l.

Lemma set_bits_spec l v e s h :
  v = 0 \/ v = 1 -> Forall (fun '(a, n) => word_reg e h a /\ 0 <= n < 32) l ->
  wp (set_bits l v) e s h (fun r s' h' => r = OK /\ s' = s /\
    (forall a n, 0 <= n < 32 -> Z.testbit (regval init h' a) n =
       if bool_decide ((a, n) ∈ l) then v =? 1 else Z.testbit (regval init h a) n)) total.
Proof.
  intros Hv. revert h. induction l as [|[a n] l IH]; intros h Hl; cbn [set_bits foldr].
  - apply wp_ret. split_and!; [done|done|]. intros a n Hn.
    rewrite bool_decide_eq_false_2; [done | apply not_elem_of_nil].
  - apply Forall_cons in Hl as [[Ha Hn] Hl]. apply wp_bind.
    eapply wp_mono; [apply update_spec; [exact Ha | apply shl32_range]|].
    intros _ s1 h1 (-> & Hr & Hkeep). eapply wp_mono.
    { apply IH. eapply Forall_impl; [exact Hl|]. intros [a' n'] [Ha' Hn']. split; [by apply Hkeep | done]. }
    intros r s2 h2 (-> & -> & Hbits). split_and!; [done|done|]. intros a' n' Hn'.
    rewrite Hbits, Hr by done. destruct (bool_decide_reflect ((a', n') ∈ l)) as [Hin|Hnin].
    + rewrite bool_decide_eq_true_2; [done | by right].
    + destruct (Z.eqb_spec a' a) as [->|Hne].
      * rewrite testbit_rmw_bit by (done || apply Ha). destruct (Z.eqb_spec n' n) as [->|Hnn].
        { rewrite bool_decide_eq_true_2; [done | left]. }
        rewrite bool_decide_eq_false_2; [done|]. rewrite elem_of_cons. naive_solver.
      * rewrite bool_decide_eq_false_2; [done|]. rewrite elem_of_cons. naive_solver.
Qed.
End Update.

(** ** Switches *)

(** Which bits an identifier drives: register and position. *)
Inductive switch := Gate | NReset | PowerOff.

Definition switch_bits (w : switch) (id : Z) : option (list (Z * Z)) :=
  match w with
  | Gate =>
      if id =? CCU_MOD_CLK_R_TWI then Some [(R_TWI_BUS_GATE_RST_REG, 0)]
      else if id =? CCU_MOD_CLK_R_UART then Some [(R_UART_BUS_GATE_RST_REG, 0)]
      else if id =? CCU_MOD_CLK_R_TIMER0_1 then Some [(R_TIMER_BUS_GATE_RST_REG, 0)]
      else if id =? CCU_MOD_CLK_R_RTC then Some [(RTC_BUS_GATE_RST_REG, 0)]
      else if id =? CCU_MOD_CLK_MSGBOX then Some [(CCU_MSGBOX_BGR_REG, 0); (R_MSGBOX_GATE_RST_REG, 0)]
      else if id =? CCU_MOD_CLK_APBS_R_CIR then Some [(R_IR_RX_BUS_GATE_RST_REG, 0)]
      else if id =? CCU_MOD_CLK_R_CIR then Some [(R_IR_RX_CLOCK_REG, 31)]
      else None
  | NReset =>
      if id =? CCU_MOD_CLK_R_TWI then Some [(R_TWI_BUS_GATE_RST_REG, 16)]
      else if id =? CCU_MOD_CLK_R_UART then Some [(R_UART_BUS_GATE_RST_REG, 16)]
      else if id =? CCU_MOD_CLK_R_TIMER0_1 then Some [(R_TIMER_BUS_GATE_RST_REG, 16)]
      else if id =? CCU_MOD_CLK_R_PWM then Some [(R_PWM_BUS_GATE_RST_REG, 16)]
      else if id =? CCU_MOD_CLK_R_RTC then Some [(RTC_BUS_GATE_RST_REG, 16)]
      else if id =? CCU_MOD_CLK_APBS_R_CIR then Some [(R_IR_RX_BUS_GATE_RST_REG, 16)]
      else if id =? CCU_MOD_CLK_VDD_SYS then Some [(VDD_SYS_PWR_RST_REG, 0)]
      else if id =? CCU_MOD_CLK_SPINLOCK then Some [(CCU_SPINLOCK_BGR_REG, 16)]
      else if id =? CCU_MOD_CLK_MSGBOX then Some [(CCU_MSGBOX_BGR_REG, 16); (R_MSGBOX_GATE_RST_REG, 16)]
      else None
  | PowerOff =>
      if (PWRCTL_C0CPU0 <=? id) && (id <=? PWRCTL_C0CPU3)
      then Some [(CPUS_C0_CPU_CFG_REG (id - 1), 1)]
      else if id =? PWRCTL_C0CPUX then Some [(C0_CPUX_POWEROFF_GATING_REG, 4)]
      else None
  end.

Definition switch_run {C S} `{HPrint : HasPrintf C} (w : switch) (id v : Z) : M C S Z :=
  match w with
  | Gate => ccu_set_mclk_onoff id v
  | NReset => ccu_set_mclk_reset id v
  | PowerOff => ccu_set_poweroff_gating_state id v
  end.

(** The complaint about an identifier that drives nothing. *)
Definition refused (w : switch) : string :=
  match w with
  | Gate => "invaid module clock id (%d) when set divider\n"
  | NReset => "invaid module clock id (%d) when set reset\n"
  | PowerOff => "invaid power control module (%d) when set power-off gating\n"
  end.

Lemma switch_run_bits {C S} `{HPrint : HasPrintf C} w id v : v = 0 \/ v = 1 ->
  switch_run (C := C) (S := S) w id v
  = match switch_bits w id with
    | Some l => set_bits l v
    | None => WRN (refused w) [N_ id];; ret (- EINVAL)
    end.
Proof.
  intros Hv. destruct w; cbn [switch_run switch_bits].
  - unfold ccu_set_mclk_onoff. repeat case_match; reflexivity.
  - unfold ccu_set_mclk_reset. repeat case_match; reflexivity.
  - assert (Z.land v 1 = v) as Hl by (by destruct Hv as [->| ->]).
    unfold ccu_set_poweroff_gating_state. rewrite Hl.
    unfold PWRCTL_C0CPU0, PWRCTL_C0CPU1, PWRCTL_C0CPU2, PWRCTL_C0CPU3, PWRCTL_C0CPUX.
    destruct (Z.eqb_spec id 1) as [->|]; [reflexivity|].
    destruct (Z.eqb_spec id 2) as [->|]; [reflexivity|].
    destruct (Z.eqb_spec id 3) as [->|]; [reflexivity|].
    destruct (Z.eqb_spec id 4) as [->|]; [reflexivity|].
    destruct (Z.leb_spec 1 id), (Z.leb_spec id 4); try lia; cbn [andb]; by destruct (id =? 0).
Qed.

(** gating a module clock, its reset and the power-off gating of a core set
    exactly the bits the identifier stands for to the value asked for, and no
    other bit of any register; an identifier without such bits is refused with
    -EINVAL and a warning, and no register is accessed. *)
Theorem switches_exact {C S : Type} `{HPrint : HasPrintf C} (init : Z -> Z) (w : switch) (id v : Z)
  (e : env C) (s : S) (h : history C) :
  v = 0 \/ v = 1 ->
  (forall l a n, switch_bits w id = Some l -> (a, n) ∈ l -> word_reg init e h a) ->
  wp (switch_run w id v) e s h (fun r s' h' => s' = s /\
    match switch_bits w id with
    | None => r = - EINVAL /\ exists out, h' = out ++ h /\ prints out
    | Some l => r = OK /\ forall a n, 0 <= n < 32 -> Z.testbit (regval init h' a) n =
        if bool_decide ((a, n) ∈ l) then v =? 1 else Z.testbit (regval init h a) n
    end) total.
Proof.
  intros Hv Hregs. rewrite switch_run_bits by done.
  destruct (switch_bits w id) as [l|] eqn:El.
  2:{ unfold WRN. fw_steps. split_and!; [done|done|]. eexists [_]. split; [done|].
      apply Forall_singleton. by eexists _, _, _. }
  eapply wp_mono; [apply (set_bits_spec init l v e s h Hv)|].
  - apply Forall_forall. intros [a n] Hin. split; [by eapply Hregs|].
    destruct w; cbn in El; repeat case_match; simplify_eq;
      repeat (apply elem_of_cons in Hin as [[= -> ->]|Hin]; [lia|]); by apply elem_of_nil in Hin.
  - intros r s' h' (-> & -> & Hb). done.
Qed.

(** ** The divider of the infrared clock *)

(** Checked for every divider there is: a run of the conversion in which
    nothing happens outside, and the best factors. *)
Definition ratio_env : env fw_call := Env (fun _ _ => 0) (fun _ _ => 0) (fun _ _ => []).
Definition ratio_ok (div : Z) : bool :=
  match calc_clk_ratio_nm div ratio_env tt [] with
  | Done (st, n, m) _ [] =>
  (st =? OK) && (0 <=? n) && (n <=? 3) && (1 <=? m) && (m <=? 32) &&
  forallb (fun k => forallb (fun j => (j * 2 ^ k <? div) || (m * 2 ^ n <=? j * 2 ^ k)) (zrange 1 32))
    (zrange 0 4) && (div <=? m * 2 ^ n)
  | _ => false
  end.

Lemma ratio_all_ok div : 1 <= div <= 256 -> ratio_ok div = true.
Proof.
  intros Hd. apply (zrange_forallb ratio_ok 1 256); [vm_compute; reflexivity | lia].
Qed.

Lemma calc_parametric {C S} `{HPrint : HasPrintf C} div : div <= 256 -> exists n m,
  calc_clk_ratio_nm (C := C) (S := S) div = ret (OK, n, m) /\
  calc_clk_ratio_nm div ratio_env tt [] = Done (OK, n, m) tt [].
Proof.
  intros Hd. unfold calc_clk_ratio_nm. destruct (Z.ltb_spec div 33); [by eexists _, _|].
  destruct (Z.ltb_spec div 65); [by eexists _, _|]. destruct (Z.ltb_spec div 129); [by eexists _, _|].
  destruct (Z.ltb_spec div 257); [by eexists _, _ | lia].
Qed.

Lemma calc_spec {C S} `{HPrint : HasPrintf C} div : 1 <= div <= 256 -> exists n m,
  calc_clk_ratio_nm (C := C) (S := S) div = ret (OK, n, m) /\
  0 <= n <= 3 /\ 1 <= m <= 32 /\ div <= m * 2 ^ n /\
  forall j k, 1 <= j <= 32 -> 0 <= k <= 3 -> div <= j * 2 ^ k -> m * 2 ^ n <= j * 2 ^ k.
Proof.
  intros Hd. assert (H := ratio_all_ok div Hd). unfold ratio_ok in H.
  destruct (calc_parametric (C := C) (S := S) div) as (n & m & Hc & Hrun); [lia|].
  rewrite Hrun in H. rewrite !andb_true_iff in H.
  destruct H as [[[[[[_ H2] H3] H4] H5] Hall] H6].
  apply Z.leb_le in H2, H3, H4, H5, H6. exists n, m. split_and!; try lia; [done|].
  intros j k Hj Hk Hdj. assert (Hk' := zrange_forallb _ 0 4 Hall k ltac:(lia)).
  assert (Hj' := zrange_forallb _ 1 32 Hk' j ltac:(lia)). apply orb_true_iff in Hj' as [Hlt|Hle].
  - apply Z.ltb_lt in Hlt. lia.
  - by apply Z.leb_le in Hle.
Qed.

(** The register after the factors are stored. *)
Definition with_factors (v n m : Z) : Z :=
  Z.lor (Z.lor (Z.land (Z.land v (cnot32 0x1f)) (cnot32 (Z.shiftl 0x3 8))) (shl32 (u32 (m - 1)) 0))
    (shl32 n 8).

Lemma factors_fields v n m : 0 <= n <= 3 -> 1 <= m <= 32 ->
  Z.land (with_factors v n m) 0x1f = m - 1 /\
  Z.shiftr (Z.land (with_factors v n m) (Z.shiftl 0x3 8)) 8 = n.
Proof.
  intros Hn Hm. unfold with_factors.
  assert (shl32 (u32 (m - 1)) 0 = m - 1 /\ shl32 n 8 = n * 256) as [-> ->].
  { unfold shl32. rewrite Z.shiftl_0_r, Z.shiftl_mul_pow2, (u32_small (m - 1)), !u32_small by lia.
    lia. }
  rewrite !Z.land_lor_distr_l. split.
  - assert (Z.land (Z.land (Z.land v (cnot32 31)) (cnot32 (Z.shiftl 3 8))) 31 = 0) as ->.
    { rewrite <- !Z.land_assoc. change (Z.land (cnot32 31) (Z.land (cnot32 (Z.shiftl 3 8)) 31)) with 0.
      apply Z.land_0_r. }
    assert (In n [0; 1; 2; 3]) as Hin by (cbn; lia). change 31 with (Z.ones 5).
    rewrite !Z.land_ones, (Z.mod_small (m - 1)) by lia.
    replace (n * 256) with (n * 8 * 2 ^ 5) by lia. rewrite Z.mod_mul, Z.lor_0_l, Z.lor_0_r by lia. done.
  - assert (Z.land (Z.land (Z.land v (cnot32 31)) (cnot32 (Z.shiftl 3 8))) (Z.shiftl 3 8) = 0) as ->.
    { rewrite <- !Z.land_assoc. change (Z.land (cnot32 (Z.shiftl 3 8)) (Z.shiftl 3 8)) with 0.
      by rewrite !Z.land_0_r. }
    assert (forall x, 0 <= x < 32 -> Z.land x (Z.shiftl 3 8) = 0) as Hlow.
    { intros x Hx. apply (zrange_forallb (fun x => Z.land x (Z.shiftl 3 8) =? 0) 0 32) in Hx;
        [by apply Z.eqb_eq | vm_compute; reflexivity]. }
    rewrite Hlow, Z.lor_0_l by lia.
    assert (forall x, 0 <= x < 4 -> Z.shiftr (Z.land (x * 256) (Z.shiftl 3 8)) 8 = x) as Hx.
    { intros x Hx. apply (zrange_forallb (fun x => Z.shiftr (Z.land (x * 256) (Z.shiftl 3 8)) 8 =? x) 0 4) in Hx;
        [by apply Z.eqb_eq | vm_compute; reflexivity]. }
    apply Hx. lia.
Qed.

Lemma with_factors_u32 v n m : is_u32 v -> is_u32 (with_factors v n m).
Proof.
  intros Hv. unfold with_factors. repeat apply is_u32_lor; try apply shl32_range.
  repeat (apply is_u32_land_l; [|apply is_u32_nonneg, cnot32_range]). exact Hv.
Qed.

(** Source and gate are no factors. *)
Lemma with_factors_other v n m k :
  0 <= n <= 3 -> 1 <= m <= 32 -> 10 <= k < 32 ->
  Z.testbit (with_factors v n m) k = Z.testbit v k.
Proof.
  intros Hn Hm Hk. unfold with_factors.
  assert (shl32 (u32 (m - 1)) 0 = m - 1 /\ shl32 n 8 = n * 256) as [-> ->].
  { unfold shl32. rewrite Z.shiftl_0_r, Z.shiftl_mul_pow2, (u32_small (m - 1)), !u32_small by lia.
    lia. }
  rewrite !Z.lor_spec, !Z.land_spec, !testbit_cnot32 by lia.
  rewrite (testbit_above 10 (m - 1)), (testbit_above 10 (n * 256)) by lia.
  change (Z.shiftl 3 8) with 768. rewrite (testbit_above 5 31), (testbit_above 10 768) by lia.
  destruct (Z.ltb_spec k 32); [|lia]. cbn. by rewrite !andb_true_r, !orb_false_r.
Qed.

(** a divider from 1 to 256 set for the infrared clock reads back as the
    least divider the 5-bit and 2-bit factors can express that is not below
    it; the clock's source and gate stay as they were. *)
Theorem mclk_div_roundtrip {C S : Type} `{HPrint : HasPrintf C} (init : Z -> Z) (div : Z) (e : env C) (s : S) (h : history C) :
  1 <= div <= 256 -> word_reg init e h R_IR_RX_CLOCK_REG ->
  wp (let! r := ccu_set_mclk_div CCU_MOD_CLK_R_CIR div in
      let! d := ccu_get_mclk_div CCU_MOD_CLK_R_CIR in ret (r, d)) e s h
    (fun '(r, d) s' h' => s' = s /\ r = OK /\ div <= d /\
      (exists j k, 1 <= j <= 32 /\ 0 <= k <= 3 /\ d = j * 2 ^ k) /\
      (forall j k, 1 <= j <= 32 -> 0 <= k <= 3 -> div <= j * 2 ^ k -> d <= j * 2 ^ k) /\
      forall n, 10 <= n < 32 ->
        Z.testbit (regval init h' R_IR_RX_CLOCK_REG) n = Z.testbit (regval init h R_IR_RX_CLOCK_REG) n)
    total.
Proof.
  intros Hd [Hp Hu]. destruct (calc_spec (C := C) (S := S) div Hd) as (n & m & Hc & Hn & Hm & Hle & Hmin).
  unfold ccu_set_mclk_div, ccu_get_mclk_div. rewrite Z.eqb_refl, Hc.
  apply wp_bind, wp_bind, wp_ret. cbn [Z.eqb OK negb].
  apply wp_bind. eapply readl_plain; [exact Hp|exact Hu|]. cbv zeta.
  fold (with_factors (regval init h R_IR_RX_CLOCK_REG) n m).
  set (v := regval init h R_IR_RX_CLOCK_REG) in *.
  apply wp_bind, wp_writel, wp_ret, wp_bind, wp_bind.
  eapply readl_plain; [exact Hp|rewrite regval_Wr_eq; by apply with_factors_u32|].
  rewrite regval_Wr_eq. destruct (factors_fields v n m Hn Hm) as [E1 E2]. rewrite E1, E2. fw_steps.
  assert (1 <= m * 2 ^ n <= 256) as Hb.
  { assert (n = 0 \/ n = 1 \/ n = 2 \/ n = 3) as Hcases by lia.
    destruct Hcases as [->|[->|[->| ->]]]; lia. }
  assert (s32 (u32 ((Z.shiftr (m - 1) 0 + 1) * Z.shiftl 1 n)) = m * 2 ^ n) as ->.
  { rewrite Z.shiftr_0_r, Z.shiftl_1_l. replace (m - 1 + 1) with m by lia.
    unfold s32. rewrite !(u32_small (m * 2 ^ n)) by lia. destruct (Z.ltb_spec (m * 2 ^ n) (2 ^ 31)); lia. }
  split_and!; [done|done|lia|by exists m, n|exact Hmin|].
  intros k Hk. cbn [regval]. rewrite Z.eqb_refl. by apply with_factors_other.
Qed.

(** Zero is not refused: it borrows from the whole register. *)
Lemma mclk_div_zero {C S : Type} `{HPrint : HasPrintf C} (e : env C) (s : S) (h : history C) :
  wp (ccu_set_mclk_div CCU_MOD_CLK_R_CIR 0) e s h (fun r _ h' => r = OK /\
    exists v h1, h' = Wr R_IR_RX_CLOCK_REG v :: h1 /\ v = 2 ^ 32 - 1) total.
Proof.
  unfold ccu_set_mclk_div. rewrite Z.eqb_refl. unfold calc_clk_ratio_nm. cbn [Z.ltb Z.compare].
  apply wp_bind, wp_ret. cbn [Z.eqb OK negb]. fw_steps. split; [done|]. eexists _, _. split; [done|]. change (2 ^ 32 - 1) with (Z.ones 32).
  change (shl32 (u32 (0 - 1)) 0) with (Z.ones 32). change (shl32 0 8) with 0. rewrite Z.lor_0_r.
  apply Z.bits_inj'. intros n Hn. rewrite Z.lor_spec, !Z.land_spec, Z.testbit_ones_nonneg by lia.
  destruct (Z.ltb_spec n 32); [by rewrite orb_true_r|].
  by rewrite (testbit_is_u32 v n) by done.
Qed.

(** ** Rates *)

(** The source field as [ccu_get_sclk_freq] looks at it. *)
Lemma src_field v k :
  0 <= v < 2 ^ 27 -> 0 <= k < 8 -> Z.shiftr (rmw v CLK_SRC_SEL_MASK (CLK_SRC_SEL k)) 24 = k.
Proof.
  intros Hv Hk. unfold CLK_SRC_SEL_MASK, CLK_SRC_SEL, rmw. change 0x7000000 with (Z.shiftl 7 24).
  apply Z.bits_inj'. intros n Hn.
  rewrite Z.shiftr_spec, Z.lor_spec, Z.land_spec, testbit_cnot32, !Z.shiftl_spec by lia.
  replace (n + 24 - 24) with n by lia. destruct (Z.lt_ge_cases n 3).
  - assert (Z.testbit 7 n = true) as ->.
    { assert (n = 0 \/ n = 1 \/ n = 2) as [->|[->| ->]] by lia; reflexivity. }
    by rewrite !andb_false_r.
  - by rewrite (testbit_above 27 v) by lia.
Qed.

Lemma rmw_zero_bound v mask k : 0 <= v < k -> 0 <= rmw v mask 0 < k.
Proof.
  intros Hv. unfold rmw. rewrite Z.lor_0_r, Z.land_comm.
  assert (H := land_le_r (cnot32 mask) v). lia.
Qed.

(** What a register holds after an update of a known one. *)
Local Ltac pick R :=
  rewrite R;
  lazymatch goal with
  | |- context [if ?b then _ else _] => let b' := eval vm_compute in b in change b with b'; cbv iota
  end.

(** over memory-like configuration registers whose reserved top bits are
    clear, the unit's initialisation runs the CPUS at 200 MHz from the
    peripheral PLL and APBS1 at the fixed 24 MHz, as [ccu_get_sclk_freq]
    reports them afterwards; the oscillator estimates are kept and the
    notifier list is empty. *)
Theorem sclk_freq_after_init {C S : Type} `{HPrint : HasPrintf C} `{HPart : !Part ccu S} (init : Z -> Z)
  (e : env C) (s : S) (h : history C) :
  word_reg init e h CPUS_CFG_REG -> word_reg init e h APBS0_CFG_REG ->
  word_reg init e h APBS1_CFG_REG ->
  regval init h CPUS_CFG_REG < 2 ^ 27 -> regval init h APBS1_CFG_REG < 2 ^ 27 ->
  wp (let! r := ccu_init in
      let! cpus := ccu_get_sclk_freq CCU_SYS_CLK_CPUS in
      let! apbs := ccu_get_sclk_freq CCU_SYS_CLK_APBS2 in ret (r, cpus, apbs)) e s h
    (fun '(r, cpus, apbs) s' _ => r = OK /\ cpus = 200000000 /\ apbs = 24000000 /\
       apbs2_notifier_head (part s') = None /\
       iosc_freq (part s') = iosc_freq (part s) /\ losc_freq (part s') = losc_freq (part s)) total.
Proof.
  intros W0 W1 W2 B0 B2. unfold ccu_init.
  assert (is_u32 0 /\ is_u32 1) as [U0 U1] by (unfold is_u32; lia).
  assert (is_u32 (CLK_SRC_SEL 3) /\ is_u32 (CLK_SRC_SEL 4)) as [U3 U4]
    by (unfold CLK_SRC_SEL; split; split; (discriminate || reflexivity)).
  apply wp_bind, wp_bind. eapply wp_mono; [apply update_spec; [exact W0|exact U0]|]. intros _ s1 h1 (-> & R1 & K1).
  apply wp_bind. eapply wp_mono; [apply update_spec; [apply K1, W0|exact U3]|]. intros _ s1 h2 (-> & R2 & K2).
  apply wp_bind. eapply wp_mono; [apply update_spec; [apply K2, K1, W1|exact U1]|]. intros _ s1 h3 (-> & R3 & K3).
  apply wp_bind. eapply wp_mono; [apply update_spec; [apply K3, K2, K1, W1|exact U3]|]. intros _ s1 h4 (-> & R4 & K4).
  apply wp_bind. eapply wp_mono; [apply update_spec; [apply K4, K3, K2, K1, W2|exact U0]|]. intros _ s1 h5 (-> & R5 & K5).
  apply wp_bind. eapply wp_mono; [apply update_spec; [apply K5, K4, K3, K2, K1, W2|exact U4]|]. intros _ s1 h6 (-> & R6 & K6).
  assert (word_reg init e h6 CPUS_CFG_REG /\ word_reg init e h6 APBS1_CFG_REG) as [[P0 V0] [P2 V2]].
  { split; apply K6, K5, K4, K3, K2, K1; assumption. }
  assert (regval init h6 CPUS_CFG_REG
          = rmw (rmw (regval init h CPUS_CFG_REG) FACTOR_M_MASK 0) CLK_SRC_SEL_MASK (CLK_SRC_SEL 3)) as E0.
  { pick R6. pick R5. pick R4. pick R3. pick R2. pick R1. reflexivity. }
  assert (regval init h6 APBS1_CFG_REG
          = rmw (rmw (regval init h APBS1_CFG_REG) FACTOR_M_MASK 0) CLK_SRC_SEL_MASK (CLK_SRC_SEL 4)) as E2.
  { pick R6. pick R5. pick R4. pick R3. pick R2. pick R1. reflexivity. }
  unfold ccu_vars, put_ccu. apply wp_bind, wp_getp, wp_bind, wp_putp, wp_ret.
  unfold ccu_get_sclk_freq, ccu_vars. cbn [Z.eqb CCU_SYS_CLK_CPUS CCU_SYS_CLK_APBS2 Pos.eqb].
  apply wp_bind, wp_bind. eapply readl_plain; [exact P0|exact V0|]. apply wp_bind, wp_getp, wp_ret.
  apply wp_bind, wp_bind. eapply readl_plain; [exact P2|exact V2|]. apply wp_bind, wp_getp, wp_ret, wp_ret.
  cbn [regval]. rewrite E0, E2.
  assert (0 <= regval init h CPUS_CFG_REG /\ 0 <= regval init h APBS1_CFG_REG) as [N0 N2].
  { split; [apply (proj2 W0) | apply (proj2 W2)]. }
  rewrite (src_field _ 3) by first [lia | apply rmw_zero_bound; lia].
  rewrite (src_field _ 4) by first [lia | apply rmw_zero_bound; lia].
  by rewrite !part_set.
Qed.

(** ** The calibration of the internal oscillator *)

Lemma time_cdelay_spec {C S} `{HInsn : !HasInsn C} n e (s : S) (h : history C) :
  wp (time_cdelay n) e s h (fun _ s' h' => s' = s /\ same_regs h h') total.
Proof.
  unfold time_cdelay. generalize (Z.to_nat n) as k. intros k. revert h.
  induction k as [|k IH]; intros h; cbn [Nat.iter]; [by apply wp_ret|].
  unfold exec at 1. fw_steps. eapply wp_mono; [apply IH|].
  intros _ s' h' [-> Hr]. split; [done|]. intros init a. by rewrite Hr.
Qed.

Lemma restore_field v mask a b :
  is_u32 v -> is_u32 mask -> Z.land a mask = a -> Z.land b mask = b ->
  rmw (rmw (rmw v mask a) mask b) mask (Z.land v mask) = v.
Proof.
  intros Hv Hm Ha Hb. unfold rmw. apply Z.bits_inj'. intros n Hn.
  apply (f_equal (fun z => Z.testbit z n)) in Ha, Hb. rewrite Z.land_spec in Ha, Hb.
  rewrite !Z.lor_spec, !Z.land_spec, !Z.lor_spec, !Z.land_spec, !Z.lor_spec, !Z.land_spec,
    !testbit_cnot32 by lia.
  destruct (Z.ltb_spec n 32).
  - destruct (Z.testbit v n), (Z.testbit mask n), (Z.testbit a n), (Z.testbit b n); simpl in *; congruence.
  - rewrite (testbit_is_u32 v n Hv), (testbit_is_u32 mask n Hm) by lia. cbn.
    by rewrite ?andb_false_r.
Qed.

Section Calibration.
Context {C S : Type} `{HPrint : HasPrintf C} `{HInsn : !HasInsn C} (init : Z -> Z).

Lemma osc_sample_spec e c src (s : S) (h : history C) :
  counts e c -> word_reg init e h CPUS_CFG_REG -> 0 <= src < 8 ->
  wp (osc_sample 2 src) e s h (fun n s' h' => s' = s /\ 0 <= n < 2 ^ 32 /\
    (forall a, regval init h' a = if a =? CPUS_CFG_REG
       then rmw (regval init h CPUS_CFG_REG) CLK_SRC_SEL_MASK (CLK_SRC_SEL src)
       else regval init h a) /\
    word_reg init e h' CPUS_CFG_REG) total.
Proof.
  intros Hc Hw Hsrc. unfold osc_sample.
  assert (is_u32 (CLK_SRC_SEL src)) as Hu.
  { unfold CLK_SRC_SEL, is_u32. rewrite Z.shiftl_mul_pow2 by lia. lia. }
  apply wp_bind. eapply wp_mono; [by apply update_spec|]. intros _ s1 h1 (-> & R1 & K1).
  apply wp_bind. eapply wp_mono; [apply time_cdelay_spec|]. intros _ s1 h2 (-> & R2).
  apply wp_bind. eapply wp_mono; [by apply (counter_read_spec e c)|]. intros c1 s1 h3 (-> & _ & R3).
  apply wp_bind. eapply wp_mono; [apply time_cdelay_spec|]. intros _ s1 h4 (-> & R4).
  apply wp_bind. eapply wp_mono; [by apply (counter_read_spec e c)|]. intros c2 s1 h5 (-> & _ & R5).
  apply wp_ret. assert (forall a, regval init h5 a = regval init h1 a) as R.
  { intros a. by rewrite R5, R4, R3, R2. }
  split; [done|]. split_and!.
  - apply Z.div_pos; [apply u32_range | lia].
  - assert (Hb := u32_range (Z.land (u64 (c2 - c1)) 4294967295)). unfold is_u32 in Hb.
    apply Z.div_lt_upper_bound; lia.
  - intros a. by rewrite R, R1.
  - destruct (K1 _ Hw) as [P U]. split; [exact P|]. by rewrite R.
Qed.
End Calibration.

(** The sample is refused: a warning and nothing else. *)
Local Ltac rejected R :=
  unfold WRN; fw_steps; split_and!; [intros ?a; exact (R _) | done | by left].

(** with a counter that advances and a memory-like configuration
    register, the calibration ends, leaves every register as it found it (the
    CPUS clock source it switched twice included), and either changes nothing
    (it had run before, or the samples were refused) or stores an estimate from
    two positive samples, without a division by zero and without overflow in
    the product of the reference. *)
Theorem iosc_calibration_safe {C S : Type} `{HPrint : HasPrintf C} `{HInsn : !HasInsn C} `{HPart : !Part ccu S}
  (init : Z -> Z) (e : env C) (c : history C -> Z) (s : S) (h : history C) :
  counts e c -> word_reg init e h CPUS_CFG_REG ->
  wp (iosc_freq_init 2) e s h (fun _ s' h' =>
    (forall a, regval init h' a = regval init h a) /\
    (already_init_osc_freq (part s) <> 0 -> h' = h /\ s' = s) /\
    (s' = s \/ exists ht xt, 0 < ht /\ 0 < xt /\ 26000 * ht < 2 ^ 32 /\
       let f := u32 (26000 * ht / xt * 1000) in
       s' = set_part (Ccu (apbs2_notifier_head (part s)) f (f / 512) 1) s)) total.
Proof.
  intros Hc Hw. assert (Hw' := Hw). destruct Hw' as [Hp Hu].
  unfold iosc_freq_init, ccu_vars. apply wp_bind, wp_getp.
  destruct (Z.eqb_spec (already_init_osc_freq (part s)) 0) as [Ha|Ha].
  2:{ apply wp_ret. split_and!; [done|done|by left]. }
  apply wp_bind. eapply readl_plain; [exact Hp|exact Hu|]. set (v := regval init h CPUS_CFG_REG) in *.
  apply wp_bind. eapply wp_mono; [apply (osc_sample_spec init e c 0); [exact Hc| |lia]|].
  { split; [exact Hp | exact Hu]. }
  intros ht s1 h1 (-> & Hht & R1 & W1). apply wp_bind.
  eapply wp_mono; [apply (osc_sample_spec init e c 2); [exact Hc|exact W1|lia]|].
  intros xt s1 h2 (-> & Hxt & R2 & W2). apply wp_bind.
  assert (is_u32 (Z.land v CLK_SRC_SEL_MASK)) as Hsrc by (apply is_u32_land_l; [exact Hu | discriminate]).
  eapply wp_mono; [apply update_spec; [exact W2|exact Hsrc]|]. intros _ s1 h3 (-> & R3 & _).
  assert (forall a, regval init h3 a = regval init h a) as R.
  { intros a. rewrite R3. destruct (Z.eqb_spec a CPUS_CFG_REG) as [->|Hne].
    - rewrite R2, Z.eqb_refl, R1, Z.eqb_refl. cbn [regval]. fold v.
      apply restore_field; [exact Hu | split; [discriminate | reflexivity] | reflexivity..].
    - apply Z.eqb_neq in Hne. by rewrite R2, Hne, R1, Hne. }
  change (CCU_DCXO_FREQ / 1000) with 26000. change (4294967295 / 26000) with 165191.
  destruct (Z.eqb_spec ht 0); [rejected R|].
  destruct (Z.eqb_spec xt 0); [rejected R|].
  destruct (Z.ltb_spec 165191 ht); cbn [orb]; [rejected R|].
  unfold put_ccu, LOG. fw_steps. rewrite !part_set, !set_set.
  split_and!; [done|done|]. right. exists ht, xt. rewrite (u32_small (26000 * ht)) by lia.
  split_and!; [lia|lia|lia|done].
Qed.

(** ** Concrete runs *)

(** Registers are memory, all zero at first; the counter ticks per event. *)
Definition prcm_env : env fw_call :=
  Env (fun h a => if a =? CNT_LOW_REG then ticks h mod 2 ^ 32
                  else if a =? CNT_HIGH_REG then ticks h / 2 ^ 32
                  else regval (fun _ => 0) h a)
      (fun _ _ => 0) (fun _ _ => []).

Lemma prcm_counts : counts prcm_env ticks.
Proof.
  assert (forall h : history fw_call, 0 <= ticks h < 2 ^ 64) as Hb by (intros h; unfold ticks; lia).
  split.
  - exact Hb.
  - intros ev h. unfold ticks. cbn [length]. lia.
  - intros h. cbn. apply u32_id. apply Z.mod_pos_bound. lia.
  - intros h. cbn. apply u32_id. unfold is_u32. specialize (Hb h).
    assert (0 <= ticks h / 2 ^ 32) by (apply Z.div_pos; lia).
    assert (ticks h / 2 ^ 32 < 2 ^ 32) by (apply Z.div_lt_upper_bound; lia). lia.
Qed.

Lemma prcm_word_reg a :
  a <> CNT_LOW_REG -> a <> CNT_HIGH_REG -> word_reg (fun _ => 0) prcm_env [] a.
Proof.
  intros H1%Z.eqb_neq H2%Z.eqb_neq. split; [split|]; [split; lia| |split; cbn; lia].
  intros h. cbn. by rewrite H1, H2.
Qed.

Lemma switches_exact_witness :
  switch_bits NReset CCU_MOD_CLK_R_TWI = Some [(R_TWI_BUS_GATE_RST_REG, 16)] /\
  wp (switch_run NReset CCU_MOD_CLK_R_TWI 1) prcm_env tt []
    (fun r _ h' => r = OK /\ Z.testbit (regval (fun _ => 0) h' R_TWI_BUS_GATE_RST_REG) 16 = true) total.
Proof.
  split; [reflexivity|]. eapply wp_mono.
  - apply (switches_exact (fun _ => 0) NReset CCU_MOD_CLK_R_TWI 1 prcm_env tt []); [by right|].
    intros l a n [= <-] Hin. apply list_elem_of_singleton in Hin as [= -> ->].
    apply prcm_word_reg; discriminate.
  - intros r s' h' (_ & -> & Hb). split; [reflexivity|]. rewrite Hb by lia.
    rewrite bool_decide_eq_true_2; [reflexivity | left].
Defined.

Lemma mclk_div_roundtrip_witness :
  1 <= 100 <= 256 /\
  wp (let! r := ccu_set_mclk_div CCU_MOD_CLK_R_CIR 100 in
      let! d := ccu_get_mclk_div CCU_MOD_CLK_R_CIR in ret (r, d)) prcm_env tt []
    (fun '(r, d) _ _ => r = OK /\ 100 <= d) total.
Proof.
  split; [lia|]. eapply wp_mono.
  - apply (mclk_div_roundtrip (fun _ => 0) 100 prcm_env tt []); [lia|].
    apply prcm_word_reg; discriminate.
  - intros [r d] s' h' (_ & -> & Hd & _). by split.
Defined.

Lemma sclk_freq_after_init_witness :
  regval (fun _ => 0) ([] : history fw_call) CPUS_CFG_REG < 2 ^ 27 /\
  wp (let! r := ccu_init in
      let! cpus := ccu_get_sclk_freq CCU_SYS_CLK_CPUS in
      let! apbs := ccu_get_sclk_freq CCU_SYS_CLK_APBS2 in ret (r, cpus, apbs)) prcm_env ccu_initial []
    (fun '(r, cpus, apbs) _ _ => r = OK /\ cpus = 200000000 /\ apbs = 24000000) total.
Proof.
  split; [reflexivity|]. eapply wp_mono.
  - apply (sclk_freq_after_init (fun _ => 0) prcm_env ccu_initial []);
      first [apply prcm_word_reg; discriminate | reflexivity].
  - intros [[r cpus] apbs] s' h' (-> & -> & -> & _). done.
Defined.

Lemma iosc_calibration_safe_witness :
  counts prcm_env ticks /\
  wp (iosc_freq_init 2) prcm_env ccu_initial []
    (fun _ _ h' => forall a, regval (fun _ => 0) h' a = 0) total.
Proof.
  split; [exact prcm_counts|]. eapply wp_mono.
  - apply (iosc_calibration_safe (fun _ => 0) prcm_env ticks ccu_initial []); [exact prcm_counts|].
    apply prcm_word_reg; discriminate.
  - intros _ s' h' [Hr _] a. exact (Hr a).
Defined.
