(* ===== verification/CMem.v ===== *)
(** * C memory for the AR100 library

    The byte store that the string and conversion routines of
    src/ar100s/library work on: a finite map from addresses to bytes.  An
    address outside the map belongs to no object, so reading or writing it is
    undefined behaviour.  A pointer is its address; an object does not wrap
    around the address space.  [long] is the 32-bit little-endian word of the
    E907 core, and [char] is unsigned there. *)

From stdpp Require Export gmap.
From S2P Require Import Prelude Machine.

Local Open Scope list_scope.
Local Open Scope Z_scope.
Local Open Scope mach_scope.

#[local] Coercion Z.of_nat : nat >-> Z.

Abbreviation mem := (gmap Z Z).

(** ** Accesses *)

Section Access.
Context {C : Type}.

Definition load8 (p : Z) : M C mem Z := fun _ m h =>
  match m !! p with
  | Some b => Done b m h
  | None => Stop Undefined m h
  end.
Definition store8 (p v : Z) : M C mem unit := fun _ m h =>
  match m !! p with
  | Some _ => Done tt (<[p := u8 v]> m) h
  | None => Stop Undefined m h
  end.

(** A word access needs a word boundary. *)
Definition aligned (p : Z) : M C mem unit :=
  if p mod 4 =? 0 then ret tt else stop_now Undefined.
Definition load32 (p : Z) : M C mem Z :=
  aligned p;;
  let! b0 := load8 p in let! b1 := load8 (p + 1) in
  let! b2 := load8 (p + 2) in let! b3 := load8 (p + 3) in
  ret (b0 + b1 * 2 ^ 8 + b2 * 2 ^ 16 + b3 * 2 ^ 24).
Definition store32 (p v : Z) : M C mem unit :=
  aligned p;;
  store8 p v;; store8 (p + 1) (v / 2 ^ 8);;
  store8 (p + 2) (v / 2 ^ 16);; store8 (p + 3) (v / 2 ^ 24).

(** One more than the bytes of the store: a loop that reads a new address in
    every round cannot take more rounds. *)
Definition with_fuel {A} (f : nat -> M C mem A) : M C mem A :=
  let! m := get in f (S (size m)).
End Access.

(** ** Runs: a program that ends in a state whatever the environment *)

Definition runs {C A} (p : M C mem A) (m : mem) (a : A) (m' : mem) : Prop :=
  forall e h, p e m h = Done a m' h.

(** A run that reached undefined behaviour. *)
Definition faults {C A} (p : M C mem A) (m : mem) : Prop :=
  forall e h, exists m' h', p e m h = Stop Undefined m' h'.

(** A run that used up its fuel. *)
Definition timed_out {C S A} (o : outcome C S A) : Prop :=
  match o with Stop OutOfFuel _ _ => True | _ => False end.

Section Runs.
Context {C : Type}.
Implicit Types (m : mem) (p a : Z).

Lemma runs_ret {A} (x : A) m : runs (C := C) (ret x) m x m.
Proof. done. Qed.

Lemma runs_eq {A} (q : M C mem A) m x y m' : runs q m x m' -> x = y -> runs q m y m'.
Proof. by intros Hq <-. Qed.

Lemma runs_bind {A B} (q : M C mem A) (f : A -> M C mem B) m x m1 y m2 :
  runs q m x m1 -> runs (f x) m1 y m2 -> runs (bind q f) m y m2.
Proof. intros Hq Hf e h. unfold bind. rewrite (Hq e h). apply Hf. Qed.

Lemma faults_bind {A B} (q : M C mem A) (f : A -> M C mem B) m x m1 :
  runs q m x m1 -> faults (f x) m1 -> faults (bind q f) m.
Proof. intros Hq Hf e h. unfold bind. rewrite (Hq e h). apply Hf. Qed.

Lemma faults_now {A B} (q : M C mem A) (f : A -> M C mem B) m :
  faults q m -> faults (bind q f) m.
Proof.
  intros Hq e h. unfold bind. destruct (Hq e h) as (m' & h' & Heq). rewrite Heq.
  by exists m', h'.
Qed.

Lemma runs_load8 p b m : m !! p = Some b -> runs (C := C) (load8 p) m b m.
Proof. intros Hp e h. unfold load8. by rewrite Hp. Qed.

Lemma runs_store8 p v m :
  is_Some (m !! p) -> runs (C := C) (store8 p v) m tt (<[p := u8 v]> m).
Proof. intros [b Hp] e h. unfold store8. by rewrite Hp. Qed.

Lemma faults_load8 p m : m !! p = None -> faults (C := C) (load8 p) m.
Proof. intros Hp e h. unfold load8. rewrite Hp. eauto. Qed.

Lemma runs_aligned p m : p mod 4 = 0 -> runs (C := C) (aligned p) m tt m.
Proof. intros Hp e h. unfold aligned. by rewrite (proj2 (Z.eqb_eq _ _) Hp). Qed.

Lemma runs_with_fuel {A} (f : nat -> M C mem A) m x m' :
  runs (f (S (size m))) m x m' -> runs (with_fuel f) m x m'.
Proof. intros Hf e h. apply Hf. Qed.
End Runs.

(** ** Arrays of bytes *)

(** The bytes [bs] are stored from [p] on. *)
Definition bytes_at (m : mem) (p : Z) (bs : list Z) : Prop :=
  forall i b, bs !! i = Some b -> m !! (p + Z.of_nat i) = Some b.
(** The [n] bytes from [p] on belong to objects. *)
Definition valid (m : mem) (p n : Z) : Prop :=
  forall a, p <= a < p + n -> is_Some (m !! a).
(** Every stored byte is one. *)
Definition mem_ok (m : mem) : Prop := forall p b, m !! p = Some b -> is_u8 b.

(** Storing [bs] from [p] on. *)
Fixpoint write_at (m : mem) (p : Z) (bs : list Z) : mem :=
  match bs with
  | [] => m
  | b :: bs => write_at (<[p := b]> m) (p + 1) bs
  end.

Lemma bytes_at_nil m p : bytes_at m p [].
Proof. intros i b Hi. by rewrite lookup_nil in Hi. Qed.

Lemma bytes_at_cons m p b bs :
  bytes_at m p (b :: bs) <-> m !! p = Some b /\ bytes_at m (p + 1) bs.
Proof.
  split.
  - intros Hb. split; [specialize (Hb 0%nat b eq_refl); by rewrite Z.add_0_r in Hb|].
    intros i c Hi. specialize (Hb (S i) c Hi). by replace (p + 1 + i) with (p + S i) by lia.
  - intros [H0 Hb] [|i] c Hi; simplify_eq/=.
    + by rewrite Z.add_0_r.
    + specialize (Hb i c Hi). by replace (p + S i) with (p + 1 + i) by lia.
Qed.

Lemma bytes_at_app m p bs cs :
  bytes_at m p (bs ++ cs) <-> bytes_at m p bs /\ bytes_at m (p + length bs) cs.
Proof.
  revert p. induction bs as [|b bs IH]; intros p; cbn [app length].
  - rewrite Z.add_0_r. split; [by split; [apply bytes_at_nil|] | by intros []].
  - rewrite !bytes_at_cons, IH. replace (p + S (length bs)) with (p + 1 + length bs) by lia.
    tauto.
Qed.

Lemma bytes_at_insert m p q v bs :
  bytes_at m p bs -> ~ p <= q < p + length bs -> bytes_at (<[q := v]> m) p bs.
Proof.
  intros Hb Hq i b Hi. rewrite lookup_insert_ne; [by apply Hb|].
  apply lookup_lt_Some in Hi. lia.
Qed.

Lemma valid_insert m p n q v : valid m p n -> valid (<[q := v]> m) p n.
Proof.
  intros Hv a Ha. destruct (decide (q = a)) as [->|Hne].
  - rewrite lookup_insert_eq. by eexists.
  - rewrite lookup_insert_ne by done. by apply Hv.
Qed.

Lemma valid_sub m p n q k : valid m p n -> p <= q -> q + k <= p + n -> valid m q k.
Proof. intros Hv H1 H2 a Ha. apply Hv. lia. Qed.

Lemma bytes_at_valid m p bs : bytes_at m p bs -> valid m p (length bs).
Proof.
  intros Hb a Ha. destruct (lookup_lt_is_Some_2 bs (Z.to_nat (a - p))) as [b Hi]; [lia|].
  apply Hb in Hi. replace (p + Z.to_nat (a - p)) with a in Hi by lia. by exists b.
Qed.

Lemma mem_ok_insert m p v : mem_ok m -> is_u8 v -> mem_ok (<[p := v]> m).
Proof. intros Hm Hv q b [[-> ->]|[Hne Hq]]%lookup_insert_Some; [done | by apply (Hm q)]. Qed.

Lemma bytes_at_u8 m p bs : mem_ok m -> bytes_at m p bs -> Forall is_u8 bs.
Proof.
  intros Hm Hb. apply Forall_lookup_2. intros i b Hi. eapply Hm. by apply (Hb i).
Qed.

Lemma write_at_app m p bs cs :
  write_at m p (bs ++ cs) = write_at (write_at m p bs) (p + length bs) cs.
Proof.
  revert m p. induction bs as [|b bs IH]; intros m p; cbn [app length write_at].
  - by rewrite Z.add_0_r.
  - rewrite IH. f_equal. lia.
Qed.

Lemma lookup_write_at_out m p bs a :
  ~ p <= a < p + length bs -> write_at m p bs !! a = m !! a.
Proof.
  revert m p. induction bs as [|b bs IH]; intros m p Ha; cbn [write_at length] in *; [done|].
  rewrite IH by lia. apply lookup_insert_ne. lia.
Qed.

(** A block stays as it was when something is stored beside it. *)
Lemma bytes_at_write_at_out m p bs q cs :
  bytes_at m p bs -> q + length cs <= p \/ p + length bs <= q ->
  bytes_at (write_at m q cs) p bs.
Proof.
  intros Hb Hq i b Hi. rewrite lookup_write_at_out; [by apply Hb|].
  apply lookup_lt_Some in Hi. lia.
Qed.

Lemma valid_write_at m p n q cs : valid m p n -> valid (write_at m q cs) p n.
Proof.
  revert m q. induction cs as [|c cs IH]; intros m q Hv; [done|].
  cbn [write_at]. by apply IH, valid_insert.
Qed.

(** What was written is there. *)
Lemma bytes_at_write_at m p bs : bytes_at (write_at m p bs) p bs.
Proof.
  revert m p. induction bs as [|b bs IH]; intros m p; cbn [write_at]; [apply bytes_at_nil|].
  apply bytes_at_cons. split; [|apply IH].
  rewrite lookup_write_at_out by lia. apply lookup_insert_eq.
Qed.

Lemma write_at_mem_ok m p bs : mem_ok m -> Forall is_u8 bs -> mem_ok (write_at m p bs).
Proof.
  intros Hm Hb. revert m p Hm. induction Hb as [|b bs Hb _ IH]; intros m p Hm; [done|].
  cbn [write_at]. by apply IH, mem_ok_insert.
Qed.

(** Storing the last byte first. *)
Lemma write_at_snoc m p bs b :
  write_at m p (bs ++ [b]) = write_at (<[p + length bs := b]> m) p bs.
Proof.
  revert m p. induction bs as [|c bs IH]; intros m p; cbn [app length write_at].
  - by rewrite Z.add_0_r.
  - rewrite IH. replace (p + 1 + length bs) with (p + S (length bs)) by lia.
    f_equal. apply insert_insert_ne. lia.
Qed.

(** ** Loops over fresh addresses *)

(** No use of fuel, faults allowed. *)
Definition no_timeout {C S} : stop -> S -> history C -> Prop := fun w _ _ => w <> OutOfFuel.
Definition settles {C A} (p : M C mem A) : Prop := forall m e h, ~ timed_out (p e m h).

(** The stored addresses from [p] on. *)
Definition from (m : mem) (p : Z) : gset Z := filter (fun a : Z => p <= a) (dom m).
(** [fuel] exceeds their number. *)
Definition room (m : mem) (p : Z) (fuel : nat) : Prop := (size (from m p) < fuel)%nat.

Lemma room_init m p : room m p (S (size m)).
Proof.
  unfold room. rewrite <- (size_dom (D := gset Z) m).
  assert (from m p ⊆ dom m) as Hs.
  { intros a Ha. by apply elem_of_filter in Ha as [_ Ha]. }
  apply subseteq_size in Hs. lia.
Qed.

Lemma room_pos m p fuel : room m p fuel -> fuel <> O.
Proof. unfold room. lia. Qed.

Lemma room_step m p b fuel : room m p (S fuel) -> m !! p = Some b -> room m (p + 1) fuel.
Proof.
  unfold room. intros Hr Hp.
  assert (from m p = {[p]} ∪ from m (p + 1)) as E.
  { unfold from. apply set_eq. intros a. rewrite elem_of_union, elem_of_singleton, !elem_of_filter.
    split.
    - intros [Ha Hd]. destruct (decide (a = p)); [by left | right; split; [lia | done]].
    - intros [->|[Ha Hd]]; (split; [lia|]); [by eapply elem_of_dom_2 | done]. }
  rewrite E, size_union, size_singleton in Hr; [lia|].
  intros a Ha Hb. apply elem_of_singleton in Ha as ->. apply elem_of_filter in Hb as [Hb _]. lia.
Qed.

Lemma room_weaken m p b fuel : room m p fuel -> m !! p = Some b -> room m (p + 1) fuel.
Proof. intros Hr. apply room_step. unfold room in *. lia. Qed.

Lemma room_dom m m' p fuel : dom m' = (dom m : gset Z) -> room m p fuel -> room m' p fuel.
Proof. unfold room, from. by intros ->. Qed.

Section Settles.
Context {C : Type}.
Implicit Types (e : env C) (h : history C).

Lemma settles_intro {A} (p : M C mem A) :
  (forall m e h, wp p e m h (fun _ _ _ => True) no_timeout) -> settles p.
Proof.
  intros Hp m e h. specialize (Hp m e h). unfold wp in Hp.
  destruct (p e m h) as [|[] ? ?]; cbn; [by intros [] | by intros [] | done | by intros []].
Qed.

Lemma wp_load8 p e m h Q :
  (forall b, m !! p = Some b -> Q b m h) -> wp (load8 (C := C) p) e m h Q no_timeout.
Proof. intros HQ. unfold wp, load8. destruct (m !! p); [by apply HQ | done]. Qed.

Lemma wp_store8 p v e m h Q :
  (forall m', dom m' = (dom m : gset Z) -> Q tt m' h) -> wp (store8 (C := C) p v) e m h Q no_timeout.
Proof.
  intros HQ. unfold wp, store8. destruct (m !! p) eqn:Hp; [|done].
  apply HQ. apply dom_insert_lookup_L. by eexists.
Qed.

Lemma wp_with_fuel {A} (f : nat -> M C mem A) e m h Q K' :
  wp (f (S (size m))) e m h Q K' -> wp (with_fuel f) e m h Q K'.
Proof. done. Qed.
End Settles.

(** One step of a program over bytes. *)
Ltac mem_step :=
  lazymatch goal with
  | |- wp (load8 _) _ _ _ _ _ => apply wp_load8; intros ?b ?Hb
  | |- wp (store8 _ _) _ _ _ _ _ => apply wp_store8; intros ?m ?Hdom
  | |- wp (with_fuel _) _ _ _ _ _ => apply wp_with_fuel
  | |- wp (if ?b then _ else _) _ _ _ _ _ => destruct b eqn:?
  | |- wp (let _ := _ in _) _ _ _ _ _ => cbv zeta
  | |- wp (aligned _) _ _ _ _ _ => unfold aligned
  | |- wp (load32 _) _ _ _ _ _ => unfold load32
  | |- wp (store32 _ _) _ _ _ _ _ => unfold store32
  | _ => wp_step
  end; cbv beta.
Ltac mem_steps := repeat mem_step.

(** ** Checking a concrete store *)

(** A store with one object. *)
Definition object (p : Z) (bs : list Z) : mem := write_at ∅ p bs.

Definition stored (m : mem) (p : Z) : bool := match m !! p with Some _ => true | None => false end.
Definition check_valid (m : mem) (p : Z) (n : nat) : bool :=
  forallb (fun i : nat => stored m (p + i)) (seq 0 n).
Fixpoint check_bytes (m : mem) (p : Z) (bs : list Z) : bool :=
  match bs with
  | [] => true
  | b :: bs => match m !! p with Some c => b =? c | None => false end && check_bytes m (p + 1) bs
  end.
Definition check_mem (m : mem) : bool :=
  forallb (fun pb => (0 <=? pb.2) && (pb.2 <? 256)) (map_to_list m).

Lemma check_valid_ok m p n : check_valid m p n = true -> valid m p n.
Proof.
  unfold check_valid. rewrite forallb_forall. intros Hall a Ha.
  specialize (Hall (Z.to_nat (a - p))). rewrite in_seq in Hall. specialize (Hall ltac:(lia)).
  unfold stored in Hall. replace (p + Z.to_nat (a - p)) with a in Hall by lia.
  destruct (m !! a); [by eexists | done].
Qed.

Lemma check_bytes_ok m p bs : check_bytes m p bs = true -> bytes_at m p bs.
Proof.
  revert p. induction bs as [|b bs IH]; intros p Hc; [apply bytes_at_nil|].
  cbn [check_bytes] in Hc. apply andb_true_iff in Hc as [H0 Hc]. apply bytes_at_cons.
  split; [|by apply IH]. destruct (m !! p); [|done]. by apply Z.eqb_eq in H0 as ->.
Qed.

Lemma check_mem_ok m : check_mem m = true -> mem_ok m.
Proof.
  unfold check_mem. rewrite forallb_forall. intros Hall p b Hp.
  apply elem_of_map_to_list, list_elem_of_In, Hall in Hp. cbn [snd] in Hp. unfold is_u8. lia.
Qed.

(** Evaluate a property of a concrete store. *)
Ltac check_store :=
  lazymatch goal with
  | |- valid ?m ?p ?n => apply (check_valid_ok m p (Z.to_nat n)); vm_compute; reflexivity
  | |- bytes_at _ _ _ => apply check_bytes_ok; vm_compute; reflexivity
  | |- mem_ok _ => apply check_mem_ok; vm_compute; reflexivity
  end.
