(* ===== verification/StringLib.v ===== *)
(** * The AR100 string library (src/ar100s/library/string.c)

    Every routine of the file over the byte store of CMem.v.  [size_t] is 32
    bits; a loop that the source bounds by a count recurses on the count, any
    other loop runs on [with_fuel]. *)

From S2P Require Import Prelude Machine CMem.

Local Open Scope list_scope.
Local Open Scope Z_scope.
Local Open Scope mach_scope.

Section StringLib.
Context {C : Type}.
Local Abbreviation M := (M C mem).

Fixpoint strlen_loop (fuel : nat) (s sc : Z) : M Z :=
  match fuel with
  | O => stop_now OutOfFuel
  | S fuel =>
    let! c := load8 sc in
    if negb (c =? 0) then strlen_loop fuel s (sc + 1) else ret (sc - s)
  end.
Definition strlen (s : Z) : M Z := with_fuel (fun fuel => strlen_loop fuel s s).

Fixpoint strnlen_loop (fuel : nat) (s n sc : Z) : M Z :=
  match fuel with
  | O => stop_now OutOfFuel
  | S fuel =>
    if u32 (sc - s) <? n then
      let! c := load8 sc in
      if negb (c =? 0) then strnlen_loop fuel s n (sc + 1) else ret (sc - s)
    else ret (sc - s)
  end.
Definition strnlen (s n : Z) : M Z := with_fuel (fun fuel => strnlen_loop fuel s n s).

(** The copy of bytes up to and with the terminator. *)
Fixpoint strcpy_loop (fuel : nat) (dest src : Z) : M unit :=
  match fuel with
  | O => stop_now OutOfFuel
  | S fuel =>
    let! c := load8 src in
    store8 dest c;;
    if negb (c =? 0) then strcpy_loop fuel (dest + 1) (src + 1) else ret tt
  end.
Definition strcpy (dest src : Z) : M Z :=
  with_fuel (fun fuel => strcpy_loop fuel dest src);; ret dest.

Fixpoint strncpy_loop (count : nat) (tmp src : Z) : M unit :=
  match count with
  | O => ret tt
  | S count =>
    let! c := load8 src in
    store8 tmp c;;
    let! c := load8 src in
    strncpy_loop count (tmp + 1) (if negb (c =? 0) then src + 1 else src)
  end.
Definition strncpy (dest src count : Z) : M Z :=
  strncpy_loop (Z.to_nat count) dest src;; ret dest.

(** The end of the string at [dest]. *)
Fixpoint strend_loop (fuel : nat) (dest : Z) : M Z :=
  match fuel with
  | O => stop_now OutOfFuel
  | S fuel =>
    let! c := load8 dest in
    if negb (c =? 0) then strend_loop fuel (dest + 1) else ret dest
  end.
Fixpoint strncat_loop (fuel : nat) (dest src count : Z) : M unit :=
  match fuel with
  | O => stop_now OutOfFuel
  | S fuel =>
    let! c := load8 src in
    store8 dest c;;
    let dest := dest + 1 in
    let src := src + 1 in
    if negb (c =? 0) then
      let count := u32 (count - 1) in
      if count =? 0 then store8 dest 0
      else strncat_loop fuel dest src count
    else ret tt
  end.
Definition strncat (dest src count : Z) : M Z :=
  if negb (count =? 0) then
    let! end_ := with_fuel (fun fuel => strend_loop fuel dest) in
    with_fuel (fun fuel => strncat_loop fuel end_ src count);;
    ret dest
  else ret dest.

Fixpoint strcmp_loop (fuel : nat) (cs ct : Z) : M Z :=
  match fuel with
  | O => stop_now OutOfFuel
  | S fuel =>
    let! c1 := load8 cs in
    let! c2 := load8 ct in
    if negb (c1 =? c2) then ret (if c1 <? c2 then -1 else 1)
    else if c1 =? 0 then ret 0
    else strcmp_loop fuel (cs + 1) (ct + 1)
  end.
Definition strcmp (cs ct : Z) : M Z := with_fuel (fun fuel => strcmp_loop fuel cs ct).

Fixpoint strncmp_loop (count : nat) (cs ct : Z) : M Z :=
  match count with
  | O => ret 0
  | S count =>
    let! c1 := load8 cs in
    let! c2 := load8 ct in
    if negb (c1 =? c2) then ret (if c1 <? c2 then -1 else 1)
    else if c1 =? 0 then ret 0
    else strncmp_loop count (cs + 1) (ct + 1)
  end.
Definition strncmp (cs ct count : Z) : M Z := strncmp_loop (Z.to_nat count) cs ct.

Fixpoint strchr_loop (fuel : nat) (p c : Z) : M Z :=
  match fuel with
  | O => stop_now OutOfFuel
  | S fuel =>
    let! b := load8 p in
    if negb (b =? 0) then
      if b =? u8 c then ret p else strchr_loop fuel (p + 1) c
    else ret 0
  end.
Definition strchr (s c : Z) : M Z := with_fuel (fun fuel => strchr_loop fuel s c).

(** ** Memory blocks *)

(** [while (n--) *cd++ = *cs++;] over bytes, and over words. *)
Fixpoint copy_bytes (n : nat) (cd cs : Z) : M (Z * Z) :=
  match n with
  | O => ret (cd, cs)
  | S n =>
    let! b := load8 cs in
    store8 cd b;;
    copy_bytes n (cd + 1) (cs + 1)
  end.
Fixpoint copy_words (cnt : nat) (ld ls : Z) : M unit :=
  match cnt with
  | O => ret tt
  | S cnt =>
    let! w := load32 ls in
    store32 ld w;;
    copy_words cnt (ld + 4) (ls + 4)
  end.

Definition memcpy (dest src n : Z) : M Z :=
  if negb (Z.land 0x03 (Z.lor dest src) =? 0) then
    copy_bytes (Z.to_nat n) dest src;;
    ret dest
  else
    let cnt := Z.shiftr n 2 in
    copy_words (Z.to_nat cnt) dest src;;
    let cs := src + Z.land n (cnot32 0x03) in
    let cd := dest + Z.land n (cnot32 0x03) in
    let cnt := Z.land n 0x03 in
    copy_bytes (Z.to_nat cnt) cd cs;;
    ret dest.

(** The copy from the last byte down; the pointers as it leaves them. *)
Fixpoint copy_down (n : nat) (dest src : Z) : M (Z * Z) :=
  match n with
  | O => ret (dest, src)
  | S n =>
    let! b := load8 src in
    store8 dest b;;
    copy_down n (dest - 1) (src - 1)
  end.

Definition memmove (dest src n : Z) : M Z :=
  if (dest <=? src) || (src + n <=? dest) then
    let! (dest, src) := copy_bytes (Z.to_nat n) dest src in
    ret dest
  else
    let dest := dest + n - 1 in
    let src := src + n - 1 in
    let! (dest, src) := copy_down (Z.to_nat n) dest src in
    ret dest.

(** [--n] on a count of zero wraps. *)
Fixpoint memcmp_loop (fuel : nat) (p1 p2 n : Z) : M Z :=
  match fuel with
  | O => stop_now OutOfFuel
  | S fuel =>
    let! b1 := load8 p1 in
    let! b2 := load8 p2 in
    if b1 =? b2 then
      let n := u32 (n - 1) in
      if 0 <? n then memcmp_loop fuel (p1 + 1) (p2 + 1) n else ret (b1 - b2)
    else ret (b1 - b2)
  end.
Definition memcmp (s1 s2 n : Z) : M Z := with_fuel (fun fuel => memcmp_loop fuel s1 s2 n).

Fixpoint memchr_loop (n : nat) (p c : Z) : M Z :=
  match n with
  | O => ret 0
  | S n =>
    let! b := load8 p in
    if negb (b =? u8 c) then memchr_loop n (p + 1) c else ret p
  end.
Definition memchr (s c n : Z) : M Z := memchr_loop (Z.to_nat n) s c.

Fixpoint memset_loop (n : nat) (p c : Z) : M unit :=
  match n with
  | O => ret tt
  | S n => store8 p c;; memset_loop n (p + 1) c
  end.
Definition memset (s c n : Z) : M Z := memset_loop (Z.to_nat n) s c;; ret s.
End StringLib.
