(* ===== verification/StringLibProps.v ===== *)
(** * Properties of the AR100 string library

    The block copies against the byte arrays of CMem.v, the string routines
    against lists, and the end of every loop. *)

From S2P Require Import Prelude Machine CMem StringLib.

Local Open Scope list_scope.
Local Open Scope Z_scope.
Local Open Scope mach_scope.
#[local] Coercion Z.of_nat : nat >-> Z.

(** ** Block copies *)

Section Copies.
Context {C : Type}.
Implicit Types (m : mem) (cd cs : Z) (bs : list Z).

(** A forward copy is safe when the destination is not inside the rest of the
    source. *)
Definition forward_ok (cd cs n : Z) : Prop := cd <= cs \/ cs + n <= cd.

Lemma copy_bytes_spec cd cs bs m :
  mem_ok m -> bytes_at m cs bs -> valid m cd (length bs) -> forward_ok cd cs (length bs) ->
  runs (C := C) (copy_bytes (length bs) cd cs) m (cd + length bs, cs + length bs) (write_at m cd bs).
Proof.
  revert cd cs m. induction bs as [|b bs IH]; intros cd cs m Hm Hb Hv Hf; cbn [length copy_bytes].
  - rewrite !Z.add_0_r. apply runs_ret.
  - apply bytes_at_cons in Hb as [H0 Hb]. cbn [length] in *.
    assert (u8 b = b) as Hb8 by by apply u8_id, (Hm cs).
    eapply runs_bind; [by apply runs_load8|].
    eapply runs_bind; [apply runs_store8, Hv; lia|]. rewrite Hb8.
    cbn [write_at]. rewrite !Nat2Z.inj_succ.
    replace (cd + Z.succ (length bs)) with (cd + 1 + length bs) by lia.
    replace (cs + Z.succ (length bs)) with (cs + 1 + length bs) by lia.
    apply IH.
    + apply mem_ok_insert; [done | by apply (Hm cs)].
    + apply bytes_at_insert; [done|]. unfold forward_ok in Hf. lia.
    + apply valid_insert. eapply valid_sub; [exact Hv|lia|lia].
    + unfold forward_ok in *. lia.
Qed.

Lemma word_bytes b0 b1 b2 b3 : is_u8 b0 -> is_u8 b1 -> is_u8 b2 -> is_u8 b3 ->
  let w := b0 + b1 * 2 ^ 8 + b2 * 2 ^ 16 + b3 * 2 ^ 24 in
  u8 w = b0 /\ u8 (w / 2 ^ 8) = b1 /\ u8 (w / 2 ^ 16) = b2 /\ u8 (w / 2 ^ 24) = b3.
Proof.
  unfold is_u8, u8. cbv zeta. change (2 ^ 8) with 256. change (2 ^ 16) with 65536.
  change (2 ^ 24) with 16777216. intros. split_and!; Z.div_mod_to_equations; lia.
Qed.

(** One word: the four bytes move together. *)
Lemma copy_word_spec ld ls b0 b1 b2 b3 m :
  mem_ok m -> ls mod 4 = 0 -> ld mod 4 = 0 -> bytes_at m ls [b0; b1; b2; b3] -> valid m ld 4 ->
  runs (C := C) (let! w := load32 ls in store32 ld w) m tt (write_at m ld [b0; b1; b2; b3]).
Proof.
  intros Hm Hls Hld Hb Hv. assert (Hu := bytes_at_u8 _ _ _ Hm Hb).
  repeat (apply Forall_cons in Hu as [? Hu]).
  destruct (word_bytes b0 b1 b2 b3) as (E0 & E1 & E2 & E3); [done..|].
  assert (m !! ls = Some b0) as L0 by by apply bytes_at_cons in Hb as [? _].
  assert (L1 := Hb 1%nat b1 eq_refl). assert (L2 := Hb 2%nat b2 eq_refl).
  assert (L3 := Hb 3%nat b3 eq_refl).
  eapply runs_bind.
  - unfold load32. eapply runs_bind; [by apply runs_aligned|].
    eapply runs_bind; [apply runs_load8, L0|]. eapply runs_bind; [apply runs_load8, L1|].
    eapply runs_bind; [apply runs_load8, L2|]. eapply runs_bind; [apply runs_load8, L3|].
    apply runs_ret.
  - assert (forall m' a, valid m' ld 4 -> ld <= a < ld + 4 -> is_Some (m' !! a)) as Hat
      by (intros m' a Hm'; apply Hm').
    unfold store32. eapply runs_bind; [by apply runs_aligned|].
    eapply runs_bind; [apply runs_store8, Hat; [done|lia]|]. rewrite E0.
    eapply runs_bind; [apply runs_store8, Hat; [by apply valid_insert|lia]|]. rewrite E1.
    eapply runs_bind; [apply runs_store8, Hat; [by do 2 apply valid_insert|lia]|]. rewrite E2.
    cbn [write_at].
    replace (ld + 1 + 1) with (ld + 2) by lia. replace (ld + 2 + 1) with (ld + 3) by lia.
    eapply eq_ind; [apply runs_store8, Hat; [by do 3 apply valid_insert|lia]|].
    by rewrite E3.
Qed.

Lemma copy_words_spec cnt ld ls bs m :
  mem_ok m -> ls mod 4 = 0 -> ld mod 4 = 0 -> length bs = (4 * cnt)%nat ->
  bytes_at m ls bs -> valid m ld (length bs) -> forward_ok ld ls (length bs) ->
  runs (C := C) (copy_words cnt ld ls) m tt (write_at m ld bs).
Proof.
  revert ld ls bs m. induction cnt as [|cnt IH]; intros ld ls bs m Hm Hls Hld Hlen Hb Hv Hf.
  - destruct bs; [apply runs_ret | done].
  - destruct bs as [|b0 [|b1 [|b2 [|b3 bs]]]]; try (cbn in Hlen; lia).
    change (b0 :: b1 :: b2 :: b3 :: bs) with ([b0; b1; b2; b3] ++ bs) in *.
    apply bytes_at_app in Hb as [Hb0 Hb].
    rewrite length_app in *. cbn [length Nat.add] in Hlen, Hv, Hf, Hb. unfold forward_ok in Hf.
    assert (Hw := copy_word_spec ld ls b0 b1 b2 b3 m Hm Hls Hld Hb0 ltac:(eapply valid_sub; [exact Hv|lia|lia])).
    assert (bytes_at (write_at m ld [b0; b1; b2; b3]) (ls + 4%nat) bs) as Hb'.
    { apply bytes_at_write_at_out; [exact Hb|]. cbn [length]. lia. }
    rewrite write_at_app. cbn [copy_words].
    intros e h. specialize (Hw e h). unfold bind in Hw. unfold bind at 1.
    destruct (load32 ls e m h) as [w m1 h1|]; [|done].
    unfold bind at 1. rewrite Hw. apply IH.
    + apply write_at_mem_ok; [done|]. by apply (bytes_at_u8 m ls).
    + clear - Hls. cbn [length]. Z.div_mod_to_equations. lia.
    + clear - Hld. cbn [length]. Z.div_mod_to_equations. lia.
    + lia.
    + exact Hb'.
    + apply valid_write_at. eapply valid_sub; [exact Hv|cbn; lia|cbn; lia].
    + unfold forward_ok. cbn [length]. lia.
Qed.

Lemma memcpy_spec dest src bs m :
  mem_ok m -> bytes_at m src bs -> valid m dest (length bs) -> length bs < 2 ^ 32 ->
  forward_ok dest src (length bs) ->
  runs (C := C) (memcpy dest src (length bs)) m dest (write_at m dest bs).
Proof.
  intros Hm Hb Hv Hlen Hf. unfold memcpy.
  destruct (Z.eqb_spec (Z.land 0x03 (Z.lor dest src)) 0) as [Hal|Hal]; cbn [negb].
  - assert (src mod 4 = 0 /\ dest mod 4 = 0) as [Hs Hd].
    { rewrite Z.land_lor_distr_r in Hal. apply Z.lor_eq_0_iff in Hal as [H1 H2].
      change 3 with (Z.ones 2) in H1, H2. rewrite Z.land_comm, Z.land_ones in H1, H2 by lia. done. }
    set (k := Z.to_nat (Z.shiftr (length bs) 2)).
    assert (Z.of_nat k = length bs / 4) as Hk.
    { unfold k. rewrite Z.shiftr_div_pow2 by lia.
      rewrite Z2Nat.id; [done | apply Z.div_pos; lia]. }
    assert (4 * k <= length bs)%nat as Hk4 by (clear - Hk; Z.div_mod_to_equations; lia).
    assert (Z.land (length bs) (cnot32 3) = 4 * k) as ->.
    { apply Z.bits_inj'. intros i Hi. rewrite Z.land_spec, testbit_cnot32 by lia.
      rewrite Hk. change 4 with (2 ^ 2). rewrite Z.mul_comm, <- Z.shiftr_div_pow2,
        <- Z.shiftl_mul_pow2 by lia.
      destruct (Z.ltb_spec i 2).
      - rewrite Z.shiftl_spec_low by lia. assert (i = 0 \/ i = 1) as [->| ->] by lia; by rewrite andb_false_r.
      - rewrite Z.shiftl_spec, Z.shiftr_spec by lia. replace (i - 2 + 2) with i by lia.
        rewrite (testbit_above 2 3) by lia. destruct (Z.ltb_spec i 32); cbn; [by rewrite andb_true_r|].
        by rewrite andb_false_r, (testbit_above 32) by lia. }
    assert (Z.to_nat (Z.land (length bs) 3) = length (drop (4 * k) bs)) as ->.
    { rewrite length_drop. change 3 with (Z.ones 2). rewrite Z.land_ones by lia. change (2 ^ 2) with 4.
      clear - Hk Hk4. Z.div_mod_to_equations. lia. }
    assert (length (take (4 * k) bs) = (4 * k)%nat) as Ht by (rewrite length_take; lia).
    rewrite <- (take_drop (4 * k) bs) in Hb, Hv, Hf.
    replace (write_at m dest bs) with (write_at m dest (take (4 * k) bs ++ drop (4 * k) bs))
      by (by rewrite take_drop).
    rewrite length_app, Ht in Hv, Hf. apply bytes_at_app in Hb as [Hb1 Hb2]. rewrite Ht in Hb2.
    rewrite write_at_app, Ht. unfold forward_ok in *.
    eapply runs_bind; [apply copy_words_spec; unfold forward_ok; rewrite ?Ht; try done|].
    { eapply valid_sub; [exact Hv|lia|lia]. } { lia. }
    eapply runs_bind; [|apply runs_ret].
    replace (4 * k) with (Z.of_nat (4 * k)) by lia.
    apply copy_bytes_spec.
    + apply write_at_mem_ok; [done|]. by apply (bytes_at_u8 m src).
    + apply bytes_at_write_at_out; [exact Hb2|]. rewrite Ht. lia.
    + apply valid_write_at. eapply valid_sub; [exact Hv|lia|lia].
    + unfold forward_ok. lia.
  - rewrite Nat2Z.id. eapply runs_bind; [by apply copy_bytes_spec | apply runs_ret].
Qed.

Lemma copy_down_spec dest src bs m :
  mem_ok m -> bytes_at m src bs -> valid m dest (length bs) -> src < dest ->
  runs (C := C) (copy_down (length bs) (dest + length bs - 1) (src + length bs - 1)) m
    (dest - 1, src - 1) (write_at m dest bs).
Proof.
  revert m. induction bs as [|b bs IH] using rev_ind; intros m Hm Hb Hv Hlt; cbn [length copy_down].
  - rewrite !Z.add_0_r. apply runs_ret.
  - rewrite length_app in *. cbn [length] in *. rewrite Nat.add_1_r in *. cbn [copy_down].
    apply bytes_at_app in Hb as [Hb Hlast]. apply bytes_at_cons in Hlast as [Hlast _].
    replace (dest + S (length bs) - 1) with (dest + length bs) by lia.
    replace (src + S (length bs) - 1) with (src + length bs) by lia.
    assert (is_u8 b) as H8 by by apply (Hm (src + length bs)).
    eapply runs_bind; [by apply runs_load8|].
    eapply runs_bind; [apply runs_store8, Hv; lia|]. rewrite (u8_id b H8), write_at_snoc.
    apply IH; [by apply mem_ok_insert| |apply valid_insert; eapply valid_sub; [exact Hv|lia|lia]|done].
    apply bytes_at_insert; [done | lia].
Qed.
End Copies.

(** [memcpy] and [memmove] leave at the destination the bytes the source held
    when they were called, and change nothing else: [memcpy], by words or by
    bytes as the alignment allows, when a forward copy is safe; [memmove] for
    any overlap.  [memcpy] returns the destination; [memmove] returns the
    pointer it ran with, which never is the destination of a copy that
    moved a byte. *)
Theorem copies_exact {C : Type} (dest src : Z) (bs : list Z) (m : mem) :
  mem_ok m -> bytes_at m src bs -> valid m dest (length bs) -> length bs < 2 ^ 32 ->
  (forward_ok dest src (length bs) ->
     runs (C := C) (memcpy dest src (length bs)) m dest (write_at m dest bs)) /\
  runs (C := C) (memmove dest src (length bs)) m
    (if (dest <=? src) || (src + length bs <=? dest) then dest + length bs else dest - 1)
    (write_at m dest bs).
Proof.
  intros Hm Hb Hv Hlen. split; [by apply memcpy_spec|]. unfold memmove.
  destruct ((dest <=? src) || (src + length bs <=? dest)) eqn:Hcase; rewrite Nat2Z.id.
  - apply orb_true_iff in Hcase. rewrite !Z.leb_le in Hcase.
    eapply runs_bind; [by apply copy_bytes_spec | apply runs_ret].
  - apply orb_false_iff in Hcase as [H1%Z.leb_gt H2%Z.leb_gt].
    eapply runs_bind; [by apply copy_down_spec | apply runs_ret].
Qed.

(** ** Strings and comparisons *)

(** The string [s] is stored at [p], with its terminator. *)
Definition cstr (m : mem) (p : Z) (s : list Z) : Prop :=
  bytes_at m p (s ++ [0]) /\ Forall (fun c => c <> 0) s.

Lemma cstr_cons m p c s : cstr m p (c :: s) <-> m !! p = Some c /\ c <> 0 /\ cstr m (p + 1) s.
Proof.
  unfold cstr. cbn [app]. rewrite bytes_at_cons, Forall_cons. tauto.
Qed.
Lemma cstr_nil m p : cstr m p [] <-> m !! p = Some 0.
Proof.
  unfold cstr. cbn [app]. rewrite bytes_at_cons. split; [tauto|].
  intros Hp. split_and!; [done | apply bytes_at_nil | constructor].
Qed.

(** The first difference of two strings, and of two blocks. *)
Fixpoint str_order (s t : list Z) : Z :=
  match s, t with
  | [], [] => 0
  | [], _ => -1
  | _, [] => 1
  | a :: s, b :: t => if a =? b then str_order s t else if a <? b then -1 else 1
  end.
Fixpoint block_diff (bs cs : list Z) : Z :=
  match bs, cs with
  | b :: bs, c :: cs => if b =? c then block_diff bs cs else b - c
  | _, _ => 0
  end.

Section Results.
Context {C : Type}.
Implicit Types (m : mem) (s t : list Z).

Lemma strlen_loop_spec s p0 p m fuel :
  cstr m p s -> room m p fuel -> runs (C := C) (strlen_loop fuel p0 p) m (p + length s - p0) m.
Proof.
  revert p fuel. induction s as [|c s IH]; intros p fuel Hs Hr;
    (destruct fuel as [|fuel]; [by apply room_pos in Hr|]); cbn [strlen_loop].
  - apply cstr_nil in Hs. eapply runs_bind; [by apply runs_load8|]. cbn [Z.eqb negb length].
    rewrite Z.add_0_r. apply runs_ret.
  - apply cstr_cons in Hs as (Hp & Hc & Hs). eapply runs_bind; [by apply runs_load8|].
    rewrite (proj2 (Z.eqb_neq _ _) Hc). cbn [negb length].
    replace (p + S (length s) - p0) with (p + 1 + length s - p0) by lia.
    apply IH; [done | by eapply room_step].
Qed.

Lemma strlen_spec s p m : cstr m p s -> runs (C := C) (strlen p) m (length s) m.
Proof.
  intros Hs. apply runs_with_fuel. replace (Z.of_nat (length s)) with (p + length s - p) by lia.
  apply strlen_loop_spec; [done | apply room_init].
Qed.

Lemma strnlen_loop_spec s n p0 p m fuel :
  cstr m p s -> 0 <= p - p0 -> p + length s - p0 < 2 ^ 32 -> room m p fuel ->
  runs (C := C) (strnlen_loop fuel p0 n p) m (Z.max (p - p0) (Z.min (p + length s - p0) n)) m.
Proof.
  revert p fuel. induction s as [|c s IH]; intros p fuel Hs Hp Hlen Hr;
    (destruct fuel as [|fuel]; [by apply room_pos in Hr|]); cbn [strnlen_loop length] in *;
    rewrite u32_small by lia.
  - apply cstr_nil in Hs. replace (Z.max (p - p0) _) with (p - p0) by lia.
    destruct (p - p0 <? n); [|apply runs_ret]. eapply runs_bind; [by apply runs_load8|]. apply runs_ret.
  - apply cstr_cons in Hs as (Hc & Hnz & Hs). destruct (Z.ltb_spec (p - p0) n).
    + eapply runs_bind; [by apply runs_load8|]. rewrite (proj2 (Z.eqb_neq _ _) Hnz). cbn [negb].
      eapply runs_eq; [apply IH; [done|lia|lia|by eapply room_step]|lia].
    + eapply runs_eq; [apply runs_ret|lia].
Qed.

Lemma strnlen_spec s p n m :
  cstr m p s -> length s < 2 ^ 32 -> 0 <= n -> runs (C := C) (strnlen p n) m (Z.min (length s) n) m.
Proof.
  intros Hs Hlen Hn. apply runs_with_fuel.
  eapply runs_eq; [apply (strnlen_loop_spec s); [done|lia|lia|apply room_init]|lia].
Qed.

(** Two ranges without a common address. *)
Definition apart (p n q k : Z) : Prop := p + n <= q \/ q + k <= p.

Lemma cstr_insert m p s q v :
  cstr m p s -> ~ p <= q < p + length s + 1 -> cstr (<[q := v]> m) p s.
Proof.
  intros [Hb Hnz] Hq. split; [|done]. apply bytes_at_insert; [done|]. rewrite length_app. cbn. lia.
Qed.

Lemma strcpy_loop_spec s dest src m fuel :
  mem_ok m -> cstr m src s -> valid m dest (length s + 1) ->
  apart dest (length s + 1) src (length s + 1) -> room m src fuel ->
  runs (C := C) (strcpy_loop fuel dest src) m tt (write_at m dest (s ++ [0])).
Proof.
  unfold apart. revert dest src m fuel. induction s as [|c s IH]; intros dest src m fuel Hm Hs Hv Ha Hr;
    (destruct fuel as [|fuel]; [by apply room_pos in Hr|]); cbn [strcpy_loop length app write_at] in *.
  - apply cstr_nil in Hs. eapply runs_bind; [by apply runs_load8|].
    eapply runs_bind; [apply runs_store8, Hv; lia|]. apply runs_ret.
  - apply cstr_cons in Hs as (Hc & Hnz & Hs). assert (H8 := Hm _ _ Hc).
    eapply runs_bind; [by apply runs_load8|]. eapply runs_bind; [apply runs_store8, Hv; lia|].
    rewrite (u8_id c H8), (proj2 (Z.eqb_neq _ _) Hnz). cbn [negb].
    apply IH; [by apply mem_ok_insert|apply cstr_insert; [done|lia]| |lia|].
    + apply valid_insert. eapply valid_sub; [exact Hv|lia|lia].
    + eapply room_dom; [|by eapply room_step]. apply dom_insert_lookup_L, Hv. lia.
Qed.

Lemma strcpy_spec s dest src m :
  mem_ok m -> cstr m src s -> valid m dest (length s + 1) ->
  apart dest (length s + 1) src (length s + 1) ->
  runs (C := C) (strcpy dest src) m dest (write_at m dest (s ++ [0])).
Proof.
  intros Hm Hs Hv Ha. eapply runs_bind; [|apply runs_ret]. apply runs_with_fuel.
  apply strcpy_loop_spec; [done..|apply room_init].
Qed.

(** As many characters as the string has at least. *)
Lemma strncpy_spec s t dest src m :
  mem_ok m -> cstr m src (s ++ t) -> valid m dest (length s) ->
  apart dest (length s) src (length s + length t + 1) ->
  runs (C := C) (strncpy dest src (length s)) m dest (write_at m dest s).
Proof.
  intros Hm Hs Hv Ha. unfold strncpy. rewrite Nat2Z.id. eapply runs_bind; [|apply runs_ret].
 unfold apart in Ha. revert dest src m Hm Hs Hv Ha.
  induction s as [|c s IH]; intros dest src m Hm Hs Hv Ha;
    cbn [strncpy_loop length app write_at] in *; [apply runs_ret|].
  apply cstr_cons in Hs as (Hc & Hnz & Hs). assert (H8 := Hm _ _ Hc).
  eapply runs_bind; [by apply runs_load8|]. eapply runs_bind; [apply runs_store8, Hv; lia|].
  rewrite (u8_id c H8). eapply runs_bind; [apply (runs_load8 src c); rewrite lookup_insert_ne by lia; done|].
  rewrite (proj2 (Z.eqb_neq _ _) Hnz). cbn [negb].
  apply IH; [by apply mem_ok_insert|apply cstr_insert; [done|rewrite length_app; lia]| |lia].
  apply valid_insert. eapply valid_sub; [exact Hv|lia|lia].
Qed.

Lemma strend_spec s p m fuel :
  cstr m p s -> room m p fuel -> runs (C := C) (strend_loop fuel p) m (p + length s) m.
Proof.
  revert p fuel. induction s as [|c s IH]; intros p fuel Hs Hr;
    (destruct fuel as [|fuel]; [by apply room_pos in Hr|]); cbn [strend_loop length].
  - apply cstr_nil in Hs. eapply runs_bind; [by apply runs_load8|]. rewrite Z.add_0_r. apply runs_ret.
  - apply cstr_cons in Hs as (Hc & Hnz & Hs). eapply runs_bind; [by apply runs_load8|].
    rewrite (proj2 (Z.eqb_neq _ _) Hnz). cbn [negb].
    replace (p + S (length s)) with (p + 1 + length s) by lia. apply IH; [done|by eapply room_step].
Qed.

Lemma strncat_loop_spec t dest src m fuel :
  mem_ok m -> bytes_at m src t -> Forall (fun c => c <> 0) t -> t <> [] -> length t < 2 ^ 32 ->
  valid m dest (length t + 1) -> apart dest (length t + 1) src (length t) -> room m src fuel ->
  runs (C := C) (strncat_loop fuel dest src (length t)) m tt (write_at m dest (t ++ [0])).
Proof.
  unfold apart. revert dest src m fuel. induction t as [|c t IH]; intros dest src m fuel Hm Hb Hnz Hne Hl Hv Ha Hr;
    [done|]. destruct fuel as [|fuel]; [by apply room_pos in Hr|]. cbn [strncat_loop length app write_at] in *.
  apply bytes_at_cons in Hb as [Hc Hb]. apply Forall_cons in Hnz as [Hcz Hnz]. assert (H8 := Hm _ _ Hc).
  eapply runs_bind; [by apply runs_load8|]. eapply runs_bind; [apply runs_store8, Hv; lia|].
  rewrite (u8_id c H8), (proj2 (Z.eqb_neq _ _) Hcz). cbn [negb]. cbv zeta.
  rewrite u32_small by lia. replace (S (length t) - 1) with (Z.of_nat (length t)) by lia.
  destruct t as [|c' t]; cbn [length].
  - cbn [Z.eqb Z.of_nat app write_at]. apply runs_store8, valid_insert with (p := dest) (n := 2);
      [exact Hv|lia].
  - destruct (Z.eqb_spec (Z.of_nat (S (length t))) 0); [lia|]. cbn [length] in *.
    apply IH; [by apply mem_ok_insert|apply bytes_at_insert; [done|cbn [length]; lia]|done|done|cbn [length]; lia| |cbn [length]; lia|].
    + apply valid_insert. eapply valid_sub; [exact Hv|lia|cbn [length]; lia].
    + eapply room_dom; [|by eapply room_step]. apply dom_insert_lookup_L, Hv. lia.
Qed.

(** Exactly [count] characters appended. *)
Lemma strncat_spec s t dest src m :
  mem_ok m -> cstr m dest s -> bytes_at m src t -> Forall (fun c => c <> 0) t -> t <> [] ->
  length t < 2 ^ 32 -> valid m (dest + length s) (length t + 1) ->
  apart (dest + length s) (length t + 1) src (length t) ->
  runs (C := C) (strncat dest src (length t)) m dest (write_at m (dest + length s) (t ++ [0])).
Proof.
  intros Hm Hs Hb Hnz Hne Hl Hv Ha. unfold strncat.
  assert (Z.of_nat (length t) <> 0) as Hn%Z.eqb_neq by (destruct t; [done | cbn [length]; lia]).
  rewrite Hn. cbn [negb]. eapply runs_bind; [apply runs_with_fuel, strend_spec; [done|apply room_init]|].
  eapply runs_bind; [|apply runs_ret]. apply runs_with_fuel, strncat_loop_spec; try done. apply room_init.
Qed.

Lemma strcmp_loop_spec s t p q m fuel :
  mem_ok m -> cstr m p s -> cstr m q t -> room m p fuel ->
  runs (C := C) (strcmp_loop fuel p q) m (str_order s t) m.
Proof.
  intros Hm. revert t p q fuel. induction s as [|a s IH]; intros t p q fuel Hs Ht Hr;
    (destruct fuel as [|fuel]; [by apply room_pos in Hr|]); cbn [strcmp_loop];
    destruct t as [|b t]; cbn [str_order];
    repeat match goal with
           | H : cstr _ _ [] |- _ => apply cstr_nil in H
           | H : cstr _ _ (_ :: _) |- _ => apply cstr_cons in H as (? & ? & H)
           end;
    (eapply runs_bind; [by apply runs_load8|]; eapply runs_bind; [by apply runs_load8|]).
  - apply runs_ret.
  - assert (is_u8 b) as [? ?] by by apply (Hm q).
    destruct (Z.eqb_spec 0 b); [congruence|]. cbn [negb]. destruct (Z.ltb_spec 0 b); [|lia].
    apply runs_ret.
  - assert (is_u8 a) as [? ?] by by apply (Hm p).
    destruct (Z.eqb_spec a 0); [congruence|]. cbn [negb]. destruct (Z.ltb_spec a 0); [lia|].
    apply runs_ret.
  - destruct (Z.eqb_spec a b) as [<-|]; cbn [negb]; [|apply runs_ret].
    destruct (Z.eqb_spec a 0); [congruence|]. apply IH; [done|done|by eapply room_step].
Qed.

Lemma memcmp_loop_spec bs cs p q m fuel :
  bytes_at m p bs -> bytes_at m q cs -> length bs = length cs -> bs <> [] ->
  length bs < 2 ^ 32 -> room m p fuel ->
  runs (C := C) (memcmp_loop fuel p q (length bs)) m (block_diff bs cs) m.
Proof.
  revert cs p q fuel. induction bs as [|b bs IH]; intros [|c cs] p q fuel Hb Hc Hl Hne Hn Hr;
    try done; (destruct fuel as [|fuel]; [by apply room_pos in Hr|]); cbn [memcmp_loop block_diff].
  apply bytes_at_cons in Hb as [Hp Hb]. apply bytes_at_cons in Hc as [Hq Hc]. cbn [length] in *.
  eapply runs_bind; [by apply runs_load8|]. eapply runs_bind; [by apply runs_load8|].
  destruct (Z.eqb_spec b c) as [<-|]; [|apply runs_ret]. cbv zeta.
  rewrite u32_small by lia. replace (S (length bs) - 1) with (Z.of_nat (length bs)) by lia.
  destruct bs as [|b' bs]; cbn [length]; destruct (Z.ltb_spec 0 (Z.of_nat 0)); try lia.
  - destruct cs; [|done]. rewrite Z.sub_diag. apply runs_ret.
  - destruct (Z.ltb_spec 0 (Z.of_nat (S (length bs)))); [|lia].
    cbn [length] in *. apply IH; [done|done|cbn [length]; lia|done|cbn [length]; lia|by eapply room_step].
Qed.
End Results.

(** The comparisons: [strcmp] tells the lexicographic order of the strings,
    [strlen] their length, and [memcmp] of at least one byte the difference of
    the first two bytes that differ; nothing is stored. *)
Theorem comparisons_exact {C : Type} (p q : Z) (s t bs cs : list Z) (m : mem) :
  mem_ok m ->
  (cstr m p s -> cstr m q t ->
     runs (C := C) (strlen p) m (length s) m /\ runs (C := C) (strcmp p q) m (str_order s t) m) /\
  (bytes_at m p bs -> bytes_at m q cs -> length bs = length cs -> 0 < length bs < 2 ^ 32 ->
     runs (C := C) (memcmp p q (length bs)) m (block_diff bs cs) m).
Proof.
  intros Hm. split.
  - intros Hs Ht. split; [by apply strlen_spec|]. apply runs_with_fuel.
    apply strcmp_loop_spec; [done..|apply room_init].
  - intros Hb Hc Hl Hn. apply runs_with_fuel.
    apply memcmp_loop_spec; [done..|intros ->; cbn in Hn; lia|lia|apply room_init].
Qed.

(** Of no byte at all, [memcmp] still compares the first ones, and goes on
    as if the count were the largest there is. *)
Lemma memcmp_zero {C : Type} (p q a b : Z) (m : mem) :
  m !! p = Some a -> m !! q = Some b -> a <> b -> runs (C := C) (memcmp p q 0) m (a - b) m.
Proof.
  intros Hp Hq Hab. apply runs_with_fuel. cbn [memcmp_loop].
  eapply runs_bind; [by apply runs_load8|]. eapply runs_bind; [by apply runs_load8|].
  rewrite (proj2 (Z.eqb_neq _ _) Hab). apply runs_ret.
Qed.

(** ** Every loop ends *)

(** The calls of the library. *)
Inductive string_call :=
| Strlen (s : Z) | Strnlen (s n : Z) | Strcpy (dest src : Z) | Strncpy (dest src count : Z)
| Strncat (dest src count : Z) | Strcmp (cs ct : Z) | Strncmp (cs ct count : Z) | Strchr (s c : Z)
| Memcpy (dest src n : Z) | Memmove (dest src n : Z) | Memcmp (s1 s2 n : Z) | Memchr (s c n : Z)
| Memset (s c n : Z).

Definition run_string {C} (c : string_call) : M C mem Z :=
  match c with
  | Strlen s => strlen s | Strnlen s n => strnlen s n | Strcpy dest src => strcpy dest src
  | Strncpy dest src count => strncpy dest src count
  | Strncat dest src count => strncat dest src count
  | Strcmp cs ct => strcmp cs ct | Strncmp cs ct count => strncmp cs ct count
  | Strchr s c => strchr s c
  | Memcpy dest src n => memcpy dest src n | Memmove dest src n => memmove dest src n
  | Memcmp s1 s2 n => memcmp s1 s2 n | Memchr s c n => memchr s c n
  | Memset s c n => memset s c n
  end.

Section Ends.
Context {C : Type}.
Implicit Types (e : env C) (h : history C) (m : mem).

(** The next round has room: it reads the next address, in a store with the
    same addresses. *)
Local Ltac next_round IH :=
  apply IH; first
    [ eapply room_step; eassumption
    | eapply room_dom; [|eapply room_step; eassumption]; congruence ].
Local Tactic Notation "walk" reference(loop) :=
  let fuel := fresh "fuel" in let IH := fresh "IH" in let Hr := fresh "Hr" in
  intros fuel; induction fuel as [|fuel IH]; intros * Hr;
  [by apply room_pos in Hr|]; cbn [loop]; mem_steps; try done; try by next_round IH.
Local Tactic Notation "count" reference(loop) :=
  let n := fresh "n" in let IH := fresh "IH" in
  intros n; induction n as [|n IH]; intros *; cbn [loop]; mem_steps; try done; try by apply IH.

Lemma strlen_ends : forall fuel s sc e m h, room m sc fuel ->
  wp (strlen_loop fuel s sc) e m h (fun _ _ _ => True) no_timeout.
Proof. walk strlen_loop. Qed.
Lemma strnlen_ends : forall fuel s n sc e m h, room m sc fuel ->
  wp (strnlen_loop fuel s n sc) e m h (fun _ _ _ => True) no_timeout.
Proof. walk strnlen_loop. Qed.
Lemma strcpy_ends : forall fuel dest src e m h, room m src fuel ->
  wp (strcpy_loop fuel dest src) e m h (fun _ _ _ => True) no_timeout.
Proof. walk strcpy_loop. Qed.
Lemma strend_ends : forall fuel dest e m h, room m dest fuel ->
  wp (strend_loop fuel dest) e m h (fun _ _ _ => True) no_timeout.
Proof. walk strend_loop. Qed.
Lemma strncat_ends : forall fuel dest src count e m h, room m src fuel ->
  wp (strncat_loop fuel dest src count) e m h (fun _ _ _ => True) no_timeout.
Proof. walk strncat_loop. Qed.
Lemma strcmp_ends : forall fuel cs ct e m h, room m cs fuel ->
  wp (strcmp_loop fuel cs ct) e m h (fun _ _ _ => True) no_timeout.
Proof. walk strcmp_loop. Qed.
Lemma strchr_ends : forall fuel p c e m h, room m p fuel ->
  wp (strchr_loop fuel p c) e m h (fun _ _ _ => True) no_timeout.
Proof. walk strchr_loop. Qed.
Lemma memcmp_ends : forall fuel p1 p2 n e m h, room m p1 fuel ->
  wp (memcmp_loop fuel p1 p2 n) e m h (fun _ _ _ => True) no_timeout.
Proof. walk memcmp_loop. Qed.

Lemma strncpy_ends : forall count tmp src e m h,
  wp (strncpy_loop count tmp src) e m h (fun _ _ _ => True) no_timeout.
Proof. count strncpy_loop. Qed.
Lemma strncmp_ends : forall count cs ct e m h,
  wp (strncmp_loop count cs ct) e m h (fun _ _ _ => True) no_timeout.
Proof. count strncmp_loop. Qed.
Lemma copy_bytes_ends : forall n cd cs e m h,
  wp (copy_bytes n cd cs) e m h (fun _ _ _ => True) no_timeout.
Proof. count copy_bytes. Qed.
Lemma copy_words_ends : forall n ld ls e m h,
  wp (copy_words n ld ls) e m h (fun _ _ _ => True) no_timeout.
Proof. count copy_words. Qed.
Lemma copy_down_ends : forall n dest src e m h,
  wp (copy_down n dest src) e m h (fun _ _ _ => True) no_timeout.
Proof. count copy_down. Qed.
Lemma memchr_ends : forall n p c e m h,
  wp (memchr_loop n p c) e m h (fun _ _ _ => True) no_timeout.
Proof. count memchr_loop. Qed.
Lemma memset_ends : forall n p c e m h,
  wp (memset_loop n p c) e m h (fun _ _ _ => True) no_timeout.
Proof. count memset_loop. Qed.

(** A loop that ends, followed by a program that does. *)
Lemma then_ends {A B} (p : M C mem A) (f : A -> M C mem B) e m h :
  wp p e m h (fun _ _ _ => True) no_timeout ->
  (forall a e m h, wp (f a) e m h (fun _ _ _ => True) no_timeout) ->
  wp (bind p f) e m h (fun _ _ _ => True) no_timeout.
Proof. intros Hp Hf. eapply wp_seq; [exact Hp|]. intros. apply Hf. Qed.
End Ends.

Create HintDb ends discriminated.
#[local] Hint Resolve room_init strlen_ends strnlen_ends strcpy_ends strend_ends strncat_ends
  strcmp_ends strchr_ends memcmp_ends strncpy_ends strncmp_ends copy_bytes_ends copy_words_ends
  copy_down_ends memchr_ends memset_ends : ends.

(** Every call of the library returns or reaches an address no object has, in
    any store and whatever its arguments: no loop runs on. *)
Theorem string_calls_end {C : Type} (c : string_call) : settles (run_string (C := C) c).
Proof.
  apply settles_intro. intros m e h.
  destruct c; cbn [run_string];
    unfold strlen, strnlen, strcpy, strncpy, strncat, strcmp, strncmp, strchr, memcpy, memmove,
      memcmp, memchr, memset; cbv zeta; repeat case_match;
    repeat lazymatch goal with
           | |- wp (with_fuel _) _ _ _ _ _ => apply wp_with_fuel
           | |- wp (bind _ _) _ _ _ _ _ => apply then_ends; intros
           | |- wp (let '(_, _) := ?x in _) _ _ _ _ _ => destruct x
           | |- wp (ret _) _ _ _ _ _ => by apply wp_ret
           | _ => solve [eauto with ends]
           end.
Qed.

(** ** Concrete calls *)

Lemma copies_exact_witness :
  let m := object 0x100 [1; 2; 3; 4; 5; 6; 7; 8] in
  runs (C := Empty_set) (memcpy 0x100 0x102 5) m 0x100 (write_at m 0x100 [3; 4; 5; 6; 7]) /\
  runs (C := Empty_set) (memmove 0x103 0x100 5) m 0x102 (write_at m 0x103 [1; 2; 3; 4; 5]).
Proof.
  intros m. split.
  - apply (copies_exact 0x100 0x102 [3; 4; 5; 6; 7] m); [check_store|check_store|check_store|done|].
    left. done.
  - apply (copies_exact 0x103 0x100 [1; 2; 3; 4; 5] m); [check_store|check_store|check_store|done].
Defined.

Lemma comparisons_exact_witness :
  let m := object 0x100 [97; 98; 0; 97; 99; 0] in
  runs (C := Empty_set) (strlen 0x100) m 2 m /\
  runs (C := Empty_set) (strcmp 0x100 0x103) m (-1) m /\
  runs (C := Empty_set) (memcmp 0x100 0x103 2) m (-1) m.
Proof.
  intros m.
  assert (cstr m 0x100 [97; 98]) by (split; [check_store | by repeat constructor]).
  assert (cstr m 0x103 [97; 99]) by (split; [check_store | by repeat constructor]).
  destruct (comparisons_exact (C := Empty_set) 0x100 0x103 [97; 98] [97; 99] [97; 98] [97; 99] m) as [Hs Hb];
    [check_store|].
  destruct (Hs ltac:(done) ltac:(done)) as [Hlen Hcmp]. split_and!; [exact Hlen|exact Hcmp|].
  apply Hb; [check_store|check_store|done|cbn; lia].
Defined.
