(* ===== verification/Convert.v ===== *)
(** * Numbers and strings (src/ar100s/library/library.c, [sprintf] of
    string.c)

    The conversions over the byte store.  The local array [stack] of the
    printers is a list of its 16 cells; an index outside it is undefined.
    A character is its code. *)

From S2P Require Import Prelude Machine CMem.

Local Open Scope list_scope.
Local Open Scope Z_scope.
Local Open Scope mach_scope.
#[local] Coercion Z.of_nat : nat >-> Z.

(** ['0'], ['A'] ... *)
Definition ch_0 : Z := 48.
Definition ch_9 : Z := 57.
Definition ch_A : Z := 65.
Definition ch_F : Z := 70.
Definition ch_a : Z := 97.
Definition ch_f : Z := 102.
Definition ch_d : Z := 100.
Definition ch_x : Z := 120.
Definition ch_minus : Z := 45.
Definition ch_percent : Z := 37.

(** ["0123456789ABCDEF"] and its terminator. *)
Definition digit_string : list Z :=
  [48; 49; 50; 51; 52; 53; 54; 55; 56; 57; 65; 66; 67; 68; 69; 70; 0].
Definition STACK_SIZE : Z := 16.
Definition STRVAL_SIZE : nat := 32.

Section Convert.
Context {C : Type}.
Local Abbreviation M := (M C mem).

Definition digit_at (i : Z) : M Z :=
  if i <? 0 then stop_now Undefined
  else match digit_string !! Z.to_nat i with Some c => ret c | None => stop_now Undefined end.
(** [stack[i] = c] *)
Definition stack_set (stack : list Z) (i c : Z) : M (list Z) :=
  if (0 <=? i) && (i <? STACK_SIZE) then ret (<[Z.to_nat i := c]> stack) else stop_now Undefined.

(** [for (i = 0; value > 0; ++i)]: [i] and the stack at the end. *)
Fixpoint push_digits (fuel : nat) (radix value i : Z) (stack : list Z) : M (Z * list Z) :=
  match fuel with
  | O => stop_now OutOfFuel
  | S fuel =>
    if 0 <? value then
      if radix =? 0 then stop_now Undefined
      else
        let! c := digit_at (Z.rem value radix) in
        let! stack := stack_set stack i c in
        push_digits fuel radix (Z.quot value radix) (i + 1) stack
    else ret (i, stack)
  end.

(** [for (--i; i >= 0; --i, ++j) string[j] = stack[i];] from [i = n]: the
    final [j]. *)
Fixpoint pop_digits (n : nat) (stack : list Z) (string j : Z) : M Z :=
  match n with
  | O => ret j
  | S n =>
    match stack !! n with
    | Some c => store8 (string + j) c;; pop_digits n stack string (j + 1)
    | None => stop_now Undefined
    end
  end.

Definition empty_stack : list Z := replicate (Z.to_nat STACK_SIZE) 0.
(** The stack bounds the rounds. *)
Definition push_fuel : nat := S (Z.to_nat STACK_SIZE).

Definition itoa (value string radix : Z) : M Z :=
  if value =? 0 then
    store8 string ch_0;; store8 (string + 1) 0;; ret string
  else
    let! (negative, value) :=
      (if value <? 0 then
         if value =? - 2 ^ 31 then stop_now Undefined else ret (true, - value)
       else ret (false, value)) in
    let! (i, stack) := push_digits push_fuel radix value 0 empty_stack in
    let! j := (if negative : bool then store8 (string + 0) ch_minus;; ret 1 else ret 0) in
    let! j := pop_digits (Z.to_nat i) stack string j in
    store8 (string + j) 0;;
    ret string.

(** [radix] is converted to unsigned for the divisions. *)
Definition utoa (value string radix : Z) : M Z :=
  if value =? 0 then
    store8 string ch_0;; store8 (string + 1) 0;; ret string
  else
    let! (i, stack) := push_digits push_fuel (u32 radix) value 0 empty_stack in
    let! j := pop_digits (Z.to_nat i) stack string 0 in
    store8 (string + j) 0;;
    ret string.

(** ** Readers *)

Definition in_range (c lo hi : Z) : bool := (lo <=? c) && (c <=? hi).

(** [while (len--)]: the test and the wrap of the count, then the body. *)
Fixpoint hex_loop (fuel : nat) (str len i tmp : Z) : M Z :=
  match fuel with
  | O => stop_now OutOfFuel
  | S fuel =>
    if len =? 0 then ret tmp
    else
      let len := u32 (len - 1) in
      let! c := load8 (str + i) in
      if in_range c ch_0 ch_9 then hex_loop fuel str len (i + 1) (u32 (tmp * 16 + (c - ch_0)))
      else if in_range c ch_A ch_F then
        hex_loop fuel str len (i + 1) (u32 (tmp * 16 + (c - ch_A) + 10))
      else if in_range c ch_a ch_f then
        hex_loop fuel str len (i + 1) (u32 (tmp * 16 + (c - ch_a) + 10))
      else ret tmp
  end.
Definition hstr2int (str len : Z) : M Z :=
  let! c0 := load8 str in
  let! prefix :=
    (if c0 =? ch_0 then let! c1 := load8 (str + 1) in ret (c1 =? ch_x) else ret false) in
  let (str, len) := if prefix : bool then (str + 2, u32 (len - 2)) else (str, len) in
  with_fuel (fun fuel => hex_loop fuel str len 0 0).

Fixpoint dec_loop (fuel : nat) (str len i tmp : Z) : M Z :=
  match fuel with
  | O => stop_now OutOfFuel
  | S fuel =>
    if len =? 0 then ret tmp
    else
      let len := u32 (len - 1) in
      let! c := load8 (str + i) in
      if in_range c ch_0 ch_9 then dec_loop fuel str len (i + 1) (u32 (tmp * 10 + (c - ch_0)))
      else ret tmp
  end.
Definition dstr2int (str len : Z) : M Z := with_fuel (fun fuel => dec_loop fuel str len 0 0).

(** ** [sprintf]

    Only [%d] is converted.  [strval] is the address of the local array,
    [ap] the variadic arguments; reading one too many is undefined. *)

Fixpoint clear_loop (n : nat) (strval i : Z) : M unit :=
  match n with
  | O => ret tt
  | S n => store8 (strval + i) 0;; clear_loop n strval (i + 1)
  end.

(** [for (i = 0; strval[i] != 0 && i < STRVAL_SIZE; i++)]: the final index. *)
Fixpoint emit_loop (fuel : nat) (strval buf i index : Z) : M Z :=
  match fuel with
  | O => stop_now OutOfFuel
  | S fuel =>
    let! c := load8 (strval + i) in
    if negb (c =? 0) && (i <? Z.of_nat STRVAL_SIZE) then
      store8 (buf + index) c;;
      emit_loop fuel strval buf (i + 1) (u32 (index + 1))
    else ret index
  end.

Fixpoint sprintf_loop (fuel : nat) (strval buf p index : Z) (ap : list Z) : M Z :=
  match fuel with
  | O => stop_now OutOfFuel
  | S fuel =>
    let! c := load8 p in
    if c =? 0 then ret index
    else
      clear_loop STRVAL_SIZE strval 0;;
      let! c := load8 p in
      if negb (c =? ch_percent) then
        store8 (buf + index) c;;
        sprintf_loop fuel strval buf (p + 1) (u32 (index + 1)) ap
      else
        let p := p + 1 in
        let! c := load8 p in
        let! ap :=
          (if c =? ch_d then
             match ap with
             | nval :: ap => let! _ := itoa nval strval 10 in ret ap
             | [] => stop_now Undefined
             end
           else ret ap) in
        let! index := emit_loop (S STRVAL_SIZE) strval buf 0 index in
        sprintf_loop fuel strval buf (p + 1) index ap
  end.

Definition sprintf (strval buf fmt : Z) (ap : list Z) : M Z :=
  let! index := with_fuel (fun fuel => sprintf_loop fuel strval buf fmt 0 ap) in
  store8 (buf + index) 0;;
  ret (s32 index).
End Convert.
