(* ===== verification/ConvertProps.v ===== *)
(** * Properties of the number conversions

    What the printers write, when they overrun their stack, and that the
    readers read back what they wrote. *)

From S2P Require Import Prelude Machine CMem StringLib StringLibProps Convert.

Local Open Scope list_scope.
Local Open Scope Z_scope.
Local Open Scope mach_scope.
#[local] Coercion Z.of_nat : nat >-> Z.

(** ** Numerals *)

(** The character of a digit, the most significant first, at most [n]. *)
Definition dig (k : Z) : Z := nth (Z.to_nat k) digit_string 0.
Fixpoint digits (n : nat) (r v : Z) : list Z :=
  match n with
  | O => []
  | S n => if v <=? 0 then [] else digits n r (v / r) ++ [dig (v mod r)]
  end.
(** What [utoa] and [itoa] write, without the terminator. *)
Definition numeral (r v : Z) : list Z := if v =? 0 then [ch_0] else digits 16 r v.
Definition signed_numeral (r v : Z) : list Z :=
  (if v <? 0 then [ch_minus] else []) ++ numeral r (Z.abs v).

Definition radix_ok (r : Z) : Prop := 2 <= r <= 16.

(** A property of the sixteen digits, checked on each. *)
Lemma dig_all (P : Z -> Z -> bool) :
  forallb (fun k => P k (dig k)) (zrange 0 16) = true -> forall k, 0 <= k < 16 -> P k (dig k) = true.
Proof. intros Hall k Hk. apply (zrange_forallb (fun k => P k (dig k)) 0 16 Hall). lia. Qed.

Lemma dig_lookup k : 0 <= k < 16 -> digit_string !! Z.to_nat k = Some (dig k).
Proof.
  intros Hk. unfold dig. rewrite nth_lookup.
  destruct (lookup_lt_is_Some_2 digit_string (Z.to_nat k)) as [c Hc]; [cbn; lia|]. by rewrite Hc.
Qed.

Lemma dig_u8 k : 0 <= k < 16 -> 0 < dig k < 120.
Proof.
  intros Hk. apply (dig_all (fun _ c => (0 <? c) && (c <? 120)) ltac:(vm_compute; reflexivity)) in Hk.
  apply andb_true_iff in Hk as [H1 H2]. apply Z.ltb_lt in H1, H2. lia.
Qed.

Lemma digits_length n r v : (length (digits n r v) <= n)%nat.
Proof.
  revert v. induction n as [|n IH]; intros v; cbn [digits]; [done|].
  destruct (v <=? 0); cbn; [lia|]. rewrite length_app. cbn. specialize (IH (v / r)). lia.
Qed.

Lemma mod_radix r v : radix_ok r -> 0 <= v mod r < 16.
Proof. unfold radix_ok. intros Hr. assert (H := Z.mod_pos_bound v r). lia. Qed.

Lemma digits_chars n r v : radix_ok r -> Forall (fun c => 0 < c < 120) (digits n r v).
Proof.
  intros Hr. revert v. induction n as [|n IH]; intros v; cbn [digits]; [done|].
  destruct (v <=? 0); [done|]. apply Forall_app. split; [apply IH|].
  apply Forall_singleton, dig_u8. by apply mod_radix.
Qed.

Lemma numeral_chars r v : radix_ok r -> Forall (fun c => 0 < c < 120) (numeral r v).
Proof.
  intros Hr. unfold numeral. destruct (v =? 0); [|by apply digits_chars].
  apply Forall_singleton. by cbn.
Qed.

Lemma numeral_length r v : (1 <= length (numeral r v) <= 16)%nat \/ v <= 0.
Proof.
  unfold numeral. destruct (Z.eqb_spec v 0); [by right; lia|].
  destruct (Z.le_gt_cases v 0); [by right|]. left.
  assert (H' := digits_length 16 r v). split; [|exact H'].
  cbn [digits]. destruct (Z.leb_spec v 0); [lia|]. rewrite length_app. cbn. lia.
Qed.

Lemma quot_bound v r k : radix_ok r -> 0 <= v -> (v / r < r ^ Z.of_nat k <-> v < r ^ Z.of_nat (S k)).
Proof.
  unfold radix_ok. intros Hr Hv. rewrite Nat2Z.inj_succ, Z.pow_succ_r by lia.
  assert (0 < r ^ k) by (apply Z.pow_pos_nonneg; lia).
  split; intros H'.
  - assert (H2 := Z.div_mod v r ltac:(lia)). assert (H3 := Z.mod_pos_bound v r ltac:(lia)). nia.
  - apply Z.div_lt_upper_bound; lia.
Qed.

(** ** The stack *)

Section Printers.
Context {C : Type}.
Implicit Types (m : mem) (stack : list Z).

(** One digit on the stack. *)
Lemma runs_digit r v i stack m : radix_ok r -> 0 <= v -> 0 <= i < 16 ->
  runs (C := C) (let! c := digit_at (Z.rem v r) in stack_set stack i c) m
    (<[Z.to_nat i := dig (v mod r)]> stack) m.
Proof.
  intros Hr Hv Hi. unfold radix_ok in Hr. rewrite Z.rem_mod_nonneg by lia.
  assert (Hm := mod_radix r v Hr). unfold digit_at, stack_set.
  destruct (Z.ltb_spec (v mod r) 0); [lia|]. rewrite dig_lookup by done.
  intros e h. unfold bind, ret. unfold STACK_SIZE.
  destruct (Z.leb_spec 0 i); [|lia]. destruct (Z.ltb_spec i 16); [reflexivity|lia].
Qed.

(** A round of the loop. *)
Lemma push_round r v i stack fuel m : radix_ok r -> 0 < v -> 0 <= i < 16 ->
  forall e h, push_digits (C := C) (S fuel) r v i stack e m h
    = push_digits fuel r (v / r) (i + 1) (<[Z.to_nat i := dig (v mod r)]> stack) e m h.
Proof.
  intros Hr Hv Hi e h. assert (Hd := runs_digit r v i stack m Hr ltac:(lia) Hi e h).
  unfold radix_ok in Hr. cbn [push_digits]. destruct (Z.ltb_spec 0 v); [|lia].
  destruct (Z.eqb_spec r 0); [lia|]. unfold bind in Hd |- *.
  destruct (digit_at (Z.rem v r) e m h); [|done]. rewrite Hd. by rewrite Z.quot_div_nonneg by lia.
Qed.

Lemma push_spec k r v i stack :
  radix_ok r -> 0 <= v < r ^ Z.of_nat k -> 0 <= i -> i + k = 16 -> length stack = 16%nat ->
  exists stack', length stack' = 16%nat /\
    rev (take (Z.to_nat (i + length (digits k r v))) stack') = digits k r v ++ rev (take (Z.to_nat i) stack) /\
    forall m, runs (C := C) (push_digits (S k) r v i stack) m (i + length (digits k r v), stack') m.
Proof.
  revert v i stack. induction k as [|k IH]; intros v i stack Hr Hv Hi Hk Hl.
  - cbn in Hv. assert (v = 0) as -> by lia. exists stack. cbn [digits length]. rewrite Z.add_0_r.
    split_and!; [done|done|]. intros m. apply runs_ret.
  - cbn [digits]. destruct (Z.leb_spec v 0).
    { assert (v = 0) as -> by lia. exists stack. cbn [length]. rewrite Z.add_0_r.
      split_and!; [done|done|]. intros m. apply runs_ret. }
    destruct (IH (v / r) (i + 1) (<[Z.to_nat i := dig (v mod r)]> stack)) as (st & Hst & Hrev & Hrun);
      [done| |lia|lia|by rewrite length_insert|].
    { split; [apply Z.div_pos; unfold radix_ok in Hr; lia|]. apply quot_bound; [done|lia|apply Hv]. }
    exists st. rewrite length_app. cbn [length].
    replace (i + (length (digits k r (v / r)) + 1)%nat) with (i + 1 + length (digits k r (v / r))) by lia.
    split; [done|]. split.
    + rewrite Hrev. replace (Z.to_nat (i + 1)) with (S (Z.to_nat i)) by lia.
      rewrite (take_S_r _ _ (dig (v mod r))) by (apply list_lookup_insert_eq; lia).
      rewrite take_insert_ge by lia. rewrite rev_app_distr. cbn. by rewrite <- app_assoc.
    + intros m e h. rewrite push_round by (done || lia). apply Hrun.
Qed.

Lemma push_overruns k r v i stack m :
  radix_ok r -> r ^ Z.of_nat k <= v -> 0 <= i -> i + k = 16 ->
  faults (C := C) (push_digits (S k) r v i stack) m.
Proof.
  revert v i stack. induction k as [|k IH]; intros v i stack Hr Hv Hi Hk e h; assert (Hr' := Hr);
    unfold radix_ok in Hr'.
  - cbn in Hv. assert (Hm := mod_radix r v Hr). cbn [push_digits]. destruct (Z.ltb_spec 0 v); [|lia].
    destruct (Z.eqb_spec r 0); [lia|]. rewrite Z.rem_mod_nonneg by lia. unfold digit_at, stack_set.
    destruct (Z.ltb_spec (v mod r) 0); [lia|]. rewrite dig_lookup by done. unfold bind, ret, STACK_SIZE.
    destruct (Z.ltb_spec i 16); [lia|]. rewrite andb_false_r. by eexists _, _.
  - assert (0 < r ^ S k) by (apply Z.pow_pos_nonneg; lia).
    rewrite push_round by (done || lia). apply IH; [done| |lia|lia].
    apply Z.nlt_ge. rewrite quot_bound by (done || lia). lia.
Qed.

Lemma pop_spec n stack string j m :
  (n <= length stack)%nat -> Forall is_u8 (take n stack) -> valid m (string + j) n ->
  runs (C := C) (pop_digits n stack string j) m (j + n) (write_at m (string + j) (rev (take n stack))).
Proof.
  revert j m. induction n as [|n IH]; intros j m Hn Hu Hv; cbn [pop_digits].
  - rewrite Z.add_0_r. apply runs_ret.
  - destruct (lookup_lt_is_Some_2 stack n) as [c Hc]; [lia|].
    rewrite Hc, (take_S_r _ _ c Hc), rev_app_distr. cbn [rev app write_at].
    rewrite (take_S_r _ _ c Hc) in Hu. apply Forall_app in Hu as [Hu Hc8]. apply Forall_cons in Hc8 as [Hc8 _].
    eapply runs_bind; [apply runs_store8, Hv; lia|]. rewrite (u8_id c Hc8).
    replace (j + S n) with (j + 1 + n) by lia. replace (string + j + 1) with (string + (j + 1)) by lia.
    apply IH; [lia|done|]. apply valid_insert. eapply valid_sub; [exact Hv|lia|lia].
Qed.
End Printers.

Section Results.
Context {C : Type}.
Implicit Types (m : mem).

(** The digits of a value that fits: pushed, then popped. *)
Lemma convert_spec r v : radix_ok r -> 0 < v < r ^ 16 ->
  exists stack, let n := length (digits 16 r v) in
    (forall m, runs (C := C) (push_digits push_fuel r v 0 empty_stack) m (Z.of_nat n, stack) m) /\
    forall string j m, valid m (string + j) n ->
      runs (C := C) (pop_digits n stack string j) m (j + n) (write_at m (string + j) (digits 16 r v)).
Proof.
  intros Hr Hv. destruct (push_spec (C := C) 16 r v 0 empty_stack) as (st & Hst & Hrev & Hrun);
    [done|change (Z.of_nat 16) with 16; lia|lia|lia|done|].
  rewrite Z.add_0_l, Nat2Z.id in Hrev. cbn [Z.to_nat take rev] in Hrev. rewrite app_nil_r in Hrev.
  assert (Hlen := digits_length 16 r v). exists st. split; [exact Hrun|].
  intros string j m Hval. assert (Hp := pop_spec (C := C) (length (digits 16 r v)) st string j m).
  rewrite Hrev in Hp. apply Hp; [lia| |exact Hval].
  rewrite <- (rev_involutive (take _ st)), Hrev. apply Forall_rev.
  eapply Forall_impl; [by apply digits_chars|]. intros c Hc. unfold is_u8. cbn in Hc. lia.
Qed.

Lemma convert_overruns {B} r v (f : Z * list Z -> M C mem B) m :
  radix_ok r -> r ^ 16 <= v -> faults (let! x := push_digits push_fuel r v 0 empty_stack in f x) m.
Proof. intros Hr Hv. apply faults_now. apply (push_overruns 16); [done|exact Hv|lia|lia]. Qed.

(** The zero both printers treat apart. *)
Lemma zero_spec string m : valid m string 2 ->
  runs (C := C) (store8 string ch_0;; store8 (string + 1) 0;; ret string) m string
    (write_at m string [ch_0; 0]).
Proof.
  intros Hv. eapply runs_bind; [apply runs_store8, Hv; lia|].
  eapply runs_bind; [apply runs_store8, (valid_insert _ _ _ _ _ Hv); lia|]. apply runs_ret.
Qed.

(** The terminator. *)
Lemma terminate_spec string s m : valid m string (length s + 1) ->
  runs (C := C) (store8 (string + length s) 0;; ret string) (write_at m string s) string
    (write_at m string (s ++ [0])).
Proof.
  intros Hv. rewrite write_at_app.
  eapply runs_bind; [|apply runs_ret]. apply runs_store8, (valid_write_at _ _ _ _ _ Hv). lia.
Qed.

Lemma utoa_spec r v string m :
  radix_ok r -> 0 <= v < r ^ 16 -> valid m string (length (numeral r v) + 1) ->
  runs (C := C) (utoa v string r) m string (write_at m string (numeral r v ++ [0])).
Proof.
  intros Hr Hv Hval. unfold utoa, numeral in *. destruct (Z.eqb_spec v 0) as [->|Hnz].
  - by apply zero_spec.
  - rewrite u32_small by (unfold radix_ok in Hr; lia).
    destruct (convert_spec r v Hr ltac:(lia)) as (st & Hpush & Hpop).
    eapply runs_bind; [apply Hpush|]. cbv beta iota. rewrite Nat2Z.id.
    eapply runs_bind; [apply Hpop; rewrite Z.add_0_r; eapply valid_sub; [exact Hval|lia|lia]|].
    rewrite Z.add_0_r, Z.add_0_l. by apply terminate_spec.
Qed.

Lemma itoa_spec r v string m :
  radix_ok r -> - 2 ^ 31 < v < 2 ^ 31 -> Z.abs v < r ^ 16 ->
  valid m string (length (signed_numeral r v) + 1) ->
  runs (C := C) (itoa v string r) m string (write_at m string (signed_numeral r v ++ [0])).
Proof.
  intros Hr Hv Ha Hval. unfold itoa, signed_numeral, numeral in *.
  destruct (Z.eqb_spec v 0) as [->|Hnz]; [by apply zero_spec|].
  rewrite (proj2 (Z.eqb_neq (Z.abs v) 0)) in Hval |- * by lia.
  destruct (convert_spec r (Z.abs v) Hr ltac:(lia)) as (st & Hpush & Hpop).
  destruct (Z.ltb_spec v 0) as [Hneg|Hpos].
  - rewrite (proj2 (Z.eqb_neq v (- 2 ^ 31))) by lia. rewrite Z.abs_neq in * by lia.
    eapply runs_bind; [apply runs_ret|]. eapply runs_bind; [apply Hpush|]. cbv beta iota. rewrite Nat2Z.id.
    cbn [app length] in Hval |- *.
    eapply runs_bind; [eapply runs_bind; [apply runs_store8, Hval; lia|apply runs_ret]|].
    rewrite Z.add_0_r. eapply runs_bind; [apply Hpop, valid_insert; eapply valid_sub; [exact Hval|lia|lia]|].
    replace (1 + length (digits 16 r (- v))) with (Z.of_nat (length (ch_minus :: digits 16 r (- v))))
      by (cbn [length]; lia).
    by apply (terminate_spec string (ch_minus :: digits 16 r (- v))).
  - rewrite Z.abs_eq in * by lia. eapply runs_bind; [apply runs_ret|].
    eapply runs_bind; [apply Hpush|]. cbv beta iota. rewrite Nat2Z.id. eapply runs_bind; [apply runs_ret|].
    eapply runs_bind; [apply Hpop; rewrite Z.add_0_r; eapply valid_sub; [exact Hval|cbn; lia|cbn; lia]|].
    rewrite Z.add_0_r, Z.add_0_l. by apply terminate_spec.
Qed.
End Results.

(** The printers on a radix from 2 to 16: when the value has at most sixteen
    digits they write its numeral, a sign in front of a negative one, and the
    terminator, and nothing else; a value with more digits overruns the local
    stack, and so does undefined behaviour meet the least integer, whose
    negation overflows.  A radix of 4 or more is always enough for 32 bits. *)
Theorem printers_exact {C : Type} (r v string : Z) (m : mem) :
  radix_ok r ->
  (0 <= v < 2 ^ 32 -> valid m string (length (numeral r v) + 1) ->
     if v <? r ^ 16
     then runs (C := C) (utoa v string r) m string (write_at m string (numeral r v ++ [0]))
     else faults (C := C) (utoa v string r) m) /\
  (- 2 ^ 31 <= v < 2 ^ 31 -> valid m string (length (signed_numeral r v) + 1) ->
     if (Z.abs v <? r ^ 16) && negb (v =? - 2 ^ 31)
     then runs (C := C) (itoa v string r) m string (write_at m string (signed_numeral r v ++ [0]))
     else faults (C := C) (itoa v string r) m) /\
  (4 <= r -> 2 ^ 32 <= r ^ 16).
Proof.
  intros Hr. assert (1 < r ^ 16) as Hone.
  { unfold radix_ok in Hr. assert (2 ^ 16 <= r ^ 16) by (apply Z.pow_le_mono_l; lia). lia. }
  split_and!.
  - intros Hv Hval. destruct (Z.ltb_spec v (r ^ 16)); [apply utoa_spec; [done|lia|done]|].
    unfold utoa. destruct (Z.eqb_spec v 0); [lia|].
    rewrite u32_small by (unfold radix_ok in Hr; lia). by apply convert_overruns.
  - intros Hv Hval. destruct (Z.eqb_spec v (- 2 ^ 31)) as [->|Hmin].
    + rewrite andb_false_r. intros e h. by eexists _, _.
    + rewrite andb_true_r. destruct (Z.ltb_spec (Z.abs v) (r ^ 16)); [apply itoa_spec; [done|lia|done|done]|].
      unfold itoa. destruct (Z.eqb_spec v 0); [lia|].
      eapply (faults_bind _ _ _ (if v <? 0 then (true, - v) else (false, v)) m).
      { destruct (v <? 0); [|apply runs_ret]. rewrite (proj2 (Z.eqb_neq _ _) Hmin). apply runs_ret. }
      destruct (Z.ltb_spec v 0); apply convert_overruns; (done || lia).
  - intros H4. change (2 ^ 32) with (4 ^ 16). apply Z.pow_le_mono_l. lia.
Qed.

(** ** Reading back *)

(** What one more character does to the value read so far. *)
Definition dec_step (t c : Z) : Z := u32 (t * 10 + (c - ch_0)).
Definition hex_step (t c : Z) : Z :=
  if in_range c ch_0 ch_9 then u32 (t * 16 + (c - ch_0))
  else if in_range c ch_A ch_F then u32 (t * 16 + (c - ch_A) + 10)
  else u32 (t * 16 + (c - ch_a) + 10).
Definition is_dec (c : Z) : bool := in_range c ch_0 ch_9.
Definition is_hex (c : Z) : bool := is_dec c || in_range c ch_A ch_F || in_range c ch_a ch_f.

Lemma digits_short n r v j :
  radix_ok r -> 0 <= v < r ^ Z.of_nat j -> (length (digits n r v) <= j)%nat.
Proof.
  intros Hr. revert v j. induction n as [|n IH]; intros v j Hv; cbn [digits length]; [lia|].
  destruct (Z.leb_spec v 0); cbn [length]; [lia|]. rewrite length_app. cbn [length].
  destruct j as [|j]; [cbn in Hv; lia|].
  assert (length (digits n r (v / r)) <= j)%nat; [|lia]. apply IH.
  split; [apply Z.div_pos; unfold radix_ok in Hr; lia|]. apply quot_bound; [done|lia|apply Hv].
Qed.

(** A reader that takes each digit for what it is reads the value. *)
Lemma fold_digits step r k v :
  radix_ok r -> (forall t d, 0 <= d < r -> step t (dig d) = u32 (t * r + d)) ->
  0 <= v < r ^ Z.of_nat k -> v < 2 ^ 32 -> fold_left step (digits k r v) 0 = v.
Proof.
  intros Hr Hstep. revert v. induction k as [|k IH]; intros v Hv Hu; cbn [digits].
  - cbn in *. lia.
  - destruct (Z.leb_spec v 0); [cbn; lia|]. unfold radix_ok in Hr.
    assert (Hq := Z.div_mod v r ltac:(lia)). assert (Hm := Z.mod_pos_bound v r ltac:(lia)).
    assert (v / r <= v) by (apply Z.div_le_upper_bound; nia).
    rewrite fold_left_app, IH; [|split; [apply Z.div_pos; lia|apply quot_bound; [done|lia|apply Hv]]|lia].
    cbn [fold_left]. rewrite Hstep by done. rewrite u32_small; lia.
Qed.

Lemma dec_digit t d : 0 <= d < 10 -> dec_step t (dig d) = u32 (t * 10 + d) /\ is_dec (dig d) = true.
Proof.
  intros Hd. assert (dig d = ch_0 + d /\ is_dec (dig d) = true) as [E1 E2].
  { assert (H := dig_all (fun k c => (10 <=? k) || ((c =? ch_0 + k) && is_dec c))
      ltac:(vm_compute; reflexivity) d ltac:(lia)). cbv beta in H.
    destruct (Z.leb_spec 10 d); [lia|]. apply andb_true_iff in H as [H ?]. by apply Z.eqb_eq in H. }
  split; [|done]. unfold dec_step. rewrite E1. f_equal. lia.
Qed.

Lemma hex_digit t d : 0 <= d < 16 -> hex_step t (dig d) = u32 (t * 16 + d) /\ is_hex (dig d) = true.
Proof.
  intros Hd. assert (is_hex (dig d) = true /\
    (if is_dec (dig d) then dig d - ch_0 else
       if in_range (dig d) ch_A ch_F then dig d - ch_A + 10 else dig d - ch_a + 10) = d) as [E1 E2].
  { assert (H := dig_all (fun k c => is_hex c && ((if is_dec c then c - ch_0 else
       if in_range c ch_A ch_F then c - ch_A + 10 else c - ch_a + 10) =? k))
      ltac:(vm_compute; reflexivity) d ltac:(lia)). cbv beta in H.
    apply andb_true_iff in H as [H1 H2]. by apply Z.eqb_eq in H2. }
  split; [|done]. unfold hex_step. fold (is_dec (dig d)) in E2 |- *.
  change (in_range (dig d) ch_0 ch_9) with (is_dec (dig d)).
  destruct (is_dec (dig d)); [|destruct (in_range (dig d) ch_A ch_F)]; f_equal; lia.
Qed.

Lemma digits_forall (P : Z -> bool) n r v :
  radix_ok r -> (forall d, 0 <= d < r -> P (dig d) = true) -> Forall (fun c => P c = true) (digits n r v).
Proof.
  intros Hr HP. revert v. induction n as [|n IH]; intros v; cbn [digits]; [done|].
  destruct (v <=? 0); [done|]. apply Forall_app. split; [apply IH|]. apply Forall_singleton, HP.
  apply Z.mod_pos_bound. unfold radix_ok in Hr. lia.
Qed.

(** Numerals are read by such a reader. *)
Lemma numeral_read step (P : Z -> bool) r v :
  radix_ok r -> (forall t d, 0 <= d < r -> step t (dig d) = u32 (t * r + d) /\ P (dig d) = true) ->
  0 <= v < r ^ 16 -> v < 2 ^ 32 ->
  fold_left step (numeral r v) 0 = v /\ Forall (fun c => P c = true) (numeral r v).
Proof.
  intros Hr Hs Hv Hu. unfold numeral. destruct (Z.eqb_spec v 0) as [->|].
  - change [ch_0] with [dig 0]. unfold radix_ok in Hr. cbn [fold_left].
    destruct (Hs 0 0 ltac:(lia)) as [-> HP]. split; [done | by apply Forall_singleton].
  - split; [apply fold_digits; [done|by intros; apply Hs|done|done]|].
    apply digits_forall; [done|]. intros d Hd. by apply (Hs 0).
Qed.

Section Readers.
Context {C : Type}.
Implicit Types (m : mem).

Lemma dec_loop_spec s str i len tmp m fuel :
  bytes_at m (str + i) (s ++ [0]) -> Forall (fun c => is_dec c = true) s ->
  length s <= len < 2 ^ 32 -> room m (str + i) fuel ->
  runs (C := C) (dec_loop fuel str len i tmp) m (fold_left dec_step s tmp) m.
Proof.
  revert i len tmp fuel. induction s as [|c s IH]; intros i len tmp fuel Hb Hd Hl Hr;
    (destruct fuel as [|fuel]; [by apply room_pos in Hr|]); cbn [dec_loop];
    apply bytes_at_cons in Hb as [Hp Hb]; cbn [length] in Hl.
  - destruct (len =? 0); [apply runs_ret|]. cbv zeta. eapply runs_bind; [by apply runs_load8|]. apply runs_ret.
  - apply Forall_cons in Hd as [Hc Hd]. unfold is_dec in Hc. destruct (Z.eqb_spec len 0); [lia|]. cbv zeta.
    eapply runs_bind; [by apply runs_load8|]. rewrite Hc, u32_small by lia.
    rewrite <- Z.add_assoc in Hb. apply IH; [done|done|lia|].
    replace (str + (i + 1)) with (str + i + 1) by lia. by eapply room_step.
Qed.

Lemma hex_loop_spec s str i len tmp m fuel :
  bytes_at m (str + i) (s ++ [0]) -> Forall (fun c => is_hex c = true) s ->
  length s <= len < 2 ^ 32 -> room m (str + i) fuel ->
  runs (C := C) (hex_loop fuel str len i tmp) m (fold_left hex_step s tmp) m.
Proof.
  revert i len tmp fuel. induction s as [|c s IH]; intros i len tmp fuel Hb Hd Hl Hr;
    (destruct fuel as [|fuel]; [by apply room_pos in Hr|]); cbn [hex_loop];
    apply bytes_at_cons in Hb as [Hp Hb]; cbn [length] in Hl.
  - destruct (len =? 0); [apply runs_ret|]. cbv zeta. eapply runs_bind; [by apply runs_load8|]. apply runs_ret.
  - apply Forall_cons in Hd as [Hc Hd]. unfold is_hex, is_dec in Hc. destruct (Z.eqb_spec len 0); [lia|].
    cbv zeta. eapply runs_bind; [by apply runs_load8|]. rewrite u32_small by lia.
    cbn [fold_left]. unfold hex_step at 2. rewrite <- Z.add_assoc in Hb.
    assert (room m (str + (i + 1)) fuel) as Hr'.
    { replace (str + (i + 1)) with (str + i + 1) by lia. by eapply room_step. }
    destruct (in_range c ch_0 ch_9), (in_range c ch_A ch_F), (in_range c ch_a ch_f); try done;
      (apply IH; [done|done|lia|exact Hr']).
Qed.

(** A prefix needs an [x]. *)
Lemma hstr2int_spec s p len m :
  bytes_at m p (s ++ [0]) -> Forall (fun c => is_hex c = true) s -> s <> [] ->
  length s <= len < 2 ^ 32 ->
  runs (C := C) (hstr2int p len) m (fold_left hex_step s 0) m.
Proof.
  intros Hb Hh Hne Hl. unfold hstr2int. destruct s as [|c s]; [done|].
  assert (Hb' := Hb). apply bytes_at_cons in Hb' as [H0 Hb1].
  eapply runs_bind; [by apply runs_load8|].
  assert (exists c1, m !! (p + 1) = Some c1 /\ c1 <> ch_x) as (c1 & H1 & Hx).
  { destruct s as [|c1 s]; apply bytes_at_cons in Hb1 as [H1 _]; [by exists 0|]. exists c1.
    split; [done|]. intros ->. apply Forall_cons in Hh as [_ Hh]. apply Forall_cons in Hh as [Hh _].
    vm_compute in Hh. discriminate. }
  eapply (runs_bind _ _ _ false m).
  { destruct (c =? ch_0); [|apply runs_ret]. eapply runs_bind; [by apply runs_load8|].
    rewrite (proj2 (Z.eqb_neq _ _) Hx). apply runs_ret. }
  apply runs_with_fuel. apply hex_loop_spec; rewrite ?Z.add_0_r; [done|done|done|apply room_init].
Qed.

(** A number printed in a radix from 10 on: at most ten characters, which such
    a reader reads. *)
Lemma printed_spec r step (P : Z -> bool) v p m :
  radix_ok r -> 10 <= r ->
  (forall t d, 0 <= d < r -> step t (dig d) = u32 (t * r + d) /\ P (dig d) = true) ->
  0 <= v < 2 ^ 32 -> valid m p 11 ->
  let s := numeral r v in let m' := write_at m p (s ++ [0]) in
  (1 <= length s <= 10)%nat /\ fold_left step s 0 = v /\ Forall (fun c => P c = true) s /\
  runs (C := C) (utoa v p r) m p m' /\ bytes_at m' p (s ++ [0]) /\
  runs (C := C) (strlen p) m' (length s) m'.
Proof.
  intros Hr H10 Hs Hv Hval s m'. assert (10 ^ 16 <= r ^ 16) by (apply Z.pow_le_mono_l; lia).
  destruct (numeral_read step P r v Hr Hs ltac:(lia) ltac:(lia)) as [Hread HP].
  assert (1 <= length s <= 10)%nat as Hlen.
  { unfold s, numeral. destruct (Z.eqb_spec v 0); [cbn; lia|]. split.
    - cbn [digits]. destruct (Z.leb_spec v 0); [lia|]. rewrite length_app. cbn. lia.
    - apply digits_short; [done|]. assert (10 ^ 10 <= r ^ 10) by (apply Z.pow_le_mono_l; lia).
      change (Z.of_nat 10) with 10. lia. }
  assert (bytes_at m' p (s ++ [0])) as Hb by apply bytes_at_write_at.
  split_and!; try done; try lia.
  - apply utoa_spec; [done|lia|]. eapply valid_sub; [exact Hval|lia|fold s; lia].
  - apply strlen_spec. split; [exact Hb|]. eapply Forall_impl; [by apply numeral_chars|].
    cbv beta. intros c Hc. lia.
Qed.
End Readers.

(** Any 32-bit number printed in decimal is what [dstr2int] reads from the
    string written, as long as [strlen] says it is; printed in hexadecimal it
    is what [hstr2int] reads. *)
Theorem numbers_roundtrip {C : Type} (v p : Z) (m : mem) :
  0 <= v < 2 ^ 32 -> valid m p 11 ->
  (exists m', runs (C := C) (utoa v p 10;; let! n := strlen p in dstr2int p n) m v m') /\
  (exists m', runs (C := C) (utoa v p 16;; let! n := strlen p in hstr2int p n) m v m').
Proof.
  intros Hv Hval. split.
  - destruct (printed_spec (C := C) 10 dec_step is_dec v p m) as (Hl & Hread & HP & Hu & Hb & Hn);
      [split; lia|lia|apply dec_digit|done|done|].
    eexists. eapply runs_bind; [exact Hu|]. eapply runs_bind; [exact Hn|].
    eapply runs_eq; [|exact Hread]. apply runs_with_fuel, dec_loop_spec;
      rewrite ?Z.add_0_r; [done|done|lia|apply room_init].
  - destruct (printed_spec (C := C) 16 hex_step is_hex v p m) as (Hl & Hread & HP & Hu & Hb & Hn);
      [split; lia|lia|apply hex_digit|done|done|].
    eexists. eapply runs_bind; [exact Hu|]. eapply runs_bind; [exact Hn|].
    eapply runs_eq; [|exact Hread].
    apply hstr2int_spec; [done|done| |lia]. intros Hnil. rewrite Hnil in Hl. cbn in Hl. lia.
Qed.

(** ** Concrete numbers *)

(** ** [sprintf] *)

Section Sprintf.
Context {C : Type}.
Implicit Types (m : mem) (s text : list Z).

Lemma clear_loop_spec (n : nat) strval i m : valid m (strval + i) n ->
  runs (C := C) (clear_loop n strval i) m tt (write_at m (strval + i) (replicate n 0)).
Proof.
  revert i m. induction n as [|n IH]; intros i m Hv; cbn [clear_loop replicate write_at]; [apply runs_ret|].
  eapply runs_bind; [apply runs_store8, Hv; lia|]. change (u8 0) with 0.
  replace (strval + i + 1) with (strval + (i + 1)) by lia. apply IH, valid_insert. eapply valid_sub; [exact Hv|lia|lia].
Qed.

Lemma emit_loop_spec s strval buf i index m fuel :
  cstr m (strval + i) s -> Forall is_u8 s -> 0 <= i -> i + length s <= 31 -> (length s < fuel)%nat ->
  0 <= index -> index + length s < 2 ^ 32 ->
  valid m (buf + index) (length s) -> apart (strval + i) (length s + 1) (buf + index) (length s) ->
  runs (C := C) (emit_loop fuel strval buf i index) m (index + length s) (write_at m (buf + index) s).
Proof.
  unfold apart. revert i index m fuel. induction s as [|c s IH]; intros i index m fuel Hs H8 Hi Hlen Hf Hidx Hw Hv Ha;
    (destruct fuel as [|fuel]; [lia|]); cbn [emit_loop length write_at] in *.
  - apply cstr_nil in Hs. eapply runs_bind; [by apply runs_load8|]. cbn [Z.eqb negb andb].
    eapply runs_eq; [apply runs_ret|lia].
  - apply cstr_cons in Hs as (Hc & Hnz & Hs). apply Forall_cons in H8 as [Hc8 H8].
    eapply runs_bind; [by apply runs_load8|]. rewrite (proj2 (Z.eqb_neq _ _) Hnz).
    change (Z.of_nat STRVAL_SIZE) with 32. rewrite (proj2 (Z.ltb_lt i 32)) by lia. cbn [negb andb].
    eapply runs_bind; [apply runs_store8, Hv; lia|]. rewrite (u8_id c Hc8), (u32_small (index + 1)) by lia.
    replace (buf + index + 1) with (buf + (index + 1)) by lia.
    eapply runs_eq; [apply IH; [|done|lia|lia|lia|lia|lia| |lia]|lia].
    + replace (strval + (i + 1)) with (strval + i + 1) by lia. apply cstr_insert; [done|lia].
    + apply valid_insert. eapply valid_sub; [exact Hv|lia|lia].
Qed.

(** Two stores that differ at most in two objects. *)
Definition outside m m' p n q k : Prop :=
  dom m' = (dom m : gset Z) /\ forall a, ~ p <= a < p + n -> ~ q <= a < q + k -> m' !! a = m !! a.
Lemma outside_trans m1 m2 m3 p n q k : outside m1 m2 p n q k -> outside m2 m3 p n q k -> outside m1 m3 p n q k.
Proof. intros [D1 H1] [D2 H2]. split; [by rewrite D2|]. intros a Ha Hb. by rewrite H2, H1. Qed.
Lemma dom_store_at m p s : valid m p (length s) -> dom (write_at m p s) = (dom m : gset Z).
Proof.
  revert m p. induction s as [|c s IH]; intros m p Hv; cbn [write_at length] in *; [done|].
  rewrite IH by (apply valid_insert; eapply valid_sub; [exact Hv|lia|lia]). apply dom_insert_lookup_L, Hv. lia.
Qed.
Lemma outside_write_l m p n q k s : valid m p n -> length s <= n -> outside m (write_at m p s) p n q k.
Proof.
  intros Hv Hl. split; [apply dom_store_at; eapply valid_sub; [exact Hv|lia|lia]|].
  intros a Ha _. apply lookup_write_at_out. lia.
Qed.
Lemma outside_write_r m p n q k s : valid m q k -> length s <= k -> outside m (write_at m q s) p n q k.
Proof.
  intros Hv Hl. split; [apply dom_store_at; eapply valid_sub; [exact Hv|lia|lia]|].
  intros a _ Ha. apply lookup_write_at_out. lia.
Qed.
Lemma outside_cstr m m' p n q k r s : outside m m' p n q k -> apart p n r (length s + 1) -> apart q k r (length s + 1) ->
  cstr m r s -> cstr m' r s.
Proof.
  unfold apart. intros [_ Hout] H1 H2 [Hb Hnz]. split; [|done]. intros i b Hi. rewrite Hout; [by apply Hb| |];
    apply lookup_lt_Some in Hi; rewrite length_app in Hi; cbn [length] in Hi; lia.
Qed.
Lemma outside_bytes m m' p n q k r s : outside m m' p n q k -> apart p n r (length s) -> apart q k r (length s) ->
  bytes_at m r s -> bytes_at m' r s.
Proof.
  unfold apart. intros [_ Hout] H1 H2 Hb i b Hi. rewrite Hout; [by apply Hb| |]; apply lookup_lt_Some in Hi; lia.
Qed.
Lemma outside_valid m m' p n q k r l : outside m m' p n q k -> valid m r l -> valid m' r l.
Proof. intros [Hd _] Hv a Ha. apply elem_of_dom. rewrite Hd. by apply elem_of_dom, Hv. Qed.
Lemma outside_widen m m' p n q k q' k' : outside m m' p n q k -> q' <= q -> q + k <= q' + k' -> outside m m' p n q' k'.
Proof. intros [Hd Hout] H1 H2. split; [done|]. intros a Ha Hb. apply Hout; lia. Qed.

Lemma signed_numeral_chars v : Forall (fun c => is_u8 c /\ c <> 0) (signed_numeral 10 v).
Proof.
  apply Forall_app. split; [destruct (v <? 0); by repeat constructor|].
  eapply Forall_impl; [apply numeral_chars; split; lia|]. intros c Hc. cbv beta in Hc. unfold is_u8. lia.
Qed.

(** At ["%d"], the end of the format. *)
Lemma sprintf_number v strval buf p index m fuel :
  let num := signed_numeral 10 v in
  cstr m p [ch_percent; ch_d] -> - 2 ^ 31 < v < 2 ^ 31 -> length num <= 31 -> 0 <= index -> index + length num < 2 ^ 32 ->
  valid m strval 32 -> valid m (buf + index) (length num) ->
  apart strval 32 (buf + index) (length num) -> apart strval 32 p 3 -> apart (buf + index) (length num) p 3 -> room m p fuel ->
  exists m', runs (C := C) (sprintf_loop fuel strval buf p index [v]) m (index + length num) m' /\
    bytes_at m' (buf + index) num /\ outside m m' strval 32 (buf + index) (length num).
Proof.
  intros num Hp Hv Hn Hi Hw Hs Hb Hsb Hsp Hbp Hroom. unfold apart in *.
  destruct fuel as [|fuel]; [by apply room_pos in Hroom|]. cbn [sprintf_loop].
  pose proof Hp as (Hp0 & _ & Hp1)%cstr_cons. apply cstr_cons in Hp1 as (Hp1 & _ & Hp2). apply cstr_nil in Hp2.
  set (z := write_at m strval (replicate STRVAL_SIZE 0)).
  assert (outside m z strval 32 (buf + index) (length num)) as Hz by (apply outside_write_l; [done|by rewrite length_replicate]).
  assert (forall a b m', outside m m' strval 32 (buf + index) (length num) -> m !! a = Some b -> p <= a < p + 3 -> m' !! a = Some b)
    as Hkeep by (intros a b m' [_ Ho] Ha Hap; rewrite Ho; [done|lia|lia]).
  set (y := write_at z strval (num ++ [0])). set (x := write_at y (buf + index) num).
  assert (outside z y strval 32 (buf + index) (length num)) as Hy.
  { apply outside_write_l; [by eapply outside_valid|]. rewrite length_app. cbn [length]. lia. }
  assert (outside y x strval 32 (buf + index) (length num)) as Hx.
  { apply outside_write_r; [|done]. by eapply outside_valid, outside_valid. }
  assert (outside m x strval 32 (buf + index) (length num)) as Hmx by (eapply outside_trans; [|exact Hx]; by eapply outside_trans).
  pose proof (signed_numeral_chars v) as Hchars. fold num in Hchars.
  exists x. split; [|split; [apply bytes_at_write_at|done]].
  eapply runs_bind; [by apply runs_load8|]. change (ch_percent =? 0) with false. cbn iota.
  eapply runs_bind; [apply clear_loop_spec; by rewrite Z.add_0_r|]. rewrite Z.add_0_r. fold z.
  eapply runs_bind; [apply runs_load8; eapply Hkeep; [done|exact Hp0|lia]|].
  change (negb (ch_percent =? ch_percent)) with false. cbn iota. cbv zeta.
  eapply runs_bind; [apply runs_load8; eapply Hkeep; [done|exact Hp1|lia]|].
  change (ch_d =? ch_d) with true. cbn iota.
  eapply runs_bind.
  { eapply runs_bind; [|apply runs_ret]. apply itoa_spec; [split; lia|done|lia|].
    eapply outside_valid; [exact Hz|]. eapply valid_sub; [exact Hs|lia|fold num; lia]. }
  fold num. fold y. eapply runs_bind.
  { apply (emit_loop_spec num); rewrite ?Z.add_0_r.
    - split; [apply bytes_at_write_at|]. eapply Forall_impl; [exact Hchars|]. by intros c [_ Hc].
    - eapply Forall_impl; [exact Hchars|]. by intros c [Hc _].
    - done.
    - lia.
    - unfold STRVAL_SIZE. lia.
    - done.
    - done.
    - by eapply outside_valid, outside_valid.
    - unfold apart. lia. }
  fold x. replace (p + 1 + 1) with (p + 2) by lia.
  assert (room x (p + 1 + 1) fuel) as Hr.
  { eapply room_dom; [apply Hmx|]. pose proof (room_step _ _ _ _ Hroom Hp0) as H1.
    destruct fuel as [|fuel]; [by apply room_pos in H1|]. pose proof (room_step _ _ _ _ H1 Hp1) as H2. unfold room in *. lia. }
  destruct fuel as [|fuel]; [by apply room_pos in Hr|]. cbn [sprintf_loop].
  eapply runs_bind; [apply runs_load8; eapply Hkeep; [done| |]; [|lia]|].
  { replace (p + 2) with (p + 1 + 1) by lia. exact Hp2. }
  apply runs_ret.
Qed.

Lemma sprintf_loop_spec text v strval buf p index m fuel :
  let num := signed_numeral 10 v in let n := length text + length num in
  cstr m p (text ++ [ch_percent; ch_d]) -> Forall (fun c => is_u8 c /\ c <> ch_percent) text ->
  - 2 ^ 31 < v < 2 ^ 31 -> length num <= 31 -> 0 <= index -> index + n < 2 ^ 32 ->
  valid m strval 32 -> valid m (buf + index) n ->
  apart strval 32 (buf + index) n -> apart strval 32 p (length text + 3) -> apart (buf + index) n p (length text + 3) ->
  room m p fuel ->
  exists m', runs (C := C) (sprintf_loop fuel strval buf p index [v]) m (index + n) m' /\
    bytes_at m' (buf + index) (text ++ num) /\ outside m m' strval 32 (buf + index) n.
Proof.
  cbv zeta. set (num := signed_numeral 10 v).
  revert p index m fuel. induction text as [|c text IH]; intros p index m fuel Hp Hc Hv Hn Hi Hw Hs Hb Hsb Hsp Hbp Hr.
  { cbn [app length] in *. rewrite Z.add_0_l in *. by apply sprintf_number. }
  unfold apart in *. cbn [app length] in *. apply Forall_cons in Hc as [[Hc8 Hc] Htext].
  destruct fuel as [|fuel]; [by apply room_pos in Hr|]. apply cstr_cons in Hp as (Hp0 & Hnz & Hp).
  set (z := write_at m strval (replicate STRVAL_SIZE 0)). set (y := <[buf + index := c]> z).
  assert (outside m z strval 32 (buf + index) (S (length text) + length num)) as Hz
    by (apply outside_write_l; [done|by rewrite length_replicate]).
  assert (outside z y strval 32 (buf + index) (S (length text) + length num)) as Hy.
  { apply (outside_write_r z strval 32 (buf + index) (S (length text) + length num) [c]); [by eapply outside_valid|cbn; lia]. }
  assert (outside m y strval 32 (buf + index) (S (length text) + length num)) as Hmy by (by eapply outside_trans).
  assert (z !! p = Some c) as Hz0 by (destruct Hz as [_ Hz]; rewrite Hz; [done|lia|lia]).
  destruct (IH (p + 1) (index + 1) y fuel) as (m' & Hrun & Hbytes & Hout).
  - eapply outside_cstr; [exact Hmy| | |exact Hp]; unfold apart; rewrite length_app; cbn [length]; lia.
  - done.
  - done.
  - done.
  - lia.
  - lia.
  - by eapply outside_valid.
  - eapply outside_valid; [exact Hmy|]. eapply valid_sub; [exact Hb|lia|lia].
  - lia.
  - lia.
  - lia.
  - eapply room_dom; [apply Hmy|]. by eapply room_step.
  - exists m'. split; [|split].
    + cbn [sprintf_loop]. eapply runs_bind; [by apply runs_load8|]. rewrite (proj2 (Z.eqb_neq _ _) Hnz).
      eapply runs_bind; [apply clear_loop_spec; by rewrite Z.add_0_r|]. rewrite Z.add_0_r. fold z.
      eapply runs_bind; [by apply runs_load8|]. rewrite (proj2 (Z.eqb_neq _ _) Hc). cbn [negb].
      eapply runs_bind; [apply runs_store8; apply (outside_valid _ _ _ _ _ _ _ _ Hz Hb); lia|].
      rewrite (u8_id c Hc8), (u32_small (index + 1)) by lia. fold y. eapply runs_eq; [exact Hrun|lia].
    + apply bytes_at_cons. split; [|by replace (buf + index + 1) with (buf + (index + 1)) by lia].
      destruct Hout as [_ Hout]. rewrite Hout by lia. apply lookup_insert_eq.
    + eapply outside_trans; [exact Hmy|]. eapply outside_widen; [exact Hout|lia|lia].
Qed.

(** A number printed behind a text. *)
Lemma sprintf_spec text v strval buf fmt m :
  let num := signed_numeral 10 v in let n := length text + length num in
  cstr m fmt (text ++ [ch_percent; ch_d]) -> Forall (fun c => is_u8 c /\ c <> ch_percent) text ->
  - 2 ^ 31 < v < 2 ^ 31 -> length num <= 31 -> n < 2 ^ 31 ->
  valid m strval 32 -> valid m buf (n + 1) ->
  apart strval 32 buf (n + 1) -> apart strval 32 fmt (length text + 3) -> apart buf (n + 1) fmt (length text + 3) ->
  exists m', runs (C := C) (sprintf strval buf fmt [v]) m n m' /\ bytes_at m' buf ((text ++ num) ++ [0]) /\
    outside m m' strval 32 buf (n + 1).
Proof.
  cbv zeta. intros Hp Hc Hv Hn Hw Hs Hb Hsb Hsp Hbp. unfold apart in *. set (num := signed_numeral 10 v) in *.
  destruct (sprintf_loop_spec text v strval buf fmt 0 m (S (size m))) as (m1 & Hrun & Hbytes & Hout);
    rewrite ?Z.add_0_r; unfold apart; fold num; try done; try lia.
  { eapply valid_sub; [exact Hb|lia|lia]. }
  { apply room_init. }
  rewrite ?Z.add_0_r in *. fold num in Hrun, Hbytes, Hout. rewrite Z.add_0_l in Hrun.
  pose proof (outside_valid _ _ _ _ _ _ _ _ Hout Hb) as Hb1.
  exists (write_at m1 (buf + (length text + length num)) [0]). split; [|split].
  - eapply runs_bind; [apply runs_with_fuel; exact Hrun|]. eapply runs_bind; [apply runs_store8, Hb1; lia|].
    eapply runs_eq; [apply runs_ret|]. unfold s32. rewrite u32_small by lia.
    by rewrite (proj2 (Z.ltb_lt (length text + length num) (2 ^ 31))) by lia.
  - apply bytes_at_app. rewrite length_app. replace (Z.of_nat (length text + length num)) with (length text + length num) by lia.
    split; [|apply bytes_at_write_at]. apply bytes_at_write_at_out; [done|]. rewrite length_app. lia.
  - eapply outside_trans; [eapply outside_widen; [exact Hout|lia|lia]|].
    replace (buf + (length text + length num)) with (buf + (length text + length num)) by lia.
    split; [apply dom_store_at; eapply valid_sub; [exact Hb1|lia|cbn; lia]|].
    intros a _ Ha. apply lookup_write_at_out. cbn. lia.
Qed.
End Sprintf.

(** 255 in hexadecimal, the least integer, and a binary number of 17 digits. *)
Lemma printers_exact_witness :
  let m := object 0x100 (replicate 40 0) in
  runs (C := Empty_set) (utoa 255 0x100 16) m 0x100 (write_at m 0x100 [70; 70; 0]) /\
  faults (C := Empty_set) (itoa (- 2 ^ 31) 0x100 10) m /\
  faults (C := Empty_set) (utoa 65536 0x100 2) m.
Proof.
  intros m. split_and!.
  - replace [70; 70; 0] with (numeral 16 255 ++ [0]) by (vm_compute; reflexivity).
    refine (proj1 (printers_exact 16 255 0x100 m _) _ _); [split; lia|lia|check_store].
  - refine (proj1 (proj2 (printers_exact 10 (- 2 ^ 31) 0x100 m _)) _ _); [split; lia|lia|check_store].
  - refine (proj1 (printers_exact 2 65536 0x100 m _) _ _); [split; lia|lia|check_store].
Defined.

Lemma numbers_roundtrip_witness :
  let m := object 0x100 (replicate 11 0) in
  exists m', runs (C := Empty_set) (utoa 4294967295 0x100 10;; let! n := strlen 0x100 in dstr2int 0x100 n)
    m 4294967295 m'.
Proof. intros m. refine (proj1 (numbers_roundtrip 4294967295 0x100 m _ _)); [lia|check_store]. Defined.
