(* ===== verification/Uart.v ===== *)
(** * Pins and the debug UART of the AR100
    (src/ar100s/driver/pin/pin.c, src/ar100s/driver/uart/uart.c)

    The UART is built without [CFG_FDT_INIT_ARISC_UART_USED], [CFG_FPGA_PLATFORM]
    and [CFG_SHELL_USED].  The strings it sends are in the byte store. *)

From Stdlib Require Import String.
From S2P Require Import Prelude Machine Console CMem Firmware Cpucfg Prcm.

Local Open Scope string_scope.
Local Open Scope list_scope.
Local Open Scope Z_scope.
Local Open Scope mach_scope.

(** ** Pins (platform_regs.h, pin.c) *)

Definition R_PIO_REG_BASE : Z := 0x07025000.
Definition PIN_REG_CFG (n i : Z) : Z := u32 (R_PIO_REG_BASE + (n - 1) * 0x30 + Z.shiftr i 3 * 0x4 + 0x00).
Definition PIN_REG_DLEVEL (n i : Z) : Z := u32 (R_PIO_REG_BASE + (n - 1) * 0x30 + Z.shiftr i 3 * 0x4 + 0x14).
Definition PIN_REG_PULL (n i : Z) : Z := u32 (R_PIO_REG_BASE + (n - 1) * 0x30 + Z.shiftr i 4 * 0x4 + 0x24).
Definition PIN_REG_DATA (n : Z) : Z := u32 (R_PIO_REG_BASE + (n - 1) * 0x30 + 0x10).
Definition PIN_REG_INT_STAT (n : Z) : Z := u32 (R_PIO_REG_BASE + (n - 1) * 0x20 + 0x214).
Definition PIN_GRP_PL : Z := 1.
Definition PIN_GRP_PM : Z := 2.

Section Pin.
Context {C S : Type}.
Local Abbreviation M := (M C S).

Definition pin_init : M Z := ret OK.
Definition pin_exit : M Z := ret OK.
Definition pin_set_status (pin_grp pin_num pstatus : Z) : M Z := ret OK.

Definition pin_set_multi_sel (pin_grp pin_num multi_sel : Z) : M Z :=
  let sh := Z.land pin_num 0x7 * 4 in
  update (PIN_REG_CFG pin_grp pin_num) (shl32 0xf sh) (shl32 multi_sel sh);;
  ret OK.
Definition pin_set_pull (pin_grp pin_num pull : Z) : M Z :=
  let sh := Z.land pin_num 0xf * 2 in
  update (PIN_REG_PULL pin_grp pin_num) (shl32 0x3 sh) (shl32 pull sh);;
  ret OK.
Definition pin_set_drive (pin_grp pin_num drive : Z) : M Z :=
  let sh := Z.land pin_num 0xf * 2 in
  update (PIN_REG_DLEVEL pin_grp pin_num) (shl32 0x3 sh) (shl32 drive sh);;
  ret OK.

(** A shift by 32 or more is undefined. *)
Definition shift_ok (n : Z) : M unit := if n <? 32 then ret tt else stop_now Undefined.

Definition pin_write_data (pin_grp pin_num data : Z) : M Z :=
  let! value := readl (PIN_REG_DATA pin_grp) in
  shift_ok pin_num;;
  let value := Z.land value (cnot32 (shl32 0x1 pin_num)) in
  let value := Z.lor value (shl32 (Z.land data 0x1) pin_num) in
  writel value (PIN_REG_DATA pin_grp);;
  ret OK.
Definition pin_read_data (pin_grp pin_num : Z) : M Z :=
  let! value := readl (PIN_REG_DATA pin_grp) in
  shift_ok pin_num;;
  ret (Z.land (Z.shiftr value pin_num) 0x1).
Definition is_wanted_gpio_int (pin_grp gpio_int_en : Z) : M Z :=
  let! value := readl (PIN_REG_INT_STAT pin_grp) in
  ret (Z.land value gpio_int_en).
End Pin.

(** ** The UART (uart.c) *)

Definition UART_REG_ADDR : Z := 0x07080000.
Definition UART_REG_RBR : Z := UART_REG_ADDR + 0x00.
Definition UART_REG_THR : Z := UART_REG_ADDR + 0x00.
Definition UART_REG_DLL : Z := UART_REG_ADDR + 0x00.
Definition UART_REG_DLH : Z := UART_REG_ADDR + 0x04.
Definition UART_REG_FCR : Z := UART_REG_ADDR + 0x08.
Definition UART_REG_LCR : Z := UART_REG_ADDR + 0x0c.
Definition UART_REG_USR : Z := UART_REG_ADDR + 0x7c.
Definition UART_REG_TFL : Z := UART_REG_ADDR + 0x80.
Definition UART_REG_RFL : Z := UART_REG_ADDR + 0x84.
Definition UART_REG_HALT : Z := UART_REG_ADDR + 0xa4.
Definition UART_BAUDRATE : Z := 115200 / 2.
Definition UART_POLL_LIMIT : nat := Z.to_nat 1000000.
Definition CCU_CLK_OFF : Z := 0.
Definition CCU_CLK_ON : Z := 1.
Definition CCU_CLK_CLKCHG_REQ : Z := 0.
Definition CCU_CLK_CLKCHG_DONE : Z := 1.

(** Statics of uart.c. *)
Record uart := UartVars {
  uart_pin_not_used : Z;
  uart_lock : Z;
  uart_rate : Z
}.
Definition uart_initial : uart := UartVars 1 1 0.
Definition with_pin_not_used (v : Z) (u : uart) : uart := UartVars v (uart_lock u) (uart_rate u).
Definition with_lock (v : Z) (u : uart) : uart := UartVars (uart_pin_not_used u) v (uart_rate u).
Definition with_rate (v : Z) (u : uart) : uart := UartVars (uart_pin_not_used u) (uart_lock u) v.

(** Status and [*divisor], which a failure leaves alone. *)
Definition uart_divisor (freq rate : Z) : Z * option Z :=
  if (freq =? 0) || (rate =? 0) then (- EINVAL, None)
  else if (freq <? rate) || (0xffffffff / 16 <? rate) then (- EINVAL, None)
  else
    let denominator := u32 (rate * 16) in
    if 0xffffffff - denominator / 2 <? freq then (- EINVAL, None)
    else
      let rounded := u32 (freq + denominator / 2) / denominator in
      if (rounded =? 0) || (0xffff <? rounded) then (- EINVAL, None)
      else (OK, Some rounded).

Section Uart.
Context {C S : Type} `{HPrint : HasPrintf C} `{HUart : !Part uart S} `{HCcu : !Part ccu S}
  `{HMem : !Part mem S}.
Local Abbreviation M := (M C S).

Definition uart_vars : M uart := getp.
Definition set_uart (f : uart -> uart) : M unit := let! u := uart_vars in putp (f u).
(** [uart_lock || uart_pin_not_used] *)
Definition uart_blocked : M bool :=
  let! u := uart_vars in ret (negb (uart_lock u =? 0) || negb (uart_pin_not_used u =? 0)).

(** The divisor latch, under LCR bit 7. *)
Definition write_divisor (div : Z) : M unit :=
  writel (Z.land div 0xff) UART_REG_DLL;;
  writel (Z.land (Z.shiftr div 8) 0xff) UART_REG_DLH.

Definition uart_init : M Z :=
  set_uart (with_rate UART_BAUDRATE);;
  let! _ := pin_set_multi_sel PIN_GRP_PL 2 3 in
  let! _ := pin_set_multi_sel PIN_GRP_PL 3 3 in
  set_uart (with_pin_not_used 0);;
  let! u := uart_vars in
  if negb (uart_pin_not_used u =? 0) then ret (- EACCES)
  else
    let! _ := ccu_set_mclk_reset CCU_MOD_CLK_R_UART CCU_CLK_NRESET in
    let! _ := ccu_set_mclk_onoff CCU_MOD_CLK_R_UART CCU_CLK_ON in
    let! apb0_clk := ccu_get_sclk_freq CCU_SYS_CLK_APBS2 in
    let! u := uart_vars in
    match uart_divisor (u32 apb0_clk) (uart_rate u) with
    | (_, None) => ret (- EINVAL)
    | (_, Some div) =>
        let! lcr := readl UART_REG_LCR in
        writel (Z.lor lcr 0x80) UART_REG_LCR;;
        write_divisor div;;
        writel 0 UART_REG_HALT;;
        writel 3 UART_REG_LCR;;
        writel 7 UART_REG_FCR;;
        set_uart (with_lock 0);;
        ret OK
    end.

Definition uart_exit : M Z :=
  set_uart (with_lock 1);;
  set_uart (with_pin_not_used 1);;
  let! _ := pin_set_multi_sel PIN_GRP_PL 2 7 in
  let! _ := pin_set_multi_sel PIN_GRP_PL 3 7 in
  let! _ := ccu_set_mclk_onoff CCU_MOD_CLK_R_UART CCU_CLK_OFF in
  let! _ := ccu_set_mclk_reset CCU_MOD_CLK_R_UART CCU_CLK_RESET in
  ret OK.

Definition fifo_full (usr : Z) : bool := Z.land usr 2 =? 0.
Definition uart_putc (ch : Z) : M Z :=
  let! b := uart_blocked in
  if b : bool then ret (- EACCES)
  else
    let! r := poll UART_POLL_LIMIT UART_REG_USR fifo_full in
    if negb (r =? OK) then ret r
    else writel ch UART_REG_THR;; ret OK.

(** [*buf++] over the receive FIFO; nothing in the code bounds it. *)
Fixpoint get_loop (fuel : nat) (buf count : Z) : M Z :=
  match fuel with
  | O => stop_now OutOfFuel
  | Datatypes.S fuel =>
      let! n := readl UART_REG_RFL in
      if negb (n =? 0) then
        let! c := readl UART_REG_RBR in
        on_part (store8 buf (Z.land c 0xff));;
        get_loop fuel (buf + 1) (u32 (count + 1))
      else ret count
  end.
Definition uart_get (fuel : nat) (buf : Z) : M Z :=
  let! b := uart_blocked in
  if b : bool then ret (u32 (- EACCES)) else get_loop fuel buf 0.

Definition newline : Z := 10.
Definition carriage : Z := 13.
Fixpoint puts_loop (fuel : nat) (string : Z) : M Z :=
  match fuel with
  | O => stop_now OutOfFuel
  | Datatypes.S fuel =>
      let! c := on_part (load8 string) in
      if c =? 0 then ret OK
      else
        let! r := (if c =? newline then uart_putc carriage else ret OK) in
        if negb (r =? OK) then ret r
        else
          let! c := on_part (load8 string) in
          let! r := uart_putc c in
          if negb (r =? OK) then ret r else puts_loop fuel (string + 1)
  end.
Definition uart_puts (string : Z) : M Z :=
  let! b := uart_blocked in
  if b : bool then ret (- EACCES)
  else
    let! m := getp in
    puts_loop (Datatypes.S (size (m : mem))) string.

Definition uart_set_baudrate (rate : Z) : M Z :=
  let! u := uart_vars in
  if negb (uart_pin_not_used u =? 0) then ret (- EACCES)
  else
    let! r := poll UART_POLL_LIMIT UART_REG_TFL (fun v => negb (v =? 0)) in
    if negb (r =? OK) then ret r
    else
      let! freq := ccu_get_sclk_freq CCU_SYS_CLK_APBS2 in
      match uart_divisor (u32 freq) rate with
      | (_, None) => ret (- EINVAL)
      | (_, Some div) =>
          let! lcr := readl UART_REG_LCR in
          let! u := uart_vars in
          LOG "uart baudrate change from [%d] to [%d]\n" [N_ (uart_rate u); N_ rate];;
          let! v := readl UART_REG_HALT in
          let halt := Z.lor v 0x2 in
          writel halt UART_REG_HALT;;
          writel (Z.lor lcr 0x80) UART_REG_LCR;;
          write_divisor div;;
          writel (Z.land lcr (cnot32 0x80)) UART_REG_LCR;;
          let! v := readl UART_REG_HALT in
          let halt := Z.lor v 0x4 in
          writel halt UART_REG_HALT;;
          let! r := poll UART_POLL_LIMIT UART_REG_HALT (fun v => negb (Z.land v 0x4 =? 0)) in
          if negb (r =? OK) then writel lcr UART_REG_LCR;; ret r
          else
            let! v := readl UART_REG_HALT in
            let halt := Z.lor v 0x4 in
            writel (Z.land halt (cnot32 0x2)) UART_REG_HALT;;
            set_uart (with_rate rate);;
            ret OK
      end.

Definition uart_get_baudrate : M Z := let! u := uart_vars in ret (uart_rate u).

Definition uart_clkchangecb (command freq : Z) : M Z :=
  let! u := uart_vars in
  if negb (uart_pin_not_used u =? 0) then ret (- EACCES)
  else if command =? CCU_CLK_CLKCHG_REQ then
    INF "uart source clock change request\n" [];;
    let! r := poll UART_POLL_LIMIT UART_REG_USR (fun v => Z.land v (Z.shiftl 0x1 2) =? 0) in
    if negb (r =? OK) then ret r
    else set_uart (with_lock 1);; ret OK
  else if command =? CCU_CLK_CLKCHG_DONE then
    let! u := uart_vars in
    let! r := uart_set_baudrate (uart_rate u) in
    if negb (r =? OK) then ret r
    else
      set_uart (with_lock 0);;
      INF "uart buadrate change done\n" [];;
      ret OK
  else ret (- ESRCH).
End Uart.
