(* ===== verification/UartProps.v ===== *)
(** * What the debug UART puts on the line

    The bytes [uart_puts] sends, the divisor of a baud rate and the outcome of
    a change of rate, whatever the hardware answers. *)

From Stdlib Require Import String.
From S2P Require Import CMem Prelude Machine Console Firmware StringLib StringLibProps.
From S2P Require Import Cpucfg Prcm Uart.

Local Open Scope string_scope.
Local Open Scope list_scope.
Local Open Scope Z_scope.
Local Open Scope mach_scope.
#[local] Coercion Z.of_nat : nat >-> Z.

(** ** The specification *)

(** A carriage return before every line feed. *)
Definition crlf (text : list Z) : list Z :=
  flat_map (fun c => if c =? newline then [carriage; c] else [c]) text.

(** The string that starts a run of bytes. *)
Fixpoint until_nul (bs : list Z) : list Z :=
  match bs with
  | [] => []
  | c :: bs => if c =? 0 then [] else c :: until_nul bs
  end.

Lemma crlf_app s t : crlf (s ++ t) = crlf s ++ crlf t.
Proof. apply flat_map_app. Qed.

Lemma crlf_plain t : Forall (fun c => c <> newline) t -> crlf t = t.
Proof. induction 1 as [|c t Hc _ IH]; [done|]. cbn. rewrite (proj2 (Z.eqb_neq c newline) Hc). cbn. by f_equal. Qed.

Lemma until_nul_nonzero bs : Forall (fun c => c <> 0) bs -> until_nul bs = bs.
Proof. induction 1 as [|c bs Hc _ IH]; [done|]. cbn. rewrite (proj2 (Z.eqb_neq c 0) Hc). by f_equal. Qed.

(** A terminated run of bytes holds the string that starts it. *)
Lemma cstr_until_nul m p bs : bytes_at m p (bs ++ [0]) -> cstr m p (until_nul bs).
Proof.
  revert p. induction bs as [|c bs IH]; intros p Hb; cbn in *.
  - apply cstr_nil. by apply bytes_at_cons in Hb as [? _].
  - apply bytes_at_cons in Hb as [Hc Hb]. destruct (Z.eqb_spec c 0) as [->|Hz].
    + by apply cstr_nil.
    + apply cstr_cons. split; [done|]. split; [done|]. by apply IH.
Qed.

(** Reading a string stays inside the store. *)
Lemma cstr_room m p c text (fuel : nat) : cstr m p (c :: text) -> room m p (S fuel) -> room m (p + 1) fuel.
Proof. intros Hs Hr. apply cstr_cons in Hs as [Hc _]. eapply room_step; [exact Hr|by rewrite Hc]. Qed.

Definition blocked (u : uart) : bool := negb (uart_lock u =? 0) || negb (uart_pin_not_used u =? 0).

Section Line.
Context {C : Type}.
Implicit Types (e : env C) (h : history C).

(** The bytes written to the transmit register, oldest first. *)
Fixpoint sent h : list Z :=
  match h with
  | [] => []
  | Wr a v :: h => if a =? UART_REG_THR then sent h ++ [v] else sent h
  | _ :: h => sent h
  end.

(** The transmit FIFO has room whenever the code looks. *)
Definition fifo_ready e : Prop := forall h, fifo_full (u32 (env_read e h UART_REG_USR)) = false.

(** [h'] adds to [h] reads of the status and the bytes [out]. *)
Definition transmits (out : list Z) h h' : Prop :=
  sent h' = sent h ++ out /\ extends (fun a _ => a = UART_REG_THR) h h'.

(** How a transmission of [text] ends. *)
Definition transmission e (text : list Z) (r : Z) h h' : Prop :=
  exists out, transmits out h h' /\
    ((r = OK /\ out = text) \/
     (r = - ETIMEOUT /\ (exists c rest, text = out ++ c :: rest) /\ ~ fifo_ready e)).

Lemma extends_read (P : Z -> Z -> Prop) reg v h h' : extends P h h' -> extends P h (Rd reg v :: h').
Proof. apply extends_cons. intros a v' [H|H]; discriminate. Qed.

Lemma transmits_nil h : transmits [] h h.
Proof. split; [by rewrite app_nil_r | apply extends_refl]. Qed.

Lemma transmits_app out1 out2 h1 h2 h3 :
  transmits out1 h1 h2 -> transmits out2 h2 h3 -> transmits (out1 ++ out2) h1 h3.
Proof.
  intros [E1 H1] [E2 H2]. split; [by rewrite E2, E1, app_assoc | by eapply extends_trans].
Qed.

Lemma sent_reads reg vs h : sent (map (Rd reg) vs ++ h) = sent h.
Proof. by induction vs. Qed.

Lemma transmission_app e t1 t2 r h1 h2 h3 :
  transmission e t1 OK h1 h2 -> transmission e t2 r h2 h3 -> transmission e (t1 ++ t2) r h1 h3.
Proof.
  intros (out1 & H1 & [[_ ->]|[Hr _]]); [|done].
  intros (out2 & H2 & Hcase). exists (t1 ++ out2). split; [by eapply transmits_app|].
  destruct Hcase as [[-> ->]|(-> & (c & rest & ->) & Hn)]; [by left|right].
  split; [done|]. split; [|done]. exists c, rest. by rewrite app_assoc.
Qed.

(** An attempt that fails ends the whole. *)
Lemma transmission_cut e t1 t2 r h1 h2 :
  r <> OK -> transmission e t1 r h1 h2 -> transmission e (t1 ++ t2) r h1 h2.
Proof.
  intros Hr (out & H1 & [[-> _]|(-> & (c & rest & ->) & Hn)]); [done|].
  exists out. split; [done|]. right. split; [done|]. split; [|done].
  exists c, (rest ++ t2). by rewrite <- app_assoc.
Qed.
End Line.

(** ** Sending *)

Section Send.
Context {C S : Type} `{HUart : !Part uart S} `{HMem : !Part mem S}.
Implicit Types (e : env C) (s : S) (h : history C).

Lemma uart_blocked_spec e s h (Q : bool -> S -> history C -> Prop) K :
  Q (blocked (part s)) s h -> wp uart_blocked e s h Q K.
Proof. intros HQ. unfold uart_blocked, uart_vars. by fw_steps. Qed.

(** The wait for room in the FIFO. *)
Lemma fifo_wait e s h :
  wp (poll UART_POLL_LIMIT UART_REG_USR fifo_full) e s h (fun r s' h' =>
    s' = s /\ transmits [] h h' /\ (r = OK \/ (r = - ETIMEOUT /\ ~ fifo_ready e))) total.
Proof.
  assert (UART_POLL_LIMIT <> O) as Hn by (unfold UART_POLL_LIMIT; lia).
  generalize dependent UART_POLL_LIMIT. intros n Hn. revert h Hn.
  induction n as [|n IH]; intros h Hn; [done|]. cbn [poll]. apply wp_bind, wp_readl. intros v _ Ev.
  assert (transmits [] h (Rd UART_REG_USR v :: h)) as Hrd.
  { split; [by rewrite app_nil_r|]. apply extends_read, extends_refl. }
  destruct (fifo_full v) eqn:Hb; [|apply wp_ret; auto].
  assert (~ fifo_ready e) as Hnot by (intros Hr; specialize (Hr h); congruence).
  destruct n as [|n]; [apply wp_ret; auto|].
  eapply wp_mono; [by apply IH|]. intros r s' h' (-> & Ht & Hr). split; [done|]. split; [|done].
  by apply (transmits_app [] [] _ _ _ Hrd).
Qed.

Lemma uart_putc_spec c e s h : blocked (part s) = false ->
  wp (uart_putc c) e s h (fun r s' h' => s' = s /\ transmission e [c] r h h') total.
Proof.
  intros Hb. unfold uart_putc. apply wp_bind, uart_blocked_spec. rewrite Hb.
  apply wp_bind. eapply wp_mono; [apply fifo_wait|]. intros r s1 h1 (-> & Ht & [->|[-> Hn]]).
  - cbn [Z.eqb negb OK]. fw_steps. split; [done|]. exists [c]. split; [|by left].
    apply (transmits_app [] [c] _ _ _ Ht). split; [cbn; by rewrite Z.eqb_refl|].
    apply extends_cons; [naive_solver|apply extends_refl].
  - cbn. apply wp_ret. split; [done|]. exists []. split; [done|]. right. split; [done|]. split; [|done]. by exists c, [].
Qed.

(** Sending one piece, then going on only if all of it went out. *)
Lemma send_then (m : M C S Z) k t1 t2 e s h :
  wp m e s h (fun r s' h' => s' = s /\ transmission e t1 r h h') total ->
  (forall h', wp k e s h' (fun r s'' h'' => s'' = s /\ transmission e t2 r h' h'') total) ->
  wp (let! r := m in if negb (r =? OK) then ret r else k) e s h
    (fun r s' h' => s' = s /\ transmission e (t1 ++ t2) r h h') total.
Proof.
  intros Hm Hk. apply wp_bind. eapply wp_mono; [exact Hm|]. intros r s1 h1 [-> H1].
  destruct (Z.eqb_spec r OK) as [->|Hr].
  - eapply wp_mono; [apply Hk|]. intros r s2 h2 [-> H2]. split; [done|]. by eapply transmission_app.
  - apply wp_ret. split; [done|]. by apply transmission_cut.
Qed.

Lemma puts_loop_spec fuel p text e s h :
  blocked (part s) = false -> cstr (part s) p text -> room (part s) p fuel ->
  wp (puts_loop fuel p) e s h (fun r s' h' => s' = s /\ transmission e (crlf text) r h h') total.
Proof.
  revert p text h. induction fuel as [|fuel IH]; intros p text h Hb Hs Hr; [by apply room_pos in Hr|].
  assert (forall c (Q : Z -> S -> history C -> Prop) h, (part s : mem) !! p = Some c -> Q c s h ->
    wp (on_part (load8 p)) e s h Q total) as Hload.
  { intros c Q h0 Hc HQ. apply wp_on_part. unfold wp. rewrite (runs_load8 _ _ _ Hc e h0). by rewrite set_same. }
  cbn [puts_loop]. apply wp_bind. destruct text as [|c text].
  - apply cstr_nil in Hs. apply (Hload 0); [done|]. apply wp_ret. split; [done|].
    exists []. split; [apply transmits_nil|by left].
  - assert (Hs' := Hs). apply cstr_cons in Hs' as (Hc & Hz & Hrest). apply (Hload c); [done|].
    rewrite (proj2 (Z.eqb_neq c 0) Hz).
    replace (crlf (c :: text)) with ((if c =? newline then [carriage] else []) ++ [c] ++ crlf text)
      by (cbn; by destruct (c =? newline)).
    apply send_then.
    { destruct (c =? newline); [by apply uart_putc_spec|]. apply wp_ret. split; [done|].
      exists []. split; [apply transmits_nil|by left]. }
    intros h1. apply wp_bind, (Hload c); [done|]. apply send_then; [by apply uart_putc_spec|].
    intros h2. apply IH; [done..|]. by eapply cstr_room.
Qed.

(** What [uart_puts] does with a string. *)
Definition line_after e (locked : bool) (text : list Z) (r : Z) h h' : Prop :=
  if locked then r = - EACCES /\ h' = h else transmission e (crlf text) r h h'.

Lemma uart_puts_spec p text e s h : cstr (part s) p text ->
  wp (uart_puts p) e s h (fun r s' h' => s' = s /\ line_after e (blocked (part s)) text r h h') total.
Proof.
  intros Hs. unfold uart_puts, line_after. apply wp_bind, uart_blocked_spec.
  destruct (blocked (part s)) eqn:Hb; [by apply wp_ret|].
  apply wp_bind, wp_getp. apply puts_loop_spec; [done..|apply room_init].
Qed.
End Send.

(** The line at the end of a call: nothing from a UART that is not in use,
    otherwise a prefix of the bytes due, and all of them when the FIFO has room. *)
Definition carried {C} (e : env C) (locked : bool) (due : list Z) (h h' : history C) : Prop :=
  exists out, sent h' = sent h ++ out /\ out `prefix_of` due /\
    if locked then out = [] else fifo_ready e -> out = due.

Lemma carried_after {C} (e : env C) locked text r (h h' : history C) :
  line_after e locked text r h h' -> carried e locked (crlf text) h h'.
Proof.
  unfold line_after. destruct locked.
  - intros [_ ->]. exists []. split; [by rewrite app_nil_r|]. split; [apply prefix_nil|done].
  - intros (out & [Hs _] & Hcase). exists out. split; [done|].
    destruct Hcase as [(_ & ->)|(_ & (c & rest & ->) & Hn)]; [done|]. split; [by exists (c :: rest)|done].
Qed.

Lemma carried_none {C} (e : env C) locked (h h' : history C) : sent h' = sent h -> carried e locked [] h h'.
Proof. intros E. exists []. split; [by rewrite app_nil_r|]. split; [done|by destruct locked]. Qed.

(** ** The baud rate *)

(** [16 * rate * div] is as near to [freq] as a multiple gets. *)
Definition nearest_divisor (freq rate div : Z) : Prop :=
  0 < div < 2 ^ 16 /\ Z.abs (freq - 16 * rate * div) <= 8 * rate.

(** What a divisor asks of the clock: at least the rate, not so slow that the
    divisor is 0 or so fast that it passes 16 bits. *)
Definition divisible (freq rate : Z) : Prop :=
  0 < rate < 2 ^ 28 /\ Z.max rate (8 * rate) <= freq < 2 ^ 32 - 8 * rate /\ freq + 8 * rate < 2 ^ 16 * (16 * rate).

Lemma uart_divisor_spec freq rate : is_u32 freq -> is_u32 rate ->
  (divisible freq rate /\ exists div, uart_divisor freq rate = (OK, Some div) /\ nearest_divisor freq rate div) \/
  (~ divisible freq rate /\ uart_divisor freq rate = (- EINVAL, None)).
Proof.
  unfold is_u32, uart_divisor, divisible, nearest_divisor. intros Hf Hr.
  destruct (Z.eqb_spec freq 0); [right; split; [lia|done]|].
  destruct (Z.eqb_spec rate 0); [right; split; [lia|done]|]. cbn [orb].
  destruct (Z.ltb_spec freq rate); [right; split; [lia|done]|]. change (0xffffffff / 16) with 268435455.
  destruct (Z.ltb_spec 268435455 rate); [right; split; [lia|done]|]. cbn [orb].
  rewrite (u32_small (rate * 16)) by lia. replace (rate * 16 / 2) with (8 * rate) by (rewrite <- (Z.div_mul (8 * rate) 2) by lia; f_equal; lia).
  destruct (Z.ltb_spec (0xffffffff - 8 * rate) freq); [right; split; [lia|done]|].
  rewrite u32_small by lia.
  assert (Hdiv := Z.div_mod (freq + 8 * rate) (rate * 16) ltac:(lia)).
  assert (Hmod := Z.mod_pos_bound (freq + 8 * rate) (rate * 16) ltac:(lia)).
  set (d := (freq + 8 * rate) / (rate * 16)) in *.
  destruct (Z.eqb_spec d 0) as [Hd|Hd]; [right; split; [nia|done]|].
  destruct (Z.ltb_spec 0xffff d) as [Hb|Hb]; [right; split; [nia|done]|].
  left. assert (0 < d) by nia. split; [nia|]. exists d. split; [done|]. split; [lia|nia].
Qed.

(** The rate of the clock behind the UART, by the value of its register. *)
Definition apbs2_rate (c : ccu) (v : Z) : Z :=
  let src := Z.shiftr v 24 in
  u32 (if src =? 0 then CCU_DCXO_FREQ
       else if src =? 1 then s32 (losc_freq c)
       else if src =? 2 then s32 (iosc_freq c)
       else if src =? 3 then CCU_APBS2_PLL0_FREQ
       else if src =? 4 then CCU_SYS_CLK24M_FREQ
       else 0).

Definition baud_regs (a v : Z) : Prop :=
  a = UART_REG_HALT \/ a = UART_REG_LCR \/ a = UART_REG_DLL \/ a = UART_REG_DLH.

(** The divisor latch as the code left it. *)
Definition latched (init : Z -> Z) {C} (h : history C) : Z :=
  regval init h UART_REG_DLL + 2 ^ 8 * regval init h UART_REG_DLH.

Section Baud.
Context {C S : Type} `{HPrint : HasPrintf C} `{HUart : !Part uart S} `{HCcu : !Part ccu S}.
Implicit Types (e : env C) (s : S) (h : history C).

(** What a register says while the transmit FIFO holds bytes, and while the
    divisor waits to be taken. *)
Definition fifo_holds (tfl : Z) : bool := negb (tfl =? 0).
Definition divisor_waits (halt : Z) : bool := negb (Z.land halt 4 =? 0).

(** The divisor latch shares its addresses with the data registers: it is only
    written while the line control register selects it and a change is allowed
    although the UART may be busy. *)
Fixpoint latch_selected (init : Z -> Z) (new : list (event C)) h : Prop :=
  match new with
  | [] => True
  | ev :: new =>
      latch_selected init new h /\
      match ev with
      | Wr a _ => (a = UART_REG_DLL \/ a = UART_REG_DLH) -> Z.testbit (regval init (new ++ h) UART_REG_LCR) 7 = true /\
          Z.testbit (regval init (new ++ h) UART_REG_HALT) 1 = true
      | _ => True
      end
  end.

(** From an idle line at [h1] to the request to take the divisor of [rate]: it is
    the nearest one for the clock the source register names, it is in the latch,
    the latch is no longer selected, and [lcr] is what the line control register
    held. *)
Definition requested (init : Z -> Z) (rate lcr : Z) s h1 h2 : Prop :=
  exists v div new, h2 = new ++ h1 /\
    Rd APBS1_CFG_REG v ∈ new /\ nearest_divisor (apbs2_rate (part s) v) rate div /\ latched init h2 = div /\
    Rd UART_REG_LCR lcr ∈ new /\ regval init h2 UART_REG_LCR = Z.land lcr (cnot32 0x80) /\
    Z.testbit (regval init h2 UART_REG_HALT) 2 = true /\
    latch_selected init new h1 /\ extends baud_regs h1 h2.

(** The outcomes of a change to [rate].  The FIFO is looked at until it is empty
    or the limit is reached, before anything is written; the register of the
    request until the divisor has been taken.  A divisor that is never taken
    stays in the latch, with the line control register and the rate on record as
    they were. *)
Inductive rate_change (init : Z -> Z) (rate : Z) s h : Z -> S -> history C -> Prop :=
| Changed lcr halt now h1 h2 h3 : uart_pin_not_used (part s) = 0 ->
    polled UART_REG_TFL fifo_holds UART_POLL_LIMIT OK h h1 -> requested init rate lcr s h1 h2 ->
    polled UART_REG_HALT divisor_waits UART_POLL_LIMIT OK h2 h3 -> Z.testbit halt 1 = false ->
    rate_change init rate s h OK (set_part (with_rate rate (part s)) s) (Wr UART_REG_HALT halt :: Rd UART_REG_HALT now :: h3)
| Unused : uart_pin_not_used (part s) <> 0 -> rate_change init rate s h (- EACCES) s h
| Indivisible v h1 : uart_pin_not_used (part s) = 0 ->
    polled UART_REG_TFL fifo_holds UART_POLL_LIMIT OK h h1 -> ~ divisible (apbs2_rate (part s) v) rate ->
    rate_change init rate s h (- EINVAL) s (Rd APBS1_CFG_REG v :: h1)
| Never_empty h1 : uart_pin_not_used (part s) = 0 ->
    polled UART_REG_TFL fifo_holds UART_POLL_LIMIT (- ETIMEOUT) h h1 -> rate_change init rate s h (- ETIMEOUT) s h1
| Never_taken lcr h1 h2 h3 : uart_pin_not_used (part s) = 0 ->
    polled UART_REG_TFL fifo_holds UART_POLL_LIMIT OK h h1 -> requested init rate lcr s h1 h2 ->
    polled UART_REG_HALT divisor_waits UART_POLL_LIMIT (- ETIMEOUT) h2 h3 ->
    rate_change init rate s h (- ETIMEOUT) s (Wr UART_REG_LCR lcr :: h3).

Lemma latch_bytes div : 0 < div < 2 ^ 16 -> Z.land div 255 + 2 ^ 8 * Z.land (Z.shiftr div 8) 255 = div.
Proof.
  intros Hd. change 255 with (Z.ones 8). rewrite !Z.land_ones, Z.shiftr_div_pow2 by lia.
  rewrite (Z.mod_small (div / 2 ^ 8)); [|split; [apply Z.div_pos|apply Z.div_lt_upper_bound]; lia].
  rewrite (Z.div_mod div (2 ^ 8)) at 3 by lia. lia.
Qed.

#[local] Opaque UART_POLL_LIMIT.

Lemma polled_result reg busy n r h h' : polled reg busy n r h h' -> r = OK \/ r = - ETIMEOUT.
Proof. intros (vs & _ & [(-> & _)|(-> & _)]); auto. Qed.

(** The request: everything between the idle line and the wait for its effect. *)
Lemma request_made init rate lcr div v halt0 halt1 pr r s h1 :
  nearest_divisor (apbs2_rate (part s) v) rate div ->
  requested init rate lcr s h1
    (Wr UART_REG_HALT (Z.lor halt1 0x4) :: Rd UART_REG_HALT halt1 :: Wr UART_REG_LCR (Z.land lcr (cnot32 0x80)) ::
     Wr UART_REG_DLH (Z.land (Z.shiftr div 8) 0xff) :: Wr UART_REG_DLL (Z.land div 0xff) ::
     Wr UART_REG_LCR (Z.lor lcr 0x80) :: Wr UART_REG_HALT (Z.lor halt0 0x2) :: Rd UART_REG_HALT halt0 ::
     Call pr r :: Rd UART_REG_LCR lcr :: Rd APBS1_CFG_REG v :: h1).
Proof.
  intros Hnear. exists v, div. eexists [_; _; _; _; _; _; _; _; _; _; _]. split; [reflexivity|].
  split; [set_solver|]. split; [done|]. split; [exact (latch_bytes _ (proj1 Hnear))|]. split; [set_solver|].
  split; [reflexivity|]. split; [change (Z.testbit (Z.lor halt1 4) 2 = true); by rewrite Z.lor_spec, orb_true_r|].
  assert (forall w, Z.testbit (Z.lor w 0x80) 7 = true) as H7 by (intros w; by rewrite Z.lor_spec, orb_true_r).
  assert (forall w, Z.testbit (Z.lor w 0x2) 1 = true) as H1 by (intros w; by rewrite Z.lor_spec, orb_true_r).
  split.
  - cbn -[Z.testbit Z.lor]. repeat split; intros; try (apply H7 || apply H1); exfalso; unfold UART_REG_HALT, UART_REG_LCR, UART_REG_DLL, UART_REG_DLH, UART_REG_ADDR in *; lia.
  - repeat (apply extends_cons; [unfold baud_regs; naive_solver|]). apply extends_refl.
Qed.

(** C34: Whatever the hardware answers, [uart_set_baudrate] returns, in one of
    five ways.  Nothing is written before the transmit FIFO has been read empty:
    a line that stays full up to the limit is given up, and a rate the clock
    cannot give (or one whose arithmetic would leave 32 bits) is refused, both
    with nothing written.  Otherwise the divisor latch, selected while it is
    written and not afterwards, gets the nearest divisor, never 0 nor past 16
    bits, of the clock the source register names, and the UART is asked to take
    it; success means that it was seen to have taken it and the rate is on
    record, and one that never takes it leaves the line control register as it
    was and the old rate on record. *)
Theorem baudrate_change_outcome init rate e s h : is_u32 rate ->
  wp (uart_set_baudrate rate) e s h (rate_change init rate s h) total.
Proof.
  intros Hrate. unfold uart_set_baudrate, uart_vars. apply wp_bind, wp_getp.
  destruct (Z.eqb_spec (uart_pin_not_used (part s)) 0) as [Hpin|Hpin]; [|by apply wp_ret, Unused]. cbn [negb].
  apply wp_bind. eapply wp_mono; [apply poll_spec|]. intros r s1 h1 [-> Hp].
  destruct (polled_result _ _ _ _ _ _ Hp) as [->| ->]; [|by apply wp_ret, Never_empty].
  cbn [Z.eqb negb OK]. unfold ccu_get_sclk_freq, ccu_vars. cbn [Z.eqb CCU_SYS_CLK_CPUS CCU_SYS_CLK_APBS2 Pos.eqb].
  fw_steps. change (u32 (if _ =? 0 then _ else _)) with (apbs2_rate (part s) v).
  destruct (uart_divisor_spec (apbs2_rate (part s) v) rate) as [(_ & div & -> & Hnear)|[Hnot ->]];
    [apply u32_range|done| |by apply wp_ret, Indivisible].
  unfold LOG, write_divisor, set_uart. fw_steps.
  eapply wp_mono; [apply poll_spec|]. intros r1 s1 h2 [-> Hp2].
  destruct (polled_result _ _ _ _ _ _ Hp2) as [->| ->]; cbn [Z.eqb negb OK].
  - unfold uart_vars. fw_steps. eapply Changed; [done|exact Hp|by apply request_made|exact Hp2|].
    by rewrite Z.land_spec, testbit_cnot32, andb_false_r by lia.
  - change (negb (- ETIMEOUT =? OK)) with true. cbv iota. fw_steps.
    eapply Never_taken; [done|exact Hp|by apply request_made|exact Hp2].
Qed.
End Baud.

(** ** A run of it *)

Record line := Line {
  ln_uart : uart;
  ln_ccu : ccu
}.
#[local, refine] Instance line_uart : Part uart line := {| part := ln_uart; set_part u s := Line u (ln_ccu s) |}.
Proof. all: by intros; repeat match goal with s : line |- _ => destruct s end. Defined.
#[local, refine] Instance line_ccu : Part ccu line := {| part := ln_ccu; set_part c s := Line (ln_uart s) c |}.
Proof. all: by intros; repeat match goal with s : line |- _ => destruct s end. Defined.

(** 57600 baud of the 24 MHz crystal, 0.16 % off. *)
Example console_divisor : uart_divisor 24000000 57600 = (OK, Some 26).
Proof. reflexivity. Qed.

(** The idle line of a hardware whose registers read 0: the rate is changed. *)
Lemma baudrate_change_outcome_witness :
  let e := Env (fun _ _ => 0) (fun _ _ => 0) (fun _ _ => []) : env fw_call in
  let s := Line (with_pin_not_used 0 uart_initial) ccu_initial in
  wp (uart_set_baudrate 57600) e s [] (fun r s' h' =>
    rate_change (fun _ => 0) 57600 s [] r s' h' /\ r = OK /\ uart_rate (ln_uart s') = 57600) total.
Proof.
  intros e s.
  assert (wp (uart_set_baudrate 57600) e s [] (fun r s' _ => r = OK /\ uart_rate (ln_uart s') = 57600) total) as Hrun
    by (vm_compute; done).
  assert (is_u32 57600) as Hrate by (unfold is_u32; lia).
  pose proof (baudrate_change_outcome (fun _ => 0) 57600 e s [] Hrate) as H. revert Hrun H. unfold wp.
  by destruct (uart_set_baudrate 57600 e s []).
Defined.
