(* ===== verification/Ticks.v ===== *)
(** * The system tick and soft timers
    (src/ar100s/arch/riscv/cpu/e907/time_ticks.c, but for [time_ticks_init],
    which is in Timer.v)

    A [struct softtimer] belongs to its client; [timers] holds them all and a
    pointer to one is its index.  The file's own array [softtimer] is [slots]. *)

From S2P Require Import Prelude Machine Firmware.

Local Open Scope list_scope.
Local Open Scope Z_scope.

Definition TICK_PER_SEC : Z := 100.
Definition SOFTTIMER_NUMBER : nat := 2.
Definition SOFTTIMER_OFF : Z := 0.
Definition SOFTTIMER_ON : Z := 1.

(** [struct softtimer]; [cycle] and [expires] are signed. *)
Record softtimer := Softtimer {
  st_cycle : Z;
  st_expires : Z;
  st_cb : option Z;
  st_arg : Z;
  st_start : Z
}.
Definition set_expires (v : Z) (t : softtimer) : softtimer :=
  Softtimer (st_cycle t) v (st_cb t) (st_arg t) (st_start t).
Definition set_start (v : Z) (t : softtimer) : softtimer :=
  Softtimer (st_cycle t) (st_expires t) (st_cb t) (st_arg t) v.

(** Statics of the file and the timers they point to. *)
Record ticks := TickVars {
  time_ticks : Z;
  slots : list (option nat);
  softtimer_cnt : Z;
  timers : list softtimer
}.
Definition with_time_ticks (v : Z) (t : ticks) : ticks :=
  TickVars v (slots t) (softtimer_cnt t) (timers t).

Section Ticks.
Context {C S : Type} `{HTicks : !Part ticks S}.
Local Abbreviation M := (M C S).

Definition tick_vars : M ticks := getp.
Definition set_ticks (f : ticks -> ticks) : M unit := let! t := tick_vars in putp (f t).

(** Access through a pointer. *)
Definition load_timer (p : nat) : M softtimer :=
  let! t := tick_vars in
  match timers t !! p with Some x => ret x | None => stop_now Undefined end.
Definition modify_timer (p : nat) (f : softtimer -> softtimer) : M unit :=
  let! x := load_timer p in
  set_ticks (fun t => TickVars (time_ticks t) (slots t) (softtimer_cnt t) (<[p := f x]> (timers t))).

Definition start_softtimer (timer : nat) : M unit :=
  modify_timer timer (fun t => set_expires (st_cycle t) t);;
  modify_timer timer (set_start SOFTTIMER_ON).
Definition stop_softtimer (timer : nat) : M unit :=
  modify_timer timer (set_expires 0);;
  modify_timer timer (set_start SOFTTIMER_OFF).

(** [timer_lock] is the hardware timers' static. *)
Definition add_softtimer (timer_lock : M Z) (timer : nat) : M Z :=
  let! lock := timer_lock in
  if negb (lock =? 0) then ret (- EACCES)
  else
    let! t := tick_vars in
    if Z.of_nat SOFTTIMER_NUMBER <=? softtimer_cnt t then ret (- EINVAL)
    else
      set_ticks (fun t => TickVars (time_ticks t)
        (<[Z.to_nat (softtimer_cnt t) := Some timer]> (slots t)) (softtimer_cnt t) (timers t));;
      set_ticks (fun t => TickVars (time_ticks t) (slots t) (u32 (softtimer_cnt t + 1)) (timers t));;
      ret OK.

(** What a call through a callback's address does. *)
Context (run_cb : Z -> Z -> M Z).

(** One timer of the scan in [timer_tick_server]. *)
Definition tick_timer (p : nat) : M unit :=
  let! x := load_timer p in
  if st_start x =? SOFTTIMER_OFF then ret tt
  else if 0 <? st_expires x then modify_timer p (fun x => set_expires (st_expires x - 1) x)
  else if st_expires x =? 0 then
    modify_timer p (fun x => set_expires (st_cycle x) x);;
    let! x := load_timer p in
    match st_cb x with
    | Some cb => let! _ := run_cb cb (st_arg x) in ret tt
    | None => ret tt
    end
  else ret tt.

(** [for (i = 0; (i < SOFTTIMER_NUMBER) && softtimer[i]; i++)] with [n]
    rounds left. *)
Fixpoint tick_loop (n : nat) (i : nat) : M unit :=
  match n with
  | O => ret tt
  | Datatypes.S n =>
      let! t := tick_vars in
      match slots t !! i with
      | Some (Some p) => tick_timer p;; tick_loop n (Datatypes.S i)
      | Some None => ret tt
      | None => stop_now Undefined
      end
  end.

Definition timer_tick_server (parg : Z) : M Z :=
  set_ticks (fun t => with_time_ticks (u32 (time_ticks t + 1)) t);;
  tick_loop SOFTTIMER_NUMBER 0;;
  ret OK.

Definition current_time_tick : M Z := let! t := tick_vars in ret (time_ticks t).
End Ticks.

Definition msec_to_ticks (ms : Z) : Z := u32 (TICK_PER_SEC * ms) / 1000.
