(* ===== verification/Timer.v ===== *)
(** * The hardware timers and delays of the AR100
    (src/ar100s/driver/timer/timer-extended/{timer-extended,timer-extended-delay}.c,
    src/ar100s/arch/riscv/cpu/e907/time_ticks.c [time_ticks_init], and of
    src/ar100s/driver/prcm/prcm-sun60iw2p1/power.c the statics and the
    registration the timers use)

    A [HANDLE] is the address of an entry of the table: one more than its
    index here, NULL being 0.  [ASSERT] is empty, so a null handle that the
    code does not test is dereferenced. *)

From Stdlib Require Import String.
From S2P Require Import Prelude Machine Console Firmware Notifier Intc Cpucfg Prcm Ticks Uart.

Local Open Scope string_scope.
Local Open Scope list_scope.
Local Open Scope Z_scope.
Local Open Scope mach_scope.

(** ** Constants (timer-extended.h, timer.h, prcm.h, irqnum_config.h) *)

Definition R_TMR01_REG_BASE : Z := 0x07091000.
Definition R_TIMER0_CLK_REG : Z := R_PRCM_REG_BASE + 0x100.
Definition TIMER_REG_BASE : Z := R_TMR01_REG_BASE.
Definition TIMER_CLK_BASE : Z := R_TIMER0_CLK_REG.
Definition EXT_TIMER_IRQ_REG : Z := TIMER_REG_BASE + 0x00.
Definition EXT_TIMER_STA_REG : Z := TIMER_REG_BASE + 0x04.
Definition EXT_TIMER_CTRL_REG (n : Z) : Z := TIMER_REG_BASE + 0x20 * (n + 1).
Definition EXT_TIMER_IVL_REG (n : Z) : Z := TIMER_REG_BASE + 0x20 * (n + 1) + 0x04.
Definition EXT_TIMER_CLK_REG (n : Z) : Z := TIMER_CLK_BASE + n * 0x4.
Definition EXT_TIMER_ENABLE : Z := BIT 0.
Definition EXT_TIMER_RELOAD : Z := BIT 1.
Definition EXT_TIMER_MODE : Z := BIT 7.
Definition EXT_TIMER_POLL_LIMIT : nat := Z.to_nat 100000.
Definition TIMERC_TIMERS_NUMBER : nat := 2.
Definition TIMER_FREE : Z := 0.
Definition TIMER_USED : Z := 1.
Definition TIMER_MODE_PERIOD : Z := 0.
Definition TIMER_MODE_ONE_SHOOT : Z := 1.
Definition INTC_R_TIMER0_IRQ : Z := 20.
Definition INTC_R_TIMER1_IRQ : Z := 21.
Definition CCU_HOSC_ON_READY_NOTIFY : Z := 0.
Definition CCU_HOSC_WILL_OFF_NOTIFY : Z := 1.
Definition TRUE : Z := 1.
Definition FALSE : Z := 0.

(** ** State *)

(** [struct timer]; a null handler is [None]. *)
Record timer := HwTimer {
  timer_no : Z;
  status : Z;
  irq_no : Z;
  ms_ticks : Z;
  phandler : option Z;
  timer_arg : Z
}.
Definition set_status (v : Z) (t : timer) : timer :=
  HwTimer (timer_no t) v (irq_no t) (ms_ticks t) (phandler t) (timer_arg t).
Definition set_ms_ticks (v : Z) (t : timer) : timer :=
  HwTimer (timer_no t) (status t) (irq_no t) v (phandler t) (timer_arg t).
Definition set_handler (f : option Z) (a : Z) (t : timer) : timer :=
  HwTimer (timer_no t) (status t) (irq_no t) (ms_ticks t) f a.

(** Statics of timer-extended.c. *)
Record timer_vars := TimerVars {
  timer_lock : Z;
  delay_timer : Z;
  timer_table : list timer
}.
Definition timers_initial : timer_vars := TimerVars 1 0
  [HwTimer 0 TIMER_FREE INTC_R_TIMER0_IRQ 0 None 0; HwTimer 1 TIMER_FREE INTC_R_TIMER1_IRQ 0 None 0].
Definition with_timer_lock (v : Z) (t : timer_vars) : timer_vars :=
  TimerVars v (delay_timer t) (timer_table t).
Definition with_delay_timer (v : Z) (t : timer_vars) : timer_vars :=
  TimerVars (timer_lock t) v (timer_table t).
Definition with_table (l : list timer) (t : timer_vars) : timer_vars :=
  TimerVars (timer_lock t) (delay_timer t) l.

(** [&timers[i]] *)
Definition timer_ptr (i : nat) : Z := Z.of_nat i + 1.

(** Statics of power.c. *)
Record power := Power {
  hosc_lock : Z;
  pll_ldo_suspend : Z;
  hosc_notifier_list : option nat
}.
Definition power_initial : power := Power 0 0 None.

Section Timer.
Context {C S F : Type} `{HPrint : HasPrintf C} `{HInsn : !HasInsn C} `{HIsrs : Isrs F}
  `{HCcu : !Part ccu S} `{HIsrTable : !Part (list (int_isr_node F)) S}
  `{HNotifiers : !Part (list notifier) S} `{HPower : !Part power S} `{HTimers : !Part timer_vars S}
  `{HTicks : !Part ticks S}.
Local Abbreviation M := (M C S).

(** ** Notification of the oscillator (power.c) *)

Definition power_vars : M power := getp.
Definition set_power (f : power -> power) : M unit := let! p := power_vars in putp (f p).

Definition ccu_24mhosc_reg_cb (pcb : Z) : M Z :=
  let! p := power_vars in
  let! (r, head) := notifier_insert (hosc_notifier_list p) pcb in
  set_power (fun p => Power (hosc_lock p) (pll_ldo_suspend p) head);;
  ret r.
Definition is_hosc_lock : M Z := let! p := power_vars in ret (s32 (hosc_lock p)).

(** ** The table *)

Definition timer_statics : M timer_vars := getp.
Definition set_timers (f : timer_vars -> timer_vars) : M unit :=
  let! t := timer_statics in putp (f t).

(** Access through a handle. *)
Definition timer_at (t : timer_vars) (p : Z) : option timer :=
  if p <=? 0 then None else timer_table t !! Z.to_nat (p - 1).
Definition load_hw (p : Z) : M timer :=
  let! t := timer_statics in
  match timer_at t p with Some x => ret x | None => stop_now Undefined end.
Definition modify_hw (p : Z) (f : timer -> timer) : M unit :=
  let! x := load_hw p in
  set_timers (fun t => with_table (<[Z.to_nat (p - 1) := f x]> (timer_table t)) t).

(** The address of [timer_isr], and of [timer_hosc_onoff_cb]. *)
Context (timer_isr_addr : F) (timer_hosc_onoff_cb_addr : Z).

(** ** Registers *)

(** [1 << timer_no] *)
Definition timer_bit (x : timer) : Z := shl32 1 (timer_no x).
Definition set_bits_of (reg bits : Z) : M unit :=
  let! value := readl reg in writel (Z.lor value bits) reg.
Definition clear_bits_of (reg bits : Z) : M unit :=
  let! value := readl reg in writel (Z.land value (cnot32 bits)) reg.

Definition timer_wait_clear (reg mask : Z) : M Z :=
  poll EXT_TIMER_POLL_LIMIT reg (fun v => negb (Z.land v mask =? 0)).
Definition timer_ack_pending (ptimer : Z) : M Z :=
  let! x := load_hw ptimer in
  let pending := timer_bit x in
  writel pending EXT_TIMER_STA_REG;;
  poll EXT_TIMER_POLL_LIMIT EXT_TIMER_STA_REG (fun v => negb (Z.land v pending =? 0)).

(** The clock source field of timer [index]. *)
Definition set_timer_source (index src : Z) : M unit :=
  update (EXT_TIMER_CLK_REG index) (Z.shiftl 0x7 4) (Z.shiftl src 4).

(** One round of the [for] loop of [timer_init]. *)
Definition init_one (i : nat) : M unit :=
  let index := Z.of_nat i in
  writel 0x0 (EXT_TIMER_CTRL_REG index);;
  set_timer_source index 0x4;;
  update (EXT_TIMER_CLK_REG index) (Z.shiftl 0x7 1) (Z.lor (Z.shiftl 0x0 1) (Z.shiftl 0x1 0));;
  modify_hw (timer_ptr i) (set_ms_ticks (24 * 1000)).

Definition timer_init : M Z :=
  let! _ := ccu_set_mclk_onoff CCU_MOD_CLK_R_TIMER0_1 CCU_CLK_ON in
  let! _ := ccu_set_mclk_reset CCU_MOD_CLK_R_TIMER0_1 CCU_CLK_NRESET in
  init_one 0;;
  init_one 1;;
  modify_hw (timer_ptr 0) (set_status TIMER_USED);;
  set_timers (with_delay_timer (timer_ptr 0));;
  set_bits_of (EXT_TIMER_CTRL_REG 0) (Z.shiftl 0x1 7);;
  let! _ := ccu_24mhosc_reg_cb timer_hosc_onoff_cb_addr in
  set_timers (with_timer_lock 0);;
  ret OK.

Definition timer_exit : M Z :=
  let! _ := ccu_set_mclk_reset CCU_MOD_CLK_R_TIMER0_1 CCU_CLK_RESET in
  let! _ := ccu_set_mclk_onoff CCU_MOD_CLK_R_TIMER0_1 CCU_CLK_OFF in
  set_timers (with_timer_lock 1);;
  ret OK.

(** The scan of [timer_request]: the handle, NULL when none is free. *)
Fixpoint request_loop (n i : nat) (phdle parg : Z) : M Z :=
  match n with
  | O => ret 0
  | Datatypes.S n =>
      let! x := load_hw (timer_ptr i) in
      if status x =? TIMER_FREE then
        modify_hw (timer_ptr i) (set_status TIMER_USED);;
        modify_hw (timer_ptr i) (set_handler (Some phdle) parg);;
        ret (timer_ptr i)
      else request_loop n (Datatypes.S i) phdle parg
  end.

(** A freed entry, in its critical section. *)
Definition free_timer (ptimer : Z) : M unit :=
  let! cpsr := cpu_disable_int in
  modify_hw ptimer (set_status TIMER_FREE);;
  modify_hw ptimer (set_handler None 0);;
  cpu_enable_int cpsr.

Definition timer_request (phdle parg : Z) : M Z :=
  let! t := timer_statics in
  if negb (timer_lock t =? 0) then ret 0
  else
    let! cpsr := cpu_disable_int in
    let! ptimer := request_loop TIMERC_TIMERS_NUMBER 0 phdle parg in
    cpu_enable_int cpsr;;
    if ptimer =? 0 then WRN "no free timer now\n" [];; ret 0
    else
      let! x := load_hw ptimer in
      let! r := install_isr (irq_no x) timer_isr_addr ptimer in
      if negb (r =? OK) then free_timer ptimer;; ret 0
      else ret ptimer.

Definition timer_stop (htimer : Z) : M Z :=
  let! t := timer_statics in
  let! locked := (if negb (timer_lock t =? 0) then ret true
                  else let! x := load_hw htimer in ret (negb (status x =? TIMER_USED))) in
  if locked : bool then ret (- EACCES)
  else
    let! x := load_hw htimer in
    clear_bits_of (EXT_TIMER_CTRL_REG (timer_no x)) EXT_TIMER_ENABLE;;
    clear_bits_of EXT_TIMER_IRQ_REG (timer_bit x);;
    let! r := interrupt_disable (irq_no x) in
    if negb (r =? OK) then ret (- EFAIL)
    else timer_ack_pending htimer.

Definition timer_release (htimer : Z) : M Z :=
  let! t := timer_statics in
  let! bad := (if (htimer =? 0) || (htimer =? delay_timer t) then ret true
               else let! x := load_hw htimer in ret (negb (status x =? TIMER_USED))) in
  if bad : bool then ret (- EINVAL)
  else
    let! r := timer_stop htimer in
    if negb (r =? OK) then ret r
    else
      let! x := load_hw htimer in
      let! r := uninstall_isr (irq_no x) timer_isr_addr in
      if negb (r =? OK) then ret r
      else free_timer htimer;; ret OK.

Definition timer_start (htimer period mode : Z) : M Z :=
  let! t := timer_statics in
  let! locked := (if negb (timer_lock t =? 0) then ret true
                  else let! x := load_hw htimer in ret (negb (status x =? TIMER_USED))) in
  if locked : bool then ret (- EACCES)
  else if (period =? 0) || (TIMER_MODE_ONE_SHOOT <? mode) then ret (- EINVAL)
  else
    let! x := load_hw htimer in
    let ticks := u64 (ms_ticks x * period) in
    if 0xffffffff <? ticks then ret (- EINVAL)
    else
      let ctrl := EXT_TIMER_CTRL_REG (timer_no x) in
      writel (u32 ticks) (EXT_TIMER_IVL_REG (timer_no x));;
      set_bits_of ctrl EXT_TIMER_RELOAD;;
      let! r := timer_wait_clear ctrl EXT_TIMER_RELOAD in
      if negb (r =? OK) then ret r
      else
        update ctrl EXT_TIMER_MODE (shl32 mode 7);;
        let! r := timer_ack_pending htimer in
        if negb (r =? OK) then ret r
        else
          set_bits_of EXT_TIMER_IRQ_REG (timer_bit x);;
          let! r := interrupt_enable (irq_no x) in
          if negb (r =? OK) then ret r
          else
            set_bits_of ctrl EXT_TIMER_ENABLE;;
            ret OK.

(** What a call through a handler's address does. *)
Context (run_cb : Z -> Z -> M Z).

Definition timer_isr (parg : Z) : M Z :=
  let! t := timer_statics in
  if negb (timer_lock t =? 0) then ret (- EACCES)
  else
    let! v := readl EXT_TIMER_STA_REG in
    let! x := load_hw parg in
    if negb (Z.land v (timer_bit x) =? 0) then
      let! r := timer_ack_pending parg in
      if negb (r =? OK) then ret (- ETIMEOUT)
      else
        let! x := load_hw parg in
        match phandler x with
        | None => WRN "timer irq handler not install\n" [];; ret FALSE
        | Some f => let! _ := run_cb f (timer_arg x) in ret TRUE
        end
    else ret FALSE.

(** ** The oscillator call-back *)

Definition hosc_off_one (i : nat) : M unit :=
  let index := Z.of_nat i in
  set_timer_source index 0x1;;
  modify_hw (timer_ptr i) (set_ms_ticks 32);;
  let! value := readl (EXT_TIMER_IVL_REG index) in
  writel (value / (24000 / 32)) (EXT_TIMER_IVL_REG index).

Definition hosc_on_one (i : nat) : M unit :=
  let index := Z.of_nat i in
  let! value := readl (EXT_TIMER_IVL_REG index) in
  writel (u32 (value * (24000 / 32))) (EXT_TIMER_IVL_REG index);;
  set_timer_source index 0x4;;
  modify_hw (timer_ptr i) (set_ms_ticks (24 * 1000)).

Definition timer_hosc_onoff_cb (message aux : Z) : M Z :=
  let! t := timer_statics in
  if negb (timer_lock t =? 0) then ret (- EACCES)
  else if message =? CCU_HOSC_WILL_OFF_NOTIFY then
    INF "24m hosc will power-off notify\n" [];;
    hosc_off_one 0;;
    hosc_off_one 1;;
    ret OK
  else if message =? CCU_HOSC_ON_READY_NOTIFY then
    INF "24m hosc power-on ready notify\n" [];;
    hosc_on_one 0;;
    hosc_on_one 1;;
    ret OK
  else ret (- ESRCH).

(** ** The tick (time_ticks.c) *)

(** [htimer] and the status; [server] is the address of [timer_tick_server]. *)
Definition time_ticks_init (server : Z) : M (Z * Z) :=
  let! htimer := timer_request server 0 in
  if negb (htimer =? 0) then
    set_ticks (with_time_ticks 0);;
    let period := 1000 / TICK_PER_SEC in
    let! r := timer_start htimer period TIMER_MODE_PERIOD in
    if negb (r =? OK) then
      let! _ := timer_release htimer in
      ret (- EFAIL, 0)
    else
      INF "setup timer server succeeded\n" [];;
      ret (OK, htimer)
  else ret (- EFAIL, htimer).

(** ** Delays (timer-extended-delay.c); [fuel] bounds the waits on the
    counter, [rounds] one reading of it *)

Definition delay_wait_clear (reg mask : Z) : M Z :=
  poll EXT_TIMER_POLL_LIMIT reg (fun v => negb (Z.land v mask =? 0)).

Fixpoint delay_wait_pending (fuel rounds : nat) (pending deadline : Z) : M Z :=
  match fuel with
  | O => stop_now OutOfFuel
  | Datatypes.S fuel =>
      let! v := readl EXT_TIMER_STA_REG in
      if Z.land v pending =? 0 then
        let! now := cpucfg_counter_read rounds in
        if deadline <=? now then ret (- ETIMEOUT)
        else delay_wait_pending fuel rounds pending deadline
      else ret OK
  end.

Definition time_mdelay (fuel rounds : nat) (ms : Z) : M unit :=
  let! t := timer_statics in
  if negb (timer_lock t =? 0) then ret tt
  else
    let! x := load_hw (delay_timer t) in
    let ticks := u64 (ms_ticks x * ms) in
    if (ms =? 0) || (0xffffffff <? ticks) then ret tt
    else
      let ctrl := EXT_TIMER_CTRL_REG (timer_no x) in
      writel (u32 ticks) (EXT_TIMER_IVL_REG (timer_no x));;
      set_bits_of ctrl EXT_TIMER_RELOAD;;
      let! r := delay_wait_clear ctrl EXT_TIMER_RELOAD in
      if negb (r =? OK) then ret tt
      else
        writel (timer_bit x) EXT_TIMER_STA_REG;;
        set_bits_of ctrl EXT_TIMER_ENABLE;;
        let! now := cpucfg_counter_read rounds in
        let deadline := u64 (now + u64 (u32 (ms + 1) * 24000)) in
        let! r := delay_wait_pending fuel rounds (timer_bit x) deadline in
        (if negb (r =? OK) then ERR "timer delay timeout: %d ms\n" [N_ ms] else ret tt);;
        clear_bits_of ctrl EXT_TIMER_ENABLE;;
        writel (timer_bit x) EXT_TIMER_STA_REG.

(** [while (expire > cpucfg_counter_read())] *)
Fixpoint udelay_loop (fuel rounds : nat) (expire : Z) : M unit :=
  match fuel with
  | O => stop_now OutOfFuel
  | Datatypes.S fuel =>
      let! now := cpucfg_counter_read rounds in
      if now <? expire then udelay_loop fuel rounds expire else ret tt
  end.

Definition cnt64_udelay (fuel rounds : nat) (us : Z) : M unit :=
  if us =? 0 then ret tt
  else
    let! now := cpucfg_counter_read rounds in
    udelay_loop fuel rounds (u64 (u64 (us * 24) + now)).

(** [is_suspend_lock] is the standby service's. *)
Definition time_udelay (fuel rounds : nat) (is_suspend_lock : M Z) (us : Z) : M unit :=
  if us =? 0 then ret tt
  else
    let! hosc := is_hosc_lock in
    let! locked := (if negb (hosc =? 0) then ret true
                    else let! l := is_suspend_lock in ret (negb (l =? 0))) in
    if locked : bool then
      let! freq := ccu_get_sclk_freq CCU_SYS_CLK_CPUS in
      let cpus_freq := u32 freq in
      let cycles :=
        if negb (cpus_freq / 1000000 =? 0) then u32 (cpus_freq / 1000000 * us)
        else u32 (u32 (cpus_freq * us) + (1000000 - 1)) / 1000000 in
      time_cdelay cycles
    else cnt64_udelay fuel rounds us.
End Timer.
