(* ===== verification/TimerProps.v ===== *)
(** * Timers: who owns them, how long they run, that delays end *)

From Stdlib Require Import String.
From S2P Require Import Prelude Machine Console Firmware Notifier NotifierProps Intc IntcProps Cpucfg CpucfgProps Prcm PrcmProps.
From S2P Require Import Ticks Uart Timer.

Local Open Scope list_scope.
Local Open Scope Z_scope.
Local Open Scope mach_scope.

(** Compare closed numbers. *)
Ltac closed_eqb :=
  repeat match goal with
         | |- context [?a =? ?b] => let v := eval vm_compute in (a =? b) in change (a =? b) with v
         end; cbv iota.

Section Timers.
Context {C S F : Type} `{HPrint : HasPrintf C} `{HInsn : !HasInsn C} `{HIsrs : Isrs F}
  `{HIsrTable : !Part (list (int_isr_node F)) S} `{HTimers : !Part timer_vars S}.
Implicit Types (e : env C) (s : S) (h : history C).

(** ** Access through handles *)

Lemma wp_load_hw p x e s h (Q : timer -> S -> history C -> Prop) K :
  timer_at (part s) p = Some x -> Q x s h -> wp (load_hw p) e s h Q K.
Proof.
  intros Hx HQ. unfold load_hw, timer_statics. apply wp_bind, wp_getp. rewrite Hx. by apply wp_ret.
Qed.

(** The table after a store through [p]. *)
Definition stored_timer (p : Z) (f : timer -> timer) (t : timer_vars) : timer_vars :=
  match timer_at t p with
  | Some x => with_table (<[Z.to_nat (p - 1) := f x]> (timer_table t)) t
  | None => t
  end.

Lemma wp_modify_hw p f x e s h (Q : unit -> S -> history C -> Prop) K :
  timer_at (part s) p = Some x -> Q tt (set_part (stored_timer p f (part s)) s) h ->
  wp (modify_hw p f) e s h Q K.
Proof.
  intros Hx HQ. unfold modify_hw, set_timers, timer_statics. apply wp_bind.
  eapply wp_load_hw; [exact Hx|]. apply wp_bind, wp_getp, wp_putp.
  unfold stored_timer in HQ. by rewrite Hx in HQ.
Qed.

End Timers.

(** ** Losing and regaining the oscillator *)

Section Oscillator.
Context {C S : Type} `{HPrint : HasPrintf C} `{HTimers : !Part timer_vars S}.
Implicit Types (e : env C) (s : S) (h : history C).
Context (init : Z -> Z).

Definition clk (i : nat) : Z := EXT_TIMER_CLK_REG (Z.of_nat i).
Definition ivl (i : nat) : Z := EXT_TIMER_IVL_REG (Z.of_nat i).

(** The clock register with source [src]. *)
Definition with_source (src v : Z) : Z := rmw v (Z.shiftl 7 4) (Z.shiftl src 4).

(** What one timer's round does: its two registers and its rate change, and
    registers that are memory stay so. *)
Definition retimed (i : nat) (src rate : Z) (f : Z -> Z) e s h s' h' : Prop :=
  s' = set_part (stored_timer (timer_ptr i) (set_ms_ticks rate) (part s)) s /\
  (forall a, regval init h' a =
     if a =? clk i then with_source src (regval init h (clk i))
     else if a =? ivl i then f (regval init h (ivl i)) else regval init h a) /\
  forall a, word_reg init e h a -> word_reg init e h' a.

Lemma clk_ivl i : clk i <> ivl i.
Proof.
  unfold clk, ivl, EXT_TIMER_CLK_REG, EXT_TIMER_IVL_REG, TIMER_CLK_BASE, TIMER_REG_BASE,
    R_TIMER0_CLK_REG, R_TMR01_REG_BASE, R_PRCM_REG_BASE. lia.
Qed.

Lemma hosc_off_one_spec i x e s h :
  timer_at (part s) (timer_ptr i) = Some x ->
  word_reg init e h (clk i) -> word_reg init e h (ivl i) ->
  wp (hosc_off_one i) e s h (fun _ s' h' => retimed i 1 32 (fun v => v / 750) e s h s' h') total.
Proof.
  intros Hx Hc Hi. unfold hosc_off_one, set_timer_source. fold (clk i) (ivl i). apply wp_bind.
  eapply wp_mono; [apply (update_spec init); [exact Hc|done]|]. intros [] s1 h1 (-> & Hr & Hw).
  apply wp_bind. eapply wp_modify_hw; [exact Hx|]. apply wp_bind.
  destruct (Hw _ Hi) as [Pi Ui]. eapply readl_plain; [exact Pi|exact Ui|].
  apply wp_writel. assert (Hne := clk_ivl i). rewrite Hr in *. rewrite (proj2 (Z.eqb_neq _ _)) in * by done.
  split; [done|]. split.
  - intros a. cbn [regval]. destruct (Z.eqb_spec a (ivl i)) as [->|].
    + by rewrite (proj2 (Z.eqb_neq _ _)) by done.
    + rewrite Hr. by destruct (a =? clk i).
  - intros a Ha. destruct (Hw a Ha) as [Pa Ua]. split; [exact Pa|]. cbn [regval].
    destruct (a =? ivl i); [|done]. change (24000 / 32) with 750. unfold is_u32 in *.
    split; [apply Z.div_pos; lia|]. apply Z.div_lt_upper_bound; lia.
Qed.

Lemma hosc_on_one_spec i x e s h :
  timer_at (part s) (timer_ptr i) = Some x ->
  word_reg init e h (clk i) -> word_reg init e h (ivl i) ->
  wp (hosc_on_one i) e s h (fun _ s' h' => retimed i 4 24000 (fun v => u32 (v * 750)) e s h s' h') total.
Proof.
  intros Hx Hc [Pi Ui]. unfold hosc_on_one, set_timer_source. fold (clk i) (ivl i). apply wp_bind.
  eapply readl_plain; [exact Pi|exact Ui|]. apply wp_bind, wp_writel. apply wp_bind.
  assert (Hne := clk_ivl i). set (v := regval init h (ivl i)) in *.
  assert (forall a, word_reg init e h a ->
    word_reg init e (Wr (ivl i) (u32 (v * (24000 / 32))) :: Rd (ivl i) v :: h) a) as Hw1.
  { intros a [Pa Ua]. split; [exact Pa|]. cbn [regval]. destruct (a =? ivl i); [apply u32_range|done]. }
  eapply wp_mono; [apply (update_spec init); [by apply Hw1|done]|]. intros [] s1 h1 (-> & Hr & Hw).
  eapply wp_modify_hw; [exact Hx|]. split; [done|]. split.
  - intros a. rewrite Hr. cbn [regval]. rewrite (proj2 (Z.eqb_neq (clk i) (ivl i))) by done.
    by destruct (a =? clk i).
  - intros a Ha. by apply Hw, Hw1.
Qed.

(** Both timers. *)
Definition timer_regs e h : Prop := forall i, (i < TIMERC_TIMERS_NUMBER)%nat ->
  word_reg init e h (clk i) /\ word_reg init e h (ivl i).

(** Two rounds of the same kind. *)
Definition both_retimed (src rate : Z) (f : Z -> Z) e s h s' h' : Prop :=
  s' = set_part (with_table (map (set_ms_ticks rate) (timer_table (part s))) (part s)) s /\
  (forall i, (i < TIMERC_TIMERS_NUMBER)%nat ->
     regval init h' (clk i) = with_source src (regval init h (clk i)) /\
     regval init h' (ivl i) = f (regval init h (ivl i))) /\
  timer_regs e h' /\
  (forall a, (forall i, (i < TIMERC_TIMERS_NUMBER)%nat -> a <> clk i /\ a <> ivl i) ->
     regval init h' a = regval init h a).

Lemma retimed_twice src rate f e s h s1 h1 s2 h2 :
  length (timer_table (part s)) = TIMERC_TIMERS_NUMBER -> timer_regs e h ->
  retimed 0 src rate f e s h s1 h1 -> retimed 1 src rate f e s1 h1 s2 h2 ->
  both_retimed src rate f e s h s2 h2.
Proof.
  intros Hlen Hregs (-> & R1 & W1) (-> & R2 & W2). rewrite part_set. unfold both_retimed.
  destruct (timer_table (part s)) as [|t0 [|t1 []]] eqn:Et; try done.
  split_and!.
  - unfold stored_timer at 1. unfold stored_timer, timer_at. rewrite Et. cbn. by rewrite set_set.
  - intros [|[|]] Hi; try (unfold TIMERC_TIMERS_NUMBER in Hi; lia);
      (split; rewrite R2, !R1; closed_eqb; done).
  - intros i Hi. destruct (Hregs i Hi) as [Hc Hv]. split; by apply W2, W1.
  - intros a Ha. destruct (Ha 0%nat) as [C0 V0]; [unfold TIMERC_TIMERS_NUMBER; lia|].
    destruct (Ha 1%nat) as [C1 V1]; [unfold TIMERC_TIMERS_NUMBER; lia|].
    rewrite R2, !R1. by rewrite !(proj2 (Z.eqb_neq _ _)) by done.
Qed.

Lemma hosc_rounds (one : nat -> M C S unit) src rate f e s h Q :
  (forall i x e s h, timer_at (part s) (timer_ptr i) = Some x ->
     word_reg init e h (clk i) -> word_reg init e h (ivl i) ->
     wp (one i) e s h (fun _ s' h' => retimed i src rate f e s h s' h') total) ->
  length (timer_table (part s)) = TIMERC_TIMERS_NUMBER -> timer_regs e h ->
  (forall s' h', both_retimed src rate f e s h s' h' -> Q OK s' h') ->
  wp (one 0%nat;; one 1%nat;; ret OK) e s h Q total.
Proof.
  intros Hone Hlen Hregs HQ. assert (Hlen' := Hlen).
  destruct (timer_table (part s)) as [|t0 [|t1 []]] eqn:Et; try done. clear Hlen'.
  apply wp_bind. eapply wp_mono.
  { apply (Hone 0%nat t0); [unfold timer_at; by rewrite Et|apply Hregs; unfold TIMERC_TIMERS_NUMBER; lia..]. }
  intros [] s1 h1 H1. assert (H1' := H1). destruct H1' as (-> & _ & W1). apply wp_bind. eapply wp_mono.
  { apply (Hone 1%nat t1).
    - rewrite part_set. unfold stored_timer, timer_at. rewrite Et. done.
    - apply W1, Hregs. unfold TIMERC_TIMERS_NUMBER. lia.
    - apply W1, Hregs. unfold TIMERC_TIMERS_NUMBER. lia. }
  intros [] s2 h2 H2. apply wp_ret, HQ. eapply retimed_twice; [by rewrite Et|exact Hregs|exact H1|exact H2].
Qed.

Lemma land_with_source src v : is_u32 v -> 0 <= src <= 7 ->
  Z.land (Z.shiftr (with_source src v) 4) 7 = src /\
  Z.land (with_source src v) (cnot32 0x70) = Z.land v (cnot32 0x70).
Proof.
  intros Hv Hs. unfold with_source. split.
  - assert (Z.land (Z.shiftl src 4) (Z.shiftl 7 4) = Z.shiftl src 4) as Hf.
    { rewrite <- Z.shiftl_land. change 7 with (Z.ones 3). rewrite Z.land_ones, Z.mod_small by lia. done. }
    assert (H := rmw_field v (Z.shiftl 7 4) (Z.shiftl src 4) ltac:(done) Hf).
    apply (f_equal (fun z => Z.shiftr z 4)) in H. rewrite Z.shiftr_land, Z.shiftr_shiftl_l in H by lia.
    rewrite Z.shiftr_shiftl_l in H by lia. change (4 - 4) with 0 in H. by rewrite !Z.shiftl_0_r in H.
  - apply rmw_other; [done| |done]. change (cnot32 0x70) with (Z.ldiff 0xffffffff (Z.shiftl 7 4)).
    replace src with (Z.land src 7).
    + apply Z.bits_inj'. intros n Hn. rewrite Z.bits_0, Z.land_spec, Z.ldiff_spec, !Z.shiftl_spec, Z.land_spec by lia.
      destruct (Z.testbit 7 (n - 4)); by rewrite ?andb_false_r.
    + change 7 with (Z.ones 3). rewrite Z.land_ones, Z.mod_small by lia. done.
Qed.

(** One call of the call-back. *)
Lemma hosc_cb_spec (off : bool) aux e s h :
  timer_regs e h -> timer_lock (part s) = 0 -> length (timer_table (part s)) = TIMERC_TIMERS_NUMBER ->
  wp (timer_hosc_onoff_cb (if off then CCU_HOSC_WILL_OFF_NOTIFY else CCU_HOSC_ON_READY_NOTIFY) aux) e s h
    (fun r s' h' => r = OK /\
      both_retimed (if off then 1 else 4) (if off then 32 else 24000)
        (if off then fun v => v / 750 else fun v => u32 (v * 750)) e s h s' h') total.
Proof.
  intros Hregs Hlock Hlen. unfold timer_hosc_onoff_cb, timer_statics, INF. apply wp_bind, wp_getp.
  rewrite Hlock. destruct off; cbn -[hosc_off_one hosc_on_one]; apply wp_bind, wp_printf; intros r.
  - eapply (hosc_rounds hosc_off_one); [by intros; eapply hosc_off_one_spec|done|exact Hregs|]. by split.
  - eapply (hosc_rounds hosc_on_one); [by intros; eapply hosc_on_one_spec|done|exact Hregs|]. by split.
Qed.

(** With the clock and interval registers of both timers acting as memory, the
    call-back on losing the oscillator and the one on regaining it together
    leave every timer on the 24 MHz reference, its other clock bits as they
    were, and its interval what it was down to 1/32 ms: exactly what it was
    when it is whole milliseconds, as [timer_start] programs it.  In between
    the timers run from 32 kHz at 32 ticks a millisecond. *)
Theorem hosc_cycle_keeps_periods aux aux' e s h :
  timer_regs e h -> timer_lock (part s) = 0 -> length (timer_table (part s)) = TIMERC_TIMERS_NUMBER ->
  wp (let! r := timer_hosc_onoff_cb CCU_HOSC_WILL_OFF_NOTIFY aux in
      let! mid := getp in
      let! r' := timer_hosc_onoff_cb CCU_HOSC_ON_READY_NOTIFY aux' in
      ret (r, mid, r')) e s h (fun res s' h' =>
    res.1.1 = OK /\ res.2 = OK /\
    res.1.2 = with_table (map (set_ms_ticks 32) (timer_table (part s))) (part s) /\
    part s' = with_table (map (set_ms_ticks 24000) (timer_table (part s))) (part s) /\
    forall i, (i < TIMERC_TIMERS_NUMBER)%nat ->
      let v := regval init h (ivl i) in
      regval init h' (ivl i) = v - v mod 750 /\
      (v mod 24000 = 0 -> regval init h' (ivl i) = v) /\
      Z.land (Z.shiftr (regval init h' (clk i)) 4) 7 = 4 /\
      Z.land (regval init h' (clk i)) (cnot32 0x70) = Z.land (regval init h (clk i)) (cnot32 0x70)) total.
Proof.
  intros Hregs Hlock Hlen. apply wp_bind. eapply wp_mono; [by apply (hosc_cb_spec true)|].
  intros r s1 h1 [-> (-> & R1 & W1 & _)]. apply wp_bind, wp_getp. apply wp_bind. rewrite part_set.
  eapply wp_mono.
  { apply (hosc_cb_spec false); [exact W1|by rewrite part_set|by rewrite part_set; cbn; rewrite length_map]. }
  intros r s2 h2 [-> (-> & R2 & _)]. apply wp_ret. cbn [fst snd]. split_and!; [done|done|done| |].
  - rewrite part_set, part_set. cbn [timer_table with_table]. rewrite map_map. f_equal. 
  - intros i Hi. destruct (Hregs i Hi) as [[_ Uc] [_ Uv]]. destruct (W1 i Hi) as [[_ Uc1] _].
    destruct (R1 i Hi) as [C1 V1], (R2 i Hi) as [C2 V2]. cbv zeta. set (v := regval init h (ivl i)) in *.
    assert (regval init h2 (ivl i) = v - v mod 750) as Hv.
    { rewrite V2, V1. unfold is_u32 in Uv. assert (v = 750 * (v / 750) + v mod 750) by (apply Z.div_mod; lia).
      assert (0 <= v mod 750 < 750) by (apply Z.mod_pos_bound; lia). rewrite u32_small by lia. lia. }
    rewrite C2. rewrite C1 in Uc1 |- *.
    destruct (land_with_source 4 _ Uc1 ltac:(lia)) as [-> ->].
    destruct (land_with_source 1 _ Uc ltac:(lia)) as [_ ->]. split_and!; [done| |done|done].
    intros Hm. rewrite Hv. assert (v mod 750 = 0); [|lia].
    rewrite (Z.div_mod v 24000), Hm by lia. replace (24000 * (v / 24000) + 0) with (v / 24000 * 32 * 750) by lia.
    apply Z.mod_mul. lia.
Qed.
End Oscillator.

(** ** Delays *)

Section Delays.
Context {C S : Type} `{HPrint : HasPrintf C} `{HTimers : !Part timer_vars S}.
Implicit Types (e : env C) (s : S) (h : history C).

(** A counter that also advances over every register access, up to 2^62: at
    24 MHz, six thousand years. *)
Record advances e (c : history C -> Z) : Prop := {
  adv_counts : counts e c;
  adv_step : forall a v h, c h < 2 ^ 62 -> c h + 1 <= c (Rd a v :: h)
}.

Lemma counter_le e c h h' : counts e c -> (exists new, h' = new ++ h) -> c h <= c h'.
Proof.
  intros Hc [new ->]. induction new as [|ev new IH]; cbn [app]; [lia|].
  assert (H := counts_step e c Hc ev (new ++ h)). lia.
Qed.

Lemma counter_le_bound e c h new :
  counts e c -> c (new ++ h) <= c h + Z.of_nat (length new) * 2 ^ 28.
Proof.
  intros Hc. induction new as [|ev new IH]; cbn [app length]; [lia|].
  assert (H := counts_step e c Hc ev (new ++ h)). lia.
Qed.

(** Longer than [h] by at least one read and at most [n] rounds. *)
Definition read_since (n : nat) h h' : Prop :=
  exists new a v, h' = new ++ Rd a v :: h /\ (length new < 4 * n)%nat.

Lemma counter_loop_reads n e s h :
  wp (counter_loop n) e s h (fun _ _ h' => read_since n h h') (fun _ _ _ => True).
Proof.
  revert h. induction n as [|n IH]; intros h; cbn [counter_loop]; [by apply wp_stop|].
  assert (forall h1, read_since 1 h h1 ->
    wp (counter_loop n) e s h1 (fun _ _ h' => read_since (Datatypes.S n) h h') (fun _ _ _ => True)) as Hrec.
  { intros h1 (new & a & v & -> & Hl). eapply wp_mono; [apply IH|]. intros ? ? h2 (new2 & b & w & -> & Hl2).
    exists (new2 ++ Rd b w :: new), a, v. rewrite <- app_assoc. split; [done|].
    rewrite length_app. cbn [length]. lia. }
  apply wp_bind, wp_readl. intros low _ _. apply wp_bind, wp_readl. intros high _ _.
  apply wp_bind, wp_readl. intros high' _ _.
  destruct (negb (high =? high')); [apply Hrec; eexists [_; _], _, _; split; [done|cbn; lia]|].
  apply wp_bind, wp_readl. intros low' _ _.
  destruct (low' <? low); [apply Hrec; eexists [_; _; _], _, _; split; [done|cbn; lia]|].
  apply wp_ret. eexists [_; _; _], _, _. split; [done|cbn; lia].
Qed.

Lemma read_since_advances n e c h h' :
  advances e c -> read_since n h h' -> c h <= c h' /\ (c h < 2 ^ 62 -> c h + 1 <= c h').
Proof.
  intros Ha (new & a & v & -> & _). assert (H := adv_step e c Ha a v h).
  assert (H0 := counts_step e c (adv_counts e c Ha) (Rd a v) h).
  assert (H' := counter_le e c (Rd a v :: h) (new ++ Rd a v :: h) (adv_counts e c Ha) (ex_intro _ new eq_refl)). lia.
Qed.

Lemma counter_read_advances e c s h :
  advances e c ->
  wp (cpucfg_counter_read 2) e s h
    (fun v s' h' => s' = s /\ c h <= v <= c h' /\ read_since 2 h h') total.
Proof.
  intros Ha. eapply wp_mono.
  { eapply (wp_and _ e s h (fun v s' h' => s' = s /\ c h <= v <= c h' /\ same_regs h h')
      (fun _ _ h' => read_since 2 h h') (fun _ _ _ => True)).
    - by apply (counter_read_spec e c), adv_counts.
    - unfold cpucfg_counter_read. apply wp_bind. eapply wp_mono; [apply counter_loop_reads|].
      intros [low high] s1 h1 H. by apply wp_ret. }
  by intros v s' h' [(-> & Hv & _) Hr].
Qed.

Lemma udelay_loop_spec fuel expire e c s h :
  advances e c -> expire <= 2 ^ 62 -> Z.max 0 (expire - c h) < Z.of_nat fuel ->
  wp (udelay_loop fuel 2 expire) e s h (fun _ s' h' => s' = s /\ expire <= c h') total.
Proof.
  intros Ha Hx. revert h. induction fuel as [|fuel IH]; intros h Hf; cbn [udelay_loop]; [lia|].
  apply wp_bind. eapply wp_mono; [by apply (counter_read_advances e c)|].
  intros now s1 h1 (-> & Hv & Hr). assert (H1 := read_since_advances 2 e c h h1 Ha Hr).
  destruct (Z.ltb_spec now expire); [apply IH; lia|]. apply wp_ret. split; [done|lia].
Qed.

(** The wait for the timer: over when it fires, or at the deadline. *)
Definition fired (bit : Z) h h' : Prop :=
  exists new v old, h' = new ++ Rd EXT_TIMER_STA_REG v :: old ++ h /\ Z.land v bit <> 0.

Lemma wait_pending_spec fuel bit deadline e c s h :
  advances e c -> deadline <= 2 ^ 62 -> Z.max 0 (deadline - c h) < Z.of_nat fuel ->
  wp (delay_wait_pending fuel 2 bit deadline) e s h (fun r s' h' => s' = s /\
    (exists new, h' = new ++ h) /\
    (r = OK /\ fired bit h h' \/ r = - ETIMEOUT /\ deadline <= c h')) total.
Proof.
  intros Ha Hx. revert h. induction fuel as [|fuel IH]; intros h Hf; cbn [delay_wait_pending]; [lia|].
  apply wp_bind, wp_readl. intros v _ _. destruct (Z.eqb_spec (Z.land v bit) 0) as [Hz|Hnz].
  - apply wp_bind. eapply wp_mono; [by apply (counter_read_advances e c)|].
    intros now s1 h1 (-> & Hv & Hr). assert (H1 := read_since_advances 2 e c _ h1 Ha Hr).
    assert (H0 := adv_step e c Ha EXT_TIMER_STA_REG v h).
    assert (H2 := counts_step e c (adv_counts e c Ha) (Rd EXT_TIMER_STA_REG v) h).
    destruct Hr as (new & a & w & -> & _).
    destruct (Z.leb_spec deadline now).
    + apply wp_ret. split; [done|]. split; [by exists (new ++ [Rd a w; Rd EXT_TIMER_STA_REG v]); rewrite <- app_assoc|].
      right. split; [done|lia].
    + eapply wp_mono; [apply IH; lia|]. intros r s2 h2 (-> & [new2 ->] & Hcase). split; [done|]. split.
      { exists (new2 ++ new ++ [Rd a w; Rd EXT_TIMER_STA_REG v]). by rewrite <- !app_assoc. }
      destruct Hcase as [[-> (n & u & old & Heq & Hu)]|Hd]; [left|by right].
      split; [done|]. exists n, u, (old ++ new ++ [Rd a w; Rd EXT_TIMER_STA_REG v]).
      split; [|done]. rewrite Heq. by rewrite <- !app_assoc.
  - apply wp_ret. split; [done|]. split; [by exists [Rd EXT_TIMER_STA_REG v]|]. left. split; [done|].
    by exists [], v, [].
Qed.

(** *** The two delays *)

Section Lasting.
Context (e : env C) (c : history C -> Z) (Ha : advances e c).
Let Hc : counts e c := adv_counts e c Ha.

(** A reading is followed by at least 2^31 counts of room. *)
Lemma read_room h h' : read_since 2 h h' -> c h' <= c h + 2 ^ 31.
Proof.
  intros (new & a & v & -> & Hl). assert (L := counter_le_bound e c h (new ++ [Rd a v]) Hc).
  rewrite <- app_assoc, length_app in L. cbn [app length] in L. lia.
Qed.

(** A poll takes as many counts as it has rounds, at most. *)
Lemma poll_room reg busy r n h h1 h2 :
  (exists new, h1 = new ++ h /\ Z.of_nat (length new) <= n) -> polled reg busy EXT_TIMER_POLL_LIMIT r h1 h2 ->
  exists new, h2 = new ++ h /\ Z.of_nat (length new) <= n + 100000.
Proof.
  intros (n1 & -> & Hl1) (vs & -> & Hl). eexists. rewrite app_assoc. split; [done|]. rewrite length_app, length_map.
  assert (length vs <= EXT_TIMER_POLL_LIMIT)%nat as Hl2 by (destruct Hl as [(_ & Hl & _)|(_ & Hl & _)]; lia).
  unfold EXT_TIMER_POLL_LIMIT in Hl2. lia.
Qed.
Lemma counts_room n h h' : (exists new, h' = new ++ h /\ Z.of_nat (length new) <= n) -> c h <= c h' <= c h + n * 2 ^ 28.
Proof.
  intros (new & -> & Hl). assert (L := counter_le_bound e c h new Hc).
  assert (L' := counter_le e c h (new ++ h) Hc (ex_intro _ new eq_refl)). lia.
Qed.

Lemma udelay_lasts fuel us s h : c h < 2 ^ 61 -> 0 <= us < 2 ^ 32 -> 24 * us < Z.of_nat fuel ->
  wp (cnt64_udelay fuel 2 us) e s h (fun _ s' h' => s' = s /\ c h + 24 * us <= c h') total.
Proof.
  intros Hsoon.
  intros Hus Hf. unfold cnt64_udelay. destruct (Z.eqb_spec us 0) as [->|].
  { apply wp_ret. split; [done|]. lia. }
  apply wp_bind. eapply wp_mono; [by apply (counter_read_advances e c)|].
  intros now s1 h1 (-> & Hv & Hr). assert (H1 := read_since_advances 2 e c h h1 Ha Hr).
  assert (Hroom := read_room _ _ Hr). destruct (counts_u64 e c Hc h) as [H0 _].
  rewrite (u64_id (us * 24)), u64_id by (unfold is_u64; lia).
  eapply wp_mono; [apply (udelay_loop_spec _ _ e c _ _ Ha); lia|].
  intros ? s2 h2 [-> H2]. split; [done|lia].
Qed.

Lemma mdelay_lasts fuel ms x s h : c h < 2 ^ 61 ->
  timer_lock (part s) = 0 -> timer_at (part s) (delay_timer (part s)) = Some x ->
  ms_ticks x = 32 \/ ms_ticks x = 24000 -> 0 < ms < 2 ^ 32 -> ms_ticks x * ms <= 0xffffffff ->
  24000 * (ms + 1) < Z.of_nat fuel ->
  wp (time_mdelay fuel 2 ms) e s h (fun _ s' h' => s' = s /\
    (fired (timer_bit x) h h' \/ c h + 24000 * (ms + 1) <= c h' \/
     exists h1, polled (EXT_TIMER_CTRL_REG (timer_no x)) (fun v => negb (Z.land v EXT_TIMER_RELOAD =? 0))
       EXT_TIMER_POLL_LIMIT (- ETIMEOUT) h1 h')) total.
Proof.
  intros Hsoon.
  intros Hlock Hx Hms Hpos Hfit Hf. unfold time_mdelay, timer_statics. apply wp_bind, wp_getp.
  rewrite Hlock. cbn [Z.eqb negb]. apply wp_bind. eapply wp_load_hw; [exact Hx|]. cbv zeta.
  rewrite (u64_id (ms_ticks x * ms)) by (unfold is_u64; lia).
  destruct (Z.eqb_spec ms 0); [lia|]. destruct (Z.ltb_spec 0xffffffff (ms_ticks x * ms)); [lia|].
  cbn [orb]. unfold set_bits_of, clear_bits_of, delay_wait_clear. fw_steps.
  match goal with |- wp (poll _ _ _) _ _ ?h' _ _ => set (h1 := h') end.
  assert (exists new, h1 = new ++ h /\ Z.of_nat (length new) <= 3) as E1 by (by eexists [_; _; _]).
  eapply wp_mono; [apply poll_spec|]. intros r s2 h2 [-> Hp].
  destruct (Z.eqb_spec r OK) as [->|Hr]; cbn [negb].
  2:{ apply wp_ret. split; [done|]. right. right.
      assert (r = - ETIMEOUT) as -> by (destruct Hp as (? & _ & [[-> _]|[-> _]]); done). by exists h1. }
  assert (E2 := poll_room _ _ _ _ _ _ _ E1 Hp).
  clearbody h1. clear Hp E1. fw_steps.
  match goal with |- wp (cpucfg_counter_read _) _ _ ?h' _ _ => set (h3 := h') end.
  assert (exists new, h3 = new ++ h /\ Z.of_nat (length new) <= 100006) as E3.
  { destruct E2 as (n2 & -> & Hl). eexists (_ :: _ :: _ :: n2). split; [done|]. cbn [length]. lia. }
  clearbody h3. assert (L3 := counts_room _ _ _ E3).
  eapply wp_mono; [by apply (counter_read_advances e c)|].
  intros now s4 h4 (-> & Hnow & Hr). assert (L4 := read_since_advances 2 e c h3 h4 Ha Hr).
  assert (Hroom := read_room _ _ Hr).
  destruct (counts_u64 e c Hc h) as [H0 _].
  rewrite (u32_id (ms + 1)), (u64_id ((ms + 1) * 24000)), u64_id by (unfold is_u32, is_u64; lia).
  apply wp_bind. eapply wp_mono; [apply (wait_pending_spec _ _ _ e c _ _ Ha); lia|].
  intros r s5 h5 (-> & [n5 ->] & Hcase).
  apply wp_bind. apply (wp_mono _ _ _ _ _ (fun _ s' h' => s' = s /\ exists new, h' = new ++ n5 ++ h4)).
  { destruct (negb (r =? OK)); [apply wp_printf; intros q; split; [done|]; by eexists [_]
                              |apply wp_ret; split; [done|]; by exists []]. }
  intros ? s6 h6 (-> & n6 & ->). fw_steps. split; [done|].
  destruct Hcase as [[_ (nn & u & old & Heq & Hu)]|[_ Hd]].
  + left. rewrite Heq. destruct Hr as (nr & aw & w & -> & _). destruct E3 as (n3 & -> & _).
    eexists (_ :: _ :: _ :: n6 ++ nn), u, (old ++ nr ++ Rd aw w :: n3).
    split; [|exact Hu]. cbn [app]. by rewrite <- !app_assoc.
  + right. left. match goal with |- _ <= c ?H => assert (L := counter_le e c (n5 ++ h4) H Hc) end.
    specialize (L ltac:(by eexists (_ :: _ :: _ :: n6))). lia.
Qed.
End Lasting.

(** C23: On a running counter both delays end, for fuel beyond the counts they
    wait for, and leave the statics alone.  [cnt64_udelay] lasts at least the
    microseconds asked for.  [time_mdelay] of a time the timer can count lasts
    until the timer fires, or one millisecond longer than asked for on the
    counter, unless the timer never takes its new interval. *)
Theorem delays_last fuel us ms x e c s h :
  advances e c -> c h < 2 ^ 61 ->
  (0 <= us < 2 ^ 32 -> 24 * us < Z.of_nat fuel ->
   wp (cnt64_udelay fuel 2 us) e s h (fun _ s' h' => s' = s /\ c h + 24 * us <= c h') total) /\
  (timer_lock (part s) = 0 -> timer_at (part s) (delay_timer (part s)) = Some x ->
   ms_ticks x = 32 \/ ms_ticks x = 24000 -> 0 < ms < 2 ^ 32 -> ms_ticks x * ms <= 0xffffffff ->
   24000 * (ms + 1) < Z.of_nat fuel ->
   wp (time_mdelay fuel 2 ms) e s h (fun _ s' h' => s' = s /\
     (fired (timer_bit x) h h' \/ c h + 24000 * (ms + 1) <= c h' \/
      exists h1, polled (EXT_TIMER_CTRL_REG (timer_no x)) (fun v => negb (Z.land v EXT_TIMER_RELOAD =? 0))
        EXT_TIMER_POLL_LIMIT (- ETIMEOUT) h1 h')) total).
Proof. intros Ha Hsoon. split; [by apply udelay_lasts|by apply mdelay_lasts]. Qed.
End Delays.

(** ** Who owns the timers *)

Section Owners.
Context {C S F : Type} `{HPrint : HasPrintf C} `{HInsn : !HasInsn C} `{HIsrs : Isrs F}
  `{HCcu : !Part ccu S} `{HIsrTable : !Part (list (int_isr_node F)) S}
  `{HNotifiers : !Part (list notifier) S} `{HPower : !Part power S} `{HTimers : !Part timer_vars S}.
Context `{!Apart timer_vars (list (int_isr_node F)) S} `{!Apart (list (int_isr_node F)) timer_vars S}
  `{!Apart (list notifier) timer_vars S} `{!Apart (list notifier) (list (int_isr_node F)) S}
  `{!Apart power timer_vars S} `{!Apart power (list (int_isr_node F)) S}.
Context (timer_isr_addr : F) (timer_hosc_onoff_cb_addr : Z).
Implicit Types (e : env C) (s : S) (h : history C).

(** What the component's clients see of it: the handler and argument of the
    one timer they can have, and whether the oscillator is off. *)
Record owned := Owned {
  owner : option (Z * Z);
  slow : bool
}.
Definition rate (o : owned) : Z := if slow o then 32 else 24000.
Definition used (o : owned) (p : Z) : bool :=
  (p =? 1) || (p =? 2) && match owner o with Some _ => true | None => false end.

Inductive timer_op :=
| Request (f a : Z)
| Release (p : Z)
| Start (p period mode : Z)
| Stop (p : Z)
| Hosc (off : bool).

(** A handle is one of the table's, or NULL where the code tests it. *)
Definition op_ok (op : timer_op) : Prop :=
  match op with
  | Request _ _ | Hosc _ => True
  | Release p => 0 <= p <= 2
  | Stop p => 1 <= p <= 2
  | Start p period mode => 1 <= p <= 2 /\ is_u32 period /\ 0 <= mode
  end.

Definition run_op (op : timer_op) : M C S Z :=
  match op with
  | Request f a => timer_request timer_isr_addr f a
  | Release p => timer_release timer_isr_addr p
  | Start p period mode => timer_start p period mode
  | Stop p => timer_stop p
  | Hosc off => timer_hosc_onoff_cb (if off then CCU_HOSC_WILL_OFF_NOTIFY else CCU_HOSC_ON_READY_NOTIFY) 0
  end.

(** The hardware may fail to acknowledge in time. *)
Definition done_or_late (r : Z) : Prop := r = OK \/ r = - ETIMEOUT.

Definition op_result (op : timer_op) (o : owned) (r : Z) (o' : owned) : Prop :=
  match op with
  | Request f a =>
      match owner o with
      | None => r = 2 /\ o' = Owned (Some (f, a)) (slow o)
      | Some _ => r = 0 /\ o' = o
      end
  | Release p =>
      if (p =? 2) && used o p then r = OK /\ o' = Owned None (slow o) \/ r = - ETIMEOUT /\ o' = o
      else r = - EINVAL /\ o' = o
  | Start p period mode =>
      o' = o /\
      if negb (used o p) then r = - EACCES
      else if (period =? 0) || (1 <? mode) || (0xffffffff <? rate o * period) then r = - EINVAL
      else done_or_late r
  | Stop p => o' = o /\ if used o p then done_or_late r else r = - EACCES
  | Hosc off => r = OK /\ o' = Owned (owner o) off
  end.

(** The delay timer is entry 0 and always taken; entry 1 is the clients', and
    its service routine is installed while it is taken. *)
Definition table_of (o : owned) : timer_vars :=
  TimerVars 0 1
    [HwTimer 0 TIMER_USED INTC_R_TIMER0_IRQ (rate o) None 0;
     match owner o with
     | Some (f, a) => HwTimer 1 TIMER_USED INTC_R_TIMER1_IRQ (rate o) (Some f) a
     | None => HwTimer 1 TIMER_FREE INTC_R_TIMER1_IRQ (rate o) None 0
     end].
Definition owns s (o : owned) : Prop :=
  part s = table_of o /\
  exists node, part (T := list (int_isr_node F)) s !! 21%nat = Some node /\
    (owner o <> None -> node = IsrNode timer_isr_addr 2).

Lemma owns_used s o p : owns s o -> 1 <= p <= 2 ->
  exists x, timer_at (part s) p = Some x /\ ms_ticks x = rate o /\ timer_no x = p - 1 /\ irq_no x = p + 19 /\
    (status x =? TIMER_USED) = used o p.
Proof.
  intros [-> _] Hp. assert (p = 1 \/ p = 2) as [-> | ->] by lia; unfold used, table_of, timer_at; cbn.
  - by eexists.
  - destruct (owner o) as [[f a]|]; by eexists.
Qed.

Lemma ack_spec p x e s h :
  timer_at (part s) p = Some x ->
  wp (timer_ack_pending p) e s h (fun r s' h' => s' = s /\ done_or_late r) total.
Proof.
  intros Hx. unfold timer_ack_pending. apply wp_bind. eapply wp_load_hw; [exact Hx|]. cbv zeta.
  apply wp_bind, wp_writel. eapply wp_mono; [apply poll_spec|].
  intros r s' h' [-> (vs & _ & [[-> _]|[-> _]])]; split; [done|by left|done|by right].
Qed.

Lemma locked_spec p o e s h (Q : bool -> S -> history C -> Prop) :
  owns s o -> 1 <= p <= 2 -> Q (negb (used o p)) s h ->
  wp (if negb (timer_lock (part s) =? 0) then ret true
      else let! x := load_hw p in ret (negb (status x =? TIMER_USED))) e s h Q total.
Proof.
  intros Ho Hp HQ. destruct (owns_used s o p Ho Hp) as (x & Hx & _ & _ & _ & Hu).
  assert (Hl := Ho). destruct Hl as [-> _]. cbn [timer_lock table_of Z.eqb negb].
  apply wp_bind. eapply wp_load_hw; [exact Hx|]. apply wp_ret. by rewrite Hu.
Qed.
Lemma start_spec o p period mode e s h :
  owns s o -> op_ok (Start p period mode) ->
  wp (run_op (Start p period mode)) e s h
    (fun r s' _ => s' = s /\ op_result (Start p period mode) o r o) total.
Proof.
  intros Ho (Hp & Hper & Hmode). cbn [run_op op_result]. unfold timer_start, timer_statics.
  apply wp_bind, wp_getp. apply wp_bind. apply (locked_spec p o); [exact Ho|done|].
  destruct (used o p); cbn [negb]; [|by apply wp_ret].
  unfold TIMER_MODE_ONE_SHOOT. destruct ((period =? 0) || (1 <? mode)); cbn [orb]; [by apply wp_ret|].
  destruct (owns_used s o p Ho Hp) as (x & Hx & Hr & _).
  apply wp_bind. eapply wp_load_hw; [exact Hx|]. cbv zeta. rewrite Hr.
  assert (0 <= rate o * period < 2 ^ 64) as Hb by (unfold rate, is_u32 in *; destruct (slow o); lia).
  rewrite (u64_id _ Hb). destruct (0xffffffff <? rate o * period); [by apply wp_ret|].
  unfold set_bits_of, timer_wait_clear, update. fw_steps.
  eapply wp_mono; [apply poll_spec|]. intros r s1 h1 [-> (vs & _ & Hpoll)].
  assert (done_or_late r) as Hr1 by (destruct Hpoll as [[-> _]|[-> _]]; [by left|by right]). clear vs Hpoll.
  destruct (Z.eqb_spec r OK) as [->|]; cbn [negb]; [|by apply wp_ret].
  fw_steps. eapply wp_mono; [by apply (ack_spec p x)|]. intros r s2 h2 [-> Hr2].
  destruct (Z.eqb_spec r OK) as [->|]; cbn [negb]; [|by apply wp_ret].
  unfold interrupt_enable, intc_enable_interrupt, INF. fw_steps. by rewrite Z.eqb_refl; fw_steps.
Qed.

Lemma stop_spec o p e s h :
  owns s o -> 1 <= p <= 2 ->
  wp (timer_stop p) e s h (fun r s' _ => s' = s /\ if used o p then done_or_late r else r = - EACCES) total.
Proof.
  intros Ho Hp. unfold timer_stop, timer_statics. apply wp_bind, wp_getp. apply wp_bind.
  apply (locked_spec p o); [exact Ho|done|].
  destruct (used o p); cbn [negb]; [|by apply wp_ret].
  destruct (owns_used s o p Ho Hp) as (x & Hx & _). apply wp_bind. eapply wp_load_hw; [exact Hx|].
  unfold clear_bits_of, interrupt_disable, intc_disable_interrupt. fw_steps. rewrite Z.eqb_refl. cbn [negb].
  by apply (ack_spec p x).
Qed.

Lemma owns_isr s o node :
  part s = table_of o -> part (T := list (int_isr_node F)) s !! 21%nat = Some node ->
  (owner o <> None -> node = IsrNode timer_isr_addr 2) -> owns s o.
Proof. intros. split; [done|]. by exists node. Qed.

Lemma installed_lookup (l : list (int_isr_node F)) node new :
  l !! 21%nat = Some node -> <[21%nat := new]> l !! 21%nat = Some new.
Proof. intros Hl. apply list_lookup_insert_eq. by apply lookup_lt_Some in Hl. Qed.

(** A critical section does not touch the statics. *)
Lemma wp_disable e s h (Q : Z -> S -> history C -> Prop) K :
  (forall r h', Q r s h') -> wp cpu_disable_int e s h Q K.
Proof. intros HQ. unfold cpu_disable_int, c906_irq_save, get_MSTATUS, disable_irq, exec. fw_steps. apply HQ. Qed.
Lemma wp_enable r e s h (Q : unit -> S -> history C -> Prop) K :
  (forall h', Q tt s h') -> wp (cpu_enable_int r) e s h Q K.
Proof. intros HQ. unfold cpu_enable_int, c906_irq_restore, set_MSTATUS, exec. fw_steps. apply HQ. Qed.

Lemma free_spec o e s h f a node :
  owner o = Some (f, a) -> part s = table_of o ->
  part (T := list (int_isr_node F)) s !! 21%nat = Some node ->
  wp (free_timer 2) e s h (fun _ s' _ => owns s' (Owned None (slow o))) total.
Proof.
  intros Hown Ht Hn. unfold free_timer. apply wp_bind, wp_disable. intros r h1.
  apply wp_bind. eapply wp_modify_hw; [rewrite Ht; unfold table_of; rewrite Hown; reflexivity|].
  apply wp_bind. eapply wp_modify_hw; [rewrite part_set, Ht; unfold table_of; rewrite Hown; reflexivity|].
  apply wp_enable. intros h2. split.
  - rewrite !part_set, Ht. unfold table_of. by rewrite Hown.
  - exists node. rewrite !part_other. by split.
Qed.

Lemma release_spec o p e s h :
  owns s o -> op_ok (Release p) ->
  wp (run_op (Release p)) e s h
    (fun r s' _ => exists o', op_result (Release p) o r o' /\ owns s' o') total.
Proof.
  intros Ho Hp. cbn [run_op op_result op_ok] in *. unfold timer_release, timer_statics.
  apply wp_bind, wp_getp. apply wp_bind.
  assert (delay_timer (part s) = 1) as -> by (by destruct Ho as [-> _]).
  destruct (Z.eqb_spec p 0) as [->|H0]; cbn [orb]; [apply wp_ret, wp_ret; by exists o|].
  destruct (Z.eqb_spec p 1) as [->|H1]; [apply wp_ret, wp_ret; by exists o|].
  assert (p = 2) as -> by lia. destruct (owns_used s o 2 Ho ltac:(lia)) as (x & Hx & _ & _ & Hirq & Hu).
  apply wp_bind. eapply wp_load_hw; [exact Hx|]. apply wp_ret. rewrite Hu.
  destruct (used o 2) eqn:Eu; cbn [negb Z.eqb andb]; [|apply wp_ret; by exists o].
  apply wp_bind. eapply wp_mono; [by apply (stop_spec o 2); [|lia]|]. rewrite Eu.
  intros r s1 h1 [-> Hr]. destruct (Z.eqb_spec r OK) as [->|Hne]; cbn [negb].
  2:{ apply wp_ret. exists o. split; [|done]. right. by destruct Hr as [->| ->]. }
  apply wp_bind. eapply wp_load_hw; [exact Hx|].
  rewrite Hirq. destruct Ho as [Ht (node & Hn & Hown)].
  assert (exists f a, owner o = Some (f, a)) as (f & a & Ef).
  { unfold used in Eu. cbn in Eu. destruct (owner o) as [[f a]|]; [by exists f, a|done]. }
  rewrite (Hown ltac:(by rewrite Ef)) in Hn. apply wp_bind. unfold uninstall_isr.
  apply wp_bind. eapply (wp_isr_entry 21); [lia|exact Hn|]. cbn [pisr parg]. rewrite decide_True by done.
  apply wp_bind. eapply (wp_set_isr_entry 21); [lia|exact Hn|].
  apply wp_bind. eapply (wp_set_isr_entry 21); [lia|rewrite part_set; by eapply installed_lookup|].
  rewrite part_set, set_set. apply wp_ret. rewrite Z.eqb_refl. cbn [negb].
  apply wp_bind. eapply wp_mono.
  { eapply (free_spec o); [exact Ef|by rewrite part_other|].
    rewrite part_set. eapply installed_lookup, installed_lookup, Hn. }
  intros ? s2 h2 Ho2. apply wp_ret. exists (Owned None (slow o)). split; [by left|done].
Qed.

Lemma request_spec o f a e s h :
  owns s o ->
  wp (run_op (Request f a)) e s h
    (fun r s' _ => exists o', op_result (Request f a) o r o' /\ owns s' o') total.
Proof.
  intros Ho. cbn [run_op op_result]. unfold timer_request, timer_statics. apply wp_bind, wp_getp.
  assert (Ho' := Ho). destruct Ho' as [Ht (node & Hn & _)]. rewrite Ht. cbn [timer_lock table_of Z.eqb negb].
  apply wp_bind, wp_disable. intros cpsr h1. apply wp_bind. cbn [request_loop TIMERC_TIMERS_NUMBER].
  apply wp_bind. eapply wp_load_hw; [rewrite Ht; reflexivity|]. cbn [status Z.eqb TIMER_USED TIMER_FREE].
  change (1 =? 0) with false. cbv iota. apply wp_bind.
  eapply wp_load_hw; [rewrite Ht; reflexivity|]. destruct (owner o) as [[g b]|] eqn:Eo; cbn [status].
  - change (TIMER_USED =? 0) with false. cbv iota. apply wp_ret. apply wp_bind, wp_enable. intros h2.
    cbn [Z.eqb]. unfold WRN. fw_steps. by exists o.
  - change (TIMER_FREE =? 0) with true. cbv iota. apply wp_bind.
    eapply wp_modify_hw; [rewrite Ht; unfold table_of; rewrite Eo; reflexivity|].
    apply wp_bind. eapply wp_modify_hw; [rewrite part_set, Ht; unfold table_of; rewrite Eo; reflexivity|].
    apply wp_ret, wp_bind, wp_enable. intros h2. change (timer_ptr 1) with 2. change (2 =? 0) with false. cbv iota.
    set (o2 := Owned (Some (f, a)) (slow o)). rewrite set_set.
    assert (stored_timer 2 (set_handler (Some f) a) (part (set_part (stored_timer 2 (set_status TIMER_USED) (part s)) s))
      = table_of o2) as ->.
    { rewrite part_set, Ht. unfold table_of. by rewrite Eo. }
    apply wp_bind. eapply wp_load_hw; [rewrite part_set; reflexivity|]. cbn [irq_no].
    change INTC_R_TIMER1_IRQ with 21. unfold install_isr, INF.
    apply wp_bind, wp_bind, wp_printf. intros r. apply wp_bind.
    eapply (wp_isr_entry 21); [lia|by rewrite part_other|].
    apply wp_bind. eapply (wp_set_isr_entry 21); [lia|by rewrite part_other|].
    apply wp_bind. eapply (wp_set_isr_entry 21); [lia|rewrite part_set; eapply installed_lookup; by rewrite part_other|].
    apply wp_ret. rewrite Z.eqb_refl. cbn [negb]. apply wp_ret. exists o2. split; [done|].
    eapply owns_isr; [by rewrite !part_other, part_set| |done].
    rewrite !part_set. eapply installed_lookup, installed_lookup. by rewrite part_other.
Qed.

Lemma hosc_spec o off e s h :
  owns s o ->
  wp (run_op (Hosc off)) e s h
    (fun r s' _ => exists o', op_result (Hosc off) o r o' /\ owns s' o') total.
Proof.
  intros [Ht (node & Hn & Hown)]. cbn [run_op op_result]. unfold timer_hosc_onoff_cb, timer_statics, INF.
  apply wp_bind, wp_getp. rewrite Ht. cbn [timer_lock table_of Z.eqb negb].
  assert (forall (body : M C S unit), (forall h, wp body e s h (fun _ s' _ =>
      s' = set_part (table_of (Owned (owner o) off)) s) total) -> forall h,
    wp (body;; ret OK) e s h (fun r s' _ =>
      exists o', (r = OK /\ o' = Owned (owner o) off) /\ owns s' o') total) as Hbody.
  { intros body Hb h'. apply wp_bind. eapply wp_mono; [apply Hb|]. intros ? s1 h1 ->. apply wp_ret.
    exists (Owned (owner o) off). split; [done|]. eapply owns_isr; [by rewrite part_set|by rewrite part_other|].
    exact Hown. }
  assert (forall (body : nat -> M C S unit), (forall i e s h Q x, timer_at (part s) (timer_ptr i) = Some x ->
      (forall h', Q tt (set_part (stored_timer (timer_ptr i) (set_ms_ticks (if off then 32 else 24000)) (part s)) s) h') ->
      wp (body i) e s h Q total) ->
    forall h, wp (body 0%nat;; body 1%nat) e s h (fun _ s' _ =>
      s' = set_part (table_of (Owned (owner o) off)) s) total) as Htwo.
  { intros body Hb h'. apply wp_bind. eapply Hb; [rewrite Ht; reflexivity|]. intros h1.
    eapply Hb; [rewrite part_set, Ht; reflexivity|]. intros h2. rewrite set_set, part_set, Ht.
    unfold table_of, rate. cbn. by destruct (owner o) as [[f a]|], off. }
  destruct off; cbn [Z.eqb CCU_HOSC_WILL_OFF_NOTIFY CCU_HOSC_ON_READY_NOTIFY];
    change (1 =? 1) with true; change (0 =? 1) with false; change (0 =? 0) with true; cbv iota;
    apply wp_bind, wp_printf; intros r; apply wp_assoc, Hbody, Htwo;
    intros i e0 s0 h0 Q x Hx HQ; unfold hosc_off_one, hosc_on_one, set_timer_source, update; fw_steps.
  - eapply wp_modify_hw; [exact Hx|]. fw_steps. apply HQ.
  - eapply wp_modify_hw; [exact Hx|]. apply HQ.
Qed.

(** One operation. *)
Lemma op_spec op o e s h :
  owns s o -> op_ok op ->
  wp (run_op op) e s h (fun r s' _ => exists o', op_result op o r o' /\ owns s' o') total.
Proof.
  intros Ho Hop. destruct op as [f a|p|p period mode|p|off].
  - by apply request_spec.
  - by apply release_spec.
  - eapply wp_mono; [by apply start_spec|]. intros r s' h' [-> Hr]. by exists o.
  - eapply wp_mono; [by apply (stop_spec o p)|]. intros r s' h' [-> Hr]. by exists o.
  - by apply hosc_spec.
Qed.

(** ** From the initialisation on *)

Lemma wp_insert head cb e s h (Q : Z * option nat -> S -> history C -> Prop) :
  (forall r t h', Q r (set_part (T := list notifier) t s) h') -> wp (notifier_insert head cb) e s h Q total.
Proof.
  intros HQ. unfold notifier_insert, WRN. apply wp_bind, wp_alloc. intros v r1 r2 r3. cbv zeta.
  destruct (first_free (part s)) as [i|].
  - intros n Hn _. assert (i < length (part (T := list notifier) s))%nat by (by apply lookup_lt_Some in Hn).
    apply wp_bind. eapply wp_modify; [rewrite part_set; by apply list_lookup_insert_eq|].
    apply wp_bind. eapply wp_modify; [rewrite part_set; apply list_lookup_insert_eq; rewrite part_set, length_insert; done|].
    rewrite set_set, set_set. apply wp_ret, HQ.
  - fw_steps. rewrite <- (set_same (T := list notifier) s). apply HQ.
Qed.

Lemma notify_init_spec e s h node :
  part s = timers_initial -> part (T := list (int_isr_node F)) s !! 21%nat = Some node ->
  wp (timer_init timer_hosc_onoff_cb_addr) e s h
    (fun r s' _ => r = OK /\ owns s' (Owned None false)) total.
Proof.
  intros Ht Hn. unfold timer_init, ccu_set_mclk_onoff, ccu_set_mclk_reset, init_one, set_timer_source, update.
  closed_eqb. fw_steps.
  eapply wp_modify_hw; [rewrite Ht; reflexivity|]. fw_steps.
  eapply wp_modify_hw; [rewrite part_set, Ht; reflexivity|]. fw_steps.
  eapply wp_modify_hw; [rewrite !part_set, Ht; reflexivity|]. unfold set_timers, timer_statics, set_bits_of.
  fw_steps. rewrite !part_set, !set_set, Ht. cbn.
  unfold ccu_24mhosc_reg_cb, set_power, power_vars. fw_steps. apply wp_insert. intros [r head] t h1. fw_steps.
  split; [done|]. eapply (owns_isr _ _ node); [|by rewrite !part_other|done].
  by rewrite part_set, !part_other, part_set.
Qed.

Fixpoint run_ops (ops : list timer_op) : M C S (list Z) :=
  match ops with
  | [] => ret []
  | op :: ops => let! r := run_op op in let! rs := run_ops ops in ret (r :: rs)
  end.

(** The results a sequence of operations may give. *)
Fixpoint trace (ops : list timer_op) (o : owned) (rs : list Z) (o' : owned) : Prop :=
  match ops, rs with
  | [], [] => o' = o
  | op :: ops, r :: rs => exists o1, op_result op o r o1 /\ trace ops o1 rs o'
  | _, _ => False
  end.

Lemma run_ops_spec ops o e s h :
  owns s o -> Forall op_ok ops ->
  wp (run_ops ops) e s h (fun rs s' _ => exists o', trace ops o rs o' /\ owns s' o') total.
Proof.
  intros Ho Hops. revert o s h Ho. induction Hops as [|op ops Hop _ IH]; intros o s h Ho; cbn [run_ops].
  - apply wp_ret. by exists o.
  - apply wp_bind. eapply wp_mono; [by apply (op_spec op o)|]. intros r s1 h1 (o1 & Hr & Ho1).
    apply wp_bind. eapply wp_mono; [by apply (IH o1)|]. intros rs s2 h2 (o2 & Hrs & Ho2).
    apply wp_ret. exists o2. split; [|done]. by exists o1.
Qed.

(** C22: Initialised timers, then any requests, releases, starts, stops and
    oscillator changes, whatever the hardware answers: every call returns, with
    no access outside the table, and the results are those of an allocator of
    one timer.  The delay timer is never handed out nor released, a timer
    taken is refused to others, -EINVAL and -EACCES are exactly the calls the
    specification rejects, only the hardware's acknowledgement can be late, and
    the service routine is installed while the timer is taken. *)
Theorem timers_refine_allocator ops e s h node :
  part s = timers_initial -> part (T := list (int_isr_node F)) s !! 21%nat = Some node ->
  Forall op_ok ops ->
  wp (let! r := timer_init timer_hosc_onoff_cb_addr in let! rs := run_ops ops in ret (r, rs)) e s h
    (fun res s' _ => res.1 = OK /\
      exists o, trace ops (Owned None false) res.2 o /\ part s' = table_of o /\
        (owner o <> None ->
         part (T := list (int_isr_node F)) s' !! 21%nat = Some (IsrNode timer_isr_addr 2))) total.
Proof.
  intros Ht Hn Hops. apply wp_bind. eapply wp_mono; [by eapply notify_init_spec|]. intros r s1 h1 [-> Ho].
  apply wp_bind. eapply wp_mono; [by apply run_ops_spec|]. intros rs s2 h2 (o & Htr & Ht2 & node2 & Hn2 & Hown).
  apply wp_ret. split; [done|]. exists o. split_and!; [done|done|]. intros Hne. by rewrite Hn2, (Hown Hne).
Qed.
End Owners.

(** ** Concrete runs *)

(** Registers that are memory, all 240000 at first: intervals of 10 ms. *)
Lemma hosc_cycle_keeps_periods_witness :
  let init := fun _ : Z => 240000 in
  let e := Env (regval init) (fun _ _ => 0) (fun _ _ => []) : env print_only in
  let s := with_timer_lock 0 timers_initial in
  timer_regs init e [] /\
  wp (let! r := timer_hosc_onoff_cb CCU_HOSC_WILL_OFF_NOTIFY 0 in
      let! mid := getp in
      let! r' := timer_hosc_onoff_cb CCU_HOSC_ON_READY_NOTIFY 0 in
      ret (r, mid, r')) e s [] (fun res s' h' =>
    res.2 = OK /\ forall i, (i < 2)%nat -> regval init h' (ivl i) = 240000) total.
Proof.
  intros init e s. assert (timer_regs init e []) as Hregs by (intros i Hi; done).
  split; [exact Hregs|]. eapply wp_mono; [by apply (hosc_cycle_keeps_periods init 0 0 e s [] Hregs)|].
  intros res s' h' (_ & Hr & _ & _ & Hi). split; [exact Hr|]. intros i Hlt. by apply (Hi i Hlt).
Defined.

(** A counter of one tick an event, on a timer that never fires. *)
Lemma delays_last_witness :
  let c := fun h : history print_only => Z.min (Z.of_nat (length h)) (2 ^ 62) in
  let e := Env (fun h a => if a =? CNT_LOW_REG then c h mod 2 ^ 32
                           else if a =? CNT_HIGH_REG then c h / 2 ^ 32 else 0)
             (fun _ _ => 0) (fun _ _ => []) in
  let s := TimerVars 0 1 [HwTimer 0 TIMER_USED INTC_R_TIMER0_IRQ 24000 None 0] in
  wp (cnt64_udelay 100 2 3) e s [] (fun _ s' h' => s' = s /\ 72 <= c h') total /\
  wp (time_mdelay (Z.to_nat 48001) 2 1) e s [] (fun _ s' h' => s' = s) total.
Proof.
  intros c e s. assert (advances e c) as Ha.
  { assert (forall h, 0 <= c h <= 2 ^ 62) as Hc by (intros h; unfold c; lia).
    assert (forall h ev, c h <= c (ev :: h) <= c h + 1) as Hs by (intros h ev; unfold c; cbn [length]; lia).
    split; [split|].
    - intros h. specialize (Hc h). unfold is_u64. lia.
    - intros ev h. specialize (Hs h ev). lia.
    - intros h. cbn [env_read e]. rewrite Z.eqb_refl. apply u32_id. apply Z.mod_pos_bound. lia.
    - intros h. cbn [env_read e]. change (CNT_HIGH_REG =? CNT_LOW_REG) with false. cbv iota.
      rewrite Z.eqb_refl. apply u32_id. specialize (Hc h). split; [apply Z.div_pos; lia|].
      apply Z.div_lt_upper_bound; lia.
    - intros a v h. unfold c. cbn [length]. lia. }
  split.
  - destruct (delays_last 100 3 1 (HwTimer 0 TIMER_USED INTC_R_TIMER0_IRQ 24000 None 0) e c s [] Ha) as [Hu _].
    { vm_compute. reflexivity. }
    apply Hu; lia.
  - destruct (delays_last (Z.to_nat 48001) 3 1 (HwTimer 0 TIMER_USED INTC_R_TIMER0_IRQ 24000 None 0) e c s [] Ha) as [_ Hm].
    { vm_compute. reflexivity. }
    eapply wp_mono; [apply Hm; [reflexivity|reflexivity|by right|lia|cbn [ms_ticks]; lia|rewrite Z2Nat.id; lia]|].
    by intros [] s' h' [Hs _].
Defined.

(** The statics the timers meet. *)
Record image := Image {
  im_ccu : ccu;
  im_isrs : list (int_isr_node nat);
  im_notifiers : list notifier;
  im_power : power;
  im_timers : timer_vars
}.
#[local] Ltac part_laws := by intros; repeat match goal with s : image |- _ => destruct s end.
#[local, refine] Instance image_ccu : Part ccu image := {|
  part := im_ccu; set_part c s := Image c (im_isrs s) (im_notifiers s) (im_power s) (im_timers s) |}.
Proof. all: part_laws. Defined.
#[local, refine] Instance image_isrs : Part (list (int_isr_node nat)) image := {|
  part := im_isrs; set_part t s := Image (im_ccu s) t (im_notifiers s) (im_power s) (im_timers s) |}.
Proof. all: part_laws. Defined.
#[local, refine] Instance image_notifiers : Part (list notifier) image := {|
  part := im_notifiers; set_part t s := Image (im_ccu s) (im_isrs s) t (im_power s) (im_timers s) |}.
Proof. all: part_laws. Defined.
#[local, refine] Instance image_power : Part power image := {|
  part := im_power; set_part p s := Image (im_ccu s) (im_isrs s) (im_notifiers s) p (im_timers s) |}.
Proof. all: part_laws. Defined.
#[local, refine] Instance image_timers : Part timer_vars image := {|
  part := im_timers; set_part t s := Image (im_ccu s) (im_isrs s) (im_notifiers s) (im_power s) t |}.
Proof. all: part_laws. Defined.
#[local] Instance image_routines : Isrs nat := {| isr_default := 0%nat |}.

(** A request, a second one, a start and the release: the second request
    finds no timer. *)
Lemma timers_refine_allocator_witness :
  let s := Image ccu_initial (replicate 35 (IsrNode 0%nat 0)) (replicate 8 (Notifier 0 0 None))
             power_initial timers_initial in
  let e := Env (fun _ _ => 0) (fun _ _ => 0) (fun _ _ => []) : env fw_call in
  wp (let! r := timer_init 77 in
      let! rs := run_ops 5%nat [Request 100 200; Request 300 400; Start 2 10 0; Release 2] in
      ret (r, rs)) e s [] (fun res _ _ => exists r3 r4, res = (OK, [2; 0; r3; r4])) total.
Proof.
  intros s e.
  assert (Apart timer_vars (list (int_isr_node nat)) image) by done.
  assert (Apart (list (int_isr_node nat)) timer_vars image) by done.
  assert (Apart (list notifier) timer_vars image) by done.
  assert (Apart (list notifier) (list (int_isr_node nat)) image) by done.
  assert (Apart power timer_vars image) by done.
  assert (Apart power (list (int_isr_node nat)) image) by done.
  eapply wp_mono.
  { apply (timers_refine_allocator 5%nat 77 [Request 100 200; Request 300 400; Start 2 10 0; Release 2] e s []
      (IsrNode 0%nat 0)); [reflexivity|reflexivity|].
    repeat constructor; cbn; try lia; unfold is_u32; lia. }
  intros [r rs] s' h' [Hr (o & Htr & _ & _)]. cbn [fst snd] in *. subst r.
  destruct rs as [|r1 [|r2 [|r3 [|r4 [|]]]]]; cbn [trace] in Htr; decompose [ex and] Htr; try done.
  cbn [op_result owner] in *. decompose [ex and] Htr. subst. cbn [op_result owner] in *.
  exists r3, r4. intuition congruence.
Defined.
