(* ===== verification/Msgbox.v ===== *)
(** * The message box
    (src/ar100s/driver/hwmsgbox/hwmsgbox-extended/hwmsgbox-extended.c,
    src/ar100s/include/messages.h)

    Frames of words through two hardware FIFOs.  The message a pointer points
    to is a part of the state; a null pointer is the argument [Null], a null
    parameter pointer is [None], and an index outside the parameters is
    undefined. *)

From Stdlib Require Import String.
From S2P Require Import Prelude Machine Console Firmware Cpucfg Prcm Uart.

Local Open Scope string_scope.
Local Open Scope list_scope.
Local Open Scope Z_scope.
Local Open Scope mach_scope.

(** ** Constants (messages.h, hwmsgbox-extended.h) *)

Definition MESSAGE_ATTR_SOFTSYN : Z := BIT 0.
Definition MESSAGE_ATTR_HARDSYN : Z := BIT 1.
Definition MESSAGE_PARA_MAX : Z := 32.
Definition HWMSGBOX_FIFO_DEPTH : Z := 8.
Definition MESSAGE_FRAME_HEADER_WORDS : Z := 2.
Definition CPUX_HWMSGBOX_REG_BASE : Z := 0x03004000.
Definition CPUS_HWMSGBOX_REG_BASE : Z := 0x07094000.
Definition CPUX_MSGBOX_REG_BASE_EXT : Z := CPUX_HWMSGBOX_REG_BASE.
Definition CPUS_MSGBOX_REG_BASE_EXT : Z := CPUS_HWMSGBOX_REG_BASE.
Definition MSGBOX_ARM_TO_RISC_IRQ_STATUS_REG : Z := CPUS_MSGBOX_REG_BASE_EXT + 0x24.
Definition MSGBOX_ARM_TO_RISC_MSG_STATUS_REG (m : Z) : Z := CPUS_MSGBOX_REG_BASE_EXT + 0x60 + 0x4 * m.
Definition MSGBOX_RISC_TO_ARM_MSG_STATUS_REG (m : Z) : Z := CPUX_MSGBOX_REG_BASE_EXT + 0x60 + 0x4 * m.
Definition MSGBOX_ARM_TO_RISC_MSG_REG (m : Z) : Z := CPUS_MSGBOX_REG_BASE_EXT + 0x70 + 0x4 * m.
Definition MSGBOX_RISC_TO_ARM_MSG_REG (m : Z) : Z := CPUX_MSGBOX_REG_BASE_EXT + 0x70 + 0x4 * m.
Definition HWMSGBOX_RISC_ASYN_TX_CH : Z := 3.
Definition HWMSGBOX_RISC_ASYN_RX_CH : Z := 3.
Definition HWMSGBOX_RISC_SYN_TX_CH : Z := 3.
Definition HWMSGBOX_RISC_SYN_RX_CH : Z := 3.
Definition HWMSGBOX_ARM_SYN_TX_CH : Z := 3.
Definition HWMSGBOX_ARM_SYN_RX_CH : Z := 3.
Definition HWMSGBOX_RX_DRAIN_MAX : nat := 128.

(** ** Messages *)

(** [struct message]; all but the parameters are unsigned chars. *)
Record message := Message {
  m_state : Z;
  m_attr : Z;
  m_type : Z;
  m_result : Z;
  m_count : Z;
  paras : option (list Z)
}.
Definition with_header (st at_ ty re : Z) (m : message) : message :=
  Message st at_ ty re (m_count m) (paras m).
Definition with_count (v : Z) (m : message) : message :=
  Message (m_state m) (m_attr m) (m_type m) (m_result m) v (paras m).
Definition with_paras (l : option (list Z)) (m : message) : message :=
  Message (m_state m) (m_attr m) (m_type m) (m_result m) (m_count m) l.

Inductive pointer := Null | There.

Section Msgbox.
Context {C S : Type} `{HPrint : HasPrintf C} `{HMessage : !Part message S}.
Local Abbreviation M := (M C S).
(** [time_mdelay] of the timers. *)
Context (time_mdelay : Z -> M unit).

Definition pmessage : M message := getp.
Definition set_message (f : message -> message) : M unit := let! m := pmessage in putp (f m).

(** [pmessage->paras[i]], read and written. *)
Definition load_para (i : Z) : M Z :=
  let! m := pmessage in
  match paras m with
  | Some l => match l !! Z.to_nat i with Some v => ret v | None => stop_now Undefined end
  | None => stop_now Undefined
  end.
Definition store_para (i v : Z) : M unit :=
  let! _ := load_para i in
  set_message (fun m => with_paras (option_map (<[Z.to_nat i := v]>) (paras m)) m).

(** [pmessage->state | (attr << 8) | (type << 16) | (result << 24)] *)
Definition header_word (m : message) : Z :=
  u32 (Z.lor (Z.lor (Z.lor (m_state m) (Z.shiftl (m_attr m) 8)) (Z.shiftl (m_type m) 16))
         (Z.shiftl (m_result m) 24)).
(** The four fields from a received word. *)
Definition take_header (value : Z) : M unit :=
  set_message (with_header (Z.land value 0xff) (Z.land (Z.shiftr value 8) 0xff)
    (Z.land (Z.shiftr value 16) 0xff) (Z.land (Z.shiftr value 24) 0xff)).

Definition hwmsgbox_clear_receiver_pending (queue : Z) : M unit :=
  writel (shl32 0x1 (queue * 2)) MSGBOX_ARM_TO_RISC_IRQ_STATUS_REG.

(** [if (!pmessage || bound > MESSAGE_PARA_MAX || (bound && !pmessage->paras))] *)
Definition invalid_message (p : pointer) (bound : message -> Z) : M bool :=
  match p with
  | Null => ret true
  | There =>
      let! m := pmessage in
      ret ((MESSAGE_PARA_MAX <? bound m)
           || (negb (bound m =? 0) && match paras m with None => true | Some _ => false end))
  end.

(** ** Waiting, a millisecond at a time *)

(** [while (busy(readl(reg))) { if (timeout == 0) return -ETIMEOUT;
    time_mdelay(1); timeout--; }] with [timeout = n]. *)
Fixpoint wait_loop (n : nat) (reg : Z) (busy : Z -> bool) : M Z :=
  let! v := readl reg in
  if busy v then
    match n with
    | O => ret (- ETIMEOUT)
    | Datatypes.S n => time_mdelay 1;; wait_loop n reg busy
    end
  else ret OK.

Definition hwmsgbox_wait_queue_not_full (queue timeout : Z) : M Z :=
  wait_loop (Z.to_nat timeout) (MSGBOX_RISC_TO_ARM_MSG_STATUS_REG queue)
    (fun v => v =? HWMSGBOX_FIFO_DEPTH).
Definition hwmsgbox_wait_queue_space (queue words timeout : Z) : M Z :=
  if HWMSGBOX_FIFO_DEPTH <? words then ret (- EINVAL)
  else wait_loop (Z.to_nat timeout) (MSGBOX_RISC_TO_ARM_MSG_STATUS_REG queue)
         (fun v => HWMSGBOX_FIFO_DEPTH - words <? v).
Definition hwmsgbox_wait_queue_not_empty (queue timeout : Z) : M Z :=
  wait_loop (Z.to_nat timeout) (MSGBOX_ARM_TO_RISC_MSG_STATUS_REG queue) (fun v => v =? 0).

(** [ret = wait(); if (ret != OK) return ret;] in front of [k]. *)
Definition or_return (wait k : M Z) : M Z :=
  let! r := wait in if negb (r =? OK) then ret r else k.

(** ** Sending *)

Definition hwmsgbox_init : M Z :=
  let! _ := ccu_set_mclk_onoff CCU_MOD_CLK_MSGBOX CCU_CLK_ON in
  let! _ := ccu_set_mclk_reset CCU_MOD_CLK_MSGBOX CCU_CLK_NRESET in
  ret OK.
Definition hwmsgbox_exit : M Z :=
  let! _ := ccu_set_mclk_reset CCU_MOD_CLK_MSGBOX CCU_CLK_RESET in
  let! _ := ccu_set_mclk_onoff CCU_MOD_CLK_MSGBOX CCU_CLK_OFF in
  ret OK.

(** The parameters from [i] on, [n] of them. *)
Fixpoint send_paras (n : nat) (i ch timeout : Z) (k : M Z) : M Z :=
  match n with
  | O => k
  | Datatypes.S n =>
      or_return (hwmsgbox_wait_queue_not_full ch timeout)
        (let! v := load_para i in
         writel v (MSGBOX_RISC_TO_ARM_MSG_REG ch);;
         send_paras n (i + 1) ch timeout k)
  end.

(** Header, count and parameters, then [k]. *)
Definition send_frame (ch timeout : Z) (k : M Z) : M Z :=
  or_return (hwmsgbox_wait_queue_not_full ch timeout)
    (let! m := pmessage in
     writel (header_word m) (MSGBOX_RISC_TO_ARM_MSG_REG ch);;
     or_return (hwmsgbox_wait_queue_not_full ch timeout)
       (let! m := pmessage in
        writel (m_count m) (MSGBOX_RISC_TO_ARM_MSG_REG ch);;
        send_paras (Z.to_nat (m_count m)) 0 ch timeout k)).

(** The words of a frame body, stored below [capacity]. *)
Fixpoint receive_paras (n : nat) (i queue capacity timeout : Z) (fail : Z -> M Z) (k : M Z) : M Z :=
  match n with
  | O => k
  | Datatypes.S n =>
      let! r := hwmsgbox_wait_queue_not_empty queue timeout in
      if negb (r =? OK) then fail r
      else
        let! value := readl (MSGBOX_ARM_TO_RISC_MSG_REG queue) in
        (if i <? capacity then store_para i value else ret tt);;
        receive_paras n (i + 1) queue capacity timeout fail k
  end.

(** A frame: the header, the count masked to a byte, the parameters; [fail]
    on a timeout, [k count] at the end. *)
Definition receive_frame (queue capacity timeout : Z) (fail : Z -> M Z) (k : Z -> M Z) : M Z :=
  let! r := hwmsgbox_wait_queue_not_empty queue timeout in
  if negb (r =? OK) then fail r
  else
    let! value := readl (MSGBOX_ARM_TO_RISC_MSG_REG queue) in
    take_header value;;
    let! r := hwmsgbox_wait_queue_not_empty queue timeout in
    if negb (r =? OK) then fail r
    else
      let! value := readl (MSGBOX_ARM_TO_RISC_MSG_REG queue) in
      let count := Z.land value 0xff in
      set_message (with_count count);;
      receive_paras (Z.to_nat count) 0 queue capacity timeout fail (k count).

Definition hwmsgbox_send_message (p : pointer) (timeout : Z) : M Z :=
  let! bad := invalid_message p m_count in
  if bad : bool then ret (- EINVAL)
  else
    let! m := pmessage in
    let response_capacity := m_count m in
    let frame_words := MESSAGE_FRAME_HEADER_WORDS + m_count m in
    let syn := negb (Z.land (m_attr m) MESSAGE_ATTR_HARDSYN =? 0) in
    or_return
      (if frame_words <=? HWMSGBOX_FIFO_DEPTH then
         hwmsgbox_wait_queue_space (if syn then HWMSGBOX_RISC_SYN_TX_CH else HWMSGBOX_RISC_ASYN_TX_CH)
           frame_words timeout
       else ret OK)
      (if syn then
         INF "send syn message\n" [];;
         send_frame HWMSGBOX_RISC_SYN_TX_CH timeout
           (receive_frame HWMSGBOX_RISC_SYN_RX_CH response_capacity timeout ret
              (fun response_count => if response_capacity <? response_count then ret (- E2BIG) else ret OK))
       else
         INF "send asyn message\n" [];;
         send_frame HWMSGBOX_RISC_ASYN_TX_CH timeout (ret OK)).

Definition hwmsgbox_feedback_message (p : pointer) (timeout : Z) : M Z :=
  let! bad := invalid_message p m_count in
  if bad : bool then ret (- EINVAL)
  else
    let! m := pmessage in
    if negb (Z.land (m_attr m) MESSAGE_ATTR_HARDSYN =? 0) then
      INF "send feedback message\n" [];;
      send_frame HWMSGBOX_ARM_SYN_RX_CH timeout
        (let! m := pmessage in
         INF "feedback hard syn message : %x\n" [N_ (m_type m)];;
         ret OK)
    else ret (- ESRCH).

(** ** Receiving *)

(** [for (i = 0; i < HWMSGBOX_RX_DRAIN_MAX && readl(status); i++) readl(msg)] *)
Fixpoint drain_loop (n : nat) (queue : Z) : M unit :=
  match n with
  | O => ret tt
  | Datatypes.S n =>
      let! v := readl (MSGBOX_ARM_TO_RISC_MSG_STATUS_REG queue) in
      if v =? 0 then ret tt
      else
        let! _ := readl (MSGBOX_ARM_TO_RISC_MSG_REG queue) in
        drain_loop n queue
  end.

Definition hwmsgbox_receive_message (queue para_capacity timeout : Z) : M Z :=
  receive_frame queue para_capacity timeout
    (fun r =>
       drain_loop HWMSGBOX_RX_DRAIN_MAX queue;;
       hwmsgbox_clear_receiver_pending queue;;
       ret r)
    (fun count =>
       hwmsgbox_clear_receiver_pending queue;;
       if para_capacity <? count then ret (- E2BIG) else ret OK).

Definition hwmsgbox_query_message (p : pointer) (para_capacity timeout : Z) : M Z :=
  let! bad := invalid_message p (fun _ => para_capacity) in
  if bad : bool then ret (- EINVAL)
  else
    let! v := readl (MSGBOX_ARM_TO_RISC_MSG_STATUS_REG HWMSGBOX_RISC_ASYN_RX_CH) in
    if MESSAGE_FRAME_HEADER_WORDS <=? v then
      LOG "query asyn msg\n" [];;
      hwmsgbox_receive_message HWMSGBOX_RISC_ASYN_RX_CH para_capacity timeout
    else
      let! v := readl (MSGBOX_ARM_TO_RISC_MSG_STATUS_REG HWMSGBOX_ARM_SYN_TX_CH) in
      if MESSAGE_FRAME_HEADER_WORDS <=? v then
        LOG "query syn msg\n" [];;
        hwmsgbox_receive_message HWMSGBOX_ARM_SYN_TX_CH para_capacity timeout
      else ret FAIL.

Definition hwmsgbox_super_standby_init : M Z := let! _ := hwmsgbox_exit in ret OK.
Definition hwmsgbox_super_standby_exit : M Z := let! _ := hwmsgbox_init in ret OK.
End Msgbox.
