(* ===== verification/MsgboxProps.v ===== *)
(** * Frames arrive whole, in order, and as they were sent

    The FIFOs are hardware: their contract is a relation between what the
    status and data registers show and the history of the run. *)

From Stdlib Require Import String.
From S2P Require Import Prelude Machine Console Firmware Cpucfg Prcm Uart Timer TimerProps Msgbox.

Local Open Scope list_scope.
Local Open Scope Z_scope.
Local Open Scope mach_scope.

(** The registers of queue 3, the only one the firmware uses. *)
Definition RX_STATUS : Z := MSGBOX_ARM_TO_RISC_MSG_STATUS_REG 3.
Definition RX_DATA : Z := MSGBOX_ARM_TO_RISC_MSG_REG 3.
Definition TX_STATUS : Z := MSGBOX_RISC_TO_ARM_MSG_STATUS_REG 3.
Definition TX_DATA : Z := MSGBOX_RISC_TO_ARM_MSG_REG 3.

(** The words of a message. *)
Definition para_words (m : message) : list Z := match paras m with Some l => l | None => [] end.
Definition frame (m : message) : list Z :=
  header_word m :: m_count m :: take (Z.to_nat (m_count m)) (para_words m).

(** The bytes of a header word. *)
Lemma header_bytes m :
  is_u8 (m_state m) -> is_u8 (m_attr m) -> is_u8 (m_type m) -> is_u8 (m_result m) ->
  let w := header_word m in
  Z.land w 0xff = m_state m /\ Z.land (Z.shiftr w 8) 0xff = m_attr m /\
  Z.land (Z.shiftr w 16) 0xff = m_type m /\ Z.land (Z.shiftr w 24) 0xff = m_result m.
Proof.
  unfold is_u8, header_word. generalize (m_state m) (m_attr m) (m_type m) (m_result m).
  intros a b c d Ha Hb Hc Hd. cbv zeta.
  rewrite (lor_shiftl a b 8), (lor_shiftl _ c 16), (lor_shiftl _ d 24), u32_small by lia.
  change 0xff with (Z.ones 8). rewrite !Z.land_ones, !Z.shiftr_div_pow2 by lia.
  change (2 ^ 8) with 256. change (2 ^ 16) with 65536. change (2 ^ 24) with 16777216.
  split_and!; Z.div_mod_to_equations; lia.
Qed.

Section Box.
Context {C S : Type} `{HPrint : HasPrintf C} `{HMessage : !Part message S}.
Implicit Types (e : env C) (s : S) (h : history C).

(** Words taken from the receive FIFO, and the words put in the other. *)
Fixpoint popped h : nat :=
  match h with
  | Rd a _ :: h => if a =? RX_DATA then Datatypes.S (popped h) else popped h
  | _ :: h => popped h
  | [] => O
  end.
Fixpoint sent h : list Z :=
  match h with
  | Wr a v :: h => if a =? TX_DATA then sent h ++ [v] else sent h
  | _ :: h => sent h
  | [] => []
  end.

(** An event that neither FIFO notices. *)
Definition calm (ev : event C) : Prop :=
  match ev with
  | Rd a _ => a <> RX_DATA
  | Wr a _ => a <> TX_DATA
  | _ => True
  end.

(** An event that takes no time: a look at the receive FIFO, a word taken from
    it, its interrupt cleared, a print. *)
Definition instant (ev : event C) : Prop :=
  match ev with
  | Rd a _ => a = RX_STATUS \/ a = RX_DATA
  | Wr a _ => a = MSGBOX_ARM_TO_RISC_IRQ_STATUS_REG
  | Call c _ => exists text args, c = printf_call text args
  | _ => False
  end.
(** [h'] comes after [h] without a delay. *)
Definition at_once h h' : Prop := exists new, h' = new ++ h /\ Forall instant new.

Lemma at_once_refl h : at_once h h.
Proof. by exists []. Qed.
Lemma at_once_trans h1 h2 h3 : at_once h1 h2 -> at_once h2 h3 -> at_once h1 h3.
Proof. intros (n1 & -> & F1) (n2 & -> & F2). exists (n2 ++ n1). rewrite <- app_assoc. split; [done|by apply Forall_app]. Qed.
Lemma at_once_suffix h h' : at_once h h' -> h `suffix_of` h'.
Proof. intros (new & -> & _). by exists new. Qed.
Lemma at_once_cons ev h h' : instant ev -> at_once h h' -> at_once h (ev :: h').
Proof. intros Hev (new & -> & Hn). exists (ev :: new). split; [done|by constructor]. Qed.

Lemma popped_calm new h : Forall calm new -> popped (new ++ h) = popped h.
Proof.
  induction 1 as [|ev new Hev _ IH]; [done|]. destruct ev; cbn in *; try done.
  by rewrite (proj2 (Z.eqb_neq _ _) Hev).
Qed.
Lemma sent_calm new h : Forall calm new -> sent (new ++ h) = sent h.
Proof.
  induction 1 as [|ev new Hev _ IH]; [done|]. destruct ev; cbn in *; try done.
  by rewrite (proj2 (Z.eqb_neq _ _) Hev).
Qed.

(** ** The delay between two looks at a FIFO *)

(** What the code relies on in [time_mdelay]: it leaves the statics and the
    message box alone; [K] says how it may fail to return. *)
Context (time_mdelay : Z -> M C S unit) (K : stop -> S -> history C -> Prop).
Record delays e (good : S -> Prop) : Prop := {
  delay_calm : forall s h, good s ->
    wp (time_mdelay 1) e s h (fun _ s' h' => s' = s /\ exists new, h' = new ++ h /\ Forall calm new) K;
  good_message : forall (m : message) s, good s -> good (set_part m s)
}.

(** A wait ends on a look at the status; nothing else happened to the FIFOs. *)
Lemma wait_spec n reg busy e good s h :
  delays e good -> good s -> reg <> RX_DATA ->
  wp (wait_loop time_mdelay n reg busy) e s h (fun r s' h' => s' = s /\
    exists new v, h' = Rd reg v :: new ++ h /\ Forall calm new /\ v = u32 (env_read e (new ++ h) reg) /\
      (r = OK /\ busy v = false \/ r = - ETIMEOUT /\ busy v = true)) K.
Proof.
  intros Hd Hg Hreg. revert h. induction n as [|n IH]; intros h; cbn [wait_loop];
    apply wp_bind, wp_readl; intros v _ Ev; destruct (busy v) eqn:Eb.
  - apply wp_ret. split; [done|]. exists [], v. split_and!; [done|done|done|by right].
  - apply wp_ret. split; [done|]. exists [], v. split_and!; [done|done|done|by left].
  - apply wp_bind. eapply wp_mono; [by apply (delay_calm e good Hd)|].
    intros [] s1 h1 (-> & n1 & -> & Hn1). eapply wp_mono; [apply IH|].
    intros r s2 h2 (-> & n2 & w & -> & Hn2 & Ew & Hcase). split; [done|].
    exists (n2 ++ n1 ++ [Rd reg v]), w. rewrite <- !app_assoc. split_and!; [done| |done|done].
    apply Forall_app. split; [done|]. apply Forall_app. split; [done|]. by constructor.
  - apply wp_ret. split; [done|]. exists [], v. split_and!; [done|done|done|by left].
Qed.

(** ** Receiving *)

Section Receive.
Context (stream : nat -> Z) (arrived : history C -> nat).

(** Word [i] that ever arrives is [stream i]; [arrived h] of them have. *)
Record rx_fifo e : Prop := {
  rx_mono : forall ev h, (arrived h <= arrived (ev :: h))%nat;
  rx_status : forall h, u32 (env_read e h RX_STATUS) = Z.of_nat (arrived h - popped h);
  rx_data : forall h, (popped h < arrived h)%nat -> u32 (env_read e h RX_DATA) = stream (popped h)
}.

Lemma arrived_app e new h : rx_fifo e -> (arrived h <= arrived (new ++ h))%nat.
Proof.
  intros He. induction new as [|ev new IH]; cbn [app]; [lia|].
  assert (H := rx_mono e He ev (new ++ h)). lia.
Qed.

Lemma arrived_suffix e h h' : rx_fifo e -> h `suffix_of` h' -> (arrived h <= arrived h')%nat.
Proof. intros He [new ->]. by apply (arrived_app e). Qed.

(** The last look of a wait that began at [h] found the queue empty. *)
Definition stalled h h' : Prop :=
  exists v h1, h' = Rd RX_STATUS v :: h1 /\ h `suffix_of` h1 /\ (arrived h1 <= popped h1)%nat.

Lemma stalled_before h0 h h' : h0 `suffix_of` h -> stalled h h' -> stalled h0 h'.
Proof. intros H0 (v & h1 & -> & Hx & Ha). exists v, h1. split; [done|]. split; [by etransitivity|done]. Qed.

(** Waiting for a word. *)
Lemma not_empty_spec timeout e good s h :
  delays e good -> good s -> rx_fifo e ->
  wp (hwmsgbox_wait_queue_not_empty time_mdelay 3 timeout) e s h (fun r s' h' => s' = s /\
    popped h' = popped h /\ sent h' = sent h /\ h `suffix_of` h' /\
    (r = OK /\ (popped h' < arrived h')%nat \/ r = - ETIMEOUT /\ stalled h h')) K.
Proof.
  intros Hd Hg He. eapply wp_mono; [by apply (wait_spec _ _ _ e good)|].
  intros r s' h' (-> & new & v & -> & Hn & Ev & Hcase). fold RX_STATUS in *.
  assert (Forall calm (Rd RX_STATUS v :: new)) as Hc by (constructor; done).
  split; [done|]. change (Rd RX_STATUS v :: new ++ h) with ((Rd RX_STATUS v :: new) ++ h).
  rewrite (popped_calm (Rd RX_STATUS v :: new) h Hc), (sent_calm (Rd RX_STATUS v :: new) h Hc).
  split_and!; [done|done|by exists (Rd RX_STATUS v :: new)|]. destruct Hcase as [[-> Hv]|[-> Hv]]; [left|right]; (split; [done|]).
  2:{ exists v, (new ++ h). split; [done|]. split; [by exists new|].
      apply Z.eqb_eq in Hv. rewrite (rx_status e He) in Ev. lia. }
  rewrite (rx_status e He) in Ev. apply Z.eqb_neq in Hv. rewrite (popped_calm new h Hn) in Ev.
  assert (H := rx_mono e He (Rd RX_STATUS v) (new ++ h)). cbn [app]. lia.
Qed.

(** Taking a word that is there. *)
Lemma wp_pop e s h (Q : Z -> S -> history C -> Prop) K' :
  rx_fifo e -> (popped h < arrived h)%nat ->
  (forall h', popped h' = Datatypes.S (popped h) -> sent h' = sent h ->
     h `suffix_of` h' -> Q (stream (popped h)) s h') -> wp (readl RX_DATA) e s h Q K'.
Proof.
  intros He Hp HQ. apply wp_readl. intros v _ ->. rewrite (rx_data e He h Hp).
  apply HQ; [cbn [popped]; by rewrite Z.eqb_refl|done|by eexists [_]].
Qed.

(** What a frame at word [p] of the stream says. *)
Definition count_at (p : nat) : Z := Z.land (stream (p + 1)) 0xff.
Definition header_of (v : Z) (m : message) : message :=
  with_header (Z.land v 0xff) (Z.land (Z.shiftr v 8) 0xff) (Z.land (Z.shiftr v 16) 0xff)
    (Z.land (Z.shiftr v 24) 0xff) m.
(** The first words of a buffer replaced. *)
Definition overwrite (vs l : list Z) : list Z := vs ++ drop (length vs) l.
Definition words (p n : nat) : list Z := map stream (seq p n).
Definition decoded (p : nat) (capacity : Z) (m : message) : message :=
  with_paras (option_map (overwrite (words (p + 2) (Z.to_nat (Z.min (count_at p) capacity)))) (paras m))
    (with_count (count_at p) (header_of (stream p) m)).

(** The message once [j] words of that frame are in. *)
Definition received (p j : nat) (capacity : Z) (m : message) : message :=
  match j with
  | O => m
  | Datatypes.S O => header_of (stream p) m
  | Datatypes.S (Datatypes.S i) =>
      with_paras (option_map (overwrite (words (p + 2) (Z.to_nat (Z.min (Z.of_nat i) capacity)))) (paras m))
        (with_count (count_at p) (header_of (stream p) m))
  end.

Lemma count_at_range p : 0 <= count_at p < 256.
Proof. unfold count_at. change 0xff with (Z.ones 8). rewrite Z.land_ones by lia. apply Z.mod_pos_bound. lia. Qed.

(** Words stored one by one, those past the capacity dropped. *)
Fixpoint put_words (i capacity : Z) (ws l : list Z) : list Z :=
  match ws with
  | [] => l
  | w :: ws => put_words (i + 1) capacity ws (if i <? capacity then <[Z.to_nat i := w]> l else l)
  end.

Lemma put_words_past i capacity ws l : capacity <= i -> put_words i capacity ws l = l.
Proof.
  revert i. induction ws as [|w ws IH]; intros i Hi; cbn [put_words]; [done|].
  destruct (Z.ltb_spec i capacity); [lia|]. apply IH. lia.
Qed.

Lemma put_words_eq (i : nat) (capacity : Z) ws l :
  (i <= length l)%nat -> capacity <= Z.of_nat (length l) ->
  put_words (Z.of_nat i) capacity ws l =
    take i l ++ take (Z.to_nat capacity - i) ws ++ drop (i + min (length ws) (Z.to_nat capacity - i)) l.
Proof.
  revert i l. induction ws as [|w ws IH]; intros i l Hi Hc.
  { cbn [put_words length]. rewrite take_nil, Nat.min_0_l, Nat.add_0_r. cbn [app]. by rewrite take_drop. }
  destruct (Z.le_gt_cases capacity (Z.of_nat i)).
  { rewrite put_words_past by done. replace (Z.to_nat capacity - i)%nat with O by lia.
    rewrite take_0, Nat.min_0_r, Nat.add_0_r. cbn [app]. by rewrite take_drop. }
  cbn [put_words]. destruct (Z.ltb_spec (Z.of_nat i) capacity); [|lia].
  replace (Z.of_nat i + 1) with (Z.of_nat (Datatypes.S i)) by lia.
  rewrite Nat2Z.id, IH by (rewrite length_insert; lia).
  replace (Z.to_nat capacity - i)%nat with (Datatypes.S (Z.to_nat capacity - Datatypes.S i)) by lia.
  cbn [take length]. rewrite <- Nat.succ_min_distr.
  rewrite (take_S_r _ i w) by (apply list_lookup_insert_eq; lia).
  rewrite take_insert_ge by lia. rewrite <- app_assoc. cbn [app]. do 3 f_equal.
  rewrite drop_insert_lt by lia. f_equal. lia.
Qed.

(** The buffer holds what the caller promises. *)
Definition capacity_ok (capacity : Z) (m : message) : Prop :=
  match paras m with Some l => capacity <= Z.of_nat (length l) | None => capacity <= 0 end.

Definition store_words (i capacity : Z) (ws : list Z) (m : message) : message :=
  with_paras (option_map (put_words i capacity ws) (paras m)) m.

Lemma store_words_nil i capacity m : store_words i capacity [] m = m.
Proof. unfold store_words. destruct m as [? ? ? ? ? [l|]]; done. Qed.

(** One parameter. *)
Lemma wp_store_word i capacity v e s h (Q : unit -> S -> history C -> Prop) :
  0 <= i -> capacity_ok capacity (part s) ->
  Q tt (set_part (store_words i capacity [v] (part s)) s) h ->
  wp (if i <? capacity then store_para i v else ret tt) e s h Q K.
Proof.
  intros Hi Hc HQ. unfold store_words in HQ. cbn [put_words] in HQ. destruct (Z.ltb_spec i capacity).
  - unfold store_para, load_para, set_message, pmessage. unfold capacity_ok in Hc.
    destruct (paras (part s)) as [l|] eqn:El; [|lia].
    destruct (lookup_lt_is_Some_2 l (Z.to_nat i)) as [w Hw]; [lia|].
    do 2 apply wp_bind. apply wp_getp. rewrite El, Hw. apply wp_ret, wp_bind, wp_getp, wp_putp. by rewrite El.
  - apply wp_ret. assert (store_words i capacity [] (part s) = part s) as E by apply store_words_nil.
    unfold store_words in E. cbn [put_words] in E. rewrite E, set_same in HQ. exact HQ.
Qed.

Lemma words_cons q n : words q (Datatypes.S n) = stream q :: words (Datatypes.S q) n.
Proof. done. Qed.

Lemma receive_paras_spec (n : nat) (i : nat) capacity timeout fail k e good s h Q :
  delays e good -> good s -> rx_fifo e -> capacity_ok capacity (part s) ->
  (forall h', popped h' = (popped h + n)%nat -> sent h' = sent h -> h `suffix_of` h' ->
     wp k e (set_part (store_words (Z.of_nat i) capacity (words (popped h) n) (part s)) s) h' Q K) ->
  (forall h' j, (j < n)%nat -> popped h' = (popped h + j)%nat -> sent h' = sent h -> stalled h h' ->
     wp (fail (- ETIMEOUT)) e (set_part (store_words (Z.of_nat i) capacity (words (popped h) j) (part s)) s) h' Q K) ->
  wp (receive_paras time_mdelay n (Z.of_nat i) 3 capacity timeout fail k) e s h Q K.
Proof.
  intros Hd Hg He. revert i s h Hg. induction n as [|n IH]; intros i s h Hg Hc Hk Hf; cbn [receive_paras].
  { specialize (Hk h). rewrite store_words_nil, set_same in Hk. apply Hk; lia || done. }
  apply wp_bind. eapply wp_mono; [by apply (not_empty_spec timeout e good)|].
  intros r s1 h1 (-> & Hp1 & Hs1 & Hx1 & Hcase). destruct (Z.eqb_spec r OK) as [->|Hr]; cbn [negb].
  2:{ destruct Hcase as [[-> _]|[-> Hst]]; [done|]. specialize (Hf h1 O). rewrite store_words_nil, set_same in Hf. apply Hf; lia || done. }
  destruct Hcase as [[_ Hav]|[? _]]; [|done]. apply wp_bind. fold RX_DATA. apply wp_pop; [done|done|].
  intros h2 Hp2 Hs2 Hx2. apply wp_bind. apply wp_store_word; [lia|done|].
  replace (Z.of_nat i + 1) with (Z.of_nat (Datatypes.S i)) by lia.
  rewrite Hp1 in *. assert (h `suffix_of` h2) as Hx by by etransitivity.
  assert (forall j, set_part (store_words (Z.of_nat (Datatypes.S i)) capacity (words (Datatypes.S (popped h)) j)
        (part (set_part (store_words (Z.of_nat i) capacity [stream (popped h)] (part s)) s)))
        (set_part (store_words (Z.of_nat i) capacity [stream (popped h)] (part s)) s)
      = set_part (store_words (Z.of_nat i) capacity (words (popped h) (Datatypes.S j)) (part s)) s) as Hstep.
  { intros j. rewrite part_set, set_set, words_cons. f_equal. unfold store_words. cbn [paras with_paras].
    destruct (part s) as [st at_ ty re ct [l|]]; [|done]. cbn [paras option_map put_words].
    replace (Z.of_nat i + 1) with (Z.of_nat (Datatypes.S i)) by lia. done. }
  apply IH.
  - by apply (good_message e good Hd).
  - rewrite part_set. unfold capacity_ok, store_words in *. cbn [paras with_paras].
    destruct (paras (part s)) as [l|]; cbn [option_map put_words]; [|done].
    destruct (Z.of_nat i <? capacity); [by rewrite length_insert|done].
  - intros h3 Hp3 Hs3 Hx3. rewrite Hp2 in *. rewrite Hstep. apply Hk; [lia|congruence|by etransitivity].
  - intros h3 j Hj Hp3 Hs3 Hst. rewrite Hp2 in *. rewrite Hstep.
    apply Hf; [lia|lia|congruence|by eapply stalled_before].
Qed.

(** The buffer after [n] parameters. *)
Lemma stored_words p n capacity m : capacity_ok capacity m -> 0 <= n ->
  store_words (Z.of_nat 0) capacity (words (p + 2) (Z.to_nat n)) (with_count (count_at p) (header_of (stream p) m))
  = received p (2 + Z.to_nat n) capacity m.
Proof.
  intros Hc Hn. unfold store_words. unfold capacity_ok in Hc. cbn [Nat.add received]. rewrite Z2Nat.id by done.
  destruct m as [st at_ ty re ct [l|]]; [|done]. cbn [paras option_map] in *.
  unfold with_paras, with_count, header_of, with_header; cbn [m_state m_attr m_type m_result m_count paras option_map].
  do 2 f_equal. rewrite put_words_eq by lia. unfold overwrite, words.
  assert (Z.to_nat (Z.min n capacity) = min (Z.to_nat capacity) (Z.to_nat n)) as -> by lia.
  rewrite Nat.sub_0_r, firstn_map, take_seq, !length_map, !length_seq. cbn [take app Nat.add].
  by rewrite (Nat.min_comm (Z.to_nat n)).
Qed.

Lemma decoded_received p capacity m : decoded p capacity m = received p (2 + Z.to_nat (count_at p)) capacity m.
Proof. assert (H := count_at_range p). unfold decoded. cbn [Nat.add received]. by rewrite Z2Nat.id by lia. Qed.

(** A whole frame from word [popped h] on, or the words in front of a stall. *)
Lemma receive_frame_spec capacity timeout fail k e good s h Q :
  delays e good -> good s -> rx_fifo e -> capacity_ok capacity (part s) ->
  let p := popped h in
  (forall h', popped h' = (p + 2 + Z.to_nat (count_at p))%nat -> sent h' = sent h -> h `suffix_of` h' ->
     wp (k (count_at p)) e (set_part (decoded p capacity (part s)) s) h' Q K) ->
  (forall h' j, (j < 2 + Z.to_nat (count_at p))%nat -> popped h' = (p + j)%nat -> sent h' = sent h -> stalled h h' ->
     wp (fail (- ETIMEOUT)) e (set_part (received p j capacity (part s)) s) h' Q K) ->
  wp (receive_frame time_mdelay 3 capacity timeout fail k) e s h Q K.
Proof.
  intros Hd Hg He Hc p Hk Hf. unfold receive_frame, take_header, set_message, pmessage.
  apply wp_bind. eapply wp_mono; [by apply (not_empty_spec timeout e good)|].
  intros r s1 h1 (-> & Hp1 & Hs1 & Hx1 & Hcase). destruct (Z.eqb_spec r OK) as [->|Hr]; cbn [negb].
  2:{ destruct Hcase as [[-> _]|[-> Hst]]; [done|]. specialize (Hf h1 O). cbn [received] in Hf. rewrite set_same in Hf.
      apply Hf; [lia|lia|done|done]. }
  destruct Hcase as [[_ Hav]|[? _]]; [|done]. apply wp_bind. fold RX_DATA. apply wp_pop; [done|done|].
  intros h2 Hp2 Hs2 Hx2. apply wp_bind, wp_bind, wp_getp, wp_putp. rewrite Hp1 in *. fold p in Hp2 |- *.
  set (s2 := set_part (with_header _ _ _ _ (part s)) s). assert (h `suffix_of` h2) as Hx02 by by etransitivity.
  assert (good s2) as Hg2 by by apply (good_message e good Hd).
  apply wp_bind. eapply wp_mono; [by apply (not_empty_spec timeout e good)|].
  intros r s3 h3 (-> & Hp3 & Hs3 & Hx3 & Hcase3). destruct (Z.eqb_spec r OK) as [->|Hr]; cbn [negb].
  2:{ destruct Hcase3 as [[-> _]|[-> Hst]]; [done|]. apply (Hf h3 1%nat); [lia|lia|congruence|by eapply stalled_before]. }
  destruct Hcase3 as [[_ Hav3]|[? _]]; [|done]. apply wp_bind. apply wp_pop; [done|done|].
  intros h4 Hp4 Hs4 Hx4. cbv zeta. apply wp_bind, wp_bind, wp_getp, wp_putp. rewrite Hp3, Hp2 in *.
  assert (h `suffix_of` h4) as Hx04 by (etransitivity; [exact Hx02|by etransitivity]).
  replace (Datatypes.S p) with (p + 1)%nat by lia. change (Z.land (stream (p + 1)) 255) with (count_at p).
  set (s4 := set_part (with_count (count_at p) (part s2)) s2).
  assert (good s4) as Hg4 by by apply (good_message e good Hd).
  assert (forall n, 0 <= n -> set_part (store_words (Z.of_nat 0) capacity (words (Datatypes.S (Datatypes.S p)) (Z.to_nat n)) (part s4)) s4
    = set_part (received p (2 + Z.to_nat n) capacity (part s)) s) as Hstored.
  { intros n Hn. unfold s4, s2. rewrite !part_set, !set_set. f_equal. rewrite <- (stored_words p n capacity (part s)) by done.
    by replace (Datatypes.S (Datatypes.S p)) with (p + 2)%nat by lia. }
  assert (Hrange := count_at_range p).
  apply (receive_paras_spec _ 0 capacity timeout fail (k (count_at p)) e good s4 h4 Q); [done|done|done| | |].
  - unfold s4, s2. rewrite !part_set. exact Hc.
  - intros h5 Hp5 Hs5 Hx5. rewrite Hp4 in *. rewrite Hstored by lia. rewrite <- decoded_received.
    apply Hk; [lia|congruence|by etransitivity].
  - intros h5 j Hj Hp5 Hs5 Hst. rewrite Hp4 in *. rewrite <- (Nat2Z.id j), Hstored by lia. rewrite Nat2Z.id.
    apply (Hf h5 (2 + j)%nat); [lia|lia|congruence|by eapply stalled_before].
Qed.

(** ** A frame that is there is taken without a delay *)

(** The next word is there: the wait ends on its first look. *)
Lemma ready_word timeout (fail : Z -> M C S Z) (k : Z -> M C S Z) e s h Q :
  rx_fifo e -> (popped h < arrived h)%nat ->
  (forall h', popped h' = Datatypes.S (popped h) -> sent h' = sent h -> at_once h h' ->
     wp (k (stream (popped h))) e s h' Q K) ->
  wp (let! r := hwmsgbox_wait_queue_not_empty time_mdelay 3 timeout in
      if negb (r =? OK) then fail r else let! v := readl RX_DATA in k v) e s h Q K.
Proof.
  intros He Hp Hk. assert (hwmsgbox_wait_queue_not_empty time_mdelay 3 timeout e s h
    = Done OK s (Rd RX_STATUS (u32 (env_read e h RX_STATUS)) :: h)) as E.
  { unfold hwmsgbox_wait_queue_not_empty. fold RX_STATUS. destruct (Z.to_nat timeout); cbn [wait_loop]; unfold bind, readl;
      rewrite (rx_status e He), (proj2 (Z.eqb_neq _ 0)) by lia; done. }
  apply wp_bind. unfold wp at 1. rewrite E. rewrite Z.eqb_refl. cbn [negb]. set (h1 := Rd RX_STATUS _ :: h).
  assert (Hm := rx_mono e He (Rd RX_STATUS (u32 (env_read e h RX_STATUS))) h). fold h1 in Hm.
  apply wp_bind, wp_readl. intros v _ ->. rewrite (rx_data e He h1) by (change (popped h1) with (popped h); lia).
  change (popped h1) with (popped h). apply Hk; [cbn [popped]; by rewrite Z.eqb_refl|done|apply (at_once_cons (Rd RX_DATA _)); [by right|]; apply at_once_cons; [by left|apply at_once_refl]].
Qed.

(** A whole frame is there. *)
Definition whole h : Prop := (popped h + 2 + Z.to_nat (count_at (popped h)) <= arrived h)%nat.

Lemma paras_ready n i timeout fail k e s h Q :
  rx_fifo e -> 0 <= i -> (popped h + n <= arrived h)%nat ->
  (forall h', popped h' = (popped h + n)%nat -> sent h' = sent h -> at_once h h' -> wp k e s h' Q K) ->
  wp (receive_paras time_mdelay n i 3 0 timeout fail k) e s h Q K.
Proof.
  intros He. revert i h. induction n as [|n IH]; intros i h Hi Hp Hk; cbn [receive_paras].
  { by apply Hk; [lia| |apply at_once_refl]. }
  apply (ready_word timeout fail (fun v => _)); [done|lia|]. intros h1 Hp1 Hs1 Hx1.
  assert (Ha := arrived_suffix e _ _ He (at_once_suffix _ _ Hx1)). destruct (Z.ltb_spec i 0); [lia|]. apply wp_bind, wp_ret. apply IH; [lia|lia|].
  intros h2 Hp2 Hs2 Hx2. apply Hk; [lia|congruence|by eapply at_once_trans].
Qed.

Lemma query_ready timeout e s h : rx_fifo e -> whole h ->
  let p := popped h in let c := count_at p in
  wp (hwmsgbox_query_message time_mdelay There 0 timeout) e s h (fun r s' h' =>
    r = (if 0 <? c then - E2BIG else OK) /\ s' = set_part (with_count c (header_of (stream p) (part s))) s /\
    popped h' = (p + 2 + Z.to_nat c)%nat /\ sent h' = sent h /\ at_once h h') K.
Proof.
  intros He Hw p c. unfold whole in Hw. fold p c in Hw. assert (Hc := count_at_range p). fold c in Hc.
  unfold hwmsgbox_query_message, invalid_message, pmessage, LOG.
  do 2 apply wp_bind. apply wp_getp, wp_ret. change (MESSAGE_PARA_MAX <? 0) with false. cbn [Z.eqb negb andb orb].
  apply wp_bind, wp_readl. intros v _ Ev. change (MSGBOX_ARM_TO_RISC_MSG_STATUS_REG HWMSGBOX_RISC_ASYN_RX_CH) with RX_STATUS in *.
  rewrite (rx_status e He) in Ev. subst v. unfold MESSAGE_FRAME_HEADER_WORDS.
  destruct (Z.leb_spec 2 (Z.of_nat (arrived h - popped h))); [|lia]. apply wp_bind, wp_printf. intros q.
  set (h1 := Call _ q :: _). assert (popped h1 = p /\ sent h1 = sent h) as [Hp1 Hs1] by done.
  assert (at_once h h1) as Hx1.
  { apply at_once_cons; [by eexists _, _|]. apply at_once_cons; [by left|apply at_once_refl]. }
  assert (Ha1 := arrived_suffix e _ _ He (at_once_suffix _ _ Hx1)).
  unfold hwmsgbox_receive_message, receive_frame, take_header, set_message, pmessage.
  apply (ready_word timeout _ (fun v => _)); [done|lia|]. intros h2 Hp2 Hs2 Hx2. assert (Ha2 := arrived_suffix e _ _ He (at_once_suffix _ _ Hx2)).
  do 2 apply wp_bind. apply wp_getp, wp_putp.
  apply (ready_word timeout _ (fun v => _)); [done|lia|]. intros h3 Hp3 Hs3 Hx3. assert (Ha3 := arrived_suffix e _ _ He (at_once_suffix _ _ Hx3)).
  cbv zeta. do 2 apply wp_bind. apply wp_getp, wp_putp.
  rewrite Hp2, Hp1. replace (Z.land (stream (Datatypes.S p)) 0xff) with c by (unfold c, count_at; do 2 f_equal; lia).
  apply paras_ready; [done|lia|lia|]. intros h4 Hp4 Hs4 Hx4. unfold hwmsgbox_clear_receiver_pending. apply wp_bind, wp_writel.
  rewrite !part_set, set_set. assert (at_once h h4) as Hx by eauto using at_once_trans.
  destruct (0 <? c); apply wp_ret;
    (split; [done|]); (split; [done|]); (split; [cbn [popped]; lia|]); (split; [cbn [sent]; change (MSGBOX_ARM_TO_RISC_IRQ_STATUS_REG =? TX_DATA) with false; cbv iota; congruence|by apply at_once_cons]).
Qed.

(** What is in the queue from [h] on is dropped, until it is found empty or 128
    words are gone. *)
Definition dropped h h' : Prop :=
  exists new h1, h' = new ++ h1 /\ h `suffix_of` h1 /\ Forall calm new /\
    (popped h1 = (popped h + HWMSGBOX_RX_DRAIN_MAX)%nat \/ (arrived h1 <= popped h1)%nat).

Lemma drain_spec n e s h :
  rx_fifo e ->
  wp (drain_loop n 3) e s h (fun _ s' h' => s' = s /\ sent h' = sent h /\
    exists new h1, h' = new ++ h1 /\ h `suffix_of` h1 /\ Forall calm new /\
      (popped h1 = (popped h + n)%nat \/ (arrived h1 <= popped h1)%nat)) K.
Proof.
  intros He. revert h. induction n as [|n IH]; intros h; cbn [drain_loop].
  { apply wp_ret. split; [done|]. split; [done|]. exists [], h. split; [done|]. split; [done|]. split; [done|]. left. lia. }
  apply wp_bind, wp_readl. intros v _ Ev. fold RX_STATUS in *. rewrite (rx_status e He) in Ev.
  destruct (Z.eqb_spec v 0) as [Hz|Hnz].
  - apply wp_ret. split; [done|]. split; [done|]. exists [Rd RX_STATUS v], h.
    split; [done|]. split; [done|]. split; [by constructor|]. right. lia.
  - apply wp_bind. fold RX_DATA. apply wp_pop; [done| |].
    { assert (H := rx_mono e He (Rd RX_STATUS v) h). change (popped (Rd RX_STATUS v :: h)) with (popped h). lia. }
    intros h1 Hp Hs Hx. change (popped (Rd RX_STATUS v :: h)) with (popped h) in Hp. cbn [sent] in Hs.
    assert (h `suffix_of` h1) as Hx' by (etransitivity; [by apply suffix_cons_r|exact Hx]).
    eapply wp_mono; [apply IH|]. intros [] s2 h2 (-> & Hs2 & new & h3 & -> & Hx3 & Hn & Hcase).
    split; [done|]. split; [congruence|]. exists new, h3. split; [done|]. split; [by etransitivity|]. split; [done|].
    destruct Hcase as [Hc|Hc]; [left; lia|by right].
Qed.

(** Words in the queue. *)
Definition waiting h : nat := (arrived h - popped h)%nat.

Lemma more_waits e h h' : rx_fifo e -> h `suffix_of` h' -> popped h' = popped h -> (waiting h <= waiting h')%nat.
Proof. intros He Hx Hp. assert (A := arrived_suffix e _ _ He Hx). unfold waiting. lia. Qed.

(** What [hwmsgbox_query_message] does with a valid message: two looks at a
    queue without a whole header; or, a header having been seen, the frame at
    the head of the queue; or those words of it that came before the peer
    stalled, and what was in the queue then dropped. *)
Inductive query_outcome (capacity : Z) s h : Z -> S -> history C -> Prop :=
| Nothing_there : (waiting h < 2)%nat -> (waiting (Rd RX_STATUS (Z.of_nat (waiting h)) :: h) < 2)%nat ->
    query_outcome capacity s h FAIL s
      (Rd RX_STATUS (Z.of_nat (waiting (Rd RX_STATUS (Z.of_nat (waiting h)) :: h))) ::
       Rd RX_STATUS (Z.of_nat (waiting h)) :: h)
| Frame_taken h1 h2 : let p := popped h in
    h `suffix_of` h1 -> popped h1 = p -> (2 <= waiting h1)%nat ->
    h1 `suffix_of` h2 -> popped h2 = (p + 2 + Z.to_nat (count_at p))%nat -> sent h2 = sent h ->
    query_outcome capacity s h (if capacity <? count_at p then - E2BIG else OK)
      (set_part (decoded p capacity (part s)) s) (Wr MSGBOX_ARM_TO_RISC_IRQ_STATUS_REG (BIT 6) :: h2)
| Peer_stalled h1 h2 h3 j : let p := popped h in
    h `suffix_of` h1 -> popped h1 = p -> (2 <= waiting h1)%nat ->
    stalled h1 h2 -> popped h2 = (p + j)%nat -> (2 <= j < 2 + Z.to_nat (count_at p))%nat ->
    dropped h2 h3 -> sent h3 = sent h ->
    query_outcome capacity s h (- ETIMEOUT)
      (set_part (received p j capacity (part s)) s) (Wr MSGBOX_ARM_TO_RISC_IRQ_STATUS_REG (BIT 6) :: h3).

Lemma receive_spec capacity timeout e good s h h0 :
  delays e good -> good s -> rx_fifo e -> capacity_ok capacity (part s) ->
  h0 `suffix_of` h -> popped h = popped h0 -> sent h = sent h0 -> (2 <= waiting h)%nat ->
  wp (hwmsgbox_receive_message time_mdelay 3 capacity timeout) e s h
    (query_outcome capacity s h0) K.
Proof.
  intros Hd Hg He Hc Hx Hp Hs Hw. unfold hwmsgbox_receive_message, hwmsgbox_clear_receiver_pending.
  apply (receive_frame_spec _ _ _ _ e good); [done|done|done|done| |]; rewrite Hp.
  - intros h1 Hp1 Hs1 Hx1. apply wp_bind, wp_writel.
    destruct (capacity <? count_at (popped h0)) eqn:Ec; apply wp_ret;
      [replace (- E2BIG) with (if capacity <? count_at (popped h0) then - E2BIG else OK) by by rewrite Ec
      |replace OK with (if capacity <? count_at (popped h0) then - E2BIG else OK) by by rewrite Ec];
      apply (Frame_taken _ _ _ h h1); try done; congruence.
  - intros h1 j Hj Hp1 Hs1 Hst. apply wp_bind. eapply wp_mono; [by apply drain_spec|].
    intros [] s2 h2 (-> & Hs2 & Hdrop). apply wp_bind, wp_writel, wp_ret.
    apply (Peer_stalled _ _ _ h h1); try done; [|congruence]. split; [|done].
    destruct Hst as (v & h3 & -> & Hx3 & Hempty). cbn [popped] in Hp1. change (RX_STATUS =? RX_DATA) with false in Hp1. cbn match in Hp1.
    assert (Ha := arrived_suffix e _ _ He Hx3). unfold waiting in Hw. lia.
Qed.

Lemma query_spec capacity timeout e good s h :
  delays e good -> good s -> rx_fifo e -> capacity_ok capacity (part s) -> 0 <= capacity <= MESSAGE_PARA_MAX ->
  wp (hwmsgbox_query_message time_mdelay There capacity timeout) e s h (query_outcome capacity s h) K.
Proof.
  intros Hd Hg He Hc Hcap. unfold hwmsgbox_query_message, invalid_message, pmessage, LOG.
  unfold MESSAGE_PARA_MAX in *. do 2 apply wp_bind. apply wp_getp, wp_ret.
  destruct (Z.ltb_spec 32 capacity); [lia|]. cbn [orb].
  assert (negb (capacity =? 0) && match paras (part s) with Some _ => false | None => true end = false) as ->.
  { unfold capacity_ok in Hc. destruct (paras (part s)); [apply andb_false_r|].
    by rewrite (proj2 (Z.eqb_eq capacity 0)) by lia. }
  change (MSGBOX_ARM_TO_RISC_MSG_STATUS_REG HWMSGBOX_RISC_ASYN_RX_CH) with RX_STATUS.
  change (MSGBOX_ARM_TO_RISC_MSG_STATUS_REG HWMSGBOX_ARM_SYN_TX_CH) with RX_STATUS.
  unfold MESSAGE_FRAME_HEADER_WORDS.
  apply wp_bind, wp_readl. intros v _ ->. rewrite (rx_status e He). fold (waiting h).
  destruct (Z.leb_spec 2 (Z.of_nat (waiting h))).
  { apply wp_bind, wp_printf. intros r. assert (h `suffix_of` Call (printf_call "query asyn msg\n" [N_ DEBUG_LEVEL_LOG]) r :: Rd RX_STATUS (Z.of_nat (waiting h)) :: h)
      as Hx by by eexists [_; _].
    apply (receive_spec capacity timeout e good); try done. assert (A := more_waits e h _ He Hx eq_refl). lia. }
  set (h1 := Rd RX_STATUS _ :: h). apply wp_bind, wp_readl. intros v2 _ ->. rewrite (rx_status e He). fold (waiting h1).
  destruct (Z.leb_spec 2 (Z.of_nat (waiting h1))) as [H2|].
  { apply wp_bind, wp_printf. intros r. assert (h1 `suffix_of` Call (printf_call "query syn msg\n" [N_ DEBUG_LEVEL_LOG]) r :: Rd RX_STATUS (Z.of_nat (waiting h1)) :: h1)
      as Hx by by eexists [_; _].
    apply (receive_spec capacity timeout e good); try done; [by eexists [_; _; _]|]. assert (A := more_waits e h1 _ He Hx eq_refl). lia. }
  apply wp_ret. apply Nothing_there; unfold h1 in *; lia.
Qed.

(** C24: On a receive queue that behaves like one, [hwmsgbox_query_message] of a
    message with room for [capacity] parameters takes nothing from a queue that
    twice shows less than a header's two words.  Otherwise it reads the frame at
    the head of the queue: it consumes exactly the words the frame says it has,
    stores the header fields, the count and the parameters that fit, nothing
    beyond the buffer, and reports the oversized frame.  It reports a time-out
    only for a peer that stalled behind the header: the queue was seen empty
    before all of the frame had come; what came of it is stored, what is queued
    is dropped.  The interrupt is cleared after either, and nothing is sent. *)
Theorem query_message_exact capacity timeout e good s h :
  delays e good -> good s -> rx_fifo e -> capacity_ok capacity (part s) -> 0 <= capacity <= MESSAGE_PARA_MAX ->
  wp (hwmsgbox_query_message time_mdelay There capacity timeout) e s h (query_outcome capacity s h) K.
Proof. intros. by apply (query_spec capacity timeout e good). Qed.

(** ** From one side to the other *)

(** The unsigned chars of the header. *)
Definition message_ok (m : message) : Prop :=
  is_u8 (m_state m) /\ is_u8 (m_attr m) /\ is_u8 (m_type m) /\ is_u8 (m_result m) /\
  0 <= m_count m <= MESSAGE_PARA_MAX /\ m_count m <= Z.of_nat (length (para_words m)).

(** The same message to a reader. *)
Definition same_message (m m' : message) : Prop :=
  m_state m' = m_state m /\ m_attr m' = m_attr m /\ m_type m' = m_type m /\
  m_result m' = m_result m /\ m_count m' = m_count m /\
  take (Z.to_nat (m_count m)) (para_words m') = take (Z.to_nat (m_count m)) (para_words m).

(** The frame of a message, read from the stream. *)
Lemma decoded_frame p capacity m m0 :
  message_ok m -> m_count m <= capacity -> capacity_ok capacity m0 ->
  (forall i w, frame m !! i = Some w -> stream (p + i) = w) ->
  count_at p = m_count m /\ same_message m (decoded p capacity m0).
Proof.
  intros (H1 & H2 & H3 & H4 & Hc & Hl) Hcap Hm0 Hs. unfold MESSAGE_PARA_MAX in *.
  assert (stream p = header_word m) as E0 by (rewrite <- (Nat.add_0_r p); by apply Hs).
  assert (count_at p = m_count m) as E1.
  { unfold count_at. rewrite (Hs 1%nat (m_count m) eq_refl). change 0xff with (Z.ones 8).
    rewrite Z.land_ones by lia. apply Z.mod_small. lia. }
  assert (words (p + 2) (Z.to_nat (m_count m)) = take (Z.to_nat (m_count m)) (para_words m)) as E2.
  { apply list_eq. intros i. unfold words. rewrite list_lookup_fmap || rewrite <- list_lookup_fmap.
    destruct (decide (i < Z.to_nat (m_count m))%nat) as [Hi|Hi].
    - destruct (lookup_lt_is_Some_2 (take (Z.to_nat (m_count m)) (para_words m)) i) as [w Hw].
      { rewrite length_take. lia. }
      rewrite lookup_seq_lt by done. cbn. rewrite Hw. f_equal.
      rewrite <- (Hs (2 + i)%nat w) by done. f_equal. lia.
    - rewrite lookup_seq_ge by lia. symmetry. apply lookup_ge_None_2. rewrite length_take. lia. }
  destruct (header_bytes m H1 H2 H3 H4) as (B1 & B2 & B3 & B4).
  split; [done|]. unfold same_message, decoded, header_of, with_header, with_count, with_paras.
  cbn [m_state m_attr m_type m_result m_count paras]. rewrite E0, E1, Z.min_l by lia.
  split_and!; [done|done|done|done|done|].
  rewrite E2. unfold para_words at 1. cbn [paras]. unfold capacity_ok in Hm0.
  destruct (paras m0) as [l0|]; cbn [option_map].
  - unfold overwrite. rewrite take_app_le by (rewrite length_take; lia). by rewrite take_take, Nat.min_id.
  - assert (m_count m = 0) as -> by lia. done.
Qed.

(** When the queue's head holds a message as [send_frame] puts it, and the
    reader has room for it, [hwmsgbox_query_message] either takes nothing, or
    gives up on a stalled peer, or returns that very message and leaves the
    queue at the next frame. *)
Theorem frames_roundtrip capacity timeout m e good s h :
  delays e good -> good s -> rx_fifo e -> capacity_ok capacity (part s) -> 0 <= capacity <= MESSAGE_PARA_MAX ->
  message_ok m -> m_count m <= capacity ->
  (forall i w, frame m !! i = Some w -> stream (popped h + i) = w) ->
  wp (hwmsgbox_query_message time_mdelay There capacity timeout) e s h (fun r s' h' =>
    r = FAIL /\ s' = s /\ popped h' = popped h \/ r = - ETIMEOUT \/
    r = OK /\ same_message m (part s') /\ popped h' = (popped h + length (frame m))%nat) K.
Proof.
  intros Hd Hg He Hc Hcap Hm Hroom Hs. destruct (decoded_frame _ capacity m (part s) Hm Hroom Hc Hs) as [Ec Hsame].
  eapply wp_mono; [by apply (query_spec capacity timeout e good)|].
  intros r s' h' [|h1 h2 p _ _ _ _ Hp|]; [by left| |by right; left]. right. right. subst p.
  rewrite Ec in *. destruct (Z.ltb_spec capacity (m_count m)); [lia|]. split; [done|].
  rewrite part_set. split; [done|]. cbn [popped]. rewrite Hp. unfold frame. cbn [length]. rewrite length_take.
  destruct Hm as (_ & _ & _ & _ & H5 & H6). lia.
Qed.
End Receive.

(** ** Sending *)

Section Send.
Context (drained : history C -> nat).

(** Words in the transmit FIFO: those sent that the peer has not taken. *)
Definition level h : nat := (length (sent h) - drained h)%nat.
Record tx_fifo e : Prop := {
  tx_mono : forall ev h, (drained h <= drained (ev :: h))%nat;
  tx_status : forall h, u32 (env_read e h TX_STATUS) = Z.of_nat (level h)
}.

(** Every word of [new] was put in a FIFO with room. *)
Fixpoint fits new h : Prop :=
  match new with
  | [] => True
  | ev :: new => match ev with Wr a _ => a = TX_DATA -> (level (new ++ h) < 8)%nat | _ => True end /\ fits new h
  end.

(** [h'] continues [h] by sending [ws], never into a full FIFO. *)
Definition sends (ws : list Z) h h' : Prop :=
  exists new, h' = new ++ h /\ fits new h /\ sent h' = sent h ++ ws /\ popped h' = popped h.

Lemma fits_app n1 n2 h : fits (n1 ++ n2) h <-> fits n1 (n2 ++ h) /\ fits n2 h.
Proof.
  induction n1 as [|ev n1 IH]; cbn [app fits]; [tauto|]. rewrite IH. destruct ev; rewrite ?app_assoc; tauto.
Qed.

Lemma sends_trans w1 w2 h h1 h2 : sends w1 h h1 -> sends w2 h1 h2 -> sends (w1 ++ w2) h h2.
Proof.
  intros (n1 & -> & F1 & S1 & P1) (n2 & -> & F2 & S2 & P2). exists (n2 ++ n1). rewrite <- app_assoc.
  split_and!; [done|by apply fits_app|by rewrite S2, S1, app_assoc|congruence].
Qed.

Lemma calm_sends new h : Forall calm new -> sends [] h (new ++ h).
Proof.
  intros Hn. exists new. split_and!; [done| |by rewrite app_nil_r, sent_calm|by apply popped_calm].
  induction Hn as [|ev new Hev _ IH]; [done|]. split; [|done]. by destruct ev.
Qed.

Lemma level_sends e ws h h' : tx_fifo e -> sends ws h h' -> (level h' <= level h + length ws)%nat.
Proof.
  intros He (new & -> & _ & Hs & _). unfold level. rewrite Hs, length_app.
  assert (drained h <= drained (new ++ h))%nat; [|lia].
  clear Hs. induction new as [|ev new IH]; cbn [app]; [lia|]. assert (H := tx_mono e He ev (new ++ h)). lia.
Qed.

(** A wait on the transmit FIFO: the level it ended on, and what the test
    said of it. *)
Lemma tx_wait_spec busy n e good s h :
  delays e good -> good s -> tx_fifo e ->
  wp (wait_loop time_mdelay n TX_STATUS busy) e s h (fun r s' h' => s' = s /\ sends [] h h' /\
    exists l, (level h' <= l <= level h)%nat /\
      (r = OK /\ busy (Z.of_nat l) = false \/ r = - ETIMEOUT /\ busy (Z.of_nat l) = true)) K.
Proof.
  intros Hd Hg He. eapply wp_mono; [by apply (wait_spec _ _ _ e good)|].
  intros r s' h' (-> & new & v & -> & Hn & Ev & Hcase). rewrite (tx_status e He) in Ev. subst v.
  assert (sends [] h (new ++ h)) as H1 by by apply calm_sends.
  assert (sends [] (new ++ h) (Rd TX_STATUS (Z.of_nat (level (new ++ h))) :: new ++ h)) as H2.
  { apply (calm_sends [_]). by constructor. }
  assert (L1 := level_sends e _ _ _ He H1). assert (L2 := level_sends e _ _ _ He H2).
  split; [done|]. split; [exact (sends_trans [] [] _ _ _ H1 H2)|].
  exists (level (new ++ h)). cbn [length] in *. split; [lia|done].
Qed.

(** One word: sent, or the FIFO stayed full. *)
Lemma send_word_spec timeout (word : M C S Z) v k e good s h Q :
  delays e good -> good s -> tx_fifo e -> (level h <= 8)%nat ->
  (forall h', wp word e s h' (fun x s' h'' => x = v /\ s' = s /\ h'' = h') K) ->
  (forall h', (level h' <= 8)%nat -> sends [v] h h' -> wp k e s h' Q K) ->
  ((8 <= level h)%nat -> forall h', sends [] h h' -> Q (- ETIMEOUT) s h') ->
  wp (or_return (hwmsgbox_wait_queue_not_full time_mdelay 3 timeout)
        (let! x := word in writel x TX_DATA;; k)) e s h Q K.
Proof.
  intros Hd Hg He Hl Hword Hk Hf. unfold or_return, hwmsgbox_wait_queue_not_full. apply wp_bind.
  eapply wp_mono; [by apply (tx_wait_spec _ _ e good)|].
  intros r s1 h1 (-> & H1 & l & Hb & Hcase). unfold HWMSGBOX_FIFO_DEPTH in *.
  destruct (Z.eqb_spec r OK) as [->|Hr]; cbn [negb].
  - destruct Hcase as [[_ Hfull]|[Habs _]]; [|done]. apply Z.eqb_neq in Hfull.
    apply wp_bind. eapply wp_mono; [apply Hword|]. intros x s2 h2 (-> & -> & ->).
    assert (sends [v] h1 (Wr TX_DATA v :: h1)) as H2.
    { exists [Wr TX_DATA v]. split_and!; [done| |done|done]. split; [|done]. intros _. cbn [app]. lia. }
    assert (L := level_sends e _ _ _ He H2). cbn [length] in L.
    apply wp_bind, wp_writel, Hk; [lia|]. exact (sends_trans [] [v] _ _ _ H1 H2).
  - destruct Hcase as [[-> _]|[-> Hfull]]; [done|]. apply Z.eqb_eq in Hfull. apply wp_ret, Hf; [lia|done].
Qed.

Lemma send_paras_spec n (i : nat) timeout k e good s h Q :
  delays e good -> good s -> tx_fifo e -> (level h <= 8)%nat ->
  (i + n <= length (para_words (part s)))%nat ->
  (forall h', sends (take n (drop i (para_words (part s)))) h h' -> wp k e s h' Q K) ->
  (forall h' j, (j < n)%nat -> (8 <= level h + j)%nat ->
     sends (take j (drop i (para_words (part s)))) h h' -> Q (- ETIMEOUT) s h') ->
  wp (send_paras time_mdelay n (Z.of_nat i) 3 timeout k) e s h Q K.
Proof.
  intros Hd Hg He. revert i h. induction n as [|n IH]; intros i h Hl Hi Hk Hf; cbn [send_paras].
  { apply Hk. by exists []; rewrite app_nil_r. }
  fold TX_DATA. set (l := para_words (part s)) in *.
  destruct (lookup_lt_is_Some_2 l i) as [v Hv]; [lia|].
  assert (forall j, take (Datatypes.S j) (drop i l) = v :: take j (drop (Datatypes.S i) l)) as Htake.
  { intros j. by rewrite (drop_S l v i Hv). }
  apply (send_word_spec _ (load_para (Z.of_nat i)) v _ e good); [done|done|done|done| | |].
  - intros h1. unfold load_para, pmessage. apply wp_bind, wp_getp. unfold l, para_words in Hv.
    destruct (paras (part s)); [|done]. rewrite Nat2Z.id, Hv. by apply wp_ret.
  - intros h1 Hl1 H1. replace (Z.of_nat i + 1) with (Z.of_nat (Datatypes.S i)) by lia.
    assert (Lv := level_sends e _ _ _ He H1). cbn [length] in Lv.
    apply IH; [done|lia| |].
    + intros h2 H2. apply Hk. rewrite Htake. exact (sends_trans [v] _ _ _ _ H1 H2).
    + intros h2 j Hj Hfull H2. apply (Hf h2 (Datatypes.S j)); [lia|lia|].
      rewrite Htake. exact (sends_trans [v] _ _ _ _ H1 H2).
  - intros Hfull h1 H1. apply (Hf h1 0%nat); [lia|lia|]. by rewrite take_0.
Qed.

(** A frame goes out whole, or stops in front of a word for which the FIFO
    stays full. *)
Lemma send_frame_spec timeout k e good s h Q :
  delays e good -> good s -> tx_fifo e -> (level h <= 8)%nat -> 0 <= m_count (part s) ->
  (Z.to_nat (m_count (part s)) <= length (para_words (part s)))%nat ->
  (forall h', sends (frame (part s)) h h' -> wp k e s h' Q K) ->
  (forall h' j, (j < length (frame (part s)))%nat -> (8 <= level h + j)%nat ->
     sends (take j (frame (part s))) h h' -> Q (- ETIMEOUT) s h') ->
  wp (send_frame time_mdelay 3 timeout k) e s h Q K.
Proof.
  intros Hd Hg He Hl H0 Hlen Hk Hf. unfold send_frame. set (m := part s) in *. unfold frame in Hf. cbn [length] in Hf.
  assert (length (take (Z.to_nat (m_count m)) (para_words m)) = Z.to_nat (m_count m)) as Hw by (rewrite length_take; lia).
  assert (wp (or_return (hwmsgbox_wait_queue_not_full time_mdelay 3 timeout)
    (let! x := (let! m := pmessage in ret (header_word m)) in writel x TX_DATA;;
     or_return (hwmsgbox_wait_queue_not_full time_mdelay 3 timeout)
       (let! x := (let! m := pmessage in ret (m_count m)) in writel x TX_DATA;;
        (let! m := pmessage in send_paras time_mdelay (Z.to_nat (m_count m)) 0 3 timeout k)))) e s h Q K) as Hgoal;
    [|exact Hgoal].
  assert (forall (f : message -> Z) h', wp (let! m := pmessage in ret (f m)) e s h'
    (fun x s' h'' => x = f m /\ s' = s /\ h'' = h') K) as Hfield.
  { intros f h'. apply wp_bind, wp_getp, wp_ret. by split_and!. }
  apply (send_word_spec _ _ (header_word m) _ e good); [done|done|done|done|apply Hfield| |].
  2:{ intros Hfull h1 H1. apply (Hf h1 0%nat); [lia|lia|done]. }
  intros h1 Hl1 H1. assert (L1 := level_sends e _ _ _ He H1). cbn [length] in L1.
  apply (send_word_spec _ _ (m_count m) _ e good); [done|done|done|done|apply Hfield| |].
  2:{ intros Hfull h2 H2. apply (Hf h2 1%nat); [lia|lia|]. exact (sends_trans [_] [] _ _ _ H1 H2). }
  intros h2 Hl2 H2. assert (L2 := level_sends e _ _ _ He H2). cbn [length] in L2.
  apply wp_bind, wp_getp. fold m. apply (send_paras_spec _ 0 _ _ e good); [done|done|done|done|done| |].
  - intros h3 H3. apply Hk. exact (sends_trans [_] (_ :: _) _ _ _ H1 (sends_trans [_] _ _ _ _ H2 H3)).
  - intros h3 j Hj Hfull H3. apply (Hf h3 (2 + j)%nat); [lia|lia|]. cbn [take Nat.add].
    rewrite take_take, Nat.min_l by lia. exact (sends_trans [_] (_ :: _) _ _ _ H1 (sends_trans [_] _ _ _ _ H2 H3)).
Qed.
End Send.

(** ** Whole calls *)

Section Calls.
Context (stream : nat -> Z) (arrived drained : history C -> nat).

Definition is_syn (m : message) : bool := negb (Z.land (m_attr m) MESSAGE_ATTR_HARDSYN =? 0).

(** Nothing, or the words up to one for which the FIFO stayed full; of a
    frame that fits the FIFO, nothing. *)
Definition gave_up s h (r : Z) s' h' : Prop :=
  let w := frame (part s) in
  r = - ETIMEOUT /\ s' = s /\
  exists j, (j < length w)%nat /\ sends drained (take j w) h h' /\ ((length w <= 8)%nat -> j = O).

Definition send_outcome s h (r : Z) s' h' : Prop :=
  let m := part s in
  if MESSAGE_PARA_MAX <? m_count m then r = - EINVAL /\ s' = s /\ h' = h
  else gave_up s h r s' h' \/
    if is_syn m then
      sent h' = sent h ++ frame m /\
      (r = - ETIMEOUT \/
       r = (if m_count m <? count_at stream (popped h) then - E2BIG else OK) /\
       s' = set_part (decoded stream (popped h) (m_count m) m) s /\
       popped h' = (popped h + 2 + Z.to_nat (count_at stream (popped h)))%nat)
    else r = OK /\ s' = s /\ sends drained (frame m) h h'.

Lemma valid_spec (f : message -> Z) e s h :
  capacity_ok (f (part s)) (part s) -> 0 <= f (part s) ->
  wp (invalid_message There f) e s h (fun b s' h' => b = (MESSAGE_PARA_MAX <? f (part s)) /\ s' = s /\ h' = h) K.
Proof.
  intros Hc H0. unfold invalid_message, pmessage. apply wp_bind, wp_getp, wp_ret. split; [|done].
  unfold capacity_ok in Hc. destruct (paras (part s)); [by rewrite andb_false_r, orb_false_r|].
  rewrite (proj2 (Z.eqb_eq (f (part s)) 0)) by lia. by rewrite orb_false_r.
Qed.

(** With both queues behaving like queues, [hwmsgbox_send_message] refuses more
    than 32 parameters untouched.  Otherwise no word is put in a full FIFO, and
    either the whole frame goes out, header first and parameters in order, or
    the FIFO stayed full: then a frame that fits the FIFO leaves no word of it
    there, and a longer one the words up to that point.  After a synchronous
    message the frame at the head of the receive queue becomes the message,
    never beyond the room the caller gave. *)
Theorem send_message_exact timeout e good s h :
  delays e good -> good s -> rx_fifo stream arrived e -> tx_fifo drained e -> (level drained h <= 8)%nat ->
  0 <= m_count (part s) -> capacity_ok (m_count (part s)) (part s) ->
  wp (hwmsgbox_send_message time_mdelay There timeout) e s h (send_outcome s h) K.
Proof.
  intros Hd Hg Hrx Htx Hl H0 Hc. unfold hwmsgbox_send_message, send_outcome, pmessage, INF. set (m := part s) in *.
  apply wp_bind. eapply wp_mono; [by apply (valid_spec m_count)|]. intros b s1 h1 (-> & -> & ->). fold m.
  destruct (Z.ltb_spec MESSAGE_PARA_MAX (m_count m)) as [_|Hmax]; [by apply wp_ret|].
  apply wp_bind, wp_getp. fold m. fold (is_syn m). cbv zeta.
  assert (Z.to_nat (m_count m) <= length (para_words m))%nat as Hw.
  { unfold capacity_ok, para_words in *. destruct (paras m); cbn [length]; lia. }
  assert (length (frame m) = (2 + Z.to_nat (m_count m))%nat) as Hlen.
  { unfold frame. cbn [length]. rewrite length_take. lia. }
  (* the check for space *)
  assert (forall Q (k : M C S Z),
    (forall h', sends drained [] h h' -> (level drained h' <= 8)%nat ->
       ((length (frame m) <= 8)%nat -> (level drained h' + length (frame m) <= 8)%nat) -> wp k e s h' Q K) ->
    (forall h', sends drained [] h h' -> Q (- ETIMEOUT) s h') ->
    wp (or_return (if MESSAGE_FRAME_HEADER_WORDS + m_count m <=? HWMSGBOX_FIFO_DEPTH then
         hwmsgbox_wait_queue_space time_mdelay
           (if is_syn m then HWMSGBOX_RISC_SYN_TX_CH else HWMSGBOX_RISC_ASYN_TX_CH)
           (MESSAGE_FRAME_HEADER_WORDS + m_count m) timeout
       else ret OK) k) e s h Q K) as Hspace.
  { intros Q k Hk Hf. unfold or_return, hwmsgbox_wait_queue_space, MESSAGE_FRAME_HEADER_WORDS, HWMSGBOX_FIFO_DEPTH.
    apply wp_bind. destruct (Z.leb_spec (2 + m_count m) 8) as [Hfit|Hbig].
    - assert ((if is_syn m then HWMSGBOX_RISC_SYN_TX_CH else HWMSGBOX_RISC_ASYN_TX_CH) = 3) as -> by by destruct (is_syn m).
      destruct (Z.ltb_spec 8 (2 + m_count m)) as [?|_]; [lia|].
      eapply wp_mono; [by apply (tx_wait_spec drained _ _ e good)|].
      intros r s2 h2 (-> & H2 & l & Hb & Hcase). destruct (Z.eqb_spec r OK) as [->|Hr]; cbn [negb].
      + destruct Hcase as [[_ Hroom]|[Habs _]]; [|done]. apply Z.ltb_ge in Hroom. apply Hk; [done|lia|lia].
      + destruct Hcase as [[-> _]|[-> _]]; [done|]. by apply wp_ret, Hf.
    - apply wp_ret. rewrite Z.eqb_refl. cbn [negb]. apply Hk; [by exists []; rewrite app_nil_r|done|lia]. }
  apply Hspace.
  2:{ intros h1 H1. left. split; [done|]. split; [done|]. exists 0%nat. split; [fold m; lia|]. by split. }
  intros h1 H1 Hl1 Hroom.
  assert (forall h2 j, (j < length (frame m))%nat -> (8 <= level drained h1 + j)%nat ->
    sends drained (take j (frame m)) h1 h2 -> gave_up s h (- ETIMEOUT) s h2) as Hgave.
  { intros h2 j Hj Hfull H2. split; [done|]. split; [done|]. exists j. split; [done|].
    split; [exact (sends_trans drained [] _ _ _ _ H1 H2)|]. fold m. lia. }
  destruct (is_syn m); apply wp_bind, wp_printf; intros q;
    lazymatch goal with |- wp _ _ _ ?h' _ _ =>
      assert (sends drained [] h1 h') as Hp by (apply (calm_sends drained [_]); by constructor);
      set (h2 := h') in * end;
    assert (L := level_sends drained e _ _ _ Htx Hp); cbn [length] in L.
  - apply (send_frame_spec drained _ _ e good); [done|done|done|lia|done|done| |].
    + intros h3 H3. fold m in H3.
      assert (sends drained (frame m) h h3) as (new & _ & _ & Hs3 & Hp3)
        by exact (sends_trans drained [] _ _ _ _ H1 (sends_trans drained [] _ _ _ _ Hp H3)).
      apply (receive_frame_spec stream arrived _ _ _ _ e good); [done|done|done|done| |].
      * intros h4 Hp4 Hs4 _. rewrite Hp3 in *.
        assert (sent h4 = sent h ++ frame m) as E by congruence.
        destruct (m_count m <? count_at stream (popped h)); apply wp_ret; right; (split; [done|]); right; by split_and!.
      * intros h4 j Hj Hp4 Hs4 _. apply wp_ret. right. split; [congruence|by left].
    + intros h3 j Hj Hfull H3. left. apply (Hgave h3 j Hj); [lia|].
      exact (sends_trans drained [] _ _ _ _ Hp H3).
  - apply (send_frame_spec drained _ _ e good); [done|done|done|lia|done|done| |].
    + intros h3 H3. apply wp_ret. right. split_and!; [done|done|].
      exact (sends_trans drained [] _ _ _ _ H1 (sends_trans drained [] _ _ _ _ Hp H3)).
    + intros h3 j Hj Hfull H3. left. apply (Hgave h3 j Hj); [lia|].
      exact (sends_trans drained [] _ _ _ _ Hp H3).
Qed.

(** The reply to a synchronous message: only hard ones get one. *)
Lemma feedback_spec timeout e good s h :
  delays e good -> good s -> tx_fifo drained e -> (level drained h <= 8)%nat ->
  0 <= m_count (part s) -> capacity_ok (m_count (part s)) (part s) ->
  wp (hwmsgbox_feedback_message time_mdelay There timeout) e s h (fun r s' h' => s' = s /\
    let m := part s in
    if MESSAGE_PARA_MAX <? m_count m then r = - EINVAL /\ h' = h
    else if is_syn m then
      r = OK /\ sends drained (frame m) h h' \/
      r = - ETIMEOUT /\ exists j, (j < length (frame m))%nat /\ sends drained (take j (frame m)) h h'
    else r = - ESRCH /\ h' = h) K.
Proof.
  intros Hd Hg Htx Hl H0 Hc. unfold hwmsgbox_feedback_message, pmessage, INF. set (m := part s) in *.
  apply wp_bind. eapply wp_mono; [by apply (valid_spec m_count)|]. intros b s1 h1 (-> & -> & ->). fold m.
  destruct (Z.ltb_spec MESSAGE_PARA_MAX (m_count m)) as [_|Hmax]; [by apply wp_ret|].
  apply wp_bind, wp_getp. fold m. fold (is_syn m). destruct (is_syn m); [|by apply wp_ret].
  apply wp_bind, wp_printf. intros q.
  lazymatch goal with |- wp _ _ _ ?h' _ _ =>
    assert (sends drained [] h h') as Hp by (apply (calm_sends drained [_]); by constructor);
    set (h2 := h') in * end.
  assert (L := level_sends drained e _ _ _ Htx Hp). cbn [length] in L.
  apply (send_frame_spec drained _ _ e good); [done|done|done|lia|done| | |].
  - unfold capacity_ok, para_words in *. fold m. destruct (paras m); cbn [length]; lia.
  - intros h3 H3. apply wp_bind, wp_getp, wp_bind, wp_printf. intros q2. apply wp_ret. split; [done|]. left.
    split; [done|]. fold m in H3. rewrite <- (app_nil_r (frame m)).
    eapply sends_trans; [exact (sends_trans drained [] _ _ _ _ Hp H3)|].
    apply (calm_sends drained [_]). by constructor.
  - intros h3 j Hj _ H3. split; [done|]. right. split; [done|]. exists j. split; [done|].
    exact (sends_trans drained [] _ _ _ _ Hp H3).
Qed.
End Calls.
End Box.

(** ** The delay of the timers is one of these *)

Section TimerDelay.
Context {C S : Type} `{HPrint : HasPrintf C} `{HMessage : !Part message S} `{HTimers : !Part timer_vars S}
  `{!Apart message timer_vars S}.
Implicit Types (e : env C) (s : S) (h : history C).

(** Out of fuel at worst. *)
Definition late : stop -> S -> history C -> Prop := fun w _ _ => w = OutOfFuel.

(** Programs that touch neither FIFO nor the statics. *)
Definition calm_run {A} (p : M C S A) : Prop := forall e s h,
  wp p e s h (fun _ s' h' => s' = s /\ exists new, h' = new ++ h /\ Forall calm new) late.

Lemma calm_ret {A} (a : A) : calm_run (ret a).
Proof. intros e s h. apply wp_ret. split; [done|]. by exists []. Qed.
Lemma calm_late {A} : calm_run (A := A) (stop_now OutOfFuel).
Proof. by intros e s h. Qed.
Lemma calm_bind {A B} (p : M C S A) (f : A -> M C S B) :
  calm_run p -> (forall a, calm_run (f a)) -> calm_run (bind p f).
Proof.
  intros Hp Hf e s h. apply wp_bind. eapply wp_mono; [apply Hp|].
  intros a s1 h1 (-> & n1 & -> & H1). eapply wp_mono; [apply Hf|].
  intros b s2 h2 (-> & n2 & -> & H2). split; [done|]. exists (n2 ++ n1). rewrite <- app_assoc.
  split; [done|]. by apply Forall_app.
Qed.
Lemma calm_readl a : a <> RX_DATA -> calm_run (readl a).
Proof. intros Ha e s h. apply wp_readl. intros v _ _. split; [done|]. exists [Rd a v]. by repeat constructor. Qed.
Lemma calm_writel v a : a <> TX_DATA -> calm_run (writel v a).
Proof. intros Ha e s h. apply wp_writel. split; [done|]. exists [Wr a v]. by repeat constructor. Qed.
Lemma calm_printf fmt args : calm_run (printf fmt args).
Proof. intros e s h. apply wp_printf. intros r. split; [done|]. eexists [_]. by repeat constructor. Qed.
Lemma calm_poll n reg busy : reg <> RX_DATA -> calm_run (poll n reg busy).
Proof.
  intros Hr. induction n as [|n IH]; cbn [poll]; [apply calm_ret|].
  apply calm_bind; [by apply calm_readl|]. intros v. destruct (busy v); [exact IH|apply calm_ret].
Qed.

Local Ltac calm_go :=
  repeat first
    [ apply calm_ret | apply calm_late | apply calm_poll; done | apply calm_readl; done
    | apply calm_writel; done | apply calm_printf | assumption
    | apply calm_bind; [|intros ?]
    | match goal with |- calm_run (if ?b then _ else _) => destruct b end
    | match goal with |- calm_run (let '(_, _) := ?x in _) => destruct x end ].

Lemma calm_counter n : calm_run (cpucfg_counter_read n).
Proof.
  unfold cpucfg_counter_read. apply calm_bind; [|intros [low high]; apply calm_ret].
  induction n as [|n IH]; cbn [counter_loop]; calm_go.
Qed.

Lemma calm_pending fuel rounds bit deadline : calm_run (delay_wait_pending fuel rounds bit deadline).
Proof.
  assert (H := calm_counter rounds). induction fuel as [|fuel IH]; cbn [delay_wait_pending]; calm_go.
Qed.

(** The timers' addresses are not the mailbox's. *)
Definition delay_ready s : Prop :=
  timer_lock (part s) = 0 -> exists x, timer_at (part s) (delay_timer (part s)) = Some x /\ 0 <= timer_no x <= 1.

Lemma time_mdelay_delays fuel rounds e : delays (time_mdelay fuel rounds) late e delay_ready.
Proof.
  split.
  - intros s h Hready. unfold time_mdelay, timer_statics. apply wp_bind, wp_getp.
    destruct (Z.eqb_spec (timer_lock (part s)) 0) as [Hl|]; cbn [negb]; [|apply calm_ret].
    destruct (Hready Hl) as (x & Hx & Hno). apply wp_bind. eapply wp_load_hw; [exact Hx|]. cbv zeta.
    assert (EXT_TIMER_CTRL_REG (timer_no x) <> RX_DATA /\ EXT_TIMER_CTRL_REG (timer_no x) <> TX_DATA /\
      EXT_TIMER_IVL_REG (timer_no x) <> TX_DATA) as (N1 & N2 & N3).
    { unfold EXT_TIMER_CTRL_REG, EXT_TIMER_IVL_REG, TIMER_REG_BASE, R_TMR01_REG_BASE, RX_DATA, TX_DATA,
        MSGBOX_ARM_TO_RISC_MSG_REG, MSGBOX_RISC_TO_ARM_MSG_REG, CPUS_MSGBOX_REG_BASE_EXT, CPUX_MSGBOX_REG_BASE_EXT,
        CPUS_HWMSGBOX_REG_BASE, CPUX_HWMSGBOX_REG_BASE. lia. }
    assert (Hc := calm_counter rounds). assert (Hp := calm_pending fuel rounds).
    unfold set_bits_of, clear_bits_of, delay_wait_clear, ERR. generalize e s h.
    match goal with |- forall e s h, wp ?p e s h _ _ => change (calm_run p) end.
    repeat first [ progress calm_go | apply Hp ].
  - intros m s Hready. unfold delay_ready. rewrite !part_other. exact Hready.
Qed.
End TimerDelay.

(** ** Concrete queues *)

(** A message with two parameters, and a world in which its frame is waiting
    and the peer takes every word at once. *)
Definition sample_message : message := Message 0 0 0x61 0 2 (Some [7; 9]).
Definition sample_stream (i : nat) : Z := nth i (frame sample_message) 0.
Definition sample_env : env fw_call := Env
  (fun h a => if a =? RX_STATUS then Z.of_nat (4 - popped h)
              else if a =? RX_DATA then sample_stream (popped h) else 0)
  (fun _ _ => 0) (fun _ _ => []).
Definition sample_delay (ms : Z) : M fw_call message unit := mdelay ms.
Definition sample_buffer : message := Message 0 0 0 0 0 (Some (replicate 32 0)).

Lemma sample_delays : delays sample_delay total sample_env (fun _ => True).
Proof. split; [|done]. intros s h _. apply wp_mdelay. split; [done|]. eexists [_]. by repeat constructor. Qed.

Lemma sample_rx : rx_fifo sample_stream (fun _ => 4%nat) sample_env.
Proof.
  split; [done| |].
  - intros h. cbn [env_read sample_env]. rewrite Z.eqb_refl. apply u32_small. lia.
  - intros h Hp. cbn [env_read sample_env]. change (RX_DATA =? RX_STATUS) with false. cbv iota.
    rewrite Z.eqb_refl. by destruct (popped h) as [|[|[|[|]]]]; try lia.
Qed.

Lemma sample_tx : tx_fifo (fun h : history fw_call => length (sent h)) sample_env.
Proof.
  split.
  - intros [] h; cbn [sent]; try lia. destruct (a =? TX_DATA); [rewrite length_app; lia|lia].
  - intros h. unfold level. rewrite Nat.sub_diag. done.
Qed.

Lemma query_message_exact_witness :
  wp (hwmsgbox_query_message sample_delay There 32 10) sample_env sample_buffer []
    (query_outcome sample_stream (fun _ => 4%nat) 32 sample_buffer []) total.
Proof.
  apply (query_message_exact sample_delay total sample_stream (fun _ => 4%nat) 32 10 sample_env (fun _ => True));
    [apply sample_delays|done|apply sample_rx|cbn; lia|unfold MESSAGE_PARA_MAX; lia].
Defined.

Lemma send_message_exact_witness :
  wp (hwmsgbox_send_message sample_delay There 10) sample_env sample_message []
    (fun r s' h' => r = - ETIMEOUT \/ r = OK /\ sent h' = [0x610000; 2; 7; 9]) total.
Proof.
  eapply wp_mono.
  { apply (send_message_exact sample_delay total sample_stream (fun _ => 4%nat)
      (fun h => length (sent h)) 10 sample_env (fun _ => True) sample_message []);
      [apply sample_delays|done|apply sample_rx|apply sample_tx|cbn; lia|cbn; lia|cbn; lia]. }
  intros r s' h' [(Hr & _)|(Hr & _ & (new & _ & _ & Hs & _))]; [by left|right]. split; [exact Hr|exact Hs].
Defined.

Lemma frames_roundtrip_witness :
  wp (hwmsgbox_query_message sample_delay There 32 10) sample_env sample_buffer []
    (fun r s' h' => r = FAIL /\ s' = sample_buffer /\ popped h' = 0%nat \/ r = - ETIMEOUT \/
      r = OK /\ same_message sample_message s' /\ popped h' = 4%nat) total.
Proof.
  eapply wp_mono.
  { apply (frames_roundtrip sample_delay total sample_stream (fun _ => 4%nat) 32 10 sample_message sample_env
    (fun _ => True) sample_buffer []);
    [apply sample_delays|done|apply sample_rx|cbn; lia|unfold MESSAGE_PARA_MAX; lia| |cbn; lia|].
    - repeat split; cbn; unfold MESSAGE_PARA_MAX; lia.
    - intros i w Hi. cbn [popped Nat.add]. unfold sample_stream. by apply nth_lookup_Some. }
  intros r s' h' H. exact H.
Defined.
