(* ===== verification/Wakeup.v ===== *)
(** * Wake-up sources
    (src/ar100s/service/standby/{wakeup_source,standby}.c,
    src/ar100s/arch/riscv/plat-sun60iw2p1/inc/irq_table.h, and
    [interrput_arch_set_mask] of src/ar100s/arch/riscv/cpu/e907/e907_com.c)

    The message a request points to is [Msgbox]'s; the wake-up timer is one of
    the soft timers of [Ticks]. *)

From Stdlib Require Import String.
From S2P Require Import Prelude Machine Console Firmware Intc Ticks Timer Msgbox.

Local Open Scope string_scope.
Local Open Scope list_scope.
Local Open Scope Z_scope.
Local Open Scope mach_scope.

(** ** Interrupt numbers (irqnum_config.h, irq_table.h, wakeup_source.h) *)

Definition INTC_R_USB_IRQ : Z := 16.
Definition INTC_R_ALM0_IRQ : Z := 24.
Definition INTC_R_GPIOL_S_IRQ : Z := 25.
Definition INTC_R_GPIOL_NS_IRQ : Z := 26.
Definition INTC_R_GPIOM_S_IRQ : Z := 27.
Definition INTC_R_GPIOM_NS_IRQ : Z := 28.
Definition INTC_R_IRRX_IRQ : Z := 34.
Definition GIC_USB0_EHCI_IRQ : Z := 189.
Definition GIC_USB0_OHCI_IRQ : Z := 190.
Definition GIC_USB1_EHCI_IRQ : Z := 191.
Definition GIC_USB1_OHCI_IRQ : Z := 192.
Definition GIC_R_ALARM0_IRQ : Z := 228.
Definition GIC_R_GPIOL_S_IRQ : Z := 229.
Definition GIC_R_GPIOL_NS_IRQ : Z := 230.
Definition GIC_R_GPIOM_S_IRQ : Z := 231.
Definition GIC_R_GPIOM_NS_IRQ : Z := 232.
Definition GIC_R_IR_IRQ : Z := 238.
Definition GIC_SRC_SPI : Z := 32.
Definition NO_WAKESOURCE : Z := 0.
Definition WAKESOURE_TIMER : Z := Z.shiftl 0x3 30.
Definition E902_CFG_BASE : Z := 0x07032000.
Definition E902_WAKEUP_MASK0_REG : Z := E902_CFG_BASE + 0x64.
Definition E902_WAKEUP_MASK1_REG : Z := E902_CFG_BASE + 0x68.
Definition MASK0_START_INTERRUPT : Z := 16.
Definition MASK1_START_INTERRUPT : Z := 48.

Definition irq_table : list (Z * Z) :=
  [(INTC_R_USB_IRQ, GIC_USB0_EHCI_IRQ); (INTC_R_USB_IRQ, GIC_USB0_OHCI_IRQ);
   (INTC_R_USB_IRQ, GIC_USB1_EHCI_IRQ); (INTC_R_USB_IRQ, GIC_USB1_OHCI_IRQ);
   (INTC_R_ALM0_IRQ, GIC_R_ALARM0_IRQ); (INTC_R_GPIOL_S_IRQ, GIC_R_GPIOL_S_IRQ);
   (INTC_R_GPIOL_NS_IRQ, GIC_R_GPIOL_NS_IRQ); (INTC_R_GPIOM_S_IRQ, GIC_R_GPIOM_S_IRQ);
   (INTC_R_GPIOM_NS_IRQ, GIC_R_GPIOM_NS_IRQ); (INTC_R_IRRX_IRQ, GIC_R_IR_IRQ)].
Definition grp_irq_table : list (Z * Z) := [(0, 0)].

(** The first row whose column equals the number. *)
Fixpoint scan_table (t : list (Z * Z)) (col : Z * Z -> Z) (v : Z) : option (Z * Z) :=
  match t with
  | [] => None
  | row :: t => if col row =? v then Some row else scan_table t col v
  end.
Definition CPUS_IRQ_MAPTO_CPUX (intno : Z) : Z :=
  match scan_table irq_table fst intno with
  | Some row => s32 (row.2 - GIC_SRC_SPI)
  | None => FAIL
  end.
Definition CPUX_IRQ_MAPTO_CPUS (intno : Z) : Z :=
  match scan_table irq_table snd (u32 (intno + GIC_SRC_SPI)) with
  | Some row => s32 row.1
  | None => FAIL
  end.
Definition CPUX_IRQ_MAPTO_CPUS_GRP (intno : Z) : Z :=
  match scan_table grp_irq_table fst (u32 (intno + GIC_SRC_SPI)) with
  | Some row => s32 row.2
  | None => FAIL
  end.

(** Statics of wakeup_source.c and standby.c. *)
Record wakeup := WakeupVars {
  wakeup_source : Z;
  before_crc : Z;
  after_crc : Z
}.
Definition with_source (v : Z) (w : wakeup) : wakeup := WakeupVars v (before_crc w) (after_crc w).

Section Wakeup.
Context {C S F : Type} `{HPrint : HasPrintf C} `{HInsn : !HasInsn C} `{HIsrs : Isrs F}
  `{HIsrTable : !Part (list (int_isr_node F)) S} `{HTicks : !Part ticks S} `{HTimers : !Part timer_vars S}
  `{HMessage : !Part message S} `{HWakeup : !Part wakeup S}.
Local Abbreviation M := (M C S).
(** Where [wakeup_timer] is; the addresses of the two handlers. *)
Context (wakeup_timer : nat) (wakeup_timer_handler_addr : Z) (default_wakeup_handler_addr : F).

Definition wakeup_vars : M wakeup := getp.
Definition set_wakeup (f : wakeup -> wakeup) : M unit := let! w := wakeup_vars in putp (f w).

(** [0x01 << (intno - start)]: undefined outside the word. *)
Definition mask_bit (intno start : Z) : M Z :=
  let n := intno - start in
  if (0 <=? n) && (n <? 32) then ret (shl32 1 n) else stop_now Undefined.

Definition interrput_arch_set_mask (intno : Z) (state : bool) : M unit :=
  let second := negb (Z.quot intno (MASK1_START_INTERRUPT - 1) =? 0) in
  let reg := if second then E902_WAKEUP_MASK1_REG else E902_WAKEUP_MASK0_REG in
  let! v := readl reg in
  let! bit := mask_bit intno (if second then MASK1_START_INTERRUPT else MASK0_START_INTERRUPT) in
  writel (if state then Z.lor v bit else Z.land v (cnot32 bit)) reg.

(** ** The wake-up timer *)

Definition wakeup_timer_handler (parg : Z) : M Z :=
  set_wakeup (with_source WAKESOURE_TIMER);; ret OK.

Definition set_cycle (v : Z) (t : softtimer) : softtimer :=
  Softtimer v (st_expires t) (st_cb t) (st_arg t) (st_start t).

Definition wakeup_timer_init : M Z :=
  modify_timer wakeup_timer (fun _ => Softtimer 0 0 (Some wakeup_timer_handler_addr) 0 SOFTTIMER_OFF);;
  let! _ := add_softtimer (let! t := timer_statics in ret (timer_lock t)) wakeup_timer in
  ret OK.
Definition wakeup_timer_start : M unit :=
  let! t := load_timer wakeup_timer in
  if negb (st_cycle t =? 0) then start_softtimer wakeup_timer else ret tt.
Definition wakeup_timer_stop : M unit := stop_softtimer wakeup_timer.

(** ** The wake-up interrupts *)

Definition default_wakeup_handler (parg : Z) : M Z :=
  let! intno := interrupt_get_current_intno in
  let! _ := interrupt_set_mask (s32 intno) TRUE in
  set_wakeup (with_source (u32 (CPUS_IRQ_MAPTO_CPUX intno)));;
  ret OK.

(** [group_irq_init] and [group_irq_exit]; only the first parameter is used. *)
Definition group_irq_config (root on : Z) : M Z :=
  let group_irq_num := CPUX_IRQ_MAPTO_CPUS_GRP root in
  if negb (group_irq_num =? FAIL) then interrupt_set_group_config (u32 group_irq_num) on
  else ret OK.
Definition group_irq_init (root : Z) : M Z := group_irq_config root TRUE.
Definition group_irq_exit (root : Z) : M Z := group_irq_config root FALSE.

(** [irq_wakesource_init] with [group_irq_init] and a handler, as it is
    called: the labels [uninstall] and [disable_group] are the failures. *)
Definition irq_wakesource_init (irq_num root : Z) (handler : F) (parg : Z) : M Z :=
  let disable_group r := let! _ := group_irq_exit root in ret r in
  let uninstall r :=
    let! _ := interrupt_disable irq_num in
    let! _ := uninstall_isr irq_num handler in
    disable_group r in
  let! r := interrupt_set_mask irq_num TRUE in
  if negb (r =? OK) then ret r
  else
    interrput_arch_set_mask irq_num false;;
    let! r := interrupt_disable irq_num in
    if negb (r =? OK) then ret r
    else
      let! r := interrupt_clear_pending irq_num in
      if negb (r =? OK) then ret r
      else
        let! r := group_irq_init root in
        if negb (r =? OK) then ret r
        else
          let! r := install_isr irq_num handler parg in
          if negb (r =? OK) then disable_group r
          else
            let! r := interrupt_enable irq_num in
            if negb (r =? OK) then uninstall r
            else
              let! r := interrupt_set_mask irq_num FALSE in
              if negb (r =? OK) then uninstall r
              else
                interrput_arch_set_mask irq_num true;;
                ret OK.

(** The first error of a sequence that goes on. *)
Definition first_of (first r : Z) : Z := if negb (r =? OK) && (first =? OK) then r else first.

Definition irq_wakesource_exit (irq_num root : Z) (handler : F) (parg : Z) : M Z :=
  let! r := interrupt_set_mask irq_num TRUE in
  let first_error := if negb (r =? OK) then r else OK in
  interrput_arch_set_mask irq_num false;;
  let! r := interrupt_disable irq_num in
  let first_error := first_of first_error r in
  let! r := interrupt_clear_pending irq_num in
  let first_error := first_of first_error r in
  let! r := uninstall_isr irq_num handler in
  let first_error := first_of first_error r in
  let! r := group_irq_exit root in
  ret (first_of first_error r).

(** ** Requests *)

Definition source_type (para : Z) : Z := Z.land (Z.shiftr para 30) 0x3.
Definition root_irq (para : Z) : Z := Z.land para 0x3FF.

Definition set_wakeup_src : M Z :=
  let! para := load_para 0 in
  let wakeup_root_irq := root_irq para in
  LOG "wakeup_root_irq: %d\n" [N_ wakeup_root_irq];;
  if source_type para =? 0x3 then
    let time_to_wakeup := Z.land para 0x3fffffff in
    modify_timer wakeup_timer (set_cycle (s32 (msec_to_ticks time_to_wakeup)));;
    ret OK
  else
    let irq_no := CPUX_IRQ_MAPTO_CPUS wakeup_root_irq in
    if irq_no =? -1 then
      ERR "%s(%d) irq_no error, root_irq %x\n" [S_ "set_wakeup_src"; N_ 196; N_ wakeup_root_irq];;
      ret (-1)
    else
      let! w := wakeup_vars in
      (if wakeup_source w =? wakeup_root_irq then set_wakeup (with_source NO_WAKESOURCE) else ret tt);;
      irq_wakesource_init irq_no wakeup_root_irq default_wakeup_handler_addr 0.

Definition clear_wakeup_src : M Z :=
  let! para := load_para 0 in
  let wakeup_root_irq := root_irq para in
  if source_type para =? 0x3 then
    wakeup_timer_stop;;
    modify_timer wakeup_timer (set_cycle 0);;
    modify_timer wakeup_timer (set_expires 0);;
    ret OK
  else
    let irq_no := CPUX_IRQ_MAPTO_CPUS wakeup_root_irq in
    if irq_no =? -1 then
      ERR "%s(%d) irq_no error, root_irq %x\n" [S_ "clear_wakeup_src"; N_ 251; N_ wakeup_root_irq];;
      ret (-1)
    else
      let! r := irq_wakesource_exit irq_no wakeup_root_irq default_wakeup_handler_addr 0 in
      if negb (r =? OK) then ret r else ret OK.

(** ** The service (standby.c) *)

Definition standby_init : M Z :=
  set_wakeup (fun w => WakeupVars (wakeup_source w) 0 0);;
  wakeup_timer_init.
Definition standby_exit : M Z := ret OK.

(** [fn] is what a call through the pointer does. *)
Definition long_jump (fn : Z -> M Z) (fn_addr arg : Z) : M Z :=
  INF "fn:%x,arg:%x\n" [N_ fn_addr; N_ arg];;
  fn arg.
End Wakeup.
