(* ===== verification/WakeupProps.v ===== *)
(** * Wake-up sources are a set of armed interrupts
    (src/ar100s/service/standby/wakeup_source.c)

    The abstract state says of each wake-up interrupt whether it is off,
    armed, or has fired; requests and interrupts are its transitions, and the
    service table, the enable bytes and the wake-up mask follow it. *)

From Stdlib Require Import String.
From S2P Require Import Prelude Machine Console Firmware Intc IntcProps Cpucfg CpucfgProps Prcm PrcmProps.
From S2P Require Import Ticks Timer TimerProps Msgbox Wakeup.

Local Open Scope list_scope.
Local Open Scope Z_scope.
Local Open Scope mach_scope.

(** ** Routes *)

(** The shared interrupts that can wake the system, and the interrupt of this
    core each arrives on. *)
Definition routes : list (Z * Z) :=
  [(157, 16); (158, 16); (159, 16); (160, 16); (196, 24); (197, 25); (198, 26); (199, 27); (200, 28); (206, 34)].
Definition wake_irqs : list Z := [16; 24; 25; 26; 27; 28; 34].

Fixpoint first_route (p : Z * Z -> bool) (l : list (Z * Z)) : option (Z * Z) :=
  match l with [] => None | r :: l => if p r then Some r else first_route p l end.
Definition irq_of (root : Z) : option Z := snd <$> first_route (fun r => r.1 =? root) routes.
Definition root_of (irq : Z) : option Z := fst <$> first_route (fun r => r.2 =? irq) routes.

Lemma mapto_cpus root : 0 <= root < 1024 ->
  CPUX_IRQ_MAPTO_CPUS root = match irq_of root with Some n => n | None => -1 end.
Proof.
  intros Hr.
  assert (forallb (fun root => CPUX_IRQ_MAPTO_CPUS root =? match irq_of root with Some n => n | None => -1 end)
    (zrange 0 1024) = true) as Hall by (vm_compute; reflexivity).
  apply Z.eqb_eq. by apply (zrange_forallb _ 0 1024 Hall).
Qed.

Lemma mapto_grp root : 0 <= root < 1024 -> CPUX_IRQ_MAPTO_CPUS_GRP root = FAIL.
Proof.
  intros Hr.
  assert (forallb (fun root => CPUX_IRQ_MAPTO_CPUS_GRP root =? FAIL) (zrange 0 1024) = true) as Hall
    by (vm_compute; reflexivity).
  apply Z.eqb_eq. by apply (zrange_forallb _ 0 1024 Hall).
Qed.

Lemma irq_of_wake root n : irq_of root = Some n -> n ∈ wake_irqs.
Proof.
  unfold irq_of. intros (r & Hr & ->)%fmap_Some. revert Hr. unfold routes. cbn [first_route fst].
  repeat (case_match; [intros [= <-]; cbn [snd]; in_list|]). done.
Qed.

Lemma wake_range n : n ∈ wake_irqs -> 16 <= n < IRQ_SOUCE_MAX.
Proof.
  intros Hn. unfold wake_irqs, IRQ_SOUCE_MAX in *. apply list_elem_of_In in Hn. cbn in Hn. lia.
Qed.

Lemma root_of_wake n : n ∈ wake_irqs -> exists root, root_of n = Some root /\ CPUS_IRQ_MAPTO_CPUX n = root /\ is_u32 root.
Proof.
  intros Hn. apply list_elem_of_In in Hn. unfold wake_irqs in Hn. cbn in Hn.
  destruct Hn as [<-|[<-|[<-|[<-|[<-|[<-|[<-|[]]]]]]]]; (eexists; split; [reflexivity|split; [reflexivity|by vm_compute]]).
Qed.

(** ** The registers *)

Section Hardware.
Context {C S : Type} `{HPrint : HasPrintf C}.
Implicit Types (e : env C) (s : S) (h : history C).
Context (init : Z -> Z).

(** Enable bytes and wake-up mask act as memory. *)
Definition wake_env e : Prop :=
  (forall k, clic_index k -> bplain e init (CLIC_INT_IE k)) /\ plain e init E902_WAKEUP_MASK0_REG.

(** Enable bits [ie] and wake-up mask [mk] of the wake-up interrupts. *)
Definition hw (ie : Z -> Z) (mk : Z -> bool) h : Prop :=
  is_u32 (regval init h E902_WAKEUP_MASK0_REG) /\
  forall n, n ∈ wake_irqs ->
    Z.land (byteval init h (CLIC_INT_IE n)) 1 = ie n /\
    Z.testbit (regval init h E902_WAKEUP_MASK0_REG) (n - 16) = mk n.

Definition upd {A} (n : Z) (v : A) (f : Z -> A) (m : Z) : A := if m =? n then v else f m.

Lemma wake_index n : n ∈ wake_irqs -> clic_index n.
Proof. intros Hn%wake_range. unfold clic_index, IRQ_SOUCE_MAX, CLIC_IRQ_MAX in *. lia. Qed.

Lemma hw_op o n ie mk e s h : wake_env e -> n ∈ wake_irqs -> hw ie mk h ->
  wp (apply_op o n) e s h (fun r s' h' => r = OK /\ s' = s /\ hw (upd n (enabled_after o (ie n)) ie) mk h') total.
Proof.
  intros [He _] Hn [Hu Hhw]. eapply wp_mono; [apply (apply_op_spec init o n); [by apply wake_index|by apply He, wake_index]|].
  intros r s' h' (-> & -> & Hself & Hother & Hreg). split; [done|]. split; [done|].
  split; [by rewrite Hreg|]. intros m Hm. rewrite Hreg. destruct (Hhw m Hm) as [Hie Hmk].
  split; [|done]. unfold upd. destruct (Z.eqb_spec m n) as [->|Hne].
  - destruct (Hhw n Hn) as [<- _]. exact Hself.
  - rewrite Hother by (done || by apply wake_index). exact Hie.
Qed.

(** A word access elsewhere leaves the enable bytes alone. *)
Lemma ie_word n v h : n ∈ wake_irqs ->
  byteval init (Wr E902_WAKEUP_MASK0_REG v :: h) (CLIC_INT_IE n) = byteval init h (CLIC_INT_IE n).
Proof.
  intros Hn. rewrite CLIC_INT_IE_eq by by apply wake_index. apply wake_range in Hn. cbn [byteval].
  change E902_WAKEUP_MASK0_REG with 0x07032064. unfold IRQ_SOUCE_MAX in *.
  destruct (Z.ltb_spec (0xE0801001 + 4 * n) (0x07032064 + 4)); [lia|]. by rewrite andb_false_r.
Qed.

Lemma hw_arch n (state : bool) ie mk e s h : wake_env e -> n ∈ wake_irqs -> hw ie mk h ->
  wp (interrput_arch_set_mask n state) e s h (fun _ s' h' => s' = s /\ hw ie (upd n state mk) h') total.
Proof.
  intros [_ Hp] Hn [Hu Hhw]. assert (Hr := wake_range n Hn). unfold IRQ_SOUCE_MAX in Hr.
  unfold interrput_arch_set_mask, mask_bit, MASK1_START_INTERRUPT, MASK0_START_INTERRUPT.
  rewrite Z.quot_small by lia. cbn [Z.eqb negb]. cbv zeta.
  apply wp_bind. eapply readl_plain; [exact Hp|exact Hu|]. apply wp_bind.
  destruct (Z.leb_spec 0 (n - 16)); [|lia]. destruct (Z.ltb_spec (n - 16) 32); [|lia]. cbn [andb].
  apply wp_ret, wp_writel. split; [done|]. set (v := regval init h E902_WAKEUP_MASK0_REG) in *.
  assert (forall k, 0 <= k < 32 -> Z.testbit (shl32 1 (n - 16)) k = bool_decide (k = n - 16)) as Hbit.
  { intros k Hk. unfold shl32. rewrite testbit_u32 by lia. destruct (Z.ltb_spec k 32); [|lia].
    apply (testbit_BIT (n - 16) k); lia. }
  split.
  - cbn [regval]. rewrite Z.eqb_refl. destruct state; auto with cint.
  - intros m Hm. rewrite ie_word by done. destruct (Hhw m Hm) as [Hie Hmk]. split; [exact Hie|].
    apply wake_range in Hm. unfold IRQ_SOUCE_MAX in Hm. cbn [regval]. rewrite Z.eqb_refl. unfold upd.
    destruct state; rewrite ?Z.lor_spec, ?Z.land_spec, ?testbit_cnot32, Hbit by lia;
      change (regval init h _) with v in Hmk; rewrite Hmk;
      destruct (Z.eqb_spec m n); [rewrite bool_decide_eq_true_2 by lia|rewrite bool_decide_eq_false_2 by lia
        |rewrite bool_decide_eq_true_2 by lia|rewrite bool_decide_eq_false_2 by lia];
      rewrite ?orb_true_r, ?orb_false_r, ?andb_false_r; try done.
    destruct (Z.ltb_spec (m - 16) 32); [|lia]. by rewrite andb_true_r.
Qed.

Lemma hw_ext ie mk ie' mk' h : hw ie mk h ->
  (forall n, n ∈ wake_irqs -> ie n = ie' n /\ mk n = mk' n) -> hw ie' mk' h.
Proof.
  intros [Hu Hhw] Heq. split; [done|]. intros n Hn. destruct (Heq n Hn) as [<- <-]. by apply Hhw.
Qed.
End Hardware.

(** ** The sources *)

Inductive phase := Off | Armed | Fired.
#[export] Instance phase_eq_dec : EqDecision phase.
Proof. solve_decision. Defined.

(** Each wake-up interrupt's phase, what last woke the system, the timer. *)
Record sources := Sources {
  phase_of : Z -> phase;
  source : Z;
  wake_timer : softtimer
}.

Inductive wake_event :=
| SetSrc (para : Z)
| ClearSrc (para : Z)
| Irq.

(** The fields of a request. *)
Definition is_timer (para : Z) : bool := Z.shiftr para 30 mod 4 =? 3.
Definition duration (para : Z) : Z := para mod 2 ^ 30.
Definition requested (para : Z) : Z := para mod 1024.

Definition stopped (t : softtimer) : softtimer := Softtimer 0 0 (st_cb t) (st_arg t) SOFTTIMER_OFF.

(** Requests and wake-up interrupts as transitions, with their status. *)
Inductive wake_step (a : sources) : wake_event -> Z -> sources -> Prop :=
| set_timer para : is_timer para = true ->
    wake_step a (SetSrc para) OK
      (Sources (phase_of a) (source a) (set_cycle (u32 (100 * duration para) / 1000) (wake_timer a)))
| set_unknown para : is_timer para = false -> irq_of (requested para) = None ->
    wake_step a (SetSrc para) (-1) a
| set_irq para n : is_timer para = false -> irq_of (requested para) = Some n ->
    wake_step a (SetSrc para) OK
      (Sources (upd n Armed (phase_of a))
         (if source a =? requested para then NO_WAKESOURCE else source a) (wake_timer a))
| clear_timer para : is_timer para = true ->
    wake_step a (ClearSrc para) OK (Sources (phase_of a) (source a) (stopped (wake_timer a)))
| clear_unknown para : is_timer para = false -> irq_of (requested para) = None ->
    wake_step a (ClearSrc para) (-1) a
| clear_off para n : is_timer para = false -> irq_of (requested para) = Some n -> phase_of a n = Off ->
    wake_step a (ClearSrc para) (- EFAIL) a
| clear_irq para n : is_timer para = false -> irq_of (requested para) = Some n -> phase_of a n <> Off ->
    wake_step a (ClearSrc para) OK (Sources (upd n Off (phase_of a)) (source a) (wake_timer a))
| irq_spurious n : n ∈ wake_irqs -> phase_of a n = Off -> wake_step a Irq OK a
| irq_wakes n root : n ∈ wake_irqs -> phase_of a n <> Off -> root_of n = Some root ->
    wake_step a Irq OK (Sources (upd n Fired (phase_of a)) root (wake_timer a)).

Inductive wake_steps : sources -> list wake_event -> list Z -> sources -> Prop :=
| wake_done a : wake_steps a [] [] a
| wake_more a ev r a1 evs rs a2 :
    wake_step a ev r a1 -> wake_steps a1 evs rs a2 -> wake_steps a (ev :: evs) (r :: rs) a2.

Section Sources.
Context {C S F : Type} `{HPrint : HasPrintf C} `{HInsn : !HasInsn C} `{HIsrs : Isrs F}
  `{HIsrTable : !Part (list (int_isr_node F)) S} `{HTicks : !Part ticks S}
  `{HMessage : !Part message S} `{HWakeup : !Part wakeup S}.
Context `{!Apart message (list (int_isr_node F)) S} `{!Apart message ticks S} `{!Apart message wakeup S}
  `{!Apart (list (int_isr_node F)) ticks S} `{!Apart (list (int_isr_node F)) wakeup S}
  `{!Apart ticks (list (int_isr_node F)) S} `{!Apart ticks wakeup S}
  `{!Apart wakeup (list (int_isr_node F)) S} `{!Apart wakeup ticks S}.
Implicit Types (e : env C) (s : S) (h : history C).
Context (init : Z -> Z) (wakeup_timer : nat) (handler : F) (Hhandler : handler <> isr_default).

Definition node_of (p : phase) : int_isr_node F :=
  match p with Off => default_node | Armed | Fired => IsrNode handler 0 end.
Lemma node_on p : p <> Off -> node_of p = IsrNode handler 0.
Proof. by destruct p. Qed.
Definition enabled (p : phase) : Z := match p with Armed => 1 | Off | Fired => 0 end.
Definition routed (p : phase) : bool := match p with Off => false | Armed | Fired => true end.

Definition table_of s : list (int_isr_node F) := part s.

(** The program's state and the registers follow the sources. *)
Definition follows (a : sources) s h : Prop :=
  length (table_of s) = Z.to_nat IRQ_SOUCE_MAX /\
  (forall n, n ∈ wake_irqs -> table_of s !! Z.to_nat n = Some (node_of (phase_of a n))) /\
  hw init (fun n => enabled (phase_of a n)) (fun n => routed (phase_of a n)) h /\
  wakeup_source (part s) = source a /\
  Ticks.timers (part s) !! wakeup_timer = Some (wake_timer a).

Lemma follows_message a (m : message) s h : follows a s h -> follows a (set_part m s) h.
Proof. unfold follows, table_of. by rewrite !part_other. Qed.

(** ** Operations on one interrupt *)

Lemma install_spec n arg node e s h ie mk : 0 <= n -> table_of s !! Z.to_nat n = Some node -> hw init ie mk h ->
  wp (install_isr n handler arg) e s h (fun r s' h' => r = OK /\
    s' = set_part (<[Z.to_nat n := IsrNode handler arg]> (table_of s)) s /\ hw init ie mk h') total.
Proof.
  intros Hn Hnode Hhw. unfold install_isr, INF. fw_steps. eapply IntcProps.wp_isr_entry; [done|exact Hnode|].
  eapply wp_set_entry_twice; [done|exact Hnode|]. done.
Qed.

Lemma uninstall_spec n node e s h ie mk : 0 <= n -> table_of s !! Z.to_nat n = Some node -> hw init ie mk h ->
  wp (uninstall_isr n handler) e s h (fun r s' h' =>
    r = (if decide (pisr node = handler) then OK else - EFAIL) /\
    s' = (if decide (pisr node = handler) then set_part (<[Z.to_nat n := default_node]> (table_of s)) s else s) /\
    hw init ie mk h') total.
Proof.
  intros Hn Hnode Hhw. unfold uninstall_isr, ERR. apply wp_bind. eapply IntcProps.wp_isr_entry; [done|exact Hnode|].
  destruct (decide _); [eapply wp_set_entry_twice; [done|exact Hnode|]; done|]. by fw_steps.
Qed.

Lemma group_config_spec root on e s h : 0 <= root < 1024 ->
  wp (group_irq_config root on) e s h (fun r s' h' => r = OK /\ s' = s /\ h' = h) total.
Proof.
  intros Hr. unfold group_irq_config. rewrite mapto_grp by done. cbn [Z.eqb FAIL negb]. by apply wp_ret.
Qed.

(** One step on the registers, in front of the rest. *)
Tactic Notation "hw_step" uconstr(lem) :=
  apply wp_bind; eapply wp_mono; [eapply lem; eassumption|]; cbv beta.

Lemma wakesource_init_spec n root node ie mk e s h :
  wake_env init e -> n ∈ wake_irqs -> 0 <= root < 1024 -> table_of s !! Z.to_nat n = Some node -> hw init ie mk h ->
  wp (irq_wakesource_init n root handler 0) e s h (fun r s' h' => r = OK /\
    s' = set_part (<[Z.to_nat n := IsrNode handler 0]> (table_of s)) s /\
    hw init (upd n 1 ie) (upd n true mk) h') total.
Proof.
  intros He Hn Hroot Hnode Hhw. assert (Hr := wake_range n Hn). unfold irq_wakesource_init. cbv zeta.
  hw_step (hw_op init (SetMask 1) n). intros ? ? ? (-> & -> & Hhw1). cbn [Z.eqb OK negb].
  hw_step (hw_arch init n false). intros ? ? ? (-> & Hhw2).
  hw_step (hw_op init Disable n). intros ? ? ? (-> & -> & Hhw3). cbn [Z.eqb OK negb].
  hw_step (hw_op init ClearPending n). intros ? ? ? (-> & -> & Hhw4). cbn [Z.eqb OK negb].
  apply wp_bind. eapply wp_mono; [by apply group_config_spec|]. intros ? ? ? (-> & -> & ->). cbn [Z.eqb OK negb].
  apply wp_bind. eapply wp_mono; [apply (install_spec n 0 node); [lia|exact Hnode|exact Hhw4]|].
  intros ? ? ? (-> & -> & Hhw5). cbn [Z.eqb OK negb].
  hw_step (hw_op init Enable n). intros ? ? ? (-> & -> & Hhw6). cbn [Z.eqb OK negb].
  hw_step (hw_op init (SetMask 0) n). intros ? ? ? (-> & -> & Hhw7). cbn [Z.eqb OK negb].
  hw_step (hw_arch init n true). intros ? ? ? (-> & Hhw8).
  apply wp_ret. split; [done|]. split; [done|]. eapply hw_ext; [exact Hhw8|]. intros m Hm. unfold upd.
  by destruct (Z.eqb_spec m n).
Qed.
Lemma wakesource_exit_spec n root node ie mk e s h :
  wake_env init e -> n ∈ wake_irqs -> 0 <= root < 1024 -> table_of s !! Z.to_nat n = Some node -> hw init ie mk h ->
  wp (irq_wakesource_exit n root handler 0) e s h (fun r s' h' =>
    r = (if decide (pisr node = handler) then OK else - EFAIL) /\
    s' = (if decide (pisr node = handler) then set_part (<[Z.to_nat n := default_node]> (table_of s)) s else s) /\
    hw init (upd n 0 ie) (upd n false mk) h') total.
Proof.
  intros He Hn Hroot Hnode Hhw. assert (Hr := wake_range n Hn). unfold irq_wakesource_exit. cbv zeta.
  hw_step (hw_op init (SetMask 1) n). intros ? ? ? (-> & -> & Hhw1). cbn [Z.eqb OK negb].
  hw_step (hw_arch init n false). intros ? ? ? (-> & Hhw2).
  hw_step (hw_op init Disable n). intros ? ? ? (-> & -> & Hhw3).
  hw_step (hw_op init ClearPending n). intros ? ? ? (-> & -> & Hhw4).
  apply wp_bind. eapply wp_mono; [apply (uninstall_spec n node); [lia|exact Hnode|exact Hhw4]|].
  intros ? s1 ? (-> & -> & Hhw5). apply wp_bind. eapply wp_mono; [by apply group_config_spec|].
  intros ? ? ? (-> & -> & ->). apply wp_ret. unfold first_of. cbn [Z.eqb OK negb andb]. split; [|split].
  - by destruct (decide _).
  - done.
  - eapply hw_ext; [exact Hhw5|]. intros m Hm. unfold upd. rewrite ?Z.eqb_refl. by destruct (Z.eqb_spec m n).
Qed.

(** ** Requests *)

Definition deliver (para : Z) : M C S unit := set_message (with_paras (Some [para])).

Lemma request_fields para : is_u32 para ->
  source_type para = Z.shiftr para 30 mod 4 /\ root_irq para = requested para /\
  Z.land para 0x3fffffff = duration para /\ 0 <= requested para < 1024.
Proof.
  intros Hp. unfold source_type, root_irq, requested, duration.
  change 0x3 with (Z.ones 2). change 0x3FF with (Z.ones 10). change 0x3fffffff with (Z.ones 30).
  rewrite !Z.land_ones by lia. do 3 (split; [done|]). apply Z.mod_pos_bound. lia.
Qed.

Lemma ticks_small d : 0 <= d -> s32 (msec_to_ticks d) = u32 (100 * d) / 1000.
Proof.
  intros Hd. unfold msec_to_ticks, TICK_PER_SEC, s32. assert (H := u32_range (100 * d)). unfold is_u32 in H.
  assert (0 <= u32 (100 * d) / 1000 < 2 ^ 31) as Hb.
  { split; [apply Z.div_pos; lia|]. apply Z.div_lt_upper_bound; lia. }
  rewrite u32_small by lia. destruct (Z.ltb_spec (u32 (100 * d) / 1000) (2 ^ 31)); [done|lia].
Qed.

Lemma wp_modify_timer p f x e s h (Q : unit -> S -> history C -> Prop) K :
  Ticks.timers (part s) !! p = Some x ->
  (let t := part (T := ticks) s in
   Q tt (set_part (TickVars (time_ticks t) (slots t) (softtimer_cnt t) (<[p := f x]> (Ticks.timers t))) s) h) ->
  wp (modify_timer p f) e s h Q K.
Proof.
  intros Hx HQ. unfold modify_timer, load_timer, set_ticks, tick_vars. apply wp_bind, wp_bind, wp_getp.
  rewrite Hx. apply wp_ret, wp_bind, wp_getp, wp_putp. exact HQ.
Qed.

(** The timer moves on, everything else stays. *)
Lemma follows_timer a s h f : follows a s h ->
  follows (Sources (phase_of a) (source a) (f (wake_timer a)))
    (set_part (TickVars (time_ticks (part s)) (slots (part s)) (softtimer_cnt (part s))
       (<[wakeup_timer := f (wake_timer a)]> (Ticks.timers (part s)))) s) h.
Proof.
  intros (Hlen & Htab & Hhw & Hsrc & Htim). unfold follows, table_of. rewrite !part_other, part_set.
  split_and!; try done. cbn [Ticks.timers wake_timer]. apply list_lookup_insert_eq. by apply lookup_lt_Some in Htim.
Qed.

(** One interrupt changes its phase. *)
Lemma follows_phase a n p src s s' h h' :
  follows a s h -> n ∈ wake_irqs ->
  hw init (upd n (enabled p) (fun n => enabled (phase_of a n))) (upd n (routed p) (fun n => routed (phase_of a n))) h' ->
  table_of s' = <[Z.to_nat n := node_of p]> (table_of s) ->
  part (T := ticks) s' = part s -> wakeup_source (part s') = src ->
  follows (Sources (upd n p (phase_of a)) src (wake_timer a)) s' h'.
Proof.
  intros (Hlen & Htab & Hhw & Hsrc & Htim) Hn Hhw' Ht Hk Hw. unfold follows. rewrite Ht, Hk, length_insert.
  split_and!; [done| | |done|done].
  - intros m Hm. cbn [phase_of]. unfold upd. destruct (Z.eqb_spec m n) as [->|Hne].
    + apply list_lookup_insert_eq. rewrite Hlen. apply wake_range in Hn. lia.
    + apply wake_range in Hn, Hm as Hm'. rewrite list_lookup_insert_ne by lia. by apply Htab.
  - eapply hw_ext; [exact Hhw'|]. intros m Hm. cbn [phase_of]. unfold upd. by destruct (m =? n).
Qed.

(** Nothing but the registers may change, to what they were. *)
Lemma follows_same a n s h h' :
  follows a s h -> n ∈ wake_irqs -> phase_of a n = Off ->
  hw init (upd n 0 (fun n => enabled (phase_of a n))) (upd n false (fun n => routed (phase_of a n))) h' ->
  follows a s h'.
Proof.
  intros (Hlen & Htab & Hhw & Hsrc & Htim) Hn Hoff Hhw'. split_and!; try done.
  eapply hw_ext; [exact Hhw'|]. intros m Hm. unfold upd. destruct (Z.eqb_spec m n) as [->|]; [by rewrite Hoff|done].
Qed.

Local Abbreviation set_src := (set_wakeup_src wakeup_timer handler).
Local Abbreviation clear_src := (clear_wakeup_src wakeup_timer handler).

(** Reading the request that was delivered. *)
Lemma wp_para para (k : Z -> M C S Z) e s h Q K :
  paras (part s) = Some [para] -> wp (k para) e s h Q K -> wp (let! p := load_para 0 in k p) e s h Q K.
Proof.
  intros Hp Hk. apply wp_bind. unfold load_para, pmessage. apply wp_bind, wp_getp. rewrite Hp. by apply wp_ret.
Qed.

Lemma set_spec a para e s h :
  wake_env init e -> is_u32 para -> paras (part s) = Some [para] -> follows a s h ->
  wp set_src e s h (fun r s' h' => exists a', wake_step a (SetSrc para) r a' /\ follows a' s' h') total.
Proof.
  intros He Hu Hp Hf. destruct (request_fields para Hu) as (Hty & Hroot & Hdur & Hrange).
  unfold set_wakeup_src. eapply wp_para; [exact Hp|]. rewrite Hroot, Hty, Hdur. cbv zeta. unfold LOG.
  apply wp_bind, wp_printf. intros r0. change (Z.shiftr para 30 mod 4 =? 3) with (is_timer para).
  assert (follows a s (Call (printf_call "wakeup_root_irq: %d\n" [N_ DEBUG_LEVEL_LOG; N_ (requested para)]) r0 :: h)) as Hf1 by exact Hf.
  destruct (is_timer para) eqn:Ety.
  - apply wp_bind. eapply wp_modify_timer; [apply Hf|]. apply wp_ret. eexists. split; [by apply set_timer|].
    assert (0 <= duration para) by (unfold duration; apply Z.mod_pos_bound; lia).
    rewrite ticks_small by done. by apply (follows_timer a _ _ (set_cycle (u32 (100 * duration para) / 1000))).
  - rewrite mapto_cpus by done. destruct (irq_of (requested para)) as [n|] eqn:En.
    + assert (Hn := irq_of_wake _ _ En). assert (Hr := wake_range n Hn).
      destruct (Z.eqb_spec n (-1)); [lia|]. unfold wakeup_vars, set_wakeup. apply wp_bind, wp_getp.
      destruct Hf1 as (Hlen & Htab & Hhw & Hsrc & Htim). rewrite Hsrc.
      set (src := if source a =? requested para then NO_WAKESOURCE else source a).
      assert (exists w, wakeup_source w = src /\ forall h (Q : unit -> S -> history C -> Prop),
        Q tt (set_part w s) h ->
        wp (if source a =? requested para then let! w := getp in putp (with_source NO_WAKESOURCE w) else ret tt) e s h Q total)
        as (w & Hw & Hwp).
      { unfold src. destruct (source a =? requested para).
        - exists (with_source NO_WAKESOURCE (part s)). split; [done|]. intros h1 Q HQ. by fw_steps.
        - exists (part s). split; [exact Hsrc|]. intros h1 Q HQ. rewrite set_same in HQ. by apply wp_ret. }
      apply wp_bind, Hwp. eapply wp_mono.
      { apply (wakesource_init_spec n (requested para) (node_of (phase_of a n)));
          [exact He|exact Hn|exact Hrange|unfold table_of; rewrite part_other; by apply Htab|exact Hhw]. }
      intros r s1 h1 (-> & -> & Hhw1). eexists. split; [by eapply set_irq|].
      eapply (follows_phase a n Armed); [done|exact Hn|exact Hhw1| | |]; unfold table_of; rewrite ?part_set, ?part_other; try done.
      by rewrite part_set.
    + cbn [Z.eqb Pos.eqb]. unfold ERR. fw_steps. eexists. split; [by apply set_unknown|exact Hf].
Qed.

Lemma clear_spec a para e s h :
  wake_env init e -> is_u32 para -> paras (part s) = Some [para] -> follows a s h ->
  wp clear_src e s h (fun r s' h' => exists a', wake_step a (ClearSrc para) r a' /\ follows a' s' h') total.
Proof.
  intros He Hu Hp Hf. destruct (request_fields para Hu) as (Hty & Hroot & Hdur & Hrange).
  unfold clear_wakeup_src. eapply wp_para; [exact Hp|]. rewrite Hroot, Hty. cbv zeta.
  change (Z.shiftr para 30 mod 4 =? 3) with (is_timer para). destruct (is_timer para) eqn:Ety.
  - unfold wakeup_timer_stop, stop_softtimer. apply wp_bind, wp_bind.
    set (steps := [set_expires 0; set_start SOFTTIMER_OFF; set_cycle 0; set_expires 0]).
    assert (forall f a s h (k : M C S Z) Q, follows a s h ->
      (forall s1, follows (Sources (phase_of a) (source a) (f (wake_timer a))) s1 h -> wp k e s1 h Q total) ->
      wp (modify_timer wakeup_timer f;; k) e s h Q total) as Hmod.
    { intros f a0 s0 h0 k Q Hf0 Hk. apply wp_bind. eapply wp_modify_timer; [apply Hf0|].
      apply Hk. by apply follows_timer. }
    eapply wp_modify_timer; [apply Hf|]. apply (follows_timer _ _ _ (set_expires 0)) in Hf. cbv zeta in Hf |- *.
    eapply wp_modify_timer; [apply Hf|]. apply (follows_timer _ _ _ (set_start SOFTTIMER_OFF)) in Hf. cbv zeta in Hf |- *.
    eapply Hmod; [exact Hf|]. intros s1 Hf1. eapply Hmod; [exact Hf1|]. intros s2 Hf2.
    apply wp_ret. eexists. split; [by apply clear_timer|exact Hf2].
  - rewrite mapto_cpus by done. destruct (irq_of (requested para)) as [n|] eqn:En.
    + assert (Hn := irq_of_wake _ _ En). assert (Hr := wake_range n Hn).
      destruct (Z.eqb_spec n (-1)); [lia|]. assert (Hf' := Hf). destruct Hf' as (Hlen & Htab & Hhw & Hsrc & Htim).
      apply wp_bind. eapply wp_mono.
      { apply (wakesource_exit_spec n (requested para) (node_of (phase_of a n)));
          [exact He|exact Hn|exact Hrange|by apply Htab|exact Hhw]. }
      intros r s1 h1 (-> & -> & Hhw1). destruct (phase_of a n) eqn:Eph; cbn [node_of pisr default_node].
      * rewrite !decide_False by congruence. apply wp_ret. eexists. split; [eapply clear_off; [done|exact En|exact Eph]|eapply follows_same; [exact Hf|exact Hn|exact Eph|exact Hhw1]].
      * rewrite !decide_True by done. apply wp_ret. eexists.
        split; [eapply clear_irq; [done|done|congruence]|].
        eapply (follows_phase a n Off); [exact Hf|exact Hn|exact Hhw1| | |]; unfold table_of;
          rewrite ?part_set, ?part_other; try done; exact Hsrc.
      * rewrite !decide_True by done. apply wp_ret. eexists.
        split; [eapply clear_irq; [done|done|congruence]|].
        eapply (follows_phase a n Off); [exact Hf|exact Hn|exact Hhw1| | |]; unfold table_of;
          rewrite ?part_set, ?part_other; try done; exact Hsrc.
    + cbn [Z.eqb Pos.eqb]. unfold ERR. fw_steps. eexists. split; [by apply clear_unknown|exact Hf].
Qed.

(** ** Interrupts *)

(** The core reports a wake-up interrupt, and the same one when asked again. *)
Definition wake_causes e : Prop :=
  (forall h, Z.land (u32 (env_ret e h (insn_call csrr_mcause))) 0xff ∈ wake_irqs) /\
  (forall h, let v := env_ret e h (insn_call csrr_mcause) in
     env_ret e (Call (insn_call csrr_mcause) v :: h) (insn_call csrr_mcause) = v).

(** What calls of the other routines do; the handler is the program's. *)
Context (run_other : F -> Z -> M C S Z)
  (Hrun : forall arg, run_other handler arg = default_wakeup_handler arg).

Lemma irq_spec a e s h :
  wake_env init e -> wake_causes e -> follows a s h ->
  wp (interrupt_entry run_other) e s h (fun r s' h' => exists a', wake_step a Irq r a' /\ follows a' s' h') total.
Proof.
  intros He [Hcause Hstable] Hf. unfold interrupt_entry, intc_get_current_interrupt, get_MCAUSE.
  apply wp_bind, wp_bind, wp_bind, wp_call. intros v Ev. do 2 apply wp_ret.
  set (n := Z.land (u32 v) 255). assert (n ∈ wake_irqs) as Hn by (unfold n; rewrite Ev; apply Hcause).
  assert (Hr := wake_range n Hn). set (h1 := Call _ v :: h).
  assert (follows a s h1) as Hf1 by exact Hf. assert (Hf2 := Hf1). destruct Hf2 as (Hlen & Htab & Hhw & Hsrc & Htim).
  apply wp_bind. eapply IntcProps.wp_isr_entry; [lia|by apply Htab|].
  assert (env_ret e h1 (insn_call csrr_mcause) = v) as Hagain by (unfold h1; rewrite Ev; apply Hstable).
  unfold run_isr. destruct (decide (phase_of a n = Off)) as [Hoff|Hon].
  - rewrite Hoff. cbn [node_of pisr default_node]. rewrite decide_True by done.
    unfold isr_default_body, intc_get_current_interrupt, get_MCAUSE, ERR. fw_steps. exists a.
    split; [by apply (irq_spurious a n)|exact Hf1].
  - rewrite (node_on (phase_of a n)) by done.
    cbn [pisr parg]. rewrite decide_False by done. rewrite Hrun. unfold default_wakeup_handler, interrupt_get_current_intno,
      intc_get_current_interrupt, get_MCAUSE.
    apply wp_bind, wp_bind, wp_bind, wp_bind, wp_call. rewrite Hagain. intros w ->. do 2 apply wp_ret. fold n.
    assert (s32 n = n) as ->.
    { unfold s32. unfold IRQ_SOUCE_MAX in Hr. rewrite u32_small by lia. destruct (Z.ltb_spec n (2 ^ 31)); [done|lia]. }
    hw_step (hw_op init (SetMask 1) n). intros r2 s2 h2 (-> & -> & Hhw2).
    destruct (root_of_wake n Hn) as (root & Hroot & -> & Hu). rewrite u32_id by done.
    unfold set_wakeup, wakeup_vars. fw_steps. eexists. split; [by eapply irq_wakes|].
    eapply (follows_phase a n Fired); [exact Hf1|exact Hn| | | |].
    + eapply hw_ext; [exact Hhw2|]. intros m Hm. unfold upd. destruct (Z.eqb_spec m n) as [->|]; [|done].
      by destruct (phase_of a n).
    + assert (Hnode := Htab n Hn). rewrite node_on in Hnode by done. unfold table_of in *.
      rewrite part_other. symmetry. by apply list_insert_id.
    + by rewrite part_other.
    + by rewrite part_set.
Qed.

(** ** Sequences *)

Definition run_event (ev : wake_event) : M C S Z :=
  match ev with
  | SetSrc para => deliver para;; set_src
  | ClearSrc para => deliver para;; clear_src
  | Irq => interrupt_entry run_other
  end.
Definition event_ok (ev : wake_event) : Prop :=
  match ev with SetSrc para | ClearSrc para => is_u32 para | Irq => True end.
Fixpoint run_events (evs : list wake_event) : M C S (list Z) :=
  match evs with
  | [] => ret []
  | ev :: evs => let! r := run_event ev in let! rs := run_events evs in ret (r :: rs)
  end.

Lemma run_event_spec a ev e s h :
  wake_env init e -> wake_causes e -> event_ok ev -> follows a s h ->
  wp (run_event ev) e s h (fun r s' h' => exists a', wake_step a ev r a' /\ follows a' s' h') total.
Proof.
  intros He Hc Hok Hf. destruct ev as [para|para|]; [..|by apply irq_spec];
    unfold run_event, deliver, set_message, pmessage; apply wp_bind, wp_bind, wp_getp, wp_putp.
  - apply set_spec; [done|done|by rewrite part_set|by apply follows_message].
  - apply clear_spec; [done|done|by rewrite part_set|by apply follows_message].
Qed.

(** C19: For every sequence of requests to set or clear a wake-up source and
    of wake-up interrupts, the program is the machine [wake_step]: every
    status is the machine's, and afterwards the service table, the enable
    bits, the wake-up mask, the recorded source and the wake-up timer are
    those of a state the machine reached.  An armed interrupt is routed,
    enabled and served by the wake-up handler; one that fired is recorded,
    disabled until it is set again; one that is off is masked twice over and
    has the default routine. *)
Theorem wakeup_refines_machine a evs e s h :
  wake_env init e -> wake_causes e -> Forall event_ok evs -> follows a s h ->
  wp (run_events evs) e s h (fun rs s' h' => exists a', wake_steps a evs rs a' /\ follows a' s' h') total.
Proof.
  intros He Hc Hok. revert a s h. induction Hok as [|ev evs Hev _ IH]; intros a s h Hf; cbn [run_events].
  - apply wp_ret. exists a. split; [constructor|done].
  - apply wp_bind. eapply wp_mono; [by apply (run_event_spec a)|]. intros r s1 h1 (a1 & Hstep & Hf1).
    apply wp_bind. eapply wp_mono; [by apply (IH a1)|]. intros rs s2 h2 (a2 & Hsteps & Hf2).
    apply wp_ret. exists a2. split; [by econstructor|done].
Qed.
End Sources.

(** ** A run *)

Record image := Image {
  im_isrs : list (int_isr_node nat);
  im_ticks : ticks;
  im_message : message;
  im_wakeup : wakeup
}.
#[local] Ltac part_laws := by intros; repeat match goal with s : image |- _ => destruct s end.
#[local, refine] Instance image_isrs : Part (list (int_isr_node nat)) image := {|
  part := im_isrs; set_part t s := Image t (im_ticks s) (im_message s) (im_wakeup s) |}.
Proof. all: part_laws. Defined.
#[local, refine] Instance image_ticks : Part ticks image := {|
  part := im_ticks; set_part t s := Image (im_isrs s) t (im_message s) (im_wakeup s) |}.
Proof. all: part_laws. Defined.
#[local, refine] Instance image_message : Part message image := {|
  part := im_message; set_part m s := Image (im_isrs s) (im_ticks s) m (im_wakeup s) |}.
Proof. all: part_laws. Defined.
#[local, refine] Instance image_wakeup : Part wakeup image := {|
  part := im_wakeup; set_part w s := Image (im_isrs s) (im_ticks s) (im_message s) w |}.
Proof. all: part_laws. Defined.

#[local] Instance two_isrs : Isrs nat := {| isr_default := 0%nat |}.

Definition idle_timer : softtimer := Softtimer 0 0 (Some 0x100) 0 SOFTTIMER_OFF.
Definition all_off : sources := Sources (fun _ => Off) NO_WAKESOURCE idle_timer.
Definition idle : image :=
  Image (replicate 35 default_node) (TickVars 0 [Some 0%nat; None] 1 [idle_timer]) (Message 0 0 0 0 0 None)
    (WakeupVars NO_WAKESOURCE 0 0).
(** The registers are memory, and pin interrupt 25 is what comes. *)
Definition pin_env : env fw_call :=
  Env (fun h a => if a =? E902_WAKEUP_MASK0_REG then regval (fun _ => 0) h a else byteval (fun _ => 0) h a)
    (fun _ _ => 25) (fun _ _ => []).

(** Arm the pins, wake up, clear them, and clear them again. *)
Lemma wakeup_refines_machine_witness :
  let run_other := fun (f : nat) arg => default_wakeup_handler (S := image) arg in
  wp (run_events 0 1%nat run_other [SetSrc 197; Irq; ClearSrc 197; ClearSrc 197]) pin_env idle [] (fun rs s' h' =>
    exists a', wake_steps all_off [SetSrc 197; Irq; ClearSrc 197; ClearSrc 197] rs a' /\
      follows (fun _ => 0) 0 1%nat a' s' h') total.
Proof.
  intros run_other.
  unshelve eapply wakeup_refines_machine; try (by intros t []).
  - done.
  - done.
  - split; [|by split; [by vm_compute|]]. intros k Hk. split; [by vm_compute|]. intros h. cbn [env_read pin_env].
    rewrite CLIC_INT_IE_eq by done. unfold clic_index, CLIC_IRQ_MAX in Hk.
    by rewrite (proj2 (Z.eqb_neq _ E902_WAKEUP_MASK0_REG)) by (change E902_WAKEUP_MASK0_REG with 0x07032064; lia).
  - split; [intros h; change (25 ∈ wake_irqs); in_list|done].
  - by repeat (apply Forall_cons; split; [by vm_compute|]).
  - split_and!; [done| | |done|done].
    + intros n Hn. apply wake_range in Hn. apply lookup_replicate_2. unfold IRQ_SOUCE_MAX in Hn. lia.
    + split; [by vm_compute|]. intros n Hn. split; [done|apply Z.bits_0].
Defined.
