(* ===== verification/Crc.v ===== *)
(** * The checksum of the DRAM over a standby
    (src/ar100s/service/standby/standby_dram_crc.c)

    The DRAM is in the byte store; words are little-endian. *)

From Stdlib Require Import String.
From S2P Require Import Prelude Machine Console CMem Firmware.

Local Open Scope string_scope.
Local Open Scope list_scope.
Local Open Scope Z_scope.
Local Open Scope mach_scope.

Definition DRAM_CRC_MAX_LEN : Z := 16 * 1024 * 1024.
Definition ARISC_DRAM_BASE : Z := 0x40000000.
Definition ARISC_DRAM_END : Z := 0x80000000.

(** Statics of the file. *)
Record crc_vars := CrcVars {
  dram_crc_enable : Z;
  dram_crc_src : Z;
  dram_crc_len : Z
}.
Definition crc_initial : crc_vars := CrcVars 0 0x40000000 (1024 * 1024).

(** One round of the [for] loop: [crc] and [value]. *)
Definition crc_bit (cv : Z * Z) : Z * Z :=
  let '(crc, value) := cv in
  let mask := u32 (0 - Z.land (Z.lxor crc value) 1) in
  (Z.lxor (Z.shiftr crc 1) (Z.land 0xedb88320 mask), Z.shiftr value 1).
(** The 32 rounds over one word. *)
Definition crc_word (crc value : Z) : Z := (Nat.iter 32 crc_bit (crc, value)).1.

Section Crc.
Context {C S : Type} `{HPrint : HasPrintf C} `{HCrc : !Part crc_vars S} `{HMem : !Part mem S}.
Local Abbreviation M := (M C S).

Definition crc_statics : M crc_vars := getp.

Definition standby_set_dram_crc_paras (enable src len : Z) : M Z :=
  if 1 <? enable then ret (- EINVAL)
  else if enable =? 0 then
    let! c := crc_statics in
    putp (CrcVars 0 (dram_crc_src c) (dram_crc_len c));;
    ret OK
  else if negb (Z.land src 3 =? 0) || negb (Z.land len 3 =? 0) || (len =? 0) || (DRAM_CRC_MAX_LEN <? len)
          || (src <? ARISC_DRAM_BASE) || (ARISC_DRAM_END <=? src) || (u32 (ARISC_DRAM_END - src) <? len) then
    ERR "invalid dram CRC range: src=%x len=%x\n" [N_ src; N_ len];;
    ret (- EINVAL)
  else
    putp (CrcVars enable src len);;
    ret OK.

Definition standby_dram_crc_enable : M Z := let! c := crc_statics in ret (s32 (dram_crc_enable c)).

(** [while (pdata < end)]; [fuel] bounds the words. *)
Fixpoint crc_loop (fuel : nat) (pdata stop crc : Z) : M Z :=
  if pdata <? stop then
    match fuel with
    | O => stop_now OutOfFuel
    | Datatypes.S fuel =>
        let! value := on_part (load32 pdata) in
        crc_loop fuel (u32 (pdata + 4)) stop (crc_word crc value)
    end
  else ret crc.

Definition standby_dram_crc (fuel : nat) : M Z :=
  let! c := crc_statics in
  INF "crc begin src:%x len:%x\n" [N_ (dram_crc_src c); N_ (dram_crc_len c)];;
  let! crc := crc_loop fuel (dram_crc_src c) (u32 (dram_crc_src c + dram_crc_len c)) 0xffffffff in
  INF "crc finish...\n" [];;
  ret (cnot32 crc).
End Crc.
