(* ===== verification/CrcProps.v ===== *)
(** * The DRAM checksum is CRC-32, and it notices every damaged word
    (src/ar100s/service/standby/standby_dram_crc.c)

    One round of the loop is the shift register [lfsr] on the exclusive or of
    its two variables; [lfsr] is linear and one-to-one. *)

From Stdlib Require Import String.
From S2P Require Import CMem Prelude Machine Console Firmware Crc.

Local Open Scope list_scope.
Local Open Scope Z_scope.
Local Open Scope mach_scope.

#[local] Coercion Z.of_nat : nat >-> Z.

(** ** The shift register *)

(** One step of the reflected polynomial 0x04C11DB7. *)
Definition lfsr (x : Z) : Z := Z.lxor (Z.shiftr x 1) (if Z.odd x then 0xedb88320 else 0).

(** CRC-32 as it is defined: a byte at a time, least significant bit first. *)
Definition crc32_byte (crc byte : Z) : Z := Nat.iter 8 lfsr (Z.lxor crc byte).
Definition crc32 (bytes : list Z) : Z := cnot32 (fold_left crc32_byte bytes 0xffffffff).

(** The published check value. *)
Example crc32_check : crc32 [49; 50; 51; 52; 53; 54; 55; 56; 57] = 0xcbf43926.
Proof. reflexivity. Qed.

(** Every bit both ways. *)
Ltac bit_cases :=
  repeat match goal with |- context [Z.testbit ?x ?n] => destruct (Z.testbit x n) end; reflexivity.

Lemma is_u32_lxor x y : is_u32 x -> is_u32 y -> is_u32 (Z.lxor x y).
Proof.
  intros Hx Hy. apply is_u32_bits.
  - apply Z.lxor_nonneg. split; intros _; [apply Hy | apply Hx].
  - intros n Hn. by rewrite Z.lxor_spec, (testbit_is_u32 x n), (testbit_is_u32 y n).
Qed.

Lemma is_u32_shiftr x n : is_u32 x -> 0 <= n -> is_u32 (Z.shiftr x n).
Proof.
  intros Hx Hn. apply is_u32_bits; [apply Z.shiftr_nonneg, Hx|].
  intros k Hk. rewrite Z.shiftr_spec by lia. apply testbit_is_u32; [done | lia].
Qed.

Lemma lfsr_range x : is_u32 x -> is_u32 (lfsr x).
Proof.
  intros Hx. apply is_u32_lxor; [by apply is_u32_shiftr|].
  destruct (Z.odd x); unfold is_u32; lia.
Qed.

Lemma iter_range n x : is_u32 x -> is_u32 (Nat.iter n lfsr x).
Proof. intros Hx. induction n as [|n IH]; [done | by apply lfsr_range]. Qed.

Lemma odd_lxor x y : Z.odd (Z.lxor x y) = xorb (Z.odd x) (Z.odd y).
Proof. by rewrite <- !Z.bit0_odd, Z.lxor_spec. Qed.

Lemma lfsr_lxor x y : lfsr (Z.lxor x y) = Z.lxor (lfsr x) (lfsr y).
Proof.
  unfold lfsr. rewrite Z.shiftr_lxor, odd_lxor. apply Z.bits_inj'. intros n _.
  rewrite !Z.lxor_spec. destruct (Z.odd x), (Z.odd y); cbn [xorb]; rewrite ?Z.bits_0;
    bit_cases.
Qed.

Lemma iter_lxor n x y : Nat.iter n lfsr (Z.lxor x y) = Z.lxor (Nat.iter n lfsr x) (Nat.iter n lfsr y).
Proof. induction n as [|n IH]; [done|]. cbn [Nat.iter nat_rect]. unfold Nat.iter in IH. by rewrite IH, lfsr_lxor. Qed.

Lemma iter_add {A} (f : A -> A) n k x : Nat.iter (n + k) f x = Nat.iter n f (Nat.iter k f x).
Proof. induction n as [|n IH]; [done|]. cbn. by f_equal. Qed.

(** Only zero shifts out to zero: bit 31 of the result is the bit that fell
    out. *)
Lemma lfsr_zero x : is_u32 x -> lfsr x = 0 -> x = 0.
Proof.
  intros Hx H0. assert (Z.odd x = false) as Hodd.
  { apply (f_equal (fun z => Z.testbit z 31)) in H0. unfold lfsr in H0.
    rewrite Z.lxor_spec, Z.shiftr_spec, (testbit_is_u32 x (31 + 1)), Z.bits_0 in H0 by first [done|lia].
    by destruct (Z.odd x). }
  unfold lfsr in H0. rewrite Hodd, Z.lxor_0_r, Z.shiftr_div_pow2 in H0 by lia.
  pose proof (Zmod_odd x) as Hm. rewrite Hodd in Hm. change (2 ^ 1) with 2 in H0.
  pose proof (Z.div_mod x 2). lia.
Qed.

Lemma iter_zero n x : is_u32 x -> Nat.iter n lfsr x = 0 -> x = 0.
Proof.
  intros Hx. induction n as [|n IH]; [done|]. intros H0. cbn in H0.
  apply lfsr_zero in H0; [by apply IH | by apply iter_range].
Qed.

Lemma iter_inj n x y : is_u32 x -> is_u32 y -> Nat.iter n lfsr x = Nat.iter n lfsr y -> x = y.
Proof.
  intros Hx Hy E. apply Z.lxor_eq. apply (iter_zero n); [by apply is_u32_lxor|].
  by rewrite iter_lxor, E, Z.lxor_nilpotent.
Qed.

(** An even register only shifts. *)
Lemma iter_shift n x : Nat.iter n lfsr (Z.shiftl x n) = x.
Proof.
  revert x. induction n as [|n IH]; intros x; [apply Z.shiftl_0_r|].
  replace (S n) with (n + 1)%nat by lia. rewrite iter_add. cbn [Nat.iter nat_rect].
  assert (lfsr (Z.shiftl x (n + 1)%nat) = Z.shiftl x n) as ->; [|apply IH].
  unfold lfsr. rewrite <- Z.bit0_odd, Z.shiftl_spec_low, Z.lxor_0_r, Z.shiftr_shiftl_l by lia.
  f_equal. lia.
Qed.

(** ** The loop of the code *)

Lemma crc_bit_lfsr crc value :
  Z.lxor (crc_bit (crc, value)).1 (crc_bit (crc, value)).2 = lfsr (Z.lxor crc value).
Proof.
  cbn. unfold lfsr. rewrite Z.shiftr_lxor.
  assert (Z.land 3988292384 (u32 (0 - Z.land (Z.lxor crc value) 1))
          = if Z.odd (Z.lxor crc value) then 0xedb88320 else 0) as ->.
  { rewrite (Z.land_ones _ 1) by lia. rewrite Zodd_mod. change (2 ^ 1) with 2.
    assert (0 <= Z.lxor crc value mod 2 < 2) by (apply Z.mod_pos_bound; lia).
    assert (Z.lxor crc value mod 2 = 0 \/ Z.lxor crc value mod 2 = 1) as [-> | ->] by lia; reflexivity. }
  apply Z.bits_inj'. intros n _. rewrite !Z.lxor_spec.
  bit_cases.
Qed.

Lemma crc_bits_lfsr n crc value :
  Z.lxor (Nat.iter n crc_bit (crc, value)).1 (Nat.iter n crc_bit (crc, value)).2
    = Nat.iter n lfsr (Z.lxor crc value) /\
  (Nat.iter n crc_bit (crc, value)).2 = Z.shiftr value n.
Proof.
  induction n as [|n [IH1 IH2]]; [by rewrite Z.shiftr_0_r|]. cbn [Nat.iter nat_rect].
  unfold Nat.iter in *. destruct (nat_rect _ _ _ n) as [c v]. cbn [fst snd] in *. subst v. split.
  - by rewrite crc_bit_lfsr, IH1.
  - cbn. rewrite Z.shiftr_shiftr by lia. f_equal. lia.
Qed.

Lemma crc_word_lfsr crc value : is_u32 value -> crc_word crc value = Nat.iter 32 lfsr (Z.lxor crc value).
Proof.
  intros Hv. destruct (crc_bits_lfsr 32 crc value) as [E1 E2]. unfold crc_word. rewrite <- E1, E2.
  rewrite Z.shiftr_div_pow2 by lia. change (Z.of_nat 32) with 32. rewrite Z.div_small by exact Hv.
  by rewrite Z.lxor_0_r.
Qed.

(** Four bytes of a word, as the code reads it. *)
Definition le_word (b0 b1 b2 b3 : Z) : Z := b0 + b1 * 2 ^ 8 + b2 * 2 ^ 16 + b3 * 2 ^ 24.

(** The low byte goes first: the rest is shifted down meanwhile. *)
Lemma iter_byte crc b w : is_u8 b -> 0 <= w ->
  Nat.iter 8 lfsr (Z.lxor crc (b + w * 2 ^ 8)) = Z.lxor (crc32_byte crc b) w.
Proof.
  intros Hb Hw. assert (b + w * 2 ^ 8 = Z.lxor b (Z.shiftl w 8%nat)) as ->.
  { rewrite <- Z.shiftl_mul_pow2 by lia. change (Z.of_nat 8) with 8. apply Z.add_nocarry_lxor. apply Z.bits_inj'. intros n Hn.
    rewrite Z.land_spec, Z.bits_0. destruct (Z.ltb_spec n 8).
    - by rewrite Z.shiftl_spec_low, andb_false_r by lia.
    - by rewrite (testbit_above 8 b n) by (exact Hb || lia). }
  rewrite <- Z.lxor_assoc, iter_lxor. unfold crc32_byte. by rewrite iter_shift.
Qed.

Lemma crc_word_bytes crc b0 b1 b2 b3 : is_u8 b0 -> is_u8 b1 -> is_u8 b2 -> is_u8 b3 ->
  crc_word crc (le_word b0 b1 b2 b3) = crc32_byte (crc32_byte (crc32_byte (crc32_byte crc b0) b1) b2) b3.
Proof.
  intros H0 H1 H2 H3. unfold is_u8 in *. rewrite crc_word_lfsr by (unfold is_u32, le_word; lia).
  change 32%nat with (8 + (8 + (8 + 8)))%nat. rewrite !iter_add. unfold le_word.
  replace (b0 + _ + _ + _) with (b0 + (b1 + (b2 + (b3 + 0 * 2 ^ 8) * 2 ^ 8) * 2 ^ 8) * 2 ^ 8) by lia.
  rewrite !iter_byte by (unfold is_u8; lia). by rewrite Z.lxor_0_r.
Qed.

(** Unfold to the iteration first when terms are compared. *)
#[local] Strategy expand [crc32_byte].
#[local] Strategy opaque [lfsr].

Lemma crc32_byte_range crc b : is_u32 crc -> is_u8 b -> is_u32 (crc32_byte crc b).
Proof. intros Hc Hb. apply iter_range, is_u32_lxor; [done|]. unfold is_u8, is_u32 in *. lia. Qed.

Lemma crc32_byte_inj c1 c2 b : is_u32 c1 -> is_u32 c2 -> is_u8 b -> crc32_byte c1 b = crc32_byte c2 b -> c1 = c2.
Proof.
  intros H1 H2 Hb E. assert (is_u32 b) by (unfold is_u8, is_u32 in *; lia).
  apply iter_inj in E; [|by apply is_u32_lxor ..].
  apply (f_equal (fun z => Z.lxor z b)) in E.
  by rewrite !Z.lxor_assoc, Z.lxor_nilpotent, !Z.lxor_0_r in E.
Qed.

(** A fold of one-to-one steps is one. *)
Section Fold.
Context (f : Z -> Z -> Z) (Hrange : forall c b, is_u32 c -> is_u8 b -> is_u32 (f c b))
  (Hinj : forall c1 c2 b, is_u32 c1 -> is_u32 c2 -> is_u8 b -> f c1 b = f c2 b -> c1 = c2).

Lemma fold_range bs c : is_u32 c -> Forall is_u8 bs -> is_u32 (fold_left f bs c).
Proof.
  intros Hc Hb. revert c Hc. induction Hb as [|b bs Hb _ IH]; intros c Hc; [done|].
  cbn [fold_left]. by apply IH, Hrange.
Qed.

Lemma fold_inj bs c1 c2 : is_u32 c1 -> is_u32 c2 -> Forall is_u8 bs ->
  fold_left f bs c1 = fold_left f bs c2 -> c1 = c2.
Proof.
  intros H1 H2 Hb. revert c1 c2 H1 H2. induction Hb as [|b bs Hb _ IH]; intros c1 c2 H1 H2; [done|].
  cbn [fold_left]. intros E. apply IH in E; [|by apply Hrange ..]. by apply Hinj in E.
Qed.
End Fold.

Lemma cnot32_inj x y : is_u32 x -> is_u32 y -> cnot32 x = cnot32 y -> x = y.
Proof.
  intros Hx Hy E. apply Z.bits_inj'. intros n Hn. apply (f_equal (fun z => Z.testbit z n)) in E.
  rewrite !testbit_cnot32 in E by done. destruct (Z.ltb_spec n 32) as [H|H].
  - by destruct (Z.testbit x n), (Z.testbit y n).
  - by rewrite (testbit_is_u32 x n), (testbit_is_u32 y n).
Qed.

Lemma le_word_inj a0 a1 a2 a3 b0 b1 b2 b3 :
  Forall is_u8 [a0; a1; a2; a3] -> Forall is_u8 [b0; b1; b2; b3] ->
  le_word a0 a1 a2 a3 = le_word b0 b1 b2 b3 -> [a0; a1; a2; a3] = [b0; b1; b2; b3].
Proof.
  rewrite !Forall_cons. unfold is_u8, le_word. intros (A0 & A1 & A2 & A3 & _) (B0 & B1 & B2 & B3 & _) E.
  repeat f_equal; lia.
Qed.

Lemma le_word_u32 b0 b1 b2 b3 : Forall is_u8 [b0; b1; b2; b3] -> is_u32 (le_word b0 b1 b2 b3).
Proof. rewrite !Forall_cons. unfold is_u8, is_u32, le_word. lia. Qed.

(** Four bytes go in as their word. *)
Lemma fold_word c b0 b1 b2 b3 : Forall is_u8 [b0; b1; b2; b3] ->
  fold_left crc32_byte [b0; b1; b2; b3] c = Nat.iter 32 lfsr (Z.lxor c (le_word b0 b1 b2 b3)).
Proof.
  intros Hb. pose proof (le_word_u32 _ _ _ _ Hb). rewrite !Forall_cons in Hb. destruct Hb as (B0 & B1 & B2 & B3 & _).
  rewrite <- crc_word_lfsr by done. symmetry. by apply crc_word_bytes.
Qed.

Lemma fold_word_inj c old new : is_u32 c -> length old = 4%nat -> length new = 4%nat ->
  Forall is_u8 old -> Forall is_u8 new ->
  fold_left crc32_byte old c = fold_left crc32_byte new c -> old = new.
Proof.
  intros Hc Hl1 Hl2. destruct old as [|a0 [|a1 [|a2 [|a3 [|]]]]]; try done.
  destruct new as [|b0 [|b1 [|b2 [|b3 [|]]]]]; try done. intros Ha Hb. rewrite !fold_word by done. intros E.
  apply le_word_inj; [done ..|].
  apply iter_inj in E; [|by apply is_u32_lxor, le_word_u32 ..].
  apply (f_equal (fun z => Z.lxor c z)) in E.
  by rewrite <- !Z.lxor_assoc, Z.lxor_nilpotent, !Z.lxor_0_l in E.
Qed.

Lemma crc32_burst before old new after : length old = 4%nat -> length new = 4%nat -> old <> new ->
  Forall is_u8 before /\ Forall is_u8 old /\ Forall is_u8 after ->
  Forall is_u8 before /\ Forall is_u8 new /\ Forall is_u8 after ->
  crc32 (before ++ old ++ after) <> crc32 (before ++ new ++ after).
Proof.
  intros Hl1 Hl2 Hne (Hb & Ho & Ha) (_ & Hn & _) E. apply Hne.
  assert (is_u32 0xffffffff) as H1 by (unfold is_u32; lia).
  pose proof (fold_range _ crc32_byte_range before _ H1 Hb) as Hc.
  pose proof (fold_range _ crc32_byte_range) as Hr.
  apply cnot32_inj in E; [|apply Hr; [done | by rewrite !Forall_app] ..].
  rewrite !fold_left_app in E. apply (fold_inj _ crc32_byte_range crc32_byte_inj) in E; [|by apply Hr ..|done].
  by apply fold_word_inj in E.
Qed.

(** ** The range *)

(** What a request may ask for. *)
Definition range_ok (src len : Z) : Prop :=
  src mod 4 = 0 /\ len mod 4 = 0 /\ 0 < len <= DRAM_CRC_MAX_LEN /\
  ARISC_DRAM_BASE <= src /\ src + len <= ARISC_DRAM_END.
#[export] Instance range_ok_dec src len : Decision (range_ok src len).
Proof. unfold range_ok. apply _. Defined.

(** The range after a request: an unacceptable one changes nothing. *)
Definition accept (c : crc_vars) (request : Z * Z * Z) : crc_vars :=
  let '(enable, src, len) := request in
  if decide (enable = 0) then CrcVars 0 (dram_crc_src c) (dram_crc_len c)
  else if decide (enable = 1 /\ range_ok src len) then CrcVars 1 src len
  else c.

Definition vars_ok (c : crc_vars) : Prop := range_ok (dram_crc_src c) (dram_crc_len c).

Lemma initial_ok : vars_ok crc_initial.
Proof. by vm_compute. Qed.

Lemma accept_ok c request : vars_ok c -> vars_ok (accept c request).
Proof.
  intros Hc. destruct request as [[enable src] len]. unfold accept.
  destruct (decide _); [exact Hc|]. destruct (decide _) as [[_ Hr]|]; [exact Hr | exact Hc].
Qed.

Lemma accepts_ok requests c : vars_ok c -> vars_ok (fold_left accept requests c).
Proof. revert c. induction requests as [|r l IH]; intros c Hc; [done|]. by apply IH, accept_ok. Qed.

(** The code's test is [range_ok]. *)
Lemma range_test src len : is_u32 src -> is_u32 len ->
  negb (Z.land src 3 =? 0) || negb (Z.land len 3 =? 0) || (len =? 0) || (DRAM_CRC_MAX_LEN <? len)
    || (src <? ARISC_DRAM_BASE) || (ARISC_DRAM_END <=? src) || (u32 (ARISC_DRAM_END - src) <? len)
  = negb (bool_decide (range_ok src len)).
Proof.
  intros Hs Hl. change 3 with (Z.ones 2). rewrite !Z.land_ones by lia. change (2 ^ 2) with 4.
  unfold range_ok, ARISC_DRAM_END, ARISC_DRAM_BASE, DRAM_CRC_MAX_LEN, is_u32 in *.
  destruct (Z.leb_spec 0x80000000 src) as [Hend|Hend].
  - rewrite orb_true_r. symmetry. apply negb_true_iff, bool_decide_eq_false. intros Hr. lia.
  - destruct (Z.ltb_spec src 0x40000000) as [Hbase|Hbase].
    + rewrite orb_true_r. symmetry. apply negb_true_iff, bool_decide_eq_false. intros Hr. lia.
    + rewrite (u32_small (_ - src)) by lia. apply eq_true_iff_eq.
      rewrite negb_true_iff, bool_decide_eq_false, !orb_true_iff, !negb_true_iff, !Z.eqb_neq, Z.eqb_eq, !Z.ltb_lt.
      assert (false = true <-> False) as E by done. rewrite !E. split; [lia|].
      intros Hr. destruct (decide (src mod 4 = 0)); [|tauto]. destruct (decide (len mod 4 = 0)); [|tauto]. lia.
Qed.

(** Bytes of a range, in its words. *)
Lemma four_bytes (bs : list Z) (n : nat) : length bs = (4 * S n)%nat ->
  exists b0 b1 b2 b3 rest, bs = b0 :: b1 :: b2 :: b3 :: rest /\ length rest = (4 * n)%nat.
Proof.
  intros Hlen. destruct bs as [|b0 [|b1 [|b2 [|b3 rest]]]]; cbn in Hlen; try lia.
  exists b0, b1, b2, b3, rest. split; [done | lia].
Qed.

Lemma fold_four {A B} (f : A -> B -> A) b0 b1 b2 b3 l a :
  fold_left f (b0 :: b1 :: b2 :: b3 :: l) a = fold_left f l (f (f (f (f a b0) b1) b2) b3).
Proof. done. Qed.

Lemma runs_load32 {C} (m : mem) p b0 b1 b2 b3 rest : p mod 4 = 0 ->
  bytes_at m p (b0 :: b1 :: b2 :: b3 :: rest) -> runs (C := C) (load32 p) m (le_word b0 b1 b2 b3) m.
Proof.
  rewrite !bytes_at_cons. intros Hp (H0 & H1 & H2 & H3 & _).
  replace (p + 1 + 1) with (p + 2) in * by lia. replace (p + 2 + 1) with (p + 3) in * by lia.
  unfold load32. eapply runs_bind; [by apply runs_aligned|].
  do 4 (eapply runs_bind; [by apply runs_load8|]). apply runs_ret.
Qed.

(** ** Runs *)

Section Runs.
Context {C S : Type} `{HPrint : HasPrintf C} `{HCrc : !Part crc_vars S} `{HMem : !Part mem S}.
Implicit Types (e : env C) (s : S) (h : history C).

Lemma crc_loop_spec (n : nat) fuel p bs crc e s h :
  (n <= fuel)%nat -> length bs = (4 * n)%nat -> p mod 4 = 0 -> 0 <= p -> p + 4 * n <= ARISC_DRAM_END ->
  bytes_at (part s) p bs -> mem_ok (part s) ->
  wp (crc_loop fuel p (p + 4 * n) crc) e s h
    (fun r s' h' => r = fold_left crc32_byte bs crc /\ s' = s /\ h' = h) total.
Proof.
  intros Hfuel. revert fuel Hfuel p bs crc. induction n as [|n IH]; intros fuel Hfuel p bs crc Hlen Hp H0 Hend Hb Hok.
  - destruct bs; [|done]. destruct fuel; cbn [crc_loop]; rewrite Z.add_0_r, Z.ltb_irrefl; by apply wp_ret.
  - destruct fuel as [|fuel]; [lia|]. apply four_bytes in Hlen as (b0 & b1 & b2 & b3 & rest & -> & Hlen).
    pose proof (bytes_at_u8 _ _ _ Hok Hb) as Hu8. cbn [crc_loop].
    destruct (Z.ltb_spec p (p + 4 * Datatypes.S n)); [|lia].
    apply wp_bind, wp_on_part. unfold wp at 1. rewrite (runs_load32 _ _ _ _ _ _ _ Hp Hb e h), set_same.
    inversion_clear Hu8 as [|? ? U0 Hu]. inversion_clear Hu as [|? ? U1 Hu']. inversion_clear Hu' as [|? ? U2 Hu].
    inversion_clear Hu as [|? ? U3 _]. rewrite crc_word_bytes by done.
    unfold ARISC_DRAM_END in *. rewrite u32_small by lia. replace (p + 4 * Datatypes.S n) with (p + 4 + 4 * n) by lia.
    rewrite fold_four. apply IH; [lia | done | | lia | unfold ARISC_DRAM_END; lia | | done].
    + by rewrite Z.add_mod, Hp by lia.
    + rewrite !bytes_at_cons in Hb. replace (p + 4) with (p + 1 + 1 + 1 + 1) by lia. tauto.
Qed.

Lemma wp_crc (c : crc_vars) (fuel : nat) bs e s h : part s = c -> vars_ok c ->
  dram_crc_len c <= 4 * fuel -> length bs = Z.to_nat (dram_crc_len c) ->
  bytes_at (part s) (dram_crc_src c) bs -> mem_ok (part s) ->
  wp (standby_dram_crc fuel) e s h (fun r s' _ => r = crc32 bs /\ s' = s) total.
Proof.
  intros Hc (Hsrc & Hlen4 & Hlen & Hbase & Hend) Hfuel Hbs Hb Hok. unfold standby_dram_crc, crc_statics.
  apply wp_bind, wp_getp. rewrite Hc. unfold INF. fw_steps.
  unfold ARISC_DRAM_BASE, ARISC_DRAM_END, DRAM_CRC_MAX_LEN in *. rewrite u32_small by lia.
  pose proof (Z.div_mod (dram_crc_len c) 4 ltac:(lia)) as Hdiv. rewrite Hlen4, Z.add_0_r in Hdiv.
  assert (dram_crc_len c = 4 * Z.to_nat (dram_crc_len c / 4)) as Hn by lia. rewrite Hn at 1.
  eapply wp_mono; [apply (crc_loop_spec _ _ _ bs); try done; unfold ARISC_DRAM_END; lia|].
  cbv beta. intros ? ? ? (-> & -> & ->). fw_steps. by split.
Qed.

Definition crc_request (r : Z * Z * Z) : M C S unit :=
  let '(enable, src, len) := r in let! _ := standby_set_dram_crc_paras enable src len in ret tt.
Definition crc_requests : list (Z * Z * Z) -> M C S unit :=
  foldr (fun r k => crc_request r;; k) (ret tt).
Definition request_ok (r : Z * Z * Z) : Prop := is_u32 r.1.1 /\ is_u32 r.1.2 /\ is_u32 r.2.

Lemma paras_spec enable src len e s h : request_ok (enable, src, len) ->
  wp (standby_set_dram_crc_paras enable src len) e s h (fun r s' _ =>
    s' = set_part (accept (part s) (enable, src, len)) s /\
    r = (if decide (enable = 0 \/ enable = 1 /\ range_ok src len) then OK else - EINVAL)) total.
Proof.
  intros (He & Hs & Hl). cbn in He, Hs, Hl. unfold standby_set_dram_crc_paras, accept.
  rewrite range_test by done. unfold is_u32 in He.
  destruct (Z.ltb_spec 1 enable).
  { fw_steps. rewrite !decide_False by intuition lia. by rewrite set_same. }
  destruct (Z.eqb_spec enable 0) as [->|].
  { unfold crc_statics. fw_steps. rewrite decide_True by done. by rewrite decide_True by (by left). }
  assert (enable = 1) as -> by lia. rewrite (decide_False (P := 1 = 0)) by done.
  destruct (decide (range_ok src len)) as [Hr|Hr].
  - rewrite bool_decide_eq_true_2 by done. cbn [negb]. fw_steps. rewrite !decide_True by auto. done.
  - rewrite bool_decide_eq_false_2 by done. cbn [negb]. unfold ERR. fw_steps.
    rewrite !decide_False by intuition lia. by rewrite set_same.
Qed.

Lemma requests_spec requests e s h : Forall request_ok requests ->
  wp (crc_requests requests) e s h (fun _ s' _ => s' = set_part (fold_left accept requests (part s)) s) total.
Proof.
  intros Hok. revert s h. induction Hok as [|[[enable src] len] l Hr _ IH]; intros s h.
  - apply wp_ret. cbn [fold_left]. by rewrite set_same.
  - change (crc_requests _) with (crc_request (enable, src, len);; crc_requests l). unfold crc_request.
    do 2 apply wp_bind. eapply wp_mono; [by apply paras_spec|]. cbv beta. intros r s1 h1 (-> & _). apply wp_ret.
    eapply wp_mono; [apply IH|]. cbv beta. intros _ s2 h2 ->. by rewrite part_set, set_set.
Qed.
End Runs.

(** C20: For every sequence of requests for a checksum range after start-up,
    well-formed or not, the range in force is the last acceptable one, and
    [standby_dram_crc] then returns: it reads each word of that range once and
    its result is the CRC-32 of the range's bytes, as [crc32] defines it a
    byte at a time.  No request makes it read outside the window of the DRAM
    or off a word boundary. *)
Theorem dram_crc_is_crc32 {C S : Type} `{HPrint : HasPrintf C} `{HCrc : !Part crc_vars S} `{HMem : !Part mem S}
  `{HApart : !Apart crc_vars mem S} requests (fuel : nat) bs e (s : S) h :
  part s = crc_initial -> Forall request_ok requests ->
  let c := fold_left accept requests crc_initial in
  dram_crc_len c <= 4 * fuel -> length bs = Z.to_nat (dram_crc_len c) ->
  bytes_at (part s) (dram_crc_src c) bs -> mem_ok (part s) ->
  wp (crc_requests requests;; standby_dram_crc fuel) e s h (fun r s' (_ : history C) =>
    r = crc32 bs /\ s' = set_part c s /\ range_ok (dram_crc_src c) (dram_crc_len c)) total.
Proof.
  intros Hs Hreq c Hfuel Hbs Hb Hok. pose proof (accepts_ok requests crc_initial initial_ok) as Hc. fold c in Hc.
  apply wp_bind. eapply wp_mono; [by apply requests_spec|]. cbv beta. intros _ s1 h1 ->. rewrite Hs. fold c.
  eapply wp_mono; [apply (wp_crc c fuel bs); rewrite ?part_set, ?part_other; done|].
  cbv beta. intros r s2 h2 (-> & ->). done.
Qed.

(** A checksum taken before the DRAM slept and one taken after it woke
    up, over the same range, differ whenever the contents differ in up to
    four consecutive bytes, wherever they are and whatever they became. *)
Theorem dram_crc_detects {C S : Type} `{HPrint : HasPrintf C} `{HCrc : !Part crc_vars S} `{HMem : !Part mem S}
  (fuel : nat) (c : crc_vars) before old new after e1 e2 (s1 s2 : S) h1 h2 :
  part s1 = c -> part s2 = c -> vars_ok c -> dram_crc_len c <= 4 * fuel ->
  length old = 4%nat -> length new = 4%nat -> old <> new ->
  (length before + 4 + length after = Z.to_nat (dram_crc_len c))%nat ->
  bytes_at (part s1) (dram_crc_src c) (before ++ old ++ after) -> mem_ok (part s1) ->
  bytes_at (part s2) (dram_crc_src c) (before ++ new ++ after) -> mem_ok (part s2) ->
  wp (standby_dram_crc fuel) e1 s1 h1 (fun r1 _ (_ : history C) =>
    wp (standby_dram_crc fuel) e2 s2 h2 (fun r2 _ (_ : history C) => r1 <> r2) total) total.
Proof.
  intros Hc1 Hc2 Hc Hfuel Hl1 Hl2 Hne Hlen Hb1 Hok1 Hb2 Hok2.
  eapply wp_mono; [eapply (wp_crc c); try done; rewrite !length_app; lia|]. intros r1 _ _ (-> & _).
  eapply wp_mono; [eapply (wp_crc c); try done; rewrite !length_app; lia|]. intros r2 _ _ (-> & _).
  pose proof (bytes_at_u8 _ _ _ Hok1 Hb1) as Hu1. pose proof (bytes_at_u8 _ _ _ Hok2 Hb2) as Hu2.
  rewrite !Forall_app in Hu1, Hu2. by apply crc32_burst.
Qed.

(** ** Runs in which the hypotheses hold *)

Record image := Image { im_crc : crc_vars; im_mem : mem }.
#[local, refine] Instance image_crc : Part crc_vars image := {|
  part := im_crc; set_part c s := Image c (im_mem s) |}.
Proof. all: by intros; repeat match goal with s : image |- _ => destruct s end. Defined.
#[local, refine] Instance image_mem : Part mem image := {|
  part := im_mem; set_part m s := Image (im_crc s) m |}.
Proof. all: by intros; repeat match goal with s : image |- _ => destruct s end. Defined.
#[local] Instance image_apart : Apart crc_vars mem image.
Proof. by intros ? []. Defined.

Definition quiet : env print_only := Env (fun _ _ => 0) (fun _ _ => 0) (fun _ _ => []).
(** A range is asked for, three bad ones after it are refused. *)
Definition four_requests : list (Z * Z * Z) :=
  [(1, 0x40000100, 8); (2, 0x40000000, 4); (1, 0x40000102, 4); (1, 0x7ffffffc, 8)].
Definition asleep : mem := object 0x40000100 [49; 50; 51; 52; 53; 54; 55; 56].
Definition awake : mem := object 0x40000100 [49; 50; 51; 52; 53; 54; 54; 56].

Lemma dram_crc_is_crc32_witness :
  wp (crc_requests four_requests;; standby_dram_crc 2) quiet (Image crc_initial asleep) []
    (fun r s' _ => r = 0x9ae0daaf /\ s' = Image (CrcVars 1 0x40000100 8) asleep) total.
Proof.
  eapply wp_mono; [apply (dram_crc_is_crc32 four_requests 2 [49; 50; 51; 52; 53; 54; 55; 56])|].
  - done.
  - unfold four_requests, request_ok, is_u32. rewrite !Forall_cons, Forall_nil. cbn. lia.
  - by vm_compute.
  - done.
  - check_store.
  - check_store.
  - intros r s h (-> & -> & _). split; vm_compute; reflexivity.
Defined.

Lemma dram_crc_detects_witness :
  wp (standby_dram_crc 2) quiet (Image (CrcVars 1 0x40000100 8) asleep) [] (fun r1 _ _ =>
    wp (standby_dram_crc 2) quiet (Image (CrcVars 1 0x40000100 8) awake) [] (fun r2 _ _ => r1 <> r2) total) total.
Proof.
  apply (dram_crc_detects 2 (CrcVars 1 0x40000100 8) [49; 50; 51; 52] [53; 54; 55; 56] [53; 54; 54; 56] []).
  1, 2, 5, 6, 8: done.
  - by vm_compute.
  - by vm_compute.
  - done.
  - check_store.
  - check_store.
  - check_store.
  - check_store.
Defined.
