(* ===== verification/Power.v ===== *)
(** * Switching the 24 MHz oscillator off and on
    (src/ar100s/driver/prcm/prcm-sun60iw2p1/power.c)

    The statics are [power] of [Timer], which registers the call-back that the
    notifications reach; the gating is in [Prcm]. *)

From Stdlib Require Import String.
From S2P Require Import Prelude Machine Console Firmware Notifier Prcm Timer.

Local Open Scope string_scope.
Local Open Scope list_scope.
Local Open Scope Z_scope.
Local Open Scope mach_scope.

Definition RTC_LOSC_CTRL : Z := RTC_REG_BASE + 0x000.
Definition RTC_LOSC_AUTO_STA : Z := RTC_REG_BASE + 0x004.
Definition RTC_AUTO_CALI_CTRL : Z := RTC_REG_BASE + 0x00C.
Definition RTC_XO_WRT_PROTECT : Z := RTC_REG_BASE + 0x15c.
Definition RTC_XO_CTRL_REG : Z := RTC_REG_BASE + 0x160.
Definition RTC_CFG_REG : Z := RTC_REG_BASE + 0x310.
Definition PLL_CTRL_REG1 : Z := R_PRCM_REG_BASE + 0x244.

Definition with_hosc_lock (v : Z) (p : power) : power := Power v (pll_ldo_suspend p) (hosc_notifier_list p).
Definition with_pll_ldo (v : Z) (p : power) : power := Power (hosc_lock p) v (hosc_notifier_list p).

Section Power.
Context {C S : Type} `{HPrint : HasPrintf C} `{HInsn : !HasInsn C}
  `{HNotifiers : !Part (list notifier) S} `{HPower : !Part power S}.
Local Abbreviation M := (M C S).
(** What a call of a notifier's function does; [time_mdelay] of the timers. *)
Context (call_pcb : Z -> Z -> Z -> M Z) (time_mdelay : Z -> M unit).

(** [value = readl(reg); value = (value | set) & ~clear; writel(value, reg)] *)
Definition modify_reg (reg set clear : Z) : M unit :=
  let! value := readl reg in writel (Z.land (Z.lor value set) (cnot32 clear)) reg.

(** [0xa7 << 24], the key of the write. *)
Definition PLL_KEY : Z := shl32 0xa7 24.

(** Lines 105-109 and 184-186. *)
Definition broadcast (command : Z) : M unit :=
  let! p := power_vars in
  let! _ := notifier_notify call_pcb (hosc_notifier_list p) command 0 in
  ret tt.

(** Lines 110-116. *)
Definition pll_ldo_off : M unit :=
  let! v := readl PLL_CTRL_REG1 in
  set_power (with_pll_ldo (Z.land (Z.shiftr v 16) 0x7));;
  modify_reg PLL_CTRL_REG1 PLL_KEY 0;;
  modify_reg PLL_CTRL_REG1 PLL_KEY (BIT 0).

(** Lines 120-136. *)
Definition dcxo_off : M unit :=
  let! value := readl RTC_CFG_REG in
  writel (Z.lor value (BIT 31)) RTC_CFG_REG;;
  writel 0x16aa RTC_XO_WRT_PROTECT;;
  modify_reg RTC_XO_CTRL_REG 0 (BIT 1);;
  modify_reg RTC_AUTO_CALI_CTRL 0 (BIT 0);;
  let! value := readl RTC_LOSC_CTRL in
  writel (Z.lor (Z.land value 0xffff) (shl32 0x16aa 16)) RTC_LOSC_CTRL;;
  let! value := readl RTC_LOSC_CTRL in
  writel (Z.land (Z.land (Z.land value (cnot32 (BIT 0))) (cnot32 (BIT 1))) (cnot32 (BIT 4))) RTC_LOSC_CTRL.

Definition ccu_24mhosc_disable : M Z :=
  set_power (with_hosc_lock 1);;
  INF "broadcast 24mhosc will power-off\n" [];;
  broadcast CCU_HOSC_WILL_OFF_NOTIFY;;
  pll_ldo_off;;
  time_cdelay 20;;
  dcxo_off;;
  ret OK.

(** [while ((readl(RTC_LOSC_AUTO_STA) & 0x04) != 0);] *)
Fixpoint losc_loop (fuel : nat) : M unit :=
  match fuel with
  | O => stop_now OutOfFuel
  | Datatypes.S fuel =>
      let! v := readl RTC_LOSC_AUTO_STA in
      if negb (Z.land v 0x04 =? 0) then losc_loop fuel else ret tt
  end.

(** Lines 144-160: the 32 kHz source, a bit at a time. *)
Definition losc_on (fuel : nat) : M unit :=
  let! value := readl RTC_LOSC_CTRL in
  let value := Z.lor (Z.land value 0xffff) (shl32 0x16aa 16) in
  let value := Z.lor value (BIT 14) in
  time_mdelay 2;;
  writel value RTC_LOSC_CTRL;;
  time_mdelay 2;;
  let value := Z.lor value (BIT 4) in
  writel value RTC_LOSC_CTRL;;
  time_mdelay 2;;
  let value := Z.land value (cnot32 (BIT 15)) in
  writel value RTC_LOSC_CTRL;;
  time_mdelay 2;;
  losc_loop fuel;;
  time_mdelay 2;;
  let value := Z.lor value (BIT 0) in
  writel value RTC_LOSC_CTRL.

(** Lines 163-179. *)
Definition dcxo_on : M unit :=
  writel 0x16aa RTC_XO_WRT_PROTECT;;
  let! value := readl RTC_XO_CTRL_REG in
  writel (Z.lor (Z.land value (cnot32 (BIT 1))) (BIT 1)) RTC_XO_CTRL_REG;;
  time_mdelay 4;;
  modify_reg PLL_CTRL_REG1 PLL_KEY 0;;
  let! value := readl PLL_CTRL_REG1 in
  let value := Z.lor (Z.lor value PLL_KEY) (BIT 0) in
  writel value PLL_CTRL_REG1;;
  writel value PLL_CTRL_REG1.

Definition ccu_24mhosc_enable (fuel : nat) : M Z :=
  losc_on fuel;;
  dcxo_on;;
  time_mdelay 2;;
  INF "broadcast 24mhosc power-on ready\n" [];;
  broadcast CCU_HOSC_ON_READY_NOTIFY;;
  set_power (with_hosc_lock 0);;
  ret OK.
End Power.
