(* ===== verification/PowerProps.v ===== *)
(** * The oscillator is only off while nobody is called
    (src/ar100s/driver/prcm/prcm-sun60iw2p1/power.c) *)

From Stdlib Require Import String.
From S2P Require Import Prelude Machine Console Firmware Notifier NotifierProps Intc Cpucfg CpucfgProps Prcm PrcmProps.
From S2P Require Import Ticks Timer TimerProps Power.

Local Open Scope list_scope.
Local Open Scope Z_scope.
Local Open Scope mach_scope.

(** The registers power.c writes. *)
Definition osc_regs : list Z :=
  [PLL_CTRL_REG1; RTC_XO_CTRL_REG; RTC_CFG_REG; RTC_XO_WRT_PROTECT; RTC_AUTO_CALI_CTRL; RTC_LOSC_CTRL].
Definition mine (a v : Z) : Prop := a ∈ osc_regs.

Section Frames.
Context {C : Type}.
Implicit Types (h : history C).

Lemma mine_wr h h' a v : a ∈ osc_regs -> extends mine h h' -> extends mine h (Wr a v :: h').
Proof. intros Ha. apply extends_cons. by intros b w [[= <- <-]|]. Qed.
Lemma mine_rd h h' a v : extends mine h h' -> extends mine h (Rd a v :: h').
Proof. apply extends_cons. by intros b w []. Qed.
Lemma mine_call h h' c r : extends mine h h' -> extends mine h (Call c r :: h').
Proof. apply extends_cons. by intros b w []. Qed.
End Frames.

(** A history that only grew by the driver's own accesses. *)
Ltac own :=
  repeat first [ apply mine_rd | apply mine_call | apply mine_wr; [in_list|] ]; apply extends_refl.

Section Oscillator.
Context {C S : Type} `{HPrint : HasPrintf C} `{HInsn : !HasInsn C}
  `{HNotifiers : !Part (list notifier) S} `{HPower : !Part power S} `{!Apart power (list notifier) S}.
Implicit Types (e : env C) (s : S) (h : history C).
Context (init : Z -> Z).

(** The two switches of the oscillator act as memory. *)
Definition switches e h : Prop := word_reg init e h PLL_CTRL_REG1 /\ word_reg init e h RTC_XO_CTRL_REG.
(** Both are on, or both off. *)
Definition switched (on : bool) h : Prop :=
  Z.testbit (regval init h PLL_CTRL_REG1) 0 = on /\ Z.testbit (regval init h RTC_XO_CTRL_REG) 1 = on.

(** The driver's registers hold what they held. *)
Definition keeps h h' : Prop := forall a, a ∈ osc_regs -> regval init h' a = regval init h a.

(** What power.c asks of the call-backs and of [time_mdelay]; [good] is their
    own invariant, [told] the record they keep of what they are told: the
    call-back and the command of each call, the latest first. *)
Record clients (call_pcb : Z -> Z -> Z -> M C S Z) (time_mdelay : Z -> M C S unit) e
  (good : S -> history C -> Prop) (told : S -> list (Z * Z)) : Prop := {
  client_call : forall f command s h, command = CCU_HOSC_WILL_OFF_NOTIFY \/ command = CCU_HOSC_ON_READY_NOTIFY ->
    good s h -> switched true h -> hosc_lock (part s) = 1 ->
    wp (call_pcb f command 0) e s h (fun _ s' h' => good s' h' /\ part (T := list notifier) s' = part s /\
      part (T := power) s' = part s /\ keeps h h' /\ told s' = (f, command) :: told s) total;
  client_delay : forall ms s h, good s h ->
    wp (time_mdelay ms) e s h (fun _ s' h' => s' = s /\ good s' h' /\ keeps h h') total;
  client_frame : forall (p : power) s h h', good s h -> extends mine h h' -> good (set_part p s) h';
  client_told : forall (p : power) s, told (set_part p s) = told s
}.

(** A command told to each entry of a list, in order. *)
Definition heard (command : Z) (l : list (nat * Z)) : list (Z * Z) := rev (map (fun entry => (entry.2, command)) l).

(** The 32 kHz status clears within [n] looks. *)
Definition losc_settles e (n : nat) : Prop := forall h vs, (n <= length vs)%nat ->
  Z.land (u32 (env_read e (map (Rd RTC_LOSC_AUTO_STA) vs ++ h) RTC_LOSC_AUTO_STA)) 0x04 = 0.

(** ** Frames *)

Lemma others_switches e h h' : keeps h h' -> switches e h -> switches e h'.
Proof.
  intros Hh [[P0 U0] [P1 U1]]. split; (split; [done|]); (rewrite Hh by in_list); done.
Qed.

Lemma others_switched on h h' : keeps h h' -> switched on h -> switched on h'.
Proof. intros Hh [H0 H1]. split; (rewrite Hh by in_list); done. Qed.

(** The switches' next values decide them. *)
Lemma wr_switches e h a v : is_u32 v \/ PLL_CTRL_REG1 <> a /\ RTC_XO_CTRL_REG <> a ->
  switches e h -> switches e (Wr a v :: h).
Proof.
  intros Hv [[P0 U0] [P1 U1]]. split; (split; [done|]); cbn [regval];
    case_match eqn:E; try done; apply Z.eqb_eq in E; tauto.
Qed.
Lemma rd_switches e h a v : switches e h -> switches e (Rd a v :: h).
Proof. done. Qed.
Lemma call_switches e h c r : switches e h -> switches e (Call c r :: h).
Proof. done. Qed.

Lemma wp_modify_reg reg set clear e s h Q K :
  word_reg init e h reg ->
  Q tt s (Wr reg (Z.land (Z.lor (regval init h reg) set) (cnot32 clear)) :: Rd reg (regval init h reg) :: h) ->
  wp (modify_reg reg set clear) e s h Q K.
Proof. intros [P U] HQ. apply wp_bind. eapply readl_plain; [exact P|exact U|]. by apply wp_writel. Qed.

(** A register whose content does not matter. *)
Lemma wp_touch reg (f : Z -> Z) e s h Q K :
  (forall v, is_u32 v -> Q tt s (Wr reg (f v) :: Rd reg v :: h)) ->
  wp (let! v := readl reg in writel (f v) reg) e s h Q K.
Proof. intros HQ. apply wp_bind, wp_readl. intros v Hv _. by apply wp_writel, HQ. Qed.

(** A masked word is a word. *)
Ltac word :=
  repeat first [ assumption | apply is_u32_land_l | apply is_u32_lor | apply cnot32_range ];
  try (vm_compute; by split).

(** Through the driver's own accesses. *)
Ltac through :=
  repeat first
    [ apply rd_switches | apply call_switches
    | apply wr_switches; [first [right; by vm_compute | left; word]|] ]; try assumption.

(** ** The parts *)

Lemma cdelay_mine n e s h :
  wp (time_cdelay n) e s h (fun _ s' h' => s' = s /\ extends mine h h' /\ same_regs h h') total.
Proof.
  unfold time_cdelay. generalize (Z.to_nat n) as k. intros k. revert h.
  induction k as [|k IH]; intros h; cbn [Nat.iter nat_rect]; [by apply wp_ret; split_and!; [|own|]|].
  unfold exec at 1. fw_steps. eapply wp_mono; [apply IH|].
  intros _ s' h' (-> & Hx & Hr). split_and!; [done| |intros i a; by rewrite Hr].
  eapply extends_trans; [|exact Hx]. own.
Qed.

Context (call_pcb : Z -> Z -> Z -> M C S Z) (time_mdelay : Z -> M C S unit).

Lemma notify_safe good told e command l fuel head s h :
  clients call_pcb time_mdelay e good told -> command = CCU_HOSC_WILL_OFF_NOTIFY \/ command = CCU_HOSC_ON_READY_NOTIFY ->
  (length l <= fuel)%nat -> chain (part s) head l ->
  good s h -> switched true h -> hosc_lock (part s) = 1 ->
  wp (notify_loop call_pcb fuel head command 0) e s h (fun _ s' h' => good s' h' /\
    part (T := list notifier) s' = part s /\ part (T := power) s' = part s /\ keeps h h' /\
    told s' = heard command l ++ told s) total.
Proof.
  intros Hcl Hcmd. revert fuel head s h. induction l as [|[i f] l IH]; intros fuel head s h Hfuel Hc Hg Hsw Hlock.
  - cbn in Hc. subst head. assert (notify_loop call_pcb fuel None command 0 = ret tt) as -> by by destruct fuel.
    by apply wp_ret.
  - destruct fuel as [|fuel]; [cbn in Hfuel; lia|]. destruct Hc as (-> & n & Hn & _ & Hf & Hl).
    cbn [notify_loop]. apply wp_bind. eapply wp_load; [exact Hn|]. apply wp_bind. eapply wp_mono.
    { by apply (client_call _ _ _ _ _ Hcl). }
    intros r s1 h1 (Hg1 & Hn1 & Hp1 & Hx1 & Ht1). apply wp_bind. eapply wp_load; [by rewrite Hn1|].
    eapply wp_mono; [apply IH; [cbn in Hfuel; lia|by rewrite Hn1|done|by eapply others_switched|by rewrite Hp1]|].
    intros _ s2 h2 (Hg2 & Hn2 & Hp2 & Hx2 & Ht2). rewrite Hn2, Hp2. split_and!; [done..| |].
    + intros a Ha. by rewrite Hx2, Hx1.
    + rewrite Ht2, Ht1. unfold heard. cbn [map rev snd]. by rewrite <- app_assoc, Hf.
Qed.

(** The registered call-backs are a list of the table. *)
Definition registered s l : Prop :=
  holds (part s) (hosc_notifier_list (part s)) l /\ length (part (T := list notifier) s) = NOTIFIER_MAX.

Lemma broadcast_safe good told e command l s h :
  clients call_pcb time_mdelay e good told -> command = CCU_HOSC_WILL_OFF_NOTIFY \/ command = CCU_HOSC_ON_READY_NOTIFY ->
  registered s l -> good s h -> switched true h -> hosc_lock (part s) = 1 ->
  wp (broadcast call_pcb command) e s h (fun _ s' h' => good s' h' /\
    part (T := list notifier) s' = part s /\ part (T := power) s' = part s /\ keeps h h' /\
    told s' = heard command l ++ told s) total.
Proof.
  intros Hcl Hcmd [Hh Hlen] Hg Hsw Hlock. unfold broadcast, power_vars, notifier_notify.
  apply wp_bind, wp_getp, wp_bind, wp_bind. eapply wp_mono.
  { eapply notify_safe; [exact Hcl|done| |apply Hh|done..].
    rewrite <- Hlen. by eapply holds_length. }
  intros [] s1 h1 Hpost. by do 2 apply wp_ret.
Qed.

Lemma pll_ldo_off_spec e s h : switches e h ->
  wp pll_ldo_off e s h (fun _ s' h' => exists v, s' = set_part (with_pll_ldo v (part s)) s /\
    extends mine h h' /\ switches e h' /\ Z.testbit (regval init h' PLL_CTRL_REG1) 0 = false) total.
Proof.
  intros Hsw. unfold pll_ldo_off, set_power, power_vars. destruct (Hsw) as [[P U] _].
  apply wp_bind. eapply readl_plain; [exact P|exact U|]. fw_steps.
  assert (forall h' v x, switches e h' -> is_u32 v -> is_u32 x ->
            switches e (Wr PLL_CTRL_REG1 (Z.land (Z.lor v PLL_KEY) (cnot32 x)) :: Rd PLL_CTRL_REG1 v :: h')) as Hstep.
  { intros h' v x Hs Hv Hx. apply wr_switches; [left|exact Hs]. word. }
  set (h1 := Rd _ _ :: h). assert (switches e h1) as Hs1 by exact Hsw.
  eapply wp_modify_reg; [apply Hs1|]. set (h2 := Wr _ _ :: _). assert (switches e h2) as Hs2.
  { apply Hstep; [done|apply Hs1|by vm_compute]. }
  eapply wp_modify_reg; [apply Hs2|]. eexists. split; [reflexivity|]. split; [own|]. split.
  - apply Hstep; [done|apply Hs2|by vm_compute].
  - cbn [regval]. rewrite Z.eqb_refl, Z.land_spec, testbit_cnot32 by lia. by rewrite andb_false_r.
Qed.

Lemma dcxo_off_spec e s h : switches e h ->
  wp dcxo_off e s h (fun _ s' h' => s' = s /\ extends mine h h' /\ switches e h' /\
    Z.testbit (regval init h' RTC_XO_CTRL_REG) 1 = false /\
    regval init h' PLL_CTRL_REG1 = regval init h PLL_CTRL_REG1) total.
Proof.
  intros Hsw. unfold dcxo_off, modify_reg. fw_steps. split; [done|]. split; [own|]. split; [|split].
  - through.
  - cbn [regval]. closed_eqb. rewrite !Z.land_spec, testbit_cnot32 by lia. by rewrite andb_false_r.
  - cbn [regval]. closed_eqb. done.
Qed.

Lemma losc_loop_spec e n fuel vs s h :
  losc_settles e n -> (length vs <= n < length vs + fuel)%nat ->
  wp (losc_loop fuel) e s (map (Rd RTC_LOSC_AUTO_STA) vs ++ h) (fun _ s' h' => s' = s /\
    exists vs', h' = map (Rd RTC_LOSC_AUTO_STA) vs' ++ h) total.
Proof.
  intros Hset. revert vs. induction fuel as [|fuel IH]; intros vs Hn; cbn [losc_loop]; [lia|].
  apply wp_bind, wp_readl. intros v _ Ev. destruct (Z.eqb_spec (Z.land v 4) 0) as [|Hb]; cbn [negb].
  - apply wp_ret. split; [done|]. by exists (v :: vs).
  - apply (IH (v :: vs)). cbn [length]. destruct (decide (length vs = n)); [|lia].
    exfalso. apply Hb. subst v. apply Hset. lia.
Qed.

Lemma status_mine h vs : extends mine h (map (Rd RTC_LOSC_AUTO_STA) vs ++ h).
Proof. induction vs as [|v vs IH]; [apply extends_refl|]. by apply mine_rd. Qed.

Lemma good_mine good told e s h h' :
  clients call_pcb time_mdelay e good told -> extends mine h h' -> good s h -> good s h'.
Proof. intros Hcl Hx Hg. rewrite <- (set_same s). by eapply (client_frame _ _ _ _ _ Hcl). Qed.

(** Since [h0] neither switch moved, and the clients are content. *)
Definition steady good e h0 s h : Prop :=
  good s h /\ switches e h /\ forall a, a = PLL_CTRL_REG1 \/ a = RTC_XO_CTRL_REG ->
    regval init h a = regval init h0 a.

Lemma steady_delay good told e ms h0 s h (k : M C S unit) Q :
  clients call_pcb time_mdelay e good told -> steady good e h0 s h ->
  (forall h', steady good e h0 s h' -> wp k e s h' Q total) ->
  wp (time_mdelay ms;; k) e s h Q total.
Proof.
  intros Hcl (Hg & Hsw & Heq) Hk. apply wp_bind. eapply wp_mono; [by apply (client_delay _ _ _ _ _ Hcl)|].
  intros [] s' h' (-> & Hg' & Hx). apply Hk. split_and!; [done|by eapply others_switches|].
  intros a Ha. rewrite Hx; [by apply Heq|]. destruct Ha as [-> | ->]; in_list.
Qed.

Lemma steady_mine good told e h0 s h h' :
  clients call_pcb time_mdelay e good told -> steady good e h0 s h -> extends mine h h' ->
  (forall a, a = PLL_CTRL_REG1 \/ a = RTC_XO_CTRL_REG -> regval init h' a = regval init h a) ->
  steady good e h0 s h'.
Proof.
  intros Hcl (Hg & [[P0 U0] [P1 U1]] & Heq) Hx Hr. split; [by eapply good_mine|]. split.
  - split; (split; [done|]); rewrite Hr; auto.
  - intros a Ha. by rewrite Hr, Heq.
Qed.

(** One of the driver's own accesses, not to a switch. *)
Ltac aside Hcl Hst :=
  eapply (steady_mine _ _ _ _ _ _ _ Hcl Hst); [own|]; intros ? [-> | ->]; cbn [regval]; by closed_eqb.

Lemma losc_on_spec good told e n fuel s h :
  clients call_pcb time_mdelay e good told -> losc_settles e n -> (n < fuel)%nat -> good s h -> switches e h ->
  wp (losc_on time_mdelay fuel) e s h (fun _ s' h' => s' = s /\ steady good e h s h') total.
Proof.
  intros Hcl Hset Hfuel Hg Hsw. assert (steady good e h s h) as Hst by done. unfold losc_on.
  apply wp_bind, wp_readl. intros v Hv _. cbv zeta.
  do 3 (eapply steady_delay; [exact Hcl|aside Hcl Hst|]; clear Hst; intros ? Hst; apply wp_bind, wp_writel).
  eapply steady_delay; [exact Hcl|aside Hcl Hst|]. clear Hst. intros h4 Hst.
  apply wp_bind. eapply wp_mono; [apply (losc_loop_spec e n fuel []); [done|cbn; lia]|].
  intros [] s1 h1 (-> & vs & ->).
  assert (forall a, regval init (map (Rd RTC_LOSC_AUTO_STA) vs ++ h4) a = regval init h4 a) as Hvs.
  { intros a. apply regval_app_silent. intros w Hw. apply list_elem_of_fmap in Hw as (? & ? & _). done. }
  eapply steady_delay; [exact Hcl| |].
  { eapply (steady_mine _ _ _ _ _ _ _ Hcl Hst); [apply status_mine|done]. }
  clear Hst. intros h1 Hst. apply wp_writel. split; [done|]. aside Hcl Hst.
Qed.

(** The crystal and the regulator, on. *)
Lemma dcxo_on_spec good told e s h :
  clients call_pcb time_mdelay e good told -> good s h -> switches e h ->
  wp (dcxo_on time_mdelay) e s h (fun _ s' h' => s' = s /\ good s h' /\ switches e h' /\ switched true h') total.
Proof.
  intros Hcl Hg Hsw. unfold dcxo_on. apply wp_bind, wp_writel, wp_bind, wp_readl. intros v Hv _. apply wp_bind, wp_writel.
  set (h1 := Wr _ _ :: _). assert (switches e h1) as Hsw1 by through.
  assert (steady good e h1 s h1) as Hst1.
  { split_and!; [eapply good_mine; [exact Hcl| |exact Hg]; own|done|done]. }
  assert (Z.testbit (regval init h1 RTC_XO_CTRL_REG) 1 = true) as Hxo.
  { cbn [regval h1]. rewrite Z.eqb_refl, Z.lor_spec. by rewrite orb_true_r. }
  clearbody h1. eapply steady_delay; [exact Hcl|exact Hst1|]. intros h2 (Hg2 & Hsw2 & Heq).
  assert (Heq1 := Heq _ (or_intror eq_refl)). clear Heq.
  apply wp_bind. eapply wp_modify_reg; [apply Hsw2|]. apply wp_bind, wp_readl. intros w Hw _. cbv zeta.
  apply wp_bind, wp_writel, wp_writel. split; [done|]. split; [|split].
  - eapply good_mine; [exact Hcl| |exact Hg2]. own.
  - destruct Hsw2 as [[P2 U2] S2]. through. by split; [split|].
  - split; cbn [regval]; closed_eqb.
    + by rewrite Z.lor_spec, orb_true_r.
    + by rewrite Heq1.
Qed.

(** ** The cycle *)

(** What [ccu_24mhosc_disable] leaves for [ccu_24mhosc_enable]. *)
Definition asleep good e l s h : Prop :=
  switched false h /\ hosc_lock (part s) = 1 /\ good s h /\ switches e h /\ registered s l.

Lemma set_power_good good told e (p : power) s h :
  clients call_pcb time_mdelay e good told -> good s h -> good (set_part p s) h.
Proof. intros Hcl Hg. eapply (client_frame _ _ _ _ _ Hcl); [exact Hg|apply extends_refl]. Qed.

Lemma registered_set l p s :
  hosc_notifier_list p = hosc_notifier_list (part s) -> registered s l -> registered (set_part p s) l.
Proof.
  intros Hp [Hh Hlen]. unfold registered. rewrite part_set, (part_other (T := power) (U := list notifier)), Hp. done.
Qed.

Lemma registered_same l s s' : part (T := list notifier) s' = part s -> part (T := power) s' = part s ->
  registered s l -> registered s' l.
Proof. unfold registered. by intros -> ->. Qed.

Lemma disable_spec good told e l s h :
  clients call_pcb time_mdelay e good told -> registered s l -> good s h -> switches e h -> switched true h ->
  wp (ccu_24mhosc_disable call_pcb) e s h (fun r s' h' => r = OK /\ asleep good e l s' h' /\
    told s' = heard CCU_HOSC_WILL_OFF_NOTIFY l ++ told s) total.
Proof.
  intros Hcl Hreg Hg Hsw Hon. unfold ccu_24mhosc_disable, set_power, power_vars, INF. fw_steps. eapply wp_mono.
  { apply (broadcast_safe good told e _ l); [exact Hcl|by left|by apply registered_set| |exact Hon|by rewrite part_set].
    eapply good_mine; [exact Hcl| |by eapply set_power_good]. own. }
  intros [] s1 h1 (Hg1 & Hn1 & Hp1 & Hx1 & Ht1). rewrite part_set in Hp1. rewrite (client_told _ _ _ _ _ Hcl) in Ht1.
  assert (switches e h1) as Hsw1 by (eapply others_switches; [exact Hx1|through]).
  assert (registered s1 l) as Hreg1.
  { eapply registered_same; [exact Hn1| |by apply (registered_set _ (with_hosc_lock 1 (part s)))]. by rewrite part_set. }
  apply wp_bind. eapply wp_mono; [by apply pll_ldo_off_spec|]. intros [] s2 h2 (v & -> & Hx2 & Hsw2 & Hpll).
  apply wp_bind. eapply wp_mono; [apply cdelay_mine|]. intros [] s3 h3 (-> & Hx3 & Hr3).
  assert (switches e h3) as Hsw3.
  { destruct Hsw2 as [[P0 U0] [P1 U1]]. split; (split; [done|]); by rewrite Hr3. }
  apply wp_bind. eapply wp_mono; [by apply dcxo_off_spec|]. intros [] s4 h4 (-> & Hx4 & Hsw4 & Hxo & Hpll4).
  apply wp_ret. split; [done|]. split; [|by rewrite (client_told _ _ _ _ _ Hcl)].
  unfold asleep, switched. rewrite Hpll4, Hr3, part_set, Hp1. split_and!; try done.
  - eapply good_mine; [exact Hcl|eapply extends_trans; [exact Hx3|exact Hx4]|]. eapply (client_frame _ _ _ _ _ Hcl); [exact Hg1|exact Hx2].
  - apply registered_set; [|done]. by rewrite Hp1.
Qed.

Lemma enable_spec good told e l n fuel s h :
  clients call_pcb time_mdelay e good told -> losc_settles e n -> (n < fuel)%nat -> asleep good e l s h ->
  wp (ccu_24mhosc_enable call_pcb time_mdelay fuel) e s h (fun r s' h' => r = OK /\
    switched true h' /\ hosc_lock (part s') = 0 /\ good s' h' /\ registered s' l /\
    told s' = heard CCU_HOSC_ON_READY_NOTIFY l ++ told s) total.
Proof.
  intros Hcl Hset Hfuel (_ & Hlock & Hg & Hsw & Hreg). unfold ccu_24mhosc_enable, INF.
  apply wp_bind. eapply wp_mono; [by apply (losc_on_spec good told e n)|]. intros [] s1 h1 (-> & Hg1 & Hsw1 & _).
  apply wp_bind. eapply wp_mono; [by apply (dcxo_on_spec good told)|]. intros [] s2 h2 (-> & Hg2 & Hsw2 & Hon2).
  apply wp_bind. eapply wp_mono; [by apply (client_delay _ _ _ _ _ Hcl)|]. intros [] s3 h3 (-> & Hg3 & Hx3).
  apply wp_bind, wp_printf. intros r. apply wp_bind. eapply wp_mono.
  { apply (broadcast_safe good told e _ l); [exact Hcl|by right|done| | |done].
    - eapply good_mine; [exact Hcl| |exact Hg3]. own.
    - assert (switched true h3) as Hon by (eapply others_switched; [exact Hx3|exact Hon2]). exact Hon. }
  intros [] s4 h4 (Hg4 & Hn4 & Hp4 & Hx4 & Ht4). unfold set_power, power_vars. fw_steps. split; [done|].
  split; [eapply others_switched; [exact Hx4|]|].
  { assert (switched true h3) as Hon by (eapply others_switched; [exact Hx3|exact Hon2]). exact Hon. }
  rewrite part_set. split_and!; [done|by eapply set_power_good| |by rewrite (client_told _ _ _ _ _ Hcl)].
  apply registered_set; [done|]. by eapply registered_same.
Qed.

(** C21: With clients that keep to their own registers, delays included, and a
    32 kHz status that clears in the end, [ccu_24mhosc_disable] and then
    [ccu_24mhosc_enable] both return.  The first tells every registered
    call-back, each once and in the order of the list, that the oscillator
    will go off, and nothing else; the second tells each that it is on and
    ready.  Both are told while the crystal and its regulator are on and
    [hosc_lock] is set: nothing of a client runs in between but what
    [time_mdelay] does.  The first call leaves both switches off, the second
    both on, the lock released and the clients' invariant standing. *)
Theorem hosc_cycle_spares_clients good told e l n fuel s h :
  clients call_pcb time_mdelay e good told -> losc_settles e n -> (n < fuel)%nat ->
  registered s l -> good s h -> switches e h -> switched true h ->
  wp (ccu_24mhosc_disable call_pcb) e s h (fun r s1 h1 =>
    r = OK /\ switched false h1 /\ hosc_lock (part s1) = 1 /\
    told s1 = heard CCU_HOSC_WILL_OFF_NOTIFY l ++ told s /\
    wp (ccu_24mhosc_enable call_pcb time_mdelay fuel) e s1 h1 (fun r' s2 h2 =>
      r' = OK /\ switched true h2 /\ hosc_lock (part s2) = 0 /\ good s2 h2 /\ registered s2 l /\
      told s2 = heard CCU_HOSC_ON_READY_NOTIFY l ++ told s1) total) total.
Proof.
  intros Hcl Hset Hfuel Hreg Hg Hsw Hon. eapply wp_mono; [by apply (disable_spec good told e l)|].
  intros r s1 h1 (-> & Has & Ht). split_and!; [done|apply Has..|done|]. by eapply enable_spec.
Qed.
End Oscillator.

(** ** The timers are such a client *)

Section TimerClient.
Context {C S : Type} `{HPrint : HasPrintf C} `{HNotifiers : !Part (list notifier) S} `{HPower : !Part power S}
  `{HTimers : !Part timer_vars S} `{!Apart power (list notifier) S} `{!Apart timer_vars (list notifier) S}
  `{!Apart timer_vars power S} `{!Apart power timer_vars S}
  `{HTold : !Part (list (Z * Z)) S} `{!Apart (list (Z * Z)) (list notifier) S} `{!Apart (list (Z * Z)) power S}
  `{!Apart (list (Z * Z)) timer_vars S} `{!Apart timer_vars (list (Z * Z)) S} `{!Apart power (list (Z * Z)) S}.
Context (init : Z -> Z) (e : env C) (time_mdelay : Z -> M C S unit).

Definition timers_running (s : S) (h : history C) : Prop :=
  timer_lock (part s) = 0 /\ length (timer_table (part s)) = TIMERC_TIMERS_NUMBER /\ timer_regs init e h.

(** The timers' call-back, with a record of what it is told. *)
Definition recorded_cb (f command aux : Z) : M C S Z :=
  let! told := getp (T := list (Z * Z)) in
  putp ((f, command) :: told);;
  timer_hosc_onoff_cb command aux.

Lemma timer_reg_free i : (i < TIMERC_TIMERS_NUMBER)%nat -> clk i ∉ osc_regs /\ ivl i ∉ osc_regs.
Proof.
  intros Hi. split; intros Hin; apply list_elem_of_In in Hin;
    (destruct i as [|[|]]; [..|unfold TIMERC_TIMERS_NUMBER in Hi; lia]); vm_compute in Hin; intuition discriminate.
Qed.

Lemma timer_is_client :
  (forall ms s h, timers_running s h -> wp (time_mdelay ms) e s h (fun _ s' h' =>
     s' = s /\ timers_running s' h' /\ keeps init h h') total) ->
  clients init recorded_cb time_mdelay e timers_running (part (T := list (Z * Z))).
Proof.
  intros Hdelay. constructor; [|exact Hdelay| |intros p s; apply part_other].
  - intros f command s h Hcmd Hrun _ _. unfold recorded_cb. apply wp_bind, wp_getp, wp_bind, wp_putp.
    set (s0 := set_part _ s). assert (timers_running s0 h) as (Hlock & Hlen & Hregs).
    { unfold timers_running, s0. by rewrite part_other. }
    assert (exists off : bool, command = (if off then CCU_HOSC_WILL_OFF_NOTIFY else CCU_HOSC_ON_READY_NOTIFY))
      as [off ->] by (destruct Hcmd as [-> | ->]; [by exists true|by exists false]).
    eapply wp_mono; [by apply (hosc_cb_spec init off)|]. intros r s' h' [_ (-> & _ & Hregs' & Hframe)].
    assert (part (T := list notifier) s0 = part s) as E1 by apply part_other.
    assert (part (T := power) s0 = part s) as E2 by apply part_other.
    assert (part (T := list (Z * Z)) s0 = (f, if off then CCU_HOSC_WILL_OFF_NOTIFY else CCU_HOSC_ON_READY_NOTIFY) :: part s)
      as E3 by apply part_set. clearbody s0.
    rewrite !part_other. split_and!; [|done|done| |done].
    + unfold timers_running. rewrite part_set. cbn. by rewrite length_map.
    + intros a Ha. apply Hframe. intros i Hi. destruct (timer_reg_free i Hi) as [H1 H2]. by split; intros ->.
  - intros p s h h' (Hlock & Hlen & Hregs) Hx. unfold timers_running. rewrite part_other. split_and!; [done|done|].
    assert (forall a, a ∉ osc_regs -> regval init h' a = regval init h a) as Hr.
    { intros a Ha. eapply regval_extends; [exact Hx|]. intros v Hv. by apply Ha. }
    intros i Hi. destruct (timer_reg_free i Hi) as [H1 H2], (Hregs i Hi) as [[P0 U0] [P1 U1]].
    split; (split; [done|]); by rewrite Hr.
Qed.
End TimerClient.

(** ** A run of both *)

Record image := Image { im_notifiers : list notifier; im_power : power; im_timers : timer_vars; im_told : list (Z * Z) }.
#[local] Ltac part_laws := by intros; repeat match goal with s : image |- _ => destruct s end.
#[local, refine] Instance image_notifiers : Part (list notifier) image := {|
  part := im_notifiers; set_part n s := Image n (im_power s) (im_timers s) (im_told s) |}.
Proof. all: part_laws. Defined.
#[local, refine] Instance image_power : Part power image := {|
  part := im_power; set_part p s := Image (im_notifiers s) p (im_timers s) (im_told s) |}.
Proof. all: part_laws. Defined.
#[local, refine] Instance image_timers : Part timer_vars image := {|
  part := im_timers; set_part t s := Image (im_notifiers s) (im_power s) t (im_told s) |}.
Proof. all: part_laws. Defined.
#[local, refine] Instance image_told : Part (list (Z * Z)) image := {|
  part := im_told; set_part l s := Image (im_notifiers s) (im_power s) (im_timers s) l |}.
Proof. all: part_laws. Defined.

(** The timers' call-back is registered; the switches are on; the status is
    clear at the first look. *)
Definition awake : image :=
  Image (Notifier NOTIFIER_USED 0x100 None :: repeat (Notifier NOTIFIER_FREE 0 None) 7)
    (Power 0 0 (Some 0%nat)) (with_timer_lock 0 timers_initial) [].

Lemma hosc_cycle_spares_clients_witness :
  let init := fun _ : Z => 0x3a983 in
  let e := Env (fun h a => if a =? RTC_LOSC_AUTO_STA then 0 else regval init h a) (fun _ _ => 0) (fun _ _ => [])
    : env fw_call in
  wp (ccu_24mhosc_disable recorded_cb) e awake [] (fun r s1 h1 =>
    switched init false h1 /\ im_told s1 = [(0x100, CCU_HOSC_WILL_OFF_NOTIFY)] /\
    wp (ccu_24mhosc_enable recorded_cb mdelay 1) e s1 h1 (fun r' s2 h2 =>
      switched init true h2 /\ timers_running init e s2 h2 /\
      im_told s2 = [(0x100, CCU_HOSC_ON_READY_NOTIFY); (0x100, CCU_HOSC_WILL_OFF_NOTIFY)]) total) total.
Proof.
  intros init e.
  assert (Apart power (list notifier) image) as A1 by done.
  assert (Apart timer_vars (list notifier) image) as A2 by done.
  assert (Apart timer_vars power image) as A3 by done. assert (Apart power timer_vars image) as A4 by done.
  assert (Apart (list (Z * Z)) (list notifier) image) as B1 by done.
  assert (Apart (list (Z * Z)) power image) as B2 by done. assert (Apart (list (Z * Z)) timer_vars image) as B3 by done.
  assert (Apart timer_vars (list (Z * Z)) image) as B4 by done. assert (Apart power (list (Z * Z)) image) as B5 by done.
  assert (clients init recorded_cb mdelay e (timers_running init e) (part (T := list (Z * Z)))) as Hcl.
  { apply timer_is_client. intros ms s h Hs. by apply wp_mdelay. }
  eapply wp_mono; [apply (hosc_cycle_spares_clients init recorded_cb mdelay (timers_running init e) (part (T := list (Z * Z))) e [(0%nat, 0x100)] 0 1);
    [exact Hcl|done|lia|..]|].
  - split; [|done]. split; [split; [done|]; by eexists|]. apply NoDup_singleton.
  - split_and!; [done|done|]. by intros [|[|]] Hi; [..|unfold TIMERC_TIMERS_NUMBER in Hi; lia].
  - done.
  - done.
  - intros r s1 h1 (_ & Hoff & _ & Htold & Hon). split; [exact Hoff|]. split; [exact Htold|]. eapply wp_mono; [exact Hon|].
    intros r' s2 h2 (_ & H2 & _ & Hg & _ & Htold2). split; [exact H2|]. split; [exact Hg|]. cbn [part image_told] in Htold, Htold2. rewrite Htold2, Htold. reflexivity.
Defined.
