(* ===== verification/Twi.v ===== *)
(** * The two-wire bus to the power chips (src/ar100s/driver/twi/twi.c)

    Built without [CFG_FPGA_PLATFORM] and [TWI_DEBUG].  A buffer is the list of
    its bytes and the position of a pointer into it; [beyond] is the byte that
    follows the buffer in memory, which the trace at the end of a transfer
    reads.  [fuel] bounds the waits that the code does not bound. *)

From Stdlib Require Import String.
From S2P Require Import Prelude Machine Console Firmware Cpucfg Prcm Uart Timer Power.

Local Open Scope string_scope.
Local Open Scope list_scope.
Local Open Scope Z_scope.
Local Open Scope mach_scope.

(** ** Registers (twi_i.h) *)

Definition R_TWI_REG_BASE : Z := 0x07083000.
Definition TWI_DTR : Z := R_TWI_REG_BASE + 0x08.
Definition TWI_CTR : Z := R_TWI_REG_BASE + 0x0c.
Definition TWI_STR : Z := R_TWI_REG_BASE + 0x10.
Definition TWI_CKR : Z := R_TWI_REG_BASE + 0x14.
Definition TWI_SRR : Z := R_TWI_REG_BASE + 0x18.
Definition TWI_EFR : Z := R_TWI_REG_BASE + 0x1c.
Definition TWI_LCR : Z := R_TWI_REG_BASE + 0x20.
Definition TWI_BUS_ENB : Z := BIT 6.
Definition TWI_MSTART : Z := BIT 5.
Definition TWI_MSTOP : Z := BIT 4.
Definition TWI_INTFLAG : Z := BIT 3.
Definition TWI_AACK : Z := BIT 2.
Definition TWI_CHECK_TIMEOUT : nat := Z.to_nat 0x07ff.
Definition TWI_CLOCK_FREQ : Z := 200 * 1000.
Definition PIN_PULL_UP : Z := 1.
Definition PIN_MULTI_DRIVE_0 : Z := 0.
Definition SCL_CTRL : Z := Z.shiftl 0x1 0x3.
Definition SCL_CTRL_EN : Z := Z.shiftl 0x1 0x2.

Inductive twi_rw_type := TWI_WRITE | TWI_READ.

Record twi := TwiVars { twi_lock : Z }.

(** The divider search of [twic_set_sclk]: [clk_m] is not reset between two
    values of [clk_n], [pow_clk_n] is an unsigned char.  [None] is a division
    by zero; the rate is that of the last division. *)
Fixpoint sclk_m_loop (k : nat) (src_clk clk clk_m pow_clk_n real : Z) : option (bool * Z * Z) :=
  match k with
  | O => Some (false, clk_m, real)
  | Datatypes.S k =>
      if clk_m <? 16 then
        if pow_clk_n =? 0 then None
        else
          let sclk_real := src_clk / (clk_m + 1) / pow_clk_n / 10 in
          if sclk_real <=? clk then Some (true, clk_m, sclk_real)
          else sclk_m_loop k src_clk clk (clk_m + 1) pow_clk_n sclk_real
      else Some (false, clk_m, real)
  end.
Fixpoint sclk_n_loop (k : nat) (src_clk clk clk_m clk_n pow_clk_n real : Z) : option (Z * Z * Z) :=
  match k with
  | O => Some (clk_m, clk_n, real)
  | Datatypes.S k =>
      let clk_n := clk_n + 1 in
      let pow_clk_n := u8 (pow_clk_n * 2) in
      match sclk_m_loop 17 src_clk clk clk_m pow_clk_n real with
      | None => None
      | Some (true, clk_m, real) => Some (clk_m, clk_n, real)
      | Some (false, clk_m, real) => sclk_n_loop k src_clk clk clk_m clk_n pow_clk_n real
      end
  end.
Definition sclk_divider (src_clk clk : Z) : option (Z * Z * Z) := sclk_n_loop 8 src_clk clk 0 0 1 0.

Section Twi.
Context {C S : Type} `{HPrint : HasPrintf C} `{HInsn : !HasInsn C}
  `{HCcu : !Part ccu S} `{HTwi : !Part twi S}.
Local Abbreviation M := (M C S).
(** [time_udelay] of the timers. *)
Context (fuel : nat) (time_udelay : Z -> M unit) (beyond : Z).

Definition get_twi_lock : M Z := let! t := getp in ret (twi_lock t).
Definition put_twi_lock (v : Z) : M unit := putp (TwiVars v).

(** ** The controller *)

Definition flag_up (v : Z) : bool := negb (Z.land v TWI_INTFLAG =? 0).

Definition twi_clear_irq_flag : M unit :=
  let! reg_val := readl TWI_CTR in
  writel (Z.lor reg_val TWI_INTFLAG) TWI_CTR;;
  let! _ := readl TWI_CTR in
  spin fuel TWI_CTR flag_up.

Definition twi_enable_ack : M unit :=
  modify_reg TWI_CTR TWI_AACK TWI_INTFLAG;;
  let! _ := readl TWI_CTR in
  let! _ := readl TWI_CTR in
  ret tt.

Definition twi_disable_ack : M unit :=
  let! v := readl TWI_CTR in
  let reg_val := Z.land v 0x0ff in
  let reg_val := Z.land reg_val (cnot32 TWI_AACK) in
  let reg_val := Z.land reg_val (cnot32 TWI_INTFLAG) in
  writel reg_val TWI_CTR.

Definition twic_send_dummy_clock : M unit :=
  INF "restore bus status to 0x3a\n" [];;
  Nat.iter 10 (fun k => writel 0xa TWI_LCR;; k) (ret tt);;
  writel 0xa TWI_LCR;;
  let! v := readl TWI_LCR in
  (if negb (v =? 0x3a) then let! v := readl TWI_LCR in ERR "bus status err: 0x%x\n" [N_ v] else ret tt);;
  writel 1 TWI_SRR.

Definition twic_reset : M unit :=
  writel 1 TWI_SRR;;
  INF "reset\n" [];;
  spin fuel TWI_SRR (fun v => negb (v =? 0)).

Definition twi_start : M unit := modify_reg TWI_CTR TWI_MSTART TWI_INTFLAG.

Definition twi_stop : M Z :=
  modify_reg TWI_CTR TWI_MSTOP TWI_INTFLAG;;
  twi_clear_irq_flag;;
  let! _ := poll TWI_CHECK_TIMEOUT TWI_CTR (fun v => negb (Z.land v TWI_MSTOP =? 0)) in
  let! idle := poll TWI_CHECK_TIMEOUT TWI_STR (fun v => negb (v =? 0xf8)) in
  if negb (idle =? OK) then
    let! v := readl TWI_STR in
    ERR "state err:%x\n" [N_ v];;
    twic_reset;;
    ret (- EFAIL)
  else
    let! high := poll TWI_CHECK_TIMEOUT TWI_LCR (fun v => negb (v =? 0x3a)) in
    if negb (high =? OK) then
      let! v := readl TWI_LCR in
      ERR "lcr err:%x\n" [N_ v];;
      ret (- EFAIL)
    else
      INF "stop send\n" [];;
      ret OK.

Definition twic_set_sclk (clk : Z) : M unit :=
  let! freq := ccu_get_sclk_freq CCU_SYS_CLK_APBS2 in
  match sclk_divider (u32 freq) clk with
  | None => stop_now Undefined
  | Some (clk_m, clk_n, sclk_real) =>
      writel (Z.lor (Z.shiftl clk_m 3) clk_n) TWI_CKR;;
      INF "m = %x, n = %x, req_sclk = %d, real_clk = %d\n" [N_ clk_m; N_ clk_n; N_ clk; N_ sclk_real]
  end.

Definition twi_clkchangecb (command freq : Z) : M Z :=
  if command =? CCU_CLK_CLKCHG_REQ then
    put_twi_lock 1;;
    INF "twi clk change request\n" [];;
    ret OK
  else if command =? CCU_CLK_CLKCHG_DONE then
    twic_set_sclk TWI_CLOCK_FREQ;;
    put_twi_lock 0;;
    INF "twi clk change done\n" [];;
    ret OK
  else ret (- EFAIL).

(** The setting up that [twi_init] and [twi_standby_init] share. *)
Definition twi_setup : M unit :=
  let! _ := pin_set_multi_sel PIN_GRP_PL 0 2 in
  let! _ := pin_set_pull PIN_GRP_PL 0 PIN_PULL_UP in
  let! _ := pin_set_drive PIN_GRP_PL 0 PIN_MULTI_DRIVE_0 in
  let! _ := pin_set_multi_sel PIN_GRP_PL 1 2 in
  let! _ := pin_set_pull PIN_GRP_PL 1 PIN_PULL_UP in
  let! _ := pin_set_drive PIN_GRP_PL 1 PIN_MULTI_DRIVE_0 in
  let! _ := ccu_set_mclk_onoff CCU_MOD_CLK_R_TWI CCU_CLK_ON in
  let! _ := ccu_set_mclk_reset CCU_MOD_CLK_R_TWI CCU_CLK_NRESET in
  twic_set_sclk TWI_CLOCK_FREQ;;
  writel (Z.lor TWI_BUS_ENB TWI_AACK) TWI_CTR;;
  twic_reset;;
  let! v := readl TWI_LCR in
  if negb (v =? 0x3a) then twic_send_dummy_clock else ret tt.

Definition twi_init : M Z :=
  twi_setup;;
  put_twi_lock 0;;
  let! v := readl TWI_LCR in
  if v =? 0x3a then LOG "init twi succeeded\n" [];; ret OK
  else
    ERR "init twi failed!\n" [];;
    put_twi_lock 1;;
    ret (- EFAIL).
Definition twi_exit : M Z := ret OK.

(** ** A transfer *)

(** [b] only when [a] succeeded: a failure goes to [stop_out]. *)
Definition both (a b : M bool) : M bool := let! ok := a in if ok : bool then b else ret false.

(** Wait for the flag, [n] reads at most. *)
Definition flag_or (n : nat) (msg : string) : M bool :=
  let! r := poll n TWI_CTR (fun v => negb (flag_up v)) in
  if r =? OK then ret true else ERR msg [];; ret false.
Definition state_or (want : Z) (msg : string) : M bool :=
  let! state := readl TWI_STR in
  if state =? want then ret true else ERR msg [N_ state];; ret false.

(** Put a byte on the bus; the controller must report [want]. *)
Definition send_byte (b : Z) (n : nat) (timeout : string) (want : Z) (error : string) : M bool :=
  writel b TWI_DTR;;
  twi_clear_irq_flag;;
  both (flag_or n timeout) (state_or want error).

(** Steps 1 to 3: the start condition, the slave's address, the register. *)
Definition address_register (saddr baddr : Z) : M bool :=
  writel 0 TWI_EFR;;
  let! v := readl TWI_STR in
  let state := Z.land v 0x0ff in
  if negb (state =? 0xf8) then ERR "e1:%x\n" [N_ state];; ret false
  else
    twi_start;;
    both (both (flag_or TWI_CHECK_TIMEOUT "to0\n") (state_or 0x08 "e3:%x\n"))
      (both (send_byte (Z.land (Z.shiftl saddr 1) 0x0fe) TWI_CHECK_TIMEOUT "to1\n" 0x18 "e5:%x\n")
         (send_byte baddr TWI_CHECK_TIMEOUT "to2\n" 0x28 "e7:%x\n")).

(** Step 4 of a write: [len] bytes from [pos] on.  The position at the end,
    and success; [timeout--] gives the wait one read more. *)
Fixpoint write_loop (len : nat) (buf : list Z) (pos : nat) : M (nat * bool) :=
  match len with
  | O => ret (pos, true)
  | Datatypes.S len =>
      match buf !! pos with
      | None => stop_now Undefined
      | Some b =>
          let! ok := send_byte b (Datatypes.S TWI_CHECK_TIMEOUT) "to3\n" 0x28 "e9:%x\n" in
          if ok then write_loop len buf (Datatypes.S pos) else ret (Datatypes.S pos, false)
      end
  end.

(** Steps 4 and 5 of a read: restart, the slave's address to read from. *)
Definition restart_read (saddr : Z) : M bool :=
  twi_start;;
  twi_clear_irq_flag;;
  both (both (flag_or TWI_CHECK_TIMEOUT "to4\n") (state_or 0x10 "e11:%x\n"))
    (send_byte (Z.lor (Z.shiftl saddr 1) 1) TWI_CHECK_TIMEOUT "to5\n" 0x40 "e13:%x\n").

(** Step 6: [len] bytes to [pos] on; the buffer, the position, success. *)
Fixpoint read_loop (len : nat) (buf : list Z) (pos : nat) : M (list Z * nat * bool) :=
  match len with
  | O => ret (buf, pos, true)
  | Datatypes.S len =>
      (if (len =? 0)%nat then twi_disable_ack else ret tt);;
      twi_clear_irq_flag;;
      let! ok := flag_or (Datatypes.S TWI_CHECK_TIMEOUT) "to6\n" in
      if negb ok then ret (buf, pos, false)
      else
        let! v := readl TWI_DTR in
        match buf !! pos with
        | None => stop_now Undefined
        | Some _ =>
            let buf := <[pos := u8 v]> buf in
            let! ok := (if (0 <? len)%nat then state_or 0x50 "e14:%x\n" else state_or 0x58 "e15:%x\n") in
            if ok then read_loop len buf (Datatypes.S pos) else ret (buf, Datatypes.S pos, false)
        end
  end.

(** The body of [twi_byte_rw] up to [stop_out]. *)
Definition transfer (op : twi_rw_type) (saddr baddr : Z) (buf : list Z) (pos len : nat)
  : M (list Z * nat * bool) :=
  let! ok := address_register saddr baddr in
  if negb ok then ret (buf, pos, false)
  else
    match op with
    | TWI_WRITE =>
        let! (pos, ok) := write_loop len buf pos in ret (buf, pos, ok)
    | TWI_READ =>
        let! ok := restart_read saddr in
        if negb ok then ret (buf, pos, false) else read_loop len buf pos
    end.

Definition op_code (op : twi_rw_type) : Z := match op with TWI_WRITE => 0x0 | TWI_READ => 0x1 end.

(** The result and the buffer; [data] points to position [pos] of it. *)
Definition twi_byte_rw (op : twi_rw_type) (saddr baddr : Z) (buf : list Z) (pos len : nat)
  : M (Z * list Z) :=
  let! lock := get_twi_lock in
  if negb (lock =? 0) then ret (- EACCES, buf)
  else if (4 <? len)%nat then ret (- EINVAL, buf)
  else
    twi_enable_ack;;
    let! cpsr := cpu_disable_int in
    let! (buf, pos, ok) := transfer op saddr baddr buf pos len in
    let r := if ok then 0 else -1 in
    let! _ := twi_stop in
    cpu_enable_int cpsr;;
    INF "%u,%u,%u,%u,%d\n" [N_ (op_code op); N_ saddr; N_ baddr; N_ (nth pos buf beyond); N_ r];;
    ret (r, buf).

(** [len] transfers of one byte, the [i]th at register [addr[i]]. *)
Fixpoint rw_loop (op : twi_rw_type) (len : nat) (devaddr : Z) (addr : list Z) (i : nat)
  (buf : list Z) (r : Z) : M (Z * list Z) :=
  match len with
  | O => ret (r, buf)
  | Datatypes.S len =>
      match addr !! i with
      | None => stop_now Undefined
      | Some a =>
          let! (r', buf) := twi_byte_rw op (u8 devaddr) a buf i 1 in
          rw_loop op len devaddr addr (Datatypes.S i) buf (Z.lor r r')
      end
  end.
Definition twi_read (devaddr : Z) (addr data : list Z) (len : nat) : M (Z * list Z) :=
  rw_loop TWI_READ len devaddr addr 0 data 0.
Definition twi_write (devaddr : Z) (addr data : list Z) (len : nat) : M Z :=
  let! (r, _) := rw_loop TWI_WRITE len devaddr addr 0 data 0 in ret r.

Definition is_twi_lock : M Z := get_twi_lock.

(** ** Recovery *)

Definition sda_high (v : Z) : bool := negb (Z.land (Z.shiftr v 0x4) 0x1 =? 0).

(** [while (cycle < 9)]: a pulse of the clock until the data line is high. *)
Fixpoint pulse_loop (n : nat) : M unit :=
  match n with
  | O => ret tt
  | Datatypes.S n =>
      let! v := readl TWI_LCR in
      if sda_high v then ret tt
      else
        clear_bits_of TWI_LCR SCL_CTRL;;
        time_udelay 1000;;
        set_bits_of TWI_LCR SCL_CTRL;;
        time_udelay 1000;;
        pulse_loop n
  end.

(** [status] is an unsigned char: a failure is 255. *)
Definition twi_send_clk_9pulse : M Z :=
  let! state := readl TWI_LCR in
  writel (Z.lor state SCL_CTRL_EN) TWI_LCR;;
  pulse_loop 9;;
  let! v := readl TWI_LCR in
  let! status := (if negb (sda_high v) then ERR "SDA is still low level!\n" [];; ret (u8 (-1)) else ret 0) in
  clear_bits_of TWI_LCR SCL_CTRL_EN;;
  ret status.

Definition twi_get_status : M Z :=
  let! v := readl TWI_STR in
  if negb (Z.land v 0xFF =? 0xF8) then ret (-1)
  else
    let! v := readl TWI_LCR in
    ret (if negb (Z.land v 0x30 =? 0x30) then -1 else 0).

Definition twi_standby_init : M Z :=
  twi_setup;;
  let! v := readl TWI_LCR in
  (if v =? 0x3a then LOG "init twi succeeded\n" [] else ERR "init twi failed!\n" []);;
  ret OK.
Definition twi_standby_exit : M Z := ret OK.
End Twi.
