(* ===== verification/TwiProps.v ===== *)
(** * One byte over the two-wire bus (src/ar100s/driver/twi/twi.c)

    The bus is hardware: its contract is a relation between the controller's
    registers, the history of the run and the registers of the chips on the
    bus.  Against it a transfer that reports success has read or written
    exactly the register it names, and a failed one can only have reached that
    register. *)

From Stdlib Require Import String.
From S2P Require Import Prelude Machine Console Firmware Cpucfg Prcm Uart Timer Power Twi.

Local Open Scope list_scope.
Local Open Scope Z_scope.
Local Open Scope mach_scope.

(** ** What has been put on the bus *)

(** Between a start and a stop: the chip and the register its pointer is at,
    and the last byte that went either way. *)
Inductive phase :=
| Stopped
| Started (at_ : option (Z * Z))
| Addressed (dev : Z)
| AtReg (dev reg : Z)
| Stored (dev reg v : Z)
| Reading (dev reg : Z)
| Fetched (dev reg v : Z)
| Lost.

Definition is_started (p : phase) : bool := match p with Started _ => true | _ => false end.
Definition is_stopped (p : phase) : bool := match p with Stopped => true | _ => false end.

(** The conditions a write of the control register asks for. *)
Definition on_control (v : Z) (p : phase) : phase :=
  if Z.testbit v 4 then Stopped
  else if Z.testbit v 5 then
    match p with
    | Started x => Started x
    | AtReg dev reg => Started (Some (dev, reg))
    | _ => Started None
    end
  else p.
Definition on_byte (v : Z) (p : phase) : phase :=
  match p with
  | Started x =>
      if v mod 2 =? 0 then Addressed (v / 2)
      else match x with
           | Some (dev, reg) => if v / 2 =? dev then Reading dev reg else Lost
           | None => Lost
           end
  | Addressed dev => AtReg dev v
  | AtReg dev reg => Stored dev reg v
  | _ => Lost
  end.

(** ** The divider *)

(** The rate of [twic_set_sclk]'s search at [m], with [2 ^ n = 2]. *)
Definition sclk_rate (src_clk m : Z) : Z := src_clk / (m + 1) / 2 / 10.

Lemma sclk_m_loop_spec k src_clk clk m pow real : pow <> 0 -> 0 <= m <= 16 -> 16 - m < Z.of_nat k ->
  (exists m', m <= m' < 16 /\ src_clk / (m' + 1) / pow / 10 <= clk /\
     (forall j, m <= j < m' -> clk < src_clk / (j + 1) / pow / 10) /\
     sclk_m_loop k src_clk clk m pow real = Some (true, m', src_clk / (m' + 1) / pow / 10)) \/
  ((forall j, m <= j < 16 -> clk < src_clk / (j + 1) / pow / 10) /\
     exists real', sclk_m_loop k src_clk clk m pow real = Some (false, 16, real')).
Proof.
  intros Hpow. revert m real. induction k as [|k IH]; intros m real Hm Hk; [lia|]. cbn [sclk_m_loop].
  destruct (Z.ltb_spec m 16) as [Hlt|Hge].
  - rewrite (proj2 (Z.eqb_neq pow 0)) by done. cbv zeta. destruct (Z.leb_spec (src_clk / (m + 1) / pow / 10) clk) as [Hle|Hgt].
    + left. exists m. split_and!; [lia|done|done|lia|done].
    + destruct (IH (m + 1) (src_clk / (m + 1) / pow / 10)) as [(m' & Hm' & Hr & Hall & ->)|(Hall & real' & ->)]; [lia..| |].
      * left. exists m'. split_and!; [lia|lia|done| |done]. intros j Hj. destruct (decide (j = m)) as [->|]; [done|]. apply Hall. lia.
      * right. split; [|by exists real']. intros j Hj. destruct (decide (j = m)) as [->|]; [done|]. apply Hall. lia.
  - right. split; [lia|]. exists real. by replace m with 16 by lia.
Qed.

Lemma sclk_divider_some src_clk clk : exists t, sclk_divider src_clk clk = Some t.
Proof.
  unfold sclk_divider. cbn [sclk_n_loop]. change (u8 (1 * 2)) with 2.
  destruct (sclk_m_loop_spec 17 src_clk clk 0 2 0) as [(m & _ & _ & _ & ->)|(_ & real & ->)]; [done|lia|lia|..]; by eexists.
Qed.

(** The divider search of [twic_set_sclk] never divides by zero and always
    ends.  When some [m] below 16 brings the rate down to the one asked for,
    the least such [m] is chosen, with [n = 1], and the rate reported is the
    rate of that divider; otherwise the result is [m = 16], [n = 8], whatever
    the source: one more than the register's field of [m] holds. *)
Theorem sclk_divider_least src_clk clk :
  (exists m, 0 <= m < 16 /\ sclk_rate src_clk m <= clk /\ (forall j, 0 <= j < m -> clk < sclk_rate src_clk j) /\
     sclk_divider src_clk clk = Some (m, 1, sclk_rate src_clk m)) \/
  ((forall j, 0 <= j < 16 -> clk < sclk_rate src_clk j) /\
     exists real, sclk_divider src_clk clk = Some (16, 8, real)).
Proof.
  unfold sclk_divider, sclk_rate. cbn [sclk_n_loop]. change (u8 (1 * 2)) with 2.
  destruct (sclk_m_loop_spec 17 src_clk clk 0 2 0) as [(m & Hm & Hr & Hall & ->)|(Hall & real & ->)]; [done|lia|lia|left|right].
  - by exists m.
  - split; [done|]. by exists real.
Qed.

Lemma settles_le {C} n m reg busy (e : env C) h : settles n reg busy e h -> (n <= m)%nat -> settles m reg busy e h.
Proof.
  revert m h. induction n as [|n IH]; intros [|m] h Hset Hm; try done; [lia|]. destruct Hset as [Hb|Hset]; [by left|].
  right. apply IH; [done|lia].
Qed.

Section Bus.
Context {C : Type}.
Implicit Types (h : history C) (e : env C).

Definition bus_step (ev : event C) (p : phase) : phase :=
  match ev with
  | Wr a v => if a =? TWI_DTR then on_byte v p else if a =? TWI_CTR then on_control v p else p
  | Rd a v =>
      if a =? TWI_DTR then match p with Reading dev reg => Fetched dev reg v | p => p end else p
  | _ => p
  end.
Fixpoint bus h : phase := match h with [] => Stopped | ev :: h => bus_step ev (bus h) end.

Lemma bus_rd a v h : a <> TWI_DTR -> bus (Rd a v :: h) = bus h.
Proof. intros Ha. cbn. by rewrite (proj2 (Z.eqb_neq _ _) Ha). Qed.
Lemma bus_ctr v h : bus (Wr TWI_CTR v :: h) = on_control v (bus h).
Proof. done. Qed.
Lemma bus_dtr v h : bus (Wr TWI_DTR v :: h) = on_byte v (bus h).
Proof. done. Qed.

(** The contract: [regs h dev reg] is what register [reg] of chip [dev] holds,
    for the registers of [kept], which nobody else changes. *)
Record register_bus (fuel : nat) (kept : Z -> Z -> Prop) e (regs : history C -> Z -> Z -> Z) : Prop := {
  rb_u8 : forall h dev reg, is_u8 (regs h dev reg);
  (* nothing but a byte for a register changes one *)
  rb_quiet : forall ev h dev reg, kept dev reg ->
    (forall v, ev = Wr TWI_DTR v -> bus h <> AtReg dev reg) -> regs (ev :: h) dev reg = regs h dev reg;
  rb_byte : forall v h dev reg, kept dev reg -> bus h = AtReg dev reg -> is_u8 v ->
    regs (Wr TWI_DTR v :: h) dev reg = v \/ regs (Wr TWI_DTR v :: h) dev reg = regs h dev reg;
  (* a byte that was acknowledged is stored, one that is confirmed was read *)
  rb_stored : forall h dev reg v, kept dev reg -> bus h = Stored dev reg v -> is_u8 v ->
    u32 (env_read e h TWI_STR) = 0x28 -> regs h dev reg = v;
  rb_fetched : forall h dev reg v, kept dev reg -> bus h = Fetched dev reg v ->
    u32 (env_read e h TWI_STR) = 0x58 -> v = regs h dev reg;
  (* the controller takes a start or stop back once it is on the bus *)
  rb_started : forall h, u32 (env_read e h TWI_STR) = 0x08 -> is_started (bus h) = true;
  rb_no_start : forall h, is_started (bus h) = false -> Z.testbit (u32 (env_read e h TWI_CTR)) 5 = false;
  rb_no_stop : forall h, is_stopped (bus h) = false -> Z.testbit (u32 (env_read e h TWI_CTR)) 4 = false;
  (* it acts on a cleared flag and on a reset *)
  rb_flag : forall h v w, Z.testbit v 3 = true ->
    settles fuel TWI_CTR flag_up e (Rd TWI_CTR w :: Wr TWI_CTR v :: h);
  rb_reset : forall h c r, settles fuel TWI_SRR (fun v => negb (v =? 0)) e (Call c r :: Wr TWI_SRR 1 :: h)
}.

Definition reports e h (status : Z) : Prop := u32 (env_read e h TWI_STR) = status.

(** A chip that answers: each condition and each byte raises the flag in time
    and is reported as acknowledged; a byte meant for a register is stored
    there, and the register is what is read. *)
Record answers (kept : Z -> Z -> Prop) e (regs : history C -> Z -> Z -> Z) (dev : Z) : Prop := {
  an_flag : forall h, settles TWI_CHECK_TIMEOUT TWI_CTR (fun v => negb (flag_up v)) e h;
  an_idle : forall h, bus h = Stopped -> reports e h 0xf8 /\ Z.testbit (u32 (env_read e h TWI_CTR)) 4 = false;
  an_start : forall h, bus h = Started None -> reports e h 0x08;
  an_address : forall h, bus h = Addressed dev -> reports e h 0x18;
  an_register : forall h reg, bus h = AtReg dev reg -> reports e h 0x28;
  an_takes : forall h reg v, kept dev reg -> bus h = AtReg dev reg -> is_u8 v -> regs (Wr TWI_DTR v :: h) dev reg = v;
  an_stored : forall h reg v, kept dev reg -> bus h = Stored dev reg v -> regs h dev reg = v -> reports e h 0x28;
  an_restart : forall h reg, bus h = Started (Some (dev, reg)) -> reports e h 0x10;
  an_reading : forall h reg, bus h = Reading dev reg -> reports e h 0x40;
  an_gives : forall h reg, kept dev reg -> bus h = Reading dev reg -> u32 (env_read e h TWI_DTR) = regs h dev reg;
  an_fetched : forall h reg v, kept dev reg -> bus h = Fetched dev reg v -> regs h dev reg = v -> reports e h 0x58
}.

(** A chip that does not acknowledge its address. *)
Definition deaf e (dev : Z) : Prop := forall h, bus h = Addressed dev -> ~ reports e h 0x18.
End Bus.

(** ** The interrupt state *)

(** [st h] is the machine's status register after [h]: it is what the core
    reads, a write sets it, and but for the instructions that set or clear bits
    of it nothing changes it. *)
Record status_register {C} `{HPrint : HasPrintf C, HInsn : HasInsn C} (e : env C) (st : history C -> Z) : Prop := {
  sr_get : forall h, u32 (env_ret e h (insn_call csrr_mstatus)) = st h;
  sr_read : forall h r, st (Call (insn_call csrr_mstatus) r :: h) = st h;
  sr_write : forall h v r, is_u32 v -> st (Call (insn_call (csrw_mstatus v)) r :: h) = v;
  sr_printf : forall h fmt args r, st (Call (printf_call fmt args) r :: h) = st h;
  sr_quiet : forall ev h, (forall c r, ev <> Call c r) -> st (ev :: h) = st h
}.

(** ** The controller *)

Section Driver.
Context {C S : Type} `{HPrint : HasPrintf C} `{HInsn : !HasInsn C}
  `{HCcu : !Part ccu S} `{HTwi : !Part twi S}.
Context (fuel : nat) (beyond : Z) (kept : Z -> Z -> Prop) (e : env C) (regs : history C -> Z -> Z -> Z).
Hypothesis Hbus : register_bus fuel kept e regs.
Implicit Types (s : S) (h : history C).

(** The chips' registers hold what they held. *)
Definition unchanged h h' : Prop := forall dev reg, kept dev reg -> regs h' dev reg = regs h dev reg.
(** ... but for one. *)
Definition unchanged_but dev reg h h' : Prop :=
  forall d r, kept d r -> ~ (d = dev /\ r = reg) -> regs h' d r = regs h d r.
(** Nothing happened on the bus. *)
Definition calm h h' : Prop := bus h' = bus h /\ unchanged h h'.

Lemma calm_refl h : calm h h.
Proof. by split. Qed.
Lemma calm_trans h1 h2 h3 : calm h1 h2 -> calm h2 h3 -> calm h1 h3.
Proof. intros [P1 R1] [P2 R2]. split; [congruence|]. intros d r Hk. rewrite R2, R1; done. Qed.

Lemma calm_event ev h h' :
  (forall v, ev <> Wr TWI_DTR v) -> bus_step ev (bus h') = bus h' -> calm h h' -> calm h (ev :: h').
Proof.
  intros Hev Hstep Hc. eapply calm_trans; [exact Hc|]. split; [done|].
  intros d r Hk. apply (rb_quiet _ _ _ _ Hbus); [done|]. intros v ->. by destruct (Hev v).
Qed.
Lemma calm_rd a v h h' : a <> TWI_DTR -> calm h h' -> calm h (Rd a v :: h').
Proof. intros Ha. apply calm_event; [done|]. cbn. by rewrite (proj2 (Z.eqb_neq _ _) Ha). Qed.
Lemma calm_wr a v h h' : a <> TWI_DTR -> a <> TWI_CTR -> calm h h' -> calm h (Wr a v :: h').
Proof.
  intros Ha Hb. apply calm_event; [congruence|]. cbn.
  by rewrite (proj2 (Z.eqb_neq _ _) Ha), (proj2 (Z.eqb_neq _ _) Hb).
Qed.
Lemma calm_call c r h h' : calm h h' -> calm h (Call c r :: h').
Proof. by apply calm_event. Qed.
Lemma calm_rds a vs h h' : a <> TWI_DTR -> calm h h' -> calm h (map (Rd a) vs ++ h').
Proof. intros Ha Hc. induction vs; [done|]. by apply calm_rd. Qed.

(** A write of the control register that asks for nothing new. *)
Lemma calm_ctr v h h' :
  (is_stopped (bus h') = false -> Z.testbit v 4 = false) ->
  (is_started (bus h') = false -> Z.testbit v 5 = false) -> calm h h' -> calm h (Wr TWI_CTR v :: h').
Proof.
  intros H4 H5 Hc. apply calm_event; [done| |done]. cbn. unfold on_control.
  destruct (is_stopped (bus h')) eqn:E4; [|rewrite H4 by done].
  - destruct (bus h'); try done. rewrite H5 by done. by destruct (Z.testbit v 4).
  - destruct (is_started (bus h')) eqn:E5; [|by rewrite H5].
    destruct (bus h'); try done. by destruct (Z.testbit v 5).
Qed.
(** The bits a read of it can show. *)
Lemma ctr_bits v h : v = u32 (env_read e h TWI_CTR) ->
  (is_stopped (bus h) = false -> Z.testbit v 4 = false) /\
  (is_started (bus h) = false -> Z.testbit v 5 = false).
Proof. intros ->. split; [apply (rb_no_stop _ _ _ _ Hbus)|apply (rb_no_start _ _ _ _ Hbus)]. Qed.

Ltac still := repeat first [ apply calm_refl | apply calm_call | apply calm_rd; [done|] | apply calm_wr; [done|done|] ].

Lemma intflag_bit v : Z.testbit (Z.lor v TWI_INTFLAG) 3 = true.
Proof. rewrite Z.lor_spec. change (Z.testbit TWI_INTFLAG 3) with true. apply orb_true_r. Qed.
Lemma lor_bit v m n : Z.testbit m n = false -> Z.testbit (Z.lor v m) n = Z.testbit v n.
Proof. intros Hm. by rewrite Z.lor_spec, Hm, orb_false_r. Qed.
Lemma land_bit v m n : Z.testbit v n = false -> Z.testbit (Z.land v m) n = false.
Proof. intros Hv. by rewrite Z.land_spec, Hv. Qed.

Lemma clear_flag_spec s h :
  wp (twi_clear_irq_flag fuel) e s h (fun _ s' h' => s' = s /\ calm h h') total.
Proof.
  unfold twi_clear_irq_flag. fw_steps. destruct (ctr_bits _ _ Ev) as [H4 H5].
  eapply wp_mono; [apply spin_spec, (rb_flag _ _ _ _ Hbus), intflag_bit|].
  intros _ s' h' (-> & w & vs & -> & _). split; [done|]. apply calm_rds; [done|].
  apply calm_rd; [done|].
  apply calm_ctr; [| |still]; rewrite bus_rd by done; intros Hb; rewrite lor_bit by done; auto.
Qed.

Lemma poll_settled n reg busy s h : settles n reg busy e h ->
  wp (poll n reg busy) e s h (fun r _ _ => r = OK) total.
Proof.
  revert h. induction n as [|n IH]; intros h Hset; [done|]. cbn [poll settles] in *. apply wp_bind, wp_readl.
  intros v _ Ev. rewrite <- Ev in Hset. destruct (busy v); [|by apply wp_ret]. destruct Hset as [|Hset]; [done|]. by apply IH.
Qed.

Lemma poll_calm n reg busy s h : reg <> TWI_DTR ->
  wp (poll n reg busy) e s h (fun r s' h' => s' = s /\ calm h h' /\ (settles n reg busy e h -> r = OK)) total.
Proof.
  intros Hr. pose proof (poll_spec n reg busy e s h) as Hp. eapply wp_mono.
  { eapply wp_and; [exact Hp|]. eapply (wp_when _ _ _ _ _ _ _ total); [exact Hp|]. by apply poll_settled. }
  intros r s' h' [(-> & vs & -> & _) Hok]. split; [done|]. split; [|exact Hok]. apply calm_rds; [done|apply calm_refl].
Qed.

(** How long a wait for the flag is that is long enough. *)
Definition prompt (n : nat) : Prop := forall h, settles n TWI_CTR (fun v => negb (flag_up v)) e h.

Lemma flag_or_spec n msg s h :
  wp (flag_or n msg) e s h (fun ok s' h' => s' = s /\ calm h h' /\ (prompt n -> ok = true)) total.
Proof.
  unfold flag_or. apply wp_bind. eapply wp_mono; [by apply poll_calm|]. intros r s' h' (-> & Hc & Hok).
  destruct (Z.eqb_spec r OK) as [_|Hne]; [by apply wp_ret|]. unfold ERR. fw_steps. split; [done|].
  split; [by apply calm_call|]. intros Hp. destruct Hne. apply Hok, Hp.
Qed.

(** A check that succeeds has seen the state it wanted. *)
Lemma state_or_spec want msg s h :
  wp (state_or want msg) e s h (fun ok s' h' => s' = s /\ calm h h' /\ (ok = true <-> reports e h want)) total.
Proof.
  unfold state_or, reports. fw_steps. destruct (Z.eqb_spec v want); unfold ERR; fw_steps;
    (split; [done|]); (split; [still|]); split; congruence.
Qed.

Lemma both_spec (a b : M C S bool) s h (Q : bool -> S -> history C -> Prop) :
  wp a e s h (fun ok s' h' => if ok then wp b e s' h' Q total else Q false s' h') total ->
  wp (both a b) e s h Q total.
Proof.
  intros Ha. unfold both. apply wp_bind. eapply wp_mono; [exact Ha|]. intros [] s' h' Hb; [done|by apply wp_ret].
Qed.

(** A byte: what it does to the bus, and what the answer says. *)
Lemma send_byte_spec b n timeout want error s h :
  wp (send_byte fuel b n timeout want error) e s h (fun ok s' h' => s' = s /\
    calm (Wr TWI_DTR b :: h) h' /\
    (ok = true -> exists h0, calm (Wr TWI_DTR b :: h) h0 /\ reports e h0 want /\ calm h0 h') /\
    (prompt n -> (forall h0, calm (Wr TWI_DTR b :: h) h0 -> reports e h0 want) -> ok = true)) total.
Proof.
  unfold send_byte. fw_steps. eapply wp_mono; [apply clear_flag_spec|]. intros _ s' h' [-> Hc].
  apply both_spec. eapply wp_mono; [apply flag_or_spec|]. intros [] s1 h1 (-> & Hc1 & Hp).
  - eapply wp_mono; [apply state_or_spec|]. intros ok s2 h2 (-> & Hc2 & Hok). split; [done|].
    assert (calm (Wr TWI_DTR b :: h) h1) as Hall by by eapply calm_trans.
    split; [by eapply calm_trans|]. split; [intros Hgood; exists h1; naive_solver|]. naive_solver.
  - split; [done|]. split; [by eapply calm_trans|]. split; [done|]. naive_solver.
Qed.

(** ** The conditions on the bus *)

Lemma set_clear_bit v a b n : Z.testbit b n = false -> 0 <= n < 32 ->
  Z.testbit (Z.land (Z.lor v a) (cnot32 b)) n = Z.testbit v n || Z.testbit a n.
Proof.
  intros Hb Hn. rewrite Z.land_spec, Z.lor_spec, testbit_cnot32, Hb by lia.
  rewrite (proj2 (Z.ltb_lt n 32)) by lia. apply andb_true_r.
Qed.

Lemma unchanged_refl h : unchanged h h.
Proof. done. Qed.
Lemma unchanged_trans h1 h2 h3 : unchanged h1 h2 -> unchanged h2 h3 -> unchanged h1 h3.
Proof. intros H1 H2 d r Hk. by rewrite H2, H1. Qed.
Lemma unchanged_event ev h : (forall v, ev <> Wr TWI_DTR v) -> unchanged h (ev :: h).
Proof. intros Hev d r Hk. apply (rb_quiet _ _ _ _ Hbus); [done|]. intros v ->. by destruct (Hev v). Qed.
Lemma unchanged_byte v h : (forall d r, bus h <> AtReg d r) -> unchanged h (Wr TWI_DTR v :: h).
Proof. intros Hat d r Hk. apply (rb_quiet _ _ _ _ Hbus); [done|]. intros; apply Hat. Qed.

Lemma twi_start_spec s h :
  wp twi_start e s h (fun _ s' h' => s' = s /\ unchanged h h' /\
    (bus h = Stopped -> bus h' = Stopped /\ Z.testbit (u32 (env_read e h TWI_CTR)) 4 = true \/ bus h' = Started None) /\
    (forall d r, bus h = AtReg d r -> bus h' = Started (Some (d, r)))) total.
Proof.
  unfold twi_start, modify_reg. fw_steps. split; [done|]. split.
  { eapply unchanged_trans; apply unchanged_event; done. }
  destruct (ctr_bits _ _ Ev) as [H4 _]. rewrite bus_ctr, bus_rd by done. unfold on_control.
  rewrite !set_clear_bit by done. change (Z.testbit TWI_MSTART 4) with false.
  change (Z.testbit TWI_MSTART 5) with true. rewrite orb_false_r, orb_true_r. split.
  - intros ->. rewrite <- Ev. destruct (Z.testbit v 4); [by left|by right].
  - intros d r Hat. rewrite Hat in *. by rewrite H4.
Qed.

Lemma twi_stop_spec s h :
  wp (twi_stop fuel) e s h (fun _ s' h' => s' = s /\ unchanged h h' /\ bus h' = Stopped) total.
Proof.
  unfold twi_stop, modify_reg. fw_steps.
  set (h0 := Wr TWI_CTR _ :: _). assert (unchanged h h0 /\ bus h0 = Stopped) as [Hu Hb].
  { split; [eapply unchanged_trans; by apply unchanged_event|]. unfold h0. rewrite bus_ctr. unfold on_control.
    rewrite set_clear_bit by done. by rewrite orb_true_r. }
  assert (forall h', calm h0 h' -> unchanged h h' /\ bus h' = Stopped) as Hcalm.
  { intros h' [Hb' Hu']. split; [by eapply unchanged_trans|congruence]. }
  eapply wp_mono; [apply clear_flag_spec|]. intros _ s1 h1 [-> Hc1].
  apply wp_bind. eapply wp_mono; [by apply poll_calm|]. intros r2 s2 h2 (-> & Hc2 & _).
  apply wp_bind. eapply wp_mono; [by apply poll_calm|]. intros r3 s3 h3 (-> & Hc3 & _).
  assert (calm h0 h3) as Hc by (eapply calm_trans; [|exact Hc3]; by eapply calm_trans).
  destruct (negb _).
  - unfold ERR. fw_steps. eapply (wp_mono _ _ _ _ _ (fun _ s' h' => s' = s /\ calm h0 h')).
    { unfold twic_reset, INF. fw_steps. eapply wp_mono; [apply spin_spec, (rb_reset _ _ _ _ Hbus)|].
      intros _ s4 h4 (-> & w & vs & -> & _). split; [done|]. apply calm_rds; [done|].
      eapply calm_trans; [exact Hc|still]. }
    intros _ s4 h4 [-> Hc4]. apply wp_ret. split; [done|]. by apply Hcalm.
  - apply wp_bind. eapply wp_mono; [by apply poll_calm|]. intros r4 s4 h4 (-> & Hc4 & _).
    assert (calm h0 h4) as Hc5 by by eapply calm_trans.
    destruct (negb _); unfold ERR, INF; fw_steps; (split; [done|]); apply Hcalm;
      (eapply calm_trans; [exact Hc5|still]).
Qed.

(** ** A transfer *)

(** Success is certain where the chip answers, and failure where it does not
    acknowledge its address. *)
Definition verdict dev (ok : bool) : Prop := (answers kept e regs dev -> ok = true) /\ (deaf e dev -> ok = false).

Lemma in_time dev : answers kept e regs dev -> prompt TWI_CHECK_TIMEOUT.
Proof. intros Ha h. apply (an_flag _ _ _ _ Ha). Qed.
Lemma in_time_more dev : answers kept e regs dev -> prompt (Datatypes.S TWI_CHECK_TIMEOUT).
Proof. intros Ha h. apply (settles_le TWI_CHECK_TIMEOUT); [|lia]. apply (an_flag _ _ _ _ Ha). Qed.
Lemma verdict_yes dev ok : ~ deaf e dev -> (answers kept e regs dev -> ok = true) -> verdict dev ok.
Proof. intros Hd Ha. by split. Qed.

Lemma address_register_spec saddr baddr s h : 0 <= saddr < 128 -> bus h = Stopped ->
  wp (address_register fuel saddr baddr) e s h (fun ok s' h' => s' = s /\ unchanged h h' /\
    (ok = true -> bus h' = AtReg saddr baddr) /\ verdict saddr ok) total.
Proof.
  intros Hdev Hstop. unfold address_register. fw_steps. set (h0 := Rd TWI_STR v :: _).
  assert (calm h h0) as [Hb0 Hu0] by (unfold h0; still).
  destruct (Z.eqb_spec (Z.land v 0x0ff) 0xf8) as [_|Hne]; cbn [negb].
  2:{ unfold ERR. fw_steps. split; [done|]. split; [eapply unchanged_trans; [exact Hu0|by apply unchanged_event]|].
    split; [done|]. split; [|done]. intros Ha. destruct Hne. destruct (an_idle _ _ _ _ Ha (Wr TWI_EFR 0 :: h)) as [Hi _].
    { by rewrite <- Hstop. } unfold reports in Hi. by rewrite Ev, Hi. }
  apply wp_bind. eapply wp_mono; [apply twi_start_spec|]. intros _ s1 h1 (-> & Hu1 & Hb1 & _).
  assert (unchanged h h1) as Hu01 by by eapply unchanged_trans.
  assert (answers kept e regs saddr -> bus h1 = Started None) as Hgo.
  { intros Ha. destruct Hb1 as [[_ Ht]|]; [congruence| |done].
    destruct (an_idle _ _ _ _ Ha h0) as [_ Hf]; [congruence|]. rewrite Hf in Ht. done. }
  apply both_spec, both_spec. eapply wp_mono; [apply flag_or_spec|]. intros ok2 s2 h2 (-> & [Hb2 Hu2] & Hp2).
  destruct ok2.
  2:{ split; [done|]. split; [by eapply unchanged_trans|]. split; [done|]. split; [|done].
    intros Ha. eapply Hp2, in_time, Ha. }
  eapply wp_mono; [apply state_or_spec|]. intros ok3 s3 h3 (-> & [Hb3 Hu3] & Hst). destruct ok3.
  2:{ split; [done|]. split; [do 2 (eapply unchanged_trans; [|eassumption]); done|]. split; [done|].
    split; [|done]. intros Ha. apply Hst, (an_start _ _ _ _ Ha). rewrite Hb2. by apply Hgo. }
  assert (bus h3 = Started None) as Hstarted.
  { specialize (rb_started _ _ _ _ Hbus h2 (proj1 Hst eq_refl)). rewrite Hb3, Hb2.
    destruct Hb1 as [[-> _]| ->]; [congruence|done..]. }
  assert (unchanged h h3) as Hu03 by (do 2 (eapply unchanged_trans; [|eassumption]); done).
  assert (Z.land (Z.shiftl saddr 1) 0xfe = 2 * saddr) as ->.
  { change 0xfe with (Z.shiftl (Z.ones 7) 1). rewrite <- Z.shiftl_land, Z.land_ones, Z.mod_small by lia.
    rewrite Z.shiftl_mul_pow2 by lia. lia. }
  assert (bus (Wr TWI_DTR (2 * saddr) :: h3) = Addressed saddr) as Hat.
  { rewrite bus_dtr, Hstarted. cbn. by rewrite Z.mul_comm, Z.mod_mul, Z.div_mul by done. }
  apply both_spec. eapply wp_mono; [apply send_byte_spec|]. intros ok4 s4 h4 (-> & [Hb4 Hu4] & Hack4 & Hp4).
  rewrite Hat in Hb4. assert (unchanged h h4) as Hu04.
  { eapply unchanged_trans; [exact Hu03|]. eapply unchanged_trans; [|exact Hu4].
    apply unchanged_byte. by rewrite Hstarted. }
  destruct ok4.
  2:{ split; [done|]. split; [done|]. split; [done|]. split; [|done]. intros Ha. apply Hp4; [by eapply in_time|].
    intros h' [Hb' _]. apply (an_address _ _ _ _ Ha). congruence. }
  assert (~ deaf e saddr) as Hhears.
  { intros Hd. destruct (Hack4 eq_refl) as (h' & [Hb' _] & Hr & _). apply (Hd h'); [congruence|done]. }
  eapply wp_mono; [apply send_byte_spec|]. intros ok5 s5 h5 (-> & [Hb5 Hu5] & _ & Hp5).
  split; [done|]. split.
  { eapply unchanged_trans; [exact Hu04|]. eapply unchanged_trans; [|exact Hu5].
    apply unchanged_byte. by rewrite Hb4. }
  split; [intros _; by rewrite Hb5, bus_dtr, Hb4|]. apply verdict_yes; [done|]. intros Ha.
  apply Hp5; [by eapply in_time|]. intros h' [Hb' _]. apply (an_register _ _ _ _ Ha h' baddr).
  by rewrite Hb', bus_dtr, Hb4.
Qed.

(** The value of one register after a byte was meant for it. *)
Definition written dev reg v h h' : Prop :=
  unchanged_but dev reg h h' /\ (kept dev reg -> regs h' dev reg = v \/ regs h' dev reg = regs h dev reg).

Lemma written_same dev reg v h h' : unchanged h h' -> written dev reg v h h'.
Proof. intros Hu. split; [intros d r Hk _; by apply Hu|]. right. by apply Hu. Qed.
Lemma written_after dev reg v h1 h2 h3 : unchanged h1 h2 -> written dev reg v h2 h3 -> written dev reg v h1 h3.
Proof.
  intros Hu [Hw Hv]. split.
  - intros d r Hk Hne. rewrite Hw, Hu; done.
  - intros Hk. rewrite <- (Hu dev reg Hk). by apply Hv.
Qed.
Lemma written_before dev reg v h1 h2 h3 : written dev reg v h1 h2 -> unchanged h2 h3 -> written dev reg v h1 h3.
Proof.
  intros [Hw Hv] Hu. split.
  - intros d r Hk Hne. by rewrite Hu, Hw.
  - intros Hk. rewrite (Hu dev reg Hk). by apply Hv.
Qed.

Lemma write_transfer_spec saddr baddr buf pos b s h :
  0 <= saddr < 128 -> bus h = Stopped -> is_u8 b -> buf !! pos = Some b ->
  wp (transfer fuel TWI_WRITE saddr baddr buf pos 1) e s h (fun '(buf', _, ok) s' h' => s' = s /\ buf' = buf /\
    written saddr baddr b h h' /\ (ok = true -> kept saddr baddr -> regs h' saddr baddr = b) /\
    (kept saddr baddr -> verdict saddr ok)) total.
Proof.
  intros Hdev Hstop Hb Hpos. unfold transfer. apply wp_bind.
  eapply wp_mono; [by apply address_register_spec|]. intros ok s1 h1 (-> & Hu1 & Hat & Hver). destruct ok; cbn [negb].
  2:{ apply wp_ret. split_and!; [done..|by apply written_same|done|done]. }
  cbn [write_loop]. rewrite Hpos. specialize (Hat eq_refl). apply wp_bind, wp_bind.
  eapply wp_mono; [apply send_byte_spec|]. intros ok s2 h2 (-> & [_ Hu2] & Hok & Hp).
  assert (written saddr baddr b h h2) as Hw.
  { eapply written_after; [exact Hu1|]. eapply written_before; [|exact Hu2]. split.
    - intros d r Hk Hne. apply (rb_quiet _ _ _ _ Hbus); [done|]. intros v _. rewrite Hat. naive_solver.
    - intros Hk. by apply (rb_byte _ _ _ _ Hbus). }
  assert (kept saddr baddr -> verdict saddr ok) as Hv.
  { intros Hk. apply verdict_yes; [intros Hd; apply Hver in Hd; done|]. intros Ha. apply Hp; [by eapply in_time_more|].
    intros h' [Hb' Hu']. apply (an_stored _ _ _ _ Ha h' baddr b Hk); [by rewrite Hb', bus_dtr, Hat|].
    rewrite Hu' by done. by apply (an_takes _ _ _ _ Ha). }
  destruct ok; cbn [write_loop]; fw_steps; (split_and!; [done|done|exact Hw| |exact Hv]); [|done]. intros _ Hk.
  destruct (Hok eq_refl) as (h0 & [Hb0 _] & Hack & [_ Hu0]). rewrite (Hu0 _ _ Hk).
  apply (rb_stored _ _ _ _ Hbus); [done| |done|done]. by rewrite Hb0, bus_dtr, Hat.
Qed.

Lemma restart_spec saddr baddr s h : 0 <= saddr < 128 -> bus h = AtReg saddr baddr ->
  wp (restart_read fuel saddr) e s h (fun ok s' h' => s' = s /\ unchanged h h' /\
    (ok = true -> bus h' = Reading saddr baddr) /\ (answers kept e regs saddr -> ok = true)) total.
Proof.
  intros Hdev Hat. unfold restart_read. apply wp_bind. eapply wp_mono; [apply twi_start_spec|].
  intros _ s1 h1 (-> & Hu1 & _ & Hb1). specialize (Hb1 _ _ Hat).
  apply wp_bind. eapply wp_mono; [apply clear_flag_spec|]. intros _ s2 h2 [-> [Hb2 Hu2]].
  assert (unchanged h h2) as Hu by by eapply unchanged_trans.
  apply both_spec, both_spec. eapply wp_mono; [apply flag_or_spec|]. intros ok3 s3 h3 (-> & [Hb3 Hu3] & Hp3). destruct ok3.
  2:{ split; [done|]. split; [by eapply unchanged_trans|]. split; [done|]. intros Ha. by eapply Hp3, in_time. }
  eapply wp_mono; [apply state_or_spec|]. intros ok4 s4 h4 (-> & [Hb4 Hu4] & Hok4).
  assert (bus h3 = Started (Some (saddr, baddr))) as Hst3 by congruence. destruct ok4.
  2:{ split; [done|]. split; [eapply unchanged_trans; [exact Hu|]; by eapply unchanged_trans|]. split; [done|].
    intros Ha. by eapply Hok4, an_restart. }
  assert (bus h4 = Started (Some (saddr, baddr))) as Hst by congruence.
  assert (bus (Wr TWI_DTR (Z.lor (Z.shiftl saddr 1) 1) :: h4) = Reading saddr baddr) as Hrd.
  { rewrite bus_dtr, Hst. cbn [on_byte].
    assert (Z.lor (Z.shiftl saddr 1) 1 = 1 + saddr * 2) as ->.
    { rewrite Z.lor_comm, (lor_shiftl 1 saddr 1) by lia. lia. }
    rewrite Z.mod_add, Z.div_add by done. change (1 mod 2 =? 0) with false. cbv iota.
    change (1 / 2) with 0. by rewrite Z.eqb_refl. }
  eapply wp_mono; [apply send_byte_spec|]. intros ok s5 h5 (-> & [Hb5 Hu5] & _ & Hp5). rewrite Hrd in Hb5. split; [done|]. split.
  { eapply unchanged_trans; [exact Hu|]. do 2 (eapply unchanged_trans; [eassumption|]).
    eapply unchanged_trans; [|exact Hu5]. apply unchanged_byte. by rewrite Hst. }
  split; [done|]. intros Ha. apply Hp5; [by eapply in_time|]. intros h' [Hb' _].
  apply (an_reading _ _ _ _ Ha h' baddr). congruence.
Qed.

Lemma disable_ack_spec s h : bus h <> Stopped -> is_started (bus h) = false ->
  wp twi_disable_ack e s h (fun _ s' h' => s' = s /\ calm h h') total.
Proof.
  intros Hs1 Hs2. unfold twi_disable_ack. fw_steps. split; [done|].
  destruct (ctr_bits _ _ Ev) as [H4 H5]. assert (is_stopped (bus h) = false) as Hs3 by by destruct (bus h).
  apply calm_ctr; [| |still]; intros _; apply land_bit, land_bit, land_bit; auto.
Qed.

Lemma read_transfer_spec saddr baddr buf pos b s h :
  0 <= saddr < 128 -> bus h = Stopped -> buf !! pos = Some b ->
  wp (transfer fuel TWI_READ saddr baddr buf pos 1) e s h (fun '(buf', _, ok) s' h' => s' = s /\
    unchanged h h' /\ length buf' = length buf /\ (Forall is_u8 buf -> Forall is_u8 buf') /\
    (ok = true -> kept saddr baddr -> buf' = <[pos := regs h saddr baddr]> buf) /\
    (kept saddr baddr -> verdict saddr ok)) total.
Proof.
  intros Hdev Hstop Hpos. unfold transfer. apply wp_bind.
  eapply wp_mono; [by apply address_register_spec|]. intros ok s1 h1 (-> & Hu1 & Hat & Hver). destruct ok; cbn [negb].
  2:{ apply wp_ret. by split_and!. }
  assert (~ deaf e saddr) as Hhears by (intros Hd; apply Hver in Hd; done).
  apply wp_bind. eapply wp_mono; [apply restart_spec; [done|by apply Hat]|].
  intros ok s2 h2 (-> & Hu2 & Hrd & Ha2). assert (unchanged h h2) as Hu by by eapply unchanged_trans.
  destruct ok; cbn [negb]; [|apply wp_ret; split_and!; [done..|]; intros _; by apply verdict_yes]. specialize (Hrd eq_refl).
  cbn [read_loop Nat.eqb Nat.ltb Nat.leb]. apply wp_bind.
  eapply wp_mono; [apply disable_ack_spec; by rewrite Hrd|]. intros _ s3 h3 [-> [Hb3 Hu3]].
  apply wp_bind. eapply wp_mono; [apply clear_flag_spec|]. intros _ s4 h4 [-> [Hb4 Hu4]].
  apply wp_bind. eapply wp_mono; [apply flag_or_spec|]. intros ok s5 h5 (-> & [Hb5 Hu5] & Hp5).
  assert (unchanged h h5) as Hu6 by (do 3 (eapply unchanged_trans; [|eassumption]); done).
  destruct ok; cbn [negb].
  2:{ apply wp_ret. split_and!; [done..|]. intros _. apply verdict_yes; [done|]. intros Ha. by eapply Hp5, in_time_more. }
  assert (bus h5 = Reading saddr baddr) as Hb6 by congruence.
  apply wp_bind, wp_readl. intros v Hv Ev. rewrite Hpos. set (h6 := Rd TWI_DTR v :: h5).
  assert (bus h6 = Fetched saddr baddr v) as Hf by (unfold h6; cbn; by rewrite Hb6).
  assert (unchanged h5 h6) as Hu56 by by apply unchanged_event.
  assert (unchanged h h6) as Hu7 by (eapply unchanged_trans; [exact Hu6|exact Hu56]).
  apply wp_bind. eapply wp_mono; [apply state_or_spec|]. intros ok s7 h7 (-> & [_ Hu8] & Hok).
  assert (unchanged h h7) as Hu9 by by eapply unchanged_trans.
  assert (kept saddr baddr -> verdict saddr ok) as Hvd.
  { intros Hk. apply verdict_yes; [done|]. intros Ha. apply Hok. apply (an_fetched _ _ _ _ Ha h6 baddr v Hk Hf).
    rewrite Hu56 by done. rewrite Ev. symmetry. by apply (an_gives _ _ _ _ Ha). }
  destruct ok; cbn [read_loop]; apply wp_ret; (split_and!; [done|done|by rewrite length_insert| | |exact Hvd]); try done;
    try (intros Hall; by apply Forall_insert; [|apply u8_range]).
  intros _ Hk. assert (v = regs h saddr baddr) as ->.
  { rewrite <- (Hu7 _ _ Hk). apply (rb_fetched _ _ _ _ Hbus); [done..|]. by apply Hok. }
  unfold u8. rewrite Z.mod_small; [done|]. apply (rb_u8 _ _ _ _ Hbus).
Qed.

(** ** [twi_byte_rw] *)

Lemma byte_rw_frame op saddr baddr buf pos s h (Q : Z * list Z -> S -> history C -> Prop) (R : list Z * nat * bool -> history C -> Prop) :
  twi_lock (part s) = 0 -> bus h = Stopped ->
  (forall h0, bus h0 = Stopped -> unchanged h h0 ->
    wp (transfer fuel op saddr baddr buf pos 1) e s h0 (fun x s' h' => s' = s /\ R x h') total) ->
  (forall buf' pos' ok h' h'', R (buf', pos', ok) h' -> unchanged h' h'' -> bus h'' = Stopped ->
    Q (if ok : bool then 0 else -1, buf') s h'') ->
  wp (twi_byte_rw fuel beyond op saddr baddr buf pos 1) e s h Q total.
Proof.
  intros Hlock Hstop Htr HQ. unfold twi_byte_rw, get_twi_lock. apply wp_bind, wp_bind, wp_getp, wp_ret.
  rewrite Hlock. cbn [negb Z.eqb Nat.ltb Nat.leb]. apply wp_bind.
  eapply (wp_mono _ _ _ _ _ (fun _ s' h' => s' = s /\ calm h h')).
  { unfold twi_enable_ack, modify_reg. fw_steps. split; [done|]. destruct (ctr_bits _ _ Ev) as [H4 H5].
    do 2 (apply calm_rd; [done|]). apply calm_ctr; [| |still]; rewrite bus_rd by done; rewrite Hstop in *;
      [done|]. intros Hf. rewrite set_clear_bit, H5 by done. done. }
  intros _ s1 h1 [-> Hc1]. apply wp_bind. unfold cpu_disable_int, c906_irq_save, get_MSTATUS, disable_irq, exec.
  fw_steps. match goal with |- wp _ _ _ ?h' _ _ => assert (calm h h') as Hc2 by (do 3 apply calm_call; done) end.
  destruct Hc2 as [Hb2 Hu2]. eapply wp_mono; [apply Htr; [congruence|exact Hu2]|].
  intros [[buf' pos'] ok] s3 h3 [-> HR]. apply wp_bind. eapply wp_mono; [apply twi_stop_spec|].
  intros _ s4 h4 (-> & Hu4 & Hb4). unfold cpu_enable_int, c906_irq_restore, set_MSTATUS, exec, INF. fw_steps.
  eapply HQ; [exact HR| |exact Hb4]. eapply unchanged_trans; [exact Hu4|].
  eapply unchanged_trans; by apply unchanged_event.
Qed.

(** The status a verdict gives. *)
Definition status_verdict dev (r : Z) : Prop := (answers kept e regs dev -> r = 0) /\ (deaf e dev -> r = -1).
Lemma verdict_status dev ok : verdict dev ok -> status_verdict dev (if ok then 0 else -1).
Proof. intros [Ha Hd]. split; intros H; [by rewrite Ha|by rewrite Hd]. Qed.

Lemma byte_write_spec saddr baddr buf pos b s h :
  twi_lock (part s) = 0 -> bus h = Stopped -> 0 <= saddr < 128 -> is_u8 b -> buf !! pos = Some b ->
  wp (twi_byte_rw fuel beyond TWI_WRITE saddr baddr buf pos 1) e s h (fun '(r, buf') s' h' => s' = s /\ buf' = buf /\
    bus h' = Stopped /\ written saddr baddr b h h' /\ (r = 0 \/ r = -1) /\
    (r = 0 -> kept saddr baddr -> regs h' saddr baddr = b) /\ (kept saddr baddr -> status_verdict saddr r)) total.
Proof.
  intros Hlock Hstop Hdev Hb Hpos.
  apply (byte_rw_frame _ _ _ _ _ _ _ _ (fun '(buf', _, ok) h' => buf' = buf /\ written saddr baddr b h h' /\
    (ok = true -> kept saddr baddr -> regs h' saddr baddr = b) /\ (kept saddr baddr -> verdict saddr ok))); [done..| |].
  - intros h0 Hb0 Hu0. eapply wp_mono; [by apply write_transfer_spec|].
    intros [[buf' pos'] ok] s' h' (-> & -> & Hw & Hok). split_and!; [done|done| |apply Hok..]. by eapply written_after.
  - intros buf' pos' ok h' h'' (-> & Hw & Hok & Hv) Hu Hst. split_and!; [done..|by eapply written_before| | |].
    + destruct ok; auto.
    + intros Hr Hk. rewrite (Hu _ _ Hk). apply Hok; [by destruct ok|done].
    + intros Hk. by apply verdict_status, Hv.
Qed.

Lemma byte_read_spec saddr baddr buf pos b s h :
  twi_lock (part s) = 0 -> bus h = Stopped -> 0 <= saddr < 128 -> buf !! pos = Some b ->
  wp (twi_byte_rw fuel beyond TWI_READ saddr baddr buf pos 1) e s h (fun '(r, buf') s' h' => s' = s /\
    length buf' = length buf /\ (Forall is_u8 buf -> Forall is_u8 buf') /\ bus h' = Stopped /\ unchanged h h' /\ (r = 0 \/ r = -1) /\
    (r = 0 -> kept saddr baddr -> buf' = <[pos := regs h saddr baddr]> buf) /\ (kept saddr baddr -> status_verdict saddr r)) total.
Proof.
  intros Hlock Hstop Hdev Hpos.
  apply (byte_rw_frame _ _ _ _ _ _ _ _ (fun '(buf', _, ok) h' => unchanged h h' /\ length buf' = length buf /\
    (Forall is_u8 buf -> Forall is_u8 buf') /\
    (ok = true -> kept saddr baddr -> buf' = <[pos := regs h saddr baddr]> buf) /\ (kept saddr baddr -> verdict saddr ok))); [done..| |].
  - intros h0 Hb0 Hu0. eapply wp_mono; [by eapply read_transfer_spec|].
    intros [[buf' pos'] ok] s' h' (-> & Hu & Hl & Hall & Hok & Hv). split_and!; [done|by eapply unchanged_trans|done|done| |exact Hv].
    intros Ht Hk. rewrite <- (Hu0 _ _ Hk). auto.
  - intros buf' pos' ok h' h'' (Hu1 & Hl & Hall & Hok & Hv) Hu2 Hst.
    split_and!; [done|done|done|done|by eapply unchanged_trans|destruct ok; auto| |].
    + intros Hr Hk. apply Hok; [by destruct ok|done].
    + intros Hk. by apply verdict_status, Hv.
Qed.

(** ** Lists of registers *)

(** What a register holds after a list of writes. *)
Definition after (l : list (Z * Z)) (reg old : Z) : Z :=
  fold_left (fun x '(a, b) => if a =? reg then b else x) l old.

Lemma status_lor a b : a = 0 \/ a = -1 -> b = 0 \/ b = -1 ->
  (Z.lor a b = 0 \/ Z.lor a b = -1) /\ (Z.lor a b = 0 -> a = 0 /\ b = 0).
Proof. by intros [->| ->] [->| ->]; cbn; auto. Qed.

(** What a run of transfers makes of the status [r] it starts with. *)
Definition loop_verdict dev (n : nat) (r r' : Z) : Prop :=
  (answers kept e regs dev -> r' = r) /\ (deaf e dev -> n <> O -> r' = -1).
Lemma verdict_loop dev n r r1 r' : r = 0 \/ r = -1 -> r' = 0 \/ r' = -1 -> (r' = 0 -> Z.lor r r1 = 0) ->
  status_verdict dev r1 -> loop_verdict dev n (Z.lor r r1) r' -> loop_verdict dev (Datatypes.S n) r r'.
Proof.
  intros Hr Hr' Hz [Ha Hd] [La _]. split.
  - intros H. rewrite La, Ha by done. apply Z.lor_0_r.
  - intros H _. destruct Hr' as [H0|]; [|done]. specialize (Hz H0). rewrite (Hd H), Z.lor_m1_r in Hz. done.
Qed.

(** The registers of a chip but those of a list. *)
Definition untouched dev (l : list Z) h h' : Prop :=
  forall d r, kept d r -> ~ (d = dev /\ r ∈ l) -> regs h' d r = regs h d r.

Lemma write_loop_spec dev addr data n i r s h :
  twi_lock (part s) = 0 -> bus h = Stopped -> 0 <= dev < 128 -> Forall is_u8 data ->
  (i + n <= length addr)%nat -> (i + n <= length data)%nat -> r = 0 \/ r = -1 ->
  wp (rw_loop fuel beyond TWI_WRITE n dev addr i data r) e s h (fun '(r', data') s' h' => s' = s /\ data' = data /\
    bus h' = Stopped /\ untouched dev (take n (drop i addr)) h h' /\ (r' = 0 \/ r' = -1) /\
    (r' = 0 -> r = 0 /\ forall reg, kept dev reg -> regs h' dev reg =
      after (zip (take n (drop i addr)) (take n (drop i data))) reg (regs h dev reg)) /\
    (Forall (kept dev) addr -> loop_verdict dev n r r')) total.
Proof.
  intros Hlock Hstop Hdev Hdata. revert i r h Hstop. induction n as [|n IH]; intros i r h Hstop Ha Hd Hr; cbn [rw_loop].
  { apply wp_ret. by split_and!. }
  destruct (lookup_lt_is_Some_2 addr i) as [a Hai]; [lia|]. destruct (lookup_lt_is_Some_2 data i) as [b Hbi]; [lia|].
  rewrite Hai. assert (u8 dev = dev) as -> by (apply Z.mod_small; lia). apply wp_bind.
  eapply wp_mono; [apply (byte_write_spec dev a data i b); try done; by eapply (Forall_lookup_1 is_u8)|].
  intros [r1 buf1] s1 h1 (-> & -> & Hst & [Hw Hv] & Hr1 & Hok & Hver).
  destruct (status_lor _ _ Hr Hr1) as [Hr2 Hz].
  eapply wp_mono; [apply IH; [done|lia..|done]|]. intros [r' data'] s2 h2 (-> & -> & Hst2 & Hun & Hr' & Hall & Hlv).
  rewrite (drop_S addr a i), (drop_S data b i) by done. cbn [take zip zip_with]. split_and!; try done.
  - intros d g Hk Hne. rewrite Hun, Hw; try done; intros [-> Hin]; apply Hne; (split; [done|]); [subst; left|by right].
  - intros H0. destruct (Hall H0) as [Hz' Hreg]. destruct (Hz Hz') as [-> ->]. split; [done|]. intros g Hk.
    rewrite Hreg by done. cbn [after fold_left]. destruct (Z.eqb_spec a g) as [->|Hne].
    + by rewrite Hok.
    + rewrite Hw; [done|done|]. naive_solver.
  - intros Hk. eapply verdict_loop; [done|done| |by eapply Hver, (Forall_lookup_1 _ _ _ _ Hk)|by apply Hlv].
    intros H0. by apply Hall.
Qed.

Lemma read_loop_spec dev addr n i r data s h :
  twi_lock (part s) = 0 -> bus h = Stopped -> 0 <= dev < 128 ->
  (i + n <= length addr)%nat -> (i + n <= length data)%nat -> r = 0 \/ r = -1 ->
  wp (rw_loop fuel beyond TWI_READ n dev addr i data r) e s h (fun '(r', data') s' h' => s' = s /\
    length data' = length data /\ bus h' = Stopped /\ unchanged h h' /\ (r' = 0 \/ r' = -1) /\
    (r' = 0 -> r = 0 /\ (Forall (kept dev) addr ->
      data' = take i data ++ map (regs h dev) (take n (drop i addr)) ++ drop (i + n) data)) /\
    (Forall (kept dev) addr -> loop_verdict dev n r r')) total.
Proof.
  intros Hlock Hstop Hdev. revert i r h data Hstop.
  induction n as [|n IH]; intros i r h data Hstop Ha Hd Hr; cbn [rw_loop].
  { apply wp_ret. split_and!; try done. intros Hr0. split; [done|]. intros _.
    rewrite Nat.add_0_r. symmetry. apply take_drop. }
  destruct (lookup_lt_is_Some_2 addr i) as [a Hai]; [lia|]. destruct (lookup_lt_is_Some_2 data i) as [b Hbi]; [lia|].
  rewrite Hai. assert (u8 dev = dev) as -> by (apply Z.mod_small; lia). apply wp_bind.
  eapply wp_mono; [by apply (byte_read_spec dev a data i b)|].
  intros [r1 buf1] s1 h1 (-> & Hl & _ & Hst & Hu & Hr1 & Hok & Hver). destruct (status_lor _ _ Hr Hr1) as [Hr2 Hz].
  eapply wp_mono; [apply IH; [done|lia..|done]|]. intros [r' data'] s2 h2 (-> & Hl2 & Hst2 & Hu2 & Hr' & Hall & Hlv).
  split_and!; try done; [lia|by eapply unchanged_trans| |].
  2:{ intros Hk. eapply verdict_loop; [done|done| |by eapply Hver, (Forall_lookup_1 _ _ _ _ Hk)|by apply Hlv].
      intros H0. by apply Hall. }
  intros H0. destruct (Hall H0) as [Hz' Hreg].
  destruct (Hz Hz') as [-> ->]. split; [done|]. intros Hk. rewrite Hreg by done.
  rewrite Hok; [|done|by eapply (Forall_lookup_1 _ _ _ _ Hk)]. rewrite (drop_S addr a i) by done. cbn [take map].
  rewrite (take_S_r _ _ (regs h dev a)) by (apply list_lookup_insert_eq; lia).
  rewrite take_insert_ge by lia. rewrite drop_insert_lt by lia. rewrite <- app_assoc. cbn [app].
  replace (Datatypes.S i + n)%nat with (i + Datatypes.S n)%nat by lia. do 3 f_equal.
  apply (Forall_drop _ (Datatypes.S i)), (Forall_take _ n) in Hk. rewrite Forall_forall in Hk.
  apply map_ext_in. intros g Hg. rewrite (Hu dev g); [done|]. by apply Hk, list_elem_of_In.
Qed.

Lemma after_unlisted l reg old : reg ∉ l.*1 -> after l reg old = old.
Proof.
  unfold after. revert old. induction l as [|[a b] l IH]; intros old Hno; [done|]. cbn in Hno |- *.
  apply not_elem_of_cons in Hno as [Ha Hno]. destruct (Z.eqb_spec a reg); [congruence|]. by apply IH.
Qed.
Lemma after_zip addr data (f : Z -> Z) : NoDup addr -> length addr = length data ->
  map (fun reg => after (zip addr data) reg (f reg)) addr = data.
Proof.
  intros Hnd. revert data. induction Hnd as [|a addr Hin Hnd IH]; intros [|b data] Hl; try done.
  cbn [map zip zip_with]. cbn in Hl. f_equal.
  - cbn [after fold_left]. rewrite Z.eqb_refl. apply after_unlisted. rewrite fst_zip by lia. done.
  - etransitivity; [|apply IH; lia]. apply map_ext_in. intros g Hg. cbn [after fold_left].
    destruct (Z.eqb_spec a g) as [->|]; [|done]. destruct Hin. by apply list_elem_of_In.
Qed.
End Driver.

(** ** The interrupt state is put back *)

Section Interrupts.
Context {C S : Type} `{HPrint : HasPrintf C} `{HInsn : !HasInsn C} `{HTwi : !Part twi S}.
Context (fuel : nat) (beyond : Z) (e : env C) (st : history C -> Z).
Hypothesis Hst : status_register e st.
Implicit Types (s : S) (h : history C).

(** The status register is what it was, however the run ends. *)
Definition keeps_status {A} (m : M C S A) : Prop :=
  forall s h, wp m e s h (fun _ _ h' => st h' = st h) (fun _ _ h' => True).

Lemma ks_ret {A} (a : A) : keeps_status (ret a).
Proof. intros s h. by apply wp_ret. Qed.
Lemma ks_stop {A} w : keeps_status (stop_now (A := A) w).
Proof. intros s h. by apply wp_stop. Qed.
Lemma ks_bind {A B} (m : M C S A) (f : A -> M C S B) :
  keeps_status m -> (forall a, keeps_status (f a)) -> keeps_status (bind m f).
Proof.
  intros Hm Hf s h. apply wp_bind. eapply wp_mono; [apply Hm|]. intros a s' h' <-. apply Hf.
Qed.
Lemma ks_readl a : keeps_status (readl a).
Proof. intros s h. apply wp_readl. intros v _ _. by apply (sr_quiet _ _ Hst). Qed.
Lemma ks_writel v a : keeps_status (writel v a).
Proof. intros s h. apply wp_writel. by apply (sr_quiet _ _ Hst). Qed.
Lemma ks_printf fmt args : keeps_status (printf fmt args).
Proof. intros s h. apply wp_printf. intros r. by apply (sr_printf _ _ Hst). Qed.
Lemma ks_getp {T} `{!Part T S} : keeps_status (getp (T := T)).
Proof. intros s h. by apply wp_getp. Qed.
Lemma ks_poll n reg busy : keeps_status (poll n reg busy).
Proof. induction n as [|n IH]; [apply ks_ret|]. apply ks_bind; [apply ks_readl|]. intros v. destruct (busy v); [done|apply ks_ret]. Qed.
Lemma ks_spin n reg busy : keeps_status (spin n reg busy).
Proof. induction n as [|n IH]; [apply ks_stop|]. apply ks_bind; [apply ks_readl|]. intros v. destruct (busy v); [done|apply ks_ret]. Qed.

Ltac ks := repeat lazymatch goal with
  | |- keeps_status (bind _ _) => apply ks_bind; [|intros ?]
  | |- keeps_status (ret _) => apply ks_ret
  | |- keeps_status (stop_now _) => apply ks_stop
  | |- keeps_status (readl _) => apply ks_readl
  | |- keeps_status (writel _ _) => apply ks_writel
  | |- keeps_status (printf _ _) => apply ks_printf
  | |- keeps_status getp => apply ks_getp
  | |- keeps_status (poll _ _ _) => apply ks_poll
  | |- keeps_status (spin _ _ _) => apply ks_spin
  | |- keeps_status (match ?x with _ => _ end) => destruct x
  | |- keeps_status (let _ := _ in _) => cbv zeta
  | |- keeps_status ?m =>
      let rec head t := lazymatch t with ?f _ => head f | ?f => f end in
      let f := head m in first [assumption | progress unfold f; cbv beta]
  end.

Lemma ks_write_loop len buf pos : keeps_status (write_loop fuel len buf pos).
Proof. revert pos. induction len as [|len IH]; intros pos; cbn [write_loop]; ks. apply IH. Qed.
Lemma ks_read_loop len buf pos : keeps_status (read_loop fuel len buf pos).
Proof. revert buf pos. induction len as [|len IH]; intros buf pos; cbn [read_loop]; ks; apply IH. Qed.
Lemma ks_transfer op saddr baddr buf pos len : keeps_status (transfer fuel op saddr baddr buf pos len).
Proof. unfold transfer. ks; first [apply ks_write_loop|apply ks_read_loop]. Qed.
Lemma ks_twi_stop : keeps_status (twi_stop fuel).
Proof. ks. Qed.

(** What is saved is what there was, and what is put back is what was saved. *)
Lemma disable_saves {A} (k : Z -> M C S A) s h Q K :
  (forall cpsr h', u32 cpsr = st h -> wp (k cpsr) e s h' Q K) -> wp (bind cpu_disable_int k) e s h Q K.
Proof.
  intros Hk. apply wp_bind. unfold cpu_disable_int, c906_irq_save, get_MSTATUS, disable_irq, exec. fw_steps. apply Hk.
  rewrite u32_s32, u32_id by apply u32_range.
  match goal with E : ?r = env_ret e h _ |- _ => rewrite E end. apply (sr_get _ _ Hst).
Qed.
Lemma enable_restores cpsr s h : wp (cpu_enable_int cpsr) e s h (fun _ _ h' => st h' = u32 cpsr) (fun _ _ _ => True).
Proof.
  unfold cpu_enable_int, c906_irq_restore, set_MSTATUS, exec. fw_steps. apply (sr_write _ _ Hst), u32_range.
Qed.

Lemma ks_twi_byte_rw op saddr baddr buf pos len : keeps_status (twi_byte_rw fuel beyond op saddr baddr buf pos len).
Proof.
  unfold twi_byte_rw. apply ks_bind; [ks|]. intros lock. destruct (negb _); [ks|]. destruct (_ <? _)%nat; [ks|].
  apply ks_bind; [ks|]. intros _ s h. apply disable_saves. intros cpsr h1 E. apply wp_bind.
  eapply wp_mono; [apply ks_transfer|]. intros [[buf' pos'] ok] s2 h2 _. cbv zeta. apply wp_bind.
  eapply wp_mono; [apply ks_twi_stop|]. intros _ s3 h3 _. apply wp_bind.
  eapply wp_mono; [apply enable_restores|]. intros ? s4 h4 E4. rewrite <- E, <- E4.
  clear E4. revert s4 h4. change (keeps_status (INF "%u,%u,%u,%u,%d\n"
    [N_ (op_code op); N_ saddr; N_ baddr; N_ (nth pos' buf' beyond); N_ (if ok then 0 else -1)];; ret (if ok then 0 else -1, buf'))). ks.
Qed.
Lemma ks_rw_loop op len dev addr i buf r : keeps_status (rw_loop fuel beyond op len dev addr i buf r).
Proof.
  revert i buf r. induction len as [|len IH]; intros i buf r; cbn [rw_loop]; [apply ks_ret|].
  destruct (addr !! i); [|apply ks_stop]. apply ks_bind; [apply ks_twi_byte_rw|]. intros [r' buf']. apply IH.
Qed.
End Interrupts.

(** C31: what is written to the registers of a power chip over the two-wire bus
    is what a later read gives back.  Whatever the controller and the chip
    answer, both calls return, touch no register but those named, leave the
    bus stopped and the machine status, interrupt enable included, as it was.  A write that reports
    success has stored every byte, and a read that reports success after it
    returns them all; where the chip acknowledges everything both report
    success, and where it does not acknowledge its address both fail. *)
Theorem transfers_roundtrip {C S} `{HPrint : HasPrintf C} `{HInsn : !HasInsn C} `{HTwi : !Part twi S}
  (fuel : nat) (beyond : Z) (kept : Z -> Z -> Prop) (e : env C) (regs : history C -> Z -> Z -> Z)
  (st : history C -> Z) dev addr data buf (s : S) h :
  register_bus fuel kept e regs -> status_register e st ->
  twi_lock (part s) = 0 -> bus h = Stopped -> 0 <= dev < 128 ->
  NoDup addr -> Forall (kept dev) addr -> Forall is_u8 data ->
  length addr = length data -> length buf = length data -> addr <> [] ->
  wp (let! w := twi_write fuel beyond dev addr data (length addr) in
      let! (r, out) := twi_read fuel beyond dev addr buf (length addr) in
      ret (w, r, out)) e s h (fun '(w, r, out) s' h' => s' = s /\ bus h' = Stopped /\ st h' = st h /\
    untouched kept regs dev addr h h' /\ (w = 0 \/ w = -1) /\ (r = 0 \/ r = -1) /\
    (answers kept e regs dev -> w = 0 /\ r = 0) /\ (deaf e dev -> w = -1 /\ r = -1) /\
    (w = 0 -> map (regs h' dev) addr = data) /\ (w = 0 -> r = 0 -> out = data)) total.
Proof.
  intros Hb Hsr Hlock Hstop Hdev Hnd Hk Hdata Hl Hlb Hne. unfold twi_write, twi_read. apply wp_bind, wp_bind.
  eapply wp_mono.
  { eapply wp_and; [eapply write_loop_spec; try done; [lia|by left]|by apply (ks_rw_loop _ _ _ st)]. }
  intros [w dw] s1 h1 [(-> & -> & Hst & Hun & Hw & Hok & Hver) Hs1]. apply wp_ret, wp_bind. rewrite ?drop_0 in *.
  rewrite !take_ge in Hun by lia. rewrite !take_ge in Hok by lia. eapply wp_mono.
  { eapply wp_and; [eapply read_loop_spec; try done; [lia|by left]|by apply (ks_rw_loop _ _ _ st)]. }
  intros [r out] s2 h2 [(-> & Hlo & Hst2 & Hu & Hr & Hout & Hver2) Hs2]. apply wp_ret.
  destruct (Hver Hk) as [Ya Na], (Hver2 Hk) as [Yb Nb].
  assert (length addr <> O) as Hn by by destruct addr.
  assert (w = 0 -> map (regs h1 dev) addr = data) as Hmap.
  { intros H0. destruct (Hok H0) as [_ Hreg]. rewrite <- (after_zip addr data (regs h dev) Hnd Hl).
    apply map_ext_in. intros g Hg. apply Hreg. rewrite Forall_forall in Hk. apply Hk. by apply list_elem_of_In. }
  split_and!; [done|done|congruence| |done|done|auto..| |].
  - intros d g Hkd Hno. by rewrite Hu, Hun.
  - intros H0. rewrite <- Hmap by done. apply map_ext_in. intros g Hg. apply Hu.
    rewrite Forall_forall in Hk. apply Hk. by apply list_elem_of_In.
  - intros H0 H1. destruct (Hout H1) as [_ ->]; [|done]. rewrite drop_0, take_0.
    rewrite take_ge, Hmap, drop_ge, app_nil_r by (done || lia). done.
Qed.

(** ** A bus that works

    Chips that acknowledge everything; the flag is down for two reads after
    every command. *)

Section Simulation.
Context {C : Type} (init : Z -> Z -> Z) (other : history C -> Z -> Z) (results : history C -> C -> Z).
Implicit Types (h : history C).

Fixpoint sim_regs h (dev reg : Z) : Z :=
  match h with
  | [] => u8 (init dev reg)
  | ev :: h =>
      match ev, bus h with
      | Wr a v, AtReg d r =>
          if (a =? TWI_DTR) && (d =? dev) && (r =? reg) then u8 v else sim_regs h dev reg
      | _, _ => sim_regs h dev reg
      end
  end.

Fixpoint reads_since h : nat :=
  match h with
  | Wr a _ :: h => if a =? TWI_CTR then O else reads_since h
  | Rd a _ :: h => if a =? TWI_CTR then Datatypes.S (reads_since h) else reads_since h
  | _ :: h => reads_since h
  | [] => O
  end.

Definition sim_status h : Z :=
  match bus h with
  | Stopped => 0xf8
  | Started None => 0x08
  | Started (Some _) => 0x10
  | Addressed _ => 0x18
  | AtReg _ _ => 0x28
  | Stored dev reg v => if sim_regs h dev reg =? v then 0x28 else 0x30
  | Reading _ _ => 0x40
  | Fetched dev reg v => if sim_regs h dev reg =? v then 0x58 else 0x00
  | Lost => 0x00
  end.
Definition sim_data h : Z := match bus h with Reading dev reg => sim_regs h dev reg | _ => 0 end.

Definition sim_env : env C := Env
  (fun h a =>
     if a =? TWI_STR then sim_status h
     else if a =? TWI_DTR then sim_data h
     else if a =? TWI_CTR then (if (reads_since h <=? 1)%nat then 0 else TWI_INTFLAG)
     else if a =? TWI_SRR then 0
     else if a =? TWI_LCR then 0x3a
     else other h a)
  results (fun _ _ => []).

Lemma sim_regs_u8 h dev reg : is_u8 (sim_regs h dev reg).
Proof.
  induction h as [|ev h IH]; cbn [sim_regs]; [apply u8_range|].
  destruct ev; try done. destruct (bus h); try done. destruct (_ && _); [apply u8_range|done].
Qed.

Lemma sim_status_read h : u32 (env_read sim_env h TWI_STR) = sim_status h.
Proof.
  change (env_read sim_env h TWI_STR) with (sim_status h). apply u32_id. unfold sim_status, is_u32.
  destruct (bus h) as [|[]| | | | | |]; try (destruct (_ =? _)); lia.
Qed.

Lemma sim_bus : register_bus 1 (fun _ _ => True) sim_env sim_regs.
Proof.
  assert (forall h, env_read sim_env h TWI_CTR = if (reads_since h <=? 1)%nat then 0 else TWI_INTFLAG) as Hctr by done.
  constructor.
  - intros h dev reg. apply sim_regs_u8.
  - intros ev h dev reg _ Hev. destruct ev; try done. cbn [sim_regs].
    destruct (bus h) as [| | |d r| | | |] eqn:Hb; try done. destruct (Z.eqb_spec a TWI_DTR) as [->|]; [|done].
    destruct (Z.eqb_spec d dev) as [->|]; [|done]. destruct (Z.eqb_spec r reg) as [->|]; [|done].
    by destruct (Hev v).
  - intros v h dev reg _ Hb Hv. left. cbn [sim_regs]. rewrite Hb, !Z.eqb_refl. cbn [andb].
    by apply Z.mod_small.
  - intros h dev reg v _ Hb Hv. rewrite sim_status_read. unfold sim_status. rewrite Hb.
    by destruct (Z.eqb_spec (sim_regs h dev reg) v).
  - intros h dev reg v _ Hb. rewrite sim_status_read. unfold sim_status. rewrite Hb.
    by destruct (Z.eqb_spec (sim_regs h dev reg) v).
  - intros h. rewrite sim_status_read. unfold sim_status.
    destruct (bus h) as [|[]| | | | | |]; try (destruct (_ =? _)); done.
  - intros h _. rewrite Hctr. by destruct (reads_since h <=? 1)%nat.
  - intros h _. rewrite Hctr. by destruct (reads_since h <=? 1)%nat.
  - intros h v w _. cbn [settles]. left. rewrite Hctr. done.
  - intros h c r. cbn [settles]. by left.
Qed.

Lemma sim_answers dev : answers (fun _ _ => True) sim_env sim_regs dev.
Proof.
  assert (forall h, env_read sim_env h TWI_CTR = if (reads_since h <=? 1)%nat then 0 else TWI_INTFLAG) as Hctr by done.
  constructor; unfold reports; intros h; rewrite ?sim_status_read; unfold sim_status.
  - apply (settles_le 3); [|by apply Nat.leb_le]. cbn [settles]. right. right. left. rewrite Hctr. done.
  - intros Hb. rewrite Hb, Hctr. split; [done|]. by destruct (reads_since h <=? 1)%nat.
  - by intros ->.
  - by intros ->.
  - by intros reg ->.
  - intros reg v _ Hb Hv. cbn [sim_regs]. rewrite Hb, !Z.eqb_refl. by apply Z.mod_small.
  - intros reg v _ -> Hv. by rewrite (proj2 (Z.eqb_eq _ _) Hv).
  - by intros reg ->.
  - by intros reg ->.
  - intros reg _ Hb. change (env_read sim_env h TWI_DTR) with (sim_data h). unfold sim_data. rewrite Hb.
    apply u32_id. pose proof (sim_regs_u8 h dev reg) as Hu. unfold is_u8, is_u32 in *. lia.
  - intros reg v _ -> Hv. by rewrite (proj2 (Z.eqb_eq _ _) Hv).
Qed.
End Simulation.

(** The core beside it. *)
Fixpoint sim_mstatus (h : history fw_call) : Z :=
  match h with
  | [] => 0x1888
  | Call (Finsn (csrw_mstatus v)) _ :: _ => u32 v
  | Call (Finsn (csrc_mstatus m)) _ :: h => Z.land (sim_mstatus h) (cnot32 m)
  | Call (Finsn (csrs_mstatus m)) _ :: h => u32 (Z.lor (sim_mstatus h) m)
  | _ :: h => sim_mstatus h
  end.
Definition sim_results (h : history fw_call) (c : fw_call) : Z :=
  match c with Finsn csrr_mstatus => sim_mstatus h | _ => 0 end.

Lemma sim_status_register init other : status_register (sim_env init other sim_results) sim_mstatus.
Proof.
  constructor; intros; try done.
  - change (u32 (sim_mstatus h) = sim_mstatus h). apply u32_id. induction h as [|[| | | | |[[]|] ?] h IH]; cbn [sim_mstatus]; try done; try apply u32_range.
    apply is_u32_land_l; [done|apply is_u32_nonneg, cnot32_range].
  - cbn [sim_mstatus]. by apply u32_id.
  - destruct ev as [| | | | |c r]; try done. by destruct (H c r).
Qed.

Lemma transfers_roundtrip_witness :
  wp (let! w := twi_write 1 0 0x36 [0x10; 0x20] [7; 9] 2 in
      let! (r, out) := twi_read 1 0 0x36 [0x10; 0x20] [0; 0] 2 in
      ret (w, r, out)) (sim_env (fun _ _ => 0) (fun _ _ => 0) sim_results) (TwiVars 0) []
    (fun '(w, r, out) s' h' => s' = TwiVars 0 /\ bus h' = Stopped /\ sim_mstatus h' = 0x1888 /\
      w = 0 /\ r = 0 /\ out = [7; 9] /\ map (sim_regs (fun _ _ => 0) h' 0x36) [0x10; 0x20] = [7; 9]) total.
Proof.
  eapply wp_mono.
  { apply (transfers_roundtrip 1 0 (fun _ _ => True) _ (sim_regs (fun _ _ => 0)) sim_mstatus 0x36 [0x10; 0x20] [7; 9] [0; 0]);
      try done; [apply sim_bus|apply sim_status_register|..].
    - repeat constructor; set_solver.
    - by repeat constructor.
    - by repeat constructor. }
  intros [[w r] out] s' h' (-> & Hb & Hm & _ & _ & _ & Ha & _ & Hw & Hr).
  destruct Ha as [-> ->]; [apply sim_answers|]. split; [done|]. split; [done|]. split; [exact Hm|]. auto.
Defined.

(** On that bus both calls succeed. *)
Example roundtrip_run :
  match (let! w := twi_write 1 0 0x36 [0x10; 0x20] [7; 9] 2 in
         let! (r, out) := twi_read 1 0 0x36 [0x10; 0x20] [0; 0] 2 in
         ret (w, r, out)) (sim_env (fun _ _ => 0) (fun _ _ => 0) sim_results) (TwiVars 0) [] with
  | Done (w, r, out) _ h => w = 0 /\ r = 0 /\ out = [7; 9] /\ sim_mstatus h = 0x1888
  | _ => False
  end.
Proof. vm_compute. done. Qed.
