(* ===== verification/Pmu.v ===== *)
(** * The power chips of the AR100
    (src/ar100s/driver/pmu/pmu-sun60iw2p1/{pmu,bmu}.c, pmu_axp8191.c, bmu_axp515.c)

    Built without [CFG_FDT_INIT_ARISC_PMU_USED]; the tables of operations are
    constant, so a call through them is a call of its entry.  A one-byte local
    of a transfer is a list of one element.  [garbage] is the value of a local
    that is read without being written. *)

From Stdlib Require Import String.
From S2P Require Import Prelude Machine Console Firmware Notifier Intc Cpucfg Prcm Uart Ticks Timer Power Msgbox Wakeup Twi.

Local Open Scope string_scope.
Local Open Scope list_scope.
Local Open Scope Z_scope.
Local Open Scope mach_scope.

(** ** Constants (pmu.h, error.h, platform_config.h) *)

Definition RSB_RTSADDR_AXP8191 : Z := 0x36.
Definition RSB_RTSADDR_AXP515 : Z := 0x34.
Definition SUNXI_CHARGING_FLAG_AXP8191 : Z := 0x08.
Definition SUNXI_REBOOT_FLAG_AXP8191 : Z := 0x01.
Definition AXP8191_BUFFER0 : Z := 0x04.
Definition AXP8191_DCDC_CTL1 : Z := 0x10.
Definition AXP8191_DCDC_CTL2 : Z := 0x11.
Definition AXP8191_LDO_POWER_ON_OFF_CTL1 : Z := 0x20.
Definition AXP8191_LDO_POWER_ON_OFF_CTL2 : Z := 0x21.
Definition AXP8191_LDO_POWER_ON_OFF_CTL3 : Z := 0x22.
Definition AXP8191_LDO_POWER_ON_OFF_CTL4 : Z := 0x23.
Definition AXP8191_POWER_DISABLE_POWER_DOWN_SEQUENCE : Z := 0x55.
Definition AXP8191_POWER_MAX : Z := 40.
Definition AXP515_STATUS0 : Z := 0x00.
Definition AXP515_IC_TYPE : Z := 0x03.
Definition AXP515_ILIMIT : Z := 0x10.
Definition AXP515_BATFET_DLY : Z := 0x16.
Definition AXP515_CC_GLOBAL_CTRL : Z := 0x31.
Definition AXP515_INTEN1 : Z := 0x40.
Definition AXP515_INTEN3 : Z := 0x42.
Definition AXP515_INTEN4 : Z := 0x43.
Definition AXP515_INTSTS1 : Z := 0x48.
Definition POWER_VOL_OFF : Z := 0x0.
Definition POWER_VOL_ON : Z := 0x1.
Definition POWER_MODE_AXP : Z := 0.
Definition NMI_INT_EN_REG : Z := R_PRCM_REG_BASE + 0x324.
Definition GIC_R_EXTERNAL_NMI_IRQ : Z := 220.
Definition REC_SHUTDOWN : Z := 0xa000.

(** Register and bit of each rail; no register means no switch. *)
Definition axp8191_onoff_reg_bitmap : list (Z * Z) :=
  [(AXP8191_DCDC_CTL1, 0); (AXP8191_DCDC_CTL1, 1); (AXP8191_DCDC_CTL1, 2); (AXP8191_DCDC_CTL1, 3);
   (AXP8191_DCDC_CTL1, 4); (AXP8191_DCDC_CTL1, 5); (AXP8191_DCDC_CTL1, 6); (AXP8191_DCDC_CTL1, 7);
   (AXP8191_DCDC_CTL2, 0); (AXP8191_DCDC_CTL2, 3); (AXP8191_DCDC_CTL2, 4);
   (AXP8191_LDO_POWER_ON_OFF_CTL1, 0); (AXP8191_LDO_POWER_ON_OFF_CTL1, 1);
   (AXP8191_LDO_POWER_ON_OFF_CTL1, 2); (AXP8191_LDO_POWER_ON_OFF_CTL1, 3);
   (AXP8191_LDO_POWER_ON_OFF_CTL1, 4); (AXP8191_LDO_POWER_ON_OFF_CTL1, 5);
   (AXP8191_LDO_POWER_ON_OFF_CTL1, 6); (AXP8191_LDO_POWER_ON_OFF_CTL1, 7);
   (AXP8191_LDO_POWER_ON_OFF_CTL2, 0); (AXP8191_LDO_POWER_ON_OFF_CTL2, 1);
   (AXP8191_LDO_POWER_ON_OFF_CTL2, 2); (AXP8191_LDO_POWER_ON_OFF_CTL2, 3);
   (AXP8191_LDO_POWER_ON_OFF_CTL2, 4); (AXP8191_LDO_POWER_ON_OFF_CTL2, 5);
   (AXP8191_LDO_POWER_ON_OFF_CTL2, 6); (AXP8191_LDO_POWER_ON_OFF_CTL2, 7);
   (AXP8191_LDO_POWER_ON_OFF_CTL3, 0); (AXP8191_LDO_POWER_ON_OFF_CTL3, 1);
   (AXP8191_LDO_POWER_ON_OFF_CTL3, 2); (AXP8191_LDO_POWER_ON_OFF_CTL3, 3);
   (AXP8191_LDO_POWER_ON_OFF_CTL3, 4); (AXP8191_LDO_POWER_ON_OFF_CTL3, 5);
   (AXP8191_LDO_POWER_ON_OFF_CTL3, 6); (AXP8191_LDO_POWER_ON_OFF_CTL3, 7);
   (AXP8191_LDO_POWER_ON_OFF_CTL4, 0); (AXP8191_LDO_POWER_ON_OFF_CTL4, 1);
   (AXP8191_LDO_POWER_ON_OFF_CTL4, 2); (AXP8191_LDO_POWER_ON_OFF_CTL4, 3);
   (0x00, 0); (0x00, 0)].

(** Statics of pmu.c and bmu.c. *)
Record pmu := PmuVars { pmu_exist : Z; bmu_exist : Z }.

(** [pmu_paras_t] *)
Record pmu_paras := PmuParas { p_devaddr : list Z; p_regaddr : list Z; p_data : list Z; p_len : nat }.

Section Pmu.
Context {C S : Type} `{HPrint : HasPrintf C} `{HInsn : !HasInsn C} `{HCcu : !Part ccu S}
  `{HTwi : !Part twi S} `{HPmu : !Part pmu S} `{HWakeup : !Part wakeup S}.
Local Abbreviation M := (M C S).
Context (fuel : nat) (time_udelay time_mdelay : Z -> M unit) (beyond garbage : Z).

Definition is_pmu_exist : M Z := let! p := getp in ret (pmu_exist p).
Definition is_bmu_exist : M Z := let! p := getp in ret (bmu_exist p).
Definition set_pmu_exist (v : Z) : M unit := let! p := getp in putp (PmuVars v (bmu_exist p)).
Definition set_bmu_exist (v : Z) : M unit := let! p := getp in putp (PmuVars (pmu_exist p) v).

(** ** Registers of the chips (pmu.c); [ASSERT] expands to nothing *)

(** [devaddr[0]] *)
Definition dev_of (devaddr : list Z) : M Z :=
  match devaddr with d :: _ => ret d | [] => stop_now Undefined end.
Definition pmu_reg_write (devaddr regaddr data : list Z) (len : nat) : M Z :=
  let! d := dev_of devaddr in twi_write fuel beyond d regaddr data len.
Definition pmu_reg_read (devaddr regaddr data : list Z) (len : nat) : M (Z * list Z) :=
  let! d := dev_of devaddr in twi_read fuel beyond d regaddr data len.
Definition pmu_reg_write_para (para : pmu_paras) : M Z :=
  pmu_reg_write (p_devaddr para) (p_regaddr para) (p_data para) (p_len para).
Definition pmu_reg_read_para (para : pmu_paras) : M (Z * list Z) :=
  pmu_reg_read (p_devaddr para) (p_regaddr para) (p_data para) (p_len para).

(** One register of a chip, as all callers in the repository use them. *)
Definition write_reg (dev reg v : Z) : M Z := pmu_reg_write [dev] [reg] [v] 1.
Definition read_reg (dev reg v : Z) : M (Z * Z) :=
  let! (r, data) := pmu_reg_read [dev] [reg] [v] 1 in ret (r, nth 0 data v).

(** ** The battery unit (bmu_axp515.c) *)

(** [for (regaddr = from; ...; regaddr++) pmu_reg_write(...)], [n] registers. *)
Fixpoint write_regs (n : nat) (regaddr data : Z) : M unit :=
  match n with
  | O => ret tt
  | Datatypes.S n =>
      let! _ := write_reg RSB_RTSADDR_AXP515 regaddr data in write_regs n (regaddr + 1) data
  end.

Definition bmu_axp515_clear_irq : M unit :=
  save_state_flag (Z.lor REC_SHUTDOWN 0x400);;
  write_regs 6 AXP515_INTEN1 0x00;;
  write_regs 6 AXP515_INTSTS1 0xFF;;
  let! _ := write_reg RSB_RTSADDR_AXP515 AXP515_INTEN3 0xc0 in
  let! _ := write_reg RSB_RTSADDR_AXP515 AXP515_INTEN4 0xf0 in
  LOG "clear axp515 irq\n" [].

Definition bmu_axp515_reset : M unit :=
  save_state_flag (Z.lor REC_SHUTDOWN 0x401);;
  bmu_axp515_clear_irq;;
  LOG "reset axp515\n" [].

Definition bmu_axp515_shutdown : M unit :=
  save_state_flag (Z.lor REC_SHUTDOWN 0x402);;
  bmu_axp515_clear_irq;;
  let! _ := write_reg RSB_RTSADDR_AXP515 AXP515_CC_GLOBAL_CTRL 0x2 in
  time_mdelay 100;;
  let data := 0x9 in
  let! _ := write_reg RSB_RTSADDR_AXP515 AXP515_CC_GLOBAL_CTRL data in
  let! (_, data) := read_reg RSB_RTSADDR_AXP515 AXP515_BATFET_DLY data in
  let data := Z.lor (Z.land data (cnot32 0x30)) 0x10 in
  let! _ := write_reg RSB_RTSADDR_AXP515 AXP515_BATFET_DLY data in
  let! (_, data) := read_reg RSB_RTSADDR_AXP515 AXP515_ILIMIT data in
  let data := Z.lor data 0x80 in
  let! _ := write_reg RSB_RTSADDR_AXP515 AXP515_ILIMIT data in
  LOG "close axp515 batfet\n" [].

(** [val] has no initial value, and the read's result is not looked at. *)
Definition bmu_axp515_charging_vbus_det : M Z :=
  save_state_flag (Z.lor REC_SHUTDOWN 0x501);;
  let! (_, val) := read_reg RSB_RTSADDR_AXP515 AXP515_STATUS0 garbage in
  ret (if Z.land val 0x02 =? 0x02 then OK else FAIL).

Definition bmu_axp515_is_exist : M Z :=
  let! (_, val) := read_reg RSB_RTSADDR_AXP515 AXP515_IC_TYPE 0 in
  let val := Z.land val 0xCF in
  if (val =? 0x46) || (val =? 0x49) then LOG "axp515 exist\n" [];; ret OK
  else ret FAIL.

(** ** bmu.c; the chip has no [bmu_charging_reset] *)

Definition bmu_shutdown : M unit :=
  let! x := is_bmu_exist in if x =? FALSE then ret tt else bmu_axp515_shutdown.
Definition bmu_reset : M unit :=
  let! x := is_bmu_exist in if x =? FALSE then ret tt else bmu_axp515_reset.
Definition bmu_charging_vbus_det : M Z :=
  let! x := is_bmu_exist in if x =? FALSE then ret (-1) else bmu_axp515_charging_vbus_det.
Definition bmu_charging_reset : M Z :=
  let! x := is_bmu_exist in if x =? FALSE then ret (-1) else ret (-1).

Definition bmu_init : M Z :=
  let! r := bmu_axp515_is_exist in
  (if r <? 0 then set_bmu_exist FALSE;; LOG "bmu is not exist\n" []
   else set_bmu_exist TRUE;; LOG "bmu is exist\n" []);;
  ret OK.

(** ** The power unit (pmu_axp8191.c) *)

Definition _axp8191_vbus_check : M Z :=
  let! x := is_bmu_exist in
  if x =? TRUE then
    let! r := bmu_charging_vbus_det in
    if r =? OK then
      LOG "%s:%d bmu_charging_vbus_det\n" [S_ "_axp8191_vbus_check"; N_ 83];;
      ret 1
    else ret 0
  else ret 0.

(** Does not return once the chip has taken the request. *)
Definition _axp8191_pmu_softset (val : Z) : M Z :=
  save_state_flag (Z.lor (Z.lor REC_SHUTDOWN 0x300) val);;
  let! (r, data) := read_reg RSB_RTSADDR_AXP8191 AXP8191_POWER_DISABLE_POWER_DOWN_SEQUENCE 0 in
  if negb (r =? OK) then
    ERR "axp8191 softset read failed: %d\n" [N_ r];; ret r
  else
    let data := u8 (Z.lor data (Z.shiftl 1 (7 - val))) in
    let! r := write_reg RSB_RTSADDR_AXP8191 AXP8191_POWER_DISABLE_POWER_DOWN_SEQUENCE data in
    if negb (r =? OK) then
      ERR "axp8191 softset write failed: %d\n" [N_ r];; ret r
    else
      (if negb (val =? 0) then LOG "reset system\n" [] else LOG "poweroff system\n" []);;
      stop_now Halted.

Definition axp8191_pmu_shutdown : M Z :=
  save_state_flag (Z.lor REC_SHUTDOWN 0x201);;
  bmu_shutdown;;
  _axp8191_pmu_softset 0.

Definition axp8191_pmu_reset : M Z :=
  save_state_flag (Z.lor REC_SHUTDOWN 0x202);;
  bmu_reset;;
  let! r := write_reg RSB_RTSADDR_AXP8191 AXP8191_BUFFER0 SUNXI_REBOOT_FLAG_AXP8191 in
  if negb (r =? OK) then
    ERR "axp8191 reboot flag write failed: %d\n" [N_ r];; ret r
  else _axp8191_pmu_softset 1.

Definition axp8191_pmu_charging_reset : M Z :=
  save_state_flag (Z.lor REC_SHUTDOWN 0x203);;
  let! val := _axp8191_vbus_check in
  if negb (val =? 0) then
    let! r := write_reg RSB_RTSADDR_AXP8191 AXP8191_BUFFER0 SUNXI_CHARGING_FLAG_AXP8191 in
    if negb (r =? OK) then
      ERR "axp8191 charging flag write failed: %d\n" [N_ r];; ret r
    else bmu_reset;; _axp8191_pmu_softset 1
  else ret OK.

Definition axp8191_pmu_set_voltage_state (type state : Z) : M Z :=
  if (AXP8191_POWER_MAX <=? type) || (POWER_VOL_ON <? state) then
    ERR "invalid axp8191 rail request: type=%d state=%d\n" [N_ type; N_ state];; ret (- EINVAL)
  else
    match axp8191_onoff_reg_bitmap !! Z.to_nat type with
    | None => stop_now Undefined
    | Some (regaddr, offset) =>
        if (regaddr =? 0) || (8 <=? offset) then
          ERR "unsupported axp8191 rail: type=%d\n" [N_ type];; ret (- EINVAL)
        else
          let! (r, data) := read_reg RSB_RTSADDR_AXP8191 regaddr 0 in
          if negb (r =? OK) then
            ERR "axp8191 rail %d read failed: %d\n" [N_ type; N_ r];; ret r
          else
            let data := Z.land data (cnot32 (Z.shiftl 1 offset)) in
            let data := u8 (Z.lor data (Z.shiftl state offset)) in
            let! r := write_reg RSB_RTSADDR_AXP8191 regaddr data in
            if negb (r =? OK) then
              ERR "axp8191 rail %d write failed: %d\n" [N_ type; N_ r];; ret r
            else
              (if state =? POWER_VOL_ON then time_mdelay 1 else ret tt);;
              ret OK
    end.

(** ** pmu.c *)

(** [if (is_pmu_exist() == FALSE) return failure;] in front of [k]. *)
Definition if_pmu (failure : Z) (k : M Z) : M Z :=
  let! x := is_pmu_exist in if x =? FALSE then ret failure else k.

(** [while (!!twi_get_status())]: two seconds, and pulses on the clock line
    until they free the bus. *)
Fixpoint idle_loop (n : nat) : M unit :=
  match n with
  | O => stop_now OutOfFuel
  | Datatypes.S n =>
      let! r := twi_get_status in
      if r =? 0 then ret tt
      else
        LOG "wait twi bus idle loop\n" [];;
        time_mdelay (1000 * 2);;
        let! r := twi_send_clk_9pulse time_udelay in
        if r =? 0 then ret tt else idle_loop n
  end.
(** The same without the pulses. *)
Fixpoint charging_loop (n : nat) : M unit :=
  match n with
  | O => stop_now OutOfFuel
  | Datatypes.S n =>
      let! r := twi_get_status in
      if r =? 0 then ret tt
      else
        time_mdelay (1000 * 2);;
        LOG "wait twi bus idle loop\n" [];;
        charging_loop n
  end.

Definition pmu_shutdown : M Z :=
  if_pmu (- ENODEV)
    (let! _ := twi_standby_init fuel in idle_loop fuel;; axp8191_pmu_shutdown).

Definition watchdog_reset : M unit := ret tt.

Definition pmu_reset : M Z :=
  let! x := is_pmu_exist in
  if x =? FALSE then watchdog_reset;; ret (- ENODEV)
  else let! _ := twi_standby_init fuel in idle_loop fuel;; axp8191_pmu_reset.

Definition pmu_charging_reset : M Z :=
  if_pmu (- ENODEV)
    (let! _ := twi_standby_init fuel in charging_loop fuel;; axp8191_pmu_charging_reset).

Definition pmu_set_voltage (type voltage : Z) : M Z := if_pmu (- ENODEV) (ret OK).
Definition pmu_get_voltage (type : Z) : M Z := if_pmu (- ENODEV) (ret OK).
Definition pmu_set_voltage_state (type state : Z) : M Z :=
  if_pmu (- ENODEV) (axp8191_pmu_set_voltage_state type state).
Definition pmu_get_voltage_state (type : Z) : M Z := if_pmu OK (ret OK).
Definition pmu_query_event : M Z := if_pmu OK (ret OK).
Definition pmu_clear_pendings : M Z := if_pmu OK (ret OK).
Definition pmu_chip_init : M unit := let! _ := is_pmu_exist in ret tt.

Definition nmi_int_handler (parg intno : Z) : M Z := ret TRUE.

Definition pmu_init : M Z :=
  let power_mode := 0 in
  if power_mode =? POWER_MODE_AXP then set_pmu_exist TRUE;; ret OK
  else set_pmu_exist FALSE;; LOG "pmu is not exist\n" [];; ret OK.
Definition pmu_exit : M Z := ret OK.

Definition nmi_int_enable : M Z := set_bits_of NMI_INT_EN_REG (Z.shiftl 1 1);; ret OK.
Definition nmi_int_disable : M Z := clear_bits_of NMI_INT_EN_REG (Z.shiftl 1 1);; ret OK.

Definition platform_nmi_handler (parg : Z) : M Z :=
  let! _ := nmi_int_disable in
  set_wakeup (with_source (GIC_R_EXTERNAL_NMI_IRQ - GIC_SRC_SPI));;
  ret OK.

Definition pmu_standby_init : M Z := let! _ := nmi_int_enable in ret OK.
Definition pmu_standby_exit : M Z := let! _ := nmi_int_disable in ret OK.
End Pmu.
