(* ===== verification/Rails.v ===== *)
(** * Rails that are switched off in standby
    (src/ar100s/service/standby/standby-sun60iw2p1/plat_standby.c, lines 326-445)

    A stack of the rails that have been switched off, and the masks of the
    device tree that say which ones are. *)

From Stdlib Require Import String.
From S2P Require Import Prelude Machine Console Firmware Notifier Intc Cpucfg Prcm Uart Ticks Timer Power Msgbox Wakeup Twi Pmu.

Local Open Scope string_scope.
Local Open Scope list_scope.
Local Open Scope Z_scope.
Local Open Scope mach_scope.

Definition AXP_POWER_MAX : nat := 32.

(** [dm_off_order] has [AXP_POWER_MAX] elements. *)
Record rails := Rails {
  dm_off_order : list Z;
  dm_off_count : nat;
  dm_off_mask : Z
}.
Definition rails_initial : rails := Rails (replicate AXP_POWER_MAX 0) 0 0.

(** The parameters of the device tree. *)
Record standby_paras := StandbyParas {
  standby_vdd_cpu : Z;
  standby_vdd_cpub : Z;
  standby_vdd_sys : Z;
  standby_vdd_usb : Z;
  standby_vcc_pll : Z;
  standby_vcc_io : Z;
  standby_vcc_efuse : Z;
  standby_osc24m_on : Z
}.
Definition paras_initial : standby_paras := StandbyParas 0 0 0 0 0 0 0 1.

Section Rails.
Context {C S : Type} `{HPrint : HasPrintf C} `{HRails : !Part rails S} `{HParas : !Part standby_paras S}.
Local Abbreviation M := (M C S).
(** [pmu_set_voltage_state] of the power unit. *)
Context (pmu_set_voltage_state : Z -> Z -> M Z).

Definition rail_vars : M rails := getp.
Definition set_rails (f : rails -> rails) : M unit := let! r := rail_vars in putp (f r).

(** Elements of [u8 order[AXP_POWER_MAX]]. *)
Definition load_order (i : nat) : M Z :=
  let! r := rail_vars in
  match dm_off_order r !! i with Some t => ret t | None => stop_now Undefined end.
Definition store_order (i : nat) (t : Z) : M unit :=
  let! _ := load_order i in
  set_rails (fun r => Rails (<[i := u8 t]> (dm_off_order r)) (dm_off_count r) (dm_off_mask r)).
Definition set_count (n : nat) : M unit :=
  set_rails (fun r => Rails (dm_off_order r) n (dm_off_mask r)).
Definition set_mask (f : Z -> Z) : M unit :=
  set_rails (fun r => Rails (dm_off_order r) (dm_off_count r) (f (dm_off_mask r))).
(** [1U << type] *)
Definition type_bit (type : Z) : M Z :=
  if (0 <=? type) && (type <? 32) then ret (shl32 1 type) else stop_now Undefined.

(** [while (dm_off_count)]; [failed] is the used part of [failed_order].  The
    count goes down each time round, and starts at most at the array's size. *)
Fixpoint restore_loop (fuel : nat) (failed : list Z) (first_error : Z) : M (list Z * Z) :=
  let! r := rail_vars in
  if (dm_off_count r =? 0)%nat then ret (failed, first_error)
  else
    match fuel with
    | O => stop_now OutOfFuel
    | Datatypes.S fuel =>
        set_count (dm_off_count r - 1);;
        let! type := load_order (dm_off_count r - 1) in
        let! r := pmu_set_voltage_state type POWER_VOL_ON in
        if negb (r =? OK) then
          ERR "restore rail %d failed: %d\n" [N_ type; N_ r];;
          if (length failed <? AXP_POWER_MAX)%nat then
            restore_loop fuel (failed ++ [type]) (if first_error =? OK then r else first_error)
          else stop_now Undefined
        else
          let! bit := type_bit type in
          set_mask (fun m => Z.land m (cnot32 bit));;
          restore_loop fuel failed first_error
    end.

(** [for (i = 0; i < failed_count; i++) dm_off_order[i] = ...] *)
Fixpoint copy_failed (l : list Z) (i : nat) : M unit :=
  match l with
  | [] => ret tt
  | t :: l => store_order i t;; copy_failed l (Datatypes.S i)
  end.

Definition dm_restore_off_rails : M Z :=
  let! (failed, first_error) := restore_loop AXP_POWER_MAX [] OK in
  copy_failed (rev failed) 0;;
  set_count (length failed);;
  ret first_error.

(** [n] types from [type] on. *)
Fixpoint power_off_loop (n : nat) (type mask : Z) : M Z :=
  match n with
  | O => ret OK
  | Datatypes.S n =>
      let! r := rail_vars in
      if (Z.land (Z.shiftr mask type) 0x1 =? 0) || negb (Z.land (Z.shiftr (dm_off_mask r) type) 0x1 =? 0) then
        power_off_loop n (type + 1) mask
      else
        let! status := pmu_set_voltage_state type POWER_VOL_OFF in
        if negb (status =? OK) then
          ERR "power off rail %d failed: %d\n" [N_ type; N_ status];;
          ret status
        else
          let! r := rail_vars in
          store_order (dm_off_count r) type;;
          set_count (dm_off_count r + 1);;
          let! bit := type_bit type in
          set_mask (fun m => Z.lor m bit);;
          power_off_loop n (type + 1) mask
  end.
Definition dm_power_off_mask (mask : Z) : M Z := power_off_loop AXP_POWER_MAX 0 mask.

Definition rollback (r : Z) : M Z :=
  let! back := dm_restore_off_rails in
  (if negb (back =? OK) then ERR "standby rail rollback incomplete\n" [] else ret tt);;
  ret r.

(** [ret = dm_power_off_mask(mask); if (ret != OK) goto rollback;] in turn. *)
Fixpoint power_off_masks (masks : list Z) : M Z :=
  match masks with
  | [] => ret OK
  | mask :: masks =>
      let! r := dm_power_off_mask mask in
      if negb (r =? OK) then rollback r else power_off_masks masks
  end.

Definition standby_masks (p : standby_paras) : list Z :=
  [standby_vcc_io p; standby_vcc_efuse p; standby_vdd_cpub p; standby_vdd_cpu p;
   standby_vdd_sys p; standby_vcc_pll p].

Definition dm_suspend : M Z :=
  let! r := rail_vars in
  let! blocked := (if negb (dm_off_count r =? 0)%nat then
                     let! r := dm_restore_off_rails in
                     if negb (r =? OK) then
                       ERR "unrestored rails block standby: %d\n" [N_ r];;
                       ret (Some r)
                     else ret None
                   else ret None) in
  match blocked with
  | Some r => ret r
  | None =>
      set_count 0;;
      set_mask (fun _ => 0);;
      let! p := getp in
      power_off_masks (standby_masks p)
  end.

Definition dm_resume : M Z := dm_restore_off_rails.
End Rails.
