(* ===== verification/RailsProps.v ===== *)
(** * No rail is lost between suspend and resume
    (src/ar100s/service/standby/standby-sun60iw2p1/plat_standby.c)

    The rails against an abstract stack: whatever the power unit answers, the
    calls it gets, in order, are those of a stack that is filled with the
    rails of the masks and emptied from the top, and a rail that could not be
    put back stays on it. *)

From Stdlib Require Import String.
From S2P Require Import Prelude Machine Console Firmware Notifier Intc Cpucfg Prcm Uart Ticks Timer Power Msgbox Wakeup.
From S2P Require Import Twi TwiProps Pmu PmuProps Rails.

Local Open Scope list_scope.
Local Open Scope Z_scope.
Local Open Scope mach_scope.

(** ** The abstract stack *)

(** The requests that failed, in their order. *)
Definition failures (l : list (Z * Z)) : list Z := (filter (fun x => snd x <> OK) l).*1.
(** The first error of a sequence that goes on. *)
Definition first_error (f : Z) (rs : list Z) : Z := fold_left (fun f r => if f =? OK then r else f) rs f.

(** The requests that empty a stack, and what stays on it. *)
Definition restore_log (order rs : list Z) : list (Z * Z * Z) :=
  map (fun '(t, r) => (t, POWER_VOL_ON, r)) (zip (reverse order) rs).
Definition unrestored (order rs : list Z) : list Z := reverse (failures (zip (reverse order) rs)).

Definition off_log (ts : list Z) : list (Z * Z * Z) := map (fun t => (t, POWER_VOL_OFF, OK)) ts.

(** The rails of a mask from [type] on that are not in [done], in order. *)
Fixpoint mask_types (n : nat) (type mask : Z) (done : list Z) : list Z :=
  match n with
  | O => []
  | Datatypes.S n =>
      if Z.testbit mask type && negb (bool_decide (type ∈ done))
      then type :: mask_types n (type + 1) mask done
      else mask_types n (type + 1) mask done
  end.
(** All rails of a list of masks, each once. *)
Fixpoint all_types (masks : list Z) (done : list Z) : list Z :=
  match masks with
  | [] => []
  | mask :: masks =>
      let ts := mask_types AXP_POWER_MAX 0 mask done in ts ++ all_types masks (done ++ ts)
  end.

(** Switching a list of rails off: all of them, or back on from the one that
    failed. *)
Inductive suspended (ts : list Z) : Z -> list Z -> list (Z * Z * Z) -> Prop :=
| all_off : suspended ts OK ts (off_log ts)
| rolled_back pre t post r rs : ts = pre ++ t :: post -> r <> OK -> length rs = length pre ->
    suspended ts r (unrestored pre rs) (off_log pre ++ (t, POWER_VOL_OFF, r) :: restore_log pre rs).

(** ** The concrete stack *)

Definition recorded (v : rails) : list Z := take (dm_off_count v) (dm_off_order v).
Definition is_type (t : Z) : Prop := 0 <= t < 32.
(** The mask holds the rails of a list. *)
Definition mask_of (l : list Z) (mask : Z) : Prop :=
  is_u32 mask /\ forall t, is_type t -> Z.testbit mask t = bool_decide (t ∈ l).
Record rails_ok (v : rails) : Prop := {
  ok_length : length (dm_off_order v) = AXP_POWER_MAX;
  ok_count : (dm_off_count v <= AXP_POWER_MAX)%nat;
  ok_nodup : NoDup (recorded v);
  ok_types : Forall is_type (recorded v);
  ok_mask : mask_of (recorded v) (dm_off_mask v)
}.

Lemma types_bounded l : NoDup l -> Forall is_type l -> (length l <= 32)%nat.
Proof.
  intros Hnd Hall. change 32%nat with (length (seqZ 0 32)). apply submseteq_length, NoDup_submseteq; [done|].
  intros t Ht. apply elem_of_seqZ. rewrite Forall_forall in Hall. specialize (Hall t Ht). unfold is_type in Hall. lia.
Qed.

Lemma bit_of t n : is_type t -> is_type n -> Z.testbit (shl32 1 t) n = bool_decide (n = t).
Proof.
  unfold is_type, shl32. intros Ht Hn. rewrite testbit_u32 by lia. rewrite (proj2 (Z.ltb_lt n 32)) by lia.
  change (Z.shiftl 1 t) with (BIT t). by rewrite testbit_BIT by lia.
Qed.

Lemma mask_of_remove l t m : mask_of (l ++ [t]) m -> t ∉ l -> is_type t -> mask_of l (Z.land m (cnot32 (shl32 1 t))).
Proof.
  intros [Hu Hm] Hin Ht. split.
  { apply is_u32_land_l; [done|]. apply is_u32_nonneg, cnot32_range. }
  intros n Hn. rewrite Z.land_spec, testbit_cnot32, bit_of, Hm by (unfold is_type in *; lia).
  rewrite (proj2 (Z.ltb_lt n 32)) by (unfold is_type in *; lia).
  destruct (decide (n = t)) as [->|Hne].
  - rewrite (bool_decide_true (t = t)), andb_false_r by done. by rewrite bool_decide_false.
  - rewrite (bool_decide_false (n = t)) by done. rewrite andb_true_r. apply bool_decide_ext. set_solver.
Qed.
Lemma mask_of_add l t m : mask_of l m -> is_type t -> mask_of (l ++ [t]) (Z.lor m (shl32 1 t)).
Proof.
  intros [Hu Hm] Ht. split.
  { apply is_u32_lor; [done|apply shl32_range]. }
  intros n Hn. rewrite Z.lor_spec, bit_of, Hm by done. rewrite <- bool_decide_or. apply bool_decide_ext. set_solver.
Qed.
Lemma mask_of_perm l l' m : l ≡ₚ l' -> mask_of l m -> mask_of l' m.
Proof. intros Hp [Hu Hm]. split; [done|]. intros t Ht. rewrite Hm by done. apply bool_decide_ext. by rewrite Hp. Qed.
Lemma mask_bit l m t : mask_of l m -> is_type t ->
  negb (Z.land (Z.shiftr m t) 0x1 =? 0) = bool_decide (t ∈ l).
Proof.
  intros [_ Hm] Ht. rewrite <- Hm by done. change 0x1 with (Z.ones 1). rewrite Z.land_ones by done.
  change (2 ^ 1) with 2. rewrite <- Z.bit0_mod, Z.shiftr_spec by lia. rewrite Z.add_0_l. by destruct (Z.testbit m t).
Qed.

Lemma failures_app l l' : failures (l ++ l') = failures l ++ failures l'.
Proof. unfold failures. by rewrite filter_app, fmap_app. Qed.
Lemma failures_ok l t : failures ((t, OK) :: l) = failures l.
Proof. done. Qed.
Lemma failures_fail l t r : r <> OK -> failures ((t, r) :: l) = t :: failures l.
Proof. intros Hr. unfold failures. by rewrite filter_cons_True. Qed.
Lemma failures_sub l : sublist (failures l) l.*1.
Proof.
  induction l as [|[t r] l IH]; [constructor|]. destruct (decide (r = OK)) as [->|Hr].
  - rewrite failures_ok. by constructor.
  - rewrite failures_fail by done. by constructor.
Qed.

Lemma sublist_reverse (l k : list Z) : sublist l k -> sublist (reverse l) (reverse k).
Proof.
  induction 1 as [|x l k _ IH|x l k _ IH]; [constructor|..]; rewrite !reverse_cons.
  - by apply sublist_app.
  - by apply sublist_inserts_r.
Qed.

Lemma sublist_types l k : sublist l k -> Forall is_type k -> Forall is_type l.
Proof. induction 1; rewrite ?Forall_cons; naive_solver. Qed.

(** ** Runs of requests *)

Section Rails.
Context {C S : Type} `{HPrint : HasPrintf C} `{HRails : !Part rails S} `{HParas : !Part standby_paras S}
  `{!Apart rails standby_paras S}.
Context (pmu_set_voltage_state : Z -> Z -> M C S Z) (e : env C) (ready : S -> Prop)
  (good : history C -> Prop) (request : Z -> Z -> Z -> history C -> history C -> Prop).
Implicit Types (s : S) (h : history C) (v : rails).

(** What the power unit promises: a request leaves the statics alone, and
    [request] relates the histories around it. *)
Record power_unit : Prop := {
  pu_request : forall type state s h, ready s -> good h -> is_type type ->
    state = POWER_VOL_OFF \/ state = POWER_VOL_ON ->
    wp (pmu_set_voltage_state type state) e s h (fun r s' h' => s' = s /\ good h' /\ request type state r h h') total;
  pu_call : forall c r h, good h -> good (Call c r :: h);
  pu_part : forall v s, ready s -> ready (set_part v s)
}.
Hypothesis Hpu : power_unit.

(** Requests in order, with messages between them. *)
Inductive requests : list (Z * Z * Z) -> history C -> history C -> Prop :=
| no_request h : requests [] h h
| a_message l h h' c r : requests l h h' -> requests l h (Call c r :: h')
| a_request l h h1 h2 type state r :
    requests l h h1 -> request type state r h1 h2 -> requests (l ++ [(type, state, r)]) h h2.

Lemma requests_app l1 l2 h h1 h2 : requests l1 h h1 -> requests l2 h1 h2 -> requests (l1 ++ l2) h h2.
Proof.
  intros H1 H2. revert H1. induction H2; intros H1.
  - by rewrite app_nil_r.
  - by apply a_message, IHrequests.
  - rewrite app_assoc. eapply a_request; eauto.
Qed.
Lemma request_one type state r h h' : request type state r h h' -> requests [(type, state, r)] h h'.
Proof. intros H. change [(type, state, r)] with ([] ++ [(type, state, r)]). eapply a_request; [constructor|done]. Qed.

(** ** Restoring *)

Lemma recorded_pop v n : dm_off_count v = Datatypes.S n -> length (dm_off_order v) = AXP_POWER_MAX ->
  (dm_off_count v <= AXP_POWER_MAX)%nat ->
  exists t, dm_off_order v !! n = Some t /\ recorded v = take n (dm_off_order v) ++ [t].
Proof.
  intros Hc Hl Hle. destruct (lookup_lt_is_Some_2 (dm_off_order v) n) as [t Ht]; [lia|]. exists t.
  split; [done|]. unfold recorded. rewrite Hc. by apply take_S_r.
Qed.

(** Accesses of the statics, the state written [set_part v s]. *)
Lemma wp_vars v s h (Q : rails -> S -> history C -> Prop) K :
  Q v (set_part v s) h -> wp rail_vars e (set_part v s) h Q K.
Proof. intros HQ. apply wp_getp. by rewrite part_set. Qed.
Lemma wp_update f v s h (Q : unit -> S -> history C -> Prop) K :
  Q tt (set_part (f v) s) h -> wp (set_rails f) e (set_part v s) h Q K.
Proof. intros HQ. apply wp_bind, wp_vars, wp_putp. by rewrite set_set. Qed.
Lemma wp_load_order i t v s h (Q : Z -> S -> history C -> Prop) K :
  dm_off_order v !! i = Some t -> Q t (set_part v s) h -> wp (load_order i) e (set_part v s) h Q K.
Proof. intros Ht HQ. apply wp_bind, wp_vars. rewrite Ht. by apply wp_ret. Qed.
Lemma wp_store_order i t v s h (Q : unit -> S -> history C -> Prop) K :
  (i < length (dm_off_order v))%nat -> is_type t ->
  Q tt (set_part (Rails (<[i := t]> (dm_off_order v)) (dm_off_count v) (dm_off_mask v)) s) h ->
  wp (store_order i t) e (set_part v s) h Q K.
Proof.
  intros Hi Ht HQ. destruct (lookup_lt_is_Some_2 _ _ Hi) as [x Hx]. apply wp_bind. eapply wp_load_order; [done|].
  apply wp_update. assert (u8 t = t) as -> by (apply Z.mod_small; unfold is_type in Ht; lia). done.
Qed.
Lemma wp_type_bit t s h (Q : Z -> S -> history C -> Prop) K :
  is_type t -> Q (shl32 1 t) s h -> wp (type_bit t) e s h Q K.
Proof.
  intros Ht HQ. unfold type_bit, is_type in *.
  rewrite (proj2 (Z.leb_le 0 t)), (proj2 (Z.ltb_lt t 32)) by lia. by apply wp_ret.
Qed.
Lemma wp_request type state v s h (Q : Z -> S -> history C -> Prop) :
  ready s -> good h -> is_type type -> state = POWER_VOL_OFF \/ state = POWER_VOL_ON ->
  (forall r h', good h' -> request type state r h h' -> Q r (set_part v s) h') ->
  wp (pmu_set_voltage_state type state) e (set_part v s) h Q total.
Proof.
  intros Hs Hg Ht Hst HQ. eapply wp_mono; [apply (pu_request Hpu); try done; by apply (pu_part Hpu)|].
  intros r s' h' (-> & Hg' & Hr). auto.
Qed.

Lemma count_of v : length (dm_off_order v) = AXP_POWER_MAX -> (dm_off_count v <= AXP_POWER_MAX)%nat ->
  length (recorded v) = dm_off_count v.
Proof. intros Hl Hc. unfold recorded. rewrite length_take. lia. Qed.

Lemma restore_loop_spec fuel order failed first v s h :
  ready s -> good h -> length (dm_off_order v) = AXP_POWER_MAX -> (dm_off_count v <= AXP_POWER_MAX)%nat ->
  recorded v = order -> (length order <= fuel)%nat -> (length failed + length order <= AXP_POWER_MAX)%nat ->
  NoDup (order ++ failed) -> Forall is_type order -> mask_of (order ++ failed) (dm_off_mask v) ->
  wp (restore_loop pmu_set_voltage_state fuel failed first) e (set_part v s) h (fun '(failed', first') s' h' =>
    good h' /\ exists m' rs, s' = set_part (Rails (dm_off_order v) 0 m') s /\ length rs = length order /\
      requests (restore_log order rs) h h' /\ failed' = failed ++ failures (zip (reverse order) rs) /\
      first' = first_error first rs /\ mask_of failed' m') total.
Proof.
  intros Hs. revert order failed first v h. induction fuel as [|fuel IH];
    intros order failed first v h Hg Hl Hc Hrec Hf Hlen Hnd Hty Hm; cbn [restore_loop];
    apply wp_bind, wp_vars; assert (Hcount := count_of v Hl Hc); rewrite Hrec in Hcount.
  - assert (order = []) as -> by (apply nil_length_inv; lia). rewrite <- Hcount. cbn [length Nat.eqb].
    apply wp_ret. split; [done|]. exists (dm_off_mask v), []. cbn. rewrite app_nil_r. split_and!; try done; [|constructor].
    destruct v; cbn in *. by subst.
  - destruct (dm_off_count v) as [|n] eqn:Hn.
    { assert (order = []) as -> by by apply nil_length_inv. cbn [Nat.eqb].
      apply wp_ret. split; [done|]. exists (dm_off_mask v), []. cbn. rewrite app_nil_r. split_and!; try done; [|constructor].
      destruct v; cbn in *. by subst. }
    destruct (recorded_pop v n Hn Hl ltac:(lia)) as (t & Ht & Hpop). rewrite Hrec in Hpop.
    set (order' := take n (dm_off_order v)) in *. clear Hrec. subst order. cbn [Nat.eqb]. rewrite Nat.sub_1_r. cbn [Nat.pred].
    apply Forall_app in Hty as [Hty Ht']. rewrite Forall_singleton in Ht'.
    rewrite length_app in Hcount, Hlen, Hf. cbn [length] in *.
    apply wp_bind, wp_update, wp_bind. eapply wp_load_order; [exact Ht|]. apply wp_bind.
    apply wp_request; [done|done|done|by right|]. intros r h1 Hg1 Hreq.
    assert (forall x, (order' ++ [t]) ++ x ≡ₚ order' ++ x ++ [t]) as Hperm.
    { intros x. rewrite <- app_assoc. f_equiv. apply Permutation_app_comm. }
    set (v1 := Rails (dm_off_order v) n (dm_off_mask v)).
    assert (recorded v1 = order') as Hrec1 by done.
    assert (forall rs, restore_log (order' ++ [t]) (r :: rs) = (t, POWER_VOL_ON, r) :: restore_log order' rs) as Hlog.
    { intros rs. unfold restore_log. by rewrite reverse_snoc. }
    destruct (Z.eqb_spec r OK) as [->|Hr]; cbn [negb].
    + apply wp_bind, wp_type_bit; [done|]. apply wp_bind, wp_update.
      assert (t ∉ order' ++ failed) as Hnt.
      { rewrite (Hperm failed), app_assoc in Hnd. apply NoDup_app in Hnd as (_ & Hnd & _).
        intros Hin. apply (Hnd t Hin). by left. }
      eapply wp_mono; [apply (IH order' failed first); try done; cbn; try lia|].
      * rewrite (Hperm failed), app_assoc in Hnd. by apply NoDup_app in Hnd as (? & _).
      * apply mask_of_remove; [|done|done]. rewrite <- app_assoc. eapply mask_of_perm; [apply Hperm|exact Hm].
      * intros [failed' first'] s' h' (Hg' & m' & rs & -> & Hrs & Hreqs & -> & -> & Hm'). split; [done|].
        exists m', (OK :: rs). rewrite Hlog, reverse_snoc. cbn [zip zip_with length]. rewrite failures_ok, length_app.
        split_and!; try done; [cbn; lia| |unfold first_error; cbn; by destruct (first =? OK) eqn:E; [apply Z.eqb_eq in E as ->|]].
        change (?x :: ?y) with ([x] ++ y). eapply requests_app; [by apply request_one|done].
    + unfold ERR. fw_steps. rewrite (proj2 (Nat.ltb_lt _ _)) by lia.
      eapply wp_mono; [apply (IH order' (failed ++ [t])); try done; cbn; rewrite ?length_app; cbn; try lia|].
      * by apply (pu_call Hpu).
      * by rewrite <- (Hperm failed).
      * eapply mask_of_perm; [|exact Hm]. by rewrite Hperm.
      * intros [failed' first'] s' h' (Hg' & m' & rs & -> & Hrs & Hreqs & -> & -> & Hm'). split; [done|].
        exists m', (r :: rs). rewrite Hlog, reverse_snoc. cbn [zip zip_with length].
        rewrite failures_fail, length_app, <- app_assoc in * by done. cbn [app] in *.
        split_and!; try done; [cbn; lia|].
        change (?x :: ?y) with ([x] ++ y). eapply requests_app; [|exact Hreqs]. by apply a_message, request_one.
Qed.

Lemma copy_failed_spec l i v s h (Q : unit -> S -> history C -> Prop) :
  (i + length l <= length (dm_off_order v))%nat -> Forall is_type l ->
  Q tt (set_part (Rails (take i (dm_off_order v) ++ l ++ drop (i + length l) (dm_off_order v))
          (dm_off_count v) (dm_off_mask v)) s) h ->
  wp (copy_failed l i) e (set_part v s) h Q total.
Proof.
  revert i v. induction l as [|t l IH]; intros i v Hl Hty HQ; cbn [copy_failed].
  - apply wp_ret. cbn in HQ. rewrite Nat.add_0_r, take_drop in HQ. by destruct v.
  - apply Forall_cons in Hty as [Ht Hty]. cbn [length] in Hl. apply wp_bind, wp_store_order; [lia|done|].
    apply IH; cbn; [by rewrite length_insert; lia|done|]. cbn in HQ |- *.
    rewrite (take_S_r _ _ t) by (apply list_lookup_insert_eq; lia).
    rewrite take_insert_ge, drop_insert_lt, <- app_assoc by lia. cbn [app].
    by replace (Datatypes.S (i + length l)) with (i + Datatypes.S (length l))%nat by lia.
Qed.

Lemma unrestored_sub order rs : length rs = length order -> sublist (unrestored order rs) order.
Proof.
  intros Hl. unfold unrestored. rewrite <- (reverse_involutive order) at 2. apply sublist_reverse.
  etransitivity; [apply failures_sub|]. rewrite fst_zip; [done|]. rewrite length_reverse. lia.
Qed.

Lemma restore_spec v s h : ready s -> good h -> rails_ok v ->
  wp (dm_restore_off_rails pmu_set_voltage_state) e (set_part v s) h (fun r s' h' => good h' /\ exists v' rs,
    s' = set_part v' s /\ rails_ok v' /\ length rs = length (recorded v) /\
    requests (restore_log (recorded v) rs) h h' /\ recorded v' = unrestored (recorded v) rs /\
    r = first_error OK rs) total.
Proof.
  intros Hs Hg [Hl Hc Hnd Hty Hm]. assert (Hcount := count_of v Hl Hc). unfold dm_restore_off_rails. apply wp_bind.
  eapply wp_mono; [apply (restore_loop_spec AXP_POWER_MAX (recorded v) [] OK v s h); rewrite ?app_nil_r; try done; cbn; lia|].
  intros [failed first] s1 h1 (Hg1 & m' & rs & -> & Hrs & Hreq & Hfail & -> & Hm'). cbn [app] in Hfail.
  assert (rev failed = unrestored (recorded v) rs) as Hun by (rewrite Hfail, rev_alt; done).
  assert (sublist (unrestored (recorded v) rs) (recorded v)) as Hsub by by apply unrestored_sub.
  assert (length failed = length (unrestored (recorded v) rs)) as Hlen by by rewrite <- Hun, length_rev.
  assert (length (unrestored (recorded v) rs) <= AXP_POWER_MAX)%nat as Hle.
  { apply sublist_length in Hsub. lia. }
  apply wp_bind. rewrite Hun. apply copy_failed_spec; cbn [dm_off_order dm_off_count dm_off_mask]; [lia| |].
  { by eapply sublist_types. }
  apply wp_bind, wp_update, wp_ret. cbn [dm_off_order dm_off_count dm_off_mask]. split; [done|].
  rewrite take_0. cbn [app]. set (v' := Rails _ _ _). assert (recorded v' = unrestored (recorded v) rs) as Hrec.
  { unfold recorded, v'. cbn. by rewrite Hlen, take_app_length. }
  exists v', rs. split_and!; try done. constructor; rewrite ?Hrec; cbn.
  - rewrite length_app, length_drop. lia.
  - lia.
  - by eapply sublist_NoDup.
  - by eapply sublist_types.
  - eapply mask_of_perm; [|exact Hm']. rewrite <- Hun. apply Permutation_rev.
Qed.

(** ** Switching off *)

Lemma mask_types_range n type mask done t : t ∈ mask_types n type mask done -> type <= t < type + Z.of_nat n.
Proof.
  revert type. induction n as [|n IH]; intros type; cbn [mask_types]; [by intros ?%elem_of_nil|].
  destruct (_ && _); [rewrite elem_of_cons; intros [->|Hin]; [lia|]|intros Hin]; apply IH in Hin; lia.
Qed.
Lemma mask_types_done n type mask done more : Forall (fun t => t < type) more ->
  mask_types n type mask (done ++ more) = mask_types n type mask done.
Proof.
  revert type. induction n as [|n IH]; intros type Hm; cbn [mask_types]; [done|].
  rewrite IH by (eapply Forall_impl; [exact Hm|]; cbn; lia).
  assert (bool_decide (type ∈ done ++ more) = bool_decide (type ∈ done)) as ->; [|done].
  apply bool_decide_ext. rewrite elem_of_app. split; [|by left]. intros [?|Hin]; [done|].
  rewrite Forall_forall in Hm. specialize (Hm _ Hin). cbn in Hm. lia.
Qed.

Lemma rails_push v t : rails_ok v -> is_type t -> t ∉ recorded v ->
  (dm_off_count v < AXP_POWER_MAX)%nat /\
  let v' := Rails (<[dm_off_count v := t]> (dm_off_order v)) (dm_off_count v + 1) (Z.lor (dm_off_mask v) (shl32 1 t)) in
  rails_ok v' /\ recorded v' = recorded v ++ [t].
Proof.
  intros [Hl Hc Hnd Hty Hm] Ht Hin. assert (Hcount := count_of v Hl Hc).
  assert (NoDup (recorded v ++ [t])) as Hnd'.
  { apply NoDup_app. split; [done|]. split; [|apply NoDup_singleton]. set_solver. }
  assert (Forall is_type (recorded v ++ [t])) as Hty' by (apply Forall_app; split; [done|by constructor]).
  assert (Hlt := types_bounded _ Hnd' Hty'). rewrite length_app in Hlt. cbn in Hlt.
  assert (dm_off_count v < AXP_POWER_MAX)%nat as Hlt' by (unfold AXP_POWER_MAX; lia). split; [done|]. cbv zeta.
  set (v' := Rails _ _ _). assert (recorded v' = recorded v ++ [t]) as Hrec.
  { unfold recorded, v'. cbn. rewrite Nat.add_1_r, (take_S_r _ _ t) by (apply list_lookup_insert_eq; lia).
    by rewrite take_insert_ge. }
  split; [|done]. constructor; rewrite ?Hrec; cbn; try done.
  - by rewrite length_insert.
  - lia.
  - by apply mask_of_add.
Qed.

Lemma power_off_loop_spec n type mask v s h : ready s -> good h -> rails_ok v ->
  0 <= type -> type + Z.of_nat n = 32 ->
  let ts := mask_types n type mask (recorded v) in
  wp (power_off_loop pmu_set_voltage_state n type mask) e (set_part v s) h (fun r s' h' => good h' /\ exists v',
    s' = set_part v' s /\ rails_ok v' /\
    (r = OK /\ recorded v' = recorded v ++ ts /\ requests (off_log ts) h h' \/
     r <> OK /\ exists pre t post, ts = pre ++ t :: post /\ recorded v' = recorded v ++ pre /\
       requests (off_log pre ++ [(t, POWER_VOL_OFF, r)]) h h')) total.
Proof.
  intros Hs. revert type v h. induction n as [|n IH]; intros type v h Hg Hok Ht Hn; cbn [power_off_loop mask_types].
  { apply wp_ret. split; [done|]. exists v. split_and!; try done. left. rewrite app_nil_r. split_and!; [done..|constructor]. }
  assert (is_type type) as Hty by (unfold is_type; lia).
  assert (Z.land (Z.shiftr mask type) 0x1 =? 0 = negb (Z.testbit mask type)) as Hbit.
  { change 0x1 with (Z.ones 1). rewrite Z.land_ones by done. change (2 ^ 1) with 2.
    rewrite <- Z.bit0_mod, Z.shiftr_spec, Z.add_0_l by lia. by destruct (Z.testbit mask type). }
  apply wp_bind, wp_vars. rewrite (mask_bit _ _ _ (ok_mask _ Hok) Hty), Hbit.
  destruct (Z.testbit mask type) eqn:Hb; cbn [negb orb andb]; [|apply IH; done || lia].
  destruct (bool_decide (type ∈ recorded v)) eqn:Hin; cbn [negb]; [apply IH; done || lia|].
  apply bool_decide_eq_false in Hin. apply wp_bind, wp_request; [done|done|done|by left|]. intros r h1 Hg1 Hreq.
  destruct (Z.eqb_spec r OK) as [->|Hr]; cbn [negb].
  2:{ unfold ERR. fw_steps. split; [by apply (pu_call Hpu)|]. exists v. split_and!; try done. right. split; [done|].
      exists [], type, (mask_types n (type + 1) mask (recorded v)). rewrite app_nil_r. split_and!; try done.
      by apply a_message, request_one. }
  destruct (rails_push v type Hok Hty Hin) as [Hlt [Hok' Hrec]]. cbv zeta in Hok', Hrec.
  apply wp_bind, wp_vars, wp_bind, wp_store_order; [rewrite (ok_length v Hok); lia|done|].
  apply wp_bind, wp_update, wp_bind, wp_type_bit; [done|]. apply wp_bind, wp_update. cbn [dm_off_order dm_off_count dm_off_mask].
  eapply wp_mono; [apply IH; [done|exact Hok'|lia|lia]|]. cbv zeta. rewrite Hrec.
  rewrite (mask_types_done n (type + 1) mask (recorded v) [type]) by (constructor; [lia|done]).
  intros r s' h' (Hg' & v' & -> & Hok2 & Hcase). split; [done|]. exists v'. split_and!; try done.
  assert (forall l, requests l h1 h' -> requests ((type, POWER_VOL_OFF, OK) :: l) h h') as Hcons.
  { intros l Hrl. change (?x :: ?y) with ([x] ++ y). eapply requests_app; [by apply request_one|done]. }
  destruct Hcase as [(-> & Hr' & Hreqs)|(Hr & pre & t & post & -> & Hr' & Hreqs)].
  - left. split; [done|]. rewrite Hr', <- app_assoc. split; [done|]. by apply Hcons.
  - right. split; [done|]. exists (type :: pre), t, post. rewrite Hr', <- app_assoc. split_and!; [done..|].
    by apply Hcons.
Qed.

Lemma off_log_app l l' : off_log (l ++ l') = off_log l ++ off_log l'.
Proof. apply map_app. Qed.

Lemma power_off_masks_spec masks v s h0 h : ready s -> good h -> rails_ok v ->
  requests (off_log (recorded v)) h0 h ->
  wp (power_off_masks pmu_set_voltage_state masks) e (set_part v s) h (fun r s' h' => good h' /\ exists v' log,
    s' = set_part v' s /\ rails_ok v' /\ requests log h0 h' /\
    suspended (recorded v ++ all_types masks (recorded v)) r (recorded v') log) total.
Proof.
  intros Hs. revert v h. induction masks as [|mask masks IH]; intros v h Hg Hok Hreq; cbn [power_off_masks all_types].
  { apply wp_ret. split; [done|]. exists v, (off_log (recorded v)). rewrite app_nil_r. split_and!; try done. apply all_off. }
  apply wp_bind. unfold dm_power_off_mask. eapply wp_mono; [by apply power_off_loop_spec|].
  intros r s1 h1 (Hg1 & v1 & -> & Hok1 & Hcase). set (ts := mask_types _ _ _ _) in *.
  destruct Hcase as [(-> & Hrec & Hreqs)|(Hr & pre & t & post & Hts & Hrec & Hreqs)].
  - cbn [negb Z.eqb]. eapply wp_mono; [apply IH; [done|done|]|].
    { rewrite Hrec, off_log_app. by eapply requests_app. }
    intros r s' h' (Hg' & v' & log & -> & Hok' & Hlog & Hsus). split; [done|]. exists v', log.
    split_and!; try done. by rewrite Hrec, <- app_assoc in Hsus.
  - rewrite (proj2 (Z.eqb_neq _ _) Hr). cbn [negb]. unfold rollback. apply wp_bind.
    eapply wp_mono; [by apply restore_spec|]. intros back s2 h2 (Hg2 & v2 & rs & -> & Hok2 & Hrs & Hreq2 & Hrec2 & ->).
    assert (forall h', requests (restore_log (recorded v1) rs) h1 h' ->
      requests (off_log (recorded v ++ pre) ++ (t, POWER_VOL_OFF, r) :: restore_log (recorded v ++ pre) rs) h0 h') as Hall.
    { intros h' Hh'. rewrite off_log_app, <- app_assoc. eapply requests_app; [exact Hreq|].
      change (?x :: ?y) with ([x] ++ y). rewrite app_assoc. eapply requests_app; [exact Hreqs|]. by rewrite <- Hrec. }
    assert (suspended (recorded v ++ ts ++ all_types masks (recorded v ++ ts)) r (recorded v2)
      (off_log (recorded v ++ pre) ++ (t, POWER_VOL_OFF, r) :: restore_log (recorded v ++ pre) rs)) as Hsus.
    { rewrite Hrec2, Hrec, Hts. apply rolled_back with (post ++ all_types masks (recorded v ++ pre ++ t :: post)); [|done|by rewrite <- Hrec].
      by rewrite <- !app_assoc. }
    unfold ERR. destruct (negb _); fw_steps; (split; [by try apply (pu_call Hpu)|]);
      exists v2; eexists; (split_and!; [done|done| |exact Hsus]); apply Hall; try apply a_message; done.
Qed.

(** The rails that a suspend switches off. *)
Definition standby_types s : list Z := all_types (standby_masks (part s)) [].

Lemma rails_empty v : length (dm_off_order v) = AXP_POWER_MAX -> rails_ok (Rails (dm_off_order v) 0 0).
Proof.
  intros Hl. constructor; cbn; try done; [lia|constructor|].
  split; [done|]. intros t _. rewrite Z.bits_0. by rewrite bool_decide_false by apply not_elem_of_nil.
Qed.

Lemma wp_fresh (k : standby_paras -> M C S Z) v s h (Q : Z -> S -> history C -> Prop) :
  wp (k (part s)) e (set_part (Rails (dm_off_order v) 0 0) s) h Q total ->
  wp (set_count 0;; set_mask (fun _ => 0);; let! p := getp in k p) e (set_part v s) h Q total.
Proof. intros HQ. apply wp_bind, wp_update, wp_bind, wp_update, wp_bind, wp_getp. by rewrite part_other. Qed.

Lemma masks_fresh masks order s h0 h : ready s -> good h -> length order = AXP_POWER_MAX -> requests [] h0 h ->
  wp (power_off_masks pmu_set_voltage_state masks) e (set_part (Rails order 0 0) s) h (fun r s' h' =>
    good h' /\ exists v' log, s' = set_part v' s /\ rails_ok v' /\
      requests log h0 h' /\ suspended (all_types masks []) r (recorded v') log) total.
Proof.
  intros Hs Hg Hl Hreq. assert (recorded (Rails order 0 0) = []) as Hrec by done.
  eapply wp_mono; [apply (power_off_masks_spec masks _ _ h0); [done|done| |by rewrite Hrec]|].
  { by apply (rails_empty (Rails order 0 0)). }
  intros r s' h' (Hg' & v' & log & Hs' & Hok' & Hreq' & Hsus). rewrite Hrec in Hsus.
  split; [exact Hg'|]. exists v', log. by split_and!.
Qed.

Lemma suspend_fresh v s h0 h : ready s -> good h -> length (dm_off_order v) = AXP_POWER_MAX -> requests [] h0 h ->
  wp (set_count 0;; set_mask (fun _ => 0);; let! p := getp in power_off_masks pmu_set_voltage_state (standby_masks p))
    e (set_part v s) h (fun r s' h' => good h' /\ exists v' log, s' = set_part v' s /\ rails_ok v' /\
      requests log h0 h' /\ suspended (standby_types s) r (recorded v') log) total.
Proof. intros Hs Hg Hl Hreq. apply wp_fresh, masks_fresh; done. Qed.

(** ** The stack as a machine *)

Inductive rail_op := Suspend | Resume.
Definition run_rail_op (o : rail_op) : M C S Z :=
  match o with
  | Suspend => dm_suspend pmu_set_voltage_state
  | Resume => dm_resume pmu_set_voltage_state
  end.
Fixpoint run_rail_ops (os : list rail_op) : M C S (list Z) :=
  match os with
  | [] => ret []
  | o :: os => let! r := run_rail_op o in let! rs := run_rail_ops os in ret (r :: rs)
  end.

(** An operation on a stack: its result, the new stack, the requests made. *)
Inductive rail_step (ts : list Z) : rail_op -> list Z -> Z -> list Z -> list (Z * Z * Z) -> Prop :=
| step_resume st rs : length rs = length st ->
    rail_step ts Resume st (first_error OK rs) (unrestored st rs) (restore_log st rs)
| step_blocked st rs : length rs = length st -> first_error OK rs <> OK ->
    rail_step ts Suspend st (first_error OK rs) (unrestored st rs) (restore_log st rs)
| step_suspend st rs r left log : length rs = length st -> first_error OK rs = OK -> suspended ts r left log ->
    rail_step ts Suspend st r left (restore_log st rs ++ log).
Inductive rail_steps (ts : list Z) : list rail_op -> list Z -> list Z -> list Z -> list (Z * Z * Z) -> Prop :=
| steps_nil st : rail_steps ts [] st [] st []
| steps_cons o os st r st1 log1 rs st2 log2 :
    rail_step ts o st r st1 log1 -> rail_steps ts os st1 rs st2 log2 ->
    rail_steps ts (o :: os) st (r :: rs) st2 (log1 ++ log2).

Lemma rail_op_spec o v s h : ready s -> good h -> rails_ok v ->
  wp (run_rail_op o) e (set_part v s) h (fun r s' h' => good h' /\ exists v' log, s' = set_part v' s /\ rails_ok v' /\
    requests log h h' /\ rail_step (standby_types s) o (recorded v) r (recorded v') log) total.
Proof.
  intros Hs Hg Hok. destruct o; cbn [run_rail_op].
  2:{ eapply wp_mono; [by apply restore_spec|]. intros r s' h' (Hg' & v' & rs & -> & Hok' & Hrs & Hreq & Hrec & ->).
      split; [done|]. exists v', (restore_log (recorded v) rs). split_and!; try done. rewrite Hrec. by apply step_resume. }
  unfold dm_suspend. apply wp_bind, wp_vars. destruct (dm_off_count v) as [|n] eqn:Hn; cbn [Nat.eqb negb].
  - apply wp_bind, wp_ret. eapply wp_mono; [apply (suspend_fresh v s h); [done|done|apply (ok_length _ Hok)|constructor]|].
    intros r s' h' (Hg' & v' & log & -> & Hok' & Hreq & Hsus). split; [done|]. exists v', log.
    split_and!; try done. assert (recorded v = []) as -> by (unfold recorded; by rewrite Hn).
    by apply (step_suspend _ [] []).
  - apply wp_bind, wp_bind. eapply wp_mono; [by apply restore_spec|].
    intros r s1 h1 (Hg1 & v1 & rs & -> & Hok1 & Hrs & Hreq & Hrec & ->).
    destruct (Z.eqb_spec (first_error OK rs) OK) as [Hz|Hz]; cbn [negb].
    + apply wp_ret. eapply wp_mono; [apply (suspend_fresh v1 s h1); [done|done|apply (ok_length _ Hok1)|constructor]|].
      intros r s' h' (Hg' & v' & log & -> & Hok' & Hreq' & Hsus). split; [done|].
      exists v', (restore_log (recorded v) rs ++ log). split_and!; try done; [by eapply requests_app|by apply step_suspend].
    + unfold ERR. fw_steps. split; [by apply (pu_call Hpu)|]. exists v1, (restore_log (recorded v) rs).
      split_and!; try done; [by apply a_message|]. rewrite Hrec. by apply step_blocked.
Qed.

Lemma rail_ops_spec os v s h : ready s -> good h -> rails_ok v ->
  wp (run_rail_ops os) e (set_part v s) h (fun rs s' h' => good h' /\ exists v' log, s' = set_part v' s /\ rails_ok v' /\
    requests log h h' /\ rail_steps (standby_types s) os (recorded v) rs (recorded v') log) total.
Proof.
  intros Hs. revert v h. induction os as [|o os IH]; intros v h Hg Hok; cbn [run_rail_ops].
  { apply wp_ret. split; [done|]. exists v, []. split_and!; try done; constructor. }
  apply wp_bind. eapply wp_mono; [by apply rail_op_spec|]. intros r s1 h1 (Hg1 & v1 & log1 & -> & Hok1 & Hreq1 & Hst1).
  apply wp_bind. eapply wp_mono; [by apply IH|]. intros rs s2 h2 (Hg2 & v2 & log2 & -> & Hok2 & Hreq2 & Hst2).
  apply wp_ret. split; [done|]. exists v2, (log1 ++ log2).
  split_and!; try done; [by eapply requests_app|by eapply steps_cons].
Qed.
End Rails.

(** ** What the requests say about a rail *)

(** What is known of rail [t] after a list of requests. *)
Definition after_requests (log : list (Z * Z * Z)) (t : Z) (k : option bool) : option bool :=
  fold_left (fun k '(u, state, r) =>
    if u =? t then (if r =? OK then Some (state =? 1) else None) else k) log k.

Lemma after_app l l' t k : after_requests (l ++ l') t k = after_requests l' t (after_requests l t k).
Proof. apply fold_left_app. Qed.
Lemma after_absent l t k : (forall state r, (t, state, r) ∉ l) -> after_requests l t k = k.
Proof.
  unfold after_requests. revert k. induction l as [|[[u state] r] l IH]; intros k Hno; [done|]. cbn.
  destruct (Z.eqb_spec u t) as [->|].
  - destruct (Hno state r). by left.
  - apply IH. intros st x Hin. apply (Hno st x). by right.
Qed.

(** The rails a list of requests names. *)
Definition named (log : list (Z * Z * Z)) : list Z := map (fun x => x.1.1) log.
Lemma after_unnamed l t k : t ∉ named l -> after_requests l t k = k.
Proof.
  intros Hno. apply after_absent. intros state r Hin. apply Hno. unfold named.
  apply list_elem_of_In. apply (in_map (fun x : Z * Z * Z => x.1.1) l (t, state, r)). by apply list_elem_of_In.
Qed.
Lemma named_off ts : named (off_log ts) = ts.
Proof. unfold named, off_log. rewrite map_map. apply map_id. Qed.
Lemma named_restore order rs : length rs = length order -> named (restore_log order rs) = reverse order.
Proof.
  intros Hl. unfold named, restore_log. rewrite map_map. rewrite <- (fst_zip (reverse order) rs) at 2.
  - apply map_ext. by intros [].
  - rewrite length_reverse. lia.
Qed.

(** A rail is on, or on the stack. *)
Definition kept_on (t : Z) (k : option bool) (st : list Z) : Prop := k = Some true \/ t ∈ st.

Lemma after_on l t k : NoDup l.*1 -> t ∈ l.*1 ->
  after_requests (map (fun '(t, r) => (t, POWER_VOL_ON, r)) l) t k = Some true \/ t ∈ failures l.
Proof.
  revert k. induction l as [|[u r] l IH]; intros k Hnd Hin; [by apply elem_of_nil in Hin|].
  cbn in Hnd, Hin. apply NoDup_cons in Hnd as [Hu Hnd]. cbn [map].
  assert (forall k, u ∉ l.*1 -> after_requests (map (fun '(t, r) => (t, POWER_VOL_ON, r)) l) u k = k) as Hout.
  { intros k' Hno. apply after_unnamed. unfold named. rewrite map_map.
    rewrite (map_ext _ fst) by (by intros []). done. }
  destruct (decide (t = u)) as [->|Hne].
  - destruct (decide (r = OK)) as [->|Hr]; [left|right].
    + cbn [after_requests fold_left]. rewrite Z.eqb_refl. cbn. by apply Hout.
    + rewrite failures_fail by done. by left.
  - apply elem_of_cons in Hin as [|Hin]; [done|]. cbn [after_requests fold_left].
    rewrite (proj2 (Z.eqb_neq u t)) by done. destruct (IH k Hnd Hin) as [|Hf]; [by left|right].
    destruct (decide (r = OK)) as [->|Hr]; [by rewrite failures_ok|rewrite failures_fail by done; by right].
Qed.

Lemma kept_restore t k st rs : NoDup st -> length rs = length st -> kept_on t k st ->
  kept_on t (after_requests (restore_log st rs) t k) (unrestored st rs).
Proof.
  intros Hnd Hl Hk. destruct (decide (t ∈ st)) as [Hin|Hin].
  - destruct (after_on (zip (reverse st) rs) t k) as [Hon|Hf].
    + rewrite fst_zip by (rewrite length_reverse; lia). by rewrite reverse_Permutation.
    + rewrite fst_zip by (rewrite length_reverse; lia). by rewrite elem_of_reverse.
    + by left.
    + right. unfold unrestored. by rewrite elem_of_reverse.
  - left. rewrite after_unnamed; [by destruct Hk|]. by rewrite named_restore, elem_of_reverse.
Qed.

Lemma first_error_sticks f rs : f <> OK -> first_error f rs = f.
Proof.
  revert f. induction rs as [|r rs IH]; intros f Hf; [done|]. cbn. rewrite (proj2 (Z.eqb_neq _ _) Hf). by apply IH.
Qed.
Lemma no_error_none l rs : length l = length rs -> first_error OK rs = OK -> failures (zip l rs) = [].
Proof.
  revert l. induction rs as [|r rs IH]; intros [|t l] Hl He; try done. cbn [zip zip_with].
  change (first_error r rs = OK) in He. destruct (decide (r = OK)) as [->|Hr].
  - rewrite failures_ok. apply IH; [by injection Hl|done].
  - rewrite first_error_sticks in He by done. done.
Qed.
Lemma all_restored st rs : length rs = length st -> first_error OK rs = OK -> unrestored st rs = [].
Proof.
  intros Hl He. unfold unrestored. rewrite no_error_none; [done| |done]. by rewrite length_reverse.
Qed.

Lemma after_offs ts t k : after_requests (off_log ts) t k = if bool_decide (t ∈ ts) then Some false else k.
Proof.
  revert k. induction ts as [|u ts IH]; intros k; [done|]. cbn [off_log map after_requests fold_left].
  fold (off_log ts). fold (after_requests (off_log ts) t (if u =? t then (if OK =? OK then Some (POWER_VOL_OFF =? 1) else None) else k)).
  rewrite IH. destruct (Z.eqb_spec u t) as [->|Hne].
  - rewrite (bool_decide_true (t ∈ t :: ts)) by by left. by destruct (bool_decide _).
  - assert (bool_decide (t ∈ u :: ts) = bool_decide (t ∈ ts)) as ->; [|done]. apply bool_decide_ext. set_solver.
Qed.

(** The rail whose switching off failed is the only one that may be lost. *)
Definition never_failed_off (t : Z) (log : list (Z * Z * Z)) : Prop :=
  forall r, r <> OK -> (t, POWER_VOL_OFF, r) ∉ log.

Lemma kept_suspended ts r left log t k : NoDup ts -> suspended ts r left log -> never_failed_off t log ->
  k = Some true -> kept_on t (after_requests log t k) left.
Proof.
  intros Hnd Hsus Hnf Hk. destruct Hsus as [|pre u post r rs Hts Hr Hl].
  - rewrite after_offs. destruct (bool_decide_reflect (t ∈ ts)); [by right|by left].
  - subst ts. apply NoDup_app in Hnd as (Hnd & Hout & _). rewrite after_app.
    change (?x :: ?y) with ([x] ++ y). rewrite after_app. apply kept_restore; [done|done|].
    assert (u <> t) as Hne. { intros ->. apply (Hnf r Hr). apply elem_of_app. right. by left. }
    cbn [after_requests fold_left]. rewrite (proj2 (Z.eqb_neq _ _) Hne), after_offs.
    destruct (bool_decide_reflect (t ∈ pre)); [by right|by left].
Qed.

Lemma kept_step ts o st r st' log t k : NoDup ts -> NoDup st -> rail_step ts o st r st' log ->
  never_failed_off t log -> kept_on t k st -> kept_on t (after_requests log t k) st'.
Proof.
  intros Hts Hnd Hst Hnf Hk. destruct Hst as [st rs Hl|st rs Hl Hne|st rs r left log Hl He Hsus].
  - by apply kept_restore.
  - by apply kept_restore.
  - rewrite after_app. eapply kept_suspended; [exact Hts|exact Hsus| |].
    + intros x Hx Hin. apply (Hnf x Hx). apply elem_of_app. by right.
    + destruct (kept_restore t k st rs Hnd Hl Hk) as [|Hin]; [done|]. rewrite all_restored in Hin by done.
      by apply elem_of_nil in Hin.
Qed.

Lemma mask_types_nodup n type mask done : NoDup (mask_types n type mask done).
Proof.
  revert type. induction n as [|n IH]; intros type; cbn [mask_types]; [constructor|].
  destruct (_ && _); [|done]. constructor; [|done]. intros Hin%mask_types_range. lia.
Qed.
Lemma mask_types_new n type mask done t : t ∈ mask_types n type mask done -> t ∉ done.
Proof.
  revert type. induction n as [|n IH]; intros type; cbn [mask_types]; [by intros ?%elem_of_nil|].
  destruct (Z.testbit mask type); cbn [andb]; [|apply IH].
  destruct (bool_decide_reflect (type ∈ done)); cbn [negb]; [apply IH|].
  rewrite elem_of_cons. intros [->|Hin]; [done|by eapply IH].
Qed.
Lemma all_types_nodup masks done : NoDup (all_types masks done) /\ forall t, t ∈ all_types masks done -> t ∉ done.
Proof.
  revert done. induction masks as [|mask masks IH]; intros done; cbn [all_types].
  - split; [constructor|]. by intros t ?%elem_of_nil.
  - destruct (IH (done ++ mask_types AXP_POWER_MAX 0 mask done)) as [Hnd Hnew]. split.
    + apply NoDup_app. split; [apply mask_types_nodup|]. split; [|done]. intros t Hin Hin2.
      apply (Hnew t Hin2). apply elem_of_app. by right.
    + intros t. rewrite elem_of_app. intros [Hin|Hin]; [by eapply mask_types_new|].
      intros Hd. apply (Hnew t Hin). apply elem_of_app. by left.
Qed.

Lemma unrestored_nodup st rs : NoDup st -> length rs = length st -> NoDup (unrestored st rs).
Proof. intros Hnd Hl. eapply sublist_NoDup; [exact Hnd|by apply unrestored_sub]. Qed.
Lemma step_nodup ts o st r st' log : NoDup ts -> NoDup st -> rail_step ts o st r st' log -> NoDup st'.
Proof.
  intros Hts Hst Hstep. destruct Hstep as [st rs Hl|st rs Hl Hne|st rs r left log Hl He Hsus];
    [by apply unrestored_nodup..|]. destruct Hsus as [|pre u post r rs' -> Hr Hl']; [done|].
  apply NoDup_app in Hts as (Hpre & _). by apply unrestored_nodup.
Qed.

Lemma kept_steps ts os st rs st' log t k : NoDup ts -> NoDup st -> rail_steps ts os st rs st' log ->
  never_failed_off t log -> kept_on t k st -> kept_on t (after_requests log t k) st'.
Proof.
  intros Hts Hst Hsteps. revert k Hst. induction Hsteps as [|o os st r st1 log1 rs st2 log2 Hstep Hsteps IH];
    intros k Hst Hnf Hk; [done|]. rewrite after_app. apply IH.
  - exact (step_nodup _ _ _ _ _ _ Hts Hst Hstep).
  - intros x Hx Hin. apply (Hnf x Hx). apply elem_of_app. by right.
  - apply (kept_step _ _ _ _ _ _ _ _ Hts Hst Hstep); [|done]. intros x Hx Hin. apply (Hnf x Hx). apply elem_of_app. by left.
Qed.

(** A suspend that reports success had no failure. *)
Lemma restore_never_off t st rs : never_failed_off t (restore_log st rs).
Proof.
  intros r _ Hin. unfold restore_log in Hin. apply list_elem_of_In, in_map_iff in Hin as ([u x] & [= _ Hon] & _).
Qed.
Lemma steps_never_failed ts os st rs st' log : rail_steps ts os st rs st' log -> Forall (fun r => r = OK) rs ->
  forall t, never_failed_off t log.
Proof.
  induction 1 as [|o os st r st1 log1 rs st2 log2 Hstep Hsteps IH]; intros Hall t.
  { by intros r _ ?%elem_of_nil. }
  apply Forall_cons in Hall as [Hr Hall]. intros x Hx Hin. apply elem_of_app in Hin as [Hin|Hin]; [|by apply (IH Hall t x)].
  revert Hin. destruct Hstep as [st rs' Hl|st rs' Hl Hne|st rs' r left log Hl He Hsus];
    [by apply (restore_never_off t st rs')..|]. intros Hin.
  apply elem_of_app in Hin as [Hin|Hin]; [by apply (restore_never_off t st rs' x)|].
  destruct Hsus as [|]; [|done]. unfold off_log in Hin. apply list_elem_of_In, in_map_iff in Hin as (u & [= _ E] & _). by destruct Hx.
Qed.

(** A resume that succeeds has emptied the stack. *)
Lemma resumed_empty ts os st rs st' log : rail_steps ts os st rs st' log ->
  last os = Some Resume -> last rs = Some OK -> st' = [].
Proof.
  induction 1 as [|o os st r st1 log1 rs st2 log2 Hstep Hsteps IH]; [done|]. intros Ho Hr.
  destruct os as [|o' os].
  - inversion Hsteps; subst. cbn in Ho, Hr. injection Ho as ->. injection Hr as ->.
    inversion Hstep; subst. by apply all_restored.
  - inversion Hsteps; subst. rewrite last_cons_cons in Ho. rewrite last_cons_cons in Hr. by apply IH.
Qed.

(** C29: the rails of standby refine a stack, whatever the power unit answers
    and in whatever order suspends and resumes come.  A suspend switches the
    rails of the masks off, each once and in the order of the masks; when one
    fails it puts the others back in reverse order.  A resume puts them back
    from the top; those that fail stay on the stack, in their order, and the
    next suspend or resume tries them first.  The result is the first error. *)
Theorem rails_refine_stack {C S} `{HPrint : HasPrintf C} `{HRails : !Part rails S}
  `{HParas : !Part standby_paras S} `{!Apart rails standby_paras S}
  (pmu_set_voltage_state : Z -> Z -> M C S Z) (e : env C) (ready : S -> Prop) (good : history C -> Prop)
  (request : Z -> Z -> Z -> history C -> history C -> Prop) os (s : S) h :
  power_unit pmu_set_voltage_state e ready good request -> ready s -> good h -> rails_ok (part s) ->
  wp (run_rail_ops pmu_set_voltage_state os) e s h (fun rs s' h' => exists v' log, s' = set_part v' s /\
    rails_ok v' /\ requests request log h h' /\
    rail_steps (standby_types s) os (recorded (part s)) rs (recorded v') log) total.
Proof.
  intros Hpu Hs Hg Hok. rewrite <- (set_same (T := rails) s) at 1.
  eapply wp_mono; [exact (rail_ops_spec _ e ready good request Hpu os (part s) s h Hs Hg Hok)|].
  intros rs s' h' (_ & v' & log & Hs' & Hrest). by exists v', log.
Qed.

(** ** With the power unit of the board *)

Section Board.
Context {C S : Type} `{HPrint : HasPrintf C} `{HInsn : !HasInsn C} `{HCcu : !Part ccu S}
  `{HTwi : !Part twi S} `{HPmu : !Part pmu S} `{HRails : !Part rails S} `{HParas : !Part standby_paras S}
  `{!Apart rails standby_paras S}.
Context (fuel : nat) (time_mdelay : Z -> M C S unit) (beyond : Z)
  (kept : Z -> Z -> Prop) (e : env C) (regs : history C -> Z -> Z -> Z) (ready : S -> Prop).

(** Standby on the real bus, with the delays of the timers. *)
Record board : Prop := {
  bd_bus : register_bus fuel kept e regs;
  bd_kept : rails_kept kept;
  bd_delay : quiet e ready time_mdelay;
  bd_ready : forall s, ready s -> twi_lock (part s) = 0 /\ pmu_exist (part s) = TRUE;
  bd_part : forall (v : rails) s, ready s -> ready (set_part v s)
}.
Hypothesis Hbd : board.

(** A call that went from [h] to [h'] and returned [r], and what it did to the
    power chip. *)
Definition bus_request type state (r : Z) (h h' : history C) : Prop :=
  (exists s s', pmu_set_voltage_state fuel time_mdelay beyond type state e s h = Done r s' h') /\
  switched regs type state r h h'.

Lemma board_power_unit :
  power_unit (pmu_set_voltage_state fuel time_mdelay beyond) e ready (fun h => bus h = Stopped) bus_request.
Proof.
  constructor; [|done|apply (bd_part Hbd)]. intros type state s h Hs Hg Ht Hst.
  assert (rail_known type) as Hk by (unfold is_type, rail_known in *; lia).
  assert (wp (pmu_set_voltage_state fuel time_mdelay beyond type state) e s h (fun r s' h' => s' = s /\ bus h' = Stopped /\
    switched regs type state r h h') total) as Hwp by (eapply set_voltage_state_spec; try done; apply Hbd).
  apply wp_total_run in Hwp as (r & s' & h' & Hrun & -> & Hg' & Hsw). unfold wp. rewrite Hrun.
  split; [done|]. split; [done|]. split; [by exists s, s|done].
Qed.

Lemma requests_known log h h' t k : requests bus_request log h h' -> is_type t ->
  (forall b, k = Some b -> rail_on (regs h) t = b) ->
  forall b, after_requests log t k = Some b -> rail_on (regs h') t = b.
Proof.
  intros Hreq Ht Hk. assert (rail_known t) as Hkn by (unfold is_type, rail_known in *; lia).
  induction Hreq as [|l h h' c r Hreq IH|l h h1 h2 type state r Hreq IH Hr]; [done|..].
  - intros b Hb. rewrite <- (IH Hk b Hb). eapply unchanged_rails; [apply Hbd| |done].
    eapply unchanged_call. apply Hbd.
  - intros b. rewrite after_app. cbn. destruct Hr as (_ & Hother & Hthis & _).
    destruct (Z.eqb_spec type t) as [->|Hne].
    + destruct (Z.eqb_spec r OK) as [->|]; [|done]. intros [= <-]. by apply Hthis.
    + intros Hb. rewrite Hother by done. by apply IH.
Qed.
End Board.

Lemma standby_types_nodup {S} `{HParas : !Part standby_paras S} (s : S) : NoDup (standby_types s).
Proof. unfold standby_types. apply all_types_nodup. Qed.

(** C30: no rail that is on is lost in standby.  After any sequence of suspends
    and resumes, whatever happens on the bus, a rail that was on or recorded
    before is on in the power chip's registers or still recorded for the next
    resume - except a rail whose own switching off reported a failure, which
    the rollback does not put back.  The log that says so is that of the calls
    made of the power unit, with the results they returned: every call is one
    of the steps the results of the operations show, so a suspend that
    succeeded had no failure, and one that did not had one.  After a resume
    that succeeds nothing is left to put back. *)
Theorem no_rail_lost {C S} `{HPrint : HasPrintf C} `{HInsn : !HasInsn C} `{HTwi : !Part twi S}
  `{HPmu : !Part pmu S} `{HRails : !Part rails S} `{HParas : !Part standby_paras S}
  `{!Apart rails standby_paras S} (fuel : nat) (time_mdelay : Z -> M C S unit) (beyond : Z)
  (kept : Z -> Z -> Prop) (e : env C) (regs : history C -> Z -> Z -> Z) (ready : S -> Prop) os (s : S) h :
  board fuel time_mdelay kept e regs ready -> ready s -> bus h = Stopped -> rails_ok (part s) ->
  wp (run_rail_ops (pmu_set_voltage_state fuel time_mdelay beyond) os) e s h (fun rs s' h' =>
    bus h' = Stopped /\ rails_ok (part s') /\ exists log,
    requests (bus_request fuel time_mdelay beyond e regs) log h h' /\
    rail_steps (standby_types s) os (recorded (part s)) rs (recorded (part s')) log /\
    (forall t, is_type t -> rail_on (regs h) t = true \/ t ∈ recorded (part s) -> never_failed_off t log ->
       rail_on (regs h') t = true \/ t ∈ recorded (part s')) /\
    (forall t, is_type t -> t ∉ named log -> rail_on (regs h') t = rail_on (regs h) t) /\
    (Forall (fun r => r = OK) rs -> forall t, never_failed_off t log) /\
    (last os = Some Resume -> last rs = Some OK -> recorded (part s') = [])) total.
Proof.
  intros Hbd Hs Hg Hok. rewrite <- (set_same (T := rails) s) at 1.
  eapply wp_mono; [exact (rail_ops_spec _ e ready _ _ (board_power_unit _ _ beyond _ _ _ _ Hbd) os (part s) s h Hs Hg Hok)|].
  intros rs s' h' (Hg' & v' & log & -> & Hok' & Hreq & Hsteps). rewrite part_set. split_and!; [done|done|].
  exists log. split; [done|]. split; [done|]. split_and!.
  - intros t Ht Hon Hnf. assert (Hknow := requests_known _ _ _ _ _ _ _ Hbd log h h' t (Some (rail_on (regs h) t)) Hreq Ht).
    destruct (kept_steps _ _ _ _ _ _ t (Some (rail_on (regs h) t)) (standby_types_nodup s) (ok_nodup _ Hok) Hsteps Hnf)
      as [Hk|]; [|left|by right].
    + destruct Hon as [->|]; [by left|by right].
    + apply Hknow; [|done]. by intros b [= <-].
  - intros t Ht Hno.
    apply (requests_known _ _ _ _ _ _ _ Hbd log h h' t (Some (rail_on (regs h) t)) Hreq Ht).
    + by intros b [= <-].
    + by rewrite after_unnamed.
  - intros Hall t. by eapply steps_never_failed.
  - intros Ho Hr. by eapply resumed_empty.
Qed.

(** ** Runs *)

(** The firmware's statics that standby's rails need, around the stack. *)
Record rail_image := RailImage { ri_twi : twi; ri_pmu : pmu; ri_rails : rails; ri_paras : standby_paras }.
#[refine] Instance ri_twi_part : Part twi rail_image :=
  {| part := ri_twi; set_part x i := RailImage x (ri_pmu i) (ri_rails i) (ri_paras i) |}.
Proof. all: by intros; destruct s || done. Defined.
#[refine] Instance ri_pmu_part : Part pmu rail_image :=
  {| part := ri_pmu; set_part x i := RailImage (ri_twi i) x (ri_rails i) (ri_paras i) |}.
Proof. all: by intros; destruct s || done. Defined.
#[refine] Instance ri_rails_part : Part rails rail_image :=
  {| part := ri_rails; set_part x i := RailImage (ri_twi i) (ri_pmu i) x (ri_paras i) |}.
Proof. all: by intros; destruct s || done. Defined.
#[refine] Instance ri_paras_part : Part standby_paras rail_image :=
  {| part := ri_paras; set_part x i := RailImage (ri_twi i) (ri_pmu i) (ri_rails i) x |}.
Proof. all: by intros; destruct s || done. Defined.
Instance ri_apart : Apart rails standby_paras rail_image.
Proof. done. Qed.

(** All rails on; standby switches off the two of [vcc-io] and one of [vdd-cpu]. *)
Definition rail_sample : rail_image :=
  RailImage (TwiVars 0) (PmuVars 1 0) rails_initial (StandbyParas 0x10 0 0 0 0 0x801 0 1).
Definition rail_env : env fw_call := sim_env (fun _ _ => 0xff) (fun _ _ => 0) sim_results.
Definition rail_regs : history fw_call -> Z -> Z -> Z := sim_regs (fun _ _ => 0xff).
Definition rail_ready (s : rail_image) : Prop := ri_twi s = TwiVars 0 /\ ri_pmu s = PmuVars 1 0.

Lemma rail_board : board 1 mdelay (fun _ _ => True) rail_env rail_regs rail_ready.
Proof.
  constructor.
  - apply sim_bus.
  - by intros type reg offset.
  - intros t s h _. apply wp_mdelay. split; [done|]. apply extends_cons; [by intros a v []|apply extends_refl].
  - intros s [H1 H2]. cbn. by rewrite H1, H2.
  - by intros v s [H1 H2].
Qed.

Lemma rails_ok_initial : rails_ok rails_initial.
Proof.
  constructor; cbn; try done; [lia|constructor|]. split; [done|]. intros t _.
  by rewrite Z.bits_0, bool_decide_false by apply not_elem_of_nil.
Qed.

Lemma no_rail_lost_witness :
  wp (run_rail_ops (pmu_set_voltage_state 1 mdelay 0) [Suspend; Resume]) rail_env rail_sample [] (fun rs s' h' =>
    bus h' = Stopped /\ rails_ok (ri_rails s') /\ exists log,
    requests (bus_request 1 mdelay 0 rail_env rail_regs) log [] h' /\
    rail_steps (standby_types rail_sample) [Suspend; Resume] [] rs (recorded (ri_rails s')) log /\
    (forall t, is_type t -> rail_on (rail_regs []) t = true \/ t ∈ recorded rails_initial ->
       never_failed_off t log ->
       rail_on (rail_regs h') t = true \/ t ∈ recorded (ri_rails s')) /\
    (forall t, is_type t -> t ∉ named log ->
       rail_on (rail_regs h') t = rail_on (rail_regs []) t) /\
    (Forall (fun r => r = OK) rs -> forall t, never_failed_off t log) /\
    (last [Suspend; Resume] = Some Resume -> last rs = Some OK -> recorded (ri_rails s') = [])) total.
Proof.
  apply (no_rail_lost 1 mdelay 0 (fun _ _ => True) rail_env rail_regs _ [Suspend; Resume] rail_sample []
    rail_board); [done|done|apply rails_ok_initial].
Defined.

Lemma rails_refine_stack_witness :
  wp (run_rail_ops (pmu_set_voltage_state 1 mdelay 0) [Suspend; Resume]) rail_env rail_sample [] (fun rs s' h' =>
    exists v' log, s' = set_part v' rail_sample /\ rails_ok v' /\ requests (bus_request 1 mdelay 0 rail_env rail_regs) log [] h' /\
      rail_steps (standby_types rail_sample) [Suspend; Resume] [] rs (recorded v') log) total.
Proof.
  apply (rails_refine_stack _ rail_env rail_ready (fun h => bus h = Stopped) (bus_request 1 mdelay 0 rail_env rail_regs)
    [Suspend; Resume] rail_sample [] (board_power_unit 1 mdelay 0 _ _ _ _ rail_board)); [done|done|apply rails_ok_initial].
Defined.

(** The run itself: after the suspend the three rails are off, after the
    resume they are on. *)
Example rail_run :
  match run_rail_op (pmu_set_voltage_state 1 mdelay 0) Suspend rail_env rail_sample [] with
  | Done r s h => r = OK /\ recorded (ri_rails s) = [0; 11; 4] /\
      map (rail_on (rail_regs h)) [0; 11; 4; 1] = [false; false; false; true] /\
      match run_rail_op (pmu_set_voltage_state 1 mdelay 0) Resume rail_env s h with
      | Done r s h => r = OK /\ recorded (ri_rails s) = [] /\
          map (rail_on (rail_regs h)) [0; 11; 4; 1] = [true; true; true; true]
      | _ => False
      end
  | _ => False
  end.
Proof. vm_compute. done. Qed.
