(* ===== verification/CpuOps.v ===== *)
(** * Power of the application cores
    (src/ar100s/driver/cpucfg/cpucfg-sun60iw2p1/sunxi_cpu_ops.c and
    sunxi_cpu_ops_private.h)

    Core 0 is switched off at the start of a standby, when its cluster follows,
    and started at the resume address at the end. *)

From S2P Require Import Prelude Machine Firmware.

Local Open Scope Z_scope.
Local Open Scope mach_scope.

Definition SUNXI_CPU_OPS_BASE : Z := 0x07050000.
Definition HOTPLUG_CONTROL_REG (n : Z) : Z := SUNXI_CPU_OPS_BASE + 0x200 + n * 4.
Definition HOTPLUG_EN : Z := BIT 0.
Definition HOTPLUG_POWERMODE_REG (n : Z) : Z := SUNXI_CPU_OPS_BASE + 0x220 + n * 4.
Definition POWER_ON : Z := BIT 0.
Definition PPU_WRAP (n : Z) : Z := 0x07060000 + n * 0x1000.
Definition PPU_PWSR (n : Z) : Z := PPU_WRAP n + 0x0008.
Definition STATE_ON : Z := 0x8.
Definition SUNXI_CLUS_OPS_BASE : Z := 0x08000000.
Definition SUNXI_INITARCH_REG (n : Z) : Z := SUNXI_CLUS_OPS_BASE + 0x1000.
Definition AARCH64 : Z := BIT 0.
Definition SUNXI_CPUCFG_RVBAR_LO_REG (n : Z) : Z := SUNXI_CLUS_OPS_BASE + 0x1000 + 0x4.
Definition SUNXI_CPUCFG_RVBAR_HI_REG (n : Z) : Z := SUNXI_CLUS_OPS_BASE + 0x1000 + 0x8.

Section CpuOps.
Context {C S : Type}.
Local Abbreviation M := (M C S).

Definition mmio_write_32 (addr value : Z) : M unit := writel value addr.
Definition mmio_read_32 (addr : Z) : M Z := readl addr.
Definition mmio_clrbits_32 (addr clear : Z) : M unit :=
  let! v := mmio_read_32 addr in mmio_write_32 addr (Z.land v (cnot32 clear)).
Definition mmio_setbits_32 (addr set : Z) : M unit :=
  let! v := mmio_read_32 addr in mmio_write_32 addr (Z.lor v set).

Definition sunxi_init_archstate (cluster cpu arch64 : Z) : M unit :=
  if negb (arch64 =? 0) then mmio_setbits_32 (SUNXI_INITARCH_REG cpu) AARCH64
  else mmio_clrbits_32 (SUNXI_INITARCH_REG cpu) AARCH64.

Definition sunxi_set_bootaddr (cluster cpu entry : Z) : M unit :=
  mmio_write_32 (SUNXI_CPUCFG_RVBAR_LO_REG cpu) entry;;
  mmio_write_32 (SUNXI_CPUCFG_RVBAR_HI_REG cpu) 0.

(** The power state in a status register. *)
Definition is_on (v : Z) : bool := Z.land v 0xf =? STATE_ON.
Definition sunxi_get_cpu_powerstate (cluster core : Z) : M Z :=
  let! v := mmio_read_32 (PPU_PWSR (core + 1)) in ret (if is_on v then 1 else 0).
Definition sunxi_get_cluster_powerstate : M Z :=
  let! v := mmio_read_32 (PPU_PWSR 0) in ret (if is_on v then 1 else 0).

(** [while (state() == want);]: the code has no bound, [fuel] is the model's. *)
Fixpoint while_state (fuel : nat) (state : M Z) (want : Z) : M unit :=
  match fuel with
  | O => stop_now OutOfFuel
  | Datatypes.S fuel =>
      let! v := state in if v =? want then while_state fuel state want else ret tt
  end.

Definition sunxi_poweron_cpu (fuel : nat) (cluster core : Z) : M unit :=
  mmio_setbits_32 (HOTPLUG_CONTROL_REG core) HOTPLUG_EN;;
  mmio_setbits_32 (HOTPLUG_POWERMODE_REG core) POWER_ON;;
  while_state fuel (sunxi_get_cpu_powerstate cluster core) 0;;
  mmio_clrbits_32 (HOTPLUG_CONTROL_REG core) HOTPLUG_EN.
Definition sunxi_poweroff_cpu (cluster core : Z) : M unit :=
  mmio_clrbits_32 (HOTPLUG_POWERMODE_REG core) POWER_ON.

Definition cpucfg_cpu_suspend (fuel : nat) : M unit :=
  sunxi_poweroff_cpu 0 0;;
  while_state fuel sunxi_get_cluster_powerstate 1.
Definition cpucfg_cpu_resume (fuel : nat) (resume_addr : Z) : M Z :=
  sunxi_set_bootaddr 0 0 resume_addr;;
  sunxi_init_archstate 0 0 1;;
  sunxi_poweron_cpu fuel 0 0;;
  ret 0.
End CpuOps.
