(* ===== verification/Watchdog.v ===== *)
(** * The watchdog
    (src/ar100s/driver/watchdog/watchdog.c,
    src/ar100s/driver/watchdog/watchdog-sun60iw2p1/watchdog_i.h)

    The registers are members of a structure at [WDOG0_REG_BASE], reached
    through a static pointer that is null before the start and after the
    exit. *)

From S2P Require Import Prelude Machine Firmware.

Local Open Scope Z_scope.
Local Open Scope mach_scope.

Definition WDOG0_REG_BASE : Z := 0x07021000.
Definition WDOG0_WRITE_KEY : Z := Z.shiftl 0x16aa 16.
Definition WDOG0_CLK_SRC_RTC32K : Z := Z.shiftl 0 8.
Definition WDOG0_RST_SYS : Z := Z.shiftl 1 0.
Definition WDOG0_INTV_VALUE_04S : Z := Z.shiftl 4 4.
Definition WDOG0_EN : Z := Z.shiftl 1 0.
Definition WDOG0_DIS : Z := Z.shiftl 0 0.

(** [pwatchdog_regs]; the offsets of [config] and [mode]. *)
Record watchdog := Watchdog { pwatchdog_regs : option Z }.
Definition config_offset : Z := 0x10.
Definition mode_offset : Z := 0x14.

Section Watchdog.
Context {C S : Type} `{HDog : !Part watchdog S}.
Local Abbreviation M := (M C S).

(** A member of the structure. *)
Definition reg_at (offset : Z) : M Z :=
  let! w := getp in
  match pwatchdog_regs w with Some base => ret (base + offset) | None => stop_now Undefined end.
(** [value = reg & 0xffff; value &= ~clear; value |= WDOG0_WRITE_KEY | set; reg = value] *)
Definition keyed (offset clear set : Z) : M unit :=
  let! reg := reg_at offset in
  let! v := readl reg in
  let value := Z.land (Z.land v 0xffff) (cnot32 clear) in
  let value := Z.lor value (Z.lor WDOG0_WRITE_KEY set) in
  writel value reg.

Definition watchdog_init : M Z :=
  putp (Watchdog (Some WDOG0_REG_BASE));;
  keyed config_offset (Z.lor (Z.shiftl 0x1 8) (Z.shiftl 0x3 0)) (Z.lor WDOG0_CLK_SRC_RTC32K WDOG0_RST_SYS);;
  keyed mode_offset (Z.shiftl 0xf 4) WDOG0_INTV_VALUE_04S;;
  ret OK.
Definition watchdog_exit : M Z := putp (Watchdog None);; ret OK.
Definition watchdog_enable : M Z := keyed mode_offset (Z.shiftl 0x1 0) WDOG0_EN;; ret OK.
Definition watchdog_disable : M Z := keyed mode_offset (Z.shiftl 0x1 0) WDOG0_DIS;; ret OK.
End Watchdog.
