(* ===== verification/StandbyClk.v ===== *)
(** * Clocks over a standby
    (src/ar100s/service/standby/standby-sun60iw2p1/plat_standby.c, lines 50-114,
    168-238 and 854-1151)

    What is saved of the PLLs, the buses and the CPU clusters, and the code
    that closes and reopens them. *)

From Stdlib Require Import String.
From S2P Require Import Prelude Machine Console Firmware Notifier Cpucfg Prcm Uart Timer Power Twi Rails.

Local Open Scope string_scope.
Local Open Scope list_scope.
Local Open Scope Z_scope.
Local Open Scope mach_scope.

(** ** Registers (platform_regs.h) *)

Definition STANDBY_HW_POLL_LIMIT : nat := Z.to_nat 100000.

Definition SYS_CFG_REG_BASE : Z := 0x03000000.
Definition CPUSUBSYS_REG_BASE : Z := 0x08000000.
Definition CPU_PLL_REG_BASE : Z := 0x08870000.
Definition RV_CLK_16M : Z := 0x82000000.
Definition RV_24M_CLK_REG : Z := R_PRCM_REG_BASE + 0x210.
Definition DEV_BUS_CTL_REG : Z := R_PRCM_REG_BASE + 0x338.
Definition BUS_AUTO_CLK_REG : Z := R_PRCM_REG_BASE + 0x33c.
Definition MSRA_CTL_REG : Z := R_PRCM_REG_BASE + 0x360.
Definition AHBS_CFG_REG : Z := CPUS_CFG_REG.

Definition CPUA_CLK_REG : Z := CPU_PLL_REG_BASE + 0x101c.
Definition CPUB_CLK_REG : Z := CPU_PLL_REG_BASE + 0x201c.
Definition DSU_CLK_REG : Z := CPU_PLL_REG_BASE + 0x301c.
Definition CPU_PLL_REG (n : Z) : Z := CPU_PLL_REG_BASE + n * 0x1000.
Definition CPU_PLL_EN : Z := BIT 31.
Definition CPU_PLL_LDO_EN : Z := BIT 30.
Definition CPU_PLL_LOCK_EN : Z := BIT 29.
Definition CPU_PLL_LOCK_STATUS : Z := BIT 28.
Definition CPU_PLL_OUTPUT : Z := BIT 27.
Definition CPU_PLL_UPDATE : Z := BIT 26.
Definition CPU_FACTOR_P_MASK : Z := Z.shiftl 0x3 16.
Definition CPU_CLK_SRC_SEL_SHIFT : Z := 24.
Definition CPU_CLK_SRC_SEL_MASK : Z := Z.shiftl 0x7 CPU_CLK_SRC_SEL_SHIFT.
Definition CPU_CLK_SRC_SEL (n : Z) : Z := Z.shiftl n CPU_CLK_SRC_SEL_SHIFT.
Definition DSU_CLK_SRC_SEL_SHIFT : Z := 24.
Definition DSU_CLK_SRC_SEL_MASK : Z := Z.shiftl 0x7 DSU_CLK_SRC_SEL_SHIFT.
Definition DSU_FACTOR_MASK : Z := Z.shiftl 0x3 16.
Definition DSU_CLK_SRC_SEL (n : Z) : Z := Z.shiftl n DSU_CLK_SRC_SEL_SHIFT.
Definition CPU_PLL_FACTOR_M1_MASK : Z := 0xf.
Definition CPU_PLL_FACTOR_N_MASK : Z := Z.shiftl 0xff 8.
Definition CPU_PLL_FACTOR_P_MASK : Z := Z.shiftl 0xf 16.
Definition CPU_PLL_FACTOR_M0_MASK : Z := Z.shiftl 0x3 20.
Definition CPU_PLL_FACTOR_MASK : Z :=
  Z.lor (Z.lor (Z.lor CPU_PLL_FACTOR_M1_MASK CPU_PLL_FACTOR_N_MASK) CPU_PLL_FACTOR_P_MASK) CPU_PLL_FACTOR_M0_MASK.

Definition CCU_PLL_REF_REG : Z := CCU_REG_BASE + 0x00.
Definition CCU_PLL_DDR_REG : Z := CCU_REG_BASE + 0x20.
Definition CCU_PLL_PERI0_REG : Z := CCU_REG_BASE + 0xA0.
Definition CCU_PLL_PERI1_REG : Z := CCU_REG_BASE + 0xC0.
Definition CCU_PLL_CPU0_REG : Z := CCU_REG_BASE + 0xE0.
Definition CCU_PLL_VIDEO0_REG : Z := CCU_REG_BASE + 0x120.
Definition CCU_PLL_VIDEO1_REG : Z := CCU_REG_BASE + 0x140.
Definition CCU_PLL_VIDEO2_REG : Z := CCU_REG_BASE + 0x160.
Definition CCU_PLL_VE0_REG : Z := CCU_REG_BASE + 0x220.
Definition CCU_PLL_VE1_REG : Z := CCU_REG_BASE + 0x240.
Definition CCU_PLL_AUDIO0_REG : Z := CCU_REG_BASE + 0x260.
Definition CCU_PLL_AUDIO1_REG : Z := CCU_REG_BASE + 0x280.
Definition CCU_PLL_NPU_REG : Z := CCU_REG_BASE + 0x2A0.
Definition CCU_PLL_DE_REG : Z := CCU_REG_BASE + 0x2E0.
Definition CCU_AHB_CFG_REG : Z := CCU_REG_BASE + 0x500.
Definition CCU_APB0_CFG_REG : Z := CCU_REG_BASE + 0x510.
Definition CCU_APB1_CFG_REG : Z := CCU_REG_BASE + 0x518.
Definition CCU_APB_UART_CFG_REG : Z := CCU_REG_BASE + 0x538.
Definition CCU_TRACE_CFG_REG : Z := CCU_REG_BASE + 0x540.
Definition CCU_GIC_CFG_REG : Z := CCU_REG_BASE + 0x560.
Definition CCU_NSI_CFG_REG : Z := CCU_REG_BASE + 0x580.
Definition CCU_MBUS_CLK_REG : Z := CCU_REG_BASE + 0x588.

Definition CCU_CLK_SRC_SEL_SHIFT : Z := 24.
Definition CCU_FACTOR_M_SHIFT : Z := 0.
Definition CCU_CLK_SRC_SEL_MASK : Z := Z.shiftl 0x7 CCU_CLK_SRC_SEL_SHIFT.
Definition CCU_FACTOR_M_MASK : Z := Z.shiftl 0x3ff CCU_FACTOR_M_SHIFT.
Definition PLL_OUTPUT_ENABLE_MASK : Z := BIT 27.
Definition PLL_LOCK_STATUS_MASK : Z := BIT 28.
Definition PLL_LOCK_ENABLE_MASK : Z := BIT 29.
Definition PLL_LDO_ENABLE_MASK : Z := BIT 30.
Definition PLL_ENABLE_MASK : Z := BIT 31.

Definition SUNXI_SOC_VER_REG : Z := SYS_CFG_REG_BASE + 0x24.
Definition SUNXI_SOC_VER_MASK : Z := 0x7.
Definition SUNXI_SOC_VER_A : Z := 0.
Definition SUNXI_SOC_VER_B : Z := 1.
Definition PLL_CTRL1_REG_OFFSET : Z := 0x144.

(** ** Data *)

Inductive bus_clock_mode :=
| osc_24M | rtc_32k | rc16m | pll_peri0 | clock_bak | ccmu_clk
| prcm_clk | bus_clk | gic_tra_clk | start_clk | close_clk.
#[export] Instance bus_clock_mode_eq_dec : EqDecision bus_clock_mode.
Proof. solve_decision. Defined.
Definition mode_code (m : bus_clock_mode) : Z :=
  match m with
  | osc_24M => 0 | rtc_32k => 1 | rc16m => 2 | pll_peri0 => 3 | clock_bak => 4 | ccmu_clk => 5
  | prcm_clk => 6 | bus_clk => 7 | gic_tra_clk => 8 | start_clk => 9 | close_clk => 10
  end.

Inductive pll_state := pll_disable | pll_enable.

Definition bus_start_tick : nat := 0.
Definition bus_end_tick : nat := 4.
Definition prcm_start_tick : nat := 4.
Definition prcm_end_tick : nat := 7.
Definition nm_start_tick : nat := 0.
Definition nm_end_tick : nat := 2.
Definition tg_start_tick : nat := 2.
Definition tg_end_tick : nat := 4.

Record rPLL_PAMA := PllPama { pll_addr : Z; pll_value : Z }.
Record rBUS_PAMA := BusPama { busAddr : Z; bus_clk_src : Z; bus_M : Z; bus_flag : Z }.

(** The statics that save clocks. *)
Record clk_backup := ClkBackup {
  pll_restore : list rPLL_PAMA;
  bus_restore : list rBUS_PAMA;
  bus_ctl_addr : list Z;
  bus_ctl_value : list Z;
  cpu_pll_restore_bak : list Z;
  cpu_clk_restore_bak : list Z;
  para_has_parsed : Z
}.
Definition clk_initial : clk_backup :=
  ClkBackup (replicate 14 (PllPama 0 0)) (replicate 7 (BusPama 0 0 0 0)) (replicate 4 0) (replicate 4 0)
    (replicate 4 0) (replicate 3 0) 0.

Definition with_plls (l : list rPLL_PAMA) (b : clk_backup) : clk_backup :=
  ClkBackup l (bus_restore b) (bus_ctl_addr b) (bus_ctl_value b) (cpu_pll_restore_bak b)
    (cpu_clk_restore_bak b) (para_has_parsed b).
Definition with_buses (l : list rBUS_PAMA) (b : clk_backup) : clk_backup :=
  ClkBackup (pll_restore b) l (bus_ctl_addr b) (bus_ctl_value b) (cpu_pll_restore_bak b)
    (cpu_clk_restore_bak b) (para_has_parsed b).
Definition with_ctl_value (l : list Z) (b : clk_backup) : clk_backup :=
  ClkBackup (pll_restore b) (bus_restore b) (bus_ctl_addr b) l (cpu_pll_restore_bak b)
    (cpu_clk_restore_bak b) (para_has_parsed b).
Definition with_cpu_plls (l : list Z) (b : clk_backup) : clk_backup :=
  ClkBackup (pll_restore b) (bus_restore b) (bus_ctl_addr b) (bus_ctl_value b) l
    (cpu_clk_restore_bak b) (para_has_parsed b).
Definition with_cpu_clks (l : list Z) (b : clk_backup) : clk_backup :=
  ClkBackup (pll_restore b) (bus_restore b) (bus_ctl_addr b) (bus_ctl_value b) (cpu_pll_restore_bak b)
    l (para_has_parsed b).

Definition with_ctl_addr (l : list Z) (b : clk_backup) : clk_backup :=
  ClkBackup (pll_restore b) (bus_restore b) l (bus_ctl_value b) (cpu_pll_restore_bak b)
    (cpu_clk_restore_bak b) (para_has_parsed b).
Definition with_parsed (v : Z) (b : clk_backup) : clk_backup :=
  ClkBackup (pll_restore b) (bus_restore b) (bus_ctl_addr b) (bus_ctl_value b) (cpu_pll_restore_bak b)
    (cpu_clk_restore_bak b) v.

Section StandbyClk.
Context {C S : Type} `{HPrint : HasPrintf C} `{HInsn : !HasInsn C} `{HCcu : !Part ccu S}
  `{HUart : !Part uart S} `{HTwi : !Part twi S} `{HNotifiers : !Part (list notifier) S}
  `{HPower : !Part power S} `{HParas : !Part standby_paras S} `{HClk : !Part clk_backup S}.
Local Abbreviation M := (M C S).
(** The call-backs of the oscillator's notifier list, and the delays. *)
Context (fuel : nat) (call_pcb : Z -> Z -> Z -> M Z) (time_mdelay time_udelay : Z -> M unit).

Definition clk_vars : M clk_backup := getp.
Definition set_clk (f : clk_backup -> clk_backup) : M unit := let! b := clk_vars in putp (f b).
(** An element of an array. *)
Definition elem {T} (l : list T) (i : nat) : M T :=
  match l !! i with Some x => ret x | None => stop_now Undefined end.

Definition rv_low_power_mode : M unit :=
  let! v := readl BUS_AUTO_CLK_REG in
  writel (Z.land (Z.land v (cnot32 (BIT 0))) (cnot32 (BIT 24))) BUS_AUTO_CLK_REG;;
  let! v := readl DEV_BUS_CTL_REG in
  writel (Z.lor (Z.lor v (BIT 0)) (Z.shiftl 0xf 8)) DEV_BUS_CTL_REG;;
  let! v := readl MSRA_CTL_REG in
  writel (Z.lor v (BIT 0)) MSRA_CTL_REG;;
  let! v := readl R_CPUCFG_REG_BASE in
  writel (Z.land v (cnot32 (BIT 0))) R_CPUCFG_REG_BASE.

(** [pll_restore[i].addr = a], [bus_restore[i].busAddr = a], [bus_ctl_addr[i] = a]. *)
Definition set_pll_addr (i : nat) (a : Z) : M unit :=
  set_clk (fun b => with_plls (alter (fun p => PllPama a (pll_value p)) i (pll_restore b)) b).
Definition set_bus_addr (i : nat) (a : Z) : M unit :=
  set_clk (fun b => with_buses (alter (fun p => BusPama a (bus_clk_src p) (bus_M p) (bus_flag p)) i (bus_restore b)) b).
Definition set_ctl_addr (i : nat) (a : Z) : M unit :=
  set_clk (fun b => with_ctl_addr (<[i := a]> (bus_ctl_addr b)) b).

Definition suspend_para_prepare : M unit :=
  let! b := clk_vars in
  if negb (para_has_parsed b =? 0) then ret tt
  else
    set_pll_addr 0 CCU_PLL_REF_REG;;
    set_pll_addr 1 CCU_PLL_DDR_REG;;
    set_pll_addr 2 CCU_PLL_PERI0_REG;;
    set_pll_addr 3 CCU_PLL_PERI1_REG;;
    set_pll_addr 4 CCU_PLL_CPU0_REG;;
    set_pll_addr 5 CCU_PLL_VIDEO0_REG;;
    set_pll_addr 6 CCU_PLL_VIDEO1_REG;;
    set_pll_addr 7 CCU_PLL_VIDEO2_REG;;
    set_pll_addr 8 CCU_PLL_VE0_REG;;
    set_pll_addr 9 CCU_PLL_VE1_REG;;
    set_pll_addr 10 CCU_PLL_AUDIO0_REG;;
    set_pll_addr 11 CCU_PLL_AUDIO1_REG;;
    set_pll_addr 12 CCU_PLL_NPU_REG;;
    set_pll_addr 13 CCU_PLL_DE_REG;;
    set_bus_addr 0 CCU_AHB_CFG_REG;;
    set_bus_addr 1 CCU_APB0_CFG_REG;;
    set_bus_addr 2 CCU_APB1_CFG_REG;;
    set_bus_addr 3 CCU_APB_UART_CFG_REG;;
    set_bus_addr 4 AHBS_CFG_REG;;
    set_bus_addr 5 APBS0_CFG_REG;;
    set_bus_addr 6 APBS1_CFG_REG;;
    set_ctl_addr 0 CCU_NSI_CFG_REG;;
    set_ctl_addr 1 CCU_MBUS_CLK_REG;;
    set_ctl_addr 2 CCU_GIC_CFG_REG;;
    set_ctl_addr 3 CCU_TRACE_CFG_REG;;
    set_clk (with_parsed 1).

(** ** The oscillator *)

(** [(!standby_osc24m_on) && (!!val)], the register read first. *)
Definition dcxo_switched : M bool :=
  let! v := readl RTC_XO_CTRL_REG in
  let val := Z.land v (BIT 31) in
  let! p := getp in
  ret ((standby_osc24m_on p =? 0) && negb (val =? 0)).
Definition dcxo_disable : M unit :=
  let! b := dcxo_switched in
  if b : bool then let! _ := ccu_24mhosc_disable call_pcb in ret tt else ret tt.
Definition dcxo_enable : M unit :=
  let! b := dcxo_switched in
  if b : bool then let! _ := ccu_24mhosc_enable call_pcb time_mdelay fuel in time_mdelay 1 else ret tt.

(** ** The PLLs *)

Definition pll_at (i : nat) : M rPLL_PAMA := let! b := clk_vars in elem (pll_restore b) i.
Definition save_pll (i : nat) (v : Z) : M unit :=
  set_clk (fun b => with_plls (alter (fun p => PllPama (pll_addr p) v) i (pll_restore b)) b).
Definition pll_saved (p : rPLL_PAMA) : Z := Z.land (pll_value p) (cnot32 PLL_LOCK_STATUS_MASK).

Definition pll_close (i : nat) : M unit :=
  let! p := pll_at i in
  let! v := readl (pll_addr p) in
  save_pll i v;;
  let reg_val := Z.land v (cnot32 (Z.lor (Z.lor (Z.lor PLL_ENABLE_MASK PLL_LDO_ENABLE_MASK)
                   PLL_LOCK_ENABLE_MASK) PLL_OUTPUT_ENABLE_MASK)) in
  writel reg_val (pll_addr p).
(** The output stays closed until all PLLs have locked. *)
Definition pll_open (i : nat) : M Z :=
  let! p := pll_at i in
  let saved := pll_saved p in
  if (Z.land saved PLL_ENABLE_MASK =? 0) || (Z.land saved PLL_LOCK_ENABLE_MASK =? 0) then
    writel saved (pll_addr p);; ret OK
  else
    writel (Z.land saved (cnot32 PLL_OUTPUT_ENABLE_MASK)) (pll_addr p);;
    poll STANDBY_HW_POLL_LIMIT (pll_addr p) (fun v => Z.land v PLL_LOCK_STATUS_MASK =? 0).

(** [n] PLLs from [i] on. *)
Fixpoint pll_loop (sta : pll_state) (n i : nat) : M Z :=
  match n with
  | O => ret OK
  | Datatypes.S n =>
      match sta with
      | pll_disable => pll_close i;; pll_loop sta n (Datatypes.S i)
      | pll_enable =>
          let! r := pll_open i in
          if negb (r =? OK) then ret r else pll_loop sta n (Datatypes.S i)
      end
  end.
Fixpoint pll_outputs (n i : nat) : M unit :=
  match n with
  | O => ret tt
  | Datatypes.S n =>
      let! p := pll_at i in
      writel (pll_saved p) (pll_addr p);;
      pll_outputs n (Datatypes.S i)
  end.
Definition all_pll_set (sta : pll_state) : M Z :=
  let! r := pll_loop sta 14 0 in
  if negb (r =? OK) then ret r
  else
    match sta with
    | pll_enable => time_udelay 20;; pll_outputs 14 0;; ret OK
    | pll_disable => ret OK
    end.

(** ** The buses *)

Definition bus_at (i : nat) : M rBUS_PAMA := let! b := clk_vars in elem (bus_restore b) i.
Definition set_bus (i : nat) (f : rBUS_PAMA -> rBUS_PAMA) : M unit :=
  set_clk (fun b => with_buses (alter f i (bus_restore b)) b).
(** [bus_clk_src], [M] and [flag] are unsigned chars. *)
Definition save_bus (reg_val : Z) (p : rBUS_PAMA) : rBUS_PAMA :=
  BusPama (busAddr p)
    (u8 (Z.shiftr (Z.land reg_val CCU_CLK_SRC_SEL_MASK) CCU_CLK_SRC_SEL_SHIFT))
    (u8 (Z.shiftr (Z.land reg_val CCU_FACTOR_M_MASK) CCU_FACTOR_M_SHIFT)) 1.
Definition clear_flag (p : rBUS_PAMA) : rBUS_PAMA := BusPama (busAddr p) (bus_clk_src p) (bus_M p) 0.

(** One round of the loop: back to the saved source, or to [mode]. *)
Definition set_one_bus (mode : bus_clock_mode) (i : nat) : M unit :=
  let! p := bus_at i in
  let! reg_val := readl (busAddr p) in
  if bool_decide (mode = clock_bak) && negb (bus_flag p =? 0) then
    let reg_val := Z.lor reg_val (Z.shiftl (bus_M p) CCU_FACTOR_M_SHIFT) in
    writel reg_val (busAddr p);;
    let reg_val := Z.land reg_val (cnot32 CCU_CLK_SRC_SEL_MASK) in
    let reg_val := Z.lor reg_val (shl32 (bus_clk_src p) CCU_CLK_SRC_SEL_SHIFT) in
    writel reg_val (busAddr p);;
    set_bus i clear_flag
  else
    (if bus_flag p =? 0 then set_bus i (save_bus reg_val) else ret tt);;
    let reg_val := Z.land reg_val (cnot32 CCU_CLK_SRC_SEL_MASK) in
    let reg_val := Z.lor reg_val (shl32 (mode_code mode) CCU_CLK_SRC_SEL_SHIFT) in
    writel reg_val (busAddr p);;
    let reg_val := Z.land reg_val (cnot32 CCU_FACTOR_M_MASK) in
    writel reg_val (busAddr p).
(** [f] for [n] ticks from [i] on. *)
Fixpoint ticks_loop (f : nat -> M unit) (n i : nat) : M unit :=
  match n with O => ret tt | Datatypes.S n => f i;; ticks_loop f n (Datatypes.S i) end.
Definition bus_clock_set (mode bus : bus_clock_mode) : M unit :=
  let '(start_tick, end_tick) :=
    if bool_decide (bus = ccmu_clk) then (bus_start_tick, bus_end_tick) else (prcm_start_tick, prcm_end_tick) in
  ticks_loop (set_one_bus mode) (end_tick - start_tick) start_tick.

(** One of the NSI, MBUS, GIC and trace clocks. *)
Definition ctl_one_bus (mode : bus_clock_mode) (i : nat) : M unit :=
  let! b := clk_vars in
  let! a := elem (bus_ctl_addr b) i in
  let! reg_val := readl a in
  if bool_decide (mode = clock_bak) then
    let! v := elem (bus_ctl_value b) i in writel v a
  else
    let! _ := elem (bus_ctl_value b) i in
    set_clk (fun b => with_ctl_value (<[i := reg_val]> (bus_ctl_value b)) b);;
    let reg_val := Z.land reg_val (cnot32 (Z.shiftl 0x7 24)) in
    writel reg_val a;;
    let reg_val := Z.land reg_val (cnot32 0x1f) in
    writel reg_val a;;
    let reg_val := Z.land reg_val (cnot32 (BIT 31)) in
    writel reg_val a.
Definition bus_clock_ctl (mode control : bus_clock_mode) : M unit :=
  let '(start_tick, end_tick) :=
    if bool_decide (control = bus_clk) then (nm_start_tick, nm_end_tick) else (tg_start_tick, tg_end_tick) in
  ticks_loop (ctl_one_bus mode) (end_tick - start_tick) start_tick.

(** ** Suspend and resume *)

Definition iosc : M Z := let! c := getp in ret (iosc_freq c).

Definition clk_suspend : M unit :=
  writel RV_CLK_16M RV_24M_CLK_REG;;
  bus_clock_set rc16m ccmu_clk;;
  bus_clock_ctl rc16m bus_clk;;
  bus_clock_ctl rc16m gic_tra_clk;;
  LOG "clk_suspend\n" [];;
  let! freq := iosc in
  let! _ := twi_clkchangecb CCU_CLK_CLKCHG_REQ freq in
  let! freq := iosc in
  let! _ := uart_clkchangecb CCU_CLK_CLKCHG_REQ freq in
  bus_clock_set rc16m prcm_clk;;
  time_mdelay 10;;
  let! freq := iosc in
  let! _ := uart_clkchangecb CCU_CLK_CLKCHG_DONE freq in
  let! freq := iosc in
  let! _ := twi_clkchangecb CCU_CLK_CLKCHG_DONE freq in
  time_mdelay 10;;
  let! _ := all_pll_set pll_disable in
  rv_low_power_mode;;
  dcxo_disable.
Definition clk_suspend_late : M unit := ret tt.
Definition clk_resume_early : M unit := dcxo_enable.
Definition clk_resume : M Z :=
  let! r := all_pll_set pll_enable in
  (if negb (r =? OK) then ERR "PLL restore timeout: %d\n" [N_ r] else ret tt);;
  let! _ := twi_clkchangecb CCU_CLK_CLKCHG_REQ CCU_SYS_CLK24M_FREQ in
  let! _ := uart_clkchangecb CCU_CLK_CLKCHG_REQ CCU_SYS_CLK24M_FREQ in
  bus_clock_set clock_bak prcm_clk;;
  time_mdelay 10;;
  let! _ := uart_clkchangecb CCU_CLK_CLKCHG_DONE CCU_SYS_CLK24M_FREQ in
  let! _ := twi_clkchangecb CCU_CLK_CLKCHG_DONE CCU_SYS_CLK24M_FREQ in
  time_mdelay 10;;
  bus_clock_ctl clock_bak gic_tra_clk;;
  bus_clock_ctl clock_bak bus_clk;;
  bus_clock_set clock_bak ccmu_clk;;
  ret r.

(** ** The CPU clusters *)

(** [writel((readl(reg) & ~clear) | set, reg)] *)
Definition change (reg clear set : Z) : M unit :=
  let! v := readl reg in writel (Z.lor (Z.land v (cnot32 clear)) set) reg.

Definition save_cpu_clk (i : nat) (reg : Z) : M unit :=
  let! v := readl reg in
  set_clk (fun b => with_cpu_clks (<[i := v]> (cpu_clk_restore_bak b)) b).
Definition cpu_pll_close (i : nat) : M unit :=
  let reg := CPU_PLL_REG (Z.of_nat i) in
  let! v := readl reg in
  set_clk (fun b => with_cpu_plls (<[i := v]> (cpu_pll_restore_bak b)) b);;
  change reg CPU_PLL_OUTPUT 0;;
  change reg CPU_PLL_LOCK_EN 0;;
  change reg CPU_PLL_EN 0;;
  change reg CPU_PLL_LDO_EN 0.
Definition cpu_pll_off : M unit :=
  LOG "cpu off \n" [];;
  save_cpu_clk 0 CPUA_CLK_REG;;
  save_cpu_clk 1 CPUB_CLK_REG;;
  save_cpu_clk 2 DSU_CLK_REG;;
  change CPUA_CLK_REG CPU_CLK_SRC_SEL_MASK (CPU_CLK_SRC_SEL 2);;
  change CPUA_CLK_REG CPU_FACTOR_P_MASK 0;;
  change CPUB_CLK_REG CPU_CLK_SRC_SEL_MASK (CPU_CLK_SRC_SEL 2);;
  change CPUB_CLK_REG CPU_FACTOR_P_MASK 0;;
  change DSU_CLK_REG DSU_CLK_SRC_SEL_MASK (DSU_CLK_SRC_SEL 2);;
  change DSU_CLK_REG DSU_FACTOR_MASK 0;;
  ticks_loop cpu_pll_close 4 0.

Definition sunxi_get_soc_ver : M Z :=
  let! value := readl SUNXI_SOC_VER_REG in
  ret (SUNXI_SOC_VER_A + Z.land value SUNXI_SOC_VER_MASK).

(** A saved PLL that was running and locked. *)
Definition was_locked (saved : Z) : bool :=
  negb (Z.land saved CPU_PLL_EN =? 0) && negb (Z.land saved CPU_PLL_LOCK_EN =? 0).
Definition saved_cpu_pll (i : nat) : M Z := let! b := clk_vars in elem (cpu_pll_restore_bak b) i.

Definition cpu_pll_start (i : nat) : M Z :=
  let reg := CPU_PLL_REG (Z.of_nat i) in
  let! saved := saved_cpu_pll i in
  if negb (was_locked saved) then writel (Z.land saved (cnot32 CPU_PLL_LOCK_STATUS)) reg;; ret OK
  else
    set_bits_of reg CPU_PLL_LDO_EN;;
    set_bits_of reg CPU_PLL_OUTPUT;;
    set_bits_of reg CPU_PLL_EN;;
    set_bits_of reg CPU_PLL_LOCK_EN;;
    set_bits_of reg CPU_PLL_UPDATE;;
    poll STANDBY_HW_POLL_LIMIT reg (fun v => Z.land v CPU_PLL_LOCK_STATUS =? 0).
Definition cpu_pll_factors (i : nat) : M Z :=
  let reg := CPU_PLL_REG (Z.of_nat i) in
  let! saved := saved_cpu_pll i in
  if negb (was_locked saved) then ret OK
  else
    change reg CPU_PLL_OUTPUT 0;;
    change reg CPU_PLL_FACTOR_MASK (Z.land saved CPU_PLL_FACTOR_MASK);;
    change reg CPU_PLL_LOCK_EN 0;;
    set_bits_of reg CPU_PLL_LOCK_EN;;
    set_bits_of reg CPU_PLL_UPDATE;;
    let! r := poll STANDBY_HW_POLL_LIMIT reg (fun v => negb (Z.land v CPU_PLL_UPDATE =? 0)) in
    if negb (r =? OK) then ret r
    else
      let! r := poll STANDBY_HW_POLL_LIMIT reg (fun v => Z.land v CPU_PLL_LOCK_STATUS =? 0) in
      if negb (r =? OK) then ret r
      else
        time_mdelay 20;;
        set_bits_of reg CPU_PLL_OUTPUT;;
        ret OK.
(** [f] for [n] PLLs from [i] on, up to the first failure. *)
Fixpoint until_failure (f : nat -> M Z) (n i : nat) : M Z :=
  match n with
  | O => ret OK
  | Datatypes.S n =>
      let! r := f i in if negb (r =? OK) then ret r else until_failure f n (Datatypes.S i)
  end.
(** The clock of a cluster back to the saved divider, then source. *)
Definition cpu_clk_back (i : nat) (reg factor source : Z) : M unit :=
  let! b := clk_vars in
  let! bak := elem (cpu_clk_restore_bak b) i in
  change reg factor (Z.land bak factor);;
  change reg source (Z.land bak source).

Definition pll_ldo_voltage : M unit :=
  let! v := sunxi_get_soc_ver in
  if v =? SUNXI_SOC_VER_A then
    writel 0xA7070025 (CPUSUBSYS_REG_BASE + PLL_CTRL1_REG_OFFSET);;
    writel 0xA7070025 (CPUSUBSYS_REG_BASE + PLL_CTRL1_REG_OFFSET)
  else
    let! v := sunxi_get_soc_ver in
    if v =? SUNXI_SOC_VER_B then
      writel 0xA7060025 (CPUSUBSYS_REG_BASE + PLL_CTRL1_REG_OFFSET);;
      writel 0xA7060025 (CPUSUBSYS_REG_BASE + PLL_CTRL1_REG_OFFSET)
    else ret tt.

Definition cpu_pll_on : M Z :=
  LOG "cpu on \n" [];;
  pll_ldo_voltage;;
  let! r := until_failure cpu_pll_start 4 0 in
  if negb (r =? OK) then ret r
  else
    time_mdelay 20;;
    let! r := until_failure cpu_pll_factors 4 0 in
    if negb (r =? OK) then ret r
    else
      cpu_clk_back 0 CPUA_CLK_REG CPU_FACTOR_P_MASK CPU_CLK_SRC_SEL_MASK;;
      cpu_clk_back 1 CPUB_CLK_REG CPU_FACTOR_P_MASK CPU_CLK_SRC_SEL_MASK;;
      cpu_clk_back 2 DSU_CLK_REG DSU_FACTOR_MASK DSU_CLK_SRC_SEL_MASK;;
      ret OK.
End StandbyClk.
