(* ===== verification/StandbyClkProps.v ===== *)
(** * The clocks survive a standby
    (src/ar100s/service/standby/standby-sun60iw2p1/plat_standby.c)

    What is closed on the way down is what it was on the way up, the PLLs
    except for the lock bit the hardware drives, and no bus runs from its
    saved source with a divider that is not its own. *)

From Stdlib Require Import String.
From S2P Require Import Prelude Machine Console Firmware Notifier Cpucfg Prcm Uart Timer Power Twi TwiProps Rails StandbyClk.

Local Open Scope list_scope.
Local Open Scope Z_scope.
Local Open Scope mach_scope.

(** ** Loops *)

Section Loops.
Context {C S : Type}.
Implicit Types (s : S) (h : history C).

Lemma ticks_loop_inv (f : nat -> M C S unit) (I : nat -> S -> history C -> Prop) e n i s h :
  (forall j s h, (i <= j < i + n)%nat -> I j s h -> wp (f j) e s h (fun _ s' h' => I (Datatypes.S j) s' h') total) ->
  I i s h -> wp (ticks_loop f n i) e s h (fun _ s' h' => I (i + n)%nat s' h') total.
Proof.
  revert i s h. induction n as [|n IH]; intros i s h Hstep Hi; cbn [ticks_loop].
  - apply wp_ret. by rewrite Nat.add_0_r.
  - apply wp_bind. eapply wp_mono; [apply Hstep; [lia|done]|]. intros ? s' h' Hi'.
    eapply wp_mono; [apply (IH (Datatypes.S i)); [|done]|].
    + intros j s1 h1 Hj. apply Hstep. lia.
    + intros ? s1 h1 HI. by rewrite Nat.add_succ_r.
Qed.

(** [G i r] holds when step [i] failed with [r]. *)
Lemma until_failure_inv (f : nat -> M C S Z) (I : nat -> S -> history C -> Prop)
  (G : nat -> Z -> S -> history C -> Prop) e n i s h :
  (forall j s h, (i <= j < i + n)%nat -> I j s h ->
     wp (f j) e s h (fun r s' h' => r = OK /\ I (Datatypes.S j) s' h' \/ r <> OK /\ G j r s' h') total) ->
  I i s h ->
  wp (until_failure f n i) e s h (fun r s' h' => r = OK /\ I (i + n)%nat s' h' \/
    exists j, (i <= j < i + n)%nat /\ r <> OK /\ G j r s' h') total.
Proof.
  revert i s h. induction n as [|n IH]; intros i s h Hstep Hi; cbn [until_failure].
  - apply wp_ret. left. by rewrite Nat.add_0_r.
  - apply wp_bind. eapply wp_mono; [apply Hstep; [lia|done]|]. intros r s' h' [[-> Hi']|[Hr HG]].
    + cbn [negb Z.eqb OK]. eapply wp_mono; [apply (IH (Datatypes.S i)); [|done]|].
      * intros j s1 h1 Hj. apply Hstep. lia.
      * intros r s1 h1 [[-> HI]|(j & Hj & Hr & HG)]; [left|right; exists j; split; [lia|done]].
        by rewrite Nat.add_succ_r.
    + rewrite (proj2 (Z.eqb_neq r OK)) by done. cbn [negb]. apply wp_ret. right. exists i. split; [lia|done].
Qed.

Lemma pll_enable_until `{HClk : !Part clk_backup S} n i : pll_loop (C := C) pll_enable n i = until_failure pll_open n i.
Proof. revert i. induction n as [|n IH]; intros i; cbn; [done|]. unfold bind. by rewrite <- IH. Qed.
End Loops.

(** ** Registers and fields *)

(** The register map that boot0 is built with, not the one of the code verified
    here (src/include/arch/sun60iw2p1/cpu_autogen.h and clock_autogen.h): the
    PLLs REF, DDR, PERI0, PERI1, GPU0, VIDEO0 to VIDEO2, VE0, VE1, AUDIO0,
    AUDIO1 (behind AUDIO0, not in that map), NPU and DE; the AHB, APB0, APB1
    and APB_UART clocks and the three bus clocks of the PRCM; NSI, MBUS, GIC
    and trace. *)
Definition pll_regs : list Z :=
  [0x02002000; 0x02002020; 0x020020a0; 0x020020c0; 0x020020e0; 0x02002120; 0x02002140; 0x02002160;
   0x02002220; 0x02002240; 0x02002260; 0x02002280; 0x020022a0; 0x020022e0].
Definition bus_regs : list Z :=
  [0x02002500; 0x02002510; 0x02002518; 0x02002538; 0x07010000; 0x0701000c; 0x07010010].
Definition bus_ctl_regs : list Z := [0x02002580; 0x02002588; 0x02002560; 0x02002540].

Definition clock_regs : list Z := pll_regs ++ bus_regs ++ bus_ctl_regs.
Lemma clock_regs_nodup : NoDup clock_regs.
Proof. apply (bool_decide_unpack _). by vm_compute. Qed.
Lemma pll_regs_nodup : NoDup pll_regs.
Proof. apply (bool_decide_unpack _). by vm_compute. Qed.
Lemma bus_regs_nodup : NoDup bus_regs.
Proof. apply (bool_decide_unpack _). by vm_compute. Qed.
Lemma bus_ctl_regs_nodup : NoDup bus_ctl_regs.
Proof. apply (bool_decide_unpack _). by vm_compute. Qed.

(** The lock bit belongs to the hardware. *)
Definition unlocked (v : Z) : Z := Z.land v (cnot32 PLL_LOCK_STATUS_MASK).
(** A PLL that was running with its lock detector on. *)
Definition locking (v : Z) : bool :=
  negb (Z.land (unlocked v) PLL_ENABLE_MASK =? 0) && negb (Z.land (unlocked v) PLL_LOCK_ENABLE_MASK =? 0).
Definition closed (v : Z) : Z :=
  Z.land v (cnot32 (Z.lor (Z.lor (Z.lor PLL_ENABLE_MASK PLL_LDO_ENABLE_MASK) PLL_LOCK_ENABLE_MASK)
                      PLL_OUTPUT_ENABLE_MASK)).
(** Restored, its output still closed. *)
Definition opened (v : Z) : Z :=
  if locking v then Z.land (unlocked v) (cnot32 PLL_OUTPUT_ENABLE_MASK) else unlocked v.

(** The fields of a bus clock, the 16 MHz source, and a register parked there. *)
Definition source (v : Z) : Z := Z.land v CCU_CLK_SRC_SEL_MASK.
Definition divider (v : Z) : Z := Z.land v CCU_FACTOR_M_MASK.
Definition slow_source : Z := shl32 (mode_code rc16m) CCU_CLK_SRC_SEL_SHIFT.
Definition on_slow (v : Z) : Z := Z.lor (Z.land v (cnot32 CCU_CLK_SRC_SEL_MASK)) slow_source.
Definition parked (v : Z) : Z := Z.land (on_slow v) (cnot32 CCU_FACTOR_M_MASK).
(** No other divider under a source that may be fast. *)
Definition bus_safe (v w : Z) : Prop := source w = slow_source \/ divider w = divider v.

(** What is saved of the two fields, as unsigned chars. *)
Definition saved_source (v : Z) : Z := u8 (Z.shiftr (source v) CCU_CLK_SRC_SEL_SHIFT).
Definition saved_divider (v : Z) : Z := u8 (Z.shiftr (divider v) CCU_FACTOR_M_SHIFT).

Lemma source_bits v n : 0 <= n -> Z.testbit (source v) n = Z.testbit v n && ((24 <=? n) && (n <? 27)).
Proof.
  intros Hn. unfold source, CCU_CLK_SRC_SEL_MASK, CCU_CLK_SRC_SEL_SHIFT. change 0x7 with (Z.ones 3).
  rewrite Z.land_spec, Z.shiftl_spec by lia. f_equal. destruct (Z.leb_spec 24 n); cbn [andb].
  - rewrite Z.testbit_ones_nonneg by lia. destruct (Z.ltb_spec (n - 24) 3), (Z.ltb_spec n 27); lia || done.
  - by rewrite Z.testbit_neg_r by lia.
Qed.
Lemma divider_bits v n : 0 <= n -> Z.testbit (divider v) n = Z.testbit v n && (n <? 10).
Proof.
  intros Hn. unfold divider, CCU_FACTOR_M_MASK, CCU_FACTOR_M_SHIFT. rewrite Z.shiftl_0_r. change 0x3ff with (Z.ones 10).
  by rewrite Z.land_spec, Z.testbit_ones_nonneg by lia.
Qed.
Lemma source_mask_bits n : 0 <= n -> Z.testbit CCU_CLK_SRC_SEL_MASK n = (24 <=? n) && (n <? 27).
Proof.
  intros Hn. rewrite <- (andb_true_l (_ && _)), <- (Z.bits_m1 n Hn), <- source_bits by done.
  unfold source. by rewrite Z.land_m1_l.
Qed.
Lemma divider_mask_bits n : 0 <= n -> Z.testbit CCU_FACTOR_M_MASK n = (n <? 10).
Proof.
  intros Hn. rewrite <- (andb_true_l (n <? 10)), <- (Z.bits_m1 n Hn), <- divider_bits by done.
  unfold divider. by rewrite Z.land_m1_l.
Qed.
Lemma slow_bits n : 0 <= n -> Z.testbit slow_source n = (n =? 25).
Proof.
  intros Hn. unfold slow_source, shl32. rewrite testbit_u32 by done. cbn [mode_code].
  change (Z.shiftl 2 CCU_CLK_SRC_SEL_SHIFT) with (BIT 25). rewrite testbit_BIT by lia. case_bool_decide as H.
  - subst. done.
  - rewrite (proj2 (Z.eqb_neq n 25)) by done. apply andb_false_r.
Qed.

(** Bits of the expressions above; comparisons of the position are decided. *)
Ltac field_bits :=
  bitwise; unfold source, divider; rewrite ?Z.land_spec, ?source_mask_bits, ?divider_mask_bits, ?slow_bits by lia;
  repeat match goal with
  | |- context [?a <? ?b] => destruct (Z.ltb_spec a b); try lia
  | |- context [?a <=? ?b] => destruct (Z.leb_spec a b); try lia
  | |- context [?a =? ?b] => destruct (Z.eqb_spec a b); try lia
  end; cbn; rewrite ?andb_true_r, ?andb_false_r, ?orb_false_r; try done.

Lemma on_slow_source v : source (on_slow v) = slow_source.
Proof. unfold on_slow, source. field_bits. Qed.
Lemma parked_source v : source (parked v) = slow_source.
Proof. unfold parked, on_slow, source. field_bits. Qed.
Lemma on_slow_divider v : is_u32 v -> divider (on_slow v) = divider v.
Proof. intros Hv. unfold on_slow, divider. field_bits. Qed.

Lemma saved_source_shl v : is_u32 v -> shl32 (saved_source v) CCU_CLK_SRC_SEL_SHIFT = source v.
Proof.
  intros Hv. unfold saved_source, CCU_CLK_SRC_SEL_SHIFT.
  assert (Z.shiftr (source v) 24 = Z.land (Z.shiftr v 24) 7) as ->.
  { apply Z.bits_inj'. intros n Hn. change 7 with (Z.ones 3).
    rewrite Z.shiftr_spec, source_bits, Z.land_spec, Z.shiftr_spec, Z.testbit_ones_nonneg by lia. f_equal.
    destruct (Z.leb_spec 24 (n + 24)); [|lia]. cbn. destruct (Z.ltb_spec (n + 24) 27), (Z.ltb_spec n 3); lia || done. }
  change 7 with (Z.ones 3). assert (u8 (Z.land (Z.shiftr v 24) (Z.ones 3)) = Z.land (Z.shiftr v 24) (Z.ones 3)) as ->.
  { rewrite Z.land_ones by lia. apply u8_id. unfold is_u8.
    pose proof (Z.mod_pos_bound (Z.shiftr v 24) (2 ^ 3)). lia. }
  unfold shl32. apply Z.bits_inj'. intros n Hn. rewrite testbit_u32, Z.shiftl_spec, source_bits by lia.
  destruct (Z.leb_spec 24 n) as [Hle|Hlt].
  - rewrite Z.land_spec, Z.shiftr_spec, Z.testbit_ones_nonneg by lia. rewrite Z.sub_add.
    destruct (Z.ltb_spec (n - 24) 3), (Z.ltb_spec n 27), (Z.ltb_spec n 32); try lia; cbn; by rewrite ?andb_false_r, ?andb_true_r.
  - rewrite (Z.testbit_neg_r _ (n - 24)) by lia. by rewrite !andb_false_r.
Qed.
Lemma saved_divider_eq v : divider v < 256 -> is_u32 v -> saved_divider v = divider v.
Proof.
  intros Hd Hv. unfold saved_divider, CCU_FACTOR_M_SHIFT. rewrite Z.shiftr_0_r. apply u8_id. unfold is_u8.
  assert (0 <= divider v); [|lia]. apply Z.land_nonneg. left. apply Hv.
Qed.

(** Back: first the divider, then the source. *)
Lemma unpark_divider v : is_u32 v -> divider v < 256 ->
  Z.lor (parked v) (Z.shiftl (saved_divider v) CCU_FACTOR_M_SHIFT) = on_slow v.
Proof.
  intros Hv Hd. rewrite saved_divider_eq by done. unfold CCU_FACTOR_M_SHIFT. rewrite Z.shiftl_0_r.
  unfold parked, on_slow, divider. field_bits; by rewrite orb_diag || (by destruct (Z.testbit v n)) || idtac.
Qed.
Lemma unpark_source v : is_u32 v ->
  Z.lor (Z.land (on_slow v) (cnot32 CCU_CLK_SRC_SEL_MASK)) (shl32 (saved_source v) CCU_CLK_SRC_SEL_SHIFT) = v.
Proof.
  intros Hv. rewrite saved_source_shl by done. unfold on_slow. bitwise. rewrite source_bits, source_mask_bits, slow_bits by lia.
  destruct (Z.ltb_spec n 32) as [H|H]; [|by rewrite !andb_false_r, (testbit_is_u32 v n)].
  destruct (Z.leb_spec 24 n), (Z.ltb_spec n 27), (Z.eqb_spec n 25); try lia; cbn;
    rewrite ?andb_false_r, ?andb_true_r, ?orb_false_r; done.
Qed.
Lemma on_slow_u32 v : is_u32 v -> is_u32 (on_slow v).
Proof.
  intros Hv. apply is_u32_lor; [|apply shl32_range]. apply is_u32_land_l; [done|apply is_u32_nonneg, cnot32_range].
Qed.
Lemma parked_u32 v : is_u32 v -> is_u32 (parked v).
Proof. intros Hv. apply is_u32_land_l; [by apply on_slow_u32|apply is_u32_nonneg, cnot32_range]. Qed.

(** ** The PLLs *)

Lemma alter_zip {A B T} (g : A -> B -> T) (f : T -> T) l k i a y :
  l !! i = Some a -> f (g a (nth i k y)) = g a y -> length l = length k ->
  alter f i (zip_with g l k) = zip_with g l (<[i := y]> k).
Proof.
  revert k i. induction l as [|a' l IH]; intros [|y' k] [|i]; cbn; intros Ha Hf Hlen; try done.
  - injection Ha as ->. by rewrite Hf.
  - f_equal. apply IH; [done..|lia].
Qed.

Lemma alter_at {T} (f : T -> T) (l : list T) i x : l !! i = Some x -> alter f i l = <[i := f x]> l.
Proof.
  intros Hx. rewrite list_insert_alter. apply list_alter_ext; [|done]. intros y Hy. congruence.
Qed.

(** Values for distinct keys are a function of them. *)
Lemma values_at (l vs : list Z) : NoDup l -> length vs = length l -> exists v, vs = map v l.
Proof.
  revert vs. induction l as [|a l IH]; intros [|w vs] Hnd Hlen; try discriminate Hlen; [by exists id|].
  apply NoDup_cons in Hnd as [Ha Hnd]. destruct (IH vs Hnd ltac:(by injection Hlen)) as [v ->].
  exists (fun x => if x =? a then w else v x). cbn [map]. rewrite Z.eqb_refl. f_equal. apply map_ext_in. intros x Hx.
  destruct (Z.eqb_spec x a) as [->|]; [|done]. destruct Ha. by apply list_elem_of_In.
Qed.

Section Clocks.
Context {C S : Type} `{HPrint : HasPrintf C} `{HClk : !Part clk_backup S} (init : Z -> Z) (e : env C).
Implicit Types (s : S) (h : history C) (b : clk_backup).

Lemma wp_clk_vars b s0 s h (Q : clk_backup -> S -> history C -> Prop) K :
  s = set_part b s0 -> Q b s h -> wp clk_vars e s h Q K.
Proof. intros -> HQ. apply wp_getp. by rewrite part_set. Qed.
Lemma wp_set_clk f b s0 s h (Q : unit -> S -> history C -> Prop) K :
  s = set_part b s0 -> Q tt (set_part (f b) s0) h -> wp (set_clk f) e s h Q K.
Proof. intros -> HQ. apply wp_bind, wp_getp, wp_putp. by rewrite part_set, set_set. Qed.
Lemma wp_elem {T} (l : list T) i x s h (Q : T -> S -> history C -> Prop) K :
  l !! i = Some x -> Q x s h -> wp (elem l i) e s h Q K.
Proof. intros Hx HQ. unfold elem. rewrite Hx. by apply wp_ret. Qed.

Lemma regval_reads reg vs h a : regval init (map (Rd (C := C) reg) vs ++ h) a = regval init h a.
Proof. induction vs; done. Qed.

Definition plls_of (vs : list Z) : list rPLL_PAMA := zip_with PllPama pll_regs vs.

Lemma wp_pll_at vs i a v b s0 s h (Q : rPLL_PAMA -> S -> history C -> Prop) K :
  s = set_part (with_plls (plls_of vs) b) s0 -> pll_regs !! i = Some a -> vs !! i = Some v ->
  Q (PllPama a v) s h -> wp (pll_at i) e s h Q K.
Proof.
  intros Hs Ha Hv HQ. apply wp_bind. eapply wp_clk_vars; [exact Hs|]. apply (wp_elem _ _ (PllPama a v)); [|done].
  change (pll_restore (with_plls (plls_of vs) b)) with (plls_of vs). unfold plls_of. by rewrite lookup_zip_with, Ha, Hv.
Qed.

Definition pll_write (x w : Z) : Prop := x ∈ pll_regs.
Lemma pll_write_one i a w h : pll_regs !! i = Some a -> extends pll_write h (Wr a w :: h).
Proof.
  intros Ha. apply extends_cons; [|apply extends_refl]. intros x v [[= <- <-]|]; [|done]. by eapply list_elem_of_lookup_2.
Qed.
Lemma pll_write_other x h h' : extends pll_write h h' -> x ∉ pll_regs -> regval init h' x = regval init h x.
Proof. intros Hx Hn. eapply regval_extends; [exact Hx|]. by intros v Hv. Qed.

(** Saved: [v] is the register's value but for the lock bit. *)
Definition pll_saved_as (before : Z -> Z) (a v : Z) : Prop := is_u32 v /\ unlocked v = unlocked (u32 (before a)).

Hypothesis Hpll : forall a, a ∈ pll_regs -> plain_but e init a PLL_LOCK_STATUS_MASK.

Lemma pll_close_spec vs i a b s0 s h :
  s = set_part (with_plls (plls_of vs) b) s0 -> length vs = 14%nat -> pll_regs !! i = Some a ->
  wp (pll_close i) e s h (fun _ s' h' => exists v, pll_saved_as (regval init h) a v /\
    s' = set_part (with_plls (plls_of (<[i := v]> vs)) b) s0 /\
    extends pll_write h h' /\ forall x, regval init h' x = if x =? a then closed v else regval init h x) total.
Proof.
  intros Hs Hlen Ha. assert (i < length vs)%nat as Hi by (rewrite Hlen; apply (lookup_lt_Some _ _ _ Ha)).
  destruct (lookup_lt_is_Some_2 vs i Hi) as [v0 Hv0].
  apply wp_bind. eapply wp_pll_at; [done..|]. cbn [pll_addr].
  apply wp_bind, wp_readl. intros v Hu Ev. apply wp_bind. eapply wp_set_clk; [exact Hs|].
  apply wp_writel. exists v. split_and!.
  - split; [done|]. rewrite Ev. apply Hpll. by eapply list_elem_of_lookup_2.
  - f_equal. change (with_plls (alter (fun p => PllPama (pll_addr p) v) i (plls_of vs)) b
                         = with_plls (plls_of (<[i := v]> vs)) b).
    f_equal. eapply alter_zip; [exact Ha|done|by rewrite Hlen].
  - eapply pll_write_one in Ha. eapply extends_trans; [|exact Ha]. apply extends_cons; [by intros ? ? []|apply extends_refl].
  - done.
Qed.

(** The registers after [n] of them have been closed. *)
Definition closing (vs : list Z) b s0 h0 (n : nat) s h : Prop :=
  exists vs', length vs' = 14%nat /\ s = set_part (with_plls (plls_of vs') b) s0 /\ extends pll_write h0 h /\
    forall k a, pll_regs !! k = Some a ->
      if (k <? n)%nat then exists v, vs' !! k = Some v /\ pll_saved_as (regval init h0) a v /\ regval init h a = closed v
      else regval init h a = regval init h0 a.

Lemma index_ne (l : list Z) i k x y : NoDup l -> l !! i = Some x -> l !! k = Some y -> i <> k -> x <> y.
Proof. intros Hnd Hi Hk Hne ->. apply Hne. by eapply NoDup_lookup. Qed.

Lemma closing_step vs b s0 h0 n s h : (n < 14)%nat -> closing vs b s0 h0 n s h ->
  wp (pll_close n) e s h (fun _ s' h' => closing vs b s0 h0 (Datatypes.S n) s' h') total.
Proof.
  intros Hn (vs' & Hlen & Hs & Hext & Hregs). destruct (lookup_lt_is_Some_2 pll_regs n Hn) as [a Ha].
  eapply wp_mono; [by eapply pll_close_spec|]. intros ? s' h' (v & [Hu Hsaved] & Hs' & Hext' & Hr).
  pose proof (Hregs n a Ha) as Hna. rewrite Nat.ltb_irrefl in Hna. rewrite Hna in Hsaved.
  exists (<[n := v]> vs'). rewrite length_insert. split_and!; [done|done|by eapply extends_trans|].
  intros k y Hy. rewrite Hr. destruct (Nat.ltb_spec k (Datatypes.S n)) as [Hlt|Hge].
  - destruct (decide (k = n)) as [->|Hne].
    + assert (y = a) as -> by congruence. rewrite Z.eqb_refl. exists v. split_and!; [|done|done].
      apply list_lookup_insert_eq. by rewrite Hlen.
    + rewrite (proj2 (Z.eqb_neq y a)) by (eapply index_ne; [apply pll_regs_nodup|done..]).
      specialize (Hregs k y Hy). rewrite (proj2 (Nat.ltb_lt k n)) in Hregs by lia.
      destruct Hregs as (w & Hw & Hrest). exists w. by rewrite list_lookup_insert_ne.
  - rewrite (proj2 (Z.eqb_neq y a)) by (eapply index_ne; [apply pll_regs_nodup|done|done|lia]).
    specialize (Hregs k y Hy). by rewrite (proj2 (Nat.ltb_ge k n)) in Hregs by lia.
Qed.

Lemma closing_loop vs b s0 h0 n i s h : (i + n <= 14)%nat -> closing vs b s0 h0 i s h ->
  wp (pll_loop pll_disable n i) e s h (fun r s' h' => r = OK /\ closing vs b s0 h0 (i + n) s' h') total.
Proof.
  revert i s h. induction n as [|n IH]; intros i s h Hn Hc; cbn [pll_loop].
  - apply wp_ret. by rewrite Nat.add_0_r.
  - apply wp_bind. eapply wp_mono; [apply closing_step; [lia|done]|]. intros ? s' h' Hc'.
    eapply wp_mono; [apply IH; [lia|done]|]. intros r s1 h1 Hr. by rewrite Nat.add_succ_r.
Qed.

(** The saved PLLs, [v a] for the one at [a]. *)
Definition plls_at (v : Z -> Z) : list rPLL_PAMA := map (fun a => PllPama a (v a)) pll_regs.
Definition plls_ready b : Prop := exists vs, length vs = 14%nat /\ pll_restore b = plls_of vs.

Lemma plls_of_at vs : length vs = 14%nat -> exists v, vs = map v pll_regs /\ plls_of vs = plls_at v.
Proof.
  intros Hlen. destruct (values_at pll_regs vs pll_regs_nodup Hlen) as [v ->]. exists v. split; [done|].
  unfold plls_of, plls_at. generalize pll_regs. intros l. induction l as [|a l IH]; [done|]. cbn [map zip_with]. by rewrite IH.
Qed.

Lemma all_pll_disable_spec time_udelay b s0 s h : s = set_part b s0 -> plls_ready b ->
  wp (all_pll_set time_udelay pll_disable) e s h (fun r s' h' => r = OK /\ extends pll_write h h' /\
    exists v, s' = set_part (with_plls (plls_at v) b) s0 /\
      forall a, a ∈ pll_regs -> pll_saved_as (regval init h) a (v a) /\ regval init h' a = closed (v a)) total.
Proof.
  intros Hs (vs & Hlen & Hb). apply wp_bind. eapply wp_mono.
  { apply (closing_loop vs b s0 h 14 0); [done|]. exists vs. split_and!; [done| |apply extends_refl|done].
    rewrite <- Hb, Hs. by destruct b. }
  intros r s' h' (-> & vs' & Hlen' & Hs' & Hext & Hregs). cbn [negb Z.eqb OK]. apply wp_ret.
  destruct (plls_of_at vs' Hlen') as (v & Hv & Hat). split_and!; [done|done|]. exists v. rewrite <- Hat. split; [done|].
  intros a Ha. apply list_elem_of_lookup in Ha as [k Ha]. specialize (Hregs k a Ha).
  pose proof (lookup_lt_Some _ _ _ Ha) as Hk. change (length pll_regs) with 14%nat in Hk.
  rewrite (proj2 (Nat.ltb_lt k (0 + 14))) in Hregs by lia. destruct Hregs as (w & Hw & Hrest).
  rewrite Hv, list_lookup_fmap, Ha in Hw. by injection Hw as <-.
Qed.

(** *** Reopening *)

Lemma pll_saved_unlocked a v : pll_saved (PllPama a v) = unlocked v.
Proof. done. Qed.
Lemma locking_eq v :
  ((Z.land (unlocked v) PLL_ENABLE_MASK =? 0) || (Z.land (unlocked v) PLL_LOCK_ENABLE_MASK =? 0)) = negb (locking v).
Proof. unfold locking. by destruct (_ =? 0), (_ =? 0). Qed.

Definition not_locked : Z -> bool := fun v => Z.land v PLL_LOCK_STATUS_MASK =? 0.

(** Since [h0] the PLL at [a] was given [v] back, but for the output, and then
    looked at for its lock, with the result [r]. *)
Definition tried h0 (a v r : Z) h : Prop := exists new mid h2, h = new ++ h2 /\
  polled a not_locked STANDBY_HW_POLL_LIMIT r (Wr a (opened v) :: mid ++ h0) h2.
Lemma tried_later h0 a v r h new : tried h0 a v r h -> tried h0 a v r (new ++ h).
Proof. intros (x & mid & h2 & -> & Hp). exists (new ++ x), mid, h2. by rewrite app_assoc. Qed.
Lemma tried_earlier h0 a v r h mid : tried (mid ++ h0) a v r h -> tried h0 a v r h.
Proof. intros (x & y & h2 & -> & Hp). exists x, (y ++ mid), h2. by rewrite <- app_assoc. Qed.

Lemma pll_open_spec vs i a v b s0 s h :
  s = set_part (with_plls (plls_of vs) b) s0 -> pll_regs !! i = Some a -> vs !! i = Some v ->
  wp (pll_open i) e s h (fun r s' h' => s' = s /\ extends pll_write h h' /\
    (forall x, regval init h' x = if x =? a then opened v else regval init h x) /\
    (r = OK \/ r = - ETIMEOUT /\ locking v = true) /\ (locking v = true -> tried h a v r h')) total.
Proof.
  intros Hs Ha Hv. apply wp_bind. eapply wp_pll_at; [done..|]. cbn [pll_addr]. rewrite pll_saved_unlocked.
  rewrite locking_eq. unfold opened at 1. destruct (locking v) eqn:El; cbn [negb].
  - apply wp_bind, wp_writel. eapply wp_mono; [apply poll_spec|]. intros r s' h' [-> Hp]. split; [done|]. split_and!.
    + destruct Hp as (l & -> & _). eapply extends_trans; [by eapply pll_write_one|].
      induction l as [|w l IH]; [apply extends_refl|]. apply extends_cons; [by intros ? ? []|exact IH].
    + destruct Hp as (l & -> & _). intros x. by rewrite regval_reads.
    + by destruct Hp as (l & Hl & [[-> _]|[-> Hrest]]); [left|right].
    + intros _. exists [], [], h'. split; [done|]. unfold opened. rewrite El. exact Hp.
  - apply wp_bind, wp_writel, wp_ret. split_and!; [done|by eapply pll_write_one|done|by left|done].
Qed.

(** [n] PLLs reopened; the others as they were. *)
Definition opening (vs : list Z) s0 h0 (n : nat) s h : Prop :=
  s = s0 /\ extends pll_write h0 h /\
  forall k a v, pll_regs !! k = Some a -> vs !! k = Some v ->
    regval init h a = (if (k <? n)%nat then opened v else regval init h0 a) /\
    ((k < n)%nat -> locking v = true -> tried h0 a v OK h).
Definition stuck (vs : list Z) s0 h0 (n : nat) (r : Z) s h : Prop :=
  r = - ETIMEOUT /\ s = s0 /\ extends pll_write h0 h /\
  (exists a v, pll_regs !! n = Some a /\ vs !! n = Some v /\ locking v = true /\ tried h0 a v r h) /\
  forall k a v, pll_regs !! k = Some a -> vs !! k = Some v ->
    regval init h a = (if (k <=? n)%nat then opened v else regval init h0 a) /\
    ((k < n)%nat -> locking v = true -> tried h0 a v OK h).

Lemma opening_step vs b s1 s0 h0 n s h : (n < 14)%nat -> length vs = 14%nat ->
  s0 = set_part (with_plls (plls_of vs) b) s1 -> opening vs s0 h0 n s h ->
  wp (pll_open n) e s h (fun r s' h' => r = OK /\ opening vs s0 h0 (Datatypes.S n) s' h' \/
    r <> OK /\ stuck vs s0 h0 n r s' h') total.
Proof.
  intros Hn Hlen Hs0 (-> & Hext & Hregs).
  destruct (lookup_lt_is_Some_2 pll_regs n Hn) as [a Ha].
  destruct (lookup_lt_is_Some_2 vs n ltac:(by rewrite Hlen)) as [v Hv].
  eapply wp_mono; [by eapply pll_open_spec|]. intros r s' h' (-> & Hext' & Hr & Hcase & Htry).
  assert (locking v = true -> tried h0 a v r h') as Htry'.
  { intros Hl. destruct Hext as (mid & -> & _). by apply (tried_earlier _ _ _ _ _ mid), Htry. }
  assert (extends pll_write h0 h') as Hext0 by by eapply extends_trans.
  assert (forall k y w, pll_regs !! k = Some y -> vs !! k = Some w ->
    regval init h' y = (if (k <=? n)%nat then opened w else regval init h0 y) /\
    ((k < n)%nat -> locking w = true -> tried h0 y w OK h')) as Hopen.
  { intros k y w Hy Hw. rewrite Hr. destruct (Hregs k y w Hy Hw) as [Hreg Hok]. split.
    - destruct (decide (k = n)) as [->|Hne].
      + assert (y = a) as -> by congruence. assert (w = v) as -> by congruence. by rewrite Z.eqb_refl, Nat.leb_refl.
      + rewrite (proj2 (Z.eqb_neq y a)) by (eapply index_ne; [apply pll_regs_nodup|done..]).
        rewrite Hreg. destruct (Nat.ltb_spec k n), (Nat.leb_spec k n); done || lia.
    - intros Hk Hl. destruct Hext' as (new & -> & _). by apply tried_later, Hok. }
  destruct Hcase as [->|[-> Hl]]; [left|right]; (split; [done|]).
  - split_and!; [done|done|]. intros k y w Hy Hw. destruct (Hopen k y w Hy Hw) as [Hreg Hok]. split.
    + rewrite Hreg. destruct (Nat.leb_spec k n), (Nat.ltb_spec k (Datatypes.S n)); done || lia.
    + intros Hk Hl. destruct (decide (k = n)) as [->|Hne]; [|apply Hok; [lia|done]].
      assert (y = a) as -> by congruence. assert (w = v) as -> by congruence. by apply Htry'.
  - split_and!; [done..| |exact Hopen]. exists a, v. split_and!; [done..|by apply Htry'].
Qed.

Lemma outputs_loop vs b n i s0 s h : (i + n <= 14)%nat -> length vs = 14%nat -> s = set_part (with_plls (plls_of vs) b) s0 ->
  wp (pll_outputs n i) e s h (fun _ s' h' => s' = s /\ extends pll_write h h' /\
    forall k a v, pll_regs !! k = Some a -> vs !! k = Some v ->
      regval init h' a = if (i <=? k)%nat && (k <? i + n)%nat then unlocked v else regval init h a) total.
Proof.
  revert i h. induction n as [|n IH]; intros i h Hn Hlen Hs; cbn [pll_outputs].
  - apply wp_ret. split_and!; [done|apply extends_refl|]. intros k a v _ _. rewrite Nat.add_0_r.
    destruct (Nat.leb_spec i k), (Nat.ltb_spec k i); done || lia.
  - destruct (lookup_lt_is_Some_2 pll_regs i ltac:(change (length pll_regs) with 14%nat; lia)) as [a Ha].
    destruct (lookup_lt_is_Some_2 vs i ltac:(lia)) as [v Hv].
    apply wp_bind. eapply wp_pll_at; [done..|]. rewrite pll_saved_unlocked. cbn [pll_addr]. apply wp_bind, wp_writel.
    eapply wp_mono; [apply IH; [lia|done|done]|]. intros ? s' h' (-> & Hext & Hregs).
    split_and!; [done|eapply extends_trans; [by eapply pll_write_one|exact Hext]|].
    intros k y w Hy Hw. rewrite (Hregs k y w Hy Hw). destruct (decide (k = i)) as [->|Hne].
    + assert (y = a) as -> by congruence. assert (w = v) as -> by congruence.
      rewrite (proj2 (Nat.leb_gt (Datatypes.S i) i)), Nat.leb_refl, (proj2 (Nat.ltb_lt i (i + Datatypes.S n))) by lia.
      cbn [andb]. apply regval_Wr_eq.
    + rewrite regval_Wr_ne by (eapply index_ne; [apply pll_regs_nodup|done..]).
      destruct (Nat.leb_spec (Datatypes.S i) k), (Nat.leb_spec i k), (Nat.ltb_spec k (Datatypes.S i + n)),
        (Nat.ltb_spec k (i + Datatypes.S n)); done || lia.
Qed.

(** ** The buses *)

Hypothesis Hbus : forall a, a ∈ bus_regs ++ bus_ctl_regs -> plain e init a.

Lemma wp_readl_word a s h (Q : Z -> S -> history C -> Prop) K :
  a ∈ bus_regs ++ bus_ctl_regs -> is_u32 (regval init h a) ->
  Q (regval init h a) s (Rd a (regval init h a) :: h) -> wp (readl a) e s h Q K.
Proof.
  intros Ha Hu HQ. apply wp_readl. intros v _ ->. rewrite (proj2 (Hbus a Ha)), u32_id by done. done.
Qed.

(** An entry that is free, and one that holds [v]. *)
Definition free_bus (a : Z) (p : rBUS_PAMA) : Prop := busAddr p = a /\ bus_flag p = 0.
Definition saved_bus (a v : Z) : rBUS_PAMA := BusPama a (saved_source v) (saved_divider v) 1.

Lemma park_bus_spec bs i a p b s0 s h :
  s = set_part (with_buses bs b) s0 -> bus_regs !! i = Some a -> bs !! i = Some p -> free_bus a p -> is_u32 (regval init h a) ->
  wp (set_one_bus rc16m i) e s h (fun _ s' h' => let v := regval init h a in
    s' = set_part (with_buses (<[i := saved_bus a v]> bs) b) s0 /\
    h' = Wr a (parked v) :: Wr a (on_slow v) :: Rd a v :: h) total.
Proof.
  intros Hs Ha Hp [Hpa Hpf] Hu. apply wp_bind, wp_bind. eapply wp_clk_vars; [exact Hs|].
  eapply wp_elem; [exact Hp|]. rewrite Hpa. apply wp_bind. apply wp_readl_word; [|done|].
  { apply elem_of_app. left. by eapply list_elem_of_lookup_2. }
  rewrite Hpf. rewrite (bool_decide_eq_false_2 (rc16m = clock_bak)) by done. cbn [andb negb Z.eqb].
  apply wp_bind. eapply wp_set_clk; [exact Hs|]. apply wp_bind, wp_writel, wp_writel. split; [|done].
  f_equal. change (with_buses (alter (save_bus (regval init h a)) i bs) b
                       = with_buses (<[i := saved_bus a (regval init h a)]> bs) b).
  f_equal. rewrite (alter_at _ _ _ p Hp). unfold save_bus. by rewrite Hpa.
Qed.

Lemma unpark_bus_spec bs i a v b s0 s h :
  s = set_part (with_buses bs b) s0 -> bus_regs !! i = Some a -> bs !! i = Some (saved_bus a v) ->
  is_u32 v -> divider v < 256 -> regval init h a = parked v ->
  wp (set_one_bus clock_bak i) e s h (fun _ s' h' =>
    s' = set_part (with_buses (<[i := clear_flag (saved_bus a v)]> bs) b) s0 /\
    h' = Wr a v :: Wr a (on_slow v) :: Rd a (parked v) :: h) total.
Proof.
  intros Hs Ha Hp Hv Hd Hr. apply wp_bind, wp_bind. eapply wp_clk_vars; [exact Hs|].
  eapply wp_elem; [exact Hp|]. cbn [busAddr saved_bus]. apply wp_bind. apply wp_readl_word.
  { apply elem_of_app. left. by eapply list_elem_of_lookup_2. }
  { rewrite Hr. by apply parked_u32. }
  rewrite Hr. rewrite (bool_decide_eq_true_2 (clock_bak = clock_bak)) by done. cbn [andb negb Z.eqb bus_flag bus_M bus_clk_src].
  rewrite unpark_divider, unpark_source by done.
  apply wp_bind, wp_writel, wp_bind, wp_writel. eapply wp_set_clk; [exact Hs|]. split; [|done].
  f_equal. change (with_buses (alter clear_flag i bs) b = with_buses (<[i := clear_flag (saved_bus a v)]> bs) b).
  f_equal. by apply alter_at.
Qed.

(** *** Loops over a table of registers *)

(** Entries from [lo] to [n] have been handled: each has [entry] of its
    register, which holds [value]; nothing else has changed, and every write
    is one [P] allows. *)
Definition moved {L} (store : list L -> clk_backup -> clk_backup) (regs : list Z) (entry : Z -> L)
  (value : Z -> Z) (P : Z -> Z -> Prop) (lo : nat) (xs : list L) b s0 h0 (n : nat) s h : Prop :=
  exists xs', s = set_part (store xs' b) s0 /\ length xs' = length regs /\
    (forall k a, regs !! k = Some a -> (lo <= k < n)%nat -> xs' !! k = Some (entry a) /\ regval init h a = value a) /\
    (forall k, ~ (lo <= k < n)%nat -> xs' !! k = xs !! k) /\
    (forall x, (forall k, (lo <= k < n)%nat -> regs !! k <> Some x) -> regval init h x = regval init h0 x) /\
    extends P h0 h.

Lemma moved_start {L} store regs (entry : Z -> L) value P lo xs b s0 s h :
  s = set_part (store xs b) s0 -> length xs = length regs -> moved store regs entry value P lo xs b s0 h lo s h.
Proof. intros Hs Hl. exists xs. split_and!; [done|done|lia|done|done|apply extends_refl]. Qed.

(** One more register; [new] are its events. *)
Lemma moved_step {L} store regs (entry : Z -> L) value (P : Z -> Z -> Prop) lo xs xs' b s0 h0 n a s' h new :
  NoDup regs -> (lo <= n)%nat -> regs !! n = Some a ->
  length xs' = length regs ->
  (forall k a, regs !! k = Some a -> (lo <= k < n)%nat -> xs' !! k = Some (entry a) /\ regval init h a = value a) ->
  (forall k, ~ (lo <= k < n)%nat -> xs' !! k = xs !! k) ->
  (forall x, (forall k, (lo <= k < n)%nat -> regs !! k <> Some x) -> regval init h x = regval init h0 x) ->
  extends P h0 h ->
  s' = set_part (store (<[n := entry a]> xs') b) s0 -> (forall x w, Wr x w ∈ new \/ Wrb x w ∈ new -> x = a /\ P a w) ->
  regval init (new ++ h) a = value a ->
  moved store regs entry value P lo xs b s0 h0 (Datatypes.S n) s' (new ++ h).
Proof.
  intros Hnd Hlo Ha Hlen Hdone Hrest Hframe Hext Hs' Hnew Hval.
  assert (forall x, x <> a -> regval init (new ++ h) x = regval init h x) as Hkeep.
  { intros x Hx. apply regval_app_silent. intros w Hw. destruct (Hnew x w) as [-> _]; [by left|done]. }
  exists (<[n := entry a]> xs'). rewrite length_insert. split_and!; [done|done| | | |].
  - intros k y Hy Hk. destruct (decide (k = n)) as [->|Hne].
    + assert (y = a) as -> by congruence. rewrite list_lookup_insert_eq; [done|].
      rewrite Hlen. by apply lookup_lt_Some in Ha.
    + rewrite list_lookup_insert_ne by done. rewrite Hkeep by (eapply index_ne; done). apply Hdone; [done|lia].
  - intros k Hk. rewrite list_lookup_insert_ne by lia. apply Hrest. lia.
  - intros x Hx. rewrite Hkeep by (intros ->; by apply (Hx n); [lia|]). apply Hframe. intros k Hk. apply Hx. lia.
  - eapply extends_trans; [exact Hext|]. exists new. split; [done|]. intros x w Hw.
    destruct (Hnew x w Hw) as [-> HP]. done.
Qed.

Lemma three_events (P : Z -> Z -> Prop) a r w1 w2 x w :
  P a w1 -> P a w2 -> Wr x w ∈ [Wr a w2; Wr a w1; Rd (C := C) a r] \/ Wrb x w ∈ [Wr a w2; Wr a w1; Rd (C := C) a r] ->
  x = a /\ P a w.
Proof. intros H1 H2 [H|H]; rewrite !elem_of_cons, elem_of_nil in H; naive_solver. Qed.

Lemma park_loop (P : Z -> Z -> Prop) bs b lo n s0 s h :
  s = set_part (with_buses bs b) s0 -> length bs = 7%nat -> (lo + n <= 7)%nat ->
  (forall k a, bus_regs !! k = Some a -> (lo <= k < lo + n)%nat ->
     (exists p, bs !! k = Some p /\ free_bus a p) /\ is_u32 (regval init h a) /\
     P a (on_slow (regval init h a)) /\ P a (parked (regval init h a))) ->
  wp (ticks_loop (set_one_bus rc16m) n lo) e s h (fun _ s' h' =>
    moved with_buses bus_regs (fun a => saved_bus a (regval init h a)) (fun a => parked (regval init h a)) P lo bs b s0 h
      (lo + n) s' h') total.
Proof.
  intros Hs Hlen Hn Hall. apply (ticks_loop_inv _ (fun n s' h' =>
    moved with_buses bus_regs (fun a => saved_bus a (regval init h a)) (fun a => parked (regval init h a)) P lo bs b s0 h n s' h')).
  2: by apply moved_start.
  intros j s1 h1 Hj (bs' & Hs1 & Hlen' & Hdone & Hrest & Hframe & Hext).
  destruct (lookup_lt_is_Some_2 bus_regs j ltac:(change (length bus_regs) with 7%nat; lia)) as [a Ha].
  destruct (Hall j a Ha ltac:(lia)) as ((p & Hp & Hfree) & Hu & HP1 & HP2).
  assert (regval init h1 a = regval init h a) as Ha1.
  { apply Hframe. intros k Hk Hka. assert (k = j); [|lia]. eapply NoDup_lookup; [apply bus_regs_nodup|done..]. }
  eapply wp_mono; [eapply park_bus_spec; [exact Hs1|exact Ha| |exact Hfree|by rewrite Ha1]|].
  { rewrite Hrest by lia. exact Hp. }
  rewrite Ha1. intros ? s2 h2 [Hs2 ->].
  change (Wr a (parked (regval init h a)) :: Wr a (on_slow (regval init h a)) :: Rd a (regval init h a) :: h1)
    with ([Wr a (parked (regval init h a)); Wr a (on_slow (regval init h a)); Rd a (regval init h a)] ++ h1).
  apply (moved_step with_buses bus_regs (fun a => saved_bus a (regval init h a)) (fun a => parked (regval init h a))
           P lo bs bs' b s0 h j a s2 h1); [apply bus_regs_nodup|lia|exact Ha|done..| | ].
  - intros x w Hx. exact (three_events P a _ _ _ x w HP1 HP2 Hx).
  - apply regval_Wr_eq.
Qed.

Lemma unpark_loop (P : Z -> Z -> Prop) (before : Z -> Z) bs b lo n s0 s h :
  s = set_part (with_buses bs b) s0 -> length bs = 7%nat -> (lo + n <= 7)%nat ->
  (forall k a, bus_regs !! k = Some a -> (lo <= k < lo + n)%nat ->
     bs !! k = Some (saved_bus a (before a)) /\ is_u32 (before a) /\ divider (before a) < 256 /\
     regval init h a = parked (before a) /\ P a (on_slow (before a)) /\ P a (before a)) ->
  wp (ticks_loop (set_one_bus clock_bak) n lo) e s h (fun _ s' h' =>
    moved with_buses bus_regs (fun a => clear_flag (saved_bus a (before a))) before P lo bs b s0 h (lo + n) s' h') total.
Proof.
  intros Hs Hlen Hn Hall. apply (ticks_loop_inv _ (fun n s' h' =>
    moved with_buses bus_regs (fun a => clear_flag (saved_bus a (before a))) before P lo bs b s0 h n s' h')).
  2: by apply moved_start.
  intros j s1 h1 Hj (bs' & Hs1 & Hlen' & Hdone & Hrest & Hframe & Hext).
  destruct (lookup_lt_is_Some_2 bus_regs j ltac:(change (length bus_regs) with 7%nat; lia)) as [a Ha].
  destruct (Hall j a Ha ltac:(lia)) as (Hp & Hu & Hd & Hr & HP1 & HP2).
  assert (regval init h1 a = regval init h a) as Ha1.
  { apply Hframe. intros k Hk Hka. assert (k = j); [|lia]. eapply NoDup_lookup; [apply bus_regs_nodup|done..]. }
  eapply wp_mono; [eapply unpark_bus_spec; [exact Hs1|exact Ha| |exact Hu|exact Hd|by rewrite Ha1]|].
  { rewrite Hrest by lia. exact Hp. }
  intros ? s2 h2 [Hs2 ->].
  change (Wr a (before a) :: Wr a (on_slow (before a)) :: Rd a (parked (before a)) :: h1)
    with ([Wr a (before a); Wr a (on_slow (before a)); Rd a (parked (before a))] ++ h1).
  apply (moved_step with_buses bus_regs (fun a => clear_flag (saved_bus a (before a))) before
           P lo bs bs' b s0 h j a s2 h1); [apply bus_regs_nodup|lia|exact Ha|done..| | ].
  - intros x w Hx. exact (three_events P a _ _ _ x w HP1 HP2 Hx).
  - apply regval_Wr_eq.
Qed.

(** *** The NSI, MBUS, GIC and trace clocks *)

Definition undivided (v : Z) : Z := Z.land v (cnot32 (Z.shiftl 0x7 24)).
Definition quiesced (v : Z) : Z := Z.land (Z.land (undivided v) (cnot32 0x1f)) (cnot32 (BIT 31)).

Lemma ctl_loop (P : Z -> Z -> Prop) xs b lo n s0 s h :
  s = set_part (with_ctl_value xs b) s0 -> length xs = 4%nat -> bus_ctl_addr b = bus_ctl_regs -> (lo + n <= 4)%nat ->
  (forall k a, bus_ctl_regs !! k = Some a -> (lo <= k < lo + n)%nat -> is_u32 (regval init h a) /\ forall w, P a w) ->
  wp (ticks_loop (ctl_one_bus rc16m) n lo) e s h (fun _ s' h' =>
    moved with_ctl_value bus_ctl_regs (regval init h) (fun a => quiesced (regval init h a)) P lo xs b s0 h (lo + n) s' h') total.
Proof.
  intros Hs Hlen Hb Hn Hall. apply (ticks_loop_inv _ (fun n s' h' =>
    moved with_ctl_value bus_ctl_regs (regval init h) (fun a => quiesced (regval init h a)) P lo xs b s0 h n s' h')).
  2: by apply moved_start.
  intros j s1 h1 Hj (xs' & Hs1 & Hlen' & Hdone & Hrest & Hframe & Hext).
  destruct (lookup_lt_is_Some_2 bus_ctl_regs j ltac:(change (length bus_ctl_regs) with 4%nat; lia)) as [a Ha].
  destruct (Hall j a Ha ltac:(lia)) as (Hu & HP).
  assert (regval init h1 a = regval init h a) as Ha1.
  { apply Hframe. intros k Hk Hka. assert (k = j); [|lia]. eapply NoDup_lookup; [apply bus_ctl_regs_nodup|done..]. }
  destruct (lookup_lt_is_Some_2 xs' j ltac:(rewrite Hlen'; by eapply lookup_lt_Some)) as [x0 Hx0].
  apply wp_bind. eapply wp_clk_vars; [exact Hs1|]. apply wp_bind. eapply wp_elem; [cbn; rewrite Hb; exact Ha|].
  apply wp_bind. apply wp_readl_word; [apply elem_of_app; right; by eapply list_elem_of_lookup_2|by rewrite Ha1|].
  rewrite (bool_decide_eq_false_2 (rc16m = clock_bak)) by done. rewrite Ha1.
  apply wp_bind. eapply wp_elem; [exact Hx0|]. apply wp_bind. eapply wp_set_clk; [exact Hs1|].
  apply wp_bind, wp_writel, wp_bind, wp_writel, wp_writel.
  match goal with |- context [Wr a ?c :: Wr a ?d :: Wr a ?f :: Rd a ?g :: h1] =>
    change (Wr a c :: Wr a d :: Wr a f :: Rd a g :: h1) with ([Wr a c; Wr a d; Wr a f; Rd a g] ++ h1) end.
  apply (moved_step with_ctl_value bus_ctl_regs (regval init h) (fun a => quiesced (regval init h a))
           P lo xs xs' b s0 h j a _ h1); [apply bus_ctl_regs_nodup|lia|exact Ha|done..| | ].
  - intros x w [Hx|Hx]; rewrite !elem_of_cons, elem_of_nil in Hx; naive_solver.
  - apply regval_Wr_eq.
Qed.

Lemma ctl_back_loop (P : Z -> Z -> Prop) (before : Z -> Z) xs b lo n s0 s h :
  s = set_part (with_ctl_value xs b) s0 -> length xs = 4%nat -> bus_ctl_addr b = bus_ctl_regs -> (lo + n <= 4)%nat ->
  (forall k a, bus_ctl_regs !! k = Some a -> (lo <= k < lo + n)%nat ->
     xs !! k = Some (before a) /\ is_u32 (regval init h a) /\ forall w, P a w) ->
  wp (ticks_loop (ctl_one_bus clock_bak) n lo) e s h (fun _ s' h' =>
    moved with_ctl_value bus_ctl_regs before before P lo xs b s0 h (lo + n) s' h') total.
Proof.
  intros Hs Hlen Hb Hn Hall. apply (ticks_loop_inv _ (fun n s' h' =>
    moved with_ctl_value bus_ctl_regs before before P lo xs b s0 h n s' h')).
  2: by apply moved_start.
  intros j s1 h1 Hj (xs' & Hs1 & Hlen' & Hdone & Hrest & Hframe & Hext).
  destruct (lookup_lt_is_Some_2 bus_ctl_regs j ltac:(change (length bus_ctl_regs) with 4%nat; lia)) as [a Ha].
  destruct (Hall j a Ha ltac:(lia)) as (Hx & Hu & HP).
  assert (regval init h1 a = regval init h a) as Ha1.
  { apply Hframe. intros k Hk Hka. assert (k = j); [|lia]. eapply NoDup_lookup; [apply bus_ctl_regs_nodup|done..]. }
  rewrite <- Hrest in Hx by lia.
  apply wp_bind. eapply wp_clk_vars; [exact Hs1|]. apply wp_bind. eapply wp_elem; [cbn; rewrite Hb; exact Ha|].
  apply wp_bind. apply wp_readl_word; [apply elem_of_app; right; by eapply list_elem_of_lookup_2|by rewrite Ha1|].
  rewrite (bool_decide_eq_true_2 (clock_bak = clock_bak)) by done.
  apply wp_bind. eapply wp_elem; [exact Hx|]. apply wp_writel.
  match goal with |- context [Wr a ?c :: Rd a ?g :: h1] => change (Wr a c :: Rd a g :: h1) with ([Wr a c; Rd a g] ++ h1) end.
  apply (moved_step with_ctl_value bus_ctl_regs before before P lo xs xs' b s0 h j a s1 h1);
    [apply bus_ctl_regs_nodup|lia|exact Ha|done..| | | ].
  - by rewrite list_insert_id.
  - intros x w [Hw|Hw]; rewrite !elem_of_cons, elem_of_nil in Hw; naive_solver.
  - apply regval_Wr_eq.
Qed.

(** ** The whole of the clocks *)

Context `{HParas : !Part standby_paras S} `{HApart : !Apart clk_backup standby_paras S}.

(** What leaves the clocks and their statics alone. *)
Definition spare (a w : Z) : Prop := a ∉ clock_regs.
Definition unmoved s s' : Prop :=
  part (T := clk_backup) s' = part s /\ standby_osc24m_on (part s') = standby_osc24m_on (part s).
Definition calm {A} (m : M C S A) : Prop := forall s h,
  wp m e s h (fun _ s' h' => unmoved s s' /\ extends spare h h') total.

(** No bus is written a value that is not safe. *)
Definition fair (before : Z -> Z) (a w : Z) : Prop := a ∈ bus_regs -> bus_safe (before a) w.

(** The statics are [p], the registers hold [val], and since [h0] the writes
    have been fair. *)
Definition clocks (before : Z -> Z) (osc : Z) h0 (p : clk_backup) (val : Z -> Z) s h : Prop :=
  part s = p /\ standby_osc24m_on (part s) = osc /\
  (forall a, a ∈ clock_regs -> regval init h a = val a) /\ extends (fair before) h0 h.

Lemma pll_clock a : a ∈ pll_regs -> a ∈ clock_regs.
Proof. intros H. unfold clock_regs. rewrite !elem_of_app. tauto. Qed.
Lemma bus_clock a : a ∈ bus_regs -> a ∈ clock_regs.
Proof. intros H. unfold clock_regs. rewrite !elem_of_app. tauto. Qed.
Lemma ctl_clock a : a ∈ bus_ctl_regs -> a ∈ clock_regs.
Proof. intros H. unfold clock_regs. rewrite !elem_of_app. tauto. Qed.

Lemma spare_regval h h' a : extends spare h h' -> a ∈ clock_regs -> regval init h' a = regval init h a.
Proof. intros Hx Ha. eapply regval_extends; [exact Hx|]. intros v Hv. by apply Hv. Qed.
Lemma spare_fair before h h' : extends spare h h' -> extends (fair before) h h'.
Proof. intros Hx. eapply extends_weaken; [exact Hx|]. intros a v Ha Hb. by apply bus_clock in Hb. Qed.

Lemma wp_calm {A B} (m : M C S A) (k : A -> M C S B) before osc h0 p val s h Q :
  calm m -> clocks before osc h0 p val s h ->
  (forall a s' h', clocks before osc h0 p val s' h' -> (exists new, h' = new ++ h) -> wp (k a) e s' h' Q total) ->
  wp (bind m k) e s h Q total.
Proof.
  intros Hm (Hp & Ho & Hv & Hf) Hk. apply wp_bind. eapply wp_mono; [apply Hm|]. intros a s' h' [[Hs Hosc] Hx].
  apply Hk; [|destruct Hx as (new & -> & _); by exists new].
  split_and!; [by rewrite Hs|by rewrite Hosc| |by eapply extends_trans, spare_fair].
  intros r Hr. rewrite <- Hv by done. by apply spare_regval.
Qed.
Lemma clocks_calm {A B} (m : M C S A) (k : A -> M C S B) before osc h0 p val s h Q :
  calm m -> clocks before osc h0 p val s h ->
  (forall a s' h', clocks before osc h0 p val s' h' -> wp (k a) e s' h' Q total) ->
  wp (bind m k) e s h Q total.
Proof. intros Hm Hc Hk. eapply wp_calm; [exact Hm|exact Hc|]. intros a s' h' Hc' _. by apply Hk. Qed.

Definition slice {A} (lo n : nat) (l : list A) : list A := take n (drop lo l).

Lemma slice_lookup {A} lo n (l : list A) x : x ∈ slice lo n l <-> exists k, (lo <= k < lo + n)%nat /\ l !! k = Some x.
Proof.
  unfold slice. rewrite list_elem_of_lookup. split.
  - intros [i Hi]. apply lookup_take_Some in Hi as [Hi Hlt]. rewrite lookup_drop in Hi. exists (lo + i)%nat. split; [lia|done].
  - intros (k & Hk & Hl). exists (k - lo)%nat. rewrite lookup_take_lt, lookup_drop by lia. by replace (lo + (k - lo))%nat with k by lia.
Qed.

(** The entries after a loop. *)
Lemma moved_entries {A B} (regs : list A) (xs xs' : list B) (entry : A -> B) lo n :
  length xs = length regs -> length xs' = length regs -> (lo + n <= length regs)%nat ->
  (forall k a, regs !! k = Some a -> (lo <= k < lo + n)%nat -> xs' !! k = Some (entry a)) ->
  (forall k, ~ (lo <= k < lo + n)%nat -> xs' !! k = xs !! k) ->
  xs' = take lo xs ++ map entry (slice lo n regs) ++ drop (lo + n) xs.
Proof.
  intros Hl Hl' Hn Hin Hout. unfold slice. apply list_eq. intros k.
  assert (length (map entry (take n (drop lo regs))) = n) as Hm by (rewrite length_map, length_take, length_drop; lia).
  destruct (decide (k < lo)%nat) as [Hlt|Hge].
  - rewrite lookup_app_l, lookup_take_lt by (rewrite ?length_take; lia). apply Hout. lia.
  - rewrite lookup_app_r by (rewrite length_take; lia). rewrite length_take_le by lia.
    destruct (decide (k < lo + n)%nat) as [Hlt|Hge'].
    + rewrite lookup_app_l by lia. destruct (lookup_lt_is_Some_2 regs k ltac:(lia)) as [a Ha].
      rewrite (Hin k a Ha ltac:(lia)), list_lookup_fmap, lookup_take_lt, lookup_drop by lia.
      replace (lo + (k - lo))%nat with k by lia. by rewrite Ha.
    + rewrite lookup_app_r by lia. rewrite Hm, lookup_drop. replace (lo + n + (k - lo - n))%nat with k by lia. apply Hout. lia.
Qed.

Lemma moved_clocks {L} (store : list L -> clk_backup -> clk_backup) regs (entry : Z -> L) value lo n xs b
  before osc h0 val s h s' h' :
  (forall a, a ∈ regs -> a ∈ clock_regs) -> length xs = length regs -> (lo + n <= length regs)%nat ->
  clocks before osc h0 (store xs b) val s h ->
  moved store regs entry value (fair before) lo xs b s h (lo + n) s' h' ->
  clocks before osc h0 (store (take lo xs ++ map entry (slice lo n regs) ++ drop (lo + n) xs) b)
    (fun a => if bool_decide (a ∈ slice lo n regs) then value a else val a) s' h'.
Proof.
  intros Hin Hlen Hn (Hp & Ho & Hv & Hf) (xs' & -> & Hlen' & Hdone & Hrest & Hframe & Hext).
  split_and!; [|by rewrite part_other| |by eapply extends_trans].
  - rewrite part_set. f_equal. apply moved_entries; [done..| |done]. intros k a Hk Hr. by apply Hdone.
  - intros a Ha. case_bool_decide as Hs.
    + apply slice_lookup in Hs as (k & Hk & Hl). by eapply Hdone.
    + rewrite Hframe; [by apply Hv|]. intros k Hk Hl. apply Hs, slice_lookup. by exists k.
Qed.

(** *** The loops *)

(** [f] on the registers of [D], [g] on the others. *)
Definition over (D : list Z) (f g : Z -> Z) (a : Z) : Z := if bool_decide (a ∈ D) then f a else g a.

Lemma clocks_ext before osc h0 p p' val val' s h : clocks before osc h0 p val s h -> p = p' ->
  (forall a, a ∈ clock_regs -> val a = val' a) -> clocks before osc h0 p' val' s h.
Proof. intros (Hp & Ho & Hv & Hf) <- Heq. split_and!; [done..| |done]. intros a Ha. by rewrite Hv, Heq. Qed.

Lemma over_ext D f f' g a : (forall x, x ∈ D -> f x = f' x) -> over D f g a = over D f' g a.
Proof. intros Hf. unfold over. case_bool_decide; [by apply Hf|done]. Qed.
Lemma map_ext_elem {A B} (f g : A -> B) l : (forall x, x ∈ l -> f x = g x) -> map f l = map g l.
Proof. intros H. apply map_ext_in. intros x Hx. by apply H, list_elem_of_In. Qed.
Lemma slice_in {A} lo n (l : list A) x : x ∈ slice lo n l -> x ∈ l.
Proof. intros (k & _ & Hk)%slice_lookup. by eapply list_elem_of_lookup_2. Qed.

Lemma ctl_fair before a w : a ∈ bus_ctl_regs -> fair before a w.
Proof.
  intros Ha Hb. exfalso. pose proof clock_regs_nodup as Hnd. unfold clock_regs in Hnd.
  apply NoDup_app in Hnd as (_ & _ & Hnd). apply NoDup_app in Hnd as (_ & Hnd & _). by apply (Hnd a).
Qed.

(** Down: the buses from [lo] on, on the slow clock. *)
Lemma park_phase before osc h0 val bs b lo n s h :
  clocks before osc h0 (with_buses bs b) val s h -> length bs = 7%nat -> (lo + n <= 7)%nat ->
  (forall k a, bus_regs !! k = Some a -> (lo <= k < lo + n)%nat ->
     (exists p, bs !! k = Some p /\ free_bus a p) /\ val a = before a /\ is_u32 (before a)) ->
  wp (ticks_loop (set_one_bus rc16m) n lo) e s h (fun _ s' h' => clocks before osc h0
    (with_buses (take lo bs ++ map (fun a => saved_bus a (before a)) (slice lo n bus_regs) ++ drop (lo + n) bs) b)
    (over (slice lo n bus_regs) (fun a => parked (before a)) val) s' h') total.
Proof.
  intros Hc Hlen Hn Hall. pose proof Hc as (Hp & _ & Hv & _).
  assert (forall a, a ∈ slice lo n bus_regs -> regval init h a = before a) as Hnow.
  { intros a (k & Hk & Ha)%slice_lookup. rewrite Hv by (eapply bus_clock, list_elem_of_lookup_2, Ha). by eapply Hall. }
  eapply wp_mono; [apply (park_loop (fair before) bs b lo n s); [by rewrite <- Hp, set_same|done|done|]|].
  { intros k a Ha Hk. destruct (Hall k a Ha Hk) as (Hfree & _ & Hu).
    rewrite Hnow by (apply slice_lookup; by exists k). split_and!; [done|done|intros _; right; by apply on_slow_divider|].
    intros _. left. apply parked_source. }
  intros ? s' h' Hm. eapply clocks_ext; [eapply moved_clocks; [apply bus_clock|done|done|exact Hc|exact Hm]|..].
  - do 3 f_equal. apply map_ext_elem. intros x Hx. by rewrite Hnow.
  - intros ? _. apply over_ext. intros x Hx. by rewrite Hnow.
Qed.

(** Up again. *)
Lemma unpark_phase before osc h0 val bs b lo n s h :
  clocks before osc h0 (with_buses bs b) val s h -> length bs = 7%nat -> (lo + n <= 7)%nat ->
  (forall k a, bus_regs !! k = Some a -> (lo <= k < lo + n)%nat ->
     bs !! k = Some (saved_bus a (before a)) /\ val a = parked (before a) /\ is_u32 (before a) /\ divider (before a) < 256) ->
  wp (ticks_loop (set_one_bus clock_bak) n lo) e s h (fun _ s' h' => clocks before osc h0
    (with_buses (take lo bs ++ map (fun a => clear_flag (saved_bus a (before a))) (slice lo n bus_regs) ++ drop (lo + n) bs) b)
    (over (slice lo n bus_regs) before val) s' h') total.
Proof.
  intros Hc Hlen Hn Hall. pose proof Hc as (Hp & _ & Hv & _).
  eapply wp_mono; [apply (unpark_loop (fair before) before bs b lo n s); [by rewrite <- Hp, set_same|done|done|]|].
  { intros k a Ha Hk. destruct (Hall k a Ha Hk) as (Hb & Hval & Hu & Hd).
    rewrite Hv by (eapply bus_clock, list_elem_of_lookup_2, Ha).
    split_and!; [done..|intros _; right; by apply on_slow_divider|intros _; by right]. }
  intros ? s' h' Hm. eapply moved_clocks; [apply bus_clock|done|done|exact Hc|exact Hm].
Qed.

(** NSI, MBUS, GIC and trace, down. *)
Lemma ctl_phase before osc h0 val xs b lo n s h :
  clocks before osc h0 (with_ctl_value xs b) val s h -> length xs = 4%nat -> bus_ctl_addr b = bus_ctl_regs ->
  (lo + n <= 4)%nat ->
  (forall a, a ∈ slice lo n bus_ctl_regs -> val a = before a /\ is_u32 (before a)) ->
  wp (ticks_loop (ctl_one_bus rc16m) n lo) e s h (fun _ s' h' => clocks before osc h0
    (with_ctl_value (take lo xs ++ map before (slice lo n bus_ctl_regs) ++ drop (lo + n) xs) b)
    (over (slice lo n bus_ctl_regs) (fun a => quiesced (before a)) val) s' h') total.
Proof.
  intros Hc Hlen Hb Hn Hall. pose proof Hc as (Hp & _ & Hv & _).
  assert (forall a, a ∈ slice lo n bus_ctl_regs -> regval init h a = before a) as Hnow.
  { intros a Ha. rewrite Hv by (by eapply ctl_clock, slice_in). by apply Hall. }
  eapply wp_mono; [apply (ctl_loop (fair before) xs b lo n s); [by rewrite <- Hp, set_same|done..|]|].
  { intros k a Ha Hk. assert (a ∈ slice lo n bus_ctl_regs) as Hin by (apply slice_lookup; by exists k).
    rewrite Hnow by done. split; [by apply Hall|]. intros w. by eapply ctl_fair, slice_in. }
  intros ? s' h' Hm. eapply clocks_ext; [eapply moved_clocks; [apply ctl_clock|done|done|exact Hc|exact Hm]|..].
  - do 3 f_equal. apply map_ext_elem. intros x Hx. by rewrite Hnow.
  - intros ? _. apply over_ext. intros x Hx. by rewrite Hnow.
Qed.

Lemma ctl_back_phase before osc h0 val xs b lo n s h :
  clocks before osc h0 (with_ctl_value xs b) val s h -> length xs = 4%nat -> bus_ctl_addr b = bus_ctl_regs ->
  (lo + n <= 4)%nat ->
  (forall k a, bus_ctl_regs !! k = Some a -> (lo <= k < lo + n)%nat -> xs !! k = Some (before a) /\ is_u32 (val a)) ->
  wp (ticks_loop (ctl_one_bus clock_bak) n lo) e s h (fun _ s' h' => clocks before osc h0
    (with_ctl_value (take lo xs ++ map before (slice lo n bus_ctl_regs) ++ drop (lo + n) xs) b)
    (over (slice lo n bus_ctl_regs) before val) s' h') total.
Proof.
  intros Hc Hlen Hb Hn Hall. pose proof Hc as (Hp & _ & Hv & _).
  eapply wp_mono; [apply (ctl_back_loop (fair before) before xs b lo n s); [by rewrite <- Hp, set_same|done..|]|].
  { intros k a Ha Hk. destruct (Hall k a Ha Hk) as [Hx Hu].
    assert (a ∈ bus_ctl_regs) as Hin by (by eapply list_elem_of_lookup_2). rewrite Hv by (by apply ctl_clock).
    split_and!; [done..|]. intros w. by apply ctl_fair. }
  intros ? s' h' Hm. eapply moved_clocks; [apply ctl_clock|done|done|exact Hc|exact Hm].
Qed.

Lemma pll_fair before h h' : extends pll_write h h' -> extends (fair before) h h'.
Proof.
  intros Hx. eapply extends_weaken; [exact Hx|]. intros a w Ha Hb. exfalso. pose proof clock_regs_nodup as Hnd.
  unfold clock_regs in Hnd. apply NoDup_app in Hnd as (_ & Hnd & _). apply (Hnd a Ha), elem_of_app. by left.
Qed.

(** Registers of [D] among the PLLs have been rewritten, to [f]. *)
Lemma pll_clocks before osc h0 p val s h s' h' p' (f : Z -> Z) D :
  clocks before osc h0 p val s h -> s' = set_part p' s -> extends pll_write h h' ->
  (forall a, a ∈ pll_regs -> regval init h' a = if bool_decide (a ∈ D) then f a else regval init h a) ->
  (forall a, a ∈ D -> a ∈ pll_regs) ->
  clocks before osc h0 p' (over D f val) s' h'.
Proof.
  intros (Hp & Ho & Hv & Hf) -> Hx Hr HD. split_and!; [apply part_set|by rewrite part_other| |by eapply extends_trans, pll_fair].
  intros a Ha. unfold over. destruct (decide (a ∈ pll_regs)) as [Hin|Hout].
  - rewrite Hr by done. case_bool_decide; [done|]. by apply Hv.
  - rewrite bool_decide_eq_false_2 by (by intros ?%HD). rewrite (pll_write_other a h h') by done. by apply Hv.
Qed.

Lemma pll_off_phase time_udelay before osc h0 p val s h : clocks before osc h0 p val s h -> plls_ready p ->
  (forall a, a ∈ pll_regs -> val a = before a) ->
  wp (all_pll_set time_udelay pll_disable) e s h (fun r s' h' => r = OK /\ exists v,
    (forall a, a ∈ pll_regs -> pll_saved_as before a (v a)) /\
    clocks before osc h0 (with_plls (plls_at v) p) (over pll_regs (fun a => closed (v a)) val) s' h') total.
Proof.
  intros Hc Hready Hval. pose proof Hc as (Hp & _ & Hv & _).
  eapply wp_mono; [apply (all_pll_disable_spec time_udelay p s s); [by rewrite <- Hp, set_same|done]|].
  intros r s' h' (-> & Hx & v & Hs' & Hall). split; [done|]. exists v. split.
  - intros a Ha. destruct (Hall a Ha) as [[Hu Hsaved] _]. split; [done|]. by rewrite Hsaved, Hv, Hval by (by try apply pll_clock).
  - eapply pll_clocks; [exact Hc|exact Hs'|exact Hx| |done]. intros a Ha. rewrite bool_decide_eq_true_2 by done. by apply Hall.
Qed.

(** How far the PLLs came. *)
Definition plls_back before osc h0 p v val hs (r : Z) s h : Prop :=
  r = OK /\ clocks before osc h0 p (over pll_regs (fun a => unlocked (v a)) val) s h /\
    (forall k a, pll_regs !! k = Some a -> locking (v a) = true -> tried hs a (v a) OK h) \/
  r = - ETIMEOUT /\ exists k a, pll_regs !! k = Some a /\ locking (v a) = true /\ tried hs a (v a) r h /\
    (forall j x, (j < k)%nat -> pll_regs !! j = Some x -> locking (v x) = true -> tried hs x (v x) OK h) /\
    clocks before osc h0 p (over (take (Datatypes.S k) pll_regs) (fun a => opened (v a)) val) s h.

Lemma take_lookup_in (l : list Z) n k a : NoDup l -> l !! k = Some a -> bool_decide (a ∈ take n l) = (k <? n)%nat.
Proof.
  intros Hnd Ha. destruct (Nat.ltb_spec k n) as [Hlt|Hge].
  - apply bool_decide_eq_true_2. apply list_elem_of_lookup. exists k. by rewrite lookup_take_lt.
  - apply bool_decide_eq_false_2. intros (j & Hj)%list_elem_of_lookup. apply lookup_take_Some in Hj as [Hj Hlt].
    assert (j = k) by (by eapply NoDup_lookup). lia.
Qed.

Lemma pll_on_phase time_udelay before osc h0 b v val s h : calm (time_udelay 20) ->
  clocks before osc h0 (with_plls (plls_at v) b) val s h ->
  wp (all_pll_set time_udelay pll_enable) e s h (plls_back before osc h0 (with_plls (plls_at v) b) v val h) total.
Proof.
  intros Hcalm Hc. pose proof Hc as (Hp & _).
  assert (exists vs, length vs = 14%nat /\ vs = map v pll_regs /\ plls_of vs = plls_at v) as (vs & Hlen & Hvs & Hat).
  { exists (map v pll_regs). split_and!; [done|done|]. unfold plls_of, plls_at. generalize pll_regs. intros l.
    induction l as [|a l IH]; [done|]. cbn [map zip_with]. by rewrite IH. }
  assert (s = set_part (with_plls (plls_of vs) b) s) as Hs by (by rewrite Hat, <- Hp, set_same).
  assert (forall k a, pll_regs !! k = Some a -> vs !! k = Some (v a)) as Hat'.
  { intros k a Ha. by rewrite Hvs, list_lookup_fmap, Ha. }
  apply wp_bind. rewrite pll_enable_until. eapply wp_mono.
  { apply (until_failure_inv pll_open (opening vs s h) (stuck vs s h)).
    - intros j s1 h1 Hj Hop. by apply (opening_step vs b s); [lia|..].
    - split_and!; [done|apply extends_refl|]. intros k a w Ha Hw. by split; [|lia]. }
  assert (forall n s1 h1, s1 = s -> extends pll_write h h1 -> (n <= 14)%nat ->
    (forall k a, pll_regs !! k = Some a -> regval init h1 a = if (k <? n)%nat then opened (v a) else regval init h a) ->
    clocks before osc h0 (with_plls (plls_at v) b) (over (take n pll_regs) (fun a => opened (v a)) val) s1 h1) as Hopen.
  { intros n s1 h1 -> Hx Hn Hr. eapply pll_clocks; [exact Hc|by rewrite <- Hp, set_same|exact Hx| |].
    - intros a (k & Ha)%list_elem_of_lookup. rewrite (take_lookup_in _ _ k) by (done || apply pll_regs_nodup).
      by apply Hr.
    - intros a (k & (Ha & _)%lookup_take_Some)%list_elem_of_lookup. by eapply list_elem_of_lookup_2. }
  intros r s1 h1 [[-> (Hs1 & Hx1 & Hop)]|(k & Hk & Hr & -> & Hs1 & Hx1 & (a & w & Ha & Hw & Hl & Htry) & Hop)].
  - cbn [negb Z.eqb OK]. assert (clocks before osc h0 (with_plls (plls_at v) b) (over (take 14 pll_regs) (fun a => opened (v a)) val) s1 h1) as Hc1.
    { apply Hopen; [done..|]. intros k a Ha. by apply (Hop k a (v a)), Hat'. }
    eapply wp_calm; [exact Hcalm|exact Hc1|]. intros [] s2 h3 Hc2 [new ->]. pose proof Hc2 as (Hp2 & _).
    apply wp_bind. eapply wp_mono; [apply (outputs_loop vs b 14 0 s2 s2 (new ++ h1)); [done|done|by rewrite Hat, <- Hp2, set_same]|].
    intros [] s3 h4 (-> & Hx & Hregs). apply wp_ret. left. split; [done|]. split.
    2:{ intros k a Ha Hl. destruct Hx as (out & -> & _). apply tried_later, tried_later.
        apply (Hop k a (v a)); [done|by apply Hat'| |done]. apply lookup_lt_Some in Ha. exact Ha. }
    eapply clocks_ext.
    + eapply (pll_clocks _ _ _ _ _ _ _ _ _ _ (fun a => unlocked (v a)) pll_regs);
        [exact Hc2|exact (eq_sym (set_same s2))|exact Hx| |done].
      intros a Ha. rewrite bool_decide_eq_true_2 by done. apply list_elem_of_lookup in Ha as [k Ha].
      rewrite (Hregs k a (v a)) by (by try apply Hat'). pose proof (lookup_lt_Some _ _ _ Ha) as Hk.
      change (length pll_regs) with 14%nat in Hk. by rewrite (proj2 (Nat.ltb_lt k (0 + 14))) by lia.
    + exact Hp2.
    + intros x _. unfold over. by repeat case_bool_decide.
  - cbn [negb Z.eqb OK ETIMEOUT Z.opp]. apply wp_ret. right. split; [done|]. rewrite (Hat' _ _ Ha) in Hw. injection Hw as <-.
    exists k, a. split_and!; [done..| |].
    + intros j x Hj Hx Hlx. apply (Hop j x (v x)); [done|by apply Hat'|done..].
    + apply Hopen; [done|done|lia|]. intros j x Hx. rewrite (proj1 (Hop j x (v x) Hx (Hat' _ _ Hx))).
      destruct (Nat.leb_spec j k), (Nat.ltb_spec j (Datatypes.S k)); done || lia.
Qed.

(** *** The neighbours of the clocks *)

Lemma still_only {A} (m : M C S A) : only_writes spare m -> calm m.
Proof. intros Hm s h. eapply wp_mono; [apply Hm|]. by intros a s' h' [-> Hx]. Qed.
Lemma still_bind {A B} (m : M C S A) (f : A -> M C S B) : calm m -> (forall a, calm (f a)) -> calm (bind m f).
Proof.
  intros Hm Hf s h. apply wp_bind. eapply wp_mono; [apply Hm|]. intros a s1 h1 [[Hs Ho] Hx].
  eapply wp_mono; [apply Hf|]. intros b s2 h2 [[Hs' Ho'] Hx']. split; [|by eapply extends_trans].
  split; [by rewrite Hs', Hs|by rewrite Ho', Ho].
Qed.
Lemma still_put {T} `{!Part T S} `{!Apart T clk_backup S} `{!Apart T standby_paras S} (t : T) : calm (putp t).
Proof. intros s h. apply wp_putp. split; [|apply extends_refl]. split; by rewrite part_other. Qed.
Lemma still_get {T} `{!Part T S} : calm (getp (T := T)).
Proof. intros s h. apply wp_getp. split; [done|apply extends_refl]. Qed.
Lemma still_print fmt args : calm (printf fmt args).
Proof. intros s h. apply wp_printf. intros r. split; [done|]. apply extends_cons; [by intros ? ? []|apply extends_refl]. Qed.
Lemma still_poll n a busy : calm (poll n a busy).
Proof.
  intros s h. eapply wp_mono; [apply poll_spec|]. intros r s' h' [-> (vs & -> & _)]. split; [done|].
  induction vs as [|v vs IH]; [apply extends_refl|]. apply extends_cons; [by intros ? ? []|exact IH].
Qed.

Context `{HInsn : !HasInsn C} `{HCcu : !Part ccu S} `{HUart : !Part uart S} `{HTwi : !Part twi S}
  `{HNotifiers : !Part (list notifier) S} `{HPower : !Part power S}
  `{!Apart uart clk_backup S} `{!Apart uart standby_paras S} `{!Apart twi clk_backup S} `{!Apart twi standby_paras S}.

(** A program that only touches registers of its own. *)
Ltac still_step :=
  lazymatch goal with
  | |- calm (bind _ _) => apply still_bind; [|intros ?]
  | |- calm (if ?b then _ else _) => destruct b
  | |- calm (let _ := _ in _) => cbv zeta
  | |- calm (ret _) => apply still_only, ow_ret
  | |- calm (readl _) => apply still_only, ow_readl
  | |- calm (writel _ _) => apply still_only, ow_writel; apply (bool_decide_unpack _); by vm_compute
  | |- calm (printf _ _) => apply still_print
  | |- calm getp => apply still_get
  | |- calm (putp _) => apply still_put
  | |- calm (poll _ _ _) => apply still_poll
  end.
Ltac still_auto := repeat still_step.

Lemma still_sclk_freq sclk : calm (ccu_get_sclk_freq sclk).
Proof. unfold ccu_get_sclk_freq, ccu_vars, WRN. still_auto. Qed.

Lemma still_twi command freq : calm (twi_clkchangecb command freq).
Proof.
  unfold twi_clkchangecb, put_twi_lock, twic_set_sclk, INF. still_auto; [apply still_sclk_freq|].
  match goal with |- context [sclk_divider ?src ?clk] => destruct (sclk_divider_some src clk) as [[[m n] r] ->] end.
  still_auto.
Qed.

Lemma still_uart command freq : calm (uart_clkchangecb command freq).
Proof.
  unfold uart_clkchangecb, uart_set_baudrate, write_divisor, set_uart, uart_vars, INF, LOG. still_auto; [apply still_sclk_freq|].
  match goal with |- context [uart_divisor ?f ?r] => destruct (uart_divisor f r) as [? [div|]] end; still_auto.
Qed.

Lemma still_low_power : calm rv_low_power_mode.
Proof. unfold rv_low_power_mode. still_auto. Qed.

(** The oscillator is not to be switched off. *)
Lemma osc_stays {before osc h0 p val s h} : clocks before osc h0 p val s h -> osc <> 0 ->
  forall (m : M C S unit) Q, (forall (y : bool) s' h', y = false -> clocks before osc h0 p val s' h' -> (exists mid, h' = mid ++ h) ->
    wp (if y then m else ret tt) e s' h' Q total) ->
  wp (bind dcxo_switched (fun y : bool => if y then m else ret tt)) e s h Q total.
Proof.
  intros (Hp & Ho & Hv & Hf) Hosc m Q Hk. apply wp_bind, wp_bind, wp_readl. intros v _ _. apply wp_bind, wp_getp, wp_ret.
  apply Hk; [by rewrite Ho, (proj2 (Z.eqb_neq osc 0))| |by eexists [_]]. split_and!; [done..|].
  eapply extends_trans; [exact Hf|]. apply extends_cons; [by intros ? ? []|apply extends_refl].
Qed.

(** ** Down and up *)

Context (fuel : nat) (call_pcb : Z -> Z -> Z -> M C S Z) (time_mdelay time_udelay : Z -> M C S unit).
Hypothesis Hmdelay : forall ms, calm (time_mdelay ms).
Hypothesis Hudelay : forall us, calm (time_udelay us).

(** What [suspend_para_prepare] leaves, and every later resume. *)
Definition backup_ready (p : clk_backup) : Prop :=
  plls_ready p /\ (exists bs, bus_restore p = bs /\ Forall2 free_bus bus_regs bs) /\
  bus_ctl_addr p = bus_ctl_regs /\ length (bus_ctl_value p) = 4%nat.

(** Everything saved, and closed. *)
Definition backup_full (before v : Z -> Z) (p p' : clk_backup) : Prop :=
  p' = ClkBackup (plls_at v) (map (fun a => saved_bus a (before a)) bus_regs) bus_ctl_regs (map before bus_ctl_regs)
         (cpu_pll_restore_bak p) (cpu_clk_restore_bak p) (para_has_parsed p).
Definition resting (before v : Z -> Z) (a : Z) : Z :=
  if bool_decide (a ∈ pll_regs) then closed (v a)
  else if bool_decide (a ∈ bus_regs) then parked (before a) else quiesced (before a).

(** The values as they are before: words, with dividers of a byte. *)
Definition in_range (before : Z -> Z) : Prop :=
  forall a, a ∈ bus_regs ++ bus_ctl_regs -> is_u32 (before a) /\ (a ∈ bus_regs -> divider (before a) < 256).

Lemma in_range_bus before k a : in_range before -> bus_regs !! k = Some a -> is_u32 (before a) /\ divider (before a) < 256.
Proof.
  intros Hr Ha. assert (a ∈ bus_regs) as Hin by (by eapply list_elem_of_lookup_2).
  destruct (Hr a) as [Hu Hd]; [apply elem_of_app; by left|]. split; [done|by apply Hd].
Qed.

(** One of the registers, by its place in a table. *)
Ltac each_bus k a Ha Hk :=
  intros k a Ha Hk; destruct k as [|[|[|[|[|[|[|k]]]]]]]; try lia; injection Ha as <-.

(** On each of the clock registers, by computation. *)
Ltac each_reg :=
  apply Forall_forall; unfold clock_regs, pll_regs, bus_regs, bus_ctl_regs; cbn [app];
  repeat (apply Forall_cons; split; [by vm_compute|]); by apply Forall_nil.

Lemma down_resting (c p q f : Z -> Z) : forall a, a ∈ clock_regs ->
  over pll_regs c (over (slice 4 3 bus_regs) p (over (slice 2 2 bus_ctl_regs) q (over (slice 0 2 bus_ctl_regs) q
    (over (slice 0 4 bus_regs) p f)))) a
  = if bool_decide (a ∈ pll_regs) then c a else if bool_decide (a ∈ bus_regs) then p a else q a.
Proof. each_reg. Qed.

(** The first three groups, in [clk_suspend]'s order. *)
Definition buses_down (before : Z -> Z) : Z -> Z :=
  over (slice 2 2 bus_ctl_regs) (fun a => quiesced (before a)) (over (slice 0 2 bus_ctl_regs) (fun a => quiesced (before a))
    (over (slice 0 4 bus_regs) (fun a => parked (before a)) before)).

Lemma ctl_in_range before lo n a : in_range before -> a ∈ slice lo n bus_ctl_regs -> is_u32 (before a).
Proof. intros Hr Ha. apply Hr, elem_of_app. right. by eapply slice_in. Qed.

Lemma buses_down_spec before osc h0 bs CV b s h (k : M C S unit) Q :
  Forall2 free_bus bus_regs bs -> length CV = 4%nat -> bus_ctl_addr b = bus_ctl_regs -> in_range before ->
  clocks before osc h0 (with_ctl_value CV (with_buses bs b)) before s h ->
  (forall s' h', clocks before osc h0 (with_ctl_value (map before bus_ctl_regs)
     (with_buses (take 0 bs ++ map (fun a => saved_bus a (before a)) (slice 0 4 bus_regs) ++ drop (0 + 4) bs) b))
     (buses_down before) s' h' -> wp k e s' h' Q total) ->
  wp (bus_clock_set rc16m ccmu_clk;; bus_clock_ctl rc16m bus_clk;; bus_clock_ctl rc16m gic_tra_clk;; k) e s h Q total.
Proof.
  intros Hfree HCV Hctl Hrange Hc Hk.
  change (bus_clock_set (S := S) rc16m ccmu_clk) with (ticks_loop (C := C) (set_one_bus (S := S) rc16m) 4 0).
  change (bus_clock_ctl (S := S) rc16m bus_clk) with (ticks_loop (C := C) (ctl_one_bus (S := S) rc16m) 2 0).
  change (bus_clock_ctl (S := S) rc16m gic_tra_clk) with (ticks_loop (C := C) (ctl_one_bus (S := S) rc16m) 2 2).
  assert (length bs = 7%nat) as Hlen by (symmetry; apply (Forall2_length _ _ _ Hfree)).
  apply wp_bind. eapply wp_mono.
  { apply (park_phase before osc h0 before bs (with_ctl_value CV b) 0 4); [exact Hc|done|lia|].
    intros i x Hx Hi. split; [|split; [done|by eapply in_range_bus]]. destruct (Forall2_lookup_l _ _ _ _ _ Hfree Hx) as (p & ? & ?).
    by exists p. }
  intros ? s1 h1 Hc1. apply wp_bind. eapply wp_mono.
  { eapply (ctl_phase _ _ _ _ CV (with_buses _ b) 0 2); [exact Hc1|done|done|lia|].
    intros x Hx. split; [|by eapply ctl_in_range]. revert x Hx. apply Forall_forall. cbn [slice take drop bus_ctl_regs].
    repeat (apply Forall_cons; split; [by vm_compute|]). by apply Forall_nil. }
  intros ? s2 h2 Hc2. apply wp_bind. eapply wp_mono.
  { eapply (ctl_phase _ _ _ _ _ (with_buses _ b) 2 2); [exact Hc2|by destruct CV as [|? [|? [|? [|? [|]]]]]|done|lia|].
    intros x Hx. split; [|by eapply ctl_in_range]. revert x Hx. apply Forall_forall. cbn [slice take drop bus_ctl_regs].
    repeat (apply Forall_cons; split; [by vm_compute|]). by apply Forall_nil. }
  intros ? s3 h3 Hc3. apply Hk. eapply clocks_ext; [exact Hc3| |done].
  f_equal. by destruct CV as [|? [|? [|? [|? [|]]]]].
Qed.

Lemma clk_suspend_spec before osc p s h :
  part s = p -> backup_ready p -> standby_osc24m_on (part s) = osc -> osc <> 0 ->
  (forall a, a ∈ clock_regs -> regval init h a = before a) -> in_range before ->
  wp (clk_suspend call_pcb time_mdelay time_udelay) e s h (fun _ s' h' => exists v p',
    (forall a, a ∈ pll_regs -> pll_saved_as before a (v a)) /\ backup_full before v p p' /\
    clocks before osc h p' (resting before v) s' h') total.
Proof.
  intros Hp (Hpll0 & (bs & Hbs & Hfree) & Hctl & HCV) Hosc Hne Hnow Hrange.
  destruct p as [P B CA CV CP CC f]. cbn in Hbs, Hctl, HCV. subst B CA.
  set (b := ClkBackup P bs bus_ctl_regs CV CP CC f) in *.
  assert (clocks before osc h (with_ctl_value CV (with_buses bs b)) before s h) as Hc.
  { split_and!; [done..|apply extends_refl]. }
  unfold clk_suspend, iosc. eapply clocks_calm; [still_auto|exact Hc|]. clear Hc. intros ? s1 h1 Hc.
  apply (buses_down_spec before osc h bs CV b); [done..|]. clear Hc s1 h1. intros s1 h1 Hc.
  do 5 (eapply clocks_calm; [first [apply still_twi|apply still_uart|unfold LOG; still_auto]|exact Hc|];
        clear Hc s1 h1; intros ? s1 h1 Hc).
  change (bus_clock_set (S := S) rc16m prcm_clk) with (ticks_loop (C := C) (set_one_bus (S := S) rc16m) 3 4).
  assert (length bs = 7%nat) as Hlen by (symmetry; apply (Forall2_length _ _ _ Hfree)).
  destruct bs as [|p0 [|p1 [|p2 [|p3 [|p4 [|p5 [|p6 [|]]]]]]]]; try discriminate Hlen.
  apply wp_bind. eapply wp_mono.
  { eapply (park_phase before osc h _ _ (with_ctl_value (map before bus_ctl_regs) b) 4 3); [exact Hc|done|lia|].
    intros k x Ha Hk. destruct (in_range_bus before k x Hrange Ha) as [Hu _].
    destruct (Forall2_lookup_l _ _ _ _ _ Hfree Ha) as (q & Hq & Hqf).
    destruct k as [|[|[|[|[|[|[|k]]]]]]]; try lia; injection Ha as <-; injection Hq as <-; (split; [by eexists|]); by split; [vm_compute|]. }
  clear Hc. intros ? s2 h2 Hc.
  do 6 (eapply clocks_calm; [first [apply Hmdelay|apply still_twi|apply still_uart|still_auto]|exact Hc|];
        clear Hc s2 h2; intros ? s2 h2 Hc).
  apply wp_bind. eapply wp_mono; [eapply pll_off_phase; [exact Hc|exact Hpll0|]|].
  { apply Forall_forall. unfold pll_regs. repeat (apply Forall_cons; split; [by vm_compute|]). by apply Forall_nil. }
  clear Hc. intros r s3 h3 (-> & v & Hv & Hc).
  eapply clocks_calm; [apply still_low_power|exact Hc|]. clear Hc. intros ? s4 h4 Hc.
  apply (osc_stays Hc Hne). intros y s5 h5 -> Hc5 _. apply wp_ret. exists v. eexists. split_and!; [done|done|].
  eapply clocks_ext; [exact Hc5|done|]. apply down_resting.
Qed.

Lemma up_restored (f g : Z -> Z) : forall a, a ∈ clock_regs ->
  over (slice 0 4 bus_regs) f (over (slice 0 2 bus_ctl_regs) f (over (slice 2 2 bus_ctl_regs) f (over (slice 4 3 bus_regs) f g))) a
  = if bool_decide (a ∈ pll_regs) then g a else f a.
Proof. each_reg. Qed.

Definition buses_free (before : Z -> Z) : list rBUS_PAMA := map (fun a => clear_flag (saved_bus a (before a))) bus_regs.

Lemma quiesced_u32 v : is_u32 v -> is_u32 (quiesced v).
Proof. intros Hv. unfold quiesced, undivided. by repeat apply is_u32_land_l. Qed.

(** What follows the PLLs in [clk_resume]. *)
Definition buses_up {A} (k : M C S A) : M C S A :=
  let! _ := twi_clkchangecb CCU_CLK_CLKCHG_REQ CCU_SYS_CLK24M_FREQ in
  let! _ := uart_clkchangecb CCU_CLK_CLKCHG_REQ CCU_SYS_CLK24M_FREQ in
  bus_clock_set clock_bak prcm_clk;;
  time_mdelay 10;;
  let! _ := uart_clkchangecb CCU_CLK_CLKCHG_DONE CCU_SYS_CLK24M_FREQ in
  let! _ := twi_clkchangecb CCU_CLK_CLKCHG_DONE CCU_SYS_CLK24M_FREQ in
  time_mdelay 10;;
  bus_clock_ctl clock_bak gic_tra_clk;;
  bus_clock_ctl clock_bak bus_clk;;
  bus_clock_set clock_bak ccmu_clk;;
  k.

Lemma buses_up_spec {A} (k : M C S A) Q before osc h0 b val s h : in_range before ->
  bus_restore b = map (fun a => saved_bus a (before a)) bus_regs -> bus_ctl_addr b = bus_ctl_regs ->
  bus_ctl_value b = map before bus_ctl_regs ->
  (forall a, a ∈ bus_regs -> val a = parked (before a)) -> (forall a, a ∈ bus_ctl_regs -> is_u32 (val a)) ->
  clocks before osc h0 b val s h ->
  (forall s' h', clocks before osc h0 (with_buses (buses_free before) b)
     (fun a => if bool_decide (a ∈ pll_regs) then val a else before a) s' h' -> wp k e s' h' Q total) ->
  wp (buses_up k) e s h Q total.
Proof.
  intros Hrange Hbs Hctl HCV Hbus' Hctl' Hc Hk. destruct b as [P B CA CV CP CC f]. cbn [bus_restore bus_ctl_addr bus_ctl_value] in Hbs, Hctl, HCV. subst B CA CV.
  assert (forall k a, bus_regs !! k = Some a -> (map (fun a => saved_bus a (before a)) bus_regs) !! k = Some (saved_bus a (before a)))
    as Hsaved by (intros i a Ha; by rewrite list_lookup_fmap, Ha).
  unfold buses_up.
  change (bus_clock_set (S := S) clock_bak prcm_clk) with (ticks_loop (C := C) (set_one_bus (S := S) clock_bak) 3 4).
  change (bus_clock_set (S := S) clock_bak ccmu_clk) with (ticks_loop (C := C) (set_one_bus (S := S) clock_bak) 4 0).
  change (bus_clock_ctl (S := S) clock_bak bus_clk) with (ticks_loop (C := C) (ctl_one_bus (S := S) clock_bak) 2 0).
  change (bus_clock_ctl (S := S) clock_bak gic_tra_clk) with (ticks_loop (C := C) (ctl_one_bus (S := S) clock_bak) 2 2).
  eapply clocks_calm; [apply still_twi|exact Hc|]. clear Hc s h. intros ? s h Hc.
  eapply clocks_calm; [apply still_uart|exact Hc|]. clear Hc s h. intros ? s h Hc.
  set (b := ClkBackup P _ bus_ctl_regs (map before bus_ctl_regs) CP CC f) in Hc.
  apply wp_bind. eapply wp_mono.
  { apply (unpark_phase before osc h0 val (bus_restore b) b 4 3); [exact Hc|done|lia|].
    intros i x Hx Hi. pose proof (in_range_bus before i x Hrange Hx) as [Hu Hd].
    split_and!; [by apply Hsaved|by eapply Hbus', list_elem_of_lookup_2|done|done]. }
  clear Hc. intros ? s1 h1 Hc.
  do 4 (eapply clocks_calm; [first [apply Hmdelay|apply still_twi|apply still_uart]|exact Hc|];
        clear Hc s1 h1; intros ? s1 h1 Hc).
  match type of Hc with clocks _ _ _ (with_buses ?l _) _ _ _ => set (bs := l) in Hc end.
  assert (forall k x, bus_ctl_regs !! k = Some x -> (map before bus_ctl_regs) !! k = Some (before x)) as Hctls
    by (intros i x Hx; by rewrite list_lookup_fmap, Hx).
  apply wp_bind. eapply wp_mono.
  { eapply (ctl_back_phase before osc h0 _ (map before bus_ctl_regs) (with_buses bs b) 2 2); [exact Hc|done|done|lia|].
    intros i x Hx Hi. split; [by apply Hctls|].
    destruct i as [|[|[|[|i]]]]; try lia; injection Hx as <-; cbv [over]; rewrite bool_decide_eq_false_2 by (apply (bool_decide_unpack _); by vm_compute);
      apply Hctl'; apply (bool_decide_unpack _); by vm_compute. }
  clear Hc. intros ? s2 h2 Hc. apply wp_bind. eapply wp_mono.
  { eapply (ctl_back_phase before osc h0 _ _ (with_buses bs b) 0 2); [exact Hc|done|done|lia|].
    intros i x Hx Hi.
    destruct i as [|[|i]]; try lia; injection Hx as <-; (split; [done|]); cbv [over]; rewrite !bool_decide_eq_false_2 by (apply (bool_decide_unpack _); by vm_compute);
      apply Hctl'; apply (bool_decide_unpack _); by vm_compute. }
  clear Hc. intros ? s3 h3 Hc. apply wp_bind. eapply wp_mono.
  { eapply (unpark_phase before osc h0 _ bs (with_ctl_value _ b) 0 4); [exact Hc|done|lia|].
    intros i x Hx Hi. pose proof (in_range_bus before i x Hrange Hx) as [Hu Hd].
    destruct i as [|[|[|[|i]]]]; try lia; injection Hx as <-; (split; [done|]); (split; [|done]); cbv [over];
      rewrite !bool_decide_eq_false_2 by (apply (bool_decide_unpack _); by vm_compute); apply Hbus'; apply (bool_decide_unpack _); by vm_compute. }
  intros ? s4 h4 Hc4. apply Hk. eapply clocks_ext; [exact Hc4|done|]. apply up_restored.
Qed.

Lemma opened_of v w : unlocked v = unlocked w -> opened v = opened w.
Proof. unfold opened, locking. by intros ->. Qed.
Lemma locking_of v w : unlocked v = unlocked w -> locking v = locking w.
Proof. unfold locking. by intros ->. Qed.

(** Asleep: each PLL closed and each bus on the slow clock, undivided. *)
Definition asleep (before : Z -> Z) h : Prop :=
  (forall a, a ∈ pll_regs -> exists v, unlocked v = unlocked (u32 (before a)) /\ regval init h a = closed v) /\
  (forall a, a ∈ bus_regs -> regval init h a = parked (before a)).

(** Each PLL of [n] that had been running with its lock detector on was given
    its setting back since [hs], and then seen to lock. *)
Definition seen_locked (before : Z -> Z) hs (n : nat) h : Prop := forall j a, (j < n)%nat -> pll_regs !! j = Some a ->
  locking (u32 (before a)) = true -> tried hs a (u32 (before a)) OK h.

(** A resume in which PLL [k] did not lock: it was looked at as long as the
    code does, it and those before it are open but for the output, those behind it
    still closed. *)
Definition gave_up (before : Z -> Z) hs (k : nat) h : Prop :=
  (exists a, pll_regs !! k = Some a /\ locking (u32 (before a)) = true /\ tried hs a (u32 (before a)) (- ETIMEOUT) h) /\
  seen_locked before hs k h /\
  forall j a, pll_regs !! j = Some a ->
    if (j <=? k)%nat then regval init h a = opened (u32 (before a))
    else exists v, unlocked v = unlocked (u32 (before a)) /\ regval init h a = closed v.

(** The end of a resume that began at [hs]. *)
Definition awake (before : Z -> Z) hs (r : Z) h : Prop :=
  (forall a, a ∈ bus_regs ++ bus_ctl_regs -> regval init h a = before a) /\
  (r = OK /\ (forall a, a ∈ pll_regs -> regval init h a = unlocked (u32 (before a))) /\ seen_locked before hs 14 h
   \/ r = - ETIMEOUT /\ exists k, gave_up before hs k h).

Lemma awake_earlier before mid hs r h : awake before (mid ++ hs) r h -> awake before hs r h.
Proof.
  intros [Hb Hr]. split; [done|].
  assert (forall n, seen_locked before (mid ++ hs) n h -> seen_locked before hs n h) as Hseen.
  { intros n Hn j a Hj Ha Hl. eapply tried_earlier, Hn; done. }
  destruct Hr as [(-> & Hp & Hs)|(-> & k & (a & Ha & Hl & Ht) & Hs & Hp)]; [left|right]; (split; [done|]).
  - split; [done|]. by apply Hseen.
  - exists k. split; [|split; [by apply Hseen|done]]. exists a. split_and!; [done..|]. by eapply tried_earlier.
Qed.

Lemma not_pll a : a ∈ bus_regs ++ bus_ctl_regs -> a ∉ pll_regs.
Proof.
  intros Ha Hp. pose proof clock_regs_nodup as Hnd. unfold clock_regs in Hnd.
  apply NoDup_app in Hnd as (_ & Hnd & _). by apply (Hnd a).
Qed.
Lemma resting_bus before v a : a ∈ bus_regs -> resting before v a = parked (before a).
Proof.
  intros Ha. unfold resting. rewrite bool_decide_eq_false_2, bool_decide_eq_true_2; [done|done|].
  apply not_pll, elem_of_app. by left.
Qed.
Lemma resting_ctl before v a : in_range before -> a ∈ bus_ctl_regs -> is_u32 (resting before v a).
Proof.
  intros Hr Ha. unfold resting. assert (a ∈ bus_regs ++ bus_ctl_regs) as Hin by (apply elem_of_app; by right).
  rewrite bool_decide_eq_false_2 by (by apply not_pll).
  assert (a ∉ bus_regs) as Hb.
  { pose proof clock_regs_nodup as Hnd. unfold clock_regs in Hnd. apply NoDup_app in Hnd as (_ & _ & Hnd).
    apply NoDup_app in Hnd as (_ & Hnd & _). intros Hb. by apply (Hnd a). }
  rewrite bool_decide_eq_false_2 by done. apply quiesced_u32. by apply Hr.
Qed.

(** The registers after the PLLs were switched on: all of them locked, or the
    first that did not lock and those behind it as they were. *)
Definition plls_tried (before v val : Z -> Z) hs (r : Z) h1 : Prop :=
  (forall a, a ∈ bus_regs ++ bus_ctl_regs -> val a = resting before v a) /\
  (r = OK /\ (forall a, a ∈ pll_regs -> val a = unlocked (v a)) /\
     (forall j x, pll_regs !! j = Some x -> locking (v x) = true -> tried hs x (v x) OK h1) \/
   r = - ETIMEOUT /\ exists k a, pll_regs !! k = Some a /\ locking (v a) = true /\ tried hs a (v a) r h1 /\
     (forall j x, (j < k)%nat -> pll_regs !! j = Some x -> locking (v x) = true -> tried hs x (v x) OK h1) /\
     forall j x, pll_regs !! j = Some x -> val x = if (j <=? k)%nat then opened (v x) else closed (v x)).

Lemma plls_tried_ok before v hs h1 :
  (forall j x, pll_regs !! j = Some x -> locking (v x) = true -> tried hs x (v x) OK h1) ->
  plls_tried before v (over pll_regs (fun a => unlocked (v a)) (resting before v)) hs OK h1.
Proof.
  intros Hall. split.
  - intros x Hx. unfold over. by rewrite bool_decide_eq_false_2 by (by apply not_pll).
  - left. split; [done|]. split; [|done]. intros x Hx. unfold over. by rewrite bool_decide_eq_true_2.
Qed.

Lemma plls_tried_failed before v k a hs h1 :
  pll_regs !! k = Some a -> locking (v a) = true -> tried hs a (v a) (- ETIMEOUT) h1 ->
  (forall j x, (j < k)%nat -> pll_regs !! j = Some x -> locking (v x) = true -> tried hs x (v x) OK h1) ->
  plls_tried before v (over (take (Datatypes.S k) pll_regs) (fun a => opened (v a)) (resting before v)) hs (- ETIMEOUT) h1.
Proof.
  intros Ha Hl Hp Hall. split.
  - intros x Hx. unfold over. rewrite bool_decide_eq_false_2; [done|].
    intros (i & (Hi & _)%lookup_take_Some)%list_elem_of_lookup. by eapply not_pll, list_elem_of_lookup_2.
  - right. split; [done|]. exists k, a. split_and!; [done..|]. intros j x Hx. unfold over.
    rewrite (take_lookup_in _ _ j) by (done || apply pll_regs_nodup).
    destruct (Nat.ltb_spec j (Datatypes.S k)) as [Hjk|Hjk], (Nat.leb_spec j k) as [Hjk'|Hjk']; [done|lia|lia|].
    unfold resting. rewrite bool_decide_eq_true_2; [done|by eapply list_elem_of_lookup_2].
Qed.

Lemma tried_of hs a v w r h : unlocked v = unlocked w -> tried hs a v r h -> tried hs a w r h.
Proof. intros E. unfold tried. by rewrite (opened_of _ _ E). Qed.

(** With the buses back too, the clocks are awake. *)
Lemma awake_after before v val hs r h1 h3 :
  (forall a, a ∈ pll_regs -> unlocked (v a) = unlocked (u32 (before a))) ->
  plls_tried before v val hs r h1 -> extends (fair before) h1 h3 ->
  (forall a, a ∈ clock_regs -> regval init h3 a = if bool_decide (a ∈ pll_regs) then val a else before a) ->
  awake before hs r h3.
Proof.
  intros Hun [_ Hcase] Hx3 Hr3. split.
  { intros a Ha. rewrite Hr3 by (unfold clock_regs; apply elem_of_app; by right).
    by rewrite bool_decide_eq_false_2 by (by apply not_pll). }
  assert (forall a, a ∈ pll_regs -> regval init h3 a = val a) as Hnow.
  { intros a Ha. rewrite Hr3 by (by apply pll_clock). by rewrite bool_decide_eq_true_2. }
  assert (forall j a, pll_regs !! j = Some a -> unlocked (v a) = unlocked (u32 (before a))) as Hunj.
  { intros j a Ha. by eapply Hun, list_elem_of_lookup_2. }
  assert (forall r j a, pll_regs !! j = Some a -> tried hs a (v a) r h1 -> tried hs a (u32 (before a)) r h3) as Htry.
  { intros r' j a Ha Ht. destruct Hx3 as (new & -> & _). by eapply tried_later, tried_of, Ht; eapply Hunj. }
  destruct Hcase as [(-> & Hall & Hseen)|(-> & k & a & Ha & Hl & Hp & Hseen & Hall)]; [left|right]; (split; [done|]).
  - split; [intros a Ha; by rewrite Hnow, Hall, Hun|]. intros j a _ Ha Hl. eapply Htry, Hseen; [exact Ha|exact Ha|].
    by rewrite (locking_of _ _ (Hunj _ _ Ha)).
  - exists k. split; [|split].
    + exists a. split_and!; [done|by rewrite <- (locking_of _ _ (Hunj _ _ Ha))|by eapply Htry].
    + intros j x Hj Hx Hlx. eapply Htry, Hseen; [exact Hx|exact Hj|exact Hx|]. by rewrite (locking_of _ _ (Hunj _ _ Hx)).
    + intros j x Hx. assert (x ∈ pll_regs) as Hin by (by eapply list_elem_of_lookup_2).
      rewrite Hnow, (Hall j x Hx) by done. destruct (j <=? k)%nat; [by apply opened_of, Hun|]. exists (v x). by rewrite Hun.
Qed.

Lemma clk_resume_spec before osc h0 v p p' s h : in_range before ->
  (forall a, a ∈ pll_regs -> pll_saved_as before a (v a)) -> backup_full before v p p' ->
  clocks before osc h0 p' (resting before v) s h ->
  wp (clk_resume time_mdelay time_udelay) e s h (fun r s' h' => awake before h r h' /\ backup_ready (part s') /\
    standby_osc24m_on (part s') = osc /\ extends (fair before) h0 h') total.
Proof.
  intros Hrange Hv -> Hc.
  assert (forall a, a ∈ pll_regs -> unlocked (v a) = unlocked (u32 (before a))) as Hun by (intros a Ha; by apply Hv).
  match type of Hc with clocks _ _ _ ?q _ _ _ => change q with (with_plls (plls_at v) q) in Hc; set (b := q) in Hc end.
  apply wp_bind. eapply wp_mono; [apply (pll_on_phase time_udelay before osc h0 b v _ s h (Hudelay 20) Hc)|].
  intros r s1 h1 Hback.
  assert (exists val, clocks before osc h0 (with_plls (plls_at v) b) val s1 h1 /\ plls_tried before v val h r h1)
    as (val & Hc1 & Htried).
  { destruct Hback as [(-> & Hc1 & Hseen)|(-> & k & a & Ha & Hl & Hp & Hseen & Hc1)];
      (eexists; split; [exact Hc1|]); [by apply plls_tried_ok | by eapply plls_tried_failed]. }
  clear Hback.
  assert (clocks before osc h1 (with_plls (plls_at v) b) val s1 h1) as Hc1'.
  { destruct Hc1 as (? & ? & ? & ?). split_and!; [done..|apply extends_refl]. }
  assert (forall s2 h2, clocks before osc h1 (with_plls (plls_at v) b) val s2 h2 -> wp (buses_up (ret r)) e s2 h2
    (fun r s' h' => awake before h r h' /\ backup_ready (part s') /\ standby_osc24m_on (part s') = osc /\
       extends (fair before) h0 h') total) as Hrest.
  { intros s2 h2 Hc2. eapply buses_up_spec; [exact Hrange|..|exact Hc2|]; [done|done|done| | |].
    - intros a Ha. rewrite (proj1 Htried) by (apply elem_of_app; by left). by apply resting_bus.
    - intros a Ha. rewrite (proj1 Htried) by (apply elem_of_app; by right). by apply resting_ctl.
    - intros s3 h3 (Hp3 & Ho3 & Hr3 & Hx3). apply wp_ret. split; [by eapply awake_after|].
      split; [|split; [done|]]; [|destruct Hc1 as (_ & _ & _ & Hx1); by eapply extends_trans].
      rewrite Hp3. split_and!; [|eexists; split; [done|]|done|done].
      + exists (map v pll_regs). split; [done|]. cbn [pll_restore with_buses with_plls]. unfold plls_of, plls_at.
        generalize pll_regs. intros l. induction l as [|a l IH]; [done|]. cbn [map zip_with]. by rewrite IH.
      + apply Forall2_fmap_r, Forall_Forall2_diag, Forall_forall. intros a _. done. }
  destruct (negb (r =? OK)).
  - eapply clocks_calm; [apply still_print|exact Hc1'|]. intros _ s2 h2 Hc2. by apply Hrest.
  - apply wp_bind, wp_ret. by apply Hrest.
Qed.

(** One standby, from clock statics that are ready. *)
Lemma round_spec s h :
  let before := regval init h in
  backup_ready (part s) -> standby_osc24m_on (part s) <> 0 -> in_range before ->
  wp (clk_suspend call_pcb time_mdelay time_udelay) e s h (fun _ s1 h1 => asleep before h1 /\ extends (fair before) h h1 /\
    forall s2 h2, unmoved s1 s2 -> extends spare h1 h2 ->
      wp (clk_resume_early fuel call_pcb time_mdelay;; clk_resume time_mdelay time_udelay) e s2 h2 (fun r s3 h3 =>
        awake before h2 r h3 /\ backup_ready (part s3) /\
        standby_osc24m_on (part s3) = standby_osc24m_on (part s) /\ extends (fair before) h2 h3) total) total.
Proof.
  intros before Hready Hosc Hrange. eapply wp_mono.
  { by apply (clk_suspend_spec before (standby_osc24m_on (part s)) (part s) s h). }
  intros [] s1 h1 (v & p' & Hv & Hfull & Hp1 & Ho1 & Hr1 & Hx1). split; [split|split; [done|]].
  - intros a Ha. exists (v a). split; [by apply Hv|]. rewrite Hr1 by (by apply pll_clock). unfold resting.
    by rewrite bool_decide_eq_true_2.
  - intros a Ha. rewrite Hr1 by (by apply bus_clock). by apply resting_bus.
  - intros s2 h2 [Hs2 Ho2] Hx2.
    assert (clocks before (standby_osc24m_on (part s)) h2 p' (resting before v) s2 h2) as Hc.
    { split_and!; [by rewrite Hs2|by rewrite Ho2| |apply extends_refl]. intros a Ha. rewrite <- Hr1 by done.
      by apply spare_regval. }
    apply wp_bind, (osc_stays Hc Hosc). intros y s3 h3 -> Hc3 [mid ->]. apply wp_ret.
    eapply wp_mono; [by eapply clk_resume_spec|]. intros r s4 h4 (Haw & Hready' & Hosc4 & Hx4).
    split_and!; [by eapply awake_earlier|done..].
Qed.

(** C32: With the oscillator left on, and no AHB or APB clock that is divided by
    more than 256 (a divider is saved in a byte), [clk_suspend] saves and
    closes every PLL, and puts every bus on the 16 MHz source, undivided.
    Whatever follows that leaves the clock registers and their statics alone,
    [clk_resume_early] and [clk_resume] return, leave the statics ready for the
    next standby, and give every bus, NSI, MBUS, GIC and trace clock its old
    register back.  If they report success the same holds of every PLL but for
    the lock bit, and each PLL that had been running with its lock detector on
    was given its setting and then seen to lock; if they report a timeout, one
    such PLL was looked at 100000 times in vain: it and the ones before it,
    which did lock, are open without an output, the ones behind it closed.  All
    along, both ways, no bus is ever written a divider that is not its own
    unless its source is the slow one. *)
Theorem clocks_survive_standby s h :
  let before := regval init h in
  backup_ready (part s) -> standby_osc24m_on (part s) <> 0 -> in_range before ->
  wp (clk_suspend call_pcb time_mdelay time_udelay) e s h (fun _ s1 h1 => asleep before h1 /\ extends (fair before) h h1 /\
    forall s2 h2, unmoved s1 s2 -> extends spare h1 h2 ->
      wp (clk_resume_early fuel call_pcb time_mdelay;; clk_resume time_mdelay time_udelay) e s2 h2 (fun r s3 h3 =>
        awake before h2 r h3 /\ backup_ready (part s3) /\
        standby_osc24m_on (part s3) = standby_osc24m_on (part s) /\ extends (fair before) h2 h3) total) total.
Proof. apply round_spec. Qed.

(** ** One standby after the other *)

(** Statics of the sizes they are declared with, no bus entry in use. *)
Definition backup_shaped (b : clk_backup) : Prop :=
  length (pll_restore b) = 14%nat /\ (length (bus_restore b) = 7%nat /\ Forall (fun p => bus_flag p = 0) (bus_restore b)) /\
  length (bus_ctl_addr b) = 4%nat /\ length (bus_ctl_value b) = 4%nat.
(** At load time, or after a standby. *)
Definition backup_usable (b : clk_backup) : Prop := b = clk_initial \/ backup_ready b.

Lemma initial_shaped : backup_shaped clk_initial.
Proof. split_and!; [done|done|by repeat constructor|done|done]. Qed.
Lemma ready_shaped b : backup_ready b -> backup_shaped b.
Proof.
  intros ((vs & Hvs & HP) & (bs & HB & Hfree) & HC & HV). unfold backup_shaped. rewrite HP, HB, HC. split_and!; [|by symmetry; apply (Forall2_length _ _ _ Hfree)| |done|done].
  - unfold plls_of. rewrite length_zip_with, Hvs. done.
  - apply Forall_lookup. intros k p Hp. destruct (Forall2_lookup_r _ _ _ _ _ Hfree Hp) as (a & _ & _ & Hf). exact Hf.
Qed.

Lemma wp_set_part_clk f b s h (Q : unit -> S -> history C -> Prop) K :
  Q tt (set_part (f b) s) h -> wp (set_clk f) e (set_part b s) h Q K.
Proof. intros HQ. unfold set_clk, clk_vars. apply wp_bind, wp_getp, wp_putp. by rewrite part_set, set_set. Qed.

(** Whatever the statics hold, every entry gets its register and keeps the
    rest; statics that were filled in are left alone. *)
Lemma prepare_spec s h : backup_usable (part s) ->
  wp suspend_para_prepare e s h (fun _ s' h' => h' = h /\ exists b, s' = set_part b s /\ backup_ready b) total.
Proof.
  intros Husable. unfold suspend_para_prepare, clk_vars. apply wp_bind, wp_getp.
  destruct (Z.eqb_spec (para_has_parsed (part s)) 0) as [Hp|Hp]; cbn [negb].
  2:{ apply wp_ret. split; [done|]. exists (part s). rewrite set_same. split; [done|]. destruct Husable as [E|]; [|done]. by rewrite E in Hp. }
  assert (backup_shaped (part s)) as Hshape by (destruct Husable as [-> |]; [apply initial_shaped|by apply ready_shaped]).
  pose proof (eq_sym (set_same (T := clk_backup) s)) as E. clear Husable Hp.
  revert Hshape E. generalize (part (T := clk_backup) s). intros b Hshape E. rewrite E at 1. clear E. revert Hshape. destruct b as [P B CA CV cp cc f].
  intros (HP & [HB Hfree] & HCA & HCV). cbn [pll_restore bus_restore bus_ctl_addr bus_ctl_value] in *.
  destruct P as [|[a0 v0] [|[a1 v1] [|[a2 v2] [|[a3 v3] [|[a4 v4] [|[a5 v5] [|[a6 v6] [|[a7 v7] [|[a8 v8] [|[a9 v9] [|[a10 v10] [|[a11 v11] [|[a12 v12] [|[a13 v13] [|]]]]]]]]]]]]]]]; try discriminate HP.
  destruct B as [|[c0 s0 m0 f0] [|[c1 s1 m1 f1] [|[c2 s2 m2 f2] [|[c3 s3 m3 f3] [|[c4 s4 m4 f4] [|[c5 s5 m5 f5] [|[c6 s6 m6 f6] [|]]]]]]]];
    try discriminate HB.
  destruct CA as [|? [|? [|? [|? [|]]]]]; try discriminate HCA.
  unfold set_pll_addr, set_bus_addr, set_ctl_addr.
  do 25 (apply wp_bind, wp_set_part_clk; cbn [with_plls with_buses with_ctl_addr pll_restore bus_restore bus_ctl_addr bus_ctl_value
    cpu_pll_restore_bak cpu_clk_restore_bak para_has_parsed alter list_alter pll_value pll_addr busAddr bus_clk_src bus_M bus_flag insert list_insert]).
  apply wp_set_part_clk. split; [done|]. eexists. split; [done|].
  split; [by eexists [_; _; _; _; _; _; _; _; _; _; _; _; _; _]|]. split; [|by split].
  eexists. split; [done|]. repeat (apply Forall_cons in Hfree as [? Hfree]). by repeat apply Forall2_cons_2.
Qed.

(** [n] standbys; [sleep] is what happens between the clocks' suspend and resume. *)
Fixpoint standbys (sleep : M C S unit) (n : nat) : M C S (list Z) :=
  match n with
  | O => ret []
  | Datatypes.S n =>
      suspend_para_prepare;;
      clk_suspend call_pcb time_mdelay time_udelay;;
      sleep;;
      let! r := (clk_resume_early fuel call_pcb time_mdelay;; clk_resume time_mdelay time_udelay) in
      let! rs := standbys sleep n in
      ret (r :: rs)
  end.

Lemma unlocked_again v : is_u32 v -> unlocked (u32 (unlocked v)) = unlocked v.
Proof.
  intros Hv. unfold unlocked. rewrite u32_id by (apply is_u32_land_l; [done|apply cnot32_range]).
  by rewrite <- Z.land_assoc, Z.land_diag.
Qed.
Lemma same_fair before before' h h' : (forall a, a ∈ bus_regs ++ bus_ctl_regs -> before' a = before a) ->
  extends (fair before') h h' -> extends (fair before) h h'.
Proof.
  intros E Hx. eapply extends_weaken; [exact Hx|]. intros a v Hf Ha. rewrite <- E by (apply elem_of_app; by left). by apply Hf.
Qed.

(** A PLL's register after so many standbys that all succeeded. *)
Definition pll_after (n : nat) (v : Z) : Z := match n with O => v | _ => unlocked (u32 v) end.
Lemma pll_after_step n v : pll_after n (unlocked (u32 v)) = unlocked (u32 v).
Proof. destruct n as [|n]; [done|]. apply unlocked_again, u32_range. Qed.

Lemma standbys_spec sleep n s h : let before := regval init h in
  calm sleep -> backup_usable (part s) -> standby_osc24m_on (part s) <> 0 -> in_range before ->
  wp (standbys sleep n) e s h (fun rs s' h' => length rs = n /\ Forall (fun r => r = OK \/ r = - ETIMEOUT) rs /\
    (forall a, a ∈ bus_regs ++ bus_ctl_regs -> regval init h' a = before a) /\
    (n <> O \/ backup_ready (part s) -> backup_ready (part s')) /\ extends (fair before) h h' /\
    (Forall (fun r => r = OK) rs -> forall a, a ∈ pll_regs -> regval init h' a = pll_after n (before a))) total.
Proof.
  intros before Hsleep Husable Hosc Hrange.
  revert s h before Husable Hosc Hrange. induction n as [|n IH]; intros s h before Husable Hosc Hrange; cbn [standbys].
  { apply wp_ret. split_and!; try done; [by intros []|apply extends_refl]. }
  apply wp_bind. eapply wp_mono; [by apply prepare_spec|]. intros _ s0 h0 (-> & b & -> & Hready).
  apply wp_bind. eapply wp_mono; [apply (round_spec (set_part b s) h); [by rewrite part_set|by rewrite part_other|done]|].
  intros _ s1 h1 (_ & Hx1 & Hup). apply wp_bind. eapply wp_mono; [apply Hsleep|]. intros _ s2 h2 [Hs2 Hx2].
  apply wp_bind. eapply wp_mono; [by apply Hup|]. intros r s3 h3 (Haw & Hready3 & Hosc3 & Hx3). fold before in Hx1, Hx3, Haw.
  rewrite part_other in Hosc3. assert (extends (fair before) h h3) as Hx03.
  { eapply extends_trans; [exact Hx1|]. eapply extends_trans; [by apply spare_fair|exact Hx3]. }
  destruct Haw as [Hbus3 Hres]. assert (in_range (regval init h3)) as Hrange3.
  { intros a Ha. rewrite Hbus3 by done. by apply Hrange. }
  apply wp_bind. eapply wp_mono; [apply (IH s3 h3); [by right|by rewrite Hosc3|done]|].
  intros rs s4 h4 (Hlen & Hall & Hbus4 & Hready4 & Hx4 & Hpll4). apply wp_ret. split_and!.
  - cbn. by rewrite Hlen.
  - constructor; [|done]. destruct Hres as [[-> _]|[-> _]]; [by left|by right].
  - intros a Ha. by rewrite Hbus4, Hbus3.
  - intros _. apply Hready4. by right.
  - eapply extends_trans; [exact Hx03|]. by eapply same_fair.
  - intros Hok a Ha. apply Forall_cons in Hok as [-> Hok]. destruct Hres as [(_ & Hpll3 & _)|[? _]]; [|done].
    rewrite Hpll4, Hpll3 by done. apply pll_after_step.
Qed.

(** C33: From the statics as they are loaded, where no table has an address in
    it, any number of standbys can follow one another, whatever happens in
    between that leaves the clock registers and their statics alone: each
    [suspend_para_prepare] puts the registers of boot0's register map into the
    tables, or leaves them there, and each [clk_suspend], [clk_resume_early]
    and [clk_resume] return.  After the last one every bus, NSI, MBUS, GIC and
    trace clock has the register it had before the first, the statics are
    ready for another, and if all of them reported success every PLL has its
    setting but for the lock bit; no bus was ever written a divider not its own
    but under the slow source. *)
Theorem standbys_repeat sleep n s h :
  let before := regval init h in
  calm sleep -> part s = clk_initial -> standby_osc24m_on (part s) <> 0 -> in_range before ->
  wp (standbys sleep n) e s h (fun rs s' h' => length rs = n /\ Forall (fun r => r = OK \/ r = - ETIMEOUT) rs /\
    (forall a, a ∈ bus_regs ++ bus_ctl_regs -> regval init h' a = before a) /\
    (n <> O -> backup_ready (part s')) /\ extends (fair before) h h' /\
    (n <> O -> Forall (fun r => r = OK) rs ->
       forall a, a ∈ pll_regs -> regval init h' a = unlocked (u32 (before a)))) total.
Proof.
  intros before Hsleep Hs Hosc Hrange. eapply wp_mono; [apply standbys_spec; [done|by left|done|done]|].
  intros rs s' h' (Hlen & Hall & Hbus' & Hready & Hx & Hp). split_and!; [done..|by auto|done|].
  intros Hn Hok a Ha. rewrite Hp by done. by destruct n.
Qed.
End Clocks.

(** ** A run *)

Record clk_image := ClkImage {
  ci_clk : clk_backup; ci_paras : standby_paras; ci_ccu : ccu; ci_uart : uart; ci_twi : twi;
  ci_notifiers : list notifier; ci_power : power }.
#[local] Ltac image_laws := by intros; repeat match goal with s : clk_image |- _ => destruct s end.
#[local, refine] Instance clk_image_clk : Part clk_backup clk_image := {| part := ci_clk; set_part c s :=
  ClkImage c (ci_paras s) (ci_ccu s) (ci_uart s) (ci_twi s) (ci_notifiers s) (ci_power s) |}.
Proof. all: image_laws. Defined.
#[local, refine] Instance clk_image_paras : Part standby_paras clk_image := {| part := ci_paras; set_part p s :=
  ClkImage (ci_clk s) p (ci_ccu s) (ci_uart s) (ci_twi s) (ci_notifiers s) (ci_power s) |}.
Proof. all: image_laws. Defined.
#[local, refine] Instance clk_image_ccu : Part ccu clk_image := {| part := ci_ccu; set_part c s :=
  ClkImage (ci_clk s) (ci_paras s) c (ci_uart s) (ci_twi s) (ci_notifiers s) (ci_power s) |}.
Proof. all: image_laws. Defined.
#[local, refine] Instance clk_image_uart : Part uart clk_image := {| part := ci_uart; set_part u s :=
  ClkImage (ci_clk s) (ci_paras s) (ci_ccu s) u (ci_twi s) (ci_notifiers s) (ci_power s) |}.
Proof. all: image_laws. Defined.
#[local, refine] Instance clk_image_twi : Part twi clk_image := {| part := ci_twi; set_part t s :=
  ClkImage (ci_clk s) (ci_paras s) (ci_ccu s) (ci_uart s) t (ci_notifiers s) (ci_power s) |}.
Proof. all: image_laws. Defined.
#[local, refine] Instance clk_image_notifiers : Part (list notifier) clk_image := {| part := ci_notifiers; set_part n s :=
  ClkImage (ci_clk s) (ci_paras s) (ci_ccu s) (ci_uart s) (ci_twi s) n (ci_power s) |}.
Proof. all: image_laws. Defined.
#[local, refine] Instance clk_image_power : Part power clk_image := {| part := ci_power; set_part p s :=
  ClkImage (ci_clk s) (ci_paras s) (ci_ccu s) (ci_uart s) (ci_twi s) (ci_notifiers s) p |}.
Proof. all: image_laws. Defined.

(** A PLL that is running, locked and with its output open; a bus divided by 4
    from source 3.  The hardware keeps what it is given, and locks at once. *)
Definition clk_before (a : Z) : Z := if bool_decide (a ∈ pll_regs) then 0xf8001000 else 0x83000003.
Definition clk_env : env fw_call :=
  Env (fun h a => let v := regval clk_before h a in if bool_decide (a ∈ pll_regs) then Z.lor v (BIT 28) else v)
    (fun _ _ => 0) (fun _ _ => []).
Definition clk_ready : clk_backup :=
  ClkBackup (map (fun a => PllPama a 0) pll_regs) (map (fun a => BusPama a 0 0 0) bus_regs) bus_ctl_regs (replicate 4 0)
    (replicate 4 0) (replicate 3 0) 1.
Definition clk_sample : clk_image :=
  ClkImage clk_ready paras_initial ccu_initial uart_initial (TwiVars 0) [] power_initial.

Lemma clk_ready_ready : backup_ready clk_ready.
Proof.
  split; [by exists (replicate 14 0)|]. split; [|done]. eexists. split; [done|]. cbn. by repeat apply Forall2_cons_2.
Qed.

Lemma clk_env_pll a : a ∈ pll_regs -> plain_but clk_env clk_before a PLL_LOCK_STATUS_MASK.
Proof.
  intros Ha h. cbn [env_read clk_env]. rewrite bool_decide_eq_true_2 by done. apply Z.bits_inj'. intros n Hn.
  rewrite !Z.land_spec, testbit_cnot32, !testbit_u32, Z.lor_spec by lia.
  change (BIT 28) with PLL_LOCK_STATUS_MASK. destruct (Z.testbit PLL_LOCK_STATUS_MASK n), (n <? 32); cbn; by rewrite ?andb_false_r, ?orb_false_r.
Qed.
Lemma clk_env_bus a : a ∈ bus_regs ++ bus_ctl_regs -> plain clk_env clk_before a.
Proof.
  intros Ha. pose proof (not_pll a Ha) as Hn. split.
  - unfold clk_before. rewrite bool_decide_eq_false_2 by done. by vm_compute.
  - intros h. cbn [env_read clk_env]. by rewrite bool_decide_eq_false_2.
Qed.

Lemma clk_before_range : in_range (regval clk_before ([] : history fw_call)).
Proof. intros a Ha. cbn [regval]. unfold clk_before. rewrite bool_decide_eq_false_2 by (by apply not_pll). by vm_compute. Qed.

Lemma clocks_survive_standby_witness :
  wp (clk_suspend (fun _ _ _ => ret 0) mdelay udelay) clk_env clk_sample [] (fun _ s1 h1 =>
    asleep clk_before (regval clk_before ([] : history fw_call)) h1 /\
    wp (clk_resume_early 1 (fun _ _ _ => ret 0) mdelay;; clk_resume mdelay udelay) clk_env s1 h1 (fun r _ h3 =>
      awake clk_before (regval clk_before ([] : history fw_call)) h1 r h3) total) total.
Proof.
  assert (Apart clk_backup standby_paras clk_image) as A1 by done.
  assert (Apart uart clk_backup clk_image) as A2 by done. assert (Apart uart standby_paras clk_image) as A3 by done.
  assert (Apart twi clk_backup clk_image) as A4 by done. assert (Apart twi standby_paras clk_image) as A5 by done.
  eapply wp_mono; [apply (clocks_survive_standby clk_before clk_env clk_env_pll clk_env_bus 1 (fun _ _ _ => ret 0) mdelay udelay)|].
  - intros ms. apply still_only, ow_mdelay.
  - intros us. apply still_only, ow_udelay.
  - apply clk_ready_ready.
  - by vm_compute.
  - apply clk_before_range.
  - intros ? s1 h1 (Hasleep & _ & Hup). split; [exact Hasleep|]. eapply wp_mono.
    + apply Hup; [done|apply extends_refl].
    + intros r s3 h3 [Haw _]. exact Haw.
Defined.

Lemma standbys_repeat_witness :
  let s := ClkImage clk_initial paras_initial ccu_initial uart_initial (TwiVars 0) [] power_initial in
  wp (standbys 1 (fun _ _ _ => ret 0) mdelay udelay wait_for_interrupt 3) clk_env s [] (fun rs s' h' => length rs = 3%nat /\
    backup_ready (ci_clk s') /\ regval clk_before h' 0x02002580 = 0x83000003) total.
Proof.
  assert (Apart clk_backup standby_paras clk_image) as A1 by done.
  assert (Apart uart clk_backup clk_image) as A2 by done. assert (Apart uart standby_paras clk_image) as A3 by done.
  assert (Apart twi clk_backup clk_image) as A4 by done. assert (Apart twi standby_paras clk_image) as A5 by done.
  intros s. eapply wp_mono; [apply (standbys_repeat clk_before clk_env clk_env_pll clk_env_bus 1 (fun _ _ _ => ret 0) mdelay udelay)|].
  - intros ms. apply still_only, ow_mdelay.
  - intros us. apply still_only, ow_udelay.
  - apply still_only, ow_bind; [apply ow_call|intros; apply ow_ret].
  - done.
  - by vm_compute.
  - apply clk_before_range.
  - intros rs s' h' (Hlen & _ & Hbus & Hready & _). split; [exact Hlen|]. split; [by apply Hready|].
    rewrite Hbus; [reflexivity|]. apply (bool_decide_unpack _). by vm_compute.
Defined.

(** The run itself: asleep, the DDR PLL is off and the AHB bus on the slow
    clock; awake, both are what they were. *)
Example clocks_run :
  match clk_suspend (fun _ _ _ => ret 0) mdelay udelay clk_env clk_sample [] with
  | Done _ s h => map (regval clk_before h) [CCU_PLL_DDR_REG; CCU_AHB_CFG_REG] = [0x10001000; 0x82000000] /\
      match clk_resume mdelay udelay clk_env s h with
      | Done r s h => r = OK /\ map (regval clk_before h) [CCU_PLL_DDR_REG; CCU_AHB_CFG_REG] = [0xe8001000; 0x83000003]
      | _ => False
      end
  | _ => False
  end.
Proof. vm_compute. done. Qed.
