(* ===== verification/StandbySys.v ===== *)
(** * Time, memory protection, isolation and devices over a standby
    (src/ar100s/service/standby/standby-sun60iw2p1/plat_standby.c, lines 32-58,
    116-166, 474-852 and 1153-1279)

    The closed DRAM library is a parameter: it is given the parameters of the
    DRAM, and may change everything the firmware's state has in the DRAM. *)

From Stdlib Require Import String.
From S2P Require Import Prelude Machine Console CMem Firmware Notifier Intc Cpucfg Prcm Uart Ticks Timer Power Msgbox.
From S2P Require Import Wakeup Crc Twi Pmu Rails StandbyClk.

Local Open Scope string_scope.
Local Open Scope list_scope.
Local Open Scope Z_scope.
Local Open Scope mach_scope.

(** ** Registers (platform_regs.h, service/standby.h, error.h) *)

Definition SUNXI_TIMESTAMP_STA_CNT_LOW_REG : Z := TS_STAT_REG_BASE.
Definition SUNXI_TIMESTAMP_STA_CNT_HI_REG : Z := TS_STAT_REG_BASE + 0x04.
Definition SUNXI_TIMESTAMP_CTRL_CNT_LOW_REG : Z := TS_CTRL_REG_BASE + 0x08.
Definition SUNXI_TIMESTAMP_CTRL_CNT_HI_REG : Z := TS_CTRL_REG_BASE + 0x0c.
Definition SUNXI_TIMESTAMP_CTRL_CNT_FREQID_REG : Z := TS_CTRL_REG_BASE + 0x20.
Definition RTC_YMD : Z := RTC_REG_BASE + 0x10.
Definition RTC_HMS : Z := RTC_REG_BASE + 0x14.
Definition RTC_YMD_MASK : Z := 0xFFFF.
Definition RTC_HMS_H_SHIFT : Z := 16.
Definition RTC_HMS_H_MASK : Z := Z.shiftl 0x1F RTC_HMS_H_SHIFT.
Definition RTC_HMS_M_SHIFT : Z := 8.
Definition RTC_HMS_M_MASK : Z := Z.shiftl 0x3F RTC_HMS_M_SHIFT.
Definition RTC_HMS_S_MASK : Z := 0x3F.
Definition RTC_VDD_OFF_GATING_CTRL : Z := RTC_REG_BASE + 0x1f4.
Definition RTC_VCCIO_OUTPUT_EN : Z := BIT 7.
Definition RTC_VCCIO_DETECT_EN : Z := 0x01.

Definition SUNXI_SID_PBASE : Z := 0x03006000.
Definition SID_SEC_MODE_STA : Z := SUNXI_SID_PBASE + 0xA0.
Definition SID_SEC_MODE_MASK : Z := 0x1.
Definition SUNXI_SMC_PBASE : Z := 0x0A000000.
Definition SUNXI_SMC1_PBASE : Z := SUNXI_SMC_PBASE + 0x10000.
Definition SMC_ACTION_REG : Z := SUNXI_SMC_PBASE + 0x0004.
Definition SMC_FUNCTION_BYPASS : Z := BIT 6.
Definition SMC_ITLV_CTRL_REG : Z := SUNXI_SMC_PBASE + 0x0018.
Definition SMC_MST0_BYP_REG : Z := SUNXI_SMC_PBASE + 0x0070.
Definition SMC_MST1_BYP_REG : Z := SUNXI_SMC_PBASE + 0x0074.
Definition SMC_MST0_SEC_REG : Z := SUNXI_SMC_PBASE + 0x0080.
Definition SMC_MST1_SEC_REG : Z := SUNXI_SMC_PBASE + 0x0084.
Definition SMC_REGION_COUNT : nat := 8.
Definition SMC_REGION_SETUP_LOW_REG (x : Z) : Z := SUNXI_SMC_PBASE + 0x100 + 0x10 * x.
Definition SMC_REGION_SETUP_HIGH_REG (x : Z) : Z := SUNXI_SMC_PBASE + 0x104 + 0x10 * x.
Definition SMC_REGION_ATTRIBUTE_REG (x : Z) : Z := SUNXI_SMC_PBASE + 0x108 + 0x10 * x.

Definition USB0_REG_BASE : Z := 0x04101000.
Definition USB1_REG_BASE : Z := 0x04200000.
Definition USB0_USB_CTRL_REG : Z := USB0_REG_BASE + 0x800.
Definition USB1_USB_CTRL_REG : Z := USB1_REG_BASE + 0x800.
Definition USB_STANDBY_CLOCK_SEL : Z := BIT 31.
Definition USB_CTRL_STANDBY_MODE : Z := BIT 31.
Definition CCU_USB0_CLK_REG : Z := CCU_REG_BASE + 0x1300.
Definition CCU_USB0_BGR_REG : Z := CCU_REG_BASE + 0x1304.
Definition CCU_USB1_CLK_REG : Z := CCU_REG_BASE + 0x1308.
Definition CCU_USB1_BGR_REG : Z := CCU_REG_BASE + 0x130C.
Definition CCU_USB0_USB1_REF_CLK_REG : Z := CCU_REG_BASE + 0x1340.
Definition USB0_CLKEN_MASK : Z := BIT 31.
Definition USB0_PHY_RSTN_MASK : Z := BIT 30.
Definition USB0_EHCI_RST_MASK : Z := BIT 20.
Definition USB0_OHCI_RST_MASK : Z := BIT 16.
Definition USB0_EHCI_GATING_MASK : Z := BIT 4.
Definition USB0_OHCI_GATING_MASK : Z := BIT 0.
Definition USB1_CLKEN_MASK : Z := BIT 31.
Definition USB1_PHY_RSTN_MASK : Z := BIT 30.
Definition USB1_EHCI_RST_MASK : Z := BIT 20.
Definition USB1_OHCI_RST_MASK : Z := BIT 16.
Definition USB1_EHCI_GATING_MASK : Z := BIT 4.
Definition USB1_OHCI_GATING_MASK : Z := BIT 0.
Definition USB0_USB1_REF_CLK_GATING_MASK : Z := BIT 31.
Definition VDD_SYS_PWROFF_GATING_REG : Z := R_PRCM_REG_BASE + 0x250.
Definition ANA_PWR_RST_REG : Z := R_PRCM_REG_BASE + 0x254.
Definition VDD_USB2CPUS_GATING (n : Z) : Z := Z.shiftl n 8.
Definition VDD_SYS2USB_GATING (n : Z) : Z := Z.shiftl n 3.
Definition CPUS_WAKEUP_USB : Z := Z.shiftl 1 13.
Definition PCK600_REG_BASE : Z := 0x07060000.
Definition CPU_DIRECT_ACCESS_DDR : Z := 0x8000200.
Definition REC_SSTANDBY : Z := 0xf1f10000.
Definition REC_DRAM_DBG : Z := 0x9000.

(** ** Data *)

Record smc_region := SmcRegion { region_low : Z; region_high : Z; region_attr : Z }.

(** The other statics of the file. *)
Record standby_vars := StandbyVars {
  result : Z;
  suspend_lock : Z;
  standby_type : Z;
  usb_standby_port : Z;
  timestamp_cnt_low_bak : Z;
  timestamp_cnt_hi_bak : Z;
  timestamp_cnt_freqid_bak : Z;
  rtc_last_time : Z;
  smc_region_save : list smc_region;
  cpu_direct_access : Z
}.
Definition standby_initial : standby_vars :=
  StandbyVars 0 0 0 0 0 0 0 0 (replicate SMC_REGION_COUNT (SmcRegion 0 0 0)) 0.
(** [dts_dram_para] of driver/dram/dram_dts_para_v2.c. *)
Record dram_paras := DramParas { dts_dram_para : list Z }.

Definition with_result (v : Z) (x : standby_vars) : standby_vars :=
  StandbyVars v (suspend_lock x) (standby_type x) (usb_standby_port x) (timestamp_cnt_low_bak x)
    (timestamp_cnt_hi_bak x) (timestamp_cnt_freqid_bak x) (rtc_last_time x) (smc_region_save x) (cpu_direct_access x).
Definition with_suspend_lock (v : Z) (x : standby_vars) : standby_vars :=
  StandbyVars (result x) v (standby_type x) (usb_standby_port x) (timestamp_cnt_low_bak x)
    (timestamp_cnt_hi_bak x) (timestamp_cnt_freqid_bak x) (rtc_last_time x) (smc_region_save x) (cpu_direct_access x).
Definition with_standby_type (v : Z) (x : standby_vars) : standby_vars :=
  StandbyVars (result x) (suspend_lock x) v (usb_standby_port x) (timestamp_cnt_low_bak x)
    (timestamp_cnt_hi_bak x) (timestamp_cnt_freqid_bak x) (rtc_last_time x) (smc_region_save x) (cpu_direct_access x).
Definition with_usb_port (v : Z) (x : standby_vars) : standby_vars :=
  StandbyVars (result x) (suspend_lock x) (standby_type x) v (timestamp_cnt_low_bak x)
    (timestamp_cnt_hi_bak x) (timestamp_cnt_freqid_bak x) (rtc_last_time x) (smc_region_save x) (cpu_direct_access x).
Definition with_timestamp (low hi freqid last : Z) (x : standby_vars) : standby_vars :=
  StandbyVars (result x) (suspend_lock x) (standby_type x) (usb_standby_port x) low hi freqid last
    (smc_region_save x) (cpu_direct_access x).
Definition with_regions (l : list smc_region) (x : standby_vars) : standby_vars :=
  StandbyVars (result x) (suspend_lock x) (standby_type x) (usb_standby_port x) (timestamp_cnt_low_bak x)
    (timestamp_cnt_hi_bak x) (timestamp_cnt_freqid_bak x) (rtc_last_time x) l (cpu_direct_access x).
Definition with_direct_access (v : Z) (x : standby_vars) : standby_vars :=
  StandbyVars (result x) (suspend_lock x) (standby_type x) (usb_standby_port x) (timestamp_cnt_low_bak x)
    (timestamp_cnt_hi_bak x) (timestamp_cnt_freqid_bak x) (rtc_last_time x) (smc_region_save x) v.

Section StandbySys.
Context {C S : Type} `{HPrint : HasPrintf C} `{HInsn : !HasInsn C} `{HCcu : !Part ccu S}
  `{HTwi : !Part twi S} `{HParas : !Part standby_paras S} `{HStandby : !Part standby_vars S}
  `{HDram : !Part dram_paras S} `{HWakeup : !Part wakeup S} `{HCrc : !Part crc_vars S} `{HMem : !Part mem S}.
Local Abbreviation M := (M C S).
(** The closed DRAM library, called with the parameters of the DRAM. *)
Context (fuel : nat) (time_mdelay : Z -> M unit)
  (dram_power_save_process dram_power_up_process : list Z -> M unit).

Definition sys_vars : M standby_vars := getp.
Definition set_sys (f : standby_vars -> standby_vars) : M unit := let! x := sys_vars in putp (f x).

(** ** Time *)

(** [uint64_t], the day count multiplied as a [uint32_t]. *)
Definition rtc_seconds (ymd hms : Z) : Z :=
  let rtc_s := u32 (u32 (ymd * 24) * 3600) in
  let rtc_s := u64 (rtc_s + Z.land hms RTC_HMS_S_MASK) in
  let rtc_s := u64 (rtc_s + u32 (Z.shiftr (Z.land hms RTC_HMS_M_MASK) RTC_HMS_M_SHIFT * 60)) in
  u64 (rtc_s + u32 (Z.shiftr (Z.land hms RTC_HMS_H_MASK) RTC_HMS_H_SHIFT * 3600)).
Definition rtc_get_timestamp_in_seconds_since (last : Z) : M Z :=
  let! v := readl RTC_YMD in
  let rtc_ymd := Z.land v RTC_YMD_MASK in
  let! rtc_hms := readl RTC_HMS in
  let rtc_s := rtc_seconds rtc_ymd rtc_hms in
  ret (if negb (last =? 0) then u64 (rtc_s - last) else rtc_s).

Definition sunxi_timestamp_suspend : M unit :=
  let! low := readl SUNXI_TIMESTAMP_STA_CNT_LOW_REG in
  let! hi := readl SUNXI_TIMESTAMP_STA_CNT_HI_REG in
  let! freqid := readl SUNXI_TIMESTAMP_CTRL_CNT_FREQID_REG in
  set_sys (fun x => with_timestamp low hi freqid (rtc_last_time x) x);;
  let! last := rtc_get_timestamp_in_seconds_since 0 in
  set_sys (fun x => with_timestamp (timestamp_cnt_low_bak x) (timestamp_cnt_hi_bak x)
                      (timestamp_cnt_freqid_bak x) last x).
Definition sunxi_timestamp_resume : M unit :=
  let! x := sys_vars in
  let timestamp_last_cnt := Z.lor (u64 (Z.shiftl (timestamp_cnt_hi_bak x) 32)) (timestamp_cnt_low_bak x) in
  let! rtc_suspend_time_s := rtc_get_timestamp_in_seconds_since (rtc_last_time x) in
  let! x := sys_vars in
  let timestamp_suspend_cnt := u64 (rtc_suspend_time_s * timestamp_cnt_freqid_bak x) in
  let timestamp_last_cnt := u64 (timestamp_last_cnt + timestamp_suspend_cnt) in
  writel 0x0 TS_CTRL_REG_BASE;;
  writel (timestamp_cnt_freqid_bak x) SUNXI_TIMESTAMP_CTRL_CNT_FREQID_REG;;
  writel (Z.land timestamp_last_cnt 0xffffffff) SUNXI_TIMESTAMP_CTRL_CNT_LOW_REG;;
  writel (Z.land (Z.shiftr timestamp_last_cnt 32) 0xffffffff) SUNXI_TIMESTAMP_CTRL_CNT_HI_REG;;
  writel 0x1 TS_CTRL_REG_BASE.

(** ** DRAM *)

Definition set_crcs (before after : option Z) : M unit :=
  let! w := getp in
  putp (WakeupVars (wakeup_source w) (default (before_crc w) before) (default (after_crc w) after)).

Definition dram_suspend : M unit :=
  let! on := standby_dram_crc_enable in
  (if negb (on =? 0) then
     let! crc := standby_dram_crc fuel in
     set_crcs (Some crc) None;;
     LOG "before_crc: 0x%x\n" [N_ crc]
   else ret tt);;
  let! d := getp in
  dram_power_save_process (dts_dram_para d).
Definition dram_resume : M Z :=
  let! d := getp in
  dram_power_up_process (dts_dram_para d);;
  let! on := standby_dram_crc_enable in
  if negb (on =? 0) then
    let! crc := standby_dram_crc fuel in
    set_crcs None (Some crc);;
    let! w := getp in
    if negb (after_crc w =? before_crc w) then
      save_state_flag (Z.lor (Z.lor REC_SSTANDBY REC_DRAM_DBG) 0xf);;
      ERR "dram CRC mismatch: before=%x after=%x\n" [N_ (before_crc w); N_ (after_crc w)];;
      ret (- EFAIL)
    else ret OK
  else ret OK.

(** ** Memory protection *)

Definition is_chip_secure : M bool :=
  let! v := readl SID_SEC_MODE_STA in ret (negb (Z.land v SID_SEC_MODE_MASK =? 0)).
Definition smc_write_reg (val paddr : Z) : M unit :=
  writel val paddr;;
  writel val (paddr + (SUNXI_SMC1_PBASE - SUNXI_SMC_PBASE)).
Definition sunxi_smc_en : M unit := smc_write_reg 0x0 SMC_ACTION_REG.
Definition sunxi_smc_need_glitch_workaround : M bool := is_chip_secure.
Definition sunxi_smc_en_with_glitch_workaround : M unit :=
  let! need := sunxi_smc_need_glitch_workaround in
  if negb need then ret tt
  else
    LOG "SMC clk glitch workaround in arisc\n" [];;
    sunxi_smc_en.

Definition region_at (i : nat) : M smc_region := let! x := sys_vars in elem (smc_region_save x) i.
Definition set_region (i : nat) (f : smc_region -> smc_region) : M unit :=
  let! _ := region_at i in
  set_sys (fun x => with_regions (alter f i (smc_region_save x)) x).

(** [n] regions from [read_idx] on. *)
Fixpoint smc_save_loop (n read_idx : nat) : M unit :=
  match n with
  | O => ret tt
  | Datatypes.S n =>
      let i := Z.of_nat read_idx in
      let! v := readl (SMC_REGION_ATTRIBUTE_REG i) in
      if v =? 0 then ret tt
      else
        LOG "SMC: Save region %d\n" [N_ i];;
        let! low := readl (SMC_REGION_SETUP_LOW_REG i) in
        set_region read_idx (fun r => SmcRegion low (region_high r) (region_attr r));;
        let! high := readl (SMC_REGION_SETUP_HIGH_REG i) in
        set_region read_idx (fun r => SmcRegion (region_low r) high (region_attr r));;
        let! attr := readl (SMC_REGION_ATTRIBUTE_REG i) in
        set_region read_idx (fun r => SmcRegion (region_low r) (region_high r) attr);;
        smc_save_loop n (Datatypes.S read_idx)
  end.
Definition smc_standby_init : M unit := smc_save_loop SMC_REGION_COUNT 0.

(** [resume_idx] is [read_idx] all along. *)
Fixpoint smc_restore_loop (n read_idx : nat) : M unit :=
  match n with
  | O => ret tt
  | Datatypes.S n =>
      let i := Z.of_nat read_idx in
      let! r := region_at read_idx in
      if region_attr r =? 0 then ret tt
      else
        LOG "SMC: Restore region %d\n" [N_ i];;
        smc_write_reg (region_low r) (SMC_REGION_SETUP_LOW_REG i);;
        smc_write_reg (region_high r) (SMC_REGION_SETUP_HIGH_REG i);;
        smc_write_reg (region_attr r) (SMC_REGION_ATTRIBUTE_REG i);;
        smc_restore_loop n (Datatypes.S read_idx)
  end.
Definition smc_standby_exit : M Z :=
  let! secure := is_chip_secure in
  if negb secure then LOG "SMC: non-secure chip\n" [];; ret OK
  else
    let! v := readl SMC_ACTION_REG in
    if negb (Z.land v SMC_FUNCTION_BYPASS =? 0) then
      ERR "SMC bypass remains enabled after resume\n" [];;
      ret (- EFAIL)
    else
      smc_write_reg 0x0 SMC_MST0_BYP_REG;;
      smc_write_reg 0x0 SMC_MST1_BYP_REG;;
      smc_write_reg 0xffffffff SMC_MST0_SEC_REG;;
      smc_write_reg 0xffffffff SMC_MST1_SEC_REG;;
      smc_write_reg (Z.lor (Z.shiftl 1 7) (Z.shiftl 0x01 4)) SMC_ITLV_CTRL_REG;;
      smc_restore_loop SMC_REGION_COUNT 0;;
      ret OK.

(** ** USB *)

Definition usb_port_at (reg bit : Z) : M Z :=
  let! val := readl reg in
  LOG "[%s] 0x%x:0x%x [%x]\n"
    [S_ "usb_standby_port_support"; N_ reg; N_ val; N_ (Z.land val USB_STANDBY_CLOCK_SEL)];;
  ret (if Z.land val USB_STANDBY_CLOCK_SEL =? USB_CTRL_STANDBY_MODE then bit else 0).
Definition usb_standby_port_support : M Z :=
  let! p0 := usb_port_at USB0_USB_CTRL_REG 0x1 in
  let! p1 := usb_port_at USB1_USB_CTRL_REG 0x2 in
  ret (Z.lor p0 p1).
Definition usb_standby_init : M unit :=
  let! port := usb_standby_port_support in set_sys (with_usb_port port).
Definition usb_standby_exit : M unit := set_sys (with_usb_port 0).

(** A change of a register, printed before and after. *)
Definition shown (reg : Z) (f : Z -> Z) : M unit :=
  let! val := readl reg in
  LOG "[0] 0x%x: 0x%x\n" [N_ reg; N_ val];;
  writel (f val) reg;;
  let! val := readl reg in
  LOG "[1] 0x%x: 0x%x\n" [N_ reg; N_ val].
Definition both_set (a b v : Z) : Z := Z.lor (Z.lor v a) b.
Definition both_clear (a b v : Z) : Z := Z.land (Z.land v (cnot32 a)) (cnot32 b).
Definition bit_set (a v : Z) : Z := Z.lor v a.
Definition bit_clear (a v : Z) : Z := Z.land v (cnot32 a).

(** What both directions start with: the ports that stay alive. *)
Definition usb_iso_state (name : string) : M (bool * bool * bool * bool) :=
  let! x := sys_vars in
  let usb0_en := negb (Z.land (usb_standby_port x) 0x1 =? 0) in
  let usb1_en := negb (Z.land (usb_standby_port x) 0x2 =? 0) in
  let usb_en := negb (usb_standby_port x =? 0) in
  LOG "[%s] standby_type :0x%x\n" [S_ name; N_ (standby_type x)];;
  let! p := getp in
  LOG "usb0: %d, usb1: %d, usb: %d, vdd: %d, port: 0x%x\n"
    [N_ (Z.b2z usb0_en); N_ (Z.b2z usb1_en); N_ (Z.b2z usb_en); N_ (standby_vdd_usb p); N_ (usb_standby_port x)];;
  ret (negb (Z.land (standby_type x) CPUS_WAKEUP_USB =? 0), usb0_en, usb1_en, usb_en).
Definition when (b : bool) (m : M unit) : M unit := if b then m else ret tt.

Definition usb_iso_suspend : M unit :=
  let! (wakeup_usb, usb0_en, usb1_en, usb_en) := usb_iso_state "usb_iso_suspend" in
  if negb wakeup_usb then
    shown VDD_SYS_PWROFF_GATING_REG (both_set (VDD_USB2CPUS_GATING 1) (VDD_SYS2USB_GATING 1))
  else
    when usb0_en
      (shown CCU_USB0_CLK_REG (bit_clear USB0_CLKEN_MASK);;
       shown CCU_USB0_BGR_REG (both_clear USB0_OHCI_GATING_MASK USB0_EHCI_GATING_MASK));;
    when usb1_en
      (shown CCU_USB1_CLK_REG (bit_clear USB1_CLKEN_MASK);;
       shown CCU_USB1_BGR_REG (both_clear USB1_OHCI_GATING_MASK USB1_EHCI_GATING_MASK));;
    when usb_en (shown CCU_USB0_USB1_REF_CLK_REG (bit_clear USB0_USB1_REF_CLK_GATING_MASK));;
    shown VDD_SYS_PWROFF_GATING_REG (bit_set (VDD_SYS2USB_GATING 1));;
    when usb0_en
      (shown CCU_USB0_CLK_REG (bit_clear USB0_PHY_RSTN_MASK);;
       shown CCU_USB0_BGR_REG (both_clear USB0_EHCI_RST_MASK USB0_OHCI_RST_MASK));;
    when usb1_en
      (shown CCU_USB1_CLK_REG (bit_clear USB1_PHY_RSTN_MASK);;
       shown CCU_USB1_BGR_REG (both_clear USB1_EHCI_RST_MASK USB1_OHCI_RST_MASK)).
Definition usb_iso_resume : M unit :=
  let! (wakeup_usb, usb0_en, usb1_en, usb_en) := usb_iso_state "usb_iso_resume" in
  if negb wakeup_usb then
    shown VDD_SYS_PWROFF_GATING_REG (both_clear (VDD_USB2CPUS_GATING 1) (VDD_SYS2USB_GATING 1))
  else
    when usb0_en
      (shown CCU_USB0_BGR_REG (both_set USB0_EHCI_RST_MASK USB0_OHCI_RST_MASK);;
       shown CCU_USB0_CLK_REG (bit_set USB0_PHY_RSTN_MASK));;
    when usb1_en
      (shown CCU_USB1_BGR_REG (both_set USB1_EHCI_RST_MASK USB1_OHCI_RST_MASK);;
       shown CCU_USB1_CLK_REG (bit_set USB1_PHY_RSTN_MASK));;
    shown VDD_SYS_PWROFF_GATING_REG (bit_clear (VDD_SYS2USB_GATING 1));;
    when usb_en (shown CCU_USB0_USB1_REF_CLK_REG (bit_set USB0_USB1_REF_CLK_GATING_MASK));;
    when usb0_en
      (shown CCU_USB0_BGR_REG (both_set USB0_OHCI_GATING_MASK USB0_EHCI_GATING_MASK);;
       shown CCU_USB0_CLK_REG (bit_set USB0_CLKEN_MASK));;
    when usb1_en
      (shown CCU_USB1_BGR_REG (both_set USB1_OHCI_GATING_MASK USB1_EHCI_GATING_MASK);;
       shown CCU_USB1_CLK_REG (bit_set USB1_CLKEN_MASK)).

(** ** Devices and power domains *)

Definition device_suspend : M unit :=
  usb_standby_init;;
  sunxi_timestamp_suspend;;
  smc_standby_init;;
  let! _ := pmu_standby_init in
  let! _ := twi_standby_init fuel in
  let! _ := hwmsgbox_super_standby_init in
  ret tt.
Definition device_resume : M Z :=
  let! _ := hwmsgbox_super_standby_exit in
  let! _ := twi_standby_exit in
  let! _ := pmu_standby_exit in
  let! r := smc_standby_exit in
  sunxi_timestamp_resume;;
  usb_standby_exit;;
  ret r.

Definition cpu_direct_access_suspend : M unit :=
  let! v := readl CPU_DIRECT_ACCESS_DDR in set_sys (with_direct_access v).
Definition cpu_direct_access_resume : M unit :=
  let! x := sys_vars in writel (cpu_direct_access x) CPU_DIRECT_ACCESS_DDR.

Definition nsi_resume : M unit :=
  writel 0x40a05 0x202446c;;
  writel 0x40a05 0x202466c;;
  writel 0x3f 0x2023a14;;
  writel 0x7f 0x2023c14;;
  writel 0xf 0x2023e14;;
  writel 0xf1 0x2024014;;
  writel 0xf1 0x2024214;;
  writel 0x1 0x202200c;;
  writel 0x1 0x202220c.

(** Domains from [i] on; nobody waits for the GPU core, domain 6. *)
Definition ppu_wake (i : nat) : M Z :=
  let reg := PCK600_REG_BASE + 0x1000 * Z.of_nat i in
  set_bits_of reg 0x8;;
  if (i =? 6)%nat then ret OK
  else poll STANDBY_HW_POLL_LIMIT (reg + 0x8) (fun v => Z.land v 0x8 =? 0).
Definition ppu_resume : M Z := until_failure ppu_wake 11 0.

Definition ana_iso : Z := Z.lor (Z.lor (Z.lor (BIT 0) (BIT 1)) (BIT 2)) (BIT 3).
Definition system_suspend : M unit :=
  set_bits_of ANA_PWR_RST_REG ana_iso;;
  usb_iso_suspend;;
  clear_bits_of VDD_SYS_PWR_RST_REG (BIT 0);;
  set_bits_of VDD_SYS_PWROFF_GATING_REG (BIT 2).
Definition system_resume : M unit :=
  clear_bits_of VDD_SYS_PWROFF_GATING_REG (BIT 2);;
  set_bits_of VDD_SYS_PWR_RST_REG (BIT 0);;
  clear_bits_of ANA_PWR_RST_REG ana_iso;;
  time_mdelay 2;;
  usb_iso_resume.

Definition rtc_vccio_det_suspend : M unit :=
  set_bits_of RTC_VDD_OFF_GATING_CTRL RTC_VCCIO_DETECT_EN;;
  clear_bits_of RTC_VDD_OFF_GATING_CTRL RTC_VCCIO_OUTPUT_EN.
Definition rtc_vccio_det_resume : M unit :=
  clear_bits_of RTC_VDD_OFF_GATING_CTRL RTC_VCCIO_DETECT_EN;;
  set_bits_of RTC_VDD_OFF_GATING_CTRL RTC_VCCIO_OUTPUT_EN.

Definition platform_standby_type : M Z :=
  let! on := interrupt_get_enabled INTC_R_USB_IRQ in
  ret (if negb (on =? 0) then CPUS_WAKEUP_USB else 0).
End StandbySys.
