(* ===== verification/StandbySysProps.v ===== *)
(** * Protection, time and memory over a standby
    (src/ar100s/service/standby/standby-sun60iw2p1/plat_standby.c)

    The regions of the memory controllers' protection come back on both of
    them, and the time stamp goes on from where it stood. *)

From Stdlib Require Import String.
From S2P Require Import CMem Prelude Machine Console Firmware Notifier Intc Cpucfg Prcm Uart Ticks Timer Power Msgbox.
From S2P Require Import Wakeup Crc Twi Pmu Rails StandbyClk StandbyClkProps StandbySys.

Local Open Scope list_scope.
Local Open Scope Z_scope.
Local Open Scope mach_scope.

(** ** Memory protection *)

(** The registers of region [i] on the first controller; the second's are
    [SMC1] behind them. *)
Definition SMC1 : Z := SUNXI_SMC1_PBASE - SUNXI_SMC_PBASE.
Definition region_regs (i : nat) : list Z :=
  let i := Z.of_nat i in [SMC_REGION_SETUP_LOW_REG i; SMC_REGION_SETUP_HIGH_REG i; SMC_REGION_ATTRIBUTE_REG i].
Definition all_region_regs : list Z := concat (map region_regs (seq 0 SMC_REGION_COUNT)).

(** A region as the registers of a controller hold it. *)
Definition region_held (now : Z -> Z) (off : Z) (i : nat) : smc_region :=
  let i := Z.of_nat i in
  SmcRegion (now (off + SMC_REGION_SETUP_LOW_REG i)) (now (off + SMC_REGION_SETUP_HIGH_REG i))
    (now (off + SMC_REGION_ATTRIBUTE_REG i)).
Definition in_use (r : smc_region) : bool := negb (region_attr r =? 0).

(** The number of entries before the first that is not in use. *)
Fixpoint leading (l : list smc_region) : nat :=
  match l with r :: l => if in_use r then Datatypes.S (leading l) else O | [] => O end.

Lemma leading_lookup l i r : (i < leading l)%nat -> l !! i = Some r -> in_use r = true.
Proof.
  revert i. induction l as [|x l IH]; intros i; cbn [leading]; [lia|]. destruct (in_use x) eqn:Hx; [|lia].
  destruct i as [|i]; cbn; [by intros _ [= <-]|]. intros Hi. apply IH. lia.
Qed.
Lemma leading_le l : (leading l <= length l)%nat.
Proof. induction l as [|x l IH]; cbn; [done|]. destruct (in_use x); lia. Qed.

Lemma leading_take l l' : leading (take (leading l) l ++ l') = (leading l + leading l')%nat.
Proof.
  induction l as [|x l IH]; cbn [leading]; [done|]. destruct (in_use x) eqn:Hx; [|done]. cbn [take app leading]. by rewrite Hx, IH.
Qed.

Section Protection.
Context {C S : Type} `{HPrint : HasPrintf C} `{HStandby : !Part standby_vars S} (init : Z -> Z) (e : env C).
Implicit Types (s : S) (h : history C).

Hypothesis Hregs : forall a, a ∈ all_region_regs -> plain e init a.

Definition held h off (i : nat) : smc_region := region_held (regval init h) off i.
Definition words h : Prop := forall a, a ∈ all_region_regs -> is_u32 (regval init h a).
Definition no_writes (a v : Z) : Prop := False.

Lemma region_reg i a : (i < SMC_REGION_COUNT)%nat -> a ∈ region_regs i -> a ∈ all_region_regs.
Proof.
  intros Hi Ha. unfold all_region_regs. apply list_elem_of_In, in_concat. exists (region_regs i).
  split; [|by apply list_elem_of_In]. apply in_map, in_seq. unfold SMC_REGION_COUNT in *. lia.
Qed.

Lemma wp_read_region i a s h (Q : Z -> S -> history C -> Prop) K : (i < SMC_REGION_COUNT)%nat -> a ∈ region_regs i ->
  words h -> Q (regval init h a) s (Rd a (regval init h a) :: h) -> wp (readl a) e s h Q K.
Proof.
  intros Hi Ha Hw HQ. pose proof (region_reg i a Hi Ha) as Hin. apply wp_readl. intros v _ ->.
  by rewrite (proj2 (Hregs a Hin)), u32_id by (by apply Hw).
Qed.

Lemma set_region_spec i f T x s0 s h (k : M C S unit) Q :
  s = set_part (with_regions T x) s0 -> (i < length T)%nat ->
  wp k e (set_part (with_regions (alter f i T) x) s0) h Q total -> wp (set_region i f;; k) e s h Q total.
Proof.
  intros -> Hi Hk. destruct (lookup_lt_is_Some_2 T i Hi) as [r Hr].
  apply wp_bind, wp_bind, wp_bind, wp_getp. rewrite part_set. cbn [smc_region_save with_regions].
  unfold elem. rewrite Hr. apply wp_ret, wp_bind, wp_getp, wp_putp. by rewrite part_set, set_set.
Qed.

Lemma no_write_rd h a v : extends no_writes h (Rd (C := C) a v :: h).
Proof. apply extends_cons; [by intros ? ? []|apply extends_refl]. Qed.
Lemma no_write_call h c r : extends no_writes h (Call (C := C) c r :: h).
Proof. apply extends_cons; [by intros ? ? []|apply extends_refl]. Qed.
Lemma no_writes_regval h h' a : extends no_writes h h' -> regval init h' a = regval init h a.
Proof. intros Hx. eapply regval_extends; [exact Hx|]. by intros v []. Qed.
Lemma no_writes_held h h' off i : extends no_writes h h' -> held h' off i = held h off i.
Proof. intros Hx. unfold held, region_held. by rewrite !(no_writes_regval h h'). Qed.
Lemma no_writes_words h h' : extends no_writes h h' -> words h -> words h'.
Proof. intros Hx Hw a Ha. rewrite (no_writes_regval h h') by done. by apply Hw. Qed.

(** The table after a save. *)
Definition saved_regions h (i n : nat) (T : list smc_region) : list smc_region :=
  let used := map (held h 0) (seq i n) in
  take i T ++ take (leading used) used ++ drop (i + leading used) T.

Lemma saved_regions_step h i n T : (i < length T)%nat -> in_use (held h 0 i) = true ->
  saved_regions h (Datatypes.S i) n (<[i := held h 0 i]> T) = saved_regions h i (Datatypes.S n) T.
Proof.
  intros Hi Hu. unfold saved_regions. cbn [seq map leading take]. rewrite Hu. cbn [take].
  set (k := leading _). rewrite (take_S_r _ _ (held h 0 i)) by (by apply list_lookup_insert_eq).
  rewrite take_insert_ge, drop_insert_lt by lia. rewrite <- app_assoc. cbn [app]. do 3 f_equal. by rewrite Nat.add_succ_r.
Qed.
Lemma saved_regions_unused h i n T : in_use (held h 0 i) = false -> saved_regions h i (Datatypes.S n) T = T.
Proof.
  intros Hu. unfold saved_regions. cbn [seq map leading]. rewrite Hu. cbn [take app]. rewrite Nat.add_0_r. apply take_drop.
Qed.

Lemma held_in_use h i :
  in_use (held h 0 i) = negb (regval init h (SMC_REGION_ATTRIBUTE_REG (Z.of_nat i)) =? 0).
Proof. done. Qed.

Lemma alter_thrice {A} (f1 f2 f3 : A -> A) (i : nat) (l : list A) r : l !! i = Some r ->
  alter f3 i (alter f2 i (alter f1 i l)) = <[i := f3 (f2 (f1 r))]> l.
Proof.
  intros Hr. pose proof (lookup_lt_Some _ _ _ Hr) as Hi. apply list_eq. intros j. destruct (decide (i = j)) as [<-|Hne].
  - rewrite list_lookup_insert_eq by done. rewrite !list_lookup_alter, !decide_True by done. by rewrite Hr.
  - rewrite list_lookup_insert_ne by done. by rewrite !list_lookup_alter, !decide_False by done.
Qed.

Lemma smc_save_loop_spec n i T x s0 s h : (i + n = SMC_REGION_COUNT)%nat -> length T = SMC_REGION_COUNT -> words h ->
  s = set_part (with_regions T x) s0 ->
  wp (smc_save_loop n i) e s h (fun _ s' h' => s' = set_part (with_regions (saved_regions h i n T) x) s0 /\
    extends no_writes h h') total.
Proof.
  revert i T s h. induction n as [|n IH]; intros i T s h Hn Hlen Hw Hs; cbn [smc_save_loop].
  - apply wp_ret. split; [|apply extends_refl]. rewrite Hs. do 2 f_equal. unfold saved_regions. cbn [seq map leading take app].
    by rewrite Nat.add_0_r, take_drop.
  - assert (i < SMC_REGION_COUNT)%nat as Hi by lia. cbv zeta.
    apply wp_bind. apply (wp_read_region i); [done|apply list_elem_of_In; cbn; tauto|done|].
    pose proof (held_in_use h i) as Hu.
    destruct (Z.eqb_spec (regval init h (SMC_REGION_ATTRIBUTE_REG (Z.of_nat i))) 0) as [H0|H0].
    + apply wp_ret. split; [|apply no_write_rd]. by rewrite saved_regions_unused.
    + apply wp_bind, wp_printf. intros r0. set (h1 := Call _ _ :: _).
      assert (extends no_writes h h1) as Hx1 by (eapply extends_trans; [apply no_write_rd|apply no_write_call]).
      apply wp_bind. apply (wp_read_region i); [done|apply list_elem_of_In; cbn; tauto|exact Hw|].
      eapply set_region_spec; [exact Hs|by rewrite Hlen|].
      apply wp_bind. apply (wp_read_region i); [done|apply list_elem_of_In; cbn; tauto|exact Hw|].
      eapply set_region_spec; [done|by rewrite length_alter, Hlen|].
      apply wp_bind. apply (wp_read_region i); [done|apply list_elem_of_In; cbn; tauto|exact Hw|].
      eapply set_region_spec; [done|by rewrite !length_alter, Hlen|].
      destruct (lookup_lt_is_Some_2 T i ltac:(by rewrite Hlen)) as [r Hr].
      eapply wp_mono; [apply (IH (Datatypes.S i) (<[i := held h 0 i]> T))|].
      * lia.
      * by rewrite length_insert.
      * exact Hw.
      * do 2 f_equal. by rewrite (alter_thrice _ _ _ _ _ r Hr).
      * intros ? s' h' [-> Hx2]. split.
        -- by rewrite <- (saved_regions_step h i n T) by (by rewrite ?Hlen).
        -- eapply extends_trans; [exact Hx1|]. eapply extends_trans; [|exact Hx2].
           repeat (eapply extends_trans; [|apply no_write_rd]). apply extends_refl.
Qed.

(** *** Restoring *)

Definition on_either (off : Z) : Prop := off = 0 \/ off = SMC1.
Definition region_write (a v : Z) : Prop := exists off, on_either off /\ a - off ∈ all_region_regs.

(** The writes of one region, the last first. *)
Definition region_events (i : nat) (r : smc_region) : history C :=
  let i := Z.of_nat i in
  [Wr (SMC_REGION_ATTRIBUTE_REG i + SMC1) (region_attr r); Wr (SMC_REGION_ATTRIBUTE_REG i) (region_attr r);
   Wr (SMC_REGION_SETUP_HIGH_REG i + SMC1) (region_high r); Wr (SMC_REGION_SETUP_HIGH_REG i) (region_high r);
   Wr (SMC_REGION_SETUP_LOW_REG i + SMC1) (region_low r); Wr (SMC_REGION_SETUP_LOW_REG i) (region_low r)].

Ltac region_addresses :=
  unfold SMC_REGION_ATTRIBUTE_REG, SMC_REGION_SETUP_HIGH_REG, SMC_REGION_SETUP_LOW_REG, SMC1, SUNXI_SMC1_PBASE,
    SUNXI_SMC_PBASE, SMC_REGION_COUNT in *.

Lemma region_events_held i r h off j : (i < SMC_REGION_COUNT)%nat -> (j < SMC_REGION_COUNT)%nat -> on_either off ->
  held (region_events i r ++ h) off j = if (j =? i)%nat then r else held h off j.
Proof.
  intros Hi Hj Hoff. destruct r as [low high attr]. unfold region_events, held, region_held. cbn [app regval region_low region_high region_attr].
  destruct Hoff as [-> | ->]; destruct (Nat.eqb_spec j i) as [->|Hne]; region_addresses;
    repeat match goal with |- context [?a =? ?b] => destruct (Z.eqb_spec a b); [try lia|try lia] end; done.
Qed.

Lemma region_events_ours i r h : (i < SMC_REGION_COUNT)%nat -> extends region_write h (region_events i r ++ h).
Proof.
  intros Hi. exists (region_events i r). split; [done|]. intros a v Hav.
  assert (forall x, x ∈ region_regs i -> region_write x v /\ region_write (x + SMC1) v) as Hx.
  { intros x Hx. pose proof (region_reg i x Hi Hx). split; [exists 0|exists SMC1]; (split; [by (left + right)|]).
    - by rewrite Z.sub_0_r.
    - by rewrite Z.add_simpl_r. }
  unfold region_events in Hav. rewrite !elem_of_cons, !elem_of_nil in Hav.
  destruct Hav as [Hav|Hav]; repeat destruct Hav as [Hav|Hav]; try done; injection Hav as -> ->;
    apply Hx, list_elem_of_In; cbn; tauto.
Qed.

#[local] Instance region_inhabited : Inhabited smc_region := populate (SmcRegion 0 0 0).
(** Regions from [i] on as the table has them, as far as it is in use. *)
Definition restored (T : list smc_region) (i : nat) h h' : Prop :=
  forall j off, (j < SMC_REGION_COUNT)%nat -> on_either off ->
    held h' off j = if (i <=? j)%nat && (j <? i + leading (drop i T))%nat then T !!! j else held h off j.

Lemma smc_restore_loop_spec n i x s h : (i + n = SMC_REGION_COUNT)%nat -> length (smc_region_save x) = SMC_REGION_COUNT ->
  part s = x ->
  wp (smc_restore_loop n i) e s h (fun _ s' h' => s' = s /\ extends region_write h h' /\
    restored (smc_region_save x) i h h') total.
Proof.
  intros Hn Hlen Hs. revert i h Hn. set (T := smc_region_save x) in *. induction n as [|n IH]; intros i h Hn; cbn [smc_restore_loop].
  - apply wp_ret. split_and!; [done|apply extends_refl|]. intros j off Hj _.
    destruct (Nat.leb_spec i j); [lia|done].
  - destruct (lookup_lt_is_Some_2 T i ltac:(by rewrite Hlen; lia)) as [r Hr].
    cbv zeta. apply wp_bind, wp_bind, wp_getp. rewrite Hs. fold T. unfold elem. rewrite Hr. apply wp_ret.
    assert (leading (drop i T) = if in_use r then Datatypes.S (leading (drop (Datatypes.S i) T)) else O) as Hlead
      by (by rewrite (drop_S _ _ _ Hr)).
    unfold in_use in Hlead. destruct (Z.eqb_spec (region_attr r) 0) as [H0|H0]; cbn [negb] in Hlead.
    + apply wp_ret. split_and!; [done|apply extends_refl|]. intros j off Hj _. rewrite Hlead.
      destruct (Nat.leb_spec i j), (Nat.ltb_spec j (i + 0)); done || lia.
    + apply wp_bind, wp_printf. intros r0. set (h1 := Call _ _ :: h).
      do 3 apply wp_bind, wp_bind, wp_writel, wp_writel.
      change (wp (smc_restore_loop n (Datatypes.S i)) e s (region_events i r ++ h1)
        (fun _ s' h' => s' = s /\ extends region_write h h' /\ restored T i h h') total).
      eapply wp_mono; [apply IH; lia|]. intros ? s' h' (-> & Hx & Hrest). split; [done|]. split.
      * eapply extends_trans; [|exact Hx]. eapply extends_trans; [|apply region_events_ours; lia].
        apply extends_cons; [by intros ? ? []|apply extends_refl].
      * intros j off Hj Hoff. rewrite Hrest by done. rewrite region_events_held by (done || lia). rewrite Hlead.
        change (held h1 off j) with (held h off j).
        destruct (Nat.eqb_spec j i) as [->|Hne].
        -- rewrite (proj2 (Nat.leb_gt (Datatypes.S i) i)), Nat.leb_refl by lia. cbn [andb].
           rewrite (proj2 (Nat.ltb_lt i (i + _))) by lia. symmetry. by apply list_lookup_total_correct.
        -- destruct (Nat.leb_spec (Datatypes.S i) j), (Nat.leb_spec i j),
             (Nat.ltb_spec j (Datatypes.S i + leading (drop (Datatypes.S i) T))),
             (Nat.ltb_spec j (i + Datatypes.S (leading (drop (Datatypes.S i) T)))); done || lia.
Qed.

(** The chip is secure; the protection is bypassed. *)
Definition secure h : bool := negb (Z.land (u32 (env_read e h SID_SEC_MODE_STA)) SID_SEC_MODE_MASK =? 0).
Definition bypassed h : bool := negb (Z.land (u32 (env_read e h SMC_ACTION_REG)) SMC_FUNCTION_BYPASS =? 0).
Definition looked h : history C := Rd SID_SEC_MODE_STA (u32 (env_read e h SID_SEC_MODE_STA)) :: h.

(** No master is let past the protection, on either controller. *)
Definition masters_checked h : Prop := forall off, on_either off ->
  regval init h (SMC_MST0_BYP_REG + off) = 0 /\ regval init h (SMC_MST1_BYP_REG + off) = 0 /\
  regval init h (SMC_MST0_SEC_REG + off) = 0xffffffff /\ regval init h (SMC_MST1_SEC_REG + off) = 0xffffffff.

Lemma region_write_far a h h' : extends region_write h h' ->
  a < SUNXI_SMC_PBASE + 0x100 \/ SUNXI_SMC_PBASE + SMC1 <= a < SUNXI_SMC_PBASE + SMC1 + 0x100 ->
  regval init h' a = regval init h a.
Proof.
  intros Hx Ha. eapply regval_extends; [exact Hx|]. intros v (off & Hoff & Hin).
  assert (SUNXI_SMC_PBASE + 0x100 <= a - off < SUNXI_SMC_PBASE + 0x1000) as Hb.
  { clear Ha. revert Hin. generalize (a - off). apply Forall_forall. apply (bool_decide_unpack _). by vm_compute. }
  destruct Hoff as [-> | ->]; unfold SMC1, SUNXI_SMC1_PBASE, SUNXI_SMC_PBASE in *; lia.
Qed.

Lemma smc_standby_exit_spec x s h : length (smc_region_save x) = SMC_REGION_COUNT -> part s = x ->
  wp smc_standby_exit e s h (fun r s' h' => s' = s /\
    if negb (secure h) then r = OK /\ extends no_writes h h'
    else if bypassed (looked h) then r = - EFAIL /\ extends no_writes h h'
    else r = OK /\ masters_checked h' /\ restored (smc_region_save x) 0 h h') total.
Proof.
  intros Hlen Hs. unfold smc_standby_exit, is_chip_secure. apply wp_bind, wp_bind, wp_readl. intros v _ ->. apply wp_ret.
  fold (secure h). destruct (secure h); cbn [negb].
  - apply wp_bind, wp_readl. intros w _ ->. fold (looked h). fold (bypassed (looked h)).
    assert (extends no_writes h (looked h)) as Hlk by apply no_write_rd.
    destruct (bypassed (looked h)).
    + apply wp_bind, wp_printf. intros r. apply wp_ret. split_and!; [done|done|].
      eapply extends_trans; [eapply extends_trans; [exact Hlk|apply no_write_rd]|apply no_write_call].
    + do 5 apply wp_bind, wp_bind, wp_writel, wp_writel. set (h1 := Wr _ _ :: _).
      apply wp_bind. eapply wp_mono; [by apply (smc_restore_loop_spec 8 0 x)|].
      intros ? s' h' (-> & Hx & Hrest). apply wp_ret. split_and!; [done|done| |].
      * intros off Hoff. split_and!; (rewrite (region_write_far _ h1 h') by (done ||
          destruct Hoff as [-> | ->]; unfold SMC_MST0_BYP_REG, SMC_MST1_BYP_REG, SMC_MST0_SEC_REG, SMC_MST1_SEC_REG; lia));
          destruct Hoff as [-> | ->]; by vm_compute.
      * intros j off Hj Hoff. rewrite Hrest by done. case_match; [done|].
        unfold held, region_held, h1, looked. cbn [regval].
        destruct Hoff as [-> | ->]; region_addresses; unfold SMC_MST0_BYP_REG, SMC_MST1_BYP_REG, SMC_MST0_SEC_REG, SMC_MST1_SEC_REG,
          SMC_ITLV_CTRL_REG, SUNXI_SMC_PBASE;
          repeat match goal with |- context [?a =? ?b] => rewrite (proj2 (Z.eqb_neq a b)) by lia end; done.
  - apply wp_bind, wp_printf. intros r. apply wp_ret. split_and!; [done|done|].
    eapply extends_trans; [apply no_write_rd|apply no_write_call].
Qed.

Lemma with_regions_same x : with_regions (smc_region_save x) x = x.
Proof. by destruct x. Qed.

(** C35: On a secure chip whose protection is not bypassed, [smc_standby_exit]
    puts the regions that [smc_standby_init] found, up to the first without an
    attribute, back on both memory controllers, whatever was in their registers
    by then, and lets no master past the protection; behind them it also writes
    what an earlier standby left in the table, up to its first free entry.  With
    the protection bypassed it fails, on a chip that is not secure it succeeds,
    and in both cases writes nothing.  Neither function leaves the table. *)
Theorem protection_survives_standby s h :
  words h -> length (smc_region_save (part s)) = SMC_REGION_COUNT ->
  let n := leading (map (held h 0) (seq 0 SMC_REGION_COUNT)) in
  let old := smc_region_save (part s) in
  wp smc_standby_init e s h (fun _ s1 h1 => extends no_writes h h1 /\
    forall s2 h2, smc_region_save (part s2) = smc_region_save (part s1) ->
      wp smc_standby_exit e s2 h2 (fun r s3 h3 => s3 = s2 /\
        if negb (secure h2) then r = OK /\ extends no_writes h2 h3
        else if bypassed (looked h2) then r = - EFAIL /\ extends no_writes h2 h3
        else r = OK /\ masters_checked h3 /\ forall j off, (j < SMC_REGION_COUNT)%nat -> on_either off ->
          held h3 off j = if (j <? n)%nat then held h 0 j
                          else if (j <? n + leading (drop n old))%nat then old !!! j else held h2 off j) total) total.
Proof.
  intros Hw Hlen n old. set (used := map (held h 0) (seq 0 SMC_REGION_COUNT)) in *.
  assert (length used = SMC_REGION_COUNT) as Hu by (unfold used; by rewrite length_map, length_seq).
  pose proof (leading_le used) as Hn. fold n in Hn. rewrite Hu in Hn.
  eapply wp_mono.
  { apply (smc_save_loop_spec SMC_REGION_COUNT 0 old (part s) s s h); [done..|].
    unfold old. by rewrite with_regions_same, set_same. }
  intros ? s1 h1 [-> Hx]. split; [done|]. intros s2 h2 Htab. rewrite part_set in Htab. cbn [smc_region_save with_regions] in Htab.
  unfold saved_regions in Htab. fold used in Htab. change (smc_region_save (part s2) = take n used ++ drop n old) in Htab.
  eapply wp_mono; [apply (smc_standby_exit_spec (part s2) s2 h2); [|done]|].
  { rewrite Htab, length_app, length_take_le, length_drop by lia. fold old in Hlen. lia. }
  intros r s3 h3 [-> Hcase]. split; [done|]. destruct (negb (secure h2)); [done|]. destruct (bypassed (looked h2)); [done|].
  destruct Hcase as (-> & Hm & Hrest). split_and!; [done|done|]. intros j off Hj Hoff. rewrite Hrest by done. cbn [Nat.leb andb Nat.add].
  assert (leading (drop 0 (smc_region_save (part s2))) = n + leading (drop n old))%nat as -> by (rewrite Htab; apply leading_take).
  rewrite Htab.
  destruct (Nat.ltb_spec j n) as [Hlt|Hge].
  - rewrite (proj2 (Nat.ltb_lt j _)) by lia. rewrite list_lookup_total_alt, lookup_app_l by (rewrite length_take_le; lia).
    rewrite lookup_take_lt by done. unfold used. rewrite list_lookup_fmap, lookup_seq_lt by done. done.
  - destruct (Nat.ltb_spec j (n + leading (drop n old))) as [Hs|Hs]; [|done].
    rewrite !list_lookup_total_alt, lookup_app_r by (rewrite length_take_le; lia).
    rewrite length_take_le, lookup_drop by lia. by replace (n + (j - n))%nat with j by lia.
Qed.
End Protection.

(** Two regions in use, and two old entries in the table; the chip is secure. *)
Definition smc_before (a : Z) : Z :=
  if a =? SMC_REGION_SETUP_LOW_REG 0 then 0x40000000 else if a =? SMC_REGION_SETUP_HIGH_REG 0 then 0x1
  else if a =? SMC_REGION_ATTRIBUTE_REG 0 then 0xf0000011 else if a =? SMC_REGION_SETUP_LOW_REG 1 then 0x48000000
  else if a =? SMC_REGION_ATTRIBUTE_REG 1 then 0xf0000013 else 0.
Definition smc_env : env fw_call :=
  Env (fun h a => if a =? SID_SEC_MODE_STA then 1 else if a =? SMC_ACTION_REG then 0 else regval smc_before h a)
    (fun _ _ => 0) (fun _ _ => []).
Definition smc_sample : standby_vars :=
  with_regions (replicate 3 (SmcRegion 0x50000000 2 0xf0000015) ++ replicate 5 (SmcRegion 0 0 0)) standby_initial.

Lemma smc_env_plain a : a ∈ all_region_regs -> plain smc_env smc_before a.
Proof.
  intros Ha. split.
  - revert a Ha. apply Forall_forall. apply (bool_decide_unpack _). by vm_compute.
  - intros h. cbn [env_read smc_env]. destruct (Z.eqb_spec a SID_SEC_MODE_STA) as [->|].
    { exfalso. revert Ha. apply (bool_decide_unpack _). by vm_compute. }
    destruct (Z.eqb_spec a SMC_ACTION_REG) as [->|]; [|done]. exfalso. revert Ha. apply (bool_decide_unpack _). by vm_compute.
Qed.

(** The registers of region 0 are lost in between; the stale third entry is
    written, too. *)
Lemma protection_survives_standby_witness :
  wp smc_standby_init smc_env smc_sample [] (fun _ s1 h1 =>
    wp smc_standby_exit smc_env s1 (Wr (SMC_REGION_SETUP_LOW_REG 0) 0 :: h1) (fun r _ h3 => r = OK /\
      held smc_before h3 SMC1 0 = SmcRegion 0x40000000 1 0xf0000011 /\
      held smc_before h3 0 1 = SmcRegion 0x48000000 0 0xf0000013 /\
      held smc_before h3 0 2 = SmcRegion 0x50000000 2 0xf0000015) total) total.
Proof.
  eapply wp_mono; [apply (protection_survives_standby smc_before smc_env smc_env_plain smc_sample []); [|done]|].
  - intros a Ha. apply (smc_env_plain a Ha).
  - intros ? s1 h1 [_ Hexit]. eapply wp_mono; [by apply (Hexit s1)|].
    intros r s3 h3 (_ & -> & _ & Hheld). split; [done|].
    rewrite !Hheld by first [by left | by right | unfold SMC_REGION_COUNT; lia]. split_and!; by vm_compute.
Defined.

(** ** The time stamp *)

Section TimeStamp.
Context {C S : Type} `{HPrint : HasPrintf C} `{HStandby : !Part standby_vars S} (e : env C).
Implicit Types (s : S) (h : history C).

(** What the clock's two registers say, without a wrap. *)
Definition clock_seconds (ymd hms : Z) : Z :=
  Z.land ymd RTC_YMD_MASK * 86400 + Z.land (Z.shiftr hms 16) 0x1F * 3600 + Z.land (Z.shiftr hms 8) 0x3F * 60 + Z.land hms 0x3F.

Lemma land_shifted hms m k : 0 <= k -> Z.shiftr (Z.land hms (Z.shiftl m k)) k = Z.land (Z.shiftr hms k) m.
Proof. intros Hk. by rewrite Z.shiftr_land, Z.shiftr_shiftl_l, Z.sub_diag, Z.shiftl_0_r by lia. Qed.

Lemma lookup_field_bound v w : 0 <= w -> 0 <= Z.land v (Z.ones w) < 2 ^ w.
Proof. intros Hw. rewrite Z.land_ones by done. apply Z.mod_pos_bound. lia. Qed.

Lemma rtc_seconds_exact ymd hms : Z.land ymd RTC_YMD_MASK < 49710 ->
  rtc_seconds (Z.land ymd RTC_YMD_MASK) hms = clock_seconds ymd hms.
Proof.
  intros Hd. unfold rtc_seconds, clock_seconds. unfold RTC_HMS_M_MASK, RTC_HMS_H_MASK, RTC_HMS_M_SHIFT, RTC_HMS_H_SHIFT, RTC_HMS_S_MASK.
  rewrite !land_shifted by lia. pose proof (lookup_field_bound ymd 16 ltac:(lia)) as H0. pose proof (lookup_field_bound hms 6 ltac:(lia)) as H1.
  pose proof (lookup_field_bound (Z.shiftr hms 8) 6 ltac:(lia)) as H2. pose proof (lookup_field_bound (Z.shiftr hms 16) 5 ltac:(lia)) as H3.
  change (Z.ones 16) with RTC_YMD_MASK in H0. change (Z.ones 6) with 0x3F in H1, H2. change (Z.ones 5) with 0x1F in H3.
  set (d := Z.land ymd RTC_YMD_MASK) in *. set (sec := Z.land hms 0x3F) in *.
  set (mi := Z.land (Z.shiftr hms 8) 0x3F) in *. set (ho := Z.land (Z.shiftr hms 16) 0x1F) in *.
  clearbody d sec mi ho. change (2 ^ 16) with 65536 in H0. change (2 ^ 6) with 64 in H1, H2. change (2 ^ 5) with 32 in H3.
  rewrite (u32_id (d * 24)), (u32_id (d * 24 * 3600)), (u32_id (mi * 60)), (u32_id (ho * 3600)) by (unfold is_u32; lia).
  rewrite (u64_id (_ + sec)) by (unfold is_u64; lia). rewrite (u64_id (_ + mi * 60)), (u64_id (_ + ho * 3600)) by (unfold is_u64; lia). lia.
Qed.

(** What a look at the clock gives after [h]. *)
Definition rtc_now h : Z :=
  let ymd := u32 (env_read e h RTC_YMD) in clock_seconds ymd (u32 (env_read e (Rd RTC_YMD ymd :: h) RTC_HMS)).
Definition rtc_in_range h : Prop := Z.land (u32 (env_read e h RTC_YMD)) RTC_YMD_MASK < 49710.

Lemma rtc_since last s h : rtc_in_range h ->
  wp (rtc_get_timestamp_in_seconds_since last) e s h (fun r s' h' => s' = s /\ exists v w,
    h' = [Rd RTC_HMS w; Rd RTC_YMD v] ++ h /\
    r = (if last =? 0 then clock_seconds v w else u64 (clock_seconds v w - last))) total.
Proof.
  intros Hr. apply wp_bind, wp_readl. intros v _ ->. apply wp_bind, wp_readl. intros w _ ->. apply wp_ret.
  split; [done|]. eexists _, _. split; [done|]. rewrite rtc_seconds_exact by done. by destruct (last =? 0).
Qed.

(** The counter of two words. *)
Definition ts_count (low hi : Z) : Z := low + hi * 2 ^ 32.

Lemma count_lor low hi : is_u32 low -> is_u32 hi -> Z.lor (u64 (Z.shiftl hi 32)) low = ts_count low hi.
Proof.
  intros Hl Hh. unfold is_u32 in *. rewrite u64_id by (rewrite Z.shiftl_mul_pow2 by lia; unfold is_u64; lia).
  rewrite Z.lor_comm. by apply lor_shiftl.
Qed.

(** Seconds between two looks, or since the beginning, make the same count. *)
Lemma count_elapsed c t t0 f :
  u64 (c + u64 ((if t0 =? 0 then t else u64 (t - t0)) * f)) = u64 (c + (t - t0) * f).
Proof.
  unfold u64. rewrite Zplus_mod_idemp_r. destruct (Z.eqb_spec t0 0) as [->|]; [by rewrite Z.sub_0_r|].
  by rewrite (Zplus_mod c ((_ mod _) * f)), Zmult_mod_idemp_l, <- Zplus_mod.
Qed.

(** Until the clock reaches day 49710, where the seconds no longer fit their
    word, [sunxi_timestamp_resume] programs the time stamp counter, while it is
    stopped, with the count and the rate [sunxi_timestamp_suspend] read, plus
    the seconds the clock has gone on in between at that rate, modulo its 64
    bits, and starts it. *)
Theorem timestamp_survives_standby s h : (forall h, rtc_in_range h) ->
  wp sunxi_timestamp_suspend e s h (fun _ s1 h1 => exists low hi freq v w,
    h1 = [Rd RTC_HMS w; Rd RTC_YMD v; Rd SUNXI_TIMESTAMP_CTRL_CNT_FREQID_REG freq; Rd SUNXI_TIMESTAMP_STA_CNT_HI_REG hi;
          Rd SUNXI_TIMESTAMP_STA_CNT_LOW_REG low] ++ h /\
    forall s2 h2, part (T := standby_vars) s2 = part s1 ->
      wp sunxi_timestamp_resume e s2 h2 (fun _ s3 h3 => s3 = s2 /\ exists v' w',
        let count := u64 (ts_count low hi + (clock_seconds v' w' - clock_seconds v w) * freq) in
        h3 = [Wr TS_CTRL_REG_BASE 1; Wr SUNXI_TIMESTAMP_CTRL_CNT_HI_REG (count / 2 ^ 32);
              Wr SUNXI_TIMESTAMP_CTRL_CNT_LOW_REG (count mod 2 ^ 32); Wr SUNXI_TIMESTAMP_CTRL_CNT_FREQID_REG freq;
              Wr TS_CTRL_REG_BASE 0; Rd RTC_HMS w'; Rd RTC_YMD v'] ++ h2) total) total.
Proof.
  intros Hr. apply wp_bind, wp_readl. intros low Hlow _. apply wp_bind, wp_readl. intros hi Hhi _.
  apply wp_bind, wp_readl. intros freq Hfreq _. apply wp_bind, wp_bind, wp_getp, wp_putp.
  apply wp_bind. eapply wp_mono; [apply (rtc_since 0); apply Hr|]. intros t s1 h1 (-> & v & w & -> & ->).
  apply wp_bind, wp_getp, wp_putp. rewrite !part_set. exists low, hi, freq, v, w. split; [done|].
  intros s2 h2 Hs2. apply wp_bind, wp_getp. rewrite Hs2. cbn [timestamp_cnt_low_bak timestamp_cnt_hi_bak rtc_last_time with_timestamp]. cbv zeta.
  apply wp_bind. eapply wp_mono; [apply rtc_since; apply Hr|]. intros t' s3 h3 (-> & v' & w' & -> & ->).
  apply wp_bind, wp_getp. rewrite Hs2. cbn [timestamp_cnt_freqid_bak with_timestamp]. cbv zeta.
  do 4 apply wp_bind, wp_writel. apply wp_writel. split; [done|]. exists v', w'.
  assert (forall c, Z.land c 0xffffffff = c mod 2 ^ 32) as Hmod by (intros c; by apply (Z.land_ones c 32)).
  assert (forall c, is_u64 c -> Z.land (Z.shiftr c 32) 0xffffffff = c / 2 ^ 32) as Hdiv.
  { intros c Hc. rewrite Hmod, Z.shiftr_div_pow2 by lia. apply Z.mod_small. unfold is_u64 in Hc.
    split; [apply Z.div_pos; lia|apply Z.div_lt_upper_bound; lia]. }
  rewrite (Hdiv (u64 _)) by (apply Z.mod_pos_bound; lia). rewrite Hmod, count_lor by done. change (0 =? 0) with true. cbn iota.
  by rewrite count_elapsed.
Qed.
End TimeStamp.

(** A clock that stands at day 7 and a counter that reads 7. *)
Lemma timestamp_survives_standby_witness :
  let e := Env (fun _ _ => 7) (fun _ _ => 0) (fun _ _ => []) : env fw_call in
  wp sunxi_timestamp_suspend e standby_initial [] (fun _ s1 h1 =>
    wp sunxi_timestamp_resume e s1 h1 (fun _ s3 h3 => s3 = s1 /\ length h3 = 12%nat) total) total.
Proof.
  intros e. eapply wp_mono; [apply (timestamp_survives_standby e standby_initial [])|].
  - intros h. unfold rtc_in_range. by vm_compute.
  - intros ? s1 h1 (low & hi & freq & v & w & Hh1 & Hresume). eapply wp_mono; [by apply (Hresume s1)|].
    intros ? s3 h3 (-> & v' & w' & ->). split; [done|]. by rewrite Hh1.
Defined.
