(* ===== verification/Dram.v ===== *)
(** * The DRAM parameters of the device tree
    (src/ar100s/driver/dram/dram_dts_para_v2.c, src/ar100s/system/daemon/para.c)

    The firmware reads what boot0 stored with
    [HwConfig.a733_hw_config_update_dram].  The tree is behind the same
    interface; names of properties are printed into the byte store. *)

From Stdlib Require Import Ascii String.
From S2P Require Import Prelude Machine Console CMem Firmware Msgbox Convert HwConfig StandbySys.

Local Open Scope string_scope.
Local Open Scope list_scope.
Local Open Scope Z_scope.
Local Open Scope mach_scope.

(** [dtb_base] of daemon.c; [platform_dram_para] of para.c, null or the array. *)
Record fdt_vars := FdtVars { dtb_base : Z; platform_dram_para : pointer }.
Definition fdt_initial : fdt_vars := FdtVars 0 Null.

(** A big-endian cell, as [fdt32_to_cpu] reads it. *)
Definition fdt32_to_cpu (bs : list Z) : Z :=
  fold_left (fun v b => v * 2 ^ 8 + b) bs 0.
(** [prop && len == sizeof( *prop)] *)
Definition cell_of (prop : option (list Z)) : option Z :=
  match prop with
  | Some bs => if Z.of_nat (length bs) =? 4 then Some (fdt32_to_cpu bs) else None
  | None => None
  end.

(** The string at an address, as libfdt reads a name. *)
Fixpoint load_name {C} (fuel : nat) (p : Z) : M C mem string :=
  match fuel with
  | O => stop_now OutOfFuel
  | Datatypes.S fuel =>
      let! c := load8 p in
      if c =? 0 then ret EmptyString
      else let! s := load_name fuel (p + 1) in ret (String (ascii_of_nat (Z.to_nat c)) s)
  end.

(** Addresses of the two formats, of [dram_para_prop] and of [strval]. *)
Record name_buffers := NameBuffers { fmt_short : Z; fmt_long : Z; dram_para_prop : Z; strval_at : Z }.

Section Dram.
Context {C S T : Type} `{HPrint : HasPrintf C} `{HMem : !Part mem S} `{HDram : !Part dram_paras S}
  `{HVars : !Part fdt_vars S} `{HFdt : FdtOps T}.
Local Abbreviation M := (M C S).
(** The tree at an address. *)
Context (tree : Z -> T) (b : name_buffers).

Definition the_fdt : M T := let! v := getp in ret (tree (dtb_base v)).
Definition set_dram (f : list Z -> list Z) : M unit :=
  let! d := getp in putp (DramParas (f (dts_dram_para d))).

(** [sprintf(dram_para_prop, "dram_para0%d" or "dram_para%d", i)] *)
Definition print_name (i : Z) : M string :=
  let! _ := on_part (sprintf (strval_at b) (dram_para_prop b) (if i <? 10 then fmt_short b else fmt_long b) [i]) in
  on_part (with_fuel (fun fuel => load_name fuel (dram_para_prop b))).

Fixpoint cells_loop (n : nat) (node i : Z) : M pointer :=
  match n with
  | O => ret There
  | Datatypes.S n =>
      let! name := print_name i in
      let! fdt := the_fdt in
      match cell_of (fdt_getprop fdt node name) with
      | None =>
          WRN "missing dram para[%d]\n" [N_ i];;
          set_dram (fun l => replicate (length l) 0);;
          ret Null
      | Some v =>
          set_dram (<[Z.to_nat i := v]>);;
          printk "dram para[%d] 0x%x\n" [N_ i; N_ v];;
          cells_loop n node (i + 1)
      end
  end.

(** [fdt] is an address in the messages of the code. *)
Definition dram_dts_parse : M pointer :=
  let! fdt := the_fdt in
  if negb (fdt_check_header fdt =? 0) then ret Null
  else
    let dram_para_node := fdt_path_offset fdt "/dram" in
    if dram_para_node <? 0 then
      let! v := getp in
      WRN "no dram-para: %x fdt:%x\n" [N_ dram_para_node; N_ (dtb_base v)];;
      ret Null
    else cells_loop 96 dram_para_node 0.

Definition platform_dts_parse_late : M Z :=
  let! p := dram_dts_parse in
  let! v := getp in
  putp (FdtVars (dtb_base v) p);;
  ret (match p with There => OK | Null => - EFAIL end).

Definition arisc_para_init : M unit := ret tt.
Definition set_paras : M unit := ret tt.
End Dram.
