(* ===== verification/DramProps.v ===== *)
(** * From boot0's DRAM training to the AR100 firmware
    (src/src/hw_config_a733.c, src/ar100s/driver/dram/dram_dts_para_v2.c)

    boot0 stores the trained parameters in the device tree, the firmware reads
    them back by names it prints itself: both sides meet in the tree. *)

From Stdlib Require Import Ascii String.
From S2P Require Import StringLib StringLibProps Convert ConvertProps.
From S2P Require Import Fdt FdtProps FdtTree Libfdt CMem Prelude Machine Console Firmware Msgbox HwConfig StandbySys Dram.

Local Open Scope list_scope.
Local Open Scope Z_scope.
Local Open Scope mach_scope.

(** ** Names *)

Definition chars_of (s : string) : list Z := map (fun c => Z.of_nat (nat_of_ascii c)) (list_ascii_of_string s).
Definition string_of (l : list Z) : string := string_of_list_ascii (map (fun c => ascii_of_nat (Z.to_nat c)) l).

(** What the two formats have in front of ["%d"]. *)
Definition name_text (i : Z) : list Z := if i <? 10 then chars_of "dram_para0" else chars_of "dram_para".
Definition name_format (i : Z) : list Z := name_text i ++ [ch_percent; ch_d].

Lemma names_agree i : 0 <= i < 96 -> string_of (name_text i ++ signed_numeral 10 i) = dram_para_name i.
Proof.
  intros Hi. assert (forallb (fun i => String.eqb (string_of (name_text i ++ signed_numeral 10 i)) (dram_para_name i)) (zrange 0 96) = true)
    as Hall by (vm_compute; reflexivity).
  apply String.eqb_eq. apply (zrange_forallb _ _ _ Hall). lia.
Qed.

Lemma name_text_chars i : Forall (fun c => is_u8 c /\ c <> ch_percent) (name_text i) /\ Forall (fun c => c <> 0) (name_text i).
Proof.
  unfold name_text. destruct (i <? 10); (split; [apply (bool_decide_unpack _)|apply (bool_decide_unpack _)]; by vm_compute).
Qed.
Lemma name_lengths i : 0 <= i < 96 -> (length (signed_numeral 10 i) <= 2)%nat /\ (length (name_text i) <= 10)%nat.
Proof.
  intros Hi. assert (forallb (fun i => (length (signed_numeral 10 i) <=? 2)%nat && (length (name_text i) <=? 10)%nat) (zrange 0 96) = true)
    as Hall by (vm_compute; reflexivity).
  pose proof (zrange_forallb _ _ _ Hall i ltac:(lia)) as Hb. apply andb_prop in Hb as [H1 H2].
  by rewrite !Nat.leb_le in H1, H2.
Qed.

(** ** The parser *)

Section Parse.
Context {C S T : Type} `{HPrint : HasPrintf C} `{HMem : !Part mem S} `{HDram : !Part dram_paras S}
  `{HVars : !Part fdt_vars S} `{HFdt : FdtOps T} `{!Apart mem dram_paras S} `{!Apart mem fdt_vars S}
  `{!Apart dram_paras mem S} `{!Apart dram_paras fdt_vars S} `{!Apart fdt_vars mem S} `{!Apart fdt_vars dram_paras S}.
Context (tree : Z -> T) (b : name_buffers) (e : env C).
Implicit Types (s : S) (h : history C).

(** The format strings are in the store, and the two buffers apart from them
    and from each other. *)
Record names_ready (m : mem) : Prop := {
  ready_short : cstr m (fmt_short b) (name_format 0);
  ready_long : cstr m (fmt_long b) (name_format 10);
  ready_strval : valid m (strval_at b) 32;
  ready_prop : valid m (dram_para_prop b) 20;
  ready_apart : apart (strval_at b) 32 (dram_para_prop b) 20 /\
    apart (strval_at b) 32 (fmt_short b) 13 /\ apart (strval_at b) 32 (fmt_long b) 12 /\
    apart (dram_para_prop b) 20 (fmt_short b) 13 /\ apart (dram_para_prop b) 20 (fmt_long b) 12
}.

Lemma names_stay m m' : names_ready m -> outside m m' (strval_at b) 32 (dram_para_prop b) 20 -> names_ready m'.
Proof.
  intros [Hs Hl Hv Hp (A1 & A2 & A3 & A4 & A5)] Ho. split; [| |by eapply outside_valid|by eapply outside_valid|done].
  - by eapply outside_cstr.
  - by eapply outside_cstr.
Qed.

Lemma wp_runs {A} (q : M C mem A) m x m' (Q : A -> mem -> history C -> Prop) K h :
  runs q m x m' -> Q x m' h -> wp q e m h Q K.
Proof. intros Hq HQ. unfold wp. by rewrite (Hq e h). Qed.

Lemma load_name_spec l p m fuel : cstr m p l -> Forall is_u8 l -> room m p fuel ->
  runs (C := C) (load_name fuel p) m (string_of l) m.
Proof.
  revert p fuel. induction l as [|c l IH]; intros p fuel Hp H8 Hr; (destruct fuel as [|fuel]; [by apply room_pos in Hr|]);
    cbn [load_name].
  - apply cstr_nil in Hp. eapply runs_bind; [by apply runs_load8|]. apply runs_ret.
  - apply cstr_cons in Hp as (Hc & Hnz & Hp). apply Forall_cons in H8 as [_ H8].
    eapply runs_bind; [by apply runs_load8|]. rewrite (proj2 (Z.eqb_neq _ _) Hnz).
    eapply runs_bind; [apply IH; [done|done|by eapply room_step]|]. apply runs_ret.
Qed.

Lemma print_name_spec i s h : 0 <= i < 96 -> names_ready (part s) ->
  wp (print_name b i) e s h (fun r s' h' => r = dram_para_name i /\ h' = h /\ exists m', s' = set_part m' s /\
    names_ready m') total.
Proof.
  intros Hi Hready. pose proof Hready as [Hs Hl Hv Hp (A1 & A2 & A3 & A4 & A5)].
  destruct (name_text_chars i) as [Hc Hnz]. destruct (name_lengths i Hi) as [Hn Ht].
  set (num := signed_numeral 10 i) in *. set (fmt := if i <? 10 then fmt_short b else fmt_long b).
  assert (cstr (part s) fmt (name_format i)) as Hf.
  { unfold fmt, name_format, name_text. destruct (i <? 10); [exact Hs|exact Hl]. }
  assert (length (name_text i) + 3 = if (i <? 10)%Z then 13 else 12)%nat as Hfl by (unfold name_text; by destruct (i <? 10)).
  destruct (sprintf_spec (C := C) (name_text i) i (strval_at b) (dram_para_prop b) fmt (part s)) as (m' & Hrun & Hbytes & Hout);
    fold num; unfold apart in *; try done; try lia.
  { eapply valid_sub; [exact Hp|lia|lia]. }
  { unfold fmt. destruct (i <? 10); lia. }
  { unfold fmt. destruct (i <? 10); lia. }
  apply wp_bind, wp_on_part. eapply wp_runs; [exact Hrun|]. apply wp_on_part. rewrite part_set.
  eapply wp_runs.
  { apply runs_with_fuel, (load_name_spec (name_text i ++ num)); [|..|apply room_init].
    - split; [exact Hbytes|]. apply Forall_app. split; [done|]. eapply Forall_impl; [apply signed_numeral_chars|]. by intros c [_ Hc'].
    - apply Forall_app. split; eapply Forall_impl; [exact Hc| |apply signed_numeral_chars|]; by intros c [Hc' _]. }
  split; [by apply names_agree|]. split; [done|]. exists m'. rewrite set_set. split; [done|].
  eapply names_stay; [exact Hready|]. eapply outside_widen; [exact Hout|lia|fold num; lia].
Qed.

Definition cell (node k : Z) (fdt : T) : option Z := cell_of (fdt_getprop fdt node (dram_para_name k)).

(** The parameters are [D], the rest of the parser's statics as it was. *)
Definition parsing (v : fdt_vars) (D : list Z) s : Prop :=
  names_ready (part s) /\ part s = DramParas D /\ part s = v /\ length D = 96%nat.

Lemma wp_the_fdt v D s h (Q : T -> S -> history C -> Prop) K :
  parsing v D s -> Q (tree (dtb_base v)) s h -> wp (the_fdt tree) e s h Q K.
Proof. intros (_ & _ & Hv & _) HQ. apply wp_bind, wp_getp. rewrite Hv. by apply wp_ret. Qed.
Lemma wp_set_dram v D f s h (Q : unit -> S -> history C -> Prop) K :
  parsing v D s -> length (f D) = 96%nat -> (forall s', parsing v (f D) s' -> Q tt s' h) -> wp (set_dram f) e s h Q K.
Proof.
  intros (Hm & Hd & Hv & _) Hl HQ. apply wp_bind, wp_getp, wp_putp. rewrite Hd. apply HQ.
  split_and!; [by rewrite part_other|by rewrite part_set|by rewrite part_other|done].
Qed.

Lemma cells_loop_spec v n node i D s h : 0 <= i -> i + Z.of_nat n = 96 -> parsing v D s ->
  wp (cells_loop tree b n node i) e s h (fun r s' _ => exists D', parsing v D' s' /\
    ((r = There /\ (forall k, i <= k < 96 -> cell node k (tree (dtb_base v)) = D' !! Z.to_nat k) /\
        forall k, (k < Z.to_nat i)%nat -> D' !! k = D !! k) \/
     (r = Null /\ D' = replicate 96 0 /\ exists k, i <= k < 96 /\ cell node k (tree (dtb_base v)) = None))) total.
Proof.
  revert i D s h. induction n as [|n IH]; intros i D s h Hi Hn Hp; cbn [cells_loop].
  - apply wp_ret. exists D. split; [done|]. left. split_and!; [done|lia|done].
  - apply wp_bind. eapply wp_mono; [apply print_name_spec; [lia|apply Hp]|].
    intros name s1 h1 (-> & -> & m' & -> & Hready).
    assert (parsing v D (set_part m' s)) as Hp1.
    { destruct Hp as (_ & Hd & Hv & Hl). split_and!; [by rewrite part_set|by rewrite part_other|by rewrite part_other|done]. }
    apply wp_bind. eapply wp_the_fdt; [exact Hp1|]. fold (cell node i (tree (dtb_base v))).
    destruct (cell node i (tree (dtb_base v))) as [w|] eqn:Hcell.
    + pose proof Hp1 as (_ & _ & _ & Hl). apply wp_bind. eapply wp_set_dram; [exact Hp1|by rewrite length_insert|].
      intros s2 Hp2. apply wp_bind, wp_printf. intros r0. eapply wp_mono; [apply IH; [lia|lia|exact Hp2]|].
      intros r s3 h3 (D' & Hp3 & [(-> & Hcells & Hold)|(-> & -> & k & Hk & Hnone)]); eexists; (split; [exact Hp3|]).
      * left. split_and!; [done| |].
        -- intros k Hk. destruct (decide (k = i)) as [->|]; [|apply Hcells; lia].
           rewrite Hcell, Hold by lia. symmetry. apply list_lookup_insert_eq. lia.
        -- intros k Hk. rewrite Hold by lia. apply list_lookup_insert_ne. lia.
      * right. split_and!; [done|done|]. exists k. split; [lia|done].
    + apply wp_bind, wp_printf. intros r0. apply wp_bind.
      pose proof Hp1 as (_ & _ & _ & Hl). eapply wp_set_dram; [exact Hp1|by rewrite length_replicate|].
      intros s2 Hp2. apply wp_ret. exists (replicate 96 0). rewrite Hl in Hp2. split; [done|]. right.
      split_and!; [done|done|]. exists i. split; [lia|done].
Qed.

(** [platform_dts_parse_late] on every tree. *)
Lemma dts_parse_spec v D s h : parsing v D s ->
  let fdt := tree (dtb_base v) in let node := fdt_path_offset fdt "/dram" in
  wp (platform_dts_parse_late tree b) e s h (fun r s' _ => exists D' p, parsing (FdtVars (dtb_base v) p) D' s' /\
    ((r = OK /\ p = There /\ fdt_check_header fdt = 0 /\ 0 <= node /\
        forall k, 0 <= k < 96 -> cell node k fdt = D' !! Z.to_nat k) \/
     (r = - EFAIL /\ p = Null /\ (fdt_check_header fdt <> 0 \/ node < 0 \/ exists k, 0 <= k < 96 /\ cell node k fdt = None))))
    total.
Proof.
  intros Hp fdt node.
  assert (forall D' s' h' p (Q : Z -> S -> history C -> Prop), parsing v D' s' ->
    (forall s'', parsing (FdtVars (dtb_base v) p) D' s'' -> Q (match p with There => OK | Null => - EFAIL end) s'' h') ->
    wp (let! x := getp in putp (FdtVars (dtb_base x) p);; ret (match p with There => OK | Null => - EFAIL end)) e s' h' Q total)
    as Hstore.
  { intros D' s' h' p Q (Hm & Hd & Hv & Hl) HQ. apply wp_bind, wp_getp, wp_bind, wp_putp, wp_ret. rewrite Hv. apply HQ.
    split_and!; [by rewrite part_other|by rewrite part_other|by rewrite part_set|done]. }
  apply wp_bind, wp_bind. eapply wp_the_fdt; [exact Hp|]. fold fdt.
  destruct (Z.eqb_spec (fdt_check_header fdt) 0) as [Hh|Hh]; cbn [negb].
  2:{ apply wp_ret. eapply Hstore; [exact Hp|]. intros s1 Hp1. exists D, Null. split; [done|]. right. split_and!; [done|done|by left]. }
  fold node. destruct (Z.ltb_spec node 0) as [Hn|Hn].
  { apply wp_bind, wp_getp, wp_bind, wp_printf. intros r0. apply wp_ret. eapply Hstore; [exact Hp|]. intros s1 Hp1.
    exists D, Null. split; [done|]. right. split_and!; [done|done|right; by left]. }
  eapply wp_mono; [apply (cells_loop_spec v 96 node 0 D); [done|done|exact Hp]|].
  intros p s1 h1 (D' & Hp1 & [(-> & Hcells & _)|(-> & -> & Hnone)]); (eapply Hstore; [exact Hp1|]); intros s2 Hp2; eexists _, _;
    (split; [exact Hp2|]); [left|right]; split_and!; try done. by right; right.
Qed.

(** The words the firmware reads are the ones boot0 wrote. *)
Lemma cell_of_bytes v : is_u32 v -> cell_of (Some (cell_bytes v)) = Some v.
Proof.
  intros Hv. unfold cell_of, cell_bytes. cbn [length Z.of_nat Pos.of_succ_nat Pos.succ Z.eqb Pos.eqb].
  unfold fdt32_to_cpu. cbn [fold_left]. rewrite u32_id by done. rewrite !Z.shiftr_div_pow2 by lia. f_equal.
  unfold is_u32 in Hv. change (2 ^ 8) with 256. change (2 ^ 16) with (256 * 256). change (2 ^ 24) with (256 * 256 * 256).
  rewrite <- !Zdiv_Zdiv by lia. assert (v / 256 / 256 / 256 < 256) by (rewrite !Z.div_div by lia; apply Z.div_lt_upper_bound; lia).
  assert (0 <= v / 256 / 256 / 256) by (repeat apply Z.div_pos; lia).
  rewrite (Z.mod_small (v / 256 / 256 / 256)) by lia.
  pose proof (Z.div_mod v 256 ltac:(lia)). pose proof (Z.div_mod (v / 256) 256 ltac:(lia)).
  pose proof (Z.div_mod (v / 256 / 256) 256 ltac:(lia)). lia.
Qed.

(** The tree after a successful update. *)
Lemma updated_tree `{HLaws : !FdtLaws T} t loaded_size paras t' :
  fdt_sound t -> length paras = 96%nat -> a733_hw_config_update_dram (Some t) loaded_size (Some paras) 96 = (0, Some t') ->
  fdt_check_header t' = 0 /\ 0 <= fdt_path_offset t' "/dram" /\
  forall k w, paras !! k = Some w ->
    fdt_getprop t' (fdt_path_offset t' "/dram") (dram_para_name (Z.of_nat k)) = Some (cell_bytes w).
Proof.
  intros Hs Hlen. unfold a733_hw_config_update_dram, A733_DRAM_PARA_COUNT. change (96 =? 96) with true. cbn [negb orb].
  destruct (Z.eqb_spec (fdt_check_header t) 0) as [Hh|]; cbn [negb orb]; [|done].
  destruct (loaded_size <? fdt_totalsize t); [done|]. destruct (Z.ltb_spec (fdt_path_offset t "/dram") 0) as [|Hn]; [done|].
  rewrite take_ge by (rewrite Hlen; lia).
  assert (Hl := dram_leads t Hn).
  pose proof (dram_loop_spec paras t (fdt_path_offset t "/dram") 0 Hs Hl ltac:(lia) ltac:(lia)) as Hspec.
  destruct (update_loop_shape paras t (fdt_path_offset t "/dram") 0 Hs Hl) as [Hpath Hhead].
  destruct (update_loop t _ 0 paras) as [bad t1]. cbn [snd] in Hpath, Hhead. destruct Hspec as (_ & Hset & _).
  destruct bad; [done|]. intros [= <-]. rewrite Hhead, Hpath by apply dram_absolute. split_and!; [done|done|]. intros k w Hw.
  by apply (Hset eq_refl).
Qed.

(** C39: What boot0 stored with [a733_hw_config_update_dram] in the tree it hands
    over, [platform_dts_parse_late] of the AR100 firmware reads back: when the
    update reported success, the parser finds every property under the name it
    prints with [sprintf], reports success, and leaves in [dts_dram_para]
    exactly the 96 parameters of the training, which it makes the platform's. *)
Theorem dram_parameters_arrive `{HLaws : !FdtLaws T} t loaded_size paras v D s h :
  fdt_sound t -> length paras = 96%nat -> Forall is_u32 paras ->
  a733_hw_config_update_dram (Some t) loaded_size (Some paras) 96 = (0, Some (tree (dtb_base v))) ->
  parsing v D s ->
  wp (platform_dts_parse_late tree b) e s h (fun r s' _ =>
    r = OK /\ part s' = DramParas paras /\ part s' = FdtVars (dtb_base v) There) total.
Proof.
  intros Hs Hlen Hu Hupd Hp. destruct (updated_tree t loaded_size paras _ Hs Hlen Hupd) as (Hh & Hn & Hset).
  assert (forall k w, paras !! k = Some w ->
    cell (fdt_path_offset (tree (dtb_base v)) "/dram") (Z.of_nat k) (tree (dtb_base v)) = Some w) as Hcell.
  { intros k w Hw. unfold cell. rewrite (Hset k w Hw). apply cell_of_bytes. by eapply Forall_lookup_1. }
  eapply wp_mono; [by apply (dts_parse_spec v D)|]. cbv zeta.
  intros r s' h' (D' & p & (_ & Hd & Hv & Hl) & [(-> & -> & _ & _ & Hcells)|(_ & _ & [Hx|[Hx|(k & Hk & Hx)]])]).
  - split; [done|]. rewrite Hd, Hv. split; [|done]. f_equal. apply list_eq. intros k.
    destruct (decide (k < 96)%nat) as [Hlt|Hge].
    + destruct (lookup_lt_is_Some_2 paras k ltac:(lia)) as [w Hw].
      rewrite Hw, <- (Hcell k w Hw), Hcells, Nat2Z.id by lia. done.
    + by rewrite !lookup_ge_None_2 by lia.
  - done.
  - lia.
  - exfalso. destruct (lookup_lt_is_Some_2 paras (Z.to_nat k) ltac:(lia)) as [w Hw].
    pose proof (Hcell _ w Hw) as Hc. rewrite Z2Nat.id in Hc by lia. congruence.
Qed.
End Parse.

(** ** A run of both *)

Record dram_image := DramImage { di_mem : mem; di_dram : dram_paras; di_vars : fdt_vars }.
#[local] Ltac dram_laws := by intros; repeat match goal with s : dram_image |- _ => destruct s end.
#[local, refine] Instance dram_image_mem : Part mem dram_image :=
  {| part := di_mem; set_part m s := DramImage m (di_dram s) (di_vars s) |}.
Proof. all: dram_laws. Defined.
#[local, refine] Instance dram_image_dram : Part dram_paras dram_image :=
  {| part := di_dram; set_part d s := DramImage (di_mem s) d (di_vars s) |}.
Proof. all: dram_laws. Defined.
#[local, refine] Instance dram_image_vars : Part fdt_vars dram_image :=
  {| part := di_vars; set_part v s := DramImage (di_mem s) (di_dram s) v |}.
Proof. all: dram_laws. Defined.

Definition trained : list Z := map (fun k => 0xa5000000 + Z.of_nat k) (seq 0 96).
(** The tree as the loader stores it, every parameter zero, and what boot0 makes
    of it. *)
Definition para_names : list (list Z) := map (fun k => chars (dram_para_name (Z.of_nat k))) (seq 0 96).
Definition untrained : tree :=
  Tree [] [] [Tree (chars "dram") (imap (fun k name => (12 * Z.of_nat k, name, [0; 0; 0; 0])) para_names) []].
Definition untrained_blob : fdt := blob 0x48000000 untrained (flat_map (fun name => name ++ [0]) para_names).
Definition trained_blob : fdt :=
  default untrained_blob (snd (a733_hw_config_update_dram (Some untrained_blob) 0x10000 (Some trained) 96)).

Lemma untrained_layout : layout untrained_blob 56 1568 1624 1152.
Proof. by apply (blob_layout 0x48000000 untrained (flat_map (fun name => name ++ [0]) para_names)). Qed.
Lemma untrained_chain : chain untrained_blob 56 1568 1624 1152 0 (flat untrained).
Proof.
  apply (blob_chain 0x48000000 untrained (flat_map (fun name => name ++ [0]) para_names)); [done..|].
  apply (bool_decide_unpack _). by vm_compute.
Qed.
Lemma untrained_sound : fdt_sound untrained_blob.
Proof.
  exists 56, 1568, 1624, 1152, [], (tail (flat untrained)). split; [apply untrained_layout|exact untrained_chain].
Qed.

Lemma boot0_trained : a733_hw_config_update_dram (Some untrained_blob) 0x10000 (Some trained) 96 = (0, Some trained_blob).
Proof.
  assert (H := update_dram_exact untrained_blob 0x10000 trained 96 untrained_sound ltac:(done)). cbv zeta in H.
  unfold trained_blob. destruct (a733_hw_config_update_dram _ _ _ _) as [r t'].
  destruct (tree_getprop untrained_blob 56 1568 1624 1152 untrained "/dram" (hd untrained (tree_kids untrained)) untrained_layout
    untrained_chain dram_absolute) as [Hnode Hget]; [by vm_compute|].
  destruct H as (_ & Hok & Hset). assert (r = 0) as ->.
  { apply Hok. split; [done|]. split; [|split; [|split; [done|]]].
    - cbn [fdt_check_header libfdt]. by rewrite (lay_header _ _ _ _ _ untrained_layout).
    - change (default 0 (Fdt.fdt_totalsize untrained_blob) <= 0x10000).
      assert (Fdt.fdt_totalsize untrained_blob = Some 2776) as ->; [|done].
      by apply (blob_totalsize 0x48000000 untrained (flat_map (fun name => name ++ [0]) para_names)).
    - intros k Hk. rewrite Hget.
      assert (forallb (fun k => bool_decide (property (chars (dram_para_name k)) (hd untrained (tree_kids untrained)) = Some [0; 0; 0; 0]))
        (zrange 0 96) = true) as Hall by (by vm_compute).
      exists [0; 0; 0; 0]. split; [|done]. eapply bool_decide_eq_true_1. exact (zrange_forallb _ 0 96 Hall k Hk). }
  destruct (Hset eq_refl) as (t'' & -> & _). done.
Qed.

Definition dram_names : name_buffers := NameBuffers 0x100 0x120 0x140 0x160.
Definition dram_store : mem :=
  write_at (write_at (write_at (write_at ∅ 0x100 (name_format 0 ++ [0])) 0x120 (name_format 10 ++ [0]))
    0x140 (replicate 20 0)) 0x160 (replicate 32 0).
Definition dram_sample : dram_image := DramImage dram_store (DramParas (replicate 96 0)) (FdtVars 0x48000000 Null).

Lemma dram_parameters_arrive_witness :
  let e := Env (fun _ _ => 0) (fun _ _ => 0) (fun _ _ => []) : env fw_call in
  wp (platform_dts_parse_late (fun _ => trained_blob) dram_names) e dram_sample [] (fun r s' _ =>
    r = OK /\ dts_dram_para (di_dram s') = trained) total.
Proof.
  intros e. assert (Apart mem dram_paras dram_image) as A1 by done. assert (Apart mem fdt_vars dram_image) as A2 by done.
  assert (Apart dram_paras mem dram_image) as A3 by done. assert (Apart dram_paras fdt_vars dram_image) as A4 by done.
  assert (Apart fdt_vars mem dram_image) as A5 by done. assert (Apart fdt_vars dram_paras dram_image) as A6 by done.
  eapply wp_mono; [apply (dram_parameters_arrive (fun _ => trained_blob) dram_names e untrained_blob 0x10000 trained
    (FdtVars 0x48000000 Null) (replicate 96 0) dram_sample [])|].
  - apply untrained_sound.
  - done.
  - apply (bool_decide_unpack _). by vm_compute.
  - apply boot0_trained.
  - split_and!; [|done|done|done]. split.
    + split; [check_store|]. apply (bool_decide_unpack _). by vm_compute.
    + split; [check_store|]. apply (bool_decide_unpack _). by vm_compute.
    + check_store.
    + check_store.
    + unfold apart. cbn. lia.
  - intros r s' h' (-> & Hd & _). split; [done|]. cbn in Hd. by rewrite Hd.
Defined.
