(* ===== verification/Standby.v ===== *)
(** * The standby of the system
    (src/ar100s/service/standby/standby-sun60iw2p1/plat_standby.c, lines
    240-356 and 1281-1567)

    A request to power the system off suspends it step by step, waits for a
    wake-up source and resumes it; a request to shut down or to reset goes to
    the power unit.  [wait_cpu0_resume] has a message of its own, which takes
    the place of the request while it runs. *)

From Stdlib Require Import String.
From S2P Require Import Prelude Machine Console CMem Firmware Notifier Intc Cpucfg Prcm Uart Ticks Timer Power Msgbox.
From S2P Require Import Wakeup Crc HwConfig Twi Pmu Rails CpuOps StandbyClk StandbySys Dram.

Local Open Scope string_scope.
Local Open Scope list_scope.
Local Open Scope Z_scope.
Local Open Scope mach_scope.

Definition REC_ESTANDBY : Z := 0xf3f30000.
Definition REC_ENTER : Z := 0x1000.
Definition REC_BEFORE_INIT : Z := 0x2000.
Definition REC_ENTER_INIT : Z := 0x3000.
Definition REC_AFTER_INIT : Z := 0x4000.
Definition REC_WAIT_WAKEUP : Z := 0x5000.
Definition REC_BEFORE_EXIT : Z := 0x6000.
Definition REC_ENTER_EXIT : Z := 0x7000.
Definition REC_AFTER_EXIT : Z := 0x8000.
Definition SEND_MSG_TIMEOUT : Z := 100000.
Definition HWMSGBOX_QUERY_TIMEOUT : Z := 100.
Definition MESSAGE_BASE : Z := 0x10.
Definition SSTANDBY_RESTORE_NOTIFY : Z := MESSAGE_BASE + 0x01.
Definition CPU0_RESTORE_QUERY_RETRIES : nat := 50.
Definition arisc_power_off : Z := 3.
Definition arisc_system_shutdown : Z := 0.
Definition arisc_system_reboot : Z := 1.
Definition arisc_system_reset : Z := 2.
Definition arisc_uboot_shutdown : Z := 3.

(** [dts_has_parsed] *)
Record parsed := Parsed { dts_has_parsed : Z }.

Section Standby.
Context {C S F T : Type} `{HPrint : HasPrintf C} `{HInsn : !HasInsn C} `{HCcu : !Part ccu S}
  `{HUart : !Part uart S} `{HTwi : !Part twi S} `{HPmu : !Part pmu S} `{HNotifiers : !Part (list notifier) S}
  `{HPower : !Part power S} `{HTicks : !Part ticks S} `{HMessage : !Part message S}
  `{HWakeup : !Part wakeup S} `{HCrc : !Part crc_vars S} `{HMem : !Part mem S} `{HRails : !Part rails S}
  `{HParas : !Part standby_paras S} `{HClk : !Part clk_backup S} `{HStandby : !Part standby_vars S}
  `{HDram : !Part dram_paras S} `{HVars : !Part fdt_vars S} `{HParsed : !Part parsed S} `{HFdt : FdtOps T}.
Local Abbreviation M := (M C S).
(** The model's bound of loops the code does not bound; the call-backs, the
    delays, the closed DRAM library; what the bus driver reads behind a
    buffer, and an uninitialised byte; where the wake-up timer is; the tree at
    an address. *)
Context (fuel : nat) (call_pcb : Z -> Z -> Z -> M Z) (time_mdelay time_udelay : Z -> M unit)
  (dram_power_save_process dram_power_up_process : list Z -> M unit) (beyond garbage : Z)
  (wakeup_timer : nat) (tree : Z -> T).
(** The core sleeps, and runs the interrupts that end it. *)
Context (cpu_enter_doze : M unit).

(** ** The device tree *)

(** The parameters in the order the code reads them. *)
Definition standby_names : list (string * (Z -> standby_paras -> standby_paras)) :=
  [("vdd-cpu", fun v p => StandbyParas v (standby_vdd_cpub p) (standby_vdd_sys p) (standby_vdd_usb p)
      (standby_vcc_pll p) (standby_vcc_io p) (standby_vcc_efuse p) (standby_osc24m_on p));
   ("vdd-cpub", fun v p => StandbyParas (standby_vdd_cpu p) v (standby_vdd_sys p) (standby_vdd_usb p)
      (standby_vcc_pll p) (standby_vcc_io p) (standby_vcc_efuse p) (standby_osc24m_on p));
   ("vdd-sys", fun v p => StandbyParas (standby_vdd_cpu p) (standby_vdd_cpub p) v (standby_vdd_usb p)
      (standby_vcc_pll p) (standby_vcc_io p) (standby_vcc_efuse p) (standby_osc24m_on p));
   ("vcc-pll", fun v p => StandbyParas (standby_vdd_cpu p) (standby_vdd_cpub p) (standby_vdd_sys p)
      (standby_vdd_usb p) v (standby_vcc_io p) (standby_vcc_efuse p) (standby_osc24m_on p));
   ("vcc-io", fun v p => StandbyParas (standby_vdd_cpu p) (standby_vdd_cpub p) (standby_vdd_sys p)
      (standby_vdd_usb p) (standby_vcc_pll p) v (standby_vcc_efuse p) (standby_osc24m_on p));
   ("vcc-efuse", fun v p => StandbyParas (standby_vdd_cpu p) (standby_vdd_cpub p) (standby_vdd_sys p)
      (standby_vdd_usb p) (standby_vcc_pll p) (standby_vcc_io p) v (standby_osc24m_on p));
   ("osc24m-on", fun v p => StandbyParas (standby_vdd_cpu p) (standby_vdd_cpub p) (standby_vdd_sys p)
      (standby_vdd_usb p) (standby_vcc_pll p) (standby_vcc_io p) (standby_vcc_efuse p) v)].
Definition set_vdd_usb (v : Z) (p : standby_paras) : standby_paras :=
  StandbyParas (standby_vdd_cpu p) (standby_vdd_cpub p) (standby_vdd_sys p) v (standby_vcc_pll p)
    (standby_vcc_io p) (standby_vcc_efuse p) (standby_osc24m_on p).
Definition set_paras_of (f : standby_paras -> standby_paras) : M unit := let! p := getp in putp (f p).

Fixpoint paras_loop (fdt : T) (node : Z) (l : list (string * (Z -> standby_paras -> standby_paras))) : M Z :=
  match l with
  | [] => ret OK
  | (name, set) :: l =>
      match cell_of (fdt_getprop fdt node name) with
      | None => WRN "invalid standby property: %s\n" [S_ name];; ret (- EINVAL)
      | Some v => set_paras_of (set v);; paras_loop fdt node l
      end
  end.

Definition standby_dts_parse : M Z :=
  let! p := getp in
  if negb (dts_has_parsed p =? 0) then ret 0
  else
    let! fdt := the_fdt tree in
    let param_node := fdt_path_offset fdt "/standby_param" in
    if param_node <? 0 then
      let! v := getp in
      WRN "no standby_param: %x fdt:%x\n" [N_ param_node; N_ (dtb_base v)];;
      ret (-1)
    else
      let! r := paras_loop fdt param_node standby_names in
      if negb (r =? OK) then ret r
      else
        set_paras_of (set_vdd_usb 0);;
        let done :=
          let! p := getp in
          LOG "standby power %x, %x, %x, %x, %x\n"
            [N_ (standby_vdd_cpu p); N_ (standby_vdd_sys p); N_ (standby_vcc_pll p); N_ (standby_vcc_io p);
             N_ (standby_osc24m_on p)];;
          putp (Parsed 1);;
          ret 0 in
        match fdt_getprop fdt param_node "vdd-usb" with
        | None => done
        | Some bs =>
            match cell_of (Some bs) with
            | None => ret (- EINVAL)
            | Some v => set_paras_of (set_vdd_usb v);; done
            end
        end.

(** ** Waiting *)

(** [while (1)] *)
Fixpoint doze_loop (n : nat) : M unit :=
  match n with
  | O => stop_now OutOfFuel
  | Datatypes.S n =>
      let! w := wakeup_vars in
      if negb (wakeup_source w =? NO_WAKESOURCE) then LOG "wakeup: %d\n" [N_ (wakeup_source w)]
      else cpu_enter_doze;; doze_loop n
  end.
Definition wait_wakeup : M unit :=
  save_state_flag (Z.lor (Z.lor REC_ESTANDBY REC_WAIT_WAKEUP) 0x01);;
  wakeup_timer_start wakeup_timer;;
  doze_loop fuel;;
  wakeup_timer_stop wakeup_timer.

(** A local message in the place of the request. *)
Definition with_local {A} (m0 : message) (k : M A) : M A :=
  let! outer := pmessage in
  putp m0;;
  let! r := k in
  putp outer;;
  ret r.

Definition clear_source : M unit := set_wakeup (with_source NO_WAKESOURCE).

Fixpoint restore_query (n : nat) : M Z :=
  match n with
  | O =>
      ERR "timeout waiting for cpu0 restore notification\n" [];;
      clear_source;;
      ret (- ETIMEOUT)
  | Datatypes.S n =>
      let! r := hwmsgbox_query_message time_mdelay There 0 HWMSGBOX_QUERY_TIMEOUT in
      if negb (r =? OK) then restore_query n
      else
        let! m := pmessage in
        if m_type m =? SSTANDBY_RESTORE_NOTIFY then
          LOG "cpu0 restore finished\n" [];;
          let! w := wakeup_vars in
          set_message (fun m => Message (m_state m) (m_attr m) (m_type m) 0 1 (Some [wakeup_source w]));;
          let! r := hwmsgbox_feedback_message time_mdelay There SEND_MSG_TIMEOUT in
          clear_source;;
          ret r
        else
          ERR "standby ignore message [%x]\n" [N_ (m_type m)];;
          restore_query n
  end.
Definition wait_cpu0_resume : M Z :=
  with_local (Message 0 0 0 0 0 None)
    (printk "wait ac327 resume...\n" [];;
     restore_query CPU0_RESTORE_QUERY_RETRIES).

(** ** The sequence *)

Definition set_rail_state (type state : Z) : M Z := pmu_set_voltage_state fuel time_mdelay beyond type state.
Definition init_flag (n : Z) : M unit := save_state_flag (Z.lor (Z.lor REC_ESTANDBY REC_ENTER_INIT) n).
Definition exit_flag (n : Z) : M unit := save_state_flag (Z.lor (Z.lor REC_ESTANDBY REC_ENTER_EXIT) n).

Definition standby_process_init : M Z :=
  set_sys (with_suspend_lock 1);;
  suspend_para_prepare;;
  init_flag 0x1;;
  cpucfg_cpu_suspend fuel;;
  init_flag 0x2;;
  device_suspend fuel;;
  init_flag 0x3;;
  cpu_pll_off;;
  init_flag 0x4;;
  dram_suspend fuel dram_power_save_process;;
  init_flag 0x5;;
  cpu_direct_access_suspend;;
  init_flag 0x6;;
  clk_suspend call_pcb time_mdelay time_udelay;;
  init_flag 0x7;;
  system_suspend;;
  init_flag 0x8;;
  clk_suspend_late;;
  init_flag 0x9;;
  rtc_vccio_det_suspend;;
  init_flag 0xA;;
  let! r := dm_suspend set_rail_state in
  if negb (r =? OK) then ret r
  else
    init_flag 0xB;;
    ret OK.

Definition standby_process_exit (wait_restore : bool) : M Z :=
  let! resume_entry := load_para 1 in
  exit_flag 0x1;;
  let! r := dm_resume set_rail_state in
  (if negb (r =? OK) then ERR "standby rail resume failed: %d\n" [N_ r] else ret tt);;
  let first_error := first_of OK r in
  exit_flag 0x2;;
  rtc_vccio_det_resume;;
  exit_flag 0x3;;
  clk_resume_early fuel call_pcb time_mdelay;;
  exit_flag 0x4;;
  system_resume time_mdelay;;
  exit_flag 0x5;;
  let! r := ppu_resume in
  let first_error := first_of first_error r in
  let! r := clk_resume time_mdelay time_udelay in
  let first_error := first_of first_error r in
  exit_flag 0x6;;
  cpu_direct_access_resume;;
  exit_flag 0x7;;
  let! r := dram_resume fuel dram_power_up_process in
  let first_error := first_of first_error r in
  exit_flag 0x8;;
  nsi_resume;;
  exit_flag 0x9;;
  let! r := cpu_pll_on time_mdelay in
  let first_error := first_of first_error r in
  exit_flag 0xA;;
  let! r := device_resume in
  let first_error := first_of first_error r in
  exit_flag 0xB;;
  let! _ := cpucfg_cpu_resume fuel resume_entry in
  exit_flag 0xC;;
  let! first_error :=
    (if wait_restore : bool then
       let! r := wait_cpu0_resume in ret (first_of first_error r)
     else clear_source;; ret first_error) in
  exit_flag 0xD;;
  set_sys (with_suspend_lock 0);;
  ret first_error.

Definition standby_entry : M Z :=
  save_state_flag (Z.lor REC_ESTANDBY REC_ENTER);;
  let! v := getp in
  let! complete := match platform_dram_para v with
                   | Null => ret false
                   | There => let! r := standby_dts_parse in ret (r =? OK)
                   end in
  if negb complete then
    ERR "reject standby without complete DTB parameters\n" [];;
    ret (- EACCES)
  else
    save_state_flag (Z.lor (Z.lor REC_ESTANDBY REC_ENTER) 0x1);;
    iosc_freq_init fuel;;
    let! type := platform_standby_type in
    set_sys (with_standby_type type);;
    clear_source;;
    save_state_flag (Z.lor REC_ESTANDBY REC_BEFORE_INIT);;
    let! r := standby_process_init in
    set_sys (with_result r);;
    save_state_flag (Z.lor REC_ESTANDBY REC_AFTER_INIT);;
    if negb (r =? OK) then
      let suspend_result := r in
      ERR "standby suspend failed: %d; restoring system\n" [N_ r];;
      save_state_flag (Z.lor REC_ESTANDBY REC_BEFORE_EXIT);;
      let! r := standby_process_exit false in
      set_sys (with_result r);;
      save_state_flag (Z.lor REC_ESTANDBY REC_AFTER_EXIT);;
      (if negb (r =? OK) then ERR "standby recovery failed: %d\n" [N_ r] else ret tt);;
      ret suspend_result
    else
      LOG "wait wakeup\n" [];;
      save_state_flag (Z.lor REC_ESTANDBY REC_WAIT_WAKEUP);;
      wait_wakeup;;
      save_state_flag (Z.lor REC_ESTANDBY REC_BEFORE_EXIT);;
      let! r := standby_process_exit true in
      set_sys (with_result r);;
      save_state_flag (Z.lor REC_ESTANDBY REC_AFTER_EXIT);;
      ret r.

Definition is_suspend_lock : M Z := let! x := sys_vars in ret (suspend_lock x).

(** ** Requests *)

Definition cpu_op : M Z :=
  let! mpidr := load_para 0 in
  let! entrypoint := load_para 1 in
  let! cpu_state := load_para 2 in
  let! cluster_state := load_para 3 in
  let! system_state := load_para 4 in
  LOG "mpidr:%x, entrypoint:%x; cpu_state:%x, cluster_state:%x, system_state:%x\n"
    [N_ mpidr; N_ entrypoint; N_ cpu_state; N_ cluster_state; N_ system_state];;
  if negb (entrypoint =? 0) && (system_state =? arisc_power_off) then standby_entry
  else
    WRN "unsupported cpu operation: cpu=%x cluster=%x system=%x\n"
      [N_ cpu_state; N_ cluster_state; N_ system_state];;
    ret (- EFAIL).

Definition system_shutdown : M Z := pmu_shutdown fuel time_udelay time_mdelay beyond.
Definition system_reset : M Z := pmu_reset fuel time_udelay time_mdelay beyond.

Definition sys_op : M Z :=
  let! state := load_para 0 in
  LOG "state:%x\n" [N_ state];;
  if state =? arisc_system_shutdown then
    save_state_flag (Z.lor REC_SHUTDOWN 0x101);;
    let! r := pmu_charging_reset fuel time_mdelay beyond garbage in
    if negb (r =? OK) then ret r else system_shutdown
  else if (state =? arisc_system_reset) || (state =? arisc_system_reboot) then
    save_state_flag (Z.lor REC_SHUTDOWN 0x102);;
    system_reset
  else if state =? arisc_uboot_shutdown then
    save_state_flag (Z.lor REC_SHUTDOWN 0x103);;
    system_shutdown
  else
    WRN "invaid system power state (%d)\n" [N_ state];;
    ret (- EINVAL).

Definition fake_poweroff : M Z :=
  WRN "fake poweroff is not supported\n" [];; ret (- EFAIL).
Definition get_pmu_irq : M Z :=
  WRN "PMU IRQ feedback is not supported\n" [];; ret (- EFAIL).
End Standby.
