(* ===== verification/Debugger.v ===== *)
(** * The AR100 debugger's output (src/ar100s/system/debugger/debugger.c)

    [debugger_printf] itself: the call every other component records as a
    print.  Formats and strings are in the byte store; the variadic arguments
    are a list, and taking one too many is undefined.  The addresses of the
    static buffer and of the local arrays are parameters. *)

From Stdlib Require Import String.
From S2P Require Import Prelude Machine Console CMem StringLib Convert Firmware Ticks Prcm Uart.

Local Open Scope string_scope.
Local Open Scope list_scope.
Local Open Scope Z_scope.
Local Open Scope mach_scope.

Definition DEBUG_BUFFER_SIZE : Z := 256.

(** Statics of the file but for the buffer. *)
Record debugger := DebuggerVars {
  debug_level : Z;
  print_timeflg : Z
}.
Definition debugger_initial : debugger := DebuggerVars 3 1.
Definition with_timeflg (v : Z) (d : debugger) : debugger := DebuggerVars (debug_level d) v.
Definition with_level (v : Z) (d : debugger) : debugger := DebuggerVars v (print_timeflg d).

(** Where the buffers are. *)
Record buffers := Buffers {
  debugger_buffer : Z;  (* static, DEBUG_BUFFER_SIZE bytes *)
  string_ : Z;          (* 32 bytes, of debugger_printf *)
  fill_ch : Z;          (* 17 bytes, of print_align *)
  time_ : Z             (* 12 bytes, of print_current_time *)
}.

Definition ch_d : Z := 100.
Definition ch_x : Z := 120.
Definition ch_p : Z := 112.
Definition ch_u : Z := 117.
Definition ch_c : Z := 99.
Definition ch_s : Z := 115.
Definition space : Z := 32.

Section Debugger.
Context {C S : Type} `{HPrint : HasPrintf C} `{HInsn : !HasInsn C} `{HDbg : !Part debugger S}
  `{HUart : !Part uart S} `{HCcu : !Part ccu S} `{HTicks : !Part ticks S} `{HMem : !Part mem S}.
Local Abbreviation M := (M C S).
Context (b : buffers).

Definition debugger_vars : M debugger := getp.
Definition set_debugger (f : debugger -> debugger) : M unit := let! d := debugger_vars in putp (f d).
(** A routine of the library. *)
Definition lib {A} (p : Machine.M C mem A) : M A := on_part p.

Definition debugger_init : M Z :=
  let! ret_ := uart_init in
  if negb (ret_ =? OK) then ret ret_ else ret OK.
Definition debugger_exit : M Z := ret OK.
Definition debugger_putc (ch : Z) : M Z := uart_putc ch.
Definition debugger_get (fuel : nat) (buf : Z) : M Z := uart_get fuel buf.
Definition debugger_puts (string : Z) : M Z := uart_puts string.

(** [char fill_ch[] = "                "] *)
Fixpoint init_array (p : Z) (bs : list Z) : Machine.M C mem unit :=
  match bs with
  | [] => ret tt
  | c :: bs => store8 p c;; init_array (p + 1) bs
  end.

Definition print_align (string len align : Z) : M Z :=
  lib (init_array (fill_ch b) (replicate 16 space ++ [0]));;
  if len <? align then
    let! _ := lib (strncat string (fill_ch b) (u32 (align - len))) in
    ret (align - len)
  else ret 0.

(** The digits of one field of the time stamp: [time[i]] for [n] rounds. *)
Fixpoint time_digits (n : nat) (i v div : Z) : M unit :=
  match n with
  | O => ret tt
  | Datatypes.S n =>
      lib (store8 (time_ b + i) (u8 (v / div) + ch_0));;
      time_digits n (i + 1) (v mod div) (div / 10)
  end.

Definition print_current_time : M Z :=
  let! tick := current_time_tick in
  let millisec := u32 (tick * (1000 / TICK_PER_SEC)) in
  lib (store8 (time_ b + 0) 91);;
  lib (store8 (time_ b + 5) 46);;
  lib (store8 (time_ b + 8) 93);;
  lib (store8 (time_ b + 9) space);;
  lib (store8 (time_ b + 10) 0);;
  let sec := millisec / 1000 in
  let sec := sec mod 10000 in
  time_digits 4 1 sec 1000;;
  let millisec := millisec mod 1000 in
  time_digits 2 6 millisec 100;;
  let! _ := debugger_puts (time_ b) in
  ret OK.

(** [va_arg]: the next argument and the rest. *)
Definition va_arg (ap : list Z) : M (Z * list Z) :=
  match ap with x :: ap => ret (x, ap) | [] => stop_now Undefined end.

(** The numeric cases: convert into [string], align, copy to [pdest]. *)
Definition put_number (conv : Machine.M C mem Z) (pdest align : Z) : M Z :=
  let! _ := lib conv in
  let! len := lib (strlen (string_ b)) in
  let! pad := print_align (string_ b) (s32 len) align in
  let len := s32 (s32 len + pad) in
  let! _ := lib (strcpy pdest (string_ b)) in
  ret (pdest + len).

(** The [switch] on the conversion character: the new [pdest] and the
    arguments left. *)
Definition convert (c pdest align : Z) (ap : list Z) : M (Z * list Z) :=
  if c =? ch_d then
    let! (x, ap) := va_arg ap in
    let! pdest := put_number (itoa (s32 x) (string_ b) 10) pdest align in
    ret (pdest, ap)
  else if (c =? ch_x) || (c =? ch_p) then
    let! (x, ap) := va_arg ap in
    let! pdest := put_number (utoa (u32 x) (string_ b) 16) pdest align in
    ret (pdest, ap)
  else if c =? ch_u then
    let! (x, ap) := va_arg ap in
    let! pdest := put_number (utoa (u32 x) (string_ b) 10) pdest align in
    ret (pdest, ap)
  else if c =? ch_c then
    let! (x, ap) := va_arg ap in
    lib (store8 pdest x);;
    ret (pdest + 1, ap)
  else if c =? ch_s then
    let! (psrc, ap) := va_arg ap in
    let! n := lib (strnlen psrc (u32 (DEBUG_BUFFER_SIZE - 1 - (pdest - debugger_buffer b)))) in
    let len := s32 n in
    let! _ := lib (strncpy pdest psrc (u32 len)) in
    ret (pdest + len, ap)
  else
    lib (store8 pdest ch_percent);;
    lib (store8 (pdest + 1) c);;
    ret (pdest + 2, ap).

(** [while ( *format)]: the final [pdest]. *)
Fixpoint format_loop (fuel : nat) (format pdest : Z) (ap : list Z) : M Z :=
  match fuel with
  | O => stop_now OutOfFuel
  | Datatypes.S fuel =>
      let! c := lib (load8 format) in
      if c =? 0 then ret pdest
      else if DEBUG_BUFFER_SIZE - 16 <=? pdest - debugger_buffer b then ret pdest
      else if c =? ch_percent then
        let format := format + 1 in
        let! c := lib (load8 format) in
        let! (align, format) :=
          (if (ch_0 <? c) && (c <=? ch_9) then ret (c - ch_0, format + 1) else ret (0, format)) in
        let! c := lib (load8 format) in
        let! (pdest, ap) := convert c pdest align ap in
        format_loop fuel (format + 1) pdest ap
      else
        lib (store8 pdest c);;
        format_loop fuel (format + 1) (pdest + 1) ap
  end.

Definition debugger_printf (level format : Z) (args : list Z) : M Z :=
  let! d := debugger_vars in
  if 32 <=? u32 (debug_level d + 1) then stop_now Undefined
  else if negb (Z.land level (Z.shiftr 0xf0 (u32 (debug_level d + 1))) =? 0) then
    let! cpsr := cpu_disable_int in
    let! d := debugger_vars in
    (if negb (print_timeflg d =? 0) then let! _ := print_current_time in ret tt else ret tt);;
    let pdest := debugger_buffer b in
    let! m := getp in
    let! pdest := format_loop (Datatypes.S (size (m : mem))) format pdest args in
    let! c := lib (load8 (pdest - 1)) in
    (if c =? newline then set_debugger (with_timeflg 1) else set_debugger (with_timeflg 0));;
    lib (store8 pdest 0);;
    let pdest := pdest + 1 in
    let! _ := debugger_puts (debugger_buffer b) in
    cpu_enable_int cpsr;;
    ret (pdest - debugger_buffer b)
  else ret OK.

(** The message logs the old level first: [LOG] is this very routine. *)
Definition set_debug_level (level : Z) : M Z :=
  let! d := debugger_vars in
  LOG "debug_mask from %d to %d\n" [N_ (debug_level d); N_ level];;
  set_debugger (with_level level);;
  ret OK.
End Debugger.
