(* ===== verification/Shell.v ===== *)
(** * The AR100 debugger's command line (src/ar100s/system/debugger/shell_cmd.c)

    The service routine that edits a line, the split of the line into
    arguments, in place, and the commands.  The line and the table's names are
    in the byte store; the static buffer and the names are at addresses that
    are parameters, a null pointer is 0, the local array of arguments is a list
    of its five cells.  Built with [CFG_SHELL_USED], which also makes
    [debugger_init] install [getcmd]. *)

From Stdlib Require Import Ascii String.
From S2P Require Import Prelude Machine Console CMem StringLib Convert Firmware Cpucfg Prcm Uart Ticks Debugger.

Local Open Scope string_scope.
Local Open Scope list_scope.
Local Open Scope Z_scope.
Local Open Scope mach_scope.

Definition MAX_CMD_LEN : Z := 64.
Definition MAX_CMD_ARGS : Z := 5.

(** The static of [getcmd]. *)
Record shell := ShellVars { curpos : Z }.

Inductive parseState := PS_WHITESPACE | PS_TOKEN | PS_STRING | PS_ESCAPE.
#[export] Instance parseState_eq_dec : EqDecision parseState.
Proof. solve_decision. Defined.

Definition ch_semicolon : Z := 59.
Definition ch_quote : Z := 34.
Definition ch_gt : Z := 62.
Definition ch_dollar : Z := 36.
Definition ch_tab : Z := 9.
Definition backspace : Z := 0x08.
Definition delete : Z := 0x7E.

(** Whitespace character or 'enter'. *)
Definition blank (c : Z) : bool := (c =? space) || (c =? carriage) || (c =? newline) || (c =? ch_tab).

(** An escaped quotation mark, which a format holds around a name. *)
Definition escaped_quote : string := String (ascii_of_nat 92) (String (ascii_of_nat 34) EmptyString).

Definition command_names : list string := ["echo"; "set_debug_level"; "set_baudrate"; "cat"; "print"; "help"].

(** ** The split of a line *)

Section Parse.
Context {C : Type}.
Local Abbreviation M := (M C mem).

Definition argv_set (argv : list Z) (i p : Z) : M (list Z) :=
  if (0 <=? i) && (i <? MAX_CMD_ARGS) then ret (<[Z.to_nat i := p]> argv) else stop_now Undefined.

(** The [while] loop, [c] being the character at [argstr]; nothing enters
    [PS_ESCAPE], and [stackedState] is never set. *)
Fixpoint parse_loop (fuel : nat) (argstr argc : Z) (lastState : parseState) (argv : list Z) : M (Z * Z * list Z) :=
  match fuel with
  | O => stop_now OutOfFuel
  | Datatypes.S fuel =>
      let! c := load8 argstr in
      if (c =? 0) || (MAX_CMD_ARGS <? argc) then ret (argstr, argc, argv)
      else if (c =? ch_semicolon) && negb (bool_decide (lastState = PS_STRING))
              && negb (bool_decide (lastState = PS_ESCAPE)) then ret (argstr, argc, argv)
      else
        match lastState with
        | PS_ESCAPE => parse_loop fuel (argstr + 1) argc PS_WHITESPACE argv
        | PS_STRING =>
            if c =? ch_quote then store8 argstr 0;; parse_loop fuel (argstr + 1) argc PS_WHITESPACE argv
            else parse_loop fuel (argstr + 1) argc PS_STRING argv
        | PS_WHITESPACE | PS_TOKEN =>
            if blank c then store8 argstr 0;; parse_loop fuel (argstr + 1) argc PS_WHITESPACE argv
            else if c =? ch_quote then
              store8 argstr 0;;
              let argstr := argstr + 1 in
              let! argv := argv_set argv argc argstr in
              parse_loop fuel (argstr + 1) (argc + 1) PS_STRING argv
            else if bool_decide (lastState = PS_WHITESPACE) then
              let! argv := argv_set argv argc argstr in
              parse_loop fuel (argstr + 1) (argc + 1) PS_TOKEN argv
            else parse_loop fuel (argstr + 1) argc PS_TOKEN argv
        end
  end.

(** [*argc_p] and [argv]. *)
Definition parseargs (argstr : Z) (argv : list Z) : M (Z * list Z) :=
  let! (argstr, argc, argv) := with_fuel (fun fuel => parse_loop fuel argstr 0 PS_WHITESPACE argv) in
  let! argv := argv_set argv argc 0 in
  let! c := load8 argstr in
  (if c =? ch_semicolon then store8 argstr 0 else ret tt);;
  ret (argc, argv).
End Parse.

Section Shell.
Context {C S : Type} `{HPrint : HasPrintf C} `{HDbg : !Part debugger S}
  `{HUart : !Part uart S} `{HCcu : !Part ccu S} `{HMem : !Part mem S} `{HCpucfg : !Part cpucfg S} `{HShell : !Part shell S}.
Local Abbreviation M := (M C S).
Context (fuel : nat) (time_mdelay : Z -> M unit) (cmd_buf : Z) (name_at : string -> Z).

Definition argument (args : list Z) (i : nat) : M Z :=
  match args !! i with Some p => ret p | None => stop_now Undefined end.

(** A number an argument spells. *)
Definition read_hex (p : Z) : M Z := lib (let! n := strlen p in hstr2int p n).
Definition read_dec (p : Z) : M Z := lib (let! n := strlen p in dstr2int p n).
Definition read_length (p : Z) : M Z :=
  let! len := read_dec p in if len =? 0 then read_hex p else ret len.

Definition bad_argument : M unit := ERR "invalid argument!\n" [].

(** ** The commands *)

Definition do_echo (args : list Z) : M Z :=
  let! a1 := argument args 1 in
  let! a2 := argument args 2 in
  let! a3 := argument args 3 in
  let! a4 := argument args 4 in
  let! bad :=
    (if (a1 =? 0) || (a3 =? 0) then ret true
     else
       let! c := lib (load8 a2) in
       ret (negb (ch_gt =? c) || negb (a4 =? 0))) in
  if bad : bool then
    bad_argument;;
    LOG "echo 0xdata > 0xaddr\n" [];;
    ret (- EINVAL)
  else
    let! wda := read_hex a1 in
    let! add := read_hex a3 in
    if negb (Z.land add 0x03 =? 0) then LOG "address should be align 4B\n" [];; ret (- EINVAL)
    else
      writel wda add;;
      LOG "write: 0x%x to add: 0x%x\n" [N_ wda; N_ add];;
      ret OK.

(** [for (i = 0; i < len; i++)]: the address behind the words read. *)
Fixpoint cat_loop (n : nat) (i add : Z) : M Z :=
  match n with
  | O => ret add
  | Datatypes.S n =>
      let! v := readl add in
      let add := u32 (add + 4) in
      LOG "0x%8x  " [N_ v];;
      (if Z.land i 3 =? 3 then LOG "\n[0x%8x]" [N_ add] else ret tt);;
      cat_loop n (i + 1) add
  end.
Definition do_cat (args : list Z) : M Z :=
  let! a1 := argument args 1 in
  let! a2 := argument args 2 in
  let! a3 := argument args 3 in
  if (a1 =? 0) || negb (a3 =? 0) then
    bad_argument;;
    LOG "cat addr [len]\n" [];;
    ret (- EINVAL)
  else
    let! add := read_hex a1 in
    if negb (Z.land add 0x03 =? 0) then LOG "address should be align 4B\n" [];; ret (- EINVAL)
    else if negb (a2 =? 0) then
      let! len := read_length a2 in
      LOG "cat start:%x, length:%d\n[0x%8x]" [N_ add; N_ len; N_ add];;
      let len := u32 (len - 1) in
      let! add := cat_loop (Z.to_nat len) 0 add in
      let! v := readl add in
      LOG "0x%8x  \n" [N_ v];;
      ret OK
    else
      let! v := readl add in
      LOG "address: 0x%8x is: 0x%8x\n" [N_ add; N_ v];;
      ret OK.

Definition do_set_debug_level (args : list Z) : M Z :=
  let! a1 := argument args 1 in
  let! a2 := argument args 2 in
  if (a1 =? 0) || negb (a2 =? 0) then
    bad_argument;;
    LOG "set_debug_level 3\n" [];;
    ret (- EINVAL)
  else
    let! level := read_dec a1 in
    LOG "the debug level set to be %d\n" [N_ level];;
    let! _ := set_debug_level level in
    ret OK.

Definition do_set_baudrate (args : list Z) : M Z :=
  let! a1 := argument args 1 in
  let! a2 := argument args 2 in
  if (a1 =? 0) || negb (a2 =? 0) then bad_argument;; ret (- EINVAL)
  else
    let! baud := read_dec a1 in
    let! _ := uart_set_baudrate baud in
    LOG "the baudrate set to be %d\n" [N_ baud];;
    ret OK.

Definition do_print (args : list Z) : M Z :=
  let! a1 := argument args 1 in
  let! a2 := argument args 2 in
  let! a3 := argument args 3 in
  if (a1 =? 0) || negb (a3 =? 0) then bad_argument;; ret (- EINVAL)
  else
    let! add := read_hex a1 in
    if negb (a2 =? 0) then
      let! len := read_length a2 in
      LOG "print start:%8x, length:%d\n" [N_ add; N_ len];;
      let len := u32 (len - 1) in
      let! _ := cpucfg_set_little_endian_address add (Z.land (u32 (add + len + Z.shiftl 1 10)) (cnot32 0x01FF)) in
      let! _ := debugger_puts add in
      time_mdelay 10;;
      let! _ := cpucfg_remove_little_endian_address add 0 in
      ret OK
    else ret OK.

Fixpoint help_loop (names : list string) : M unit :=
  match names with
  | [] => ret tt
  | name :: names => LOG (escaped_quote ++ "%s" ++ escaped_quote ++ "\n") [S_ name];; help_loop names
  end.
Definition do_help (args : list Z) : M Z :=
  LOG "support commands:\n" [];;
  help_loop command_names;;
  ret OK.

(** ** The table and the execution of a line *)

Definition builtincmd : Type := string * (list Z -> M Z).
Definition Commands_Table : list builtincmd :=
  zip command_names [do_echo; do_set_debug_level; do_set_baudrate; do_cat; do_print; do_help].

Fixpoint inbuilt_loop (bp : list builtincmd) (s : Z) : M (option (list Z -> M Z)) :=
  match bp with
  | [] => ret None
  | (name, builtinfunc) :: bp =>
      let! r := lib (strcmp (name_at name) s) in
      if 0 =? r then ret (Some builtinfunc) else inbuilt_loop bp s
  end.
Definition inbuilt (s : Z) : M (option (list Z -> M Z)) := inbuilt_loop Commands_Table s.

(** Its only caller passes an array. *)
Definition execute_command (argv : list Z) : M Z :=
  let! name := argument argv 0 in
  let! bltin := inbuilt name in
  match bltin with
  | Some f => f argv
  | None =>
      ERR (escaped_quote ++ "%s" ++ escaped_quote ++ " is not a command, type " ++ escaped_quote ++ "help"
           ++ escaped_quote ++ " for more information!\n") [N_ name];;
      ret FAIL
  end.

Definition execute_one_command (buf : Z) : M unit :=
  let! (argc, argv) := lib (parseargs buf (replicate (Z.to_nat MAX_CMD_ARGS) 0)) in
  if 0 <? argc then let! _ := execute_command argv in ret tt else ret tt.

(** ** The line *)

Definition put (ch : Z) : M unit := let! _ := debugger_putc ch in ret tt.
Definition get_curpos : M Z := let! s := getp in ret (curpos s).
Definition set_curpos (v : Z) : M unit := putp (ShellVars v).
(** [cmd_buf + n] *)
Definition cmd_at (n : Z) : Z := u32 (cmd_buf + n).

Fixpoint put_blanks (n : nat) : M unit :=
  match n with O => ret tt | Datatypes.S n => put space;; put_blanks n end.
Fixpoint echo_loop (count : nat) : M unit :=
  match count with
  | O => ret tt
  | Datatypes.S count =>
      let! pos := get_curpos in
      let! c := lib (load8 (cmd_at pos)) in
      set_curpos (u32 (pos + 1));;
      put c;;
      echo_loop count
  end.

Definition getcmd : M Z :=
  let! pos := get_curpos in
  let! count := debugger_get fuel (cmd_at pos) in
  let! c := lib (load8 (cmd_at (pos + count - 1))) in
  (if c =? backspace then
     (if negb (count =? 0) then
        set_curpos (u32 (pos - 1));;
        if negb (pos =? 0) then put backspace;; put space;; put backspace else ret tt
      else ret tt);;
     let! pos := get_curpos in
     lib (store8 (cmd_at pos) 0)
   else if c =? delete then
     put carriage;;
     put_blanks (Z.to_nat pos);;
     put carriage;;
     set_curpos 0
   else if (c =? carriage) || (c =? newline) || (c =? 0) then
     put carriage;;
     put newline;;
     lib (store8 (cmd_at pos) 0);;
     (if 1 <? pos then execute_one_command cmd_buf else ret tt);;
     put ch_dollar;;
     put space;;
     set_curpos 0
   else if u32 (pos + count) <? MAX_CMD_LEN - 1 then echo_loop (Z.to_nat count)
   else ret tt);;
  ret OK.
End Shell.
