(* ===== verification/ShellProps.v ===== *)
(** * A command line is run as its words say
    (src/ar100s/system/debugger/shell_cmd.c)

    The words of a line as a function on lists, the split of the line in
    place as an implementation of it, and the choice of the command. *)

From Stdlib Require Import Ascii String.
From S2P Require Import CMem StringLib StringLibProps Convert ConvertProps.
From S2P Require Import Prelude Machine Console Firmware Cpucfg Prcm Uart Ticks Debugger Shell.

Local Open Scope list_scope.
Local Open Scope Z_scope.
Local Open Scope mach_scope.
#[local] Coercion Z.of_nat : nat >-> Z.

(** ** The words of a line *)

(** What is being read: nothing, a word, a word between quotation marks. *)
Inductive reading := Between | InWord (w : list Z) | InString (w : list Z).
Definition so_far (r : reading) : list Z := match r with Between => [] | InWord w | InString w => w end.
Definition finished (r : reading) : list (list Z) := match r with Between => [] | InWord w | InString w => [w] end.

(** White space and quotation marks end a word, and so does a semicolon that is
    not between quotation marks, which ends the line.  The character behind an
    opening mark belongs to the word whatever it is; there has to be one. *)
Fixpoint words_of (r : reading) (l : list Z) : option (list (list Z)) :=
  match l with
  | [] => Some (finished r)
  | c :: l =>
      match r with
      | InString w => if c =? ch_quote then app (finished r) <$> words_of Between l else words_of (InString (w ++ [c])) l
      | _ =>
          if c =? ch_semicolon then Some (finished r)
          else if blank c then app (finished r) <$> words_of Between l
          else if c =? ch_quote then
            match l with
            | [] => None
            | x :: l => app (finished r) <$> words_of (InString [x]) l
            end
          else words_of (InWord (so_far r ++ [c])) l
      end
  end.
Definition words (l : list Z) : option (list (list Z)) := words_of Between l.

(** What is being read is among the words. *)
Lemma words_begun l r ws : words_of r l = Some ws -> (length (finished r) <= length ws)%nat.
Proof.
  revert r ws. induction l as [l IH] using (well_founded_induction (well_founded_ltof _ (length (A := Z)))). unfold ltof in IH.
  assert (forall r k ws, app (finished r) <$> k = Some ws -> length (finished r) <= length ws)%nat as Happ.
  { intros r [w|] ws; [|done]. intros [= <-]. rewrite length_app. lia. }
  intros r ws. destruct l as [|c l]; cbn [words_of]; [by intros [= <-]|].
  destruct r as [|w|w]; repeat (case_match; try (by apply Happ); try done); try (by intros [= <-]).
  all: try (intros Hw; apply IH in Hw; [cbn [finished length] in *; lia|cbn [length]; lia]).
Qed.

Definition state_of (r : reading) : parseState :=
  match r with Between => PS_WHITESPACE | InWord _ => PS_TOKEN | InString _ => PS_STRING end.

Section Parse.
Context {C : Type}.
Implicit Types (m : mem) (l w qs : list Z) (ws : list (list Z)) (r : reading).

(** The local array: the pointers so far, and null pointers. *)
Definition cells qs : list Z := qs ++ replicate (5 - length qs) 0.

Lemma argv_next qs p m : (length qs < 5)%nat -> runs (C := C) (argv_set (cells qs) (length qs) p) m (cells (qs ++ [p])) m.
Proof.
  intros Hn. unfold argv_set, MAX_CMD_ARGS. rewrite (proj2 (Z.leb_le 0 _)), (proj2 (Z.ltb_lt _ 5)) by lia. cbn [andb].
  eapply runs_eq; [apply runs_ret|]. unfold cells. rewrite Nat2Z.id, insert_app_r_alt, Nat.sub_diag by lia.
  rewrite length_app, <- app_assoc. cbn [length]. replace (5 - length qs)%nat with (Datatypes.S (5 - (length qs + 1))) by lia. done.
Qed.

Lemma argv_close qs m : (length qs < 5)%nat -> runs (C := C) (argv_set (cells qs) (length qs) 0) m (cells qs) m.
Proof.
  intros Hn. eapply runs_eq; [by apply argv_next|]. unfold cells. rewrite length_app, <- app_assoc. cbn [length].
  replace (5 - length qs)%nat with (Datatypes.S (5 - (length qs + 1))) by lia. done.
Qed.

Lemma argv_full argv n p m : (5 <= n)%nat -> faults (C := C) (argv_set argv n p) m.
Proof.
  intros Hn. unfold argv_set, MAX_CMD_ARGS. rewrite (proj2 (Z.ltb_ge _ 5)), andb_false_r by lia.
  intros e h. by exists m, h.
Qed.

Section Line.
Context (start : Z).

(** The word [w] at [q], in the line and before [b]. *)
Definition word_at m (b q : Z) w : Prop := cstr m q w /\ start <= q /\ q + length w + 1 <= b.
(** The finished words and the one being read, up to [p]. *)
Definition stands m (p : Z) r qs ws : Prop :=
  match r with
  | Between => start <= p /\ Forall2 (word_at m p) qs ws
  | InWord w | InString w => exists qs' q, qs = qs' ++ [q] /\ Forall2 (word_at m q) qs' ws /\
      bytes_at m q w /\ Forall (fun c => c <> 0) w /\ start <= q /\ q + length w = p
  end.

Lemma word_stored m b q w p v : word_at m b q w -> b <= p -> word_at (<[p := v]> m) b q w.
Proof.
  intros (Hw & Hq & Hb) Hp. split; [|done]. apply cstr_insert; [done|lia].
Qed.
Lemma words_stored m b p v qs ws : Forall2 (word_at m b) qs ws -> b <= p -> Forall2 (word_at (<[p := v]> m) b) qs ws.
Proof. intros H Hp. eapply Forall2_impl; [exact H|]. intros q w Hw. by apply word_stored. Qed.
Lemma words_later m b b' qs ws : Forall2 (word_at m b) qs ws -> b <= b' -> Forall2 (word_at m b') qs ws.
Proof. intros H Hb. eapply Forall2_impl; [exact H|]. intros q w (Hw & Hq & Hl). split; [done|lia]. Qed.

(** A terminator ends what is being read. *)
Lemma stands_close m p r qs ws : stands m p r qs ws -> stands (<[p := 0]> m) (p + 1) Between qs (ws ++ finished r).
Proof.
  destruct r as [|w|w]; cbn [stands finished].
  1:{ intros [Hp H]. rewrite app_nil_r. split; [lia|]. eapply words_later; [apply words_stored; [exact H|lia]|lia]. }
  all: intros (qs' & q & -> & H & Hb & Hnz & Hq & <-); split; [lia|]; apply Forall2_app;
    [eapply words_later; [apply words_stored; [exact H|lia]|lia]|]; constructor; [|constructor];
    split; [|lia]; split; [|done]; apply bytes_at_app; split; [apply bytes_at_insert; [done|lia]|];
    apply bytes_at_cons; split; [by rewrite lookup_insert_eq|apply bytes_at_nil].
Qed.

Lemma stands_start m p qs ws c : stands m p Between qs ws -> m !! p = Some c -> c <> 0 ->
  stands m (p + 1) (InWord [c]) (qs ++ [p]) ws /\ stands m (p + 1) (InString [c]) (qs ++ [p]) ws.
Proof.
  intros [Hp H] Hc Hne. assert (bytes_at m p [c]) as Hb by (apply bytes_at_cons; split; [done|apply bytes_at_nil]).
  split; exists qs, p; (split; [done|]); (split; [done|]); (split; [done|]); (split; [by repeat constructor|]); cbn [length]; lia.
Qed.

Lemma grown m p q w c : bytes_at m q w -> Forall (fun c => c <> 0) w -> q + length w = p -> m !! p = Some c -> c <> 0 ->
  bytes_at m q (w ++ [c]) /\ Forall (fun c => c <> 0) (w ++ [c]) /\ q + length (w ++ [c]) = p + 1.
Proof.
  intros Hb Hnz <- Hc Hne. split; [apply bytes_at_app; split; [done|]; apply bytes_at_cons; split; [done|apply bytes_at_nil]|].
  split; [apply Forall_app; split; [done|by constructor]|]. rewrite length_app. cbn [length]. lia.
Qed.

Lemma stands_grow m p w qs ws c : m !! p = Some c -> c <> 0 ->
  (stands m p (InWord w) qs ws -> stands m (p + 1) (InWord (w ++ [c])) qs ws) /\
  (stands m p (InString w) qs ws -> stands m (p + 1) (InString (w ++ [c])) qs ws).
Proof.
  intros Hc Hne. split; intros (qs' & q & -> & H & Hb & Hnz & Hq & Hp);
    destruct (grown m p q w c Hb Hnz Hp Hc Hne) as (H1 & H2 & H3); by exists qs', q.
Qed.

(** ** The loop *)

Definition finish (x : Z * Z * list Z) : M C mem (Z * list Z) :=
  let '(argstr, argc, argv) := x in
  let! argv := argv_set argv argc 0 in
  let! c := load8 argstr in
  (if c =? ch_semicolon then store8 argstr 0 else ret tt);;
  ret (argc, argv).

(** The line from [p] on has been split into [ws], or there are too many. *)
Definition parsed (q : M C mem (Z * list Z)) m (p : Z) l ws : Prop :=
  if decide (length ws <= 4)%nat then
    exists qs m', runs q m (Z.of_nat (length ws), cells qs) m' /\ Forall2 (cstr m') qs ws /\ Forall (fun q => start <= q) qs /\
      (mem_ok m -> mem_ok m') /\ forall a, ~ p <= a <= p + length l -> m' !! a = m !! a
  else faults q m.

Lemma parsed_step q m p l q1 m1 p1 l1 ws : (forall e h, q e m h = q1 e m1 h) ->
  (mem_ok m -> mem_ok m1) -> (forall a, ~ p <= a <= p + length l -> m1 !! a = m !! a) -> p <= p1 -> p1 + length l1 <= p + length l ->
  parsed q1 m1 p1 l1 ws -> parsed q m p l ws.
Proof.
  intros Hq Hok Hm Hp Hl. unfold parsed. case_decide.
  - intros (qs & m' & H1 & H2 & H3 & H5 & H4). exists qs, m'. split; [intros e h; by rewrite Hq|]. split; [done|]. split; [done|]. split; [auto|].
    intros a Ha. rewrite H4 by lia. by apply Hm.
  - intros H1 e h. rewrite Hq. apply H1.
Qed.

Lemma word_pointers m b qs ws : Forall2 (word_at m b) qs ws -> Forall2 (cstr m) qs ws /\ Forall (fun q => start <= q) qs.
Proof. induction 1 as [|q w qs ws (H1 & H2 & _) _ [IH1 IH2]]; [done|]. by split; constructor. Qed.

Lemma finish_splits m p r qs ws l c : stands m p r qs ws -> m !! p = Some c -> c = 0 \/ c = ch_semicolon ->
  parsed (finish (p, Z.of_nat (length qs), cells qs)) m p l (ws ++ finished r).
Proof.
  intros Hs Hc Hcase. apply stands_close in Hs as [Hp Hw]. assert (Hl := Forall2_length _ _ _ Hw).
  apply word_pointers in Hw as [Hw Hq]. unfold parsed. rewrite <- Hl. case_decide.
  2:{ intros e h. eapply faults_now. apply argv_full. lia. }
  exists qs, (<[p := 0]> m). split; [|split; [done|split; [done|split; [intros Hok; by apply mem_ok_insert|]]]].
  - unfold finish. eapply runs_bind; [apply argv_close; lia|]. eapply runs_bind; [by apply runs_load8|].
    destruct Hcase as [-> | ->]; cbn [Z.eqb ch_semicolon Pos.eqb].
    + eapply runs_bind; [apply runs_ret|]. rewrite insert_id by done. apply runs_ret.
    + eapply runs_bind; [apply (runs_store8 p 0); by eexists|apply runs_ret].
  - intros a Ha. apply lookup_insert_ne. lia.
Qed.

Lemma stands_length m p r qs ws : stands m p r qs ws -> length qs = (length ws + length (finished r))%nat.
Proof. intros Hs. apply stands_close in Hs as [_ Hw]. apply Forall2_length in Hw. by rewrite Hw, length_app. Qed.

Lemma advance m p c l fuel v : cstr m p (c :: l) -> room m p (Datatypes.S fuel) ->
  m !! p = Some c /\ c <> 0 /\ (cstr m (p + 1) l /\ room m (p + 1) fuel) /\
  (cstr (<[p := v]> m) (p + 1) l /\ room (<[p := v]> m) (p + 1) fuel).
Proof.
  intros (Hp & Hc & Hl)%cstr_cons Hr. assert (room m (p + 1) fuel) as Hr' by (by eapply room_step).
  do 3 (split; [done|]). split; [apply cstr_insert; [done|lia]|]. eapply room_dom; [|exact Hr'].
  apply dom_insert_lookup_L. by eexists.
Qed.

(** A new word starts, if there is a cell for its address. *)
Lemma new_word m p p1 l qs ws k : (length qs <= 5)%nat ->
  ((length qs < 5)%nat -> parsed (k (cells (qs ++ [p1]))) m p l ws) -> (length qs = 5 -> 5 <= length ws)%nat ->
  parsed (let! argv := argv_set (cells qs) (Z.of_nat (length qs)) p1 in k argv) m p l ws.
Proof.
  intros Hn Hk Hfull. destruct (decide (length qs < 5)%nat) as [H|H].
  - eapply parsed_step; [|done|by intros a _|done|done|by apply Hk]. intros e h. unfold bind. by rewrite (argv_next qs p1 m H).
  - unfold parsed. rewrite decide_False by lia. apply faults_now, argv_full. lia.
Qed.

Definition rest_of (fuel : nat) (p : Z) qs r : M C mem (Z * list Z) :=
  bind (parse_loop fuel p (Z.of_nat (length qs)) (state_of r) (cells qs)) finish.

(** One round of the loop. *)
Lemma round_word fuel m p c qs r e h : m !! p = Some c -> c <> 0 -> (length qs <= 5)%nat ->
  match r with InString _ => False | _ => True end ->
  rest_of (Datatypes.S fuel) p qs r e m h =
  (if c =? ch_semicolon then finish (p, Z.of_nat (length qs), cells qs)
   else if blank c then rest_of fuel (p + 1) qs Between
   else if c =? ch_quote then
     let! argv := argv_set (cells qs) (Z.of_nat (length qs)) (p + 1) in
     bind (parse_loop fuel (p + 1 + 1) (Z.of_nat (length qs) + 1) PS_STRING argv) finish
   else if bool_decide (state_of r = PS_WHITESPACE) then
     let! argv := argv_set (cells qs) (Z.of_nat (length qs)) p in
     bind (parse_loop fuel (p + 1) (Z.of_nat (length qs) + 1) PS_TOKEN argv) finish
   else rest_of fuel (p + 1) qs (InWord []))
    e (if negb (c =? ch_semicolon) && (blank c || (c =? ch_quote)) then <[p := 0]> m else m) h.
Proof.
  intros Hp Hc Hn Hr. unfold rest_of. cbn [parse_loop]. unfold bind at 1 2. unfold load8 at 1. rewrite Hp.
  rewrite (proj2 (Z.eqb_neq c 0)), (proj2 (Z.ltb_ge MAX_CMD_ARGS _)) by (done || (unfold MAX_CMD_ARGS; lia)). cbn [orb].
  assert (forall v, store8 (C := C) p v e m h = Done tt (<[p := u8 v]> m) h) as Hstore by (intros v; unfold store8; by rewrite Hp).
  destruct (c =? ch_semicolon); destruct r; try done; cbn [state_of andb negb]; cbn match;
    destruct (blank c); cbn [orb]; [unfold bind; by rewrite Hstore| |unfold bind; by rewrite Hstore|].
  all: destruct (c =? ch_quote); [unfold bind at 1; rewrite Hstore; change (u8 0) with 0;
    unfold bind; by destruct (argv_set _ _ _ _ _ _)|]; cbn [state_of].
  - rewrite bool_decide_eq_true_2 by done. unfold bind. by destruct (argv_set _ _ _ _ _ _).
  - by rewrite bool_decide_eq_false_2 by done.
Qed.

Lemma round_string fuel m p c qs w e h : m !! p = Some c -> c <> 0 -> (length qs <= 5)%nat ->
  rest_of (Datatypes.S fuel) p qs (InString w) e m h =
  (if c =? ch_quote then rest_of fuel (p + 1) qs Between else rest_of fuel (p + 1) qs (InString []))
    e (if c =? ch_quote then <[p := 0]> m else m) h.
Proof.
  intros Hp Hc Hn. unfold rest_of. cbn [parse_loop]. unfold bind at 1 2. unfold load8 at 1. rewrite Hp.
  rewrite (proj2 (Z.eqb_neq c 0)), (proj2 (Z.ltb_ge MAX_CMD_ARGS _)) by (done || (unfold MAX_CMD_ARGS; lia)). cbn [orb state_of].
  rewrite (bool_decide_eq_true_2 (PS_STRING = PS_STRING)) by done. cbn [negb]. rewrite andb_false_r. cbn [andb].
  destruct (c =? ch_quote); [|done]. unfold bind, store8. by rewrite Hp.
Qed.

(** The claim of the induction, for lines shorter than [n]. *)
Definition splits_below (n : nat) : Prop := forall l r m p qs ws ws2 fuel,
  (length l < n)%nat -> stands m p r qs ws -> (length qs <= 5)%nat -> cstr m p l -> room m p fuel ->
  words_of r l = Some ws2 -> parsed (rest_of fuel p qs r) m p l (ws ++ ws2).

Lemma closed_step n m p c l r qs ws ws2 fuel q : splits_below n -> (length l < n)%nat ->
  stands m p r qs ws -> (length qs <= 5)%nat -> cstr m p (c :: l) -> room m p (Datatypes.S fuel) ->
  (forall e h, q e m h = rest_of fuel (p + 1) qs Between e (<[p := 0]> m) h) ->
  app (finished r) <$> words_of Between l = Some ws2 -> parsed q m p (c :: l) (ws ++ ws2).
Proof.
  intros IH Hn Hs Hq Hl Hr E Hws. destruct (words_of Between l) as [ws3|] eqn:E3; [|done]. injection Hws as <-.
  destruct (advance m p c l fuel 0 Hl Hr) as (Hp & Hc & _ & Hl' & Hr').
  eapply (parsed_step _ _ _ _ _ (<[p := 0]> m) (p + 1) l); [exact E|intros Hok; by apply mem_ok_insert|intros a Ha; apply lookup_insert_ne; lia|lia|cbn [length]; lia|].
  rewrite app_assoc. eapply IH; [done|by apply stands_close|done|done|done|done].
Qed.

Lemma plain_step n m p c l r' qs ws ws2 fuel q : splits_below n -> (length l < n)%nat ->
  stands m (p + 1) r' qs ws -> (length qs <= 5)%nat -> cstr m p (c :: l) -> room m p (Datatypes.S fuel) ->
  (forall e h, q e m h = rest_of fuel (p + 1) qs r' e m h) ->
  words_of r' l = Some ws2 -> parsed q m p (c :: l) (ws ++ ws2).
Proof.
  intros IH Hn Hs Hq Hl Hr E Hws. destruct (advance m p c l fuel 0 Hl Hr) as (Hp & Hc & [Hl' Hr'] & _).
  eapply (parsed_step _ _ _ _ _ m (p + 1) l); [exact E|done|done|lia|cbn [length]; lia|]. by eapply IH.
Qed.

(** A quotation mark opens a string, whose first character is not looked at. *)
Lemma string_step n m p x l r qs ws ws2 fuel q : splits_below n -> (length l < n)%nat ->
  stands m p r qs ws -> (length qs <= 5)%nat -> cstr m p (ch_quote :: x :: l) -> room m p (Datatypes.S fuel) ->
  (forall e h, q e m h = (let! argv := argv_set (cells qs) (Z.of_nat (length qs)) (p + 1) in
     bind (parse_loop fuel (p + 1 + 1) (Z.of_nat (length qs) + 1) PS_STRING argv) finish) e (<[p := 0]> m) h) ->
  app (finished r) <$> words_of (InString [x]) l = Some ws2 -> parsed q m p (ch_quote :: x :: l) (ws ++ ws2).
Proof.
  intros IH Hn Hs Hq Hl Hr E Hws. destruct (words_of (InString [x]) l) as [ws3|] eqn:E3; [|done]. injection Hws as <-.
  destruct (advance m p ch_quote (x :: l) fuel 0 Hl Hr) as (Hp & _ & _ & Hl' & Hr').
  assert (Hx := Hl'). apply cstr_cons in Hx as (Hpx & Hxne & Hl2). set (m1 := <[p := 0]> m) in *.
  eapply (parsed_step _ _ _ _ _ m1 (p + 1) (x :: l)); [exact E|intros Hok; by apply mem_ok_insert|intros a Ha; apply lookup_insert_ne; lia|lia|cbn [length]; lia|].
  assert (Hlen := stands_length _ _ _ _ _ Hs). apply stands_close in Hs. fold m1 in Hs. rewrite app_assoc.
  assert (1 <= length ws3)%nat as Hpos by (by apply (words_begun l (InString [x]))).
  apply new_word; [done| |rewrite !length_app; lia]. intros H5.
  destruct (stands_start m1 (p + 1) qs _ x Hs Hpx Hxne) as [_ Hs2].
  replace (Z.of_nat (length qs) + 1) with (Z.of_nat (length (qs ++ [p + 1]))) by (rewrite length_app; cbn [length]; lia).
  change PS_STRING with (state_of (InString [x])). eapply (parsed_step _ _ _ _ _ m1 (p + 1 + 1) l); [done|done|done|lia|cbn [length]; lia|].
  eapply IH; [done|done|rewrite length_app; cbn [length]; lia|done|by eapply room_weaken|done].
Qed.

(** Outside quotation marks. *)
Lemma splits_word n l r m p qs ws ws2 fuel : splits_below n -> (length l < Datatypes.S n)%nat ->
  match r with InString _ => False | _ => True end ->
  stands m p r qs ws -> (length qs <= 5)%nat -> cstr m p l -> room m p (Datatypes.S fuel) ->
  words_of r l = Some ws2 -> parsed (rest_of (Datatypes.S fuel) p qs r) m p l (ws ++ ws2).
Proof.
  intros IH Hn Hr Hs Hq Hl Hroom Hws. destruct l as [|c l].
  { cbn [words_of] in Hws. injection Hws as <-. apply cstr_nil in Hl.
    eapply (parsed_step _ _ _ _ _ m p []); [|done|done|lia|lia|by apply (finish_splits m p r qs ws [] 0); [| |left]].
    intros e h. unfold rest_of. cbn [parse_loop]. unfold bind at 1 2. unfold load8 at 1. by rewrite Hl. }
  cbn [length] in Hn. destruct (advance m p c l fuel 0 Hl Hroom) as (Hp & Hc & [Hl' Hroom'] & _).
  assert (E := fun e h => round_word fuel m p c qs r e h Hp Hc Hq Hr). assert (Hlen := stands_length _ _ _ _ _ Hs).
  assert (words_of r (c :: l) =
    if c =? ch_semicolon then Some (finished r) else if blank c then app (finished r) <$> words_of Between l
    else if c =? ch_quote then match l with [] => None | x :: l => app (finished r) <$> words_of (InString [x]) l end
    else words_of (InWord (so_far r ++ [c])) l) as Ew by by destruct r. rewrite Ew in Hws.
  destruct (Z.eqb_spec c ch_semicolon) as [->|]; cbn [andb negb] in E.
  { injection Hws as <-. eapply (parsed_step _ _ _ _ _ m p (ch_semicolon :: l)); [exact E|done|done|lia|lia|].
    by apply (finish_splits m p r qs ws _ ch_semicolon); [| |right]. }
  destruct (blank c); cbn [orb] in E; [eapply (closed_step n); try done; lia|].
  destruct (Z.eqb_spec c ch_quote) as [->|].
  { destruct l as [|x l]; [done|]. cbn [length] in Hn. eapply (string_step n); try done. lia. }
  destruct r as [|w|w]; [|eapply (plain_step n m p c l (InWord (w ++ [c]))); try done; [lia|by apply stands_grow]|done].
  cbn [so_far app finished length state_of] in *. eapply (parsed_step _ _ _ _ _ m p (c :: l)); [exact E|done|done|lia|lia|].
  assert (1 <= length ws2)%nat as Hpos by (by apply (words_begun l (InWord [c]))).
  apply new_word; [done| |rewrite length_app; lia]. intros H5. destruct (stands_start m p qs ws c Hs Hp Hc) as [Hs' _].
  replace (Z.of_nat (length qs) + 1) with (Z.of_nat (length (qs ++ [p]))) by (rewrite length_app; cbn [length]; lia).
  eapply (plain_step n m p c l (InWord [c]) (qs ++ [p])); try done; [lia|rewrite length_app; cbn [length]; lia].
Qed.

Lemma splits n : splits_below n.
Proof.
  induction n as [|n IH]; intros l r m p qs ws ws2 fuel Hn Hs Hq Hl Hroom Hws; [lia|].
  destruct fuel as [|fuel]; [by apply room_pos in Hroom|].
  destruct r as [|w|w]; [by eapply splits_word|by eapply splits_word|]. destruct l as [|c l].
  { cbn [words_of] in Hws. injection Hws as <-. apply cstr_nil in Hl.
    eapply (parsed_step _ _ _ _ _ m p []); [|done|done|lia|lia|by apply (finish_splits m p (InString w) qs ws [] 0); [| |left]].
    intros e h. unfold rest_of. cbn [parse_loop]. unfold bind at 1 2. unfold load8 at 1. by rewrite Hl. }
  cbn [length] in Hn. destruct (advance m p c l fuel 0 Hl Hroom) as (Hp & Hc & _ & _).
  assert (E := fun e h => round_string fuel m p c qs w e h Hp Hc Hq). cbn [words_of] in Hws. destruct (c =? ch_quote).
  - eapply (closed_step n m p c l (InString w)); try done. lia.
  - eapply (plain_step n m p c l (InString (w ++ [c]))); try done; [lia|by apply stands_grow].
Qed.
End Line.

(** The split of a line, from the first call on. *)
Lemma parseargs_spec p l m ws : cstr m p l -> words l = Some ws ->
  if decide (length ws <= 4)%nat then
    exists qs m', runs (C := C) (parseargs p (replicate 5 0)) m (Z.of_nat (length ws), cells qs) m' /\ Forall2 (cstr m') qs ws /\
      Forall (fun q => p <= q) qs /\ (mem_ok m -> mem_ok m') /\ forall a, ~ p <= a <= p + length l -> m' !! a = m !! a
  else faults (C := C) (parseargs p (replicate 5 0)) m.
Proof.
  intros Hl Hws. exact (splits p (Datatypes.S (length l)) l Between m p [] [] ws (Datatypes.S (size m)) ltac:(lia)
    (conj (Z.le_refl p) (List.Forall2_nil _)) ltac:(cbn [length]; lia) Hl (room_init m p) Hws).
Qed.
End Parse.

(** ** The command *)

Lemma str_order_eq s t : str_order s t = 0 <-> s = t.
Proof.
  revert t. induction s as [|a s IH]; intros [|b t]; cbn [str_order]; [done|done|done|].
  destruct (Z.eqb_spec a b) as [<-|]; [rewrite IH; split; [by intros ->|by intros [= ->]]|].
  split; [by destruct (a <? b)|by intros [= ? ?]].
Qed.

Definition chars (s : string) : list Z := List.map (fun c => Z.of_nat (nat_of_ascii c)) (list_ascii_of_string s).

Section Command.
Context {C S : Type} `{HPrint : HasPrintf C} `{HDbg : !Part debugger S}
  `{HUart : !Part uart S} `{HCcu : !Part ccu S} `{HMem : !Part mem S} `{HCpucfg : !Part cpucfg S}.
Local Abbreviation M := (M C S).
Context (time_mdelay : Z -> M unit) (name_at : string -> Z).

(** The command a word names. *)
Definition command (w : list Z) : option (list Z -> M Z) :=
  snd <$> List.find (fun c => bool_decide (chars c.1 = w)) (Commands_Table time_mdelay).

(** The names of the table are stored where the code finds them. *)
Definition names_in (m : mem) : Prop := Forall (fun name => cstr m (name_at name) (chars name)) command_names.

Lemma wp_lib_runs {A} (q : Machine.M C mem A) e (s : S) h a m' :
  runs q (part s) a m' -> lib q e s h = Done a (set_part m' s) h.
Proof. intros Hq. unfold lib, on_part. by rewrite Hq. Qed.

Lemma inbuilt_spec q w e (s : S) h : let m : mem := part s in
  mem_ok m -> names_in m -> cstr m q w -> inbuilt time_mdelay name_at q e s h = Done (command w) s h.
Proof.
  intros m Hok Hnames Hw. unfold inbuilt, command. assert (Forall (fun c => cstr m (name_at c.1) (chars c.1)) (Commands_Table (C := C) (S := S) time_mdelay)) as Ht.
  { unfold names_in, command_names, Commands_Table in *. cbn [zip zip_with]. repeat (apply Forall_cons in Hnames as [? Hnames]).
    repeat (apply Forall_cons; split; [assumption|]). done. }
  induction Ht as [|[name f] t Hn _ IH]; [done|]. cbn [inbuilt_loop List.find fst] in *. unfold bind at 1.
  rewrite (wp_lib_runs _ e s h (str_order (chars name) w) m).
  2:{ apply runs_with_fuel. by apply strcmp_loop_spec; [| | |apply room_init]. }
  unfold m. rewrite set_same. case_bool_decide as Hc.
  - by rewrite (proj2 (str_order_eq _ _) Hc).
  - rewrite (proj2 (Z.eqb_neq 0 _)); [exact IH|]. intros H. by apply Hc, str_order_eq.
Qed.

(** What the execution of a line comes to, its words at [qs] in the state [s']. *)
Definition executed (qs : list Z) (ws : list (list Z)) : M unit :=
  match ws with
  | [] => ret tt
  | w :: _ =>
      match command w with
      | Some f => let! _ := f (cells qs) in ret tt
      | None =>
          let! _ :=
            (ERR (escaped_quote ++ "%s" ++ escaped_quote ++ " is not a command, type " ++ escaped_quote ++ "help"
               ++ escaped_quote ++ " for more information!\n") [N_ (hd 0 qs)];;
             ret FAIL) in
          ret tt
      end
  end.

(** The line from [p] on lies apart from the names. *)
Definition names_apart (p : Z) (l : list Z) : Prop :=
  Forall (fun name => apart (name_at name) (length (chars name) + 1) p (length l + 1)) command_names.

Lemma names_kept m m' p l : names_in m -> names_apart p l ->
  (forall a, ~ p <= a <= p + length l -> m' !! a = m !! a) -> names_in m'.
Proof.
  unfold names_in, names_apart. intros Hn Ha Hm. induction Hn as [|name ns [Hb Hnz] Hn IH]; [done|].
  apply Forall_cons in Ha as [Ha1 Ha]. constructor; [|by apply IH]. split; [|done]. intros i b Hi.
  rewrite Hm; [by apply Hb|]. apply lookup_lt_Some in Hi. rewrite length_app in Hi. cbn [length] in Hi. unfold apart in Ha1. lia.
Qed.

Lemma execute_spec p l ws e (s : S) h : let m : mem := part s in
  mem_ok m -> names_in m -> names_apart p l -> cstr m p l -> words l = Some ws ->
  if decide (length ws <= 4)%nat then
    exists qs m', Forall2 (cstr m') qs ws /\ Forall (fun q => p <= q) qs /\ mem_ok m' /\
      (forall a, ~ p <= a <= p + length l -> m' !! a = m !! a) /\
      execute_one_command time_mdelay name_at p e s h = executed qs ws e (set_part m' s) h
  else exists s' h', execute_one_command time_mdelay name_at p e s h = Stop Undefined s' h'.
Proof.
  intros m Hok Hnames Hapart Hl Hws. assert (Hp := parseargs_spec (C := C) p l m ws Hl Hws).
  unfold execute_one_command. change (Z.to_nat MAX_CMD_ARGS) with 5%nat. case_decide as Hn.
  2:{ destruct (Hp e h) as (m' & h' & Hf). exists (set_part m' s), h'. unfold bind, lib, on_part. fold m. by rewrite Hf. }
  destruct Hp as (qs & m' & Hrun & Hq & Hge & Hok' & Hout). specialize (Hok' Hok). exists qs, m'. do 4 (split; [done|]).
  unfold bind at 1. rewrite (wp_lib_runs _ e s h _ m' Hrun). assert (Hnames' := names_kept m m' p l Hnames Hapart Hout).
  destruct ws as [|w ws]; [done|]. cbn [length executed]. rewrite (proj2 (Z.ltb_lt 0 _)) by lia.
  destruct qs as [|q qs]; [by inversion Hq|]. apply Forall2_cons in Hq as [Hq _].
  unfold execute_command, argument, cells. cbn [app lookup list_lookup hd]. unfold bind at 1 2.
  change (ret q e (set_part m' s) h) with (Done (C := C) q (set_part m' s) h). cbn match. unfold bind at 1.
  rewrite (inbuilt_spec q w) by (rewrite part_set; done). by destruct (command w).
Qed.

(** ** [echo] *)

(** The word spells [v] in hexadecimal, [0x] in front or not. *)
Definition spells (w : list Z) (v : Z) : Prop := exists s, (w = s \/ w = ch_0 :: ch_x :: s) /\ s <> [] /\
  Forall (fun c => is_hex c = true) s /\ v = fold_left hex_step s 0.

Lemma read_hex_spec q w v e (s : S) h : cstr (part s : mem) q w -> spells w v -> length w < 2 ^ 32 ->
  (read_hex q : M Z) e s h = Done v s h.
Proof.
  intros Hw (t & Ht & Hne & Hhex & ->) Hlen. unfold read_hex. rewrite (wp_lib_runs _ e s h (fold_left hex_step t 0) (part s)); [by rewrite set_same|].
  eapply runs_bind; [by apply strlen_spec|]. destruct Ht as [-> | ->]; destruct Hw as [Hb _].
  - apply hstr2int_spec; [done|done|done|lia].
  - cbn [length] in Hlen. cbn [app] in Hb. apply bytes_at_cons in Hb as [H0 Hb]. apply bytes_at_cons in Hb as [H1 Hb].
    unfold hstr2int. eapply runs_bind; [by apply runs_load8|]. cbn [Z.eqb ch_0 Pos.eqb].
    eapply (runs_bind _ _ _ true (part s)); [eapply runs_bind; [by apply runs_load8|apply runs_ret]|]. cbn match.
    replace (u32 (length (ch_0 :: ch_x :: t) - 2)) with (Z.of_nat (length t)) by (cbn [length]; rewrite u32_small; lia).
    replace (q + 1 + 1) with (q + 2 + 0) in Hb by lia. apply runs_with_fuel, hex_loop_spec; [done|done|lia|apply room_init].
Qed.

Lemma do_echo_spec p qs x g y v a e (s : S) h : 0 < p -> Forall (fun q => p <= q) qs ->
  Forall2 (cstr (part s : mem)) qs [chars "echo"; x; ch_gt :: g; y] -> spells x v -> spells y a ->
  length x < 2 ^ 32 -> length y < 2 ^ 32 ->
  exists text args r, executed qs [chars "echo"; x; ch_gt :: g; y] e s h =
    Done tt s (Call (printf_call text args) r :: (if Z.land a 3 =? 0 then Wr a v :: h else h)).
Proof.
  intros Hp Hge Hq Hx Hy Hlx Hly.
  apply Forall2_cons_inv_r in Hq as (q0 & qs0 & _ & Hq & ->). apply Forall2_cons_inv_r in Hq as (q1 & qs1 & Hq1 & Hq & ->).
  apply Forall2_cons_inv_r in Hq as (q2 & qs2 & Hq2 & Hq & ->). apply Forall2_cons_inv_r in Hq as (q3 & qs3 & Hq3 & Hq & ->).
  apply Forall2_nil_inv_r in Hq as ->. repeat (apply Forall_cons in Hge as [? Hge]).
  apply cstr_cons in Hq2 as (Hgt & _ & _). unfold executed. change (command (chars "echo")) with (Some (do_echo (C := C) (S := S))).
  cbn match. assert (exists text args r, do_echo (cells [q0; q1; q2; q3]) e s h =
    Done (if Z.land a 3 =? 0 then OK else - EINVAL) s (Call (printf_call text args) r :: (if Z.land a 3 =? 0 then Wr a v :: h else h)))
    as (text & args & r & E); [|by exists text, args, r; unfold bind; rewrite E].
  unfold do_echo, argument, cells. cbn [app length Nat.sub replicate lookup list_lookup].
  unfold bind at 1 2 3 4, ret at 1 2 3 4. rewrite !(proj2 (Z.eqb_neq _ 0)) by lia. cbn [orb].
  assert (lib (load8 q2) e s h = Done ch_gt s h) as Hload by (rewrite (wp_lib_runs _ e s h ch_gt (part s)); [by rewrite set_same|by apply runs_load8]).
  unfold bind at 1 2. rewrite Hload. unfold ret at 1. cbn [Z.eqb ch_gt Pos.eqb negb orb].
  unfold bind at 1. rewrite (read_hex_spec q1 x v) by done. unfold bind at 1. rewrite (read_hex_spec q3 y a) by done.
  destruct (Z.land a 3 =? 0); cbn [negb]; by eexists _, _, _.
Qed.

(** C18: A command line is run as its words say: split in place at white space,
    quotation marks and the first semicolon outside them, a line of at most
    four words runs the command its first word names, with an array of pointers
    to the words and null pointers behind them, or reports that there is no
    such command; nothing but the line is stored to.  With a fifth word the
    array of arguments is overrun.  Every loop ends. *)
Theorem line_is_run p l ws e (s : S) h : let m : mem := part s in
  mem_ok m -> names_in m -> names_apart p l -> cstr m p l -> words l = Some ws ->
  if decide (length ws <= 4)%nat then
    exists qs m', Forall2 (cstr m') qs ws /\ Forall (fun q => p <= q) qs /\
      (forall a, ~ p <= a <= p + length l -> m' !! a = m !! a) /\
      execute_one_command time_mdelay name_at p e s h = executed qs ws e (set_part m' s) h
  else exists s' h', execute_one_command time_mdelay name_at p e s h = Stop Undefined s' h'.
Proof.
  intros m Hok Hn Ha Hl Hws. assert (H := execute_spec p l ws e s h Hok Hn Ha Hl Hws). case_decide; [|done].
  destruct H as (qs & m' & H1 & H2 & _ & H3 & H4). by exists qs, m'.
Qed.

(** [echo DATA > ADDR] stores the one number at the other, if that is the
    address of a word, and reports. *)
Theorem echo_pokes p l x g y v a e (s : S) h : let m : mem := part s in
  mem_ok m -> names_in m -> names_apart p l -> cstr m p l -> 0 < p ->
  words l = Some [chars "echo"; x; ch_gt :: g; y] -> spells x v -> spells y a -> length x < 2 ^ 32 -> length y < 2 ^ 32 ->
  exists (m' : mem) text args r, execute_one_command time_mdelay name_at p e s h =
    Done tt (set_part m' s) (Call (printf_call text args) r :: (if Z.land a 3 =? 0 then Wr a v :: h else h)).
Proof.
  intros m Hok Hn Ha Hl Hp Hws Hx Hy Hlx Hly. destruct (execute_spec p l _ e s h Hok Hn Ha Hl Hws) as (qs & m' & Hq & Hge & _ & _ & ->).
  exists m'. apply (do_echo_spec p qs x g y v a e (set_part m' s) h Hp Hge); [by rewrite part_set|done..].
Qed.
End Command.

(** ** A concrete line *)

(** The statics the commands meet. *)
Record image := Image {
  im_debugger : debugger;
  im_uart : uart;
  im_ccu : ccu;
  im_cpucfg : cpucfg;
  im_mem : mem
}.
#[local] Ltac part_laws := by intros; repeat match goal with s : image |- _ => destruct s end.
#[local, refine] Instance image_debugger : Part debugger image := {|
  part := im_debugger; set_part d s := Image d (im_uart s) (im_ccu s) (im_cpucfg s) (im_mem s) |}.
Proof. all: part_laws. Defined.
#[local, refine] Instance image_uart : Part uart image := {|
  part := im_uart; set_part u s := Image (im_debugger s) u (im_ccu s) (im_cpucfg s) (im_mem s) |}.
Proof. all: part_laws. Defined.
#[local, refine] Instance image_ccu : Part ccu image := {|
  part := im_ccu; set_part c s := Image (im_debugger s) (im_uart s) c (im_cpucfg s) (im_mem s) |}.
Proof. all: part_laws. Defined.
#[local, refine] Instance image_cpucfg : Part cpucfg image := {|
  part := im_cpucfg; set_part t s := Image (im_debugger s) (im_uart s) (im_ccu s) t (im_mem s) |}.
Proof. all: part_laws. Defined.
#[local, refine] Instance image_mem : Part mem image := {|
  part := im_mem; set_part m s := Image (im_debugger s) (im_uart s) (im_ccu s) (im_cpucfg s) m |}.
Proof. all: part_laws. Defined.

Definition sample_line : list Z := chars "help ; cat".
Definition sample_name_at (name : string) : Z := 0x20 * (hd 0 (chars name) + length (chars name)).
Definition sample_store : mem :=
  fold_left (fun m name => write_at m (sample_name_at name) (chars name ++ [0])) command_names (object 0x2000 (sample_line ++ [0])).

(** Two commands: the first one is run. *)
Lemma line_is_run_witness :
  let s := Image debugger_initial uart_initial ccu_initial (Cpucfg 0) sample_store in
  let e := Env (fun _ _ => 0) (fun _ _ => 0) (fun _ _ => []) : env fw_call in
  exists qs m', Forall2 (cstr m') qs [chars "help"] /\
    execute_one_command (fun _ => ret tt) sample_name_at 0x2000 e s [] =
    executed (fun _ => ret tt) qs [chars "help"] e (set_part m' s) [].
Proof.
  intros s e.
  destruct (line_is_run (C := fw_call) (S := image) (fun _ => ret tt) sample_name_at 0x2000 sample_line [chars "help"] e s [])
    as (qs & m' & Hq & _ & _ & H).
  - check_store.
  - repeat (apply Forall_cons; split; [split; [check_store|by repeat constructor]|]). done.
  - repeat (apply Forall_cons; split; [left; vm_compute; discriminate|]). done.
  - split; [check_store|by repeat constructor].
  - vm_compute. reflexivity.
  - exists qs, m'. exact (conj Hq H).
Defined.

(** A backspace at the start of the line: the position wraps around, and a
    terminator is stored in front of the buffer. *)
Record edited := Edited { ed_image : image; ed_shell : shell }.
#[local] Instance edited_part {T} `{!Part T image} : Part T edited := {|
  part s := part (ed_image s); set_part t s := Edited (set_part t (ed_image s)) (ed_shell s);
  part_set t s := part_set t (ed_image s);
  set_set t t' s := f_equal (fun i => Edited i (ed_shell s)) (set_set t t' (ed_image s));
  set_same s := match s with Edited i c => f_equal (fun i => Edited i c) (set_same i) end |}.
#[local, refine] Instance edited_shell : Part shell edited := {| part := ed_shell; set_part c s := Edited (ed_image s) c |}.
Proof. all: by intros; repeat match goal with s : edited |- _ => destruct s end. Defined.

Example backspace_leaves_buffer :
  let m := object 0x2000 (replicate 64 0) in
  let s := Edited (Image debugger_initial (UartVars 0 0 115200) ccu_initial (Cpucfg 0) m) (ShellVars 0) in
  (** one character, a backspace, in the receive queue *)
  let e := Env (fun h a => if a =? UART_REG_RFL then (if decide (h = []) then 1 else 0) else if a =? UART_REG_RBR then 8 else 2)
    (fun _ _ => 0) (fun _ _ => []) : env print_only in
  match getcmd 8 (fun _ => ret tt) 0x2000 (fun _ => 0) e s [] with
  | Stop Undefined s' _ => curpos (ed_shell s') = 2 ^ 32 - 1
  | _ => False
  end.
Proof. by vm_compute. Qed.
