(* ===== verification/DebuggerProps.v ===== *)
(** * The debugger prints what the format says

    [debugger_printf] against a specification on lists: the text of a format
    and its arguments, cut where the buffer ends.  The run is free of undefined
    behaviour and stores nothing outside the four buffers. *)

From S2P Require Import CMem Prelude Machine Console StringLib StringLibProps Convert ConvertProps.
From S2P Require Import Firmware Ticks Prcm Uart UartProps Debugger.

Local Open Scope list_scope.
Local Open Scope Z_scope.
Local Open Scope mach_scope.
#[local] Coercion Z.of_nat : nat >-> Z.

(** ** The specification *)

(** An argument: a number, or a pointer with the string it points to. *)
Inductive arg :=
| Num (x : Z)
| Str (p : Z) (s : list Z).
Definition arg_value (a : arg) : Z := match a with Num x => x | Str p _ => p end.

Definition padded (t : list Z) (align : Z) : list Z :=
  t ++ replicate (Z.to_nat align - length t) space.

(** The text of one conversion, [n] characters being out already, and the
    arguments left; [None] where the behaviour is undefined. *)
Definition conversion (c align n : Z) (args : list arg) : option (list Z * list arg) :=
  if (c =? ch_d) || (c =? ch_x) || (c =? ch_p) || (c =? ch_u) || (c =? ch_c) || (c =? ch_s) then
    match args with
    | [] => None
    | a :: args =>
      let x := arg_value a in
      if c =? ch_d then
        if s32 x =? - 2 ^ 31 then None else Some (padded (signed_numeral 10 (s32 x)) align, args)
      else if (c =? ch_x) || (c =? ch_p) then Some (padded (numeral 16 (u32 x)) align, args)
      else if c =? ch_u then Some (padded (numeral 10 (u32 x)) align, args)
      else if c =? ch_c then Some ([u8 x], args)
      else match a with
           | Str _ s => Some (take (Z.to_nat (DEBUG_BUFFER_SIZE - 1 - n)) s, args)
           | Num _ => None
           end
    end
  else Some ([ch_percent; c], args).

Definition is_width (c : Z) : bool := (ch_0 <? c) && (c <=? ch_9).

(** The text of the format [f] behind [out]: nothing more once fewer than 16
    bytes of the buffer are left. *)
Fixpoint render (f : list Z) (args : list arg) (out : list Z) : option (list Z) :=
  match f with
  | [] => Some out
  | c :: f =>
    if DEBUG_BUFFER_SIZE - 16 <=? length out then Some out
    else if c =? ch_percent then
      match f with
      | [] => None
      | w :: f =>
        if is_width w then
          match f with
          | [] => None
          | c :: f => match conversion c (w - ch_0) (length out) args with
                      | Some (t, args) => render f args (out ++ t)
                      | None => None
                      end
          end
        else match conversion w 0 (length out) args with
             | Some (t, args) => render f args (out ++ t)
             | None => None
             end
      end
    else render f args (out ++ [c])
  end.

(** The last [n] decimal digits of [v], and the stamp of a line. *)
Fixpoint decimal (n : nat) (v : Z) : list Z :=
  match n with
  | O => []
  | S n => v / 10 ^ n + ch_0 :: decimal n (v mod 10 ^ n)
  end.
Definition time_stamp (tick : Z) : list Z :=
  let ms := u32 (tick * 10) in
  [91] ++ decimal 4 (ms / 1000 mod 10000) ++ [46] ++ decimal 2 (ms mod 1000 / 10) ++ [93; space].

(** ** The store during a run *)

Section Store.
Context (b : buffers).
Implicit Types (m : mem) (out bs : list Z).

Definition within (p n a : Z) : Prop := p <= a < p + n.
(** The arrays of the locals, and all four buffers. *)
Definition local_array (a : Z) : Prop :=
  within (string_ b) 32 a \/ within (fill_ch b) 17 a \/ within (time_ b) 12 a.
Definition private (a : Z) : Prop := within (debugger_buffer b) DEBUG_BUFFER_SIZE a \/ local_array a.

(** The buffers exist and do not overlap. *)
Record layout_ok m : Prop := {
  buffer_valid : valid m (debugger_buffer b) DEBUG_BUFFER_SIZE;
  string_valid : valid m (string_ b) 32;
  fill_valid : valid m (fill_ch b) 17;
  time_valid : valid m (time_ b) 12;
  buffer_string : apart (debugger_buffer b) DEBUG_BUFFER_SIZE (string_ b) 32;
  buffer_fill : apart (debugger_buffer b) DEBUG_BUFFER_SIZE (fill_ch b) 17;
  buffer_time : apart (debugger_buffer b) DEBUG_BUFFER_SIZE (time_ b) 12;
  string_fill : apart (string_ b) 32 (fill_ch b) 17
}.

(** A string that the run leaves alone. *)
Definition readable m (p : Z) (s : list Z) : Prop :=
  cstr m p s /\ forall a, within p (length s + 1) a -> ~ private a.

(** What holds of the store after [out] was put in the buffer of [m0]. *)
Record printing (m0 m : mem) out : Prop := {
  same_dom : dom m = (dom m0 : gset Z);
  bytes_ok : mem_ok m;
  same_outside : forall a, ~ private a -> m !! a = m0 !! a;
  in_buffer : bytes_at m (debugger_buffer b) out
}.

Lemma valid_dom m m0 p n : dom m = (dom m0 : gset Z) -> valid m0 p n -> valid m p n.
Proof. intros Hd Hv a Ha. apply elem_of_dom. rewrite Hd. by apply elem_of_dom, Hv. Qed.

Lemma dom_write_at m p bs : valid m p (length bs) -> dom (write_at m p bs) = (dom m : gset Z).
Proof.
  revert m p. induction bs as [|c bs IH]; intros m p Hv; cbn [write_at length] in *; [done|].
  rewrite IH; [apply dom_insert_lookup_L, Hv; lia|]. apply valid_insert. eapply valid_sub; [exact Hv|lia|lia].
Qed.

Lemma layout_dom m m0 : dom m = (dom m0 : gset Z) -> layout_ok m0 -> layout_ok m.
Proof. intros Hd []. constructor; (done || by eapply valid_dom). Qed.

Lemma readable_stable m0 m out p s : printing m0 m out -> readable m0 p s -> readable m p s.
Proof.
  intros [_ _ Hs _] [[Hb Hnz] Hp]. split; [|done]. split; [|done].
  intros i c Hi. rewrite Hs; [by apply Hb|]. apply Hp. apply lookup_lt_Some in Hi.
  rewrite length_app in Hi. cbn in Hi. unfold within. lia.
Qed.

(** A store into a local array. *)
Lemma printing_local m0 m out p bs :
  printing m0 m out -> layout_ok m -> Forall is_u8 bs -> length out <= DEBUG_BUFFER_SIZE ->
  (forall a, within p (length bs) a -> local_array a) ->
  printing m0 (write_at m p bs) out.
Proof.
  intros [Hd Hm Hs Hp] [B V2 V3 V4 A1 A2 A3 A4] Hbs Hout Hloc. unfold apart in *.
  assert (valid m p (length bs)) as Hv.
  { intros a Ha. destruct (Hloc a Ha) as [H|[H|H]]; [by apply V2 | by apply V3 | by apply V4]. }
  constructor.
  - rewrite <- Hd. by apply dom_write_at.
  - by apply write_at_mem_ok.
  - intros a Ha. rewrite lookup_write_at_out; [by apply Hs|].
    intros Hin. apply Ha. right. by apply Hloc.
  - intros i c Hi. rewrite lookup_write_at_out; [by apply Hp|].
    intros Hin. apply lookup_lt_Some in Hi. destruct (Hloc _ Hin) as [H|[H|H]]; unfold within in H; lia.
Qed.

(** A store behind what is in the buffer. *)
Lemma printing_put m0 m out bs :
  printing m0 m out -> layout_ok m -> Forall is_u8 bs -> length out + length bs <= DEBUG_BUFFER_SIZE ->
  printing m0 (write_at m (debugger_buffer b + length out) bs) (out ++ bs).
Proof.
  intros [Hd Hm Hs Hp] [B _ _ _ _ _ _ _] Hbs Hout. constructor.
  - rewrite <- Hd. apply dom_write_at. eapply valid_sub; [exact B|lia|lia].
  - by apply write_at_mem_ok.
  - intros a Ha. rewrite lookup_write_at_out; [by apply Hs|].
    intros Hin. apply Ha. left. unfold within. lia.
  - apply bytes_at_app. split; [|apply bytes_at_write_at].
    apply bytes_at_write_at_out; [done|lia].
Qed.

Lemma printing_prefix m0 m out bs : printing m0 m (out ++ bs) -> printing m0 m out.
Proof. intros [Hd Hm Hs Hp]. constructor; try done. by apply bytes_at_app in Hp as [Hp _]. Qed.

Lemma layout_write m0 m out : printing m0 m out -> layout_ok m0 -> layout_ok m.
Proof. intros [Hd _ _ _] Hl. by eapply layout_dom. Qed.
End Store.

(** ** Routines of the library inside the firmware *)

Section Print.
Context {C S : Type} `{HPrint : HasPrintf C} `{HInsn : !HasInsn C} `{HDbg : !Part debugger S}
  `{HUart : !Part uart S} `{HCcu : !Part ccu S} `{HTicks : !Part ticks S} `{HMem : !Part mem S}.
Context (b : buffers).
Implicit Types (e : env C) (s : S) (h : history C).

Lemma wp_lib {A} (p : Machine.M C mem A) x m' e s h (Q : A -> S -> history C -> Prop) K :
  runs p (part s) x m' -> Q x (set_part m' s) h -> wp (lib p) e s h Q K.
Proof. intros Hr HQ. apply wp_on_part. unfold wp. by rewrite Hr. Qed.

(** The statement of a step of the loop: from a store that holds [out] to one
    that holds [out'], nothing else of the state changed. *)
Definition prints_to (m0 : mem) s h (s' : S) (h' : history C) (out' : list Z) : Prop :=
  h' = h /\ exists m', s' = set_part m' s /\ printing b m0 m' out'.

Lemma prints_to_trans m0 s h s1 h1 s2 h2 out1 out2 :
  prints_to m0 s h s1 h1 out1 -> prints_to m0 s1 h1 s2 h2 out2 -> prints_to m0 s h s2 h2 out2.
Proof.
  intros (-> & m1 & -> & _) (-> & m2 & -> & H2). split; [done|]. exists m2. by rewrite set_set.
Qed.

(** Storing through the library keeps to it. *)
Lemma store_step {A} (p : Machine.M C mem A) (x : A) q bs out m0 e s h :
  runs p (part s) x (write_at (part s) q bs) -> layout_ok b m0 -> printing b m0 (part s) out ->
  Forall is_u8 bs -> length out <= DEBUG_BUFFER_SIZE ->
  (forall a, within q (length bs) a -> local_array b a) ->
  wp (lib p) e s h (fun y s' h' => y = x /\ prints_to m0 s h s' h' out /\
    part s' = write_at (part s) q bs) total.
Proof.
  intros Hr Hl Hp Hbs Hout Hloc. eapply wp_lib; [exact Hr|]. split; [done|]. rewrite part_set.
  split; [|done]. split; [done|]. eexists. split; [done|]. apply printing_local; try done.
  by eapply layout_write.
Qed.

Lemma put_step {A} (p : Machine.M C mem A) (x : A) bs out m0 e s h :
  runs p (part s) x (write_at (part s) (debugger_buffer b + length out) bs) ->
  layout_ok b m0 -> printing b m0 (part s) out ->
  Forall is_u8 bs -> length out + length bs <= DEBUG_BUFFER_SIZE ->
  wp (lib p) e s h (fun y s' h' => y = x /\ prints_to m0 s h s' h' (out ++ bs) /\
    part s' = write_at (part s) (debugger_buffer b + length out) bs) total.
Proof.
  intros Hr Hl Hp Hbs Hout. eapply wp_lib; [exact Hr|]. split; [done|]. rewrite part_set.
  split; [|done]. split; [done|]. eexists. split; [done|]. apply printing_put; try done.
  by eapply layout_write.
Qed.

Lemma init_array_spec p bs (m : mem) :
  valid m p (length bs) -> Forall is_u8 bs ->
  runs (C := C) (init_array p bs) m tt (write_at m p bs).
Proof.
  revert p m. induction bs as [|c bs IH]; intros p m Hv Hu; cbn [init_array write_at length] in *;
    [apply runs_ret|]. apply Forall_cons in Hu as [Hc Hu].
  eapply runs_bind; [apply runs_store8, Hv; lia|]. rewrite (u8_id c Hc).
  apply IH; [|done]. apply valid_insert. eapply valid_sub; [exact Hv|lia|lia].
Qed.

(** ** The steps of the formatter *)

Lemma padded_length t align : 0 <= align ->
  length (padded t align) = Z.max (length t) align :> Z.
Proof. intros Ha. unfold padded. rewrite length_app, length_replicate. lia. Qed.

Lemma padded_chars t align :
  Forall (fun c => 0 < c < 120) t -> Forall (fun c => 0 < c < 120) (padded t align).
Proof.
  intros Ht. apply Forall_app. split; [done|]. apply Forall_replicate. unfold space. lia.
Qed.

Lemma chars_u8 t : Forall (fun c => 0 < c < 120) t -> Forall is_u8 (t ++ [0]).
Proof.
  intros Ht. apply Forall_app. split; [|by repeat constructor].
  eapply Forall_impl; [exact Ht|]. cbv beta. unfold is_u8. lia.
Qed.

Lemma chars_nonzero t : Forall (fun c => 0 < c < 120) t -> Forall (fun c => c <> 0) t.
Proof. intros Ht. eapply Forall_impl; [exact Ht|]. cbv beta. lia. Qed.

Lemma cstr_write_out m p t q bs :
  cstr m p t -> apart q (length bs) p (length t + 1) -> cstr (write_at m q bs) p t.
Proof.
  intros [Hb Hnz] Ha. split; [|done]. apply bytes_at_write_at_out; [done|].
  rewrite length_app. cbn [length]. unfold apart in Ha. lia.
Qed.

Lemma fill_ch_blanks m n :
  (n <= 16)%nat -> bytes_at (write_at m (fill_ch b) (replicate 16 space ++ [0])) (fill_ch b) (replicate n space).
Proof.
  intros Hn. assert (Hb := bytes_at_write_at m (fill_ch b) (replicate 16 space ++ [0])).
  assert (replicate 16 space ++ [0] = replicate n space ++ replicate (16 - n) space ++ [0]) as E.
  { rewrite app_assoc, <- replicate_add. do 2 f_equal. lia. }
  rewrite E in Hb at 2. by apply bytes_at_app in Hb as [Hb _].
Qed.

(** Blanks appended to the string in [string_]. *)
Lemma append_blanks t align m0 out e s h :
  layout_ok b m0 -> printing b m0 (part s) out -> length out <= DEBUG_BUFFER_SIZE ->
  cstr (part s) (string_ b) t -> 0 <= length t < align -> align <= 9 ->
  Forall (fun c => 0 < c < 120) t ->
  bytes_at (part s) (fill_ch b) (replicate (Z.to_nat align - length t) space) ->
  wp (lib (strncat (string_ b) (fill_ch b) (align - length t))) e s h (fun _ s' h' =>
    prints_to m0 s h s' h' out /\ cstr (part s') (string_ b) (padded t align)) total.
Proof.
  intros Hl Hp Hout Ht Hlt Hal Hch Hfill. assert (Hl' := layout_write b _ _ _ Hp Hl).
  destruct Hl' as [_ V2 V3 _ _ _ _ A4].
  set (pad := replicate (Z.to_nat align - length t) space) in *.
  assert (length pad = align - length t :> Z) as Hpad by (unfold pad; rewrite length_replicate; lia).
  rewrite <- Hpad. eapply wp_mono.
  { apply (store_step _ (string_ b) (string_ b + length t) (pad ++ [0]) out m0); try done.
    - apply strncat_spec; [apply (bytes_ok _ _ _ _ Hp)|done|done| | |lia| |].
      + apply Forall_replicate. unfold space. lia.
      + intros Hnil. rewrite Hnil in Hpad. cbn in Hpad. lia.
      + eapply valid_sub; [exact V2|lia|lia].
      + unfold apart in *. lia.
    - apply chars_u8. apply Forall_replicate. unfold space. lia.
    - intros a Ha. left. unfold within in *. rewrite length_app in Ha. cbn [length] in Ha. lia. }
  intros _ s2 h2 (_ & Hs2 & ->). split; [done|]. split; [|by apply chars_nonzero, padded_chars].
  unfold padded. fold pad. rewrite <- app_assoc. apply bytes_at_app. split; [|apply bytes_at_write_at].
  apply bytes_at_write_at_out; [|lia]. destruct Ht as [Ht _]. by apply bytes_at_app in Ht as [Ht _].
Qed.

Lemma print_align_spec t align m0 out e s h :
  layout_ok b m0 -> printing b m0 (part s) out -> length out <= DEBUG_BUFFER_SIZE ->
  cstr (part s) (string_ b) t -> length t <= 11 -> 0 <= align <= 9 ->
  Forall (fun c => 0 < c < 120) t ->
  wp (print_align b (string_ b) (length t) align) e s h (fun r s' h' =>
    r = Z.max 0 (align - length t) /\ prints_to m0 s h s' h' out /\
    cstr (part s') (string_ b) (padded t align)) total.
Proof.
  intros Hl Hp Hout Ht Hlen Hal Hch. assert (Hl' := layout_write b _ _ _ Hp Hl).
  destruct Hl' as [_ V2 V3 _ _ _ _ A4]. unfold print_align.
  apply wp_bind. eapply wp_mono.
  { apply (store_step _ tt (fill_ch b) (replicate 16 space ++ [0]) out m0); try done.
    - apply init_array_spec; [done | by repeat constructor].
    - by repeat constructor.
    - intros a Ha. right. by left. }
  intros _ s1 h1 (_ & Hs1 & Hm1).
  assert (cstr (part s1) (string_ b) t) as Ht1.
  { rewrite Hm1. apply cstr_write_out; [done|]. cbn [length replicate app]. unfold apart in *. lia. }
  destruct (Z.ltb_spec (length t) align).
  - rewrite u32_small by lia. assert (Hs1' := Hs1). destruct Hs1' as (_ & m1 & E1 & Hp1).
    assert (part s1 = m1) as E1' by (rewrite E1; apply part_set).
    apply wp_bind. eapply wp_mono.
    { apply (append_blanks t align m0 out); rewrite ?E1'; try done; [by rewrite <- E1'|lia|lia|].
      rewrite <- E1', Hm1. apply fill_ch_blanks. lia. }
    intros ? s2 h2 [Hs2 Ht2]. apply wp_ret. split; [lia|]. split; [by eapply prints_to_trans|done].
  - apply wp_ret. split; [lia|]. split; [done|]. unfold padded.
    replace (Z.to_nat align - length t)%nat with O by lia. cbn [replicate]. by rewrite app_nil_r.
Qed.

(** A number: converted, aligned and copied behind what is out. *)
Lemma put_number_spec conv x t align m0 out e s h :
  (forall m, valid m (string_ b) 32 -> runs conv m x (write_at m (string_ b) (t ++ [0]))) ->
  Forall (fun c => 0 < c < 120) t -> length t <= 11 -> 0 <= align <= 9 ->
  layout_ok b m0 -> printing b m0 (part s) out -> length out < DEBUG_BUFFER_SIZE - 16 ->
  wp (put_number b conv (debugger_buffer b + length out) align) e s h (fun r s' h' =>
    r = debugger_buffer b + length (out ++ padded t align) /\
    prints_to m0 s h s' h' (out ++ padded t align)) total.
Proof.
  intros Hconv Ht Hlen Hal Hl Hp Hout. unfold DEBUG_BUFFER_SIZE in *. unfold put_number.
  assert (Hl' := layout_write b _ _ _ Hp Hl). assert (Hpl := padded_length t align ltac:(lia)).
  apply wp_bind. eapply wp_mono.
  { apply (store_step _ x (string_ b) (t ++ [0]) out m0); try done;
      [apply Hconv, (string_valid _ _ Hl')|by apply chars_u8|unfold DEBUG_BUFFER_SIZE; lia|].
    intros a Ha. left. unfold within in *. rewrite length_app in Ha. cbn [length] in Ha. lia. }
  intros _ s1 h1 (_ & (-> & m1 & -> & Hp1) & Hm1). rewrite part_set in Hm1.
  assert (cstr m1 (string_ b) t) as Ht1.
  { rewrite Hm1. split; [apply bytes_at_write_at | by apply chars_nonzero]. }
  apply wp_bind. eapply wp_lib; [rewrite part_set; by apply strlen_spec|]. rewrite set_set.
  assert (forall k, 0 <= k < 2 ^ 31 -> s32 k = k) as Hs32.
  { intros k Hk. unfold s32. rewrite (u32_small k) by lia. by destruct (Z.ltb_spec k (2 ^ 31)); [|lia]. }
  rewrite (Hs32 (length t)) by lia.
  apply wp_bind. eapply wp_mono.
  { apply (print_align_spec t align m0 out); rewrite ?part_set; (done || unfold DEBUG_BUFFER_SIZE; lia). }
  intros r s2 h2 (-> & (-> & m2 & -> & Hp2) & Ht2). rewrite set_set in *. rewrite part_set in Ht2.
  rewrite (Hs32 (length t + Z.max 0 (align - length t))) by lia.
  assert (Hl2 := layout_write b _ _ _ Hp2 Hl). destruct Hl2 as [V1 _ _ _ A1 _ _ _].
  apply wp_bind. eapply wp_mono.
  { apply (put_step _ (debugger_buffer b + length out) (padded t align ++ [0]) out m0); rewrite ?part_set; try done.
    - apply strcpy_spec; [apply (bytes_ok _ _ _ _ Hp2)|done| |].
      + eapply valid_sub; [exact V1|lia|unfold DEBUG_BUFFER_SIZE; lia].
      + unfold apart, DEBUG_BUFFER_SIZE in *. lia.
    - by apply chars_u8, padded_chars.
    - rewrite length_app. cbn [length]. unfold DEBUG_BUFFER_SIZE. lia. }
  intros _ s3 h3 (_ & (-> & m3 & -> & Hp3) & _). apply wp_ret. rewrite set_set, length_app.
  split; [lia|]. split; [done|]. exists m3. split; [done|].
  rewrite app_assoc in Hp3. by eapply printing_prefix.
Qed.

(** The strings among the arguments stay readable. *)
Definition args_ok (m : mem) (args : list arg) : Prop :=
  Forall (fun a => match a with Str p t => readable b m p t /\ length t < 2 ^ 32 | Num _ => True end) args.

(** Characters stored without the library. *)
Lemma put_char c m0 out e s h :
  layout_ok b m0 -> printing b m0 (part s) out -> length out < DEBUG_BUFFER_SIZE ->
  wp (lib (store8 (debugger_buffer b + length out) c)) e s h
    (fun _ s' h' => prints_to m0 s h s' h' (out ++ [u8 c])) total.
Proof.
  intros Hl Hp Hout. assert (Hl' := layout_write b _ _ _ Hp Hl). eapply wp_mono.
  - apply (put_step _ tt [u8 c] out m0); try done.
    + apply runs_store8, (buffer_valid _ _ Hl'). lia.
    + repeat constructor; apply u8_range.
    + cbn [length]. lia.
  - by intros _ s' h' (_ & Hs & _).
Qed.

Lemma numeral_len r v : radix_ok r -> 10 <= r -> 0 <= v < 2 ^ 32 -> (length (numeral r v) <= 10)%nat.
Proof.
  intros Hr H10 Hv. unfold numeral. destruct (v =? 0); [cbn; lia|]. apply digits_short; [done|].
  change (Z.of_nat 10) with 10. assert (10 ^ 10 <= r ^ 10) by (apply Z.pow_le_mono_l; lia). lia.
Qed.

Lemma utoa_prints r v (m : mem) : radix_ok r -> 10 <= r -> 0 <= v < 2 ^ 32 -> valid m (string_ b) 32 ->
  runs (C := C) (utoa v (string_ b) r) m (string_ b) (write_at m (string_ b) (numeral r v ++ [0])).
Proof.
  intros Hr H10 Hv Hval. assert (10 ^ 16 <= r ^ 16) by (apply Z.pow_le_mono_l; lia).
  assert (Hlen := numeral_len r v Hr H10 Hv).
  apply utoa_spec; [done|lia|]. eapply valid_sub; [exact Hval|lia|lia].
Qed.

Lemma signed_facts v : - 2 ^ 31 < v < 2 ^ 31 ->
  (length (signed_numeral 10 v) <= 11)%nat /\ Forall (fun c => 0 < c < 120) (signed_numeral 10 v) /\
  forall m, valid m (string_ b) 32 ->
    runs (C := C) (itoa v (string_ b) 10) m (string_ b) (write_at m (string_ b) (signed_numeral 10 v ++ [0])).
Proof.
  intros Hv. assert (radix_ok 10) as Hr by (split; lia).
  assert (Hlen := numeral_len 10 (Z.abs v) Hr ltac:(lia) ltac:(lia)).
  assert (length (signed_numeral 10 v) <= 11)%nat as Hl.
  { unfold signed_numeral. rewrite length_app. destruct (v <? 0); cbn [length]; lia. }
  split; [done|]. split.
  - apply Forall_app. split; [|by apply numeral_chars]. destruct (v <? 0); repeat constructor; lia.
  - intros m Hval. apply itoa_spec; [done|done|lia|]. eapply valid_sub; [exact Hval|lia|lia].
Qed.

(** [%s]: as much as leaves room for the terminator. *)
Lemma put_string_spec p t m0 out (ap : list Z) e s h :
  layout_ok b m0 -> printing b m0 (part s) out -> length out < DEBUG_BUFFER_SIZE - 16 ->
  readable b m0 p t -> length t < 2 ^ 32 ->
  let t' := take (Z.to_nat (DEBUG_BUFFER_SIZE - 1 - length out)) t in
  wp (let pdest := debugger_buffer b + length out in
      let! n := lib (strnlen p (u32 (DEBUG_BUFFER_SIZE - 1 - (pdest - debugger_buffer b)))) in
      let len := s32 n in
      let! _ := lib (strncpy pdest p (u32 len)) in
      ret (pdest + len, ap)) e s h
    (fun '(pd, ap') s' h' => ap' = ap /\ pd = debugger_buffer b + length (out ++ t') /\
       prints_to m0 s h s' h' (out ++ t') /\ length (out ++ t') <= DEBUG_BUFFER_SIZE - 1) total.
Proof.
  intros Hl Hp Hout Hr Hlen t'. cbv zeta. assert (Hr' := readable_stable b _ _ _ _ _ Hp Hr).
  assert (Hl' := layout_write b _ _ _ Hp Hl). destruct Hr' as [Hs Hpriv].
  unfold DEBUG_BUFFER_SIZE in *.
  replace (debugger_buffer b + length out - debugger_buffer b) with (Z.of_nat (length out)) by lia.
  assert (length t' = Z.min (length t) (255 - length out) :> Z) as Ht'.
  { unfold t'. rewrite length_take. lia. }
  rewrite u32_small by lia.
  apply wp_bind. eapply wp_lib; [apply (strnlen_spec t); [done|done|lia]|]. rewrite set_same.
  replace (Z.min (length t) (256 - 1 - length out)) with (Z.of_nat (length t')) by lia.
  assert (s32 (length t') = length t' /\ u32 (length t') = length t') as [-> ->].
  { unfold s32. rewrite (u32_small (length t')) by lia. destruct (Z.ltb_spec (length t') (2 ^ 31)); lia. }
  apply wp_bind. eapply wp_mono.
  { apply (put_step _ (debugger_buffer b + length out) t' out m0); try done.
    - apply (strncpy_spec t' (drop (Z.to_nat (256 - 1 - length out)) t));
        [apply (bytes_ok _ _ _ _ Hp)|unfold t'; by rewrite take_drop| |].
      + eapply valid_sub; [apply (buffer_valid _ _ Hl')|lia|unfold DEBUG_BUFFER_SIZE; lia].
      + unfold apart. destruct (decide (debugger_buffer b + length out + length t' <= p)); [by left|]. right.
        assert (length t' + length (drop (Z.to_nat (256 - 1 - length out)) t) = length t :> Z) as Hdrop.
        { unfold t'. rewrite <- Nat2Z.inj_add, <- length_app, take_drop. done. }
        destruct (Z.le_gt_cases (p + (length t + 1)) (debugger_buffer b + length out)); [lia|]. exfalso.
        apply (Hpriv (Z.max p (debugger_buffer b + length out))); [unfold within; lia|].
        left. unfold within, DEBUG_BUFFER_SIZE. lia.
    - destruct Hs as [Hb _]. apply bytes_at_app in Hb as [Hb _].
      assert (Hu := bytes_at_u8 _ _ _ (bytes_ok _ _ _ _ Hp) Hb). by apply Forall_take.
    - unfold DEBUG_BUFFER_SIZE. lia. }
  intros _ s1 h1 (_ & Hs1 & _). apply wp_ret. rewrite length_app. split_and!; [done|lia|done|lia].
Qed.

(** After a conversion: [t] is out, [args'] are left. *)
Definition converted (m0 : mem) s h out t (args' : list arg) : Z * list Z -> S -> history C -> Prop :=
  fun '(pd, ap) s' h' => pd = debugger_buffer b + length (out ++ t) /\ ap = map arg_value args' /\
    args_ok m0 args' /\ prints_to m0 s h s' h' (out ++ t) /\ length (out ++ t) <= DEBUG_BUFFER_SIZE - 1.

Lemma converted_number conv y txt align args m0 out e s h :
  layout_ok b m0 -> printing b m0 (part s) out -> length out < DEBUG_BUFFER_SIZE - 16 -> 0 <= align <= 9 ->
  (length txt <= 11)%nat -> Forall (fun c => 0 < c < 120) txt -> args_ok m0 args ->
  (forall m, valid m (string_ b) 32 -> runs conv m y (write_at m (string_ b) (txt ++ [0]))) ->
  wp (let! pdest := put_number b conv (debugger_buffer b + length out) align in
      ret (pdest, map arg_value args)) e s h (converted m0 s h out (padded txt align) args) total.
Proof.
  intros Hl Hp Hout Hal Hlen Hch Hargs Hrun. apply wp_bind.
  eapply wp_mono; [apply (put_number_spec conv y txt align m0 out); (done || lia)|].
  intros r s1 h1 (-> & Hs1). apply wp_ret. split_and!; try done.
  rewrite length_app. assert (H := padded_length txt align ltac:(lia)). unfold DEBUG_BUFFER_SIZE in *. lia.
Qed.

Lemma converted_unsigned r v align args m0 out e s h :
  layout_ok b m0 -> printing b m0 (part s) out -> length out < DEBUG_BUFFER_SIZE - 16 -> 0 <= align <= 9 ->
  args_ok m0 args -> radix_ok r -> 10 <= r ->
  wp (let! pdest := put_number b (utoa (u32 v) (string_ b) r) (debugger_buffer b + length out) align in
      ret (pdest, map arg_value args)) e s h (converted m0 s h out (padded (numeral r (u32 v)) align) args) total.
Proof.
  intros Hl Hp Hout Hal Hargs Hr H10. assert (Hu := u32_range v). assert (Hn := numeral_len r _ Hr H10 Hu).
  eapply converted_number; try done; [lia|by apply numeral_chars|]. intros m. by apply utoa_prints.
Qed.

(** A character that starts no conversion, with its percent sign. *)
Lemma converted_other c args m0 out e s h :
  layout_ok b m0 -> printing b m0 (part s) out -> length out < DEBUG_BUFFER_SIZE - 16 ->
  args_ok m0 args -> is_u8 c ->
  wp (lib (store8 (debugger_buffer b + length out) ch_percent);;
      lib (store8 (debugger_buffer b + length out + 1) c);;
      ret (debugger_buffer b + length out + 2, map arg_value args)) e s h
    (converted m0 s h out [ch_percent; c] args) total.
Proof.
  intros Hl Hp Hout Hargs Hc8. unfold DEBUG_BUFFER_SIZE in *. apply wp_bind.
  eapply wp_mono; [apply (put_char ch_percent m0 out); (done || unfold DEBUG_BUFFER_SIZE; lia)|].
  intros ? s1 h1 (-> & m1 & -> & Hp1). apply wp_bind.
  replace (debugger_buffer b + length out + 1) with (debugger_buffer b + length (out ++ [u8 ch_percent]))
    by (rewrite length_app; cbn [length]; lia).
  eapply wp_mono.
  { apply (put_char c m0 (out ++ [u8 ch_percent])); rewrite ?part_set, ?length_app; cbn [length];
      (done || unfold DEBUG_BUFFER_SIZE; lia). }
  intros _ s2 h2 (-> & m2 & -> & Hp2). rewrite set_set. apply wp_ret.
  rewrite (u8_id c Hc8), <- app_assoc in Hp2. cbn [app] in Hp2. unfold converted, DEBUG_BUFFER_SIZE.
  rewrite !length_app. cbn [length]. split_and!; [lia|done|done| |lia]. split; [done|]. by exists m2.
Qed.

(** The argument of a conversion that takes one. *)
Local Ltac next_arg Hargs :=
  lazymatch type of Hargs with args_ok _ ?args => destruct args as [|a args]; [done|] end;
  apply Forall_cons in Hargs as [Ha Hargs]; cbn [map]; apply wp_bind, wp_ret.

Lemma put_convert_spec c align args t args' m0 out e s h :
  conversion c align (length out) args = Some (t, args') -> args_ok m0 args -> 0 <= align <= 9 ->
  is_u8 c -> layout_ok b m0 -> printing b m0 (part s) out -> length out < DEBUG_BUFFER_SIZE - 16 ->
  wp (convert b c (debugger_buffer b + length out) align (map arg_value args)) e s h
    (converted m0 s h out t args') total.
Proof.
  intros Hc Hargs Hal Hc8 Hl Hp Hout. unfold conversion in Hc. unfold convert, va_arg.
  destruct (c =? ch_d) eqn:Ed; cbn [orb] in Hc.
  { next_arg Hargs. destruct (Z.eqb_spec (s32 (arg_value a)) (- 2 ^ 31)); [done|]. injection Hc as <- <-.
    assert (- 2 ^ 31 < s32 (arg_value a) < 2 ^ 31) as Hb.
    { assert (H := u32_range (arg_value a)). unfold is_u32, s32 in *.
      destruct (Z.ltb_spec (u32 (arg_value a)) (2 ^ 31)); lia. }
    destruct (signed_facts _ Hb) as (H1 & H2 & H3). by eapply converted_number. }
  destruct ((c =? ch_x) || (c =? ch_p)) eqn:Ex; cbn [orb] in Hc.
  { next_arg Hargs. injection Hc as <- <-. by apply converted_unsigned; [..|split; lia|]. }
  destruct (c =? ch_u) eqn:Eu; cbn [orb] in Hc.
  { next_arg Hargs. injection Hc as <- <-. by apply converted_unsigned; [..|split; lia|]. }
  destruct (c =? ch_c) eqn:Ec; cbn [orb] in Hc.
  { next_arg Hargs. injection Hc as <- <-. apply wp_bind. unfold DEBUG_BUFFER_SIZE in *.
    eapply wp_mono; [apply (put_char (arg_value a) m0 out); (done || unfold DEBUG_BUFFER_SIZE; lia)|].
    intros ? s1 h1 Hs1. cbv beta in Hs1. apply wp_ret. unfold converted, DEBUG_BUFFER_SIZE.
    rewrite length_app. cbn [length]. split_and!; try done; lia. }
  destruct (c =? ch_s) eqn:Es; cbn [orb] in Hc.
  { next_arg Hargs. destruct a as [x|p txt]; [done|]. destruct Ha as [Ha Ht]. injection Hc as <- <-.
    eapply wp_mono; [by apply (put_string_spec p txt m0 out)|].
    intros [pd ap] s1 h1 (-> & -> & Hs1 & Hlen). by split_and!. }
  injection Hc as <- <-. by apply converted_other.
Qed.

(** The text is in the buffer, the pointer behind it. *)
Definition rendered (m0 : mem) s h text : Z -> S -> history C -> Prop := fun r s' h' =>
  r = debugger_buffer b + length text /\ prints_to m0 s h s' h' text /\ length text <= DEBUG_BUFFER_SIZE - 1.

Lemma rendered_same m0 s h out : printing b m0 (part s) out -> length out <= DEBUG_BUFFER_SIZE - 1 ->
  rendered m0 s h out (debugger_buffer b + length out) s h.
Proof. intros Hp Hout. split; [done|]. split; [|done]. split; [done|]. exists (part s). by rewrite set_same. Qed.

Lemma rendered_trans m0 s h s1 h1 out text r s' h' :
  prints_to m0 s h s1 h1 out -> rendered m0 s1 h1 text r s' h' -> rendered m0 s h text r s' h'.
Proof. intros Hs (-> & Hs' & Ht). split; [done|]. split; [by eapply prints_to_trans|done]. Qed.

(** The next character of a string outside the buffers. *)
Lemma readable_next m0 m out p x xs : printing b m0 m out -> readable b m0 p (x :: xs) ->
  runs (C := C) (load8 p) m x m /\ m0 !! p = Some x /\ is_u8 x /\ x <> 0 /\ readable b m0 (p + 1) xs.
Proof.
  intros Hp Hx. destruct (readable_stable b _ _ _ _ _ Hp Hx) as [Hc' _]. apply cstr_cons in Hc' as (H4 & _).
  destruct Hx as [Hc Hpr]. apply cstr_cons in Hc as (H1 & H2 & H3).
  split_and!; [by apply runs_load8|done|by apply (bytes_ok _ _ _ _ Hp p)|done|]. split; [done|].
  intros a Ha. apply Hpr. cbn [length]. unfold within in *. lia.
Qed.

(** A conversion and the rest of the loop, [IH] being what the loop does with
    the rest of its fuel. *)
Lemma after_conversion fuel c align p rest args text m0 out e s h :
  (forall format f args out s h,
    readable b m0 format f -> args_ok m0 args -> render f args out = Some text ->
    printing b m0 (part s) out -> length out <= DEBUG_BUFFER_SIZE - 1 -> room m0 format fuel ->
    wp (format_loop b fuel format (debugger_buffer b + length out) (map arg_value args)) e s h
      (rendered m0 s h text) total) ->
  layout_ok b m0 -> printing b m0 (part s) out -> args_ok m0 args -> length out < DEBUG_BUFFER_SIZE - 16 ->
  0 <= align <= 9 -> is_u8 c -> readable b m0 p rest -> room m0 p fuel ->
  match conversion c align (length out) args with
  | Some (t, args') => render rest args' (out ++ t)
  | None => None
  end = Some text ->
  wp (let! (pdest, ap) := convert b c (debugger_buffer b + length out) align (map arg_value args) in
      format_loop b fuel p pdest ap) e s h (rendered m0 s h text) total.
Proof.
  intros IH Hl Hp Hargs Hout Ha Hc Hrest Hrm Hcv.
  destruct (conversion c align (length out) args) as [[t args']|] eqn:Ecv; [|done].
  apply wp_bind. eapply wp_mono; [apply (put_convert_spec c align args t args' m0 out); done|].
  intros [pd ap] s1 h1 (-> & -> & Hargs' & Hs1 & Hlen).
  assert (Hs1' := Hs1). destruct Hs1' as (-> & m1 & -> & Hp1).
  eapply wp_mono; [apply (IH p rest args' (out ++ t)); rewrite ?part_set; done|].
  intros r s2 h2 H. by eapply rendered_trans.
Qed.

(** The loop produces the text. *)
Lemma format_loop_spec fuel format f args text m0 out e s h :
  layout_ok b m0 -> readable b m0 format f -> args_ok m0 args -> render f args out = Some text ->
  printing b m0 (part s) out -> length out <= DEBUG_BUFFER_SIZE - 1 -> room m0 format fuel ->
  wp (format_loop b fuel format (debugger_buffer b + length out) (map arg_value args)) e s h
    (rendered m0 s h text) total.
Proof.
  intros Hl. revert format f args out s h. induction fuel as [|fuel IH];
    intros format f args out s h Hf Hargs Hr Hp Hout Hroom; [by apply room_pos in Hroom|].
  cbn [format_loop]. destruct f as [|c f]; cbn [render] in Hr.
  { injection Hr as <-. destruct (readable_stable b _ _ _ _ _ Hp Hf) as [Hc _]. apply cstr_nil in Hc.
    apply wp_bind. eapply wp_lib; [by apply runs_load8|]. rewrite set_same. by apply wp_ret, rendered_same. }
  destruct (readable_next _ _ _ _ _ _ Hp Hf) as (Hld & Hc0 & Hc8 & Hcz & Hf1). apply wp_bind.
  eapply wp_lib; [exact Hld|]. rewrite set_same, (proj2 (Z.eqb_neq _ _) Hcz).
  assert (room m0 (format + 1) fuel) as Hroom1 by by eapply room_step.
  replace (debugger_buffer b + length out - debugger_buffer b) with (Z.of_nat (length out)) by lia.
  destruct (Z.leb_spec (DEBUG_BUFFER_SIZE - 16) (length out)).
  { injection Hr as <-. by apply wp_ret, rendered_same. }
  destruct (Z.eqb_spec c ch_percent) as [->|Hnp].
  - destruct f as [|w f]; [done|]. destruct (readable_next _ _ _ _ _ _ Hp Hf1) as (Hldw & Hw0 & Hw8 & _ & Hf2).
    assert (room m0 (format + 1 + 1) fuel) as Hroom2 by by eapply room_weaken.
    cbv zeta. apply wp_bind. eapply wp_lib; [exact Hldw|]. rewrite set_same.
    fold (is_width w). destruct (is_width w) eqn:Ew; apply wp_bind, wp_ret, wp_bind.
    + destruct f as [|c1 f]; [done|]. destruct (readable_next _ _ _ _ _ _ Hp Hf2) as (Hldc & Hd0 & Hd8 & _ & Hf3).
      eapply wp_lib; [exact Hldc|]. rewrite set_same.
      eapply after_conversion; try done; [unfold is_width, ch_0, ch_9 in *; lia|by eapply room_weaken].
    + eapply wp_lib; [exact Hldw|]. rewrite set_same. by eapply after_conversion; [..|lia| | | |].
  - apply wp_bind. eapply wp_mono; [apply (put_char c m0 out); (done || lia)|].
    intros ? s1 h1 Hs1. cbv beta in Hs1. assert (Hs1' := Hs1). destruct Hs1' as (-> & m1 & -> & Hp1).
    rewrite (u8_id c Hc8) in *.
    replace (debugger_buffer b + length out + 1) with (debugger_buffer b + length (out ++ [c]))
      by (rewrite length_app; cbn [length]; lia).
    eapply wp_mono.
    { apply (IH (format + 1) f args (out ++ [c])); rewrite ?part_set; try done.
      rewrite length_app. cbn [length]. unfold DEBUG_BUFFER_SIZE in *. lia. }
    intros r s2 h2 H2. by eapply rendered_trans.
Qed.

(** ** The time stamp *)

Lemma time_store i v m0 out e s h :
  0 <= i < 12 -> layout_ok b m0 -> printing b m0 (part s) out -> length out <= DEBUG_BUFFER_SIZE ->
  wp (lib (store8 (time_ b + i) v)) e s h (fun _ s' h' =>
    prints_to m0 s h s' h' out /\ part s' = <[time_ b + i := u8 v]> (part s)) total.
Proof.
  intros Hi Hl Hp Hout. assert (Hl' := layout_write b _ _ _ Hp Hl). eapply wp_mono.
  - apply (store_step _ tt (time_ b + i) [u8 v] out m0); try done.
    + apply runs_store8, (time_valid _ _ Hl'). lia.
    + repeat constructor; apply u8_range.
    + intros a Ha. right. right. unfold within in *. cbn [length] in Ha. lia.
  - by intros ? s' h' (_ & Hs & Hm).
Qed.

Lemma mod_mul_div v k p : 0 < k -> 0 < p -> (v mod (k * p)) / k = (v / k) mod p.
Proof.
  intros Hk Hp. rewrite Z.rem_mul_r, Z.add_comm, (Z.mul_comm k (_ mod p)) by lia. rewrite Z.div_add_l by lia.
  rewrite (Z.div_small (v mod k)) by (apply Z.mod_pos_bound; lia). lia.
Qed.

(** [k] times the last digit printed. *)
Lemma time_digits_spec k (n : nat) i v div m0 out e s h :
  0 <= i -> i + n <= 10 -> layout_ok b m0 -> printing b m0 (part s) out -> length out <= DEBUG_BUFFER_SIZE ->
  0 < k -> 0 <= v < 10 ^ n * k -> n = O \/ div = 10 ^ (n - 1) * k ->
  wp (time_digits b n i v div) e s h (fun _ s' h' =>
    prints_to m0 s h s' h' out /\ part s' = write_at (part s) (time_ b + i) (decimal n (v / k))) total.
Proof.
  intros Hi Hn Hl Hp Hout Hk. revert i v div s h Hi Hn Hp.
  induction n as [|n IH]; intros i v div s h Hi Hn Hp Hv Hdiv; cbn [time_digits decimal write_at].
  - apply wp_ret. split; [|done]. split; [done|]. exists (part s). by rewrite set_same.
  - destruct Hdiv as [|Hdiv]; [done|]. replace (Datatypes.S n - 1) with (Z.of_nat n) in Hdiv by lia. subst div.
    rewrite Nat2Z.inj_succ, Z.pow_succ_r in Hv by lia. assert (0 < 10 ^ n) as Hpow by (apply Z.pow_pos_nonneg; lia).
    rewrite (Z.mul_comm _ k), <- Z.div_div by lia.
    assert (0 <= v / k < 10 * 10 ^ n) as Hvk by (split; [apply Z.div_pos|apply Z.div_lt_upper_bound]; lia).
    assert (0 <= v / k / 10 ^ n < 10) as Hq by (split; [apply Z.div_pos|apply Z.div_lt_upper_bound]; lia).
    rewrite (u8_id (v / k / 10 ^ n)) by (unfold is_u8; lia).
    apply wp_bind. eapply wp_mono; [apply (time_store i _ m0 out); (done || lia)|].
    intros ? s1 h1 [Hs1 Hm1]. assert (Hs1' := Hs1). destruct Hs1' as (-> & m1 & -> & Hp1).
    eapply wp_mono.
    { apply (IH (i + 1)); rewrite ?part_set; try done; try lia.
      - rewrite (Z.mul_comm _ k). apply Z.mod_pos_bound. lia.
      - destruct n as [|n]; [by left|right]. rewrite Nat2Z.inj_succ, Z.pow_succ_r by lia.
        replace (k * (10 * 10 ^ n)) with (10 ^ n * k * 10) by lia. rewrite Z.div_mul by lia. do 2 f_equal. lia. }
    intros ? s2 h2 [Hs2 Hm2]. split; [by eapply prints_to_trans|].
    rewrite Hm2, Hm1, (u8_id (v / k / 10 ^ n + ch_0)) by (unfold is_u8, ch_0; lia).
    rewrite mod_mul_div by done. f_equal. lia.
Qed.

Lemma decimal_digits (n : nat) v : 0 <= v < 10 ^ n -> Forall (fun c => ch_0 <= c <= ch_9) (decimal n v).
Proof.
  revert v. induction n as [|n IH]; intros v Hv; [done|]. rewrite Nat2Z.inj_succ, Z.pow_succ_r in Hv by lia.
  assert (0 < 10 ^ n) as Hpow by (apply Z.pow_pos_nonneg; lia).
  assert (0 <= v / 10 ^ n < 10) as Hq by (split; [apply Z.div_pos|apply Z.div_lt_upper_bound]; lia).
  constructor; [unfold ch_0, ch_9; lia|]. apply IH, Z.mod_pos_bound. done.
Qed.

Lemma time_stamp_chars tick : Forall (fun c => c <> newline) (time_stamp tick) /\ Forall (fun c => c <> 0) (time_stamp tick).
Proof.
  unfold time_stamp. set (ms := u32 _).
  assert (Hs := decimal_digits 4 (ms / 1000 mod 10000) (Z.mod_pos_bound _ 10000 ltac:(lia))).
  assert (0 <= ms mod 1000 / 10 < 10 ^ 2%nat) as Hd.
  { assert (Hms := Z.mod_pos_bound ms 1000 ltac:(lia)). split; [apply Z.div_pos|apply Z.div_lt_upper_bound]; lia. }
  apply decimal_digits in Hd.
  split; (constructor; [done|]; apply Forall_app; split;
    [|constructor; [done|]; apply Forall_app; split; [|repeat (constructor; [unfold space, newline; lia|]); constructor]]).
  all: eapply Forall_impl; [eassumption|]; unfold ch_0, ch_9, newline; lia.
Qed.

Local Ltac found :=
  match goal with
  | |- <[?q := _]> _ !! ?p = Some _ => replace q with p by lia; apply lookup_insert_eq
  end.

(** The order in which [print_current_time] fills the array. *)
Lemma time_stamp_stored tick (m : mem) p :
  let ms := u32 (tick * 10) in
  cstr (write_at (write_at (<[p + 10 := u8 0]> (<[p + 9 := u8 space]> (<[p + 8 := u8 93]>
      (<[p + 5 := u8 46]> (<[p + 0 := u8 91]> m))))) (p + 1) (decimal 4 (ms / 1000 mod 10000 / 1)))
    (p + 6) (decimal 2 (ms mod 1000 / 10))) p (time_stamp tick).
Proof.
  intros ms. split; [|apply time_stamp_chars]. unfold time_stamp. fold ms. rewrite Z.div_1_r.
  generalize (ms / 1000 mod 10000) (ms mod 1000 / 10). intros x y. cbn [decimal write_at app].
  repeat (apply bytes_at_cons; split; [repeat (rewrite lookup_insert_ne by lia); found|]).
  apply bytes_at_nil.
Qed.

(** One character of the stamp. *)
Local Ltac stamp H step :=
  apply wp_bind; eapply wp_mono; [apply time_store; [lia|apply (step _ _ H)|apply (step _ _ H)|done]|];
  let s := fresh "s" in let h := fresh "h" in let Hs := fresh "Hs" in let Hm := fresh "Hm" in
  intros ? s h [Hs Hm]; eapply prints_to_trans in Hs; [|exact H].

Lemma print_current_time_spec `{!Apart mem uart S} m0 out e s h :
  layout_ok b m0 -> printing b m0 (part s) out -> length out <= DEBUG_BUFFER_SIZE ->
  wp (print_current_time b) e s h (fun _ s' h' => (exists m', s' = set_part m' s /\ printing b m0 m' out) /\
    carried e (blocked (part s)) (time_stamp (time_ticks (part s))) h h') total.
Proof.
  intros Hl Hp Hout. unfold print_current_time, current_time_tick, tick_vars.
  apply wp_bind, wp_bind, wp_getp, wp_ret. cbv zeta.
  assert (forall s0 h0, prints_to m0 s h s0 h0 out -> layout_ok b m0 /\ printing b m0 (part s0) out) as step.
  { intros s0 h0 (-> & m1 & -> & Hp1). by rewrite part_set. }
  assert (prints_to m0 s h s h out) as H0 by (split; [done|]; exists (part s); by rewrite set_same).
  stamp H0 step. stamp Hs step. stamp Hs0 step. stamp Hs1 step. stamp Hs2 step.
  change (1000 / TICK_PER_SEC) with 10. set (ms := u32 (time_ticks (part s) * 10)).
  assert (Hsec := Z.mod_pos_bound (ms / 1000) 10000 ltac:(lia)). assert (Hms := Z.mod_pos_bound ms 1000 ltac:(lia)).
  apply wp_bind. eapply wp_mono; [apply (time_digits_spec 1 4 1); [lia|lia|apply (step _ _ Hs3)..|done|done|lia|by right]|].
  intros ? s5 h5 [Hs5 Hm5]. eapply prints_to_trans in Hs5; [|exact Hs3].
  apply wp_bind. eapply wp_mono; [apply (time_digits_spec 10 2 6); [lia|lia|apply (step _ _ Hs5)..|done|done|lia|by right]|].
  intros ? s6 h6 [Hs6 Hm6]. eapply prints_to_trans in Hs6; [|exact Hs5].
  rewrite Hm5, Hm3, Hm2, Hm1, Hm0, Hm in Hm6.
  destruct Hs6 as (-> & m6 & -> & Hp6). rewrite part_set in Hm6. subst m6.
  apply wp_bind. unfold debugger_puts. eapply wp_mono.
  { apply (uart_puts_spec _ (time_stamp (time_ticks (part s)))). rewrite part_set.
    apply time_stamp_stored. }
  intros r s7 h7 [-> Hline]. apply wp_ret. rewrite part_other in Hline. apply carried_after in Hline.
  rewrite crlf_plain in Hline by apply time_stamp_chars. split; [|done]. by eexists.
Qed.

(** The time stamp leaves the buffer alone. *)
Lemma stamp_spec `{!Apart mem uart S} (flag : bool) e s h : layout_ok b (part s) -> mem_ok (part s) ->
  wp (if flag then let! _ := print_current_time b in ret tt else ret tt) e s h
    (fun _ s' h' => (exists m', s' = set_part m' s /\ printing b (part s) m' []) /\
       carried e (blocked (part s)) (if flag then time_stamp (time_ticks (part s)) else []) h h') total.
Proof.
  intros Hl Hm. assert (printing b (part s) (part s) []) as Hp0 by (constructor; [done|done|done|apply bytes_at_nil]).
  destruct flag; [apply wp_bind|apply wp_ret; split; [exists (part s); split; [symmetry; apply set_same|done]|by apply carried_none]].
  eapply wp_mono; [apply (print_current_time_spec (part s) []); done|].
  intros ? s1 h1 Hs1. by apply wp_ret.
Qed.

(** What follows the loop: the terminator, the UART, the return value. *)
Lemma printf_tail `{!Apart debugger mem S, !Apart mem uart S, !Apart debugger uart S} text m0 cpsr e s h :
  layout_ok b m0 -> printing b m0 (part s) text -> text <> [] -> length text <= DEBUG_BUFFER_SIZE - 1 ->
  wp (let pdest := debugger_buffer b + length text in
      let! c := lib (load8 (pdest - 1)) in
      (if c =? newline then set_debugger (with_timeflg 1) else set_debugger (with_timeflg 0));;
      lib (store8 pdest 0);;
      let pdest := pdest + 1 in
      let! _ := debugger_puts (debugger_buffer b) in
      cpu_enable_int cpsr;;
      ret (pdest - debugger_buffer b)) e s h (fun r s' h' =>
    r = length text + 1 /\ bytes_at (part s') (debugger_buffer b) (text ++ [0]) /\
    (forall a, ~ private b a -> part (T := mem) s' !! a = m0 !! a) /\
    carried e (blocked (part s)) (crlf (until_nul text)) h h') total.
Proof.
  intros Hl Hp Hne Hlen. cbv zeta. assert (Hl' := layout_write b _ _ _ Hp Hl). unfold DEBUG_BUFFER_SIZE in *.
  destruct (exists_last Hne) as (front & last & E). assert (Hb := in_buffer _ _ _ _ Hp). rewrite E in Hb.
  assert (length text = length front + 1 :> Z) as El by (rewrite E, length_app; cbn [length]; lia).
  assert (part s !! (debugger_buffer b + length text - 1) = Some last) as Hlast.
  { replace (debugger_buffer b + length text - 1) with (debugger_buffer b + length front) by lia.
    apply Hb. rewrite lookup_app_r by lia. by rewrite Nat.sub_diag. }
  apply wp_bind. eapply wp_lib; [by apply runs_load8|]. rewrite set_same.
  apply wp_bind. apply (wp_mono _ _ _ _ _ (fun (_ : unit) s' (h' : history C) =>
    part (T := mem) s' = part s /\ part (T := uart) s' = part s /\ h' = h)).
  { unfold set_debugger, debugger_vars. destruct (last =? newline); fw_steps; (split; [|split]); (apply part_other || done). }
  intros ? s3 h3 (Hs3 & Hu3 & ->).
  assert (is_Some (part (T := mem) s !! (debugger_buffer b + length text))) as Hok.
  { apply (buffer_valid _ _ Hl'). unfold DEBUG_BUFFER_SIZE. lia. }
  apply wp_bind. eapply wp_lib; [rewrite Hs3; by apply runs_store8|].
  assert (bytes_at (<[debugger_buffer b + length text := u8 0]> (part s)) (debugger_buffer b) (text ++ [0])) as Hstr.
  { apply bytes_at_app. split; [apply bytes_at_insert; [apply Hp|lia]|].
    apply bytes_at_cons. split; [apply lookup_insert_eq | apply bytes_at_nil]. }
  apply wp_bind. eapply wp_mono.
  { apply (uart_puts_spec _ (until_nul text)). rewrite part_set. by apply cstr_until_nul. }
  intros ? s4 h4 [-> Hline]. rewrite part_other, Hu3 in Hline. apply carried_after in Hline.
  unfold cpu_enable_int, c906_irq_restore, set_MSTATUS, exec. fw_steps.
  rewrite part_set. split; [lia|]. split; [done|]. split; [|done].
  intros q Hq. rewrite lookup_insert_ne; [by apply (same_outside _ _ _ _ Hp)|].
  intros <-. apply Hq. left. unfold within, DEBUG_BUFFER_SIZE. lia.
Qed.

(** What reaches the line: the stamp of a new line, then the text; a prefix of
    each where the UART times out. *)
Definition console_gets e (u : uart) (stamp text : list Z) h h' : Prop :=
  exists out1 out2, sent h' = sent h ++ out1 ++ out2 /\ out1 `prefix_of` stamp /\ out2 `prefix_of` crlf text /\
    if blocked u then out1 = [] /\ out2 = [] else fifo_ready e -> out1 = stamp /\ out2 = crlf text.

Lemma carried_both e (u : uart) stamp text h h1 h' :
  carried e (blocked u) stamp h h1 -> carried e (blocked u) (crlf text) h1 h' -> console_gets e u stamp text h h'.
Proof.
  intros (out1 & E1 & P1 & H1) (out2 & E2 & P2 & H2). exists out1, out2.
  rewrite E2, E1, <- app_assoc. split; [done|]. split; [done|]. split; [done|]. destruct (blocked u); tauto.
Qed.

(** C17: [debugger_printf] at a level that is enabled, with buffers that do not
    overlap and a format and strings outside them: when the specification
    gives a text for the format and its arguments, the call is free of
    undefined behaviour, leaves exactly that text, terminated, in its buffer,
    never longer than the buffer, returns its length with the terminator (one
    more than the number of characters its comment promises), and stores
    nothing outside the four buffers.  The UART, when it is in use, puts
    the time stamp of a new line and then the text on the line, with a carriage
    return before every line feed: all of it when its FIFO never stays full, a
    prefix of each otherwise, and never anything else. *)
Theorem debugger_printf_renders `{!Apart debugger mem S, !Apart mem uart S, !Apart debugger uart S}
    level format f args text e s h :
  u32 (debug_level (part s) + 1) < 32 ->
  Z.land level (Z.shiftr 0xf0 (u32 (debug_level (part s) + 1))) <> 0 ->
  mem_ok (part s) -> layout_ok b (part s) -> readable b (part s) format f -> args_ok (part s) args ->
  render f args [] = Some text -> text <> [] ->
  wp (debugger_printf b level format (map arg_value args)) e s h (fun r s' h' =>
    r = length text + 1 /\ r <= DEBUG_BUFFER_SIZE /\
    bytes_at (part s') (debugger_buffer b) (text ++ [0]) /\
    (forall a, ~ private b a -> part (T := mem) s' !! a = part s !! a) /\
    console_gets e (part s) (if print_timeflg (part s) =? 0 then [] else time_stamp (time_ticks (part s)))
      (until_nul text) h h') total.
Proof.
  intros Hlev Hon Hm Hl Hf Hargs Hr Hne. unfold debugger_printf, debugger_vars.
  apply wp_bind, wp_getp. destruct (Z.leb_spec 32 (u32 (debug_level (part s) + 1))); [lia|].
  rewrite (proj2 (Z.eqb_neq _ _) Hon). cbn [negb].
  apply wp_bind. unfold cpu_disable_int, c906_irq_save, get_MSTATUS, disable_irq, exec. fw_steps.
  eapply wp_mono; [by apply stamp_spec|]. intros ? s1 h1 ((m1 & -> & Hp1) & Hc1).
  cbv zeta. apply wp_bind, wp_getp. rewrite part_set.
  assert (printing b m1 m1 []) as Hp1' by (constructor; [done|apply Hp1|done|apply bytes_at_nil]).
  assert (args_ok m1 args) as Hargs1.
  { eapply Forall_impl; [exact Hargs|]. intros [|p t]; [done|]. intros [Ht ?]. split; [|done].
    exact (readable_stable b _ _ _ _ _ Hp1 Ht). }
  assert (Hl1 := layout_write b _ _ _ Hp1 Hl).
  apply wp_bind. eapply wp_mono.
  { assert (Hloop := format_loop_spec (Datatypes.S (size m1)) format f args text m1 [] e (set_part m1 s)).
    rewrite Z.add_0_r in Hloop. apply Hloop; rewrite ?part_set; try done;
      [exact (readable_stable b _ _ _ _ _ Hp1 Hf)|apply room_init]. }
  intros ? s2 h2 (-> & (-> & m2 & -> & Hp2) & Hlen). rewrite set_set.
  eapply wp_mono; [apply (printf_tail text m1); rewrite ?part_set; done|].
  intros n s3 h3 (-> & Hb & Hout & Hc2). split; [done|]. split; [lia|]. split; [done|]. split.
  - intros q Hq. rewrite (Hout q Hq). by apply (same_outside _ _ _ _ Hp1 q Hq).
  - rewrite part_other in Hc2. eapply carried_both; [|exact Hc2]. by destruct (print_timeflg _ =? 0).
Qed.
End Print.

(** ** A concrete call *)

(** The statics [debugger_printf] meets. *)
Record image := Image {
  im_debugger : debugger;
  im_uart : uart;
  im_ccu : ccu;
  im_ticks : ticks;
  im_mem : mem
}.
#[local] Ltac part_laws := by intros; repeat match goal with s : image |- _ => destruct s end.
#[local, refine] Instance image_debugger : Part debugger image := {|
  part := im_debugger; set_part d s := Image d (im_uart s) (im_ccu s) (im_ticks s) (im_mem s) |}.
Proof. all: part_laws. Defined.
#[local, refine] Instance image_uart : Part uart image := {|
  part := im_uart; set_part u s := Image (im_debugger s) u (im_ccu s) (im_ticks s) (im_mem s) |}.
Proof. all: part_laws. Defined.
#[local, refine] Instance image_ccu : Part ccu image := {|
  part := im_ccu; set_part c s := Image (im_debugger s) (im_uart s) c (im_ticks s) (im_mem s) |}.
Proof. all: part_laws. Defined.
#[local, refine] Instance image_ticks : Part ticks image := {|
  part := im_ticks; set_part t s := Image (im_debugger s) (im_uart s) (im_ccu s) t (im_mem s) |}.
Proof. all: part_laws. Defined.
#[local, refine] Instance image_mem : Part mem image := {|
  part := im_mem; set_part m s := Image (im_debugger s) (im_uart s) (im_ccu s) (im_ticks s) m |}.
Proof. all: part_laws. Defined.
#[local] Instance image_apart : Apart debugger mem image.
Proof. intros d s. done. Qed.
#[local] Instance image_mem_uart : Apart mem uart image.
Proof. intros d s. done. Qed.
#[local] Instance image_debugger_uart : Apart debugger uart image.
Proof. intros d s. done. Qed.

(** ["%3u-%s"] with 7 and ["ok"] prints ["7  -ok"], behind the stamp of tick 0. *)
Lemma debugger_printf_renders_witness :
  let f := [37; 51; 117; 45; 37; 115] in
  let m := object 0x1000 (replicate 320 0 ++ f ++ [0] ++ [111; 107; 0]) in
  let b := Buffers 0x1000 0x1100 0x1120 0x1132 in
  let s := Image debugger_initial (UartVars 0 0 UART_BAUDRATE) ccu_initial (TickVars 0 [] 0 []) m in
  let e := Env (fun _ _ => 2) (fun _ _ => 0) (fun _ _ => []) : env fw_call in
  wp (debugger_printf b DEBUG_LEVEL_ERR 0x1140 [7; 0x1147]) e s [] (fun r s' h' =>
    r = 7 /\ bytes_at (im_mem s') 0x1000 [55; 32; 32; 45; 111; 107; 0] /\
    sent h' = [91; 48; 48; 48; 48; 46; 48; 48; 93; 32] ++ [55; 32; 32; 45; 111; 107]) total.
Proof.
  intros f m b s e.
  assert (forall p t, cstr m p t -> 0x1140 <= p -> readable b m p t) as Hread.
  { intros p t Ht Hp. split; [done|]. intros a Ha [Hb|[Hb|[Hb|Hb]]]; unfold within, DEBUG_BUFFER_SIZE in *; cbn in *; lia. }
  eapply wp_mono; [apply (debugger_printf_renders b DEBUG_LEVEL_ERR 0x1140 f [Num 7; Str 0x1147 [111; 107]]
    [55; 32; 32; 45; 111; 107] e s [])|].
  - vm_compute. reflexivity.
  - vm_compute. discriminate.
  - check_store.
  - constructor; [check_store..| | | |]; unfold apart, DEBUG_BUFFER_SIZE; cbn; lia.
  - apply Hread; [|lia]. split; [check_store | by repeat constructor].
  - constructor; [done|]. constructor; [|done]. split; [|done].
    apply Hread; [|lia]. split; [check_store | by repeat constructor].
  - vm_compute. reflexivity.
  - discriminate.
  - intros r s' h' (Hr & _ & Hb & _ & out1 & out2 & -> & _ & _ & Hline). split; [done|]. split; [done|].
    destruct Hline as [-> ->]; [done|]. reflexivity.
Defined.
