(* ===== verification/Message.v ===== *)
(** * Requests of the application cores
    (src/ar100s/system/message_manager/message_manager.c, and [hexdump] of
    src/ar100s/library/library.c)

    A request is checked for the parameters its handler reads, handled, and
    answered. *)

From Stdlib Require Import String.
From S2P Require Import Prelude Machine Console CMem Firmware Notifier Intc Cpucfg Prcm Uart Ticks Timer Power Msgbox.
From S2P Require Import Wakeup Crc HwConfig Twi Pmu Rails CpuOps StandbyClk StandbySys Dram Standby Debugger.

Local Open Scope string_scope.
Local Open Scope list_scope.
Local Open Scope Z_scope.
Local Open Scope mach_scope.

Definition FAKE_POWER_OFF_REQ : Z := MESSAGE_BASE + 0x09.
Definition CPU_OP_REQ : Z := MESSAGE_BASE + 0x12.
Definition SYS_OP_REQ : Z := MESSAGE_BASE + 0x14.
Definition CLEAR_WAKEUP_SRC_REQ : Z := MESSAGE_BASE + 0x15.
Definition SET_WAKEUP_SRC_REQ : Z := MESSAGE_BASE + 0x16.
Definition SET_DEBUG_LEVEL_REQ : Z := MESSAGE_BASE + 0x50.
Definition MESSAGE_LOOPBACK : Z := MESSAGE_BASE + 0x51.
Definition SET_UART_BAUDRATE : Z := MESSAGE_BASE + 0x52.
Definition SET_DRAM_CRC_PARAS : Z := MESSAGE_BASE + 0x54.
Definition SET_DDRFREQ : Z := MESSAGE_BASE + 0x86.

(** [sizeof(struct message)] *)
Definition MESSAGE_SIZE : Z := 32.

Section Message.
Context {C S F T : Type} `{HPrint : HasPrintf C} `{HInsn : !HasInsn C} `{HIsrs : Isrs F} `{HCcu : !Part ccu S}
  `{HUart : !Part uart S} `{HTwi : !Part twi S} `{HPmu : !Part pmu S} `{HNotifiers : !Part (list notifier) S}
  `{HPower : !Part power S} `{HIsrTable : !Part (list (int_isr_node F)) S} `{HTicks : !Part ticks S}
  `{HTimers : !Part timer_vars S} `{HMessage : !Part message S}
  `{HWakeup : !Part wakeup S} `{HCrc : !Part crc_vars S} `{HMem : !Part mem S} `{HRails : !Part rails S}
  `{HParas : !Part standby_paras S} `{HClk : !Part clk_backup S} `{HStandby : !Part standby_vars S}
  `{HDram : !Part dram_paras S} `{HVars : !Part fdt_vars S} `{HParsed : !Part parsed S} `{HDbg : !Part debugger S}
  `{HFdt : FdtOps T}.
Local Abbreviation M := (M C S).
(** The parameters of [Standby], the closed frequency change, the address of
    the wake-up handler, and of the request with its words as they are stored. *)
Context (fuel : nat) (call_pcb : Z -> Z -> Z -> M Z) (time_mdelay time_udelay : Z -> M unit)
  (dram_power_save_process dram_power_up_process : list Z -> M unit) (mctl_mdfs_software : list Z -> Z -> M Z)
  (beyond garbage : Z) (wakeup_timer : nat) (default_wakeup_handler_addr : F) (tree : Z -> T)
  (cpu_enter_doze : M unit) (message_at : Z) (message_word : message -> Z -> Z).

Definition message_valid : M Z :=
  let! m := pmessage in ret (if negb (m_type m =? 0) then TRUE else FALSE).
Definition message_manager_init : M Z := ret OK.
Definition message_manager_exit : M Z := ret OK.

(** [for (i = 0; i < len; i += 4)]: [n] words from [i] on. *)
Fixpoint hexdump_loop (word : Z -> M Z) (n : nat) (base i : Z) : M unit :=
  match n with
  | O => ret tt
  | Datatypes.S n =>
      (if Z.land i 0xf =? 0 then printk "\n0x%8p : " [N_ (base + i)] else ret tt);;
      let! v := word i in
      printk "%8x " [N_ v];;
      hexdump_loop word n base (i + 4)
  end.
Definition hexdump (name : string) (base : Z) (word : Z -> M Z) (len : Z) : M unit :=
  printk "%s :\n" [S_ name];;
  hexdump_loop word (Z.to_nat ((len + 3) / 4)) base 0;;
  printk "\n" [].

(** The first [switch]: what each request needs. *)
Definition min_count (type : Z) : Z :=
  if type =? CPU_OP_REQ then 5
  else if (type =? SYS_OP_REQ) || (type =? CLEAR_WAKEUP_SRC_REQ) || (type =? SET_WAKEUP_SRC_REQ)
          || (type =? SET_DEBUG_LEVEL_REQ) || (type =? SET_UART_BAUDRATE) || (type =? SET_DDRFREQ) then 1
  else if type =? SET_DRAM_CRC_PARAS then 3
  else 0.

(** The second. *)
Definition dispatch (type : Z) : M Z :=
  if type =? CPU_OP_REQ then
    LOG "cpu op req\n" [];;
    cpu_op fuel call_pcb time_mdelay time_udelay dram_power_save_process dram_power_up_process beyond
      wakeup_timer tree cpu_enter_doze
  else if type =? SYS_OP_REQ then
    LOG "sys op req\n" [];; sys_op fuel time_mdelay time_udelay beyond garbage
  else if type =? CLEAR_WAKEUP_SRC_REQ then
    LOG "clear wakeup src req\n" [];; clear_wakeup_src wakeup_timer default_wakeup_handler_addr
  else if type =? SET_WAKEUP_SRC_REQ then
    LOG "set wakeup src req\n" [];; set_wakeup_src wakeup_timer default_wakeup_handler_addr
  else if type =? FAKE_POWER_OFF_REQ then
    LOG "fake poweroff req\n" [];; fake_poweroff
  else if type =? SET_DEBUG_LEVEL_REQ then
    INF "set debug level request\n" [];;
    let! level := load_para 0 in set_debug_level level
  else if type =? SET_UART_BAUDRATE then
    INF "set uart baudrate request\n" [];;
    let! rate := load_para 0 in uart_set_baudrate rate
  else if type =? SET_DRAM_CRC_PARAS then
    INF "set dram crc paras request\n" [];;
    let! enable := load_para 0 in
    let! src := load_para 1 in
    let! len := load_para 2 in
    standby_set_dram_crc_paras enable src len
  else if type =? SET_DDRFREQ then
    let! v := getp in
    match platform_dram_para v with
    | There =>
        let! level := load_para 0 in
        let! d := getp in
        mctl_mdfs_software (dts_dram_para d) level
    | Null =>
        ERR "reject DDR frequency request without DRAM parameters\n" [];;
        ret (- EFAIL)
    end
  else if type =? MESSAGE_LOOPBACK then
    INF "loopback message request\n" [];; ret OK
  else
    ERR "imt [%x]\n" [N_ type];;
    hexdump "msg" message_at (fun i => let! m := pmessage in ret (message_word m i)) MESSAGE_SIZE;;
    ret (- ESRCH).

(** At the label [reply]. *)
Definition reply (result : Z) : M Z :=
  set_message (fun m => Message (m_state m) (m_attr m) (m_type m) (u8 result) (m_count m) (paras m));;
  let! m := pmessage in
  if negb (Z.land (m_attr m) (Z.lor MESSAGE_ATTR_SOFTSYN MESSAGE_ATTR_HARDSYN) =? 0) then
    let! feedback := hwmsgbox_feedback_message time_mdelay There SEND_MSG_TIMEOUT in
    if negb (feedback =? OK) then ret feedback else ret result
  else ret result.

Definition process_message : M Z :=
  let! m := pmessage in
  if m_count m <? min_count (m_type m) then
    ERR "message %x needs %d parameters, got %d\n" [N_ (m_type m); N_ (min_count (m_type m)); N_ (m_count m)];;
    reply (- EINVAL)
  else
    let! result := dispatch (m_type m) in
    reply result.

Definition message_coming_notify : M Z :=
  INF "MESSAGE FROM AC327\n" [];;
  let! m := pmessage in
  INF "state:%x\n" [N_ (m_state m)];;
  INF "type:%x\n" [N_ (m_type m)];;
  INF "attr:%x\n" [N_ (m_attr m)];;
  INF "count: 0x%x\n" [N_ (m_count m)];;
  let! r := process_message in
  if negb (r =? OK) then
    let! m := pmessage in
    WRN "message [%x, %x] process fail\n" [N_ message_at; N_ (m_type m)];;
    ret r
  else ret OK.
End Message.
