(* ===== verification/Daemon.v ===== *)
(** * Start and main loop of the AR100 firmware
    (src/ar100s/system/daemon/daemon.c, src/ar100s/arch/riscv/cpu/e907/cpu_c.c)

    The stages of the start in order, the notification of the application
    cores, and the loop that takes their requests. *)

From Stdlib Require Import String Ascii.
From S2P Require Import Prelude Machine Console CMem Firmware Notifier Intc Cpucfg Prcm Uart Ticks Timer Power Msgbox.
From S2P Require Import Wakeup Crc HwConfig Twi Pmu Rails CpuOps Watchdog StandbyClk StandbySys Dram Standby Debugger Message.

Local Open Scope string_scope.
Local Open Scope list_scope.
Local Open Scope Z_scope.
Local Open Scope mach_scope.

Definition STARTUP_NOTIFY_TIMEOUT : Z := 3000.
Definition STARTUP_NOTIFY_PARA_WORDS : nat := 6.
Definition AR100_STARTUP_NOTIFY : Z := MESSAGE_BASE + 0x80.
Definition REC_HOTPULG : Z := 0xb000.
Definition ARISC_DTS_SIZE : Z := 0x00100000.
Definition DAEMON_ONCE_TICKS : Z := 500.
Definition DAEMON_RUN_NOTIFY : Z := 0x100.

(** [daemon_list]; [msg_paras] of [message_process_loop]. *)
Record daemon := DaemonVars { daemon_list : option nat; msg_paras : list Z }.
Definition daemon_initial : daemon := DaemonVars None (replicate (Z.to_nat MESSAGE_PARA_MAX) 0).

(** ** The stack and the BSS (cpu_c.c) *)

Section Cpu.
Context {C S : Type} `{HPrint : HasPrintf C} `{HMem : !Part mem S}.
Local Abbreviation M := (M C S).

(** [while (start < end) *start++ = 0;] *)
Fixpoint clean_loop (fuel : nat) (start stop : Z) : M unit :=
  if start <? stop then
    match fuel with
    | O => stop_now OutOfFuel
    | Datatypes.S fuel => on_part (store32 start 0);; clean_loop fuel (start + 4) stop
    end
  else ret tt.
Definition clean_bss (bss_start bss_end : Z) : M unit :=
  clean_loop (Z.to_nat (bss_end - bss_start)) bss_start bss_end.

(** The bytes of zero words at the low end of the stack. *)
Fixpoint stack_loop (fuel : nat) (stack stop size : Z) : M Z :=
  if stack <? stop then
    match fuel with
    | O => stop_now OutOfFuel
    | Datatypes.S fuel =>
        let! v := on_part (load32 stack) in
        if v =? 0 then stack_loop fuel (stack + 4) stop (size + 4) else ret size
    end
  else ret size.
Definition cpu_stack_monitor (stack_begin stack_end message aux : Z) : M Z :=
  let! size := stack_loop (Z.to_nat (stack_end - stack_begin)) stack_begin stack_end 0 in
  printk "stack free:%dbyte\n" [N_ size];;
  ret OK.

Definition exit (i : Z) : M unit := LOG "system exit\n" [];; stop_now Halted.
End Cpu.

(** The words of the version string: cut so that a terminator fits, zeros
    behind it. *)
Definition version_bytes (version : string) : list Z :=
  let size := (4 * STARTUP_NOTIFY_PARA_WORDS)%nat in
  let text := map (fun c => Z.of_nat (nat_of_ascii c)) (list_ascii_of_string version) in
  let version_len := if (size <=? length text)%nat then (size - 1)%nat else length text in
  take version_len text ++ replicate (size - version_len) 0.
Fixpoint words_of (n : nat) (bs : list Z) : list Z :=
  match n, bs with
  | Datatypes.S n, b0 :: b1 :: b2 :: b3 :: bs => b0 + b1 * 2 ^ 8 + b2 * 2 ^ 16 + b3 * 2 ^ 24 :: words_of n bs
  | _, _ => []
  end.

Section Daemon.
Context {C S F T : Type} `{HPrint : HasPrintf C} `{HInsn : !HasInsn C} `{HIsrs : Isrs F} `{HCcu : !Part ccu S}
  `{HUart : !Part uart S} `{HTwi : !Part twi S} `{HPmu : !Part pmu S} `{HNotifiers : !Part (list notifier) S}
  `{HPower : !Part power S} `{HIsrTable : !Part (list (int_isr_node F)) S} `{HTicks : !Part ticks S}
  `{HTimers : !Part timer_vars S} `{HMessage : !Part message S}
  `{HWakeup : !Part wakeup S} `{HCrc : !Part crc_vars S} `{HMem : !Part mem S} `{HRails : !Part rails S}
  `{HParas : !Part standby_paras S} `{HClk : !Part clk_backup S} `{HStandby : !Part standby_vars S}
  `{HDram : !Part dram_paras S} `{HVars : !Part fdt_vars S} `{HParsed : !Part parsed S} `{HDbg : !Part debugger S}
  `{HCpucfg : !Part cpucfg S} `{HDog : !Part watchdog S} `{HDaemon : !Part daemon S} `{HFdt : FdtOps T}.
Local Abbreviation M := (M C S).
Context (fuel : nat) (call_pcb : Z -> Z -> Z -> M Z) (time_mdelay time_udelay : Z -> M unit)
  (beyond garbage : Z) (wakeup_timer : nat) (tree : Z -> T) (names : name_buffers).
(** Addresses of the routines that are registered. *)
Context (timer_isr_addr : F) (timer_hosc_onoff_cb_addr timer_tick_server_addr wakeup_timer_handler_addr
  cpu_stack_monitor_addr : Z) (SUB_VER : string).
(** What [message_coming_notify] does, and what an unused message holds. *)
Context (message_coming_notify : M Z) (unset : message).

Definition daemon_vars : M daemon := getp.

Definition daemon_register_service (pcb : Z) : M Z :=
  let! d := daemon_vars in
  let! (r, head) := notifier_insert (daemon_list d) pcb in
  let! d := daemon_vars in
  putp (DaemonVars head (msg_paras d));;
  ret r.
Definition cpu_init : M unit := let! _ := daemon_register_service cpu_stack_monitor_addr in ret tt.

Definition hot_flag (n : Z) : M unit := save_state_flag (Z.lor REC_HOTPULG n).

Definition startup_state_notify (result : Z) : M Z :=
  LOG "feedback startup result [%d]\n" [N_ result];;
  hot_flag 0xd;;
  let! r := with_local
      (Message 0 MESSAGE_ATTR_HARDSYN AR100_STARTUP_NOTIFY (u8 result) (Z.of_nat STARTUP_NOTIFY_PARA_WORDS)
         (Some (words_of STARTUP_NOTIFY_PARA_WORDS (version_bytes SUB_VER))))
      (hwmsgbox_send_message time_mdelay There STARTUP_NOTIFY_TIMEOUT) in
  (if r =? OK then LOG "send notify succeed\n" [] else LOG "send notify failed\n" []);;
  hot_flag 0xe;;
  ret r.

(** ** The loop *)

(** Not built in: the header's function returns -1. *)
Definition amp_msgbox_init : M Z := ret (-1).
Definition amp_msgbox_query_message : M Z := ret (-1).

Definition message_process_loop : M unit :=
  let! d := daemon_vars in
  with_local (Message (m_state unset) (m_attr unset) (m_type unset) (m_result unset) (m_count unset)
                (Some (msg_paras d)))
    (let! r := hwmsgbox_query_message time_mdelay There MESSAGE_PARA_MAX HWMSGBOX_QUERY_TIMEOUT in
     let! m := pmessage in
     (if (r =? OK) && negb (m_type m =? AR100_STARTUP_NOTIFY) then
        let! _ := message_coming_notify in ret tt
      else ret tt);;
     let! m := pmessage in
     let! d := daemon_vars in
     putp (DaemonVars (daemon_list d) (default (msg_paras d) (paras m))));;
  let! _ := amp_msgbox_query_message in
  ret tt.

(** One round; the next tick of the services. *)
Definition daemon_round (next_daemon_tick : Z) : M Z :=
  message_process_loop;;
  let! tick := current_time_tick in
  if 0 <=? s32 (u32 (tick - next_daemon_tick)) then
    printk "------------------------------\n" [];;
    LOG "system tick:%d\n" [N_ DAEMON_ONCE_TICKS];;
    let! g := debugger_vars in
    LOG "debug_mask:%d\n" [N_ (debug_level g)];;
    let! rate := uart_get_baudrate in
    LOG "uart_buadrate:%d\n" [N_ rate];;
    let! d := daemon_vars in
    let! _ := notifier_notify call_pcb (daemon_list d) DAEMON_RUN_NOTIFY 0 in
    ret (u32 (tick + DAEMON_ONCE_TICKS))
  else ret next_daemon_tick.
Fixpoint daemon_rounds (rounds : nat) (next_daemon_tick : Z) : M unit :=
  match rounds with
  | O => stop_now OutOfFuel
  | Datatypes.S rounds => let! next := daemon_round next_daemon_tick in daemon_rounds rounds next
  end.
(** [while (1)]: it does not return; [fuel] rounds of it. *)
Definition daemon_main : M unit :=
  cpu_init;;
  LOG "daemon service setup...\n" [];;
  daemon_rounds fuel DAEMON_ONCE_TICKS.

(** ** The start *)

Definition set_dtb_base (v : Z) : M unit := let! x := getp in putp (FdtVars v (platform_dram_para x)).

Definition dtb_base_init : M Z :=
  let! base := read_dtb_base in
  set_dtb_base 0;;
  if (base <? ARISC_DRAM_BASE) || (u32 (ARISC_DRAM_END - ARISC_DTS_SIZE) <? base) then ret (- EINVAL)
  else
    let! r := cpucfg_set_little_endian_address base (base + ARISC_DTS_SIZE) in
    if negb (r =? OK) then ret (- EFAIL)
    else if negb (fdt_check_header (tree base) =? 0) || (ARISC_DTS_SIZE <? fdt_totalsize (tree base)) then
      let! _ := cpucfg_remove_little_endian_address base (base + ARISC_DTS_SIZE) in
      ret (- EINVAL)
    else
      set_dtb_base base;;
      ret OK.

(** The label [startup_failed]; the core sleeps for good. *)
Definition startup_failed (msgbox_ready : bool) (r : Z) : M unit :=
  ERR "mandatory startup stage failed: %d\n" [N_ r];;
  hot_flag (Z.lor 0xb00 (Z.land (u32 (- r)) 0xff));;
  (if msgbox_ready then let! _ := startup_state_notify r in ret tt else ret tt);;
  wait_for_interrupt;;
  stop_now Halted.
(** A mandatory stage. *)
Definition stage (msgbox_ready : bool) (m : M Z) (ok : string) (k : M unit) : M unit :=
  let! r := m in
  if negb (r =? OK) then startup_failed msgbox_ready r
  else LOG ok [];; k.

(** From the mailbox on. *)
Definition startup_services (startup_status : Z) : M unit :=
  let! r := amp_msgbox_init in
  (if negb (r =? OK) then WRN "AMP mailbox unavailable: %d\n" [N_ r] else ret tt);;
  hot_flag 0x9;;
  LOG "hwmsgbox driver ok\n" [];;
  hot_flag 0xa;;
  LOG "cpucfg driver ok\n" [];;
  stage true message_manager_init "message manager ok\n"
  (stage true (timer_init timer_hosc_onoff_cb_addr) "timer driver ok\n"
  (stage true (standby_init wakeup_timer wakeup_timer_handler_addr) "standby service ok\n"
  (stage true (let! (r, _) := time_ticks_init timer_isr_addr timer_tick_server_addr in ret r) "time ticks ok\n"
  (let! r := watchdog_init in
   (if negb (r =? OK) then WRN "watchdog unavailable: %d\n" [N_ r] else ret tt);;
   let startup_status := first_of startup_status r in
   hot_flag 0xc;;
   (if r =? OK then LOG "watchdog configured (not enabled)\n" [] else ret tt);;
   let! r := startup_state_notify startup_status in
   (if negb (r =? OK) then WRN "startup notification failed: %d\n" [N_ r] else ret tt);;
   set_paras;;
   hot_flag 0xf;;
   LOG "startup feedback ok\n" [];;
   LOG "ar100 firmware version : %s\n" [S_ SUB_VER];;
   daemon_main;;
   ERR "system daemon exit\n" [];;
   stop_now Halted)))).

Definition startup_entry : M unit :=
  let! _ := cpucfg_init in
  let! dtb_status := dtb_base_init in
  let! _ := notifier_init in
  hot_flag 0x0;;
  let! _ := ccu_init in
  hot_flag 0x1;;
  let! _ := pin_init in
  hot_flag 0x2;;
  hot_flag 0x3;;
  let! intc_status := interrupt_init in
  if negb (intc_status =? OK) then
    ERR "interrupt controller init failed: %d\n" [N_ intc_status]
  else
    cpu_enable_global_int;;
    hot_flag 0x4;;
    arisc_para_init;;
    hot_flag 0x5;;
    let! r := debugger_init in
    let startup_status := if negb (r =? OK) then r else OK in
    (if negb (r =? OK) then WRN "debugger unavailable: %d\n" [N_ r] else ret tt);;
    hot_flag 0x6;;
    (if r =? OK then LOG "debugger system ok\n" [] else ret tt);;
    (if negb (dtb_status =? OK) then
       WRN "HW_CONFIG unavailable; DTB-dependent services disabled\n" []
     else
       let! r := platform_dts_parse_late tree names in
       if negb (r =? OK) then WRN "DRAM parameters unavailable; DFS and standby disabled\n" [] else ret tt);;
    stage false (twi_init fuel) "twi driver ok\n"
    (hot_flag 0x7;;
     let! r := pmu_init in
     if negb (r =? OK) then startup_failed false r
     else
       let! r := bmu_init fuel beyond in
       (if negb (r =? OK) then WRN "BMU unavailable: %d\n" [N_ r] else LOG "bmu driver ok\n" []);;
       hot_flag 0x8;;
       LOG "pmu driver ok\n" [];;
       let! r := hwmsgbox_init in
       if negb (r =? OK) then startup_failed false r else startup_services startup_status).
End Daemon.
