(* ===== verification/DaemonProps.v ===== *)
(** * The firmware takes no tree it cannot read
    (src/ar100s/system/daemon/daemon.c)

    The address of the device tree comes from a register that anything may
    have written: what [dtb_base_init] makes of it. *)

From Stdlib Require Import String.
From S2P Require Import CMem Prelude Machine Console Firmware Notifier Intc Cpucfg CpucfgProps Prcm Uart Ticks Timer Power.
From S2P Require Import Msgbox Wakeup Crc HwConfig Twi Pmu Rails CpuOps Watchdog StandbyClk StandbySys Dram Standby.
From S2P Require Import Debugger Message Daemon.

Local Open Scope list_scope.
Local Open Scope Z_scope.
Local Open Scope mach_scope.

Section DtbBase.
Context {C S T : Type} `{HPrint : HasPrintf C} `{HCpucfg : !Part cpucfg S} `{HVars : !Part fdt_vars S}
  `{HFdt : FdtOps T} `{!Apart fdt_vars cpucfg S} `{!Apart cpucfg fdt_vars S}.
Context (init : Z -> Z) (e : env C) (tree : Z -> T).
Implicit Types (s : S) (h : history C) (w : list (Z * Z)).

(** A whole tree fits between the address and the end of the DRAM. *)
Definition tree_range (base : Z) : bool := (ARISC_DRAM_BASE <=? base) && (base <=? ARISC_DRAM_END - ARISC_DTS_SIZE).
Definition tree_sound (base : Z) : bool := (fdt_check_header (tree base) =? 0) && (fdt_totalsize (tree base) <=? ARISC_DTS_SIZE).

(** The window of the tree is the last that matches it, and its removal undoes
    its addition. *)
Lemma remove_added w st en : window_spec (RemoveWindow st en) (w ++ [(st, en)]) = (OK, w).
Proof.
  set (x := (st, en)). change st with x.1 at 1. change en with x.2.
  assert (last_match (length (w ++ [x])) x.1 x.2 (w ++ [x]) = Some (length w)) as Hm.
  { rewrite length_app, Nat.add_1_r. cbn [last_match]. rewrite lookup_app_r, Nat.sub_diag by done. cbn [lookup list_lookup].
    unfold matches. by rewrite !Z.eqb_refl, orb_true_r. }
  cbn [window_spec]. rewrite Hm, last_snoc. f_equal. rewrite length_app, Nat.add_sub. rewrite take_insert_ge by done.
  apply take_app_length.
Qed.

Lemma windows_put v s h w : windows init s h w -> windows init (set_part (T := fdt_vars) v s) h w.
Proof. unfold windows. by rewrite part_other. Qed.

(** C40: Whatever address the register holds, [dtb_base_init] takes it exactly
    when a whole tree from there stays inside the DRAM, a little-endian window
    is free, the header is valid and the tree is at most 1 MB: then [dtb_base]
    is that address and the window covers the tree.  Every other run leaves
    [dtb_base] zero and the windows as they were, and says why: -EINVAL for the
    address or the tree, -EFAIL for the windows. *)
Theorem dtb_base_init_safe w s h :
  window_regs init e -> windows init s h w ->
  let base := u32 (env_read e h RTC_DTB_BASE_STORE_REG) in
  let taken := tree_range base && (length w <? 4)%nat && tree_sound base in
  wp (dtb_base_init tree) e s h (fun r s' h' =>
    r = (if taken then OK else if tree_range base && negb (length w <? 4)%nat then - EFAIL else - EINVAL) /\
    dtb_base (part s') = (if taken then base else 0) /\
    windows init s' h' (if taken then w ++ [(base, base + ARISC_DTS_SIZE)] else w)) total.
Proof.
  intros Hregs Hw base taken. apply wp_bind, wp_readl. intros v Hv ->. fold base in Hv |- *.
  apply wp_bind, wp_bind, wp_getp, wp_putp. set (s1 := set_part _ s).
  assert (dtb_base (part s1) = 0) as Hz by (unfold s1; by rewrite part_set).
  assert (windows init s1 (Rd RTC_DTB_BASE_STORE_REG base :: h) w) as Hw1 by (by apply windows_put).
  unfold taken, tree_range. change (u32 (ARISC_DRAM_END - ARISC_DTS_SIZE)) with (ARISC_DRAM_END - ARISC_DTS_SIZE).
  destruct (Z.ltb_spec base ARISC_DRAM_BASE) as [Hlo|Hlo].
  { rewrite (proj2 (Z.leb_gt _ _)) by done. cbn [andb orb]. by apply wp_ret. }
  rewrite (proj2 (Z.leb_le ARISC_DRAM_BASE base)) by done. cbn [andb orb].
  destruct (Z.ltb_spec (ARISC_DRAM_END - ARISC_DTS_SIZE) base) as [Hhi|Hhi].
  { rewrite (proj2 (Z.leb_gt _ _)) by done. cbn [andb orb]. by apply wp_ret. }
  rewrite (proj2 (Z.leb_le base _)) by done. cbn [andb].
  assert (is_u32 base /\ is_u32 (base + ARISC_DTS_SIZE)) as [Hu1 Hu2].
  { unfold is_u32, ARISC_DRAM_BASE, ARISC_DRAM_END, ARISC_DTS_SIZE in *. lia. }
  apply wp_bind. eapply wp_mono; [by apply (add_window_spec init e s1 _ w base (base + ARISC_DTS_SIZE))|].
  intros r s2 h2 (-> & Hw2 & c & ->). cbn [window_spec] in Hw2 |- *.
  destruct (Nat.leb_spec 4 (length w)) as [Hfull|Hfree]; cbn [fst snd] in Hw2 |- *.
  { rewrite (proj2 (Nat.ltb_ge _ _)) by done. cbn [negb Z.eqb OK ENOSPC Z.opp andb]. apply wp_ret.
    split_and!; [done|by rewrite part_other|done]. }
  rewrite (proj2 (Nat.ltb_lt _ _)) by done. cbn [negb Z.eqb OK andb]. unfold tree_sound.
  rewrite <- (Z.ltb_antisym ARISC_DTS_SIZE (fdt_totalsize (tree base))) || rewrite Z.leb_antisym.
  destruct (fdt_check_header (tree base) =? 0); cbn [negb andb orb];
    [destruct (ARISC_DTS_SIZE <? fdt_totalsize (tree base)); cbn [negb]|].
  all: swap 1 2.
  { apply wp_bind, wp_bind, wp_getp, wp_putp, wp_ret. split_and!; [done|by rewrite part_set|by apply windows_put]. }
  all: apply wp_bind; eapply wp_mono; [by apply (remove_window_spec init e _ h2 (w ++ [(base, base + ARISC_DTS_SIZE)]) base (base + ARISC_DTS_SIZE))|];
    intros r s3 h3 (_ & Hw3 & c' & ->); rewrite remove_added in Hw3;
    apply wp_ret; (split_and!; [done|by rewrite !part_other|exact Hw3]).
Qed.
End DtbBase.

Record dtb_image := DtbImage { bi_cpucfg : cpucfg; bi_vars : fdt_vars }.
#[local, refine] Instance dtb_image_cpucfg : Part cpucfg dtb_image :=
  {| part := bi_cpucfg; set_part c s := DtbImage c (bi_vars s) |}.
Proof. all: by intros; repeat match goal with s : dtb_image |- _ => destruct s end. Defined.
#[local, refine] Instance dtb_image_vars : Part fdt_vars dtb_image :=
  {| part := bi_vars; set_part v s := DtbImage (bi_cpucfg s) v |}.
Proof. all: by intros; repeat match goal with s : dtb_image |- _ => destruct s end. Defined.

(** A small tree at 0x48000000. *)
Lemma dtb_base_init_safe_witness :
  let e := Env (fun h a => if a =? RTC_DTB_BASE_STORE_REG then 0x48000000 else regval (fun _ => 0) h a)
             (fun _ _ => 0) (fun _ _ => []) : env fw_call in
  wp (dtb_base_init (fun _ => toy_sample)) e (DtbImage (Cpucfg 0) fdt_initial) [] (fun r s' h' =>
    r = OK /\ dtb_base (bi_vars s') = 0x48000000 /\ windows (fun _ => 0) s' h' [(0x48000000, 0x48100000)]) total.
Proof.
  intros e. assert (Apart fdt_vars cpucfg dtb_image) as A1 by done. assert (Apart cpucfg fdt_vars dtb_image) as A2 by done.
  eapply wp_mono; [apply (dtb_base_init_safe (fun _ => 0) e (fun _ => toy_sample) [] (DtbImage (Cpucfg 0) fdt_initial) [])|].
  - split; [|intros i Hi; split]; (split; [done|]); intros h; cbn [env_read e];
      (rewrite (proj2 (Z.eqb_neq _ _)); [done|]); unfold CPUS_SPACE_LE_CTRL_REG, CPUS_SPACE_START_REG,
        CPUS_SPACE_END_REG, R_CPUCFG_REG_BASE, CPUCFG_LE_SPACE_NUMBER in *;
      change RTC_DTB_BASE_STORE_REG with 0x0709010c; lia.
  - apply no_windows.
  - intros r s' h' (-> & Hb & Hw). exact (conj eq_refl (conj Hb Hw)).
Defined.
