(* ===== verification/Image.v ===== *)
(** * The statics of the AR100 firmware together

    One field per component; storing one component's statics leaves every
    other's alone.  The components' theorems hold of this state. *)

From S2P Require Import CMem Prelude Machine Console Firmware Notifier Intc Cpucfg Prcm Uart Ticks Timer Power Msgbox.
From S2P Require Import Wakeup Crc HwConfig Twi Pmu Rails CpuOps Watchdog StandbyClk StandbySys Dram Standby Debugger Message Daemon.

Record firmware (F : Type) := Firmware {
  fw_ccu : ccu;
  fw_uart : uart;
  fw_twi : twi;
  fw_pmu : pmu;
  fw_notifiers : list notifier;
  fw_power : power;
  fw_isrs : list (int_isr_node F);
  fw_ticks : ticks;
  fw_timers : timer_vars;
  fw_message : message;
  fw_wakeup : wakeup;
  fw_crc : crc_vars;
  fw_mem : mem;
  fw_rails : rails;
  fw_paras : standby_paras;
  fw_clk : clk_backup;
  fw_standby : standby_vars;
  fw_dram : dram_paras;
  fw_fdt : fdt_vars;
  fw_parsed : parsed;
  fw_debugger : debugger;
  fw_cpucfg : cpucfg;
  fw_watchdog : watchdog;
  fw_daemon : daemon
}.
Arguments Firmware {F}.
Arguments fw_ccu {F}.
Arguments fw_uart {F}.
Arguments fw_twi {F}.
Arguments fw_pmu {F}.
Arguments fw_notifiers {F}.
Arguments fw_power {F}.
Arguments fw_isrs {F}.
Arguments fw_ticks {F}.
Arguments fw_timers {F}.
Arguments fw_message {F}.
Arguments fw_wakeup {F}.
Arguments fw_crc {F}.
Arguments fw_mem {F}.
Arguments fw_rails {F}.
Arguments fw_paras {F}.
Arguments fw_clk {F}.
Arguments fw_standby {F}.
Arguments fw_dram {F}.
Arguments fw_fdt {F}.
Arguments fw_parsed {F}.
Arguments fw_debugger {F}.
Arguments fw_cpucfg {F}.
Arguments fw_watchdog {F}.
Arguments fw_daemon {F}.

Section Parts.
Context {F : Type}.

#[local] Ltac part_laws := by intros; repeat match goal with s : firmware F |- _ => destruct s end.

#[export, refine] Instance firmware_ccu : Part (ccu) (firmware F) := {|
  part := fw_ccu; set_part x s :=
    Firmware x (fw_uart s) (fw_twi s) (fw_pmu s) (fw_notifiers s) (fw_power s) (fw_isrs s) (fw_ticks s)
    (fw_timers s) (fw_message s) (fw_wakeup s) (fw_crc s) (fw_mem s) (fw_rails s) (fw_paras s)
    (fw_clk s) (fw_standby s) (fw_dram s) (fw_fdt s) (fw_parsed s) (fw_debugger s) (fw_cpucfg s)
    (fw_watchdog s) (fw_daemon s) |}.
Proof. all: part_laws. Defined.
#[export, refine] Instance firmware_uart : Part (uart) (firmware F) := {|
  part := fw_uart; set_part x s :=
    Firmware (fw_ccu s) x (fw_twi s) (fw_pmu s) (fw_notifiers s) (fw_power s) (fw_isrs s) (fw_ticks s)
    (fw_timers s) (fw_message s) (fw_wakeup s) (fw_crc s) (fw_mem s) (fw_rails s) (fw_paras s)
    (fw_clk s) (fw_standby s) (fw_dram s) (fw_fdt s) (fw_parsed s) (fw_debugger s) (fw_cpucfg s)
    (fw_watchdog s) (fw_daemon s) |}.
Proof. all: part_laws. Defined.
#[export, refine] Instance firmware_twi : Part (twi) (firmware F) := {|
  part := fw_twi; set_part x s :=
    Firmware (fw_ccu s) (fw_uart s) x (fw_pmu s) (fw_notifiers s) (fw_power s) (fw_isrs s) (fw_ticks s)
    (fw_timers s) (fw_message s) (fw_wakeup s) (fw_crc s) (fw_mem s) (fw_rails s) (fw_paras s)
    (fw_clk s) (fw_standby s) (fw_dram s) (fw_fdt s) (fw_parsed s) (fw_debugger s) (fw_cpucfg s)
    (fw_watchdog s) (fw_daemon s) |}.
Proof. all: part_laws. Defined.
#[export, refine] Instance firmware_pmu : Part (pmu) (firmware F) := {|
  part := fw_pmu; set_part x s :=
    Firmware (fw_ccu s) (fw_uart s) (fw_twi s) x (fw_notifiers s) (fw_power s) (fw_isrs s) (fw_ticks s)
    (fw_timers s) (fw_message s) (fw_wakeup s) (fw_crc s) (fw_mem s) (fw_rails s) (fw_paras s)
    (fw_clk s) (fw_standby s) (fw_dram s) (fw_fdt s) (fw_parsed s) (fw_debugger s) (fw_cpucfg s)
    (fw_watchdog s) (fw_daemon s) |}.
Proof. all: part_laws. Defined.
#[export, refine] Instance firmware_notifiers : Part (list notifier) (firmware F) := {|
  part := fw_notifiers; set_part x s :=
    Firmware (fw_ccu s) (fw_uart s) (fw_twi s) (fw_pmu s) x (fw_power s) (fw_isrs s) (fw_ticks s)
    (fw_timers s) (fw_message s) (fw_wakeup s) (fw_crc s) (fw_mem s) (fw_rails s) (fw_paras s)
    (fw_clk s) (fw_standby s) (fw_dram s) (fw_fdt s) (fw_parsed s) (fw_debugger s) (fw_cpucfg s)
    (fw_watchdog s) (fw_daemon s) |}.
Proof. all: part_laws. Defined.
#[export, refine] Instance firmware_power : Part (power) (firmware F) := {|
  part := fw_power; set_part x s :=
    Firmware (fw_ccu s) (fw_uart s) (fw_twi s) (fw_pmu s) (fw_notifiers s) x (fw_isrs s) (fw_ticks s)
    (fw_timers s) (fw_message s) (fw_wakeup s) (fw_crc s) (fw_mem s) (fw_rails s) (fw_paras s)
    (fw_clk s) (fw_standby s) (fw_dram s) (fw_fdt s) (fw_parsed s) (fw_debugger s) (fw_cpucfg s)
    (fw_watchdog s) (fw_daemon s) |}.
Proof. all: part_laws. Defined.
#[export, refine] Instance firmware_isrs : Part (list (int_isr_node F)) (firmware F) := {|
  part := fw_isrs; set_part x s :=
    Firmware (fw_ccu s) (fw_uart s) (fw_twi s) (fw_pmu s) (fw_notifiers s) (fw_power s) x (fw_ticks s)
    (fw_timers s) (fw_message s) (fw_wakeup s) (fw_crc s) (fw_mem s) (fw_rails s) (fw_paras s)
    (fw_clk s) (fw_standby s) (fw_dram s) (fw_fdt s) (fw_parsed s) (fw_debugger s) (fw_cpucfg s)
    (fw_watchdog s) (fw_daemon s) |}.
Proof. all: part_laws. Defined.
#[export, refine] Instance firmware_ticks : Part (ticks) (firmware F) := {|
  part := fw_ticks; set_part x s :=
    Firmware (fw_ccu s) (fw_uart s) (fw_twi s) (fw_pmu s) (fw_notifiers s) (fw_power s) (fw_isrs s) x
    (fw_timers s) (fw_message s) (fw_wakeup s) (fw_crc s) (fw_mem s) (fw_rails s) (fw_paras s)
    (fw_clk s) (fw_standby s) (fw_dram s) (fw_fdt s) (fw_parsed s) (fw_debugger s) (fw_cpucfg s)
    (fw_watchdog s) (fw_daemon s) |}.
Proof. all: part_laws. Defined.
#[export, refine] Instance firmware_timers : Part (timer_vars) (firmware F) := {|
  part := fw_timers; set_part x s :=
    Firmware (fw_ccu s) (fw_uart s) (fw_twi s) (fw_pmu s) (fw_notifiers s) (fw_power s) (fw_isrs s)
    (fw_ticks s) x (fw_message s) (fw_wakeup s) (fw_crc s) (fw_mem s) (fw_rails s) (fw_paras s)
    (fw_clk s) (fw_standby s) (fw_dram s) (fw_fdt s) (fw_parsed s) (fw_debugger s) (fw_cpucfg s)
    (fw_watchdog s) (fw_daemon s) |}.
Proof. all: part_laws. Defined.
#[export, refine] Instance firmware_message : Part (message) (firmware F) := {|
  part := fw_message; set_part x s :=
    Firmware (fw_ccu s) (fw_uart s) (fw_twi s) (fw_pmu s) (fw_notifiers s) (fw_power s) (fw_isrs s)
    (fw_ticks s) (fw_timers s) x (fw_wakeup s) (fw_crc s) (fw_mem s) (fw_rails s) (fw_paras s)
    (fw_clk s) (fw_standby s) (fw_dram s) (fw_fdt s) (fw_parsed s) (fw_debugger s) (fw_cpucfg s)
    (fw_watchdog s) (fw_daemon s) |}.
Proof. all: part_laws. Defined.
#[export, refine] Instance firmware_wakeup : Part (wakeup) (firmware F) := {|
  part := fw_wakeup; set_part x s :=
    Firmware (fw_ccu s) (fw_uart s) (fw_twi s) (fw_pmu s) (fw_notifiers s) (fw_power s) (fw_isrs s)
    (fw_ticks s) (fw_timers s) (fw_message s) x (fw_crc s) (fw_mem s) (fw_rails s) (fw_paras s)
    (fw_clk s) (fw_standby s) (fw_dram s) (fw_fdt s) (fw_parsed s) (fw_debugger s) (fw_cpucfg s)
    (fw_watchdog s) (fw_daemon s) |}.
Proof. all: part_laws. Defined.
#[export, refine] Instance firmware_crc : Part (crc_vars) (firmware F) := {|
  part := fw_crc; set_part x s :=
    Firmware (fw_ccu s) (fw_uart s) (fw_twi s) (fw_pmu s) (fw_notifiers s) (fw_power s) (fw_isrs s)
    (fw_ticks s) (fw_timers s) (fw_message s) (fw_wakeup s) x (fw_mem s) (fw_rails s) (fw_paras s)
    (fw_clk s) (fw_standby s) (fw_dram s) (fw_fdt s) (fw_parsed s) (fw_debugger s) (fw_cpucfg s)
    (fw_watchdog s) (fw_daemon s) |}.
Proof. all: part_laws. Defined.
#[export, refine] Instance firmware_mem : Part (mem) (firmware F) := {|
  part := fw_mem; set_part x s :=
    Firmware (fw_ccu s) (fw_uart s) (fw_twi s) (fw_pmu s) (fw_notifiers s) (fw_power s) (fw_isrs s)
    (fw_ticks s) (fw_timers s) (fw_message s) (fw_wakeup s) (fw_crc s) x (fw_rails s) (fw_paras s)
    (fw_clk s) (fw_standby s) (fw_dram s) (fw_fdt s) (fw_parsed s) (fw_debugger s) (fw_cpucfg s)
    (fw_watchdog s) (fw_daemon s) |}.
Proof. all: part_laws. Defined.
#[export, refine] Instance firmware_rails : Part (rails) (firmware F) := {|
  part := fw_rails; set_part x s :=
    Firmware (fw_ccu s) (fw_uart s) (fw_twi s) (fw_pmu s) (fw_notifiers s) (fw_power s) (fw_isrs s)
    (fw_ticks s) (fw_timers s) (fw_message s) (fw_wakeup s) (fw_crc s) (fw_mem s) x (fw_paras s)
    (fw_clk s) (fw_standby s) (fw_dram s) (fw_fdt s) (fw_parsed s) (fw_debugger s) (fw_cpucfg s)
    (fw_watchdog s) (fw_daemon s) |}.
Proof. all: part_laws. Defined.
#[export, refine] Instance firmware_paras : Part (standby_paras) (firmware F) := {|
  part := fw_paras; set_part x s :=
    Firmware (fw_ccu s) (fw_uart s) (fw_twi s) (fw_pmu s) (fw_notifiers s) (fw_power s) (fw_isrs s)
    (fw_ticks s) (fw_timers s) (fw_message s) (fw_wakeup s) (fw_crc s) (fw_mem s) (fw_rails s) x
    (fw_clk s) (fw_standby s) (fw_dram s) (fw_fdt s) (fw_parsed s) (fw_debugger s) (fw_cpucfg s)
    (fw_watchdog s) (fw_daemon s) |}.
Proof. all: part_laws. Defined.
#[export, refine] Instance firmware_clk : Part (clk_backup) (firmware F) := {|
  part := fw_clk; set_part x s :=
    Firmware (fw_ccu s) (fw_uart s) (fw_twi s) (fw_pmu s) (fw_notifiers s) (fw_power s) (fw_isrs s)
    (fw_ticks s) (fw_timers s) (fw_message s) (fw_wakeup s) (fw_crc s) (fw_mem s) (fw_rails s)
    (fw_paras s) x (fw_standby s) (fw_dram s) (fw_fdt s) (fw_parsed s) (fw_debugger s) (fw_cpucfg s)
    (fw_watchdog s) (fw_daemon s) |}.
Proof. all: part_laws. Defined.
#[export, refine] Instance firmware_standby : Part (standby_vars) (firmware F) := {|
  part := fw_standby; set_part x s :=
    Firmware (fw_ccu s) (fw_uart s) (fw_twi s) (fw_pmu s) (fw_notifiers s) (fw_power s) (fw_isrs s)
    (fw_ticks s) (fw_timers s) (fw_message s) (fw_wakeup s) (fw_crc s) (fw_mem s) (fw_rails s)
    (fw_paras s) (fw_clk s) x (fw_dram s) (fw_fdt s) (fw_parsed s) (fw_debugger s) (fw_cpucfg s)
    (fw_watchdog s) (fw_daemon s) |}.
Proof. all: part_laws. Defined.
#[export, refine] Instance firmware_dram : Part (dram_paras) (firmware F) := {|
  part := fw_dram; set_part x s :=
    Firmware (fw_ccu s) (fw_uart s) (fw_twi s) (fw_pmu s) (fw_notifiers s) (fw_power s) (fw_isrs s)
    (fw_ticks s) (fw_timers s) (fw_message s) (fw_wakeup s) (fw_crc s) (fw_mem s) (fw_rails s)
    (fw_paras s) (fw_clk s) (fw_standby s) x (fw_fdt s) (fw_parsed s) (fw_debugger s) (fw_cpucfg s)
    (fw_watchdog s) (fw_daemon s) |}.
Proof. all: part_laws. Defined.
#[export, refine] Instance firmware_fdt : Part (fdt_vars) (firmware F) := {|
  part := fw_fdt; set_part x s :=
    Firmware (fw_ccu s) (fw_uart s) (fw_twi s) (fw_pmu s) (fw_notifiers s) (fw_power s) (fw_isrs s)
    (fw_ticks s) (fw_timers s) (fw_message s) (fw_wakeup s) (fw_crc s) (fw_mem s) (fw_rails s)
    (fw_paras s) (fw_clk s) (fw_standby s) (fw_dram s) x (fw_parsed s) (fw_debugger s) (fw_cpucfg s)
    (fw_watchdog s) (fw_daemon s) |}.
Proof. all: part_laws. Defined.
#[export, refine] Instance firmware_parsed : Part (parsed) (firmware F) := {|
  part := fw_parsed; set_part x s :=
    Firmware (fw_ccu s) (fw_uart s) (fw_twi s) (fw_pmu s) (fw_notifiers s) (fw_power s) (fw_isrs s)
    (fw_ticks s) (fw_timers s) (fw_message s) (fw_wakeup s) (fw_crc s) (fw_mem s) (fw_rails s)
    (fw_paras s) (fw_clk s) (fw_standby s) (fw_dram s) (fw_fdt s) x (fw_debugger s) (fw_cpucfg s)
    (fw_watchdog s) (fw_daemon s) |}.
Proof. all: part_laws. Defined.
#[export, refine] Instance firmware_debugger : Part (debugger) (firmware F) := {|
  part := fw_debugger; set_part x s :=
    Firmware (fw_ccu s) (fw_uart s) (fw_twi s) (fw_pmu s) (fw_notifiers s) (fw_power s) (fw_isrs s)
    (fw_ticks s) (fw_timers s) (fw_message s) (fw_wakeup s) (fw_crc s) (fw_mem s) (fw_rails s)
    (fw_paras s) (fw_clk s) (fw_standby s) (fw_dram s) (fw_fdt s) (fw_parsed s) x (fw_cpucfg s)
    (fw_watchdog s) (fw_daemon s) |}.
Proof. all: part_laws. Defined.
#[export, refine] Instance firmware_cpucfg : Part (cpucfg) (firmware F) := {|
  part := fw_cpucfg; set_part x s :=
    Firmware (fw_ccu s) (fw_uart s) (fw_twi s) (fw_pmu s) (fw_notifiers s) (fw_power s) (fw_isrs s)
    (fw_ticks s) (fw_timers s) (fw_message s) (fw_wakeup s) (fw_crc s) (fw_mem s) (fw_rails s)
    (fw_paras s) (fw_clk s) (fw_standby s) (fw_dram s) (fw_fdt s) (fw_parsed s) (fw_debugger s) x
    (fw_watchdog s) (fw_daemon s) |}.
Proof. all: part_laws. Defined.
#[export, refine] Instance firmware_watchdog : Part (watchdog) (firmware F) := {|
  part := fw_watchdog; set_part x s :=
    Firmware (fw_ccu s) (fw_uart s) (fw_twi s) (fw_pmu s) (fw_notifiers s) (fw_power s) (fw_isrs s)
    (fw_ticks s) (fw_timers s) (fw_message s) (fw_wakeup s) (fw_crc s) (fw_mem s) (fw_rails s)
    (fw_paras s) (fw_clk s) (fw_standby s) (fw_dram s) (fw_fdt s) (fw_parsed s) (fw_debugger s)
    (fw_cpucfg s) x (fw_daemon s) |}.
Proof. all: part_laws. Defined.
#[export, refine] Instance firmware_daemon : Part (daemon) (firmware F) := {|
  part := fw_daemon; set_part x s :=
    Firmware (fw_ccu s) (fw_uart s) (fw_twi s) (fw_pmu s) (fw_notifiers s) (fw_power s) (fw_isrs s)
    (fw_ticks s) (fw_timers s) (fw_message s) (fw_wakeup s) (fw_crc s) (fw_mem s) (fw_rails s)
    (fw_paras s) (fw_clk s) (fw_standby s) (fw_dram s) (fw_fdt s) (fw_parsed s) (fw_debugger s)
    (fw_cpucfg s) (fw_watchdog s) x |}.
Proof. all: part_laws. Defined.
End Parts.

(** Any two are apart. *)
#[export] Hint Extern 0 (Apart _ _ (firmware _)) => done : typeclass_instances.
