(* ===== verification/StandbyProps.v ===== *)
(** * The standby as a whole
    (src/ar100s/service/standby/standby-sun60iw2p1/plat_standby.c)

    After a resume the firmware waits for the other core to report: the
    notification that is there is answered, and nobody waits for one that is
    not.  A request without the parameters of the device tree is rejected.

    Every stage of a standby writes its number to one register of the RTC, which
    survives a reset.  No other part of a standby writes there ([quiet], a
    judgement with a rule per construct), so the register tells how far it came;
    the stages follow one another as the specification says, whatever the
    hardware does. *)

From Stdlib Require Import String.
From S2P Require Import Prelude Machine Console CMem Firmware Notifier Intc Cpucfg Prcm Uart Ticks Timer TimerProps Power Msgbox MsgboxProps.
From S2P Require Import Wakeup Crc HwConfig Twi Pmu Rails CpuOps StandbyClk StandbySys Dram Standby Watchdog Debugger Message Daemon Image.

Local Open Scope list_scope.
Local Open Scope Z_scope.
Local Open Scope mach_scope.

Section Restore.
Context {C S : Type} `{HPrint : HasPrintf C} `{HMessage : !Part message S} `{HWakeup : !Part wakeup S}
  `{!Apart message wakeup S} `{!Apart wakeup message S}.
Context (time_mdelay : Z -> M C S unit) (K : stop -> S -> history C -> Prop).
Context (stream : nat -> Z) (arrived drained : history C -> nat).
Implicit Types (e : env C) (s : S) (h : history C) (p k : nat).

(** The frames that follow one another from word [p] on. *)
Fixpoint frame_pos k p : nat :=
  match k with
  | O => p
  | Datatypes.S k => frame_pos k (p + 2 + Z.to_nat (count_at stream p))
  end.
(** The report of the other core: a message of its own type, without
    parameters. *)
Definition notifies p : Prop :=
  Z.land (Z.shiftr (stream p) 16) 0xff = SSTANDBY_RESTORE_NOTIFY /\ count_at stream p = 0.
(** The answer to the frame at [p]: the source of the wake-up. *)
Definition answer_to p (source : Z) : message :=
  let w := stream p in
  Message (Z.land w 0xff) (Z.land (Z.shiftr w 8) 0xff) (Z.land (Z.shiftr w 16) 0xff) 0 1 (Some [source]).

(** The report at [p] is taken without a delay, at [hq]; what is sent after that
    is the answer. *)
Definition answered p s h (r : Z) s' h' : Prop :=
  (exists hq, at_once h hq /\ popped hq = (p + 2)%nat /\ sent hq = sent h /\ hq `suffix_of` h') /\
  wakeup_source (part s') = NO_WAKESOURCE /\ popped h' = (p + 2)%nat /\
  let m := answer_to p (wakeup_source (part s)) in
  if is_syn m then
    r = OK /\ sent h' = sent h ++ frame m \/
    r = - ETIMEOUT /\ exists j, (j < length (frame m))%nat /\ sent h' = sent h ++ take j (frame m)
  else r = - ESRCH /\ sent h' = sent h.

(** The answer is sent. *)
Lemma answer_spec p e good s0 s h :
  delays time_mdelay K e good -> good s -> tx_fifo drained e -> (level drained h <= 8)%nat ->
  popped h = (p + 2)%nat -> wakeup_source (part s) = wakeup_source (part s0) ->
  m_state (part s) = Z.land (stream p) 0xff -> m_attr (part s) = Z.land (Z.shiftr (stream p) 8) 0xff ->
  m_type (part s) = Z.land (Z.shiftr (stream p) 16) 0xff ->
  wp (LOG "cpu0 restore finished\n" [];;
      let! w := wakeup_vars in
      set_message (fun m => Message (m_state m) (m_attr m) (m_type m) 0 1 (Some [wakeup_source w]));;
      let! r := hwmsgbox_feedback_message time_mdelay There SEND_MSG_TIMEOUT in
      clear_source;;
      ret r) e s h (answered p s0 h) K.
Proof.
  intros Hd Hg Htx Hl Hp Hw H1 H2 H3. unfold LOG, wakeup_vars, set_message, pmessage, clear_source, set_wakeup.
  apply wp_bind, wp_printf. intros q. set (h1 := Call _ q :: h).
  assert (sends drained [] h h1) as Hc by (apply (calm_sends drained [_]); by constructor).
  assert (level drained h1 <= 8)%nat as Hl1 by (assert (L := level_sends drained e _ _ _ Htx Hc); cbn [length] in L; lia).
  apply wp_bind, wp_getp, wp_bind, wp_bind, wp_getp, wp_putp. set (s1 := set_part _ s).
  assert (part s1 = answer_to p (wakeup_source (part s0))) as Em.
  { unfold s1. rewrite part_set, H1, H2, H3, Hw. done. }
  apply wp_bind. eapply wp_mono.
  { apply (feedback_spec time_mdelay K drained SEND_MSG_TIMEOUT e good s1 h1); [done|by apply (good_message _ _ _ _ Hd)|done|done| |];
      rewrite Em; [done|]. unfold capacity_ok. cbn [answer_to paras m_count length]. lia. }
  intros r s2 h2 (-> & Hf). cbv zeta in Hf. rewrite Em in Hf. apply wp_bind. unfold wakeup_vars. apply wp_bind, wp_getp, wp_putp, wp_ret.
  assert (h `suffix_of` h2) as Hx2.
  { transitivity h1; [by apply suffix_cons_r|]. change (MESSAGE_PARA_MAX <? m_count (answer_to p (wakeup_source (part s0)))) with false in Hf.
    cbn match in Hf. destruct (is_syn _); [destruct Hf as [[_ (n & -> & _)]|[_ (j & _ & n & -> & _)]]; by exists n|by destruct Hf as [_ ->]]. }
  split; [exists h; split; [apply at_once_refl|done]|].
  split; [by rewrite part_set|]. change (MESSAGE_PARA_MAX <? m_count (answer_to p (wakeup_source (part s0)))) with false in Hf. cbn match in Hf.
  cbv zeta. destruct (is_syn _).
  - destruct Hf as [[-> (n & _ & _ & Hs & Hpp)]|[-> (j & Hj & (n & _ & _ & Hs & Hpp))]]; (split; [by rewrite Hpp|]); [by left|right].
    split; [done|]. by exists j.
  - destruct Hf as [-> ->]. by split.
Qed.

Lemma answered_later p s h h1 r s' h' : at_once h h1 -> sent h1 = sent h -> answered p s h1 r s' h' -> answered p s h r s' h'.
Proof.
  intros H1 Hs ((hq & Hq & Hp & Hsq & Hx) & H). unfold answered in *. rewrite Hs in *. split; [|done].
  exists hq. split; [by eapply at_once_trans|done].
Qed.

Lemma frame_pos_le k p : (p <= frame_pos k p)%nat.
Proof. revert p. induction k as [|k IH]; intros p; cbn [frame_pos]; [done|]. assert (H := IH (p + 2 + Z.to_nat (count_at stream p))%nat). lia. Qed.

Lemma level_suffix e h h' : tx_fifo drained e -> sent h' = sent h -> h `suffix_of` h' -> (level drained h' <= level drained h)%nat.
Proof.
  intros He Hs [new ->]. unfold level. rewrite Hs. assert (drained h <= drained (new ++ h))%nat; [|lia].
  clear Hs. induction new as [|ev new IH]; cbn [app]; [lia|]. assert (H := tx_mono drained e He ev (new ++ h)). lia.
Qed.

(** Frames in front of the report are dropped. *)
Lemma report_found n k e good s0 s h :
  delays time_mdelay K e good -> good s -> rx_fifo stream arrived e -> tx_fifo drained e -> (level drained h <= 8)%nat ->
  (k < n)%nat -> let p := popped h in (frame_pos (Datatypes.S k) p <= arrived h)%nat ->
  (forall j, (j < k)%nat -> ~ notifies (frame_pos j p)) -> notifies (frame_pos k p) ->
  wakeup_source (part s) = wakeup_source (part s0) ->
  wp (restore_query time_mdelay n) e s h (answered (frame_pos k p) s0 h) K.
Proof.
  intros Hd Hg Hrx Htx. revert k s h Hg. induction n as [|n IH]; intros k s h Hg Hl Hk p Ha Hbefore Hn Hw; [lia|].
  cbn [restore_query]. assert (Hp := frame_pos_le k (p + 2 + Z.to_nat (count_at stream p))). cbn [frame_pos] in Ha.
  apply wp_bind. eapply wp_mono; [apply (query_ready time_mdelay K stream arrived _ e s h Hrx); unfold whole; subst p; lia|].
  fold p. intros r s1 h1 (-> & -> & Hp1 & Hs1 & Hx). set (s1 := set_part _ s).
  assert (good s1) as Hg1 by apply (good_message _ _ _ _ Hd), Hg. assert (Hl1 := level_suffix e _ _ Htx Hs1 (at_once_suffix _ _ Hx)).
  assert (wakeup_source (part s1) = wakeup_source (part s0)) as Hw1 by (unfold s1; by rewrite part_other).
  assert (m_type (part s1) = Z.land (Z.shiftr (stream p) 16) 0xff) as Ht by (unfold s1; by rewrite part_set).
  assert (forall s2 h2 k', k = Datatypes.S k' -> good s2 -> wakeup_source (part s2) = wakeup_source (part s0) ->
    popped h2 = popped h1 -> sent h2 = sent h1 -> at_once h h2 ->
    wp (restore_query time_mdelay n) e s2 h2 (answered (frame_pos k p) s0 h) K) as Hnext.
  { intros s2 h2 k' -> Hg2 Hw2 Hp2 Hs2 Hx2. assert (L := level_suffix e h h2 Htx ltac:(congruence) (at_once_suffix _ _ Hx2)). eapply wp_mono.
    - apply (IH k' s2 h2 Hg2); [lia|lia| | | |done]; rewrite Hp2, Hp1.
      + assert (Harr := arrived_suffix stream arrived e _ _ Hrx (at_once_suffix _ _ Hx2)). cbn [frame_pos] in Ha |- *. lia.
      + intros j Hj. apply (Hbefore (Datatypes.S j)). lia.
      + exact Hn.
    - intros r s3 h3 Hans. apply (answered_later _ _ _ h2); [done|congruence|]. by rewrite Hp2, Hp1 in Hans. }
  destruct (decide (notifies p)) as [[Htype Hcount]|Hno].
  - assert (k = 0)%nat as -> by (destruct k; [done|]; exfalso; by apply (Hbefore 0%nat); [lia|]). cbn [frame_pos].
    rewrite Hcount in *. change (0 <? 0) with false. cbn match. rewrite Z.eqb_refl. cbn [negb]. unfold pmessage at 1.
    apply wp_bind, wp_getp. rewrite Ht, Htype, Z.eqb_refl. eapply wp_mono.
    + apply (answer_spec p e good s0); try done; [lia|rewrite Hp1; lia|..]; unfold s1; by rewrite part_set.
    + intros r s3 h3. by apply answered_later.
  - destruct k as [|k']; [by destruct Hno|]. destruct (0 <? count_at stream p) eqn:Ec; cbn match.
    + change (- E2BIG =? OK) with false. cbn [negb]. by apply (Hnext s1 h1 k').
    + rewrite Z.eqb_refl. cbn [negb]. unfold pmessage at 1. apply wp_bind, wp_getp. rewrite Ht.
      assert (Hc := count_at_range stream p). apply Z.ltb_ge in Ec.
      rewrite (proj2 (Z.eqb_neq _ SSTANDBY_RESTORE_NOTIFY)) by (intros H; apply Hno; split; [done|lia]).
      unfold ERR. apply wp_bind, wp_printf. intros q. apply (Hnext s1 _ k'); try done. apply at_once_cons; [by eexists _, _|done].
Qed.


(** On a queue that stays empty nothing waits: the fifty queries follow one
    another, and the result is a time-out after a hundred and two events,
    whatever the delay does. *)
Lemma empty_queue_query n e s h : (forall h', popped h' = popped h -> u32 (env_read e h' RX_STATUS) < 2) ->
  wp (restore_query time_mdelay n) e s h (fun r s' h' => r = - ETIMEOUT /\ s' = set_part (with_source NO_WAKESOURCE (part s)) s /\
    exists new, h' = new ++ h /\ length new = (2 * n + 1)%nat) K.
Proof.
  revert h. induction n as [|n IH]; intros h He; cbn [restore_query].
  { unfold ERR, clear_source, set_wakeup, wakeup_vars. apply wp_bind, wp_printf. intros q.
    apply wp_bind, wp_bind, wp_getp, wp_putp, wp_ret. split; [done|]. split; [done|]. by eexists [_]. }
  unfold hwmsgbox_query_message at 1, invalid_message, pmessage.
  apply wp_bind, wp_bind, wp_bind, wp_getp, wp_ret. cbn [Z.eqb negb andb orb].
  change (MESSAGE_PARA_MAX <? 0) with false. cbn match. unfold MESSAGE_FRAME_HEADER_WORDS.
  change (MSGBOX_ARM_TO_RISC_MSG_STATUS_REG HWMSGBOX_RISC_ASYN_RX_CH) with RX_STATUS.
  change (MSGBOX_ARM_TO_RISC_MSG_STATUS_REG HWMSGBOX_ARM_SYN_TX_CH) with RX_STATUS.
  apply wp_bind, wp_readl. intros v _ ->. rewrite (proj2 (Z.leb_gt 2 _)) by (by apply He).
  apply wp_bind, wp_readl. intros v _ ->. rewrite (proj2 (Z.leb_gt 2 _)) by (by apply He).
  apply wp_ret. change (negb (FAIL =? OK)) with true. cbn match. eapply wp_mono; [apply IH; intros h' Hh'; by apply He|].
  intros r s2 h2 (-> & -> & new & -> & Hn). split; [done|]. split; [done|].
  eexists (new ++ [_; _]). rewrite <- app_assoc. split; [done|]. rewrite length_app, Hn. cbn [length]. lia.
Qed.

Lemma empty_queue_is_not_awaited e s h : (forall h', popped h' = popped h -> u32 (env_read e h' RX_STATUS) < 2) ->
  wp (wait_cpu0_resume time_mdelay) e s h (fun r s' h' => r = - ETIMEOUT /\
    exists new, h' = new ++ h /\ length new = 102%nat) K.
Proof.
  intros He. unfold wait_cpu0_resume, with_local, pmessage, printk.
  apply wp_bind, wp_getp, wp_bind, wp_putp, wp_bind, wp_bind, wp_printf. intros q. eapply wp_mono; [by apply empty_queue_query|].
  intros r s2 h2 (-> & _ & new & -> & Hn). apply wp_bind, wp_putp, wp_ret. split; [done|].
  eexists (new ++ [_]). rewrite <- app_assoc. split; [done|]. rewrite length_app, Hn. done.
Qed.
End Restore.

(** ** The parameters of the standby *)

Section Parameters.
Context {C S F T : Type} `{HPrint : HasPrintf C} `{HInsn : !HasInsn C} `{HCcu : !Part ccu S}
  `{HUart : !Part uart S} `{HTwi : !Part twi S} `{HPmu : !Part pmu S} `{HNotifiers : !Part (list notifier) S}
  `{HPower : !Part power S} `{HTicks : !Part ticks S} `{HMessage : !Part message S}
  `{HWakeup : !Part wakeup S} `{HCrc : !Part crc_vars S} `{HMem : !Part mem S} `{HRails : !Part rails S}
  `{HParas : !Part standby_paras S} `{HClk : !Part clk_backup S} `{HStandby : !Part standby_vars S}
  `{HDram : !Part dram_paras S} `{HVars : !Part fdt_vars S} `{HParsed : !Part parsed S} `{HFdt : FdtOps T}
  `{!Apart standby_paras fdt_vars S} `{!Apart standby_paras parsed S} `{!Apart parsed standby_paras S}.
Context (tree : Z -> T).
Implicit Types (e : env C) (s : S) (h : history C) (p : standby_paras).

(** What the tree says of the standby: [None] where a property is missing or
    is not a cell; the USB rail may be missing. *)
Definition paras_from (cell : string -> option Z) (vdd_usb : option Z) : option standby_paras :=
  let? cpu := cell "vdd-cpu"%string in
  let? cpub := cell "vdd-cpub"%string in
  let? sys := cell "vdd-sys"%string in
  let? pll := cell "vcc-pll"%string in
  let? io := cell "vcc-io"%string in
  let? efuse := cell "vcc-efuse"%string in
  let? osc := cell "osc24m-on"%string in
  let? usb := vdd_usb in
  Some (StandbyParas cpu cpub sys usb pll io efuse osc).
Definition cell_at (fdt : T) (node : Z) (name : string) : option Z := cell_of (fdt_getprop fdt node name).
Definition paras_of (fdt : T) (node : Z) : option standby_paras :=
  paras_from (cell_at fdt node) (match fdt_getprop fdt node "vdd-usb" with None => Some 0 | bs => cell_of bs end).
Definition the_node (fdt : T) : Z := fdt_path_offset fdt "/standby_param".
Definition needed s : option standby_paras :=
  let fdt := tree (dtb_base (part s)) in if the_node fdt <? 0 then None else paras_of fdt (the_node fdt).

Lemma printed_nothing h : exists out, h = out ++ h /\ prints out.
Proof. exists []. split; [done|constructor]. Qed.
Lemma printed_one text args r h : exists out, Call (printf_call text args) r :: h = out ++ h /\ prints out.
Proof. eexists [_]. split; [done|]. apply Forall_singleton. by eexists _, _, _. Qed.

Lemma set_paras_spec f p s0 e h (Q : unit -> S -> history C -> Prop) K :
  Q tt (set_part (f p) s0) h -> wp (set_paras_of f) e (set_part p s0) h Q K.
Proof. intros HQ. unfold set_paras_of. apply wp_bind, wp_getp, wp_putp. by rewrite part_set, set_set. Qed.

(** The properties that have to be there are read in order. *)
Lemma paras_loop_spec fdt node l p s0 e h :
  wp (paras_loop fdt node l) e (set_part p s0) h (fun r s' h' =>
    (exists p', s' = set_part p' s0) /\ (exists out, h' = out ++ h /\ prints out) /\
    (r = OK /\ Forall (fun nf => is_Some (cell_at fdt node nf.1)) l /\
       s' = set_part (fold_left (fun p nf => match cell_at fdt node nf.1 with Some v => nf.2 v p | None => p end) l p) s0 \/
     r = - EINVAL /\ exists nf, In nf l /\ cell_at fdt node nf.1 = None)) Machine.total.
Proof.
  revert p. induction l as [|[name set] l IH]; intros p; cbn [paras_loop fold_left fst snd].
  { apply wp_ret. split; [by exists p|]. split; [apply printed_nothing|]. left. by split; [|split; [constructor|]]. }
  fold (cell_at fdt node name). destruct (cell_at fdt node name) as [v|] eqn:E.
  - apply wp_bind, set_paras_spec. eapply wp_mono; [apply IH|]. intros r s' h' (H1 & H2 & H3). split; [done|]. split; [done|].
    destruct H3 as [(-> & H4 & H5)|(-> & nf & H4 & H5)]; [left|right].
    + split; [done|]. split; [by constructor|done].
    + split; [done|]. exists nf. by split; [right|].
  - apply wp_bind, wp_printf. intros q. apply wp_ret. split; [by exists p|]. split; [apply printed_one|].
    right. split; [done|]. exists (name, set). by split; [left|].
Qed.

(** The outcome of [standby_dts_parse]. *)
Definition parse_outcome s h (r : Z) s' h' : Prop :=
  (exists out, h' = out ++ h /\ prints out) /\
  if negb (dts_has_parsed (part s) =? 0) then r = 0 /\ s' = s
  else match needed s with
       | Some p => r = 0 /\ s' = set_part (Parsed 1) (set_part p s)
       | None => r <> 0 /\ exists p, s' = set_part p s
       end.

(** The properties one after the other, and together. *)
Definition put_paras (cell : string -> option Z) (p : standby_paras) : standby_paras :=
  fold_left (fun p nf => match cell nf.1 with Some v => nf.2 v p | None => p end) standby_names p.

Lemma put_para_step (cell : string -> option Z) name set l p v q : cell name = Some v -> set v p = q ->
  fold_left (fun p nf => match cell nf.1 with Some v => nf.2 v p | None => p end) ((name, set) :: l) p =
  fold_left (fun p nf => match cell nf.1 with Some v => nf.2 v p | None => p end) l q.
Proof. intros E <-. cbn [fold_left fst snd]. by rewrite E. Qed.

Lemma paras_complete cell usb p : Forall (fun nf => is_Some (cell nf.1)) standby_names ->
  paras_from cell usb = match usb with Some v => Some (set_vdd_usb v (put_paras cell p)) | None => None end.
Proof.
  unfold put_paras, paras_from, standby_names. intros H. destruct p.
  do 7 (apply Forall_cons in H as [[? E] H]; cbn [fst] in E; erewrite (put_para_step cell); [|exact E|reflexivity]; rewrite E; clear E;
        match goal with |- context [fold_left _ _ ?q] => let q' := eval cbv in q in change q with q' end).
  by destruct usb.
Qed.

Lemma paras_missing cell usb nf : In nf standby_names -> cell nf.1 = None -> paras_from cell usb = None.
Proof.
  intros Hin E. destruct (paras_from cell usb) as [p|] eqn:Ep; [exfalso|done]. unfold paras_from in Ep.
  assert (Forall (fun nf => is_Some (cell nf.1)) standby_names) as Hall.
  { do 7 (match type of Ep with match ?x with Some _ => _ | None => _ end = _ => destruct x eqn:?; [|done] end).
    clear Ep Hin E. repeat (apply Forall_cons; split; [eexists; eassumption|]). done. }
  rewrite List.Forall_forall in Hall. apply Hall in Hin. rewrite E in Hin. by destruct Hin.
Qed.

Lemma parse_spec e s h : wp (standby_dts_parse tree) e s h (parse_outcome s h) Machine.total.
Proof.
  unfold standby_dts_parse, parse_outcome, needed. apply wp_bind, wp_getp. destruct (negb (dts_has_parsed (part s) =? 0)).
  { apply wp_ret. split; [apply printed_nothing|done]. }
  unfold the_fdt. apply wp_bind, wp_bind, wp_getp, wp_ret. set (fdt := tree (dtb_base (part s))). fold (the_node fdt).
  destruct (the_node fdt <? 0).
  { apply wp_bind, wp_getp, wp_bind, wp_printf. intros q. apply wp_ret.
    split; [apply printed_one|]. split; [done|]. exists (part s). by rewrite set_same. }
  set (node := the_node fdt). apply wp_bind. rewrite <- (set_same (T := standby_paras) s) at 1.
  eapply wp_mono; [apply paras_loop_spec|]. intros r s1 h1 ([p1 Hs1] & (out & -> & Hout) & Hcase).
  destruct Hcase as [(-> & Hall & ->)|(-> & nf & Hin & Hnone)]; cycle 1.
  { change (negb (- EINVAL =? OK)) with true. cbn match. apply wp_ret. unfold paras_of. rewrite (paras_missing _ _ _ Hin Hnone).
    split; [by exists out|]. split; [done|]. by exists p1. }
  rewrite Z.eqb_refl. cbn [negb]. unfold paras_of. rewrite (paras_complete _ _ (part s) Hall).
  fold (put_paras (cell_at fdt node) (part s)). set (p := put_paras _ _). apply wp_bind, set_paras_spec. cbv zeta.
  assert (forall p2, wp (let! p := getp in
      LOG "standby power %x, %x, %x, %x, %x\n"
        [N_ (standby_vdd_cpu p); N_ (standby_vdd_sys p); N_ (standby_vcc_pll p); N_ (standby_vcc_io p); N_ (standby_osc24m_on p)];;
      putp (Parsed 1);; ret 0) e (set_part p2 s) (out ++ h)
      (fun r s' h' => (exists out, h' = out ++ h /\ prints out) /\ r = 0 /\ s' = set_part (Parsed 1) (set_part p2 s)) Machine.total) as Hdone.
  { intros p2. apply wp_bind, wp_getp, wp_bind, wp_printf. intros q. apply wp_bind, wp_putp, wp_ret. split; [|done].
    eexists (_ :: out). split; [done|]. constructor; [by eexists _, _, _|done]. }
  destruct (fdt_getprop fdt node "vdd-usb") as [bs|]; [|apply Hdone].
  destruct (cell_of (Some bs)) as [v|]; [apply wp_bind, set_paras_spec, Hdone|]. apply wp_ret.
  split; [by exists out|]. split; [done|]. by exists (set_vdd_usb 0 p).
Qed.

Context (fuel : nat) (call_pcb : Z -> Z -> Z -> M C S Z) (time_mdelay time_udelay : Z -> M C S unit)
  (dram_power_save_process dram_power_up_process : list Z -> M C S unit) (beyond garbage : Z) (wakeup_timer : nat)
  (cpu_enter_doze : M C S unit).

(** C27: A standby is not entered without its parameters: [standby_dts_parse]
    reads them once, all of them, as the tree gives them, or reports that one is
    missing or no cell; and a request that finds neither them nor the DRAM
    parameters is rejected, with nothing but the record of it written to a
    register and no static touched but, at most, the parameters themselves. *)
Theorem incomplete_request_rejected e s h :
  wp (standby_dts_parse tree) e s h (parse_outcome s h) Machine.total /\
  (platform_dram_para (part s) = Null \/ dts_has_parsed (part s) = 0 /\ needed s = None ->
   wp (standby_entry fuel call_pcb time_mdelay time_udelay dram_power_save_process dram_power_up_process beyond
         wakeup_timer tree cpu_enter_doze) e s h (fun r s' h' =>
     r = - EACCES /\ (exists p : standby_paras, s' = set_part p s) /\
     exists out, h' = out ++ Wr RTC_RECORD_REG (Z.lor REC_ESTANDBY REC_ENTER) :: h /\ prints out) Machine.total).
Proof.
  split; [apply parse_spec|]. intros Hcase. unfold standby_entry, save_state_flag at 1. apply wp_bind, wp_writel. set (h1 := Wr _ _ :: h).
  assert (forall s1 h2, (exists p : standby_paras, s1 = set_part p s) -> (exists out, h2 = out ++ h1 /\ prints out) ->
    wp (ERR "reject standby without complete DTB parameters\n" [];; ret (- EACCES)) e s1 h2 (fun r s' h' =>
      r = - EACCES /\ (exists p : standby_paras, s' = set_part p s) /\ exists out, h' = out ++ h1 /\ prints out) Machine.total) as Hreject.
  { intros s1 h2 H1 (out & -> & Hout). apply wp_bind, wp_printf. intros q. apply wp_ret. split; [done|]. split; [done|].
    eexists (_ :: out). split; [done|]. constructor; [by eexists _, _, _|done]. }
  apply wp_bind, wp_getp, wp_bind. destruct (platform_dram_para (part s)).
  { apply wp_ret. apply Hreject; [exists (part s); by rewrite set_same|apply printed_nothing]. }
  destruct Hcase as [Hnull|[Hparsed Hneeded]]; [done|]. apply wp_bind. eapply wp_mono; [apply parse_spec|].
  intros r s1 h2 [Hout Hr]. rewrite Hparsed in Hr. cbn [Z.eqb negb] in Hr. rewrite Hneeded in Hr. destruct Hr as [Hr Hp].
  apply wp_ret. rewrite (proj2 (Z.eqb_neq r OK)) by done. by apply Hreject.
Qed.
End Parameters.

(** ** A concrete queue *)

(** The whole firmware, asked by [message]. *)
Definition firmware_asked (m : message) : firmware nat :=
  Firmware ccu_initial uart_initial (TwiVars 0) (PmuVars 0 0) (replicate 8 (Notifier 0 0 None)) power_initial
    [] (TickVars 0 [] 0 []) timers_initial m (WakeupVars 32 0 0) crc_initial ∅
    rails_initial paras_initial clk_initial standby_initial (DramParas []) (FdtVars 0x48100000 There) (Parsed 0) debugger_initial
    (Cpucfg 0) (Watchdog None) daemon_initial.

(** A frame of another type with a parameter, then the report, which asks for
    an answer. *)
Definition queued : list Z := [0x200000; 1; 5; 0x110200; 0].
Definition queued_env : env fw_call := Env
  (fun h a => if a =? RX_STATUS then Z.of_nat (5 - popped h) else if a =? RX_DATA then nth (popped h) queued 0 else 0)
  (fun _ _ => 0) (fun _ _ => []).


(** A tree in which everything is there but the oscillator's property. *)
Lemma incomplete_request_rejected_witness :
  let names := ["vdd-cpu"; "vdd-cpub"; "vdd-sys"; "vcc-pll"; "vcc-io"; "vcc-efuse"; "vdd-usb"]%string in
  let s := firmware_asked (Message 0 2 0x10 0 5 (Some [0; 0x40000000; 0; 0; arisc_power_off])) in
  wp (standby_entry 0 (fun _ _ _ => ret 0) (fun _ => ret tt) (fun _ => ret tt) (fun _ => ret tt) (fun _ => ret tt) 0 0%nat
        (fun _ => map (fun n => (n, [0; 0; 0; 7])) names) (ret tt)) queued_env s []
    (fun r s' h' => r = - EACCES /\ fw_ccu s' = fw_ccu s) Machine.total.
Proof.
  intros names s. eapply wp_mono.
  - apply (proj2 (incomplete_request_rejected (fun _ => map (fun n => (n, [0; 0; 0; 7])) names) 0 (fun _ _ _ => ret 0)
      (fun _ => ret tt) (fun _ => ret tt) (fun _ => ret tt) (fun _ => ret tt) 0 0%nat (ret tt) queued_env s [])).
    right. split; [done|]. vm_compute. reflexivity.
  - intros r s' h' (Hr & (p & ->) & _). by split.
Defined.

(** ** The record a standby leaves: the register *)

Section Record.
Context {C : Type}.
Implicit Types (h : history C).

(** The values written to it, oldest first. *)
Fixpoint recorded h : list Z :=
  match h with
  | [] => []
  | Wr a v :: h => if a =? RTC_RECORD_REG then recorded h ++ [v] else recorded h
  | _ :: h => recorded h
  end.

Definition elsewhere (a v : Z) : Prop := a <> RTC_RECORD_REG.

Lemma recorded_elsewhere h h' : extends elsewhere h h' -> recorded h' = recorded h.
Proof.
  intros (new & -> & Hnew). induction new as [|ev new IH]; [done|]. cbn [app recorded].
  assert (recorded (new ++ h) = recorded h) as E.
  { apply IH. intros a v [Hin|Hin]; apply (Hnew a v); [left|right]; by right. }
  destruct ev as [|a v| | | |]; try done. rewrite (proj2 (Z.eqb_neq a RTC_RECORD_REG)); [done|].
  apply (Hnew a v). left. by left.
Qed.
End Record.

(** ** Programs that leave it alone *)

Section Quiet.
Context {C F : Type}.
Local Abbreviation S := (firmware F).
Local Abbreviation M := (M C S).
Implicit Types (e : env C) (s : S) (h : history C).

(** The saved addresses, which the code writes through. *)
Record clk_ok (b : clk_backup) : Prop := {
  plls_elsewhere : Forall (fun p => pll_addr p <> RTC_RECORD_REG) (pll_restore b);
  buses_elsewhere : Forall (fun p => busAddr p <> RTC_RECORD_REG) (bus_restore b);
  ctls_elsewhere : Forall (fun a => a <> RTC_RECORD_REG) (bus_ctl_addr b)
}.

(** The range of the checksum, and the checksums of before and after. *)
Definition sums s : crc_vars * Z * Z := (fw_crc s, before_crc (fw_wakeup s), after_crc (fw_wakeup s)).

(** However the run ends, the record, the lock, the addresses and the checksums
    stand. *)
Definition undisturbed s h s' h' : Prop :=
  clk_ok (fw_clk s') /\ suspend_lock (fw_standby s') = suspend_lock (fw_standby s) /\ sums s' = sums s /\ extends elsewhere h h'.
Definition quiet {A} (m : M A) : Prop := forall e s h, clk_ok (fw_clk s) ->
  wp m e s h (fun _ => undisturbed s h) (fun _ => undisturbed s h).

Lemma undisturbed_refl s h : clk_ok (fw_clk s) -> undisturbed s h s h.
Proof. intros H. split; [done|]. split; [done|]. split; [done|apply extends_refl]. Qed.

Lemma undisturbed_trans s h s1 h1 s2 h2 : undisturbed s h s1 h1 -> undisturbed s1 h1 s2 h2 -> undisturbed s h s2 h2.
Proof.
  intros (_ & L1 & C1 & E1) (H2 & L2 & C2 & E2). split; [done|]. split; [congruence|]. split; [congruence|by eapply extends_trans].
Qed.

Lemma unrecorded_ret {A} (a : A) : quiet (ret a).
Proof. intros e s h H. by apply wp_ret, undisturbed_refl. Qed.
Lemma unrecorded_stop {A} w : quiet (A := A) (stop_now w).
Proof. intros e s h H. by apply wp_stop, undisturbed_refl. Qed.

Lemma unrecorded_bind {A B} (m : M A) (f : A -> M B) : quiet m -> (forall a, quiet (f a)) -> quiet (bind m f).
Proof.
  intros Hm Hf e s h H. apply wp_bind. eapply wp_conseq; [by apply Hm| |done].
  intros a s1 h1 H1. eapply wp_conseq; [apply Hf, H1| |].
  - intros b s2 h2. by apply undisturbed_trans.
  - intros w s2 h2. by apply undisturbed_trans.
Qed.

Lemma unrecorded_event {A} (m : M A) :
  (forall e s h, exists a ev, m e s h = Done a s (ev :: h) /\ forall a v, ev = Wr a v \/ ev = Wrb a v -> elsewhere a v) ->
  quiet m.
Proof.
  intros Hm e s h H. unfold wp. destruct (Hm e s h) as (a & ev & -> & Hev). split; [done|]. split; [done|]. split; [done|].
  apply extends_cons; [done|apply extends_refl].
Qed.
Local Ltac one := apply unrecorded_event; intros e s h; do 2 eexists; (split; [reflexivity|]); intros a0 v0 [E|E]; inversion E; subst; done.
Lemma unrecorded_readl a : quiet (readl a). Proof. one. Qed.
Lemma unrecorded_readb a : quiet (readb a). Proof. one. Qed.
Lemma unrecorded_writel a v : a <> RTC_RECORD_REG -> quiet (writel v a). Proof. intros H. one. Qed.
Lemma unrecorded_udelay us : quiet (udelay us). Proof. one. Qed.
Lemma unrecorded_mdelay ms : quiet (mdelay ms). Proof. one. Qed.
Lemma unrecorded_call c : quiet (call c). Proof. one. Qed.
Lemma unrecorded_call_out c : quiet (call_out c). Proof. one. Qed.

(** Statics: those of other components at will. *)
Class Aside T `{!Part T S} := aside : forall (t : T) s, 
  fw_clk (set_part t s) = fw_clk s /\ fw_standby (set_part t s) = fw_standby s /\ sums (set_part t s) = sums s.

Lemma unrecorded_getp {T} `{!Part T S} : quiet (getp (T := T)).
Proof. intros e s h H. by apply wp_getp, undisturbed_refl. Qed.
Lemma unrecorded_putp {T} `{!Part T S, !Aside T} (t : T) : quiet (putp t).
Proof.
  intros e s h H. apply wp_putp. destruct (aside t s) as (E1 & E2 & E3). split; [by rewrite E1|]. split; [by rewrite E2|]. split; [exact E3|apply extends_refl].
Qed.
Lemma unrecorded_on_part {T A} `{!Part T S, !Aside T} (p : Machine.M C T A) :
  (forall e t h, wp p e t h (fun _ _ h' => extends elsewhere h h') (fun _ _ h' => extends elsewhere h h')) -> quiet (on_part p).
Proof.
  intros Hp e s h H. apply wp_on_part. eapply wp_conseq; [apply Hp| |].
  all: intros x t h' Hh; destruct (aside t s) as (E1 & E2 & E3); (split; [by rewrite E1|]); (split; [by rewrite E2|]); (split; [exact E3|done]).
Qed.

(** Their own with the addresses and the lock in place. *)
Lemma unrecorded_clk {A} (k : clk_backup -> M A) : (forall b, clk_ok b -> quiet (k b)) -> quiet (bind clk_vars k).
Proof. intros Hk e s h H. unfold clk_vars. apply wp_bind, wp_getp. by apply Hk. Qed.
Lemma unrecorded_set_clk f : (forall b, clk_ok b -> clk_ok (f b)) -> quiet (set_clk f).
Proof.
  intros Hf e s h H. unfold set_clk, clk_vars. apply wp_bind, wp_getp, wp_putp. split; [by apply Hf|]. split; [done|]. split; [done|apply extends_refl].
Qed.
Lemma unrecorded_set_wakeup f : (forall w, before_crc (f w) = before_crc w /\ after_crc (f w) = after_crc w) -> quiet (set_wakeup f).
Proof.
  intros Hf e s h H. unfold set_wakeup, wakeup_vars. apply wp_bind, wp_getp, wp_putp. destruct (Hf (fw_wakeup s)) as [E1 E2].
  split; [done|]. split; [done|]. split; [unfold sums; cbn; by rewrite E1, E2|apply extends_refl].
Qed.
Lemma unrecorded_set_sys f : (forall x, suspend_lock (f x) = suspend_lock x) -> quiet (set_sys f).
Proof.
  intros Hf e s h H. unfold set_sys, sys_vars. apply wp_bind, wp_getp, wp_putp. split; [done|]. split; [apply Hf|]. split; [done|apply extends_refl].
Qed.
Lemma unrecorded_elem {T A} (l : list T) i (k : T -> M A) : (forall x, l !! i = Some x -> quiet (k x)) -> quiet (bind (elem l i) k).
Proof.
  intros Hk. unfold elem. destruct (l !! i) as [x|] eqn:E.
  - intros e s h H. apply wp_bind, wp_ret. by apply Hk.
  - intros e s h H. by apply wp_bind, wp_stop, undisturbed_refl.
Qed.
End Quiet.
#[global] Hint Extern 0 (Aside _) => (intros ? ?; split; [|split]; reflexivity) : typeclass_instances.

Create HintDb quiet discriminated.
#[export] Hint Resolve unrecorded_ret unrecorded_stop unrecorded_readl unrecorded_readb unrecorded_udelay unrecorded_mdelay unrecorded_call unrecorded_call_out
  unrecorded_getp unrecorded_putp : quiet.

(** An address that is a constant. *)
Ltac constant_elsewhere :=
  lazymatch goal with
  | |- ?a <> _ =>
      tryif match a with context [?x] => is_var x end then fail
      else (let E := fresh in intros E; vm_compute in E; discriminate E)
  end.

(** The saved PLLs and buses. *)
Lemma unrecorded_pll_at {C F A} i (k : rPLL_PAMA -> M C (firmware F) A) :
  (forall p, pll_addr p <> RTC_RECORD_REG -> quiet (k p)) -> quiet (bind (pll_at i) k).
Proof.
  intros Hk e s h H. unfold pll_at, clk_vars, elem. apply wp_bind, wp_bind, wp_getp. cbn [part firmware_clk].
  destruct (pll_restore (fw_clk s) !! i) as [p|] eqn:E; [|by apply wp_stop, undisturbed_refl].
  apply wp_ret, Hk; [|done]. by eapply Forall_lookup_1 in E; [|apply H].
Qed.
Lemma unrecorded_bus_at {C F A} i (k : rBUS_PAMA -> M C (firmware F) A) :
  (forall p, busAddr p <> RTC_RECORD_REG -> quiet (k p)) -> quiet (bind (bus_at i) k).
Proof.
  intros Hk e s h H. unfold bus_at, clk_vars, elem. apply wp_bind, wp_bind, wp_getp. cbn [part firmware_clk].
  destruct (bus_restore (fw_clk s) !! i) as [p|] eqn:E; [|by apply wp_stop, undisturbed_refl].
  apply wp_ret, Hk; [|done]. by eapply Forall_lookup_1 in E; [|apply H].
Qed.

Lemma ok_plls i v b : clk_ok b -> clk_ok (with_plls (alter (fun p => PllPama (pll_addr p) v) i (pll_restore b)) b).
Proof. intros [H1 H2 H3]. split; [|done..]. cbn. apply Forall_alter; [done|]. by intros p _ Hp. Qed.
Lemma ok_buses i f b : (forall p, busAddr (f p) = busAddr p) -> clk_ok b -> clk_ok (with_buses (alter f i (bus_restore b)) b).
Proof. intros Hf [H1 H2 H3]. split; [done| |done]. cbn. apply Forall_alter; [done|]. intros p _ Hp. by rewrite Hf. Qed.
Lemma ok_ctl l b : clk_ok b -> clk_ok (with_ctl_value l b).
Proof. by intros []. Qed.
Lemma ok_cpu_plls l b : clk_ok b -> clk_ok (with_cpu_plls l b).
Proof. by intros []. Qed.
Lemma ok_cpu_clks l b : clk_ok b -> clk_ok (with_cpu_clks l b).
Proof. by intros []. Qed.
Lemma ok_parsed v b : clk_ok b -> clk_ok (with_parsed v b).
Proof. by intros []. Qed.
#[export] Hint Resolve ok_parsed ok_plls ok_buses ok_ctl ok_cpu_plls ok_cpu_clks : quiet.

(** Addresses put into the tables. *)
Lemma unrecorded_set_pll_addr {C F} i a : a <> RTC_RECORD_REG -> quiet (C := C) (F := F) (set_pll_addr i a).
Proof.
  intros Ha. apply unrecorded_set_clk. intros b [H1 H2 H3]. split; [|done..]. cbn. by apply Forall_alter.
Qed.
Lemma unrecorded_set_bus_addr {C F} i a : a <> RTC_RECORD_REG -> quiet (C := C) (F := F) (set_bus_addr i a).
Proof.
  intros Ha. apply unrecorded_set_clk. intros b [H1 H2 H3]. split; [done| |done]. cbn. by apply Forall_alter.
Qed.
Lemma unrecorded_set_ctl_addr {C F} i a : a <> RTC_RECORD_REG -> quiet (C := C) (F := F) (set_ctl_addr i a).
Proof.
  intros Ha. apply unrecorded_set_clk. intros b [H1 H2 H3]. split; [done|done|]. cbn. by apply Forall_insert.
Qed.
#[export] Hint Extern 1 (quiet (set_pll_addr _ _)) => (apply unrecorded_set_pll_addr; constant_elsewhere) : quiet.
#[export] Hint Extern 1 (quiet (set_bus_addr _ _)) => (apply unrecorded_set_bus_addr; constant_elsewhere) : quiet.
#[export] Hint Extern 1 (quiet (set_ctl_addr _ _)) => (apply unrecorded_set_ctl_addr; constant_elsewhere) : quiet.

Lemma ctl_elsewhere b i a : clk_ok b -> bus_ctl_addr b !! i = Some a -> a <> RTC_RECORD_REG.
Proof. intros [_ _ H] Hi. by eapply Forall_lookup_1 in H. Qed.
Lemma cpu_pll_elsewhere i : CPU_PLL_REG (Z.of_nat i) <> RTC_RECORD_REG.
Proof. unfold CPU_PLL_REG, CPU_PLL_REG_BASE, RTC_RECORD_REG, RTC_REG_BASE. lia. Qed.
Lemma domain_elsewhere i : PCK600_REG_BASE + 4096 * Z.of_nat i <> RTC_RECORD_REG.
Proof. unfold PCK600_REG_BASE, RTC_RECORD_REG, RTC_REG_BASE. lia. Qed.
#[export] Hint Resolve ctl_elsewhere cpu_pll_elsewhere domain_elsewhere : quiet.

(** One step into a program; a definition without a lemma is opened. *)
Ltac unrecorded_step :=
  lazymatch goal with
  | |- forall _, _ => intros ?
  | |- quiet (bind clk_vars _) => apply unrecorded_clk; intros ? ?
  | |- quiet (bind (elem _ _) _) => apply unrecorded_elem; intros ? ?
  | |- quiet (bind (pll_at _) _) => apply unrecorded_pll_at; intros ? ?
  | |- quiet (bind (bus_at _) _) => apply unrecorded_bus_at; intros ? ?
  | |- quiet (bind _ _) => apply unrecorded_bind; [|intros ?]
  | |- quiet (writel _ _) => apply unrecorded_writel; try first [assumption | constant_elsewhere | solve [eauto with quiet]]
  | |- quiet (set_clk _) => apply unrecorded_set_clk; try solve [auto with quiet]
  | |- quiet (set_sys _) => apply unrecorded_set_sys; try (intros []; reflexivity)
  | |- quiet (set_wakeup _) => apply unrecorded_set_wakeup; intros []; by split
  | |- quiet (match ?x with _ => _ end) => destruct x
  | |- quiet (let _ := _ in _) => cbv zeta
  | |- quiet ?m =>
      first [ solve [auto with quiet nocore typeclass_instances]
            | let rec head t := lazymatch t with ?f _ => head f | ?f => f end in
              let f := head m in progress unfold f; cbv beta ]
  end.
Ltac unrecorded_steps := repeat unrecorded_step.

(** ** The stages *)

Section Stages.
Context {C F : Type} `{HPrint : HasPrintf C} `{HInsn : !HasInsn C}.
Local Abbreviation S := (firmware F).
Local Abbreviation M := (M C S).

Lemma unrecorded_poll n reg busy : quiet (F := F) (poll (C := C) n reg busy).
Proof. induction n as [|n IH]; cbn [poll]; unrecorded_steps. Qed.
Hint Resolve unrecorded_poll : quiet.
Lemma unrecorded_spin n reg busy : quiet (F := F) (spin (C := C) n reg busy).
Proof. induction n as [|n IH]; cbn [spin]; unrecorded_steps. Qed.
Lemma unrecorded_while_state n (state : M Z) want : quiet state -> quiet (while_state n state want).
Proof. intros Hs. induction n as [|n IH]; cbn [while_state]; unrecorded_steps. Qed.
Lemma unrecorded_ticks_loop (f : nat -> M unit) n i : (forall i, quiet (f i)) -> quiet (ticks_loop f n i).
Proof. intros Hf. revert i. induction n as [|n IH]; intros i; cbn [ticks_loop]; unrecorded_steps. Qed.
Lemma unrecorded_until_failure (f : nat -> M Z) n i : (forall i, quiet (f i)) -> quiet (until_failure f n i).
Proof. intros Hf. revert i. induction n as [|n IH]; intros i; cbn [until_failure]; unrecorded_steps. Qed.
Lemma unrecorded_smc_save_loop n i : quiet (F := F) (C := C) (smc_save_loop n i).
Proof. revert i. induction n as [|n IH]; intros i; cbn [smc_save_loop]; unrecorded_steps. Qed.
Lemma unrecorded_smc_restore_loop n i : quiet (F := F) (C := C) (smc_restore_loop n i).
Proof. revert i. induction n as [|n IH]; intros i; cbn [smc_restore_loop]; unrecorded_steps.
  all: unfold SMC_REGION_SETUP_LOW_REG, SMC_REGION_SETUP_HIGH_REG, SMC_REGION_ATTRIBUTE_REG, SUNXI_SMC1_PBASE, SUNXI_SMC_PBASE,
    RTC_RECORD_REG, RTC_REG_BASE; lia.
Qed.
Lemma unrecorded_pll_loop sta n i : quiet (F := F) (C := C) (pll_loop sta n i).
Proof. revert i. induction n as [|n IH]; intros i; cbn [pll_loop]; unrecorded_steps. Qed.
Lemma unrecorded_pll_outputs n i : quiet (F := F) (C := C) (pll_outputs n i).
Proof. revert i. induction n as [|n IH]; intros i; cbn [pll_outputs]; unrecorded_steps. Qed.
Lemma unrecorded_load32 p : quiet (F := F) (C := C) (on_part (load32 p)).
Proof.
  apply unrecorded_on_part. intros e m h. unfold load32, aligned, load8, wp, bind, ret, stop_now.
  destruct (_ =? 0); [|apply extends_refl]. repeat (destruct (m !! _); [|apply extends_refl]). apply extends_refl.
Qed.
Hint Resolve unrecorded_load32 : quiet.
Lemma unrecorded_crc_loop n p q c : quiet (F := F) (C := C) (crc_loop n p q c).
Proof. revert p c. induction n as [|n IH]; intros p c; cbn [crc_loop]; unrecorded_steps. Qed.
Lemma unrecorded_losc_loop n : quiet (F := F) (C := C) (losc_loop n).
Proof. induction n as [|n IH]; cbn [losc_loop]; unrecorded_steps. Qed.
Lemma unrecorded_counter_loop n : quiet (F := F) (C := C) (counter_loop n).
Proof. induction n as [|n IH]; cbn [counter_loop]; unrecorded_steps. Qed.
Lemma unrecorded_copy_failed l i : quiet (F := F) (C := C) (copy_failed l i).
Proof. revert i. induction l as [|t l IH]; intros i; cbn [copy_failed]; unrecorded_steps. Qed.
Lemma unrecorded_iter n (m : M unit) : quiet m -> quiet (Nat.iter n (fun k => m;; k) (ret tt)).
Proof. intros Hm. induction n as [|n IH]; cbn [Nat.iter nat_rect]; unrecorded_steps. Qed.
Hint Resolve unrecorded_spin unrecorded_smc_save_loop unrecorded_smc_restore_loop unrecorded_pll_loop unrecorded_pll_outputs unrecorded_crc_loop
  unrecorded_losc_loop unrecorded_counter_loop unrecorded_copy_failed : quiet.

(** Loops over programs, whose rounds are looked at first. *)
Local Ltac unrecorded_all := repeat
  lazymatch goal with
  | |- quiet (while_state _ _ _) => apply unrecorded_while_state
  | |- quiet (ticks_loop _ _ _) => apply unrecorded_ticks_loop
  | |- quiet (until_failure _ _ _) => apply unrecorded_until_failure
  | |- quiet (Nat.iter _ _ _) => apply unrecorded_iter
  | _ => unrecorded_step
  end.

Context (call_pcb : Z -> Z -> Z -> M Z) (time_mdelay time_udelay : Z -> M unit)
  (dram_power_save_process dram_power_up_process : list Z -> M unit).
Context (pcb_quiet : forall a b c, quiet (call_pcb a b c)) (mdelay_quiet : forall n, quiet (time_mdelay n))
  (udelay_quiet : forall n, quiet (time_udelay n)) (save_quiet : forall l, quiet (dram_power_save_process l))
  (up_quiet : forall l, quiet (dram_power_up_process l)).
Hint Resolve pcb_quiet mdelay_quiet udelay_quiet save_quiet up_quiet : quiet.

Lemma unrecorded_notify_loop n p c a : quiet (F := F) (notify_loop call_pcb n p c a).
Proof. revert p. induction n as [|n IH]; intros p; cbn [notify_loop]; unrecorded_all. Qed.
Hint Resolve unrecorded_notify_loop : quiet.

Lemma unrecorded_suspend_para_prepare : quiet (F := F) (C := C) suspend_para_prepare.
Proof. unrecorded_all. Qed.
Lemma unrecorded_cpucfg_cpu_suspend fuel : quiet (F := F) (C := C) (cpucfg_cpu_suspend fuel).
Proof. unrecorded_all. Qed.
Lemma unrecorded_device_suspend fuel : quiet (F := F) (C := C) (device_suspend fuel).
Proof. unrecorded_all. Qed.
Lemma unrecorded_cpu_pll_off : quiet (F := F) (C := C) cpu_pll_off.
Proof. unrecorded_all. Qed.
Lemma unrecorded_clk_suspend : quiet (F := F) (C := C) (clk_suspend call_pcb time_mdelay time_udelay).
Proof. unrecorded_all. Qed.
Lemma unrecorded_direct_access_suspend : quiet (F := F) (C := C) cpu_direct_access_suspend.
Proof. unrecorded_all. Qed.
Lemma unrecorded_clk_suspend_late : quiet (F := F) (C := C) clk_suspend_late.
Proof. unrecorded_all. Qed.
Lemma unrecorded_rtc_vccio_det_resume : quiet (F := F) (C := C) rtc_vccio_det_resume.
Proof. unrecorded_all. Qed.
Lemma unrecorded_direct_access_resume : quiet (F := F) (C := C) cpu_direct_access_resume.
Proof. unrecorded_all. Qed.
Lemma unrecorded_nsi_resume : quiet (F := F) (C := C) nsi_resume.
Proof. unrecorded_all. Qed.
Lemma unrecorded_load_para i : quiet (F := F) (C := C) (load_para i).
Proof. unrecorded_all. Qed.
Lemma unrecorded_printf fmt args : quiet (F := F) (C := C) (printf fmt args).
Proof. unrecorded_all. Qed.
Lemma unrecorded_report (b : bool) fmt args : quiet (F := F) (C := C) (if b then ERR fmt args else ret tt).
Proof. unrecorded_all. Qed.
Lemma unrecorded_crc_enable : quiet (F := F) (C := C) standby_dram_crc_enable.
Proof. unrecorded_all. Qed.
Lemma unrecorded_standby_dram_crc fuel : quiet (F := F) (C := C) (standby_dram_crc fuel).
Proof. unrecorded_all. Qed.
Lemma unrecorded_clear_source : quiet (F := F) (C := C) clear_source.
Proof. unrecorded_all. Qed.
Lemma unrecorded_set_type t : quiet (F := F) (C := C) (set_sys (with_standby_type t)).
Proof. unrecorded_all. Qed.
Lemma unrecorded_set_result r : quiet (F := F) (C := C) (set_sys (with_result r)).
Proof. unrecorded_all. Qed.
Lemma unrecorded_system_suspend : quiet (F := F) (C := C) system_suspend.
Proof. unrecorded_all. Qed.
Lemma unrecorded_rtc_vccio_det_suspend : quiet (F := F) (C := C) rtc_vccio_det_suspend.
Proof. unrecorded_all. Qed.
Lemma unrecorded_pmu_set_voltage_state fuel beyond t v : quiet (F := F) (C := C) (pmu_set_voltage_state fuel time_mdelay beyond t v).
Proof. unrecorded_all. Qed.
Hint Resolve unrecorded_pmu_set_voltage_state : quiet.
Lemma unrecorded_restore_loop fuel beyond n l r : quiet (F := F) (C := C) (restore_loop (set_rail_state fuel time_mdelay beyond) n l r).
Proof. revert l r. induction n as [|n IH]; intros l r; cbn [restore_loop]; unrecorded_all. Qed.
Hint Resolve unrecorded_restore_loop : quiet.
Lemma unrecorded_power_off_loop fuel beyond n t m : quiet (F := F) (C := C) (power_off_loop (set_rail_state fuel time_mdelay beyond) n t m).
Proof. revert t. induction n as [|n IH]; intros t; cbn [power_off_loop]; unrecorded_all. Qed.
Hint Resolve unrecorded_power_off_loop : quiet.
Lemma unrecorded_power_off_masks fuel beyond l : quiet (F := F) (C := C) (power_off_masks (set_rail_state fuel time_mdelay beyond) l).
Proof. induction l as [|m l IH]; cbn [power_off_masks]; unrecorded_all. Qed.
Hint Resolve unrecorded_power_off_masks : quiet.
Lemma unrecorded_dm_suspend fuel beyond : quiet (F := F) (C := C) (dm_suspend (set_rail_state fuel time_mdelay beyond)).
Proof. unrecorded_all. Qed.
Lemma unrecorded_dm_resume fuel beyond : quiet (F := F) (C := C) (dm_resume (set_rail_state fuel time_mdelay beyond)).
Proof. unrecorded_all. Qed.
Lemma unrecorded_clk_resume_early fuel : quiet (F := F) (C := C) (clk_resume_early fuel call_pcb time_mdelay).
Proof. unrecorded_all. Qed.
Lemma unrecorded_system_resume : quiet (F := F) (C := C) (system_resume time_mdelay).
Proof. unrecorded_all. Qed.
Lemma unrecorded_ppu_resume : quiet (F := F) (C := C) ppu_resume.
Proof. unrecorded_all. Qed.
Lemma unrecorded_clk_resume : quiet (F := F) (C := C) (clk_resume time_mdelay time_udelay).
Proof. unrecorded_all. Qed.
Lemma unrecorded_cpu_pll_on : quiet (F := F) (C := C) (cpu_pll_on time_mdelay).
Proof. unrecorded_all. Qed.
Lemma unrecorded_device_resume : quiet (F := F) (C := C) device_resume.
Proof. unrecorded_all. Qed.
Lemma unrecorded_cpucfg_cpu_resume fuel a : quiet (F := F) (C := C) (cpucfg_cpu_resume fuel a).
Proof. unrecorded_all. Qed.
Lemma unrecorded_wait_loop n reg busy : quiet (F := F) (C := C) (wait_loop time_mdelay n reg busy).
Proof. induction n as [|n IH]; cbn [wait_loop]; unrecorded_all. Qed.
Hint Resolve unrecorded_wait_loop : quiet.
Lemma unrecorded_drain_loop n q : quiet (F := F) (C := C) (drain_loop n q).
Proof. induction n as [|n IH]; cbn [drain_loop]; unrecorded_all. Qed.
Hint Resolve unrecorded_drain_loop : quiet.
Lemma unrecorded_send_paras n i ch t (k : M Z) : MSGBOX_RISC_TO_ARM_MSG_REG ch <> RTC_RECORD_REG -> quiet k -> quiet (send_paras time_mdelay n i ch t k).
Proof. intros Hc Hk. revert i. induction n as [|n IH]; intros i; cbn [send_paras]; unrecorded_all. Qed.
Lemma unrecorded_receive_paras n i q c t (fail : Z -> M Z) (k : M Z) :
  (forall r, quiet (fail r)) -> quiet k -> quiet (receive_paras time_mdelay n i q c t fail k).
Proof. intros Hf Hk. revert i. induction n as [|n IH]; intros i; cbn [receive_paras]; unrecorded_all. Qed.
Local Ltac unrecorded_frames := repeat
  lazymatch goal with
  | |- quiet (send_paras _ _ _ _ _ _) => apply unrecorded_send_paras; [constant_elsewhere|]
  | |- quiet (receive_paras _ _ _ _ _ _ _ _) => apply unrecorded_receive_paras
  | _ => unrecorded_step
  end.
Lemma unrecorded_restore_query n : quiet (F := F) (C := C) (restore_query time_mdelay n).
Proof. induction n as [|n IH]; cbn [restore_query]; unrecorded_frames. Qed.
Lemma unrecorded_platform_standby_type : quiet (F := F) (C := C) (platform_standby_type).
Proof. unrecorded_all. Qed.
Lemma unrecorded_iosc_freq_init fuel : quiet (F := F) (C := C) (iosc_freq_init fuel).
Proof. unrecorded_all. Qed.
Lemma unrecorded_doze_loop (doze : M unit) n : quiet doze -> quiet (doze_loop doze n).
Proof. intros Hd. induction n as [|n IH]; cbn [doze_loop]; unrecorded_all. Qed.
Hint Resolve unrecorded_restore_query : quiet.
Lemma unrecorded_wait_cpu0_resume : quiet (F := F) (C := C) (wait_cpu0_resume time_mdelay).
Proof. unrecorded_all. Qed.
Lemma unrecorded_wait fuel n (doze : M unit) : quiet doze -> quiet (wakeup_timer_start n;; doze_loop doze fuel;; wakeup_timer_stop n).
Proof.
  intros Hd. apply unrecorded_bind; [unrecorded_all|]. intros ?. apply unrecorded_bind; [by apply unrecorded_doze_loop|]. unrecorded_all.
Qed.
Context {T : Type} `{HFdt : !FdtOps T} (tree : Z -> T).
Lemma unrecorded_paras_loop fdt node l : quiet (F := F) (C := C) (paras_loop fdt node l).
Proof. induction l as [|[name set] l IH]; cbn [paras_loop]; unrecorded_all. Qed.
Hint Resolve unrecorded_paras_loop : quiet.
Lemma unrecorded_standby_dts_parse : quiet (F := F) (C := C) (standby_dts_parse tree).
Proof. unrecorded_all. Qed.
Hint Resolve unrecorded_standby_dts_parse : quiet.
Lemma unrecorded_complete p : quiet (F := F) (C := C)
  (match p with Null => ret false | There => let! r := standby_dts_parse tree in ret (r =? OK) end).
Proof. unrecorded_all. Qed.
End Stages.

(** ** The specification *)

Definition init_code (n : Z) : Z := Z.lor (Z.lor REC_ESTANDBY REC_ENTER_INIT) n.
Definition exit_code (n : Z) : Z := Z.lor (Z.lor REC_ESTANDBY REC_ENTER_EXIT) n.
(** A checksum of the DRAM that changed during the standby. *)
Definition crc_code : Z := Z.lor (Z.lor REC_SSTANDBY REC_DRAM_DBG) 0xf.

(** The ten steps of the suspension, and an eleventh once the rails are off. *)
Definition init_trace (r : Z) : list Z :=
  map init_code [1; 2; 3; 4; 5; 6; 7; 8; 9; 10] ++ (if r =? OK then [init_code 11] else []).
Definition exit_trace (crc : list Z) : list Z :=
  map exit_code [1; 2; 3; 4; 5; 6; 7] ++ crc ++ map exit_code [8; 9; 10; 11; 12; 13].
Definition entry_trace : list Z :=
  [Z.lor REC_ESTANDBY REC_ENTER; Z.lor (Z.lor REC_ESTANDBY REC_ENTER) 1; Z.lor REC_ESTANDBY REC_BEFORE_INIT].
Definition wait_trace : list Z :=
  [Z.lor REC_ESTANDBY REC_WAIT_WAKEUP; Z.lor (Z.lor REC_ESTANDBY REC_WAIT_WAKEUP) 1].
(** Up to the resume, which follows in both cases. *)
Definition before_exit (r : Z) (waited : list Z) : list Z :=
  entry_trace ++ init_trace r ++ [Z.lor REC_ESTANDBY REC_AFTER_INIT] ++ waited ++ [Z.lor REC_ESTANDBY REC_BEFORE_EXIT].

(** A standby to its end, and one whose rails could not be switched off. *)
Definition complete (crc : list Z) : list Z :=
  before_exit OK wait_trace ++ exit_trace crc ++ [Z.lor REC_ESTANDBY REC_AFTER_EXIT].
Definition recovered (crc : list Z) : list Z :=
  before_exit (- EFAIL) [] ++ exit_trace crc ++ [Z.lor REC_ESTANDBY REC_AFTER_EXIT].
Definition pathway (u : list Z) : Prop :=
  exists crc, (crc = [] \/ crc = [crc_code]) /\ (u `prefix_of` complete crc \/ u `prefix_of` recovered crc).

(** What a resume records of the checksums [b] before and [a] after. *)
Definition crc_on (p : crc_vars) : bool := negb (s32 (dram_crc_enable p) =? 0).
Definition verdict (p : crc_vars) (b a : Z) : list Z := if crc_on p && negb (a =? b) then [crc_code] else [].
(** A change of the DRAM makes the result an error. *)
Definition checked (p : crc_vars) (b a r : Z) : Prop := crc_on p = true -> a <> b -> r <> OK.

Lemma verdict_cases p b a : verdict p b a = [] \/ verdict p b a = [crc_code].
Proof. unfold verdict. destruct (_ && _); auto. Qed.

(** ** The walk *)

Section Walk.
Context {C F : Type}.
Local Abbreviation S := (firmware F).
Local Abbreviation M := (M C S).
Implicit Types (e : env C) (s : S) (h : history C) (t u : list Z) (l : Z).

(** The record is [t], the lock [l], the checksums and their range are [c]. *)
Definition stands t l (c : crc_vars * Z * Z) s h : Prop :=
  clk_ok (fw_clk s) /\ suspend_lock (fw_standby s) = l /\ recorded h = t /\ sums s = c.
(** A run that stops has recorded part of what it would. *)
Definition trail (P : list Z -> Prop) t : stop -> S -> history C -> Prop :=
  fun _ _ h' => exists u, recorded h' = t ++ u /\ P u.

Lemma last_stage {A} (m : M A) t u l c P e s h (Q : A -> S -> history C -> Prop) :
  quiet m -> stands (t ++ u) l c s h -> P u ->
  (forall a s' h', stands (t ++ u) l c s' h' -> Q a s' h') -> wp m e s h Q (trail P t).
Proof.
  intros Hm (Hok & Hl & Hr & Hc) HP HQ. eapply wp_conseq; [by apply Hm| |].
  - intros a s1 h1 (Hok1 & Hl1 & Hc1 & Hx). apply HQ. split; [done|]. split; [congruence|]. split; [by rewrite (recorded_elsewhere _ _ Hx)|congruence].
  - intros w s1 h1 (_ & _ & _ & Hx). exists u. by rewrite (recorded_elsewhere _ _ Hx).
Qed.

Lemma stage {A B} (m : M A) (k : A -> M B) t u l c P e s h Q :
  quiet m -> stands (t ++ u) l c s h -> P u ->
  (forall a s' h', stands (t ++ u) l c s' h' -> wp (k a) e s' h' Q (trail P t)) -> wp (bind m k) e s h Q (trail P t).
Proof. intros Hm Hs HP Hk. apply wp_bind. by eapply last_stage. Qed.

Lemma flag {B} v (k : unit -> M B) t u l c e s h Q K : stands (t ++ u) l c s h ->
  (forall s' h', stands (t ++ u ++ [v]) l c s' h' -> wp (k tt) e s' h' Q K) -> wp (bind (save_state_flag v) k) e s h Q K.
Proof.
  intros (Hok & Hl & Hr & Hc) Hk. unfold save_state_flag. apply wp_bind, wp_writel, Hk. split; [done|]. split; [done|]. split; [|done].
  cbn [recorded]. by rewrite Z.eqb_refl, Hr, app_assoc.
Qed.

Lemma lock_step {B} v (k : unit -> M B) t l c e s h Q K : stands t l c s h ->
  (forall s' h', stands t v c s' h' -> wp (k tt) e s' h' Q K) -> wp (bind (set_sys (with_suspend_lock v)) k) e s h Q K.
Proof.
  intros (Hok & Hl & Hr & Hc) Hk. unfold set_sys, sys_vars. apply wp_bind, wp_bind, wp_getp, wp_putp, Hk. done.
Qed.

Context `{HPrint : HasPrintf C} `{HInsn : !HasInsn C}.
Context {T : Type} `{HFdt : !FdtOps T} (tree : Z -> T).
Context (fuel : nat) (call_pcb : Z -> Z -> Z -> M Z) (time_mdelay time_udelay : Z -> M unit)
  (dram_power_save_process dram_power_up_process : list Z -> M unit) (beyond : Z) (wakeup_timer : nat) (cpu_enter_doze : M unit).
Context (pcb_quiet : forall a b c, quiet (call_pcb a b c)) (mdelay_quiet : forall n, quiet (time_mdelay n))
  (udelay_quiet : forall n, quiet (time_udelay n)) (save_quiet : forall ps, quiet (dram_power_save_process ps))
  (up_quiet : forall ps, quiet (dram_power_up_process ps)) (doze_quiet : quiet cpu_enter_doze).

(** [c] is a checksum the code computed over the range [p] when the record was
    [t]; without the check the static keeps its [old] value. *)
Definition computed e (p : crc_vars) t (c : Z) : Prop := exists s1 h1 s2 h2,
  standby_dram_crc fuel e s1 h1 = Done c s2 h2 /\ fw_crc s1 = p /\ recorded h1 = t.
Definition taken e (p : crc_vars) t (old c : Z) : Prop := if crc_on p then computed e p t c else c = old.

Lemma checksum_step {B} (k : Z -> M B) t u l c P e s h Q : stands (t ++ u) l c s h -> P u ->
  (forall x s' h', computed e c.1.1 (t ++ u) x -> stands (t ++ u) l c s' h' -> wp (k x) e s' h' Q (trail P t)) ->
  wp (bind (standby_dram_crc fuel) k) e s h Q (trail P t).
Proof.
  intros Hs HP Hk. pose proof Hs as (Hok & _ & Hr & Hc). apply wp_bind.
  assert (Hq := last_stage (standby_dram_crc fuel) t u l c P e s h (fun _ s' h' => stands (t ++ u) l c s' h')
    (unrecorded_standby_dram_crc fuel) Hs HP ltac:(done)).
  revert Hq. unfold wp at 1 2. destruct (standby_dram_crc fuel e s h) as [x s1 h1|] eqn:E; [|done].
  intros H1. apply Hk; [|done]. exists s, h, s1, h1. split; [exact E|]. split; [by rewrite <- Hc|done].
Qed.

Lemma crcs_step {B} b a (k : unit -> M B) t l c e s h Q K : stands t l c s h ->
  (forall s' h', stands t l (c.1.1, default c.1.2 b, default c.2 a) s' h' -> wp (k tt) e s' h' Q K) ->
  wp (bind (set_crcs b a) k) e s h Q K.
Proof.
  intros (Hok & Hl & Hr & <-) Hk. unfold set_crcs. apply wp_bind, wp_bind, wp_getp, wp_putp, Hk. done.
Qed.

(** Whether the checksum is computed. *)
Lemma enable_step {B} (k : Z -> M B) t l c e s h Q K : stands t l c s h ->
  wp (k (s32 (dram_crc_enable c.1.1))) e s h Q K -> wp (bind standby_dram_crc_enable k) e s h Q K.
Proof. intros (_ & _ & _ & <-) Hk. unfold standby_dram_crc_enable, crc_statics. by apply wp_bind, wp_bind, wp_getp, wp_ret. Qed.

Local Ltac on_the_way := cbn [app]; unfold init_trace, exit_trace; eexists; reflexivity.
(** A stage by its lemma, and the number it records. *)
Local Tactic Notation "walk" uconstr(lem) :=
  eapply stage; [by apply lem | eassumption | on_the_way | cbv beta; intros ? ? ? ?].
Local Ltac mark := eapply flag; [eassumption|]; cbv beta; cbn [app]; intros ? ? ?.

Lemma dram_suspend_walk {B} (k : unit -> M B) t u l p b0 a0 P e s h Q : stands (t ++ u) l (p, b0, a0) s h -> P u ->
  (forall b s' h', taken e p (t ++ u) b0 b -> stands (t ++ u) l (p, b, a0) s' h' -> wp (k tt) e s' h' Q (trail P t)) ->
  wp (bind (dram_suspend fuel dram_power_save_process) k) e s h Q (trail P t).
Proof.
  intros Hs HP Hk. unfold dram_suspend, taken in *. apply wp_bind. eapply enable_step; [exact Hs|]. cbn [fst].
  change (negb (s32 (dram_crc_enable p) =? 0)) with (crc_on p).
  assert (forall b s1 h1, (if crc_on p then computed e p (t ++ u) b else b = b0) -> stands (t ++ u) l (p, b, a0) s1 h1 ->
    wp (let! d := getp in dram_power_save_process (dts_dram_para d)) e s1 h1 (fun _ s' h' => wp (k tt) e s' h' Q (trail P t)) (trail P t)) as Hsave.
  { intros b s1 h1 Hb Hs1. eapply stage; [apply unrecorded_getp|exact Hs1|exact HP|]. intros d s2 h2 Hs2.
    eapply last_stage; [apply save_quiet|exact Hs2|exact HP|]. intros [] s3 h3 Hs3. by apply (Hk b). }
  apply wp_bind. destruct (crc_on p); [|by apply wp_ret; eapply wp_mono; [apply (Hsave b0)|intros []]].
  eapply checksum_step; [exact Hs|exact HP|]. intros x s1 h1 Hx Hs1. eapply crcs_step; [exact Hs1|]. cbn [fst snd default]. intros s2 h2 Hs2.
  eapply last_stage; [apply unrecorded_printf|exact Hs2|exact HP|]. intros [] s3 h3 Hs3. by eapply wp_mono; [apply (Hsave x)|intros []].
Qed.

(** The record when the first checksum is computed. *)
Definition before_save : list Z := map init_code [1; 2; 3; 4].

Lemma process_init_walk t l p b0 a0 e s h : stands (t ++ []) l (p, b0, a0) s h ->
  wp (standby_process_init fuel call_pcb time_mdelay time_udelay dram_power_save_process beyond) e s h
    (fun r s' h' => exists b, taken e p (t ++ before_save) b0 b /\ stands (t ++ init_trace r) 1 (p, b, a0) s' h')
    (trail (fun u => u `prefix_of` init_trace OK) t).
Proof.
  intros Hs. unfold standby_process_init, init_flag. eapply lock_step; [exact Hs|]. intros s1 h1 Hs1.
  walk unrecorded_suspend_para_prepare. mark. walk unrecorded_cpucfg_cpu_suspend. mark. walk unrecorded_device_suspend. mark.
  walk unrecorded_cpu_pll_off. mark.
  eapply dram_suspend_walk; [eassumption|on_the_way|]. cbv beta. intros b ? ? Hb ?. mark. walk unrecorded_direct_access_suspend. mark.
  walk unrecorded_clk_suspend. mark. walk unrecorded_system_suspend. mark. walk unrecorded_clk_suspend_late. mark.
  walk unrecorded_rtc_vccio_det_suspend. mark. walk unrecorded_dm_suspend.
  match goal with |- context [negb (?r =? OK)] => destruct (Z.eqb_spec r OK) as [->|Hr] end; cbn [negb].
  - mark. apply wp_ret. exists b. split; [exact Hb|assumption].
  - apply wp_ret. exists b. split; [exact Hb|]. unfold init_trace. rewrite (proj2 (Z.eqb_neq _ OK) Hr). assumption.
Qed.

Lemma dram_resume_walk t u l p b a0 P e s h : stands (t ++ u) l (p, b, a0) s h -> P u -> P (u ++ [crc_code]) ->
  wp (dram_resume fuel dram_power_up_process) e s h
    (fun r s' h' => exists a, taken e p (t ++ u) a0 a /\ checked p b a r /\ stands (t ++ u ++ verdict p b a) l (p, b, a) s' h') (trail P t).
Proof.
  intros Hs Hu Hc. unfold dram_resume, taken, checked, verdict. eapply stage; [apply unrecorded_getp|exact Hs|exact Hu|]. cbv beta. intros d s1 h1 Hs1.
  eapply stage; [apply up_quiet|exact Hs1|exact Hu|]. cbv beta. intros ? s2 h2 Hs2.
  eapply enable_step; [exact Hs2|]. cbn [fst]. change (negb (s32 (dram_crc_enable p) =? 0)) with (crc_on p).
  destruct (crc_on p) eqn:Hon; cycle 1.
  { apply wp_ret. exists a0. split; [done|]. split; [done|]. cbn [andb]. by rewrite app_nil_r. }
  eapply checksum_step; [exact Hs2|exact Hu|]. cbv beta. intros x s4 h4 Hx Hs4.
  eapply crcs_step; [exact Hs4|]. cbn [fst snd default]. intros s5 h5 Hs5.
  apply wp_bind, wp_getp. pose proof Hs5 as (_ & _ & _ & Hsum). injection Hsum as _ Hb Ha. cbn [part firmware_wakeup]. rewrite Ha, Hb.
  cbn [andb]. destruct (Z.eqb_spec x b) as [->|Hne]; cbn [negb].
  { apply wp_ret. exists b. split; [exact Hx|]. split; [done|]. by rewrite Z.eqb_refl, app_nil_r. }
  eapply flag; [exact Hs5|]. cbv beta. intros s7 h7 Hs7.
  eapply stage; [apply unrecorded_printf|exact Hs7|exact Hc|]. cbv beta. intros ? s8 h8 Hs8.
  apply wp_ret. exists x. split; [exact Hx|]. split; [done|]. by rewrite (proj2 (Z.eqb_neq x b) Hne).
Qed.

Lemma rebase {A} (m : M A) P P' t v e s h Q : (forall u, P' u -> P (v ++ u)) ->
  wp m e s h Q (trail P' (t ++ v)) -> wp m e s h Q (trail P t).
Proof.
  intros HP H. eapply wp_conseq; [exact H|done|]. intros w s' h' (u & E & Hu). exists (v ++ u).
  split; [by rewrite E, app_assoc|by apply HP].
Qed.

Lemma checked_kept p b a r r' : checked p b a r -> checked p b a (first_of r r').
Proof. unfold checked, first_of. intros H H1 H2. rewrite (proj2 (Z.eqb_neq r OK) (H H1 H2)), andb_false_r. by apply H. Qed.
Lemma checked_taken p b a r r' : checked p b a r' -> checked p b a (first_of r r').
Proof.
  unfold checked, first_of. intros H H1 H2. rewrite (proj2 (Z.eqb_neq r' OK) (H H1 H2)). cbn [negb andb].
  destruct (Z.eqb_spec r OK); [by apply H|done].
Qed.

(** What a resume has recorded on its way. *)
Definition resuming (u : list Z) : Prop := exists crc, (crc = [] \/ crc = [crc_code]) /\ u `prefix_of` exit_trace crc.

Local Ltac resuming_here := exists []; split; [by left|]; on_the_way.
Local Tactic Notation "walk_back" uconstr(lem) :=
  eapply stage; [by apply lem | eassumption | resuming_here | cbv beta; intros ? ? ? ?].

(** The record of a resume when the second checksum is computed. *)
Definition before_check : list Z := map exit_code [1; 2; 3; 4; 5; 6; 7].

Lemma process_exit_walk w t l p b a0 e s h : stands (t ++ []) l (p, b, a0) s h ->
  wp (standby_process_exit fuel call_pcb time_mdelay time_udelay dram_power_up_process beyond w) e s h
    (fun r s' h' => exists a, taken e p (t ++ before_check) a0 a /\ checked p b a r /\
       stands (t ++ exit_trace (verdict p b a)) 0 (p, b, a) s' h') (trail resuming t).
Proof.
  intros Hs. unfold standby_process_exit, exit_flag. walk_back unrecorded_load_para. mark.
  walk_back unrecorded_dm_resume. walk_back unrecorded_report. cbv zeta. mark.
  walk_back unrecorded_rtc_vccio_det_resume. mark. walk_back unrecorded_clk_resume_early. mark. walk_back unrecorded_system_resume. mark.
  walk_back unrecorded_ppu_resume. walk_back unrecorded_clk_resume. mark. walk_back unrecorded_direct_access_resume. mark.
  apply wp_bind. eapply wp_conseq; [eapply (dram_resume_walk t _ l p b a0 resuming)| |done].
  { eassumption. }
  { resuming_here. }
  { exists [crc_code]. split; [by right|]. on_the_way. }
  intros r s1 h1 (x & Ha & Hcrc & Hs1). cbv beta zeta. assert (Hv := verdict_cases p b x). set (crc := verdict p b x) in *.
  rewrite <- (app_nil_r (_ ++ crc)) in Hs1.
  change (_ :: _ :: _ :: _ :: _ :: _ :: _ :: []) with before_check in Ha, Hs1. rewrite app_assoc in Hs1.
  apply (rebase _ resuming (fun u => u `prefix_of` map exit_code [8; 9; 10; 11; 12; 13]) t (before_check ++ crc)).
  { intros u [rest E]. exists crc. split; [done|]. exists rest. unfold exit_trace. fold before_check. by rewrite E, <- !app_assoc. }
  mark. walk unrecorded_nsi_resume. mark. walk unrecorded_cpu_pll_on. mark. walk unrecorded_device_resume. mark.
  walk unrecorded_cpucfg_cpu_resume. mark.
  assert (forall fe s2 h2, checked p b x fe -> stands ((t ++ before_check ++ crc) ++ map exit_code [8; 9; 10; 11; 12]) l (p, b, x) s2 h2 ->
    wp (save_state_flag (exit_code 13);; set_sys (with_suspend_lock 0);; ret fe) e s2 h2
      (fun r0 s' h' => exists a, taken e p (t ++ before_check) a0 a /\ checked p b a r0 /\
         stands (t ++ exit_trace (verdict p b a)) 0 (p, b, a) s' h')
      (trail (fun u => u `prefix_of` map exit_code [8; 9; 10; 11; 12; 13]) (t ++ before_check ++ crc))) as Hend.
  { intros fe s2 h2 Hfe Hs2. mark. eapply lock_step; [eassumption|]. cbv beta. intros s3 h3 Hs3. apply wp_ret.
    exists x. split; [exact Ha|]. split; [done|]. unfold exit_trace. fold crc before_check. by rewrite <- !app_assoc in Hs3. }
  destruct w; apply wp_bind.
  - walk unrecorded_wait_cpu0_resume. apply wp_ret, Hend; [|done]. by do 3 apply checked_kept; apply checked_taken.
  - walk unrecorded_clear_source. apply wp_ret, Hend; [|done]. by do 2 apply checked_kept; apply checked_taken.
Qed.

Lemma init_trace_failed r : r <> OK -> init_trace r = init_trace (- EFAIL).
Proof. intros Hr. unfold init_trace. by rewrite (proj2 (Z.eqb_neq r OK) Hr). Qed.

Lemma resuming_complete u : resuming u -> pathway (before_exit OK wait_trace ++ u).
Proof.
  intros (crc & Hcrc & rest & E). exists crc. split; [done|]. left. unfold complete. rewrite E, <- !app_assoc.
  by eexists.
Qed.
Lemma resuming_recovered u : resuming u -> pathway (before_exit (- EFAIL) [] ++ u).
Proof.
  intros (crc & Hcrc & rest & E). exists crc. split; [done|]. right. unfold recovered. rewrite E, <- !app_assoc.
  by eexists.
Qed.

(** A call of the standby that found the record [t], the lock [l0] and the
    checksums [b0] and [a0]: rejected, back from a failure, or complete.  The
    last two have computed one checksum in the suspension and one in the
    resume. *)
Inductive walked e (t : list Z) (l0 : Z) (p : crc_vars) (b0 a0 : Z) : Z -> list Z -> Z -> crc_vars * Z * Z -> Prop :=
| Rejected : walked e t l0 p b0 a0 (- EACCES) [Z.lor REC_ESTANDBY REC_ENTER] l0 (p, b0, a0)
| Recovered r b a : r <> OK ->
    taken e p (t ++ entry_trace ++ before_save) b0 b -> taken e p (t ++ before_exit (- EFAIL) [] ++ before_check) a0 a ->
    walked e t l0 p b0 a0 r (recovered (verdict p b a)) 0 (p, b, a)
| Completed r b a : checked p b a r ->
    taken e p (t ++ entry_trace ++ before_save) b0 b -> taken e p (t ++ before_exit OK wait_trace ++ before_check) a0 a ->
    walked e t l0 p b0 a0 r (complete (verdict p b a)) 0 (p, b, a).

Lemma resume_leg r waited w t l p b a0 e s h : (forall u, resuming u -> pathway (before_exit r waited ++ u)) ->
  stands (t ++ before_exit r waited) l (p, b, a0) s h ->
  wp (standby_process_exit fuel call_pcb time_mdelay time_udelay dram_power_up_process beyond w) e s h
    (fun r1 s' h' => exists a, taken e p (t ++ before_exit r waited ++ before_check) a0 a /\ checked p b a r1 /\
       stands (t ++ before_exit r waited ++ exit_trace (verdict p b a)) 0 (p, b, a) s' h') (trail pathway t).
Proof.
  intros HP Hs. apply (rebase _ pathway resuming t (before_exit r waited)); [done|].
  eapply wp_conseq; [eapply process_exit_walk; by rewrite app_nil_r| |done].
  intros r1 s1 h1 (a & Ha & Hcrc & Hs1). exists a. by rewrite <- app_assoc in Ha, Hs1.
Qed.

Lemma verdict_resuming p b a : resuming (exit_trace (verdict p b a)).
Proof. exists (verdict p b a). split; [apply verdict_cases|done]. Qed.
Lemma checked_complete p b a : pathway (before_exit OK wait_trace ++ exit_trace (verdict p b a)).
Proof. by eapply resuming_complete, verdict_resuming. Qed.
Lemma checked_recovered p b a : pathway (before_exit (- EFAIL) [] ++ exit_trace (verdict p b a)).
Proof. by eapply resuming_recovered, verdict_resuming. Qed.
Lemma checked_recovered_all p b a :
  pathway ((before_exit (- EFAIL) [] ++ exit_trace (verdict p b a)) ++ [Z.lor REC_ESTANDBY REC_AFTER_EXIT]).
Proof.
  exists (verdict p b a). split; [apply verdict_cases|]. right. unfold recovered. by rewrite <- app_assoc.
Qed.

Local Ltac path_here :=
  exists []; split; [by left|]; left; cbn [app]; unfold complete, before_exit, entry_trace, init_trace, wait_trace; eexists; reflexivity.
Local Tactic Notation "enter" uconstr(lem) :=
  eapply stage; [by apply lem | eassumption | path_here | cbv beta; intros ? ? ? ?].
Local Ltac path_back :=
  exists []; split; [by left|]; right; cbn [app]; unfold recovered, before_exit, entry_trace, init_trace; eexists; reflexivity.
Local Tactic Notation "enter_back" uconstr(lem) :=
  eapply stage; [by apply lem | eassumption | path_back | cbv beta; intros ? ? ? ?].

End Walk.

(** ** A run *)

(** The delay of the firmware writes to no register. *)
#[local] Hint Resolve unrecorded_counter_loop : quiet.
Lemma unrecorded_udelay_loop {C F} fuel rounds t : quiet (C := C) (F := F) (udelay_loop fuel rounds t).
Proof. induction fuel as [|fuel IH]; cbn [udelay_loop]; unrecorded_steps. Qed.
#[local] Hint Resolve unrecorded_udelay_loop : quiet.
Lemma unrecorded_time_udelay {C F} `{HPrint : HasPrintf C} `{HInsn : !HasInsn C} fuel rounds us :
  quiet (C := C) (F := F) (time_udelay fuel rounds is_suspend_lock us).
Proof.
  assert (forall n, quiet (C := C) (F := F) (time_cdelay n)) as Hc.
  { intros n. unfold time_cdelay. apply unrecorded_iter. unrecorded_steps. }
  unfold time_udelay. unrecorded_steps.
Qed.

(** A tree with every parameter; the rest of the hardware reads 0. *)
Definition whole_tree : list (string * list Z) :=
  map (fun n => (n, [0; 0; 0; 7]))
    ["vdd-cpu"; "vdd-cpub"; "vdd-sys"; "vcc-pll"; "vcc-io"; "vcc-efuse"; "osc24m-on"]%string.

(** A word of the DRAM that is no longer what it was: the resume says so. *)
Definition with_dram (c : crc_vars) (before : Z) (bytes : list Z) (s : firmware nat) : firmware nat :=
  set_part c (set_part (WakeupVars 32 before 0) (set_part (list_to_map (zip (map (Z.add 0x40000000) (seqZ 0 4)) bytes) : mem) s)).
Example changed_word_reported :
  let s := with_dram (CrcVars 1 0x40000000 4) 0x2144df1c [0; 0; 0; 1] (firmware_asked (Message 0 2 0x10 0 0 None)) in
  wp (dram_resume 4 (fun _ => ret tt)) queued_env s [] (fun r s' h' => r = - EFAIL /\ recorded h' = [crc_code]) Machine.total.
Proof. by vm_compute. Qed.
Example unchanged_word_accepted :
  let s := with_dram (CrcVars 1 0x40000000 4) 0x2144df1c [0; 0; 0; 0] (firmware_asked (Message 0 2 0x10 0 0 None)) in
  wp (dram_resume 4 (fun _ => ret tt)) queued_env s [] (fun r s' h' => r = OK /\ recorded h' = []) Machine.total.
Proof. by vm_compute. Qed.

