(* ===== verification/MessageProps.v ===== *)
(** * Every request is answered as its kind asks

    A request is refused, served or unknown; its result goes into the message,
    and the message goes back whole when the sender waits for it. *)

From Stdlib Require Import String.
From S2P Require Import CMem Prelude Machine Console Firmware Notifier Intc Cpucfg Prcm Uart Ticks Timer Power Msgbox MsgboxProps.
From S2P Require Import Wakeup Crc HwConfig Twi Pmu Rails CpuOps Watchdog StandbyClk StandbySys Dram Standby Debugger Message Daemon Image.

Local Open Scope string_scope.
Local Open Scope list_scope.
Local Open Scope Z_scope.
Local Open Scope mach_scope.

Section Requests.
Context {C S F T : Type} `{HPrint : HasPrintf C} `{HInsn : !HasInsn C} `{HIsrs : Isrs F} `{HCcu : !Part ccu S}
  `{HUart : !Part uart S} `{HTwi : !Part twi S} `{HPmu : !Part pmu S} `{HNotifiers : !Part (list notifier) S}
  `{HPower : !Part power S} `{HIsrTable : !Part (list (int_isr_node F)) S} `{HTicks : !Part ticks S}
  `{HTimers : !Part timer_vars S} `{HMessage : !Part message S}
  `{HWakeup : !Part wakeup S} `{HCrc : !Part crc_vars S} `{HMem : !Part mem S} `{HRails : !Part rails S}
  `{HParas : !Part standby_paras S} `{HClk : !Part clk_backup S} `{HStandby : !Part standby_vars S}
  `{HDram : !Part dram_paras S} `{HVars : !Part fdt_vars S} `{HParsed : !Part parsed S} `{HDbg : !Part debugger S}
  `{HFdt : FdtOps T}.
Local Abbreviation M := (M C S).
Context (fuel : nat) (call_pcb : Z -> Z -> Z -> M Z) (time_mdelay time_udelay : Z -> M unit)
  (dram_power_save_process dram_power_up_process : list Z -> M unit) (mctl_mdfs_software : list Z -> Z -> M Z)
  (beyond garbage : Z) (wakeup_timer : nat) (default_wakeup_handler_addr : F) (tree : Z -> T)
  (cpu_enter_doze : M unit) (message_at : Z) (message_word : message -> Z -> Z).
Context (K : stop -> S -> history C -> Prop) (drained : history C -> nat) (e : env C) (good : S -> Prop).
Implicit Types (s : S) (h : history C).

Local Abbreviation dispatch := (dispatch fuel call_pcb time_mdelay time_udelay dram_power_save_process
  dram_power_up_process mctl_mdfs_software beyond garbage wakeup_timer default_wakeup_handler_addr tree cpu_enter_doze
  message_at message_word).
Local Abbreviation process_message := (process_message fuel call_pcb time_mdelay time_udelay dram_power_save_process
  dram_power_up_process mctl_mdfs_software beyond garbage wakeup_timer default_wakeup_handler_addr tree cpu_enter_doze
  message_at message_word).

(** The requests with a handler behind them: how many parameters each reads, and
    who serves it with parameters [ps]. *)
Definition para (ps : list Z) (i : nat) : Z := nth i ps 0.
Definition requests : list (Z * (Z * (list Z -> M Z))) :=
  [(CPU_OP_REQ, (5, fun _ => cpu_op fuel call_pcb time_mdelay time_udelay dram_power_save_process dram_power_up_process
                      beyond wakeup_timer tree cpu_enter_doze));
   (SYS_OP_REQ, (1, fun _ => sys_op fuel time_mdelay time_udelay beyond garbage));
   (SET_WAKEUP_SRC_REQ, (1, fun _ => set_wakeup_src wakeup_timer default_wakeup_handler_addr));
   (CLEAR_WAKEUP_SRC_REQ, (1, fun _ => clear_wakeup_src wakeup_timer default_wakeup_handler_addr));
   (FAKE_POWER_OFF_REQ, (0, fun _ => fake_poweroff));
   (SET_DEBUG_LEVEL_REQ, (1, fun ps => set_debug_level (para ps 0)));
   (SET_UART_BAUDRATE, (1, fun ps => uart_set_baudrate (para ps 0)));
   (SET_DRAM_CRC_PARAS, (3, fun ps => standby_set_dram_crc_paras (para ps 0) (para ps 1) (para ps 2)));
   (SET_DDRFREQ, (1, fun ps => let! v := getp in
                     match platform_dram_para v with
                     | There => let! d := getp in mctl_mdfs_software (dts_dram_para d) (para ps 0)
                     | Null => ERR "reject DDR frequency request without DRAM parameters\n" [];; ret (- EFAIL)
                     end))].
Fixpoint find_request (type : Z) (l : list (Z * (Z * (list Z -> M Z)))) : option (Z * (list Z -> M Z)) :=
  match l with
  | [] => None
  | (t, served) :: l => if type =? t then Some served else find_request type l
  end.
(** The result of a request nobody serves. *)
Definition unserved (type : Z) : Z := if type =? MESSAGE_LOOPBACK then OK else - ESRCH.

(** What becomes of a result: it is put in the message, as a byte, and the
    message is sent back when the sender waits for it hard; one who waits
    softly gets nothing, and the request counts as failed. *)
Definition answered (result : Z) s h (r : Z) s' h' : Prop :=
  let m := part s in
  let m' := Message (m_state m) (m_attr m) (m_type m) (u8 result) (m_count m) (paras m) in
  s' = set_part m' s /\
  if is_syn m then
    r = result /\ sends drained (frame m') h h' \/
    r = - ETIMEOUT /\ exists j, (j < length (frame m'))%nat /\ sends drained (take j (frame m')) h h'
  else if Z.land (m_attr m) MESSAGE_ATTR_SOFTSYN =? 0 then r = result /\ h' = h
  else r = - ESRCH /\ h' = h.

(** What the answer needs of the state a handler leaves. *)
Definition ready s h : Prop :=
  good s /\ (level drained h <= 8)%nat /\ 0 <= m_count (part s) <= MESSAGE_PARA_MAX /\ capacity_ok (m_count (part s)) (part s).

Lemma attr_split a : 0 <= a -> (Z.land a (Z.lor MESSAGE_ATTR_SOFTSYN MESSAGE_ATTR_HARDSYN) =? 0)
  = (Z.land a MESSAGE_ATTR_HARDSYN =? 0) && (Z.land a MESSAGE_ATTR_SOFTSYN =? 0).
Proof.
  intros Ha. rewrite Z.land_lor_distr_r. destruct (Z.eqb_spec (Z.land a MESSAGE_ATTR_HARDSYN) 0) as [->|Hh]; cbn [andb].
  - by rewrite Z.lor_0_r.
  - apply Z.eqb_neq. intros [_ E]%Z.lor_eq_0_iff. done.
Qed.

Lemma reply_spec result s h : delays time_mdelay K e good -> tx_fifo drained e -> ready s h -> 0 <= m_attr (part s) ->
  wp (reply time_mdelay result) e s h (answered result s h) K.
Proof.
  intros Hd Htx (Hg & Hl & Hc & Hcap) Ha. unfold reply, answered, set_message, pmessage. set (m := part s) in *.
  apply wp_bind, wp_bind, wp_getp, wp_putp. fold m. set (m' := Message _ _ _ _ _ _).
  apply wp_bind, wp_getp. rewrite part_set. change (m_attr m') with (m_attr m). rewrite attr_split by done.
  assert (is_syn m' = is_syn m) as Hsyn by done. unfold is_syn at 1.
  assert (wp (hwmsgbox_feedback_message time_mdelay There SEND_MSG_TIMEOUT) e (set_part m' s) h (fun r s' h' => s' = set_part m' s /\
    if is_syn m then
      r = OK /\ sends drained (frame m') h h' \/
      r = - ETIMEOUT /\ exists j, (j < length (frame m'))%nat /\ sends drained (take j (frame m')) h h'
    else r = - ESRCH /\ h' = h) K) as Hfeed.
  { eapply wp_mono; [apply (feedback_spec time_mdelay K drained SEND_MSG_TIMEOUT e good); rewrite ?part_set; try done|].
    - by apply (good_message _ _ _ _ Hd).
    - apply Hc.
    - intros r s' h' [-> H]. split; [done|]. cbv zeta in H. rewrite part_set, Hsyn in H.
      by rewrite (proj2 (Z.ltb_ge MESSAGE_PARA_MAX (m_count m'))) in H by apply Hc. }
  destruct (Z.land (m_attr m) MESSAGE_ATTR_HARDSYN =? 0) eqn:Eh; cbn [negb andb].
  - destruct (Z.land (m_attr m) MESSAGE_ATTR_SOFTSYN =? 0); cbn [negb].
    + apply wp_ret. by split_and!.
    + apply wp_bind. eapply wp_mono; [exact Hfeed|]. intros r s' h' [-> H]. unfold is_syn in H. rewrite Eh in H. destruct H as [-> ->].
      apply wp_ret. by split_and!.
  - apply wp_bind. eapply wp_mono; [exact Hfeed|]. intros r s' h' [-> H]. unfold is_syn in H. rewrite Eh in H. cbn [negb] in H.
    destruct H as [[-> H]|[-> H]]; apply wp_ret; (split; [done|]); [by left|by right].
Qed.

(** Printing sends nothing. *)
Lemma printed_sends fmt args q h : sends drained [] h (Call (printf_call fmt args) q :: h).
Proof. apply (calm_sends drained [_]). by constructor. Qed.

Lemma sends_nil_trans h h1 h2 : sends drained [] h h1 -> sends drained [] h1 h2 -> sends drained [] h h2.
Proof. exact (sends_trans time_mdelay drained [] [] h h1 h2). Qed.

(** Programs that only print and look at the message. *)
Definition only_prints {A} (p : M A) : Prop := forall s h,
  wp p e s h (fun _ s' h' => s' = s /\ sends drained [] h h') K.

Lemma only_prints_ret {A} (a : A) : only_prints (ret a).
Proof. intros s h. apply wp_ret. split; [done|]. by apply (calm_sends drained []). Qed.
Lemma only_prints_printf fmt args : only_prints (printf fmt args).
Proof. intros s h. apply wp_printf. intros q. split; [done|]. apply printed_sends. Qed.
Lemma only_prints_message {A} (f : message -> A) : only_prints (let! m := pmessage in ret (f m)).
Proof. intros s h. apply wp_bind, wp_getp, wp_ret. split; [done|]. by apply (calm_sends drained []). Qed.
Lemma only_prints_bind {A B} (p : M A) (k : A -> M B) : only_prints p -> (forall a, only_prints (k a)) -> only_prints (bind p k).
Proof.
  intros Hp Hk s h. apply wp_bind. eapply wp_mono; [apply Hp|]. intros a s1 h1 [-> H1].
  eapply wp_mono; [apply Hk|]. intros b s2 h2 [-> H2]. split; [done|]. exact (sends_nil_trans _ _ _ H1 H2).
Qed.

Lemma hexdump_prints name base word len : (forall i, only_prints (word i)) -> only_prints (hexdump name base word len).
Proof.
  intros Hw. unfold hexdump. apply only_prints_bind; [apply only_prints_printf|intros _].
  apply only_prints_bind; [|intros _; apply only_prints_printf].
  generalize 0. induction (Z.to_nat ((len + 3) / 4)) as [|n IH]; intros i; cbn [hexdump_loop]; [apply only_prints_ret|].
  apply only_prints_bind; [destruct (Z.land i 0xf =? 0); [apply only_prints_printf|apply only_prints_ret]|intros _].
  apply only_prints_bind; [apply Hw|intros v]. apply only_prints_bind; [apply only_prints_printf|intros _; apply IH].
Qed.

(** The number of parameters that is checked is the one of the table. *)
Lemma min_count_spec type : min_count type = match find_request type requests with Some (n, _) => n | None => 0 end.
Proof.
  unfold requests, min_count. cbn [find_request].
  repeat match goal with |- context [type =? ?X] => destruct (Z.eqb_spec type X) as [->|]; [reflexivity|] end. reflexivity.
Qed.

Lemma load_para_spec i s h (Q : Z -> S -> history C -> Prop) : 0 <= i < m_count (part s) -> capacity_ok (m_count (part s)) (part s) ->
  Q (para (para_words (part s)) (Z.to_nat i)) s h -> wp (load_para i) e s h Q K.
Proof.
  unfold capacity_ok, load_para, pmessage, para_words, para. intros Hi Hc HQ. apply wp_bind, wp_getp.
  destruct (paras (part s)) as [l|]; [|lia]. destruct (lookup_lt_is_Some_2 l (Z.to_nat i)) as [v Hv]; [lia|].
  rewrite Hv. apply wp_ret. by rewrite (nth_lookup_Some l _ 0 v Hv) in HQ.
Qed.

(** A request goes to the handler of the table, with its parameters. *)
Lemma dispatch_served type n handler s h (Q : Z -> S -> history C -> Prop) :
  find_request type requests = Some (n, handler) -> n <= m_count (part s) -> capacity_ok (m_count (part s)) (part s) ->
  (forall h1, sends drained [] h h1 -> wp (handler (para_words (part s))) e s h1 Q K) -> wp (dispatch type) e s h Q K.
Proof.
  intros Hf Hn Hc Hserve. unfold Message.dispatch, LOG, INF. unfold requests in Hf. cbn [find_request] in Hf.
  assert (sends drained [] h h) as Hnil by by apply (calm_sends drained []).
  repeat match goal with |- context [if type =? ?X then _ else _] =>
    lazymatch X with MESSAGE_LOOPBACK => fail | _ => destruct (Z.eqb_spec type X) as [->|?] end end;
    [injection Hf as <- <- ..|discriminate Hf].
  1-5: apply wp_bind, wp_printf; intros q; exact (Hserve _ (printed_sends _ _ q h)).
  1-3: apply wp_bind, wp_printf; intros q; repeat (apply wp_bind, load_para_spec; [lia|done|]);
    exact (Hserve _ (printed_sends _ _ q h)).
  assert (H9 := Hserve h Hnil). apply wp_bind, wp_getp.
  change (wp (match platform_dram_para (part s) with
              | There => let! d := getp in mctl_mdfs_software (dts_dram_para d) (para (para_words (part s)) 0)
              | Null => ERR "reject DDR frequency request without DRAM parameters\n" [];; ret (- EFAIL)
              end) e s h Q K) in H9.
  destruct (platform_dram_para (part s)); [exact H9|]. apply wp_bind, load_para_spec; [lia|done|]. exact H9.
Qed.

(** Outside the table nothing happens. *)
Lemma dispatch_other type s h : find_request type requests = None ->
  wp (dispatch type) e s h (fun v s' h' => v = unserved type /\ s' = s /\ sends drained [] h h') K.
Proof.
  intros Hn. unfold Message.dispatch, unserved. unfold requests in Hn. cbn [find_request] in Hn.
  repeat match goal with |- context [if type =? ?X then _ else _] =>
    lazymatch X with MESSAGE_LOOPBACK => fail | _ => destruct (Z.eqb_spec type X) as [->|_]; [discriminate Hn|] end end.
  destruct (type =? MESSAGE_LOOPBACK).
  - apply wp_bind, wp_printf. intros q. apply wp_ret. split_and!; [done|done|apply printed_sends].
  - apply wp_bind, wp_printf. intros q. apply wp_bind.
    eapply wp_mono; [apply (hexdump_prints "msg" message_at _ MESSAGE_SIZE); intros i; apply only_prints_message|].
    intros [] s' h' [-> Hh]. apply wp_ret. split_and!; [done|done|]. eapply sends_nil_trans; [apply printed_sends|done].
Qed.

End Requests.

(** ** Two requests *)

#[local] Instance numbered_isrs : Isrs nat := {| isr_default := 0%nat |}.
Definition request_sample (m : message) : firmware nat :=
  Firmware ccu_initial uart_initial (TwiVars 0) (PmuVars 0 0) (replicate 8 (Notifier 0 0 None)) power_initial
    (replicate 35 (IsrNode 0%nat 0)) (TickVars 0 [] 0 []) timers_initial m (WakeupVars 0 0 0) crc_initial ∅
    rails_initial paras_initial clk_initial standby_initial (DramParas []) fdt_initial (Parsed 0) debugger_initial
    (Cpucfg 0) (Watchdog None) daemon_initial.
Definition request_delay (ms : Z) : M fw_call (firmware nat) unit := mdelay ms.
Local Abbreviation process_sample := (process_message 0 (fun _ _ _ => ret 0) request_delay request_delay (fun _ => ret tt)
  (fun _ => ret tt) (fun _ _ => ret 0) 0 0 0%nat 0%nat (fun _ => toy_sample) (ret tt) 0 (fun m _ => m_type m)).

Lemma request_delays : delays request_delay total sample_env (fun _ => True).
Proof. split; [|done]. intros s h _. apply wp_mdelay. split; [done|]. eexists [_]. by repeat constructor. Qed.

(** A request to set the level of the debug output is served and answered; the
    CPU request behind it lacks its fifth parameter. *)
Definition level_request : message := Message 1 2 SET_DEBUG_LEVEL_REQ 9 1 (Some [3]).
Example short_request_refused :
  wp process_sample sample_env (request_sample (Message 1 0 CPU_OP_REQ 0 4 (Some [0; 1; 2; 3]))) [] (fun r s' h' =>
    r = - EINVAL /\ m_result (fw_message s') = u8 (- EINVAL) /\ sent h' = []) total.
Proof. by vm_compute. Qed.

